(* ===== verification/_CoqProject ===== *)
-Q . S2P
Prelude.v
Array.v
Queue.v
Bitmap.v
Memory.v
CopyInOut.v
Uio.v
VmState.v
Coremap.v
Swap.v
TlbHw.v
PageTable.v
Paging.v
PagingOps.v
Tlb.v
AddrSpace.v
VmFault.v
AsOps.v
Boot.v
Sched.v
Synch.v
Pid.v
Proc.v
Kheap.v
KheapInv.v
HeapPages.v
SfsDisk.v
SfsFile.v
SfsIo.v
SfsTruncate.v
Strings.v
Printf.v
SfsDir.v
SfsVnode.v
SfsInv.v
SfsOps.v
SfsNames.v
SfsFs.v
Vnode.v
VfsList.v
Vfs.v
FileCalls.v
Device.v
SfsVfs.v
FileStack.v
CatMouse.v
Elf.v
Trap.v
RunProgram.v
Mksfs.v
