(* ===== verification/Prelude.v ===== *)
(** * Verification of the OS/161 kernel

    The program is the OS/161 1.11 teaching kernel for a MIPS R2000 machine,
    with synchronization primitives, process and file system calls and a
    virtual memory system added (configuration ASST3: options A1, A2 and A3
    are on, dumbvm is off).  This library models its core and proves what the
    parts promise to each other.

    ** Parts of the program and their interaction

    - Data structures (kern/lib): resizable arrays, ring-buffer queues,
      bitmaps.  Threads, address spaces and the file system are built on them.
    - Moving data: memcpy, memmove and bzero (lib/libc), copyin and copyout
      (kern/lib/copyinout.c), uiomove (kern/userprog/uio.c).
    - Virtual memory (kern/vm): the coremap owns physical frames, the inverted
      page table says which page of which process a frame holds, the swap
      table where evicted pages are in the swap file, the TLB caches mappings
      for the processor.  vm_fault is called for a TLB miss or a write to a
      read-only page; it finds the page in memory, in the swap file, in the
      executable (load_segment of kern/userprog/loadelf.c) or makes a zero page
      for the stack.  fork copies pages, exit frees them, kmalloc takes frames
      for the kernel from the same coremap.
    - Threads (kern/thread): the scheduler's run queue, the sleepers and the
      zombies; semaphores, locks and condition variables on top of
      thread_sleep and thread_wakeup with interrupts off.
    - Kernel heap (kern/lib/kheap.c): kmalloc and kfree cut pages that they
      take from the page tables into blocks.
    - Processes (kern/userprog): the pid table and exit codes, and fork, _exit
      and waitpid on top of them; runprogram, which loads an executable
      (loadelf.c) and puts the arguments on its stack.
    - Simple file system (kern/fs/sfs): files as inodes, direct blocks and one
      indirect block on a disk, directories as files of names, vnodes in memory,
      through the driver kern/dev/lamebus/lhd.c.
    - Virtual file system (kern/fs/vfs): the list of devices and mounted
      volumes, path names, reference counts of vnodes, and devices as vnodes.
    - File calls (kern/userprog/filecalls.c): the descriptors of a process.
    - Traps (kern/arch/mips/mips): mips_trap saves the registers, dispatches
      exceptions to vm_fault and system calls to the functions above.
    - Strings and printf (lib/libc), and the cat and mouse problem
      (kern/asst1, not in ASST3), a client of locks and condition variables.
    - mksfs (sbin/mksfs): the program that makes an empty volume, for the
      machine and for the host.

    ** Files

    - Prelude.v: outcomes of C functions, machine integers, blocks of memory.
    - Array.v, Queue.v, Bitmap.v: kern/lib/array.c, queue.c, bitmap.c, one
      definition per C function under its name.
    - Memory.v: a byte-addressed memory with mapped addresses; memcpy,
      memmove and bzero with their word and byte loops.
    - CopyInOut.v: kern/lib/copyinout.c; a fault in user memory unwinds to
      the setjmp of the function.
    - Uio.v: kern/userprog/uio.c.
    - VmState.v: the state of the virtual memory system as one record (the
      globals of kern/vm and the machine's memory and TLB), and a state monad.
      A mutex is the set of the mutexes that are held: acquiring one twice
      hangs.  The interfaces [SwapDev] and [Clock] stand for the vnode of the
      swap file and for gettime, with their laws as classes of their own.
    - Coremap.v: kern/vm/coremap.c.  Swap.v: the swap table of
      kern/vm/swapfile.c.  TlbHw.v: the TLB of the processor and the functions
      of kern/vm/vm_tlb.c that touch no other table.
    - PageTable.v: kern/vm/pt.c, and swap_out and swap_in of swapfile.c.
    - Paging.v: the invariant [inv] that ties the tables together, and the
      theorems on allocation, eviction and swapping.  The contents of a page of
      a process ([holds]) are in its frame ([resident]) or in its slot of the
      swap file ([swapped]).
    - PagingOps.v: the same for fork, exit and kernel allocations.
    - Tlb.v: installing mappings; the TLB agrees with the page table.
    - AddrSpace.v: kern/vm/addrspace.c, segments.c and load_segment.
    - VmFault.v: the theorems on vm_fault.  AsOps.v: those on regions, fork and
      switching of address spaces.
    - Boot.v: kern/arch/mips/mips/ram.c, the bootstrap of coremap and page
      table, and alloc_kpages.
    - Sched.v: kern/thread/thread.c and scheduler.c.  mi_switch is two steps,
      [stash] and [dispatch], with the idle loop in between; [tstep] is the
      transition relation.  The run queue is the interface [RunQueue], which
      the ring buffer implements.
    - Synch.v: kern/thread/synch.c; [kstep] interleaves threads at the points
      where they can lose the processor.
    - Pid.v: kern/userprog/pid.c.  Proc.v: fork, _exit and waitpid as steps of
      any number of processes ([pstep]), with the lock and the sleeping of
      Synch.v reduced to what these calls need of them.  A fork takes its pid in
      one step and succeeds, or fails at one of two places, in another.
    - Kheap.v: kern/lib/kheap.c over an interface [KPages] for whole pages.
      KheapInv.v: the invariant of the allocator and the refinement of an
      abstract heap.  HeapPages.v: the page tables implement [KPages].
    - SfsDisk.v: kernel buffers, the driver over an interface [Disk] for the
      hardware, sfs_io.c, and the on-disk structures.  SfsFile.v: the free map,
      the block map, sfs_io and sfs_truncate of sfs_vnode.c, with the lemmas on
      reading and writing.  SfsIo.v and SfsTruncate.v: the theorems.
    - Strings.v: the string functions of lib/libc and atoi.  Printf.v:
      __printf.c and snprintf.c.
    - SfsDir.v, SfsVnode.v: directories, vnodes and their operations, the rest
      of sfs_vnode.c and kern/fs/vfs/vnode.c.  SfsInv.v: the invariant of the
      inodes, the free map and the loaded vnodes ([files]).  SfsOps.v: what the
      parts of an operation do.  SfsNames.v: the invariant of a volume with
      its names and link counts ([sane]) and the theorems on names.  SfsFs.v:
      sfs_fs.c, with mounting, synchronising and unmounting.
    - Vnode.v: the interface of vnodes ([Vnodes]) and its laws ([VnodeLaws]),
      on ghost states that say which references are held, which names a volume
      has and which bytes a file.  VfsList.v: vfslist.c.  Vfs.v: vfslookup.c,
      vfscwd.c and vfspath.c over the interface.
    - FileCalls.v: filecalls.c over the interface.  Device.v: device.c and
      devnull.c.  SfsVfs.v: SFS and devices implement the interface.
      FileStack.v: all of it together on one small disk.
    - CatMouse.v: catmouse.c and bowls.c, one step per statement that touches
      shared state, over the abstract semaphores and locks of Synch.v.
    - Elf.v: load_elf, and a reference parser of executables.  Trap.v: trap.c,
      syscall.c, spl.c and interrupt.c on a [trapframe] of registers.
      RunProgram.v: runprogram.c, with a program on the disk of FileStack.v.
    - Mksfs.v: mksfs.c and the writing side of disk.c, over an interface
      [DiskFile] for the system calls on the file of the disk.

    ** What the theorems show

    - Refinement: arrays are sequences, queues are FIFO lists, histories of
      completed P, V, acquire and release are legal histories of abstract
      semaphores and locks, the kernel heap is a set of disjoint blocks with
      stable contents, also over the page tables.
    - Virtual memory: a fault on a page that the process has is served with
      the page's contents, and no operation (allocation, eviction, swapping,
      fork, exit, kernel allocation) changes the contents of another page; the
      bootstrap establishes the invariant that these need.
    - Threads: every thread is in one place, the scheduler is round-robin, no
      wake-up is lost, locks exclude, semaphores count.
    - Processes: pids are unique, waitpid returns the code of the process that
      exited, and a process that waits is woken.
    - Files: reads return and writes replace a slice of the bytes of the file,
      truncation frees exactly the blocks given up; creating, removing and
      renaming are insertions and deletions in the map of names that a directory
      stands for, with every other file kept; what is unmounted is found again
      when the disk is mounted, and the kernel mounts what mksfs makes.
    - Paths and descriptors, for every implementation of vnodes: names change
      as the paths say, every file call returns with a well-formed table, what
      a process writes to a path it reads back, and references are never lost
      nor used twice.  SFS and the devices implement vnodes.
    - Programs: load_elf finds the program that a reference parser finds,
      runprogram starts it with its arguments, and a file call by a trap returns
      its result in the registers and keeps the others.
    - Text: vsnprintf is unbounded printing cut to the buffer, printed numbers are
      digits that atoi reads back.
    - The cat and mouse simulation keeps its rules in all interleavings; a
      lemma shows that it can come to a halt.
    - Protection: copyin, copyout and copyinstr confine the damage of a wrong
      user pointer to an error code.
    - Bounds and errors: the theorems on error branches state what the code
      does where a comment or a caller expects something else: a page lost
      when the swap file cannot be written, a missing stack after fork,
      memory that runs out before the bootstrap, a yield without memory, a
      block write that is lost on retry, a block kept past the end of a file.

    ** Conventions and bounds

    A C function is a function into [outcome]: a result, a failed assertion,
    undefined behaviour, or no return.  [int] arithmetic that can overflow goes
    through [c_int], unsigned arithmetic through [u32].  Whether an allocation
    succeeds is an argument ([km]), so theorems hold for every pattern of
    failures.  Loops are by recursion on their bound or carry fuel; each
    theorem on such a function proves that the fuel given there is enough
    ([Hang] is excluded by the equation with [Ok]).  [MAX_THREADS] and the
    limits in the queue and array theorems keep table sizes in bytes below
    2^31, far above what fits into the memory of the machine.

    The theorems that need more than the invariants say so in their premises.
    - Virtual memory: [has_room], a free frame, or a page to evict, a free swap
      slot and a swap device whose writes succeed; without it the kernel panics or
      loses the evicted page.
    - SFS: [ReliableWrites], the disk fails no write, since the code loses writes
      that fail ([sfs_wblock_lost_write]).  Reads may fail: EIO and what follows
      from it, a panic of rename or a file that is left without a name, occur only
      under [read_fails], and ENOMEM only if an allocation is not [complete].
    - Vnodes: [reliable], a field of [VnodeLaws], is the absence of both kinds of
      failure below; [mishap] is an error that needs its negation.
    - File calls: [legal] excludes descriptor 10, a failing kstrdup, transfers that
      reach 2^31 and writes to a raw disk, which the code gets wrong.
    - Processes: [calm] excludes the ends and failed forks after which the code
      leaves a waiting process asleep.
    - The bootstrap: [bare] asks for zeros where the page table's process numbers
      are, which pt_init does not write.

    ** Not modelled

    Drivers other than the disk's, assembly, console input and output, the menu,
    kernel tests and dumbvm: processor and device state, or code that is not in
    the configuration.  User programs and host tools other than mksfs run outside
    the kernel.  The stoplight problem of kern/asst1 is a stub.  execv repeats runprogram for arguments in user memory.  Bootstraps that only
    allocate locks and tables, and functions that only free memory, are left out.
    Outside Kheap.v the kernel heap appears as the success of allocations and, in
    FileCalls.v, as the address of a block.  The virtual memory functions, the
    heap, the file systems and the file calls are modelled one call at a time;
    interleavings of such calls by different processes are not, so that the locks
    of the file systems appear only as the flags that detect taking one twice.
    In thread_fork, sys_fork and thread_exit the parts that concern the thread
    lists and the pids are modelled, and in FileCalls.v the copying of one
    descriptor; the loop over the descriptors of the parent is not.  Trap.v takes
    the process calls and vm_fault as an interface: their models in Proc.v and
    VmFault.v have states of their own. *)

From stdpp Require Export base list gmap numbers option.
From Stdlib Require Export ZArith Lia.

#[global] Open Scope Z_scope.
#[global] Set Default Goal Selector "!".

(** ** Outcomes of a C function

    [Ok a]: it returns [a].  [Panic]: an [assert] failed or [panic()] was
    called.  [Undef]: undefined behaviour of C (an access out of bounds or
    through NULL, a read of an uninitialised variable or heap cell, signed
    overflow).  [Hang]: it never returns (a thread sleeps on a lock that it
    holds itself, or a loop that does not end). *)

Inductive outcome (A : Type) : Type :=
| Ok (a : A)
| Panic
| Undef
| Hang.

Arguments Ok {A} a.
Arguments Panic {A}.
Arguments Undef {A}.
Arguments Hang {A}.

#[export] Instance outcome_ret : MRet outcome := @Ok.

#[export] Instance outcome_bind : MBind outcome := fun A B f m =>
  match m with
  | Ok a => f a
  | Panic => Panic
  | Undef => Undef
  | Hang => Hang
  end.

(** The [assert] macro of kern/include/lib.h. *)
Definition c_assert (b : bool) : outcome unit := if b then Ok tt else Panic.

(** ** Error codes (kern/include/kern/errno.h) *)

Definition EINVAL : Z := 1.
Definition EFAULT : Z := 2.
Definition ENAMETOOLONG : Z := 3.
Definition ENOMEM : Z := 4.
Definition EIO : Z := 5.
Definition ENOENT : Z := 6.
Definition ENOTDIR : Z := 7.
Definition EISDIR : Z := 8.
Definition EEXIST : Z := 9.
Definition EXDEV : Z := 10.
Definition EAGAIN : Z := 11.
Definition ESPIPE : Z := 12.
Definition EUNIMP : Z := 13.
Definition ENXIO : Z := 14.
Definition ENODEV : Z := 15.
Definition EBUSY : Z := 16.
Definition EIOCTL : Z := 17.
Definition ENOTEMPTY : Z := 18.
Definition ERANGE : Z := 19.
Definition ENOSPC : Z := 20.
Definition EMFILE : Z := 21.
Definition ENFILE : Z := 22.
Definition ENOSYS : Z := 23.
Definition ENOEXEC : Z := 24.
Definition E2BIG : Z := 25.
Definition EBADF : Z := 26.

(** ** Machine integers *)

Definition int_min : Z := -2147483648.
Definition int_max : Z := 2147483647.
Definition u32_mod : Z := 4294967296.

(** The result of a signed [int] operation: overflow is undefined. *)
Definition c_int (z : Z) : outcome Z :=
  if (int_min <=? z) && (z <=? int_max) then Ok z else Undef.

(** The result of an unsigned 32-bit operation: it wraps. *)
Definition u32 (z : Z) : Z := z mod u32_mod.

(** Conversion of a 32-bit pattern to a signed type ([off_t], [int]). *)
Definition s32 (z : Z) : Z := (z + 2147483648) mod u32_mod - 2147483648.

(** ** Memory blocks: indexed reads and writes *)

Definition rd {A} (l : list A) (i : Z) : outcome A :=
  if 0 <=? i then
    match l !! Z.to_nat i with Some x => Ok x | None => Undef end
  else Undef.

Definition wr {A} (l : list A) (i : Z) (x : A) : outcome (list A) :=
  if (0 <=? i) && (i <? Z.of_nat (length l)) then Ok (<[Z.to_nat i := x]> l)
  else Undef.

(** A fresh block of [n] pointers from [kmalloc(n * 4)]: the byte
    count is a 32-bit [size_t], the cells are uninitialised ([None]). *)
Definition kmalloc_ptrs {A} (n : Z) : list (option A) :=
  replicate (Z.to_nat (u32 (n * 4) / 4)) None.

(** The forward word copy of lib/libc/memcpy.c (which memmove uses when the
    destination is below the source), inside one block. *)
Fixpoint memcpy_words {A} (n : nat) (l : list A) (dst src : Z) : outcome (list A) :=
  match n with
  | O => Ok l
  | S n' =>
      x ← rd l src;
      l' ← wr l dst x;
      memcpy_words n' l' (dst + 1) (src + 1)
  end.

(** [for (i = start; i < n; i++) if (p(a[i])) break;]: the index found, or
    -1 when the loop ends without a match. *)
Fixpoint first_index {A} (p : A -> bool) (i : Z) (l : list A) : Z :=
  match l with
  | [] => -1
  | x :: l' => if p x then i else first_index p (i + 1) l'
  end.

Abbreviation zlen l := (Z.of_nat (length l)).

(** ** Lemmas and automation *)

(** The equations that evaluate a run one step. *)
Create Rewrite HintDb ksimp.

Lemma bind_Ok {A B} (m : outcome A) (f : A -> outcome B) (b : B) :
  (m ≫= f) = Ok b <-> exists a, m = Ok a /\ f a = Ok b.
Proof.
  destruct m as [a| | |]; split; try (by intros (? & ? & ?)); try done.
  - intros H. by exists a.
  - intros (a' & Ha & H). by injection Ha as ->.
Qed.

Lemma Ok_bind {A B} (a : A) (f : A -> outcome B) : (Ok a ≫= f) = f a.
Proof. reflexivity. Qed.

#[export] Hint Rewrite @Ok_bind Z.eqb_refl : ksimp.

Lemma c_assert_Ok b u : c_assert b = Ok u -> b = true.
Proof. destruct b; naive_solver. Qed.

Lemma c_int_id z : int_min <= z <= int_max -> c_int z = Ok z.
Proof.
  intros [H1 H2]. unfold c_int.
  apply Z.leb_le in H1, H2. by rewrite H1, H2.
Qed.

Lemma c_int_Ok z r : c_int z = Ok r -> r = z /\ int_min <= z <= int_max.
Proof. unfold c_int. case_match eqn:E; [|done]. intros [= <-]. lia. Qed.

Lemma u32_id z : 0 <= z < u32_mod -> u32 z = z.
Proof. intros. by apply Z.mod_small. Qed.

Lemma s32_id z : -2147483648 <= z < 2147483648 -> s32 z = z.
Proof. intros Hz. unfold s32, u32_mod. rewrite Z.mod_small; lia. Qed.

Lemma s32_u32 z : -2147483648 <= z < 2147483648 -> s32 (u32 z) = z.
Proof. intros Hz. unfold s32, u32. rewrite Z.add_mod_idemp_l by done. by apply s32_id. Qed.

Lemma u32_s32_add a c : u32 (s32 (u32 a) + c) = u32 (a + c).
Proof.
  unfold u32, s32. replace ((a mod u32_mod + 2147483648) mod u32_mod - 2147483648 + c) with ((a mod u32_mod + 2147483648) mod u32_mod + (c - 2147483648)) by lia.
  rewrite Z.add_mod_idemp_l by done. replace (a mod u32_mod + 2147483648 + (c - 2147483648)) with (a mod u32_mod + c) by lia. by rewrite Z.add_mod_idemp_l.
Qed.

Lemma u32_range z : 0 <= u32 z < u32_mod.
Proof. by apply Z.mod_pos_bound. Qed.

Lemma rd_Some {A} (l : list A) i x :
  rd l i = Ok x <-> 0 <= i /\ l !! Z.to_nat i = Some x.
Proof.
  unfold rd. destruct (Z.leb_spec 0 i); [|split; [done|lia]].
  destruct (l !! Z.to_nat i) as [y|]; split; intros H'; try done.
  - injection H' as ->. done.
  - destruct H' as [_ H']. by injection H' as ->.
  - by destruct H'.
Qed.

Lemma rd_in {A} (l : list A) i :
  0 <= i < zlen l -> exists x, rd l i = Ok x /\ l !! Z.to_nat i = Some x.
Proof.
  intros Hi. destruct (lookup_lt_is_Some_2 l (Z.to_nat i)) as [x Hx]; [lia|].
  exists x. split; [|done]. apply rd_Some. split; [lia|done].
Qed.

Lemma rd_bound {A} (l : list A) i x : rd l i = Ok x -> 0 <= i < zlen l.
Proof. intros [Hi Hx]%rd_Some. apply lookup_lt_Some in Hx. lia. Qed.

Lemma wr_Ok {A} (l : list A) i x l' :
  wr l i x = Ok l' <-> 0 <= i < zlen l /\ l' = <[Z.to_nat i := x]> l.
Proof.
  unfold wr. destruct (Z.leb_spec 0 i), (Z.ltb_spec i (zlen l)); simpl;
    split; intros H'; try done; try lia.
  - injection H' as <-. split; [lia|done].
  - by destruct H' as [_ ->].
Qed.

Lemma wr_in {A} (l : list A) i x :
  0 <= i < zlen l -> wr l i x = Ok (<[Z.to_nat i := x]> l).
Proof. intros. by apply wr_Ok. Qed.

(** Inversion of a successful run, one bind at a time. *)
Ltac inv_ok :=
  repeat match goal with
  | H : (_ ≫= _) = Ok _ |- _ =>
      apply bind_Ok in H; destruct H as (? & ? & H); cbn beta iota in H
  | H : c_assert _ = Ok _ |- _ => apply c_assert_Ok in H
  | H : c_int _ = Ok _ |- _ => apply c_int_Ok in H; destruct H as [? ?]
  | H : Ok _ = Ok _ |- _ => injection H as H; subst
  | H : mret _ = Ok _ |- _ => injection H as H; subst
  | H : (Panic = Ok _) |- _ => discriminate H
  | H : (Undef = Ok _) |- _ => discriminate H
  | H : (Hang = Ok _) |- _ => discriminate H
  end.

(** One or more steps of a run whose calls have known results. *)
Ltac runs :=
  repeat first
    [ progress autorewrite with ksimp
    | progress cbn beta iota
    | progress cbn [c_assert negb andb orb] ].

(** Boolean comparisons of the source as propositions. *)
Ltac bool_cases :=
  repeat match goal with
  | |- context [Z.leb ?a ?b] => destruct (Z.leb_spec a b)
  | |- context [Z.ltb ?a ?b] => destruct (Z.ltb_spec a b)
  | |- context [Z.eqb ?a ?b] => destruct (Z.eqb_spec a b)
  end.

Lemma length_kmalloc_ptrs {A} n :
  0 <= n < 1073741824 -> zlen (kmalloc_ptrs (A := A) n) = n.
Proof.
  intros Hn. unfold kmalloc_ptrs. rewrite length_replicate, u32_id by (unfold u32_mod; lia).
  rewrite Z.div_mul by lia. lia.
Qed.

(** The word copy moves [n] cells down by one position: the cell at [dst]
    disappears and the others keep their order. *)
Lemma memcpy_words_down {A} (n : nat) (l : list A) (d : nat) :
  (d + n < length l)%nat ->
  memcpy_words n l (Z.of_nat d) (Z.of_nat d + 1) =
    Ok (take d l ++ take n (drop (S d) l) ++ drop (d + n) l).
Proof.
  revert l d. induction n as [|n IH]; intros l d Hd; simpl.
  { by rewrite Nat.add_0_r, take_drop. }
  destruct (lookup_lt_is_Some_2 l (S d)) as [x Hx]; [lia|].
  assert (rd l (Z.of_nat d + 1) = Ok x) as ->.
  { apply rd_Some. split; [lia|]. by replace (Z.to_nat _) with (S d) by lia. }
  rewrite Ok_bind, wr_in by lia. rewrite Ok_bind, Nat2Z.id.
  replace (Z.of_nat d + 1) with (Z.of_nat (S d)) by lia.
  rewrite IH by (rewrite length_insert; lia). f_equal.
  rewrite (drop_insert_lt l (S (S d)) d), (drop_insert_lt l (S d + n) d) by lia.
  rewrite (drop_S l x (S d) Hx). simpl.
  rewrite (take_S_r _ d x) by (apply list_lookup_insert_eq; lia).
  rewrite take_insert_ge by lia. rewrite <- (assoc_L (++)). simpl.
  by replace (S (d + n)) with (d + S n)%nat by lia.
Qed.

(** Two lists that are defined at the same indices are equally long. *)
Lemma same_lookup_length {A B} (l : list A) (l' : list B) :
  (forall j, is_Some (l !! j) <-> is_Some (l' !! j)) -> length l = length l'.
Proof.
  intros H. apply Nat.le_antisymm; apply Nat.nlt_ge; intros Hlt;
    apply lookup_lt_is_Some_2, H, lookup_lt_is_Some_1 in Hlt; lia.
Qed.

Section FirstIndex.
Context {A : Type}.
Implicit Types (p : A -> bool) (l : list A).

Lemma first_index_none p i l :
  (forall x, x ∈ l -> p x = false) -> first_index p i l = -1.
Proof.
  revert i. induction l as [|x l IH]; intros i H; [done|]. simpl.
  rewrite H by left. apply IH. intros y Hy. apply H. by right.
Qed.

(** The loop's result: -1 and no element matches, or the first match. *)
Lemma first_index_spec p i l :
  0 <= i ->
  (first_index p i l = -1 /\ forall x, x ∈ l -> p x = false) \/
  (exists k x, first_index p i l = i + Z.of_nat k /\ l !! k = Some x /\ p x = true /\
     forall j y, (j < k)%nat -> l !! j = Some y -> p y = false).
Proof.
  revert i. induction l as [|a l IH]; intros i Hi.
  { left. split; [done|]. intros x Hx. by apply not_elem_of_nil in Hx. }
  simpl. destruct (p a) eqn:Ha.
  { right. exists 0%nat, a. split_and!; [lia|done|done|lia]. }
  destruct (IH (i + 1)) as [[H1 H2]|(k & x & H1 & H2 & H3 & H4)]; [lia| |].
  - left. split; [done|]. intros x [->|Hx]%elem_of_cons; auto.
  - right. exists (S k), x. split_and!; [lia|done|done|].
    intros [|j] y Hj Hy; simpl in Hy; [congruence|]. apply (H4 j); [lia|done].
Qed.

Lemma first_index_range p l :
  first_index p 0 l = -1 \/ 0 <= first_index p 0 l < zlen l.
Proof.
  destruct (first_index_spec p 0 l) as [[-> _]|(k & x & -> & Hk & _)]; [lia|by left|].
  right. apply lookup_lt_Some in Hk. lia.
Qed.
End FirstIndex.

(** ** Bits of machine words *)

Lemma land_mask w k : 0 <= k -> (Z.land w (2 ^ k) =? 0) = negb (Z.testbit w k).
Proof.
  intros Hk. destruct (Z.testbit w k) eqn:E; simpl.
  - apply Z.eqb_neq. intros H0. apply (f_equal (fun z => Z.testbit z k)) in H0.
    rewrite Z.land_spec, E, Z.pow2_bits_true, Z.bits_0 in H0 by lia. done.
  - apply Z.eqb_eq, Z.bits_inj_0. intros j. rewrite Z.land_spec.
    destruct (decide (j = k)) as [->|Hj]; [by rewrite E|].
    rewrite Z.pow2_bits_false by lia. apply andb_false_r.
Qed.

Lemma lor_mask_bits w k j :
  0 <= k -> 0 <= j -> Z.testbit (Z.lor w (2 ^ k)) j = Z.testbit w j || (j =? k).
Proof.
  intros Hk Hj. rewrite Z.lor_spec. f_equal. destruct (Z.eqb_spec j k) as [->|].
  - apply Z.pow2_bits_true. lia.
  - apply Z.pow2_bits_false. lia.
Qed.

Lemma ldiff_mask_bits w k j :
  0 <= k -> 0 <= j ->
  Z.testbit (Z.land w (Z.lnot (2 ^ k))) j = Z.testbit w j && negb (j =? k).
Proof.
  intros Hk Hj. rewrite Z.land_spec, Z.lnot_spec by lia. do 2 f_equal.
  destruct (Z.eqb_spec j k) as [->|].
  - apply Z.pow2_bits_true. lia.
  - apply Z.pow2_bits_false. lia.
Qed.

(** A word of [n] bits. *)
Lemma bits_width n w : 0 <= n -> 0 <= w < 2 ^ n <-> 0 <= w /\ forall j, n <= j -> Z.testbit w j = false.
Proof.
  intros Hn. split.
  - intros Hw. split; [lia|]. intros j Hj. destruct (decide (w = 0)) as [->|]; [apply Z.bits_0|].
    apply Z.bits_above_log2; [lia|]. enough (Z.log2 w < n) by lia. apply Z.log2_lt_pow2; lia.
  - intros [H0 Hb]. split; [done|]. destruct (Z.lt_ge_cases w (2 ^ n)) as [?|Hge]; [done|].
    assert (0 < w) by (pose proof (Z.pow_pos_nonneg 2 n ltac:(lia) Hn); lia).
    assert (n <= Z.log2 w) by (apply Z.log2_le_pow2; lia).
    specialize (Hb (Z.log2 w)). rewrite Z.bit_log2 in Hb by lia. by discriminate Hb.
Qed.

Lemma lor_mask_width n w k : 0 <= w < 2 ^ n -> 0 <= k < n -> 0 <= Z.lor w (2 ^ k) < 2 ^ n.
Proof.
  intros Hw Hk. apply bits_width in Hw as [H0 Hb]; [|lia]. apply bits_width; [lia|]. split; [apply Z.lor_nonneg; lia|].
  intros j Hj. rewrite lor_mask_bits, Hb by lia. simpl. lia.
Qed.

Lemma ldiff_mask_width n w k : 0 <= w < 2 ^ n -> 0 <= k < n -> 0 <= Z.land w (Z.lnot (2 ^ k)) < 2 ^ n.
Proof.
  intros Hw Hk. apply bits_width in Hw as [H0 Hb]; [|lia]. apply bits_width; [lia|]. split; [apply Z.land_nonneg; lia|].
  intros j Hj. by rewrite ldiff_mask_bits, Hb by lia.
Qed.

Lemma ones_full n w : 0 <= w < 2 ^ n -> 0 <= n -> (forall k, 0 <= k < n -> Z.testbit w k = true) -> w = Z.ones n.
Proof.
  intros Hw Hn Hk. apply bits_width in Hw as [H0 Hb]; [|done]. apply Z.bits_inj'. intros j Hj.
  destruct (Z.lt_ge_cases j n).
  - rewrite Hk, Z.ones_spec_low by lia. done.
  - rewrite Hb, Z.ones_spec_high by lia. done.
Qed.

(** ** Pages (kern/arch/mips/include/vm.h) *)

Definition PAGE_SIZE : Z := 4096.
Definition PAGE_FRAME : Z := 4294963200.

Lemma testbit_page_frame j :
  Z.testbit PAGE_FRAME j = (12 <=? j) && (j <? 32).
Proof.
  change PAGE_FRAME with (Z.shiftl (Z.ones 20) 12).
  destruct (Z.leb_spec 12 j); cbn [andb].
  - rewrite Z.shiftl_spec, Z.testbit_ones_nonneg by lia. destruct (Z.ltb_spec (j - 12) 20), (Z.ltb_spec j 32); lia || done.
  - destruct (Z.lt_ge_cases j 0); [by apply Z.testbit_neg_r|]. apply Z.shiftl_spec_low. lia.
Qed.

Lemma testbit_above a n : 0 <= a < 4294967296 -> 32 <= n -> Z.testbit a n = false.
Proof. intros [_ H]%(bits_width 32); [apply H|done]. Qed.

(** [addr & PAGE_FRAME] rounds down to a page, [addr & ~PAGE_FRAME] is the
    offset in it. *)
Lemma page_frame_floor a : 0 <= a < 4294967296 -> Z.land a PAGE_FRAME = a / 4096 * 4096.
Proof.
  intros Ha. change 4096 with (2 ^ 12). rewrite <- Z.shiftr_div_pow2, <- Z.shiftl_mul_pow2 by lia.
  rewrite <- Z.ldiff_ones_r by lia. apply Z.bits_inj'. intros n Hn.
  rewrite Z.land_spec, Z.ldiff_spec, testbit_page_frame, Z.testbit_ones_nonneg by lia.
  destruct (Z.leb_spec 12 n), (Z.ltb_spec n 12); try lia; cbn.
  destruct (Z.ltb_spec n 32); [done|]. by rewrite testbit_above.
Qed.

Lemma page_offset a : 0 <= a < 4294967296 -> Z.land a (Z.lnot PAGE_FRAME) = a mod 4096.
Proof.
  intros Ha. change 4096 with (2 ^ 12). rewrite <- Z.land_ones by lia. apply Z.bits_inj'. intros n Hn.
  rewrite !Z.land_spec, Z.lnot_spec, testbit_page_frame, Z.testbit_ones_nonneg by lia.
  destruct (Z.leb_spec 12 n), (Z.ltb_spec n 12); try lia; cbn; [|done].
  destruct (Z.ltb_spec n 32); [done|]. by rewrite testbit_above.
Qed.

Lemma page_frame_id a : 0 <= a < 4294967296 -> a mod 4096 = 0 -> Z.land a PAGE_FRAME = a.
Proof. intros Ha Hm. rewrite page_frame_floor by done. Z.to_euclidean_division_equations; lia. Qed.

(** The first element with a property, and the list without it. *)
Lemma list_find_filter {A} (P : A -> Prop) `{!forall x, Decision (P x)} (l : list A) :
  match list_find P l with
  | Some (i, x) => take 1 (filter P l) = [x] /\ filter P (delete i l) = drop 1 (filter P l)
  | None => filter P l = []
  end.
Proof.
  induction l as [|y l IH]; [done|]. cbn [list_find]. destruct (decide (P y)) as [Hy|Hy].
  - by rewrite filter_cons_True.
  - rewrite filter_cons_False by done. destruct (list_find P l) as [[i x]|]; cbn; [|done].
    by rewrite decide_False.
Qed.
