(* ===== verification/Array.v ===== *)
(** * Resizable arrays of pointers: kern/lib/array.c

    [array A] is [struct array] with its elements typed [A].  The block [a_v]
    is [None] for the NULL pointer; a cell of the block is [None] until it is
    written.  The boolean [km] of an operation says whether the one [kmalloc]
    it may call succeeds. *)

From S2P Require Import Prelude.

Module Array.

Section Model.
Context {A : Type}.

Record array : Type := mk_array {
  a_num : Z;
  a_max : Z;
  a_v : option (list (option A));
}.

Definition array_create (km : bool) : option array :=
  if km then Some (mk_array 0 0 None) else None.

Definition array_getnum (a : array) : Z := a_num a.

Definition array_getguy (a : array) (index : Z) : outcome A :=
  _ ← c_assert (a_num a <=? a_max a);
  _ ← c_assert ((0 <=? index) && (index <? a_num a));
  match a_v a with
  | None => Undef
  | Some l => x ← rd l index; match x with Some p => Ok p | None => Undef end
  end.

(** [while (nguys > newmax) newmax = (newmax+1)*2;] *)
Fixpoint newmax_loop (fuel : nat) (nguys newmax : Z) : outcome Z :=
  match fuel with
  | O => Hang
  | S f =>
      if newmax <? nguys then
        m1 ← c_int (newmax + 1);
        m2 ← c_int (m1 * 2);
        newmax_loop f nguys m2
      else Ok newmax
  end.

(** [for (i=0; i<a->num; i++) newv[i] = a->v[i];] *)
Fixpoint copy_guys (n : nat) (i : Z) (v newv : list (option A)) :
    outcome (list (option A)) :=
  match n with
  | O => Ok newv
  | S n' =>
      x ← rd v i;
      newv' ← wr newv i x;
      copy_guys n' (i + 1) v newv'
  end.

(** The loop doubles, so 32 rounds cover every [int]. *)
Definition array_preallocate (km : bool) (a : array) (nguys : Z) :
    outcome (Z * array) :=
  _ ← c_assert ((0 <=? a_num a) && (a_num a <=? a_max a));
  newmax ← newmax_loop 33 nguys (a_max a);
  if negb km then Ok (ENOMEM, a) else
  newv ← copy_guys (Z.to_nat (a_num a)) 0 (default [] (a_v a)) (kmalloc_ptrs newmax);
  Ok (0, mk_array (a_num a) newmax (Some newv)).

Definition array_setsize (km : bool) (a : array) (nguys : Z) :
    outcome (Z * array) :=
  _ ← c_assert ((0 <=? a_num a) && (a_num a <=? a_max a));
  if a_max a <? nguys then
    '(result, a1) ← array_preallocate km a nguys;
    if negb (result =? 0) then Ok (result, a1)
    else Ok (0, mk_array nguys (a_max a1) (a_v a1))
  else if (nguys =? 0) && (16 <? a_max a) then
    _ ← c_assert (bool_decide (is_Some (a_v a)));
    Ok (0, mk_array nguys 0 None)
  else Ok (0, mk_array nguys (a_max a) (a_v a)).

Definition array_setguy (a : array) (index : Z) (ptr : A) : outcome array :=
  _ ← c_assert (a_num a <=? a_max a);
  _ ← c_assert ((0 <=? index) && (index <? a_num a));
  match a_v a with
  | None => Undef
  | Some l => l' ← wr l index (Some ptr); Ok (mk_array (a_num a) (a_max a) (Some l'))
  end.

Definition array_add (km : bool) (a : array) (guy : A) : outcome (Z * array) :=
  let ix := a_num a in
  ix1 ← c_int (ix + 1);
  '(result, a1) ← array_setsize km a ix1;
  if negb (result =? 0) then Ok (result, a1) else
  match a_v a1 with
  | None => Undef
  | Some l => l' ← wr l ix (Some guy); Ok (0, mk_array (a_num a1) (a_max a1) (Some l'))
  end.

Definition array_remove (a : array) (index : Z) : outcome array :=
  _ ← c_assert (a_num a <=? a_max a);
  _ ← c_assert ((0 <=? index) && (index <? a_num a));
  let nmove := a_num a - (index + 1) in
  match a_v a with
  | None => Undef
  | Some l =>
      l' ← memcpy_words (Z.to_nat nmove) l index (index + 1);
      Ok (mk_array (a_num a - 1) (a_max a) (Some l'))
  end.

(** ** The abstract view: the visible cells, in order *)

Definition contents (a : array) : list (option A) :=
  take (Z.to_nat (a_num a)) (default [] (a_v a)).

(** The largest request for which neither [int] nor [size_t] overflows. *)
Definition lim : Z := 268435456.

Definition wf (a : array) : Prop :=
  0 <= a_num a <= a_max a /\ a_max a <= 2 * lim /\ zlen (default [] (a_v a)) = a_max a.

(** Adding a list of pointers while every allocation fails. *)
Fixpoint add_all_nomem (a : array) (xs : list A) : outcome (Z * array) :=
  match xs with
  | [] => Ok (0, a)
  | x :: xs' =>
      '(result, a1) ← array_add false a x;
      if result =? 0 then add_all_nomem a1 xs' else Ok (result, a1)
  end.

End Model.

Arguments array A : clear implicits.

Section Facts.
Context {A : Type}.
Implicit Types (a : array A) (x : A).

Lemma newmax_loop_ok (f : nat) n m :
  0 <= m <= 2 * lim -> n <= lim -> n + 2 <= (m + 2) * 2 ^ Z.of_nat f ->
  exists m', newmax_loop (S f) n m = Ok m' /\ n <= m' /\ m <= m' <= 2 * lim.
Proof.
  revert m. induction f as [|f IH]; intros m Hm Hn Hf;
    cbn [newmax_loop]; destruct (Z.ltb_spec m n); [|exists m; split; [done|lia]| |exists m; split; [done|lia]].
  { change (2 ^ Z.of_nat 0) with 1 in Hf. lia. }
  rewrite c_int_id by (unfold lim, int_min, int_max in *; lia). rewrite Ok_bind.
  rewrite c_int_id by (unfold lim, int_min, int_max in *; lia). rewrite Ok_bind.
  destruct (IH ((m + 1) * 2)) as (m' & H1 & H2 & H3); [lia|lia| |].
  { rewrite Nat2Z.inj_succ, Z.pow_succ_r in Hf by lia. lia. }
  exists m'. split; [exact H1|lia].
Qed.

Lemma copy_guys_ok (n : nat) (i : nat) (v w : list (option A)) :
  (i + n <= length v)%nat -> (i + n <= length w)%nat ->
  copy_guys n (Z.of_nat i) v w = Ok (take i w ++ take n (drop i v) ++ drop (i + n) w).
Proof.
  revert i w. induction n as [|n IH]; intros i w Hv Hw; cbn [copy_guys].
  { simpl. by rewrite Nat.add_0_r, take_drop. }
  destruct (lookup_lt_is_Some_2 v i) as [x Hx]; [lia|].
  assert (rd v (Z.of_nat i) = Ok x) as ->.
  { apply rd_Some. split; [lia|]. by rewrite Nat2Z.id. }
  rewrite Ok_bind, wr_in by lia. rewrite Ok_bind, Nat2Z.id.
  replace (Z.of_nat i + 1) with (Z.of_nat (S i)) by lia.
  rewrite IH by (rewrite ?length_insert; lia). f_equal.
  rewrite drop_insert_lt by lia.
  rewrite (take_S_r _ i x) by (apply list_lookup_insert_eq; lia).
  rewrite take_insert_ge by lia. rewrite <- (assoc_L (++)).
  rewrite (drop_S v x i Hx). simpl. by replace (S (i + n)) with (i + S n)%nat by lia.
Qed.

Lemma length_contents a : wf a -> zlen (contents a) = a_num a.
Proof. intros (H1 & H2 & H3). unfold contents. rewrite length_take. lia. Qed.

(** Preallocation succeeds exactly when the allocation does; it changes the
    capacity and not the contents. *)
Lemma array_preallocate_spec km a n :
  wf a -> n <= lim ->
  exists r a', array_preallocate km a n = Ok (r, a') /\ wf a' /\
    contents a' = contents a /\ a_num a' = a_num a /\
    (if km then r = 0 /\ n <= a_max a' /\ a_max a <= a_max a' /\ is_Some (a_v a')
     else r = ENOMEM /\ a' = a).
Proof.
  intros Hwf Hn. pose proof Hwf as (H1 & H2 & H3). unfold array_preallocate.
  rewrite (proj2 (Z.leb_le 0 (a_num a))), (proj2 (Z.leb_le (a_num a) (a_max a))) by lia.
  cbn [andb c_assert]. rewrite Ok_bind.
  destruct (newmax_loop_ok 32 n (a_max a)) as (m & Hm & Hge & Hle); [lia|lia| |].
  { change (2 ^ Z.of_nat 32) with 4294967296. unfold lim in *. lia. }
  rewrite Hm, Ok_bind. destruct km; simpl.
  2: { exists ENOMEM, a. by split_and!. }
  pose proof (length_kmalloc_ptrs (A := A) m) as Hl.
  rewrite (copy_guys_ok _ 0) by (unfold lim in *; lia). rewrite Ok_bind. simpl.
  do 2 eexists. split; [reflexivity|]. rewrite drop_0.
  split_and!; simpl; try done; try lia.
  - unfold wf. simpl. rewrite length_app, length_take, length_drop. unfold lim in *. lia.
  - unfold contents. simpl. rewrite take_app_le by (rewrite length_take; lia).
    by rewrite take_take, Nat.min_id.
Qed.

(** [array_add], both branches: the pointer is appended, or the array is
    full, the allocation fails and nothing changes. *)
Lemma array_add_run km a x :
  wf a -> a_num a < lim ->
  exists r a', array_add km a x = Ok (r, a') /\ wf a' /\
    (if (a_num a <? a_max a) || km
     then r = 0 /\ contents a' = contents a ++ [Some x] /\ a_num a' = a_num a + 1
          /\ a_max a <= a_max a'
     else r = ENOMEM /\ a' = a).
Proof.
  intros Hwf Hn. pose proof Hwf as (H1 & H2 & H3). unfold array_add.
  rewrite c_int_id by (unfold lim, int_min, int_max in *; lia). rewrite Ok_bind.
  unfold array_setsize.
  rewrite (proj2 (Z.leb_le 0 (a_num a))), (proj2 (Z.leb_le (a_num a) (a_max a))) by lia.
  cbn [andb c_assert]. rewrite Ok_bind.
  destruct (Z.ltb_spec (a_num a) (a_max a)) as [Hlt|Hge]; simpl.
  - rewrite (proj2 (Z.ltb_ge (a_max a) (a_num a + 1))) by lia.
    rewrite (proj2 (Z.eqb_neq (a_num a + 1) 0)) by lia. simpl.
    destruct (a_v a) as [l|] eqn:Hv; simpl in H3; [|lia].
    rewrite wr_in by lia. rewrite Ok_bind. do 2 eexists. split; [reflexivity|].
    split_and!; try done; simpl; try lia.
    { unfold wf. simpl. rewrite length_insert. lia. }
    unfold contents. simpl. rewrite Hv. simpl.
    replace (Z.to_nat (a_num a + 1)) with (S (Z.to_nat (a_num a))) by lia.
    rewrite (take_S_r _ _ (Some x)) by (apply list_lookup_insert_eq; lia).
    by rewrite take_insert_ge by lia.
  - rewrite (proj2 (Z.ltb_lt (a_max a) (a_num a + 1))) by lia.
    destruct (array_preallocate_spec km a (a_num a + 1) Hwf) as
      (r & a1 & -> & Hwf1 & Hc & Hnum & Hr); [lia|]. rewrite Ok_bind.
    destruct km; simpl.
    2: { destruct Hr as [-> ->]. exists ENOMEM, a. by split_and!. }
    destruct Hr as (-> & Hcap & _ & [l Hl]). simpl. rewrite Hl.
    pose proof Hwf1 as (H1' & H2' & H3'). rewrite Hl in H3'. simpl in H3'.
    rewrite wr_in by lia. rewrite Ok_bind. do 2 eexists. split; [reflexivity|].
    split_and!; try done; simpl; try lia.
    { unfold wf. simpl. rewrite length_insert. lia. }
    rewrite <- Hc. unfold contents. simpl. rewrite Hl, Hnum. simpl.
    replace (Z.to_nat (a_num a + 1)) with (S (Z.to_nat (a_num a))) by lia.
    rewrite (take_S_r _ _ (Some x)) by (apply list_lookup_insert_eq; lia).
    by rewrite take_insert_ge by lia.
Qed.

Lemma array_getguy_run a i x :
  wf a -> contents a !! Z.to_nat i = Some (Some x) -> 0 <= i ->
  array_getguy a i = Ok x.
Proof.
  intros Hwf Hx Hi. pose proof Hwf as (H1 & H2 & H3).
  pose proof (lookup_lt_Some _ _ _ Hx) as Hlt. pose proof (length_contents a Hwf) as Hlen.
  unfold array_getguy.
  rewrite (proj2 (Z.leb_le (a_num a) (a_max a))), (proj2 (Z.leb_le 0 i)),
    (proj2 (Z.ltb_lt i (a_num a))) by lia. cbn [andb c_assert]. rewrite !Ok_bind.
  destruct (a_v a) as [l|] eqn:Hl; [|simpl in H3; lia].
  unfold contents in Hx. rewrite Hl in Hx. simpl in Hx.
  rewrite lookup_take in Hx. case_match; [|done].
  by rewrite (proj2 (rd_Some l i (Some x))).
Qed.

Lemma array_remove_run a i :
  wf a -> 0 <= i < a_num a ->
  exists a', array_remove a i = Ok a' /\ wf a' /\ a_num a' = a_num a - 1 /\
    a_max a' = a_max a /\ contents a' = delete (Z.to_nat i) (contents a).
Proof.
  intros Hwf Hi. pose proof Hwf as (H1 & H2 & H3). unfold array_remove.
  rewrite (proj2 (Z.leb_le (a_num a) (a_max a))), (proj2 (Z.leb_le 0 i)),
    (proj2 (Z.ltb_lt i (a_num a))) by lia. cbn [andb c_assert]. rewrite !Ok_bind.
  destruct (a_v a) as [l|] eqn:Hl; simpl in H3; [|lia].
  pose proof (memcpy_words_down (Z.to_nat (a_num a - (i + 1))) l (Z.to_nat i)) as Hm.
  rewrite Z2Nat.id in Hm by lia. rewrite Hm by lia. rewrite Ok_bind.
  eexists. split; [reflexivity|]. split_and!; simpl; try done; try lia.
  { unfold wf. simpl. rewrite !length_app, !length_take, !length_drop. lia. }
  unfold contents. rewrite Hl. simpl. rewrite delete_take_drop.
  rewrite take_take, (take_drop_commute l).
  rewrite (assoc_L (++)), take_app_le by (rewrite length_app, length_drop, !length_take; lia).
  rewrite take_ge by (rewrite length_app, length_drop, !length_take; lia).
  f_equal; [f_equal; lia|]. do 2 f_equal. lia.
Qed.

(** [struct array] implements a sequence of pointers (kern/include/array.h):
    from a well-formed array, [array_add] appends the pointer, or, when the
    array is full and the allocation fails, returns ENOMEM and leaves the
    array as it was; [array_getguy] returns the element at the index; and
    [array_remove] drops the element at the index and closes the hole.  No
    assertion fails, nothing is read or written out of bounds, and the result
    is well formed again. *)
Theorem array_refines_sequence km a x i y :
  wf a -> a_num a < lim -> 0 <= i < a_num a ->
  contents a !! Z.to_nat i = Some (Some y) ->
  (exists r a', array_add km a x = Ok (r, a') /\ wf a' /\
     (if (a_num a <? a_max a) || km then r = 0 /\ contents a' = contents a ++ [Some x]
      else r = ENOMEM /\ a' = a)) /\
  array_getguy a i = Ok y /\
  (exists a', array_remove a i = Ok a' /\ wf a' /\
     contents a' = delete (Z.to_nat i) (contents a)).
Proof.
  intros Hwf Hn Hi Hy. split_and!.
  - destruct (array_add_run km a x Hwf Hn) as (r & a' & H1 & H2 & H3).
    exists r, a'. split_and!; [done|done|]. case_match; intuition auto.
  - apply array_getguy_run; [done|done|lia].
  - destruct (array_remove_run a i Hwf Hi) as (a' & H1 & H2 & _ & _ & H3). eauto.
Qed.

Lemma add_all_nomem_run a xs :
  wf a -> a_num a + zlen xs <= a_max a -> a_num a + zlen xs <= lim ->
  exists a', add_all_nomem a xs = Ok (0, a') /\ wf a' /\
    contents a' = contents a ++ (Some <$> xs).
Proof.
  revert a. induction xs as [|x xs IH]; intros a Hwf Hcap Hlim.
  { exists a. simpl. by rewrite app_nil_r. }
  cbn [add_all_nomem]. cbn [length] in Hcap, Hlim.
  destruct (array_add_run false a x Hwf) as (r & a1 & -> & Hwf1 & Hr); [lia|].
  rewrite (proj2 (Z.ltb_lt (a_num a) (a_max a))) in Hr by lia. simpl in Hr.
  destruct Hr as (-> & Hc & Hnum & Hmax). rewrite Ok_bind. simpl.
  destruct (IH a1 Hwf1) as (a' & H1 & H2 & H3); [lia|lia|].
  exists a'. split_and!; [done|done|]. rewrite H3, Hc. by rewrite <- (assoc_L (++)).
Qed.

(** The contract of [array_preallocate] (kern/include/array.h: "Can be used
    to prevent anticipated calls to setsize from failing"): once it has
    returned 0 for a total of [n] elements, any pointers that bring the array
    up to at most [n] elements can be added with every later allocation
    failing, and they all arrive in order. *)
Theorem array_preallocate_guarantee a n xs :
  wf a -> n <= lim -> a_num a + zlen xs <= n ->
  exists a1 a2, array_preallocate true a n = Ok (0, a1) /\
    contents a1 = contents a /\
    add_all_nomem a1 xs = Ok (0, a2) /\
    contents a2 = contents a ++ (Some <$> xs).
Proof.
  intros Hwf Hn Hxs.
  destruct (array_preallocate_spec true a n Hwf Hn)
    as (r & a1 & H1 & Hwf1 & Hc & Hnum & -> & Hcap & _ & _).
  destruct (add_all_nomem_run a1 xs Hwf1) as (a2 & H2 & _ & H3); [lia|lia|].
  exists a1, a2. by rewrite H3, Hc.
Qed.

End Facts.

Lemma array_refines_sequence_witness :
  exists a : array Z, wf a /\ contents a = [Some 7; Some 8; Some 9] /\
  array_getguy a 1 = Ok 8 /\
  (exists a', array_remove a 1 = Ok a' /\ contents a' = [Some 7; Some 9]).
Proof.
  pose (a := mk_array 3 6 (Some [Some 7; Some 8; Some 9; None; None; None])).
  assert (wf a) as Hwf by (unfold wf, lim; simpl; lia).
  destruct (array_refines_sequence true a 5 1 8 Hwf) as (_ & Hg & a' & Hr & _ & Hc);
    [by unfold lim; simpl; lia|simpl; lia|done|].
  exists a. split_and!; [done|done|exact Hg|]. exists a'. by split; [exact Hr|rewrite Hc].
Defined.

Lemma array_preallocate_guarantee_witness :
  exists a1 a2, array_preallocate true (mk_array 0 0 None) 3 = Ok (0, a1) /\
    add_all_nomem a1 [4; 5; 6] = Ok (0, a2) /\ contents a2 = [Some 4; Some 5; Some 6].
Proof.
  destruct (array_preallocate_guarantee (mk_array 0 0 None) 3 [4; 5; 6])
    as (a1 & a2 & H1 & _ & H2 & H3);
    [by unfold wf, lim; simpl; lia|by unfold lim; lia|simpl; lia|].
  exists a1, a2. by split_and!.
Defined.

(** ** Arrays without holes *)

(** The array lists exactly [l]. *)
Definition lists {A} (a : array A) (l : list A) : Prop := wf a /\ contents a = Some <$> l.

Lemma lists_num {A} (a : array A) l : lists a l -> a_num a = zlen l.
Proof. intros [Hwf Hc]. rewrite <- (length_contents a Hwf), Hc. by rewrite length_fmap. Qed.

Lemma lists_get {A} (a : array A) l (i : nat) x :
  lists a l -> l !! i = Some x -> array_getguy a (Z.of_nat i) = Ok x.
Proof.
  intros [Hwf Hc] Hx. apply array_getguy_run; [done| |lia].
  by rewrite Nat2Z.id, Hc, list_lookup_fmap, Hx.
Qed.

Lemma lists_add {A} km (a : array A) l x :
  lists a l -> zlen l < lim ->
  exists r a', array_add km a x = Ok (r, a') /\
    ((r = 0 /\ lists a' (l ++ [x]) /\ a_max a <= a_max a') \/
     (r <> 0 /\ a' = a /\ km = false /\ a_max a <= zlen l)).
Proof.
  intros Hl Hn. pose proof (lists_num a l Hl) as Hnum. destruct Hl as [Hwf Hc].
  destruct (array_add_run km a x Hwf) as (r & a' & Hrun & Hwf' & Hr); [lia|].
  exists r, a'. split; [done|]. destruct (Z.ltb_spec (a_num a) (a_max a)), km; cbn in Hr.
  1-3: left; destruct Hr as (-> & Hc' & _ & Hm); split; [done|]; split; [|done]; split; [done|];
    by rewrite Hc', Hc, fmap_app.
  right. destruct Hr as [-> ->]. split; [done|]. split; [done|]. split; [done|lia].
Qed.

Lemma lists_remove {A} (a : array A) l (i : nat) :
  lists a l -> (i < length l)%nat ->
  exists a', array_remove a (Z.of_nat i) = Ok a' /\ lists a' (delete i l) /\ a_max a' = a_max a.
Proof.
  intros Hl Hi. pose proof (lists_num a l Hl) as Hnum. destruct Hl as [Hwf Hc].
  destruct (array_remove_run a (Z.of_nat i) Hwf) as (a' & Hrun & Hwf' & _ & Hm & Hc'); [lia|].
  exists a'. split; [done|]. split; [|done]. split; [done|].
  rewrite Hc', Nat2Z.id, Hc. symmetry. apply list_fmap_delete.
Qed.

Lemma lists_preallocate {A} km (a : array A) l n :
  lists a l -> n <= lim ->
  exists r a', array_preallocate km a n = Ok (r, a') /\ lists a' l /\ a_max a <= a_max a' /\
    (r = 0 -> n <= a_max a') /\ (r <> 0 -> km = false).
Proof.
  intros [Hwf Hc] Hn. destruct (array_preallocate_spec km a n Hwf Hn) as (r & a' & Hrun & Hwf' & Hc' & _ & Hr).
  exists r, a'. split; [done|]. split; [split; [done|congruence]|]. destruct km.
  - destruct Hr as (-> & H1 & H2 & _). split; [lia|]. done.
  - destruct Hr as [-> ->]. split; [lia|]. done.
Qed.

Lemma lists_clear {A} km (a : array A) l :
  lists a l -> exists a', array_setsize km a 0 = Ok (0, a') /\ lists a' [].
Proof.
  intros [(H1 & H2 & H3) _]. unfold array_setsize.
  rewrite (proj2 (Z.leb_le 0 (a_num a))), (proj2 (Z.leb_le (a_num a) (a_max a))) by lia.
  cbn [andb c_assert]. rewrite Ok_bind, (proj2 (Z.ltb_ge (a_max a) 0)) by lia. cbn [Z.eqb andb].
  destruct (Z.ltb_spec 16 (a_max a)).
  - destruct (a_v a) as [v|] eqn:Hv; cbn in H3; [|lia]. rewrite bool_decide_true by done. cbn [c_assert].
    rewrite Ok_bind. eexists. split; [done|]. split; [|done]. unfold wf, lim. cbn. lia.
  - eexists. split; [done|]. split; [|done]. unfold wf. cbn. lia.
Qed.

(** The guarantee of preallocation does not survive [array_setsize(a, 0)]:
    whatever was preallocated beyond 16 slots, the call frees the block and
    resets the capacity, so the next [array_add] fails when memory is short.
    [exorcise] in kern/thread/thread.c empties the zombie array this way,
    which undoes the preallocation [thread_fork] made for it and that
    [mi_switch] relies on. *)
Theorem array_setsize_zero_drops_preallocation {A} km (a : array A) (x : A) :
  wf a -> 16 < a_max a ->
  exists a', array_setsize km a 0 = Ok (0, a') /\ wf a' /\ a_max a' = 0 /\
    array_add false a' x = Ok (ENOMEM, a').
Proof.
  intros Hwf Hmax. pose proof Hwf as (H1 & H2 & H3). exists (mk_array 0 0 None).
  unfold array_setsize.
  rewrite (proj2 (Z.leb_le 0 (a_num a))), (proj2 (Z.leb_le (a_num a) (a_max a))) by lia.
  cbn [andb c_assert]. rewrite Ok_bind.
  rewrite (proj2 (Z.ltb_ge (a_max a) 0)), (proj2 (Z.ltb_lt 16 (a_max a))) by lia. simpl.
  destruct (a_v a) as [l|] eqn:Hl; simpl in *; [|lia].
  split_and!; try done; unfold wf, lim; simpl; lia.
Qed.

Lemma array_setsize_zero_drops_preallocation_witness :
  exists a : array Z, array_preallocate true (mk_array 0 0 None) 17 = Ok (0, a) /\
  exists a', array_setsize true a 0 = Ok (0, a') /\ array_add false a' 1 = Ok (ENOMEM, a').
Proof.
  eexists. split; [vm_compute; reflexivity|].
  edestruct (fun a => array_setsize_zero_drops_preallocation (A := Z) true a 1)
    as (a' & H1 & _ & _ & H2); [| |exists a'; split; [exact H1|exact H2]];
    unfold wf, lim; simpl; lia.
Defined.

End Array.
