(* ===== verification/Queue.v ===== *)
(** * The queue of pointers: kern/lib/queue.c

    [struct queue] is a ring buffer that doubles when it is full.  [q_addtail]
    and [q_grow] call each other, so they are defined with fuel; the fuel of
    [q_addtail] is 2, and [addtail_ok] shows that it is enough (the nested
    calls never grow the queue again).  [km] says, per nesting level, whether
    the [kmalloc] made at that level succeeds. *)

From S2P Require Import Prelude.

(** ** What the queue promises to its clients

    The scheduler uses the run queue through these operations only. *)

Class FifoOps (Q A : Type) := {
  fifo_empty : Q -> bool;
  fifo_addtail : (nat -> bool) -> Q -> A -> outcome (Z * Q);
  fifo_remhead : Q -> outcome (A * Q);
  (** [fifo_repr q xs]: [q] holds [xs], oldest first. *)
  fifo_repr : Q -> list A -> Prop;
  (** How many elements fit before an allocation is needed. *)
  fifo_room : Q -> Z;
}.

Class Fifo (Q A : Type) `{FifoOps Q A} : Prop := {
  fifo_empty_spec q xs : fifo_repr q xs -> fifo_empty q = bool_decide (xs = []);
  fifo_addtail_spec km q xs x :
    fifo_repr q xs -> zlen xs < 134217728 ->
    exists r q', fifo_addtail km q x = Ok (r, q') /\
      (if (zlen xs <? fifo_room q) || km 1%nat
       then r = 0 /\ fifo_repr q' (xs ++ [x]) /\ fifo_room q <= fifo_room q'
       else r = ENOMEM /\ q' = q);
  fifo_remhead_spec q x xs :
    fifo_repr q (x :: xs) ->
    exists q', fifo_remhead q = Ok (x, q') /\ fifo_repr q' xs /\ fifo_room q' = fifo_room q;
}.

Module Queue.

Section Model.
Context {A : Type}.

Record queue : Type := mk_queue {
  q_size : Z;
  q_nextwrite : Z;
  q_nextread : Z;
  q_data : list (option A);
}.

Definition q_create (km1 km2 : bool) (size : Z) : option queue :=
  if negb km1 then None else
  if negb km2 then None else
  Some (mk_queue size 0 0 (kmalloc_ptrs size)).

Definition q_empty (q : queue) : bool := q_nextwrite q =? q_nextread q.

(** [while (nsize < targetsize) { nsize *= 2; assert(nsize > 0); }] *)
Fixpoint nsize_loop (fuel : nat) (nsize targetsize : Z) : outcome Z :=
  match fuel with
  | O => Hang
  | S f =>
      if nsize <? targetsize then
        n2 ← c_int (nsize * 2);
        _ ← c_assert (0 <? n2);
        nsize_loop f n2 targetsize
      else Ok nsize
  end.

(** [for (i=onr; i!=onw; i = (i+1)%osize) { ... q_addtail(q, olddata[i]) }] *)
Fixpoint requeue_loop (fuel : nat) (addtail : queue -> A -> outcome (Z * queue))
    (olddata : list (option A)) (osize onw i : Z) (q : queue) : outcome queue :=
  match fuel with
  | O => Hang
  | S f =>
      if i =? onw then Ok q else
      c ← rd olddata i;
      p ← (match c with Some p => Ok p | None => Undef end);
      '(result, q1) ← addtail q p;
      _ ← c_assert (result =? 0);
      requeue_loop f addtail olddata osize onw (Z.rem (i + 1) osize) q1
  end.

Definition q_grow (addtail : queue -> A -> outcome (Z * queue)) (km : bool)
    (q : queue) (targetsize : Z) : outcome (Z * queue) :=
  nsize ← nsize_loop 33 (q_size q) targetsize;
  if negb km then Ok (ENOMEM, q) else
  q1 ← requeue_loop (S (Z.to_nat (q_size q))) addtail (q_data q) (q_size q)
         (q_nextwrite q) (q_nextread q) (mk_queue nsize 0 0 (kmalloc_ptrs nsize));
  Ok (0, q1).

Fixpoint q_addtail_fuel (fuel : nat) (km : nat -> bool) (q : queue) (ptr : A) :
    outcome (Z * queue) :=
  match fuel with
  | O => Hang
  | S f =>
      _ ← c_assert (0 <? q_size q);
      let nextnext := Z.rem (q_nextwrite q + 1) (q_size q) in
      if nextnext =? q_nextread q then
        t ← c_int (q_size q + 1);
        '(result, q1) ← q_grow (q_addtail_fuel f km) (km f) q t;
        if negb (result =? 0) then Ok (result, q1) else
        let nextnext := Z.rem (q_nextwrite q1 + 1) (q_size q1) in
        data' ← wr (q_data q1) (q_nextwrite q1) (Some ptr);
        Ok (0, mk_queue (q_size q1) nextnext (q_nextread q1) data')
      else
        data' ← wr (q_data q) (q_nextwrite q) (Some ptr);
        Ok (0, mk_queue (q_size q) nextnext (q_nextread q) data')
  end.

Definition q_addtail (km : nat -> bool) (q : queue) (ptr : A) : outcome (Z * queue) :=
  q_addtail_fuel 2 km q ptr.

Definition q_preallocate (km : nat -> bool) (q : queue) (size : Z) :
    outcome (Z * queue) :=
  _ ← c_assert (0 <? q_size q);
  if q_size q <? size then q_grow (q_addtail_fuel 1 km) (km 1%nat) q size
  else Ok (0, q).

Definition q_remhead (q : queue) : outcome (A * queue) :=
  _ ← c_assert (0 <? q_size q);
  _ ← c_assert (negb (q_empty q));
  c ← rd (q_data q) (q_nextread q);
  ret ← (match c with Some p => Ok p | None => Undef end);
  Ok (ret, mk_queue (q_size q) (q_nextwrite q) (Z.rem (q_nextread q + 1) (q_size q)) (q_data q)).

Definition q_destroy (q : queue) : outcome unit := c_assert (q_empty q).

Definition q_getstart (q : queue) : Z := q_nextread q.
Definition q_getend (q : queue) : Z := q_nextwrite q.
Definition q_getsize (q : queue) : Z := q_size q.

Definition q_getguy (q : queue) (index : Z) : outcome A :=
  _ ← c_assert ((0 <=? index) && (index <? q_size q));
  c ← rd (q_data q) index;
  match c with Some p => Ok p | None => Undef end.

(** ** The abstract view *)

(** The sizes for which [int] arithmetic on the buffer does not overflow. *)
Definition qlim : Z := 268435456.

(** [q] represents [xs] (oldest first): the elements stand at the positions
    from [nextread] to [nextwrite], modulo the size. *)
Record repr (q : queue) (xs : list A) : Prop := mk_repr {
  repr_size : 0 < q_size q <= 2 * qlim;
  repr_nr : 0 <= q_nextread q < q_size q;
  repr_nw : q_nextwrite q = (q_nextread q + zlen xs) mod q_size q;
  repr_len : zlen xs < q_size q;
  repr_data : zlen (q_data q) = q_size q;
  repr_cells : forall k x, xs !! k = Some x ->
    q_data q !! Z.to_nat ((q_nextread q + Z.of_nat k) mod q_size q) = Some (Some x);
}.

(** Adding a list of pointers while every allocation fails. *)
Fixpoint addtail_all_nomem (q : queue) (xs : list A) : outcome (Z * queue) :=
  match xs with
  | [] => Ok (0, q)
  | x :: xs' =>
      '(result, q1) ← q_addtail (fun _ => false) q x;
      if result =? 0 then addtail_all_nomem q1 xs' else Ok (result, q1)
  end.

(** Sequences of calls, and what they hand back: an error code for an add,
    the pointer for a remove. *)
Inductive qop : Type :=
| Add (km : nat -> bool) (x : A)
| Rem.

Fixpoint q_run (q : queue) (ops : list qop) : outcome (list (Z + A) * queue) :=
  match ops with
  | [] => Ok ([], q)
  | Add km x :: ops' =>
      '(result, q1) ← q_addtail km q x;
      '(outs, q2) ← q_run q1 ops';
      Ok (inl result :: outs, q2)
  | Rem :: ops' =>
      '(x, q1) ← q_remhead q;
      '(outs, q2) ← q_run q1 ops';
      Ok (inr x :: outs, q2)
  end.

Definition emit (o : Z + A) (r : outcome (list (Z + A) * list A)) :
    outcome (list (Z + A) * list A) :=
  '(outs, ys) ← r; Ok (o :: outs, ys).

(** The specification of kern/include/queue.h on lists: an add appends, or
    fails without effect when memory is short; a remove takes the oldest
    element and panics on the empty queue. *)
Inductive fifo_run : list A -> list qop -> outcome (list (Z + A) * list A) -> Prop :=
| fifo_done xs : fifo_run xs [] (Ok ([], xs))
| fifo_add xs km x ops r :
    fifo_run (xs ++ [x]) ops r -> fifo_run xs (Add km x :: ops) (emit (inl 0) r)
| fifo_add_nomem xs km x ops r :
    km 1%nat = false -> fifo_run xs ops r ->
    fifo_run xs (Add km x :: ops) (emit (inl ENOMEM) r)
| fifo_rem xs x ops r :
    fifo_run xs ops r -> fifo_run (x :: xs) (Rem :: ops) (emit (inr x) r)
| fifo_rem_empty ops : fifo_run [] (Rem :: ops) Panic.

End Model.
Arguments queue A : clear implicits.
Arguments mk_repr {A} q xs.

Section Facts.
Context {A : Type}.
Implicit Types (q : queue A) (xs : list A).

Lemma mod_pred (a b s : Z) :
  0 < s -> 0 <= b - a < s -> a mod s = b mod s -> a = b.
Proof.
  intros Hs Hd Heq. pose proof (Z.div_mod a s). pose proof (Z.div_mod b s).
  assert (s * (b / s - a / s) = b - a) as Hk by lia.
  assert (b / s - a / s < 1) by nia. assert (-1 < b / s - a / s) by nia.
  assert (b / s - a / s = 0) by lia. nia.
Qed.

(** Distinct live positions stay distinct modulo the size. *)
Lemma slot_inj (s b i j : Z) :
  0 < s -> 0 <= i < s -> 0 <= j < s -> (b + i) mod s = (b + j) mod s -> i = j.
Proof.
  intros Hs Hi Hj Heq. destruct (Z.le_ge_cases i j).
  - assert (b + i = b + j); [|lia]. apply (mod_pred _ _ s); [done|lia|done].
  - assert (b + j = b + i); [|lia]. apply (mod_pred _ _ s); [done|lia|done].
Qed.

Lemma slot_bound (s a : Z) : 0 < s -> 0 <= a mod s < s.
Proof. apply Z.mod_pos_bound. Qed.

Lemma repr_nw_bound q xs : repr q xs -> 0 <= q_nextwrite q < q_size q.
Proof. intros []. rewrite repr_nw0. apply slot_bound. lia. Qed.

Lemma rem_slot (a s : Z) : 0 <= a -> 0 < s -> Z.rem a s = a mod s.
Proof. intros. by apply Z.rem_mod_nonneg. Qed.

(** Writing at the tail slot. *)
Lemma repr_push q xs x :
  repr q xs -> zlen xs + 1 < q_size q ->
  repr (mk_queue (q_size q) ((q_nextwrite q + 1) mod q_size q) (q_nextread q)
          (<[Z.to_nat (q_nextwrite q) := Some x]> (q_data q))) (xs ++ [x]).
Proof.
  intros Hr Hlt. pose proof (repr_nw_bound q xs Hr) as Hb.
  destruct Hr as [Hs Hnr Hnw Hl Hd Hc]. constructor; simpl; try done.
  - rewrite length_app, Nat2Z.inj_add, Hnw. simpl.
    rewrite Z.add_mod_idemp_l by lia. f_equal. lia.
  - rewrite length_app, Nat2Z.inj_add. simpl. lia.
  - by rewrite length_insert.
  - intros k y Hk. apply lookup_app_Some in Hk as [Hk|[Hge Hk]].
    + pose proof (lookup_lt_Some _ _ _ Hk).
      rewrite list_lookup_insert_ne; [by apply Hc|].
      intros Heq. apply Z2Nat.inj in Heq; [|lia|apply slot_bound; lia].
      rewrite Hnw in Heq. apply slot_inj in Heq; lia.
    + assert (k = length xs) as ->.
      { apply lookup_lt_Some in Hk. simpl in Hk. lia. }
      rewrite Nat.sub_diag in Hk. injection Hk as <-.
      rewrite Hnw. apply list_lookup_insert_eq.
      pose proof (slot_bound (q_size q) (q_nextread q + zlen xs)). lia.
Qed.

Lemma addtail_S f km q ptr :
  q_addtail_fuel (A := A) (S f) km q ptr =
    _ ← c_assert (0 <? q_size q);
    let nextnext := Z.rem (q_nextwrite q + 1) (q_size q) in
    if nextnext =? q_nextread q then
      t ← c_int (q_size q + 1);
      '(result, q1) ← q_grow (q_addtail_fuel f km) (km f) q t;
      if negb (result =? 0) then Ok (result, q1) else
      let nextnext := Z.rem (q_nextwrite q1 + 1) (q_size q1) in
      data' ← wr (q_data q1) (q_nextwrite q1) (Some ptr);
      Ok (0, mk_queue (q_size q1) nextnext (q_nextread q1) data')
    else
      data' ← wr (q_data q) (q_nextwrite q) (Some ptr);
      Ok (0, mk_queue (q_size q) nextnext (q_nextread q) data').
Proof. done. Qed.

Lemma addtail_room f km q xs x :
  repr q xs -> zlen xs + 1 < q_size q ->
  exists q', q_addtail_fuel (S f) km q x = Ok (0, q') /\ repr q' (xs ++ [x]) /\
    q_size q' = q_size q.
Proof.
  intros Hr Hlt. pose proof (repr_nw_bound q xs Hr) as Hb.
  pose proof (repr_push q xs x Hr Hlt) as Hp.
  destruct Hr as [Hs Hnr Hnw Hl Hd Hc]. rewrite addtail_S.
  rewrite (proj2 (Z.ltb_lt 0 (q_size q))) by lia. runs.
  rewrite rem_slot by lia. cbv zeta.
  destruct (Z.eqb_spec ((q_nextwrite q + 1) mod q_size q) (q_nextread q)) as [Heq|Hne].
  - exfalso. rewrite Hnw, Z.add_mod_idemp_l in Heq by lia.
    rewrite <- (Z.mod_small (q_nextread q) (q_size q)) in Heq at 2 by lia.
    rewrite <- Z.add_assoc in Heq.
    rewrite <- (Z.add_0_r (q_nextread q)) in Heq at 2.
    apply slot_inj in Heq; lia.
  - rewrite wr_in by lia. rewrite Ok_bind. eauto.
Qed.

Lemma nsize_loop_ok (f : nat) n t :
  0 < n <= 2 * qlim -> t <= qlim -> t <= n * 2 ^ Z.of_nat f ->
  exists m, nsize_loop (S f) n t = Ok m /\ t <= m /\ n <= m <= 2 * qlim.
Proof.
  revert n. induction f as [|f IH]; intros n Hn Ht Hf;
    cbn [nsize_loop]; destruct (Z.ltb_spec n t);
    [|exists n; split; [done|lia]| |exists n; split; [done|lia]].
  { change (2 ^ Z.of_nat 0) with 1 in Hf. lia. }
  rewrite c_int_id by (unfold qlim, int_min, int_max in *; lia). rewrite Ok_bind.
  rewrite (proj2 (Z.ltb_lt 0 (n * 2))) by lia. cbn [c_assert]. rewrite Ok_bind.
  destruct (IH (n * 2)) as (m & H1 & H2 & H3); [lia|lia| |].
  { rewrite Nat2Z.inj_succ, Z.pow_succ_r in Hf by lia. lia. }
  exists m. split; [exact H1|lia].
Qed.

Lemma requeue_S f addtail old os onw i q :
  requeue_loop (A := A) (S f) addtail old os onw i q =
    if i =? onw then Ok q else
    c ← rd old i;
    p ← (match c with Some p => Ok p | None => Undef end);
    '(result, q1) ← addtail q p;
    _ ← c_assert (result =? 0);
    requeue_loop f addtail old os onw (Z.rem (i + 1) os) q1.
Proof. done. Qed.

(** The copy loop of [q_grow] moves the elements over in order.  [i] is the
    slot of the first element not yet moved. *)
Lemma requeue_ok f km q xs (n j : nat) q1 :
  repr q xs -> repr q1 (take j xs) -> (j + n = length xs)%nat -> zlen xs < q_size q1 ->
  exists q2, requeue_loop (S n) (q_addtail_fuel (S f) km) (q_data q) (q_size q)
      (q_nextwrite q) ((q_nextread q + Z.of_nat j) mod q_size q) q1 = Ok q2 /\
    repr q2 xs /\ q_size q2 = q_size q1.
Proof.
  intros Hr. pose proof Hr as [Hs Hnr Hnw Hl Hd Hc].
  revert j q1. induction n as [|n IH]; intros j q1 Hr1 Hj Hlen.
  - exists q1. rewrite requeue_S, Hnw.
    replace (Z.of_nat j) with (zlen xs) by lia. rewrite Z.eqb_refl.
    by rewrite take_ge in Hr1 by lia.
  - rewrite requeue_S.
    destruct (Z.eqb_spec ((q_nextread q + Z.of_nat j) mod q_size q) (q_nextwrite q)) as [He|Hne].
    { exfalso. rewrite Hnw in He. apply slot_inj in He; lia. }
    destruct (lookup_lt_is_Some_2 xs j) as [x Hx]; [lia|].
    rewrite (proj2 (rd_Some _ _ (Some x)))
      by (split; [apply slot_bound; lia|by apply Hc]).
    rewrite !Ok_bind.
    destruct (addtail_room f km q1 (take j xs) x Hr1) as (q1' & -> & Hr1' & Hsz).
    { rewrite length_take. lia. }
    runs. rewrite <- (take_S_r _ _ _ Hx) in Hr1'.
    rewrite rem_slot by (pose proof (slot_bound (q_size q) (q_nextread q + Z.of_nat j)); lia).
    rewrite Z.add_mod_idemp_l by lia.
    replace (q_nextread q + Z.of_nat j + 1) with (q_nextread q + Z.of_nat (S j)) by lia.
    destruct (IH (S j) q1' Hr1') as (q2 & H1 & H2 & H3); [lia|lia|].
    exists q2. split_and!; [exact H1|done|lia].
Qed.

Lemma requeue_more f addtail old os onw i q q' (g : nat) :
  requeue_loop (A := A) f addtail old os onw i q = Ok q' ->
  requeue_loop (f + g) addtail old os onw i q = Ok q'.
Proof.
  revert i q. induction f as [|f IH]; intros i q; [done|].
  rewrite Nat.add_succ_l, !requeue_S. case_match; [done|].
  intros (c & -> & H')%bind_Ok. rewrite Ok_bind.
  apply bind_Ok in H' as (p & Hp & H'). rewrite Hp, Ok_bind.
  apply bind_Ok in H' as ([r q1] & -> & H'). rewrite Ok_bind.
  apply bind_Ok in H' as (u & -> & H'). rewrite Ok_bind. by apply IH.
Qed.

Lemma grow_ok f km (b : bool) q xs t :
  repr q xs -> t <= qlim -> zlen xs < t ->
  exists r q', q_grow (q_addtail_fuel (S f) km) b q t = Ok (r, q') /\
    (if b then r = 0 /\ repr q' xs /\ t <= q_size q' /\ q_size q <= q_size q'
     else r = ENOMEM /\ q' = q).
Proof.
  intros Hr Ht Hlen. pose proof Hr as [Hs Hnr Hnw Hl Hd Hc]. unfold q_grow.
  destruct (nsize_loop_ok 32 (q_size q) t) as (m & Hm & Hge & Hle); [lia|lia| |].
  { change (2 ^ Z.of_nat 32) with 4294967296. unfold qlim in *. lia. }
  rewrite Hm, Ok_bind. destruct b; [|exists ENOMEM, q; done]. cbn [negb].
  set (q0 := mk_queue m 0 0 (kmalloc_ptrs m)).
  assert (repr q0 (take 0 xs)) as H0.
  { constructor; simpl; try done; try lia.
    apply length_kmalloc_ptrs. unfold qlim in *. lia. }
  destruct (requeue_ok f km q xs (length xs) 0 q0 Hr H0) as (q2 & H1 & H2 & H3);
    [lia|simpl; lia|].
  rewrite Z.add_0_r, Z.mod_small in H1 by lia.
  apply (requeue_more _ _ _ _ _ _ _ _ (Z.to_nat (q_size q) - length xs)) in H1.
  replace (S (length xs) + _)%nat with (S (Z.to_nat (q_size q))) in H1 by lia.
  rewrite H1, Ok_bind. exists 0, q2. simpl in H3. split_and!; [done|done|done|lia|lia].
Qed.

(** [q_addtail], both branches; the fuel is enough. *)
Lemma addtail_ok km q xs x :
  repr q xs -> zlen xs < 134217728 ->
  exists r q', q_addtail km q x = Ok (r, q') /\
    (if (zlen xs <? q_size q - 1) || km 1%nat
     then r = 0 /\ repr q' (xs ++ [x]) /\ q_size q <= q_size q'
     else r = ENOMEM /\ q' = q).
Proof.
  intros Hr Hb. destruct (Z.ltb_spec (zlen xs) (q_size q - 1)) as [Hlt|Hge].
  - destruct (addtail_room 1 km q xs x Hr) as (q' & H1 & H2 & H3); [lia|].
    exists 0, q'. simpl. split_and!; [done|done|done|lia].
  - pose proof (repr_nw_bound q xs Hr) as Hbd. pose proof Hr as [Hs Hnr Hnw Hl Hd Hc].
    unfold q_addtail. rewrite addtail_S, (proj2 (Z.ltb_lt 0 (q_size q))) by lia.
    runs. rewrite rem_slot by lia. cbv zeta.
    rewrite (proj2 (Z.eqb_eq ((q_nextwrite q + 1) mod q_size q) (q_nextread q))).
    2: { rewrite Hnw, Z.add_mod_idemp_l by lia.
         replace (q_nextread q + zlen xs + 1) with (q_nextread q + 1 * q_size q) by lia.
         rewrite Z.mod_add by lia. by apply Z.mod_small. }
    rewrite c_int_id by (unfold int_min, int_max; lia). rewrite Ok_bind.
    destruct (grow_ok 0 km (km 1%nat) q xs (q_size q + 1) Hr) as (r & q1 & Hg & Hq1);
      [unfold qlim; lia|lia|].
    rewrite Hg, Ok_bind. cbn [orb]. destruct (km 1%nat); [|destruct Hq1 as [-> ->]; exists ENOMEM, q; done].
    destruct Hq1 as (-> & Hr1 & Hsz & _). runs.
    pose proof (repr_nw_bound q1 xs Hr1) as Hb1. pose proof Hr1 as [Hs1 _ _ _ Hd1 _].
    rewrite rem_slot by lia. rewrite wr_in by lia. rewrite Ok_bind.
    do 2 eexists. split; [reflexivity|]. split_and!; [done| |simpl; lia].
    apply repr_push; [done|lia].
Qed.

Lemma remhead_ok q x xs :
  repr q (x :: xs) ->
  exists q', q_remhead q = Ok (x, q') /\ repr q' xs /\ q_size q' = q_size q.
Proof.
  intros Hr. pose proof (repr_nw_bound _ _ Hr) as Hb.
  destruct Hr as [Hs Hnr Hnw Hl Hd Hc]. cbn [length] in *. unfold q_remhead, q_empty.
  rewrite (proj2 (Z.ltb_lt 0 (q_size q))) by lia. cbn [c_assert]. rewrite Ok_bind.
  rewrite (proj2 (Z.eqb_neq (q_nextwrite q) (q_nextread q))).
  2: { intros Heq. rewrite Hnw in Heq.
       rewrite <- (Z.mod_small (q_nextread q) (q_size q)) in Heq at 2 by lia.
       rewrite <- (Z.add_0_r (q_nextread q)) in Heq at 2.
       apply slot_inj in Heq; lia. }
  simpl c_assert. rewrite Ok_bind.
  pose proof (Hc 0%nat x eq_refl) as H0. rewrite Z.add_0_r, Z.mod_small in H0 by lia.
  rewrite (proj2 (rd_Some _ _ (Some x))) by (split; [lia|done]). rewrite !Ok_bind.
  rewrite rem_slot by lia. eexists. split; [reflexivity|]. split; [|done].
  constructor; simpl; try done; try lia.
  - apply slot_bound. lia.
  - rewrite Hnw, Z.add_mod_idemp_l by lia. f_equal. lia.
  - intros k y Hk. rewrite Z.add_mod_idemp_l by lia.
    replace (q_nextread q + 1 + Z.of_nat k) with (q_nextread q + Z.of_nat (S k)) by lia.
    by apply Hc.
Qed.

Lemma empty_ok q xs : repr q xs -> q_empty q = bool_decide (xs = []).
Proof.
  intros [Hs Hnr Hnw Hl Hd Hc]. unfold q_empty.
  destruct xs as [|x xs].
  - rewrite bool_decide_true by done. apply Z.eqb_eq. rewrite Hnw, Z.add_0_r.
    by apply Z.mod_small.
  - rewrite bool_decide_false by done. apply Z.eqb_neq. intros Heq. rewrite Hnw in Heq.
    rewrite <- (Z.mod_small (q_nextread q) (q_size q)) in Heq at 2 by lia.
    rewrite <- (Z.add_0_r (q_nextread q)) in Heq at 2.
    cbn [length] in *. apply slot_inj in Heq; lia.
Qed.

Lemma create_repr n q :
  0 < n <= 2 * qlim -> q_create (A := A) true true n = Some q -> repr q [].
Proof.
  intros Hn [= <-]. constructor; simpl; try done; try lia.
  apply length_kmalloc_ptrs. unfold qlim in *. lia.
Qed.

Lemma q_run_sim ops : forall q xs,
  repr q xs -> zlen xs + zlen ops < 134217728 ->
  exists r, fifo_run xs ops r /\
    match r with
    | Ok (outs, ys) => exists q', q_run q ops = Ok (outs, q') /\ repr q' ys
    | Panic => q_run q ops = Panic
    | _ => False
    end.
Proof.
  induction ops as [|op ops IH]; intros q xs Hr Hb.
  { exists (Ok ([], xs)). split; [constructor|]. by exists q. }
  cbn [length] in Hb. destruct op as [km x|]; cbn [q_run].
  - destruct (addtail_ok km q xs x Hr) as (r1 & q1 & -> & Hq1); [lia|]. rewrite Ok_bind.
    destruct ((zlen xs <? q_size q - 1) || km 1%nat) eqn:Hroom.
    + destruct Hq1 as (-> & Hr1 & _).
      destruct (IH q1 (xs ++ [x]) Hr1) as (r & Hs & Hm).
      { rewrite length_app. simpl. lia. }
      exists (emit (inl 0) r). split; [by constructor|]. destruct r as [[outs ys]| | |]; try done.
      * destruct Hm as (q' & -> & Hq'). exists q'. by runs.
      * by rewrite Hm.
    + destruct Hq1 as (-> & ->). apply orb_false_iff in Hroom as [_ Hkm].
      destruct (IH q xs Hr) as (r & Hs & Hm); [lia|].
      exists (emit (inl ENOMEM) r). split; [by constructor|]. destruct r as [[outs ys]| | |]; try done.
      * destruct Hm as (q' & -> & Hq'). exists q'. by runs.
      * by rewrite Hm.
  - destruct xs as [|x xs].
    + exists Panic. split; [constructor|]. unfold q_remhead.
      rewrite (empty_ok q [] Hr), bool_decide_true by done. destruct Hr as [Hs _ _ _ _ _].
      rewrite (proj2 (Z.ltb_lt 0 (q_size q))) by lia. done.
    + destruct (remhead_ok q x xs Hr) as (q1 & -> & Hr1 & _). rewrite Ok_bind.
      destruct (IH q1 xs Hr1) as (r & Hs & Hm); [simpl in Hb; lia|].
      exists (emit (inr x) r). split; [by constructor|]. destruct r as [[outs ys]| | |]; try done.
      * destruct Hm as (q' & -> & Hq'). exists q'. by runs.
      * by rewrite Hm.
Qed.

(** C37. The ring buffer implements the FIFO specification: any sequence of
    [q_addtail] and [q_remhead] calls on a fresh queue hands back exactly what
    the specification allows on a list, through every wrap-around and growth,
    with allocations failing at arbitrary points; the only panic is the
    removal from an empty queue, and [q_addtail] always returns. *)
Theorem queue_refines_fifo n q (ops : list (qop (A := A))) :
  0 < n <= 2 * qlim -> q_create true true n = Some q -> zlen ops < 134217728 ->
  exists r, fifo_run [] ops r /\
    match r with
    | Ok (outs, ys) => exists q', q_run q ops = Ok (outs, q') /\ repr q' ys
    | Panic => q_run q ops = Panic
    | _ => False
    end.
Proof. intros Hn Hq Hops. apply q_run_sim; [by eapply create_repr|done]. Qed.

Lemma addtail_all_nomem_run xs : forall q ys,
  repr q ys -> zlen ys + zlen xs < q_size q -> zlen ys + zlen xs < 134217728 ->
  exists q', addtail_all_nomem q xs = Ok (0, q') /\ repr q' (ys ++ xs) /\ q_size q' = q_size q.
Proof.
  induction xs as [|x xs IH]; intros q ys Hr Hlt Hb; cbn [addtail_all_nomem length] in *.
  { exists q. by rewrite app_nil_r. }
  destruct (addtail_room 1 (fun _ => false) q ys x Hr) as (q1 & H1 & Hr1 & Hsz); [lia|].
  unfold q_addtail. rewrite H1. runs.
  destruct (IH q1 (ys ++ [x]) Hr1) as (q' & H2 & H3 & H4);
    [rewrite length_app; simpl; lia|rewrite length_app; simpl; lia|].
  exists q'. rewrite <- (assoc_L (++)) in H3. split_and!; [done|done|lia].
Qed.

(** What [q_preallocate] guarantees is one element less than it is asked
    for: preallocating an empty queue for its size [n] succeeds and changes
    nothing, [n-1] pointers can then be added with every allocation failing,
    and the [n]-th returns ENOMEM.  [thread_fork] preallocates
    [numthreads+1] slots of the run queue so that [make_runnable] "should not
    fail", and a queue that holds every thread needs one slot more. *)
Theorem q_preallocate_one_short km q xs x :
  repr q [] -> zlen xs + 1 = q_size q -> q_size q < 134217728 ->
  exists q1, q_preallocate (A := A) km q (q_size q) = Ok (0, q) /\
    addtail_all_nomem q xs = Ok (0, q1) /\ repr q1 xs /\
    q_addtail (fun _ => false) q1 x = Ok (ENOMEM, q1).
Proof.
  intros Hr Hlen Hb. pose proof Hr as [Hs _ _ _ _ _].
  destruct (addtail_all_nomem_run xs q [] Hr) as (q1 & H1 & Hr1 & Hsz); [simpl; lia|simpl; lia|].
  exists q1. split_and!; [|done|done|].
  - unfold q_preallocate. rewrite (proj2 (Z.ltb_lt 0 (q_size q))) by lia. runs.
    by rewrite Z.ltb_irrefl.
  - destruct (addtail_ok (fun _ => false) q1 xs x Hr1) as (r & q2 & H2 & H3); [lia|].
    rewrite (proj2 (Z.ltb_ge (zlen xs) (q_size q1 - 1))) in H3 by lia.
    cbn [orb] in H3. by destruct H3 as [-> ->].
Qed.

End Facts.

(** The queue discharges the interface of the run queue. *)
#[export] Instance queue_fifo_ops A : FifoOps (queue A) A := {
  fifo_empty := q_empty;
  fifo_addtail := q_addtail;
  fifo_remhead := q_remhead;
  fifo_repr := repr;
  fifo_room := fun q => q_size q - 1;
}.

#[export] Instance queue_fifo A : Fifo (queue A) A.
Proof.
  split.
  - apply empty_ok.
  - intros km q xs x Hr Hb. destruct (addtail_ok km q xs x Hr Hb) as (r & q' & H1 & H2).
    exists r, q'. split; [exact H1|]. simpl. case_match; [|done].
    destruct H2 as (? & ? & ?). split_and!; [done|done|lia].
  - intros q x xs Hr. destruct (remhead_ok q x xs Hr) as (q' & H1 & H2 & H3).
    exists q'. split_and!; [done|done|simpl; lia].
Qed.

Lemma queue_refines_fifo_witness :
  exists q q' : queue Z, q_create true true 2 = Some q /\
    q_run q [Add (fun _ => true) 5; Add (fun _ => false) 6; Add (fun _ => true) 7; Rem; Rem]
      = Ok ([inl 0; inl ENOMEM; inl 0; inr 5; inr 7], q') /\ repr q' [].
Proof.
  eexists. eexists. split; [reflexivity|].
  edestruct (fun q => queue_refines_fifo (A := Z) 2 q
    [Add (fun _ => true) 5; Add (fun _ => false) 6; Add (fun _ => true) 7; Rem; Rem])
    as (r & _ & Hm); [unfold qlim; lia|reflexivity|simpl; lia|].
  destruct r as [[outs ys]| | |]; [|by vm_compute in Hm..].
  destruct Hm as (q' & Hrun & Hr). vm_compute in Hrun. injection Hrun as <- <-.
  split; [vm_compute; reflexivity|]. destruct ys as [|y ys]; [exact Hr|].
  exfalso. pose proof (repr_nw _ _ Hr) as Hnw. pose proof (repr_len _ _ Hr) as Hlen.
  simpl in Hnw, Hlen. Z.to_euclidean_division_equations; lia.
Defined.

Lemma q_preallocate_one_short_witness :
  exists q q1 : queue Z, q_create true true 2 = Some q /\
    q_preallocate (fun _ => true) q 2 = Ok (0, q) /\
    addtail_all_nomem q [5] = Ok (0, q1) /\
    q_addtail (fun _ => false) q1 6 = Ok (ENOMEM, q1).
Proof.
  pose (q := mk_queue (A := Z) 2 0 0 [None; None]).
  destruct (q_preallocate_one_short (fun _ => true) q [5] 6) as (q1 & H1 & H2 & _ & H3);
    [|simpl; lia|simpl; lia|].
  { by apply (create_repr 2); [unfold qlim; lia|]. }
  exists q, q1. by split_and!.
Defined.

End Queue.
