(* ===== verification/Bitmap.v ===== *)
(** * Bitmaps: kern/lib/bitmap.c

    Arrays of bits stored in bytes, with allocation of the lowest clear bit.
    The on-disk free map of SFS is such a bitmap.  A [WORD_TYPE] is a byte,
    held as a [Z] between 0 and 255; indices are 32-bit and wrap. *)

From S2P Require Import Prelude.

Ltac Zify.zify_post_hook ::= Z.to_euclidean_division_equations.

Module Bitmap.

Definition BITS_PER_WORD : Z := 8.
Definition WORD_ALLBITS : Z := 255.

(** Conversion to [unsigned char]. *)
Definition byte (z : Z) : Z := z mod 256.

(** [DIVROUNDUP] at type [u_int32_t]. *)
Definition DIVROUNDUP (a b : Z) : Z := u32 (u32 (a + b) - 1) / b.

Record bitmap : Type := mk_bitmap {
  nbits : Z;
  v : list Z;
}.

Definition set_v (b : bitmap) (v' : list Z) : bitmap := mk_bitmap (nbits b) v'.

(** [for (j=overbits; j<BITS_PER_WORD; j++) b->v[ix] |= 1<<j], [n] rounds. *)
Fixpoint mark_overbits (n : nat) (vs : list Z) (ix j : Z) : outcome (list Z) :=
  match n with
  | O => Ok vs
  | S n' =>
      w ← rd vs ix;
      vs' ← wr vs ix (byte (Z.lor w (Z.shiftl 1 j)));
      mark_overbits n' vs' ix (j + 1)
  end.

(** [km1], [km2]: whether the two allocations succeed. *)
Definition bitmap_create (km1 km2 : bool) (nbits : Z) : outcome (option bitmap) :=
  let words := DIVROUNDUP nbits BITS_PER_WORD in
  if negb km1 then Ok None
  else if negb km2 then Ok None
  else
    let vs := replicate (Z.to_nat words) 0 in
    if nbits / BITS_PER_WORD <? words then
      let ix := u32 (words - 1) in
      let overbits := u32 (nbits - u32 (ix * BITS_PER_WORD)) in
      _ ← c_assert (nbits / BITS_PER_WORD =? u32 (words - 1));
      _ ← c_assert ((overbits >? 0) && (overbits <? BITS_PER_WORD));
      vs' ← mark_overbits (Z.to_nat (BITS_PER_WORD - overbits)) vs ix overbits;
      Ok (Some (mk_bitmap nbits vs'))
    else Ok (Some (mk_bitmap nbits vs)).

Definition bitmap_getdata (b : bitmap) : list Z := v b.

(** The inner loop of [bitmap_alloc], with [n] values of [offset] left;
    [None] when it ends without finding a clear bit. *)
Fixpoint alloc_bits (n : nat) (b : bitmap) (ix offset : Z) : outcome (option (Z * bitmap)) :=
  match n with
  | O => Ok None
  | S n' =>
      let mask := byte (Z.shiftl 1 offset) in
      w ← rd (v b) ix;
      if Z.land w mask =? 0 then
        v' ← wr (v b) ix (byte (Z.lor w mask));
        let index := u32 (u32 (ix * BITS_PER_WORD) + offset) in
        _ ← c_assert (index <? nbits b);
        Ok (Some (index, set_v b v'))
      else alloc_bits n' b ix (offset + 1)
  end.

(** The outer loop, with [n] words left. *)
Fixpoint alloc_words (n : nat) (b : bitmap) (ix : Z) : outcome (Z * option Z * bitmap) :=
  match n with
  | O => Ok (ENOSPC, None, b)
  | S n' =>
      w ← rd (v b) ix;
      if negb (w =? WORD_ALLBITS) then
        r ← alloc_bits (Z.to_nat BITS_PER_WORD) b ix 0;
        match r with
        | Some (index, b') => Ok (0, Some index, b')
        | None => Panic
        end
      else alloc_words n' b (ix + 1)
  end.

(** The result code, what was stored through [index], and the new bitmap. *)
Definition bitmap_alloc (b : bitmap) : outcome (Z * option Z * bitmap) :=
  alloc_words (Z.to_nat (DIVROUNDUP (nbits b) BITS_PER_WORD)) b 0.

Definition bitmap_translate (bitno : Z) : Z * Z :=
  (bitno / BITS_PER_WORD, byte (Z.shiftl 1 (bitno mod BITS_PER_WORD))).

Definition bitmap_mark (b : bitmap) (index : Z) : outcome bitmap :=
  _ ← c_assert (index <? nbits b);
  let '(ix, mask) := bitmap_translate index in
  w ← rd (v b) ix;
  _ ← c_assert (Z.land w mask =? 0);
  v' ← wr (v b) ix (byte (Z.lor w mask));
  Ok (set_v b v').

Definition bitmap_unmark (b : bitmap) (index : Z) : outcome bitmap :=
  _ ← c_assert (index <? nbits b);
  let '(ix, mask) := bitmap_translate index in
  w ← rd (v b) ix;
  _ ← c_assert (negb (Z.land w mask =? 0));
  v' ← wr (v b) ix (byte (Z.land w (Z.lnot mask)));
  Ok (set_v b v').

Definition bitmap_isset (b : bitmap) (index : Z) : outcome Z :=
  let '(ix, mask) := bitmap_translate index in
  w ← rd (v b) ix;
  Ok (Z.land w mask).

(** ** The abstract view: bit [i], and the representation invariant *)

Definition bit (b : bitmap) (i : Z) : bool :=
  match v b !! Z.to_nat (i / 8) with
  | Some w => Z.testbit w (i mod 8)
  | None => false
  end.

(** Bytes are bytes, there are just enough of them, and the bits past [nbits]
    in the last one are marked in use. *)
Definition wf (b : bitmap) : Prop :=
  0 <= nbits b <= 4294967288 /\ zlen (v b) = (nbits b + 7) / 8 /\
  Forall (fun w => 0 <= w < 256) (v b) /\
  (forall i, nbits b <= i < 8 * zlen (v b) -> bit b i = true).

(** ** Bits of a byte *)

Lemma byte_small w : 0 <= w < 256 -> byte w = w.
Proof. apply Z.mod_small. Qed.

Lemma mask_eq k : 0 <= k < 8 -> byte (Z.shiftl 1 k) = 2 ^ k.
Proof.
  intros Hk. rewrite Z.shiftl_1_l. apply byte_small.
  split; [lia|]. apply (Z.pow_lt_mono_r 2 k 8); lia.
Qed.

Lemma lor_mask_byte w k : 0 <= w < 256 -> 0 <= k < 8 -> 0 <= Z.lor w (2 ^ k) < 256.
Proof. apply (lor_mask_width 8). Qed.

Lemma ldiff_mask_byte w k : 0 <= w < 256 -> 0 <= k < 8 -> 0 <= Z.land w (Z.lnot (2 ^ k)) < 256.
Proof. apply (ldiff_mask_width 8). Qed.

Lemma byte_full w : 0 <= w < 256 -> (forall k, 0 <= k < 8 -> Z.testbit w k = true) -> w = 255.
Proof. intros Hw Hb. by apply (ones_full 8 w Hw). Qed.

Lemma full_byte k : 0 <= k < 8 -> Z.testbit 255 k = true.
Proof. intros. change 255 with (Z.ones 8). apply Z.ones_spec_low. lia. Qed.

(** ** Words of a bitmap *)

Lemma wf_words b : wf b -> DIVROUNDUP (nbits b) BITS_PER_WORD = zlen (v b).
Proof.
  intros (Hn & Hl & _). unfold DIVROUNDUP, BITS_PER_WORD.
  rewrite Hl. unfold u32, u32_mod. lia.
Qed.

Lemma wf_rd b ix :
  wf b -> 0 <= ix < zlen (v b) ->
  exists w, rd (v b) ix = Ok w /\ 0 <= w < 256 /\
    forall k, 0 <= k < 8 -> bit b (8 * ix + k) = Z.testbit w k.
Proof.
  intros (_ & _ & Hb & _) Hix. destruct (rd_in (v b) ix Hix) as (w & Hw & Hl).
  exists w. split_and!; [done|by apply (Forall_lookup_1 _ _ _ _ Hb Hl)..|].
  intros k Hk. unfold bit. replace ((8 * ix + k) / 8) with ix by lia.
  rewrite Hl. f_equal. lia.
Qed.

Lemma bit_word b i :
  wf b -> 0 <= i < nbits b -> 0 <= i / 8 < zlen (v b).
Proof. intros (Hn & Hl & _) Hi. rewrite Hl. lia. Qed.

(** Storing a byte that differs from the old one in bit [i] only. *)
Lemma update_bit b i x w w' :
  wf b -> 0 <= i < nbits b -> rd (v b) (i / 8) = Ok w -> 0 <= w' < 256 ->
  (forall k, 0 <= k < 8 -> Z.testbit w' k = if k =? i mod 8 then x else Z.testbit w k) ->
  exists v', wr (v b) (i / 8) (byte w') = Ok v' /\ wf (set_v b v') /\
    forall j, 0 <= j -> bit (set_v b v') j = if j =? i then x else bit b j.
Proof.
  intros Hwf Hi Hw Hw' Hbits. pose proof (bit_word b i Hwf Hi) as Hix.
  rewrite wr_in, byte_small by done. eexists. split; [done|].
  set (b' := set_v b _).
  assert (forall j, 0 <= j -> bit b' j = if j =? i then x else bit b j) as Hbit.
  { intros j Hj. unfold bit, b'. simpl. apply rd_Some in Hw as [_ Hw].
    destruct (decide (j / 8 = i / 8)) as [He|He].
    - rewrite He, list_lookup_insert_eq by lia. rewrite Hw, Hbits by lia.
      destruct (Z.eqb_spec j i), (Z.eqb_spec (j mod 8) (i mod 8)); try done; lia.
    - rewrite list_lookup_insert_ne by lia. destruct (Z.eqb_spec j i) as [->|]; done. }
  split; [|done]. destruct Hwf as (Hn & Hl & Hb & Hpad). split_and!; simpl.
  - lia.
  - lia.
  - by rewrite length_insert.
  - by apply Forall_insert.
  - rewrite length_insert. intros j Hj. rewrite Hbit by lia.
    destruct (Z.eqb_spec j i); [lia|by apply Hpad].
Qed.

(** The inner loop started at the lowest clear bit or below it. *)
Lemma alloc_bits_run b ix w : forall n offset,
  wf b -> 0 <= ix < zlen (v b) -> rd (v b) ix = Ok w -> 0 <= w < 256 -> w <> 255 ->
  0 <= offset -> offset + Z.of_nat n = 8 ->
  (forall k, 0 <= k < offset -> Z.testbit w k = true) ->
  exists i b', alloc_bits n b ix offset = Ok (Some (i, b')) /\
    i / 8 = ix /\ 0 <= i < nbits b /\ bit b i = false /\
    (forall k, 0 <= k < i mod 8 -> Z.testbit w k = true) /\ wf b' /\ nbits b' = nbits b /\
    forall j, 0 <= j -> bit b' j = if j =? i then true else bit b j.
Proof.
  intros n. induction n as [|n IH]; intros offset Hwf Hix Hw Hw8 Hne Ho Hn Hlow.
  { destruct Hne. apply byte_full; [done|]. intros k Hk. apply Hlow. lia. }
  cbn [alloc_bits]. rewrite Hw, Ok_bind, mask_eq, land_mask by lia.
  destruct (Z.testbit w offset) eqn:E; cbn [negb].
  { apply IH; try done; try lia. intros k Hk.
    destruct (decide (k = offset)) as [->|]; [done|]. apply Hlow. lia. }
  set (i := 8 * ix + offset).
  assert (i / 8 = ix) as Hi8 by (unfold i; lia).
  assert (i mod 8 = offset) as Him by (unfold i; lia).
  destruct (wf_rd b ix Hwf Hix) as (w2 & Hw2 & _ & Hbit). rewrite Hw in Hw2.
  injection Hw2 as <-.
  assert (bit b i = false) as Hfree by (unfold i; rewrite Hbit by lia; done).
  assert (0 <= i < nbits b) as Hib.
  { destruct Hwf as (_ & _ & _ & Hpad). unfold i in *.
    destruct (Z.lt_ge_cases (8 * ix + offset) (nbits b)); [lia|].
    rewrite Hpad in Hfree by lia. done. }
  destruct (update_bit b i true w (Z.lor w (2 ^ offset))) as (v' & Hv & Hwf' & Hb');
    [done|done|by rewrite Hi8|apply lor_mask_byte; lia| |].
  { intros k Hk. rewrite lor_mask_bits, Him by lia. destruct (k =? offset); [apply orb_true_r|].
    apply orb_false_r. }
  rewrite Hi8 in Hv. rewrite Hv, Ok_bind. destruct Hwf as (Hn2 & _).
  rewrite (u32_id (ix * BITS_PER_WORD)), u32_id; unfold u32_mod, BITS_PER_WORD; try lia.
  replace (ix * 8 + offset) with i by (unfold i; lia).
  rewrite (proj2 (Z.ltb_lt i (nbits b))) by lia. runs.
  exists i, (set_v b v'). rewrite Him. by split_and!; try lia.
Qed.

(** The outer loop, when the words before [ix] are full. *)
Lemma alloc_words_run b : forall n ix,
  wf b -> 0 <= ix -> ix + Z.of_nat n = zlen (v b) ->
  (forall j, 0 <= j < 8 * ix -> bit b j = true) ->
  (exists i b', alloc_words n b ix = Ok (0, Some i, b') /\
     0 <= i < nbits b /\ bit b i = false /\ (forall j, 0 <= j < i -> bit b j = true) /\
     wf b' /\ nbits b' = nbits b /\ forall j, 0 <= j -> bit b' j = if j =? i then true else bit b j) \/
  (alloc_words n b ix = Ok (ENOSPC, None, b) /\
     forall i, 0 <= i < nbits b -> bit b i = true).
Proof.
  intros n. induction n as [|n IH]; intros ix Hwf Hix Hn Hlow; cbn [alloc_words].
  { right. split; [done|]. intros i Hi. apply Hlow. pose proof (bit_word b i Hwf Hi). lia. }
  destruct (wf_rd b ix Hwf) as (w & Hw & Hw8 & Hbit); [lia|]. rewrite Hw, Ok_bind.
  destruct (Z.eqb_spec w WORD_ALLBITS) as [->|Hne]; cbn [negb].
  - apply IH; try done; try lia. intros j Hj. destruct (Z.lt_ge_cases j (8 * ix)).
    { apply Hlow. lia. }
    replace j with (8 * ix + (j - 8 * ix)) by lia. rewrite Hbit by lia. apply full_byte. lia.
  - left. destruct (alloc_bits_run b ix w 8 0) as (i & b' & Ha & H8 & Hi & Hf & Hk & Hr);
      try done; try lia.
    change (Z.to_nat BITS_PER_WORD) with 8%nat. rewrite Ha. runs.
    exists i, b'. split_and!; try done; try lia; try apply Hr.
    intros j Hj. destruct (Z.lt_ge_cases j (8 * ix)); [apply Hlow; lia|].
    replace j with (8 * ix + (j - 8 * ix)) by lia. rewrite Hbit by lia. apply Hk. lia.
Qed.

Lemma bitmap_alloc_run b :
  wf b ->
  (exists i b', bitmap_alloc b = Ok (0, Some i, b') /\
     0 <= i < nbits b /\ bit b i = false /\ (forall j, 0 <= j < i -> bit b j = true) /\
     wf b' /\ nbits b' = nbits b /\ forall j, 0 <= j -> bit b' j = if j =? i then true else bit b j) \/
  (bitmap_alloc b = Ok (ENOSPC, None, b) /\
     forall i, 0 <= i < nbits b -> bit b i = true).
Proof.
  intros Hwf. unfold bitmap_alloc. rewrite wf_words by done.
  apply alloc_words_run; [done|lia|lia|]. intros j Hj. lia.
Qed.

(** [bitmap_alloc] on a well-formed bitmap finds the lowest clear bit:
    it stores its index, marks that bit and no other, and keeps the bitmap
    well-formed; it returns ENOSPC, with nothing changed, exactly when every
    bit is in use.  Neither of its assertions can fail. *)
Theorem bitmap_alloc_lowest_clear b :
  wf b ->
  (exists i b', bitmap_alloc b = Ok (0, Some i, b') /\
     0 <= i < nbits b /\ bit b i = false /\ (forall j, 0 <= j < i -> bit b j = true) /\
     wf b' /\ nbits b' = nbits b /\ forall j, 0 <= j -> bit b' j = if j =? i then true else bit b j) \/
  (bitmap_alloc b = Ok (ENOSPC, None, b) /\
     forall i, 0 <= i < nbits b -> bit b i = true).
Proof. apply bitmap_alloc_run. Qed.

Lemma mark_overbits_run n : forall vs ix j w,
  rd vs ix = Ok w -> 0 <= w < 256 -> 0 <= j -> j + Z.of_nat n = 8 ->
  exists w', mark_overbits n vs ix j = Ok (<[Z.to_nat ix := w']> vs) /\ 0 <= w' < 256 /\
    forall k, 0 <= k < 8 -> Z.testbit w' k = Z.testbit w k || (j <=? k).
Proof.
  induction n as [|n IH]; intros vs ix j w Hw Hw8 Hj Hn; cbn [mark_overbits].
  { exists w. apply rd_Some in Hw as [_ Hw]. rewrite list_insert_id by done.
    split_and!; [done|lia..|]. intros k Hk.
    rewrite (proj2 (Z.leb_gt j k)) by lia. by rewrite orb_false_r. }
  pose proof (rd_bound _ _ _ Hw) as Hix.
  rewrite Hw, Ok_bind, Z.shiftl_1_l, byte_small by (apply lor_mask_byte; lia).
  rewrite wr_in, Ok_bind by done.
  destruct (IH (<[Z.to_nat ix := Z.lor w (2 ^ j)]> vs) ix (j + 1) (Z.lor w (2 ^ j)))
    as (w' & -> & Hw' & Hk).
  - apply rd_Some. rewrite list_lookup_insert_eq by lia. by split; [lia|].
  - apply lor_mask_byte; lia.
  - lia.
  - lia.
  - exists w'. rewrite list_insert_insert_eq. split_and!; [done|lia..|].
    intros k Hk0. rewrite Hk, lor_mask_bits, <- orb_assoc by lia. f_equal.
    destruct (Z.eqb_spec k j), (Z.leb_spec (j + 1) k), (Z.leb_spec j k); try done; lia.
Qed.

(** [bitmap_create] with memory available, for any size that is at most
    2^32 - 8: its assertions hold, the bitmap is well-formed (the leftover
    bits of the last byte are marked) and all of its [n] bits are clear. *)
Theorem bitmap_create_clear n :
  0 <= n <= 4294967288 ->
  exists b, bitmap_create true true n = Ok (Some b) /\ nbits b = n /\ wf b /\
    forall i, 0 <= i < n -> bit b i = false.
Proof.
  intros Hn. unfold bitmap_create. set (words := DIVROUNDUP n BITS_PER_WORD).
  assert (words = (n + 7) / 8) as Hwd.
  { unfold words, DIVROUNDUP, BITS_PER_WORD, u32, u32_mod. lia. }
  unfold BITS_PER_WORD in *. cbn [negb]. set (vs := replicate (Z.to_nat words) 0).
  assert (zlen vs = words) as Hvl by (unfold vs; rewrite length_replicate; lia).
  assert (forall k w, vs !! k = Some w -> w = 0) as Hz.
  { intros k w [-> _]%lookup_replicate. done. }
  destruct (Z.ltb_spec (n / 8) words) as [Hover|Hexact].
  - rewrite (u32_id (words - 1)), (u32_id ((words - 1) * 8)), u32_id by (unfold u32_mod; lia).
    rewrite (proj2 (Z.eqb_eq (n / 8) (words - 1))) by lia.
    rewrite (proj2 (Z.gtb_lt (n - (words - 1) * 8) 0)) by lia.
    rewrite (proj2 (Z.ltb_lt (n - (words - 1) * 8) 8)) by lia. runs.
    destruct (rd_in vs (words - 1)) as (w & Hw & Hl); [lia|]. apply Hz in Hl as ->.
    destruct (mark_overbits_run (Z.to_nat (8 - (n - (words - 1) * 8))) vs (words - 1)
      (n - (words - 1) * 8) 0 Hw) as (w' & -> & Hw' & Hk); [lia..|]. runs.
    eexists. split; [done|]. split; [done|].
    assert (forall i, 0 <= i < 8 * words ->
      bit (mk_bitmap n (<[Z.to_nat (words - 1):=w']> vs)) i = (n <=? i)) as Hbit.
    { intros i Hi. unfold bit. simpl. destruct (decide (i / 8 = words - 1)) as [He|He].
      - rewrite He, list_lookup_insert_eq by lia. rewrite Hk, Z.bits_0 by lia. simpl.
        destruct (Z.leb_spec (n - (words - 1) * 8) (i mod 8)), (Z.leb_spec n i); try done; lia.
      - rewrite list_lookup_insert_ne by lia.
        destruct (lookup_lt_is_Some_2 vs (Z.to_nat (i / 8))) as [x Hx]; [lia|].
        rewrite Hx. apply Hz in Hx as ->. rewrite Z.bits_0. symmetry. apply Z.leb_gt. lia. }
    split; [|intros i Hi; rewrite Hbit by lia; lia].
    split_and!; simpl; rewrite ?length_insert; try lia.
    + apply Forall_insert; [|done]. apply Forall_replicate. lia.
    + intros i Hi. rewrite Hbit by lia. lia.
  - eexists. split; [done|]. split; [done|]. split.
    + split_and!; simpl; try lia. apply Forall_replicate. lia.
    + intros i Hi. unfold bit. simpl. destruct (vs !! Z.to_nat (i / 8)) as [x|] eqn:Hx; [|done].
      apply Hz in Hx as ->. apply Z.bits_0.
Qed.

(** What [bitmap_translate] and the byte access give for a bit of the map. *)
Lemma translate_rd b i :
  wf b -> 0 <= i < nbits b ->
  bitmap_translate i = (i / 8, 2 ^ (i mod 8)) /\
  exists w, rd (v b) (i / 8) = Ok w /\ 0 <= w < 256 /\ Z.testbit w (i mod 8) = bit b i /\
    (Z.land w (2 ^ (i mod 8)) =? 0) = negb (bit b i).
Proof.
  intros Hwf Hi. split; [unfold bitmap_translate; by rewrite mask_eq by (unfold BITS_PER_WORD; lia)|].
  destruct (wf_rd b (i / 8) Hwf) as (w & Hw & Hw8 & Hb); [by apply bit_word|].
  exists w. assert (Z.testbit w (i mod 8) = bit b i) as He.
  { rewrite <- Hb by lia. f_equal. lia. }
  split_and!; [done|lia..|done|]. by rewrite land_mask, He by lia.
Qed.

(** Marking, unmarking and testing a bit: [bitmap_isset] is nonzero
    exactly for the marked bits, [bitmap_mark] panics on a marked bit and
    otherwise sets that bit only, [bitmap_unmark] panics on a clear bit and
    otherwise clears that bit only, and both keep the map well-formed. *)
Theorem bitmap_mark_unmark_isset b i :
  wf b -> 0 <= i < nbits b ->
  (exists r, bitmap_isset b i = Ok r /\ (r <> 0 <-> bit b i = true)) /\
  (if bit b i then bitmap_mark b i = Panic
   else exists b', bitmap_mark b i = Ok b' /\ wf b' /\ nbits b' = nbits b /\
     forall j, 0 <= j -> bit b' j = if j =? i then true else bit b j) /\
  (if bit b i then exists b', bitmap_unmark b i = Ok b' /\ wf b' /\ nbits b' = nbits b /\
     forall j, 0 <= j -> bit b' j = if j =? i then false else bit b j
   else bitmap_unmark b i = Panic).
Proof.
  intros Hwf Hi. unfold bitmap_isset, bitmap_mark, bitmap_unmark.
  destruct (translate_rd b i Hwf Hi) as (-> & w & Hw & Hw8 & Hbw & Hland).
  rewrite (proj2 (Z.ltb_lt i (nbits b))) by lia. runs. rewrite Hw. runs. rewrite Hland.
  split; [|split].
  - eexists. split; [done|]. destruct (Z.eqb_spec (Z.land w (2 ^ (i mod 8))) 0) as [E|E];
      destruct (bit b i); simpl in Hland; try done; naive_solver.
  - destruct (bit b i) eqn:E; runs; [done|].
    destruct (update_bit b i true w (Z.lor w (2 ^ (i mod 8)))) as (v' & -> & H); try done.
    + apply lor_mask_byte; lia.
    + intros k Hk. rewrite lor_mask_bits by lia. destruct (Z.testbit w k), (k =? i mod 8); done.
    + runs. exists (set_v b v'). by destruct H.
  - destruct (bit b i) eqn:E; runs; [|done].
    destruct (update_bit b i false w (Z.land w (Z.lnot (2 ^ (i mod 8))))) as (v' & -> & H); try done.
    + apply ldiff_mask_byte; lia.
    + intros k Hk. rewrite ldiff_mask_bits by lia. destruct (Z.testbit w k), (k =? i mod 8); done.
    + runs. exists (set_v b v'). by destruct H.
Qed.

(** ** Witnesses *)

Lemma wf_11 : wf (mk_bitmap 11 [255; 249]).
Proof.
  split_and!; simpl; try lia.
  - constructor; [lia|]. constructor; [lia|]. constructor.
  - intros i Hi. assert (i = 11 \/ i = 12 \/ i = 13 \/ i = 14 \/ i = 15) as Hc by lia.
    by destruct Hc as [->|[->|[->|[->| ->]]]].
Qed.

Lemma bitmap_alloc_lowest_clear_witness :
  wf (mk_bitmap 11 [255; 249]) /\
  bitmap_alloc (mk_bitmap 11 [255; 249]) = Ok (0, Some 9, mk_bitmap 11 [255; 251]) /\
  wf (mk_bitmap 11 [255; 251]).
Proof.
  split; [exact wf_11|]. split; [reflexivity|].
  destruct (bitmap_alloc_lowest_clear _ wf_11) as [(i & b' & H & _ & _ & _ & Hw & _ & _)|[H _]];
    vm_compute in H; [|discriminate H].
  injection H as _ <-. exact Hw.
Defined.

Lemma bitmap_create_clear_witness :
  exists b, bitmap_create true true 11 = Ok (Some b) /\ b = mk_bitmap 11 [0; 248] /\
    bit b 10 = false.
Proof.
  destruct (bitmap_create_clear 11) as (b & Hb & _ & _ & Hc); [lia|].
  exists b. split; [done|]. split; [by vm_compute in Hb; injection Hb as <-|apply Hc; lia].
Defined.

Lemma bitmap_mark_unmark_isset_witness :
  exists b', bitmap_mark (mk_bitmap 11 [255; 249]) 9 = Ok b' /\ bit b' 9 = true /\
    bitmap_unmark (mk_bitmap 11 [255; 249]) 9 = Panic.
Proof.
  destruct (bitmap_mark_unmark_isset _ 9 wf_11) as (_ & (b' & H & _ & _ & Hb) & Hu); [simpl; lia|].
  exists b'. split; [done|]. split; [|done]. rewrite Hb by lia. reflexivity.
Defined.

End Bitmap.
