(* ===== verification/Memory.v ===== *)
(** * Byte memory and block copies: lib/libc/memcpy.c, memmove.c, bzero.c

    The virtual address space the kernel runs in: bytes at 32-bit addresses,
    user space below [USERTOP], kernel above.  An access to an unmapped user
    address, or a store to a read-only one, is a fatal fault that the trap
    code hands to [pcb_badfaultfunc] or panics on; an access to an unmapped
    kernel address is undefined.  The copy loops move [long]s when everything
    is aligned and [char]s otherwise, as in the source. *)

From S2P Require Import Prelude.

Ltac Zify.zify_post_hook ::= Z.to_euclidean_division_equations.

Module Memory.

(** kern/arch/mips/include/vm.h *)
Definition USERTOP : Z := 2147483648.

Abbreviation mem := (gmap Z Z).

Section Access.
(** The user addresses that are mapped read-only. *)
Context (ro : Z -> bool).

(** [Ok None]: the access faults. *)
Definition load1 (m : mem) (a : Z) : outcome (option Z) :=
  match m !! a with
  | Some b => Ok (Some b)
  | None => if a <? USERTOP then Ok None else Undef
  end.

Definition store1 (m : mem) (a b : Z) : outcome (option mem) :=
  match m !! a with
  | Some _ => if (a <? USERTOP) && ro a then Ok None else Ok (Some (<[a := b]> m))
  | None => if a <? USERTOP then Ok None else Undef
  end.

(** Loads and stores of [k] adjacent bytes, a [char] or a [long]. *)
Fixpoint loadn (k : nat) (m : mem) (a : Z) : outcome (option (list Z)) :=
  match k with
  | O => Ok (Some [])
  | S k' =>
      r ← load1 m a;
      match r with
      | None => Ok None
      | Some b =>
          r' ← loadn k' m (a + 1);
          Ok (option_map (cons b) r')
      end
  end.

Fixpoint storen (m : mem) (a : Z) (bs : list Z) : outcome (option mem) :=
  match bs with
  | [] => Ok (Some m)
  | b :: bs' =>
      r ← store1 m a b;
      match r with
      | None => Ok None
      | Some m' => storen m' (a + 1) bs'
      end
  end.

(** [d[i] = s[i]] at unit size [k]: [false] when it faulted. *)
Definition copy1 (k : nat) (m : mem) (dst src : Z) : outcome (bool * mem) :=
  r ← loadn k m src;
  match r with
  | None => Ok (false, m)
  | Some bs =>
      r' ← storen m dst bs;
      match r' with
      | None => Ok (false, m)
      | Some m' => Ok (true, m')
      end
  end.

(** [for (i=0; i<n; i++) d[i] = s[i]], ended early by a fault. *)
Fixpoint copy_up (k n : nat) (m : mem) (dst src : Z) : outcome (bool * mem) :=
  match n with
  | O => Ok (true, m)
  | S n' =>
      '(ok, m') ← copy1 k m dst src;
      if negb ok then Ok (false, m')
      else copy_up k n' m' (dst + Z.of_nat k) (src + Z.of_nat k)
  end.

(** [for (i=n; i>0; i--) d[i-1] = s[i-1]] *)
Fixpoint copy_down (k n : nat) (m : mem) (dst src : Z) : outcome (bool * mem) :=
  match n with
  | O => Ok (true, m)
  | S n' =>
      '(ok, m') ← copy1 k m (dst + Z.of_nat k * Z.of_nat n') (src + Z.of_nat k * Z.of_nat n');
      if negb ok then Ok (false, m')
      else copy_down k n' m' dst src
  end.

Definition memcpy (m : mem) (dst src len : Z) : outcome (bool * mem) :=
  if (dst mod 4 =? 0) && (src mod 4 =? 0) && (len mod 4 =? 0)
  then copy_up 4 (Z.to_nat (len / 4)) m dst src
  else copy_up 1 (Z.to_nat len) m dst src.

Definition memmove (m : mem) (dst src len : Z) : outcome (bool * mem) :=
  if dst <? src then memcpy m dst src len
  else if (dst mod 4 =? 0) && (src mod 4 =? 0) && (len mod 4 =? 0)
  then copy_down 4 (Z.to_nat (len / 4)) m dst src
  else copy_down 1 (Z.to_nat len) m dst src.

(** The loops of [bzero], at unit size [k]. *)
Fixpoint zero_up (k n : nat) (m : mem) (block : Z) : outcome (bool * mem) :=
  match n with
  | O => Ok (true, m)
  | S n' =>
      r ← storen m block (replicate k 0);
      match r with
      | None => Ok (false, m)
      | Some m' => zero_up k n' m' (block + Z.of_nat k)
      end
  end.

Definition bzero (m : mem) (block len : Z) : outcome (bool * mem) :=
  if (block mod 4 =? 0) && (len mod 4 =? 0)
  then zero_up 4 (Z.to_nat (len / 4)) m block
  else zero_up 1 (Z.to_nat len) m block.

(** ** Specification *)

Definition within (a base len : Z) : Prop := base <= a < base + len.

#[export] Instance within_dec a base len : Decision (within a base len).
Proof. unfold within. apply _. Defined.

Definition readable (m : mem) (a : Z) : Prop := is_Some (m !! a).

Definition writable (m : mem) (a : Z) : Prop :=
  is_Some (m !! a) /\ ((a <? USERTOP) && ro a = false).

(** The access to [a] does not stray into unmapped kernel memory. *)
Definition sane (m : mem) (a : Z) : Prop := is_Some (m !! a) \/ a < USERTOP.

(** The memory after [len] bytes were copied from [src] to [dst], read as one
    simultaneous assignment. *)
Definition block_copy (m : mem) (dst src len : Z) (m' : mem) : Prop :=
  forall a, m' !! a = if decide (within a dst len) then m !! (src + (a - dst)) else m !! a.

(** What a copy of [len] bytes may do: it changes nothing outside the
    destination and maps or unmaps nothing; when it completes ([ok]) it is a
    block copy and every byte was accessible, otherwise some byte was not. *)
Definition copy_result (m : mem) (dst src len : Z) (ok : bool) (m' : mem) : Prop :=
  (forall a, is_Some (m' !! a) <-> is_Some (m !! a)) /\
  (forall a, ~ within a dst len -> m' !! a = m !! a) /\
  if ok then
    block_copy m dst src len m' /\
    (forall a, within a src len -> readable m a) /\
    (forall a, within a dst len -> writable m a)
  else exists a, within a src len /\ ~ readable m a \/ within a dst len /\ ~ writable m a.

(** ** One unit *)

Lemma loadn_ok k : forall m a,
  (forall x, within x a (Z.of_nat k) -> sane m x) ->
  exists r, loadn k m a = Ok r /\
    match r with
    | Some bs => length bs = k /\ forall x, within x a (Z.of_nat k) ->
        m !! x = bs !! Z.to_nat (x - a) /\ is_Some (m !! x)
    | None => exists x, within x a (Z.of_nat k) /\ ~ readable m x
    end.
Proof.
  unfold within, sane, readable, load1.
  induction k as [|k IH]; intros m a Hs; cbn [loadn].
  { exists (Some []). split; [done|]. split; [done|lia]. }
  unfold load1. destruct (m !! a) as [b|] eqn:Ha.
  - runs. destruct (IH m (a + 1)) as (r & -> & Hr); [intros x Hx; apply Hs; lia|]. runs.
    eexists. split; [done|]. destruct r as [bs|]; cbn [option_map].
    + destruct Hr as [Hl Hx]. split; [simpl; lia|]. intros x Hin.
      destruct (decide (x = a)) as [->|Hne]; [rewrite Z.sub_diag, Ha; split; [done|by eexists]|].
      destruct (Hx x) as [-> H2]; [lia|]. split; [|done].
      by replace (Z.to_nat (x - a)) with (S (Z.to_nat (x - (a + 1)))) by lia.
    + destruct Hr as (x & Hx & Hn). exists x. split; [lia|done].
  - destruct (Hs a) as [[? ?]|Hu]; [lia|congruence|]. rewrite (proj2 (Z.ltb_lt a USERTOP)) by done.
    runs. exists None. split; [done|]. exists a. split; [lia|]. rewrite Ha. by intros [? ?].
Qed.

Lemma storen_ok bs : forall m a,
  (forall x, within x a (zlen bs) -> sane m x) ->
  exists r, storen m a bs = Ok r /\
    match r with
    | Some m' =>
        (forall x, m' !! x = if decide (within x a (zlen bs))
           then bs !! Z.to_nat (x - a) else m !! x) /\
        forall x, within x a (zlen bs) -> writable m x
    | None => exists x, within x a (zlen bs) /\ ~ writable m x
    end.
Proof.
  induction bs as [|b bs IH]; intros m a Hs; cbn [storen].
  { exists (Some m). split; [done|]. split; [|unfold within; simpl; lia].
    intros x. rewrite decide_False; [done|]. unfold within. simpl. lia. }
  unfold within, writable in *. cbn [length] in *. unfold store1.
  destruct (m !! a) as [b0|] eqn:Ha.
  - destruct ((a <? USERTOP) && ro a) eqn:Hro; runs.
    { exists None. split; [done|]. exists a. split; [lia|]. intros [_ ?]. congruence. }
    destruct (IH (<[a:=b]> m) (a + 1)) as (r & -> & Hr).
    { intros x Hx. unfold sane. rewrite lookup_insert_ne by lia. apply Hs. lia. }
    exists r. split; [done|]. destruct r as [m'|].
    + destruct Hr as [Hm' Hw]. split.
      * intros x. rewrite Hm'. destruct (decide (x = a)) as [->|Hne].
        { rewrite (decide_False (P := _ /\ _)) by lia. rewrite decide_True by lia.
          by rewrite Z.sub_diag, lookup_insert_eq. }
        destruct (decide (a + 1 <= x < a + 1 + zlen bs)).
        { rewrite decide_True by lia.
          by replace (Z.to_nat (x - a)) with (S (Z.to_nat (x - (a + 1)))) by lia. }
        rewrite decide_False by lia. by rewrite lookup_insert_ne.
      * intros x Hx. destruct (decide (x = a)) as [->|Hne]; [by rewrite Ha; eauto|].
        destruct (Hw x) as [H1 H2]; [lia|]. by rewrite lookup_insert_ne in H1.
    + destruct Hr as (x & Hx & Hn). exists x. split; [lia|].
      by rewrite lookup_insert_ne in Hn by lia.
  - destruct (Hs a) as [[? ?]|Hu]; [lia|congruence|]. rewrite (proj2 (Z.ltb_lt a USERTOP)) by done.
    runs. exists None. split; [done|]. exists a. split; [lia|]. rewrite Ha. by intros [[? ?] _].
Qed.

Lemma copy1_ok k m dst src :
  (forall x, within x src (Z.of_nat k) -> sane m x) ->
  (forall x, within x dst (Z.of_nat k) -> sane m x) ->
  exists ok m', copy1 k m dst src = Ok (ok, m') /\ copy_result m dst src (Z.of_nat k) ok m'.
Proof.
  intros Hs Hd. unfold copy1. destruct (loadn_ok k m src Hs) as ([bs|] & -> & Hr); runs.
  2: { destruct Hr as (x & Hx & Hn). exists false, m. split; [done|].
       split_and!; [done|done|]. exists x. by left. }
  destruct Hr as [Hl Hbs]. destruct (storen_ok bs m dst) as ([m'|] & -> & Hw); [by rewrite Hl|..]; runs.
  - destruct Hw as [Hm' Hw]. rewrite Hl in *. exists true, m'. split; [done|].
    assert (block_copy m dst src (Z.of_nat k) m') as Hb.
    { intros a. rewrite Hm'. destruct (decide _) as [Hin|]; [|done].
      destruct (Hbs (src + (a - dst))) as [-> _]; [unfold within in *; lia|]. f_equal. lia. }
    split_and!; [|intros a Ha; by rewrite Hb, decide_False|done|intros a Ha; by apply Hbs|done].
    intros a. rewrite Hb. destruct (decide _) as [Hin|]; [|done].
    split; intros _; [by apply Hw|]. apply Hbs. unfold within in *. lia.
  - rewrite Hl in *. destruct Hw as (x & Hx & Hn). exists false, m. split; [done|].
    split_and!; [done|done|]. exists x. by right.
Qed.

(** ** Composition of partial copies *)

Lemma copy_result_nil m dst src : copy_result m dst src 0 true m.
Proof.
  unfold copy_result, block_copy, within. split_and!; [done|done| |lia|lia].
  intros a. rewrite decide_False; [done|lia].
Qed.

Lemma same_dom_access m m' a :
  (forall a, is_Some (m' !! a) <-> is_Some (m !! a)) ->
  (readable m' a <-> readable m a) /\ (writable m' a <-> writable m a) /\ (sane m' a <-> sane m a).
Proof. intros H. unfold readable, writable, sane. rewrite !H. done. Qed.

Lemma copy_result_fail m m1 dst src len o l :
  0 <= o -> 0 <= l -> o + l <= len ->
  (forall a, is_Some (m1 !! a) <-> is_Some (m !! a)) ->
  (exists a, within a (src + o) l /\ ~ readable m1 a \/ within a (dst + o) l /\ ~ writable m1 a) ->
  exists a, within a src len /\ ~ readable m a \/ within a dst len /\ ~ writable m a.
Proof.
  intros Ho Hl Hlen Hdom (a & Ha). exists a. unfold within in *.
  destruct (same_dom_access m m1 a Hdom) as (H1 & H2 & _). rewrite H1, H2 in Ha.
  destruct Ha as [[? ?]|[? ?]]; [left|right]; (split; [lia|done]).
Qed.

(** Two adjacent pieces, the one at offset [o1] first. *)
Lemma copy_result_app m m1 m2 dst src o1 l1 o2 l2 ok :
  0 <= l1 -> 0 <= l2 -> (o1 = 0 /\ o2 = l1 \/ o2 = 0 /\ o1 = l2) ->
  (forall a, within a (src + o2) l2 -> ~ within a (dst + o1) l1) ->
  copy_result m (dst + o1) (src + o1) l1 true m1 ->
  copy_result m1 (dst + o2) (src + o2) l2 ok m2 ->
  copy_result m dst src (l1 + l2) ok m2.
Proof.
  intros Hl1 Hl2 Ho Hdis (Hdom1 & Hout1 & Hb1 & Hr1 & Hw1) (Hdom2 & Hout2 & Hok).
  assert (forall a, is_Some (m2 !! a) <-> is_Some (m !! a)) as Hdom.
  { intros a. by rewrite Hdom2, Hdom1. }
  split_and!; [done| |].
  { intros a Ha. rewrite Hout2, Hout1; unfold within in *; [done|lia|lia]. }
  destruct ok; [|eapply copy_result_fail; [..|exact Hok]; [lia|lia|lia|done]].
  destruct Hok as (Hb2 & Hr2 & Hw2). split_and!.
  - intros a. rewrite Hb2. destruct (decide (within a (dst + o2) l2)) as [H2|H2].
    + rewrite decide_True by (unfold within in *; lia).
      rewrite Hout1; [f_equal; lia|]. apply Hdis. unfold within in *. lia.
    + rewrite Hb1. destruct (decide (within a (dst + o1) l1)) as [H1|H1].
      * rewrite decide_True by (unfold within in *; lia). f_equal. lia.
      * rewrite decide_False by (unfold within in *; lia). done.
  - intros a Ha. destruct (decide (within a (src + o1) l1)); [by apply Hr1|].
    apply (proj1 (same_dom_access m m1 a Hdom1)), Hr2. unfold within in *. lia.
  - intros a Ha. destruct (decide (within a (dst + o1) l1)); [by apply Hw1|].
    apply (proj1 (proj2 (same_dom_access m m1 a Hdom1))), Hw2. unfold within in *. lia.
Qed.

(** ** The loops *)

Definition accessible (m : mem) (dst src len : Z) : Prop :=
  (forall x, within x src len -> sane m x) /\ (forall x, within x dst len -> sane m x).

Lemma accessible_piece m m1 dst src len o l :
  0 <= o -> o + l <= len -> (forall a, is_Some (m1 !! a) <-> is_Some (m !! a)) ->
  accessible m dst src len -> accessible m1 (dst + o) (src + o) l.
Proof.
  unfold accessible, sane, within. intros Ho Hl Hdom [H1 H2].
  split; intros x Hx; rewrite Hdom; [apply H1|apply H2]; lia.
Qed.

Lemma copy_up_ok k n : forall m dst src,
  accessible m dst src (Z.of_nat k * Z.of_nat n) ->
  dst <= src \/ src + Z.of_nat k * Z.of_nat n <= dst ->
  exists ok m', copy_up k n m dst src = Ok (ok, m') /\
    copy_result m dst src (Z.of_nat k * Z.of_nat n) ok m'.
Proof.
  induction n as [|n IH]; intros m dst src Hacc Hov; cbn [copy_up].
  { exists true, m. rewrite Z.mul_0_r. split; [done|apply copy_result_nil]. }
  replace (Z.of_nat k * Z.of_nat (S n)) with (Z.of_nat k + Z.of_nat k * Z.of_nat n) in * by (rewrite Nat2Z.inj_succ; ring).
  assert (0 <= Z.of_nat k * Z.of_nat n) by (apply Z.mul_nonneg_nonneg; lia).
  destruct (accessible_piece m m dst src (Z.of_nat k + Z.of_nat k * Z.of_nat n) 0 (Z.of_nat k) ltac:(lia) ltac:(lia) ltac:(done) Hacc)
    as [Hs Hd].
  destruct (copy1_ok k m (dst + 0) (src + 0) Hs Hd) as (ok & m1 & H1 & Hc1).
  replace (copy1 k m dst src) with (copy1 k m (dst + 0) (src + 0)) by (f_equal; lia).
  rewrite H1. runs. pose proof Hc1 as (Hdom & Hout & Hok). destruct ok; cbn [negb].
  - destruct (IH m1 (dst + Z.of_nat k) (src + Z.of_nat k)) as (ok & m2 & -> & Hc2); [|lia|].
    { eapply accessible_piece; [..|exact Hacc]; [lia|lia|done]. }
    exists ok, m2. split; [done|].
    apply (copy_result_app m m1 m2 dst src 0 (Z.of_nat k) (Z.of_nat k)); try done; try lia.
    unfold within. intros a Ha. lia.
  - exists false, m1. split; [done|]. split_and!; [done| |].
    + intros a Ha. apply Hout. unfold within in *. lia.
    + eapply copy_result_fail; [..|exact Hok]; [lia|lia|lia|done].
Qed.

Lemma copy_down_ok k n : forall m dst src,
  accessible m dst src (Z.of_nat k * Z.of_nat n) ->
  src <= dst \/ dst + Z.of_nat k * Z.of_nat n <= src ->
  exists ok m', copy_down k n m dst src = Ok (ok, m') /\
    copy_result m dst src (Z.of_nat k * Z.of_nat n) ok m'.
Proof.
  induction n as [|n IH]; intros m dst src Hacc Hov; cbn [copy_down].
  { exists true, m. rewrite Z.mul_0_r. split; [done|apply copy_result_nil]. }
  replace (Z.of_nat k * Z.of_nat (S n)) with (Z.of_nat k + Z.of_nat k * Z.of_nat n) in * by (rewrite Nat2Z.inj_succ; ring).
  assert (0 <= Z.of_nat k * Z.of_nat n) by (apply Z.mul_nonneg_nonneg; lia).
  set (o := Z.of_nat k * Z.of_nat n) in *.
  destruct (accessible_piece m m dst src (Z.of_nat k + o) o (Z.of_nat k) ltac:(lia) ltac:(lia) ltac:(done) Hacc)
    as [Hs Hd].
  destruct (copy1_ok k m (dst + o) (src + o) Hs Hd) as (ok & m1 & -> & Hc1). runs.
  pose proof Hc1 as (Hdom & Hout & Hok). destruct ok; cbn [negb].
  - destruct (IH m1 dst src) as (ok & m2 & -> & Hc2); [|lia|].
    { rewrite <- (Z.add_0_r dst), <- (Z.add_0_r src).
      eapply accessible_piece; [..|exact Hacc]; [lia|lia|done]. }
    exists ok, m2. split; [done|].
    apply (copy_result_app m m1 m2 dst src o (Z.of_nat k) 0 o); try done; try lia.
    + unfold within. intros a Ha. lia.
    + by rewrite !Z.add_0_r.
  - exists false, m1. split; [done|]. split_and!; [done| |].
    + intros a Ha. apply Hout. unfold within in *. lia.
    + eapply copy_result_fail; [..|exact Hok]; [lia|lia|lia|done].
Qed.

Lemma memcpy_ok m dst src len :
  0 <= len -> accessible m dst src len -> dst <= src \/ src + len <= dst ->
  exists ok m', memcpy m dst src len = Ok (ok, m') /\ copy_result m dst src len ok m'.
Proof.
  intros Hlen Hacc Hov. unfold memcpy. destruct (_ && _ && _) eqn:Hal.
  - assert (len = Z.of_nat 4 * Z.of_nat (Z.to_nat (len / 4))) as Hl by lia.
    pose proof (copy_up_ok 4 (Z.to_nat (len / 4)) m dst src) as H. rewrite <- Hl in H. by apply H.
  - assert (len = Z.of_nat 1 * Z.of_nat (Z.to_nat len)) as Hl by lia.
    pose proof (copy_up_ok 1 (Z.to_nat len) m dst src) as H. rewrite <- Hl in H. by apply H.
Qed.

Lemma memmove_ok m dst src len :
  0 <= len -> accessible m dst src len ->
  exists ok m', memmove m dst src len = Ok (ok, m') /\ copy_result m dst src len ok m'.
Proof.
  intros Hlen Hacc. unfold memmove. destruct (Z.ltb_spec dst src) as [Hlt|Hge].
  { apply memcpy_ok; [done|done|lia]. }
  destruct (_ && _ && _) eqn:Hal.
  - assert (len = Z.of_nat 4 * Z.of_nat (Z.to_nat (len / 4))) as Hl by lia.
    pose proof (copy_down_ok 4 (Z.to_nat (len / 4)) m dst src) as H. rewrite <- Hl in H. apply H; [done|lia].
  - assert (len = Z.of_nat 1 * Z.of_nat (Z.to_nat len)) as Hl by lia.
    pose proof (copy_down_ok 1 (Z.to_nat len) m dst src) as H. rewrite <- Hl in H. apply H; [done|lia].
Qed.

(** [memmove] is right for every overlap of its two blocks: whatever the
    alignment and so the unit of the loop, it completes as one simultaneous
    assignment of the source block to the destination, or it stops at an
    address that faults; it never writes outside the destination. *)
Theorem memmove_block_copy m dst src len :
  0 <= len -> accessible m dst src len ->
  exists ok m', memmove m dst src len = Ok (ok, m') /\ copy_result m dst src len ok m'.
Proof. exact (memmove_ok m dst src len). Qed.

End Access.

(** ** Witness: an overlapping copy of kernel bytes, upwards by one *)

Lemma memmove_block_copy_witness :
  exists m',
    memmove (fun _ => false) (list_to_map [(2147483648, 1); (2147483649, 2); (2147483650, 3)])
      2147483649 2147483648 2 = Ok (true, m') /\
    m' !! 2147483650 = Some 2.
Proof.
  destruct (memmove_block_copy (fun _ => false)
    (list_to_map [(2147483648, 1); (2147483649, 2); (2147483650, 3)])
    2147483649 2147483648 2) as (ok & m' & Hm & Hr); [lia| |].
  - split; intros x Hx; unfold within, sane in *;
      (assert (x = 2147483648 \/ x = 2147483649 \/ x = 2147483650) as Hc by lia;
       destruct Hc as [->|[->| ->]]; left; by eexists).
  - destruct ok; [|by vm_compute in Hm]. exists m'. split; [done|].
    destruct Hr as (_ & _ & Hb & _). by rewrite Hb.
Defined.

End Memory.
