(* ===== verification/CopyInOut.v ===== *)
(** * Copies between user and kernel memory: kern/lib/copyinout.c

    [copycheck], [copyin], [copyout], [copystr], [copyinstr], [copyoutstr].
    The state is the memory and whether [pcb_badfaultfunc] of the current
    thread is set.  [setjmp], the trap handler and [copyfail] are folded into
    [protected]: a fault while [pcb_badfaultfunc] is set makes [setjmp] return
    a second time (kern/arch/mips/mips/trap.c, [mips_trap]). *)

From S2P Require Import Prelude Memory.
Import Memory.

Module CopyInOut.

Record kst : Type := mk_kst {
  kmem : mem;
  badfaultfunc : bool;
}.

Definition set_badfaultfunc (s : kst) (b : bool) : kst := mk_kst (kmem s) b.

(** The error code, and what is stored through [stoplen]. *)
Definition copycheck (userptr len : Z) : Z * Z :=
  let bot := userptr in
  let top := u32 (u32 (bot + len) - 1) in
  if top <? bot then (EFAULT, len)
  else if bot >=? USERTOP then (EFAULT, len)
  else if top >=? USERTOP then (0, u32 (USERTOP - bot))
  else (0, len).

Section Copies.
Context (ro : Z -> bool).

(** From [setjmp] to the second reset of [pcb_badfaultfunc]: [body] is the
    code between, [None] its result when it faulted.  A fatal fault in kernel
    mode panics unless [pcb_badfaultfunc] is set. *)
Definition protected {A} (s : kst) (body : mem -> outcome (option (Z * A) * mem)) (dflt : A) :
    outcome (Z * A * kst) :=
  let s := set_badfaultfunc s true in
  '(r, m) ← body (kmem s);
  match r with
  | Some (result, a) => Ok (result, a, mk_kst m false)
  | None =>
      if badfaultfunc s then Ok (EFAULT, dflt, mk_kst m false) else Panic
  end.

Definition memcpy_body (dst src len : Z) (m : mem) : outcome (option (Z * unit) * mem) :=
  '(ok, m') ← memcpy ro m dst src len;
  Ok (if (ok : bool) then Some (0, tt) else None, m').

Definition copyin (usersrc dest len : Z) (s : kst) : outcome (Z * kst) :=
  let '(result, stoplen) := copycheck usersrc len in
  if negb (result =? 0) then Ok (result, s)
  else if negb (stoplen =? len) then Ok (EFAULT, s)
  else
    '(result, _, s') ← protected s (memcpy_body dest usersrc len) tt;
    Ok (result, s').

Definition copyout (src userdest len : Z) (s : kst) : outcome (Z * kst) :=
  let '(result, stoplen) := copycheck userdest len in
  if negb (result =? 0) then Ok (result, s)
  else if negb (stoplen =? len) then Ok (EFAULT, s)
  else
    '(result, _, s') ← protected s (memcpy_body userdest src len) tt;
    Ok (result, s').

(** The loop of [copystr], [n] rounds before [i] reaches [maxlen] or
    [stoplen]; the second component is what goes through [gotlen]. *)
Fixpoint copystr_loop (n : nat) (m : mem) (dest src i maxlen stoplen : Z) :
    outcome (option (Z * option Z) * mem) :=
  match n with
  | O => Ok (Some (if stoplen <? maxlen then EFAULT else ENAMETOOLONG, None), m)
  | S n' =>
      r ← load1 m (src + i);
      match r with
      | None => Ok (None, m)
      | Some b =>
          r ← store1 ro m (dest + i) b;
          match r with
          | None => Ok (None, m)
          | Some m' =>
              r ← load1 m' (src + i);
              match r with
              | None => Ok (None, m')
              | Some b' =>
                  if b' =? 0 then Ok (Some (0, Some (i + 1)), m')
                  else copystr_loop n' m' dest src (i + 1) maxlen stoplen
              end
          end
      end
  end.

Definition copystr (dest src maxlen stoplen : Z) (m : mem) :
    outcome (option (Z * option Z) * mem) :=
  copystr_loop (Z.to_nat (Z.min maxlen stoplen)) m dest src 0 maxlen stoplen.

(** The error code and what goes through [actual]. *)
Definition copyinstr (usersrc dest len : Z) (s : kst) : outcome (Z * option Z * kst) :=
  let '(result, stoplen) := copycheck usersrc len in
  if negb (result =? 0) then Ok (result, None, s)
  else protected s (copystr dest usersrc len stoplen) None.

Definition copyoutstr (src userdest len : Z) (s : kst) : outcome (Z * option Z * kst) :=
  let '(result, stoplen) := copycheck userdest len in
  if negb (result =? 0) then Ok (result, None, s)
  else protected s (copystr userdest src len stoplen) None.

(** ** Lemmas *)

Definition word (z : Z) : Prop := 0 <= z < u32_mod.

(** [copycheck] accepts a region of at least one byte (or the empty region at
    address 0) that starts in user space and does not wrap; [stoplen] cuts it
    at the end of user space. *)
Lemma copycheck_ok bot len :
  word bot -> word len ->
  (exists stoplen, copycheck bot len = (0, stoplen) /\
     bot < USERTOP /\ bot + len <= u32_mod /\ (0 < len \/ bot = 0) /\
     stoplen = (if (0 <? len) then Z.min len (USERTOP - bot) else USERTOP)) \/
  (copycheck bot len = (EFAULT, len) /\
     (USERTOP <= bot \/ u32_mod < bot + len \/ len = 0)).
Proof.
  unfold word, copycheck, USERTOP, u32, u32_mod. intros Hb Hl.
  set (top := ((bot + len) mod 4294967296 - 1) mod 4294967296).
  assert (top = bot + len - 1 \/ top = bot + len - 1 - 4294967296 \/
          (bot = 0 /\ len = 0 /\ top = 4294967295)) as Ht.
  { unfold top. Z.to_euclidean_division_equations. lia. }
  assert (0 <= top < 4294967296) as Hr by (apply Z.mod_pos_bound; lia). clearbody top.
  destruct (Z.ltb_spec top bot); [right; split; [done|lia]|].
  destruct (Z.geb_spec bot 2147483648); [right; split; [done|lia]|]. left.
  destruct (Z.geb_spec top 2147483648); eexists; (split; [done|]).
  - rewrite Z.mod_small by lia. destruct (Z.ltb_spec 0 len); lia.
  - destruct (Z.ltb_spec 0 len); lia.
Qed.

(** The accepted regions of a single block copy. *)
Lemma copycheck_block bot len :
  word bot -> word len ->
  (copycheck bot len = (0, len) /\ 0 < len /\ bot + len <= USERTOP) \/
  ((exists stoplen, copycheck bot len = (0, stoplen) /\ stoplen <> len \/
      copycheck bot len = (EFAULT, stoplen)) /\ (len = 0 \/ USERTOP < bot + len)).
Proof.
  intros Hb Hl. unfold word, USERTOP, u32_mod in *.
  destruct (copycheck_ok bot len Hb Hl) as [(st & -> & H1 & H2 & H3 & ->)|[-> H]];
    unfold USERTOP, u32_mod in *.
  - destruct (Z.ltb_spec 0 len).
    + destruct (Z.le_gt_cases (bot + len) 2147483648).
      * left. split; [f_equal; lia|lia].
      * right. split; [|lia]. exists (2147483648 - bot). left. split; [f_equal; lia|lia].
    + right. split; [|lia]. eexists. left. split; [done|lia].
  - right. split; [|lia]. exists len. by right.
Qed.

Lemma block_accessible m kaddr uaddr len :
  (forall x, within x kaddr len -> is_Some (m !! x)) -> uaddr + len <= USERTOP ->
  (forall x, within x kaddr len -> sane m x) /\ (forall x, within x uaddr len -> sane m x).
Proof.
  intros Hk Hu. split; intros x Hx; [by left; apply Hk|]. right. unfold within in Hx. lia.
Qed.

(** Both block copies after the check, with the memcpy's direction given. *)
Lemma protected_memcpy s dst src len :
  0 <= len -> accessible (kmem s) dst src len -> dst <= src \/ src + len <= dst ->
  exists r m', protected s (memcpy_body dst src len) tt = Ok (r, tt, mk_kst m' false) /\
    (r = 0 \/ r = EFAULT) /\ copy_result ro (kmem s) dst src len (r =? 0) m'.
Proof.
  intros Hlen Hacc Hov. unfold protected, memcpy_body. cbn [kmem set_badfaultfunc].
  destruct (memcpy_ok ro (kmem s) dst src len Hlen Hacc Hov) as (ok & m' & -> & Hc). runs.
  destruct ok; cbn [badfaultfunc]; [exists 0, m'|exists EFAULT, m'];
    (split; [done|]; split; [|done]); [by left|by right].
Qed.

(** [copyin] protects the kernel from the user's pointer.  For a mapped
    kernel buffer it always returns 0 or EFAULT with [pcb_badfaultfunc] reset
    and writes nothing outside the buffer; 0 means that the whole source lies
    in mapped user space and was copied, and EFAULT is returned exactly for an
    empty block, a block that reaches out of user space, or one with an
    unmapped byte. *)
Theorem copyin_safe usersrc dest len s :
  word usersrc -> word len -> badfaultfunc s = false -> USERTOP <= dest ->
  (forall x, within x dest len -> is_Some (kmem s !! x)) ->
  exists r m', copyin usersrc dest len s = Ok (r, mk_kst m' false) /\
    (r = 0 \/ r = EFAULT) /\
    (forall a, ~ within a dest len -> m' !! a = kmem s !! a) /\
    (r = 0 -> 0 < len /\ usersrc + len <= USERTOP /\
       block_copy (kmem s) dest usersrc len m' /\
       forall a, within a usersrc len -> is_Some (kmem s !! a)) /\
    (r = EFAULT <-> len = 0 \/ USERTOP < usersrc + len \/
       exists a, within a usersrc len /\ kmem s !! a = None).
Proof.
  intros Hu Hl Hbf Hd Hbuf. destruct s as [m bf]. simpl in *. subst bf. unfold copyin.
  destruct (copycheck_block usersrc len Hu Hl) as [(-> & Hpos & Hin)|[(st & Hc) Hrej]].
  - rewrite !Z.eqb_refl. cbn [negb].
    destruct (block_accessible m dest usersrc len Hbuf Hin) as [Hk Huser].
    destruct (protected_memcpy (mk_kst m false) dest usersrc len) as (r & m' & -> & Hr & Hc);
      [lia|done|right; lia|]. runs. exists r, m'. destruct Hc as (_ & Hout & Hok).
    split_and!; [done|done|done|..].
    + intros ->. destruct Hok as (? & Hrd & _). done.
    + destruct Hr as [-> | ->]; simpl in Hok.
      * destruct Hok as (_ & Hrd & _). split; [done|].
        intros [?|[?|(a & Ha & Hn)]]; [lia|lia|]. destruct (Hrd a Ha) as [? ?]. congruence.
      * split; [|done]. intros _. right. right. destruct Hok as (a & [[Ha Hn]|[Ha Hn]]).
        { exists a. split; [done|]. destruct (m !! a) eqn:E; [|done]. destruct Hn. by eexists. }
        destruct Hn. split; [by apply Hbuf|]. unfold within in Ha.
        by rewrite (proj2 (Z.ltb_ge a USERTOP)) by lia.
  - exists EFAULT, m. split.
    { destruct Hc as [[-> Hne]| ->]; [|done]. rewrite Z.eqb_refl. cbn [negb].
      by rewrite (proj2 (Z.eqb_neq st len)). }
    split_and!; [by right|done|done|]. split; [|done]. intros _. destruct Hrej; auto.
Qed.

(** [copyout] never changes kernel memory: for a readable kernel source
    it returns 0 or EFAULT with [pcb_badfaultfunc] reset and changes only the
    user block it was given; 0 means that the block lies in user space, was
    writable and holds the copied bytes, and EFAULT is returned exactly for an
    empty block, one that reaches out of user space, or one with a byte that
    is unmapped or read-only. *)
Theorem copyout_safe src userdest len s :
  word userdest -> word len -> badfaultfunc s = false -> USERTOP <= src ->
  (forall x, within x src len -> is_Some (kmem s !! x)) ->
  exists r m', copyout src userdest len s = Ok (r, mk_kst m' false) /\
    (r = 0 \/ r = EFAULT) /\
    (forall a, USERTOP <= a \/ ~ within a userdest len -> m' !! a = kmem s !! a) /\
    (r = 0 -> 0 < len /\ userdest + len <= USERTOP /\
       block_copy (kmem s) userdest src len m') /\
    (r = EFAULT <-> len = 0 \/ USERTOP < userdest + len \/
       exists a, within a userdest len /\ ~ writable ro (kmem s) a).
Proof.
  intros Hu Hl Hbf Hd Hbuf. destruct s as [m bf]. simpl in *. subst bf. unfold copyout.
  destruct (copycheck_block userdest len Hu Hl) as [(-> & Hpos & Hin)|[(st & Hc) Hrej]].
  - rewrite !Z.eqb_refl. cbn [negb].
    destruct (block_accessible m src userdest len Hbuf Hin) as [Hk Huser].
    destruct (protected_memcpy (mk_kst m false) userdest src len) as (r & m' & -> & Hr & Hc);
      [lia|done|left; lia|]. runs. exists r, m'. destruct Hc as (_ & Hout & Hok).
    split_and!; [done|done| |..].
    + intros a Ha. apply Hout. unfold within in *. lia.
    + by intros ->; destruct Hok as (? & _).
    + destruct Hr as [-> | ->]; simpl in Hok.
      * destruct Hok as (_ & _ & Hw). split; [done|].
        intros [?|[?|(a & Ha & Hn)]]; [lia|lia|]. by destruct Hn; apply Hw.
      * split; [|done]. intros _. right. right. destruct Hok as (a & [[Ha Hn]|[Ha Hn]]).
        { destruct Hn. by apply Hbuf. }
        by exists a.
  - exists EFAULT, m. split.
    { destruct Hc as [[-> Hne]| ->]; [|done]. rewrite Z.eqb_refl. cbn [negb].
      by rewrite (proj2 (Z.eqb_neq st len)). }
    split_and!; [by right|done|done|]. split; [|done]. intros _. destruct Hrej; auto.
Qed.

(** The comment of [copycheck] says that [stoplen] differs from [len] if
    and only if the region partially overlaps the kernel, and the block copies
    take a difference as an illegal truncation.  For the empty block at
    address 0, which overlaps nothing, [top] wraps to 0xffffffff: [copycheck]
    returns 0 with a [stoplen] of 2 GB. *)
Theorem copycheck_empty_at_zero :
  copycheck 0 0 = (0, USERTOP) /\
  (forall dest s, copyin 0 dest 0 s = Ok (EFAULT, s)) /\
  (forall p, 0 < p < u32_mod -> copycheck p 0 = (EFAULT, 0)).
Proof.
  split; [reflexivity|]. split; [reflexivity|]. intros p Hp. unfold copycheck.
  rewrite Z.add_0_r, (u32_id p), u32_id by (unfold u32_mod in *; lia).
  by rewrite (proj2 (Z.ltb_lt (p - 1) p)) by lia.
Qed.

(** ** Strings *)

(** A terminated string at [src] whose terminator is byte [k]. *)
Definition string_at (m : mem) (src k : Z) : Prop :=
  m !! (src + k) = Some 0 /\
  forall j, 0 <= j < k -> exists b, m !! (src + j) = Some b /\ b <> 0.

(** What [n] more rounds of the loop do from index [i], in memory [m]. *)
Definition str_result (m : mem) (dest src i n stop : Z) (r : option (Z * option Z)) (m' : mem) :
    Prop :=
  (forall a, ~ within a (dest + i) n -> m' !! a = m !! a) /\
  match r with
  | None => exists j, i <= j < i + n /\
      (m !! (src + j) = None \/ ~ writable ro m (dest + j)) /\
      forall j', i <= j' < j -> exists b, m !! (src + j') = Some b /\ b <> 0
  | Some (0, got) => exists k, i <= k < i + n /\ got = Some (k + 1) /\
      m !! (src + k) = Some 0 /\
      (forall j, i <= j < k -> exists b, m !! (src + j) = Some b /\ b <> 0) /\
      (forall j, i <= j <= k -> m' !! (dest + j) = m !! (src + j))
  | Some (c, got) => c = stop /\ got = None /\
      forall j, i <= j < i + n -> exists b, m !! (src + j) = Some b /\ b <> 0
  end.

Lemma load1_sane m a :
  sane m a -> (exists b, m !! a = Some b /\ load1 m a = Ok (Some b)) \/
  (m !! a = None /\ load1 m a = Ok None).
Proof.
  unfold load1. intros [[b Hb]|Hu]; [left; rewrite Hb; by eauto|].
  destruct (m !! a) as [b|]; [left; by eauto|right].
  by rewrite (proj2 (Z.ltb_lt a USERTOP)).
Qed.

Lemma store1_sane m a b :
  sane m a ->
  (writable ro m a /\ store1 ro m a b = Ok (Some (<[a := b]> m))) \/
  (~ writable ro m a /\ store1 ro m a b = Ok None).
Proof.
  unfold store1, writable. intros Hs. destruct (m !! a) as [x|] eqn:Ha.
  - destruct ((a <? USERTOP) && ro a); [right|left]; (split; [|done]); [by intros [_ ?]|].
    split; [by eexists|done].
  - right. split; [by intros [[? ?] _]|]. destruct Hs as [[? ?]|?]; [congruence|].
    by rewrite (proj2 (Z.ltb_lt a USERTOP)).
Qed.

(** One round that stores a nonzero byte, followed by the rest. *)
Lemma str_result_step m dest src i n stop b r m' :
  0 <= i -> 0 <= n -> m !! (src + i) = Some b -> b <> 0 -> is_Some (m !! (dest + i)) ->
  (forall x y, 0 <= x < i + 1 + n -> 0 <= y < i + 1 + n -> src + x <> dest + y) ->
  str_result (<[dest + i := b]> m) dest src (i + 1) n stop r m' ->
  str_result m dest src i (n + 1) stop r m'.
Proof.
  intros Hi Hn Hb Hb0 [d Hd] Hdis [Hout Hr].
  set (m1 := <[dest + i := b]> m) in *.
  assert (forall j, 0 <= j < i + 1 + n -> m1 !! (src + j) = m !! (src + j)) as Hsrc.
  { intros j Hj. unfold m1. rewrite lookup_insert_ne; [done|]. intros He. by apply (Hdis j i); [lia|lia|]. }
  assert (forall a, is_Some (m1 !! a) <-> is_Some (m !! a)) as Hdom.
  { intros a. unfold m1. destruct (decide (a = dest + i)) as [->|];
      [rewrite lookup_insert_eq, Hd; by split; eauto|by rewrite lookup_insert_ne]. }
  split.
  { intros a Ha. rewrite Hout by (unfold within in *; lia). unfold m1.
    rewrite lookup_insert_ne; [done|unfold within in Ha; lia]. }
  assert (forall (P : Z -> Prop) k, (forall j, i + 1 <= j < k -> P j) -> P i ->
    forall j, i <= j < k -> P j) as Hext.
  { intros P k HP H0 j Hj. destruct (decide (j = i)) as [->|]; [done|apply HP; lia]. }
  destruct r as [[c got]|].
  - destruct (decide (c = 0)) as [->|Hc].
    + destruct Hr as (k & Hk & -> & Hz & Hnz & Hcp). exists k. rewrite <- Hsrc by lia.
      split_and!; [lia|lia|done|done| |].
      * apply Hext; [|by eauto]. intros j Hj. rewrite <- Hsrc by lia. by apply Hnz.
      * intros j Hj. destruct (decide (j = i)) as [->|].
        { rewrite Hout by (unfold within; lia). unfold m1. by rewrite lookup_insert_eq. }
        rewrite Hcp, Hsrc by lia. done.
    + assert (c = stop /\ got = None /\ forall j, i + 1 <= j < i + 1 + n ->
        exists b, m1 !! (src + j) = Some b /\ b <> 0) as (-> & -> & Hnz) by by destruct c.
      enough (forall j, i <= j < i + (n + 1) -> exists b, m !! (src + j) = Some b /\ b <> 0)
        by by destruct stop.
      apply Hext; [|by eauto]. intros j Hj. rewrite <- Hsrc by lia. apply Hnz. lia.
  - destruct Hr as (j & Hj & Hf & Hnz). exists j. split; [lia|]. rewrite <- Hsrc by lia.
    destruct (same_dom_access ro m m1 (dest + j) Hdom) as (_ & Hw & _). rewrite <- Hw.
    split; [done|]. apply Hext; [|by eauto]. intros x Hx. rewrite <- Hsrc by lia. by apply Hnz.
Qed.

Lemma copystr_loop_ok n : forall m dest src i maxlen stoplen,
  0 <= i ->
  (forall j, i <= j < i + Z.of_nat n -> sane m (src + j) /\ sane m (dest + j)) ->
  (forall x y, 0 <= x < i + Z.of_nat n -> 0 <= y < i + Z.of_nat n -> src + x <> dest + y) ->
  exists r m', copystr_loop n m dest src i maxlen stoplen = Ok (r, m') /\
    str_result m dest src i (Z.of_nat n)
      (if stoplen <? maxlen then EFAULT else ENAMETOOLONG) r m'.
Proof.
  induction n as [|n IH]; intros m dest src i maxlen stoplen Hi Hs Hdis; cbn [copystr_loop].
  { eexists _, m. split; [done|]. split; [done|]. destruct (stoplen <? maxlen); (split_and!; [done|done|lia]). }
  destruct (Hs i) as [Hs1 Hs2]; [lia|].
  destruct (load1_sane m (src + i) Hs1) as [(b & Hb & ->)|[Hb ->]]; runs.
  2: { exists None, m. split; [done|]. split; [done|]. exists i. split_and!; [lia|lia|by left|lia]. }
  destruct (store1_sane m (dest + i) b Hs2) as [[Hw ->]|[Hw ->]]; runs.
  2: { exists None, m. split; [done|]. split; [done|]. exists i. split_and!; [lia|lia|by right|lia]. }
  assert (src + i <> dest + i) as Hne by (apply Hdis; lia).
  assert (load1 (<[dest + i := b]> m) (src + i) = Ok (Some b)) as ->.
  { unfold load1. by rewrite lookup_insert_ne, Hb. }
  runs. destruct (Z.eqb_spec b 0) as [->|Hb0].
  - eexists _, _. split; [done|]. split.
    { intros a Ha. rewrite lookup_insert_ne; [done|unfold within in Ha; lia]. }
    exists i. split_and!; [lia|lia|done|done|lia|].
    intros j Hj. replace j with i by lia. by rewrite lookup_insert_eq, Hb.
  - destruct (IH (<[dest + i := b]> m) dest src (i + 1) maxlen stoplen) as (r & m' & -> & Hr); [lia| | |].
    + intros j Hj. destruct (Hs j) as [H1 H2]; [lia|]. unfold sane.
      rewrite !lookup_insert_ne; [done|lia|]. intros He. by apply (Hdis j i); [lia|lia|].
    + intros x y Hx Hy. apply Hdis; lia.
    + exists r, m'. split; [done|]. rewrite Nat2Z.inj_succ.
      eapply str_result_step; [done|lia|done|done|by apply Hw| |done].
      intros x y Hx Hy. apply Hdis; lia.
Qed.

(** [copyinstr] reads a string out of user space safely.  For a mapped
    kernel buffer of [len] bytes it returns 0, EFAULT or ENAMETOOLONG with
    [pcb_badfaultfunc] reset and writes only inside the buffer.  With 0 the
    string, terminator included, lies in user space and in the buffer, and
    its length is handed back; ENAMETOOLONG means that [len] bytes of user
    space hold no terminator; and a terminated string that fits is always
    copied. *)
Theorem copyinstr_spec usersrc dest len s :
  word usersrc -> word len -> badfaultfunc s = false -> USERTOP <= dest ->
  (forall x, within x dest len -> is_Some (kmem s !! x)) ->
  exists r got m', copyinstr usersrc dest len s = Ok (r, got, mk_kst m' false) /\
    (r = 0 \/ r = EFAULT \/ r = ENAMETOOLONG) /\
    (forall a, ~ within a dest len -> m' !! a = kmem s !! a) /\
    (r = 0 -> exists k, 0 <= k < len /\ usersrc + k < USERTOP /\
       string_at (kmem s) usersrc k /\ got = Some (k + 1) /\
       forall j, 0 <= j <= k -> m' !! (dest + j) = kmem s !! (usersrc + j)) /\
    (r = ENAMETOOLONG -> usersrc + len <= USERTOP /\
       forall j, 0 <= j < len -> exists b, kmem s !! (usersrc + j) = Some b /\ b <> 0) /\
    (usersrc + len <= u32_mod -> forall k, 0 <= k < len -> usersrc + k < USERTOP ->
       string_at (kmem s) usersrc k -> r = 0).
Proof.
  intros Hu Hl Hbf Hd Hbuf. destruct s as [m bf]. simpl in *. subst bf. unfold copyinstr.
  destruct (copycheck_ok usersrc len Hu Hl) as [(st & -> & H1 & H2 & H3 & Hst)|[-> Hrej]].
  2: { exists EFAULT, None, m. split; [done|]. split_and!; try done; [by auto|].
       intros Hw k Hk Hk2 _. unfold u32_mod, USERTOP in *. lia. }
  unfold protected, copystr. cbn [negb Z.eqb kmem set_badfaultfunc].
  set (n := Z.min len st). assert (0 <= n <= len /\ usersrc + n <= USERTOP) as [Hn Hun].
  { unfold n, word in *. subst st. unfold USERTOP in *. destruct (Z.ltb_spec 0 len); lia. }
  assert (len <= n <-> ~ st < len) as Hnl by (unfold n; lia).
  assert (0 < len -> n = len \/ usersrc + n = USERTOP) as Hcut.
  { intros Hp. unfold n. rewrite Hst, (proj2 (Z.ltb_lt 0 len)) by done. lia. }
  destruct (copystr_loop_ok (Z.to_nat n) m dest usersrc 0 len st) as (r & m' & -> & Hout & Hr); [lia| | |].
  { intros j Hj. split; [right; lia|left; apply Hbuf; unfold within; lia]. }
  { intros x y Hx Hy. lia. }
  rewrite Z2Nat.id in Hout, Hr by lia. runs. rewrite Z.add_0_r in Hout.
  assert (forall a, ~ within a dest len -> m' !! a = m !! a) as Hout'.
  { intros a Ha. apply Hout. unfold within in *. lia. }
  destruct r as [[c got]|]; cbn [badfaultfunc].
  - destruct (decide (c = 0)) as [->|Hc].
    + destruct Hr as (k & Hk & -> & Hz & Hnz & Hcp). exists 0, (Some (k + 1)), m'.
      split; [done|]. split_and!; try done; [by auto|].
      intros _. exists k. split_and!; try done; lia.
    + assert (c = (if st <? len then EFAULT else ENAMETOOLONG) /\ got = None /\
        forall j, 0 <= j < 0 + n -> exists b, m !! (usersrc + j) = Some b /\ b <> 0)
        as (Hc' & -> & Hnz) by by destruct c.
      exists c, None, m'. split; [done|]. split_and!; try done.
      * destruct (st <? len); auto.
      * intros He. destruct (Z.ltb_spec st len); [subst; done|]. split; [unfold word in *; lia|].
        intros j Hj. apply Hnz. lia.
      * intros Hw k Hk Hk2 [Hz _]. destruct (Hnz k) as (b & Hb & Hb0); [|congruence]. lia.
  - destruct Hr as (j & Hj & Hf & Hnz). exists EFAULT, None, m'. split; [done|].
    split_and!; try done; [by auto|]. intros Hw k Hk Hk2 [Hz Hkz]. exfalso.
    assert (k < j) as Hkj.
    { destruct (Z.lt_ge_cases k j) as [?|Hge]; [done|]. destruct Hf as [Hf|Hf].
      - destruct (decide (j = k)) as [->|]; [congruence|].
        destruct (Hkz j) as (b & Hb & _); [lia|]. congruence.
      - destruct Hf. split; [apply Hbuf; unfold within; lia|].
        by rewrite (proj2 (Z.ltb_ge (dest + j) USERTOP)) by lia. }
    destruct (Hnz k) as (b & Hb & Hb0); [lia|congruence].
Qed.

(** ** What a copy leaves in memory, whatever its result *)

(** The same addresses are mapped, and every byte was there before. *)
Definition drawn (m m' : mem) : Prop :=
  (forall a, is_Some (m' !! a) <-> is_Some (m !! a)) /\
  forall a b, m' !! a = Some b -> exists a', m !! a' = Some b.

Lemma drawn_refl m : drawn m m.
Proof. split; [done|]. eauto. Qed.

Lemma drawn_trans m1 m2 m3 : drawn m1 m2 -> drawn m2 m3 -> drawn m1 m3.
Proof.
  intros [H1 H2] [H3 H4]. split; [intros a; by rewrite H3|].
  intros a b Hb. destruct (H4 a b Hb) as [a' Ha]. by apply (H2 a').
Qed.

Lemma loadn_drawn k : forall m a bs, loadn k m a = Ok (Some bs) -> forall b, b ∈ bs -> exists a', m !! a' = Some b.
Proof.
  induction k as [|k IH]; intros m a bs; cbn [loadn]; [by intros [= <-] ? ?%elem_of_nil|].
  intros ([x|] & Hx & H)%bind_Ok b Hb; [|done]. apply bind_Ok in H as ([bs'|] & Hl & H); [|done]. injection H as <-.
  apply elem_of_cons in Hb as [->|Hb]; [|by eapply IH]. unfold load1 in Hx. destruct (m !! a) eqn:E; [|by destruct (_ <? _)].
  injection Hx as ->. eauto.
Qed.

Lemma storen_drawn bs : forall m m' a, storen ro m a bs = Ok (Some m') ->
  (forall x, is_Some (m' !! x) <-> is_Some (m !! x)) /\ forall x b, m' !! x = Some b -> b ∈ bs \/ m !! x = Some b.
Proof.
  induction bs as [|b bs IH]; intros m m' a; cbn [storen]; [intros [= <-]; auto|].
  intros ([m1|] & E & Hs)%bind_Ok; [|done]. unfold store1 in E. destruct (m !! a) eqn:Ha; [|by destruct (_ <? _)].
  destruct (_ && _); [done|]. injection E as <-. destruct (IH _ _ _ Hs) as [H1 H2]. split.
  - intros x. rewrite H1, lookup_insert. case_decide as Ex; [subst; rewrite Ha; by split; eauto|done].
  - intros x y Hy. rewrite elem_of_cons. destruct (H2 x y Hy) as [?|Hx]; [by auto|].
    rewrite lookup_insert in Hx. case_decide; [injection Hx as ->|]; auto.
Qed.

Lemma copy_up_drawn k n : forall m dst src ok m', copy_up ro k n m dst src = Ok (ok, m') -> drawn m m'.
Proof.
  induction n as [|n IH]; intros m dst src ok m'; cbn [copy_up]; [intros [= _ <-]; apply drawn_refl|].
  intros ([o m1] & H1 & H)%bind_Ok. assert (drawn m m1) as Hd.
  { unfold copy1 in H1. apply bind_Ok in H1 as ([bs|] & Hl & H1); [|injection H1 as <- <-; apply drawn_refl].
    apply bind_Ok in H1 as ([m2|] & Hs & H1); injection H1 as <- <-; [|apply drawn_refl].
    destruct (storen_drawn _ _ _ _ Hs) as [Hdom Hb]. split; [done|]. intros a b Hab. destruct (Hb a b Hab); [|eauto]. by eapply loadn_drawn. }
  destruct o; cbn [negb] in H; [|injection H as <- <-; done]. eapply drawn_trans; [done|]. by eapply IH.
Qed.

Lemma copystr_loop_drawn n : forall m dst src i mx stop r m', copystr_loop n m dst src i mx stop = Ok (r, m') -> drawn m m'.
Proof.
  induction n as [|n IH]; intros m dst src i mx stop r m'; cbn [copystr_loop]; [intros [= _ <-]; apply drawn_refl|].
  intros ([b|] & Hb & H)%bind_Ok; [|injection H as _ <-; apply drawn_refl].
  apply bind_Ok in H as ([m1|] & Hs & H); [|injection H as _ <-; apply drawn_refl]. assert (drawn m m1) as Hd.
  { destruct (storen_drawn [b] m m1 (dst + i)) as [Hdom Hb']; [cbn [storen]; by rewrite Hs|]. split; [done|]. intros a x Hx.
    destruct (Hb' a x Hx) as [->%list_elem_of_singleton|]; [|eauto]. unfold load1 in Hb. destruct (m !! (src + i)) eqn:E; [|by destruct (_ <? _)].
    injection Hb as ->. eauto. }
  apply bind_Ok in H as ([b'|] & _ & H); [|injection H as _ <-; done]. destruct (_ =? 0); [by injection H as _ <-|].
  eapply drawn_trans; [done|]. by eapply IH.
Qed.

Lemma protected_drawn {A} s (body : mem -> outcome (option (Z * A) * mem)) d r a s' :
  (forall x m', body (kmem s) = Ok (x, m') -> drawn (kmem s) m') -> protected s body d = Ok (r, a, s') -> drawn (kmem s) (kmem s').
Proof.
  intros Hb H. unfold protected in H. apply bind_Ok in H as ([x m'] & Hx & H). destruct x as [[? ?]|]; injection H as <- <- <-; by eapply Hb.
Qed.

Lemma memcpy_drawn dst src len m x m' : memcpy_body dst src len m = Ok (x, m') -> drawn m m'.
Proof.
  unfold memcpy_body. intros ([ok m1] & H & E)%bind_Ok. injection E as _ <-. unfold memcpy in H. destruct (_ && _); by eapply copy_up_drawn.
Qed.

(** What [copyin] and [copyout] do after [copycheck] has returned [c]. *)
Lemma checked_drawn (c : Z * Z) dst src len s r s' :
  (let '(result, stoplen) := c in
   if negb (result =? 0) then Ok (result, s)
   else if negb (stoplen =? len) then Ok (EFAULT, s)
   else '(result, _, s') ← protected s (memcpy_body dst src len) tt; Ok (result, s')) = Ok (r, s') -> drawn (kmem s) (kmem s').
Proof.
  destruct c as [c st]. destruct (negb _); [intros [= _ <-]; apply drawn_refl|]. destruct (negb _); [intros [= _ <-]; apply drawn_refl|].
  intros ([[? ?] ?] & H & E)%bind_Ok. injection E as <- <-. eapply protected_drawn, H. intros. by eapply memcpy_drawn.
Qed.

Lemma copyin_drawn usersrc dest len s r s' : copyin usersrc dest len s = Ok (r, s') -> drawn (kmem s) (kmem s').
Proof. apply checked_drawn. Qed.

Lemma copyout_drawn src userdest len s r s' : copyout src userdest len s = Ok (r, s') -> drawn (kmem s) (kmem s').
Proof. apply checked_drawn. Qed.

Lemma copyinstr_drawn usersrc dest len s r got s' : copyinstr usersrc dest len s = Ok (r, got, s') -> drawn (kmem s) (kmem s').
Proof.
  unfold copyinstr. destruct (copycheck _ _) as [c st]. destruct (negb _); [intros [= _ _ <-]; apply drawn_refl|].
  intros H. eapply protected_drawn, H. intros. by eapply copystr_loop_drawn.
Qed.
End Copies.

(** ** Witnesses *)

Definition kbuf : Z := 2147483648.
Definition demo : mem :=
  list_to_map [(4096, 104); (4097, 105); (4098, 0); (kbuf, 1); (kbuf + 1, 2); (kbuf + 2, 3)].

Lemma demo_buf len : 0 <= len <= 3 -> forall x, within x kbuf len -> is_Some (demo !! x).
Proof.
  intros Hl x Hx. unfold within, kbuf in *.
  assert (x = 2147483648 \/ x = 2147483649 \/ x = 2147483650) as Hc by lia.
  destruct Hc as [->|[->| ->]]; by eexists.
Qed.

Lemma copyin_safe_witness :
  exists m', copyin (fun _ => false) 4096 kbuf 3 (mk_kst demo false) = Ok (0, mk_kst m' false) /\
    m' !! (kbuf + 1) = Some 105.
Proof.
  destruct (copyin_safe (fun _ => false) 4096 kbuf 3 (mk_kst demo false))
    as (r & m' & Hc & Hr & _ & H0 & _); [done|done|done|done|by apply demo_buf|].
  destruct Hr as [-> | ->]; [|by vm_compute in Hc]. exists m'. split; [done|].
  destruct (H0 eq_refl) as (_ & _ & Hb & _). by rewrite Hb.
Defined.

Lemma copyout_safe_witness :
  exists m', copyout (fun _ => false) kbuf 4096 2 (mk_kst demo false) = Ok (0, mk_kst m' false) /\
    m' !! 4097 = Some 2.
Proof.
  destruct (copyout_safe (fun _ => false) kbuf 4096 2 (mk_kst demo false))
    as (r & m' & Hc & Hr & _ & H0 & _); [done|done|done|done|by apply demo_buf|].
  destruct Hr as [-> | ->]; [|by vm_compute in Hc]. exists m'. split; [done|].
  destruct (H0 eq_refl) as (_ & _ & Hb). by rewrite Hb.
Defined.

Lemma copyinstr_spec_witness :
  exists got m', copyinstr (fun _ => false) 4096 kbuf 3 (mk_kst demo false)
    = Ok (0, got, mk_kst m' false) /\ string_at demo 4096 2.
Proof.
  assert (string_at demo 4096 2) as Hs.
  { split; [done|]. intros j Hj. assert (j = 0 \/ j = 1) as Hc by lia.
    destruct Hc as [-> | ->]; by eexists. }
  destruct (copyinstr_spec (fun _ => false) 4096 kbuf 3 (mk_kst demo false))
    as (r & got & m' & Hc & _ & _ & _ & _ & H0); [done|done|done|done|by apply demo_buf|].
  exists got, m'. split; [|done]. rewrite Hc. do 3 f_equal.
  by apply (H0 ltac:(unfold u32_mod; lia) 2); [lia|unfold USERTOP; lia|].
Defined.

End CopyInOut.
