(* ===== verification/Uio.v ===== *)
(** * I/O descriptors: kern/userprog/uio.c, kern/include/uio.h

    [uiomove], [uiomovezeros], [mk_kuio] over the memory of the copy
    functions.  A [struct uio] describes one buffer, in kernel or user space,
    and how much is left to transfer. *)

From S2P Require Import Prelude Memory CopyInOut.
Import Memory CopyInOut.

Module Uio.

Inductive uio_rw : Type := UIO_READ | UIO_WRITE.
Inductive uio_seg : Type := UIO_USERSPACE | UIO_SYSSPACE | UIO_USERISPACE.

#[export] Instance uio_rw_eq_dec : EqDecision uio_rw.
Proof. solve_decision. Defined.

(** [iov_base] is the union of [iov_kbase] and [iov_ubase]; [uio_space] is an
    address-space pointer, [None] for NULL. *)
Record uio : Type := mk_uio {
  iov_base : Z;
  iov_len : Z;
  uio_offset : Z;
  uio_resid : Z;
  uio_segflg : uio_seg;
  rw : uio_rw;
  uio_space : option Z;
}.

Section Moves.
Context (ro : Z -> bool) (t_vmspace : option Z).

(** The [switch] on [uio_segflg]; outside the copy functions
    [pcb_badfaultfunc] is NULL, so a fault in [memmove] panics. *)
Definition move_block (u : uio) (ptr size : Z) (s : kst) : outcome (Z * kst) :=
  match uio_segflg u with
  | UIO_SYSSPACE =>
      '(ok, m') ← match rw u with
                  | UIO_READ => memmove ro (kmem s) (iov_base u) ptr size
                  | UIO_WRITE => memmove ro (kmem s) ptr (iov_base u) size
                  end;
      if negb ok then Panic else Ok (0, mk_kst m' (badfaultfunc s))
  | UIO_USERSPACE | UIO_USERISPACE =>
      match rw u with
      | UIO_READ => copyout ro ptr (iov_base u) size s
      | UIO_WRITE => copyin ro (iov_base u) ptr size s
      end
  end.

(** The updates after a block of [size] bytes was moved. *)
Definition advance (u : uio) (size : Z) : uio :=
  mk_uio (u32 (iov_base u + size)) (u32 (iov_len u - size)) (s32 (uio_offset u + size))
    (u32 (uio_resid u - size)) (uio_segflg u) (rw u) (uio_space u).

Fixpoint uiomove_loop (fuel : nat) (ptr n : Z) (u : uio) (s : kst) : outcome (Z * uio * kst) :=
  match fuel with
  | O => Hang
  | S fuel' =>
      if (n >? 0) && (uio_resid u >? 0) then
        let size := iov_len u in
        let size := if size >? n then n else size in
        if size =? 0 then Panic
        else
          '(result, s') ← move_block u ptr size s;
          if negb (result =? 0) then Ok (result, u, s')
          else uiomove_loop fuel' (u32 (ptr + size)) (u32 (n - size)) (advance u size) s'
      else Ok (0, u, s)
  end.

(** Every round takes at least one byte off [n]. *)
Definition uiomove (ptr n : Z) (u : uio) (s : kst) : outcome (Z * uio * kst) :=
  _ ← match uio_segflg u with
      | UIO_SYSSPACE => c_assert (bool_decide (uio_space u = None))
      | _ => c_assert (bool_decide (uio_space u = t_vmspace))
      end;
  uiomove_loop (S (Z.to_nat n)) ptr n u s.

(** [zeros] is the address of the static buffer of sixteen zero bytes. *)
Fixpoint uiomovezeros_loop (fuel : nat) (zeros n : Z) (u : uio) (s : kst) :
    outcome (Z * uio * kst) :=
  match fuel with
  | O => Hang
  | S fuel' =>
      if n >? 0 then
        let amt := 16 in
        let amt := if amt >? n then n else amt in
        '(result, u', s') ← uiomove zeros amt u s;
        if negb (result =? 0) then Ok (result, u', s')
        else uiomovezeros_loop fuel' zeros (u32 (n - amt)) u' s'
      else Ok (0, u, s)
  end.

Definition uiomovezeros (zeros n : Z) (u : uio) (s : kst) : outcome (Z * uio * kst) :=
  _ ← c_assert (bool_decide (rw u = UIO_READ));
  uiomovezeros_loop (S (Z.to_nat n)) zeros n u s.

Definition mk_kuio (kbuf len pos : Z) (rw : uio_rw) : uio :=
  mk_uio kbuf len pos len UIO_SYSSPACE rw None.

(** ** Lemmas *)

(** The block a transfer of [t] bytes reads and the one it writes. *)
Definition uio_dst (u : uio) (ptr : Z) : Z :=
  match rw u with UIO_READ => iov_base u | UIO_WRITE => ptr end.
Definition uio_src (u : uio) (ptr : Z) : Z :=
  match rw u with UIO_READ => ptr | UIO_WRITE => iov_base u end.

Definition kernel_block (m : mem) (a len : Z) : Prop :=
  USERTOP <= a /\ a + len <= u32_mod /\ forall x, within x a len -> is_Some (m !! x).

(** The lengths are 32-bit, and the amount to move is bounded by both the
    residual count and the buffer. *)
Definition fits (u : uio) (n : Z) : Prop :=
  word (iov_len u) /\ word n /\ 0 <= uio_resid u <= iov_len u /\
  (n <= uio_resid u \/ iov_len u = uio_resid u).

Lemma kernel_block_part m m' a len o l :
  0 <= o -> 0 <= l -> o + l <= len -> (forall a, is_Some (m' !! a) <-> is_Some (m !! a)) ->
  kernel_block m a len -> kernel_block m' (a + o) l.
Proof.
  clear ro. unfold kernel_block, within. intros Ho Hl Hlen Hd (H1 & H2 & H3).
  split_and!; [lia|lia|]. intros x Hx. rewrite Hd. apply H3. lia.
Qed.

Lemma move_block_kernel u ptr size s :
  uio_segflg u = UIO_SYSSPACE -> 0 <= size ->
  kernel_block (kmem s) (iov_base u) size -> kernel_block (kmem s) ptr size ->
  exists m', move_block u ptr size s = Ok (0, mk_kst m' (badfaultfunc s)) /\
    copy_result ro (kmem s) (uio_dst u ptr) (uio_src u ptr) size true m'.
Proof.
  intros Hseg Hsz Hb Hp. unfold move_block. rewrite Hseg.
  assert (forall a x len, kernel_block (kmem s) a len -> within x a len -> writable ro (kmem s) x) as Hw.
  { intros a x len (H1 & _ & H2) Hx. split; [by apply H2|]. unfold within in Hx.
    by rewrite (proj2 (Z.ltb_ge x USERTOP)) by lia. }
  assert (forall d sr, kernel_block (kmem s) d size -> kernel_block (kmem s) sr size ->
    exists m', memmove ro (kmem s) d sr size = Ok (true, m') /\
      copy_result ro (kmem s) d sr size true m') as Hmm.
  { intros d sr Hd Hs. destruct (memmove_ok ro (kmem s) d sr size) as (ok & m' & Hm & Hc); [done| |].
    - split; intros x Hx; left; [exact (proj1 (Hw sr x size Hs Hx))|exact (proj1 (Hw d x size Hd Hx))].
    - destruct ok; [by eauto|]. destruct Hc as (_ & _ & a & [[Ha Hn]|[Ha Hn]]); destruct Hn;
        [exact (proj1 (Hw sr a size Hs Ha))|exact (Hw d a size Hd Ha)]. }
  unfold uio_dst, uio_src. destruct (rw u).
  - destruct (Hmm _ _ Hb Hp) as (m' & -> & Hc). runs. by eauto.
  - destruct (Hmm _ _ Hp Hb) as (m' & -> & Hc). runs. by eauto.
Qed.

(** After the one block that is moved, the loop ends. *)
Lemma uiomove_loop_one fuel ptr n u s m' :
  fits u n -> 0 < n -> 0 < uio_resid u -> iov_base u + Z.min n (uio_resid u) <= u32_mod ->
  move_block u ptr (Z.min n (uio_resid u)) s = Ok (0, m') ->
  uiomove_loop (S (S fuel)) ptr n u s = Ok (0, advance u (Z.min n (uio_resid u)), m').
Proof.
  intros (Hl & Hn & Hr & Hor) Hn0 Hr0 Hb Hmv. unfold word in *.
  assert ((if iov_len u >? n then n else iov_len u) = Z.min n (uio_resid u)) as Hsz.
  { destruct (Z.gtb_spec (iov_len u) n); lia. }
  cbn [uiomove_loop]. rewrite Hsz.
  rewrite (proj2 (Z.gtb_lt n 0)), (proj2 (Z.gtb_lt (uio_resid u) 0)) by lia. cbn [andb].
  rewrite (proj2 (Z.eqb_neq (Z.min n (uio_resid u)) 0)) by lia. rewrite Hmv. runs.
  cbn [advance uio_resid]. rewrite !u32_id by lia.
  destruct ((n - Z.min n (uio_resid u) >? 0) && (uio_resid u - Z.min n (uio_resid u) >? 0)) eqn:E;
    [|done]. apply andb_true_iff in E as [E1 E2]. apply Z.gtb_lt in E1, E2. lia.
Qed.

Lemma uiomove_kernel ptr n u s :
  uio_segflg u = UIO_SYSSPACE -> uio_space u = None -> fits u n ->
  let t := Z.min n (uio_resid u) in
  kernel_block (kmem s) (iov_base u) t -> kernel_block (kmem s) ptr t ->
  exists m', uiomove ptr n u s = Ok (0, if t =? 0 then u else advance u t, mk_kst m' (badfaultfunc s)) /\
    copy_result ro (kmem s) (uio_dst u ptr) (uio_src u ptr) t true m'.
Proof.
  intros Hseg Hsp Hf t Hb Hp. unfold uiomove. rewrite Hseg, Hsp, bool_decide_true by done. runs.
  pose proof Hf as (Hl & Hn & Hr & _). unfold word in *.
  destruct (Z.eqb_spec t 0) as [Ht|Ht].
  - exists (kmem s). rewrite Ht. split; [|apply copy_result_nil].
    cbn [uiomove_loop]. replace ((n >? 0) && (uio_resid u >? 0)) with false.
    { by destruct s. }
    symmetry. apply andb_false_iff. unfold t in Ht. rewrite !Z.gtb_ltb, !Z.ltb_ge. lia.
  - destruct (move_block_kernel u ptr t s Hseg) as (m' & Hm & Hc); [lia|done|done|].
    exists m'. split; [|done]. replace (Z.to_nat n) with (S (Z.to_nat (n - 1))) by lia.
    apply uiomove_loop_one; [done|lia|lia| |done]. by destruct Hb as (_ & ? & _).
Qed.

(** [uiomove] on a kernel uio whose residual count fits its buffer moves
    min(n, resid) bytes: the bytes go from or to the buffer as one block copy
    and nothing else changes, the residual count and the buffer length shrink
    by that amount and the offset and the buffer address grow by it, as uio.h
    promises.  It always returns 0. *)
Theorem uiomove_moves_min ptr n u s :
  uio_segflg u = UIO_SYSSPACE -> uio_space u = None -> fits u n ->
  let t := Z.min n (uio_resid u) in
  kernel_block (kmem s) (iov_base u) t -> kernel_block (kmem s) ptr t ->
  exists u' m', uiomove ptr n u s = Ok (0, u', mk_kst m' (badfaultfunc s)) /\
    copy_result ro (kmem s) (uio_dst u ptr) (uio_src u ptr) t true m' /\
    uio_resid u' = uio_resid u - t /\ iov_len u' = iov_len u - t /\
    (int_min <= uio_offset u /\ uio_offset u + t <= int_max ->
       uio_offset u' = uio_offset u + t) /\
    (0 < t -> iov_base u + t < u32_mod -> iov_base u' = iov_base u + t) /\
    uio_segflg u' = UIO_SYSSPACE /\ rw u' = rw u /\ uio_space u' = None.
Proof.
  intros Hseg Hsp Hf t Hb Hp.
  destruct (uiomove_kernel ptr n u s Hseg Hsp Hf Hb Hp) as (m' & Hm & Hc). fold t in Hm, Hc.
  pose proof Hf as (Hl & Hn & Hr & _). destruct Hb as (Hb0 & _).
  eexists _, m'. split; [exact Hm|]. split; [done|].
  destruct (Z.eqb_spec t 0) as [Ht|Ht]; cbn [advance uio_resid iov_len uio_offset iov_base uio_segflg rw uio_space].
  - rewrite Ht, !Z.sub_0_r, Z.add_0_r. by split_and!.
  - unfold word, USERTOP, s32, u32, u32_mod, int_min, int_max in *.
    rewrite !(Z.mod_small (_ - t)) by lia.
    split_and!; try done.
    + intros Ho. rewrite Z.mod_small by lia. lia.
    + intros _ Hlt. apply Z.mod_small. lia.
Qed.

(** The transfer is not limited by [uio_resid] when the buffer is longer
    than it: asked for more than the residual count, [uiomove] moves the whole
    request and the unsigned residual count wraps around to nearly 4 GB, where
    uio.h makes [uio_resid] the total amount that can be transferred. *)
Theorem uiomove_resid_wraps ptr n u s :
  uio_segflg u = UIO_SYSSPACE -> uio_space u = None ->
  word (iov_len u) -> 0 < uio_resid u < n -> n = iov_len u ->
  kernel_block (kmem s) (iov_base u) n -> kernel_block (kmem s) ptr n ->
  exists u' m', uiomove ptr n u s = Ok (0, u', mk_kst m' (badfaultfunc s)) /\
    copy_result ro (kmem s) (uio_dst u ptr) (uio_src u ptr) n true m' /\
    uio_resid u' = u32_mod - (n - uio_resid u).
Proof.
  intros Hseg Hsp Hl Hr Hn Hb Hp. unfold uiomove. rewrite Hseg, Hsp, bool_decide_true by done. runs.
  destruct (move_block_kernel u ptr n s Hseg) as (m' & Hm & Hc); [lia|done|done|].
  exists (advance u n), m'. split; [|split; [done|]].
  - replace (Z.to_nat n) with (S (Z.to_nat (n - 1))) by lia. cbn [uiomove_loop].
    rewrite (proj2 (Z.gtb_lt n 0)), (proj2 (Z.gtb_lt (uio_resid u) 0)) by lia. cbn [andb].
    rewrite <- Hn, (Z.gtb_ltb n n), Z.ltb_irrefl, (proj2 (Z.eqb_neq n 0)) by lia.
    rewrite Hm. runs. by rewrite Z.sub_diag.
  - simpl. unfold word, u32, u32_mod in *.
    rewrite <- (Z.mod_add _ 1) by lia. rewrite Z.mod_small; lia.
Qed.

(** The static buffer: sixteen zero bytes of the kernel outside [a, a+len). *)
Definition zero_buffer (m : mem) (zeros a len : Z) : Prop :=
  kernel_block m zeros 16 /\
  forall x, within x zeros 16 -> m !! x = Some 0 /\ ~ within x a len.

(** The effect of sending [n] zeros through [u]. *)
Definition zero_filled (m : mem) (u : uio) (n : Z) (u' : uio) (m' : mem) : Prop :=
  (forall a, m' !! a = if decide (within a (iov_base u) n) then Some 0 else m !! a) /\
  uio_resid u' = uio_resid u - n /\ iov_len u' = iov_len u - n.

Lemma zero_chunk zeros amt n u s :
  uio_segflg u = UIO_SYSSPACE -> uio_space u = None -> rw u = UIO_READ ->
  0 < amt <= 16 -> amt <= n <= uio_resid u -> uio_resid u <= iov_len u -> word (iov_len u) ->
  kernel_block (kmem s) (iov_base u) n -> zero_buffer (kmem s) zeros (iov_base u) n ->
  exists m', uiomove zeros amt u s = Ok (0, advance u amt, mk_kst m' (badfaultfunc s)) /\
    zero_filled (kmem s) u amt (advance u amt) m' /\
    (forall a, is_Some (m' !! a) <-> is_Some (kmem s !! a)).
Proof.
  intros Hseg Hsp Hrw Hamt Hn Hr Hl Hb (Hzb & Hz).
  assert (Z.min amt (uio_resid u) = amt) as Ht by lia.
  destruct (uiomove_kernel zeros amt u s) as (m' & Hm & Hdom & Hout & Hcp & _); [done|done| | | |].
  { unfold fits, word in *. lia. }
  { rewrite Ht, <- (Z.add_0_r (iov_base u)).
    eapply kernel_block_part; [..|exact Hb]; [lia|lia|lia|done]. }
  { rewrite Ht, <- (Z.add_0_r zeros).
    eapply kernel_block_part; [..|exact Hzb]; [lia|lia|lia|done]. }
  rewrite Ht, (proj2 (Z.eqb_neq amt 0)) in Hm by lia. exists m'. split; [done|].
  rewrite Ht in Hcp. unfold uio_dst, uio_src in Hcp. rewrite Hrw in Hcp. split; [|done].
  split.
  - intros a. rewrite Hcp. destruct (decide _) as [Hin|]; [|done].
    apply Hz. unfold within in *. lia.
  - simpl. unfold word in *. rewrite !u32_id by lia. done.
Qed.

Lemma uiomovezeros_loop_ok fuel : forall zeros n u s,
  uio_segflg u = UIO_SYSSPACE -> uio_space u = None -> rw u = UIO_READ ->
  (Z.to_nat n < fuel)%nat -> 0 <= n <= uio_resid u -> uio_resid u <= iov_len u ->
  word (iov_len u) ->
  (0 < n -> kernel_block (kmem s) (iov_base u) n /\
     zero_buffer (kmem s) zeros (iov_base u) n) ->
  exists u' m', uiomovezeros_loop fuel zeros n u s = Ok (0, u', mk_kst m' (badfaultfunc s)) /\
    zero_filled (kmem s) u n u' m'.
Proof.
  induction fuel as [|fuel IH]; intros zeros n u s Hseg Hsp Hrw Hfuel Hn Hr Hl Hmem; [lia|].
  cbn [uiomovezeros_loop]. destruct (Z.gtb_spec n 0) as [Hpos|Hzero].
  2: { assert (n = 0) as -> by lia. exists u, (kmem s). split; [by destruct s|].
       split; [|lia]. intros a. rewrite decide_False; [done|unfold within; lia]. }
  destruct (Hmem Hpos) as [Hb Hz].
  assert ((if 16 >? n then n else 16) = Z.min 16 n) as -> by (destruct (Z.gtb_spec 16 n); lia).
  set (amt := Z.min 16 n).
  destruct (zero_chunk zeros amt n u s) as (m1 & -> & (Hf1 & Hr1 & Hl1) & Hdom);
    try done; [lia|lia|]. runs.
  assert (u32 (n - amt) = n - amt) as -> by (apply u32_id; unfold word in *; lia).
  destruct (IH zeros (n - amt) (advance u amt) (mk_kst m1 (badfaultfunc s)))
    as (u' & m' & -> & Hf2 & Hr2 & Hl2); try done; try (rewrite ?Hr1, ?Hl1; unfold word in *; lia).
  { intros Hpos'. assert (iov_base (advance u amt) = iov_base u + amt) as ->.
    { apply u32_id. destruct Hb as (? & ? & _). unfold USERTOP in *. lia. }
    simpl. split; [eapply kernel_block_part; [..|exact Hb]; [lia|lia|lia|done]|].
    destruct Hz as [Hzb Hz]. split.
    - rewrite <- (Z.add_0_r zeros). eapply kernel_block_part; [..|exact Hzb]; [lia|lia|lia|done].
    - intros x Hx. destruct (Hz x Hx) as [Hx0 Hxn]. rewrite Hf1, decide_False by (unfold within in *; lia).
      split; [done|]. unfold within in *. lia. }
  exists u', m'. split; [done|]. split; [|lia]. intros a. rewrite Hf2. simpl. rewrite Hf1.
  destruct (decide (n - amt = 0)) as [Hend|Hmore].
  - rewrite Hend, (decide_False (P := within a (u32 _) 0)) by (unfold within; lia).
    replace n with amt by lia. done.
  - rewrite (u32_id (iov_base u + amt)).
    2: { destruct Hb as (? & ? & _). unfold USERTOP in *. lia. }
    destruct (decide (within a (iov_base u + amt) (n - amt)));
      [by rewrite (decide_True (P := within a (iov_base u) n)) by (unfold within in *; lia)|].
    destruct (decide (within a (iov_base u) amt)).
    + by rewrite decide_True by (unfold within in *; lia).
    + by rewrite decide_False by (unfold within in *; lia).
Qed.

(** [uiomovezeros] on a kernel uio zeroes exactly the next [n] bytes of
    its buffer, in chunks of sixteen, and accounts for them; it always
    terminates with 0 when the buffer has room. *)
Theorem uiomovezeros_zero_fills zeros n u s :
  uio_segflg u = UIO_SYSSPACE -> uio_space u = None -> rw u = UIO_READ ->
  0 <= n <= uio_resid u -> uio_resid u <= iov_len u -> word (iov_len u) ->
  (0 < n -> kernel_block (kmem s) (iov_base u) n /\
     zero_buffer (kmem s) zeros (iov_base u) n) ->
  exists u' m', uiomovezeros zeros n u s = Ok (0, u', mk_kst m' (badfaultfunc s)) /\
    zero_filled (kmem s) u n u' m'.
Proof.
  intros Hseg Hsp Hrw Hn Hr Hl Hmem. unfold uiomovezeros.
  rewrite bool_decide_true by done. runs. apply uiomovezeros_loop_ok; try done. lia.
Qed.

End Moves.

(** ** Witnesses *)

Definition kb : Z := 2147483648.

Lemma kernel_block_bytes bs :
  zlen bs <= 64 -> kernel_block (list_to_map (zip (seqZ kb (zlen bs)) bs)) kb (zlen bs).
Proof.
  intros Hl. split_and!; [unfold USERTOP, kb; lia|unfold kb, u32_mod; lia|].
  intros x Hx. unfold within in Hx.
  destruct (lookup_lt_is_Some_2 bs (Z.to_nat (x - kb))) as [b Hb]; [lia|]. exists b.
  apply elem_of_list_to_map_1.
  - rewrite fst_zip by (rewrite length_seqZ; lia). apply NoDup_seqZ.
  - apply list_elem_of_lookup. exists (Z.to_nat (x - kb)). apply lookup_zip_with_Some.
    exists x, b. split_and!; [done| |done]. apply lookup_seqZ. lia.
Qed.

Definition demo_bytes : list Z := [1; 2; 3; 4; 5; 6; 7; 8] ++ replicate 16 0.
Definition demo_st : kst := mk_kst (list_to_map (zip (seqZ kb 24) demo_bytes)) false.

Lemma demo_block o l : 0 <= o -> 0 <= l -> o + l <= 24 -> kernel_block (kmem demo_st) (kb + o) l.
Proof.
  intros Ho Hl Hb. eapply (kernel_block_part (kmem demo_st) _ kb 24 o l); [done|done|done|done|].
  apply (kernel_block_bytes demo_bytes). simpl. lia.
Qed.

Lemma uiomove_moves_min_witness :
  exists u' m', uiomove (fun _ => false) None (kb + 4) 9 (mk_kuio kb 4 100 UIO_READ) demo_st
    = Ok (0, u', mk_kst m' false) /\ uio_resid u' = 0 /\ m' !! (kb + 1) = Some 6.
Proof.
  destruct (uiomove_moves_min (fun _ => false) None (kb + 4) 9 (mk_kuio kb 4 100 UIO_READ) demo_st)
    as (u' & m' & Hm & (_ & _ & Hb & _) & Hr & _); [done|done| | | |].
  - unfold fits, word, u32_mod. simpl. lia.
  - apply (demo_block 0 4); lia.
  - apply (demo_block 4 4); lia.
  - exists u', m'. split; [done|]. split; [done|]. by rewrite Hb.
Defined.

Lemma uiomove_resid_wraps_witness :
  exists u' m', uiomove (fun _ => false) None (kb + 4) 4
    (mk_uio kb 4 0 1 UIO_SYSSPACE UIO_READ None) demo_st = Ok (0, u', mk_kst m' false) /\
    uio_resid u' = 4294967293.
Proof.
  destruct (uiomove_resid_wraps (fun _ => false) None (kb + 4) 4
    (mk_uio kb 4 0 1 UIO_SYSSPACE UIO_READ None) demo_st) as (u' & m' & Hm & _ & Hr);
    [done|done|done|simpl; lia|done|apply (demo_block 0 4); lia|apply (demo_block 4 4); lia|].
  exists u', m'. split; [done|]. rewrite Hr. reflexivity.
Defined.

Lemma uiomovezeros_zero_fills_witness :
  exists u' m', uiomovezeros (fun _ => false) None (kb + 8) 4 (mk_kuio kb 4 0 UIO_READ) demo_st
    = Ok (0, u', mk_kst m' false) /\ m' !! (kb + 3) = Some 0 /\ m' !! (kb + 4) = Some 5.
Proof.
  destruct (uiomovezeros_zero_fills (fun _ => false) None (kb + 8) 4 (mk_kuio kb 4 0 UIO_READ) demo_st)
    as (u' & m' & Hm & Hf & _); [done|done|done|simpl; lia|simpl; lia|done| |].
  - intros _. split; [apply (demo_block 0 4); lia|]. split; [apply (demo_block 8 16); lia|].
    assert (Forall (fun x => kmem demo_st !! x = Some 0) (seqZ (kb + 8) 16)) as Hz.
    { vm_compute. repeat constructor. }
    intros x Hx. unfold within in *. split; [|simpl; lia].
    apply (proj1 (Forall_forall _ _) Hz), list_elem_of_In, elem_of_seqZ. lia.
  - exists u', m'. split; [done|]. by rewrite !Hf.
Defined.

End Uio.
