(* ===== verification/VmState.v ===== *)
(** * The state of the virtual memory system, and its monad

    The globals of kern/vm: the coremap and the page table (arrays of
    [total_pages] entries), physical memory by page, the TLB with its
    round-robin victim, the swap table and the swap file, the statistics
    counters, and which of the three mutexes are held.  [gettime] and the
    vnode behind the swap file are interfaces with laws. *)

From S2P Require Import Prelude.

(** ** Interfaces *)

(** [VOP_READ] and [VOP_WRITE] of one page on the swap file, at a byte offset;
    the result code first. *)
Class SwapDev (file page : Type) : Type := {
  vop_write : file -> Z -> page -> Z * file;
  vop_read : file -> Z -> Z * page;
}.

(** What swapfile.c relies on: a page that was written without an error is
    read back, and a write at a page offset, failed or not, leaves the other
    pages alone. *)
Class SwapDevLaws (file page : Type) `{SwapDev file page} : Prop := {
  vop_write_read f off p f' :
    vop_write f off p = (0, f') -> vop_read f' off = (0, p);
  vop_write_other f off p off' :
    off mod 4096 = 0 -> off' mod 4096 = 0 -> off <> off' ->
    vop_read (snd (vop_write f off p)) off' = vop_read f off';
}.

(** The hardware clock, read by [gettime] as seconds and nanoseconds; each
    read is one tick later. *)
Class Clock : Type := gettime : nat -> Z * Z.

Definition time_le (a b : Z * Z) : Prop := fst a < fst b \/ fst a = fst b /\ snd a <= snd b.

Class ClockLaws `{Clock} : Prop :=
  gettime_mono i j : (i <= j)%nat -> time_le (gettime i) (gettime j).

Module Vm.

Definition NUM_TLB : Z := 64.
Definition VMSTAT_COUNT : Z := 10.

Record coremap_entry : Type := mk_cme {
  in_use : Z;
  is_kernel : Z;
  secs : Z;
  nsecs : Z;
}.

Record page_table_entry : Type := mk_pte {
  vaddr : Z;
  paddr : Z;
  pid : Z;
  npages : Z;
  writeable : Z;
  dirty : Z;
}.

Record swap_entry : Type := mk_swe {
  va : Z;
  sw_pid : Z;
  offset : Z;
}.

Inductive mutex : Type := coremap_mutex | pt_mutex | swap_mutex.

#[export] Instance mutex_eq_dec : EqDecision mutex.
Proof. solve_decision. Defined.

Section State.
Context {file page : Type}.

Record vm : Type := mk_vm {
  coremap : list coremap_entry;
  page_table : list page_table_entry;
  ram : gmap Z page;
  tlb : list (Z * Z);
  m_next_victim : Z;
  swap_array : list swap_entry;
  swap_file : file;
  k_in_data : page;
  k_out_data : page;
  stats_counts : list Z;
  clock : nat;
  held : list mutex;
}.

Definition set_coremap x (s : vm) : vm := mk_vm x (page_table s) (ram s) (tlb s) (m_next_victim s)
  (swap_array s) (swap_file s) (k_in_data s) (k_out_data s) (stats_counts s) (clock s) (held s).
Definition set_page_table x (s : vm) : vm := mk_vm (coremap s) x (ram s) (tlb s) (m_next_victim s)
  (swap_array s) (swap_file s) (k_in_data s) (k_out_data s) (stats_counts s) (clock s) (held s).
Definition set_ram x (s : vm) : vm := mk_vm (coremap s) (page_table s) x (tlb s) (m_next_victim s)
  (swap_array s) (swap_file s) (k_in_data s) (k_out_data s) (stats_counts s) (clock s) (held s).
Definition set_tlb x y (s : vm) : vm := mk_vm (coremap s) (page_table s) (ram s) x y
  (swap_array s) (swap_file s) (k_in_data s) (k_out_data s) (stats_counts s) (clock s) (held s).
Definition set_swap_array x (s : vm) : vm := mk_vm (coremap s) (page_table s) (ram s) (tlb s)
  (m_next_victim s) x (swap_file s) (k_in_data s) (k_out_data s) (stats_counts s) (clock s) (held s).
Definition set_swap_file x (s : vm) : vm := mk_vm (coremap s) (page_table s) (ram s) (tlb s)
  (m_next_victim s) (swap_array s) x (k_in_data s) (k_out_data s) (stats_counts s) (clock s) (held s).
Definition set_buffers x y (s : vm) : vm := mk_vm (coremap s) (page_table s) (ram s) (tlb s)
  (m_next_victim s) (swap_array s) (swap_file s) x y (stats_counts s) (clock s) (held s).
Definition set_stats x (s : vm) : vm := mk_vm (coremap s) (page_table s) (ram s) (tlb s)
  (m_next_victim s) (swap_array s) (swap_file s) (k_in_data s) (k_out_data s) x (clock s) (held s).
Definition set_clock x (s : vm) : vm := mk_vm (coremap s) (page_table s) (ram s) (tlb s)
  (m_next_victim s) (swap_array s) (swap_file s) (k_in_data s) (k_out_data s) (stats_counts s) x (held s).
Definition set_held x (s : vm) : vm := mk_vm (coremap s) (page_table s) (ram s) (tlb s)
  (m_next_victim s) (swap_array s) (swap_file s) (k_in_data s) (k_out_data s) (stats_counts s) (clock s) x.

(** The two arrays have [total_pages] entries; the loops run over them. *)
Definition total_pages (s : vm) : Z := zlen (page_table s).

(** ** The monad: state passing with outcomes *)

Definition M (A : Type) : Type := vm -> outcome (A * vm).

#[export] Instance M_ret : MRet M := fun A a s => Ok (a, s).
#[export] Instance M_bind : MBind M := fun A B f m s => '(a, s') ← m s; f a s'.

Definition get : M vm := fun s => Ok (s, s).
Definition modify (f : vm -> vm) : M unit := fun s => Ok (tt, f s).
Definition fail {A} (o : outcome A) : M A := fun s => a ← o; Ok (a, s).

(** [lock_acquire] by the one thread that runs: on a mutex that it holds
    already it sleeps and nobody wakes it (kern/thread/synch.c). *)
Definition lock_acquire (l : mutex) : M unit :=
  s ← get;
  if decide (l ∈ held s) then fail Hang else modify (set_held (l :: held s)).

Definition lock_release (l : mutex) : M unit :=
  s ← get;
  if decide (l ∈ held s) then modify (set_held (filter (fun x => x <> l) (held s)))
  else fail Panic.

(** [vmstats_inc] and [_vmstats_inc] of uw-vmstats.c: an assertion on the
    index, and an unsigned counter. *)
Definition vmstats_inc (index : Z) : M unit :=
  s ← get;
  _ ← fail (c_assert (index <? VMSTAT_COUNT));
  n ← fail (rd (stats_counts s) index);
  st ← fail (wr (stats_counts s) index (u32 (n + 1)));
  modify (set_stats st).

Definition pt_rd (i : Z) : M page_table_entry := s ← get; fail (rd (page_table s) i).
Definition pt_wr (i : Z) (e : page_table_entry) : M unit :=
  s ← get; l ← fail (wr (page_table s) i e); modify (set_page_table l).
Definition cm_rd (i : Z) : M coremap_entry := s ← get; fail (rd (coremap s) i).
Definition cm_wr (i : Z) (e : coremap_entry) : M unit :=
  s ← get; l ← fail (wr (coremap s) i e); modify (set_coremap l).

(** The page of physical memory behind [PADDR_TO_KVADDR(pa)]. *)
Definition ram_rd (pa : Z) : M page :=
  s ← get; match ram s !! pa with Some p => mret p | None => fail Undef end.
Definition ram_wr (pa : Z) (p : page) : M unit :=
  s ← get;
  match ram s !! pa with
  | Some _ => modify (set_ram (<[pa := p]> (ram s)))
  | None => fail Undef
  end.

(** ** Running the monad *)

Lemma run_bind {A B} (m : M A) (f : A -> M B) s :
  (m ≫= f) s = '(a, s') ← m s; f a s'.
Proof. reflexivity. Qed.

Lemma run_fail {A} (o : outcome A) s : fail o s = (a ← o; Ok (a, s)).
Proof. reflexivity. Qed.

Lemma run_get s : get s = Ok (s, s).
Proof. reflexivity. Qed.

Lemma run_modify f s : modify f s = Ok (tt, f s).
Proof. reflexivity. Qed.

Lemma run_ret {A} (a : A) s : (mret a : M A) s = Ok (a, s).
Proof. reflexivity. Qed.

Lemma run_acquire l s : l ∉ held s -> lock_acquire l s = Ok (tt, set_held (l :: held s) s).
Proof. intros H. unfold lock_acquire. rewrite run_bind. simpl. by rewrite decide_False. Qed.

(** The critical sections nest: a release gives back what was held before. *)
Lemma run_release l s hs :
  held s = l :: hs -> l ∉ hs -> lock_release l s = Ok (tt, set_held hs s).
Proof.
  intros Hs Hl. unfold lock_release. rewrite run_bind. simpl. rewrite Hs, decide_True by (left).
  unfold modify. do 3 f_equal. rewrite filter_cons_False by naive_solver.
  clear Hs. induction hs as [|x hs IH]; [done|]. apply not_elem_of_cons in Hl as [Hx Hl].
  rewrite filter_cons_True by congruence. f_equal. by apply IH.
Qed.

End State.

Arguments vm : clear implicits.
Arguments M : clear implicits.

(** Unfold one bind of a run and compute with the state operations. *)
Ltac mrun :=
  repeat first
    [ rewrite run_bind
    | rewrite run_get
    | rewrite run_modify
    | rewrite run_ret
    | rewrite run_fail
    | rewrite Ok_bind
    | progress cbn beta iota
    | progress cbn [coremap page_table ram tlb m_next_victim
        swap_array swap_file k_in_data k_out_data stats_counts clock held
        set_coremap set_page_table set_ram set_tlb set_swap_array set_swap_file set_buffers
        set_stats set_clock set_held c_assert negb andb orb] ].

Section Runs.
Context {file page : Type}.

Lemma vmstats_inc_run i (s : vm file page) :
  0 <= i < VMSTAT_COUNT -> zlen (stats_counts s) = VMSTAT_COUNT ->
  exists st, vmstats_inc i s = Ok (tt, set_stats st s) /\ length st = length (stats_counts s) /\
    exists n, stats_counts s !! Z.to_nat i = Some n /\ st = <[Z.to_nat i := u32 (n + 1)]> (stats_counts s).
Proof.
  intros Hi Hl. unfold vmstats_inc. mrun.
  rewrite (proj2 (Z.ltb_lt i VMSTAT_COUNT)) by lia. mrun.
  destruct (rd_in (stats_counts s) i) as (n & -> & Hn); [lia|]. mrun.
  rewrite wr_in by lia. mrun. eexists. split; [done|]. rewrite length_insert.
  split; [done|]. by exists n.
Qed.

End Runs.

End Vm.
