(* ===== verification/Coremap.v ===== *)
(** * The coremap: kern/vm/coremap.c

    Which physical frames are in use, by whom (kernel or user), and since
    when.  [get_free_page], [get_free_kpages], [get_fifo_page], [free_page],
    [coremap_is_kernel], [coremap_entry_count].  The bootstrap is in Boot.v. *)

From S2P Require Import Prelude VmState.
Import Vm.

Module Coremap.
Section Coremap.
Context {file page : Type} `{Clock}.
Local Abbreviation M := (M file page).
Local Abbreviation vm := (vm file page).

(** [gettime(&secs, &nsecs)] *)
Definition get_time : M (Z * Z) :=
  s ← get; modify (set_clock (S (clock s)));; mret (gettime (clock s)).

Definition set_coremap_entry_time (i : Z) : M unit :=
  '(secs, nsecs) ← get_time;
  e ← cm_rd i;
  cm_wr i (mk_cme (in_use e) (is_kernel e) secs nsecs).

(** The three statements that take a frame: [in_use] and [is_kernel] set, and
    the time stamped. *)
Definition claim_entry (i k : Z) : M unit :=
  e ← cm_rd i;
  cm_wr i (mk_cme 1 k (secs e) (nsecs e));;
  set_coremap_entry_time i.

(** The search of [get_fifo_page] from index [i]: the best index so far
    (uninitialised at the start) and its time. *)
Fixpoint fifo_loop (i : Z) (l : list coremap_entry) (page_index : option Z) (t : Z * Z) :
    option Z :=
  match l with
  | [] => page_index
  | e :: l' =>
      if (in_use e =? 1) && (is_kernel e =? 0) &&
         ((fst t >? secs e) || ((fst t =? secs e) && (snd t >=? nsecs e)))
      then fifo_loop (i + 1) l' (Some i) (secs e, nsecs e)
      else fifo_loop (i + 1) l' page_index t
  end.

Definition get_fifo_page : M Z :=
  t ← get_time;
  s ← get;
  let page_index := fifo_loop 0 (coremap s) None t in
  '(secs, nsecs) ← get_time;
  match page_index with
  | None => fail Undef
  | Some i =>
      e ← cm_rd i;
      cm_wr i (mk_cme (in_use e) (is_kernel e) secs nsecs);;
      mret i
  end.

Definition get_free_page : M Z :=
  lock_acquire coremap_mutex;;
  s ← get;
  let i := first_index (fun e => in_use e =? 0) 0 (coremap s) in
  if i =? -1 then lock_release coremap_mutex;; mret (-1)
  else
    claim_entry i 0;;
    lock_release coremap_mutex;;
    mret i.

(** The search of [get_free_kpages] from index [i]: the final [count] and
    [page_index]. *)
Fixpoint kpages_loop (n i : Z) (l : list coremap_entry) (count : Z) (page_index : option Z) :
    Z * option Z :=
  match l with
  | [] => (count, page_index)
  | e :: l' =>
      if in_use e =? 0 then
        let page_index := if count =? 0 then Some i else page_index in
        let count := count + 1 in
        if count =? n then (count, page_index)
        else kpages_loop n (i + 1) l' count page_index
      else kpages_loop n (i + 1) l' 0 page_index
  end.

(** [for(i=0; i<n; i++)] marking [coremap[i + page_index]], [k] rounds left. *)
Fixpoint mark_kernel (k : nat) (i : Z) : M unit :=
  match k with
  | O => mret tt
  | S k' =>
      claim_entry i 1;;
      mark_kernel k' (i + 1)
  end.

Definition get_free_kpages (n : Z) : M Z :=
  lock_acquire coremap_mutex;;
  s ← get;
  let '(count, page_index) := kpages_loop n 0 (coremap s) 0 None in
  if count <? n then lock_release coremap_mutex;; mret (-1)
  else
    p ← fail (match page_index with Some p => Ok p | None => Undef end);
    mark_kernel (Z.to_nat n) p;;
    lock_release coremap_mutex;;
    mret p.

Definition free_page (i : Z) : M unit :=
  e ← cm_rd i;
  cm_wr i (mk_cme 0 0 (secs e) (nsecs e)).

Definition coremap_is_kernel (i : Z) : M Z := e ← cm_rd i; mret (is_kernel e).

Definition coremap_entry_count : M Z :=
  s ← get; mret (Z.of_nat (length (filter (fun e => in_use e = 1) (coremap s)))).

(** ** Specification vocabulary *)

Definition is_free (e : coremap_entry) : Prop := in_use e = 0.
Definition is_user (e : coremap_entry) : Prop := in_use e = 1 /\ is_kernel e = 0.
Definition stamp (e : coremap_entry) : Z * Z := (secs e, nsecs e).

(** [n] adjacent free frames from [p] on. *)
Definition free_run (l : list coremap_entry) (p n : Z) : Prop :=
  0 <= p /\ forall j, p <= j < p + n -> exists e, l !! Z.to_nat j = Some e /\ is_free e.

(** ** The search for adjacent frames *)

Lemma kpages_loop_ok n l : forall pre count pi,
  0 <= count < n -> count <= zlen pre ->
  (0 < count -> pi = Some (zlen pre - count)) ->
  free_run (pre ++ l) (zlen pre - count) count ->
  (forall e, 0 < zlen pre - count -> pre !! Z.to_nat (zlen pre - count - 1) = Some e -> ~ is_free e) ->
  (forall q, q + n <= zlen pre -> ~ free_run (pre ++ l) q n) ->
  let '(count', pi') := kpages_loop n (zlen pre) l count pi in
  if count' <? n then forall q, ~ free_run (pre ++ l) q n
  else exists p, pi' = Some p /\ free_run (pre ++ l) p n /\
    forall q, free_run (pre ++ l) q n -> p <= q.
Proof.
  induction l as [|e l IH]; intros pre count pi Hc Hcl Hpi Hrun Hmax Hno; cbn [kpages_loop].
  { rewrite (proj2 (Z.ltb_lt count n)) by lia. intros q Hq.
    destruct (Z.le_gt_cases (q + n) (zlen pre)); [by eapply Hno|].
    destruct Hq as [Hq0 Hq]. destruct (Hq (q + n - 1)) as (e & He & _); [lia|].
    apply lookup_lt_Some in He. rewrite app_nil_r in He. lia. }
  assert ((pre ++ e :: l) !! Z.to_nat (zlen pre) = Some e) as Hcur.
  { rewrite Nat2Z.id. by rewrite lookup_app_r, Nat.sub_diag by lia. }
  assert (pre ++ e :: l = (pre ++ [e]) ++ l) as Happ by by rewrite <- (assoc_L (++)).
  assert (zlen (pre ++ [e]) = zlen pre + 1) as Hlen by (rewrite length_app; simpl; lia).
  destruct (Z.eqb_spec (in_use e) 0) as [Hf|Hf].
  - assert (free_run (pre ++ e :: l) (zlen pre - count) (count + 1)) as Hrun'.
    { destruct Hrun as [Hr0 Hr]. split; [done|]. intros j Hj.
      destruct (decide (j = zlen pre)) as [->|]; [by exists e|]. apply Hr. lia. }
    assert (forall q, q + n <= zlen pre + 1 -> count + 1 < n -> ~ free_run (pre ++ e :: l) q n) as Hno'.
    { intros q Hq Hlt Hfr. destruct (Z.le_gt_cases (q + n) (zlen pre)); [by eapply Hno|].
      destruct Hfr as [Hq0 Hfr]. destruct (Hfr (zlen pre - count - 1)) as (x & Hx & Hxf); [lia|].
      rewrite lookup_app_l in Hx by lia. apply (Hmax x); [lia|done|done]. }
    assert ((if count =? 0 then Some (zlen pre) else pi) = Some (zlen pre - count)) as Hpi'.
    { destruct (Z.eqb_spec count 0) as [->|]; [by rewrite Z.sub_0_r|]. apply Hpi. lia. }
    rewrite Hpi'. destruct (Z.eqb_spec (count + 1) n) as [He|He].
    + rewrite (proj2 (Z.ltb_ge (count + 1) n)) by lia. exists (zlen pre - count).
      split; [done|]. rewrite He in Hrun'. split; [done|]. intros q Hq.
      destruct (Z.le_gt_cases (zlen pre - count) q); [done|]. exfalso. apply (Hno q); [lia|done].
    + rewrite <- Hlen, Happ in *. apply IH.
      * lia.
      * lia.
      * intros _. f_equal. lia.
      * by replace (zlen (pre ++ [e]) - (count + 1)) with (zlen pre - count) by lia.
      * replace (zlen (pre ++ [e]) - (count + 1)) with (zlen pre - count) by lia.
        intros x Hx Hl. rewrite lookup_app_l in Hl by lia. by apply Hmax.
      * intros q Hq. apply Hno'; lia.
  - rewrite <- Hlen, Happ in *. apply IH.
    + lia.
    + lia.
    + lia.
    + split; [lia|]. intros j Hj. lia.
    + intros x Hx Hl. rewrite lookup_app_r in Hl by lia. replace (_ - _)%nat with 0%nat in Hl by lia.
      simpl in Hl. by injection Hl as <-.
    + intros q Hq Hfr. destruct (Z.le_gt_cases (q + n) (zlen pre)); [by eapply Hno|].
      destruct Hfr as [Hq0 Hfr]. destruct (Hfr (zlen pre)) as (x & Hx & Hxf); [lia|].
      rewrite Hcur in Hx. by injection Hx as <-.
Qed.

(** ** Runs *)

Lemma cm_rd_run i e (s : vm) :
  coremap s !! Z.to_nat i = Some e -> 0 <= i -> cm_rd i s = Ok (e, s).
Proof.
  intros He Hi. unfold cm_rd. mrun. by rewrite (proj2 (rd_Some (coremap s) i e)).
Qed.

Lemma cm_wr_run i e (s : vm) :
  0 <= i < zlen (coremap s) ->
  cm_wr i e s = Ok (tt, set_coremap (<[Z.to_nat i := e]> (coremap s)) s).
Proof. intros Hi. unfold cm_wr. mrun. rewrite wr_in by done. by mrun. Qed.

(** Overwriting the two flags of an entry and then its time. *)
Lemma claim_entry_run i k (s : vm) :
  0 <= i < zlen (coremap s) ->
  claim_entry i k s =
    Ok (tt, set_clock (S (clock s)) (set_coremap
      (<[Z.to_nat i := mk_cme 1 k (fst (gettime (clock s))) (snd (gettime (clock s)))]> (coremap s)) s)).
Proof.
  intros Hi. destruct (lookup_lt_is_Some_2 (coremap s) (Z.to_nat i)) as [e He]; [lia|].
  unfold claim_entry. rewrite run_bind, (cm_rd_run i e) by (done || lia). mrun. rewrite cm_wr_run by done. mrun.
  unfold set_coremap_entry_time, get_time. mrun. destruct (gettime (clock s)) as [sc ns]. mrun.
  erewrite cm_rd_run; [|cbn; apply list_lookup_insert_eq; lia|lia]. mrun.
  rewrite cm_wr_run by (cbn [coremap set_clock set_coremap]; rewrite length_insert; done).
  cbn [coremap set_clock set_coremap]. by rewrite list_insert_insert_eq.
Qed.

Lemma get_free_page_run (s : vm) :
  coremap_mutex ∉ held s ->
  (exists i e, coremap s !! i = Some e /\ is_free e /\
     (forall j x, (j < i)%nat -> coremap s !! j = Some x -> ~ is_free x) /\
     get_free_page s = Ok (Z.of_nat i, set_clock (S (clock s)) (set_coremap
       (<[i := mk_cme 1 0 (fst (gettime (clock s))) (snd (gettime (clock s)))]> (coremap s)) s))) \/
  (get_free_page s = Ok (-1, s) /\ forall j x, coremap s !! j = Some x -> ~ is_free x).
Proof.
  intros Hl. unfold get_free_page. rewrite run_bind, run_acquire by done. mrun.
  destruct (first_index_spec (fun e => in_use e =? 0) 0 (coremap s)) as
    [[-> Hn]|(i & e & -> & Hi & He & Hlt)]; [lia| |].
  - right. mrun. change (-1 =? -1) with true. mrun.
    rewrite (run_release _ _ (held s)) by done. mrun. split; [by destruct s|].
    intros j x Hx Hf. apply list_elem_of_lookup_2 in Hx. apply Hn in Hx.
    by rewrite Hf in Hx.
  - left. exists i, e. split; [done|]. apply Z.eqb_eq in He. split; [done|]. split.
    { intros j x Hj Hx Hf. specialize (Hlt j x Hj Hx). by rewrite Hf in Hlt. }
    rewrite Z.add_0_l, (proj2 (Z.eqb_neq (Z.of_nat i) (-1))) by lia.
    pose proof (lookup_lt_Some _ _ _ Hi) as Hib.
    mrun. rewrite claim_entry_run by (cbn; lia). mrun.
    rewrite (run_release _ _ (held s)) by done. mrun.
    rewrite Nat2Z.id. by destruct s.
Qed.

Lemma mark_kernel_run k : forall p (s : vm),
  0 <= p -> p + Z.of_nat k <= zlen (coremap s) ->
  exists l, mark_kernel k p s = Ok (tt, set_clock (clock s + k) (set_coremap l s)) /\
    length l = length (coremap s) /\
    forall j, l !! j = if decide (p <= Z.of_nat j < p + Z.of_nat k)
      then Some (mk_cme 1 1 (fst (gettime (clock s + (j - Z.to_nat p))))
                            (snd (gettime (clock s + (j - Z.to_nat p)))))
      else coremap s !! j.
Proof.
  induction k as [|k IH]; intros p s Hp Hb; cbn [mark_kernel].
  { exists (coremap s). split; [destruct s; cbn; by rewrite Nat.add_0_r|]. split; [done|].
    intros j. rewrite decide_False by lia. done. }
  rewrite run_bind. rewrite claim_entry_run by lia. mrun. set (s1 := set_clock _ _).
  destruct (IH (p + 1) s1) as (l & Hl & Hlen & Hj); [lia| |].
  { unfold s1. cbn. rewrite length_insert. lia. }
  exists l. rewrite Hl. split; [|split].
  - unfold s1. replace (clock s + S k)%nat with (S (clock s) + k)%nat by lia. by destruct s.
  - rewrite Hlen. unfold s1. cbn. by rewrite length_insert.
  - intros j. rewrite Hj. unfold s1. cbn [clock coremap set_clock set_coremap].
    destruct (decide (p + 1 <= Z.of_nat j < p + 1 + Z.of_nat k)).
    + rewrite decide_True by lia. do 4 f_equal; lia.
    + destruct (decide (Z.of_nat j = p)) as [He|He].
      * rewrite decide_True by lia. replace (Z.to_nat p) with j by lia.
        rewrite list_lookup_insert_eq by lia. by rewrite Nat.sub_diag, Nat.add_0_r.
      * rewrite decide_False by lia. apply list_lookup_insert_ne. lia.
Qed.

Lemma get_free_kpages_run n (s : vm) :
  1 <= n -> coremap_mutex ∉ held s ->
  (exists p l, free_run (coremap s) p n /\ (forall q, free_run (coremap s) q n -> p <= q) /\
     get_free_kpages n s = Ok (p, set_clock (clock s + Z.to_nat n) (set_coremap l s)) /\
     length l = length (coremap s) /\
     forall j, l !! j = if decide (p <= Z.of_nat j < p + n)
       then Some (mk_cme 1 1 (fst (gettime (clock s + (j - Z.to_nat p))))
                             (snd (gettime (clock s + (j - Z.to_nat p)))))
       else coremap s !! j) \/
  (get_free_kpages n s = Ok (-1, s) /\ forall q, ~ free_run (coremap s) q n).
Proof.
  intros Hn Hl. unfold get_free_kpages. rewrite run_bind, run_acquire by done. mrun.
  pose proof (kpages_loop_ok n (coremap s) [] 0 None) as Hloop.
  change (zlen []) with 0 in Hloop. cbn [app] in Hloop.
  destruct (kpages_loop n 0 (coremap s) 0 None) as [count pi] eqn:Ek.
  specialize (Hloop ltac:(lia) ltac:(lia) ltac:(lia)).
  assert (free_run (coremap s) 0 0) as Hnil by (split; [lia|intros j Hj; lia]).
  specialize (Hloop Hnil ltac:(lia) ltac:(intros q Hq [Hq0 _]; lia)).
  destruct (Z.ltb_spec count n) as [Hlt|Hge].
  - right. mrun. rewrite (run_release _ _ (held s)) by done. mrun. split; [by destruct s|done].
  - left. destruct Hloop as (p & -> & Hrun & Hmin). exists p. pose proof Hrun as [Hp0 Hrun'].
    destruct (Hrun' (p + n - 1)) as (e & He & _); [lia|]. apply lookup_lt_Some in He.
    set (s1 := set_held (coremap_mutex :: held s) s).
    destruct (mark_kernel_run (Z.to_nat n) p s1) as (l & Hm & Hlen & Hj); [lia|cbn; lia|].
    exists l. split; [done|]. split; [done|]. mrun. rewrite Hm. mrun.
    rewrite (run_release _ _ (held s)) by done. mrun. split; [by destruct s|].
    split; [done|]. intros j. rewrite Hj. rewrite Z2Nat.id by lia. done.
Qed.

(** [get_free_kpages] finds physically contiguous memory whenever there
    is any.  For a request of [n] >= 1 frames it returns the lowest index
    where [n] adjacent frames are free, and marks exactly these as used by the
    kernel, or it returns -1, changing nothing, when there is no such run.
    It always returns with [coremap_mutex] released. *)
Theorem get_free_kpages_first_fit n (s : vm) :
  1 <= n -> coremap_mutex ∉ held s ->
  (exists p s', get_free_kpages n s = Ok (p, s') /\ held s' = held s /\
     page_table s' = page_table s /\ ram s' = ram s /\
     free_run (coremap s) p n /\ (forall q, free_run (coremap s) q n -> p <= q) /\
     (forall j e, p <= Z.of_nat j < p + n -> coremap s' !! j = Some e ->
        in_use e = 1 /\ is_kernel e = 1) /\
     (forall j, ~ (p <= Z.of_nat j < p + n) -> coremap s' !! j = coremap s !! j)) \/
  (get_free_kpages n s = Ok (-1, s) /\ forall q, ~ free_run (coremap s) q n).
Proof.
  intros Hn Hl. destruct (get_free_kpages_run n s Hn Hl) as [(p & l & Hr & Hm & Hrun & _ & Hj)|H2];
    [left|by right].
  eexists p, _. split; [exact Hrun|]. split_and!; try done; cbn.
  - intros j e Hin. rewrite Hj, decide_True by done. by intros [= <-].
  - intros j Hout. by rewrite Hj, decide_False.
Qed.

(** ** The oldest user frame *)

Lemma time_le_trans a b c : time_le a b -> time_le b c -> time_le a c.
Proof. unfold time_le. lia. Qed.

Definition older (e : coremap_entry) (t : Z * Z) : bool :=
  (fst t >? secs e) || ((fst t =? secs e) && (snd t >=? nsecs e)).

Lemma older_spec e t : older e t = true <-> time_le (stamp e) t.
Proof.
  unfold older, time_le, stamp. cbn [fst snd].
  rewrite orb_true_iff, andb_true_iff, Z.gtb_lt, Z.eqb_eq, Z.geb_le. lia.
Qed.

Lemma user_spec e : (in_use e =? 1) && (is_kernel e =? 0) = true <-> is_user e.
Proof. unfold is_user. rewrite andb_true_iff, !Z.eqb_eq. done. Qed.

(** The scan ends with the user frame of the least time stamp (the last one
    among equals), or keeps its start when no user frame is as old. *)
Lemma fifo_loop_ok l : forall i pi t,
  (fifo_loop i l pi t = pi /\ forall k e, l !! k = Some e -> is_user e -> ~ time_le (stamp e) t) \/
  (exists k e, fifo_loop i l pi t = Some (i + Z.of_nat k) /\ l !! k = Some e /\ is_user e /\
     time_le (stamp e) t /\
     forall k' e', l !! k' = Some e' -> is_user e' ->
       (time_le (stamp e') t -> time_le (stamp e) (stamp e')) /\
       ((k < k')%nat -> ~ time_le (stamp e') (stamp e))).
Proof.
  induction l as [|e l IH]; intros i pi t; cbn [fifo_loop].
  { left. split; [done|]. intros k e He. by rewrite lookup_nil in He. }
  fold (older e t). change (secs e, nsecs e) with (stamp e). destruct ((in_use e =? 1) && (is_kernel e =? 0) && older e t) eqn:E.
  - apply andb_true_iff in E as [Hu Ho]. rewrite user_spec in Hu. rewrite older_spec in Ho.
    right. destruct (IH (i + 1) (Some i) (stamp e)) as [[-> Hn]|(k & x & -> & Hk & Hxu & Hxt & Hx)].
    + exists 0%nat, e. split; [f_equal; lia|]. split_and!; try done.
      intros [|k'] e' He' Hu'; simpl in He'.
      * injection He' as <-. split; [intros _; unfold time_le; lia|lia].
      * specialize (Hn k' e' He' Hu'). split; [|done]. intros _. unfold time_le in *. lia.
    + exists (S k), x. split; [f_equal; lia|]. split_and!; try done; [by eapply time_le_trans|].
      intros [|k'] e' He' Hu'; simpl in He'; [injection He' as <-; by split; [|lia]|].
      destruct (Hx k' e' He' Hu') as [H1 H2]. split; [|intros; apply H2; lia].
      intros _. destruct (decide (time_le (stamp e') (stamp e))) as [?|Hnle]; [by apply H1|].
      unfold time_le in *. lia.
  - assert (is_user e -> ~ time_le (stamp e) t) as Hne.
    { rewrite <- user_spec, <- older_spec. intros Hu Ho. by rewrite Hu, Ho in E. }
    destruct (IH (i + 1) pi t) as [[-> Hn]|(k & x & -> & Hk & Hxu & Hxt & Hx)]; [left|right].
    + split; [done|]. intros [|k] e' He'; simpl in He'; [by injection He' as <-|by eapply Hn].
    + exists (S k), x. split; [f_equal; lia|]. split_and!; try done.
      intros [|k'] e' He' Hu'; simpl in He'.
      * injection He' as <-. split; [intros; by destruct Hne|lia].
      * destruct (Hx k' e' He' Hu') as [H1 H2]. split; [done|intros; apply H2; lia].
Qed.

(** No user frame carries a time stamp of the future. *)
Definition stamped (s : vm) : Prop :=
  forall j e, coremap s !! j = Some e -> is_user e -> time_le (stamp e) (gettime (clock s)).

Lemma get_fifo_page_run (s : vm) :
  stamped s ->
  (exists i e, coremap s !! i = Some e /\ is_user e /\
     (forall j x, coremap s !! j = Some x -> is_user x -> time_le (stamp e) (stamp x)) /\
     get_fifo_page s = Ok (Z.of_nat i, set_clock (S (S (clock s))) (set_coremap
       (<[i := mk_cme 1 0 (fst (gettime (S (clock s)))) (snd (gettime (S (clock s))))]>
          (coremap s)) s))) \/
  (get_fifo_page s = Undef /\ forall j x, coremap s !! j = Some x -> ~ is_user x).
Proof.
  intros Hst. unfold get_fifo_page, get_time. mrun.
  destruct (fifo_loop_ok (coremap s) 0 None (gettime (clock s))) as
    [[-> Hn]|(i & e & -> & Hi & Hu & Ht & Hmin)].
  - right. destruct (gettime (S (clock s))) as [sc ns]. mrun. split; [done|].
    intros j x Hx Hux. by apply (Hn j x Hx Hux), (Hst j).
  - left. exists i, e. split_and!; [done|by destruct Hu..| |].
    { intros j x Hx Hux. apply (Hmin j x Hx Hux). by apply (Hst j). }
    destruct (gettime (S (clock s))) as [sc ns] eqn:Eg. mrun. rewrite Z.add_0_l.
    pose proof (lookup_lt_Some _ _ _ Hi) as Hib.
    erewrite cm_rd_run; [|cbn; by rewrite Nat2Z.id|lia]. mrun.
    rewrite cm_wr_run by (cbn; lia). mrun. destruct Hu as [-> ->]. by rewrite Nat2Z.id.
Qed.

(** [get_fifo_page] picks the page to evict: of the frames used by
    processes the one with the least time stamp, which it restamps so that it
    becomes the youngest.  When no process owns a frame it uses the
    uninitialised [page_index]. *)
Theorem get_fifo_page_oldest (s : vm) :
  stamped s ->
  (exists i e s', get_fifo_page s = Ok (Z.of_nat i, s') /\
     coremap s !! i = Some e /\ is_user e /\
     (forall j x, coremap s !! j = Some x -> is_user x -> time_le (stamp e) (stamp x)) /\
     (forall j, j <> i -> coremap s' !! j = coremap s !! j) /\
     (exists e', coremap s' !! i = Some e' /\ is_user e' /\ stamp e' = gettime (S (clock s)))) \/
  (get_fifo_page s = Undef /\ forall j x, coremap s !! j = Some x -> ~ is_user x).
Proof.
  intros Hst. destruct (get_fifo_page_run s Hst) as [(i & e & Hi & Hu & Hmin & Hrun)|H2];
    [left|by right].
  exists i, e. eexists. split; [exact Hrun|]. split_and!; [done|apply Hu..|done| |]; cbn.
  - intros j Hj. by rewrite list_lookup_insert_ne.
  - eexists. split; [apply list_lookup_insert_eq; by eapply lookup_lt_Some|].
    split; [done|]. unfold stamp. cbn. by destruct (gettime (S (clock s))).
Qed.

End Coremap.

(** ** Witnesses *)

Definition demo_clock : Clock := fun n => (Z.of_nat n, 0).

(** One kernel frame, a user frame, a free one, an older user frame, and two
    free ones. *)
Definition demo_cm : list coremap_entry :=
  [mk_cme 1 1 0 0; mk_cme 1 0 3 0; mk_cme 0 0 0 0; mk_cme 1 0 2 7; mk_cme 0 0 0 0; mk_cme 0 0 0 0].

Definition demo_vm : vm unit unit :=
  mk_vm demo_cm [] ∅ [] 0 [] tt tt tt [] 9 [].

Lemma get_free_kpages_first_fit_witness :
  exists s', get_free_kpages (H := demo_clock) 2 demo_vm = Ok (4, s') /\
    free_run (coremap demo_vm) 4 2 /\ coremap s' !! 3%nat = Some (mk_cme 1 0 2 7).
Proof.
  destruct (get_free_kpages_first_fit (H := demo_clock) 2 demo_vm) as
    [(p & s' & Hr & _ & _ & _ & Hf & _ & _ & Hout)|[Hr _]]; [lia|cbn; apply not_elem_of_nil| |].
  - assert (p = 4) as -> by (vm_compute in Hr; congruence).
    exists s'. split; [done|]. split; [done|]. by rewrite Hout by lia.
  - by vm_compute in Hr.
Defined.

Lemma get_fifo_page_oldest_witness :
  exists s', get_fifo_page (H := demo_clock) demo_vm = Ok (3, s') /\
    exists e, coremap s' !! 3%nat = Some e /\ is_user e.
Proof.
  destruct (get_fifo_page_oldest (H := demo_clock) demo_vm) as
    [(i & e & s' & Hr & _ & _ & _ & _ & e' & He & Hu & _)|[Hr _]].
  - intros j x Hx _. cbn in Hx |- *.
    do 6 (destruct j as [|j]; [injection Hx as <-; unfold time_le; cbn; lia|]). done.
  - assert (exists s0, get_fifo_page (H := demo_clock) demo_vm = Ok (3, s0)) as [s0 H0]
      by (eexists; vm_compute; reflexivity).
    rewrite H0 in Hr. injection Hr as Hi ->. assert (i = 3%nat) as -> by lia.
    exists s'. split; [done|]. by exists e'.
  - by vm_compute in Hr.
Defined.

End Coremap.
