(* ===== verification/Swap.v ===== *)
(** * The swap table and swapping out: kern/vm/swapfile.c

    [swap_entry_init], [swap_bootstrap], [swap_search],
    [swap_find_free], [swap_out].  [swap_in], which allocates a page, is in
    PageTable.v. *)

From S2P Require Import Prelude VmState.
Import Vm.

Module Swap.
Section Swap.
Context {file page : Type} `{SwapDev file page}.
Local Abbreviation M := (M file page).
Local Abbreviation vm := (vm file page).

(** [SWAP_SIZE/PAGE_SIZE] *)
Definition SWAP_MAX : Z := 2304.

Definition swap_entry_init (pid va offset : Z) : swap_entry := mk_swe va pid offset.

(** The loop of [swap_bootstrap] that fills the table. *)
Definition swap_table_init : list swap_entry :=
  replicate (Z.to_nat SWAP_MAX) (swap_entry_init 0 0 0).

(** [swap_bootstrap] but for the allocations and the opening of the file. *)
Definition swap_bootstrap : M unit :=
  lock_acquire swap_mutex;; modify (set_swap_array swap_table_init);; lock_release swap_mutex.

Definition swap_search (pid va0 : Z) (sw : list swap_entry) : Z :=
  first_index (fun e => (sw_pid e =? pid) && (va e =? va0)) 0 sw.

Definition swap_find_free (sw : list swap_entry) : Z :=
  first_index (fun e => va e =? 0) 0 sw.

Definition sw_wr (i : Z) (e : swap_entry) : M unit :=
  s ← get; l ← fail (wr (swap_array s) i e); modify (set_swap_array l).

Definition swap_out (pid pa va : Z) : M Z :=
  vmstats_inc 9;;
  p ← ram_rd (Z.land pa PAGE_FRAME);
  s ← get;
  modify (set_buffers (k_in_data s) p);;
  lock_acquire swap_mutex;;
  s ← get;
  let index := swap_find_free (swap_array s) in
  if index =? -1 then lock_release swap_mutex;; fail Panic
  else
    let '(result, f) := vop_write (swap_file s) (index * PAGE_SIZE) (k_out_data s) in
    modify (set_swap_file f);;
    if negb (result =? 0) then lock_release swap_mutex;; mret result
    else
      sw_wr index (mk_swe va pid (index * PAGE_SIZE));;
      lock_release swap_mutex;;
      mret 0.

(** ** Runs *)

(** [swap_out] of a page in RAM with a free slot: the page goes to the slot's
    place in the file.  When the write fails only the file and the
    buffer may differ, and the code is returned. *)
Lemma swap_out_run pid pa va0 p (s : vm) :
  swap_mutex ∉ held s -> zlen (stats_counts s) = VMSTAT_COUNT ->
  ram s !! pa = Some p -> Z.land pa PAGE_FRAME = pa ->
  exists st, length st = length (stats_counts s) /\
  ((exists k e, swap_array s !! k = Some e /\ va e = 0 /\
     let '(result, f) := vop_write (swap_file s) (Z.of_nat k * PAGE_SIZE) p in
     swap_out pid pa va0 s =
       Ok (result, set_swap_file f (set_buffers (k_in_data s) p (set_stats st
         (if result =? 0
          then set_swap_array (<[k := mk_swe va0 pid (Z.of_nat k * PAGE_SIZE)]> (swap_array s)) s
          else s))))) \/
   (swap_out pid pa va0 s = Panic /\ forall k e, swap_array s !! k = Some e -> va e <> 0)).
Proof.
  intros Hl Hst Hp Hpa. unfold swap_out. rewrite run_bind.
  destruct (vmstats_inc_run 9 s) as (st & -> & Hlen & _); [done|done|]. exists st. split; [done|].
  mrun. rewrite Hpa. unfold ram_rd. mrun. rewrite Hp. mrun.
  rewrite run_acquire by done. mrun.
  unfold swap_find_free.
  destruct (first_index_spec (fun e => va e =? 0) 0 (swap_array s)) as
    [[-> Hn]|(k & e & -> & Hk & He & Hlt)]; [lia| |].
  - right. mrun. change (-1 =? -1) with true. mrun. rewrite (run_release _ _ (held s)) by done. mrun.
    split; [done|]. intros k e Hk. apply list_elem_of_lookup_2 in Hk. apply Hn in Hk.
    by apply Z.eqb_neq.
  - left. exists k, e. apply Z.eqb_eq in He. split; [done|]. split; [done|].
    rewrite Z.add_0_l, (proj2 (Z.eqb_neq (Z.of_nat k) (-1))) by lia.
    destruct (vop_write (swap_file s) (Z.of_nat k * PAGE_SIZE) p) as [result f]. mrun.
    destruct (Z.eqb_spec result 0) as [->|Hr]; cbn [negb]; mrun.
    + unfold sw_wr. mrun. apply lookup_lt_Some in Hk.
      rewrite wr_in by (cbn; lia). mrun.
      rewrite (run_release _ _ (held s)) by done. mrun. rewrite Nat2Z.id. by destruct s.
    + rewrite (run_release _ _ (held s)) by done. mrun. by destruct s.
Qed.

End Swap.
End Swap.
