(* ===== verification/TlbHw.v ===== *)
(** * The TLB registers: kern/arch/mips/include/tlb.h, part of kern/vm/vm_tlb.c

    Sixty-four entries of two words; [tlb_get_rr_victim], [tlb_invalidate].
    The functions that look at the page table are in Tlb.v. *)

From S2P Require Import Prelude VmState.
Import Vm.

Module TlbHw.
Section TlbHw.
Context {file page : Type}.
Local Abbreviation M := (M file page).
Local Abbreviation vm := (vm file page).

Definition TLBLO_DIRTY : Z := 1024.
Definition TLBLO_VALID : Z := 512.
Definition TLBHI_INVALID (entryno : Z) : Z := Z.shiftl (524288 + entryno) 12.
Definition TLBLO_INVALID : Z := 0.

(** The instructions: an entry number above 63 is undefined. *)
Definition TLB_Read (i : Z) : M (Z * Z) := s ← get; fail (rd (tlb s) i).
Definition TLB_Write (ehi elo i : Z) : M unit :=
  s ← get; l ← fail (wr (tlb s) i (ehi, elo)); modify (set_tlb l (m_next_victim s)).

Definition tlb_get_rr_victim : M Z :=
  s ← get;
  let victim := m_next_victim s in
  modify (set_tlb (tlb s) ((victim + 1) mod NUM_TLB));;
  mret victim.

(** [for (i=0; i<NUM_TLB; i++)], [n] rounds left. *)
Fixpoint invalidate_loop (n : nat) (i : Z) : M unit :=
  match n with
  | O => mret tt
  | S n' => TLB_Write (TLBHI_INVALID i) TLBLO_INVALID i;; invalidate_loop n' (i + 1)
  end.

Definition tlb_invalidate : M unit :=
  invalidate_loop (Z.to_nat NUM_TLB) 0;;
  s ← get;
  modify (set_tlb (tlb s) 0);;
  vmstats_inc 3.

Definition valid (e : Z * Z) : bool := negb (Z.land (snd e) TLBLO_VALID =? 0).

Lemma TLB_Write_run ehi elo i (s : vm) :
  0 <= i < zlen (tlb s) ->
  TLB_Write ehi elo i s = Ok (tt, set_tlb (<[Z.to_nat i := (ehi, elo)]> (tlb s)) (m_next_victim s) s).
Proof. intros Hi. unfold TLB_Write. mrun. rewrite wr_in by done. by mrun. Qed.

Lemma invalidate_loop_run n : forall i (s : vm),
  0 <= i -> i + Z.of_nat n <= zlen (tlb s) ->
  exists l, invalidate_loop n i s = Ok (tt, set_tlb l (m_next_victim s) s) /\
    length l = length (tlb s) /\
    forall j e, l !! j = Some e -> (i <= Z.of_nat j < i + Z.of_nat n -> valid e = false) /\
      (~ (i <= Z.of_nat j < i + Z.of_nat n) -> tlb s !! j = Some e).
Proof.
  induction n as [|n IH]; intros i s Hi Hb; cbn [invalidate_loop].
  { exists (tlb s). split; [by destruct s|]. split; [done|]. intros j e He. split; [lia|done]. }
  mrun. rewrite TLB_Write_run by lia. mrun.
  destruct (IH (i + 1) (set_tlb (<[Z.to_nat i := (TLBHI_INVALID i, TLBLO_INVALID)]> (tlb s))
    (m_next_victim s) s)) as (l & -> & Hlen & Hj); [lia|cbn; rewrite length_insert; lia|].
  exists l. cbn in *. rewrite length_insert in Hlen. split; [by destruct s|]. split; [done|].
  intros j e He. destruct (Hj j e He) as [H1 H2].
  destruct (decide (Z.of_nat j = i)) as [Hji|Hji].
  - assert (e = (TLBHI_INVALID i, TLBLO_INVALID)) as ->.
    { assert (<[Z.to_nat i := (TLBHI_INVALID i, TLBLO_INVALID)]> (tlb s) !! j = Some e) as Hl
        by (apply H2; lia).
      replace (Z.to_nat i) with j in Hl by lia. rewrite list_lookup_insert_eq in Hl by lia.
      by injection Hl as <-. }
    split; [done|lia].
  - split; [intros; apply H1; lia|]. intros Hout. rewrite <- H2 by lia.
    symmetry. apply list_lookup_insert_ne. lia.
Qed.

Lemma tlb_invalidate_run (s : vm) :
  zlen (tlb s) = NUM_TLB -> zlen (stats_counts s) = VMSTAT_COUNT ->
  exists l st, tlb_invalidate s = Ok (tt, set_stats st (set_tlb l 0 s)) /\
    zlen l = NUM_TLB /\ length st = length (stats_counts s) /\
    (forall j e, l !! j = Some e -> valid e = false).
Proof.
  intros Hl Hst. unfold tlb_invalidate. mrun.
  destruct (invalidate_loop_run (Z.to_nat NUM_TLB) 0 s) as (l & -> & Hlen & Hj);
    [lia|rewrite Hl; lia|]. mrun.
  destruct (vmstats_inc_run 3 (set_tlb l 0 s)) as (st & Hr & Hs & _); [done|done|].
  exists l, st. split; [rewrite <- Hr; by destruct s|]. split; [lia|]. split; [done|].
  intros j e He. apply (Hj j e He). apply lookup_lt_Some in He. unfold NUM_TLB in *. lia.
Qed.

End TlbHw.
End TlbHw.
