(* ===== verification/PageTable.v ===== *)
(** * The inverted page table: kern/vm/pt.c, and [swap_in] of swapfile.c

    One entry per physical frame, searched linearly by process and address.
    All of pt.c but its initialisation ([pt_init], in Boot.v) and the printing
    of entries. *)

From S2P Require Import Prelude VmState Coremap Swap TlbHw.
Import Vm Coremap Swap TlbHw.

Module PageTable.
Section PageTable.
Context {file page : Type} `{SwapDev file page} `{Clock}.
Local Abbreviation M := (M file page).
Local Abbreviation vm := (vm file page).

(** [PADDR_TO_KVADDR]: the direct-mapped kernel segment. *)
Definition PADDR_TO_KVADDR (pa : Z) : Z := u32 (pa + 2147483648).

Definition alloc_page (p va0 w d : Z) : M Z :=
  page_index ← get_free_page;
  page_index ←
    (if page_index =? -1 then
       i ← get_fifo_page;
       e ← pt_rd i;
       swap_out (pid e) (paddr e) (vaddr e);;
       tlb_invalidate;;
       mret i
     else mret page_index);
  e ← pt_rd page_index;
  pt_wr page_index (mk_pte va0 (paddr e) p 1 w d);;
  mret (paddr e).

(** The test of the searches by address: same process and
    [vbottom <= vaddr < vtop]. *)
Definition covers (p va0 : Z) (e : page_table_entry) : bool :=
  let vtop := u32 (vaddr e + PAGE_SIZE) in
  let vbottom := vaddr e in
  (pid e =? p) && ((va0 >=? vbottom) && (va0 <? vtop)).

Definition pt_get_paddr (p va0 : Z) : M Z :=
  lock_acquire pt_mutex;;
  s ← get;
  let i := first_index (covers p va0) 0 (page_table s) in
  pa ← (if i =? -1 then mret 0 else e ← pt_rd i; mret (paddr e));
  lock_release pt_mutex;;
  mret pa.

Definition pt_alloc_page (p va0 w d : Z) : M Z :=
  lock_acquire pt_mutex;;
  pa ← alloc_page p va0 w d;
  lock_release pt_mutex;;
  mret pa.

(** The loop of [pt_alloc_kpages] that fills [npages] entries, [k] left. *)
Fixpoint fill_kpages (k : nat) (i page_index p va0 npages : Z) : M unit :=
  match k with
  | O => mret tt
  | S k' =>
      e ← pt_rd (i + page_index);
      pt_wr (i + page_index)
        (mk_pte (u32 (va0 + i * PAGE_SIZE)) (paddr e) p (npages - i) (writeable e) (dirty e));;
      fill_kpages k' (i + 1) page_index p va0 npages
  end.

(** After the bootstrap, when [is_coremap_initialized] returns 0. *)
(** After the bootstrap: [is_coremap_initialized] has returned 0 (the other
    case is in Boot.v). *)
Definition pt_alloc_kpages (p npages : Z) : M Z :=
  lock_acquire pt_mutex;;
  page_index ← get_free_kpages npages;
  if page_index =? -1 then lock_release pt_mutex;; mret 0
  else
    e ← pt_rd page_index;
    let va0 := PADDR_TO_KVADDR (paddr e) in
    fill_kpages (Z.to_nat npages) 0 page_index p va0 npages;;
    lock_release pt_mutex;;
    mret va0.

(** [for(i = 0; i < total_pages; i++)] of [pt_copymem], [k] rounds left: 0, or
    the error code at which it returned. *)
Fixpoint copymem_loop (k : nat) (i curpid p : Z) : M Z :=
  match k with
  | O => mret 0
  | S k' =>
      e ← pt_rd i;
      if pid e =? curpid then
        pa ← alloc_page p (vaddr e) (writeable e) (dirty e);
        if pa =? 0 then mret ENOMEM
        else
          e' ← pt_rd i;
          data ← ram_rd (paddr e');
          ram_wr pa data;;
          copymem_loop k' (i + 1) curpid p
      else copymem_loop k' (i + 1) curpid p
  end.

Definition pt_copymem (curpid p : Z) : M Z :=
  lock_acquire pt_mutex;;
  s ← get;
  r ← copymem_loop (length (page_table s)) 0 curpid p;
  lock_release pt_mutex;;
  mret r.

(** The result is uninitialised when no entry matches. *)
Definition pt_is_writeable (p va0 : Z) : M Z :=
  lock_acquire pt_mutex;;
  s ← get;
  let i := first_index (covers p va0) 0 (page_table s) in
  if i =? -1 then lock_release pt_mutex;; fail Undef
  else
    e ← pt_rd i;
    lock_release pt_mutex;;
    mret (writeable e).

Definition pt_set_dirty (p va0 : Z) : M unit :=
  lock_acquire pt_mutex;;
  s ← get;
  let i := first_index (covers p va0) 0 (page_table s) in
  (if i =? -1 then mret tt
   else
     e ← pt_rd i;
     pt_wr i (mk_pte (vaddr e) (paddr e) (pid e) (npages e) (writeable e) 1));;
  lock_release pt_mutex.

Definition pt_search_swap (p va0 : Z) : M Z :=
  lock_acquire pt_mutex;;
  s ← get;
  let index := first_index (fun e => (pid e =? p) && (vaddr e =? va0)) 0 (page_table s) in
  lock_release pt_mutex;;
  mret index.

(** The three assignments and [free_page] that give a frame back. *)
Definition release_entry (i : Z) : M unit :=
  e ← pt_rd i;
  pt_wr i (mk_pte 0 (paddr e) 0 0 (writeable e) (dirty e));;
  free_page i.

(** [index] is uninitialised when the page is not in the table. *)
Definition pt_free_page_swap (p va0 : Z) : M unit :=
  s ← get;
  let i := first_index (fun e => (pid e =? p) && (vaddr e =? va0)) 0 (page_table s) in
  if i =? -1 then fail Undef else release_entry i.

Fixpoint free_pages_loop (k : nat) (i p : Z) : M unit :=
  match k with
  | O => mret tt
  | S k' =>
      e ← pt_rd i;
      (if pid e =? p then release_entry i else mret tt);;
      free_pages_loop k' (i + 1) p
  end.

Definition pt_free_pages (p : Z) : M unit :=
  s ← get; free_pages_loop (length (page_table s)) 0 p.

(** [for(j=0; j<npages; j++)] from entry [i], [k] rounds left. *)
Fixpoint release_run (k : nat) (i : Z) : M unit :=
  match k with
  | O => mret tt
  | S k' => release_entry i;; release_run k' (i + 1)
  end.

Fixpoint free_kpage_loop (k : nat) (i va0 : Z) : M unit :=
  match k with
  | O => mret tt
  | S k' =>
      kern ← coremap_is_kernel i;
      if kern =? 0 then free_kpage_loop k' (i + 1) va0
      else
        e ← pt_rd i;
        if va0 =? vaddr e then release_run (Z.to_nat (npages e)) i
        else free_kpage_loop k' (i + 1) va0
  end.

Definition pt_free_kpage (va0 : Z) : M unit :=
  s ← get; free_kpage_loop (length (page_table s)) 0 va0.

(** [swap_in] of swapfile.c: 0 when the page is not in the swap file. *)
Definition swap_in (p va0 : Z) : M Z :=
  lock_acquire swap_mutex;;
  s ← get;
  let index := swap_search p va0 (swap_array s) in
  if index =? -1 then lock_release swap_mutex;; mret 0
  else
    e ← fail (rd (swap_array s) index);
    let '(result, data) := vop_read (swap_file s) (offset e) in
    modify (set_buffers data (k_out_data s));;
    if negb (result =? 0) then lock_release swap_mutex;; fail Panic
    else
      lock_release swap_mutex;;
      pa ← pt_alloc_page p va0 1 1;
      s ← get;
      ram_wr pa (k_in_data s);;
      sw_wr index (mk_swe 0 0 0);;
      vmstats_inc 6;;
      vmstats_inc 8;;
      mret pa.

(** ** Runs of the accessors *)

Lemma pt_rd_run i e (s : vm) :
  page_table s !! Z.to_nat i = Some e -> 0 <= i -> pt_rd i s = Ok (e, s).
Proof. intros He Hi. unfold pt_rd. mrun. by rewrite (proj2 (rd_Some (page_table s) i e)). Qed.

Lemma pt_wr_run i e (s : vm) :
  0 <= i < zlen (page_table s) ->
  pt_wr i e s = Ok (tt, set_page_table (<[Z.to_nat i := e]> (page_table s)) s).
Proof. intros Hi. unfold pt_wr. mrun. rewrite wr_in by done. by mrun. Qed.

Lemma release_entry_run i e c (s : vm) :
  page_table s !! i = Some e -> coremap s !! i = Some c ->
  release_entry (Z.of_nat i) s = Ok (tt, set_coremap (<[i := mk_cme 0 0 (secs c) (nsecs c)]> (coremap s))
    (set_page_table (<[i := mk_pte 0 (paddr e) 0 0 (writeable e) (dirty e)]> (page_table s)) s)).
Proof.
  intros He Hc. unfold release_entry, free_page.
  pose proof (lookup_lt_Some _ _ _ He). pose proof (lookup_lt_Some _ _ _ Hc).
  mrun. rewrite (pt_rd_run _ e) by (rewrite ?Nat2Z.id; done || lia). mrun.
  rewrite pt_wr_run by lia. mrun. erewrite cm_rd_run; [|cbn; by rewrite Nat2Z.id|lia]. mrun.
  rewrite cm_wr_run by (cbn; lia). by rewrite !Nat2Z.id.
Qed.

End PageTable.
End PageTable.
