(* ===== verification/Paging.v ===== *)
(** * Demand paging is transparent

    The contract of the coremap, the page table and the swap file together:
    every process sees its own pages, wherever they are.  [resident] and
    [swapped] say where the contents of a page of a process are kept; the
    invariant [inv] ties the four tables together, and the theorems say that
    allocating, evicting, swapping in, freeing and forking keep or move page
    contents as they should, and where they do not. *)

From S2P Require Import Prelude VmState Coremap Swap TlbHw PageTable.
Import Vm Coremap Swap TlbHw PageTable.

Module Paging.
Section Paging.
Context {file page : Type} {SD : SwapDev file page} {SDL : SwapDevLaws file page}.
Context {CK : Clock} {CKL : ClockLaws}.
Local Abbreviation M := (M file page).
Local Abbreviation vm := (vm file page).

(** The first managed physical address. *)
Context (lo : Z) (Hlo : 0 < lo /\ lo mod 4096 = 0).

Definition frame (i : nat) : Z := lo + 4096 * Z.of_nat i.

Definition user_va (v : Z) : Prop := 0 < v < 2147483648 /\ v mod 4096 = 0.

(** The page of process [p] at [v] is in memory, or in the swap file, with
    contents [data]. *)
Definition resident (s : vm) (p v : Z) (data : page) : Prop :=
  exists i e, page_table s !! i = Some e /\ pid e = p /\ vaddr e = v /\
    ram s !! paddr e = Some data.

Definition swapped (s : vm) (p v : Z) (data : page) : Prop :=
  exists k w, swap_array s !! k = Some w /\ sw_pid w = p /\ va w = v /\
    vop_read (swap_file s) (offset w) = (0, data).

Definition holds (s : vm) (p v : Z) (data : page) : Prop :=
  resident s p v data \/ swapped s p v data.

(** The page table has an entry for the page. *)
Definition in_memory (s : vm) (p v : Z) : Prop :=
  exists i e, page_table s !! i = Some e /\ pid e = p /\ vaddr e = v.

(** The tables agree; [x] is a page that may be both resident and swapped
    (while it is being swapped in), and is [(0,0)] between the operations. *)
Record inv (x : Z * Z) (s : vm) : Prop := mk_inv {
  inv_len : length (coremap s) = length (page_table s);
  inv_frame i e : page_table s !! i = Some e ->
    paddr e = frame i /\ frame i < 536870912 /\ is_Some (ram s !! frame i);
  inv_user i e c : page_table s !! i = Some e -> coremap s !! i = Some c ->
    (pid e <> 0 <-> is_user c) /\ (pid e <> 0 -> user_va (vaddr e));
  inv_uniq i j e f : page_table s !! i = Some e -> page_table s !! j = Some f ->
    pid e <> 0 -> pid e = pid f -> vaddr e = vaddr f -> i = j;
  inv_swlen : zlen (swap_array s) = SWAP_MAX;
  inv_slot k w : swap_array s !! k = Some w -> va w <> 0 ->
    sw_pid w <> 0 /\ user_va (va w) /\ offset w = Z.of_nat k * PAGE_SIZE /\
    exists data, vop_read (swap_file s) (offset w) = (0, data);
  inv_swuniq k j w u : swap_array s !! k = Some w -> swap_array s !! j = Some u ->
    va w <> 0 -> sw_pid w = sw_pid u -> va w = va u -> k = j;
  inv_excl i e k w : page_table s !! i = Some e -> swap_array s !! k = Some w ->
    pid e <> 0 -> va w <> 0 -> sw_pid w = pid e -> va w = vaddr e -> (pid e, vaddr e) = x;
  inv_stamped : stamped s;
  inv_stats : zlen (stats_counts s) = VMSTAT_COUNT;
  inv_tlb : zlen (tlb s) = NUM_TLB;
}.

(** ** The three changes an allocation is made of *)

(** Frame [i] goes to a page of a process. *)
Definition claim (i : nat) (p v w d : Z) (t : Z * Z) (s : vm) : vm :=
  set_coremap (<[i := mk_cme 1 0 (fst t) (snd t)]> (coremap s))
    (set_page_table (<[i := mk_pte v (frame i) p 1 w d]> (page_table s)) s).

(** The page in frame [i] goes to swap slot [k]; [f] is the file after it. *)
Definition evict (i : nat) (e : page_table_entry) (k : nat) (f : file) (s : vm) : vm :=
  set_swap_file f (set_swap_array (<[k := mk_swe (vaddr e) (pid e) (Z.of_nat k * PAGE_SIZE)]> (swap_array s))
    (set_coremap (<[i := mk_cme 0 0 0 0]> (coremap s))
      (set_page_table (<[i := mk_pte 0 (paddr e) 0 0 0 0]> (page_table s)) s))).

(** The same when the write to the swap file failed: the slot stays free. *)
Definition discard (i : nat) (e : page_table_entry) (f : file) (s : vm) : vm :=
  set_swap_file f (set_coremap (<[i := mk_cme 0 0 0 0]> (coremap s))
    (set_page_table (<[i := mk_pte 0 (paddr e) 0 0 0 0]> (page_table s)) s)).

(** Statistics, the TLB, the buffers and the clock. *)
Definition misc st l n a b c (s : vm) : vm :=
  set_stats st (set_tlb l n (set_buffers a b (set_clock c s))).

Lemma inv_misc x st l n a b c s :
  inv x s -> zlen st = VMSTAT_COUNT -> zlen l = NUM_TLB -> (clock s <= c)%nat ->
  inv x (misc st l n a b c s).
Proof.
  intros [] Hst Hl Hc. constructor; try done.
  intros j e Hj Hu. eapply time_le_trans; [by eapply inv_stamped0|]. by apply gettime_mono.
Qed.

Lemma inv_weaken x y s :
  inv x s -> (forall i e k w, page_table s !! i = Some e -> swap_array s !! k = Some w ->
    pid e <> 0 -> va w <> 0 -> sw_pid w = pid e -> va w = vaddr e -> (pid e, vaddr e) = y) ->
  inv y s.
Proof. intros [] Hy. by constructor. Qed.

Lemma inv_entry x s i c :
  inv x s -> coremap s !! i = Some c -> exists e, page_table s !! i = Some e /\ paddr e = frame i.
Proof.
  intros Hinv Hc. destruct (lookup_lt_is_Some_2 (page_table s) i) as [e He].
  { rewrite <- (inv_len x s Hinv). by eapply lookup_lt_Some. }
  exists e. split; [done|]. by apply (inv_frame x s Hinv i e).
Qed.

Lemma inv_core x s i e :
  inv x s -> page_table s !! i = Some e -> exists c, coremap s !! i = Some c.
Proof.
  intros Hinv He. apply lookup_lt_is_Some_2. rewrite (inv_len x s Hinv). by eapply lookup_lt_Some.
Qed.

Lemma claim_inv x i c p v w d t s :
  inv x s -> coremap s !! i = Some c -> ~ is_user c -> p <> 0 -> user_va v ->
  ~ in_memory s p v ->
  (forall k u, swap_array s !! k = Some u -> sw_pid u = p -> va u = v -> x = (p, v)) ->
  time_le t (gettime (clock s)) ->
  inv x (claim i p v w d t s).
Proof.
  intros Hinv Hc Hf Hp Hv Hni Hx Ht. destruct (inv_entry x s i c Hinv Hc) as (e & He & Hpa).
  pose proof (lookup_lt_Some _ _ _ Hc) as Hci. pose proof (lookup_lt_Some _ _ _ He) as Hei.
  pose proof Hinv as []. constructor; cbn; try done.
  - by rewrite !length_insert.
  - intros j f Hj. apply list_lookup_insert_Some in Hj as [(-> & <- & _)|[Hne Hj]].
    + destruct (inv_frame0 j e He) as (_ & ? & ?). done.
    + by apply inv_frame0.
  - intros j f u Hj Hu. apply list_lookup_insert_Some in Hj as [(-> & <- & _)|[Hne Hj]].
    + rewrite list_lookup_insert_eq in Hu by done. by injection Hu as <-.
    + rewrite list_lookup_insert_ne in Hu by done. by eapply inv_user0.
  - intros j1 j2 f1 f2 H1 H2 Hpid Hpp Hvv.
    apply list_lookup_insert_Some in H1 as [(-> & <- & _)|[Hne1 H1]];
      apply list_lookup_insert_Some in H2 as [(? & <- & _)|[Hne2 H2]]; try done.
    + destruct Hni. exists j2, f2. by simpl in *.
    + destruct Hni. exists j1, f1. by simpl in *.
    + by eapply (inv_uniq0 j1 j2).
  - intros j f k u Hj Hk Hpf Hvu Hpp Hvv.
    apply list_lookup_insert_Some in Hj as [(-> & <- & _)|[Hne Hj]]; [|by eapply inv_excl0].
    cbn in *. symmetry. by eapply Hx.
  - intros j u Hj Hu. apply list_lookup_insert_Some in Hj as [(-> & <- & _)|[Hne Hj]].
    + unfold stamp. cbn. by destruct t.
    + by eapply inv_stamped0.
Qed.

(** A claimed frame shows only the new page; all others keep their contents. *)
Lemma claim_holds x i c p v w d t s q u data :
  inv x s -> coremap s !! i = Some c -> ~ is_user c -> q <> 0 -> (q, u) <> (p, v) ->
  holds (claim i p v w d t s) q u data <-> holds s q u data.
Proof.
  intros Hinv Hc Hf Hq Hne. unfold holds.
  assert (resident (claim i p v w d t s) q u data <-> resident s q u data) as ->; [|done].
  destruct (inv_entry x s i c Hinv Hc) as (e & He & Hpa).
  assert (pid e = 0) as He0.
  { destruct (decide (pid e = 0)); [done|]. destruct Hf. by apply (inv_user x s Hinv i e c He Hc). }
  split; intros (j & f & Hj & Hp & Hv & Hd); cbn in *.
  - apply list_lookup_insert_Some in Hj as [(-> & <- & _)|[Hji Hj]]; [by cbn in *; subst|].
    by exists j, f.
  - exists j, f. cbn. rewrite list_lookup_insert_ne; [done|]. intros ->. congruence.
Qed.

Lemma slot_offset x s k w :
  inv x s -> swap_array s !! k = Some w -> va w <> 0 -> offset w = Z.of_nat k * PAGE_SIZE.
Proof. intros Hinv Hk Hv. by apply (inv_slot x s Hinv k w). Qed.

(** A write at slot [k] leaves the other slots readable as before. *)
Lemma other_slot_read k j f data :
  k <> j ->
  vop_read (snd (vop_write f (Z.of_nat k * PAGE_SIZE) data)) (Z.of_nat j * PAGE_SIZE) =
  vop_read f (Z.of_nat j * PAGE_SIZE).
Proof.
  intros Hkj. apply vop_write_other; unfold PAGE_SIZE; [apply Z.mod_mul; lia..|lia].
Qed.

Section Evict.
Context (x : Z * Z) (s : vm) (i k : nat) (e : page_table_entry) (u0 : swap_entry) (data : page) (f : file).
Context (Hinv : inv x s) (He : page_table s !! i = Some e) (Hpe : pid e <> 0)
  (Hex : (pid e, vaddr e) <> x) (Hk : swap_array s !! k = Some u0) (Hu0 : va u0 = 0)
  (Hd : ram s !! paddr e = Some data)
  (Hwr : vop_write (swap_file s) (Z.of_nat k * PAGE_SIZE) data = (0, f)).

Lemma evict_read_other j w :
  j <> k -> swap_array s !! j = Some w -> va w <> 0 ->
  vop_read f (offset w) = vop_read (swap_file s) (offset w).
Proof using Hinv Hwr SDL.
  intros Hj Hw Hv. rewrite (slot_offset x s j w Hinv Hw Hv).
  rewrite <- (other_slot_read k j (swap_file s) data) by done. by rewrite Hwr.
Qed.

Lemma evict_va : user_va (vaddr e).
Proof using Hinv He Hpe.
  destruct (inv_core x s i e Hinv He) as [c Hc]. by apply (inv_user x s Hinv i e c He Hc).
Qed.

(** No slot holds the victim yet. *)
Lemma evict_not_swapped j w :
  swap_array s !! j = Some w -> sw_pid w = pid e -> va w = vaddr e -> False.
Proof using Hinv He Hpe Hex.
  intros Hw Hp Hv. apply Hex. eapply (inv_excl x s Hinv i e j w); try done.
  rewrite Hv. pose proof evict_va as [? _]. lia.
Qed.

Lemma evict_inv : inv x (evict i e k f s).
Proof using Hinv He Hpe Hex Hk Hu0 Hd Hwr SDL.
  pose proof evict_va as Hva. pose proof Hinv as [].
  pose proof (lookup_lt_Some _ _ _ He) as Hei. pose proof (lookup_lt_Some _ _ _ Hk) as Hki.
  constructor; cbn; rewrite ?length_insert; try done.
  - intros j g Hj. apply list_lookup_insert_Some in Hj as [(-> & <- & _)|[Hne Hj]];
      [exact (inv_frame0 _ _ He)|by eapply inv_frame0].
  - intros j g c Hj Hc. apply list_lookup_insert_Some in Hj as [(-> & <- & _)|[Hne Hj]].
    + rewrite list_lookup_insert_eq in Hc by lia. injection Hc as <-. cbn.
      split; [|done]. split; [done|]. by intros [? _].
    + rewrite list_lookup_insert_ne in Hc by done. by eapply inv_user0.
  - intros j1 j2 g1 g2 Hj1 Hj2 Hp Hpp Hvv.
    apply list_lookup_insert_Some in Hj1 as [(-> & <- & _)|[Hne1 Hj1]]; [done|].
    apply list_lookup_insert_Some in Hj2 as [(-> & <- & _)|[Hne2 Hj2]]; [by cbn in Hpp|].
    by eapply (inv_uniq0 j1 j2).
  - intros j w Hj Hv. apply list_lookup_insert_Some in Hj as [(-> & <- & _)|[Hne Hj]].
    + cbn in *. split_and!; try done; try apply Hva. exists data. by eapply vop_write_read.
    + rewrite (evict_read_other j w) by done. by apply inv_slot0.
  - intros j1 j2 w1 w2 Hj1 Hj2 Hv Hpp Hvv.
    apply list_lookup_insert_Some in Hj1 as [(-> & <- & _)|[Hne1 Hj1]];
      apply list_lookup_insert_Some in Hj2 as [(? & <- & _)|[Hne2 Hj2]]; try done.
    + cbn in *. by destruct (evict_not_swapped j2 w2 Hj2).
    + cbn in *. by destruct (evict_not_swapped j1 w1 Hj1).
    + by eapply (inv_swuniq0 j1 j2).
  - intros j g j' w Hj Hj' Hp Hv Hpp Hvv.
    apply list_lookup_insert_Some in Hj as [(-> & <- & _)|[Hne Hj]]; [done|].
    apply list_lookup_insert_Some in Hj' as [(-> & <- & _)|[Hne' Hj']]; [|by eapply inv_excl0].
    cbn in *. destruct Hne. by eapply (inv_uniq0 i j e g).
  - intros j c Hj Hu. apply list_lookup_insert_Some in Hj as [(-> & <- & _)|[Hne Hj]].
    + by destruct Hu.
    + by eapply inv_stamped0.
Qed.

(** Evicting moves the page; nobody's contents change. *)
Lemma evict_holds q v d' : q <> 0 -> v <> 0 -> holds (evict i e k f s) q v d' <-> holds s q v d'.
Proof using Hinv He Hpe Hk Hu0 Hd Hwr SDL.
  intros Hq Hv. pose proof (lookup_lt_Some _ _ _ Hk) as Hki. split.
  - intros [(j & g & Hj & Hp & Hvv & Hr)|(j & w & Hj & Hp & Hvv & Hr)]; cbn in *.
    + apply list_lookup_insert_Some in Hj as [(-> & <- & _)|[Hne Hj]]; [by cbn in *; subst|].
      left. by exists j, g.
    + apply list_lookup_insert_Some in Hj as [(-> & <- & _)|[Hne Hj]]; cbn in *.
      * left. exists i, e. split_and!; try done. rewrite Hd. f_equal.
        rewrite (vop_write_read _ _ _ _ Hwr) in Hr. by injection Hr as ->.
      * right. exists j, w. rewrite <- (evict_read_other j w) by congruence. done.
  - intros [(j & g & Hj & Hp & Hvv & Hr)|(j & w & Hj & Hp & Hvv & Hr)].
    + destruct (decide (j = i)) as [->|Hne].
      * right. assert (g = e) as -> by congruence. exists k. eexists. cbn.
        rewrite list_lookup_insert_eq by done. split; [done|]. cbn. split_and!; try done.
        rewrite (vop_write_read _ _ _ _ Hwr). congruence.
      * left. exists j, g. cbn. by rewrite list_lookup_insert_ne.
    + right. assert (j <> k) as Hne by congruence. exists j, w. cbn.
      rewrite list_lookup_insert_ne, (evict_read_other j w) by congruence. done.
Qed.

(** The victim was not [x], so [x] stays swapped where it was. *)
Lemma evict_swapped_x d' : fst x <> 0 -> snd x <> 0 ->
  swapped (evict i e k f s) (fst x) (snd x) d' <-> swapped s (fst x) (snd x) d'.
Proof using Hinv Hex Hk Hu0 Hwr SDL.
  intros Hq Hv. pose proof (lookup_lt_Some _ _ _ Hk) as Hki.
  split; intros (j & w & Hj & Hp & Hvv & Hr); cbn in *.
  - apply list_lookup_insert_Some in Hj as [(-> & <- & _)|[Hne Hj]]; cbn in *.
    + destruct Hex. rewrite Hp, Hvv. by destruct x.
    + exists j, w. rewrite <- (evict_read_other j w) by congruence. done.
  - assert (j <> k) as Hne by congruence. exists j, w. cbn.
    rewrite list_lookup_insert_ne, (evict_read_other j w) by congruence. done.
Qed.
End Evict.

(** ** Allocation *)

Lemma frame_aligned i : frame i < 536870912 -> Z.land (frame i) PAGE_FRAME = frame i.
Proof using Hlo.
  intros Hf. unfold frame in *. apply page_frame_id; [lia|].
  rewrite Z.mul_comm, Z.mod_add by lia. lia.
Qed.

(** There is a frame to be had: a free one, or a page to evict and a slot to
    put it in, with a disk that takes it. *)
Definition has_room (s : vm) : Prop :=
  (exists i c, coremap s !! i = Some c /\ is_free c) \/
  ((exists i c, coremap s !! i = Some c /\ is_user c) /\
   (exists k w, swap_array s !! k = Some w /\ va w = 0) /\
   forall f off data, fst (vop_write f off data) = 0).

(** The TLB is as it was and so are the pages in memory, or it was emptied. *)
Definition tlb_kept (s s' : vm) : Prop :=
  (tlb s' = tlb s /\ m_next_victim s' = m_next_victim s /\
   forall j e, page_table s !! j = Some e -> pid e <> 0 -> page_table s' !! j = Some e) \/
  ((forall j t, tlb s' !! j = Some t -> valid t = false) /\ m_next_victim s' = 0).

(** What a call that may evict pages keeps: the contents of all pages but
    [(p,v)], and the slots in use. *)
Definition keeps (s s' : vm) (p v : Z) : Prop :=
  (forall q u data, q <> 0 -> u <> 0 -> (q, u) <> (p, v) -> holds s' q u data <-> holds s q u data) /\
  (forall k w, swap_array s !! k = Some w -> va w <> 0 -> swap_array s' !! k = Some w) /\
  (forall data, swapped s' p v data <-> swapped s p v data) /\
  (forall a, is_Some (ram s' !! a) <-> is_Some (ram s !! a)) /\
  held s' = held s /\ k_in_data s' = k_in_data s /\ length (page_table s') = length (page_table s) /\
  tlb_kept s s'.

Lemma in_memory_misc st l n a b c s p v : in_memory (misc st l n a b c s) p v <-> in_memory s p v.
Proof. done. Qed.

Lemma holds_misc st l n a b c s p v data : holds (misc st l n a b c s) p v data <-> holds s p v data.
Proof. done. Qed.

(** Writing the new entry of frame [i], the end of [alloc_page]. *)
Lemma alloc_tail_run i e p v w d (s : vm) :
  page_table s !! i = Some e -> paddr e = frame i ->
  (e ← pt_rd (Z.of_nat i); pt_wr (Z.of_nat i) (mk_pte v (paddr e) p 1 w d);; mret (paddr e)) s =
    Ok (frame i, set_page_table (<[i := mk_pte v (frame i) p 1 w d]> (page_table s)) s).
Proof.
  intros He Hpa. pose proof (lookup_lt_Some _ _ _ He).
  mrun. rewrite (pt_rd_run _ e) by (rewrite ?Nat2Z.id; done || lia). mrun.
  rewrite pt_wr_run by lia. mrun. by rewrite Nat2Z.id, Hpa.
Qed.

(** An allocation that finds frame [i] free. *)
Lemma alloc_free_run x p v w d s i c :
  inv x s -> coremap s !! i = Some c ->
  get_free_page s = Ok (Z.of_nat i, set_clock (S (clock s)) (set_coremap
    (<[i := mk_cme 1 0 (fst (gettime (clock s))) (snd (gettime (clock s)))]> (coremap s)) s)) ->
  alloc_page p v w d s = Ok (frame i, claim i p v w d (gettime (clock s))
    (misc (stats_counts s) (tlb s) (m_next_victim s) (k_in_data s) (k_out_data s) (S (clock s)) s)).
Proof.
  intros Hinv Hc Hrun. destruct (inv_entry _ s i c Hinv Hc) as (e & He & Hpa).
  unfold alloc_page. rewrite run_bind, Hrun, Ok_bind.
  rewrite (proj2 (Z.eqb_neq (Z.of_nat i) (-1))) by lia. rewrite run_bind, run_ret, Ok_bind.
  rewrite (alloc_tail_run i e) by done. by destruct s.
Qed.

Lemma inv_tick x s :
  inv x s -> inv x (misc (stats_counts s) (tlb s) (m_next_victim s) (k_in_data s) (k_out_data s) (S (clock s)) s).
Proof using CKL.
  intros Hinv. apply inv_misc; [done|by apply (inv_stats _ s Hinv)|by apply (inv_tlb _ s Hinv)|lia].
Qed.

Lemma alloc_free_ok p v w d s i c :
  inv (p, v) s -> p <> 0 -> user_va v -> ~ in_memory s p v ->
  coremap s !! i = Some c -> is_free c ->
  get_free_page s = Ok (Z.of_nat i, set_clock (S (clock s)) (set_coremap
    (<[i := mk_cme 1 0 (fst (gettime (clock s))) (snd (gettime (clock s)))]> (coremap s)) s)) ->
  exists s', alloc_page p v w d s = Ok (frame i, s') /\ inv (p, v) s' /\
    page_table s' !! i = Some (mk_pte v (frame i) p 1 w d) /\ keeps s s' p v /\
    ram s' = ram s.
Proof using CKL.
  intros Hinv Hp Hv Hni Hc Hf Hrun. destruct (inv_entry _ s i c Hinv Hc) as (e & He & _).
  assert (~ is_user c) as Hnu by (unfold is_user, is_free in *; lia).
  pose proof (inv_tick _ s Hinv) as Hinv'.
  eexists. split; [by eapply alloc_free_run|]. split_and!.
  - by apply (claim_inv _ i c); try done; apply gettime_mono; cbn; lia.
  - cbn. apply list_lookup_insert_eq. by eapply lookup_lt_Some.
  - split_and!; try done; [|cbn; by rewrite length_insert|].
    { intros q u data Hq Hu Hne. by rewrite (claim_holds (p, v) i c). }
    left. split_and!; try done. intros j g Hj Hpg. cbn. rewrite list_lookup_insert_ne; [done|].
    intros <-. apply Hnu. by apply (inv_user _ s Hinv i g c).
  - done.
Qed.

(** The state before frame [i] is claimed, when its page was evicted. *)
Lemma alloc_evict_run p v w d s x :
  inv x s -> coremap_mutex ∉ held s -> swap_mutex ∉ held s ->
  (forall j c, coremap s !! j = Some c -> ~ is_free c) -> (exists j c, coremap s !! j = Some c /\ is_user c) ->
  (exists k u, swap_array s !! k = Some u /\ va u = 0) ->
  get_free_page s = Ok (-1, s) ->
  exists i e c k u data r f st l, coremap s !! i = Some c /\ is_user c /\
    (forall j c', coremap s !! j = Some c' -> is_user c' -> time_le (stamp c) (stamp c')) /\
    page_table s !! i = Some e /\ pid e <> 0 /\ swap_array s !! k = Some u /\ va u = 0 /\
    ram s !! paddr e = Some data /\
    vop_write (swap_file s) (Z.of_nat k * PAGE_SIZE) data = (r, f) /\
    zlen st = VMSTAT_COUNT /\ zlen l = NUM_TLB /\ (forall j t, l !! j = Some t -> valid t = false) /\
    alloc_page p v w d s = Ok (frame i, claim i p v w d (gettime (S (clock s)))
      (misc st l 0 (k_in_data s) data (S (S (clock s)))
         (if r =? 0 then evict i e k f s else discard i e f s))).
Proof using Hlo.
  intros Hinv Hh1 Hh2 Hnf (j0 & c0 & Hc0 & Huc0) Hslot Hfree.
  destruct (get_fifo_page_run s (inv_stamped _ s Hinv)) as [(i & c & Hc & Hu & Hmin & Hrun)|[_ Hno]];
    [|by destruct (Hno j0 c0 Hc0)].
  destruct (inv_entry _ s i c Hinv Hc) as (e & He & Hpa).
  destruct (inv_frame _ s Hinv i e He) as (_ & Hfb & [data Hd]).
  assert (pid e <> 0) as Hpe by by apply (inv_user _ s Hinv i e c He Hc).
  unfold alloc_page. rewrite run_bind, Hfree, Ok_bind. change (-1 =? -1) with true.
  rewrite !run_bind, Hrun, Ok_bind, run_bind. set (s1 := set_clock _ _).
  rewrite (pt_rd_run _ e) by (cbn; rewrite ?Nat2Z.id; done || lia). rewrite Ok_bind, run_bind.
  destruct (swap_out_run (pid e) (paddr e) (vaddr e) data s1) as (st & Hst & Hso); cbn; try done;
    [by apply (inv_stats _ s Hinv)|by rewrite Hpa|by rewrite Hpa; apply frame_aligned|].
  destruct Hso as [(k & u & Hk & Hu0 & Hso)|[_ Hfull]].
  2: { destruct Hslot as (k & u & Hk & Hu0). by destruct (Hfull k u Hk). }
  cbn in Hso. destruct (vop_write (swap_file s) (Z.of_nat k * PAGE_SIZE) data) as [r f] eqn:Ew.
  rewrite Hso, Ok_bind, run_bind. set (s2 := set_swap_file _ _).
  pose proof (inv_stats _ s Hinv) as Hstl. change (stats_counts s1) with (stats_counts s) in Hst.
  assert (tlb s2 = tlb s /\ stats_counts s2 = st /\ page_table s2 = page_table s) as (Ht2 & Hs2 & Hp2)
    by (unfold s2; by destruct (r =? 0)).
  destruct (tlb_invalidate_run s2) as (l & st' & -> & Hl & Hst' & Hval);
    [rewrite Ht2; apply (inv_tlb _ s Hinv)|rewrite Hs2; lia|]. rewrite Ok_bind, run_ret, Ok_bind.
  rewrite (alloc_tail_run i e); [|by rewrite <- Hp2 in He|done].
  exists i, e, c, k, u, data, r, f, st', l. 
  rewrite Hs2 in Hst'. split_and!; try done; try apply Hu; [by rewrite Hpa|by rewrite Hst', Hst|].
  do 2 f_equal. unfold claim, misc, evict, discard, s2, s1.
  destruct (r =? 0), s; cbn in *; by rewrite !list_insert_insert_eq.
Qed.

Lemma alloc_page_ok p v w d s :
  inv (p, v) s -> coremap_mutex ∉ held s -> swap_mutex ∉ held s -> p <> 0 -> user_va v ->
  ~ in_memory s p v -> has_room s ->
  exists i s', alloc_page p v w d s = Ok (frame i, s') /\ inv (p, v) s' /\
    page_table s' !! i = Some (mk_pte v (frame i) p 1 w d) /\ keeps s s' p v /\ ram s' = ram s.
Proof using Hlo CKL SDL.
  intros Hinv Hh1 Hh2 Hp Hv Hni Hroom.
  destruct (get_free_page_run s Hh1) as [(i & c & Hc & Hf & _ & Hrun)|[Hrun Hnf]].
  { destruct (alloc_free_ok p v w d s i c) as (s' & Hs'); try done. by exists i, s'. }
  destruct Hroom as [(i & c & Hc & Hf)|(Huser & Hslot & Hwr)]; [by destruct (Hnf i c Hc)|].
  destruct (alloc_evict_run p v w d s (p, v)) as
    (i & e & c & k & u & data & r & f & st & l & Hc & Hu & _ & He & Hpe & Hk & Hu0 & Hd & Hw & Hst & Hl & Hval & ->);
    try done.
  assert (r = 0) as -> by (by rewrite <- (Hwr (swap_file s) (Z.of_nat k * PAGE_SIZE) data), Hw).
  change (0 =? 0) with true. cbn iota.
  eexists i, _. split; [done|].
  assert ((pid e, vaddr e) <> (p, v)) as Hex.
  { intros Heq. apply Hni. exists i, e. by injection Heq as -> ->. }
  pose proof (evict_inv (p, v) s i k e u data f Hinv He Hpe Hex Hk Hu0 Hd Hw) as Hinv1.
  set (s2 := misc st l 0 (k_in_data s) data (S (S (clock s))) (evict i e k f s)).
  assert (inv (p, v) s2) as Hinv2 by (apply inv_misc; [done|done|done|cbn; lia]).
  assert (coremap s2 !! i = Some (mk_cme 0 0 0 0)) as Hc2.
  { cbn. apply list_lookup_insert_eq. by eapply lookup_lt_Some. }
  assert (~ is_user (mk_cme 0 0 0 0)) as Hnu by by intros [? _].
  split_and!.
  - apply (claim_inv _ i (mk_cme 0 0 0 0)); try done; [|by apply gettime_mono; cbn; lia].
    intros (j & g & Hj & Hgp & Hgv). cbn in Hj.
    apply list_lookup_insert_Some in Hj as [(-> & <- & _)|[Hne Hj]]; [by cbn in *|].
    apply Hni. by exists j, g.
  - cbn. apply list_lookup_insert_eq. rewrite length_insert. by eapply lookup_lt_Some.
  - split_and!; try done; [..|cbn; by rewrite !length_insert|by right].
    + intros q y data' Hq Hy Hne. rewrite (claim_holds (p, v) i (mk_cme 0 0 0 0)) by done.
      unfold s2. rewrite holds_misc. by apply (evict_holds (p, v) s i k e u data f).
    + intros j y Hj Hy. cbn. rewrite list_lookup_insert_ne; [done|]. congruence.
    + intros data'. apply (evict_swapped_x (p, v) s i k e u data f); try done. cbn. destruct Hv. lia.
  - done.
Qed.

Lemma pt_alloc_page_ok p v w d s :
  inv (p, v) s -> held s = [] -> p <> 0 -> user_va v -> ~ in_memory s p v -> has_room s ->
  exists i s', pt_alloc_page p v w d s = Ok (frame i, s') /\ inv (p, v) s' /\
    page_table s' !! i = Some (mk_pte v (frame i) p 1 w d) /\ keeps s s' p v /\ ram s' = ram s.
Proof using Hlo CKL SDL.
  intros Hinv Hh Hp Hv Hni Hroom. unfold pt_alloc_page.
  rewrite run_bind, run_acquire by (rewrite Hh; apply not_elem_of_nil). rewrite Ok_bind, run_bind.
  set (s1 := set_held (pt_mutex :: held s) s).
  assert (forall l, l <> pt_mutex -> l ∉ held s1) as Hn.
  { intros l Hl. cbn. rewrite Hh. rewrite list_elem_of_singleton. done. }
  destruct (alloc_page_ok p v w d s1) as (i & s' & -> & Hi & He & Hk & Hr); try done;
    try (by apply Hn); [by destruct Hinv; constructor|].
  pose proof Hk as (H1 & H2 & H3 & H4 & H5 & H6 & H7). rewrite Ok_bind, run_bind.
  rewrite (run_release _ _ []) by (rewrite ?H5; cbn; rewrite ?Hh; done || apply not_elem_of_nil).
  rewrite Ok_bind, run_ret. exists i. eexists. split; [done|].
  split; [by destruct Hi; constructor|]. split; [done|]. by split_and!.
Qed.

Lemma frame_pos i : frame i <> 0.
Proof using Hlo. unfold frame. lia. Qed.

Lemma frame_inj i j : frame i = frame j -> i = j.
Proof. unfold frame. lia. Qed.

(** A page the process does not have yet. *)
Lemma pt_alloc_page_new p v w d s :
  inv (0, 0) s -> held s = [] -> p <> 0 -> user_va v ->
  ~ in_memory s p v -> (forall data, ~ swapped s p v data) -> has_room s ->
  exists i s', pt_alloc_page p v w d s = Ok (frame i, s') /\ inv (0, 0) s' /\
    page_table s' !! i = Some (mk_pte v (frame i) p 1 w d) /\ keeps s s' p v /\ ram s' = ram s.
Proof using Hlo CKL SDL.
  intros Hinv Hh Hp Hv Hni Hns Hroom.
  assert (inv (p, v) s) as Hinv'.
  { apply (inv_weaken (0, 0)); [done|]. intros i e k u Hi Hk Hpe Hvu Hpp Hvv.
    pose proof (inv_excl _ s Hinv i e k u Hi Hk Hpe Hvu Hpp Hvv). by simplify_eq. }
  destruct (pt_alloc_page_ok p v w d s) as (i & s' & Hrun & Hi & He & Hk & Hr); try done.
  exists i, s'. split; [done|]. split; [|done]. destruct Hk as (_ & _ & H3 & _).
  apply (inv_weaken (p, v)); [done|]. intros j e k u Hj Hk Hpe Hvu Hpp Hvv. exfalso.
  pose proof (inv_excl _ s' Hi j e k u Hj Hk Hpe Hvu Hpp Hvv) as Hx. injection Hx as Hx1 Hx2.
  destruct (inv_slot _ s' Hi k u Hk Hvu) as (_ & _ & _ & data & Hread).
  apply (Hns data). apply H3. exists k, u. split_and!; congruence.
Qed.

(** C2. Allocating a page is transparent.  With room left (a free frame, or a page
    to evict, a free swap slot and a swap device whose writes succeed),
    [pt_alloc_page] gives a process a frame for a new page, and the contents of
    every page of every process, evicted ones included, stay what they were; the
    tables stay consistent and the mutex is released.  Without room the kernel
    panics, or loses the evicted page ([alloc_page_loses_page]). *)
Theorem pt_alloc_page_transparent p v w d s :
  inv (0, 0) s -> held s = [] -> p <> 0 -> user_va v ->
  ~ in_memory s p v -> (forall data, ~ swapped s p v data) -> has_room s ->
  exists pa s', pt_alloc_page p v w d s = Ok (pa, s') /\ pa <> 0 /\
    inv (0, 0) s' /\ held s' = [] /\
    (exists i, page_table s' !! i = Some (mk_pte v pa p 1 w d)) /\
    forall q u data, q <> 0 -> u <> 0 -> (q, u) <> (p, v) ->
      holds s' q u data <-> holds s q u data.
Proof using Hlo CKL SDL.
  intros Hinv Hh Hp Hv Hni Hns Hroom.
  destruct (pt_alloc_page_new p v w d s) as (i & s' & Hrun & Hi & He & (H1 & _ & _ & _ & H5 & _) & _); try done.
  exists (frame i), s'. split; [done|]. split; [apply frame_pos|]. split; [done|].
  split; [by rewrite H5|]. split; [by exists i|done].
Qed.

(** ** Swapping in *)

Lemma ram_write_inv x i e data s :
  inv x s -> page_table s !! i = Some e ->
  inv x (set_ram (<[paddr e := data]> (ram s)) s) /\
  (pid e <> 0 -> resident (set_ram (<[paddr e := data]> (ram s)) s) (pid e) (vaddr e) data) /\
  forall q u data', q <> 0 -> (q, u) <> (pid e, vaddr e) ->
    resident (set_ram (<[paddr e := data]> (ram s)) s) q u data' <-> resident s q u data'.
Proof.
  intros Hinv He. destruct (inv_frame _ s Hinv i e He) as (Hpa & _ & _). split_and!.
  - destruct Hinv. constructor; try done. intros j g Hj. cbn in Hj |- *.
    destruct (inv_frame0 j g Hj) as (H1 & H2 & H3). split_and!; try done.
    destruct (decide (frame j = paddr e)) as [->|Hne]; [by rewrite lookup_insert_eq|].
    by rewrite lookup_insert_ne.
  - intros _. exists i, e. cbn. by rewrite lookup_insert_eq.
  - intros q u data' Hq Hne.
    assert (forall j g, page_table s !! j = Some g -> pid g = q -> vaddr g = u ->
      paddr g <> paddr e) as Hdiff.
    { intros j g Hj Hp Hv Heq. destruct (inv_frame _ s Hinv j g Hj) as (Hpg & _ & _).
      assert (j = i) as -> by (apply frame_inj; congruence). apply Hne. congruence. }
    split; intros (j & g & Hj & Hp & Hv & Hr); exists j, g; cbn in *; split_and!; try done.
    + by rewrite lookup_insert_ne in Hr by (intros Heq; by eapply Hdiff).
    + rewrite lookup_insert_ne; [done|]. intros Heq. by eapply Hdiff.
Qed.

(** Clearing the slot of [x] ends the exception. *)
Lemma clear_slot_inv k w s :
  inv (sw_pid w, va w) s -> swap_array s !! k = Some w -> va w <> 0 ->
  inv (0, 0) (set_swap_array (<[k := mk_swe 0 0 0]> (swap_array s)) s) /\
  forall q u data, q <> 0 -> u <> 0 -> (q, u) <> (sw_pid w, va w) ->
    swapped (set_swap_array (<[k := mk_swe 0 0 0]> (swap_array s)) s) q u data <-> swapped s q u data.
Proof.
  intros Hinv Hk Hv. pose proof (lookup_lt_Some _ _ _ Hk) as Hki. split.
  - pose proof Hinv as []. constructor; cbn; rewrite ?length_insert; try done.
    + intros j y Hj Hy. apply list_lookup_insert_Some in Hj as [(-> & <- & _)|[Hne Hj]]; [done|].
      by apply inv_slot0.
    + intros j1 j2 w1 w2 H1 H2 Hy Hpp Hvv.
      apply list_lookup_insert_Some in H1 as [(-> & <- & _)|[Hne1 H1]]; [done|].
      apply list_lookup_insert_Some in H2 as [(-> & <- & _)|[Hne2 H2]]; [by cbn in *|].
      by eapply (inv_swuniq0 j1 j2).
    + intros i e j y Hi Hj Hpe Hy Hpp Hvv.
      apply list_lookup_insert_Some in Hj as [(-> & <- & _)|[Hne Hj]]; [done|]. exfalso.
      pose proof (inv_excl0 i e j y Hi Hj Hpe Hy Hpp Hvv) as Hx. injection Hx as Hx1 Hx2.
      apply Hne. eapply (inv_swuniq0 k j w y); congruence.
  - intros q u data Hq Hu Hne.
    split; intros (j & y & Hj & Hp & Hvv & Hr); cbn in *.
    + apply list_lookup_insert_Some in Hj as [(-> & <- & _)|[Hjk Hj]]; [by cbn in *|]. by exists j, y.
    + exists j, y. cbn. rewrite list_lookup_insert_ne; [done|]. intros ->. apply Hne. congruence.
Qed.

Lemma swap_search_found s p v k w :
  inv (0, 0) s -> swap_array s !! k = Some w -> sw_pid w = p -> va w = v -> v <> 0 ->
  swap_search p v (swap_array s) = Z.of_nat k.
Proof.
  intros Hinv Hk Hp Hv Hv0. unfold swap_search.
  destruct (first_index_spec (fun e => (sw_pid e =? p) && (va e =? v)) 0 (swap_array s)) as
    [[_ Hn]|(j & y & -> & Hj & Hy & _)]; [lia| |].
  - apply list_elem_of_lookup_2, Hn in Hk. rewrite Hp, Hv, !Z.eqb_refl in Hk. done.
  - apply andb_true_iff in Hy as [Hy1 Hy2]. apply Z.eqb_eq in Hy1, Hy2.
    rewrite (inv_swuniq _ s Hinv j k y w Hj Hk); [lia|congruence..].
Qed.

(** The last four steps of [swap_in]: fill the frame, clear the slot, count. *)
Lemma swap_in_finish s i k w data :
  inv (sw_pid w, va w) s -> swap_array s !! k = Some w -> va w <> 0 ->
  page_table s !! i = Some (mk_pte (va w) (frame i) (sw_pid w) 1 1 1) -> k_in_data s = data ->
  exists s', (s0 ← get; ram_wr (frame i) (k_in_data s0);; sw_wr (Z.of_nat k) (mk_swe 0 0 0);;
    vmstats_inc 6;; vmstats_inc 8;; mret (frame i)) s = Ok (frame i, s') /\
    inv (0, 0) s' /\ held s' = held s /\ resident s' (sw_pid w) (va w) data /\
    (page_table s' = page_table s /\ tlb s' = tlb s /\ m_next_victim s' = m_next_victim s) /\ ram s' !! frame i = Some data /\
    forall q u d, q <> 0 -> u <> 0 -> (q, u) <> (sw_pid w, va w) -> holds s' q u d <-> holds s q u d.
Proof using SD.
  intros Hinv Hk Hv He Hin. pose proof (lookup_lt_Some _ _ _ Hk) as Hki.
  destruct (inv_slot _ s Hinv k w Hk Hv) as (Hp & _ & _).
  destruct (inv_frame _ s Hinv i _ He) as (_ & _ & [old Hold]).
  destruct (ram_write_inv _ i _ data s Hinv He) as (Hi1 & Hres & Hoth).
  cbn [paddr pid vaddr] in Hi1, Hres, Hoth. specialize (Hres Hp).
  set (s1 := set_ram (<[frame i := data]> (ram s)) s) in *.
  destruct (clear_slot_inv k w s1 Hi1 Hk Hv) as [Hi2 Hoth2].
  set (s2 := set_swap_array (<[k := mk_swe 0 0 0]> (swap_array s1)) s1) in *.
  unfold ram_wr, sw_wr. mrun. rewrite Hold. mrun. rewrite wr_in by (cbn; lia). mrun.
  rewrite Nat2Z.id, Hin. fold s1. change (set_swap_array _ s1) with s2.
  destruct (vmstats_inc_run 6 s2) as (st & -> & Hst & _); [done|apply (inv_stats _ _ Hi2)|]. mrun.
  destruct (vmstats_inc_run 8 (set_stats st s2)) as (st' & -> & Hst' & _);
    [done|cbn; rewrite Hst; apply (inv_stats _ _ Hi2)|]. mrun.
  eexists. split; [done|]. split_and!.
  - pose proof (inv_stats _ _ Hi2) as Hl. destruct Hi2. constructor; try done. cbn in *. by rewrite Hst', Hst.
  - done.
  - exact Hres.
  - done.
  - done.
  - done.
  - cbn. by rewrite lookup_insert_eq.
  - intros q u d Hq Hu Hne. unfold holds.
    change (resident s1 q u d \/ swapped s2 q u d <-> resident s q u d \/ swapped s q u d).
    by rewrite (Hoth2 q u d Hq Hu Hne), (Hoth q u d Hq Hne).
Qed.

Lemma swap_in_ok s k w data :
  inv (0, 0) s -> held s = [] -> swap_array s !! k = Some w -> va w <> 0 ->
  vop_read (swap_file s) (offset w) = (0, data) -> has_room s ->
  exists i s', swap_in (sw_pid w) (va w) s = Ok (frame i, s') /\ inv (0, 0) s' /\ held s' = [] /\
    resident s' (sw_pid w) (va w) data /\ tlb_kept s s' /\ page_table s' !! i = Some (mk_pte (va w) (frame i) (sw_pid w) 1 1 1) /\ ram s' !! frame i = Some data /\
    forall q u d, q <> 0 -> u <> 0 -> (q, u) <> (sw_pid w, va w) -> holds s' q u d <-> holds s q u d.
Proof using Hlo CKL SDL.
  intros Hinv Hh Hk Hv Hread Hroom. pose proof (lookup_lt_Some _ _ _ Hk) as Hki.
  destruct (inv_slot _ s Hinv k w Hk Hv) as (Hp & Hva & _).
  unfold swap_in. rewrite run_bind, run_acquire by (rewrite Hh; apply not_elem_of_nil). mrun.
  rewrite (swap_search_found s _ _ k w) by done.
  rewrite (proj2 (Z.eqb_neq (Z.of_nat k) (-1))) by lia.
  rewrite run_bind, run_fail, (proj2 (rd_Some _ _ w)) by (rewrite Nat2Z.id; split; [lia|done]).
  rewrite !Ok_bind, Hread. mrun. cbn [Z.eqb negb].
  rewrite (run_bind (lock_release _)), (run_release _ _ (held s)) by (done || by rewrite Hh; apply not_elem_of_nil).
  rewrite Ok_bind, run_bind.
  set (s1 := set_held _ _). assert (s1 = set_buffers data (k_out_data s) s) as -> by (by destruct s).
  set (s2 := set_buffers data (k_out_data s) s). change (set_held _ _) with s2.
  assert (forall i e, page_table s !! i = Some e -> pid e = sw_pid w -> vaddr e = va w -> False) as Hni.
  { intros i e He Hpe Hve.
    pose proof (inv_excl _ s Hinv i e k w He Hk ltac:(congruence) Hv ltac:(congruence) ltac:(congruence)).
    simplify_eq. congruence. }
  assert (inv (sw_pid w, va w) s2) as Hinv2.
  { apply (inv_weaken (0, 0)); [by destruct Hinv; constructor|].
    intros i e j y Hi Hj Hpe Hvy Hpp Hvv.
    pose proof (inv_excl _ s Hinv i e j y Hi Hj Hpe Hvy Hpp Hvv). by simplify_eq. }
  destruct (pt_alloc_page_ok (sw_pid w) (va w) 1 1 s2) as (i & s3 & -> & Hi3 & He3 & Hkeep & Hram); try done.
  { intros (i & e & He & Hpe & Hve). by apply (Hni i e). }
  destruct Hkeep as (H1 & H2 & H3 & H4 & H5 & H6 & H7). rewrite Ok_bind.
  destruct (swap_in_finish s3 i k w data) as (s' & -> & Hi' & Hh' & Hres & (Ept & Etlb & Ev) & Hdata & Hoth); try done.
  { by apply H2. }
  exists i, s'. split; [done|]. split; [done|]. split; [by rewrite Hh', H5|]. split; [done|].
  split; [unfold tlb_kept; rewrite Ept, Etlb, Ev; apply H7|]. split; [by rewrite Ept|]. split; [done|].
  intros q u d Hq Hu Hne. rewrite (Hoth q u d Hq Hu Hne). by apply H1.
Qed.

Lemma swap_in_miss s p v :
  inv (0, 0) s -> held s = [] -> v <> 0 -> (forall data, ~ swapped s p v data) ->
  swap_in p v s = Ok (0, s).
Proof.
  intros Hinv Hh Hv Hns. unfold swap_in. rewrite run_bind, run_acquire by (rewrite Hh; apply not_elem_of_nil). mrun.
  unfold swap_search.
  destruct (first_index_spec (fun e => (sw_pid e =? p) && (va e =? v)) 0 (swap_array s)) as
    [[-> _]|(k & w & _ & Hk & Hw & _)]; [lia| |].
  - change (-1 =? -1) with true. mrun.
    rewrite (run_release _ _ []) by (cbn; rewrite ?Hh; done || apply not_elem_of_nil). mrun.
    rewrite <- Hh. by destruct s.
  - apply andb_true_iff in Hw as [Hw1 Hw2]. apply Z.eqb_eq in Hw1, Hw2.
    destruct (inv_slot _ s Hinv k w Hk ltac:(congruence)) as (_ & _ & _ & data & Hr).
    destruct (Hns data). by exists k, w.
Qed.

(** C20. Swapping in is the inverse of swapping out.  When a page of a process
    is in the swap file and there is room (a free frame, or a page to evict, a free
    swap slot and a swap device whose writes succeed), [swap_in] returns the
    address of the frame that now is the page, writable and dirty; the frame has
    the contents that were written out.  The page is no longer in the swap file,
    and every other page of every process keeps its contents (another page may
    move to the swap file in its place). *)
Theorem swap_in_restores s p v data :
  inv (0, 0) s -> held s = [] -> v <> 0 -> swapped s p v data -> has_room s ->
  exists pa s', swap_in p v s = Ok (pa, s') /\ pa <> 0 /\
    inv (0, 0) s' /\ held s' = [] /\
    (exists i, page_table s' !! i = Some (mk_pte v pa p 1 1 1)) /\ ram s' !! pa = Some data /\
    resident s' p v data /\ (forall d, ~ swapped s' p v d) /\
    forall q u d, q <> 0 -> u <> 0 -> (q, u) <> (p, v) -> holds s' q u d <-> holds s q u d.
Proof using Hlo CKL SDL.
  intros Hinv Hh Hv (k & w & Hk & <- & <- & Hr) Hroom.
  destruct (inv_slot _ s Hinv k w Hk Hv) as (Hp & _).
  destruct (swap_in_ok s k w data) as (i & s' & Hrun & Hi & Hh' & Hres & _ & He & Hdata & Hoth); try done.
  exists (frame i), s'. split; [done|]. split; [apply frame_pos|]. split; [done|]. split; [done|]. split; [by exists i|].
  split; [done|]. split; [done|]. split; [|done]. intros d (j & u & Hj & Hpu & Hvu & _).
  pose proof (inv_excl _ s' Hi i _ j u He Hj Hp ltac:(congruence) ltac:(cbn; congruence) ltac:(cbn; congruence)) as Hx.
  injection Hx as Hx _. done.
Qed.

(** [alloc_page] ignores the result of [swap_out].  When memory is full
    and the write to the swap file fails, the victim's frame is given away
    all the same: the call succeeds, and a page that some process had is
    neither in memory nor in the swap file any more. *)
Theorem alloc_page_loses_page p v w d s :
  inv (0, 0) s -> held s = [] -> p <> 0 -> ~ in_memory s p v ->
  (forall j c, coremap s !! j = Some c -> ~ is_free c) ->
  (exists j c, coremap s !! j = Some c /\ is_user c) ->
  (exists k u, swap_array s !! k = Some u /\ va u = 0) ->
  (forall f off data, fst (vop_write f off data) <> 0) ->
  exists pa s' q u data, pt_alloc_page p v w d s = Ok (pa, s') /\ pa <> 0 /\
    q <> 0 /\ holds s q u data /\ forall data', ~ holds s' q u data'.
Proof using Hlo.
  intros Hinv Hh Hp Hni Hnf Huser Hslot Hfail. unfold pt_alloc_page.
  rewrite run_bind, run_acquire by (rewrite Hh; apply not_elem_of_nil). rewrite Ok_bind, run_bind.
  set (s1 := set_held (pt_mutex :: held s) s).
  assert (inv (0, 0) s1) as Hinv1 by (by destruct Hinv; constructor).
  destruct (get_free_page_run s1) as [(i & c & Hc & Hf & _)|[Hrun _]];
    [cbn; rewrite Hh, list_elem_of_singleton; done|by destruct (Hnf i c Hc)|].
  destruct (alloc_evict_run p v w d s1 (0, 0)) as
    (i & e & c & k & u & data & r & f & st & l & Hc & Hu & _ & He & Hpe & Hk & Hu0 & Hd & Hw & _ & _ & _ & ->);
    try done; [cbn; rewrite Hh, list_elem_of_singleton; done..|].
  assert (r <> 0) as Hr.
  { pose proof (Hfail (swap_file s1) (Z.of_nat k * PAGE_SIZE) data) as Hne. by rewrite Hw in Hne. }
  rewrite (proj2 (Z.eqb_neq r 0)) by done. rewrite Ok_bind, run_bind.
  rewrite (run_release _ _ (held s)) by (done || by rewrite Hh; apply not_elem_of_nil).
  rewrite Ok_bind, run_ret. eexists (frame i), _, (pid e), (vaddr e), data.
  split; [done|]. split; [apply frame_pos|]. split; [done|]. split; [left; by exists i, e|].
  intros data' [(j & g & Hj & Hpg & Hvg & _)|(j & y & Hj & Hpy & Hvy & _)]; cbn in Hj.
  - apply list_lookup_insert_Some in Hj as [(-> & <- & _)|[Hne Hj]].
    + cbn in *. apply Hni. exists j, e. by rewrite Hpg, Hvg.
    + rewrite list_lookup_insert_ne in Hj by done. apply Hne.
      by eapply (inv_uniq _ s Hinv i j e g).
  - destruct (inv_user _ s Hinv i e c He Hc) as [_ Hva]. destruct (Hva Hpe) as [Hpos _].
    pose proof (inv_excl _ s Hinv i e j y He Hj Hpe) as Hx. rewrite Hpy, Hvy in Hx.
    specialize (Hx ltac:(lia) eq_refl eq_refl). congruence.
Qed.

End Paging.

(** ** A concrete instance

    A disk that keeps pages by offset, and whose writes return [r]; a machine
    with a frame of the kernel, one of process 2 and perhaps a free one, and a
    page of process 3 in the first swap slot. *)

(** A page of 4096 times the byte [z]. *)
Definition fill (z : Z) : list Z := replicate 4096 z.

Lemma fill_length z : length (fill z) = 4096%nat.
Proof. apply length_replicate. Qed.

#[global] Opaque fill.

Definition disk (r : Z) : SwapDev (gmap Z (list Z)) (list Z) := {|
  vop_write f off data := (r, if r =? 0 then <[off := data]> f else f);
  vop_read f off := match f !! off with Some data => (0, data) | None => (EINVAL, []) end;
|}.

Lemma disk_laws r : SwapDevLaws (H := disk r) (gmap Z (list Z)) (list Z).
Proof.
  constructor.
  - intros f off p f'. cbn. intros [= -> <-]. cbn. by rewrite lookup_insert_eq.
  - intros f off p off' _ _ Hne. cbn. destruct (r =? 0); [|done]. by rewrite lookup_insert_ne.
Qed.

Lemma demo_clock_laws : ClockLaws (H := demo_clock).
Proof. intros i j Hij. unfold time_le, gettime, demo_clock. cbn. lia. Qed.

Definition no_swap : list swap_entry := replicate 2303 (mk_swe 0 0 0).

Lemma no_swap_length : length no_swap = 2303%nat.
Proof. apply length_replicate. Qed.

Lemma no_swap_lookup k w : no_swap !! k = Some w -> w = mk_swe 0 0 0.
Proof. by intros [-> _]%lookup_replicate. Qed.

Lemma no_swap_head : no_swap !! 0%nat = Some (mk_swe 0 0 0).
Proof. reflexivity. Qed.

#[global] Opaque no_swap.

Definition demo (free : bool) : vm (gmap Z (list Z)) (list Z) :=
  mk_vm ([mk_cme 1 0 1 0; mk_cme 1 1 0 0] ++ if free then [mk_cme 0 0 0 0] else [])
    ([mk_pte 4194304 4096 2 1 1 0; mk_pte 2147491840 8192 0 1 1 0] ++
     if free then [mk_pte 0 12288 0 0 1 0] else [])
    {[4096 := fill 11; 8192 := fill 22; 12288 := fill 33]} (replicate 64 (0, 0)) 0
    (mk_swe 8192 3 0 :: no_swap) {[0 := fill 77]} [] [] (replicate 10 0) 9 [].

Lemma demo_inv r free : inv (SD := disk r) (CK := demo_clock) 4096 (0, 0) (demo free).
Proof.
  constructor.
  - by destruct free.
  - destruct free; intros [|[|[|[]]]] e He; try done; injection He as <-; cbn; split_and!; try done; by eexists.
  - assert (forall c, is_kernel c = 1 \/ in_use c = 0 -> (0 <> 0 <-> is_user c)) as Hnu.
    { intros c Hc. unfold is_user. lia. }
    destruct free; intros [|[|[|[]]]] e c He Hc; try done; injection He as <-; injection Hc as <-; cbn;
      (split; [|done || by intros _]); try (apply Hnu; cbn; lia); by split.
  - destruct free; intros [|[|[|[]]]] [|[|[|[]]]] e f He Hf; try done; injection He as <-; injection Hf as <-; done.
  - cbn. rewrite no_swap_length. reflexivity.
  - intros [|k] w Hk Hv; cbn in Hk.
    + injection Hk as <-. cbn. split_and!; try done. by exists (fill 77).
    + by apply no_swap_lookup in Hk as ->.
  - intros [|k] [|j] w u Hk Hj Hv; cbn in Hk, Hj; [done| | |].
    + injection Hk as <-. by apply no_swap_lookup in Hj as ->.
    + by apply no_swap_lookup in Hk as ->.
    + by apply no_swap_lookup in Hk as ->.
  - destruct free; intros [|[|[|[]]]] e [|k] w He Hk Hp Hv Hpp; try done; injection He as <-; cbn in Hk; try done;
      solve [injection Hk as <-; done|by apply no_swap_lookup in Hk as ->].
  - destruct free; intros [|[|[|[]]]] c Hc Hu; try done; injection Hc as <-;
      unfold time_le, stamp, gettime, demo_clock; cbn; lia.
  - reflexivity.
  - reflexivity.
Qed.

Lemma demo_room : has_room (SD := disk 0) (demo false).
Proof.
  right. split; [by exists 0%nat, (mk_cme 1 0 1 0)|]. split; [|intros; reflexivity].
  exists 1%nat, (mk_swe 0 0 0). split; [exact no_swap_head|reflexivity].
Qed.

Lemma demo_lo : 0 < 4096 /\ 4096 mod 4096 = 0.
Proof. split; [lia|reflexivity]. Qed.

Lemma demo_not_in_memory : ~ in_memory (demo false) 5 4096.
Proof. intros ([|[|[]]] & e & He & Hp & _); try discriminate He; injection He as <-; discriminate Hp. Qed.

Lemma demo_resident r free : holds (SD := disk r) (demo free) 2 4194304 (fill 11).
Proof. left. exists 0%nat, (mk_pte 4194304 4096 2 1 1 0). split_and!; reflexivity. Qed.

Lemma demo_swapped r free : swapped (SD := disk r) (demo free) 3 8192 (fill 77).
Proof. exists 0%nat, (mk_swe 8192 3 0). split_and!; reflexivity. Qed.

Lemma pt_alloc_page_transparent_witness :
  exists pa s', pt_alloc_page (H := disk 0) (H0 := demo_clock) 5 4096 1 0 (demo false) = Ok (pa, s') /\
    holds (SD := disk 0) s' 2 4194304 (fill 11) /\ holds (SD := disk 0) s' 3 8192 (fill 77).
Proof.
  destruct (pt_alloc_page_transparent (SDL := disk_laws 0) (CKL := demo_clock_laws) 4096 demo_lo
    5 4096 1 0 (demo false) (demo_inv 0 false) eq_refl) as (pa & s' & Hrun & _ & _ & _ & _ & Hk).
  - lia.
  - split; [lia|reflexivity].
  - exact demo_not_in_memory.
  - intros data ([|k] & w & Hw & Hp & _); [injection Hw as <-; discriminate Hp|].
    apply no_swap_lookup in Hw as ->. discriminate Hp.
  - exact demo_room.
  - exists pa, s'. split; [exact Hrun|]. split; (apply Hk; [lia|lia|intros [=]|]).
    + apply demo_resident.
    + right. apply demo_swapped.
Defined.

Lemma swap_in_restores_witness :
  exists pa s', swap_in (H := disk 0) (H0 := demo_clock) 3 8192 (demo false) = Ok (pa, s') /\
    resident s' 3 8192 (fill 77) /\ holds (SD := disk 0) s' 2 4194304 (fill 11).
Proof.
  destruct (swap_in_restores (SDL := disk_laws 0) (CKL := demo_clock_laws) 4096 demo_lo
    (demo false) 3 8192 (fill 77) (demo_inv 0 false) eq_refl) as (pa & s' & Hrun & _ & _ & _ & _ & _ & Hr & _ & Hk).
  - lia.
  - apply demo_swapped.
  - exact demo_room.
  - exists pa, s'. split; [exact Hrun|]. split; [exact Hr|].
    apply Hk; [lia|lia|intros [=]|apply demo_resident].
Defined.

Lemma alloc_page_loses_page_witness :
  exists pa s' q u data,
    pt_alloc_page (H := disk 5) (H0 := demo_clock) 5 4096 1 0 (demo false) = Ok (pa, s') /\
    holds (SD := disk 5) (demo false) q u data /\ forall d, ~ holds (SD := disk 5) s' q u d.
Proof.
  destruct (alloc_page_loses_page (SD := disk 5) (CK := demo_clock) 4096 demo_lo
    5 4096 1 0 (demo false) (demo_inv 5 false) eq_refl) as (pa & s' & q & u & data & Hrun & _ & _ & Hh & Hn).
  - lia.
  - exact demo_not_in_memory.
  - intros [|[|[]]] c Hc; try discriminate Hc; injection Hc as <-; intros Hf; discriminate Hf.
  - exists 0%nat, (mk_cme 1 0 1 0). split; [reflexivity|split; reflexivity].
  - exists 1%nat, (mk_swe 0 0 0). split; [exact no_swap_head|reflexivity].
  - intros f off data Hz. discriminate Hz.
  - exists pa, s', q, u, data. split; [exact Hrun|]. split; [exact Hh|exact Hn].
Defined.

End Paging.
