(* ===== verification/PagingOps.v ===== *)
(** * Exit, fork and the kernel's pages over the paging tables

    [pt_free_pages] (at process exit), [pt_copymem] (at fork) and
    [pt_alloc_kpages] with [pt_free_kpage] (kmalloc's pages), against the
    vocabulary of Paging.v. *)

From S2P Require Import Prelude VmState Coremap Swap TlbHw PageTable Paging.
Import Vm Coremap Swap TlbHw PageTable Paging.

Module PagingOps.
Section Ops.
Context {file page : Type} {SD : SwapDev file page} {SDL : SwapDevLaws file page}.
Context {CK : Clock} {CKL : ClockLaws}.
Local Abbreviation M := (M file page).
Local Abbreviation vm := (vm file page).
Context (lo : Z) (Hlo : 0 < lo /\ lo mod 4096 = 0).
Local Abbreviation inv := (inv lo).
Local Abbreviation frame := (frame lo).

Definition blank (e : page_table_entry) : page_table_entry :=
  mk_pte 0 (paddr e) 0 0 (writeable e) (dirty e).
Definition unused (c : coremap_entry) : coremap_entry := mk_cme 0 0 (secs c) (nsecs c).

(** The tables after the entries that satisfy [sel] were released. *)
Definition released (sel : nat -> page_table_entry -> bool) (s s' : vm) : Prop :=
  (forall j, page_table s' !! j =
     match page_table s !! j with
     | Some e => Some (if sel j e then blank e else e)
     | None => None
     end) /\
  (forall j, coremap s' !! j =
     match page_table s !! j, coremap s !! j with
     | Some e, Some c => Some (if sel j e then unused c else c)
     | _, c => c
     end) /\
  s' = set_coremap (coremap s') (set_page_table (page_table s') s).

Lemma released_none s sel : (forall j e, page_table s !! j = Some e -> sel j e = false) -> released sel s s.
Proof.
  intros Hsel. split_and!; [..|by destruct s].
  - intros j. destruct (page_table s !! j) as [e|] eqn:E; [|done]. by rewrite (Hsel j e).
  - intros j. destruct (page_table s !! j) as [e|] eqn:E; [|done].
    destruct (coremap s !! j); [|done]. by rewrite (Hsel j e).
Qed.

Lemma released_one i e c (s : vm) :
  page_table s !! i = Some e -> coremap s !! i = Some c ->
  released (fun j _ => bool_decide (j = i)) s
    (set_coremap (<[i := unused c]> (coremap s)) (set_page_table (<[i := blank e]> (page_table s)) s)).
Proof.
  intros He Hc. split_and!; [..|by destruct s]; intros j; cbn; destruct (decide (j = i)) as [->|Hne].
  - rewrite list_lookup_insert_eq by (by eapply lookup_lt_Some). by rewrite He, bool_decide_true.
  - rewrite list_lookup_insert_ne by done. destruct (page_table s !! j); [|done].
    by rewrite bool_decide_false.
  - rewrite list_lookup_insert_eq by (by eapply lookup_lt_Some). by rewrite He, Hc, bool_decide_true.
  - rewrite list_lookup_insert_ne by done. destruct (page_table s !! j), (coremap s !! j); try done.
    by rewrite bool_decide_false.
Qed.

(** Releasing some entries, then others that were not touched. *)
Lemma released_trans f g h (s s1 s2 : vm) :
  released f s s1 -> released g s1 s2 ->
  (forall j e, page_table s !! j = Some e -> h j e = f j e || g j (if f j e then blank e else e)) ->
  released h s s2.
Proof.
  intros (Hp1 & Hc1 & He1) (Hp2 & Hc2 & He2) Hh. split_and!.
  - intros j. rewrite Hp2, Hp1. destruct (page_table s !! j) as [e|] eqn:E; [|done].
    rewrite (Hh j e E). destruct (f j e); cbn [orb]; [|done].
    by destruct (g j (blank e)).
  - intros j. rewrite Hc2, Hp1, Hc1. destruct (page_table s !! j) as [e|] eqn:E; [|done].
    destruct (coremap s !! j) as [c|]; [|done]. rewrite (Hh j e E).
    destruct (f j e); cbn [orb]; [|done]. by destruct (g j (blank e)).
  - rewrite He2, He1. by destruct s.
Qed.

Lemma released_lengths f (s s' : vm) :
  released f s s' -> length (page_table s') = length (page_table s).
Proof.
  intros (Hp & _ & _). apply same_lookup_length. intros j. rewrite Hp.
  destruct (page_table s !! j); [|done]. split; intros _; by eexists.
Qed.

Lemma release_entry_released i (s : vm) :
  (i < length (page_table s))%nat -> length (coremap s) = length (page_table s) ->
  exists s', release_entry (Z.of_nat i) s = Ok (tt, s') /\
    released (fun j _ => bool_decide (j = i)) s s' /\ length (coremap s') = length (page_table s').
Proof.
  intros Hi Hl. destruct (lookup_lt_is_Some_2 (page_table s) i) as [e He]; [done|].
  destruct (lookup_lt_is_Some_2 (coremap s) i) as [c Hc]; [lia|].
  rewrite (release_entry_run i e c) by done. eexists. split; [done|].
  split; [by apply released_one|]. cbn. by rewrite !length_insert.
Qed.

(** The loop of [pt_free_pages] from entry [i] on. *)
Lemma free_pages_loop_ok p k : forall i (s : vm),
  (i + k = length (page_table s))%nat -> length (coremap s) = length (page_table s) ->
  exists s', free_pages_loop k (Z.of_nat i) p s = Ok (tt, s') /\
    released (fun j e => bool_decide (i <= j)%nat && (pid e =? p)) s s'.
Proof.
  induction k as [|k IH]; intros i s Hk Hl; cbn [free_pages_loop].
  { exists s. split; [done|]. apply released_none. intros j e Hj. apply lookup_lt_Some in Hj.
    rewrite bool_decide_false by lia. done. }
  destruct (lookup_lt_is_Some_2 (page_table s) i) as [e He]; [lia|].
  rewrite run_bind, (pt_rd_run _ e) by (rewrite ?Nat2Z.id; done || lia). mrun.
  replace (Z.of_nat i + 1) with (Z.of_nat (S i)) by lia.
  destruct (Z.eqb_spec (pid e) p) as [Hp|Hp].
  - destruct (release_entry_released i s) as (s1 & -> & Hr & Hl1); [lia|done|]. mrun.
    pose proof (released_lengths _ _ _ Hr) as Hlen.
    destruct (IH (S i) s1) as (s2 & -> & Hr2); [lia|done|]. exists s2. split; [done|].
    eapply released_trans; [exact Hr|exact Hr2|]. intros j g Hg. cbn.
    destruct (decide (j = i)) as [->|Hne].
    + rewrite !bool_decide_true by lia. assert (g = e) as -> by congruence. by rewrite Hp, Z.eqb_refl.
    + rewrite (bool_decide_false (j = i)) by done. cbn. f_equal. apply bool_decide_ext. lia.
  - mrun. destruct (IH (S i) s) as (s2 & -> & Hr2); [lia|done|]. exists s2. split; [done|].
    eapply (released_trans (fun _ _ => false)); [by apply released_none|exact Hr2|].
    intros j g Hg. cbn. destruct (decide (j = i)) as [->|Hne].
    + assert (g = e) as -> by congruence. by rewrite (proj2 (Z.eqb_neq (pid e) p)), !andb_false_r.
    + f_equal. apply bool_decide_ext. lia.
Qed.

(** Releasing entries of processes keeps the tables consistent. *)
Lemma released_inv x sel (s s' : vm) : inv x s -> released sel s s' -> inv x s'.
Proof.
  intros Hinv Hrel. pose proof (released_lengths _ _ _ Hrel) as Hlen.
  destruct Hrel as (Hp & Hc & Heq).
  assert (forall j e', page_table s' !! j = Some e' -> exists e, page_table s !! j = Some e /\
    e' = if sel j e then blank e else e) as Hp'.
  { intros j e' He'. rewrite Hp in He'. destruct (page_table s !! j) as [e|]; [|done].
    injection He' as <-. by exists e. }
  assert (ram s' = ram s /\ swap_array s' = swap_array s /\ swap_file s' = swap_file s /\
    clock s' = clock s /\ stats_counts s' = stats_counts s /\ tlb s' = tlb s) as
    (E1 & E2 & E3 & E4 & E5 & E6) by (rewrite Heq; by destruct s).
  assert (forall j e, page_table s !! j = Some e -> pid (if sel j e then blank e else e) <> 0 ->
    sel j e = false) as Hkeep by (intros j e _; by destruct (sel j e)).
  pose proof Hinv as []. constructor; rewrite ?E1, ?E2, ?E3, ?E5, ?E6; try done.
  - rewrite Hlen, <- inv_len0. apply same_lookup_length. intros j. rewrite Hc.
    by destruct (page_table s !! j), (coremap s !! j).
  - intros j e' He'. destruct (Hp' j e' He') as (e & He & ->).
    destruct (inv_frame0 j e He) as (? & ? & ?). by destruct (sel j e).
  - intros j e' c' He' Hc'. destruct (Hp' j e' He') as (e & He & ->). rewrite Hc, He in Hc'.
    destruct (coremap s !! j) as [c|] eqn:Ec; [|done]. injection Hc' as <-.
    destruct (sel j e); [|by eapply inv_user0]. cbn.
    split; [|done]. split; [done|by intros [? _]].
  - intros j1 j2 e1 e2 H1 H2 Hpid Hpp Hvv. destruct (Hp' j1 e1 H1) as (f1 & Hf1 & ->).
    destruct (Hp' j2 e2 H2) as (f2 & Hf2 & ->). pose proof (Hkeep j1 f1 Hf1 Hpid) as K1.
    rewrite K1 in *. revert Hpp Hvv. destruct (sel j2 f2); intros Hpp Hvv; [by cbn in *|]. by eapply (inv_uniq0 j1 j2).
  - intros j e' k w He' Hk Hpid Hv Hpp Hvv. destruct (Hp' j e' He') as (e & He & ->).
    pose proof (Hkeep j e He Hpid) as K. rewrite K in *. by eapply (inv_excl0 j e k w).
  - intros j c' Hc' Hu. rewrite Hc in Hc'. rewrite E4.
    destruct (page_table s !! j) as [e|]; [|by eapply inv_stamped0].
    destruct (coremap s !! j) as [c|] eqn:Ec; [|done]. injection Hc' as <-.
    destruct (sel j e); [by destruct Hu|]. by eapply inv_stamped0.
Qed.

(** The contents of pages under a release of entries that [sel] picks by
    their process. *)
Lemma released_holds (sel : Z -> bool) (s s' : vm) q u data :
  released (fun _ e => sel (pid e)) s s' -> q <> 0 ->
  (sel q = false -> resident s' q u data <-> resident s q u data) /\
  (sel q = true -> ~ resident s' q u data) /\
  (swapped s' q u data <-> swapped s q u data).
Proof.
  intros (Hp & _ & Heq) Hq.
  assert (ram s' = ram s /\ swap_array s' = swap_array s /\ swap_file s' = swap_file s) as
    (E1 & E2 & E3) by (rewrite Heq; by destruct s).
  split_and!.
  - intros Hsel. unfold resident. rewrite E1. split; intros (j & e & He & Hpe & Hve & Hd).
    + rewrite Hp in He. destruct (page_table s !! j) as [e0|] eqn:E; [|done].
      injection He as He. exists j, e0. destruct (sel (pid e0)); subst e; [|done].
      by cbn in Hpe.
    + exists j, e. rewrite Hp, He, Hpe, Hsel. done.
  - intros Hsel (j & e & He & Hpe & _). rewrite Hp in He.
    destruct (page_table s !! j) as [e0|]; [|done]. injection He as He.
    destruct (sel (pid e0)) eqn:E; subst e; [by cbn in Hpe|congruence].
  - unfold swapped. by rewrite E2, E3.
Qed.

(** Process exit releases the memory of the process and nobody else's.
    [pt_free_pages] leaves no page of [p] in memory and makes all of its
    frames free, and no other process loses or gains a page.  But it does not
    look at the swap table: pages of [p] that are swapped out stay there, so
    their slots are never reused and a later process that is given the same
    pid finds them. *)
Theorem pt_free_pages_releases p s :
  inv (0, 0) s -> p <> 0 ->
  exists s', pt_free_pages p s = Ok (tt, s') /\ inv (0, 0) s' /\
    (forall v data, ~ resident s' p v data) /\
    (forall i e, page_table s !! i = Some e -> pid e = p ->
       exists c, coremap s' !! i = Some c /\ is_free c) /\
    (forall q u data, q <> 0 -> q <> p -> holds s' q u data <-> holds s q u data) /\
    (forall v data, swapped s' p v data <-> swapped s p v data).
Proof.
  intros Hinv Hp. unfold pt_free_pages. mrun.
  destruct (free_pages_loop_ok p (length (page_table s)) 0 s) as (s' & Hrun & Hrel);
    [done|apply (inv_len _ _ s Hinv)|].
  exists s'. split; [exact Hrun|]. split; [by eapply released_inv|].
  assert (forall q u data, q <> 0 ->
    ((q =? p) = false -> resident s' q u data <-> resident s q u data) /\
    ((q =? p) = true -> ~ resident s' q u data) /\ (swapped s' q u data <-> swapped s q u data)) as Hh.
  { intros q u data Hq. by apply (released_holds (fun q => q =? p)). }
  split_and!.
  - intros v data. destruct (Hh p v data Hp) as (_ & Hn & _). apply Hn, Z.eqb_refl.
  - intros i e He Hpe. destruct (inv_core _ _ s i e Hinv He) as [c Hc]. destruct Hrel as (_ & Hcm & _).
    exists (unused c). split; [|done]. rewrite Hcm, He, Hc. cbn. by rewrite Hpe, Z.eqb_refl.
  - intros q u data Hq Hne. destruct (Hh q u data Hq) as (H1 & _ & H3). unfold holds.
    rewrite H3, H1; [done|]. by apply Z.eqb_neq.
  - intros v data. by apply Hh.
Qed.

(** ** The kernel's own pages *)

(** A kernel frame is entered under its direct-mapped address. *)
Definition kernel_addrs (s : vm) : Prop :=
  forall i e c, page_table s !! i = Some e -> coremap s !! i = Some c ->
    is_kernel c <> 0 -> vaddr e = frame i + 2147483648.

Lemma fill_kpages_ok p va0 n k : forall i j (s : vm),
  0 <= i -> i + Z.of_nat k <= n -> (j + Z.to_nat i + k <= length (page_table s))%nat ->
  exists l, fill_kpages k i (Z.of_nat j) p va0 n s = Ok (tt, set_page_table l s) /\
    forall m, l !! m = match page_table s !! m with
      | Some e => Some (if decide (Z.of_nat j + i <= Z.of_nat m < Z.of_nat j + i + Z.of_nat k)
          then mk_pte (u32 (va0 + (Z.of_nat m - Z.of_nat j) * PAGE_SIZE)) (paddr e) p
                 (n - (Z.of_nat m - Z.of_nat j)) (writeable e) (dirty e)
          else e)
      | None => None
      end.
Proof.
  induction k as [|k IH]; intros i j s Hi Hn Hb; cbn [fill_kpages].
  { exists (page_table s). split; [by destruct s|]. intros m. destruct (page_table s !! m); [|done].
    rewrite decide_False; [done|lia]. }
  destruct (lookup_lt_is_Some_2 (page_table s) (Z.to_nat (i + Z.of_nat j))) as [e He]; [lia|].
  rewrite run_bind, (pt_rd_run _ e) by (done || lia). mrun. rewrite pt_wr_run by lia. mrun.
  set (s1 := set_page_table _ s).
  destruct (IH (i + 1) j s1) as (l & -> & Hl); [lia|lia|cbn; rewrite length_insert; lia|].
  exists l. split; [by destruct s|]. intros m. rewrite Hl. cbn [page_table set_page_table s1].
  destruct (decide (m = Z.to_nat (i + Z.of_nat j))) as [->|Hne].
  - rewrite list_lookup_insert_eq by lia. rewrite He. cbn.
    rewrite decide_False by lia. rewrite decide_True by lia.
    by replace (Z.of_nat (Z.to_nat (i + Z.of_nat j)) - Z.of_nat j) with i by lia.
  - rewrite list_lookup_insert_ne by done. destruct (page_table s !! m); [|done].
    destruct (decide (Z.of_nat j + (i + 1) <= Z.of_nat m < _)).
    + by rewrite decide_True by lia.
    + by rewrite decide_False by lia.
Qed.

Lemma release_run_ok k : forall i (s : vm),
  (i + k <= length (page_table s))%nat -> length (coremap s) = length (page_table s) ->
  exists s', release_run k (Z.of_nat i) s = Ok (tt, s') /\
    released (fun j _ => bool_decide (i <= j < i + k)%nat) s s'.
Proof.
  induction k as [|k IH]; intros i s Hk Hl; cbn [release_run].
  { exists s. split; [done|]. apply released_none. intros j e _. apply bool_decide_false. lia. }
  mrun. destruct (release_entry_released i s) as (s1 & -> & Hr & Hl1); [lia|done|]. mrun.
  pose proof (released_lengths _ _ _ Hr) as Hlen.
  replace (Z.of_nat i + 1) with (Z.of_nat (S i)) by lia.
  destruct (IH (S i) s1) as (s2 & -> & Hr2); [lia|done|]. exists s2. split; [done|].
  eapply released_trans; [exact Hr|exact Hr2|]. intros j g Hg. cbn.
  rewrite <- bool_decide_or. apply bool_decide_ext. lia.
Qed.

Lemma free_kpage_loop_ok va0 j e c k : forall i (s : vm),
  (i + k = length (page_table s))%nat -> length (coremap s) = length (page_table s) -> (i <= j)%nat ->
  page_table s !! j = Some e -> coremap s !! j = Some c -> is_kernel c <> 0 -> vaddr e = va0 ->
  (forall m f d, (i <= m < j)%nat -> page_table s !! m = Some f -> coremap s !! m = Some d ->
     is_kernel d <> 0 -> vaddr f <> va0) ->
  free_kpage_loop k (Z.of_nat i) va0 s = release_run (Z.to_nat (npages e)) (Z.of_nat j) s.
Proof.
  induction k as [|k IH]; intros i s Hk Hl Hij He Hc Hkc Hv Hbefore; cbn [free_kpage_loop].
  { apply lookup_lt_Some in He. lia. }
  pose proof (lookup_lt_Some _ _ _ He) as Hj.
  destruct (lookup_lt_is_Some_2 (page_table s) i) as [f Hf]; [lia|].
  destruct (lookup_lt_is_Some_2 (coremap s) i) as [d Hd]; [lia|].
  unfold coremap_is_kernel. mrun. rewrite (cm_rd_run _ d) by (rewrite ?Nat2Z.id; done || lia). mrun.
  assert (i <> j -> (i < j)%nat) as Hlt by lia.
  replace (Z.of_nat i + 1) with (Z.of_nat (S i)) by lia.
  destruct (Z.eqb_spec (is_kernel d) 0) as [Hd0|Hd0].
  - destruct (decide (i = j)) as [->|Hne]; [congruence|].
    apply IH; try done; try lia. intros m g h Hm. apply Hbefore. lia.
  - mrun. rewrite (pt_rd_run _ f) by (rewrite ?Nat2Z.id; done || lia). mrun.
    destruct (decide (i = j)) as [->|Hne].
    + assert (f = e) as -> by congruence. by rewrite Hv, Z.eqb_refl.
    + rewrite (proj2 (Z.eqb_neq va0 (vaddr f))).
      * apply IH; try done; try lia. intros m g h Hm. apply Hbefore. lia.
      * intros Heq. eapply (Hbefore i f d); try done. lia.
Qed.

(** The state after [pt_alloc_kpages] took the [n] frames from [j] on. *)
Record kallocated (j : nat) (n : Z) (s s' : vm) : Prop := mk_kalloc {
  ka_pt m : page_table s' !! m =
    match page_table s !! m with
    | Some e => Some (if decide (Z.of_nat j <= Z.of_nat m < Z.of_nat j + n)
        then mk_pte (frame m + 2147483648) (paddr e) 0 (n - (Z.of_nat m - Z.of_nat j)) (writeable e) (dirty e)
        else e)
    | None => None
    end;
  ka_in m : Z.of_nat j <= Z.of_nat m < Z.of_nat j + n ->
    exists t, coremap s' !! m = Some (mk_cme 1 1 (fst t) (snd t));
  ka_out m : ~ (Z.of_nat j <= Z.of_nat m < Z.of_nat j + n) -> coremap s' !! m = coremap s !! m;
  ka_len : length (coremap s') = length (coremap s);
  ka_rest : s' = set_clock (clock s') (set_coremap (coremap s') (set_page_table (page_table s') s));
  ka_clock : (clock s <= clock s')%nat;
}.

Lemma pt_alloc_kpages_run n s :
  inv (0, 0) s -> held s = [] -> 1 <= n ->
  (exists j s', free_run (coremap s) (Z.of_nat j) n /\
     pt_alloc_kpages 0 n s = Ok (frame j + 2147483648, s') /\ kallocated j n s s') \/
  (pt_alloc_kpages 0 n s = Ok (0, s) /\ forall q, ~ free_run (coremap s) q n).
Proof using Hlo.
  intros Hinv Hh Hn. unfold pt_alloc_kpages.
  rewrite run_bind, run_acquire by (rewrite Hh; apply not_elem_of_nil). rewrite Ok_bind, run_bind.
  set (s0 := set_held (pt_mutex :: held s) s).
  destruct (get_free_kpages_run n s0) as [(p & l & Hfree & _ & Hrun & Hlen & Hl)|[Hrun Hno]]; [done| | |].
  { cbn. rewrite Hh, list_elem_of_singleton. done. }
  2: { right. rewrite Hrun, Ok_bind. change (-1 =? -1) with true. mrun.
       rewrite (run_release _ _ (held s)) by (done || by rewrite Hh; apply not_elem_of_nil). mrun.
       split; [by destruct s|done]. }
  left. pose proof Hfree as [Hp0 Hfree']. exists (Z.to_nat p). rewrite Z2Nat.id by done.
  change (coremap s0) with (coremap s) in *. change (clock s0) with (clock s) in *.
  pose proof (inv_len _ _ s Hinv) as Hcl.
  destruct (Hfree' (p + n - 1)) as (c1 & Hc1 & _); [lia|]. apply lookup_lt_Some in Hc1.
  destruct (Hfree' p) as (c0 & Hc0 & _); [lia|].
  destruct (inv_entry _ _ s _ c0 Hinv Hc0) as (e0 & He0 & Hpa0).
  rewrite Hrun, Ok_bind. rewrite (proj2 (Z.eqb_neq p (-1))) by lia. rewrite run_bind.
  set (s1 := set_clock _ _). rewrite (pt_rd_run p e0) by done. mrun. rewrite Hpa0.
  assert (forall m, (m < length (page_table s))%nat -> 0 < frame m < 536870912) as Hfb.
  { intros m Hm. apply lookup_lt_is_Some_2 in Hm as [e He].
    destruct (inv_frame _ _ s Hinv m e He) as (_ & ? & _). unfold Paging.frame in *. lia. }
  assert (PADDR_TO_KVADDR (frame (Z.to_nat p)) = frame (Z.to_nat p) + 2147483648) as Hkv.
  { pose proof (Hfb (Z.to_nat p)). apply u32_id. unfold u32_mod. lia. }
  rewrite Hkv. destruct (fill_kpages_ok 0 (frame (Z.to_nat p) + 2147483648) n (Z.to_nat n) 0 (Z.to_nat p) s1)
    as (l2 & Hfill & Hl2); [lia|lia|cbn; lia|].
  rewrite Z2Nat.id in Hfill by done. rewrite Hfill. mrun.
  rewrite (run_release _ _ (held s)) by (done || by rewrite Hh; apply not_elem_of_nil). mrun.
  eexists. split; [done|]. split; [done|]. constructor; cbn.
  - intros m. rewrite Hl2. change (page_table s1) with (page_table s).
    destruct (page_table s !! m) as [e|] eqn:Em; [|done]. rewrite !Z2Nat.id by lia. rewrite Z.add_0_r.
    destruct (decide _) as [Hin|]; [|done]. pose proof (lookup_lt_Some _ _ _ Em) as Hm.
    pose proof (Hfb m Hm). do 2 f_equal. rewrite u32_id; unfold Paging.frame, PAGE_SIZE, u32_mod in *; lia.
  - intros m Hm. rewrite Hl, decide_True by lia. by eexists (gettime _).
  - intros m Hm. by rewrite Hl, decide_False by lia.
  - done.
  - by destruct s.
  - lia.
Qed.

Lemma kallocated_entry j n s s' m e' :
  kallocated j n s s' -> page_table s' !! m = Some e' ->
  exists e, page_table s !! m = Some e /\ paddr e' = paddr e /\
    ((Z.of_nat j <= Z.of_nat m < Z.of_nat j + n /\ pid e' = 0 /\ vaddr e' = frame m + 2147483648) \/
     (~ (Z.of_nat j <= Z.of_nat m < Z.of_nat j + n) /\ e' = e)).
Proof.
  intros Hka He'. rewrite (ka_pt _ _ _ _ Hka) in He'. destruct (page_table s !! m) as [e|]; [|done].
  exists e. split; [done|]. injection He' as <-. destruct (decide _); [by auto|by auto].
Qed.

(** The frames were free, so no page of a process is lost. *)
Lemma kallocated_free j n s m e :
  inv (0, 0) s -> free_run (coremap s) (Z.of_nat j) n -> page_table s !! m = Some e ->
  Z.of_nat j <= Z.of_nat m < Z.of_nat j + n -> pid e = 0.
Proof.
  intros Hinv [_ Hfree] He Hm. destruct (Hfree (Z.of_nat m) Hm) as (c & Hc & Hf).
  rewrite Nat2Z.id in Hc. destruct (decide (pid e = 0)) as [|Hp]; [done|].
  apply (proj1 (inv_user _ _ s Hinv m e c He Hc)) in Hp as [Hu _]. unfold is_free in Hf. lia.
Qed.

Lemma kallocated_inv j n s s' :
  inv (0, 0) s -> kernel_addrs s -> free_run (coremap s) (Z.of_nat j) n -> kallocated j n s s' ->
  inv (0, 0) s' /\ kernel_addrs s' /\
  forall q u data, q <> 0 -> holds s' q u data <-> holds s q u data.
Proof using CKL.
  intros Hinv Hka Hfree Hk.
  assert (ram s' = ram s /\ swap_array s' = swap_array s /\ swap_file s' = swap_file s /\
    stats_counts s' = stats_counts s /\ tlb s' = tlb s) as (E1 & E2 & E3 & E5 & E6)
    by (rewrite (ka_rest _ _ _ _ Hk); by destruct s).
  assert (length (page_table s') = length (page_table s)) as Hlen.
  { apply same_lookup_length. intros m. rewrite (ka_pt _ _ _ _ Hk).
    destruct (page_table s !! m); [|done]. split; intros _; by eexists. }
  split_and!.
  - pose proof Hinv as []. constructor; rewrite ?E1, ?E2, ?E3, ?E5, ?E6; try done.
    + by rewrite Hlen, (ka_len _ _ _ _ Hk).
    + intros m e' He'. destruct (kallocated_entry j n s s' m e' Hk He') as (e & He & -> & _).
      by apply inv_frame0.
    + intros m e' c' He' Hc'. destruct (kallocated_entry j n s s' m e' Hk He') as
        (e & He & _ & [(Hm & Hp & _)|[Hm ->]]).
      * destruct (ka_in _ _ _ _ Hk m Hm) as [t Ht]. rewrite Ht in Hc'. injection Hc' as <-.
        rewrite Hp. split; [|done]. split; [done|by intros [_ ?]].
      * rewrite (ka_out _ _ _ _ Hk m Hm) in Hc'. by eapply inv_user0.
    + intros m1 m2 e1 e2 H1 H2 Hp Hpp Hvv.
      destruct (kallocated_entry j n s s' m1 e1 Hk H1) as (f1 & Hf1 & _ & [(_ & ? & _)|[_ ->]]); [done|].
      destruct (kallocated_entry j n s s' m2 e2 Hk H2) as (f2 & Hf2 & _ & [(_ & ? & _)|[_ ->]]); [congruence|].
      by eapply (inv_uniq0 m1 m2).
    + intros m e' k w He' Hw Hp Hv Hpp Hvv.
      destruct (kallocated_entry j n s s' m e' Hk He') as (e & He & _ & [(_ & ? & _)|[_ ->]]); [done|].
      by eapply (inv_excl0 m e k w).
    + intros m c Hc Hu. eapply (time_le_trans _ (gettime (clock s))).
      * destruct (decide (Z.of_nat j <= Z.of_nat m < Z.of_nat j + n)) as [Hm|Hm].
        { destruct (ka_in _ _ _ _ Hk m Hm) as [t Ht]. rewrite Ht in Hc. injection Hc as <-. by destruct Hu. }
        rewrite (ka_out _ _ _ _ Hk m Hm) in Hc. by eapply inv_stamped0.
      * apply gettime_mono, (ka_clock _ _ _ _ Hk).
  - intros m e' c' He' Hc' Hkc. destruct (kallocated_entry j n s s' m e' Hk He') as
      (e & He & _ & [(Hm & _ & ->)|[Hm ->]]); [done|].
    rewrite (ka_out _ _ _ _ Hk m Hm) in Hc'. by eapply Hka.
  - intros q u data Hq. unfold holds, swapped, resident. rewrite E1, E2, E3.
    enough ((exists i e, page_table s' !! i = Some e /\ pid e = q /\ vaddr e = u /\ ram s !! paddr e = Some data) <->
      (exists i e, page_table s !! i = Some e /\ pid e = q /\ vaddr e = u /\ ram s !! paddr e = Some data)) as ->; [done|].
    split; intros (m & e & He & Hp & Hv & Hd).
    + destruct (kallocated_entry j n s s' m e Hk He) as (e0 & He0 & _ & [(_ & ? & _)|[_ ->]]); [congruence|].
      by exists m, e0.
    + exists m, e. rewrite (ka_pt _ _ _ _ Hk), He. rewrite decide_False; [done|].
      intros Hm. pose proof (kallocated_free j n s m e Hinv Hfree He Hm). congruence.
Qed.

(** The kernel's page allocator.  [pt_alloc_kpages] returns 0 only when
    no [n] adjacent frames are free; otherwise it returns the direct-mapped
    address of such a run and takes exactly these frames, without touching a
    page of any process.  [pt_free_kpage] of that address gives exactly these
    frames back. *)
Theorem kpages_alloc_free n s :
  inv (0, 0) s -> kernel_addrs s -> held s = [] -> 1 <= n ->
  (pt_alloc_kpages 0 n s = Ok (0, s) /\ forall q, ~ free_run (coremap s) q n) \/
  exists j s1 s2, free_run (coremap s) (Z.of_nat j) n /\
    pt_alloc_kpages 0 n s = Ok (frame j + 2147483648, s1) /\ inv (0, 0) s1 /\ kernel_addrs s1 /\
    (forall q u data, q <> 0 -> holds s1 q u data <-> holds s q u data) /\
    (forall m c, Z.of_nat j <= Z.of_nat m < Z.of_nat j + n -> coremap s1 !! m = Some c ->
       in_use c = 1 /\ is_kernel c = 1) /\
    pt_free_kpage (frame j + 2147483648) s1 = Ok (tt, s2) /\ inv (0, 0) s2 /\
    forall m, if decide (Z.of_nat j <= Z.of_nat m < Z.of_nat j + n)
      then exists c, coremap s2 !! m = Some c /\ is_free c
      else coremap s2 !! m = coremap s !! m.
Proof using Hlo CKL.
  intros Hinv Hka Hh Hn.
  destruct (pt_alloc_kpages_run n s Hinv Hh Hn) as [(j & s1 & Hfree & Hrun & Hk)|H0]; [right|by left].
  destruct (kallocated_inv j n s s1 Hinv Hka Hfree Hk) as (Hinv1 & Hka1 & Hh1).
  pose proof Hfree as [_ Hfree']. destruct (Hfree' (Z.of_nat j)) as (c0 & Hc0 & _); [lia|].
  destruct (Hfree' (Z.of_nat j + n - 1)) as (c1 & Hc1 & _); [lia|]. apply lookup_lt_Some in Hc1.
  rewrite Nat2Z.id in Hc0. destruct (inv_entry _ _ s _ c0 Hinv Hc0) as (e0 & He0 & _).
  pose proof (ka_pt _ _ _ _ Hk j) as Hj. rewrite He0, decide_True in Hj by lia.
  destruct (ka_in _ _ _ _ Hk j) as [t Ht]; [lia|].
  pose proof (inv_len _ _ s1 Hinv1) as Hl1. pose proof (ka_len _ _ _ _ Hk) as Hl.
  destruct (release_run_ok (Z.to_nat n) j s1) as (s2 & Hrel & Hr); [lia|done|].
  exists j, s1, s2. do 5 (split; [done|]). split_and!.
  - intros m c Hm Hc. destruct (ka_in _ _ _ _ Hk m Hm) as [t' Ht']. rewrite Ht' in Hc. by injection Hc as <-.
  - unfold pt_free_kpage. mrun. rewrite <- Hrel.
    rewrite (free_kpage_loop_ok _ j _ _ _ 0%nat s1 eq_refl Hl1 ltac:(lia) Hj Ht); try done.
    + cbn [npages]. by rewrite Z.sub_diag, Z.sub_0_r.
    + intros m f d Hm Hf Hd Hkd. rewrite (Hka1 m f d Hf Hd Hkd). unfold Paging.frame. lia.
  - by eapply released_inv.
  - intros m. destruct Hr as (_ & Hcm & _). rewrite Hcm, (ka_pt _ _ _ _ Hk). destruct (decide _) as [Hm|Hm].
    + destruct (ka_in _ _ _ _ Hk m Hm) as [t' ->].
      destruct (lookup_lt_is_Some_2 (page_table s) m) as [e ->]; [rewrite <- (inv_len _ _ s Hinv); lia|].
      rewrite bool_decide_true by lia. by eexists.
    + rewrite (ka_out _ _ _ _ Hk m Hm). destruct (page_table s !! m), (coremap s !! m); try done.
      by rewrite bool_decide_false by lia.
Qed.

(** ** Fork *)

Definition nfree (l : list coremap_entry) : nat := length (filter (fun c => in_use c = 0) l).

(** The entries of process [cur]. *)
Definition nowned (cur : Z) (l : list page_table_entry) : nat :=
  length (filter (fun e => pid e = cur) l).

Lemma nfree_claim l i c c' :
  l !! i = Some c -> in_use c = 0 -> in_use c' <> 0 -> nfree l = S (nfree (<[i := c']> l)).
Proof.
  unfold nfree. revert i. induction l as [|x l IH]; intros [|i] Hi Hc Hc'; try done; simpl in Hi.
  - injection Hi as ->. change (<[0%nat := c']> (c :: l)) with (c' :: l).
    by rewrite filter_cons_True, filter_cons_False.
  - change (<[S i := c']> (x :: l)) with (x :: <[i := c']> l).
    destruct (decide (in_use x = 0)).
    + rewrite !filter_cons_True by done. cbn [length]. f_equal. by apply IH.
    + rewrite !filter_cons_False by done. by apply IH.
Qed.

Lemma nfree_pos l : (0 < nfree l)%nat -> exists i c, l !! i = Some c /\ is_free c.
Proof.
  unfold nfree. intros Hn. destruct (filter _ l) as [|c r] eqn:E; [cbn in Hn; lia|].
  assert (c ∈ filter (fun c => in_use c = 0) l) as Hc by (rewrite E; left).
  apply list_elem_of_filter in Hc as [Hf Hin]. apply list_elem_of_lookup_1 in Hin as [i Hi]. by exists i, c.
Qed.

Lemma nowned_drop cur l i e :
  l !! i = Some e ->
  nowned cur (drop i l) = ((if decide (pid e = cur) then 1 else 0) + nowned cur (drop (S i) l))%nat.
Proof.
  intros He. unfold nowned. rewrite (drop_S l e i He).
  destruct (decide (pid e = cur)); [by rewrite filter_cons_True|by rewrite filter_cons_False].
Qed.

(** The state [t] of the loop of [pt_copymem] before round [i], from [s]. *)
Record copying (cur p : Z) (s t : vm) (i : nat) : Prop := mk_copying {
  cp_inv : inv (0, 0) t;
  cp_keep j e : page_table s !! j = Some e -> pid e <> 0 ->
    page_table t !! j = Some e /\ ram t !! paddr e = ram s !! paddr e;
  cp_new j e : page_table t !! j = Some e -> pid e <> 0 -> pid e <> p -> page_table s !! j = Some e;
  cp_child v : in_memory t p v ->
    exists j e, (j < i)%nat /\ page_table s !! j = Some e /\ pid e = cur /\ vaddr e = v;
  cp_done j e data : (j < i)%nat -> page_table s !! j = Some e -> pid e = cur ->
    ram s !! paddr e = Some data -> resident t p (vaddr e) data;
  cp_swap : swap_array t = swap_array s /\ swap_file t = swap_file s;
  cp_free : (nowned cur (drop i (page_table s)) <= nfree (coremap t))%nat;
  cp_held : held t = held s;
  cp_len : length (page_table t) = length (page_table s);
}.

Section Fork.
Context (cur p : Z) (s : vm).
Context (Hcur : cur <> 0) (Hp : p <> 0) (Hne : cur <> p)
  (Hinv : inv (0, 0) s)
  (Hslots : forall k w, swap_array s !! k = Some w -> sw_pid w <> p).

(** A round that finds no page of the parent. *)
Lemma copying_skip t i e :
  copying cur p s t i -> page_table t !! i = Some e -> pid e <> cur -> copying cur p s t (S i).
Proof using Hcur.
  intros Hc He Hpe. pose proof Hc as [].
  assert (exists e0, page_table s !! i = Some e0 /\ pid e0 <> cur) as (e0 & He0 & Hpe0).
  { destruct (lookup_lt_is_Some_2 (page_table s) i) as [e0 He0].
    { rewrite <- cp_len0. by eapply lookup_lt_Some. }
    exists e0. split; [done|]. intros Heq. destruct (cp_keep0 i e0 He0) as [Hk _]; [congruence|]. congruence. }
  constructor; try done.
  - intros v Hv. destruct (cp_child0 v Hv) as (j & f & Hj & Hf). exists j, f. split; [lia|done].
  - intros j f data Hj Hf Hpf Hd. destruct (decide (j = i)) as [->|]; [congruence|].
    eapply cp_done0; try done. lia.
  - rewrite (nowned_drop cur _ i e0 He0), decide_False in cp_free0 by done. lia.
Qed.

(** The state after a page of the parent was copied into frame [k]. *)
Definition copied_page (k : nat) (e : page_table_entry) (data : page) (t : vm) : vm :=
  let t1 := claim lo k p (vaddr e) (writeable e) (dirty e) (gettime (clock t))
    (misc (stats_counts t) (tlb t) (m_next_victim t) (k_in_data t) (k_out_data t) (S (clock t)) t) in
  set_ram (<[frame k := data]> (ram t1)) t1.

Lemma copying_step t i e k c data :
  copying cur p s t i -> page_table t !! i = Some e -> pid e = cur ->
  coremap t !! k = Some c -> is_free c -> ram t !! paddr e = Some data ->
  copying cur p s (copied_page k e data t) (S i).
Proof using Hcur Hp Hne Hinv Hslots CKL.
  intros Hc He Hpe Hk Hf Hd. pose proof Hc as [].
  assert (page_table s !! i = Some e) as Hes by (apply cp_new0; congruence).
  assert (~ is_user c) as Hnu by (unfold is_user, is_free in *; lia).
  destruct (inv_core _ _ s i e Hinv Hes) as [ci Hci].
  assert (user_va (vaddr e)) as Hva by (apply (inv_user _ _ s Hinv i e ci Hes Hci); congruence).
  assert (~ in_memory t p (vaddr e)) as Hni.
  { intros Hm. destruct (cp_child0 _ Hm) as (j & f & Hj & Hfj & Hpf & Hvf).
    assert (j = i) by (apply (inv_uniq _ _ s Hinv j i f e); congruence). lia. }
  destruct (inv_entry _ _ t k c cp_inv0 Hk) as (ek & Hek & Hpak).
  assert (pid ek = 0) as Hek0.
  { destruct (decide (pid ek = 0)); [done|]. destruct Hnu. by apply (inv_user _ _ t cp_inv0 k ek c). }
  set (t1 := claim lo k p (vaddr e) (writeable e) (dirty e) (gettime (clock t))
    (misc (stats_counts t) (tlb t) (m_next_victim t) (k_in_data t) (k_out_data t) (S (clock t)) t)).
  assert (inv (0, 0) t1) as Hinv1.
  { apply (claim_inv _ _ k c); try done; [by apply inv_tick| |apply gettime_mono; cbn; lia].
    intros j w Hw Hpw. cbn in Hw. destruct cp_swap0 as [E _]. rewrite E in Hw. by destruct (Hslots j w Hw). }
  assert (page_table t1 !! k = Some (mk_pte (vaddr e) (frame k) p 1 (writeable e) (dirty e))) as Hk1.
  { cbn. apply list_lookup_insert_eq. by eapply lookup_lt_Some. }
  destruct (ram_write_inv _ _ k _ data t1 Hinv1 Hk1) as (Hinv2 & Hres & Hoth).
  cbn [paddr pid vaddr] in Hinv2, Hres, Hoth. unfold copied_page. fold t1.
  assert (forall j f, page_table s !! j = Some f -> pid f <> 0 -> j <> k) as Hjk.
  { intros j f Hj Hpf ->. destruct (cp_keep0 k f Hj Hpf) as [Hj' _]. congruence. }
  constructor.
  - exact Hinv2.
  - intros j f Hj Hpf. destruct (cp_keep0 j f Hj Hpf) as [Hj' Hr]. cbn.
    rewrite list_lookup_insert_ne by (intros ->; by eapply Hjk). split; [done|].
    rewrite lookup_insert_ne; [done|]. destruct (inv_frame _ _ s Hinv j f Hj) as (-> & _).
    intros Heq. apply frame_inj in Heq. by eapply Hjk.
  - intros j f Hj Hpf Hpp. cbn in Hj. apply list_lookup_insert_Some in Hj as [(-> & <- & _)|[_ Hj]]; [done|].
    by apply cp_new0.
  - intros v (j & f & Hj & Hpf & Hvf). cbn in Hj.
    apply list_lookup_insert_Some in Hj as [(-> & <- & _)|[_ Hj]].
    + exists i, e. cbn in Hvf. split_and!; try done. lia.
    + destruct (cp_child0 v) as (j' & f' & Hj' & Hf'); [by exists j, f|]. exists j', f'. split; [lia|done].
  - intros j f data' Hj Hfj Hpf Hdj. destruct (decide (j = i)) as [->|Hji].
    + assert (f = e) as -> by congruence. destruct (cp_keep0 i e Hes) as [_ Hr]; [congruence|].
      assert (data' = data) as -> by congruence. apply Hres. done.
    + destruct (decide (vaddr f = vaddr e)) as [Hvv|Hvv].
      { assert (j = i) by (apply (inv_uniq _ _ s Hinv j i f e); congruence). done. }
      apply Hoth; [done|congruence|]. destruct (cp_done0 j f data') as (m & g & Hm & Hpg & Hvg & Hdg); try done; [lia|].
      exists m, g. cbn. rewrite list_lookup_insert_ne; [done|]. intros ->. congruence.
  - done.
  - set (c' := mk_cme 1 0 (fst (gettime (clock t))) (snd (gettime (clock t)))).
    change (nowned cur (drop (S i) (page_table s)) <= nfree (<[k := c']> (coremap t)))%nat.
    rewrite (nowned_drop cur _ i e Hes), decide_True in cp_free0 by done.
    rewrite (nfree_claim (coremap t) k c c') in cp_free0 by done. lia.
  - done.
  - cbn. by rewrite length_insert.
Qed.
Lemma copymem_loop_ok n : forall i t,
  (i + n = length (page_table s))%nat -> coremap_mutex ∉ held s -> copying cur p s t i ->
  exists t', copymem_loop n (Z.of_nat i) cur p t = Ok (0, t') /\
    copying cur p s t' (length (page_table s)).
Proof using Hcur Hp Hne Hinv Hslots CKL Hlo.
  induction n as [|n IH]; intros i t Hn Hh Hc; cbn [copymem_loop].
  { exists t. split; [done|]. by replace (length (page_table s)) with i by lia. }
  destruct (lookup_lt_is_Some_2 (page_table t) i) as [e He]; [rewrite (cp_len _ _ _ _ _ Hc); lia|].
  rewrite run_bind, (pt_rd_run _ e) by (rewrite ?Nat2Z.id; done || lia). mrun.
  replace (Z.of_nat i + 1) with (Z.of_nat (S i)) by lia.
  destruct (Z.eqb_spec (pid e) cur) as [Hpe|Hpe].
  2: { apply IH; [lia|done|]. by eapply copying_skip. }
  pose proof Hc as []. assert (page_table s !! i = Some e) as Hes by (apply cp_new0; congruence).
  rewrite (nowned_drop cur _ i e Hes), decide_True in cp_free0 by done.
  destruct (nfree_pos (coremap t)) as (k0 & c0 & Hk0 & Hf0); [lia|].
  destruct (get_free_page_run t) as [(k & c & Hk & Hf & _ & Hrun)|[_ Hno]];
    [by rewrite cp_held0| |by destruct (Hno k0 c0 Hk0)].
  destruct (inv_frame _ _ t cp_inv0 i e He) as (Hpa & _ & [data Hd]).
  rewrite run_bind, (alloc_free_run _ _ p _ _ _ t k c cp_inv0 Hk Hrun), Ok_bind.
  rewrite (proj2 (Z.eqb_neq (frame k) 0)) by (by apply frame_pos).
  destruct (inv_entry _ _ t k c cp_inv0 Hk) as (ek & Hek & Hpak).
  assert (i <> k) as Hik.
  { intros <-. assert (ek = e) as -> by congruence. destruct (inv_core _ _ t i e cp_inv0 He) as [ci Hci].
    assert (is_user ci) as [Hu _] by (apply (inv_user _ _ t cp_inv0 i e ci He Hci); congruence).
    assert (c = ci) as -> by congruence. unfold is_free in Hf. lia. }
  set (t1 := claim _ _ _ _ _ _ _ _).
  assert (page_table t1 !! i = Some e) as He1 by (cbn; by rewrite list_lookup_insert_ne).
  rewrite run_bind, (pt_rd_run _ e) by (rewrite ?Nat2Z.id; done || lia). mrun.
  unfold ram_rd, ram_wr. mrun. change (ram t1) with (ram t). rewrite Hpa, Hd. mrun.
  change (ram t1) with (ram t). destruct (inv_frame _ _ t cp_inv0 k ek Hek) as (_ & _ & [old ->]). mrun.
  destruct (IH (S i) (copied_page k e data t)) as (t' & Hrun' & Hc'); [lia|done| |].
  { eapply copying_step; try done. by rewrite Hpa. }
  exists t'. split; [|done]. rewrite <- Hrun'. reflexivity.
Qed.
End Fork.

(** C30. Fork copies memory.  When there are at least as many free frames as the
    parent has pages in memory, [pt_copymem] succeeds, the child has in memory exactly the pages the parent has there,
    with the same contents, and no page of any other process (or of the
    parent) changes.  Pages of the parent that are in the swap file are not
    copied: the child has nothing at their addresses. *)
Theorem pt_copymem_copies_resident cur p s :
  inv (0, 0) s -> held s = [] -> cur <> 0 -> p <> 0 -> cur <> p ->
  (forall v, ~ in_memory s p v) -> (forall k w, swap_array s !! k = Some w -> sw_pid w <> p) ->
  (nowned cur (page_table s) <= nfree (coremap s))%nat ->
  exists s', pt_copymem cur p s = Ok (0, s') /\ inv (0, 0) s' /\ held s' = [] /\
    (forall v data, resident s' p v data <-> resident s cur v data) /\
    (forall q u data, q <> 0 -> q <> p -> holds s' q u data <-> holds s q u data) /\
    (forall v data, v <> 0 -> swapped s cur v data -> forall data', ~ holds s' p v data').
Proof using CKL Hlo.
  intros Hinv Hh Hcur Hp Hne Hchild Hslots Hroom. unfold pt_copymem.
  rewrite run_bind, run_acquire by (rewrite Hh; apply not_elem_of_nil). rewrite Ok_bind. mrun.
  set (s1 := set_held (pt_mutex :: held s) s).
  assert (inv (0, 0) s1) as Hinv1 by (by destruct Hinv; constructor).
  destruct (copymem_loop_ok cur p s1 Hcur Hp Hne Hinv1 Hslots (length (page_table s)) 0 s1) as (t & Hrun & Hc).
  { done. }
  { cbn. rewrite Hh, list_elem_of_singleton. done. }
  { constructor; try done.
    - intros v Hv. by destruct (Hchild v).
    - intros j e data Hj. lia. }
  change (Z.of_nat 0) with 0 in Hrun. rewrite Hrun. mrun. pose proof Hc as [].
  rewrite (run_release _ _ (held s)) by (done || by rewrite Hh; apply not_elem_of_nil). mrun.
  destruct cp_swap0 as [Esw Ef].
  assert (forall v data, resident t p v data <-> resident s cur v data) as Hres.
  { intros v data. split.
    - intros (j & e & He & Hpe & Hve & Hd). destruct (cp_child0 v) as (m & f & Hm & Hf & Hpf & Hvf); [by exists j, e|].
      destruct (inv_frame _ _ s Hinv m f Hf) as (Hpaf & _ & [d0 Hd0]). rewrite <- Hpaf in Hd0.
      destruct (cp_done0 m f d0 Hm Hf Hpf Hd0) as (j' & e' & He' & Hpe' & Hve' & Hd').
      assert (j = j') as <- by (apply (inv_uniq _ _ t cp_inv0 j j' e e'); congruence).
      exists m, f. split_and!; try done. congruence.
    - intros (j & e & He & Hpe & <- & Hd). eapply cp_done0; try done. by eapply lookup_lt_Some. }
  eexists. split; [done|]. split; [by destruct cp_inv0; constructor|]. split; [done|]. split; [exact Hres|]. split.
  - intros q u data Hq Hqp. unfold holds.
    assert (swapped t q u data <-> swapped s q u data) as Hsw by (unfold swapped; by rewrite Esw, Ef).
    assert (resident t q u data <-> resident s q u data) as Hr; [|change (resident t q u data \/ swapped t q u data <-> holds s q u data); by rewrite Hr, Hsw].
    split; intros (j & e & He & Hpe & Hve & Hd).
    + assert (page_table s !! j = Some e) as Hes by (apply cp_new0; congruence).
      destruct (cp_keep0 j e Hes) as [_ Hr]; [congruence|]. change (ram s1) with (ram s) in Hr.
      exists j, e. split_and!; try done. congruence.
    + destruct (cp_keep0 j e He) as [He' Hr]; [congruence|]. change (ram s1) with (ram s) in Hr.
      exists j, e. split_and!; try done. congruence.
  - intros v data Hv (k & w & Hk & Hpw & Hvw & _) data' [Hr|(k' & w' & Hk' & Hpw' & _)].
    + apply Hres in Hr as (j & e & He & Hpe & Hve & _).
      pose proof (inv_excl _ _ s Hinv j e k w He Hk ltac:(congruence) ltac:(congruence) ltac:(congruence) ltac:(congruence)).
      congruence.
    + change (swap_array t !! k' = Some w') in Hk'. rewrite Esw in Hk'. by destruct (Hslots k' w' Hk').
Qed.

End Ops.

(** ** Witnesses *)

Lemma demo_kernel_addrs free : kernel_addrs 4096 (demo free).
Proof.
  destruct free; intros [|[|[|[]]]] e c He Hc Hk; try discriminate He;
    injection He as <-; injection Hc as <-; try reflexivity; by destruct Hk.
Qed.

Lemma pt_free_pages_releases_witness :
  exists s', pt_free_pages 3 (demo false) = Ok (tt, s') /\
    holds (SD := disk 0) s' 2 4194304 (fill 11) /\ swapped (SD := disk 0) s' 3 8192 (fill 77).
Proof.
  destruct (pt_free_pages_releases (SD := disk 0) (CK := demo_clock) 4096 3 (demo false) (demo_inv 0 false))
    as (s' & Hrun & _ & _ & _ & Hh & Hsw); [lia|].
  exists s'. split; [exact Hrun|]. split.
  - apply Hh; [lia|lia|apply demo_resident].
  - apply Hsw, demo_swapped.
Defined.

Lemma kpages_alloc_free_witness :
  exists s1 s2, pt_alloc_kpages (H0 := demo_clock) 0 1 (demo true) = Ok (2147495936, s1) /\
    pt_free_kpage 2147495936 s1 = Ok (tt, s2) /\
    exists c, coremap s2 !! 2%nat = Some c /\ is_free c.
Proof.
  destruct (kpages_alloc_free (SD := disk 0) (CKL := demo_clock_laws) 4096 demo_lo 1 (demo true)
    (demo_inv 0 true) (demo_kernel_addrs true) eq_refl) as
    [[Hrun _]|(j & s1 & s2 & Hfree & Hrun & _ & _ & _ & _ & Hrun2 & _ & Hcm)]; [lia|discriminate Hrun|].
  assert (j = 2%nat) as ->.
  { destruct Hfree as [_ Hfree]. destruct (Hfree (Z.of_nat j)) as (c & Hc & Hf); [lia|].
    rewrite Nat2Z.id in Hc. destruct j as [|[|[|[]]]]; try discriminate Hc; try reflexivity;
      injection Hc as <-; discriminate Hf. }
  exists s1, s2. split; [exact Hrun|]. split; [exact Hrun2|]. exact (Hcm 2%nat).
Defined.

Lemma pt_copymem_copies_resident_witness :
  exists s', pt_copymem (H := disk 0) (H0 := demo_clock) 2 5 (demo true) = Ok (0, s') /\
    resident s' 5 4194304 (fill 11) /\ holds (SD := disk 0) s' 3 8192 (fill 77).
Proof.
  destruct (pt_copymem_copies_resident (SD := disk 0) (CKL := demo_clock_laws) 4096 demo_lo 2 5 (demo true)
    (demo_inv 0 true) eq_refl) as (s' & Hrun & Hinv & _ & Hres & Hh & _); [lia|lia|lia|..].
  - intros v ([|[|[|[]]]] & e & He & Hp & _); try discriminate He; injection He as <-; discriminate Hp.
  - intros [|k] w Hw; [by injection Hw as <-|]. by apply no_swap_lookup in Hw as ->.
  - apply Nat.leb_le. reflexivity.
  - exists s'. split; [exact Hrun|]. split.
    + apply Hres. exists 0%nat, (mk_pte 4194304 4096 2 1 1 0). split_and!; reflexivity.
    + apply Hh; [lia|lia|right; apply demo_swapped].
Defined.

End PagingOps.
