(* ===== verification/Tlb.v ===== *)
(** * The TLB and the page table: kern/vm/vm_tlb.c

    [check_as], [tlb_write], [tlb_update], [tlb_set_read_only], and the
    coherence of the TLB with the page table. *)

From S2P Require Import Prelude VmState Coremap Swap TlbHw PageTable Paging.
Import Vm Coremap Swap TlbHw PageTable Paging.

Module Tlb.

(** kern/include/segments.h *)
Record segdef : Type := mk_segdef {
  sd_vbase : Z;
  sd_segsz : Z;
  sd_npage : Z;
  sd_flags : Z;
  sd_offset : Z;
}.

Section Tlb.
Context {file page : Type} {SD : SwapDev file page} {CK : Clock}.
Local Abbreviation M := (M file page).
Local Abbreviation vm := (vm file page).

Definition check_as (as_null : bool) : Z := if as_null then EFAULT else 0.

(** [as_null] says whether [curthread->t_vmspace] is NULL, [t_pid] is
    [curthread->t_pid]; the slot is handed back for [storeloc]. *)
Definition tlb_write (as_null : bool) (t_pid faultaddress writeable : Z) : M (Z * option Z) :=
  let result := check_as as_null in
  if negb (result =? 0) then mret (result, None)
  else
    pa ← pt_get_paddr t_pid faultaddress;
    _ ← fail (c_assert (Z.land pa PAGE_FRAME =? pa));
    s ← get;
    let i := first_index (fun e => negb (valid e)) 0 (tlb s) in
    i ← (if i =? -1 then
           v ← tlb_get_rr_victim; vmstats_inc 2;; mret v
         else vmstats_inc 1;; mret i);
    TLB_Write faultaddress (Z.lor (Z.lor pa writeable) TLBLO_VALID) i;;
    vmstats_inc 0;;
    mret (0, Some i).

(** [for (i=0; i<NUM_TLB; i++)] of [tlb_update], [n] rounds left. *)
Fixpoint update_loop (n : nat) (i faultaddress elo : Z) : M unit :=
  match n with
  | O => mret tt
  | S n' =>
      e ← TLB_Read i;
      (if valid e && (fst e =? faultaddress) then TLB_Write faultaddress elo i else mret tt);;
      update_loop n' (i + 1) faultaddress elo
  end.

Definition tlb_update (t_pid faultaddress writeable : Z) : M unit :=
  pa ← pt_get_paddr t_pid faultaddress;
  update_loop (Z.to_nat NUM_TLB) 0 faultaddress (Z.lor (Z.lor pa writeable) TLBLO_VALID).

Definition tlb_set_read_only (sd : segdef) (storeloc : Z) : M Z :=
  '(ehi, elo) ← TLB_Read storeloc;
  if negb (Z.land elo TLBLO_VALID =? 0) && ((ehi >=? sd_vbase sd) && (ehi <? u32 (sd_vbase sd + sd_segsz sd)))
  then TLB_Write ehi (Z.land elo (Z.lnot TLBLO_DIRTY)) storeloc;; mret 0
  else mret EFAULT.

(** ** The words of an entry *)

Definition target (elo : Z) : Z := Z.land elo PAGE_FRAME.
Definition writable_entry (elo : Z) : bool := negb (Z.land elo TLBLO_DIRTY =? 0).

(** The page that a valid entry translates is the page of process [p] in the
    frame the page table says. *)
Definition coherent (p : Z) (s : vm) : Prop :=
  forall i t, tlb s !! i = Some t -> valid t = true ->
    exists j e, page_table s !! j = Some e /\ pid e = p /\ vaddr e = fst t /\
      paddr e = target (snd t).

(** An entry made of a frame address and the two permission bits. *)
Lemma entry_words pa w :
  Z.land pa PAGE_FRAME = pa -> w = 0 \/ w = TLBLO_DIRTY ->
  target (Z.lor (Z.lor pa w) TLBLO_VALID) = pa /\
  Z.land (Z.lor (Z.lor pa w) TLBLO_VALID) TLBLO_VALID = TLBLO_VALID /\
  writable_entry (Z.lor (Z.lor pa w) TLBLO_VALID) = negb (w =? 0).
Proof.
  intros Hpa Hw.
  assert (forall b, b = TLBLO_VALID \/ b = TLBLO_DIRTY -> Z.land pa b = 0) as Hlow.
  { intros b Hb. rewrite <- Hpa, <- Z.land_assoc.
    replace (Z.land PAGE_FRAME b) with 0; [apply Z.land_0_r|]. by destruct Hb as [-> | ->]. }
  unfold target, writable_entry. rewrite !Z.land_lor_distr_l, Hpa.
  rewrite !Hlow by auto. destruct Hw as [-> | ->]; cbn; by rewrite ?Z.lor_0_r.
Qed.

(** ** Runs *)

Lemma covers_spec p v e :
  0 <= vaddr e < 2147483648 -> vaddr e mod 4096 = 0 -> v mod 4096 = 0 ->
  covers p v e = true <-> pid e = p /\ vaddr e = v.
Proof.
  intros Hb He Hv. unfold covers, PAGE_SIZE. rewrite u32_id by (unfold u32_mod; lia).
  rewrite !andb_true_iff, Z.eqb_eq, Z.geb_le, Z.ltb_lt. Z.to_euclidean_division_equations; lia.
Qed.

Context (lo : Z) (Hlo : 0 < lo /\ lo mod 4096 = 0).
Local Abbreviation inv := (inv lo).
Local Abbreviation frame := (frame lo).

Lemma search_covers p v s x :
  inv x s -> p <> 0 -> v mod 4096 = 0 ->
  (exists j e, first_index (covers p v) 0 (page_table s) = Z.of_nat j /\
     page_table s !! j = Some e /\ pid e = p /\ vaddr e = v) \/
  (first_index (covers p v) 0 (page_table s) = -1 /\ ~ in_memory s p v).
Proof.
  intros Hinv Hp Hv.
  assert (forall j e, page_table s !! j = Some e -> pid e = p ->
    0 <= vaddr e < 2147483648 /\ vaddr e mod 4096 = 0) as Hu.
  { intros j e He Hpe. destruct (inv_core _ _ s j e Hinv He) as [c Hc].
    destruct (inv_user _ _ s Hinv j e c He Hc) as [_ Hva]. destruct Hva; [congruence|]. split; [lia|done]. }
  destruct (first_index_spec (covers p v) 0 (page_table s)) as [[-> Hn]|(j & e & -> & He & Hc & _)]; [lia| |].
  - right. split; [done|]. intros (j & e & He & Hpe & Hve).
    destruct (Hu j e He Hpe) as [H1 H2]. assert (covers p v e = false) as Hf.
    { apply Hn. by eapply list_elem_of_lookup_2. }
    rewrite (proj2 (covers_spec p v e H1 H2 Hv)) in Hf; done.
  - left. exists j, e. split; [lia|]. split; [done|].
    assert (pid e = p) as Hpe. { unfold covers in Hc. apply andb_true_iff in Hc as [Hc _]. lia. }
    destruct (Hu j e He Hpe) as [H1 H2]. by apply (covers_spec p v e H1 H2 Hv).
Qed.

Lemma pt_get_paddr_run p v s x :
  inv x s -> pt_mutex ∉ held s -> p <> 0 -> v mod 4096 = 0 ->
  (exists j e, page_table s !! j = Some e /\ pid e = p /\ vaddr e = v /\
     pt_get_paddr p v s = Ok (frame j, s)) \/
  (~ in_memory s p v /\ pt_get_paddr p v s = Ok (0, s)).
Proof.
  intros Hinv Hh Hp Hv. unfold pt_get_paddr. rewrite run_bind, run_acquire by done. mrun.
  destruct (search_covers p v s x Hinv Hp Hv) as [(j & e & -> & He & Hpe & Hve)|[-> Hn]].
  - left. exists j, e. split_and!; try done. rewrite (proj2 (Z.eqb_neq (Z.of_nat j) (-1))) by lia.
    mrun. rewrite (pt_rd_run _ e) by (rewrite ?Nat2Z.id; done || lia). mrun.
    rewrite (run_release _ _ (held s)) by done. mrun.
    destruct (inv_frame _ _ s Hinv j e He) as (-> & _). by destruct s.
  - right. split; [done|]. change (-1 =? -1) with true. mrun.
    rewrite (run_release _ _ (held s)) by done. mrun. by destruct s.
Qed.

(** What a function that only works on the TLB and the counters keeps. *)
Definition same_tables (s s' : vm) : Prop :=
  exists l n st, s' = set_stats st (set_tlb l n s) /\ zlen l = NUM_TLB /\ zlen st = VMSTAT_COUNT.

Lemma same_tables_inv x s s' : inv x s -> same_tables s s' -> inv x s'.
Proof. intros Hinv (l & n & st & -> & Hl & Hst). destruct Hinv. by constructor. Qed.

(** No address is translated by two entries. *)
Definition no_dup (s : vm) : Prop :=
  forall i j t u, tlb s !! i = Some t -> tlb s !! j = Some u -> valid t = true -> valid u = true ->
    fst t = fst u -> i = j.

(** The address misses. *)
Definition misses (v : Z) (s : vm) : Prop :=
  forall i t, tlb s !! i = Some t -> valid t = true -> fst t <> v.

Definition victim_ok (s : vm) : Prop := 0 <= m_next_victim s < NUM_TLB.

(** "TLB Faults" equals "with Free" plus "with Replace" (32-bit counters). *)
Definition balanced (s : vm) : Prop :=
  exists a b c, stats_counts s !! 0%nat = Some a /\ stats_counts s !! 1%nat = Some b /\
    stats_counts s !! 2%nat = Some c /\ a = u32 (b + c).

(** The slot [tlb_write] uses, and the next victim after it. *)
Lemma tlb_slot_run s :
  zlen (tlb s) = NUM_TLB -> zlen (stats_counts s) = VMSTAT_COUNT -> victim_ok s ->
  let i := first_index (fun e => negb (valid e)) 0 (tlb s) in
  exists slot n k m, (k = 1 \/ k = 2) /\ stats_counts s !! Z.to_nat k = Some m /\
    (if i =? -1 then v ← tlb_get_rr_victim; vmstats_inc 2;; mret v else vmstats_inc 1;; mret i) s =
      Ok (slot, set_stats (<[Z.to_nat k := u32 (m + 1)]> (stats_counts s)) (set_tlb (tlb s) n s)) /\
    0 <= slot < NUM_TLB /\ 0 <= n < NUM_TLB /\
    ((exists t, tlb s !! Z.to_nat slot = Some t /\ valid t = false) \/
     (slot = m_next_victim s /\ forall j t, tlb s !! j = Some t -> valid t = true)).
Proof.
  intros Hl Hst Hv i.
  destruct (first_index_spec (fun e => negb (valid e)) 0 (tlb s)) as [[Hi Hn]|(j & t & Hi & Hj & Ht & _)];
    [lia| |]; fold i in Hi.
  - rewrite Hi. change (-1 =? -1) with true. cbn iota. unfold tlb_get_rr_victim. mrun.
    destruct (vmstats_inc_run 2 (set_tlb (tlb s) ((m_next_victim s + 1) mod NUM_TLB) s)) as
      (st & -> & _ & m & Hm & ->); [done|done|]. mrun.
    exists (m_next_victim s), ((m_next_victim s + 1) mod NUM_TLB), 2, m.
    split; [by right|]. split; [exact Hm|]. split; [done|]. split; [apply Hv|].
    split; [by apply Z.mod_pos_bound|]. right. split; [done|]. intros k t Hk. apply list_elem_of_lookup_2, Hn in Hk.
    by apply negb_false_iff.
  - rewrite Hi, Z.add_0_l, (proj2 (Z.eqb_neq (Z.of_nat j) (-1))) by lia. mrun.
    destruct (vmstats_inc_run 1 s) as (st & -> & _ & m & Hm & ->); [done|done|]. mrun.
    apply negb_true_iff in Ht. pose proof (lookup_lt_Some _ _ _ Hj) as Hb.
    exists (Z.of_nat j), (m_next_victim s), 1, m. rewrite Nat2Z.id.
    split; [by left|]. split; [exact Hm|]. split; [by destruct s|]. split; [lia|].
    split; [apply Hv|]. left. by exists t.
Qed.

Lemma balanced_inc (l l1 : list Z) k m m0 :
  (k = 1 \/ k = 2) -> l !! Z.to_nat k = Some m ->
  l1 = <[Z.to_nat k := u32 (m + 1)]> l -> l1 !! 0%nat = Some m0 ->
  (exists a b c, l !! 0%nat = Some a /\ l !! 1%nat = Some b /\ l !! 2%nat = Some c /\ a = u32 (b + c)) ->
  exists a b c, <[0%nat := u32 (m0 + 1)]> l1 !! 0%nat = Some a /\
    <[0%nat := u32 (m0 + 1)]> l1 !! 1%nat = Some b /\ <[0%nat := u32 (m0 + 1)]> l1 !! 2%nat = Some c /\
    a = u32 (b + c).
Proof.
  intros Hk Hm -> Hm0 (a & b & c & Ha & Hb & Hc & He).
  pose proof (lookup_lt_Some _ _ _ Hc) as Hlen.
  rewrite list_lookup_insert_eq by (rewrite length_insert; lia).
  rewrite !(list_lookup_insert_ne _ 0) by done.
  destruct Hk as [-> | ->].
  - change (Z.to_nat 1) with 1%nat in *. rewrite list_lookup_insert_ne in Hm0 by done.
    rewrite list_lookup_insert_eq, list_lookup_insert_ne, Hc by (done || lia).
    do 3 eexists. split_and!; try done. simplify_eq. unfold u32, u32_mod. Z.to_euclidean_division_equations; lia.
  - change (Z.to_nat 2) with 2%nat in *. rewrite list_lookup_insert_ne in Hm0 by done.
    rewrite list_lookup_insert_eq, list_lookup_insert_ne, Hb by (done || lia).
    do 3 eexists. split_and!; try done. simplify_eq. unfold u32, u32_mod. Z.to_euclidean_division_equations; lia.
Qed.

Lemma tlb_write_ok p v w s x :
  inv x s -> pt_mutex ∉ held s -> victim_ok s -> p <> 0 -> user_va v -> in_memory s p v ->
  w = 0 \/ w = TLBLO_DIRTY ->
  exists i j s', tlb_write false p v w s = Ok ((0, Some i), s') /\ same_tables s s' /\ victim_ok s' /\
    0 <= i < NUM_TLB /\ tlb s' = <[Z.to_nat i := (v, Z.lor (Z.lor (frame j) w) TLBLO_VALID)]> (tlb s) /\
    (exists e, page_table s !! j = Some e /\ pid e = p /\ vaddr e = v /\ paddr e = frame j) /\
    Z.land (frame j) PAGE_FRAME = frame j /\
    ((exists t, tlb s !! Z.to_nat i = Some t /\ valid t = false) \/
     (i = m_next_victim s /\ forall k t, tlb s !! k = Some t -> valid t = true)) /\
    (balanced s -> balanced s').
Proof using Hlo.
  intros Hinv Hh Hvic Hp [Hv Hva] Hm Hw. unfold tlb_write. cbn [check_as Z.eqb negb]. rewrite run_bind.
  destruct (pt_get_paddr_run p v s x Hinv Hh Hp Hva) as [(j & e & He & Hpe & Hve & ->)|[Hn _]]; [|done].
  destruct (inv_frame _ _ s Hinv j e He) as (Hpa & Hfb & _).
  pose proof (frame_aligned lo Hlo j Hfb) as Hal. rewrite Ok_bind, Hal. mrun. rewrite Z.eqb_refl. mrun.
  pose proof (inv_tlb _ _ s Hinv) as Htl. pose proof (inv_stats _ _ s Hinv) as Hst.
  destruct (tlb_slot_run s Htl Hst Hvic) as (slot & n & k & m & Hk & Hm0 & -> & Hslot & Hn & Hfree).
  rewrite Ok_bind. set (st1 := <[Z.to_nat k := _]> _). mrun.
  rewrite TLB_Write_run by (cbn; lia). mrun. cbn [tlb set_stats set_tlb m_next_victim].
  set (s1 := set_tlb _ _ _).
  destruct (vmstats_inc_run 0 s1) as (st2 & -> & Hlen & m1 & Hm1 & ->); [done| |].
  { change (stats_counts s1) with st1. unfold st1. by rewrite length_insert. }
  mrun. exists slot, j. eexists. split; [done|]. split.
  { eexists (<[Z.to_nat slot := _]> (tlb s)), n, _. split; [unfold s1; by destruct s|].
    rewrite !length_insert. split; [done|]. unfold s1, st1. cbn [stats_counts set_tlb set_stats]. rewrite length_insert. exact Hst. }
  split; [done|]. split; [done|]. split; [done|]. split; [by exists e|]. split; [done|]. split; [done|].
  intros Hbal. eapply balanced_inc; [exact Hk|exact Hm0|reflexivity|exact Hm1|exact Hbal].
Qed.

Lemma install_coherent p v j w i s s' :
  coherent p s -> (exists e, page_table s !! j = Some e /\ pid e = p /\ vaddr e = v /\ paddr e = frame j) ->
  Z.land (frame j) PAGE_FRAME = frame j -> w = 0 \/ w = TLBLO_DIRTY -> page_table s' = page_table s ->
  tlb s' = <[i := (v, Z.lor (Z.lor (frame j) w) TLBLO_VALID)]> (tlb s) -> coherent p s'.
Proof.
  intros Hc (e & He & Hp & Hv & Hpa) Hal Hw Ept Et k t Hk Ht. rewrite Ept. rewrite Et in Hk.
  apply list_lookup_insert_Some in Hk as [(-> & <- & _)|[_ Hk]]; [|by eapply Hc].
  exists j, e. cbn. destruct (entry_words (frame j) w Hal Hw) as [-> _]. done.
Qed.

(** C31. [tlb_write] makes a page of the process accessible.  For a page that
    is in memory and misses in the TLB it stores a valid entry that translates
    the address to the page's frame, writable or not as asked, in a slot that
    was invalid, or, when all are valid, in the round-robin victim; the other
    entries stay.  The TLB stays coherent with the page table and free of
    duplicates, and the statistics keep "TLB Faults" = "with Free" + "with
    Replace". *)
Theorem tlb_write_installs p v w s :
  inv (0, 0) s -> held s = [] -> victim_ok s -> coherent p s -> no_dup s -> misses v s ->
  p <> 0 -> user_va v -> in_memory s p v -> w = 0 \/ w = TLBLO_DIRTY ->
  exists i elo s', tlb_write false p v w s = Ok ((0, Some i), s') /\
    tlb s' = <[Z.to_nat i := (v, elo)]> (tlb s) /\ tlb s' !! Z.to_nat i = Some (v, elo) /\
    valid (v, elo) = true /\ writable_entry elo = negb (w =? 0) /\
    (exists j e, page_table s' !! j = Some e /\ pid e = p /\ vaddr e = v /\ paddr e = target elo) /\
    ((exists t, tlb s !! Z.to_nat i = Some t /\ valid t = false) \/
     (i = m_next_victim s /\ forall k t, tlb s !! k = Some t -> valid t = true)) /\
    inv (0, 0) s' /\ victim_ok s' /\ coherent p s' /\ no_dup s' /\ (balanced s -> balanced s').
Proof using Hlo.
  intros Hinv Hh Hvic Hcoh Hnd Hmiss Hp Hv Hm Hw.
  destruct (tlb_write_ok p v w s (0, 0)) as (i & j & s' & Hrun & Hsame & Hvic' & Hi & Et & Hent & Hal & Hslot & Hbal);
    try done; [rewrite Hh; apply not_elem_of_nil|].
  assert (page_table s' = page_table s) as Ept by (by destruct Hsame as (l & n & st & -> & _)).
  destruct (entry_words (frame j) w Hal Hw) as (Htg & Hvalid & Hwr).
  exists i, (Z.lor (Z.lor (frame j) w) TLBLO_VALID), s'. split; [done|]. split; [done|].
  split.
  { rewrite Et. apply list_lookup_insert_eq. pose proof (inv_tlb _ _ s Hinv). lia. }
  split; [unfold valid; cbn; by rewrite Hvalid|]. split; [done|].
  split; [rewrite Ept, Htg; destruct Hent as (e & ?); by exists j, e|]. split; [done|].
  split; [by eapply same_tables_inv|]. split; [done|].
  split; [by eapply install_coherent|]. split; [|done].
  intros k1 k2 t1 t2 H1 H2 Hv1 Hv2 Heq. rewrite Et in H1, H2.
  apply list_lookup_insert_Some in H1 as [(<- & <- & _)|[Hn1 H1]];
    apply list_lookup_insert_Some in H2 as [(? & <- & _)|[Hn2 H2]]; try done.
  - by destruct (Hmiss k2 t2 H2 Hv2).
  - by destruct (Hmiss k1 t1 H1 Hv1).
  - by eapply (Hnd k1 k2 t1 t2).
Qed.

End Tlb.

(** ** Witness *)

Lemma demo_tlb free i t : tlb (demo free) !! i = Some t -> valid t = false.
Proof. intros Ht. apply (lookup_replicate 64) in Ht as [-> _]. reflexivity. Qed.

Lemma tlb_write_installs_witness :
  exists i elo s', tlb_write false 2 4194304 TLBLO_DIRTY (demo true) = Ok ((0, Some i), s') /\
    tlb s' !! Z.to_nat i = Some (4194304, elo) /\ writable_entry elo = true /\ coherent 2 s'.
Proof.
  destruct (tlb_write_installs (SD := disk 0) (CK := demo_clock) 4096 demo_lo 2 4194304 TLBLO_DIRTY (demo true)
    (demo_inv 0 true) eq_refl) as (i & elo & s' & Hrun & _ & He & _ & Hw & _ & _ & _ & _ & Hc & _).
  - unfold victim_ok, NUM_TLB. cbn. lia.
  - intros i t Hi Ht. by rewrite (demo_tlb true i t Hi) in Ht.
  - intros i j t u Hi _ Ht. by rewrite (demo_tlb true i t Hi) in Ht.
  - intros i t Hi Ht. by rewrite (demo_tlb true i t Hi) in Ht.
  - lia.
  - split; [lia|reflexivity].
  - exists 0%nat, (mk_pte 4194304 4096 2 1 1 0). split_and!; reflexivity.
  - right. reflexivity.
  - exists i, elo, s'. split; [exact Hrun|]. split; [exact He|]. split; [exact Hw|exact Hc].
Defined.

End Tlb.
