(* ===== verification/AddrSpace.v ===== *)
(** * Segments, address spaces and page faults: kern/vm/segments.c,
    kern/vm/addrspace.c, and [load_segment] of kern/userprog/loadelf.c

    A page of physical memory is here a list of 4096 bytes.  The executable is
    a vnode that is read through [elf_read]: [elf_read off n] is the result
    code of [VOP_READ] and the bytes it transferred, at most [n].  A pointer
    to a [struct addrspace] is its record; [as_segments] is the array of
    Array.v, with the segment descriptors for the pointers to them. *)

From S2P Require Import Prelude VmState Coremap Swap TlbHw PageTable Paging Tlb Array.
Import Vm Coremap Swap TlbHw PageTable Paging Tlb.

Module AddrSpace.

Definition VM_FAULT_READ : Z := 0.
Definition VM_FAULT_WRITE : Z := 1.
Definition VM_FAULT_READONLY : Z := 2.
Definition USERSTACK : Z := 2147483648.
Definition STACKPAGES : Z := 12.

Record addrspace : Type := mk_as {
  stackt : Z;
  stackb : Z;
  as_segments : option (Array.array segdef);
  as_elfbin : option Z;
}.

(** ** Segments *)

(** The result of [kmalloc] is not checked: a NULL is written through. *)
Definition sd_create (km : bool) : outcome segdef :=
  if km then Ok (mk_segdef 0 0 0 0 0) else Undef.

Definition sd_copy (km : bool) (old : segdef) : outcome segdef :=
  _ ← sd_create km;
  Ok (mk_segdef (sd_vbase old) (sd_segsz old) (sd_npage old) (sd_flags old) (sd_offset old)).

(** [for(i=0; i<narr; i++)], [n] rounds left. *)
Fixpoint seg_loop (n : nat) (segs : Array.array segdef) (i vbase : Z) : outcome (option segdef) :=
  match n with
  | O => Ok None
  | S n' =>
      sd ← Array.array_getguy segs i;
      let segb := sd_vbase sd in
      let segt := u32 (segb + sd_segsz sd) in
      if (segb <=? vbase) && (vbase <=? segt) then Ok (Some sd)
      else seg_loop n' segs (i + 1) vbase
  end.

Definition sd_get_by_addr (a : addrspace) (vbase : Z) : outcome (option segdef) :=
  match as_segments a with
  | None => Ok None
  | Some segs =>
      let narr := Array.array_getnum segs in
      if (narr <? 0) || (narr >? 5) then Panic
      else seg_loop (Z.to_nat narr) segs 0 vbase
  end.

(** ** Address spaces *)

Definition as_create (km : bool) : option addrspace :=
  if km then Some (mk_as 0 0 None None) else None.

(** [km]: the allocations of the segment array, its preallocation, the
    descriptor, and the growth of the array. *)
Definition as_define_region (km : nat -> bool) (a : addrspace) (va0 sz off writeable : Z) :
    outcome (Z * addrspace) :=
  if va0 >? USERSTACK then Ok (EINVAL, a)
  else
    '(result, a) ←
      match as_segments a with
      | Some _ => Ok (0, a)
      | None =>
          match Array.array_create (km 0%nat) with
          | None => Ok (ENOMEM, a)
          | Some segs =>
              '(result, segs') ← Array.array_preallocate (km 1%nat) segs 2;
              Ok (result, mk_as (stackt a) (stackb a) (Some segs') (as_elfbin a))
          end
      end;
    if negb (result =? 0) then Ok (result, a)
    else
      let size := sz in
      let sz := u32 (sz + Z.land va0 (Z.lnot PAGE_FRAME)) in
      let va0 := Z.land va0 PAGE_FRAME in
      let sz := Z.land (u32 (u32 (sz + PAGE_SIZE) - 1)) PAGE_FRAME in
      let npages := sz / PAGE_SIZE in
      _ ← sd_create (km 2%nat);
      let flags := if negb (writeable =? 0) then TLBLO_DIRTY else 0 in
      let sd := mk_segdef va0 size npages flags off in
      match as_segments a with
      | None => Undef
      | Some segs =>
          '(result, segs') ← Array.array_add (km 3%nat) segs sd;
          Ok (result, mk_as (stackt a) (stackb a) (Some segs') (as_elfbin a))
      end.

Definition as_prepare_load (a : addrspace) : addrspace :=
  mk_as USERSTACK (USERSTACK - STACKPAGES * PAGE_SIZE) (as_segments a) (as_elfbin a).

Definition as_complete_load (a : addrspace) : Z := 0.

(** The initial stack pointer. *)
Definition as_define_stack (a : addrspace) : Z := USERSTACK.

(** The loop of [as_copy] over the segments, [n] rounds left. *)
Fixpoint copy_segments (n : nat) (km : nat -> bool) (i : nat) (old new : Array.array segdef) :
    outcome (Z * Array.array segdef) :=
  match n with
  | O => Ok (0, new)
  | S n' =>
      oldseg ← Array.array_getguy old (Z.of_nat i);
      newseg ← sd_copy (km (2 * i + 2)%nat) oldseg;
      '(result, new') ← Array.array_add (km (2 * i + 3)%nat) new newseg;
      if negb (result =? 0) then Ok (result, new')
      else copy_segments n' km (S i) old new'
  end.

Section Faults.
Context {file : Type} {SD : SwapDev file (list Z)} {CK : Clock}.
Context (elf_read : Z -> Z -> Z * list Z).
Local Abbreviation M := (M file (list Z)).
Local Abbreviation vm := (vm file (list Z)).

(** [VOP_INCOPEN] and [VOP_INCREF] dereference the executable's vnode. *)
Definition as_copy (km : nat -> bool) (old : addrspace) (t_pid p : Z) : M (Z * option addrspace) :=
  match as_create (km 0%nat) with
  | None => mret (ENOMEM, None)
  | Some new =>
      match Array.array_create (km 1%nat) with
      | None => mret (ENOMEM, None)
      | Some segs =>
          oldsegs ← fail (match as_segments old with Some a => Ok a | None => Undef end);
          '(result, segs') ← fail (copy_segments (Z.to_nat (Array.array_getnum oldsegs)) km 0 oldsegs segs);
          if negb (result =? 0) then mret (result, None)
          else
            result ← pt_copymem t_pid p;
            if negb (result =? 0) then mret (result, None)
            else
              elf ← fail (match as_elfbin old with Some v => Ok v | None => Undef end);
              mret (0, Some (mk_as (stackt new) (stackb new) (Some segs') (Some elf)))
      end
  end.

(** [active_as] is the static variable of addrspace.c; the new value is handed
    back. *)
Definition as_activate (active_as a : option Z) : M (option Z) :=
  if decide (active_as = a) then mret active_as
  else tlb_invalidate;; mret a.

(** ** Page faults *)

(** The fault on a write through a read-only entry.  [None]: [sys__exit] was
    called, which does not return. *)
Definition fault_readonly (p fa : Z) : M (option Z) :=
  w ← pt_is_writeable p fa;
  if negb (w =? 0) then
    pt_set_dirty p fa;;
    tlb_update p fa TLBLO_DIRTY;;
    mret (Some 0)
  else mret None.

(** The first valid entry for a page. *)
Definition tlb_lookup (fa : Z) (l : list (Z * Z)) : option (Z * Z) :=
  head (filter (fun t => valid t = true /\ fst t = fa) l).

(** A store by the kernel to bytes of the user page [fa] of the current
    process: it goes through the TLB, and a store through a read-only entry
    first takes [fault_readonly].  (A miss would re-enter [vm_fault]; the
    callers have just written the entry, with interrupts off.) *)
Definition user_store (p fa : Z) (f : list Z -> list Z) : M unit :=
  s ← get;
  match tlb_lookup fa (tlb s) with
  | None => fail Undef
  | Some t =>
      r ← (if writable_entry (snd t) then mret (Some 0) else fault_readonly p fa);
      match r with
      | None => fail Hang
      | Some _ =>
          data ← ram_rd (target (snd t));
          ram_wr (target (snd t)) (f data)
      end
  end.

(** Overwriting [bytes] at index [at] of a page. *)
Definition patch (at_ : nat) (bytes data : list Z) : list Z :=
  take at_ data ++ bytes ++ drop (at_ + length bytes) data.

(** [load_segment] of loadelf.c into the page [va0] of the current process:
    the uio has [memsize] bytes of room and [filesize] to read; after the read
    the next [fillamt] bytes are zeroed ([uiomovezeros]). *)
Definition load_segment (p offset va0 memsize filesize : Z) : M Z :=
  if negb (memsize =? PAGE_SIZE) then fail Panic
  else
    let filesize := if filesize >? memsize then memsize else filesize in
    let '(result, bytes) := elf_read offset filesize in
    user_store p va0 (patch 0 bytes);;
    if negb (result =? 0) then mret result
    else
      let fillamt := u32 (memsize - filesize) in
      (if fillamt >? 0
       then user_store p va0 (patch (length bytes) (replicate (Z.to_nat fillamt) 0))
       else mret tt);;
      vmstats_inc 6;;
      vmstats_inc 7;;
      mret 0.

(** The branch of [vm_fault] for a new page of a segment. *)
Definition fault_segment (sd : segdef) (t_pid fa : Z) : M (option Z) :=
  pa ← pt_alloc_page t_pid fa (Z.land (sd_flags sd) TLBLO_DIRTY) 0;
  if pa =? 0 then mret (Some ENOMEM)
  else
    '(result, storeloc) ← tlb_write false t_pid fa TLBLO_DIRTY;
    if negb (result =? 0) then mret (Some result)
    else
      let segsize := u32 (u32 (sd_vbase sd + sd_segsz sd) - fa) in
      let curpage := u32 (fa - sd_vbase sd) / PAGE_SIZE in
      offset ← fail (c_int (sd_offset sd + curpage * PAGE_SIZE));
      let segsize := if segsize >? PAGE_SIZE then PAGE_SIZE else segsize in
      result ← load_segment t_pid offset fa PAGE_SIZE segsize;
      if negb (result =? 0) then mret (Some result)
      else
        loc ← fail (match storeloc with Some i => Ok i | None => Undef end);
        if Z.land (sd_flags sd) TLBLO_DIRTY =? 0
        then result ← tlb_set_read_only sd loc; mret (Some result)
        else mret (Some result).

(** The branch of [vm_fault] for an address in no segment. *)
Definition fault_stack (a : addrspace) (t_pid fa : Z) : M (option Z) :=
  if (fa <? stackb a) || (fa >? stackt a) then mret (Some EFAULT)
  else
    pa ← pt_alloc_page t_pid fa 1 0;
    if pa =? 0 then mret (Some ENOMEM)
    else
      '(result, _) ← tlb_write false t_pid fa 0;
      if negb (result =? 0) then mret (Some result)
      else
        user_store t_pid fa (fun _ => replicate (Z.to_nat PAGE_SIZE) 0);;
        vmstats_inc 5;;
        mret (Some result).

(** [a] is [curthread->t_vmspace], [t_pid] its pid. *)
Definition vm_fault (a : option addrspace) (t_pid faulttype faultaddress : Z) : M (option Z) :=
  let fa := Z.land faultaddress PAGE_FRAME in
  if faulttype =? VM_FAULT_READONLY then fault_readonly t_pid fa
  else if negb ((faulttype =? VM_FAULT_READ) || (faulttype =? VM_FAULT_WRITE)) then mret (Some EINVAL)
  else
    match a with
    | None => mret (Some EFAULT)
    | Some a =>
        pa ← pt_get_paddr t_pid fa;
        '(pa, reload) ← (if pa =? 0 then pa ← swap_in t_pid fa; mret (pa, false) else mret (pa, true));
        if pa =? 0 then
          if fa >? USERSTACK then fail Panic
          else
            sd ← fail (sd_get_by_addr a fa);
            match sd with
            | Some sd => fault_segment sd t_pid fa
            | None => fault_stack a t_pid fa
            end
        else
          (if (reload : bool) then vmstats_inc 4 else mret tt);;
          '(result, _) ← tlb_write false t_pid fa 0;
          mret (Some result)
    end.

End Faults.
End AddrSpace.
