(* ===== verification/VmFault.v ===== *)
(** * Page faults are served

    Theorems about [vm_fault] and the address-space operations of
    AddrSpace.v over the invariants of Paging.v and Tlb.v. *)

From S2P Require Import Prelude VmState Coremap Swap TlbHw PageTable Paging PagingOps Tlb Array AddrSpace.
Import Vm Coremap Swap TlbHw PageTable Paging PagingOps Tlb AddrSpace.

Module VmFault.
Section VmFault.
Context {file : Type} {SD : SwapDev file (list Z)} {SDL : SwapDevLaws file (list Z)}.
Context {CK : Clock} {CKL : ClockLaws}.
Context (elf_read : Z -> Z -> Z * list Z).
Local Abbreviation M := (M file (list Z)).
Local Abbreviation vm := (vm file (list Z)).
Context (lo : Z) (Hlo : 0 < lo /\ lo mod 4096 = 0).
Local Abbreviation inv := (inv lo).
Local Abbreviation frame := (frame lo).

(** The machine between two traps of process [p]. *)
Record ready (p : Z) (s : vm) : Prop := mk_ready {
  rd_inv : inv (0, 0) s;
  rd_held : held s = [];
  rd_victim : victim_ok s;
  rd_coherent : coherent p s;
  rd_nodup : no_dup s;
}.

(** Address [v] of process [p] is translated to a frame with contents [data]. *)
Definition mapped (p v : Z) (data : list Z) (w : bool) (s : vm) : Prop :=
  exists i elo j e, tlb s !! i = Some (v, elo) /\ valid (v, elo) = true /\ writable_entry elo = w /\
    page_table s !! j = Some e /\ pid e = p /\ vaddr e = v /\ paddr e = target elo /\
    ram s !! target elo = Some data.

Lemma kept_ready p v s s' :
  ready p s -> p <> 0 -> inv (0, 0) s' -> held s' = [] -> tlb_kept s s' -> misses v s ->
  ready p s' /\ misses v s'.
Proof.
  intros [] Hp Hinv' Hh' Hk Hm. destruct Hk as [(Et & Ev & Ept)|[Hnone Ev]].
  - split; [constructor; try done|].
    + unfold victim_ok. by rewrite Ev.
    + intros i t Hi Ht. rewrite Et in Hi. destruct (rd_coherent0 i t Hi Ht) as (j & e & He & Hpe & Hrest).
      exists j, e. split; [|done]. apply Ept; [done|congruence].
    + unfold no_dup. by rewrite Et.
    + unfold misses. by rewrite Et.
  - split; [constructor; try done|].
    + unfold victim_ok, NUM_TLB. lia.
    + intros i t Hi Ht. by rewrite (Hnone i t Hi) in Ht.
    + intros i j t u Hi Hj Ht. by rewrite (Hnone i t Hi) in Ht.
    + intros i t Hi Ht. by rewrite (Hnone i t Hi) in Ht.
Qed.

(** The installation of an entry, on a machine that is ready. *)
Lemma tlb_write_ready p v w data s :
  ready p s -> misses v s -> p <> 0 -> user_va v -> resident s p v data -> w = 0 \/ w = TLBLO_DIRTY ->
  exists i s', tlb_write false p v w s = Ok ((0, Some i), s') /\ same_tables s s' /\ ready p s' /\
    mapped p v data (negb (w =? 0)) s' /\
    exists elo, 0 <= i < NUM_TLB /\ tlb s' !! Z.to_nat i = Some (v, elo) /\ valid (v, elo) = true /\
      writable_entry elo = negb (w =? 0).
Proof using Hlo.
  intros [] Hm Hp Hv (j0 & e0 & He0 & Hpe0 & Hve0 & Hd) Hw.
  destruct (tlb_write_ok lo Hlo p v w s (0, 0)) as
    (i & j & s' & Hrun & Hsame & Hvic & Hi & Et & (e & He & Hpe & Hve & Hpa) & Hal & _); try done.
  { rewrite rd_held0. apply not_elem_of_nil. }
  { by exists j0, e0. }
  assert (j = j0) as -> by (apply (inv_uniq _ _ s rd_inv0 j j0 e e0); congruence).
  assert (e0 = e) as -> by congruence.
  assert (page_table s' = page_table s /\ ram s' = ram s /\ held s' = held s) as (Ept & Er & Eh)
    by (by destruct Hsame as (l & n & st & -> & _)).
  destruct (entry_words (frame j0) w Hal Hw) as (Htg & Hvalid & Hwr).
  set (elo := Z.lor (Z.lor (frame j0) w) TLBLO_VALID) in *.
  assert (tlb s' !! Z.to_nat i = Some (v, elo)) as Hent.
  { rewrite Et. apply list_lookup_insert_eq. pose proof (inv_tlb _ _ s rd_inv0). lia. }
  assert (valid (v, elo) = true) as Hval by (unfold valid; cbn; by rewrite Hvalid).
  exists i, s'. split; [done|]. split; [done|]. split; [constructor|].
  - by eapply same_tables_inv.
  - congruence.
  - done.
  - eapply (install_coherent lo p v j0 w (Z.to_nat i) s); try done. by exists e.
  - intros k1 k2 t1 t2 H1 H2 Hv1 Hv2 Heq. rewrite Et in H1, H2.
    apply list_lookup_insert_Some in H1 as [(<- & <- & _)|[Hn1 H1]];
      apply list_lookup_insert_Some in H2 as [(? & <- & _)|[Hn2 H2]]; try done.
    + by destruct (Hm k2 t2 H2 Hv2).
    + by destruct (Hm k1 t1 H1 Hv1).
    + by eapply (rd_nodup0 k1 k2 t1 t2).
  - split; [|exists elo; done]. exists (Z.to_nat i), elo, j0, e. rewrite Ept, Er, Htg, <- Hpa. by split_and!.
Qed.

Lemma holds_same_tables s s' q u data : same_tables s s' -> holds s' q u data <-> holds s q u data.
Proof. by intros (l & n & st & -> & _). Qed.

Lemma ready_stats p s st :
  ready p s -> zlen st = VMSTAT_COUNT -> ready p (set_stats st s).
Proof. intros [] Hst. constructor; try done. destruct rd_inv0. by constructor. Qed.

Lemma user_va_frame v : user_va v -> Z.land v PAGE_FRAME = v.
Proof. intros [Hv Hm]. apply page_frame_id; [lia|done]. Qed.

(** C1. A read or write fault on a page that the process has is served.
    Whether the page is in memory or in the swap file, [vm_fault] returns 0
    with a valid TLB entry that translates the address to a frame with the
    page's contents; no page of any process changes, and the machine is ready
    again: tables consistent, TLB coherent and without duplicates, no mutex
    held.  There has to be room: a free frame, or a page to evict, a free swap
    slot and a swap device whose writes succeed.  Without it a page that has to
    be swapped in makes the kernel panic, or costs the evicted page
    ([alloc_page_loses_page]). *)
Theorem vm_fault_serves_page a p v ft data s :
  ready p s -> misses v s -> p <> 0 -> user_va v -> holds s p v data -> has_room s ->
  ft = VM_FAULT_READ \/ ft = VM_FAULT_WRITE ->
  exists s', vm_fault elf_read (Some a) p ft v s = Ok (Some 0, s') /\
    mapped p v data false s' /\ ready p s' /\
    forall q u d, q <> 0 -> u <> 0 -> (q, u) <> (p, v) -> holds s' q u d <-> holds s q u d.
Proof using Hlo CKL SDL.
  intros Hr Hm Hp Hv Hh Hroom Hft. pose proof Hr as []. unfold vm_fault. rewrite user_va_frame by done.
  assert ((ft =? VM_FAULT_READONLY) = false /\ negb ((ft =? VM_FAULT_READ) || (ft =? VM_FAULT_WRITE)) = false)
    as [-> ->] by (by destruct Hft as [-> | ->]).
  rewrite run_bind. pose proof Hv as [Hvb Hva].
  destruct (pt_get_paddr_run lo p v s (0, 0) rd_inv0) as [(j & e & He & Hpe & Hve & ->)|[Hni ->]]; try done.
  { rewrite rd_held0. apply not_elem_of_nil. }
  - rewrite Ok_bind, (proj2 (Z.eqb_neq (frame j) 0)) by (by apply frame_pos). mrun.
    rewrite (proj2 (Z.eqb_neq (frame j) 0)) by (by apply frame_pos). mrun.
    destruct (vmstats_inc_run 4 s) as (st & -> & Hst & _); [done|apply (inv_stats _ _ s rd_inv0)|]. mrun.
    assert (resident s p v data) as Hres.
    { destruct Hh as [Hres|(k & w & Hk & Hpw & Hvw & _)]; [done|].
      pose proof (inv_excl _ _ s rd_inv0 j e k w He Hk ltac:(congruence) ltac:(lia) ltac:(congruence) ltac:(congruence)).
      congruence. }
    destruct (tlb_write_ready p v 0 data (set_stats st s)) as (i & s' & -> & Hsame & Hr' & Hmap & _);
      try done; [apply ready_stats; [done|rewrite Hst; apply (inv_stats _ _ s rd_inv0)]|by left|].
    mrun. exists s'. split; [done|]. split; [done|]. split; [done|].
    intros q u d _ _ _. by rewrite (holds_same_tables _ _ _ _ _ Hsame).
  - rewrite Ok_bind. change (0 =? 0) with true. mrun.
    destruct Hh as [(j & e & He & Hpe & Hve & _)|(k & w & Hk & Hpw & Hvw & Hread)]; [by destruct Hni; exists j, e|].
    rewrite <- Hpw, <- Hvw.
    destruct (swap_in_ok lo Hlo s k w data) as (i & s1 & -> & Hi1 & Hh1 & Hres & Hkept & _ & _ & Hoth); try done; [lia|].
    rewrite Hpw, Hvw in *. destruct (kept_ready p v s s1 Hr Hp Hi1 Hh1 Hkept Hm) as [Hr1 Hm1].
    mrun. rewrite (proj2 (Z.eqb_neq (frame i) 0)) by (by apply frame_pos). mrun.
    destruct (tlb_write_ready p v 0 data s1) as (i' & s' & -> & Hsame & Hr' & Hmap & _); try done; [by left|].
    mrun. exists s'. split; [done|]. split; [done|]. split; [done|].
    intros q u d Hq Hu Hne. rewrite (holds_same_tables _ _ _ _ _ Hsame). by apply Hoth.
Qed.

(** ** Writes through read-only entries *)

Definition dirtied (e : page_table_entry) : page_table_entry :=
  mk_pte (vaddr e) (paddr e) (pid e) (npages e) (writeable e) 1.

Lemma search_entry p v s x j e :
  inv x s -> p <> 0 -> user_va v -> page_table s !! j = Some e -> pid e = p -> vaddr e = v ->
  first_index (covers p v) 0 (page_table s) = Z.of_nat j.
Proof.
  intros Hinv Hp [_ Hv] He Hpe Hve.
  destruct (search_covers lo p v s x Hinv Hp Hv) as [(k & f & -> & Hf & Hpf & Hvf)|[_ Hn]].
  - f_equal. eapply (inv_uniq _ _ s Hinv k j f e); congruence.
  - destruct Hn. by exists j, e.
Qed.

Lemma pt_is_writeable_run p v s x j e :
  inv x s -> pt_mutex ∉ held s -> p <> 0 -> user_va v ->
  page_table s !! j = Some e -> pid e = p -> vaddr e = v ->
  pt_is_writeable p v s = Ok (writeable e, s).
Proof.
  intros Hinv Hh Hp Hv He Hpe Hve. unfold pt_is_writeable. rewrite run_bind, run_acquire by done. mrun.
  rewrite (search_entry p v s x j e Hinv Hp Hv He Hpe Hve). rewrite (proj2 (Z.eqb_neq (Z.of_nat j) (-1))) by lia. mrun.
  rewrite (pt_rd_run _ e) by (rewrite ?Nat2Z.id; done || lia). mrun.
  rewrite (run_release _ _ (held s)) by done. mrun. by destruct s.
Qed.

Lemma pt_set_dirty_run p v s x j e :
  inv x s -> pt_mutex ∉ held s -> p <> 0 -> user_va v ->
  page_table s !! j = Some e -> pid e = p -> vaddr e = v ->
  pt_set_dirty p v s = Ok (tt, set_page_table (<[j := dirtied e]> (page_table s)) s).
Proof.
  intros Hinv Hh Hp Hv He Hpe Hve. unfold pt_set_dirty. rewrite run_bind, run_acquire by done. mrun.
  rewrite (search_entry p v s x j e Hinv Hp Hv He Hpe Hve). rewrite (proj2 (Z.eqb_neq (Z.of_nat j) (-1))) by lia. mrun.
  pose proof (lookup_lt_Some _ _ _ He).
  rewrite (pt_rd_run _ e) by (rewrite ?Nat2Z.id; done || lia). mrun.
  rewrite pt_wr_run by (cbn; lia). mrun. rewrite (run_release _ _ (held s)) by done. mrun.
  rewrite Nat2Z.id. by destruct s.
Qed.

(** The mark changes nothing the invariants speak of. *)
Lemma dirtied_ready p s j e :
  ready p s -> page_table s !! j = Some e -> pid e <> 0 ->
  ready p (set_page_table (<[j := dirtied e]> (page_table s)) s) /\
  forall q u d, holds (set_page_table (<[j := dirtied e]> (page_table s)) s) q u d <-> holds s q u d.
Proof.
  intros Hr He Hpe. set (s' := set_page_table _ s).
  assert (forall k f', page_table s' !! k = Some f' -> exists f, page_table s !! k = Some f /\
    vaddr f' = vaddr f /\ paddr f' = paddr f /\ pid f' = pid f) as Hdown.
  { intros k f' Hk. cbn in Hk. apply list_lookup_insert_Some in Hk as [(-> & <- & _)|[_ Hk]];
      [by exists e|by exists f']. }
  assert (forall k f, page_table s !! k = Some f -> exists f', page_table s' !! k = Some f' /\
    vaddr f' = vaddr f /\ paddr f' = paddr f /\ pid f' = pid f) as Hup.
  { intros k f Hk. destruct (decide (k = j)) as [->|Hne].
    - exists (dirtied e). assert (f = e) as -> by congruence. split; [|done].
      cbn. apply list_lookup_insert_eq. by eapply lookup_lt_Some.
    - exists f. cbn. by rewrite list_lookup_insert_ne. }
  split.
  - destruct Hr as [[] ? ? ? ?]. constructor; try done.
    + constructor; try done.
      * cbn. by rewrite length_insert.
      * intros k f' Hk. destruct (Hdown k f' Hk) as (f & Hf & _ & -> & _). by apply inv_frame0.
      * intros k f' c Hk Hc. destruct (Hdown k f' Hk) as (f & Hf & -> & _ & ->). by eapply inv_user0.
      * intros k1 k2 f1 f2 H1 H2. destruct (Hdown k1 f1 H1) as (g1 & Hg1 & -> & _ & ->).
        destruct (Hdown k2 f2 H2) as (g2 & Hg2 & -> & _ & ->). by eapply inv_uniq0.
      * intros k f' m w Hk Hw. destruct (Hdown k f' Hk) as (f & Hf & -> & _ & ->). by eapply inv_excl0.
    + intros i t Hi Ht. destruct (rd_coherent0 i t Hi Ht) as (k & f & Hf & H1 & H2 & H3).
      destruct (Hup k f Hf) as (f' & Hf' & E1 & E2 & E3). exists k, f'. by rewrite E1, E2, E3.
  - intros q u d. unfold holds. change (swapped s' q u d) with (swapped s q u d).
    enough (resident s' q u d <-> resident s q u d) as ->; [done|].
    split; intros (k & f & Hf & H1 & H2 & H3).
    + destruct (Hdown k f Hf) as (g & Hg & E1 & E2 & E3). exists k, g. by rewrite <- E1, <- E2, <- E3.
    + destruct (Hup k f Hf) as (g & Hg & E1 & E2 & E3). exists k, g. cbn. by rewrite E1, E2, E3.
Qed.

Lemma update_loop_run v elo n : forall i (s : vm),
  0 <= i -> i + Z.of_nat n = zlen (tlb s) ->
  exists l, update_loop n i v elo s = Ok (tt, set_tlb l (m_next_victim s) s) /\
    forall k, l !! k = match tlb s !! k with
      | Some t => Some (if (i <=? Z.of_nat k) && (valid t && (fst t =? v)) then (v, elo) else t)
      | None => None
      end.
Proof.
  induction n as [|n IH]; intros i s Hi Hn; cbn [update_loop].
  { exists (tlb s). split; [by destruct s|]. intros k. destruct (tlb s !! k) as [t|] eqn:E; [|done].
    apply lookup_lt_Some in E. by rewrite (proj2 (Z.leb_gt i (Z.of_nat k))) by lia. }
  unfold TLB_Read. mrun. destruct (rd_in (tlb s) i) as (t & Ht & Hl); [lia|]. rewrite Ht. mrun.
  destruct (valid t && (fst t =? v)) eqn:E.
  - rewrite TLB_Write_run by lia. mrun.
    set (s1 := set_tlb _ _ s). destruct (IH (i + 1) s1) as (l & Hrun & Hk); [lia|cbn; rewrite length_insert; lia|].
    exists l. rewrite Hrun. split; [by destruct s|]. intros k. rewrite Hk. cbn [tlb s1 set_tlb].
    destruct (decide (k = Z.to_nat i)) as [->|Hne].
    + rewrite list_lookup_insert_eq, Hl, E by lia.
      rewrite (proj2 (Z.leb_gt (i + 1) _)), (proj2 (Z.leb_le i _)) by lia. done.
    + rewrite list_lookup_insert_ne by done. destruct (tlb s !! k); [|done].
      replace (i + 1 <=? Z.of_nat k) with (i <=? Z.of_nat k); [done|].
      destruct (Z.leb_spec i (Z.of_nat k)), (Z.leb_spec (i + 1) (Z.of_nat k)); lia || done.
  - mrun. destruct (IH (i + 1) s) as (l & Hrun & Hk); [lia|lia|]. exists l. rewrite Hrun. split; [done|].
    intros k. rewrite Hk. destruct (tlb s !! k) as [t'|] eqn:Et; [|done].
    destruct (decide (k = Z.to_nat i)) as [->|Hne].
    + assert (t' = t) as -> by congruence. by rewrite E, !andb_false_r.
    + replace (i + 1 <=? Z.of_nat k) with (i <=? Z.of_nat k); [done|].
      destruct (Z.leb_spec i (Z.of_nat k)), (Z.leb_spec (i + 1) (Z.of_nat k)); lia || done.
Qed.

Lemma tlb_lookup_entry v elo i (s : vm) :
  no_dup s -> tlb s !! i = Some (v, elo) -> valid (v, elo) = true ->
  tlb_lookup v (tlb s) = Some (v, elo).
Proof.
  intros Hnd Hi Hval. unfold tlb_lookup.
  assert ((v, elo) ∈ filter (fun t => valid t = true /\ fst t = v) (tlb s)) as Hin.
  { apply list_elem_of_filter. split; [done|]. by eapply list_elem_of_lookup_2. }
  destruct (filter _ (tlb s)) as [|t l] eqn:E; [by apply not_elem_of_nil in Hin|].
  assert (t ∈ filter (fun t => valid t = true /\ fst t = v) (tlb s)) as Ht by (rewrite E; left).
  apply list_elem_of_filter in Ht as [[Hvt Hft] [k Hk]%list_elem_of_lookup_1].
  assert (k = i) as -> by (by apply (Hnd k i t (v, elo))). cbn. congruence.
Qed.

(** The state after a write fault on page [v], in frame [j], was served. *)
Definition made_writable (v : Z) (j : nat) (e : page_table_entry) (s s' : vm) : Prop :=
  exists l, s' = set_tlb l (m_next_victim s) (set_page_table (<[j := dirtied e]> (page_table s)) s) /\
    forall k, l !! k = match tlb s !! k with
      | Some t => Some (if valid t && (fst t =? v) then (v, Z.lor (Z.lor (frame j) TLBLO_DIRTY) TLBLO_VALID) else t)
      | None => None
      end.

Lemma made_writable_ready p v j e s s' :
  ready p s -> p <> 0 -> page_table s !! j = Some e -> pid e = p -> vaddr e = v ->
  made_writable v j e s s' ->
  ready p s' /\ forall q u d, holds s' q u d <-> holds s q u d.
Proof using Hlo.
  intros Hr Hp He Hpe Hve (l & -> & Hl).
  destruct (dirtied_ready p s j e Hr He) as [Hr1 Hh]; [congruence|]. split; [|exact Hh].
  destruct (inv_frame _ _ s (rd_inv _ _ Hr) j e He) as (Hpa & Hfb & _).
  destruct (entry_words (frame j) TLBLO_DIRTY) as (Htg & Hval & _);
    [by apply frame_aligned|by right|]. set (elo := Z.lor (Z.lor (frame j) TLBLO_DIRTY) TLBLO_VALID) in *.
  assert (forall k t', l !! k = Some t' -> exists t, tlb s !! k = Some t /\ valid t' = valid t /\ fst t' = fst t /\
    (t' = t \/ t' = (v, elo))) as Hdown.
  { intros k t' Hk. rewrite Hl in Hk. destruct (tlb s !! k) as [t|]; [|done]. exists t. split; [done|].
    destruct (valid t && (fst t =? v)) eqn:E; [|injection Hk as <-; by auto]. injection Hk as <-.
    apply andb_true_iff in E as [E1 E2]. apply Z.eqb_eq in E2. split; [|by auto].
    rewrite E1. unfold valid. cbn. by rewrite Hval. }
  pose proof Hr1 as [Hi Hh1 Hvic Hcoh Hnd]. constructor; try done.
  - destruct Hi. constructor; try done. cbn [tlb set_tlb]. rewrite <- inv_tlb0. cbn [tlb set_page_table]. f_equal.
    apply same_lookup_length. intros k. rewrite Hl. by destruct (tlb s !! k).
  - intros k t' Hk Ht'. destruct (Hdown k t' Hk) as (t & Hkt & Hv1 & Hf1 & Heq).
    destruct Heq as [-> | ->]; [by apply (Hcoh k)|].
    exists j, (dirtied e). split; [cbn; apply list_lookup_insert_eq; by eapply lookup_lt_Some|].
    cbn. rewrite Htg. done.
  - intros k1 k2 t1 t2 H1 H2 V1 V2 F. destruct (Hdown k1 t1 H1) as (u1 & U1 & E1 & E2 & _).
    destruct (Hdown k2 t2 H2) as (u2 & U2 & E3 & E4 & _). apply (Hnd k1 k2 u1 u2 U1 U2); congruence.
Qed.

Lemma made_writable_entry p v j e s s' i elo :
  ready p s -> page_table s !! j = Some e -> made_writable v j e s s' ->
  tlb s !! i = Some (v, elo) -> valid (v, elo) = true ->
  exists elo', tlb s' !! i = Some (v, elo') /\ valid (v, elo') = true /\ writable_entry elo' = true /\
    target elo' = paddr e /\ page_table s' !! j = Some (dirtied e).
Proof using Hlo.
  intros [] He (l & -> & Hl) Hi Hval. destruct (inv_frame _ _ s rd_inv0 j e He) as (Hpa & Hfb & _).
  destruct (entry_words (frame j) TLBLO_DIRTY) as (Htg & Hvalid & Hwr); [by apply frame_aligned|by right|].
  eexists. split; [cbn; by rewrite Hl, Hi, Hval, Z.eqb_refl|].
  split; [unfold valid; cbn [snd]; by rewrite Hvalid|]. split; [exact Hwr|]. split; [congruence|].
  apply list_lookup_insert_eq. by eapply lookup_lt_Some.
Qed.

Lemma fault_readonly_run p v s j e :
  ready p s -> p <> 0 -> user_va v -> page_table s !! j = Some e -> pid e = p -> vaddr e = v ->
  writeable e <> 0 ->
  exists s', fault_readonly p v s = Ok (Some 0, s') /\ made_writable v j e s s'.
Proof using Hlo.
  intros Hr Hp Hv He Hpe Hve Hw. pose proof Hr as []. pose proof Hv as [_ Hva].
  assert (pt_mutex ∉ held s) as Hh by (rewrite rd_held0; apply not_elem_of_nil).
  unfold fault_readonly. rewrite run_bind, (pt_is_writeable_run p v s (0, 0) j e) by done. rewrite Ok_bind.
  rewrite (proj2 (Z.eqb_neq _ 0)) by done. mrun.
  rewrite (pt_set_dirty_run p v s (0, 0) j e) by done. rewrite Ok_bind.
  destruct (dirtied_ready p s j e Hr He) as [Hr1 _]; [congruence|].
  set (s1 := set_page_table _ s) in *.
  assert (page_table s1 !! j = Some (dirtied e)) as Hd.
  { apply list_lookup_insert_eq. by eapply lookup_lt_Some. }
  unfold tlb_update. rewrite !run_bind.
  destruct (pt_get_paddr_run lo p v s1 (0, 0) (rd_inv _ _ Hr1) Hh Hp Hva) as [(j' & e' & He' & Hpe' & Hve' & ->)|[Hn _]].
  2: { destruct Hn. by exists j, (dirtied e). }
  assert (j' = j) as ->.
  { apply (inv_uniq _ _ s1 (rd_inv _ _ Hr1) j' j e' (dirtied e) He' Hd); cbn; congruence. }
  rewrite Ok_bind.
  destruct (update_loop_run v (Z.lor (Z.lor (frame j) TLBLO_DIRTY) TLBLO_VALID) (Z.to_nat NUM_TLB) 0 s1)
    as (l & -> & Hl); [done|pose proof (inv_tlb _ _ s1 (rd_inv _ _ Hr1)) as E; rewrite E; done|].
  rewrite Ok_bind, run_ret. eexists. split; [done|]. exists l. split; [done|].
  intros k. rewrite (Hl k). change (tlb s1) with (tlb s). destruct (tlb s !! k); [|done].
  by rewrite (proj2 (Z.leb_le 0 _)) by lia.
Qed.

(** Replacing an entry by one with the same translation. *)
Lemma retag_ready p v elo elo' i s :
  ready p s -> tlb s !! i = Some (v, elo) -> valid (v, elo') = valid (v, elo) -> target elo' = target elo ->
  ready p (set_tlb (<[i := (v, elo')]> (tlb s)) (m_next_victim s) s).
Proof.
  intros [] Hi Hval Htg. constructor; try done.
  - destruct rd_inv0. constructor; try done. cbn. by rewrite length_insert.
  - intros k t Hk Ht. apply list_lookup_insert_Some in Hk as [(-> & <- & _)|[_ Hk]]; [|by eapply rd_coherent0].
    cbn. rewrite Htg. apply (rd_coherent0 k (v, elo)); [done|congruence].
  - intros k1 k2 t1 t2 H1 H2 V1 V2 F.
    apply list_lookup_insert_Some in H1 as [(<- & <- & _)|[N1 H1]];
      apply list_lookup_insert_Some in H2 as [(E & <- & _)|[N2 H2]]; try done.
    + apply (rd_nodup0 i k2 (v, elo) t2); try done. congruence.
    + rewrite <- E. apply (rd_nodup0 k1 i t1 (v, elo)); try done. congruence.
    + by eapply (rd_nodup0 k1 k2 t1 t2).
Qed.

Lemma store_ready p j e data s :
  ready p s -> page_table s !! j = Some e -> pid e <> 0 ->
  ready p (set_ram (<[paddr e := data]> (ram s)) s) /\
  forall q u d, q <> 0 -> (q, u) <> (pid e, vaddr e) ->
    holds (set_ram (<[paddr e := data]> (ram s)) s) q u d <-> holds s q u d.
Proof.
  intros Hr He Hpe. destruct (ram_write_inv lo (0, 0) j e data s (rd_inv _ _ Hr) He) as (Hi & _ & Hoth).
  split; [by destruct Hr|]. intros q u d Hq Hne. unfold holds. rewrite (Hoth q u d Hq Hne). done.
Qed.

Lemma user_store_writable p v f data elo i s :
  ready p s -> tlb s !! i = Some (v, elo) -> valid (v, elo) = true -> writable_entry elo = true ->
  ram s !! target elo = Some data ->
  user_store p v f s = Ok (tt, set_ram (<[target elo := f data]> (ram s)) s).
Proof.
  intros [] Hi Hval Hw Hd. unfold user_store. mrun. rewrite (tlb_lookup_entry v elo i s) by done. mrun.
  cbn [snd]. rewrite Hw. mrun. unfold ram_rd, ram_wr. mrun. rewrite Hd. mrun. by rewrite Hd.
Qed.

Lemma user_store_readonly p v f data elo i j e s :
  ready p s -> p <> 0 -> user_va v -> tlb s !! i = Some (v, elo) -> valid (v, elo) = true ->
  writable_entry elo = false -> ram s !! target elo = Some data ->
  page_table s !! j = Some e -> pid e = p -> vaddr e = v -> writeable e <> 0 ->
  exists s', made_writable v j e s s' /\
    user_store p v f s = Ok (tt, set_ram (<[target elo := f data]> (ram s')) s').
Proof using Hlo.
  intros Hr Hp Hv Hi Hval Hw Hd He Hpe Hve Hwe.
  destruct (fault_readonly_run p v s j e) as (s' & Hrun & Hmw); try done. exists s'. split; [done|].
  assert (ram s' = ram s) as Er by (by destruct Hmw as (l & -> & _)).
  pose proof Hr as []. unfold user_store. mrun. rewrite (tlb_lookup_entry v elo i s) by done. mrun.
  cbn [snd]. rewrite Hw, Hrun. mrun. unfold ram_rd, ram_wr. mrun. rewrite Er, Hd. mrun. by rewrite Er, Hd.
Qed.

(** C29. A write through a read-only entry.  If the page may be written, the
    fault marks it dirty and makes its TLB entry writable, still for the same
    frame, and returns 0; nothing is lost.  If it may not, [vm_fault] changes
    nothing and the process is ended. *)
Theorem vm_fault_readonly a p v data s j e i elo :
  ready p s -> p <> 0 -> user_va v -> page_table s !! j = Some e -> pid e = p -> vaddr e = v ->
  tlb s !! i = Some (v, elo) -> valid (v, elo) = true -> ram s !! paddr e = Some data ->
  (writeable e <> 0 ->
     exists s', vm_fault elf_read a p VM_FAULT_READONLY v s = Ok (Some 0, s') /\ ready p s' /\
       page_table s' !! j = Some (dirtied e) /\ mapped p v data true s' /\
       forall q u d, holds s' q u d <-> holds s q u d) /\
  (writeable e = 0 -> vm_fault elf_read a p VM_FAULT_READONLY v s = Ok (None, s)).
Proof using Hlo.
  intros Hr Hp Hv He Hpe Hve Hi Hval Hd. pose proof Hr as [].
  unfold vm_fault. rewrite user_va_frame by done. change (VM_FAULT_READONLY =? VM_FAULT_READONLY) with true.
  split; intros Hw; cbn iota.
  - destruct (fault_readonly_run p v s j e) as (s' & -> & Hmw); try done. exists s'. split; [done|].
    destruct (made_writable_ready p v j e s s') as [Hr' Hh]; try done. split; [done|].
    destruct (made_writable_entry p v j e s s' i elo) as (elo' & Hi' & Hv' & Hw' & Htg & Hj); try done.
    split; [done|]. split; [|done]. exists i, elo', j, (dirtied e). cbn. rewrite Htg.
    assert (ram s' = ram s) as -> by (by destruct Hmw as (l & -> & _)). by split_and!.
  - unfold fault_readonly. rewrite run_bind, (pt_is_writeable_run p v s (0, 0) j e) by
      (done || rewrite rd_held0; apply not_elem_of_nil). by rewrite Ok_bind, Hw.
Qed.

(** ** New pages *)

Lemma alloc_ready p v w d s :
  ready p s -> misses v s -> p <> 0 -> user_va v -> ~ in_memory s p v ->
  (forall data, ~ swapped s p v data) -> has_room s ->
  exists j s', pt_alloc_page p v w d s = Ok (frame j, s') /\ ready p s' /\ misses v s' /\
    page_table s' !! j = Some (mk_pte v (frame j) p 1 w d) /\ ram s' = ram s /\ is_Some (ram s !! frame j) /\
    forall q u d, q <> 0 -> u <> 0 -> (q, u) <> (p, v) -> holds s' q u d <-> holds s q u d.
Proof using Hlo CKL SDL.
  intros Hr Hm Hp Hv Hni Hns Hroom. pose proof Hr as [].
  destruct (pt_alloc_page_new lo Hlo p v w d s) as (j & s' & Hrun & Hi & He & Hk & Er); try done.
  destruct Hk as (H1 & _ & _ & _ & H5 & _ & _ & H8).
  destruct (kept_ready p v s s') as [Hr' Hm']; try done; [congruence|].
  exists j, s'. split; [done|]. split; [done|]. split; [done|]. split; [done|]. split; [done|].
  split; [|done]. rewrite <- Er. by apply (inv_frame _ _ s' Hi j _ He).
Qed.

(** A fault on a page that the process does not have goes to the segments. *)
Lemma vm_fault_new a p v ft s :
  ready p s -> p <> 0 -> user_va v -> ~ in_memory s p v -> (forall data, ~ swapped s p v data) ->
  ft = VM_FAULT_READ \/ ft = VM_FAULT_WRITE ->
  vm_fault elf_read (Some a) p ft v s =
    (sd ← fail (sd_get_by_addr a v);
     match sd with
     | Some sd => fault_segment elf_read sd p v
     | None => fault_stack a p v
     end) s.
Proof using lo.
  intros [] Hp Hv Hni Hns Hft. unfold vm_fault. rewrite user_va_frame by done.
  assert ((ft =? VM_FAULT_READONLY) = false /\ negb ((ft =? VM_FAULT_READ) || (ft =? VM_FAULT_WRITE)) = false)
    as [-> ->] by (by destruct Hft as [-> | ->]).
  rewrite run_bind. pose proof Hv as [Hvb Hva].
  destruct (pt_get_paddr_run lo p v s (0, 0) rd_inv0) as [(j & e & He & Hpe & Hve & _)|[_ ->]]; try done.
  { rewrite rd_held0. apply not_elem_of_nil. }
  { destruct Hni. by exists j, e. }
  rewrite Ok_bind. change (0 =? 0) with true. cbn iota. rewrite run_bind, run_bind.
  rewrite (swap_in_miss lo s p v) by (done || lia). rewrite Ok_bind, run_ret, Ok_bind.
  change (0 =? 0) with true. cbn iota.
  replace (v >? USERSTACK) with false; [done|]. symmetry. rewrite Z.gtb_ltb. apply Z.ltb_ge. unfold USERSTACK. lia.
Qed.

(** C28. The first touch of a stack page gives a zero-filled page.  For a page
    between the stack bounds that belongs to no segment and that the process
    does not have yet, [vm_fault] returns 0 with a new page of zeros mapped
    writable (its clearing takes a nested write fault through the read-only
    entry that was just installed); all other pages keep their contents.  As for
    every new page there has to be room: a free frame, or a page to evict, a free
    swap slot and a swap device whose writes succeed. *)
Theorem vm_fault_stack_zero a p v ft s :
  ready p s -> misses v s -> p <> 0 -> user_va v -> ~ in_memory s p v ->
  (forall data, ~ swapped s p v data) -> has_room s ->
  ft = VM_FAULT_READ \/ ft = VM_FAULT_WRITE ->
  sd_get_by_addr a v = Ok None -> stackb a <= v <= stackt a ->
  exists s', vm_fault elf_read (Some a) p ft v s = Ok (Some 0, s') /\ ready p s' /\
    mapped p v (replicate 4096 0) true s' /\
    forall q u d, q <> 0 -> u <> 0 -> (q, u) <> (p, v) -> holds s' q u d <-> holds s q u d.
Proof using Hlo CKL SDL.
  intros Hr Hm Hp Hv Hni Hns Hroom Hft Hsd Hst. rewrite vm_fault_new by done. mrun. rewrite Hsd. mrun.
  unfold fault_stack. rewrite Z.gtb_ltb, (proj2 (Z.ltb_ge v _)), (proj2 (Z.ltb_ge _ v)) by lia. mrun.
  destruct (alloc_ready p v 1 0 s) as (j & s1 & -> & Hr1 & Hm1 & He1 & Er1 & [old Hold] & Hh1); try done.
  rewrite Ok_bind, (proj2 (Z.eqb_neq (frame j) 0)) by (by apply frame_pos). rewrite run_bind.
  destruct (tlb_write_ready p v 0 old s1) as (i0 & s2 & -> & Hsame & Hr2 & Hmap & _); try done.
  { exists j. eexists. split; [exact He1|]. cbn. by rewrite Er1. } { by left. }
  rewrite Ok_bind. cbn [negb Z.eqb]. rewrite run_bind.
  destruct Hmap as (i & elo & j' & e & Hi & Hval & Hw & He & Hpe & Hve & Hpa & Hd).
  assert (page_table s2 !! j = Some (mk_pte v (frame j) p 1 1 0)) as He2
    by (by destruct Hsame as (l & n & st & -> & _)).
  assert (j' = j) as -> by (apply (inv_uniq _ _ s2 (rd_inv _ _ Hr2) j' j e _ He He2); cbn; congruence).
  assert (e = mk_pte v (frame j) p 1 1 0) as -> by congruence.
  destruct (user_store_readonly p v (fun _ => replicate (Z.to_nat PAGE_SIZE) 0) old elo i j _ s2 Hr2 Hp Hv Hi
    Hval Hw Hd He Hpe Hve) as (s3 & Hmw & ->); [done|]. rewrite Ok_bind, run_bind.
  destruct (made_writable_ready p v j _ s2 s3 Hr2 Hp He2 Hpe Hve Hmw) as [Hr3 Hh3].
  destruct (made_writable_entry p v j _ s2 s3 i elo Hr2 He2 Hmw Hi Hval) as (elo' & Hi3 & Hv3 & Hw3 & Htg3 & He3).
  rewrite <- Hpa. destruct (store_ready p j _ (replicate (Z.to_nat PAGE_SIZE) 0) s3 Hr3 He3) as [Hr4 Hh4]; [done|].
  change (paddr (dirtied _)) with (frame j) in Hr4, Hh4. change (paddr _) with (frame j). set (s4 := set_ram _ s3) in *.
  destruct (vmstats_inc_run 5 s4) as (st & -> & Hst4 & _); [done|apply (inv_stats _ _ s4 (rd_inv _ _ Hr4))|].
  rewrite Ok_bind, run_ret. eexists. split; [done|]. split; [|split].
  - apply ready_stats; [done|]. rewrite Hst4. apply (inv_stats _ _ s4 (rd_inv _ _ Hr4)).
  - exists i, elo', j. eexists. split; [exact Hi3|]. split; [done|]. split; [done|]. split; [exact He3|].
    rewrite Htg3. cbn. by rewrite lookup_insert_eq.
  - intros q u d Hq Hu Hne. change (holds (set_stats st s4) q u d) with (holds s4 q u d).
    rewrite (Hh4 q u d Hq Hne), Hh3, (holds_same_tables _ _ _ _ _ Hsame). by apply Hh1.
Qed.

(** ** Pages of segments *)

(** What a page holds after [n] bytes were asked for and [bytes] came: the
    bytes, the zero fill, and what the frame held before. *)
Definition loaded (n : Z) (bytes old : list Z) : list Z :=
  bytes ++ replicate (Z.to_nat (4096 - n)) 0 ++ drop (length bytes + Z.to_nat (4096 - n)) old.

Lemma loaded_patch n bytes old :
  patch (length bytes) (replicate (Z.to_nat (4096 - n)) 0) (patch 0 bytes old) = loaded n bytes old.
Proof.
  change (patch 0 bytes old) with (bytes ++ drop (length bytes) old).
  unfold patch, loaded. rewrite take_app_length, length_replicate. f_equal. f_equal.
  rewrite drop_app_ge by lia. rewrite drop_drop. f_equal. lia.
Qed.

(** A frame of the page table's size is covered by a full read. *)
Lemma loaded_full n bytes old :
  0 <= n <= 4096 -> zlen bytes = n -> length old = 4096%nat ->
  loaded n bytes old = bytes ++ replicate (Z.to_nat (4096 - n)) 0.
Proof. intros Hn Hb Ho. unfold loaded. rewrite (drop_ge old) by lia. by rewrite app_nil_r. Qed.

Lemma load_segment_run p v off n bytes old elo i j e s :
  ready p s -> p <> 0 -> tlb s !! i = Some (v, elo) -> valid (v, elo) = true -> writable_entry elo = true ->
  page_table s !! j = Some e -> pid e = p -> vaddr e = v -> paddr e = target elo ->
  ram s !! target elo = Some old -> 0 <= n <= 4096 -> elf_read off n = (0, bytes) ->
  exists s', load_segment elf_read p off v PAGE_SIZE n s = Ok (0, s') /\ ready p s' /\
    tlb s' = tlb s /\ page_table s' = page_table s /\
    ram s' !! target elo = Some (loaded n bytes old) /\
    forall q u d, q <> 0 -> (q, u) <> (p, v) -> holds s' q u d <-> holds s q u d.
Proof.
  intros Hr Hp Hi Hval Hw He Hpe Hve Hpa Hold Hn Hread. unfold load_segment.
  change (PAGE_SIZE =? PAGE_SIZE) with true. cbn [negb].
  replace (n >? PAGE_SIZE) with false by (symmetry; rewrite Z.gtb_ltb; apply Z.ltb_ge; unfold PAGE_SIZE; lia).
  rewrite Hread, run_bind, (user_store_writable p v _ old elo i s) by done. rewrite Ok_bind. cbn [Z.eqb negb].
  assert (forall data s0, ready p s0 -> page_table s0 !! j = Some e ->
    ready p (set_ram (<[target elo := data]> (ram s0)) s0) /\
    forall q u d, q <> 0 -> (q, u) <> (p, v) ->
      holds (set_ram (<[target elo := data]> (ram s0)) s0) q u d <-> holds s0 q u d) as Hst.
  { intros data s0 Hr0 He0. rewrite <- Hpa, <- Hpe, <- Hve. rewrite <- Hpe in Hr0.
    apply (store_ready _ j); [done|done|congruence]. }
  destruct (Hst (patch 0 bytes old) s Hr He) as [Hr1 Hh1]. set (s1 := set_ram _ s) in *.
  replace (u32 (PAGE_SIZE - n)) with (4096 - n) by (unfold PAGE_SIZE; rewrite u32_id by (unfold u32_mod; lia); done).
  assert (exists s2, (if 4096 - n >? 0
      then user_store p v (patch (length bytes) (replicate (Z.to_nat (4096 - n)) 0)) else mret tt) s1 = Ok (tt, s2) /\
    ready p s2 /\ tlb s2 = tlb s /\ page_table s2 = page_table s /\
    ram s2 !! target elo = Some (loaded n bytes old) /\
    forall q u d, q <> 0 -> (q, u) <> (p, v) -> holds s2 q u d <-> holds s q u d)
    as (s2 & Hrun & Hr2 & Et & Ept & Hd2 & Hh2).
  { assert (ram s1 !! target elo = Some (patch 0 bytes old)) as Hd1 by apply lookup_insert_eq.
    rewrite Z.gtb_ltb. destruct (Z.ltb_spec 0 (4096 - n)).
    - rewrite (user_store_writable p v _ (patch 0 bytes old) elo i s1) by done. rewrite loaded_patch.
      destruct (Hst (loaded n bytes old) s1 Hr1 He) as [Hr2 Hh2]. eexists. split; [done|]. split; [done|].
      split; [done|]. split; [done|]. split; [apply lookup_insert_eq|].
      intros q u d Hq Hne. by rewrite (Hh2 q u d Hq Hne), (Hh1 q u d Hq Hne).
    - exists s1. split; [done|]. split; [done|]. split; [done|]. split; [done|]. split; [|done].
      rewrite Hd1. unfold loaded. replace (Z.to_nat (4096 - n)) with 0%nat by lia. by rewrite Nat.add_0_r. }
  rewrite run_bind, Hrun, Ok_bind.
  pose proof (inv_stats _ _ s2 (rd_inv _ _ Hr2)) as Hl.
  rewrite run_bind. destruct (vmstats_inc_run 6 s2) as (st & -> & Hs1 & _); [done|done|]. rewrite Ok_bind, run_bind.
  destruct (vmstats_inc_run 7 (set_stats st s2)) as (st' & -> & Hs2 & _); [done|cbn; by rewrite Hs1|].
  rewrite Ok_bind, run_ret. cbn in Hs2. eexists. split; [done|].
  split; [apply (ready_stats p (set_stats st s2)); [by apply ready_stats; [|rewrite Hs1]|by rewrite Hs2, Hs1]|done].
Qed.

(** The bytes of segment [sd] that page [v] holds, and where they are in the
    executable. *)
Definition seg_bytes (sd : segdef) (v : Z) : Z := Z.min 4096 (sd_vbase sd + sd_segsz sd - v).
Definition seg_offset (sd : segdef) (v : Z) : Z := sd_offset sd + (v - sd_vbase sd) / 4096 * 4096.

(** The segment branch up to the last step, the loss of the write permission. *)
Lemma fault_segment_run sd p v bytes s :
  ready p s -> misses v s -> p <> 0 -> user_va v -> ~ in_memory s p v ->
  (forall data, ~ swapped s p v data) -> has_room s ->
  0 <= sd_vbase sd <= v -> v <= sd_vbase sd + sd_segsz sd < u32_mod ->
  int_min <= seg_offset sd v <= int_max -> elf_read (seg_offset sd v) (seg_bytes sd v) = (0, bytes) ->
  exists i elo s' pa old, ram s !! pa = Some old /\
    fault_segment elf_read sd p v s =
      (if Z.land (sd_flags sd) TLBLO_DIRTY =? 0
       then result ← tlb_set_read_only sd i; mret (Some result)
       else mret (Some 0)) s' /\
    ready p s' /\ 0 <= i < zlen (tlb s') /\ tlb s' !! Z.to_nat i = Some (v, elo) /\ valid (v, elo) = true /\
    writable_entry elo = true /\
    (exists j e, page_table s' !! j = Some e /\ pid e = p /\ vaddr e = v /\ paddr e = target elo) /\
    ram s' !! target elo = Some (loaded (seg_bytes sd v) bytes old) /\
    forall q u d, q <> 0 -> u <> 0 -> (q, u) <> (p, v) -> holds s' q u d <-> holds s q u d.
Proof using Hlo CKL SDL.
  intros Hr Hm Hp Hv Hni Hns Hroom Hb Hsz Hoff Hread. unfold fault_segment. rewrite run_bind.
  destruct (alloc_ready p v (Z.land (sd_flags sd) TLBLO_DIRTY) 0 s) as
    (j & s1 & -> & Hr1 & Hm1 & He1 & Er1 & [old Hold] & Hh1); try done.
  rewrite Ok_bind, (proj2 (Z.eqb_neq (frame j) 0)) by (by apply frame_pos). rewrite run_bind.
  destruct (tlb_write_ready p v TLBLO_DIRTY old s1) as (i & s2 & -> & Hsame & Hr2 & Hmap & elo0 & Hi & Hent & Hval0 & _);
    try done.
  { exists j. eexists. split; [exact He1|]. cbn. by rewrite Er1. } { by right. }
  rewrite Ok_bind. cbn [negb Z.eqb].
  destruct Hmap as (i' & elo & j' & e & Hi' & Hval & Hw & He & Hpe & Hve & Hpa & Hd).
  assert (i' = Z.to_nat i) as -> by (by apply (rd_nodup _ _ Hr2 i' (Z.to_nat i) (v, elo) (v, elo0))).
  assert (u32 (u32 (sd_vbase sd + sd_segsz sd) - v) = sd_vbase sd + sd_segsz sd - v) as ->.
  { unfold user_va in Hv. rewrite (u32_id (_ + _)), u32_id by lia. done. }
  assert (u32 (v - sd_vbase sd) / PAGE_SIZE * PAGE_SIZE = (v - sd_vbase sd) / 4096 * 4096) as ->.
  { unfold user_va in Hv. rewrite u32_id by (unfold u32_mod; lia). done. }
  fold (seg_offset sd v). rewrite run_bind, run_fail, c_int_id by done. rewrite !Ok_bind.
  assert ((if sd_vbase sd + sd_segsz sd - v >? PAGE_SIZE then PAGE_SIZE else sd_vbase sd + sd_segsz sd - v)
    = seg_bytes sd v) as ->.
  { unfold seg_bytes, PAGE_SIZE. rewrite Z.gtb_ltb. destruct (Z.ltb_spec 4096 (sd_vbase sd + sd_segsz sd - v)); lia. }
  rewrite run_bind.
  destruct (load_segment_run p v (seg_offset sd v) (seg_bytes sd v) bytes old elo (Z.to_nat i) j' e s2)
    as (s3 & -> & Hr3 & Et3 & Ept3 & Hd3 & Hh3); try done; [unfold seg_bytes; lia|].
  rewrite Ok_bind. cbn [negb Z.eqb]. rewrite run_bind, run_fail, Ok_bind.
  exists i, elo, s3, (frame j), old. split; [done|]. split; [done|]. split; [done|].
  rewrite Et3, Ept3. split; [rewrite (inv_tlb _ _ s2 (rd_inv _ _ Hr2)); done|].
  split; [done|]. split; [done|]. split; [done|]. split; [by exists j', e|]. split; [done|].
  intros q u d Hq Hu Hne. rewrite (Hh3 q u d Hq Hne), (holds_same_tables _ _ _ _ _ Hsame). by apply Hh1.
Qed.

Lemma readonly_words elo :
  target (Z.land elo (Z.lnot TLBLO_DIRTY)) = target elo /\
  Z.land (Z.land elo (Z.lnot TLBLO_DIRTY)) TLBLO_VALID = Z.land elo TLBLO_VALID /\
  writable_entry (Z.land elo (Z.lnot TLBLO_DIRTY)) = false.
Proof.
  unfold target, writable_entry. rewrite <- !Z.land_assoc. split; [done|]. split; [done|].
  change (Z.land (Z.lnot TLBLO_DIRTY) TLBLO_DIRTY) with 0. by rewrite Z.land_0_r.
Qed.


End VmFault.

(** ** Witnesses *)

Lemma demo_ready p free : ready (SD := disk 0) (CK := demo_clock) 4096 p (demo free).
Proof.
  constructor; [apply demo_inv|reflexivity|unfold victim_ok, NUM_TLB; cbn; lia|..].
  - intros i t Hi Ht. by rewrite (demo_tlb free i t Hi) in Ht.
  - intros i j t u Hi _ Ht. by rewrite (demo_tlb free i t Hi) in Ht.
Qed.

Lemma demo_misses v free : misses v (demo free).
Proof. intros i t Hi Ht. by rewrite (demo_tlb free i t Hi) in Ht. Qed.

Lemma demo_room_free : has_room (SD := disk 0) (demo true).
Proof. left. exists 2%nat, (mk_cme 0 0 0 0). split; reflexivity. Qed.

Lemma demo_absent p v free :
  (p, v) <> (3, 8192) -> v <> 0 -> forall data, ~ swapped (SD := disk 0) (demo free) p v data.
Proof.
  intros Hne Hv data ([|k] & w & Hw & <- & <- & _); [by injection Hw as <-|].
  by apply no_swap_lookup in Hw as ->.
Qed.

(** An executable of bytes 7, a process with a segment of ten bytes. *)
Definition demo_elf (off n : Z) : Z * list Z := (0, replicate (Z.to_nat n) 7).
Definition demo_sd (flags : Z) : segdef := mk_segdef 4198400 10 1 flags 0.
Definition demo_as (flags : Z) : addrspace :=
  as_prepare_load (mk_as 0 0 (Some (Array.mk_array 1 1 (Some [Some (demo_sd flags)]))) (Some 1)).

Lemma vm_fault_serves_page_witness :
  exists s', vm_fault (SD := disk 0) (CK := demo_clock) demo_elf (Some (demo_as 0)) 3 VM_FAULT_READ 8192 (demo false) =
      Ok (Some 0, s') /\
    mapped 3 8192 (fill 77) false s' /\ holds (SD := disk 0) s' 2 4194304 (fill 11).
Proof.
  destruct (vm_fault_serves_page (SDL := disk_laws 0) (CKL := demo_clock_laws) demo_elf 4096 demo_lo (demo_as 0)
    3 8192 VM_FAULT_READ (fill 77) (demo false) (demo_ready 3 false) (demo_misses _ _)) as (s' & Hrun & Hm & _ & Hh).
  - lia.
  - split; [lia|reflexivity].
  - right. apply demo_swapped.
  - exact demo_room.
  - left. reflexivity.
  - exists s'. split; [exact Hrun|]. split; [exact Hm|]. apply Hh; [lia|lia|intros [=]|apply demo_resident].
Defined.

Lemma vm_fault_stack_zero_witness :
  exists s', vm_fault (SD := disk 0) (CK := demo_clock) demo_elf (Some (demo_as 0)) 2 VM_FAULT_WRITE 2147479552
      (demo true) = Ok (Some 0, s') /\
    mapped 2 2147479552 (replicate 4096 0) true s' /\ holds (SD := disk 0) s' 2 4194304 (fill 11).
Proof.
  destruct (vm_fault_stack_zero (SDL := disk_laws 0) (CKL := demo_clock_laws) demo_elf 4096 demo_lo (demo_as 0)
    2 2147479552 VM_FAULT_WRITE (demo true) (demo_ready 2 true) (demo_misses _ _)) as (s' & Hrun & _ & Hm & Hh).
  - lia.
  - split; [lia|reflexivity].
  - intros ([|[|[|[]]]] & e & He & Hp & Hv); try discriminate He; injection He as <-; discriminate Hp || discriminate Hv.
  - apply demo_absent; [intros [=]|lia].
  - exact demo_room_free.
  - right. reflexivity.
  - reflexivity.
  - split; apply Z.leb_le; reflexivity.
  - exists s'. split; [exact Hrun|]. split; [exact Hm|]. apply Hh; [lia|lia|intros [=]|apply demo_resident].
Defined.


(** The machine with the page of process 2 mapped read-only. *)
Definition demo_mapped : vm (gmap Z (list Z)) (list Z) :=
  set_tlb ((4194304, 4608) :: replicate 63 (0, 0)) 0 (demo true).

Lemma demo_mapped_ready : ready (SD := disk 0) (CK := demo_clock) 4096 2 demo_mapped.
Proof.
  assert (forall i t, tlb demo_mapped !! S i = Some t -> valid t = false) as Hv.
  { intros i t Ht. apply (lookup_replicate 63) in Ht as [-> _]. reflexivity. }
  constructor; [destruct (demo_inv 0 true); by constructor|reflexivity|unfold victim_ok, NUM_TLB; cbn; lia|..].
  - intros [|i] t Hi Ht; [|by rewrite (Hv i t Hi) in Ht]. injection Hi as <-.
    exists 0%nat, (mk_pte 4194304 4096 2 1 1 0). by split_and!.
  - intros [|i] [|j] t u Hi Hj Ht Hu _; [done|by rewrite (Hv j u Hj) in Hu|by rewrite (Hv i t Hi) in Ht..].
Qed.

Lemma vm_fault_readonly_witness :
  exists s', vm_fault (SD := disk 0) (CK := demo_clock) demo_elf None 2 VM_FAULT_READONLY 4194304 demo_mapped =
      Ok (Some 0, s') /\ mapped 2 4194304 (fill 11) true s'.
Proof.
  destruct (vm_fault_readonly (SD := disk 0) (CK := demo_clock) demo_elf 4096 demo_lo None 2 4194304 (fill 11)
    demo_mapped 0 (mk_pte 4194304 4096 2 1 1 0) 0 4608 demo_mapped_ready) as [Hw _]; try reflexivity; [lia|by split|].
  destruct Hw as (s' & Hrun & _ & _ & Hm & _); [cbn; lia|]. exists s'. split; [exact Hrun|exact Hm].
Defined.

End VmFault.
