(* ===== verification/AsOps.v ===== *)
(** * Address spaces as objects

    Theorems about the segment list of an address space ([as_define_region],
    [sd_get_by_addr], [as_copy]) and about [as_activate], over the operations
    of AddrSpace.v. *)

From S2P Require Import Prelude VmState Coremap Swap TlbHw PageTable Paging PagingOps Tlb Array AddrSpace VmFault.
Import Vm Coremap Swap TlbHw PageTable Paging PagingOps Tlb AddrSpace VmFault.

Module AsOps.

(** The addresses that [sd_get_by_addr] counts as a segment's. *)
Definition in_seg (v : Z) (sd : segdef) : Prop := sd_vbase sd <= v <= u32 (sd_vbase sd + sd_segsz sd).

#[global] Instance in_seg_dec v sd : Decision (in_seg v sd) := _.

(** The segments of an address space. *)
Definition has_segments (a : addrspace) (l : list segdef) : Prop :=
  (length l <= 5)%nat /\
  exists arr, as_segments a = Some arr /\ Array.wf arr /\ Array.contents arr = Some <$> l.

Lemma seg_loop_run arr l v n : forall i,
  Array.wf arr -> Array.contents arr = Some <$> l -> (i + n)%nat = length l ->
  seg_loop n arr (Z.of_nat i) v = Ok (head (filter (in_seg v) (drop i l))).
Proof.
  induction n as [|n IH]; intros i Hwf Hc Hn; cbn [seg_loop].
  { by rewrite drop_ge by lia. }
  destruct (lookup_lt_is_Some_2 l i) as [sd Hsd]; [lia|].
  rewrite (Array.array_getguy_run arr (Z.of_nat i) sd), Ok_bind;
    [|done|by rewrite Nat2Z.id, Hc, list_lookup_fmap, Hsd|lia].
  rewrite (drop_S l sd i Hsd). destruct (decide (in_seg v sd)) as [Hin|Hout].
  - rewrite filter_cons_True by done. destruct Hin as [H1 H2]. apply Z.leb_le in H1, H2. by rewrite H1, H2.
  - rewrite filter_cons_False by done.
    assert ((sd_vbase sd <=? v) && (v <=? u32 (sd_vbase sd + sd_segsz sd)) = false) as ->.
    { apply not_true_iff_false. rewrite andb_true_iff, !Z.leb_le. done. }
    replace (Z.of_nat i + 1) with (Z.of_nat (S i)) by lia. by apply IH; [done|done|lia].
Qed.

(** [sd_get_by_addr] finds the first segment that the address is counted to. *)
Lemma sd_get_by_addr_run a l v :
  has_segments a l -> sd_get_by_addr a v = Ok (head (filter (in_seg v) l)).
Proof.
  intros (Hl & arr & Ha & Hwf & Hc). unfold sd_get_by_addr. rewrite Ha. unfold Array.array_getnum.
  rewrite (Array.lists_num arr l (conj Hwf Hc)).
  rewrite (proj2 (Z.ltb_ge (zlen l) 0)), Z.gtb_ltb, (proj2 (Z.ltb_ge 5 (zlen l))) by lia. cbn [orb].
  rewrite Nat2Z.id. apply (seg_loop_run arr l v (length l) 0 Hwf Hc). lia.
Qed.

(** No array yet counts as no segment. *)
Definition seg_list (a : addrspace) (l : list segdef) : Prop :=
  (as_segments a = None /\ l = []) \/ has_segments a l.

(** The descriptor that [as_define_region] makes. *)
Definition region (va sz off w : Z) : segdef :=
  mk_segdef (Z.land va PAGE_FRAME) sz
    (Z.land (u32 (u32 (u32 (sz + Z.land va (Z.lnot PAGE_FRAME)) + PAGE_SIZE) - 1)) PAGE_FRAME / PAGE_SIZE)
    (if negb (w =? 0) then TLBLO_DIRTY else 0) off.

(** The array that a region is added to. *)
Lemma segments_ready a l :
  seg_list a l ->
  exists arr, Array.wf arr /\ Array.contents arr = Some <$> l /\
    (match as_segments a with
     | Some _ => Ok (0, a)
     | None =>
         match Array.array_create true with
         | None => Ok (ENOMEM, a)
         | Some segs =>
             '(result, segs') ← Array.array_preallocate true segs 2;
             Ok (result, mk_as (stackt a) (stackb a) (Some segs') (as_elfbin a))
         end
     end) = Ok (0, mk_as (stackt a) (stackb a) (Some arr) (as_elfbin a)).
Proof.
  intros [[-> ->]|(_ & arr & Ha & Hwf & Hc)].
  - cbn [Array.array_create].
    destruct (Array.array_preallocate_spec true (Array.mk_array 0 0 (@None (list (option segdef)))) 2) as
      (r & arr & Hrun & Hwf & Hc & _ & Hr); [by split_and!|done|].
    exists arr. split; [done|]. split; [done|]. cbv zeta. rewrite Hrun, Ok_bind. by destruct Hr as [-> _].
  - exists arr. split; [done|]. split; [done|]. rewrite Ha. destruct a. cbn in Ha |- *. by rewrite Ha.
Qed.

Lemma as_define_region_run a l va sz off w :
  seg_list a l -> (length l < 5)%nat -> va <= USERSTACK ->
  exists a', as_define_region (fun _ => true) a va sz off w = Ok (0, a') /\
    has_segments a' (l ++ [region va sz off w]) /\
    stackt a' = stackt a /\ stackb a' = stackb a /\ as_elfbin a' = as_elfbin a.
Proof.
  intros Hs Hl Hva. unfold as_define_region. rewrite Z.gtb_ltb, (proj2 (Z.ltb_ge _ _)) by done.
  destruct (segments_ready a l Hs) as (arr & Hwf & Hc & ->). rewrite Ok_bind. cbn [Z.eqb negb sd_create].
  rewrite Ok_bind. cbv zeta. cbn [as_segments]. fold (region va sz off w).
  pose proof (Array.lists_num arr l (conj Hwf Hc)) as Hn.
  destruct (Array.array_add_run true arr (region va sz off w)) as (r & arr' & Hrun & Hwf' & Hr);
    [done|unfold Array.lim; lia|].
  rewrite orb_true_r in Hr. destruct Hr as (-> & Hc' & _). rewrite Hrun, Ok_bind.
  eexists. split; [done|]. split; [|done]. split; [rewrite length_app; cbn; lia|].
  exists arr'. split; [done|]. split; [done|]. by rewrite Hc', Hc, fmap_app.
Qed.

(** A region with a page-aligned base is found by its addresses.  Such a
    region is recorded with its base, its size rounded up to pages and its
    write permission; [sd_get_by_addr] then returns it for each of its
    addresses that no earlier region claims, and answers as before for the
    addresses outside of it.  (The address just past the region counts as one
    of its own.) *)
Theorem as_define_region_found a l va sz off w :
  seg_list a l -> (length l < 5)%nat -> 0 <= va <= USERSTACK -> va mod 4096 = 0 -> 0 <= sz <= USERSTACK - va ->
  exists a' sd, as_define_region (fun _ => true) a va sz off w = Ok (0, a') /\
    stackt a' = stackt a /\ stackb a' = stackb a /\
    sd_vbase sd = va /\ sd_segsz sd = sz /\ sd_offset sd = off /\ sd_npage sd = (sz + 4095) / 4096 /\
    Z.land (sd_flags sd) TLBLO_DIRTY = (if negb (w =? 0) then TLBLO_DIRTY else 0) /\
    forall v, sd_get_by_addr a' v =
      Ok (match head (filter (in_seg v) l) with
          | Some sd' => Some sd'
          | None => if decide (va <= v <= va + sz) then Some sd else None
          end).
Proof.
  intros Hs Hl Hva Ha Hsz. destruct (as_define_region_run a l va sz off w Hs Hl) as (a' & Hrun & Hs' & Et & Eb & _);
    [lia|]. unfold USERSTACK in *.
  assert (Z.land va PAGE_FRAME = va) as Hpf by (apply page_frame_id; [lia|done]).
  exists a', (region va sz off w). split; [done|]. split; [done|]. split; [done|].
  split; [done|]. split; [done|]. split; [done|]. split; [|split].
  - cbn. replace (Z.land va (Z.lnot PAGE_FRAME)) with 0.
    2: { rewrite <- Hpf, <- Z.land_assoc, Z.land_lnot_diag. by rewrite Z.land_0_r. }
    unfold PAGE_SIZE. rewrite Z.add_0_r, !(u32_id sz), !(u32_id (sz + 4096)), u32_id by (unfold u32_mod; lia).
    rewrite page_frame_floor by lia. Z.to_euclidean_division_equations; lia.
  - cbn. by destruct (w =? 0).
  - intros v. rewrite (sd_get_by_addr_run a' _ v Hs'), list.filter_app. f_equal.
    assert (in_seg v (region va sz off w) <-> va <= v <= va + sz) as Hin.
    { unfold in_seg. cbn. rewrite Hpf, u32_id by (unfold u32_mod; lia). done. }
    destruct (filter (in_seg v) l); [cbn|done].
    destruct (decide (va <= v <= va + sz)) as [H|H].
    + rewrite decide_True by (by apply Hin). done.
    + rewrite decide_False by (by rewrite Hin). done.
Qed.

(** A region with an unaligned base can lose its last page.  The size that
    is recorded is not adjusted for the rounding of the base, so when the last
    page of the region [va, va+sz) starts more than [sz] bytes above the
    rounded base, no segment is found for it, although the page count of the
    descriptor includes it. *)
Theorem as_define_region_unaligned a va sz off w last :
  as_segments a = None -> 0 <= va -> 0 <= sz -> va + sz <= USERSTACK ->
  last = (va + sz - 1) / 4096 * 4096 -> va / 4096 * 4096 + sz < last ->
  exists a' sd, as_define_region (fun _ => true) a va sz off w = Ok (0, a') /\
    has_segments a' [sd] /\ last < sd_vbase sd + sd_npage sd * 4096 /\ sd_get_by_addr a' last = Ok None.
Proof.
  unfold USERSTACK. intros Ha Hva Hsz0 Hsz -> Hlast.
  destruct (as_define_region_run a [] va sz off w) as (a' & Hrun & Hs & _);
    [by left|cbn; lia|unfold USERSTACK; lia|].
  exists a', (region va sz off w). split; [done|]. split; [done|].
  assert (0 <= va < 4294967296) as Hb by lia.
  split.
  - cbn. rewrite page_frame_floor by done.
    rewrite page_offset by done. unfold PAGE_SIZE. rewrite !(u32_id (sz + va mod 4096)), !(u32_id (_ + 4096)), u32_id
      by (unfold u32_mod; Z.to_euclidean_division_equations; lia).
    rewrite page_frame_floor by (Z.to_euclidean_division_equations; lia). Z.to_euclidean_division_equations; lia.
  - rewrite (sd_get_by_addr_run a' _ _ Hs). cbn [app]. rewrite filter_cons_False; [done|].
    unfold in_seg. cbn. rewrite page_frame_floor by done. rewrite u32_id by (unfold u32_mod; Z.to_euclidean_division_equations; lia).
    lia.
Qed.

(** ** Copies of address spaces *)

Lemma copy_segments_run old l n : forall i new,
  Array.wf old -> Array.contents old = Some <$> l -> (length l <= 5)%nat -> (i + n)%nat = length l ->
  Array.wf new -> Array.contents new = Some <$> take i l ->
  exists new', copy_segments n (fun _ => true) i old new = Ok (0, new') /\
    Array.wf new' /\ Array.contents new' = Some <$> l.
Proof.
  induction n as [|n IH]; intros i new Hwo Hco Hl Hn Hw Hc; cbn [copy_segments].
  { exists new. split; [done|]. split; [done|]. rewrite Hc. f_equal. apply take_ge. lia. }
  destruct (lookup_lt_is_Some_2 l i) as [sd Hsd]; [lia|].
  rewrite (Array.array_getguy_run old (Z.of_nat i) sd), Ok_bind;
    [|done|by rewrite Nat2Z.id, Hco, list_lookup_fmap, Hsd|lia].
  unfold sd_copy. cbn [sd_create]. rewrite !Ok_bind.
  replace (mk_segdef _ _ _ _ _) with sd by (by destruct sd).
  pose proof (Array.lists_num new (take i l) (conj Hw Hc)) as Hnum. rewrite length_take in Hnum.
  destruct (Array.array_add_run true new sd) as (r & new1 & -> & Hw1 & Hr); [done|unfold Array.lim; lia|].
  rewrite orb_true_r in Hr. destruct Hr as (-> & Hc1 & _). rewrite Ok_bind. cbn [Z.eqb negb].
  apply (IH (S i) new1); try done; [lia|]. rewrite Hc1, Hc, (take_S_r l i sd Hsd), fmap_app. done.
Qed.

Section Copies.
Context {file : Type} {SD : SwapDev file (list Z)} {SDL : SwapDevLaws file (list Z)}.
Context {CK : Clock} {CKL : ClockLaws}.
Context (elf_read : Z -> Z -> Z * list Z).
Local Abbreviation M := (M file (list Z)).
Local Abbreviation vm := (vm file (list Z)).
Context (lo : Z) (Hlo : 0 < lo /\ lo mod 4096 = 0).

Lemma as_copy_run old l elf tp p (s s' : vm) :
  has_segments old l -> as_elfbin old = Some elf -> pt_copymem tp p s = Ok (0, s') ->
  exists new, as_copy (fun _ => true) old tp p s = Ok ((0, Some new), s') /\
    has_segments new l /\ as_elfbin new = Some elf /\ stackb new = 0 /\ stackt new = 0.
Proof.
  intros (Hl & arr & Ha & Hwf & Hc) He Hcopy. unfold as_copy. cbn [as_create Array.array_create].
  rewrite Ha, He. mrun. unfold Array.array_getnum. rewrite (Array.lists_num arr l (conj Hwf Hc)), Nat2Z.id.
  destruct (copy_segments_run arr l (length l) 0 (Array.mk_array 0 0 None)) as (segs & -> & Hw' & Hc');
    try done.
  mrun. change (0 =? 0) with true. mrun. rewrite Hcopy. mrun. change (0 =? 0) with true. mrun.
  eexists. split; [done|]. split; [|done]. split; [done|]. by exists segs.
Qed.

(** A forked process cannot grow its stack.  The copy of an address space
    has the parent's segments and executable, but its stack bounds are zero:
    a fault of the child on a stack page it did not inherit is refused with
    EFAULT, where for the parent the same fault would be served. *)
Theorem as_copy_drops_stack old l elf tp p v ft s s' :
  has_segments old l -> as_elfbin old = Some elf -> pt_copymem tp p s = Ok (0, s') ->
  sd_get_by_addr old v = Ok None -> stackb old <= v <= stackt old ->
  ready lo p s' -> p <> 0 -> user_va v -> ~ in_memory s' p v -> (forall data, ~ swapped s' p v data) ->
  ft = VM_FAULT_READ \/ ft = VM_FAULT_WRITE ->
  exists new, as_copy (fun _ => true) old tp p s = Ok ((0, Some new), s') /\
    has_segments new l /\ as_elfbin new = as_elfbin old /\
    vm_fault elf_read (Some new) p ft v s' = Ok (Some EFAULT, s').
Proof.
  intros Hs He Hcopy Hsd _ Hr Hp Hv Hni Hns Hft.
  destruct (as_copy_run old l elf tp p s s' Hs He Hcopy) as (new & Hrun & Hs' & He' & Hb & Ht).
  exists new. split; [done|]. split; [done|]. split; [congruence|].
  rewrite (vm_fault_new elf_read lo) by done.
  assert (sd_get_by_addr new v = Ok None) as Hsd'.
  { by rewrite (sd_get_by_addr_run new l v Hs'), <- (sd_get_by_addr_run old l v Hs). }
  mrun. rewrite Hsd'. mrun. unfold fault_stack. rewrite Hb, Ht, Z.gtb_ltb.
  rewrite (proj2 (Z.ltb_lt 0 v)) by (destruct Hv; lia). by rewrite orb_true_r.
Qed.

(** The page just past a segment is handed out.  [sd_get_by_addr] counts
    the address after the last byte of a segment as part of it, so a fault on
    a page that starts exactly where a writable segment ends, below the stack,
    is served with a zero page instead of being refused. *)
Theorem vm_fault_past_segment a sd p v ft s :
  has_segments a [sd] -> v = sd_vbase sd + sd_segsz sd -> 0 <= sd_vbase sd <= v -> v < stackb a ->
  Z.land (sd_flags sd) TLBLO_DIRTY <> 0 -> int_min <= seg_offset sd v <= int_max ->
  elf_read (seg_offset sd v) 0 = (0, []) -> (forall pa d, ram s !! pa = Some d -> length d = 4096%nat) ->
  ready lo p s -> misses v s -> p <> 0 -> user_va v -> ~ in_memory s p v ->
  (forall data, ~ swapped s p v data) -> has_room s -> ft = VM_FAULT_READ \/ ft = VM_FAULT_WRITE ->
  exists s', vm_fault elf_read (Some a) p ft v s = Ok (Some 0, s') /\ ready lo p s' /\
    mapped p v (replicate 4096 0) true s'.
Proof using Hlo CKL SDL.
  intros Hs Hv Hb Hst Hw Hoff Hread Hsz Hr Hm Hp Hva Hni Hns Hroom Hft.
  assert (seg_bytes sd v = 0) as Hz by (unfold seg_bytes; lia). pose proof Hva as [Hvb _].
  rewrite (vm_fault_new elf_read lo) by done. mrun.
  rewrite (sd_get_by_addr_run a [sd] v Hs). rewrite filter_cons_True.
  2: { unfold in_seg. rewrite u32_id by (unfold u32_mod; lia). lia. }
  cbn [head]. mrun.
  destruct (fault_segment_run elf_read lo Hlo sd p v [] s) as
    (i & elo & s1 & pa & old & Hold & -> & Hr1 & Hi & Hent & Hval & Hwr & (j & e & He & Hpe & Hve & Hpa) & Hd & Hh);
    try done; [unfold u32_mod; lia|by rewrite Hz|].
  rewrite (proj2 (Z.eqb_neq _ 0) Hw). exists s1. split; [done|]. split; [done|].
  exists (Z.to_nat i), elo, j, e. split_and!; try done. rewrite Hd, Hz. f_equal.
  rewrite loaded_full; [done|lia|done|by eapply Hsz].
Qed.

(** Switching address spaces keeps processes apart only while addresses
    identify them.  Activating another address space empties the TLB, so that
    it is coherent for whichever process runs next; activating one at the
    address that is already active leaves it alone, and then every valid entry
    of the process that ran there before reaches a frame that is not the next
    process's. *)
Theorem as_activate_isolates act a p s :
  inv lo (0, 0) s -> coherent p s ->
  exists s', as_activate act a s = Ok (a, s') /\
    page_table s' = page_table s /\ ram s' = ram s /\
    (act <> a -> forall q, coherent q s') /\
    (act = a -> tlb s' = tlb s /\
       forall q i t, q <> p -> tlb s !! i = Some t -> valid t = true -> ~ coherent q s').
Proof.
  intros Hinv Hc. unfold as_activate. destruct (decide (act = a)) as [->|Hne].
  - exists s. split; [done|]. split; [done|]. split; [done|]. split; [done|]. intros _. split; [done|].
    intros q i t Hq Hi Ht Hcq. destruct (Hc i t Hi Ht) as (j & e & He & Hpe & _ & Hpa).
    destruct (Hcq i t Hi Ht) as (k & f & Hf & Hpf & _ & Hpa').
    destruct (inv_frame _ _ s Hinv j e He) as [E1 _], (inv_frame _ _ s Hinv k f Hf) as [E2 _].
    assert (j = k) as -> by (apply (frame_inj lo); congruence). congruence.
  - destruct (tlb_invalidate_run s (inv_tlb _ _ s Hinv) (inv_stats _ _ s Hinv)) as (l & st & Hrun & _ & _ & Hl).
    mrun. rewrite Hrun. mrun. eexists. split; [done|]. split; [done|]. split; [done|]. split; [|done].
    intros _ q i t Hi Ht. by rewrite (Hl i t Hi) in Ht.
Qed.

End Copies.
(** ** Witnesses *)

Lemma as_define_region_found_witness :
  exists a' sd, as_define_region (fun _ => true) (mk_as 0 0 None None) 4194304 5000 64 1 = Ok (0, a') /\
    sd_npage sd = 2 /\ sd_get_by_addr a' 4198400 = Ok (Some sd) /\ sd_get_by_addr a' 4202496 = Ok None.
Proof.
  destruct (as_define_region_found (mk_as 0 0 None None) [] 4194304 5000 64 1) as
    (a' & sd & Hrun & _ & _ & _ & _ & _ & Hn & _ & Hget).
  - left. split; reflexivity.
  - cbn. lia.
  - unfold USERSTACK. lia.
  - reflexivity.
  - unfold USERSTACK. lia.
  - exists a', sd. split; [exact Hrun|]. split; [exact Hn|]. split; rewrite Hget; reflexivity.
Defined.

Lemma as_define_region_unaligned_witness :
  exists a', as_define_region (fun _ => true) (mk_as 0 0 None None) 4198396 8 0 1 = Ok (0, a') /\
    sd_get_by_addr a' 4198400 = Ok None.
Proof.
  destruct (as_define_region_unaligned (mk_as 0 0 None None) 4198396 8 0 1 4198400) as (a' & sd & Hrun & _ & _ & Hget).
  - reflexivity.
  - lia.
  - lia.
  - unfold USERSTACK. lia.
  - reflexivity.
  - reflexivity.
  - exists a'. split; [exact Hrun|exact Hget].
Defined.

Lemma demo_as_segments flags : has_segments (demo_as flags) [demo_sd flags].
Proof.
  split; [cbn; lia|]. eexists. split; [reflexivity|]. split; [|reflexivity].
  unfold Array.wf, Array.lim. cbn. lia.
Qed.

Lemma as_copy_drops_stack_witness :
  exists new, as_copy (SD := disk 0) (CK := demo_clock) (fun _ => true) (demo_as 0) 4 5 (demo true) =
      Ok ((0, Some new), demo true) /\
    vm_fault (SD := disk 0) (CK := demo_clock) demo_elf (Some new) 5 VM_FAULT_WRITE 2147479552 (demo true) =
      Ok (Some EFAULT, demo true).
Proof.
  destruct (as_copy_drops_stack (SD := disk 0) (CK := demo_clock) demo_elf 4096 (demo_as 0) [demo_sd 0] 1 4 5 2147479552
    VM_FAULT_WRITE (demo true) (demo true) (demo_as_segments 0)) as (new & Hrun & _ & _ & Hf).
  - reflexivity.
  - reflexivity.
  - reflexivity.
  - split; apply Z.leb_le; reflexivity.
  - apply demo_ready.
  - lia.
  - split; [lia|reflexivity].
  - intros ([|[|[|[]]]] & e & He & Hp & Hv); try discriminate He; injection He as <-; discriminate Hp || discriminate Hv.
  - apply demo_absent; [intros [=]|lia].
  - right. reflexivity.
  - exists new. split; [exact Hrun|exact Hf].
Defined.

(** A writable segment of one page. *)
Definition page_sd : segdef := mk_segdef 4198400 4096 1 TLBLO_DIRTY 0.
Definition page_as : addrspace :=
  as_prepare_load (mk_as 0 0 (Some (Array.mk_array 1 1 (Some [Some page_sd]))) (Some 1)).

Lemma vm_fault_past_segment_witness :
  exists s', vm_fault (SD := disk 0) (CK := demo_clock) demo_elf (Some page_as) 2 VM_FAULT_WRITE 4202496 (demo true) =
      Ok (Some 0, s') /\ mapped 2 4202496 (replicate 4096 0) true s'.
Proof.
  destruct (vm_fault_past_segment (SDL := disk_laws 0) (CKL := demo_clock_laws) demo_elf 4096 demo_lo page_as page_sd
    2 4202496 VM_FAULT_WRITE (demo true)) as (s' & Hrun & _ & Hm).
  - split; [cbn; lia|]. eexists. split; [reflexivity|]. split; [|reflexivity].
    unfold Array.wf, Array.lim. cbn. lia.
  - reflexivity.
  - cbn. lia.
  - reflexivity.
  - discriminate.
  - split; apply Z.leb_le; reflexivity.
  - reflexivity.
  - intros pa d Hd. cbn in Hd.
    do 2 (apply lookup_insert_Some in Hd as [[_ <-]|[_ Hd]]; [apply fill_length|]).
    apply lookup_singleton_Some in Hd as [_ <-]. apply fill_length.
  - apply demo_ready.
  - apply demo_misses.
  - lia.
  - split; [lia|reflexivity].
  - intros ([|[|[|[]]]] & e & He & Hp & Hv); try discriminate He; injection He as <-; discriminate Hp || discriminate Hv.
  - apply demo_absent; [intros [=]|lia].
  - exact demo_room_free.
  - right. reflexivity.
  - exists s'. split; [exact Hrun|exact Hm].
Defined.

Lemma as_activate_isolates_witness :
  (exists s', as_activate (Some 1) (Some 2) demo_mapped = Ok (Some 2, s') /\ coherent 3 s') /\
  (exists s', as_activate (Some 1) (Some 1) demo_mapped = Ok (Some 1, s') /\ ~ coherent 3 s').
Proof.
  pose proof (rd_inv _ _ _ demo_mapped_ready) as Hi. pose proof (rd_coherent _ _ _ demo_mapped_ready) as Hc.
  split.
  - destruct (as_activate_isolates (SD := disk 0) (CK := demo_clock) 4096 (Some 1) (Some 2) 2 demo_mapped Hi Hc)
      as (s' & Hrun & _ & _ & Hne & _). exists s'. split; [exact Hrun|]. apply Hne. discriminate.
  - destruct (as_activate_isolates (SD := disk 0) (CK := demo_clock) 4096 (Some 1) (Some 1) 2 demo_mapped Hi Hc)
      as (s' & Hrun & _ & _ & _ & Heq). exists s'. split; [exact Hrun|].
    destruct (Heq eq_refl) as [_ H]. apply (H 3 0%nat (4194304, 4608)); [lia|reflexivity|reflexivity].
Defined.

End AsOps.
