(* ===== verification/Boot.v ===== *)
(** * Bootstrap of the memory system: kern/arch/mips/mips/ram.c,
    [coremap_bootstrap] and [is_coremap_initialized] of kern/vm/coremap.c,
    [pt_init] of kern/vm/pt.c, [alloc_kpages] of kern/vm/addrspace.c

    Before the coremap exists, pages are taken from the bottom of free memory
    and never returned.  The bootstrap then puts the coremap and the page table
    at the bottom of what is left; the two tables are lists of [total_pages]
    entries whose first contents are whatever that memory held. *)

From S2P Require Import Prelude VmState Coremap Swap TlbHw PageTable Paging PagingOps.
Import Vm Coremap Swap TlbHw PageTable Paging PagingOps.

Module Boot.

(** ** Physical memory *)

Record ram_state : Type := mk_ram {
  firstpaddr : Z;
  lastpaddr : Z;
}.

Definition ram_bootstrap (mips_ramsize firstfree : Z) : ram_state :=
  let ramsize := if mips_ramsize >? 508 * 1024 * 1024 then 508 * 1024 * 1024 else mips_ramsize in
  mk_ram (u32 (firstfree - 2147483648)) ramsize.

Definition ram_stealmem (r : ram_state) (npages : Z) : Z * ram_state :=
  let size := u32 (npages * PAGE_SIZE) in
  if u32 (firstpaddr r + size) >? lastpaddr r then (0, r)
  else (firstpaddr r, mk_ram (u32 (firstpaddr r + size)) (lastpaddr r)).

Definition ram_getsize (r : ram_state) : Z * Z * ram_state :=
  (firstpaddr r, lastpaddr r, mk_ram 0 0).

Definition is_coremap_initialized (coremap_init : bool) (r : ram_state) (n : Z) : Z * ram_state :=
  if coremap_init then (0, r)
  else let '(pa, r') := ram_stealmem r n in (PADDR_TO_KVADDR pa, r').

(** ** The tables *)

(** [sizeof(struct coremap_entry)] and [sizeof(struct page_table_entry)] *)
Definition SIZEOF_CME : Z := 16.
Definition SIZEOF_PTE : Z := 24.

Section Boot.
Context {file page : Type} {SD : SwapDev file page} {CK : Clock}.
Local Abbreviation M := (M file page).
Local Abbreviation vm := (vm file page).

(** [for(i=0; i<total_pages; i++)] of [coremap_bootstrap], [k] rounds left. *)
Fixpoint cm_init_loop (k : nat) (i coremap_size : Z) : M unit :=
  match k with
  | O => mret tt
  | S k' =>
      (if i <? coremap_size then claim_entry i 1 else free_page i);;
      cm_init_loop k' (i + 1) coremap_size
  end.

(** One round of the loops of [pt_init]: the coremap's own pages, the page
    table's, and the rest.  [pid] is not written. *)
Definition pt_init_entry (i coremap_size pt_size starting_paddr coremap_vaddr pt_vaddr total_pages : Z) : M unit :=
  e ← pt_rd i;
  let pa := u32 (starting_paddr + i * PAGE_SIZE) in
  if i <? coremap_size then
    pt_wr i (mk_pte (u32 (coremap_vaddr + i * PAGE_SIZE)) pa (pid e) (s32 (coremap_vaddr - i)) 1 0)
  else if i <? pt_size + coremap_size then
    pt_wr i (mk_pte (u32 (pt_vaddr + (i - coremap_size) * PAGE_SIZE)) pa (pid e)
      (total_pages - (i - coremap_size)) 1 0)
  else pt_wr i (mk_pte 0 pa (pid e) (npages e) 1 0).

(** A loop of [pt_init] from [i], [k] rounds left. *)
Fixpoint pt_init_loop (k : nat) (i coremap_size pt_size starting_paddr coremap_vaddr pt_vaddr total_pages : Z) :
    M unit :=
  match k with
  | O => mret tt
  | S k' =>
      pt_init_entry i coremap_size pt_size starting_paddr coremap_vaddr pt_vaddr total_pages;;
      pt_init_loop k' (i + 1) coremap_size pt_size starting_paddr coremap_vaddr pt_vaddr total_pages
  end.

Definition pt_init (pages coremap_size starting_paddr coremap_vaddr : Z) : M Z :=
  lock_acquire pt_mutex;;
  let pt_paddr := u32 (starting_paddr + coremap_size * PAGE_SIZE) in
  let pt_vaddr := PADDR_TO_KVADDR pt_paddr in
  let pt_size := (SIZEOF_PTE * pages + PAGE_SIZE - 1) / PAGE_SIZE in
  pt_init_loop (Z.to_nat coremap_size) 0 coremap_size pt_size starting_paddr coremap_vaddr pt_vaddr pages;;
  pt_init_loop (Z.to_nat (pages - coremap_size)) coremap_size coremap_size pt_size starting_paddr coremap_vaddr
    pt_vaddr pages;;
  lock_release pt_mutex;;
  mret pt_size.

Definition ram_pages (lo hi : Z) : Z := (hi - lo) / PAGE_SIZE.
Definition coremap_size (total : Z) : Z := (SIZEOF_CME * total + PAGE_SIZE - 1) / PAGE_SIZE.
Definition pt_pages (total : Z) : Z := (SIZEOF_PTE * total + PAGE_SIZE - 1) / PAGE_SIZE.

(** [vm_bootstrap]; the creation of the two mutexes, which allocates, comes
    before. *)
Definition coremap_bootstrap (r : ram_state) : M ram_state :=
  lock_acquire coremap_mutex;;
  let '(lo, hi, r') := ram_getsize r in
  let total := ram_pages lo hi in
  let cs := coremap_size total in
  let coremap_vaddr := PADDR_TO_KVADDR lo in
  cm_init_loop (Z.to_nat total) 0 cs;;
  pt_size ← pt_init total cs lo coremap_vaddr;
  mark_kernel (Z.to_nat pt_size) cs;;
  lock_release coremap_mutex;;
  mret r'.

Definition alloc_kpages (coremap_init : bool) (r : ram_state) (npages : Z) : M (Z * ram_state) :=
  let '(va0, r') := is_coremap_initialized coremap_init r npages in
  if negb (va0 =? 0) then mret (va0, r')
  else va0 ← pt_alloc_kpages 0 npages; mret (va0, r').

(** ** Runs *)

Lemma free_page_run i e (s : vm) :
  coremap s !! Z.to_nat i = Some e -> 0 <= i ->
  free_page i s = Ok (tt, set_coremap (<[Z.to_nat i := mk_cme 0 0 (secs e) (nsecs e)]> (coremap s)) s).
Proof.
  intros He Hi. unfold free_page. rewrite run_bind, (cm_rd_run i e) by done. mrun.
  apply cm_wr_run. apply lookup_lt_Some in He. lia.
Qed.

(** An entry after the first loop. *)
Definition cm_fresh (cs : Z) (j : nat) (c : coremap_entry) : Prop :=
  if decide (Z.of_nat j < cs) then in_use c = 1 /\ is_kernel c = 1 else in_use c = 0 /\ is_kernel c = 0.

Lemma cm_init_loop_run cs k : forall i (s : vm),
  0 <= i -> i + Z.of_nat k <= zlen (coremap s) ->
  exists l c, cm_init_loop k i cs s = Ok (tt, set_clock c (set_coremap l s)) /\
    length l = length (coremap s) /\
    (forall j, Z.of_nat j < i -> l !! j = coremap s !! j) /\
    (forall j e, i <= Z.of_nat j < i + Z.of_nat k -> l !! j = Some e -> cm_fresh cs j e).
Proof.
  induction k as [|k IH]; intros i s Hi Hk; cbn [cm_init_loop].
  { exists (coremap s), (clock s). split; [by destruct s|]. split; [done|]. split; [done|]. lia. }
  destruct (lookup_lt_is_Some_2 (coremap s) (Z.to_nat i)) as [e He]; [lia|].
  assert (exists c0 f, cm_fresh cs (Z.to_nat i) f /\
    (if i <? cs then claim_entry i 1 else free_page i) s =
      Ok (tt, set_clock c0 (set_coremap (<[Z.to_nat i := f]> (coremap s)) s))) as (c0 & f & Hf & Hrun).
  { unfold cm_fresh. rewrite Z2Nat.id by done. destruct (Z.ltb_spec i cs).
    - rewrite claim_entry_run by lia. do 2 eexists. split; [|reflexivity]. by rewrite decide_True.
    - rewrite (free_page_run i e) by done. exists (clock s), (mk_cme 0 0 (secs e) (nsecs e)).
      split; [by rewrite decide_False by lia|by destruct s]. }
  rewrite run_bind, Hrun, Ok_bind. set (s1 := set_clock c0 _).
  destruct (IH (i + 1) s1) as (l & c & -> & Hl & Hlow & Hmid); [lia|unfold s1; cbn; rewrite length_insert; lia|].
  unfold s1 in Hl, Hlow. cbn in Hl, Hlow. rewrite length_insert in Hl.
  exists l, c. split; [by destruct s|]. split; [done|]. split.
  - intros j Hj. rewrite Hlow by lia. by rewrite list_lookup_insert_ne by lia.
  - intros j g Hj Hg. destruct (decide (j = Z.to_nat i)) as [->|Hne]; [|apply (Hmid j g); [lia|done]].
    rewrite Hlow in Hg by lia. rewrite list_lookup_insert_eq in Hg by lia. congruence.
Qed.

(** What [pt_init] makes of entry [i]. *)
Definition fresh_pte (cs ps lo cv pv total : Z) (i : Z) (e : page_table_entry) : page_table_entry :=
  let pa := u32 (lo + i * PAGE_SIZE) in
  if i <? cs then mk_pte (u32 (cv + i * PAGE_SIZE)) pa (pid e) (s32 (cv - i)) 1 0
  else if i <? ps + cs then mk_pte (u32 (pv + (i - cs) * PAGE_SIZE)) pa (pid e) (total - (i - cs)) 1 0
  else mk_pte 0 pa (pid e) (npages e) 1 0.

Lemma fresh_pte_pid cs ps lo cv pv total i e : pid (fresh_pte cs ps lo cv pv total i e) = pid e.
Proof. unfold fresh_pte. by do 2 (case_match; [done|]). Qed.

Lemma fresh_pte_paddr cs ps lo cv pv total i e :
  paddr (fresh_pte cs ps lo cv pv total i e) = u32 (lo + i * PAGE_SIZE).
Proof. unfold fresh_pte. by do 2 (case_match; [done|]). Qed.

(** The kernel's entries have their direct-mapped addresses. *)
Lemma fresh_pte_vaddr cs ps lo total j e :
  0 < lo /\ lo mod 4096 = 0 -> 0 <= cs -> Z.of_nat j < cs + ps -> frame lo j < 536870912 ->
  vaddr (fresh_pte cs ps lo (PADDR_TO_KVADDR lo) (PADDR_TO_KVADDR (u32 (lo + cs * PAGE_SIZE))) total (Z.of_nat j) e)
    = frame lo j + 2147483648.
Proof.
  unfold frame, fresh_pte, PADDR_TO_KVADDR, PAGE_SIZE. intros [Hlo _] Hcs Hj Hb. 
  destruct (Z.ltb_spec (Z.of_nat j) cs); cbn [vaddr].
  - rewrite (u32_id (lo + 2147483648)), u32_id by (unfold u32_mod; lia). lia.
  - rewrite (proj2 (Z.ltb_lt _ _)) by lia. cbn [vaddr].
    rewrite (u32_id (lo + cs * 4096)), (u32_id (lo + cs * 4096 + _)), u32_id by (unfold u32_mod; lia). lia.
Qed.

Lemma frame_bound lo hi j :
  lo <= hi <= 508 * 1024 * 1024 -> Z.of_nat j < ram_pages lo hi -> frame lo j < 536870912.
Proof. unfold ram_pages, frame, PAGE_SIZE. intros Hh Hj. Z.to_euclidean_division_equations; lia. Qed.

Lemma swap_table_free k w : swap_table_init !! k = Some w -> va w = 0.
Proof. unfold swap_table_init. by intros [-> _]%lookup_replicate. Qed.

Lemma pt_init_loop_run cs ps lo cv pv total k : forall i (s : vm),
  0 <= i -> i + Z.of_nat k <= zlen (page_table s) ->
  exists l, pt_init_loop k i cs ps lo cv pv total s = Ok (tt, set_page_table l s) /\
    forall j, l !! j = match page_table s !! j with
      | Some e => Some (if decide (i <= Z.of_nat j < i + Z.of_nat k)
                        then fresh_pte cs ps lo cv pv total (Z.of_nat j) e else e)
      | None => None
      end.
Proof.
  induction k as [|k IH]; intros i s Hi Hk; cbn [pt_init_loop].
  { exists (page_table s). split; [by destruct s|]. intros j. destruct (page_table s !! j); [|done].
    by rewrite decide_False by lia. }
  destruct (lookup_lt_is_Some_2 (page_table s) (Z.to_nat i)) as [e He]; [lia|].
  assert (pt_init_entry i cs ps lo cv pv total s =
    Ok (tt, set_page_table (<[Z.to_nat i := fresh_pte cs ps lo cv pv total i e]> (page_table s)) s)) as Hrun.
  { unfold pt_init_entry, fresh_pte. rewrite run_bind, (pt_rd_run i e) by done. rewrite Ok_bind.
    destruct (i <? cs); [by apply pt_wr_run; lia|]. destruct (i <? ps + cs); by apply pt_wr_run; lia. }
  rewrite run_bind, Hrun, Ok_bind. set (s1 := set_page_table _ s).
  destruct (IH (i + 1) s1) as (l & -> & Hl); [lia|unfold s1; cbn; rewrite length_insert; lia|].
  exists l. split; [by destruct s|]. intros j. rewrite Hl. unfold s1. cbn [page_table set_page_table].
  destruct (decide (j = Z.to_nat i)) as [->|Hne].
  - rewrite list_lookup_insert_eq, He by lia. rewrite decide_False, decide_True by lia. by rewrite Z2Nat.id.
  - rewrite list_lookup_insert_ne by done. destruct (page_table s !! j); [|done].
    destruct (decide (i + 1 <= Z.of_nat j < i + 1 + Z.of_nat k)).
    + by rewrite decide_True by lia.
    + by rewrite decide_False by lia.
Qed.

Lemma pt_init_run total cs lo cv (s : vm) :
  pt_mutex ∉ held s -> zlen (page_table s) = total -> 0 <= cs <= total ->
  exists l, pt_init total cs lo cv s = Ok (pt_pages total, set_page_table l s) /\
    forall j, l !! j = match page_table s !! j with
      | Some e => Some (fresh_pte cs (pt_pages total) lo cv (PADDR_TO_KVADDR (u32 (lo + cs * PAGE_SIZE))) total
                          (Z.of_nat j) e)
      | None => None
      end.
Proof.
  intros Hh Hl Hcs. unfold pt_init. rewrite run_bind, run_acquire by done. rewrite Ok_bind.
  fold (pt_pages total). set (pv := PADDR_TO_KVADDR _). set (s1 := set_held _ s). rewrite run_bind.
  destruct (pt_init_loop_run cs (pt_pages total) lo cv pv total (Z.to_nat cs) 0 s1) as (l1 & -> & H1); [lia|cbn; lia|].
  rewrite Ok_bind, run_bind. set (s2 := set_page_table l1 s1).
  assert (length l1 = length (page_table s)) as Hl1.
  { apply same_lookup_length. intros j. rewrite H1. unfold s1. cbn. by destruct (page_table s !! j). }
  destruct (pt_init_loop_run cs (pt_pages total) lo cv pv total (Z.to_nat (total - cs)) cs s2) as (l2 & -> & H2);
    [lia|cbn; lia|].
  rewrite Ok_bind, run_bind, (run_release _ _ (held s)) by done. rewrite Ok_bind, run_ret.
  exists l2. split; [by destruct s|]. intros j. rewrite H2. unfold s2. cbn [page_table set_page_table]. rewrite H1.
  unfold s1. cbn [page_table set_held]. destruct (page_table s !! j) as [e|] eqn:E; [|done]. f_equal.
  apply lookup_lt_Some in E.
  destruct (decide (cs <= Z.of_nat j < cs + Z.of_nat (Z.to_nat (total - cs)))).
  - by rewrite decide_False by lia.
  - by rewrite decide_True by lia.
Qed.

(** The memory as the bootstrap finds it: room for the two tables, and zeros in
    place of the process numbers of the page table, which [pt_init] does not
    write. *)
Record bare (lo hi : Z) (s : vm) : Prop := mk_bare {
  bare_lo : 0 < lo /\ lo mod 4096 = 0;
  bare_hi : lo <= hi <= 508 * 1024 * 1024;
  bare_fit : coremap_size (ram_pages lo hi) + pt_pages (ram_pages lo hi) <= ram_pages lo hi;
  bare_cm : zlen (coremap s) = ram_pages lo hi;
  bare_pt : zlen (page_table s) = ram_pages lo hi;
  bare_pid i e : page_table s !! i = Some e -> pid e = 0;
  bare_ram i : (i < length (page_table s))%nat -> is_Some (ram s !! frame lo i);
  bare_held : held s = [];
  bare_stats : zlen (stats_counts s) = VMSTAT_COUNT;
  bare_tlb : zlen (tlb s) = NUM_TLB;
}.

(** The tables after the bootstrap. *)
Lemma coremap_bootstrap_run lo hi (s : vm) :
  bare lo hi s ->
  let total := ram_pages lo hi in let cs := coremap_size total in
  exists l c pt, coremap_bootstrap (mk_ram lo hi) s =
      Ok (mk_ram 0 0, set_clock c (set_page_table pt (set_coremap l s))) /\
    length l = length (coremap s) /\
    (forall j e, l !! j = Some e -> cm_fresh (cs + pt_pages total) j e) /\
    forall j, pt !! j = match page_table s !! j with
      | Some e => Some (fresh_pte cs (pt_pages total) lo (PADDR_TO_KVADDR lo)
                          (PADDR_TO_KVADDR (u32 (lo + cs * PAGE_SIZE))) total (Z.of_nat j) e)
      | None => None
      end.
Proof.
  intros [] total cs. fold total cs in bare_fit0, bare_cm0, bare_pt0.
  assert (0 <= cs /\ 0 <= pt_pages total) as [Hcs Hps].
  { unfold cs, coremap_size, pt_pages, SIZEOF_CME, SIZEOF_PTE, PAGE_SIZE. split; apply Z.div_pos; lia. }
  unfold coremap_bootstrap. rewrite run_bind, run_acquire by (rewrite bare_held0; apply not_elem_of_nil).
  rewrite Ok_bind. cbn [ram_getsize firstpaddr lastpaddr]. fold total cs. rewrite run_bind.
  set (s1 := set_held _ s).
  destruct (cm_init_loop_run cs (Z.to_nat total) 0 s1) as (l1 & c1 & -> & Hl1 & _ & Hf1); [lia|cbn; lia|].
  rewrite Ok_bind, run_bind. set (s2 := set_clock c1 _).
  destruct (pt_init_run total cs lo (PADDR_TO_KVADDR lo) s2) as (pt & -> & Hpt); [|done|lia|].
  { unfold s2, s1. cbn. rewrite bare_held0. intros ?%list_elem_of_singleton. done. }
  rewrite Ok_bind, run_bind. set (s3 := set_page_table pt s2).
  destruct (mark_kernel_run (Z.to_nat (pt_pages total)) cs s3) as (l2 & -> & Hl2 & Hf2);
    [lia|unfold s3, s2, s1 in *; cbn in *; lia|].
  rewrite Ok_bind, run_bind, (run_release _ _ []) by
    (unfold s3, s2, s1; cbn; rewrite ?bare_held0; done || apply not_elem_of_nil).
  rewrite Ok_bind, run_ret. exists l2. do 2 eexists. split; [by rewrite <- bare_held0; destruct s|].
  unfold s3, s2, s1 in Hl2, Hl1, Hf2, Hpt. cbn in Hl2, Hl1, Hf2, Hpt. split; [congruence|]. split; [|done].
  intros j e He. pose proof (lookup_lt_Some _ _ _ He) as Hj. unfold cm_fresh. rewrite Hf2 in He.
  destruct (decide (cs <= Z.of_nat j < _)) as [Hd|Hd].
  - injection He as <-. by rewrite decide_True by lia.
  - specialize (Hf1 j e ltac:(lia) He). unfold cm_fresh in Hf1.
    destruct (decide (Z.of_nat j < cs)).
    + by rewrite decide_True by lia.
    + by rewrite decide_False by lia.
Qed.

(** C34. The bootstrap sets the memory system up.  On a machine whose tables fit,
    [coremap_bootstrap] and then [swap_bootstrap] establish the invariant of the
    paging system: the frames of the coremap and the page table themselves are in
    use by the kernel, entered under their direct-mapped addresses, and every other
    frame is free.  The memory of the page table has to hold zeros where the
    process numbers are, since [pt_init] never writes them. *)
Theorem coremap_bootstrap_inv lo hi (s : vm) :
  bare lo hi s ->
  exists s1 s', coremap_bootstrap (mk_ram lo hi) s = Ok (mk_ram 0 0, s1) /\ swap_bootstrap s1 = Ok (tt, s') /\
    inv lo (0, 0) s' /\ kernel_addrs lo s' /\ held s' = [] /\
    forall j c, coremap s' !! j = Some c ->
      if decide (Z.of_nat j < coremap_size (ram_pages lo hi) + pt_pages (ram_pages lo hi))
      then in_use c = 1 /\ is_kernel c = 1 else is_free c.
Proof.
  intros Hb. destruct (coremap_bootstrap_run lo hi s Hb) as (l & c & pt & -> & Hl & Hf & Hpt).
  pose proof Hb as []. set (total := ram_pages lo hi) in *. set (cs := coremap_size total) in *.
  assert (0 <= cs) as Hcs by (unfold cs, coremap_size, SIZEOF_CME, PAGE_SIZE; apply Z.div_pos; lia).
  assert (forall j c, l !! j = Some c -> ~ is_user c) as Hnu.
  { intros j c' Hc. specialize (Hf j c' Hc). unfold cm_fresh in Hf. unfold is_user. case_decide; lia. }
  assert (forall j e, pt !! j = Some e -> pid e = 0 /\ 0 <= Z.of_nat j < total /\ is_Some (ram s !! frame lo j) /\
    exists e0, e = fresh_pte cs (pt_pages total) lo (PADDR_TO_KVADDR lo)
      (PADDR_TO_KVADDR (u32 (lo + cs * PAGE_SIZE))) total (Z.of_nat j) e0) as Hp.
  { intros j e He. rewrite Hpt in He. destruct (page_table s !! j) as [e0|] eqn:E; [|done]. injection He as <-.
    pose proof (lookup_lt_Some _ _ _ E). rewrite fresh_pte_pid, (bare_pid0 j e0 E).
    split; [done|]. split; [lia|]. split; [by apply bare_ram0|by exists e0]. }
  assert (forall j, 0 <= Z.of_nat j < total -> frame lo j < 536870912) as Hframe.
  { intros j Hj. apply (frame_bound lo hi); [done|lia]. }
  eexists. eexists. split; [done|]. split.
  { unfold swap_bootstrap. rewrite run_bind, run_acquire by (cbn; rewrite bare_held0; apply not_elem_of_nil). rewrite Ok_bind. mrun.
    rewrite (run_release _ _ []) by (cbn; rewrite ?bare_held0; done || apply not_elem_of_nil). done. }
  split; [|split; [|split; [done|]]].
  - constructor; try done.
    + cbn. rewrite Hl. assert (length pt = length (page_table s)) as ->; [|lia].
      apply same_lookup_length. intros j. rewrite Hpt. by destruct (page_table s !! j).
    + intros j e He. destruct (Hp j e He) as (_ & Hj & Hr & e0 & ->). specialize (Hframe j Hj).
      rewrite fresh_pte_paddr. unfold frame, PAGE_SIZE in *.
      rewrite u32_id by (unfold u32_mod; lia). split; [lia|]. split; [lia|done].
    + intros j e c' He Hc. destruct (Hp j e He) as [-> _]. specialize (Hnu j c' Hc). by split.
    + intros i j e f He _ Hpe. destruct Hpe. by apply (Hp i e He).
    + intros k w Hk Hv. by rewrite (swap_table_free k w) in Hv by exact Hk.
    + intros k j w u Hk _ Hv. by rewrite (swap_table_free k w) in Hv by exact Hk.
    + intros i e k w He _ Hpe. destruct Hpe. by apply (Hp i e He).
    + intros j c' Hc Hu. by destruct (Hnu j c' Hc).
  - intros j e c' He Hc Hk. destruct (Hp j e He) as (_ & Hj & _ & e0 & ->). specialize (Hf j c' Hc).
    unfold cm_fresh in Hf. case_decide as Hd; [|lia]. specialize (Hframe j Hj).
    apply fresh_pte_vaddr; [done|done|lia|done].
  - intros j c' Hc. specialize (Hf j c' Hc). unfold cm_fresh in Hf.
    destruct (decide (Z.of_nat j < cs + pt_pages total)); [done|by destruct Hf].
Qed.


(** Running out of memory before the bootstrap goes unnoticed.  While there
    is memory, [alloc_kpages] hands out the pages below the next free one, in
    order, and never the same twice; when there is not enough left, it returns
    the address of the exception handlers' page, 0x80000000, where callers
    expect 0. *)
Theorem alloc_kpages_before_boot r n (s : vm) :
  0 <= firstpaddr r <= lastpaddr r -> lastpaddr r <= 508 * 1024 * 1024 -> 0 <= n <= 100000 ->
  (firstpaddr r + n * 4096 <= lastpaddr r ->
     exists r', alloc_kpages false r n s = Ok ((firstpaddr r + 2147483648, r'), s) /\
       firstpaddr r' = firstpaddr r + n * 4096 /\ lastpaddr r' = lastpaddr r) /\
  (lastpaddr r < firstpaddr r + n * 4096 -> alloc_kpages false r n s = Ok ((2147483648, r), s)).
Proof.
  intros Hr Hl Hn. unfold alloc_kpages, is_coremap_initialized, ram_stealmem, PADDR_TO_KVADDR, PAGE_SIZE.
  rewrite (u32_id (n * 4096)), !(u32_id (firstpaddr r + n * 4096)) by (unfold u32_mod; lia). rewrite Z.gtb_ltb.
  split; intros Hfit.
  - rewrite (proj2 (Z.ltb_ge _ _)) by lia. rewrite u32_id by (unfold u32_mod; lia).
    rewrite (proj2 (Z.eqb_neq _ 0)) by lia. eexists. split; [reflexivity|done].
  - rewrite (proj2 (Z.ltb_lt _ _)) by lia. reflexivity.
Qed.

End Boot.

(** ** Witnesses *)

(** Four frames from 4096 on. *)
Definition bare_demo : vm (gmap Z (list Z)) (list Z) :=
  mk_vm (replicate 4 (mk_cme 5 5 5 5)) (replicate 4 (mk_pte 9 9 0 9 9 9))
    {[4096 := fill 1; 8192 := fill 2; 12288 := fill 3; 16384 := fill 4]} (replicate 64 (0, 0)) 0
    [] ∅ [] [] (replicate 10 0) 0 [].

Lemma bare_demo_bare : bare 4096 20480 bare_demo.
Proof.
  constructor; try reflexivity.
  - exact demo_lo.
  - lia.
  - apply Z.leb_le. reflexivity.
  - intros i e He. apply (lookup_replicate 4) in He as [-> _]. reflexivity.
  - intros [|[|[|[|i]]]] Hi; [by eexists..|]. cbn in Hi. lia.
Qed.

Lemma coremap_bootstrap_inv_witness :
  exists s1 s', coremap_bootstrap (CK := demo_clock) (mk_ram 4096 20480) bare_demo = Ok (mk_ram 0 0, s1) /\ swap_bootstrap s1 = Ok (tt, s') /\
    inv (SD := disk 0) (CK := demo_clock) 4096 (0, 0) s'.
Proof.
  destruct (coremap_bootstrap_inv (SD := disk 0) (CK := demo_clock) 4096 20480 bare_demo bare_demo_bare) as
    (s1 & s' & Hrun & Hsw & Hinv & _). exists s1, s'. split; [exact Hrun|]. split; [exact Hsw|exact Hinv].
Defined.

Lemma alloc_kpages_before_boot_witness :
  alloc_kpages (CK := demo_clock) false (mk_ram 8192 16384) 3 bare_demo = Ok ((2147483648, mk_ram 8192 16384), bare_demo).
Proof.
  apply (alloc_kpages_before_boot (CK := demo_clock) (mk_ram 8192 16384) 3 bare_demo); cbn; lia.
Defined.

End Boot.
