(* ===== verification/Sched.v ===== *)
(** * Threads and the scheduler: kern/thread/thread.c, kern/thread/scheduler.c

    The lists a thread can be on (run queue, sleepers, zombies) and the moves
    between them.  A thread is its address.  The run queue is used through the
    interface [RunQueue], which the ring buffer of Queue.v implements; the
    other two are the arrays of Array.v.  The boolean functions [km] say which
    allocations succeed.

    All functions run with interrupts off.  [mi_switch] is two steps: the
    current thread is stashed and [curthread] cleared, and, as soon as the run
    queue is not empty, [scheduler] takes its head.  In between the machine is
    in the idle loop, where interrupt handlers may make threads runnable. *)

From S2P Require Import Prelude Array Queue.

(** What the thread system needs of a run queue. *)
Class RunQueue (Q : Type) := {
  rq_addtail : (nat -> bool) -> Q -> Z -> outcome (Z * Q);
  rq_remhead : Q -> outcome (Z * Q);
  rq_empty : Q -> bool;
  rq_preallocate : (nat -> bool) -> Q -> Z -> outcome (Z * Q);
  rq_repr : Q -> list Z -> Prop;
}.

(** The number of threads for which no index of the tables overflows. *)
Definition MAX_THREADS : Z := 134217727.

Class RunQueueLaws (Q : Type) `{RunQueue Q} := {
  rq_addtail_ok km q xs x :
    rq_repr q xs -> zlen xs < MAX_THREADS ->
    exists r q', rq_addtail km q x = Ok (r, q') /\
      ((r = 0 /\ rq_repr q' (xs ++ [x])) \/ (r <> 0 /\ q' = q /\ km 1%nat = false));
  rq_remhead_ok q x xs :
    rq_repr q (x :: xs) -> exists q', rq_remhead q = Ok (x, q') /\ rq_repr q' xs;
  rq_empty_ok q xs : rq_repr q xs -> rq_empty q = bool_decide (xs = []);
  rq_preallocate_ok km q xs n :
    rq_repr q xs -> zlen xs < n <= MAX_THREADS ->
    exists r q', rq_preallocate km q n = Ok (r, q') /\ rq_repr q' xs /\ (r <> 0 -> km 1%nat = false);
}.

(** The ring buffer is such a queue. *)
#[export] Instance queue_RunQueue : RunQueue (Queue.queue Z) := {|
  rq_addtail := Queue.q_addtail;
  rq_remhead := Queue.q_remhead;
  rq_empty := Queue.q_empty;
  rq_preallocate := Queue.q_preallocate;
  rq_repr := Queue.repr;
|}.

#[export] Instance queue_RunQueueLaws : RunQueueLaws (Queue.queue Z).
Proof.
  constructor; unfold MAX_THREADS.
  - intros km q xs x Hr Hl. destruct (Queue.addtail_ok km q xs x Hr) as (r & q' & Hrun & Hres); [lia|].
    exists r, q'. split; [exact Hrun|]. destruct (zlen xs <? Queue.q_size q - 1), (km 1%nat) eqn:E; cbn in Hres;
      [left; by destruct Hres as (-> & ? & _)..|right; by destruct Hres as [-> ->]].
  - intros q x xs Hr. destruct (Queue.remhead_ok q x xs Hr) as (q' & Hrun & Hr' & _). by exists q'.
  - apply Queue.empty_ok.
  - intros km q xs n Hr Hn. cbn. unfold Queue.q_preallocate. pose proof (Queue.repr_size _ _ Hr).
    rewrite (proj2 (Z.ltb_lt 0 _)) by lia. cbn [c_assert]. rewrite Ok_bind.
    destruct (Queue.q_size q <? n); [|by exists 0, q].
    destruct (Queue.grow_ok 0 km (km 1%nat) q xs n Hr) as (r & q' & Hrun & Hres); [unfold Queue.qlim; lia|lia|].
    exists r, q'. rewrite Hrun. split; [done|]. destruct (km 1%nat).
    + destruct Hres as (-> & ? & _). done.
    + by destruct Hres as [-> ->].
Qed.

Module Sched.

Inductive threadstate : Type := S_RUN | S_READY | S_SLEEP | S_ZOMB.

Section Sched.
Context {addr : Type} `{EqDecision addr}.
Context {Q : Type} {RQ : RunQueue Q} {RQL : RunQueueLaws Q}.

(** [t_sleepaddr]: no entry is the NULL pointer. *)
Record tsys : Type := mk_tsys {
  curthread : option Z;
  runqueue : Q;
  sleepers : Array.array Z;
  zombies : Array.array Z;
  numthreads : Z;
  t_sleepaddr : gmap Z addr;
}.

Definition set_cur c (s : tsys) : tsys := mk_tsys c (runqueue s) (sleepers s) (zombies s) (numthreads s) (t_sleepaddr s).
Definition set_runqueue q (s : tsys) : tsys := mk_tsys (curthread s) q (sleepers s) (zombies s) (numthreads s) (t_sleepaddr s).
Definition set_sleepers l (s : tsys) : tsys := mk_tsys (curthread s) (runqueue s) l (zombies s) (numthreads s) (t_sleepaddr s).
Definition set_zombies l (s : tsys) : tsys := mk_tsys (curthread s) (runqueue s) (sleepers s) l (numthreads s) (t_sleepaddr s).
Definition set_numthreads n (s : tsys) : tsys := mk_tsys (curthread s) (runqueue s) (sleepers s) (zombies s) n (t_sleepaddr s).
Definition set_addrs m (s : tsys) : tsys := mk_tsys (curthread s) (runqueue s) (sleepers s) (zombies s) (numthreads s) m.

(** ** scheduler.c *)

Definition make_runnable (km : nat -> bool) (t : Z) (s : tsys) : outcome (Z * tsys) :=
  '(result, q) ← rq_addtail km (runqueue s) t; Ok (result, set_runqueue q s).

Definition scheduler_preallocate (km : nat -> bool) (nthreads : Z) (s : tsys) : outcome (Z * tsys) :=
  '(result, q) ← rq_preallocate km (runqueue s) nthreads; Ok (result, set_runqueue q s).

(** One look at the run queue: [None] means another round of [cpu_idle]. *)
Definition scheduler (s : tsys) : outcome (option Z * tsys) :=
  if rq_empty (runqueue s) then Ok (None, s)
  else '(t, q) ← rq_remhead (runqueue s); Ok (Some t, set_runqueue q s).

(** [while (!q_empty(runqueue))]; [n] bounds the rounds. *)
Fixpoint scheduler_killall (n : nat) (s : tsys) : outcome tsys :=
  if rq_empty (runqueue s) then Ok s
  else
    match n with
    | O => Hang
    | S n' => '(_, q) ← rq_remhead (runqueue s); scheduler_killall n' (set_runqueue q s)
    end.

(** ** thread.c *)

(** The loop of [exorcise], [n] rounds left: [thread_destroy] frees the
    structure; what it asserts about other fields is [thread_exit]'s. *)
Fixpoint exorcise_loop (n : nat) (i : Z) (s : tsys) : outcome tsys :=
  match n with
  | O => Ok s
  | S n' =>
      z ← Array.array_getguy (zombies s) i;
      _ ← c_assert (negb (bool_decide (curthread s = Some z)));
      exorcise_loop n' (i + 1) (set_addrs (delete z (t_sleepaddr s)) s)
  end.

Definition exorcise (s : tsys) : outcome tsys :=
  s ← exorcise_loop (Z.to_nat (Array.array_getnum (zombies s))) 0 s;
  '(result, l) ← Array.array_setsize true (zombies s) 0;
  _ ← c_assert (result =? 0);
  Ok (set_zombies l s).

Definition thread_killall (s : tsys) : outcome tsys :=
  '(result, l) ← Array.array_setsize true (sleepers s) 0;
  _ ← c_assert (result =? 0);
  Ok (set_sleepers l s).

Definition one_thread_only (s : tsys) : bool := numthreads s =? 1.

(** [mi_switch] up to the call of [scheduler]. *)
Definition stash (km : nat -> bool) (nextstate : threadstate) (s : tsys) : outcome tsys :=
  match curthread s with
  | None => Ok s
  | Some cur =>
      let s := set_cur None s in
      '(result, s) ←
        match nextstate with
        | S_READY => make_runnable km cur s
        | S_SLEEP => '(r, l) ← Array.array_add (km 0%nat) (sleepers s) cur; Ok (r, set_sleepers l s)
        | S_ZOMB => '(r, l) ← Array.array_add (km 0%nat) (zombies s) cur; Ok (r, set_zombies l s)
        | S_RUN => Panic
        end;
      _ ← c_assert (result =? 0);
      Ok s
  end.

(** [mi_switch] from the call of [scheduler] on.  A new thread ([fresh]) does
    not come back from [md_switch] here, and skips [exorcise]. *)
Definition dispatch (fresh : Z -> bool) (s : tsys) : outcome tsys :=
  '(next, s) ← scheduler s;
  match next with
  | None => Ok s
  | Some t =>
      let s := set_cur (Some t) s in
      if fresh t then Ok s else exorcise s
  end.

Definition thread_yield (km : nat -> bool) (s : tsys) : outcome tsys := stash km S_READY s.

Definition thread_sleep (km : nat -> bool) (in_interrupt : bool) (a : addr) (s : tsys) : outcome tsys :=
  _ ← c_assert (negb in_interrupt);
  match curthread s with
  | None => Undef
  | Some cur => stash km S_SLEEP (set_addrs (<[cur := a]> (t_sleepaddr s)) s)
  end.

(** Back from [mi_switch] in [thread_sleep]. *)
Definition thread_sleep_return (s : tsys) : outcome tsys :=
  match curthread s with
  | None => Undef
  | Some cur => Ok (set_addrs (delete cur (t_sleepaddr s)) s)
  end.

(** [for (i=0; i<array_getnum(sleepers); i++)]: a round removes an element or
    increments [i], so the number of sleepers bounds the rounds. *)
Fixpoint wakeup_loop (n : nat) (km : nat -> bool) (i : Z) (a : addr) (s : tsys) : outcome tsys :=
  if i <? Array.array_getnum (sleepers s) then
    match n with
    | O => Hang
    | S n' =>
        t ← Array.array_getguy (sleepers s) i;
        if bool_decide (t_sleepaddr s !! t = Some a) then
          l ← Array.array_remove (sleepers s) i;
          '(result, s) ← make_runnable km t (set_sleepers l s);
          _ ← c_assert (result =? 0);
          wakeup_loop n' km i a s
        else wakeup_loop n' km (i + 1) a s
    end
  else Ok s.

Definition thread_wakeup (km : nat -> bool) (a : addr) (s : tsys) : outcome tsys :=
  wakeup_loop (Z.to_nat (Array.array_getnum (sleepers s))) km 0 a s.

Fixpoint wakeup_one_loop (n : nat) (km : nat -> bool) (i : Z) (a : addr) (s : tsys) : outcome tsys :=
  match n with
  | O => Ok s
  | S n' =>
      t ← Array.array_getguy (sleepers s) i;
      if bool_decide (t_sleepaddr s !! t = Some a) then
        l ← Array.array_remove (sleepers s) i;
        '(result, s) ← make_runnable km t (set_sleepers l s);
        _ ← c_assert (result =? 0);
        Ok s
      else wakeup_one_loop n' km (i + 1) a s
  end.

Definition thread_wakeup_one (km : nat -> bool) (a : addr) (s : tsys) : outcome tsys :=
  wakeup_one_loop (Z.to_nat (Array.array_getnum (sleepers s))) km 0 a s.

Fixpoint hassleepers_loop (n : nat) (i : Z) (a : addr) (s : tsys) : outcome Z :=
  match n with
  | O => Ok 0
  | S n' =>
      t ← Array.array_getguy (sleepers s) i;
      if bool_decide (t_sleepaddr s !! t = Some a) then Ok 1 else hassleepers_loop n' (i + 1) a s
  end.

Definition thread_hassleepers (a : addr) (s : tsys) : outcome Z :=
  hassleepers_loop (Z.to_nat (Array.array_getnum (sleepers s))) 0 a s.

(** The preallocations of [thread_fork] and [sys_fork].  [km] by allocation
    site: the two arrays, the run queue. *)
Definition fork_preallocate (km : nat -> bool) (s : tsys) : outcome (Z * tsys) :=
  n1 ← c_int (numthreads s + 1);
  '(result, l) ← Array.array_preallocate (km 2%nat) (sleepers s) n1;
  let s := set_sleepers l s in
  if negb (result =? 0) then Ok (result, s)
  else
    '(result, l) ← Array.array_preallocate (km 3%nat) (zombies s) n1;
    let s := set_zombies l s in
    if negb (result =? 0) then Ok (result, s)
    else scheduler_preallocate km n1 s.

(** Their atomic part: the tables are given room, the new thread is made
    runnable and counted. *)
Definition fork_thread (km : nat -> bool) (newguy : Z) (s : tsys) : outcome (Z * tsys) :=
  '(result, s) ← fork_preallocate km s;
  if negb (result =? 0) then Ok (result, s)
  else
    '(result, s) ← make_runnable km newguy (set_addrs (delete newguy (t_sleepaddr s)) s);
    if negb (result =? 0) then Ok (result, s)
    else Ok (0, set_numthreads (numthreads s + 1) s).

(** The end of [thread_exit]. *)
Definition thread_exit (km : nat -> bool) (s : tsys) : outcome tsys :=
  _ ← c_assert (0 <? numthreads s);
  stash km S_ZOMB (set_numthreads (numthreads s - 1) s).

(** [thread_bootstrap], with the run queue of [scheduler_bootstrap]. *)
Definition thread_bootstrap (q : Q) (me : Z) : tsys :=
  mk_tsys (Some me) q (Array.mk_array 0 0 None) (Array.mk_array 0 0 None) 1 ∅.

(** ** The thread lists *)

Definition running (s : tsys) : list Z := option_list (curthread s).

(** Every thread is in one place, the counter counts those that are not
    zombies, sleepers have an address to sleep on, and the tables do not
    overflow. *)
Record tinv (s : tsys) (rq sl zo : list Z) : Prop := mk_tinv {
  ti_rq : rq_repr (runqueue s) rq;
  ti_sl : Array.lists (sleepers s) sl;
  ti_zo : Array.lists (zombies s) zo;
  ti_nodup : NoDup (running s ++ rq ++ sl ++ zo);
  ti_count : numthreads s = zlen (running s) + zlen rq + zlen sl;
  ti_bound : numthreads s + zlen zo <= MAX_THREADS;
  ti_addr t : t ∈ sl -> is_Some (t_sleepaddr s !! t);
}.

(** A call that can only fail by running out of memory: it ends with [R], or
    panics after allocation [i] failed. *)
Definition or_nomem (km : nat -> bool) (i : nat) (o : outcome tsys) (R : tsys -> Prop) : Prop :=
  (exists s', o = Ok s' /\ R s') \/ (o = Panic /\ km i = false).

Ltac perm := solve_Permutation.

Lemma tinv_running s rq sl zo t :
  tinv s rq sl zo -> curthread s = Some t ->
  NoDup (t :: rq ++ sl ++ zo) /\ numthreads s = 1 + zlen rq + zlen sl /\ 1 + zlen rq + zlen sl + zlen zo <= MAX_THREADS.
Proof. intros [] Hc. unfold running in *. rewrite Hc in *. cbn in *. split; [done|]. lia. Qed.

Lemma tinv_idle s rq sl zo :
  tinv s rq sl zo -> curthread s = None ->
  NoDup (rq ++ sl ++ zo) /\ numthreads s = zlen rq + zlen sl /\ zlen rq + zlen sl + zlen zo <= MAX_THREADS.
Proof. intros [] Hc. unfold running in *. rewrite Hc in *. cbn in *. split; [done|]. lia. Qed.

Lemma make_runnable_run km t s rq :
  rq_repr (runqueue s) rq -> zlen rq < MAX_THREADS ->
  exists r q, make_runnable km t s = Ok (r, set_runqueue q s) /\
    ((r = 0 /\ rq_repr q (rq ++ [t])) \/ (r <> 0 /\ q = runqueue s /\ km 1%nat = false)).
Proof using RQL.
  intros Hr Hl. unfold make_runnable.
  destruct (rq_addtail_ok km (runqueue s) rq t Hr Hl) as (r & q & -> & Hres). rewrite Ok_bind.
  by exists r, q.
Qed.

Lemma stash_ready_run km s rq sl zo t :
  tinv s rq sl zo -> curthread s = Some t ->
  or_nomem km 1 (stash km S_READY s) (fun s' =>
    tinv s' (rq ++ [t]) sl zo /\ curthread s' = None /\ t_sleepaddr s' = t_sleepaddr s /\ sleepers s' = sleepers s).
Proof using RQL.
  intros Hi Hc. destruct (tinv_running s rq sl zo t Hi Hc) as (Hnd & Hn & Hb). destruct Hi.
  unfold stash, or_nomem. rewrite Hc. cbn beta zeta iota.
  destruct (make_runnable_run km t (set_cur None s) rq) as (r & q & -> & Hres); [done|lia|].
  rewrite Ok_bind. destruct Hres as [[-> Hr]|(Hr & -> & Hkm)].
  - left. cbn. eexists. split; [done|]. split; [|done]. constructor; cbn; try done.
    + revert Hnd. apply NoDup_Permutation_proper. perm.
    + rewrite length_app. cbn. lia.
  - right. rewrite (proj2 (Z.eqb_neq r 0)) by done. done.
Qed.

Lemma stash_sleep_run km s rq sl zo t :
  tinv s rq sl zo -> curthread s = Some t -> is_Some (t_sleepaddr s !! t) ->
  or_nomem km 0 (stash km S_SLEEP s) (fun s' =>
    tinv s' rq (sl ++ [t]) zo /\ curthread s' = None /\ t_sleepaddr s' = t_sleepaddr s /\
    Array.a_max (sleepers s) <= Array.a_max (sleepers s')) /\
  (numthreads s <= Array.a_max (sleepers s) -> stash km S_SLEEP s <> Panic).
Proof.
  intros Hi Hc Ha. destruct (tinv_running s rq sl zo t Hi Hc) as (Hnd & Hn & Hb). destruct Hi.
  unfold stash, or_nomem. rewrite Hc. cbn beta zeta iota.
  destruct (Array.lists_add (km 0%nat) (sleepers s) sl t ti_sl0) as (r & l & Hrun & Hres);
    [unfold Array.lim, MAX_THREADS in *; lia|].
  cbn [sleepers set_cur]. rewrite Hrun, !Ok_bind. destruct Hres as [(-> & Hl & Hm)|(Hr & -> & Hkm & Hfull)].
  - split; [|done]. left. cbn. eexists. split; [done|]. split; [|done]. constructor; cbn; try done.
    + revert Hnd. apply NoDup_Permutation_proper. perm.
    + rewrite length_app. cbn. lia.
    + intros t' H. apply elem_of_app in H as [H|H]; [by apply ti_addr0|].
      by apply list_elem_of_singleton in H as ->.
  - rewrite (proj2 (Z.eqb_neq r 0)) by done. split; [by right|lia].
Qed.

Lemma stash_zomb_run km s rq sl zo t :
  tinv s rq sl zo -> curthread s = Some t ->
  or_nomem km 0 (stash km S_ZOMB (set_numthreads (numthreads s - 1) s)) (fun s' =>
    tinv s' rq sl (zo ++ [t]) /\ curthread s' = None /\ t_sleepaddr s' = t_sleepaddr s /\ sleepers s' = sleepers s).
Proof.
  intros Hi Hc. destruct (tinv_running s rq sl zo t Hi Hc) as (Hnd & Hn & Hb). destruct Hi.
  unfold stash, or_nomem. cbn [curthread set_numthreads]. rewrite Hc. cbn beta zeta iota.
  destruct (Array.lists_add (km 0%nat) (zombies s) zo t ti_zo0) as (r & l & Hrun & Hres);
    [unfold Array.lim, MAX_THREADS in *; lia|].
  cbn [zombies set_cur set_numthreads]. rewrite Hrun, !Ok_bind.
  destruct Hres as [(-> & Hl & Hm)|(Hr & -> & Hkm & Hfull)].
  - left. cbn. eexists. split; [done|]. split; [|done]. constructor; cbn; try done.
    + revert Hnd. apply NoDup_Permutation_proper. perm.
    + lia.
    + rewrite length_app. cbn. lia.
  - right. rewrite (proj2 (Z.eqb_neq r 0)) by done. done.
Qed.

(** ** Waking up *)

Definition sleeps_on (m : gmap Z addr) (a : addr) (t : Z) : Prop := m !! t = Some a.

#[global] Instance sleeps_on_dec m a t : Decision (sleeps_on m a t).
Proof. unfold sleeps_on. apply _. Defined.

Lemma wake_run km s rq sl zo (i : nat) t :
  tinv s rq sl zo -> sl !! i = Some t ->
  exists l, Array.array_remove (sleepers s) (Z.of_nat i) = Ok l /\
    or_nomem km 1
      ('(result, s) ← make_runnable km t (set_sleepers l s); _ ← c_assert (result =? 0); Ok s) (fun s' =>
    tinv s' (rq ++ [t]) (delete i sl) zo /\ curthread s' = curthread s /\ t_sleepaddr s' = t_sleepaddr s /\
    Array.a_max (sleepers s') = Array.a_max (sleepers s)).
Proof using RQL.
  intros Hi Ht. pose proof (lookup_lt_Some _ _ _ Ht) as Hlt. destruct Hi.
  destruct (Array.lists_remove (sleepers s) sl i ti_sl0 Hlt) as (l & -> & Hl & Hm). exists l. split; [done|].
  pose proof (delete_Permutation sl i t Ht) as Hp. pose proof (Permutation_length Hp) as Hlen. cbn in Hlen.
  set (sl' := delete i sl) in *. clearbody sl'.
  destruct (make_runnable_run km t (set_sleepers l s) rq) as (r & q & -> & Hres); [done|lia|].
  rewrite Ok_bind. destruct Hres as [[-> Hr]|(Hr & -> & Hkm)].
  - left. cbn. eexists. split; [done|]. split; [|done]. constructor; cbn; try done.
    + revert ti_nodup0. apply NoDup_Permutation_proper. unfold running. cbn. rewrite Hp. perm.
    + unfold running in *. cbn. rewrite length_app. cbn. lia.
    + intros t' H. apply ti_addr0. rewrite Hp. by right.
  - right. rewrite (proj2 (Z.eqb_neq r 0)) by done. done.
Qed.

(** The call wakes a subset of the sleepers, in their order. *)
Definition woken (s : tsys) (rq sl zo : list Z) (s' : tsys) : Prop :=
  tinv s' rq sl zo /\ curthread s' = curthread s /\ t_sleepaddr s' = t_sleepaddr s /\
  Array.a_max (sleepers s') = Array.a_max (sleepers s).

Lemma wakeup_loop_run km a n : forall s rq pre post zo,
  tinv s rq (pre ++ post) zo -> (length post <= n)%nat ->
  or_nomem km 1 (wakeup_loop n km (zlen pre) a s)
    (woken s (rq ++ filter (sleeps_on (t_sleepaddr s) a) post)
             (pre ++ filter (fun t => ~ sleeps_on (t_sleepaddr s) a t) post) zo).
Proof using RQL.
  induction n as [|n IH]; intros s rq pre post zo Hi Hn; cbn [wakeup_loop]; unfold Array.array_getnum;
    rewrite (Array.lists_num _ _ (ti_sl _ _ _ _ Hi)), length_app.
  { destruct post; [|cbn in Hn; lia]. rewrite (proj2 (Z.ltb_ge _ _)) by (cbn; lia).
    left. exists s. split; [done|]. rewrite !app_nil_r in *. by split_and!. }
  destruct post as [|t post].
  { rewrite (proj2 (Z.ltb_ge _ _)) by (cbn; lia). left. exists s. split; [done|]. rewrite !app_nil_r in *. by split_and!. }
  rewrite (proj2 (Z.ltb_lt _ _)) by (cbn; lia). cbn in Hn.
  assert ((pre ++ t :: post) !! length pre = Some t) as Ht by (by apply list_lookup_middle).
  rewrite (Array.lists_get _ _ _ _ (ti_sl _ _ _ _ Hi) Ht), Ok_bind. case_bool_decide as Ha.
  - rewrite !filter_cons_True, filter_cons_False by (unfold sleeps_on; naive_solver).
    destruct (wake_run km s rq _ zo _ t Hi Ht) as (l & -> & Hw). rewrite Ok_bind.
    destruct Hw as [(s1 & Hrun & Hi1 & Hc1 & Ha1 & Hm1)|[Hrun Hkm]].
    + destruct (make_runnable km t (set_sleepers l s)) as [[r s1']| | |]; try discriminate Hrun. cbn in Hrun |- *.
      destruct (r =? 0); [|discriminate Hrun]. injection Hrun as ->. cbn.
      rewrite (delete_middle pre post t) in Hi1.
      destruct (IH s1 (rq ++ [t]) pre post zo Hi1) as [(s' & -> & Hi' & Hc' & Ha' & Hm')|[-> Hkm]]; [lia| |by right].
      left. exists s'. split; [done|]. unfold woken. rewrite Ha1, <- (assoc_L (++)) in Hi'. split_and!; try done; congruence.
    + right. split; [|done]. destruct (make_runnable km t (set_sleepers l s)) as [[r s1']| | |]; try done.
      cbn in Hrun |- *. by destruct (r =? 0).
  - rewrite !filter_cons_False, filter_cons_True by (unfold sleeps_on; naive_solver).
    replace (zlen pre + 1) with (zlen (pre ++ [t])) by (rewrite length_app; cbn; lia).
    rewrite (cons_middle t pre), (assoc_L (++)) in Hi.
    specialize (IH s rq (pre ++ [t]) post zo Hi ltac:(lia)). by rewrite <- (assoc_L (++) pre) in IH.
Qed.

Lemma thread_wakeup_run km a s rq sl zo :
  tinv s rq sl zo ->
  or_nomem km 1 (thread_wakeup km a s)
    (woken s (rq ++ filter (sleeps_on (t_sleepaddr s) a) sl)
             (filter (fun t => ~ sleeps_on (t_sleepaddr s) a t) sl) zo).
Proof using RQL.
  intros Hi. unfold thread_wakeup, Array.array_getnum.
  rewrite (Array.lists_num _ _ (ti_sl _ _ _ _ Hi)), Nat2Z.id.
  apply (wakeup_loop_run km a (length sl) s rq [] sl zo Hi). lia.
Qed.

Lemma wakeup_one_loop_run km a post : forall s rq pre zo,
  tinv s rq (pre ++ post) zo ->
  match list_find (sleeps_on (t_sleepaddr s) a) post with
  | Some (i, t) =>
      or_nomem km 1 (wakeup_one_loop (length post) km (zlen pre) a s) (woken s (rq ++ [t]) (pre ++ delete i post) zo)
  | None => wakeup_one_loop (length post) km (zlen pre) a s = Ok s
  end.
Proof using RQL.
  induction post as [|t post IH]; intros s rq pre zo Hi; cbn [length wakeup_one_loop list_find]; [done|].
  assert ((pre ++ t :: post) !! length pre = Some t) as Ht by (by apply list_lookup_middle).
  rewrite (Array.lists_get _ _ _ _ (ti_sl _ _ _ _ Hi) Ht), Ok_bind. case_bool_decide as Ha.
  - rewrite decide_True by done. destruct (wake_run km s rq _ zo _ t Hi Ht) as (l & -> & Hw). rewrite Ok_bind.
    rewrite (delete_middle pre post t) in Hw. exact Hw.
  - rewrite decide_False by done. replace (zlen pre + 1) with (zlen (pre ++ [t])) by (rewrite length_app; cbn; lia).
    rewrite (cons_middle t pre), (assoc_L (++)) in Hi. specialize (IH s rq (pre ++ [t]) zo Hi).
    destruct (list_find _ post) as [[i u]|]; cbn; [|done]. by rewrite <- (assoc_L (++) pre) in IH.
Qed.

Lemma thread_wakeup_one_run km a s rq sl zo :
  tinv s rq sl zo ->
  match list_find (sleeps_on (t_sleepaddr s) a) sl with
  | Some (i, t) => or_nomem km 1 (thread_wakeup_one km a s) (woken s (rq ++ [t]) (delete i sl) zo)
  | None => thread_wakeup_one km a s = Ok s
  end.
Proof using RQL.
  intros Hi. unfold thread_wakeup_one, Array.array_getnum.
  rewrite (Array.lists_num _ _ (ti_sl _ _ _ _ Hi)), Nat2Z.id.
  apply (wakeup_one_loop_run km a sl s rq [] zo Hi).
Qed.

Lemma thread_hassleepers_run a s rq sl zo :
  tinv s rq sl zo ->
  thread_hassleepers a s = Ok (if decide (Exists (sleeps_on (t_sleepaddr s) a) sl) then 1 else 0).
Proof.
  intros Hi. unfold thread_hassleepers, Array.array_getnum.
  rewrite (Array.lists_num _ _ (ti_sl _ _ _ _ Hi)), Nat2Z.id.
  assert (forall post pre, sl = pre ++ post -> hassleepers_loop (length post) (zlen pre) a s =
    Ok (if decide (Exists (sleeps_on (t_sleepaddr s) a) post) then 1 else 0)) as H; [|by apply (H sl [])].
  induction post as [|t post IH]; intros pre ->; cbn [length hassleepers_loop].
  { destruct (decide _) as [E|E]; [by apply Exists_nil in E|done]. }
  rewrite (Array.lists_get _ _ _ _ (ti_sl _ _ _ _ Hi) (list_lookup_middle pre post t _ eq_refl)), Ok_bind.
  case_bool_decide as Ha.
  - by rewrite decide_True by (by left).
  - replace (zlen pre + 1) with (zlen (pre ++ [t])) by (rewrite length_app; cbn; lia).
    rewrite IH by (by rewrite <- (assoc_L (++))).
    destruct (decide (Exists _ post)) as [E|E]; [by rewrite decide_True by (by right)|].
    rewrite decide_False; [done|]. by intros [|]%Exists_cons.
Qed.

(** ** Switching *)

Lemma exorcise_run s rq sl zo :
  tinv s rq sl zo ->
  exists s', exorcise s = Ok s' /\ tinv s' rq sl [] /\ curthread s' = curthread s /\ sleepers s' = sleepers s /\
    (forall t, t ∈ running s ++ rq ++ sl -> t_sleepaddr s' !! t = t_sleepaddr s !! t).
Proof.
  intros Hi. unfold exorcise, Array.array_getnum. rewrite (Array.lists_num _ _ (ti_zo _ _ _ _ Hi)), Nat2Z.id.
  assert (forall post pre m, zo = pre ++ post ->
    (forall t, t ∈ running s ++ rq ++ sl -> m !! t = t_sleepaddr s !! t) ->
    exists m', exorcise_loop (length post) (zlen pre) (set_addrs m s) = Ok (set_addrs m' s) /\
      forall t, t ∈ running s ++ rq ++ sl -> m' !! t = t_sleepaddr s !! t) as H.
  { induction post as [|z post IH]; intros pre m -> Hm; cbn [length exorcise_loop]; [by exists m|].
    cbn [zombies set_addrs].
    rewrite (Array.lists_get _ _ _ _ (ti_zo _ _ _ _ Hi) (list_lookup_middle pre post z _ eq_refl)), Ok_bind.
    assert (z ∉ running s ++ rq ++ sl) as Hz.
    { assert (NoDup ((running s ++ rq ++ sl) ++ (pre ++ z :: post))) as Hnd
        by (rewrite <- !(assoc_L (++)); apply (ti_nodup _ _ _ _ Hi)).
      apply list.NoDup_app in Hnd as (_ & Hnd & _). intros Hin. apply (Hnd z Hin), elem_of_app. right. left. }
    cbn [curthread set_addrs]. rewrite bool_decide_false.
    2: { intros Hc. apply Hz, elem_of_app. left. unfold running. rewrite Hc. left. }
    cbn [negb c_assert]. rewrite Ok_bind.
    replace (zlen pre + 1) with (zlen (pre ++ [z])) by (rewrite length_app; cbn; lia).
    apply (IH (pre ++ [z])); [by rewrite <- (assoc_L (++))|].
    intros t Ht. rewrite lookup_delete_ne by congruence. by apply Hm. }
  destruct (H zo [] (t_sleepaddr s) eq_refl ltac:(done)) as (m & Hrun & Hm).
  replace (set_addrs (t_sleepaddr s) s) with s in Hrun by (by destruct s).
  change (zlen []) with 0 in Hrun. rewrite Hrun, Ok_bind. destruct Hi. destruct (Array.lists_clear true (zombies s) zo ti_zo0) as (l & Hl & Hlist).
  cbn [zombies set_addrs]. rewrite Hl. cbn. eexists. split; [done|]. split; [|done].
  constructor; cbn; try done.
  - rewrite app_nil_r. rewrite !(assoc_L (++)) in ti_nodup0.
    apply list.NoDup_app in ti_nodup0 as (Hnd & _ & _). by rewrite <- (assoc_L (++)) in Hnd.
  - lia.
  - intros t Ht. rewrite Hm by set_solver. by apply ti_addr0.
Qed.

Lemma scheduler_run s rq sl zo :
  tinv s rq sl zo -> curthread s = None ->
  match rq with
  | [] => scheduler s = Ok (None, s)
  | t :: rq' => exists s', scheduler s = Ok (Some t, s') /\ tinv (set_cur (Some t) s') rq' sl zo /\
      t_sleepaddr s' = t_sleepaddr s /\ sleepers s' = sleepers s
  end.
Proof using RQL.
  intros Hi Hc. unfold scheduler. rewrite (rq_empty_ok _ _ (ti_rq _ _ _ _ Hi)). destruct rq as [|t rq].
  { by rewrite bool_decide_true. }
  rewrite bool_decide_false by done.
  destruct (rq_remhead_ok _ _ _ (ti_rq _ _ _ _ Hi)) as (q & -> & Hq). rewrite Ok_bind.
  destruct (tinv_idle _ _ _ _ Hi Hc) as (Hnd & Hn & Hb). destruct Hi.
  eexists. split; [done|]. split; [|done]. constructor; cbn; try done. cbn in Hn. lia.
Qed.

(** Interrupts come and go until a thread is ready; then the head of the run
    queue runs, and the zombies are gone unless it is new. *)
Lemma dispatch_run fresh s rq sl zo :
  tinv s rq sl zo -> curthread s = None ->
  match rq with
  | [] => dispatch fresh s = Ok s
  | t :: rq' => exists s', dispatch fresh s = Ok s' /\ tinv s' rq' sl (if fresh t then zo else []) /\
      curthread s' = Some t /\ sleepers s' = sleepers s /\
      forall u, u ∈ t :: rq' ++ sl -> t_sleepaddr s' !! u = t_sleepaddr s !! u
  end.
Proof using RQL.
  intros Hi Hc. pose proof (scheduler_run s rq sl zo Hi Hc) as Hs. unfold dispatch. destruct rq as [|t rq].
  { by rewrite Hs. }
  destruct Hs as (s1 & -> & Hi1 & Ha1 & Hl1). rewrite Ok_bind. cbn zeta. destruct (fresh t).
  - eexists. split; [done|]. split; [done|]. cbn. rewrite Ha1. done.
  - destruct (exorcise_run _ _ _ _ Hi1) as (s' & -> & Hi' & Hc' & Hl' & Ha'). exists s'. split; [done|].
    split; [done|]. split; [done|]. split; [by rewrite Hl'|]. intros u Hu.
    rewrite Ha' by done. cbn. by rewrite Ha1.
Qed.

Lemma fork_preallocate_run km s rq sl zo :
  tinv s rq sl zo -> numthreads s + zlen zo < MAX_THREADS -> curthread s <> None ->
  exists r s', fork_preallocate km s = Ok (r, s') /\ tinv s' rq sl zo /\ curthread s' = curthread s /\
    t_sleepaddr s' = t_sleepaddr s /\ numthreads s' = numthreads s /\
    Array.a_max (sleepers s) <= Array.a_max (sleepers s') /\
    (r = 0 -> numthreads s + 1 <= Array.a_max (sleepers s')) /\ (r <> 0 -> exists i, km i = false).
Proof using RQL.
  intros [] Hmax Hc. unfold fork_preallocate. unfold MAX_THREADS in *.
  rewrite c_int_id, Ok_bind by (unfold int_min, int_max; lia).
  destruct (Array.lists_preallocate (km 2%nat) (sleepers s) sl (numthreads s + 1) ti_sl0) as
    (r1 & l1 & -> & Hl1 & Hm1 & Hcap1 & Hf1); [unfold Array.lim; lia|]. rewrite Ok_bind. cbn zeta.
  destruct (Z.eqb_spec r1 0) as [->|Hr1]; cbn [negb].
  2: { exists r1. eexists. split; [done|]. split; [by constructor|]. do 4 (split; [done|]). split; [done|]. eauto. }
  destruct (Array.lists_preallocate (km 3%nat) (zombies (set_sleepers l1 s)) zo (numthreads s + 1) ti_zo0) as
    (r2 & l2 & -> & Hl2 & _ & _ & Hf2); [unfold Array.lim; lia|]. rewrite Ok_bind. cbn zeta.
  destruct (Z.eqb_spec r2 0) as [->|Hr2]; cbn [negb].
  2: { exists r2. eexists. split; [done|]. split; [by constructor|]. do 4 (split; [done|]). split; [done|]. eauto. }
  unfold scheduler_preallocate. cbn [runqueue set_zombies set_sleepers].
  destruct (rq_preallocate_ok km (runqueue s) rq (numthreads s + 1) ti_rq0) as (r3 & q3 & -> & Hq3 & Hf3);
    [unfold MAX_THREADS; lia|]. rewrite !Ok_bind.
  exists r3. eexists. split; [done|]. split; [by constructor|]. do 4 (split; [done|]). cbn. split; [by auto|]. eauto.
Qed.

Lemma fork_thread_run km newguy s rq sl zo t :
  tinv s rq sl zo -> curthread s = Some t -> newguy ∉ t :: rq ++ sl ++ zo ->
  numthreads s + zlen zo < MAX_THREADS ->
  exists r s', fork_thread km newguy s = Ok (r, s') /\ curthread s' = Some t /\
    Array.a_max (sleepers s) <= Array.a_max (sleepers s') /\
    (forall u, u <> newguy -> t_sleepaddr s' !! u = t_sleepaddr s !! u) /\
    ((r = 0 /\ tinv s' (rq ++ [newguy]) sl zo /\ numthreads s' <= Array.a_max (sleepers s')) \/
     (r <> 0 /\ tinv s' rq sl zo /\ exists i, km i = false)).
Proof using RQL.
  intros Hi Hc Hnew Hmax. unfold fork_thread.
  destruct (fork_preallocate_run km s rq sl zo Hi Hmax) as (r & s1 & -> & Hi1 & Hc1 & Ha1 & Hn1 & Hm1 & Hcap & Hf);
    [congruence|]. rewrite Ok_bind. rewrite Hc in Hc1.
  destruct (Z.eqb_spec r 0) as [->|Hr]; cbn [negb].
  2: { exists r, s1. split; [done|]. split; [done|]. split; [done|]. split; [by rewrite Ha1|]. right. auto. }
  destruct (tinv_running s1 rq sl zo t Hi1 Hc1) as (Hnd & Hn & Hb). destruct Hi1.
  set (s2 := set_addrs _ s1).
  assert (forall u, u <> newguy -> t_sleepaddr s2 !! u = t_sleepaddr s !! u) as Ha2.
  { intros u Hu. unfold s2. cbn. rewrite Ha1. by apply lookup_delete_ne. }
  assert (forall u, u ∈ sl -> is_Some (t_sleepaddr s2 !! u)) as Hs2.
  { intros u Hu. unfold s2. cbn. rewrite lookup_delete_ne by set_solver. by apply ti_addr0. }
  destruct (make_runnable_run km newguy s2 rq) as (r & q & -> & Hres); [done|lia|]. rewrite Ok_bind.
  destruct Hres as [[-> Hq]|(Hr & -> & Hkm)].
  - cbn [Z.eqb negb]. exists 0. eexists. split; [done|]. split; [done|]. split; [done|]. split; [done|].
    left. split; [done|]. cbn. split; [|rewrite Hn1; by apply Hcap]. constructor; cbn; try done.
    + unfold running. cbn. rewrite Hc1. cbn.
      assert (NoDup (newguy :: t :: rq ++ sl ++ zo)) as H by (by constructor).
      revert H. apply NoDup_Permutation_proper. perm.
    + unfold running. cbn. rewrite Hc1, length_app. cbn. lia.
    + lia.
  - rewrite (proj2 (Z.eqb_neq r 0)) by done. cbn [negb]. exists r. eexists. split; [done|].
    split; [done|]. split; [done|]. split; [done|]. right. split; [done|]. split; [by constructor|]. by exists 1%nat.
Qed.

(** ** Runs of the thread system *)

(** A thread structure that is in use. *)
Definition known (s : tsys) (t : Z) : Prop :=
  curthread s = Some t \/ (exists xs, rq_repr (runqueue s) xs /\ t ∈ xs) \/
  Some t ∈ Array.contents (sleepers s) \/ Some t ∈ Array.contents (zombies s).

Lemma known_in s rq sl zo t : tinv s rq sl zo -> t ∈ running s ++ rq ++ sl ++ zo -> known s t.
Proof.
  intros [] Ht. unfold known. destruct ti_sl0 as [_ ->], ti_zo0 as [_ ->]. unfold running in Ht.
  rewrite !elem_of_app in Ht. destruct Ht as [Ht|[Ht|[Ht|Ht]]].
  - left. destruct (curthread s); [|by apply not_elem_of_nil in Ht]. by apply list_elem_of_singleton in Ht as ->.
  - right. left. by exists rq.
  - right. right. left. by apply list_elem_of_fmap_2.
  - right. right. right. by apply list_elem_of_fmap_2.
Qed.

(** What can happen next: the current thread yields, sleeps, returns from a
    sleep, exits or forks; it or an interrupt handler wakes sleepers; the idle
    loop looks at the run queue.  A new thread structure is one that is not in
    use. *)
Inductive event : Type :=
| Yield | Sleep (a : addr) | Awake | Exit | Fork (newguy r : Z) | Wakeup (a : addr) | Wakeup_one (a : addr) | Dispatch.

#[global] Instance event_eq_dec : EqDecision event.
Proof. solve_decision. Defined.

Inductive tstep (s : tsys) : event -> tsys -> Prop :=
| ts_yield km t s' : curthread s = Some t -> thread_yield km s = Ok s' -> tstep s Yield s'
| ts_sleep km a s' : thread_sleep km false a s = Ok s' -> tstep s (Sleep a) s'
| ts_awake s' : thread_sleep_return s = Ok s' -> tstep s Awake s'
| ts_exit km t s' : curthread s = Some t -> thread_exit km s = Ok s' -> tstep s Exit s'
| ts_fork km newguy r t s' : curthread s = Some t -> ~ known s newguy ->
    numthreads s + Array.a_num (zombies s) < MAX_THREADS ->
    fork_thread km newguy s = Ok (r, s') -> tstep s (Fork newguy r) s'
| ts_wakeup km a s' : thread_wakeup km a s = Ok s' -> tstep s (Wakeup a) s'
| ts_wakeup_one km a s' : thread_wakeup_one km a s = Ok s' -> tstep s (Wakeup_one a) s'
| ts_dispatch fresh s' : curthread s = None -> dispatch fresh s = Ok s' -> tstep s Dispatch s'.

(** How an event changes the live threads and the run queue. *)
Definition moved (s : tsys) (rq sl : list Z) (ev : event) (s' : tsys) (rq' sl' : list Z) : Prop :=
  match ev with
  | Fork newguy r =>
      sl' = sl /\ running s' = running s /\ rq' = if r =? 0 then rq ++ [newguy] else rq
  | Exit => sl' = sl /\ rq' = rq /\ running s' = []
  | Dispatch =>
      sl' = sl /\ match rq with [] => s' = s /\ rq' = [] | t :: _ => running s' = [t] /\ rq = t :: rq' end
  | Yield => sl' = sl /\ rq' = rq ++ running s /\ running s' = []
  | Sleep _ => rq' = rq /\ sl' = sl ++ running s /\ running s' = []
  | Awake => rq' = rq /\ sl' = sl /\ running s' = running s
  | Wakeup a =>
      rq' = rq ++ filter (sleeps_on (t_sleepaddr s) a) sl /\
      sl' = filter (fun t => ~ sleeps_on (t_sleepaddr s) a t) sl /\ running s' = running s
  | Wakeup_one a =>
      running s' = running s /\
      match list_find (sleeps_on (t_sleepaddr s) a) sl with
      | Some (i, t) => rq' = rq ++ [t] /\ sl' = delete i sl
      | None => rq' = rq /\ sl' = sl
      end
  end.

Definition roomy (s : tsys) : Prop := numthreads s <= Array.a_max (sleepers s).

(** The invariant, the move and the room in the sleepers' table. *)
Definition step_ok (s : tsys) (rq sl : list Z) (ev : event) (s' : tsys) : Prop :=
  exists rq' sl' zo', tinv s' rq' sl' zo' /\ moved s rq sl ev s' rq' sl' /\ (roomy s -> roomy s').

Lemma running_Some s t : curthread s = Some t -> running s = [t].
Proof. unfold running. by intros ->. Qed.

Lemma running_None s : curthread s = None -> running s = [].
Proof. unfold running. by intros ->. Qed.

Lemma or_nomem_Ok km i o R s' : or_nomem km i o R -> o = Ok s' -> R s'.
Proof. intros [(s1 & -> & H)|[-> _]]; [|done]. by intros [= <-]. Qed.

Lemma yield_step km s rq sl zo t s' :
  tinv s rq sl zo -> curthread s = Some t -> thread_yield km s = Ok s' -> step_ok s rq sl Yield s'.
Proof using RQL.
  intros Hi Hc Hrun. pose proof (tinv_running _ _ _ _ _ Hi Hc) as (_ & Hn & _).
  destruct (or_nomem_Ok _ _ _ _ _ (stash_ready_run km s rq sl zo t Hi Hc) Hrun) as (Hi' & Hc' & _ & Hsl).
  pose proof (tinv_idle _ _ _ _ Hi' Hc') as (_ & Hn' & _). rewrite length_app in Hn'. cbn in Hn'.
  exists (rq ++ [t]), sl, zo. split; [done|]. cbn. rewrite (running_Some s t Hc), (running_None s' Hc').
  split; [done|]. unfold roomy. rewrite Hsl. lia.
Qed.

(** The sleep address of the running thread is nobody else's. *)
Lemma tinv_set_addrs s rq sl zo t m :
  tinv s rq sl zo -> curthread s = Some t -> (forall u, u <> t -> m !! u = t_sleepaddr s !! u) ->
  tinv (set_addrs m s) rq sl zo.
Proof.
  intros Hi Hc Hm. pose proof (tinv_running _ _ _ _ _ Hi Hc) as (Hnd & _ & _). apply list.NoDup_cons in Hnd as [Hnd _].
  destruct Hi. constructor; try done. intros u Hu. cbn. rewrite Hm; [by apply ti_addr0|]. set_solver.
Qed.

Lemma thread_sleep_run km s rq sl zo t a :
  tinv s rq sl zo -> curthread s = Some t ->
  or_nomem km 0 (thread_sleep km false a s) (fun s' =>
    tinv s' rq (sl ++ [t]) zo /\ curthread s' = None /\ t_sleepaddr s' = <[t := a]> (t_sleepaddr s) /\
    Array.a_max (sleepers s) <= Array.a_max (sleepers s')) /\
  (roomy s -> thread_sleep km false a s <> Panic).
Proof.
  intros Hi Hc. unfold thread_sleep. rewrite Hc. cbn [negb c_assert]. rewrite Ok_bind. set (s1 := set_addrs _ s).
  assert (tinv s1 rq sl zo) as Hi1.
  { apply (tinv_set_addrs s rq sl zo t); [done|done|]. intros u Hu. by apply lookup_insert_ne. }
  apply (stash_sleep_run km s1 rq sl zo t Hi1 Hc). unfold s1. cbn. by rewrite lookup_insert_eq.
Qed.

Lemma sleep_step km s rq sl zo a s' :
  tinv s rq sl zo -> thread_sleep km false a s = Ok s' -> step_ok s rq sl (Sleep a) s'.
Proof.
  intros Hi Hrun. destruct (curthread s) as [t|] eqn:Hc; [|unfold thread_sleep in Hrun; by rewrite Hc in Hrun].
  pose proof (tinv_running _ _ _ _ _ Hi Hc) as (_ & Hn & _).
  destruct (thread_sleep_run km s rq sl zo t a Hi Hc) as [Hs _].
  destruct (or_nomem_Ok _ _ _ _ _ Hs Hrun) as (Hi' & Hc' & _ & Hsl).
  pose proof (tinv_idle _ _ _ _ Hi' Hc') as (_ & Hn' & _). rewrite length_app in Hn'. cbn in Hn'.
  exists rq, (sl ++ [t]), zo. split; [done|]. cbn. rewrite (running_Some s t Hc), (running_None s' Hc').
  split; [done|]. unfold roomy. lia.
Qed.

Lemma awake_step s rq sl zo s' :
  tinv s rq sl zo -> thread_sleep_return s = Ok s' -> step_ok s rq sl Awake s'.
Proof.
  intros Hi Hrun. unfold thread_sleep_return in Hrun. destruct (curthread s) as [t|] eqn:Hc; [|done].
  injection Hrun as <-. exists rq, sl, zo. split; [|done].
  apply (tinv_set_addrs s rq sl zo t); [done|done|]. intros u Hu. by apply lookup_delete_ne.
Qed.

Lemma exit_step km s rq sl zo t s' :
  tinv s rq sl zo -> curthread s = Some t -> thread_exit km s = Ok s' -> step_ok s rq sl Exit s'.
Proof.
  intros Hi Hc Hrun. pose proof (tinv_running _ _ _ _ _ Hi Hc) as (_ & Hn & _). unfold thread_exit in Hrun.
  rewrite (proj2 (Z.ltb_lt 0 _)) in Hrun by lia. cbn [c_assert] in Hrun. rewrite Ok_bind in Hrun.
  destruct (or_nomem_Ok _ _ _ _ _ (stash_zomb_run km s rq sl zo t Hi Hc) Hrun) as (Hi' & Hc' & _ & Hsl).
  pose proof (tinv_idle _ _ _ _ Hi' Hc') as (_ & Hn' & _).
  exists rq, sl, (zo ++ [t]). split; [done|]. cbn. rewrite (running_None s' Hc').
  split; [done|]. unfold roomy. rewrite Hsl. lia.
Qed.

Lemma fork_step km newguy r s rq sl zo t s' :
  tinv s rq sl zo -> curthread s = Some t -> ~ known s newguy ->
  numthreads s + Array.a_num (zombies s) < MAX_THREADS ->
  fork_thread km newguy s = Ok (r, s') -> step_ok s rq sl (Fork newguy r) s' /\ (r = 0 -> roomy s').
Proof using RQL.
  intros Hi Hc Hnew Hmax Hrun. pose proof (Array.lists_num _ _ (ti_zo _ _ _ _ Hi)) as Hz.
  pose proof (tinv_running _ _ _ _ _ Hi Hc) as (_ & Hn & _).
  destruct (fork_thread_run km newguy s rq sl zo t Hi Hc) as (r0 & s0 & Hrun0 & Hc' & Hm & _ & Hres); [|lia|].
  { intros Hin. apply Hnew, (known_in s rq sl zo); [done|]. unfold running. rewrite Hc. exact Hin. }
  rewrite Hrun0 in Hrun. injection Hrun as -> ->. unfold step_ok. cbn [moved].
  rewrite (running_Some s t Hc), (running_Some s' t Hc').
  destruct Hres as [(-> & Hi' & Hr)|(Hr & Hi' & _)].
  - split; [|done]. exists (rq ++ [newguy]), sl, zo. done.
  - split; [|done]. exists rq, sl, zo. rewrite (proj2 (Z.eqb_neq r 0)) by done. split; [done|]. split; [done|].
    pose proof (tinv_running _ _ _ _ _ Hi' Hc') as (_ & Hn' & _). unfold roomy. lia.
Qed.

Lemma woken_step s rq sl zo s' rq' sl' :
  tinv s rq sl zo -> woken s rq' sl' zo s' -> zlen rq' + zlen sl' = zlen rq + zlen sl -> 
  running s' = running s /\ (roomy s -> roomy s').
Proof.
  intros [] (Hi' & Hc & _ & Hm) Hlen. unfold running. rewrite Hc. split; [done|].
  pose proof (ti_count _ _ _ _ Hi') as Hn'. unfold roomy, running in *. rewrite Hc in Hn'. lia.
Qed.

Lemma wakeup_step km a s rq sl zo s' :
  tinv s rq sl zo -> thread_wakeup km a s = Ok s' -> step_ok s rq sl (Wakeup a) s'.
Proof using RQL.
  intros Hi Hrun. pose proof (or_nomem_Ok _ _ _ _ _ (thread_wakeup_run km a s rq sl zo Hi) Hrun) as Hw.
  do 3 eexists. split; [apply Hw|]. cbn.
  destruct (woken_step _ _ _ _ _ _ _ Hi Hw) as [Hr Hm]; [|done].
  rewrite length_app. pose proof (Permutation_length (filter_app_complement (sleeps_on (t_sleepaddr s) a) sl)) as Hl.
  rewrite length_app in Hl. lia.
Qed.

Lemma wakeup_one_step km a s rq sl zo s' :
  tinv s rq sl zo -> thread_wakeup_one km a s = Ok s' -> step_ok s rq sl (Wakeup_one a) s'.
Proof using RQL.
  intros Hi Hrun. pose proof (thread_wakeup_one_run km a s rq sl zo Hi) as Hw. unfold step_ok. cbn [moved].
  destruct (list_find _ sl) as [[i t]|] eqn:E.
  - apply list_find_Some in E as (Ht & _). pose proof (or_nomem_Ok _ _ _ _ _ Hw Hrun) as Hw'.
    exists (rq ++ [t]), (delete i sl), zo. split; [apply Hw'|].
    destruct (woken_step _ _ _ _ _ _ _ Hi Hw') as [Hr Hm]; [|done].
    rewrite length_app, (length_delete sl i) by done. pose proof (lookup_lt_Some _ _ _ Ht). cbn. lia.
  - rewrite Hw in Hrun. injection Hrun as <-. exists rq, sl, zo. done.
Qed.

Lemma dispatch_step fresh s rq sl zo s' :
  tinv s rq sl zo -> curthread s = None -> dispatch fresh s = Ok s' -> step_ok s rq sl Dispatch s'.
Proof using RQL.
  intros Hi Hc Hrun. pose proof (dispatch_run fresh s rq sl zo Hi Hc) as Hd. destruct rq as [|t rq].
  - rewrite Hd in Hrun. injection Hrun as <-. exists [], sl, zo. done.
  - destruct Hd as (s1 & Hrun1 & Hi' & Hc' & Hsl & _). rewrite Hrun1 in Hrun. injection Hrun as <-.
    pose proof (tinv_idle _ _ _ _ Hi Hc) as (_ & Hn & _). pose proof (tinv_running _ _ _ _ _ Hi' Hc') as (_ & Hn' & _).
    exists rq, sl, (if fresh t then zo else []). split; [done|]. cbn. rewrite (running_Some _ _ Hc').
    split; [done|]. unfold roomy. rewrite Hsl. cbn in Hn. lia.
Qed.

Lemma tstep_ok s rq sl zo ev s' : tinv s rq sl zo -> tstep s ev s' -> step_ok s rq sl ev s'.
Proof using RQL.
  intros Hi [].
  - by eapply yield_step.
  - by eapply sleep_step.
  - by eapply awake_step.
  - by eapply exit_step.
  - by eapply fork_step.
  - by eapply wakeup_step.
  - by eapply wakeup_one_step.
  - by eapply dispatch_step.
Qed.

Inductive trun : tsys -> list event -> tsys -> Prop :=
| tr_done s : trun s [] s
| tr_step s ev s1 evs s' : tstep s ev s1 -> trun s1 evs s' -> trun s (ev :: evs) s'.

Lemma trun_tinv s rq sl zo evs s' :
  tinv s rq sl zo -> trun s evs s' -> exists rq' sl' zo', tinv s' rq' sl' zo' /\ (roomy s -> roomy s').
Proof using RQL.
  intros Hi Hrun. revert rq sl zo Hi. induction Hrun as [s|s ev s1 evs s' Hs _ IH]; intros rq sl zo Hi; [eauto|].
  destruct (tstep_ok _ _ _ _ _ _ Hi Hs) as (rq1 & sl1 & zo1 & Hi1 & _ & Hr1).
  destruct (IH _ _ _ Hi1) as (rq' & sl' & zo' & Hi' & Hr'). eauto 10.
Qed.

Lemma bootstrap_tinv q me : rq_repr q [] -> tinv (thread_bootstrap q me) [] [] [].
Proof.
  intros Hq. assert (Array.lists (Array.mk_array 0 0 (@None (list (option Z)))) []) as Hl.
  { split; [|done]. unfold Array.wf, Array.lim. cbn. lia. }
  constructor; try done; [|set_solver]. apply NoDup_singleton.
Qed.

(** The live threads before and after an event. *)
Definition population (s : tsys) (rq sl : list Z) (ev : event) (s' : tsys) (rq' sl' : list Z) : Prop :=
  let before := running s ++ rq ++ sl in
  let after := running s' ++ rq' ++ sl' in
  match ev with
  | Fork newguy r => after ≡ₚ if r =? 0 then newguy :: before else before
  | Exit => before ≡ₚ running s ++ after
  | _ => after ≡ₚ before
  end.

Lemma moved_population s rq sl zo ev s' rq' sl' :
  tinv s rq sl zo -> tstep s ev s' -> moved s rq sl ev s' rq' sl' -> population s rq sl ev s' rq' sl'.
Proof.
  intros Hi Hs Hm. destruct ev; unfold population; cbn in Hm.
  - destruct Hm as (-> & -> & ->). perm.
  - destruct Hm as (-> & -> & ->). perm.
  - by destruct Hm as (-> & -> & ->).
  - destruct Hm as (-> & -> & ->). done.
  - destruct Hm as (-> & -> & ->). case_match; [perm|done].
  - destruct Hm as (-> & -> & ->). rewrite <- (assoc_L (++) rq). by rewrite filter_app_complement.
  - destruct Hm as (-> & Hm). destruct (list_find _ sl) as [[i t]|] eqn:E.
    + apply list_find_Some in E as (Ht & _). pose proof (delete_Permutation sl i t Ht) as Hp.
      destruct Hm as [-> ->]. rewrite Hp at 2. perm.
    + by destruct Hm as [-> ->].
  - inversion Hs as [| | | | | | |fresh s1 Hc Hrun]; subst. destruct Hm as (-> & Hm).
    rewrite (running_None s Hc). destruct rq as [|t rq]; [destruct Hm as [-> ->]; by rewrite (running_None s Hc)|].
    destruct Hm as [-> [= <-]]. done.
Qed.

(** C24. Threads are conserved.  In every state that the thread system can
    reach after [thread_bootstrap], each thread is in exactly one place (it is
    running, on the run queue, asleep with an address to be woken by, or a
    zombie) and [numthreads] counts the live ones; and no event but a
    successful fork or an exit changes which threads are live, those add and
    remove exactly one. *)
Theorem threads_conserved q me evs s ev s' :
  rq_repr q [] -> trun (thread_bootstrap q me) evs s -> tstep s ev s' ->
  exists rq sl zo rq' sl' zo', tinv s rq sl zo /\ tinv s' rq' sl' zo' /\ population s rq sl ev s' rq' sl'.
Proof using RQL.
  intros Hq Hrun Hs. destruct (trun_tinv _ _ _ _ _ _ (bootstrap_tinv q me Hq) Hrun) as (rq & sl & zo & Hi & _).
  destruct (tstep_ok _ _ _ _ _ _ Hi Hs) as (rq' & sl' & zo' & Hi' & Hm & _).
  exists rq, sl, zo, rq', sl', zo'. split; [done|]. split; [done|]. by eapply moved_population.
Qed.

(** An event other than a dispatch leaves the run queue a prefix. *)
Lemma moved_prefix s rq sl ev s' rq' sl' :
  moved s rq sl ev s' rq' sl' -> ev <> Dispatch -> rq `prefix_of` rq'.
Proof.
  intros Hm Hne. destruct ev; cbn in Hm; try done.
  - destruct Hm as (_ & -> & _). by eexists.
  - destruct Hm as (-> & _). done.
  - destruct Hm as (-> & _). done.
  - destruct Hm as (_ & -> & _). done.
  - destruct Hm as (_ & _ & ->). case_match; [by eexists|done].
  - destruct Hm as (-> & _). by eexists.
  - destruct Hm as (_ & Hm). destruct (list_find _ sl) as [[i t]|]; destruct Hm as [-> _]; [by eexists|done].
Qed.

Definition dispatches (evs : list event) : nat := length (filter (fun ev => ev = Dispatch) evs).

(** C36. The scheduler is round-robin.  A thread with [k] threads before it on
    the run queue runs at the latest after [k+1] dispatches, whatever else
    happens in between: threads yielding, sleeping, forking, exiting, and
    wake-ups by threads or interrupts. *)
Theorem round_robin s rq sl zo (k : nat) t evs s' :
  tinv s rq sl zo -> rq !! k = Some t -> trun s evs s' -> dispatches evs = S k ->
  exists evs1 evs2 s1, evs = evs1 ++ evs2 /\ trun s evs1 s1 /\ curthread s1 = Some t.
Proof using RQL.
  intros Hi Hk Hrun. revert rq sl zo k Hi Hk. induction Hrun as [s|s ev s1 evs s' Hs Hrun IH]; intros rq sl zo k Hi Hk Hd.
  { done. }
  destruct (tstep_ok _ _ _ _ _ _ Hi Hs) as (rq1 & sl1 & zo1 & Hi1 & Hm & _). unfold dispatches in *.
  destruct (decide (ev = Dispatch)) as [->|Hne].
  - rewrite filter_cons_True in Hd by done. cbn in Hd. destruct rq as [|u rq]; [done|].
    destruct Hm as (-> & Hr & [= <-]). destruct k as [|k].
    + injection Hk as ->. exists [Dispatch], evs, s1. split; [done|]. split; [by eapply tr_step, tr_done|].
      unfold running in Hr. destruct (curthread s1); [by injection Hr as ->|done].
    + destruct (IH _ _ _ k Hi1 Hk) as (evs1 & evs2 & s2 & -> & Hr1 & Hc); [lia|].
      exists (Dispatch :: evs1), evs2, s2. split; [done|]. split; [by eapply tr_step|done].
  - rewrite filter_cons_False in Hd by done. destruct (moved_prefix _ _ _ _ _ _ _ Hm Hne) as [r ->].
    destruct (IH _ _ _ k Hi1) as (evs1 & evs2 & s2 & -> & Hr1 & Hc); [by apply lookup_app_l_Some|done|].
    exists (ev :: evs1), evs2, s2. split; [done|]. split; [by eapply tr_step|done].
Qed.

(** Going to sleep cannot fail.  Once a fork has succeeded, [thread_sleep]
    finds room in the sleepers' table at every later time, even when no memory
    is left: its assertion does not fire. *)
Theorem sleep_has_room s rq sl zo newguy s1 evs s2 t km' a :
  tinv s rq sl zo -> tstep s (Fork newguy 0) s1 ->
  trun s1 evs s2 -> curthread s2 = Some t ->
  exists s3, thread_sleep km' false a s2 = Ok s3.
Proof using RQL.
  intros Hi Hf Htr Hc. inversion Hf as [| | | |km g r t0 s1' Hc0 Hnew Hmax Hrun| | |]; subst.
  destruct (fork_step _ _ _ _ _ _ _ _ _ Hi Hc0 Hnew Hmax Hrun) as [(rq1 & sl1 & zo1 & Hi1 & _) Hr1].
  destruct (trun_tinv _ _ _ _ _ _ Hi1 Htr) as (rq2 & sl2 & zo2 & Hi2 & Hr2). specialize (Hr2 (Hr1 eq_refl)).
  destruct (thread_sleep_run km' s2 rq2 sl2 zo2 t a Hi2 Hc) as [Hs Hnp].
  destruct Hs as [(s3 & -> & _)|[Hp _]]; [by exists s3|]. by destruct (Hnp Hr2).
Qed.

End Sched.

(** Yielding can fail for want of memory.  [thread_fork] reserves one slot
    of the run queue per thread, which the ring buffer's empty slot makes one
    too few: when as many threads exist as the queue has slots, the
    preallocation for them is satisfied without growth, and yet, with all
    other threads ready and no memory left, the assertion in [mi_switch] fires
    when the current thread yields. *)
Theorem yield_can_panic {addr} (s : tsys (addr := addr) (Q := Queue.queue Z)) rq sl zo t km :
  tinv s rq sl zo -> curthread s = Some t -> numthreads s = Queue.q_size (runqueue s) ->
  zlen rq = numthreads s - 1 -> km 1%nat = false ->
  scheduler_preallocate km (numthreads s) s = Ok (0, s) /\ thread_yield km s = Panic.
Proof.
  intros Hi Hc Hq Hn Hkm. pose proof (tinv_running _ _ _ _ _ Hi Hc) as (_ & _ & Hb). destruct Hi.
  pose proof (Queue.repr_size _ _ ti_rq0). split.
  - unfold scheduler_preallocate. cbn [rq_preallocate queue_RunQueue]. unfold Queue.q_preallocate.
    rewrite (proj2 (Z.ltb_lt 0 _)) by lia. cbn [c_assert]. rewrite Ok_bind, Hq, Z.ltb_irrefl, Ok_bind. by destruct s.
  - unfold thread_yield, stash. rewrite Hc. cbn beta zeta iota. unfold make_runnable.
    cbn [rq_addtail queue_RunQueue runqueue set_cur].
    destruct (Queue.addtail_ok km (runqueue s) rq t ti_rq0) as (r & q & -> & Hres); [unfold MAX_THREADS in *; lia|].
    rewrite (proj2 (Z.ltb_ge _ _)), Hkm in Hres by lia. destruct Hres as [-> ->]. reflexivity.
Qed.

(** ** Witnesses *)

(** A run queue of two slots, as [q_create(2)] makes it. *)
Definition demo_q : Queue.queue Z := Queue.mk_queue 2 0 0 [None; None].

Lemma demo_q_repr : rq_repr demo_q [].
Proof. apply (Queue.create_repr 2); [unfold Queue.qlim; lia|reflexivity]. Qed.

Definition demo_boot : tsys (addr := Z) := thread_bootstrap demo_q 100.
Definition km_all : nat -> bool := fun _ => true.
Definition km_none : nat -> bool := fun _ => false.

Lemma demo_unknown t : t <> 100 -> ~ known demo_boot t.
Proof.
  intros Ht [H|[(xs & Hx & H)|[H|H]]].
  - by injection H.
  - pose proof (Queue.empty_ok _ _ Hx) as E. case_bool_decide; [|done]. subst. by apply not_elem_of_nil in H.
  - by apply not_elem_of_nil in H.
  - by apply not_elem_of_nil in H.
Qed.

(** The boot thread forks thread 200. *)
Definition demo_forked : tsys (addr := Z) :=
  match fork_thread km_all 200 demo_boot with Ok (_, s) => s | _ => demo_boot end.

Lemma demo_fork : tstep demo_boot (Fork 200 0) demo_forked.
Proof.
  apply (ts_fork _ km_all 200 0 100); [reflexivity|by apply demo_unknown|by apply Z.ltb_lt|reflexivity].
Qed.

Lemma demo_forked_tinv : tinv demo_forked [200] [] [].
Proof.
  destruct (fork_thread_run km_all 200 demo_boot [] [] [] 100 (bootstrap_tinv demo_q 100 demo_q_repr)) as
    (r & s' & Hrun & _ & _ & _ & Hres); [reflexivity|set_solver|by apply Z.ltb_lt|].
  assert (demo_forked = s') as -> by (unfold demo_forked; by rewrite Hrun).
  destruct Hres as [(_ & Hi & _)|(_ & _ & i & Hkm)]; [exact Hi|discriminate Hkm].
Qed.

Definition demo_yielded : tsys (addr := Z) :=
  match thread_yield km_all demo_forked with Ok s => s | _ => demo_forked end.

Lemma demo_yield : tstep demo_forked Yield demo_yielded.
Proof. apply (ts_yield _ km_all 100); reflexivity. Qed.

Lemma threads_conserved_witness :
  exists rq sl zo rq' sl' zo', tinv demo_forked rq sl zo /\ tinv demo_yielded rq' sl' zo' /\
    running demo_yielded ++ rq' ++ sl' ≡ₚ running demo_forked ++ rq ++ sl.
Proof.
  exact (threads_conserved demo_q 100 [Fork 200 0] demo_forked Yield demo_yielded demo_q_repr
    (tr_step _ _ _ _ _ demo_fork (tr_done _)) demo_yield).
Defined.

(** The forked thread is dispatched. *)
Definition demo_switched : tsys (addr := Z) :=
  match dispatch (fun _ => true) demo_yielded with Ok s => s | _ => demo_yielded end.

Lemma demo_dispatch : tstep demo_yielded Dispatch demo_switched.
Proof. apply (ts_dispatch _ (fun _ => true)); reflexivity. Qed.

Lemma round_robin_witness :
  exists evs1 evs2 s1, [Yield; Dispatch] = evs1 ++ evs2 /\ trun demo_forked evs1 s1 /\ curthread s1 = Some 200.
Proof.
  apply (round_robin demo_forked [200] [] [] 0 200 [Yield; Dispatch] demo_switched demo_forked_tinv).
  - reflexivity.
  - exact (tr_step _ _ _ _ _ demo_yield (tr_step _ _ _ _ _ demo_dispatch (tr_done _))).
  - reflexivity.
Defined.

Lemma sleep_has_room_witness :
  exists s3, thread_sleep km_none false 7 demo_switched = Ok s3.
Proof.
  apply (sleep_has_room demo_boot [] [] [] 200 demo_forked [Yield; Dispatch] demo_switched 200 km_none 7
    (bootstrap_tinv demo_q 100 demo_q_repr) demo_fork).
  - exact (tr_step _ _ _ _ _ demo_yield (tr_step _ _ _ _ _ demo_dispatch (tr_done _))).
  - reflexivity.
Defined.

Lemma yield_can_panic_witness : thread_yield km_none demo_forked = Panic.
Proof.
  apply (yield_can_panic demo_forked [200] [] [] 100 km_none demo_forked_tinv); reflexivity.
Defined.

End Sched.
