(* ===== verification/Synch.v ===== *)
(** * Semaphores, locks and condition variables: kern/thread/synch.c

    The functions run with interrupts off and give up the processor only in
    [thread_sleep].  A function is therefore modelled in two parts: the code up
    to its return or to the call of [thread_sleep], and, for a thread that was
    switched out, the code from there on ([resume]); [kpoint] says where a
    thread was switched out.  The relation [kstep] interleaves the threads at
    these points; a thread outside the functions may be preempted at any time
    and interrupt handlers may call [V].

    A sleep address is the address of a primitive; the three kinds of objects
    never share one. *)

From S2P Require Import Prelude Array Queue Sched.
Import Sched.

Module Synch.

Inductive waddr : Type := Asem (n : Z) | Alock (n : Z) | Acv (n : Z).

#[global] Instance waddr_eq_dec : EqDecision waddr.
Proof. solve_decision. Defined.

(** Where a thread that is not running stopped: before its first instruction,
    in a preemption, in [P], in [lock_acquire], in [cv_wait]. *)
Inductive point : Type := Fresh | Yielded | In_P (sem : Z) | In_acquire (lock : Z) | In_wait (cv lock : Z).

#[global] Instance point_eq_dec : EqDecision point.
Proof. solve_decision. Defined.

(** What a call that has returned did. *)
Inductive label : Type :=
| Pdone (t sem : Z) | Vdone (sem : Z) | Acq (t lock : Z) | Rel (t lock : Z)
| Semnew (sem c : Z) | Semfree (sem : Z) | Locknew (lock : Z) | Lockfree (lock : Z).

#[global] Instance label_eq_dec : EqDecision label.
Proof. solve_decision. Defined.

Section Synch.
Context {Q : Type} {RQ : RunQueue Q} {RQL : RunQueueLaws Q}.
Local Abbreviation tsys := (tsys (addr := waddr) (Q := Q)).

Record ksys : Type := mk_ksys {
  ts : tsys;
  count : gmap Z Z;
  holder : gmap Z (option Z);
  kpoint : gmap Z point;
}.

Definition set_ts t (s : ksys) : ksys := mk_ksys t (count s) (holder s) (kpoint s).
Definition set_count m (s : ksys) : ksys := mk_ksys (ts s) m (holder s) (kpoint s).
Definition set_holder m (s : ksys) : ksys := mk_ksys (ts s) (count s) m (kpoint s).
Definition set_kpoint m (s : ksys) : ksys := mk_ksys (ts s) (count s) (holder s) m.

(** A pointer to an object that does not exist. *)
Definition deref {A} (m : gmap Z A) (p : Z) : outcome A :=
  match m !! p with Some a => Ok a | None => Undef end.

Definition cur (s : ksys) : outcome Z := match curthread (ts s) with Some t => Ok t | None => Undef end.

(** The call of [thread_sleep]; the thread will come back at [pt]. *)
Definition sleep_at (km : nat -> bool) (a : waddr) (pt : point) (s : ksys) : outcome ksys :=
  t ← cur s;
  ts' ← thread_sleep km false a (ts s);
  Ok (set_kpoint (<[t := pt]> (kpoint s)) (set_ts ts' s)).

(** The return from [thread_sleep]. *)
Definition awake (s : ksys) : outcome ksys :=
  t ← cur s;
  ts' ← thread_sleep_return (ts s);
  Ok (set_kpoint (delete t (kpoint s)) (set_ts ts' s)).

(** [km] by allocation: the structure, its name.  [p] is the address [kmalloc]
    returns for the structure.  A semaphore is modelled by its count. *)
Definition sem_create (km : nat -> bool) (p initial_count : Z) (s : ksys) : outcome (option Z * ksys) :=
  _ ← c_assert (0 <=? initial_count);
  if negb (km 0%nat) then Ok (None, s)
  else if negb (km 1%nat) then Ok (None, s)
  else Ok (Some p, set_count (<[p := initial_count]> (count s)) s).

Definition sem_destroy (sem : Z) (s : ksys) : outcome ksys :=
  _ ← deref (count s) sem;
  n ← thread_hassleepers (Asem sem) (ts s);
  _ ← c_assert (n =? 0);
  Ok (set_count (delete sem (count s)) s).

Definition lock_create (km : nat -> bool) (p : Z) (s : ksys) : outcome (option Z * ksys) :=
  if negb (km 0%nat) then Ok (None, s)
  else if negb (km 1%nat) then Ok (None, s)
  else Ok (Some p, set_holder (<[p := None]> (holder s)) s).

Definition lock_destroy (lock : Z) (s : ksys) : outcome ksys :=
  h ← deref (holder s) lock;
  _ ← c_assert (bool_decide (h = None));
  Ok (set_holder (delete lock (holder s)) s).

(** [while (sem->count==0) thread_sleep(sem)], at the test, and the rest of
    [P]. *)
Definition P_test (km : nat -> bool) (sem : Z) (s : ksys) : outcome (list label * ksys) :=
  t ← cur s;
  c ← deref (count s) sem;
  if c =? 0 then s ← sleep_at km (Asem sem) (In_P sem) s; Ok ([], s)
  else
    _ ← c_assert (0 <? c);
    Ok ([Pdone t sem], set_count (<[sem := c - 1]> (count s)) s).

Definition P (km : nat -> bool) (in_interrupt : bool) (sem : Z) (s : ksys) : outcome (list label * ksys) :=
  _ ← c_assert (negb in_interrupt);
  P_test km sem s.

Definition V (km : nat -> bool) (sem : Z) (s : ksys) : outcome (list label * ksys) :=
  c ← deref (count s) sem;
  c1 ← c_int (c + 1);
  let s := set_count (<[sem := c1]> (count s)) s in
  _ ← c_assert (0 <? c1);
  ts' ← thread_wakeup km (Asem sem) (ts s);
  Ok ([Vdone sem], set_ts ts' s).

(** [while (lock->holder != NULL) thread_sleep(lock)], at the test, and the
    rest of [lock_acquire]. *)
Definition acquire_test (km : nat -> bool) (lock : Z) (s : ksys) : outcome (list label * ksys) :=
  t ← cur s;
  h ← deref (holder s) lock;
  match h with
  | Some _ => s ← sleep_at km (Alock lock) (In_acquire lock) s; Ok ([], s)
  | None => Ok ([Acq t lock], set_holder (<[lock := Some t]> (holder s)) s)
  end.

Definition lock_acquire (km : nat -> bool) (in_interrupt : bool) (lock : Z) (s : ksys) : outcome (list label * ksys) :=
  _ ← c_assert (negb in_interrupt);
  acquire_test km lock s.

Definition lock_do_i_hold (lock : Z) (s : ksys) : outcome bool :=
  t ← cur s;
  h ← deref (holder s) lock;
  Ok (bool_decide (h = Some t)).

Definition lock_release (km : nat -> bool) (lock : Z) (s : ksys) : outcome (list label * ksys) :=
  t ← cur s;
  h ← deref (holder s) lock;
  _ ← c_assert (bool_decide (is_Some h));
  mine ← lock_do_i_hold lock s;
  _ ← c_assert mine;
  let s := set_holder (<[lock := None]> (holder s)) s in
  ts' ← thread_wakeup km (Alock lock) (ts s);
  Ok ([Rel t lock], set_ts ts' s).

(** Up to the sleep; the lock is taken again in [resume]. *)
Definition cv_wait (km : nat -> bool) (cv lock : Z) (s : ksys) : outcome (list label * ksys) :=
  '(ls, s) ← lock_release km lock s;
  s ← sleep_at km (Acv cv) (In_wait cv lock) s;
  Ok (ls, s).

Definition cv_signal (km : nat -> bool) (cv lock : Z) (s : ksys) : outcome (list label * ksys) :=
  mine ← lock_do_i_hold lock s;
  _ ← c_assert mine;
  ts' ← thread_wakeup_one km (Acv cv) (ts s);
  Ok ([], set_ts ts' s).

Definition cv_broadcast (km : nat -> bool) (cv lock : Z) (s : ksys) : outcome (list label * ksys) :=
  mine ← lock_do_i_hold lock s;
  _ ← c_assert mine;
  ts' ← thread_wakeup km (Acv cv) (ts s);
  Ok ([], set_ts ts' s).

(** A thread that was just dispatched goes on where it stopped, with
    interrupts still off. *)
Definition resume (km : nat -> bool) (s : ksys) : outcome (list label * ksys) :=
  t ← cur s;
  pt ← deref (kpoint s) t;
  match pt with
  | Fresh | Yielded => Ok ([], set_kpoint (delete t (kpoint s)) s)
  | In_P sem => s ← awake s; P_test km sem s
  | In_acquire lock => s ← awake s; acquire_test km lock s
  | In_wait cv lock => s ← awake s; lock_acquire km false lock s
  end.

(** ** The interleaving *)

Definition preempt (km : nat -> bool) (s : ksys) : outcome (list label * ksys) :=
  t ← cur s;
  ts' ← thread_yield km (ts s);
  Ok ([], set_kpoint (<[t := Yielded]> (kpoint s)) (set_ts ts' s)).

Definition fork (km : nat -> bool) (newguy : Z) (s : ksys) : outcome (list label * ksys) :=
  '(r, ts') ← fork_thread km newguy (ts s);
  Ok ([], set_kpoint (if r =? 0 then <[newguy := Fresh]> (kpoint s) else kpoint s) (set_ts ts' s)).

Definition exit (km : nat -> bool) (s : ksys) : outcome (list label * ksys) :=
  ts' ← thread_exit km (ts s);
  Ok ([], set_ts ts' s).

Definition is_fresh (s : ksys) (t : Z) : bool := bool_decide (kpoint s !! t = Some Fresh).

(** The calls a running thread can make. *)
Inductive kcall : Type :=
| CP (sem : Z) | CV (sem : Z) | Cacquire (lock : Z) | Crelease (lock : Z)
| Cwait (cv lock : Z) | Csignal (cv lock : Z) | Cbroadcast (cv lock : Z) | Cpreempt
| Csemnew (p c : Z) | Csemfree (sem : Z) | Clocknew (p : Z) | Clockfree (lock : Z).

Definition call (km : nat -> bool) (c : kcall) (s : ksys) : outcome (list label * ksys) :=
  match c with
  | CP sem => P km false sem s
  | CV sem => V km sem s
  | Cacquire lock => lock_acquire km false lock s
  | Crelease lock => lock_release km lock s
  | Cwait cv lock => cv_wait km cv lock s
  | Csignal cv lock => cv_signal km cv lock s
  | Cbroadcast cv lock => cv_broadcast km cv lock s
  | Cpreempt => preempt km s
  | Csemnew p c => '(r, s) ← sem_create km p c s; Ok (match r with Some _ => [Semnew p c] | None => [] end, s)
  | Csemfree sem => s ← sem_destroy sem s; Ok ([Semfree sem], s)
  | Clocknew p => '(r, s) ← lock_create km p s; Ok (match r with Some _ => [Locknew p] | None => [] end, s)
  | Clockfree lock => s ← lock_destroy lock s; Ok ([Lockfree lock], s)
  end.

(** What [kmalloc] promises: the block it returns is not in use. *)
Definition fresh_block (c : kcall) (s : ksys) : bool :=
  match c with
  | Csemnew p _ => bool_decide (count s !! p = None)
  | Clocknew p => bool_decide (holder s !! p = None)
  | _ => true
  end.

(** A thread that exits holds no lock; a new thread's structure is not in
    use. *)
Inductive kstep (s : ksys) : list label -> ksys -> Prop :=
| k_call km c t ls s' : curthread (ts s) = Some t -> kpoint s !! t = None -> fresh_block c s = true ->
    call km c s = Ok (ls, s') -> kstep s ls s'
| k_resume km t pt ls s' : curthread (ts s) = Some t -> kpoint s !! t = Some pt ->
    resume km s = Ok (ls, s') -> kstep s ls s'
| k_interrupt km sem ls s' : (forall t, curthread (ts s) = Some t -> kpoint s !! t = None) ->
    V km sem s = Ok (ls, s') -> kstep s ls s'
| k_dispatch ts' : curthread (ts s) = None -> dispatch (is_fresh s) (ts s) = Ok ts' ->
    kstep s [] (set_ts ts' s)
| k_fork km newguy t ls s' : curthread (ts s) = Some t -> kpoint s !! t = None -> ~ known (ts s) newguy ->
    numthreads (ts s) + Array.a_num (zombies (ts s)) < MAX_THREADS ->
    fork km newguy s = Ok (ls, s') -> kstep s ls s'
| k_exit km t ls s' : curthread (ts s) = Some t -> kpoint s !! t = None ->
    exit km s = Ok (ls, s') -> kstep s ls s'.

Inductive krun : ksys -> list label -> ksys -> Prop :=
| kr_done s : krun s [] s
| kr_step s ls s1 ls' s' : kstep s ls s1 -> krun s1 ls' s' -> krun s (ls ++ ls') s'.

(** ** The abstract primitives

    A semaphore is a number that [P] decrements when it is positive, a lock is
    free or owned: what a completed call does to them, and [None] when it may
    not happen. *)
Definition apply_label (l : label) (m : gmap Z Z * gmap Z (option Z)) : option (gmap Z Z * gmap Z (option Z)) :=
  let '(cs, hs) := m in
  match l with
  | Pdone t sem =>
      match cs !! sem with Some c => if 0 <? c then Some (<[sem := c - 1]> cs, hs) else None | None => None end
  | Vdone sem => match cs !! sem with Some c => Some (<[sem := c + 1]> cs, hs) | None => None end
  | Acq t lock => match hs !! lock with Some None => Some (cs, <[lock := Some t]> hs) | _ => None end
  | Rel t lock => if decide (hs !! lock = Some (Some t)) then Some (cs, <[lock := None]> hs) else None
  | Semnew n c => if decide (cs !! n = None /\ 0 <= c) then Some (<[n := c]> cs, hs) else None
  | Semfree n => match cs !! n with Some _ => Some (delete n cs, hs) | None => None end
  | Locknew lock => if decide (hs !! lock = None) then Some (cs, <[lock := None]> hs) else None
  | Lockfree lock => match hs !! lock with Some None => Some (cs, delete lock hs) | _ => None end
  end.

Fixpoint replay (ls : list label) (m : gmap Z Z * gmap Z (option Z)) : option (gmap Z Z * gmap Z (option Z)) :=
  match ls with
  | [] => Some m
  | l :: ls' => m' ← apply_label l m; replay ls' m'
  end.

Lemma replay_app ls ls' m : replay (ls ++ ls') m = (m' ← replay ls m; replay ls' m').
Proof. revert m. induction ls as [|l ls IH]; intros m; cbn; [done|]. destruct (apply_label l m); cbn; [apply IH|done]. Qed.

Definition vals (s : ksys) : gmap Z Z * gmap Z (option Z) := (count s, holder s).

Lemma deref_Ok {A} (m : gmap Z A) p a : deref m p = Ok a -> m !! p = Some a.
Proof. unfold deref. by destruct (m !! p); intros [= ->]. Qed.

Ltac kinvert :=
  repeat match goal with
  | H : mbind _ _ = Ok _ |- _ => apply bind_Ok in H as (? & ? & ?)
  | H : deref _ _ = Ok _ |- _ => apply deref_Ok in H
  | H : c_assert ?b = Ok _ |- _ => destruct b eqn:?; [clear H|discriminate H]
  | H : Ok _ = Ok _ |- _ => injection H; clear H; intros; subst
  | x : unit |- _ => destruct x
  | x : _ * _ |- _ => destruct x
  end.

Lemma sleep_at_vals km a pt s s' : sleep_at km a pt s = Ok s' -> vals s' = vals s.
Proof. unfold sleep_at. intros H. by kinvert. Qed.

Lemma awake_vals s s' : awake s = Ok s' -> vals s' = vals s.
Proof. unfold awake. intros H. by kinvert. Qed.

Lemma P_test_replay km sem s ls s' : P_test km sem s = Ok (ls, s') -> replay ls (vals s) = Some (vals s').
Proof.
  unfold P_test. intros H. kinvert. rename x0 into c. case_match; kinvert.
  - cbn [replay]. f_equal. symmetry. by eapply sleep_at_vals.
  - unfold vals. cbn. rewrite H0. by destruct (0 <? c).
Qed.

Lemma V_replay km sem s ls s' : V km sem s = Ok (ls, s') -> replay ls (vals s) = Some (vals s').
Proof.
  unfold V. intros H. kinvert. match goal with H : c_int _ = Ok _ |- _ => apply c_int_Ok in H as [-> _] end.
  unfold vals. cbn. match goal with H : count s !! sem = _ |- _ => by rewrite H end.
Qed.

Lemma acquire_test_replay km lock s ls s' :
  acquire_test km lock s = Ok (ls, s') -> replay ls (vals s) = Some (vals s').
Proof.
  unfold acquire_test. intros H. kinvert. case_match; kinvert.
  - cbn [replay]. f_equal. symmetry. by eapply sleep_at_vals.
  - unfold vals. cbn. match goal with H : holder s !! lock = _ |- _ => by rewrite H end.
Qed.

Lemma lock_release_replay km lock s ls s' :
  lock_release km lock s = Ok (ls, s') -> replay ls (vals s) = Some (vals s').
Proof.
  unfold lock_release, lock_do_i_hold. intros H. kinvert.
  match goal with H : bool_decide (_ = Some _) = true |- _ => apply bool_decide_eq_true in H; subst end.
  unfold vals. cbn. rewrite decide_True; [done|]. simplify_eq. congruence.
Qed.

Lemma sem_create_Ok km p c s r s' :
  sem_create km p c s = Ok (r, s') ->
  (r = None /\ s' = s) \/ (r = Some p /\ 0 <= c /\ s' = set_count (<[p := c]> (count s)) s).
Proof.
  unfold sem_create. intros H. kinvert. destruct (km 0%nat), (km 1%nat); cbn in H0; injection H0 as <- <-; try by left.
  right. split; [done|]. split; [lia|done].
Qed.

Lemma lock_create_Ok km p s r s' :
  lock_create km p s = Ok (r, s') ->
  (r = None /\ s' = s) \/ (r = Some p /\ s' = set_holder (<[p := None]> (holder s)) s).
Proof. unfold lock_create. destruct (km 0%nat), (km 1%nat); cbn; intros [= <- <-]; by auto. Qed.

Lemma lock_destroy_Ok lock s s' :
  lock_destroy lock s = Ok s' -> holder s !! lock = Some None /\ s' = set_holder (delete lock (holder s)) s.
Proof.
  unfold lock_destroy. intros H. kinvert.
  match goal with H : bool_decide _ = true |- _ => apply bool_decide_eq_true in H; subst end. done.
Qed.

Lemma call_replay km c s ls s' :
  fresh_block c s = true -> call km c s = Ok (ls, s') -> replay ls (vals s) = Some (vals s').
Proof.
  destruct c; cbn [call fresh_block]; intros Hf H.
  - unfold P in H. kinvert. by eapply P_test_replay.
  - by eapply V_replay.
  - unfold lock_acquire in H. kinvert. by eapply acquire_test_replay.
  - by eapply lock_release_replay.
  - unfold cv_wait in H. kinvert. erewrite lock_release_replay by done. f_equal. symmetry. by eapply sleep_at_vals.
  - unfold cv_signal in H. by kinvert.
  - unfold cv_broadcast in H. by kinvert.
  - unfold preempt in H. by kinvert.
  - kinvert. apply bool_decide_eq_true in Hf. apply sem_create_Ok in H as [[-> ->]|(-> & H0 & ->)]; [done|].
    unfold vals. cbn. by rewrite decide_True.
  - unfold sem_destroy in H. kinvert. unfold vals. cbn. by match goal with H : count s !! sem = _ |- _ => rewrite H end.
  - kinvert. apply bool_decide_eq_true in Hf. apply lock_create_Ok in H as [[-> ->]|[-> ->]]; [done|].
    unfold vals. cbn. by rewrite decide_True.
  - kinvert. apply lock_destroy_Ok in H as [H ->]. unfold vals. cbn. by rewrite H.
Qed.

Lemma resume_replay km s ls s' : resume km s = Ok (ls, s') -> replay ls (vals s) = Some (vals s').
Proof.
  unfold resume. intros H. kinvert. case_match; kinvert; try done;
    match goal with H : awake s = Ok _ |- _ => rewrite <- (awake_vals _ _ H) end.
  - by eapply P_test_replay.
  - by eapply acquire_test_replay.
  - unfold lock_acquire in *. kinvert. by eapply acquire_test_replay.
Qed.

Lemma kstep_replay s ls s' : kstep s ls s' -> replay ls (vals s) = Some (vals s').
Proof.
  intros [km c t ls0 s0 _ _ Hf H|km t pt ls0 s0 _ _ H|km sem ls0 s0 _ H|ts' _ H|km g t ls0 s0 _ _ _ _ H|km t ls0 s0 _ _ H].
  - by eapply call_replay.
  - by eapply resume_replay.
  - by eapply V_replay.
  - done.
  - unfold fork in H. by kinvert.
  - unfold exit in H. by kinvert.
Qed.

Lemma krun_replay s ls s' : krun s ls s' -> replay ls (vals s) = Some (vals s').
Proof.
  induction 1 as [|s ls s1 ls' s' Hs _ IH]; [done|]. by rewrite replay_app, (kstep_replay _ _ _ Hs).
Qed.

(** C3. The primitives implement their specification.  However threads,
    preemptions and interrupts interleave, the calls that have completed are a
    legal history of abstract semaphores and locks, and the counts and holders
    in memory are its result: each [P] took from a positive count, each [V]
    added one, each acquisition found the lock free, each release was the
    holder's. *)
Theorem synch_refines s ls s' :
  krun s ls s' -> replay ls (count s, holder s) = Some (count s', holder s').
Proof. apply krun_replay. Qed.

(** The owner of a lock only changes by its own release. *)
Lemma replay_owner ls lock t : forall m m',
  replay ls m = Some m' -> snd m !! lock = Some (Some t) -> (Rel t lock) ∉ ls -> snd m' !! lock = Some (Some t).
Proof.
  induction ls as [|l ls IH]; intros [cs hs] m' Hr Ht Hn; [by injection Hr as <-|].
  apply not_elem_of_cons in Hn as [Hne Hn]. cbn [replay] in Hr. apply bind_Some in Hr as ([cs1 hs1] & Hl & Hr).
  apply (IH (cs1, hs1) m' Hr); [|done]. cbn in Ht |- *. destruct l; cbn in Hl.
  - destruct (cs !! sem) as [c|]; [|done]. destruct (0 <? c); [by injection Hl as <- <-|done].
  - destruct (cs !! sem); [by injection Hl as <- <-|done].
  - destruct (hs !! lock0) as [[h|]|] eqn:E; [done| |done]. injection Hl as <- <-.
    rewrite lookup_insert_ne; [done|congruence].
  - case_decide as E; [|done]. injection Hl as <- <-. rewrite lookup_insert_ne; [done|]. congruence.
  - case_decide; [by injection Hl as <- <-|done].
  - destruct (cs !! sem); [by injection Hl as <- <-|done].
  - case_decide; [|done]. injection Hl as <- <-. rewrite lookup_insert_ne; [done|congruence].
  - destruct (hs !! lock0) as [[h|]|] eqn:E; [done| |done]. injection Hl as <- <-.
    rewrite lookup_delete_ne; [done|congruence].
Qed.

(** Locks exclude.  Between the completion of a thread's [lock_acquire]
    and the next completion of anyone's [lock_acquire] on the same lock
    (a return from [cv_wait] counts as one), the first thread has released the
    lock, by [lock_release] or by going to sleep in [cv_wait]. *)
Theorem mutual_exclusion s ls1 t lock ls2 t' ls3 s' :
  krun s (ls1 ++ Acq t lock :: ls2 ++ Acq t' lock :: ls3) s' -> Rel t lock ∈ ls2.
Proof.
  intros Hr%krun_replay. destruct (decide (Rel t lock ∈ ls2)) as [|Hn]; [done|]. exfalso.
  rewrite replay_app in Hr. apply bind_Some in Hr as ([cs1 hs1] & _ & Hr). cbn [replay] in Hr.
  apply bind_Some in Hr as ([cs2 hs2] & Ha & Hr). cbn in Ha.
  destruct (hs1 !! lock) as [[h|]|]; [done| |done]. injection Ha as <- <-.
  rewrite replay_app in Hr. apply bind_Some in Hr as ([cs3 hs3] & Hr2 & Hr). cbn [replay] in Hr.
  apply bind_Some in Hr as (m4 & Ha' & _).
  pose proof (replay_owner _ lock t _ _ Hr2 ltac:(cbn; by rewrite lookup_insert_eq) Hn) as Ho. cbn in Ho, Ha'.
  by rewrite Ho in Ha'.
Qed.

Definition is_P (sem : Z) (l : label) : bool := match l with Pdone _ n => n =? sem | _ => false end.
Definition is_V (sem : Z) (l : label) : bool := match l with Vdone n => n =? sem | _ => false end.

(** The number of calls of a kind that have completed. *)
Definition completed (f : label -> bool) (ls : list label) : Z := zlen (filter (fun l => f l = true) ls).

Lemma completed_cons f l ls : completed f (l :: ls) = (if f l then 1 else 0) + completed f ls.
Proof.
  unfold completed. destruct (f l) eqn:E.
  - rewrite filter_cons_True by done. cbn [length]. lia.
  - rewrite filter_cons_False by congruence. lia.
Qed.

Lemma apply_count l sem cs hs m' c :
  apply_label l (cs, hs) = Some m' -> l <> Semfree sem -> cs !! sem = Some c -> 0 <= c ->
  exists c', fst m' !! sem = Some c' /\ 0 <= c' /\
    c' = c + (if is_V sem l then 1 else 0) - (if is_P sem l then 1 else 0).
Proof.
  intros Hl Hf Hc H0. destruct l as [t n|n|t lock|t lock|n d|n|lock|lock]; cbn in Hl |- *.
  - destruct (cs !! n) as [d|] eqn:E; [|done]. destruct (Z.ltb_spec 0 d); [|done]. injection Hl as <-. cbn.
    destruct (Z.eqb_spec n sem) as [->|Hne]; [|rewrite lookup_insert_ne by done; exists c; split; [done|lia]].
    rewrite lookup_insert_eq. eexists. split; [done|]. simplify_eq. lia.
  - destruct (cs !! n) as [d|] eqn:E; [|done]. injection Hl as <-. cbn.
    destruct (Z.eqb_spec n sem) as [->|Hne]; [|rewrite lookup_insert_ne by done; exists c; split; [done|lia]].
    rewrite lookup_insert_eq. eexists. split; [done|]. simplify_eq. lia.
  - destruct (hs !! lock) as [[h|]|]; [done| |done]. injection Hl as <-. exists c. split; [done|lia].
  - case_decide; [|done]. injection Hl as <-. exists c. split; [done|lia].
  - case_decide; [|done]. injection Hl as <-. exists c. cbn. rewrite lookup_insert_ne; [split; [done|lia]|]. intros ->. naive_solver.
  - destruct (cs !! n); [|done]. injection Hl as <-. exists c. cbn. rewrite lookup_delete_ne; [split; [done|lia]|congruence].
  - case_decide; [|done]. injection Hl as <-. exists c. split; [done|lia].
  - destruct (hs !! lock) as [[h|]|]; [done| |done]. injection Hl as <-. exists c. split; [done|lia].
Qed.

Lemma replay_count ls sem : forall m m' c,
  replay ls m = Some m' -> Semfree sem ∉ ls -> fst m !! sem = Some c -> 0 <= c ->
  exists c', fst m' !! sem = Some c' /\ 0 <= c' /\ c' = c + completed (is_V sem) ls - completed (is_P sem) ls.
Proof.
  induction ls as [|l ls IH]; intros [cs hs] m' c Hr Hf Hc H0.
  { injection Hr as <-. exists c. split; [done|]. unfold completed. cbn. lia. }
  apply not_elem_of_cons in Hf as [Hf1 Hf]. cbn [replay] in Hr. apply bind_Some in Hr as (m1 & Hl & Hr).
  destruct (apply_count l sem cs hs m1 c Hl (not_eq_sym Hf1) Hc H0) as (c1 & Hc1 & H1 & ->).
  destruct (IH m1 m' _ Hr Hf Hc1 H1) as (c' & Hc' & Hpos & ->). eexists. split; [done|]. split; [done|].
  rewrite !completed_cons. lia.
Qed.

(** Semaphores count.  As long as a semaphore is not destroyed, its count is its initial value plus
    the completed [V]s minus the completed [P]s, and is not negative: no more
    [P]s complete than the initial value and the [V]s allow. *)
Theorem semaphore_counts s ls s' sem c :
  krun s ls s' -> Semfree sem ∉ ls -> count s !! sem = Some c -> 0 <= c ->
  exists c', count s' !! sem = Some c' /\ c' = c + completed (is_V sem) ls - completed (is_P sem) ls /\
    completed (is_P sem) ls <= c + completed (is_V sem) ls.
Proof.
  intros Hr%krun_replay Hf Hc H0. destruct (replay_count ls sem _ _ c Hr Hf Hc H0) as (c' & Hc' & Hpos & Heq).
  exists c'. split; [done|]. split; [done|]. lia.
Qed.

(** ** Sleepers and what they wait for *)

(** Thread [t], asleep on [a], is in the function that put it there, and what
    it waits for is not to be had. *)
Definition waits (s : ksys) (t : Z) (a : waddr) : Prop :=
  match a with
  | Asem n => kpoint s !! t = Some (In_P n) /\ count s !! n = Some 0
  | Alock l => kpoint s !! t = Some (In_acquire l) /\ exists h, holder s !! l = Some (Some h)
  | Acv c => exists l, kpoint s !! t = Some (In_wait c l)
  end.

Section Invariant.
(** Which threads ended while they held which lock. *)
Variable gone : Z -> Z -> Prop.

Record kinv (s : ksys) (rq sl zo : list Z) : Prop := mk_kinv {
  ki_tinv : tinv (ts s) rq sl zo;
  ki_count n c : count s !! n = Some c -> 0 <= c;
  ki_sleep t : t ∈ sl -> exists a, t_sleepaddr (ts s) !! t = Some a /\ waits s t a;
  ki_ready t : t ∈ rq -> is_Some (kpoint s !! t);
  ki_holder l h : holder s !! l = Some (Some h) -> h ∈ running (ts s) ++ rq ++ sl \/ gone l h;
}.

Lemma tinv_not_running s rq sl zo t u :
  tinv (addr := waddr) s rq sl zo -> curthread s = Some t -> u ∈ rq ++ sl ++ zo -> u <> t.
Proof.
  intros Hi Hc Hu ->. destruct (tinv_running _ _ _ _ _ Hi Hc) as (Hnd & _ & _).
  by apply list.NoDup_cons in Hnd as [Hnd _].
Qed.

(** Going to sleep on what is not to be had. *)
Lemma sleep_at_kinv km a pt s rq sl zo t s' :
  kinv s rq sl zo -> curthread (ts s) = Some t -> waits (set_kpoint (<[t := pt]> (kpoint s)) s) t a ->
  sleep_at km a pt s = Ok s' -> kinv s' rq (sl ++ [t]) zo.
Proof.
  intros [] Hc Hw Hrun. unfold sleep_at, cur in Hrun. rewrite Hc, Ok_bind in Hrun. kinvert.
  match goal with H : thread_sleep _ _ _ _ = Ok ?x |- _ => rename H into Hs; rename x into ts' end.
  destruct (thread_sleep_run km (ts s) rq sl zo t a ki_tinv0 Hc) as [Hrun _].
  destruct (or_nomem_Ok _ _ _ _ _ Hrun Hs) as (Hi' & Hc' & Ha' & _).
  assert (forall u, u ∈ rq ++ sl -> u <> t) as Hne.
  { intros u Hu. apply (tinv_not_running (ts s) rq sl zo); [done|done|]. set_solver. }
  constructor; cbn; try done.
  - intros u Hu. rewrite Ha'. apply elem_of_app in Hu as [Hu|Hu%list_elem_of_singleton].
    + rewrite lookup_insert_ne by (symmetry; apply Hne; set_solver). destruct (ki_sleep0 u Hu) as (b & Hb & Hwb).
      exists b. split; [done|]. destruct b; cbn; rewrite lookup_insert_ne by (symmetry; apply Hne; set_solver); done.
    + subst u. rewrite lookup_insert_eq. by exists a.
  - intros u Hu. rewrite lookup_insert_ne by (symmetry; apply Hne; set_solver). by apply ki_ready0.
  - intros l h Hh. destruct (ki_holder0 l h Hh) as [Hl|]; [left|by right]. unfold running in *. rewrite Hc' , Hc in *. cbn in *. set_solver.
Qed.

Lemma awake_kinv s rq sl zo t s' :
  kinv s rq sl zo -> curthread (ts s) = Some t -> awake s = Ok s' ->
  kinv s' rq sl zo /\ curthread (ts s') = Some t.
Proof.
  intros [] Hc Hrun. unfold awake, cur, thread_sleep_return in Hrun. rewrite Hc, !Ok_bind in Hrun. kinvert.
  assert (forall u, u ∈ rq ++ sl -> u <> t) as Hne.
  { intros u Hu. apply (tinv_not_running (ts s) rq sl zo); [done|done|]. set_solver. }
  split; [|done]. constructor; cbn; try done.
  - apply (tinv_set_addrs _ _ _ _ t); [done|done|]. intros u Hu. by apply lookup_delete_ne.
  - intros u Hu. rewrite lookup_delete_ne by (symmetry; apply Hne; set_solver).
    destruct (ki_sleep0 u Hu) as (b & Hb & Hwb). exists b. split; [done|].
    destruct b; cbn; rewrite lookup_delete_ne by (symmetry; apply Hne; set_solver); done.
  - intros u Hu. rewrite lookup_delete_ne by (symmetry; apply Hne; set_solver). by apply ki_ready0.
Qed.

(** Waking all sleepers on [a], together with a change of the values that only
    those sleepers depend on. *)
Lemma wakeup_kinv km a s rq sl zo ts' cs hs :
  kinv s rq sl zo -> thread_wakeup km a (ts s) = Ok ts' ->
  (forall n c, cs !! n = Some c -> 0 <= c) ->
  (forall t b, b <> a -> waits s t b -> waits (mk_ksys ts' cs hs (kpoint s)) t b) ->
  (forall l h, hs !! l = Some (Some h) -> holder s !! l = Some (Some h)) ->
  curthread ts' = curthread (ts s) /\ exists rq' sl', kinv (mk_ksys ts' cs hs (kpoint s)) rq' sl' zo.
Proof using RQL.
  intros [] Hrun Hcs Hw Hhs.
  destruct (or_nomem_Ok _ _ _ _ _ (thread_wakeup_run km a (ts s) rq sl zo ki_tinv0) Hrun) as (Hi' & Hc' & Ha' & _).
  split; [done|]. do 2 eexists. constructor; cbn; try done.
  - intros t [Hn Ht]%list_elem_of_filter. destruct (ki_sleep0 t Ht) as (b & Hb & Hwb). exists b.
    rewrite Ha'. split; [done|]. apply Hw; [|done]. intros ->. by apply Hn.
  - intros t [Ht|Ht]%elem_of_app; [by apply ki_ready0|]. apply list_elem_of_filter in Ht as [_ Ht].
    destruct (ki_sleep0 t Ht) as (b & _ & Hwb). destruct b; cbn in Hwb; [by destruct Hwb as [-> _]..|].
    by destruct Hwb as [l ->].
  - intros l h Hh. destruct (ki_holder0 l h (Hhs l h Hh)) as [Hl|]; [left|by right]. unfold running in *. rewrite Hc'.
    apply elem_of_app in Hl as [Hr|Hr]; [set_solver|]. apply elem_of_app in Hr as [Hr|Hr]; [set_solver|].
    rewrite <- (filter_app_complement (sleeps_on (t_sleepaddr (ts s)) a) sl) in Hr. set_solver.
Qed.

Lemma V_kinv km sem s rq sl zo ls s' :
  kinv s rq sl zo -> V km sem s = Ok (ls, s') -> exists rq' sl', kinv s' rq' sl' zo.
Proof using RQL.
  intros Hi Hrun. unfold V in Hrun. kinvert.
  match goal with H : c_int _ = Ok _ |- _ => apply c_int_Ok in H as [-> _] end.
  match goal with H : count s !! sem = Some ?c |- _ => pose proof (ki_count _ _ _ _ Hi _ _ H) as Hc end.
  eapply (wakeup_kinv km (Asem sem) s rq sl zo); [done|done| | |done].
  - intros n c. cbn. intros [[-> <-]|[_ Hn]]%lookup_insert_Some; [lia|by eapply (ki_count _ _ _ _ Hi)].
  - intros t [n|n|n] Hb; cbn; [|done..]. intros [-> Hn]. split; [done|]. rewrite lookup_insert_ne; [done|congruence].
Qed.

Lemma lock_release_kinv km lock s rq sl zo t ls s' :
  kinv s rq sl zo -> curthread (ts s) = Some t -> lock_release km lock s = Ok (ls, s') ->
  curthread (ts s') = Some t /\ exists rq' sl', kinv s' rq' sl' zo.
Proof using RQL.
  intros Hi Hc Hrun. unfold lock_release in Hrun. kinvert.
  match goal with H : thread_wakeup _ _ _ = Ok ?x |- _ => rename H into Hw; rename x into ts' end.
  destruct (wakeup_kinv km (Alock lock) s rq sl zo ts' (count s) (<[lock := None]> (holder s)) Hi Hw) as [Hc' Hi'].
  - apply (ki_count _ _ _ _ Hi).
  - intros u [n|n|n] Hb; cbn; [done| |done]. intros [-> [h Hn]]. split; [done|]. exists h.
    rewrite lookup_insert_ne; [done|congruence].
  - intros l h. by intros [[_ ?]|[_ Hn]]%lookup_insert_Some.
  - split; [cbn; by rewrite Hc'|done].
Qed.

Lemma acquire_test_kinv km lock s rq sl zo t ls s' :
  kinv s rq sl zo -> curthread (ts s) = Some t -> acquire_test km lock s = Ok (ls, s') ->
  exists rq' sl', kinv s' rq' sl' zo.
Proof.
  intros Hi Hc Hrun. unfold acquire_test, cur in Hrun. rewrite Hc, Ok_bind in Hrun. kinvert. case_match; kinvert.
  - do 2 eexists. eapply sleep_at_kinv; [done|done| |done]. cbn. rewrite lookup_insert_eq. eauto.
  - exists rq, sl. destruct Hi. constructor; cbn; try done.
    + intros u Hu. destruct (ki_sleep0 u Hu) as (b & Hb & Hw). exists b. split; [done|].
      destruct b as [n|n|n]; cbn in Hw |- *; [done| |done]. destruct Hw as [-> [h Hh]]. split; [done|].
      rewrite lookup_insert_ne; [by exists h|congruence].
    + intros l h. intros [[_ [= <-]]|[_ Hn]]%lookup_insert_Some; [|by eapply ki_holder0].
      left. unfold running. rewrite Hc. set_solver.
Qed.

Lemma P_test_kinv km sem s rq sl zo t ls s' :
  kinv s rq sl zo -> curthread (ts s) = Some t -> P_test km sem s = Ok (ls, s') ->
  exists rq' sl', kinv s' rq' sl' zo.
Proof.
  intros Hi Hc Hrun. unfold P_test, cur in Hrun. rewrite Hc, Ok_bind in Hrun. kinvert. case_match eqn:E; kinvert.
  - apply Z.eqb_eq in E. subst. do 2 eexists. eapply sleep_at_kinv; [done|done| |done]. cbn. by rewrite lookup_insert_eq.
  - apply Z.eqb_neq in E. exists rq, sl. destruct Hi.
    match goal with H : count s !! sem = Some ?c |- _ => pose proof (ki_count0 _ _ H); rename H into Hcnt end.
    constructor; cbn; try done.
    + intros n c [[-> <-]|[_ Hn]]%lookup_insert_Some; [lia|by eapply ki_count0].
    + intros u Hu. destruct (ki_sleep0 u Hu) as (b & Hb & Hw). exists b. split; [done|].
      destruct b as [n|n|n]; cbn in Hw |- *; [|done..]. destruct Hw as [-> Hn]. split; [done|].
      rewrite lookup_insert_ne; [done|congruence].
Qed.

Lemma resume_kinv km s rq sl zo t ls s' :
  kinv s rq sl zo -> curthread (ts s) = Some t -> resume km s = Ok (ls, s') ->
  exists rq' sl', kinv s' rq' sl' zo.
Proof.
  intros Hi Hc Hrun. unfold resume, cur in Hrun. rewrite Hc, Ok_bind in Hrun. kinvert.
  assert (kinv (set_kpoint (delete t (kpoint s)) s) rq sl zo) as Hd.
  { destruct (awake_kinv s rq sl zo t (set_kpoint (delete t (kpoint s))
      (set_ts (set_addrs (delete t (t_sleepaddr (ts s))) (ts s)) s)) Hi Hc) as [[] _].
    { unfold awake, cur, thread_sleep_return. by rewrite Hc. }
    destruct Hi. constructor; try done. intros u Hu. destruct (ki_sleep0 u Hu) as (b & Hb & Hw). exists b.
    split; [|done]. cbn in Hb. apply lookup_delete_Some in Hb. by destruct Hb. }
  case_match; kinvert; try (by exists rq, sl);
    match goal with H : awake s = Ok _ |- _ => destruct (awake_kinv _ _ _ _ _ _ Hi Hc H) as [Hi1 Hc1] end.
  - by eapply P_test_kinv.
  - by eapply acquire_test_kinv.
  - unfold lock_acquire in *. kinvert. by eapply acquire_test_kinv.
Qed.

Lemma wakeup_one_kinv km a s rq sl zo ts' :
  kinv s rq sl zo -> thread_wakeup_one km a (ts s) = Ok ts' -> exists rq' sl', kinv (set_ts ts' s) rq' sl' zo.
Proof using RQL.
  intros Hi Hrun. pose proof (thread_wakeup_one_run km a (ts s) rq sl zo (ki_tinv _ _ _ _ Hi)) as Hw.
  destruct (list_find _ sl) as [[i t]|] eqn:E.
  2: { rewrite Hw in Hrun. injection Hrun as <-. exists rq, sl. by destruct s. }
  apply list_find_Some in E as (Ht & _). pose proof (delete_Permutation sl i t Ht) as Hp.
  destruct (or_nomem_Ok _ _ _ _ _ Hw Hrun) as (Hi' & Hc' & Ha' & _). destruct Hi.
  assert (forall u, u ∈ delete i sl -> u ∈ sl) as Hsub by (intros u Hu; rewrite Hp; by right).
  exists (rq ++ [t]), (delete i sl). constructor; cbn; try done.
  - intros u Hu. rewrite Ha'. by apply ki_sleep0, Hsub.
  - intros u Hu. apply elem_of_app in Hu as [Hu|Hu]; [by apply ki_ready0|]. apply list_elem_of_singleton in Hu as ->.
    destruct (ki_sleep0 t) as (b & _ & Hwb); [by eapply list_elem_of_lookup_2|].
    destruct b; cbn in Hwb; [by destruct Hwb as [-> _]..|]. by destruct Hwb as [l ->].
  - intros l h Hh. destruct (ki_holder0 l h Hh) as [Hl|]; [left|by right]. unfold running in *. rewrite Hc'. rewrite Hp in Hl. set_solver.
Qed.

Lemma preempt_kinv km s rq sl zo t ls s' :
  kinv s rq sl zo -> curthread (ts s) = Some t -> preempt km s = Ok (ls, s') -> exists rq' sl', kinv s' rq' sl' zo.
Proof using RQL.
  intros [] Hc Hrun. unfold preempt, cur in Hrun. rewrite Hc, Ok_bind in Hrun. kinvert.
  match goal with H : thread_yield _ _ = Ok _ |- _ => rename H into Hy end.
  destruct (or_nomem_Ok _ _ _ _ _ (stash_ready_run km (ts s) rq sl zo t ki_tinv0 Hc) Hy) as (Hi' & Hc' & Ha' & _).
  assert (forall u, u ∈ rq ++ sl -> u <> t) as Hne.
  { intros u Hu. apply (tinv_not_running (ts s) rq sl zo); [done|done|]. set_solver. }
  exists (rq ++ [t]), sl. constructor; cbn; try done.
  - intros u Hu. rewrite Ha'. destruct (ki_sleep0 u Hu) as (b & Hb & Hwb). exists b. split; [done|].
    destruct b; cbn; rewrite lookup_insert_ne by (symmetry; apply Hne; set_solver); done.
  - intros u Hu. apply lookup_insert_is_Some. destruct (decide (t = u)) as [->|Hu']; [by left|right].
    split; [done|]. apply ki_ready0. set_solver.
  - intros l h Hh. destruct (ki_holder0 l h Hh) as [Hl|]; [left|by right]. unfold running in *. rewrite Hc', Hc in *. cbn in *. set_solver.
Qed.

(** A change of the values that no sleeper depends on. *)
Lemma values_kinv s rq sl zo cs hs :
  kinv s rq sl zo -> (forall n c, cs !! n = Some c -> 0 <= c) ->
  (forall l h, hs !! l = Some (Some h) -> holder s !! l = Some (Some h)) ->
  (forall t b, t ∈ sl -> t_sleepaddr (ts s) !! t = Some b -> waits s t b -> waits (mk_ksys (ts s) cs hs (kpoint s)) t b) ->
  kinv (mk_ksys (ts s) cs hs (kpoint s)) rq sl zo.
Proof.
  intros [] Hcs Hhs Hw. constructor; cbn; try done.
  - intros t Ht. destruct (ki_sleep0 t Ht) as (b & Hb & Hwb). eauto.
  - eauto.
Qed.

Lemma semnew_kinv p c s rq sl zo :
  kinv s rq sl zo -> count s !! p = None -> 0 <= c -> kinv (set_count (<[p := c]> (count s)) s) rq sl zo.
Proof.
  intros Hi Hf H0. apply values_kinv; [done| |done|].
  - intros n d [[-> <-]|[_ Hn]]%lookup_insert_Some; [done|by eapply (ki_count _ _ _ _ Hi)].
  - intros t [n|n|n] _ _; cbn; [|done..]. intros [-> Hn]. split; [done|]. rewrite lookup_insert_ne; [done|congruence].
Qed.

Lemma semfree_kinv sem s rq sl zo s' : kinv s rq sl zo -> sem_destroy sem s = Ok s' -> kinv s' rq sl zo.
Proof.
  intros Hi Hrun. unfold sem_destroy in Hrun. rewrite (thread_hassleepers_run _ _ _ _ _ (ki_tinv _ _ _ _ Hi)) in Hrun.
  kinvert. case_decide as Hex; [discriminate|]. apply values_kinv; [done| |done|].
  - intros n c [_ Hn]%lookup_delete_Some. by eapply (ki_count _ _ _ _ Hi).
  - intros t [n|n|n] Ht Ha; cbn; [|done..]. intros [-> Hn]. split; [done|]. rewrite lookup_delete_ne; [done|]. intros ->.
    apply Hex, list.Exists_exists. exists t. split; [exact Ht|exact Ha].
Qed.

Lemma locknew_kinv p s rq sl zo :
  kinv s rq sl zo -> holder s !! p = None -> kinv (set_holder (<[p := None]> (holder s)) s) rq sl zo.
Proof.
  intros Hi Hf. apply values_kinv; [done|apply (ki_count _ _ _ _ Hi)| |].
  - by intros l h [[_ ?]|[_ Hn]]%lookup_insert_Some.
  - intros t [n|n|n] _ _; cbn; [done| |done]. intros [-> [h Hn]]. split; [done|]. exists h.
    rewrite lookup_insert_ne; [done|congruence].
Qed.

Lemma lockfree_kinv lock s rq sl zo :
  kinv s rq sl zo -> holder s !! lock = Some None -> kinv (set_holder (delete lock (holder s)) s) rq sl zo.
Proof.
  intros Hi Hf. apply values_kinv; [done|apply (ki_count _ _ _ _ Hi)| |].
  - by intros l h [_ Hn]%lookup_delete_Some.
  - intros t [n|n|n] _ _; cbn; [done| |done]. intros [-> [h Hn]]. split; [done|]. exists h.
    rewrite lookup_delete_ne; [done|congruence].
Qed.

Lemma call_kinv km c s rq sl zo t ls s' :
  kinv s rq sl zo -> curthread (ts s) = Some t -> fresh_block c s = true -> call km c s = Ok (ls, s') -> exists rq' sl', kinv s' rq' sl' zo.
Proof using RQL.
  intros Hi Hc. destruct c as [sem|sem|lock|lock|cv lock|cv lock|cv lock| |p c|sem|p|lock]; cbn [call fresh_block]; intros Hf Hrun.
  - unfold P in Hrun. kinvert. by eapply P_test_kinv.
  - by eapply V_kinv.
  - unfold lock_acquire in Hrun. kinvert. by eapply acquire_test_kinv.
  - by eapply lock_release_kinv.
  - unfold cv_wait in Hrun. kinvert.
    match goal with H : lock_release _ _ _ = Ok _ |- _ => rename H into Hrel end.
    destruct (lock_release_kinv _ _ _ _ _ _ _ _ _ Hi Hc Hrel) as (Hc1 & rq1 & sl1 & Hi1).
    do 2 eexists. eapply sleep_at_kinv; [done|done| |done]. cbn. rewrite lookup_insert_eq. by exists lock.
  - unfold cv_signal in Hrun. kinvert. by eapply wakeup_one_kinv.
  - unfold cv_broadcast in Hrun. kinvert.
    match goal with H : thread_wakeup _ _ _ = Ok ?x |- _ => rename H into Hw; rename x into ts' end.
    apply (wakeup_kinv km (Acv cv) s rq sl zo ts' (count s) (holder s) Hi Hw); [apply (ki_count _ _ _ _ Hi)|done|done].
  - by eapply preempt_kinv.
  - kinvert. apply bool_decide_eq_true in Hf. exists rq, sl.
    match goal with H : sem_create _ _ _ _ = _ |- _ => apply sem_create_Ok in H as [[-> ->]|(-> & H0 & ->)] end; [done|].
    by apply semnew_kinv.
  - kinvert. exists rq, sl. by eapply semfree_kinv.
  - kinvert. apply bool_decide_eq_true in Hf. exists rq, sl.
    match goal with H : lock_create _ _ _ = _ |- _ => apply lock_create_Ok in H as [[-> ->]|[-> ->]] end; [done|].
    by apply locknew_kinv.
  - kinvert. exists rq, sl.
    match goal with H : lock_destroy _ _ = _ |- _ => apply lock_destroy_Ok in H as [H ->] end. by apply lockfree_kinv.
Qed.

Lemma dispatch_kinv s rq sl zo ts' :
  kinv s rq sl zo -> curthread (ts s) = None -> dispatch (is_fresh s) (ts s) = Ok ts' ->
  exists rq' sl' zo', kinv (set_ts ts' s) rq' sl' zo'.
Proof using RQL.
  intros [] Hc Hrun. pose proof (dispatch_run (is_fresh s) (ts s) rq sl zo ki_tinv0 Hc) as Hd. destruct rq as [|t rq].
  { rewrite Hd in Hrun. injection Hrun as <-. exists [], sl, zo. destruct s. by constructor. }
  destruct Hd as (s1 & Hrun1 & Hi' & Hc' & _ & Ha'). rewrite Hrun1 in Hrun. injection Hrun as ->.
  exists rq, sl, (if is_fresh s t then zo else []). constructor; cbn; try done.
  - intros u Hu. rewrite Ha' by set_solver. by apply ki_sleep0.
  - intros u Hu. apply ki_ready0. by right.
  - intros l h Hh. destruct (ki_holder0 l h Hh) as [Hl|]; [left|by right]. unfold running in *. rewrite Hc', Hc in *. cbn in *. set_solver.
Qed.

Lemma fork_kinv km newguy s rq sl zo t ls s' :
  kinv s rq sl zo -> curthread (ts s) = Some t -> ~ known (ts s) newguy ->
  numthreads (ts s) + Array.a_num (zombies (ts s)) < MAX_THREADS -> fork km newguy s = Ok (ls, s') ->
  exists rq' sl', kinv s' rq' sl' zo.
Proof using RQL.
  intros [] Hc Hnew Hmax Hrun. unfold fork in Hrun. kinvert.
  match goal with H : fork_thread _ _ _ = Ok _ |- _ => rename H into Hf end.
  rewrite (Array.lists_num _ _ (ti_zo _ _ _ _ ki_tinv0)) in Hmax.
  assert (newguy ∉ running (ts s) ++ rq ++ sl ++ zo) as Hn
    by (intros Hin; apply Hnew; by eapply known_in).
  destruct (fork_thread_run km newguy (ts s) rq sl zo t ki_tinv0 Hc) as (r & ts1 & Hf1 & Hc' & _ & Ha' & Hres); [|done|].
  { unfold running in Hn. by rewrite Hc in Hn. }
  rewrite Hf1 in Hf. injection Hf as -> ->.
  destruct Hres as [(-> & Hi' & _)|(Hr & Hi' & _)].
  - exists (rq ++ [newguy]), sl. cbn [Z.eqb]. constructor; cbn; try done.
    + intros u Hu. rewrite Ha' by set_solver. destruct (ki_sleep0 u Hu) as (b & Hb & Hwb). exists b. split; [done|].
      destruct b; cbn; rewrite lookup_insert_ne by set_solver; done.
    + intros u Hu. apply lookup_insert_is_Some. destruct (decide (newguy = u)) as [->|Hu']; [by left|right].
      split; [done|]. apply ki_ready0. set_solver.
    + intros l h Hh. destruct (ki_holder0 l h Hh) as [Hl|]; [left|by right]. unfold running in *. rewrite Hc', Hc in *. cbn in *. set_solver.
  - exists rq, sl. rewrite (proj2 (Z.eqb_neq _ 0)) by done. constructor; cbn; try done.
    + intros u Hu. rewrite Ha' by set_solver. by apply ki_sleep0.
    + intros l h Hh. destruct (ki_holder0 l h Hh) as [Hl|]; [left|by right]. unfold running in *. rewrite Hc', Hc in *. done.
Qed.

Lemma exit_kinv km s rq sl zo t ls s' :
  kinv s rq sl zo -> curthread (ts s) = Some t -> (forall l, holder s !! l = Some (Some t) -> gone l t) ->
  exit km s = Ok (ls, s') -> kinv s' rq sl (zo ++ [t]).
Proof.
  intros [] Hc Hnh Hrun. unfold exit, thread_exit in Hrun. kinvert.
  match goal with H : stash _ _ _ = Ok _ |- _ => rename H into Hs end.
  destruct (or_nomem_Ok _ _ _ _ _ (stash_zomb_run km (ts s) rq sl zo t ki_tinv0 Hc) Hs) as (Hi' & Hc' & Ha' & _).
  constructor; cbn; try done.
  - intros u Hu. rewrite Ha'. by apply ki_sleep0.
  - intros l h Hh. destruct (ki_holder0 l h Hh) as [Hl|]; [|by right]. unfold running in *. rewrite Hc', Hc in *. cbn in *.
    apply elem_of_cons in Hl as [->|H]; [right; by apply Hnh|by left].
Qed.

Lemma kstep_kinv s rq sl zo ls s' :
  kinv s rq sl zo -> (forall km t l, curthread (ts s) = Some t -> holder s !! l = Some (Some t) -> exit km s = Ok (ls, s') -> gone l t) ->
  kstep s ls s' -> exists rq' sl' zo', kinv s' rq' sl' zo'.
Proof using RQL.
  intros Hi Hg Hs. revert Hg.
  destruct Hs as [km c t ls0 s0 Hc _ Hf H|km t pt ls0 s0 Hc _ H|km sem ls0 s0 _ H|ts' Hc H|km g t ls0 s0 Hc _ Hn Hm H|km t ls0 s0 Hc _ H];
    intros Hg.
  - destruct (call_kinv _ _ _ _ _ _ _ _ _ Hi Hc Hf H) as (? & ? & ?). eauto.
  - destruct (resume_kinv _ _ _ _ _ _ _ _ Hi Hc H) as (? & ? & ?). eauto.
  - destruct (V_kinv _ _ _ _ _ _ _ _ Hi H) as (? & ? & ?). eauto.
  - by eapply dispatch_kinv.
  - destruct (fork_kinv _ _ _ _ _ _ _ _ _ Hi Hc Hn Hm H) as (? & ? & ?). eauto.
  - do 3 eexists. eapply exit_kinv; [done|done| |done]. intros l Hl. by eapply Hg.
Qed.

End Invariant.

(** In the run from [s0] to [s], thread [h] ended while it held [l]. *)
Definition ended_holding (s0 s : ksys) (l h : Z) : Prop :=
  exists ls1 s1 km ls s2 ls2, krun s0 ls1 s1 /\ curthread (ts s1) = Some h /\ holder s1 !! l = Some (Some h) /\
    exit km s1 = Ok (ls, s2) /\ krun s2 ls2 s.

Lemma krun_snoc s ls s1 ls' s' : krun s ls s1 -> kstep s1 ls' s' -> krun s (ls ++ ls') s'.
Proof.
  intros Hr Hs. induction Hr as [s|s ls0 s0 ls1 s1 Hs0 _ IH].
  - rewrite <- (app_nil_r ([] ++ ls')). apply (kr_step _ ls' s' []); [done|apply kr_done].
  - rewrite <- app_assoc. eapply kr_step; [done|by apply IH].
Qed.

Lemma krun_kinv s0 ls0 s rq sl zo ls s' :
  krun s0 ls0 s -> kinv (ended_holding s0 s') s rq sl zo -> krun s ls s' ->
  exists rq' sl' zo', kinv (ended_holding s0 s') s' rq' sl' zo'.
Proof using RQL.
  intros H0 Hi Hr. revert ls0 rq sl zo H0 Hi. induction Hr as [|s ls s1 ls' s' Hs Hr IH]; intros ls0 rq sl zo H0 Hi; [eauto|].
  destruct (kstep_kinv (ended_holding s0 s') s rq sl zo ls s1 Hi) as (rq1 & sl1 & zo1 & Hi1); [|done|].
  - intros km t l Hc Hh Hx. by exists ls0, s, km, ls, s1, ls'; split_and!.
  - eapply (IH (ls0 ++ ls)); [by eapply krun_snoc|done].
Qed.

(** The kernel after its bootstrap, with primitives that nobody uses yet. *)
Definition kinit (q : Q) (me : Z) (cs : gmap Z Z) (hs : gmap Z (option Z)) : ksys :=
  mk_ksys (thread_bootstrap q me) cs hs ∅.

Lemma kinit_kinv gone q me cs hs :
  rq_repr q [] -> (forall n c, cs !! n = Some c -> 0 <= c) -> (forall l h, hs !! l <> Some (Some h)) ->
  kinv gone (kinit q me cs hs) [] [] [].
Proof.
  intros Hq Hcs Hhs. constructor; cbn; try done; [by apply bootstrap_tinv|by intros t ?%not_elem_of_nil..|].
  intros l h Hh. by destruct (Hhs l h).
Qed.

(** C6. No wake-up is lost.  In every reachable state, a thread sleeps on a
    semaphore only while its count is zero, and on a lock only while a
    thread holds it: the holder is running, ready or asleep, or it has ended
    in this run without releasing the lock, which [thread_exit] does not do
    for it.  And the sleeper is inside the function that put it to sleep, so it
    will look again when it is woken. *)
Theorem no_lost_wakeup q me cs hs ls s :
  rq_repr q [] -> (forall n c, cs !! n = Some c -> 0 <= c) -> (forall l h, hs !! l <> Some (Some h)) ->
  krun (kinit q me cs hs) ls s ->
  exists rq sl zo, tinv (ts s) rq sl zo /\ forall t, t ∈ sl ->
    (exists n, t_sleepaddr (ts s) !! t = Some (Asem n) /\ kpoint s !! t = Some (In_P n) /\ count s !! n = Some 0) \/
    (exists l h, t_sleepaddr (ts s) !! t = Some (Alock l) /\ kpoint s !! t = Some (In_acquire l) /\
       holder s !! l = Some (Some h) /\
       (h ∈ running (ts s) ++ rq ++ sl \/ ended_holding (kinit q me cs hs) s l h)) \/
    (exists c l, t_sleepaddr (ts s) !! t = Some (Acv c) /\ kpoint s !! t = Some (In_wait c l)).
Proof using RQL.
  intros Hq Hcs Hhs Hrun.
  destruct (krun_kinv _ [] _ _ _ _ _ _ (kr_done _) (kinit_kinv _ q me cs hs Hq Hcs Hhs) Hrun) as (rq & sl & zo & []).
  exists rq, sl, zo. split; [done|]. intros t Ht. destruct (ki_sleep0 t Ht) as ([n|l|c] & Ha & Hw); cbn in Hw.
  - left. by exists n.
  - right. left. destruct Hw as [Hk [h Hh]]. exists l, h. eauto.
  - right. right. destruct Hw as [l Hl]. eauto.
Qed.

Lemma or_nomem_all i o (R : tsys -> Prop) : or_nomem (fun _ => true) i o R -> exists s', o = Ok s' /\ R s'.
Proof. by intros [H|[_ H]]. Qed.

Lemma hold_run lock s t h :
  curthread (ts s) = Some t -> holder s !! lock = Some h -> lock_do_i_hold lock s = Ok (bool_decide (h = Some t)).
Proof. intros Hc Hh. unfold lock_do_i_hold, cur, deref. by rewrite Hc, Hh. Qed.

Lemma lock_release_run gone lock s rq sl zo t :
  kinv gone s rq sl zo -> curthread (ts s) = Some t -> holder s !! lock = Some (Some t) ->
  exists s' rq' sl', lock_release (fun _ => true) lock s = Ok ([Rel t lock], s') /\ kinv gone s' rq' sl' zo /\
    curthread (ts s') = Some t /\ holder s' = <[lock := None]> (holder s).
Proof using RQL.
  intros Hi Hc Hh.
  destruct (or_nomem_all _ _ _ (thread_wakeup_run (fun _ => true) (Alock lock) (ts s) rq sl zo (ki_tinv _ _ _ _ _ Hi)))
    as (ts' & Hw & _).
  assert (lock_release (fun _ => true) lock s =
    Ok ([Rel t lock], set_ts ts' (set_holder (<[lock := None]> (holder s)) s))) as Hrun.
  { unfold lock_release. rewrite (hold_run lock s t (Some t) Hc Hh). unfold cur, deref. rewrite Hc, Hh. cbn.
    rewrite bool_decide_true by done. cbn. rewrite Hw. done. }
  destruct (lock_release_kinv _ _ _ _ _ _ _ _ _ _ Hi Hc Hrun) as (Hc' & rq' & sl' & Hi').
  eexists _, rq', sl'. split; [exact Hrun|]. done.
Qed.

Lemma cv_wait_run gone cv lock s rq sl zo t :
  kinv gone s rq sl zo -> curthread (ts s) = Some t -> holder s !! lock = Some (Some t) ->
  exists s' rq' sl', cv_wait (fun _ => true) cv lock s = Ok ([Rel t lock], s') /\ kinv gone s' rq' (sl' ++ [t]) zo /\
    holder s' !! lock = Some None /\ t_sleepaddr (ts s') !! t = Some (Acv cv).
Proof using RQL.
  intros Hi Hc Hh. destruct (lock_release_run gone lock s rq sl zo t Hi Hc Hh) as (s1 & rq1 & sl1 & Hrel & Hi1 & Hc1 & Hh1).
  destruct (thread_sleep_run (fun _ => true) (ts s1) rq1 sl1 zo t (Acv cv) (ki_tinv _ _ _ _ _ Hi1) Hc1) as [Hs _].
  destruct (or_nomem_all _ _ _ Hs) as (ts' & Hts & _ & _ & Ha & _).
  assert (sleep_at (fun _ => true) (Acv cv) (In_wait cv lock) s1 =
    Ok (set_kpoint (<[t := In_wait cv lock]> (kpoint s1)) (set_ts ts' s1))) as Hsl.
  { unfold sleep_at, cur. rewrite Hc1, Ok_bind, Hts. done. }
  eexists _, rq1, sl1. split; [unfold cv_wait; rewrite Hrel; cbn; rewrite Hsl; reflexivity|]. split.
  - eapply sleep_at_kinv; [done|done| |exact Hsl]. cbn. rewrite lookup_insert_eq. by exists lock.
  - cbn. rewrite Hh1, Ha, !lookup_insert_eq. done.
Qed.

Lemma cv_signal_run gone cv lock s rq sl zo t :
  kinv gone s rq sl zo -> curthread (ts s) = Some t -> holder s !! lock = Some (Some t) ->
  let waiting := filter (sleeps_on (t_sleepaddr (ts s)) (Acv cv)) sl in
  exists s' sl', cv_signal (fun _ => true) cv lock s = Ok ([], s') /\ tinv (ts s') (rq ++ take 1 waiting) sl' zo /\
    filter (sleeps_on (t_sleepaddr (ts s)) (Acv cv)) sl' = drop 1 waiting /\ holder s' = holder s.
Proof using RQL.
  intros [] Hc Hh waiting. unfold cv_signal. rewrite (hold_run lock s t (Some t) Hc Hh), bool_decide_true by done.
  cbn [c_assert]. rewrite !Ok_bind.
  pose proof (thread_wakeup_one_run (fun _ => true) (Acv cv) (ts s) rq sl zo ki_tinv0) as Hw.
  pose proof (list_find_filter (sleeps_on (t_sleepaddr (ts s)) (Acv cv)) sl) as Hf. fold waiting in Hf.
  destruct (list_find _ sl) as [[i u]|].
  - destruct (or_nomem_all _ _ _ Hw) as (ts' & -> & Hi' & _). destruct Hf as [Hf1 Hf2].
    eexists _, (delete i sl). rewrite Ok_bind. split; [reflexivity|]. rewrite Hf1. done.
  - rewrite Hw, Ok_bind. eexists _, sl. split; [reflexivity|]. rewrite Hf. cbn. rewrite app_nil_r. done.
Qed.

(** Condition variables.  For the thread that holds the lock, [cv_wait]
    gives up the lock and goes to sleep in one step, behind those that already
    wait; [cv_signal] wakes the thread that has waited longest and no other,
    [cv_broadcast] wakes all of them, in order, and neither gives up the lock.
    For any other thread the functions panic. *)
Theorem cv_operations gone cv lock s rq sl zo t :
  kinv gone s rq sl zo -> curthread (ts s) = Some t -> is_Some (holder s !! lock) ->
  let waiting := filter (sleeps_on (t_sleepaddr (ts s)) (Acv cv)) sl in
  if decide (holder s !! lock = Some (Some t)) then
    (exists s' rq' sl', cv_wait (fun _ => true) cv lock s = Ok ([Rel t lock], s') /\ kinv gone s' rq' (sl' ++ [t]) zo /\
       holder s' !! lock = Some None /\ t_sleepaddr (ts s') !! t = Some (Acv cv)) /\
    (exists s' sl', cv_signal (fun _ => true) cv lock s = Ok ([], s') /\ tinv (ts s') (rq ++ take 1 waiting) sl' zo /\
       filter (sleeps_on (t_sleepaddr (ts s)) (Acv cv)) sl' = drop 1 waiting /\ holder s' = holder s) /\
    (exists s' sl', cv_broadcast (fun _ => true) cv lock s = Ok ([], s') /\
       tinv (ts s') (rq ++ waiting) sl' zo /\ holder s' = holder s)
  else
    cv_wait (fun _ => true) cv lock s = Panic /\ cv_signal (fun _ => true) cv lock s = Panic /\
    cv_broadcast (fun _ => true) cv lock s = Panic.
Proof using RQL.
  intros Hi Hc [h Hh] waiting. destruct (decide (holder s !! lock = Some (Some t))) as [Hm|Hm].
  - split; [by eapply cv_wait_run|]. split; [by eapply cv_signal_run|].
    unfold cv_broadcast. rewrite (hold_run lock s t (Some t) Hc Hm), bool_decide_true by done. cbn [c_assert].
    destruct (or_nomem_all _ _ _ (thread_wakeup_run (fun _ => true) (Acv cv) (ts s) rq sl zo (ki_tinv _ _ _ _ _ Hi)))
      as (ts' & Hw & Hi' & _). rewrite !Ok_bind, Hw. do 2 eexists. split; [reflexivity|]. done.
  - unfold cv_wait, cv_signal, cv_broadcast, lock_release.
    rewrite (hold_run lock s t h Hc Hh), bool_decide_false by congruence. unfold cur, deref. rewrite Hc, Hh. cbn.
    by destruct (bool_decide (is_Some h)).
Qed.

End Synch.

(** ** Witnesses *)

(** Semaphore 1 with count 1 and lock 5, used by the boot thread. *)
Definition demo_k : ksys := kinit demo_q 100 {[1 := 1]} {[5 := None]}.

Definition after (c : kcall) (s : ksys (Q := Queue.queue Z)) : ksys :=
  match call km_all c s with Ok (_, s') => s' | _ => s end.

Lemma demo_run :
  krun demo_k [Acq 100 5; Pdone 100 1; Rel 100 5; Vdone 1; Acq 100 5]
    (after (Cacquire 5) (after (CV 1) (after (Crelease 5) (after (CP 1) (after (Cacquire 5) demo_k))))).
Proof.
  apply (kr_step _ [Acq 100 5] (after (Cacquire 5) demo_k)); [apply (k_call _ km_all (Cacquire 5) 100); reflexivity|].
  apply (kr_step _ [Pdone 100 1] (after (CP 1) (after (Cacquire 5) demo_k)));
    [apply (k_call _ km_all (CP 1) 100); reflexivity|].
  apply (kr_step _ [Rel 100 5] (after (Crelease 5) (after (CP 1) (after (Cacquire 5) demo_k))));
    [apply (k_call _ km_all (Crelease 5) 100); reflexivity|].
  apply (kr_step _ [Vdone 1] (after (CV 1) (after (Crelease 5) (after (CP 1) (after (Cacquire 5) demo_k)))));
    [apply (k_call _ km_all (CV 1) 100); reflexivity|].
  eapply (kr_step _ [Acq 100 5] _ []); [apply (k_call _ km_all (Cacquire 5) 100); reflexivity|apply kr_done].
Qed.

Lemma synch_refines_witness :
  exists s', replay [Acq 100 5; Pdone 100 1; Rel 100 5; Vdone 1; Acq 100 5] ({[1 := 1]}, {[5 := None]}) =
    Some (count s', holder (Q := Queue.queue Z) s').
Proof. eexists. exact (synch_refines _ _ _ demo_run). Defined.

Lemma mutual_exclusion_witness : Rel 100 5 ∈ [Pdone 100 1; Rel 100 5; Vdone 1].
Proof. exact (mutual_exclusion demo_k [] 100 5 [Pdone 100 1; Rel 100 5; Vdone 1] 100 [] _ demo_run). Defined.

Lemma semaphore_counts_witness :
  exists s' : ksys (Q := Queue.queue Z), count s' !! 1 = Some 1.
Proof.
  destruct (semaphore_counts demo_k _ _ 1 1 demo_run) as (c' & Hc & Heq & _); [set_solver|reflexivity|lia|].
  eexists. rewrite Hc, Heq. reflexivity.
Defined.

Lemma demo_cs n c : ({[1 := 1]} : gmap Z Z) !! n = Some c -> 0 <= c.
Proof. intros [_ <-]%lookup_singleton_Some. lia. Qed.

Lemma demo_hs l h : ({[5 := None]} : gmap Z (option Z)) !! l <> Some (Some h).
Proof. intros [_ H]%lookup_singleton_Some. discriminate H. Qed.

(** The boot thread acquires lock 5 and forks thread 101, which runs when the
    boot thread is preempted, and goes to sleep on the lock. *)
Definition forked (s : ksys (Q := Queue.queue Z)) : ksys := match fork km_all 101 s with Ok (_, s') => s' | _ => s end.
Definition dispatched (s : ksys (Q := Queue.queue Z)) : ksys :=
  match dispatch (is_fresh s) (ts s) with Ok ts' => set_ts ts' s | _ => s end.
Definition resumed (s : ksys (Q := Queue.queue Z)) : ksys := match resume km_all s with Ok (_, s') => s' | _ => s end.

Definition demo_s1 : ksys := Eval vm_compute in forked (after (Cacquire 5) demo_k).
Definition demo_s2 : ksys := Eval vm_compute in after Cpreempt demo_s1.
Definition demo_s3 : ksys := Eval vm_compute in dispatched demo_s2.
Definition demo_s4 : ksys := Eval vm_compute in resumed demo_s3.
Definition demo_s : ksys := Eval vm_compute in after (Cacquire 5) demo_s4.

Lemma demo_s_run : krun demo_k [Acq 100 5] demo_s.
Proof.
  apply (kr_step _ [Acq 100 5] (after (Cacquire 5) demo_k)); [apply (k_call _ km_all (Cacquire 5) 100); reflexivity|].
  apply (kr_step _ [] demo_s1 []).
  { apply (k_fork _ km_all 101 100); [reflexivity|reflexivity| |reflexivity|reflexivity].
    intros [H|[(xs & Hq & Hx)|[H|H]]]; [discriminate H| |by apply not_elem_of_nil in H..].
    pose proof (Queue.empty_ok _ _ Hq) as E. case_bool_decide; [|discriminate E]. subst xs. by apply not_elem_of_nil in Hx. }
  apply (kr_step _ [] demo_s2 []); [apply (k_call _ km_all Cpreempt 100); reflexivity|].
  apply (kr_step _ [] demo_s3 []); [apply k_dispatch; reflexivity|].
  apply (kr_step _ [] demo_s4 []); [apply (k_resume _ km_all 101 Fresh); reflexivity|].
  apply (kr_step _ [] demo_s []); [apply (k_call _ km_all (Cacquire 5) 101); reflexivity|apply kr_done].
Qed.

Lemma no_lost_wakeup_witness :
  exists rq sl zo, tinv (ts demo_s) rq sl zo /\ 101 ∈ sl /\ t_sleepaddr (ts demo_s) !! 101 = Some (Alock 5) /\
    holder demo_s !! 5 = Some (Some 100).
Proof.
  destruct (no_lost_wakeup demo_q 100 {[1 := 1]} {[5 := None]} _ _ demo_q_repr demo_cs demo_hs demo_s_run)
    as (rq & sl & zo & Hi & _).
  exists rq, sl, zo. split; [exact Hi|]. split; [|split; reflexivity].
  destruct (ti_sl _ _ _ _ Hi) as [_ E]. change (Array.contents (sleepers (ts demo_s))) with [Some 101] in E.
  destruct sl as [|x [|y sl]]; inversion E. apply list_elem_of_singleton. reflexivity.
Defined.

Lemma cv_operations_witness :
  exists s' sl', cv_wait (fun _ => true) 9 5 (after (Cacquire 5) demo_k) = Ok ([Rel 100 5], s') /\
    exists rq, kinv (fun _ _ => False) s' rq (sl' ++ [100]) [].
Proof.
  assert (kinv (fun _ _ => False) (after (Cacquire 5) demo_k) [] [] []) as Hi.
  { destruct (acquire_test_kinv (fun _ _ => False) km_all 5 demo_k [] [] [] 100 [Acq 100 5] (after (Cacquire 5) demo_k)
      (kinit_kinv _ demo_q 100 _ _ demo_q_repr demo_cs demo_hs)) as (rq & sl & Hi); [reflexivity|reflexivity|].
    pose proof (ki_tinv _ _ _ _ _ Hi) as [Hq Hsl _ _ _ _ _]. pose proof (Queue.empty_ok _ _ Hq) as E.
    case_bool_decide; [|discriminate E]. subst rq. apply Array.lists_num in Hsl.
    change (0 = zlen sl) in Hsl. destruct sl; [exact Hi|discriminate Hsl]. }
  pose proof (cv_operations _ 9 5 (after (Cacquire 5) demo_k) [] [] [] 100 Hi eq_refl) as H.
  destruct H as [(s' & rq' & sl' & Hrun & Hi' & _) _]; [by eexists|].
  exists s', sl'. split; [exact Hrun|]. exists rq'. exact Hi'.
Defined.

End Synch.
