(* ===== verification/Pid.v ===== *)
(** * Process ids: kern/userprog/pid.c

    The table of process ids and the exit codes.  Each function runs under
    [pid_mutex] or is one access to an exit code, so it is one step; the
    interleaving of these steps is the subject of Proc.v. *)

From S2P Require Import Prelude.

Module Pid.

(** kern/include/kern/limits.h *)
Definition PID_MAX : Z := 128.

Record pids : Type := mk_pids {
  pid_table : list (option Z);
  exitcodes : list Z;
}.

(** The fields of [struct thread] that identify a process. *)
Record proc : Type := mk_proc {
  t_pid : Z;
  t_ppid : Z;
}.

Definition pid_setuptable : pids :=
  mk_pids (replicate (Z.to_nat PID_MAX) None) (replicate (Z.to_nat PID_MAX) (-1)).

(** [for(i = 0; pid_table[search] != NULL && i < PID_MAX; i++)], [n] being
    [PID_MAX - i]: the final [i] and [search]. *)
Fixpoint getnext_loop (n : nat) (table : list (option Z)) (i search : Z) : outcome (Z * Z) :=
  x ← rd table search;
  match x, n with
  | None, _ | Some _, O => Ok (i, search)
  | Some _, S n' =>
      let search := search + 1 in
      getnext_loop n' table (i + 1) (if search =? PID_MAX then 1 else search)
  end.

(** [rnd] is the result of [random()], unsigned. *)
Definition pid_getnext (rnd master : Z) (p : pids) : outcome (Z * pids) :=
  _ ← c_assert (negb (master =? 0));
  '(i, search) ← getnext_loop (Z.to_nat PID_MAX) (pid_table p) 0 (rnd mod PID_MAX);
  if i <? PID_MAX then
    table ← wr (pid_table p) search (Some master);
    codes ← wr (exitcodes p) search (-1);
    Ok (search + 1, mk_pids table codes)
  else Ok (0, p).

Definition pid_getthread (pid : Z) (p : pids) : outcome (option Z) := rd (pid_table p) (pid - 1).

Definition pid_getexitcode (pid : Z) (p : pids) : outcome Z := rd (exitcodes p) (pid - 1).

Definition pid_setexitcode (pid exitcode : Z) (p : pids) : outcome pids :=
  codes ← wr (exitcodes p) (pid - 1) exitcode; Ok (mk_pids (pid_table p) codes).

Definition pid_clear (pid : Z) (p : pids) : outcome pids :=
  if (pid <=? 0) || (pid >? PID_MAX) then Ok p
  else table ← wr (pid_table p) (pid - 1) None; Ok (mk_pids table (exitcodes p)).

(** One test and round of the loop of [pid_is_child] at a thread whose parent
    is [t_ppid]: a result, or the next thread ([None] is NULL). *)
Definition climb (ppid pid2 : Z) (p : pids) : outcome (Z + option Z) :=
  if ppid =? 0 then Ok (inl 0)
  else if ppid =? pid2 then Ok (inl 1)
  else next ← pid_getthread ppid p; Ok (inr next).

(** [heap] are the thread structures in memory; [n] bounds the rounds. *)
Fixpoint pid_is_child (n : nat) (heap : gmap Z proc) (thread : option Z) (pid2 : Z) (p : pids) : outcome Z :=
  match n with
  | O => Hang
  | S n' =>
      match thread ≫= (heap !!.) with
      | None => Undef
      | Some th =>
          r ← climb (t_ppid th) pid2 p;
          match r with inl r => Ok r | inr next => pid_is_child n' heap next pid2 p end
      end
  end.

(** ** Well-formed tables *)

Definition wf (p : pids) : Prop := zlen (pid_table p) = PID_MAX /\ zlen (exitcodes p) = PID_MAX.

Definition valid_pid (pid : Z) : Prop := 1 <= pid <= PID_MAX.

(** The entry of a pid, and its exit code. *)
Definition owner (p : pids) (pid : Z) : option Z := mjoin (pid_table p !! Z.to_nat (pid - 1)).
Definition code (p : pids) (pid : Z) : option Z := exitcodes p !! Z.to_nat (pid - 1).

Lemma setuptable_wf : wf pid_setuptable.
Proof. split; reflexivity. Qed.

Lemma owner_lookup p pid : wf p -> valid_pid pid -> pid_table p !! Z.to_nat (pid - 1) = Some (owner p pid).
Proof.
  intros [Hl _] Hp. unfold owner, valid_pid, PID_MAX in *.
  destruct (lookup_lt_is_Some_2 (pid_table p) (Z.to_nat (pid - 1))) as [x Hx]; [lia|]. rewrite Hx. reflexivity.
Qed.

Lemma getthread_run p pid : wf p -> valid_pid pid -> pid_getthread pid p = Ok (owner p pid).
Proof.
  intros Hw Hp. apply rd_Some. split; [unfold valid_pid in Hp; lia|by apply owner_lookup].
Qed.

Lemma getexitcode_run p pid : wf p -> valid_pid pid -> exists c, pid_getexitcode pid p = Ok c /\ code p pid = Some c.
Proof. intros [_ Hl] Hp. unfold pid_getexitcode, code, valid_pid, PID_MAX in *. apply rd_in. lia. Qed.

(** An update of one entry. *)
Lemma owner_insert p pid pid' x codes :
  wf p -> valid_pid pid -> valid_pid pid' ->
  owner (mk_pids (<[Z.to_nat (pid - 1) := x]> (pid_table p)) codes) pid' = if pid' =? pid then x else owner p pid'.
Proof.
  intros [Hl _] Hp Hp'. unfold owner, valid_pid, PID_MAX in *. cbn. destruct (Z.eqb_spec pid' pid) as [->|Hne].
  - rewrite list_lookup_insert_eq by lia. reflexivity.
  - rewrite list_lookup_insert_ne by lia. reflexivity.
Qed.

Lemma code_insert p pid pid' c table :
  wf p -> valid_pid pid -> valid_pid pid' ->
  code (mk_pids table (<[Z.to_nat (pid - 1) := c]> (exitcodes p))) pid' = if pid' =? pid then Some c else code p pid'.
Proof.
  intros [_ Hl] Hp Hp'. unfold code, valid_pid, PID_MAX in *. cbn. destruct (Z.eqb_spec pid' pid) as [->|Hne].
  - by rewrite list_lookup_insert_eq by lia.
  - by rewrite list_lookup_insert_ne by lia.
Qed.

Lemma insert_wf p i x j c :
  wf p -> wf (mk_pids (<[i := x]> (pid_table p)) (<[j := c]> (exitcodes p))).
Proof. unfold wf. cbn. by rewrite !length_insert. Qed.

Lemma setexitcode_run p pid c :
  wf p -> valid_pid pid ->
  exists p', pid_setexitcode pid c p = Ok p' /\ wf p' /\
    (forall q, valid_pid q -> owner p' q = owner p q /\ code p' q = if q =? pid then Some c else code p q).
Proof.
  intros Hw Hp. unfold pid_setexitcode. pose proof Hw as [Hl1 Hl2].
  rewrite wr_in by (unfold valid_pid, PID_MAX in *; lia). rewrite Ok_bind.
  eexists. split; [done|]. split; [split; cbn; by rewrite ?length_insert|].
  intros q Hq. split; [done|]. by apply code_insert.
Qed.

Lemma clear_run p pid :
  wf p -> valid_pid pid ->
  exists p', pid_clear pid p = Ok p' /\ wf p' /\ exitcodes p' = exitcodes p /\
    (forall q, valid_pid q -> owner p' q = if q =? pid then None else owner p q).
Proof.
  intros Hw Hp. unfold pid_clear. pose proof Hw as [Hl1 Hl2].
  rewrite (proj2 (Z.leb_gt pid 0)), Z.gtb_ltb, (proj2 (Z.ltb_ge _ _)) by (unfold valid_pid in Hp; lia).
  cbn [orb]. rewrite wr_in by (unfold valid_pid, PID_MAX in *; lia). rewrite Ok_bind.
  eexists. split; [done|]. split; [split; cbn; by rewrite ?length_insert|]. split; [done|].
  intros q Hq. by apply owner_insert.
Qed.

(** ** The search for a free pid *)

(** The slot that the search looks at in round [k], starting at [start]. *)
Definition slot (start : Z) (k : Z) : Z :=
  if start + k <? PID_MAX then start + k else 1 + (start + k - PID_MAX) mod (PID_MAX - 1).

Lemma slot_0 start : start < PID_MAX -> slot start 0 = start.
Proof. intros. unfold slot. rewrite Z.add_0_r. by rewrite (proj2 (Z.ltb_lt _ _)). Qed.

Lemma slot_range start k : 0 <= start < PID_MAX -> 0 <= k -> 0 <= slot start k < PID_MAX.
Proof.
  intros Hs Hk. unfold slot. destruct (Z.ltb_spec (start + k) PID_MAX); [lia|].
  pose proof (Z.mod_pos_bound (start + k - PID_MAX) (PID_MAX - 1)). unfold PID_MAX in *. lia.
Qed.

Lemma slot_S start k :
  0 <= start < PID_MAX -> 0 <= k ->
  slot start (k + 1) = if slot start k + 1 =? PID_MAX then 1 else slot start k + 1.
Proof.
  intros Hs Hk. unfold slot, PID_MAX in *.
  destruct (Z.ltb_spec (start + k) 128), (Z.ltb_spec (start + (k + 1)) 128); try lia.
  - destruct (Z.eqb_spec (start + k + 1) 128); lia.
  - replace (start + (k + 1) - 128) with 0 by lia. destruct (Z.eqb_spec (start + k + 1) 128); [reflexivity|lia].
  - replace (start + (k + 1) - 128) with (start + k - 128 + 1) by lia. set (a := start + k - 128).
    destruct (Z.eqb_spec (1 + a mod (128 - 1) + 1) 128); Z.div_mod_to_equations; lia.
Qed.

(** Every slot but the first is looked at within [PID_MAX - 1] rounds; the
    first one only when the search starts there. *)
Lemma slot_covers start j :
  0 <= start < PID_MAX -> 0 <= j < PID_MAX -> (j = 0 -> start = 0) ->
  exists k, 0 <= k < PID_MAX /\ slot start k = j.
Proof.
  intros Hs Hj H0. unfold slot, PID_MAX in *. destruct (Z.leb_spec start j).
  - exists (j - start). split; [lia|]. destruct (Z.ltb_spec (start + (j - start)) 128); lia.
  - exists (j - 1 + 128 - start). split; [lia|]. destruct (Z.ltb_spec (start + (j - 1 + 128 - start)) 128); [lia|].
    replace (start + (j - 1 + 128 - start) - 128) with (j - 1) by lia. rewrite Z.mod_small; lia.
Qed.

(** The loop stops at the first free slot, or after [n] rounds. *)
Lemma getnext_loop_run table start n : forall k,
  zlen table = PID_MAX -> 0 <= start < PID_MAX -> 0 <= k ->
  exists i, getnext_loop n table k (slot start k) = Ok (i, slot start i) /\ k <= i <= k + Z.of_nat n /\
    (forall j, k <= j < i -> exists t, table !! Z.to_nat (slot start j) = Some (Some t)) /\
    (i < k + Z.of_nat n -> table !! Z.to_nat (slot start i) = Some None).
Proof.
  induction n as [|n IH]; intros k Hl Hs Hk; cbn [getnext_loop];
    pose proof (slot_range start k Hs Hk); destruct (rd_in table (slot start k)) as (x & Hrd & Hx); try lia;
    rewrite Hrd, Ok_bind.
  - exists k. split; [by destruct x|]. split; [lia|]. split; [intros; lia|lia].
  - destruct x as [t|]; cbn zeta.
    + rewrite <- slot_S by lia. destruct (IH (k + 1)) as (i & Hrun & Hi & Hbefore & Hfree); [done|lia|lia|].
      exists i. split; [exact Hrun|]. split; [lia|]. split; [|intros; apply Hfree; lia].
      intros j Hj. destruct (decide (j = k)) as [->|]; [by exists t|]. apply Hbefore. lia.
    + exists k. split; [done|]. split; [lia|]. split; [intros; lia|done].
Qed.

(** What [pid_getnext] does: it takes a free pid, or there is none that it
    looks at. *)
Definition next_pid (rnd master : Z) (p : pids) (pid : Z) (p' : pids) : Prop :=
  (valid_pid pid /\ owner p pid = None /\
    (forall q, valid_pid q -> owner p' q = (if q =? pid then Some master else owner p q) /\
       code p' q = if q =? pid then Some (-1) else code p q)) \/
  (pid = 0 /\ p' = p /\
    forall q, valid_pid q -> (q = 1 -> rnd mod PID_MAX = 0) -> is_Some (owner p q)).

Lemma getnext_run rnd master p :
  wf p -> master <> 0 -> 0 <= rnd ->
  exists pid p', pid_getnext rnd master p = Ok (pid, p') /\ wf p' /\
    next_pid rnd master p pid p'.
Proof.
  intros Hw Hm Hr. pose proof Hw as [Hl1 Hl2]. unfold pid_getnext. rewrite (proj2 (Z.eqb_neq master 0)) by done.
  cbn [negb c_assert]. rewrite Ok_bind. pose proof (Z.mod_pos_bound rnd PID_MAX ltac:(done)) as Hs.
  destruct (getnext_loop_run (pid_table p) (rnd mod PID_MAX) (Z.to_nat PID_MAX) 0) as (i & Hrun & Hi & Hbefore & Hfree);
    [done|done|lia|].
  rewrite slot_0 in Hrun by lia. rewrite Hrun, Ok_bind. pose proof (slot_range (rnd mod PID_MAX) i Hs ltac:(lia)) as Hsl.
  destruct (Z.ltb_spec i PID_MAX).
  - rewrite !wr_in, !Ok_bind by lia. set (sl := slot (rnd mod PID_MAX) i) in *.
    replace sl with (sl + 1 - 1) by lia. replace (sl + 1 - 1 + 1) with (sl + 1) by lia.
    assert (valid_pid (sl + 1)) as Hv by (unfold valid_pid; lia).
    eexists _, _. split; [done|]. split; [by apply insert_wf|]. left. split; [done|]. split.
    + unfold owner. replace (sl + 1 - 1) with sl by lia. rewrite Hfree; [reflexivity|]. lia.
    + intros q Hq. split; [by apply owner_insert|by apply code_insert].
  - exists 0, p. split; [done|]. split; [done|]. right. split; [done|]. split; [done|]. intros q Hq H1.
    destruct (slot_covers (rnd mod PID_MAX) (q - 1)) as (k & Hk & Hkq); [done|unfold valid_pid in Hq; lia| |].
    { intros. apply H1. lia. }
    destruct (Hbefore k) as [t Ht]; [lia|]. unfold owner. rewrite <- Hkq, Ht. by exists t.
Qed.

(** Allocation of process ids.  [pid_getnext] returns a pid between 1 and
    [PID_MAX] that nobody has, enters the thread and clears the exit code, and
    changes nothing else; it returns 0 without any effect only if every other
    pid than 1 is taken (pid 1 is also tried when the random start is there). *)
Theorem pid_getnext_unused rnd master p :
  wf p -> master <> 0 -> 0 <= rnd ->
  exists pid p', pid_getnext rnd master p = Ok (pid, p') /\ wf p' /\
    next_pid rnd master p pid p'.
Proof. apply getnext_run. Qed.

Lemma pid_getnext_unused_witness :
  exists p', pid_getnext 255 77 pid_setuptable = Ok (128, p') /\ owner p' 128 = Some 77.
Proof.
  destruct (pid_getnext_unused 255 77 pid_setuptable setuptable_wf) as (pid & p' & Hrun & _ & [H|(_ & _ & H)]); [lia|lia| |].
  - exists p'. destruct H as (Hv & _ & Ho). vm_compute in Hrun. injection Hrun as <- <-. split; reflexivity.
  - destruct (H 2) as [t Ht]; [split; discriminate|discriminate|discriminate Ht].
Defined.

(** ** Ancestors *)

(** The pids of the ancestors of thread [t], up to a process without parent. *)
Inductive ancestors (heap : gmap Z proc) (p : pids) : Z -> list Z -> Prop :=
| anc_root t th : heap !! t = Some th -> t_ppid th = 0 -> ancestors heap p t []
| anc_parent t th u l : heap !! t = Some th -> t_ppid th <> 0 ->
    pid_getthread (t_ppid th) p = Ok (Some u) -> ancestors heap p u l ->
    ancestors heap p t (t_ppid th :: l).

(** C38. [pid_is_child] decides ancestry.  For a process all of whose ancestors
    exist, it ends after as many rounds as there are ancestors and returns 1
    exactly if the given pid is the pid of one of them. *)
Theorem pid_is_child_ancestor heap p t l pid2 n :
  ancestors heap p t l -> (length l < n)%nat ->
  pid_is_child n heap (Some t) pid2 p = Ok (if bool_decide (pid2 ∈ l) then 1 else 0).
Proof.
  intros Ha. revert n. induction Ha as [t th Ht H0|t th u l Ht H0 Hg Ha IH]; intros [|n] Hn; cbn in Hn; try lia;
    cbn [pid_is_child mbind option_bind]; rewrite Ht; unfold climb.
  - by rewrite H0, Z.eqb_refl.
  - rewrite (proj2 (Z.eqb_neq _ 0)) by done. destruct (Z.eqb_spec (t_ppid th) pid2) as [<-|Hne]; runs.
    { rewrite bool_decide_true by left. done. }
    rewrite Hg. runs. rewrite IH by lia. f_equal. symmetry.
    erewrite bool_decide_ext; [reflexivity|]. rewrite elem_of_cons. naive_solver.
Qed.

Definition demo_heap : gmap Z proc := {[10 := mk_proc 1 0; 20 := mk_proc 5 1; 30 := mk_proc 9 5]}.
Definition demo_pids : pids :=
  mk_pids (<[0%nat := Some 10]> (<[4%nat := Some 20]> (<[8%nat := Some 30]> (pid_table pid_setuptable))))
    (exitcodes pid_setuptable).

Lemma pid_is_child_ancestor_witness :
  pid_is_child 3 demo_heap (Some 30) 1 demo_pids = Ok 1 /\ pid_is_child 3 demo_heap (Some 30) 9 demo_pids = Ok 0.
Proof.
  assert (ancestors demo_heap demo_pids 30 [5; 1]) as Ha.
  { apply (anc_parent _ _ 30 (mk_proc 9 5) 20); [reflexivity|discriminate|reflexivity|].
    apply (anc_parent _ _ 20 (mk_proc 5 1) 10); [reflexivity|discriminate|reflexivity|].
    by eapply anc_root. }
  split.
  - exact (pid_is_child_ancestor demo_heap demo_pids 30 [5; 1] 1 3 Ha ltac:(cbn; lia)).
  - exact (pid_is_child_ancestor demo_heap demo_pids 30 [5; 1] 9 3 Ha ltac:(cbn; lia)).
Defined.

End Pid.
