(* ===== verification/Proc.v ===== *)
(** * Fork, exit and waitpid: kern/userprog/progcalls.c, and the parts of
    sys_fork and thread_exit (kern/thread/thread.c) that concern process ids

    Processes interleave at the accesses to the shared tables.  [sys__exit] and
    [sys_waitpid] run under [mutex]; [pid_getnext], [pid_clear] and
    [pid_getthread] only under [pid_mutex], so forks and the end of
    [thread_exit] can come between the steps of a [sys_waitpid], which are
    therefore separate steps here.  What happens under [mutex] without access
    to the pid table is one step with the neighbouring access.  The condition
    variable of a process is created and destroyed with its thread structure
    and is identified with it.  [cv_wait] and [cv_broadcast] do what the
    theorems of Synch.v say: release and sleep are one step, and a broadcast
    wakes every sleeper.

    A fork takes the pid first and makes the child runnable last; in between it
    allocates memory, copies the address space and the descriptors, and other
    processes run.  It can fail for want of a pid, before it took one, or later,
    giving the pid back ([fork_fail]) or not ([fork_no_stack]). *)

From S2P Require Import Prelude Pid.
Import Pid.

Module Proc.

(** Where a process is. *)
Inductive pc : Type :=
| User                                          (** not in one of these calls *)
| InFork (newguy : Z)                           (** sys_fork: has a pid for newguy *)
| Forking                                       (** made by a fork, not runnable yet *)
| W_code (pid : Z)                              (** sys_waitpid: has the mutex *)
| W_thread (pid : Z)                            (** found no exit code *)
| W_climb (pid target : Z) (cursor : option Z)  (** in pid_is_child *)
| W_sleep (pid target : Z)                      (** about to wait *)
| Asleep (pid target : Z)                       (** in cv_wait on target's cv *)
| Woken (pid : Z)                               (** woken, without the mutex *)
| Exiting                                       (** done with sys__exit's section *)
| Cleared.                                      (** pid given up *)

#[global] Instance pc_eq_dec : EqDecision pc.
Proof. solve_decision. Defined.

Inductive event : Type :=
| Forked (child pid : Z)          (** a fork took the pid for [child] *)
| Lost (child pid : Z)            (** that fork failed and left the pid taken *)
| Undone (child pid : Z)          (** that fork failed and gave the pid back *)
| Exited (t pid exitcode : Z)     (** sys__exit *)
| Quiet (t : Z)                   (** thread_exit without sys__exit *)
| Waited (t pid exitcode : Z)     (** sys_waitpid returned an exit code *)
| WaitErr (t err : Z).            (** sys_waitpid returned an error *)

#[global] Instance event_eq_dec : EqDecision event.
Proof. solve_decision. Defined.

Record psys : Type := mk_psys {
  pd : pids;
  mutex : option Z;
  heap : gmap Z proc;
  at_pc : gmap Z pc;
}.

Definition set_pc (t : Z) (c : pc) (s : psys) : psys := mk_psys (pd s) (mutex s) (heap s) (<[t := c]> (at_pc s)).

(** A pointer to a structure that has been freed. *)
Definition deref {A} (m : gmap Z A) (p : Z) : outcome A :=
  match m !! p with Some a => Ok a | None => Undef end.

(** sys_fork up to the pid: the new thread structure is [newguy], [rnd] the
    random number. *)
Definition sys_fork (rnd t newguy : Z) (s : psys) : outcome (list event * psys) :=
  me ← deref (heap s) t;
  '(pid, p) ← pid_getnext rnd newguy (pd s);
  if pid =? 0 then Ok ([], s)
  else Ok ([Forked newguy pid],
           mk_psys p (mutex s) (<[newguy := mk_proc pid (t_pid me)]> (heap s))
             (<[newguy := Forking]> (<[t := InFork newguy]> (at_pc s)))).

(** make_runnable at its end, and the return to the parent. *)
Definition fork_done (t newguy : Z) (s : psys) : psys := set_pc newguy User (set_pc t User s).

(** exorcise frees the thread structure. *)
Definition reap (t : Z) (s : psys) : psys :=
  mk_psys (pd s) (mutex s) (delete t (heap s)) (delete t (at_pc s)).

(** The stack cannot be allocated: the thread structure is freed and ENOMEM
    returned.  So does thread_fork, and at its label fail. *)
Definition fork_no_stack (t newguy : Z) (s : psys) : psys := reap newguy (set_pc t User s).

(** The label fail of sys_fork. *)
Definition fork_fail (t newguy : Z) (s : psys) : outcome psys :=
  new ← deref (heap s) newguy;
  p ← pid_clear (t_pid new) (pd s);
  Ok (reap newguy (set_pc t User (mk_psys p (mutex s) (heap s) (at_pc s)))).

(** [cv_broadcast] on the condition variable of [t]. *)
Definition wake (t : Z) (c : pc) : pc :=
  match c with Asleep pid u => if u =? t then Woken pid else c | _ => c end.

Definition sys__exit (t exitcode : Z) (s : psys) : outcome (list event * psys) :=
  me ← deref (heap s) t;
  p ← pid_setexitcode (t_pid me) exitcode (pd s);
  Ok ([Exited t (t_pid me) exitcode], mk_psys p (mutex s) (heap s) (<[t := Exiting]> (wake t <$> at_pc s))).

(** The start of thread_exit. *)
Definition thread_exit (t : Z) (s : psys) : outcome psys :=
  me ← deref (heap s) t;
  p ← pid_clear (t_pid me) (pd s);
  Ok (mk_psys p (mutex s) (heap s) (<[t := Cleared]> (at_pc s))).

(** ** sys_waitpid *)

(** The tests of the arguments; [None] when the call goes on (the second test
    of [options] never succeeds). *)
Definition waitpid_args (t pid status options : Z) (s : psys) : outcome (option Z) :=
  if status =? 0 then Ok (Some EFAULT)
  else
    me ← deref (heap s) t;
    if (pid =? t_pid me) || (pid <=? 0) || (pid >? PID_MAX) || negb (options =? 0) then Ok (Some EINVAL)
    else Ok None.

Definition release (t : Z) (s : psys) : psys := mk_psys (pd s) None (heap s) (<[t := User]> (at_pc s)).

(** Give the exit code to the user and return; [r] is the result of
    [copyout]. *)
Definition give_code (r t pid exitcode : Z) (s : psys) : list event * psys :=
  ([if r =? 0 then Waited t pid exitcode else WaitErr t r], release t s).

(** One step of a process in sys_waitpid. *)
Definition waitpid_step (r t : Z) (s : psys) : outcome (list event * psys) :=
  c ← deref (at_pc s) t;
  match c with
  | W_code pid =>
      exitcode ← pid_getexitcode pid (pd s);
      if negb (exitcode =? -1) then Ok (give_code r t pid exitcode s)
      else Ok ([], set_pc t (W_thread pid) s)
  | W_thread pid =>
      thread ← pid_getthread pid (pd s);
      match thread with
      | None => Ok ([WaitErr t EINVAL], release t s)
      | Some u => Ok ([], set_pc t (W_climb pid u (Some t)) s)
      end
  | W_climb pid u cursor =>
      match cursor ≫= (heap s !!.) with
      | None => Undef
      | Some th =>
          x ← climb (t_ppid th) pid (pd s);
          match x with
          | inl r => if negb (r =? 0) then Ok ([WaitErr t EINVAL], release t s) else Ok ([], set_pc t (W_sleep pid u) s)
          | inr next => Ok ([], set_pc t (W_climb pid u next) s)
          end
      end
  | W_sleep pid u =>
      _ ← deref (heap s) u;
      Ok ([], mk_psys (pd s) None (heap s) (<[t := Asleep pid u]> (at_pc s)))
  | Woken pid =>
      exitcode ← pid_getexitcode pid (pd s);
      Ok (give_code r t pid exitcode s)
  | _ => Undef
  end.

(** The states in which [mutex] is held. *)
Definition in_mutex (c : pc) : bool :=
  match c with W_code _ | W_thread _ | W_climb _ _ _ | W_sleep _ _ => true | _ => false end.

(** The pid that a process waits for. *)
Definition waits_for (c : pc) : option Z :=
  match c with
  | W_code pid | W_thread pid | W_climb pid _ _ | W_sleep pid _ | Asleep pid _ | Woken pid => Some pid
  | _ => None
  end.

Inductive pstep (s : psys) : list event -> psys -> Prop :=
| p_fork rnd t newguy evs s' : at_pc s !! t = Some User -> newguy <> 0 -> heap s !! newguy = None -> 0 <= rnd ->
    sys_fork rnd t newguy s = Ok (evs, s') -> pstep s evs s'
| p_fork_done t newguy : at_pc s !! t = Some (InFork newguy) -> at_pc s !! newguy = Some Forking ->
    pstep s [] (fork_done t newguy s)
| p_no_stack t newguy new : at_pc s !! t = Some (InFork newguy) -> at_pc s !! newguy = Some Forking ->
    heap s !! newguy = Some new -> pstep s [Lost newguy (t_pid new)] (fork_no_stack t newguy s)
| p_fork_fail t newguy new s' : at_pc s !! t = Some (InFork newguy) -> at_pc s !! newguy = Some Forking ->
    heap s !! newguy = Some new -> fork_fail t newguy s = Ok s' -> pstep s [Undone newguy (t_pid new)] s'
| p_exit t exitcode evs s' : at_pc s !! t = Some User -> mutex s = None ->
    sys__exit t exitcode s = Ok (evs, s') -> pstep s evs s'
| p_clear t s' : at_pc s !! t = Some Exiting -> thread_exit t s = Ok s' -> pstep s [] s'
| p_quiet t s' : at_pc s !! t = Some User -> thread_exit t s = Ok s' -> pstep s [Quiet t] s'
| p_reap t : at_pc s !! t = Some Cleared -> pstep s [] (reap t s)
| p_waitarg t pid status options err : at_pc s !! t = Some User ->
    waitpid_args t pid status options s = Ok (Some err) -> pstep s [WaitErr t err] s
| p_waitpid t pid status options : at_pc s !! t = Some User -> mutex s = None ->
    waitpid_args t pid status options s = Ok None ->
    pstep s [] (mk_psys (pd s) (Some t) (heap s) (<[t := W_code pid]> (at_pc s)))
| p_wait r t c evs s' : at_pc s !! t = Some c -> in_mutex c = true ->
    waitpid_step r t s = Ok (evs, s') -> pstep s evs s'
| p_woken r t pid evs s' : at_pc s !! t = Some (Woken pid) -> mutex s = None ->
    waitpid_step r t s = Ok (evs, s') -> pstep s evs s'.

Inductive prun : psys -> list event -> psys -> Prop :=
| pr_done s : prun s [] s
| pr_step s evs s1 evs' s' : pstep s evs s1 -> prun s1 evs' s' -> prun s (evs ++ evs') s'.

(** The menu thread, the first one with a pid (kern/main/main.c). *)
Definition boot (rnd menu : Z) : outcome psys :=
  '(pid, p) ← pid_getnext rnd menu pid_setuptable;
  Ok (mk_psys p None {[menu := mk_proc pid 0]} {[menu := User]}).

(** ** The invariant of the tables *)

Section Tables.
(** The pids that failed forks left in the table. *)
Variable lost : Z -> Prop.

Record pinv (s : psys) : Prop := mk_pinv {
  pi_wf : wf (pd s);
  pi_dom t : is_Some (at_pc s !! t) <-> is_Some (heap s !! t);
  pi_pid t th : heap s !! t = Some th -> valid_pid (t_pid th) /\ (t_ppid th = 0 \/ valid_pid (t_ppid th));
  pi_owner t th : heap s !! t = Some th -> at_pc s !! t <> Some Cleared -> owner (pd s) (t_pid th) = Some t;
  pi_table pid t : valid_pid pid -> owner (pd s) pid = Some t ->
    lost pid \/ at_pc s !! t <> Some Cleared /\ exists th, heap s !! t = Some th /\ t_pid th = pid;
  pi_mutex t c : at_pc s !! t = Some c -> in_mutex c = true -> mutex s = Some t;
  pi_waits t c pid : at_pc s !! t = Some c -> waits_for c = Some pid -> valid_pid pid;
}.

Lemma derefs_Ok {A} (m : gmap Z A) p a : deref m p = Ok a -> m !! p = Some a.
Proof. unfold deref. by destruct (m !! p); intros [= ->]. Qed.

(** A process moves on, inside or outside the mutex. *)
Lemma move_pinv s t c c' m :
  pinv s -> at_pc s !! t = Some c -> c <> Cleared -> c' <> Cleared ->
  (forall pid, waits_for c' = Some pid -> valid_pid pid) -> (in_mutex c' = true -> m = Some t) ->
  (forall u, mutex s = Some u -> u <> t -> m = Some u) ->
  pinv (mk_psys (pd s) m (heap s) (<[t := c']> (at_pc s))).
Proof.
  intros [] Hc Hn Hn' Hw Hm Hm'. constructor; cbn; try done.
  - intros u. rewrite <- pi_dom0. destruct (decide (t = u)) as [<-|Hne].
    + rewrite lookup_insert_eq, Hc. by split; intros _; eexists.
    + by rewrite lookup_insert_ne.
  - intros u th Hu Hcl. apply pi_owner0; [done|]. destruct (decide (t = u)) as [<-|Hne]; [congruence|].
    by rewrite lookup_insert_ne in Hcl.
  - intros pid u Hv Ho. destruct (pi_table0 pid u Hv Ho) as [|[Hcl Hth]]; [by left|right]. split; [|done].
    destruct (decide (t = u)) as [<-|Hne]; [rewrite lookup_insert_eq; congruence|by rewrite lookup_insert_ne].
  - intros u cu [[<- <-]|[Hne Hu]]%lookup_insert_Some Hin; [by apply Hm|]. apply Hm'; [by eapply pi_mutex0|done].
  - intros u cu pid [[<- <-]|[Hne Hu]]%lookup_insert_Some Hp; [by apply Hw|by eapply pi_waits0].
Qed.

Lemma fork_pinv rnd t newguy s evs s' :
  pinv s -> at_pc s !! t = Some User -> newguy <> 0 -> heap s !! newguy = None -> 0 <= rnd ->
  sys_fork rnd t newguy s = Ok (evs, s') -> pinv s'.
Proof.
  intros Hi Hc Hn Hfr Hr Hrun. unfold sys_fork in Hrun. apply bind_Ok in Hrun as (me & Hme%derefs_Ok & Hrun).
  destruct (getnext_run rnd newguy (pd s) (pi_wf s Hi) Hn Hr) as (pid & p & Hg & Hw & Hres). rewrite Hg, Ok_bind in Hrun.
  destruct Hres as [(Hv & Hfree & Hupd)|(-> & -> & _)]; [|by injection Hrun as <- <-].
  rewrite (proj2 (Z.eqb_neq pid 0)) in Hrun by (unfold valid_pid in Hv; lia). injection Hrun as <- <-.
  apply (move_pinv s t User (InFork newguy) (mutex s)) in Hi as []; try done. cbn in *.
  assert (<[t := InFork newguy]> (at_pc s) !! newguy = None) as Hfr'.
  { apply eq_None_not_Some. rewrite pi_dom0, Hfr. by intros [? ?]. }
  constructor; cbn; try done.
  - intros u. rewrite lookup_insert_is_Some, (lookup_insert_is_Some (heap s)). by rewrite pi_dom0.
  - intros u th [[<- <-]|[_ Hu]]%lookup_insert_Some; [|by eapply pi_pid0]. split; [done|right]. by eapply pi_pid0.
  - intros u th [[<- <-]|[Hne Hu]]%lookup_insert_Some Hcl; cbn.
    + destruct (Hupd pid Hv) as [-> _]. by rewrite Z.eqb_refl.
    + rewrite lookup_insert_ne in Hcl by done. destruct (Hupd (t_pid th)) as [-> _]; [by eapply pi_pid0|].
      specialize (pi_owner0 u th Hu Hcl). destruct (Z.eqb_spec (t_pid th) pid); [congruence|done].
  - intros q u Hq. destruct (Hupd q Hq) as [-> _]. destruct (Z.eqb_spec q pid) as [->|Hne].
    + intros [= <-]. right. rewrite !lookup_insert_eq. split; [done|]. by eexists.
    + intros Ho. destruct (pi_table0 q u Hq Ho) as [|[Hcl Hth]]; [by left|right].
      assert (newguy <> u) by (intros <-; destruct Hth as (? & ? & _); congruence).
      rewrite !(lookup_insert_ne _ newguy) by done. done.
  - intros u c [[<- <-]|[_ Hu]]%lookup_insert_Some Hin; [done|by eapply pi_mutex0].
  - intros u c q [[<- <-]|[_ Hu]]%lookup_insert_Some Hp; [done|by eapply pi_waits0].
Qed.

Lemma wake_same t c : in_mutex (wake t c) = in_mutex c /\ waits_for (wake t c) = waits_for c /\ (wake t c = Cleared <-> c = Cleared).
Proof. destruct c; cbn; try done. by destruct (_ =? _). Qed.

(** A broadcast. *)
Lemma wake_pinv t s : pinv s -> pinv (mk_psys (pd s) (mutex s) (heap s) (wake t <$> at_pc s)).
Proof.
  intros []. constructor; cbn; try done.
  - intros u. by rewrite lookup_fmap, fmap_is_Some.
  - intros u th Hu Hcl. apply pi_owner0; [done|]. intros H. apply Hcl. by rewrite lookup_fmap, H.
  - intros q u Hq Ho. destruct (pi_table0 q u Hq Ho) as [|[Hcl Hth]]; [by left|right]. split; [|done]. rewrite lookup_fmap.
    destruct (at_pc s !! u) as [c|] eqn:E; cbn; [|done]. intros [= Hc%wake_same]. congruence.
  - intros u c (c0 & <- & Hu)%lookup_fmap_Some Hin. eapply pi_mutex0; [done|].
    by destruct (wake_same t c0) as [<- _].
  - intros u c q (c0 & <- & Hu)%lookup_fmap_Some Hp. eapply pi_waits0; [done|].
    by destruct (wake_same t c0) as (_ & <- & _).
Qed.

(** Exit codes do not matter to the tables. *)
Lemma code_pinv p s :
  pinv s -> wf p -> (forall q, valid_pid q -> owner p q = owner (pd s) q) ->
  pinv (mk_psys p (mutex s) (heap s) (at_pc s)).
Proof.
  intros [] Hw Ho. constructor; cbn; try done.
  - intros t th Ht Hcl. rewrite Ho; [by apply pi_owner0|by eapply pi_pid0].
  - intros q t Hq. rewrite Ho by done. by apply pi_table0.
Qed.

Lemma heap_at s t c : pinv s -> at_pc s !! t = Some c -> exists th, heap s !! t = Some th.
Proof. intros [] Hc. apply pi_dom0. by exists c. Qed.

Lemma exit_run s t c exitcode :
  pinv s -> at_pc s !! t = Some c ->
  exists th p, heap s !! t = Some th /\ wf p /\
    (forall q, valid_pid q -> owner p q = owner (pd s) q /\ code p q = if q =? t_pid th then Some exitcode else code (pd s) q) /\
    sys__exit t exitcode s =
      Ok ([Exited t (t_pid th) exitcode], mk_psys p (mutex s) (heap s) (<[t := Exiting]> (wake t <$> at_pc s))).
Proof.
  intros Hi Hc. destruct (heap_at s t c Hi Hc) as [th Hth]. destruct (pi_pid s Hi t th Hth) as [Hv _].
  destruct (setexitcode_run (pd s) (t_pid th) exitcode (pi_wf s Hi) Hv) as (p & Hrun & Hw & Hp).
  exists th, p. split; [done|]. split; [done|]. split; [done|]. unfold sys__exit, deref.
  rewrite Hth, Ok_bind, Hrun. done.
Qed.

Lemma exit_pinv t exitcode s evs s' :
  pinv s -> at_pc s !! t = Some User -> sys__exit t exitcode s = Ok (evs, s') -> pinv s'.
Proof.
  intros Hi Hc Hrun. destruct (exit_run s t User exitcode Hi Hc) as (th & p & Hth & Hw & Hp & Hrun'). rewrite Hrun' in Hrun.
  injection Hrun as <- <-. assert (pinv (mk_psys p (mutex s) (heap s) (wake t <$> at_pc s))) as Hi'.
  { apply (wake_pinv t (mk_psys p (mutex s) (heap s) (at_pc s))). apply code_pinv; [done|done|]. intros q Hq. by apply Hp. }
  apply (move_pinv _ t User Exiting (mutex s) Hi'); cbn; try done. by rewrite lookup_fmap, Hc.
Qed.

Lemma clear_pinv t c s s' :
  pinv s -> at_pc s !! t = Some c -> in_mutex c = false -> c <> Cleared -> thread_exit t s = Ok s' ->
  exists th p, heap s !! t = Some th /\ s' = mk_psys p (mutex s) (heap s) (<[t := Cleared]> (at_pc s)) /\
    exitcodes p = exitcodes (pd s) /\ (forall q, valid_pid q -> owner p q = if q =? t_pid th then None else owner (pd s) q) /\
    pinv s'.
Proof.
  intros Hi Hc Hm Hn Hrun. destruct (heap_at s t c Hi Hc) as [th Hth]. destruct (pi_pid s Hi t th Hth) as [Hv _].
  destruct (clear_run (pd s) (t_pid th) (pi_wf s Hi) Hv) as (p & Hrun' & Hw & Hcodes & Hp).
  unfold thread_exit, deref in Hrun. rewrite Hth, Ok_bind, Hrun', Ok_bind in Hrun. injection Hrun as <-.
  exists th, p. do 4 (split; [done|]). destruct Hi. pose proof (pi_owner0 t th Hth ltac:(congruence)) as Hown.
  constructor; cbn; try done.
  - intros u. rewrite lookup_insert_is_Some, <- pi_dom0. destruct (decide (t = u)) as [<-|]; [|naive_solver].
    rewrite Hc. split; [by eexists|by left].
  - intros u thu Hu Hcl. destruct (decide (t = u)) as [<-|Hne]; [by rewrite lookup_insert_eq in Hcl|].
    rewrite lookup_insert_ne in Hcl by done. rewrite Hp by (by eapply pi_pid0).
    specialize (pi_owner0 u thu Hu Hcl). destruct (Z.eqb_spec (t_pid thu) (t_pid th)) as [E|]; [|done].
    rewrite E in pi_owner0. congruence.
  - intros q u Hq. rewrite Hp by done. destruct (Z.eqb_spec q (t_pid th)) as [->|Hne]; [done|]. intros Ho.
    destruct (pi_table0 q u Hq Ho) as [|(Hcl & thu & Hu & <-)]; [by left|right]. split; [|by exists thu].
    rewrite lookup_insert_ne; [done|]. intros <-. congruence.
  - intros u cu [[<- <-]|[_ Hu]]%lookup_insert_Some Hin; [done|by eapply pi_mutex0].
  - intros u cu q [[<- <-]|[_ Hu]]%lookup_insert_Some Hq; [done|by eapply pi_waits0].
Qed.

(** A structure is freed whose pid is not in the table, or is lost. *)
Lemma reap_pinv t s :
  pinv s -> (at_pc s !! t = Some Cleared \/ forall th, heap s !! t = Some th -> lost (t_pid th)) -> pinv (reap t s).
Proof.
  intros [] Hc. constructor; cbn; try done.
  - intros u. rewrite !lookup_delete_is_Some. by rewrite pi_dom0.
  - intros u th [_ Hu]%lookup_delete_Some. by eapply pi_pid0.
  - intros u th [Hne Hu]%lookup_delete_Some Hcl. rewrite lookup_delete_ne in Hcl by done. by apply pi_owner0.
  - intros q u Hq Ho. destruct (pi_table0 q u Hq Ho) as [|(Hcl & th & Hth & E)]; [by left|].
    destruct (decide (t = u)) as [<-|Hne]; [destruct Hc as [Hc|Hc]; [done|left; rewrite <- E; by apply Hc]|right].
    rewrite !lookup_delete_ne by done. eauto.
  - intros u c [_ Hu]%lookup_delete_Some. by eapply pi_mutex0.
  - intros u c q [_ Hu]%lookup_delete_Some. by eapply pi_waits0.
Qed.

(** The parent leaves its fork. *)
Lemma parent_pinv t newguy s : pinv s -> at_pc s !! t = Some (InFork newguy) -> pinv (set_pc t User s).
Proof. intros Hi Hc. by apply (move_pinv s t (InFork newguy) User (mutex s)). Qed.

Lemma fork_done_pinv t newguy s :
  pinv s -> at_pc s !! t = Some (InFork newguy) -> at_pc s !! newguy = Some Forking -> pinv (fork_done t newguy s).
Proof.
  intros Hi Hc Hn. pose proof (parent_pinv t newguy s Hi Hc) as Hi'.
  apply (move_pinv _ newguy Forking User (mutex s) Hi'); try done. cbn. by rewrite lookup_insert_ne by congruence.
Qed.

(** A failing fork that gives the pid back is the end of a thread. *)
Lemma fork_fail_exit t newguy s s' :
  fork_fail t newguy s = Ok s' -> t <> newguy -> exists s1, thread_exit newguy s = Ok s1 /\ s' = reap newguy (set_pc t User s1).
Proof.
  unfold fork_fail, thread_exit. intros (me & -> & H)%bind_Ok Hne. rewrite Ok_bind. apply bind_Ok in H as (p & -> & H).
  rewrite Ok_bind. injection H as <-. eexists. split; [done|]. unfold reap, set_pc. cbn. f_equal.
  by rewrite insert_insert_ne, delete_insert_eq by done.
Qed.

Lemma fork_fail_pinv t newguy s s' :
  pinv s -> at_pc s !! t = Some (InFork newguy) -> at_pc s !! newguy = Some Forking -> fork_fail t newguy s = Ok s' -> pinv s'.
Proof.
  intros Hi Hc Hn Hrun. assert (t <> newguy) as Hne by congruence.
  destruct (fork_fail_exit t newguy s s' Hrun Hne) as (s1 & Hx & ->).
  destruct (clear_pinv newguy Forking s s1 Hi Hn eq_refl ltac:(done) Hx) as (th & p & _ & -> & _ & _ & Hi1).
  apply reap_pinv; [eapply parent_pinv; [done|]; cbn; rewrite lookup_insert_ne; done|].
  left. cbn. by rewrite lookup_insert_ne, lookup_insert_eq.
Qed.

(** What a step of sys_waitpid does: it returns, goes on inside the mutex, or
    goes to sleep. *)
Inductive wait_next (t : Z) (s : psys) (c : pc) : psys -> Prop :=
| wn_return : wait_next t s c (release t s)
| wn_found pid : c = W_code pid -> code (pd s) pid = Some (-1) -> wait_next t s c (set_pc t (W_thread pid) s)
| wn_thread pid u : c = W_thread pid -> owner (pd s) pid = Some u -> wait_next t s c (set_pc t (W_climb pid u (Some t)) s)
| wn_climb pid u cur c' : c = W_climb pid u cur -> c' = W_sleep pid u \/ (exists next, c' = W_climb pid u next) ->
    wait_next t s c (set_pc t c' s)
| wn_sleep pid u : c = W_sleep pid u -> is_Some (heap s !! u) ->
    wait_next t s c (mk_psys (pd s) None (heap s) (<[t := Asleep pid u]> (at_pc s))).

Lemma waitpid_step_next r t s c evs s' :
  pinv s -> at_pc s !! t = Some c -> waitpid_step r t s = Ok (evs, s') -> wait_next t s c s'.
Proof.
  intros Hi Hc Hrun. pose proof (pi_waits s Hi t c) as Hv. unfold waitpid_step, give_code, deref in Hrun. rewrite Hc, Ok_bind in Hrun.
  destruct c as [| | |pid|pid|pid u cur|pid u|pid u|pid| |]; try discriminate Hrun.
  - destruct (getexitcode_run (pd s) pid (pi_wf s Hi)) as (x & Hx & Hcode); [by apply Hv|]. rewrite Hx, Ok_bind in Hrun.
    destruct (Z.eqb_spec x (-1)) as [E|_]; cbn [negb] in Hrun; injection Hrun as <- <-; [subst; by eapply wn_found|apply wn_return].
  - rewrite getthread_run, Ok_bind in Hrun; [|apply (pi_wf s Hi)|by apply Hv].
    destruct (owner (pd s) pid) as [u|] eqn:E; injection Hrun as <- <-; [by eapply wn_thread|apply wn_return].
  - destruct (cur ≫= _) as [th|]; [|done]. apply bind_Ok in Hrun as (x & _ & Hrun).
    destruct x as [x|x]; [destruct (x =? 0)|]; injection Hrun as <- <-; try apply wn_return; eapply wn_climb; eauto.
  - apply bind_Ok in Hrun as (x & Hx & Hrun). injection Hrun as <- <-. apply wn_sleep; [done|].
    by destruct (heap s !! u); [eexists|].
  - apply bind_Ok in Hrun as (x & _ & Hrun). injection Hrun as <- <-. apply wn_return.
Qed.

Lemma wait_pinv t s c s' :
  pinv s -> at_pc s !! t = Some c -> in_mutex c = true \/ (mutex s = None /\ exists pid, c = Woken pid) ->
  wait_next t s c s' -> pinv s'.
Proof.
  intros Hi Hc Hm Hn. assert (forall u, mutex s = Some u -> u = t) as Hown.
  { intros u Hu. destruct Hm as [Hm|[Hm _]]; [|congruence]. pose proof (pi_mutex s Hi t c Hc Hm). congruence. }
  assert (c <> Cleared) as Hcl by (destruct Hm as [Hm|[_ [pid ->]]]; [by destruct c|done]).
  assert (forall c', in_mutex c = true -> in_mutex c' = true -> waits_for c' = waits_for c -> pinv (set_pc t c' s)) as Hinside.
  { intros c' H1 H2 H3. apply (move_pinv s t c c' (mutex s)); try done; [by destruct c'| |].
    - intros pid. rewrite H3. by apply (pi_waits s Hi t c).
    - intros _. by apply (pi_mutex s Hi t c). }
  destruct Hn as [|pid -> _|pid u -> _|pid u cur c' -> [->|[next ->]]|pid u -> _]; try by apply Hinside.
  - apply (move_pinv s t c User None); try done. intros u Hu. by destruct (Hown u Hu).
  - apply (move_pinv s t (W_sleep pid u) (Asleep pid u) None); try done; [|intros v Hv; by destruct (Hown v Hv)].
    intros q [= <-]. by apply (pi_waits s Hi t (W_sleep pid u)).
Qed.

Lemma waitpid_args_ok t pid status options s :
  waitpid_args t pid status options s = Ok None -> valid_pid pid.
Proof.
  unfold waitpid_args. destruct (status =? 0); [done|]. intros (me & _ & H)%bind_Ok.
  destruct (pid =? t_pid me), (Z.leb_spec pid 0), (Z.gtb_spec pid PID_MAX); cbn in H; try done.
  unfold valid_pid. lia.
Qed.

Lemma pstep_pinv s evs s' : pinv s -> (forall g q, Lost g q ∈ evs -> lost q) -> pstep s evs s' -> pinv s'.
Proof.
  intros Hi Hl Hs. revert Hl.
  destruct Hs as [rnd t g evs0 s0 Hc Hg Hf Hr H|t g Hc Hg|t g th Hc Hg Hth|t g th s0 Hc Hg Hth H|t x evs0 s0 Hc Hm H|t s0 Hc H|t s0 Hc H|t Hc|t pid st op err Hc H|t pid st op Hc Hm H|r t c evs0 s0 Hc Hin H|r t pid evs0 s0 Hc Hm H];
    intros Hl.
  - by eapply fork_pinv.
  - by apply fork_done_pinv.
  - apply reap_pinv; [by eapply parent_pinv|]. right. cbn. intros th' Hth'. apply (Hl g).
    assert (th' = th) as -> by congruence. set_solver.
  - by eapply fork_fail_pinv.
  - by eapply exit_pinv.
  - by edestruct (clear_pinv t Exiting s s0) as (? & ? & _ & _ & _ & _ & ?).
  - by edestruct (clear_pinv t User s s0) as (? & ? & _ & _ & _ & _ & ?).
  - apply reap_pinv; [done|by left].
  - done.
  - apply (move_pinv s t User (W_code pid) (Some t)); try done; [|congruence].
    intros q [= <-]. by eapply waitpid_args_ok.
  - eapply wait_pinv; [done|done|by left|by eapply waitpid_step_next].
  - eapply wait_pinv; [done|done|right; by eauto|by eapply waitpid_step_next].
Qed.

Lemma prun_pinv s evs s' : pinv s -> (forall g q, Lost g q ∈ evs -> lost q) -> prun s evs s' -> pinv s'.
Proof.
  intros Hi Hl Hr. induction Hr as [|s evs s1 evs' s' Hs _ IH]; [done|].
  apply IH; [eapply pstep_pinv; [done| |done]|]; intros g q Hq; apply (Hl g); set_solver.
Qed.

Lemma boot_run rnd menu :
  menu <> 0 -> 0 <= rnd -> exists s pid, boot rnd menu = Ok s /\ pinv s /\ mutex s = None /\
    at_pc s = {[menu := User]} /\ valid_pid pid /\ heap s = {[menu := mk_proc pid 0]}.
Proof.
  intros Hm Hr. unfold boot.
  destruct (getnext_run rnd menu pid_setuptable setuptable_wf Hm Hr) as (pid & p & Hg & Hw & Hres). rewrite Hg, Ok_bind.
  assert (forall q, valid_pid q -> owner pid_setuptable q = None) as Hempty.
  { intros q Hq. unfold owner, pid_setuptable, valid_pid, PID_MAX in *. cbn [pid_table].
    rewrite lookup_replicate_2 by lia. done. }
  destruct Hres as [(Hv & _ & Hupd)|(_ & _ & Hfull)].
  2: { destruct (Hfull 2) as [x Hx]; [by split|done|]. by rewrite Hempty in Hx. }
  do 2 eexists. split; [done|]. split_and!; try done. constructor; cbn; try done.
  - intros t. rewrite !lookup_singleton_is_Some. done.
  - intros t th [<- <-]%lookup_singleton_Some. split; [done|by left].
  - intros t th [<- <-]%lookup_singleton_Some _. cbn. destruct (Hupd pid Hv) as [-> _]. by rewrite Z.eqb_refl.
  - intros q t Hq. destruct (Hupd q Hq) as [-> _]. destruct (Z.eqb_spec q pid) as [->|_].
    + intros [= <-]. right. rewrite !lookup_singleton_eq. split; [done|]. by eexists.
    + by rewrite Hempty.
  - by intros t c [<- <-]%lookup_singleton_Some.
  - by intros t c q [<- <-]%lookup_singleton_Some.
Qed.

End Tables.
Arguments pi_wf {lost} s _.
Arguments pi_pid {lost} s _.
Arguments pi_owner {lost} s _.
Arguments pi_table {lost} s _.
Arguments pi_mutex {lost} s _.
Arguments pi_waits {lost} s _.
Arguments pi_dom {lost} s _.

(** C32. Process ids identify processes.  In every reachable state each process
    that has not given up its pid has one between 1 and [PID_MAX], the table
    leads from the pid to it, and no two such processes have the same; what
    else the table holds are the pids that forks left behind when they failed
    after taking one.  And at most one process is inside the critical section
    of the system calls. *)
Theorem pids_unique rnd menu s0 evs s :
  menu <> 0 -> 0 <= rnd -> boot rnd menu = Ok s0 -> prun s0 evs s ->
  (forall t th, heap s !! t = Some th -> at_pc s !! t <> Some Cleared ->
     valid_pid (t_pid th) /\ owner (pd s) (t_pid th) = Some t /\
     forall u thu, heap s !! u = Some thu -> at_pc s !! u <> Some Cleared -> t_pid thu = t_pid th -> u = t) /\
  (forall pid t, valid_pid pid -> owner (pd s) pid = Some t ->
     (at_pc s !! t <> Some Cleared /\ exists th, heap s !! t = Some th /\ t_pid th = pid) \/ exists g, Lost g pid ∈ evs) /\
  (forall t u c d, at_pc s !! t = Some c -> in_mutex c = true -> at_pc s !! u = Some d -> in_mutex d = true -> t = u).
Proof.
  intros Hm Hr Hb Hrun.
  destruct (boot_run (fun pid => exists g, Lost g pid ∈ evs) rnd menu Hm Hr) as (s1 & pid & Hb' & Hi0 & _). rewrite Hb in Hb'.
  injection Hb' as <-. destruct (prun_pinv _ _ _ _ Hi0 (fun g q H => ex_intro _ g H) Hrun) as []. split_and!.
  - intros t th Ht Hc. split; [by eapply pi_pid0|]. split; [by apply pi_owner0|]. intros u thu Hu Hcu E.
    pose proof (pi_owner0 t th Ht Hc) as H1. pose proof (pi_owner0 u thu Hu Hcu) as H2. rewrite E in H2. congruence.
  - intros q t Hq Ho. destruct (pi_table0 q t Hq Ho); [by right|by left].
  - intros t u c d Ht Hc Hu Hd. pose proof (pi_mutex0 _ _ Ht Hc). pose proof (pi_mutex0 _ _ Hu Hd). congruence.
Qed.

(** ** Exit codes reach those who wait *)

(** Processes end by sys__exit, with a code that is not the mark for "no code
    yet", and no fork fails after it took a pid. *)
Definition calm (ev : event) : bool :=
  match ev with Quiet _ | Lost _ _ | Undone _ _ => false | Exited _ _ c => negb (c =? -1) | _ => true end.

(** The pid and the process that a wait is about, once it has found it. *)
Definition target (c : pc) : option (Z * Z) :=
  match c with W_climb pid u _ | W_sleep pid u | Asleep pid u => Some (pid, u) | _ => None end.

Record winv (s : psys) : Prop := mk_winv {
  wi_exit t th : at_pc s !! t = Some Exiting -> heap s !! t = Some th -> code (pd s) (t_pid th) <> Some (-1);
  wi_code t pid : at_pc s !! t = Some (W_thread pid) -> code (pd s) pid = Some (-1);
  wi_target t c pid u : at_pc s !! t = Some c -> target c = Some (pid, u) ->
    code (pd s) pid = Some (-1) /\ owner (pd s) pid = Some u /\ at_pc s !! u <> Some Exiting;
}.

Lemma target_waits c pid u : target c = Some (pid, u) -> waits_for c = Some pid.
Proof. by destruct c; cbn; intros [= <- <-]. Qed.

(** No pid is lost. *)
Definition no_pids (pid : Z) : Prop := False.

Lemma move_winv s t c c' m :
  winv s -> at_pc s !! t = Some c -> c' <> Exiting ->
  (forall pid, c' = W_thread pid -> code (pd s) pid = Some (-1)) ->
  (forall pid u, target c' = Some (pid, u) ->
     code (pd s) pid = Some (-1) /\ owner (pd s) pid = Some u /\ at_pc s !! u <> Some Exiting) ->
  winv (mk_psys (pd s) m (heap s) (<[t := c']> (at_pc s))).
Proof.
  intros [] Hc Hne Hcode Ht.
  assert (forall u, at_pc s !! u <> Some Exiting -> <[t := c']> (at_pc s) !! u <> Some Exiting) as Hkeep.
  { intros u Hu [[_ ?]|[_ ?]]%lookup_insert_Some; done. }
  constructor; cbn.
  - intros u th [[_ ?]|[_ Hu]]%lookup_insert_Some; [done|by eapply wi_exit0].
  - intros u q [[_ ?]|[_ Hu]]%lookup_insert_Some; [by apply Hcode|by eapply wi_code0].
  - intros u d q v [[_ <-]|[_ Hu]]%lookup_insert_Some Hd.
    + destruct (Ht q v Hd) as (? & ? & ?). auto.
    + destruct (wi_target0 u d q v Hu Hd) as (? & ? & ?). auto.
Qed.

Lemma fork_winv rnd t newguy s evs s' :
  pinv no_pids s -> winv s -> at_pc s !! t = Some User -> newguy <> 0 -> heap s !! newguy = None -> 0 <= rnd ->
  sys_fork rnd t newguy s = Ok (evs, s') -> winv s'.
Proof.
  intros Hi Hw Hc Hn Hfr Hr Hrun. unfold sys_fork in Hrun. apply bind_Ok in Hrun as (me & Hme & Hrun).
  destruct (getnext_run rnd newguy (pd s) (pi_wf s Hi) Hn Hr) as (pid & p & Hg & _ & Hres). rewrite Hg, Ok_bind in Hrun.
  destruct Hres as [(Hv & Hfree & Hupd)|(-> & -> & _)]; [|by injection Hrun as <- <-].
  rewrite (proj2 (Z.eqb_neq pid 0)) in Hrun by (unfold valid_pid in Hv; lia). injection Hrun as <- <-.
  apply (move_winv s t User (InFork newguy) (mutex s)) in Hw as []; try done. cbn in *.
  apply (move_pinv _ s t User (InFork newguy) (mutex s)) in Hi; try done.
  constructor; cbn.
  - intros u th [[_ ?]|[_ Hu]]%lookup_insert_Some; [done|].
    intros [[E _]|[_ Hth]]%lookup_insert_Some.
    { subst u. destruct (heap_at _ _ newguy _ Hi Hu). cbn in *. congruence. }
    destruct (Hupd (t_pid th)) as [_ ->]; [by eapply (pi_pid _ Hi)|].
    pose proof (pi_owner _ Hi u th Hth ltac:(cbn; congruence)). cbn in *. destruct (Z.eqb_spec (t_pid th) pid); [congruence|].
    by eapply wi_exit0.
  - intros u q [[_ ?]|[_ Hu]]%lookup_insert_Some; [done|].
    destruct (Hupd q) as [_ ->]; [by apply (pi_waits _ Hi u (W_thread q))|]. case_match; [done|by eapply wi_code0].
  - intros u c q v [[_ <-]|[_ Hu]]%lookup_insert_Some Ht; [done|].
    destruct (wi_target0 u c q v Hu Ht) as (H1 & H2 & H3).
    destruct (Hupd q) as [-> ->]; [by eapply (pi_waits _ Hi u c), target_waits|].
    destruct (Z.eqb_spec q pid); [congruence|]. split; [done|]. split; [done|].
    intros [[_ ?]|[_ ?]]%lookup_insert_Some; done.
Qed.

Lemma exit_winv t exitcode s evs s' :
  pinv no_pids s -> winv s -> at_pc s !! t = Some User -> mutex s = None -> exitcode <> -1 ->
  sys__exit t exitcode s = Ok (evs, s') -> winv s'.
Proof.
  intros Hi [] Hc Hm Hx Hrun. destruct (exit_run _ s t User exitcode Hi Hc) as (th & p & Hth & Hw & Hp & Hrun').
  rewrite Hrun' in Hrun. injection Hrun as <- <-. pose proof (pi_owner s Hi t th Hth ltac:(congruence)) as Hown.
  assert (forall u c, at_pc s !! u = Some c -> in_mutex c = true -> False) as Hfree.
  { intros u c Hu Hin. pose proof (pi_mutex s Hi u c Hu Hin). congruence. }
  constructor; cbn.
  - intros u thu [[<- _]|[Hne Hu]]%lookup_insert_Some Hthu.
    { assert (thu = th) as -> by congruence. destruct (Hp (t_pid th)) as [_ ->]; [by eapply (pi_pid s Hi)|].
      rewrite Z.eqb_refl. congruence. }
    apply lookup_fmap_Some in Hu as (c & Hcw & Hu). assert (c = Exiting) as -> by (destruct c; cbn in Hcw; try done; by case_match).
    destruct (Hp (t_pid thu)) as [_ ->]; [by eapply (pi_pid s Hi)|].
    pose proof (pi_owner s Hi u thu Hthu ltac:(congruence)).
    destruct (Z.eqb_spec (t_pid thu) (t_pid th)); [congruence|by eapply wi_exit0].
  - intros u q [[_ ?]|[Hne (c & Hcw & Hu)%lookup_fmap_Some]]%lookup_insert_Some; [done|]. exfalso.
    eapply (Hfree u c); [done|]. by destruct c; cbn in Hcw; try done; case_match.
  - intros u c q v [[_ <-]|[Hne (c0 & <- & Hu)%lookup_fmap_Some]]%lookup_insert_Some Ht; [done|].
    assert (c0 = Asleep q v /\ v <> t) as [-> Hvt].
    { destruct c0; cbn in Ht; try done; try by (exfalso; eapply Hfree).
      destruct (Z.eqb_spec target0 t); [done|]. by injection Ht as <- <-. }
    destruct (wi_target0 u _ q v Hu eq_refl) as (H1 & H2 & H3).
    destruct (Hp q) as [-> ->]; [by apply (pi_waits s Hi u (Asleep q v))|].
    destruct (Z.eqb_spec q (t_pid th)); [congruence|]. split; [done|]. split; [done|].
    rewrite lookup_insert_ne by done. intros (c & Hcw & Hv)%lookup_fmap_Some. apply H3. rewrite Hv. f_equal.
    by destruct c; cbn in Hcw; try done; case_match.
Qed.

Lemma clear_winv t s s' :
  pinv no_pids s -> winv s -> at_pc s !! t = Some Exiting -> thread_exit t s = Ok s' -> winv s'.
Proof.
  intros Hi [] Hc Hrun.
  destruct (clear_pinv _ t Exiting s s' Hi Hc eq_refl ltac:(done) Hrun) as (th & p & Hth & -> & Hcodes & Hp & _).
  pose proof (pi_owner s Hi t th Hth ltac:(congruence)) as Hown.
  assert (forall q, code p q = code (pd s) q) as Hcode by (intros q; unfold code; by rewrite Hcodes).
  constructor; cbn.
  - intros u thu [[_ ?]|[_ Hu]]%lookup_insert_Some; [done|]. rewrite Hcode. by apply wi_exit0.
  - intros u q [[_ ?]|[_ Hu]]%lookup_insert_Some; [done|]. rewrite Hcode. by eapply wi_code0.
  - intros u c q v [[_ <-]|[_ Hu]]%lookup_insert_Some Ht; [done|].
    destruct (wi_target0 u c q v Hu Ht) as (H1 & H2 & H3). rewrite Hcode, Hp by (by eapply (pi_waits s Hi u c), target_waits).
    assert (v <> t) by congruence. destruct (Z.eqb_spec q (t_pid th)); [congruence|]. split; [done|]. split; [done|].
    by rewrite lookup_insert_ne.
Qed.

Lemma wait_winv t s c s' : pinv no_pids s -> winv s -> at_pc s !! t = Some c -> wait_next t s c s' -> winv s'.
Proof.
  intros Hi Hw Hc [|pid -> Hcode|pid u -> Ho|pid u cur c' -> Hc'|pid u -> _].
  - by eapply move_winv.
  - eapply move_winv; [done|done|done| |done]. by intros q [= <-].
  - eapply move_winv; [done|done|done|done|]. intros q v [= <- <-].
    pose proof (wi_code s Hw t pid Hc) as Hcode. split; [done|]. split; [done|]. intros Hex.
    destruct (pi_table s Hi pid u) as [[]|(_ & th & Hth & <-)]; [by apply (pi_waits s Hi t (W_thread pid))|done|].
    by apply (wi_exit s Hw u th Hex Hth).
  - pose proof (wi_target s Hw t _ pid u Hc eq_refl).
    eapply move_winv; [done|done| | |].
    { by destruct Hc' as [->|[? ->]]. }
    { by destruct Hc' as [->|[? ->]]. }
    intros q v Ht. assert ((q, v) = (pid, u)) as [= -> ->] by (destruct Hc' as [->|[? ->]]; by injection Ht as <- <-). done.
  - eapply move_winv; [done|done|done|done|]. intros q v [= <- <-]. by apply (wi_target s Hw t (W_sleep pid u)).
Qed.

Lemma pstep_winv s evs s' : pinv no_pids s -> winv s -> Forall (fun ev => calm ev = true) evs -> pstep s evs s' -> winv s'.
Proof.
  intros Hi Hw Hcalm Hs. revert Hcalm.
  destruct Hs as [rnd t g evs0 s0 Hc Hg Hf Hr H|t g Hc Hg|t g th Hc Hg Hth|t g th s0 Hc Hg Hth H|t x evs0 s0 Hc Hm H|t s0 Hc H|t s0 Hc H|t Hc|t pid st op err Hc H|t pid st op Hc Hm H|r t c evs0 s0 Hc Hin H|r t pid evs0 s0 Hc Hm H];
    intros Hcalm.
  - by eapply fork_winv.
  - eapply move_winv; [|cbn; by rewrite lookup_insert_ne by congruence|done..]. by eapply move_winv.
  - by apply Forall_cons_1 in Hcalm as [? _].
  - by apply Forall_cons_1 in Hcalm as [? _].
  - eapply exit_winv; try done. destruct (exit_run _ s t User x Hi Hc) as (th & p & _ & _ & _ & Hrun). rewrite Hrun in H.
    injection H as <- <-. apply Forall_cons_1 in Hcalm as [Hx _]. cbn in Hx. intros ->. done.
  - by eapply clear_winv.
  - by apply Forall_cons_1 in Hcalm as [? _].
  - destruct Hw. constructor; cbn.
    + intros u th [_ Hu]%lookup_delete_Some [_ Hth]%lookup_delete_Some. by eapply wi_exit0.
    + intros u q [_ Hu]%lookup_delete_Some. by eapply wi_code0.
    + intros u c q v [_ Hu]%lookup_delete_Some Ht. destruct (wi_target0 u c q v Hu Ht) as (? & ? & ?).
      split; [done|]. split; [done|]. by intros [_ ?]%lookup_delete_Some.
  - done.
  - by eapply move_winv.
  - eapply wait_winv; [done|done|done|by eapply waitpid_step_next].
  - eapply wait_winv; [done|done|done|by eapply waitpid_step_next].
Qed.

Lemma calm_keeps evs : Forall (fun ev => calm ev = true) evs -> forall g q, Lost g q ∈ evs -> no_pids q.
Proof. intros Hc g q Hq. by apply (proj1 (list.Forall_forall _ _) Hc) in Hq. Qed.

Lemma prun_winv s evs s' :
  pinv no_pids s -> winv s -> Forall (fun ev => calm ev = true) evs -> prun s evs s' -> pinv no_pids s' /\ winv s'.
Proof.
  intros Hi Hw Hc Hr. induction Hr as [|s evs s1 evs' s' Hs _ IH]; [done|]. apply list.Forall_app in Hc as [Hc1 Hc2].
  apply IH; [exact (pstep_pinv _ _ _ _ Hi (calm_keeps _ Hc1) Hs)|exact (pstep_winv _ _ _ Hi Hw Hc1 Hs)|done].
Qed.

(** C26. Nobody waits for the dead.  In a run in which every process that ends
    does so by [sys__exit] and with a code other than -1, and no fork fails
    after it took a pid, in every reachable state a process asleep in
    [sys_waitpid] waits for a process that exists, has that pid, and has not
    called [sys__exit] yet; and when it does, the waiting process is woken. *)
Theorem waiters_wake rnd menu s0 evs s w pid u :
  menu <> 0 -> 0 <= rnd -> boot rnd menu = Ok s0 -> prun s0 evs s -> Forall (fun ev => calm ev = true) evs ->
  at_pc s !! w = Some (Asleep pid u) ->
  exists th c, heap s !! u = Some th /\ t_pid th = pid /\ at_pc s !! u = Some c /\ c <> Exiting /\ c <> Cleared /\
    (c = User -> forall exitcode, exists s', sys__exit u exitcode s = Ok ([Exited u pid exitcode], s') /\
       at_pc s' !! w = Some (Woken pid)).
Proof.
  intros Hm Hr Hb Hrun Hcalm Hw. destruct (boot_run no_pids rnd menu Hm Hr) as (s1 & mp & Hb' & Hi0 & _ & Hat & _). rewrite Hb in Hb'.
  injection Hb' as <-. assert (winv s0) as Hw0.
  { constructor; rewrite Hat; [by intros t th [_ ?]%lookup_singleton_Some..|].
    by intros t c q v [_ <-]%lookup_singleton_Some. }
  destruct (prun_winv _ _ _ Hi0 Hw0 Hcalm Hrun) as [Hi Hwi].
  destruct (wi_target s Hwi w _ pid u Hw eq_refl) as (_ & Ho & Hex).
  destruct (pi_table s Hi pid u) as [[]|(Hcl & th & Hth & Hp)]; [by apply (pi_waits s Hi w (Asleep pid u))|done|].
  destruct (proj2 (pi_dom s Hi u)) as [c Hc]; [by eexists|].
  exists th, c. split_and!; [done..|congruence|congruence|]. intros -> x.
  destruct (exit_run _ s u User x Hi Hc) as (th' & p & Hth' & _ & _ & Hx). assert (th' = th) as -> by congruence.
  rewrite Hx, Hp. eexists. split; [done|]. cbn. rewrite lookup_insert_ne by congruence. rewrite lookup_fmap, Hw. cbn.
  by rewrite Z.eqb_refl.
Qed.

(** Between an exit and the next use of the pid, the exit code stays. *)
Definition left_code (s : psys) (pid c : Z) : Prop :=
  code (pd s) pid = Some c /\
  forall u, owner (pd s) pid = Some u -> at_pc s !! u = Some Exiting /\ exists th, heap s !! u = Some th /\ t_pid th = pid.

Lemma move_left_code s pid c t c0 c1 m :
  left_code s pid c -> at_pc s !! t = Some c0 -> c0 <> Exiting ->
  left_code (mk_psys (pd s) m (heap s) (<[t := c1]> (at_pc s))) pid c.
Proof.
  intros [Hcode Ho] Hc Hne. split; [done|]. cbn. intros u Hu. destruct (Ho u Hu) as [Hx Hth].
  by rewrite lookup_insert_ne by congruence.
Qed.

Lemma reap_left_code s pid c t c0 :
  left_code s pid c -> at_pc s !! t = Some c0 -> c0 <> Exiting -> left_code (reap t s) pid c.
Proof.
  intros [Hcode Ho] Hc Hne. split; [done|]. cbn. intros u Hu. destruct (Ho u Hu) as [Hx Hth].
  by rewrite !lookup_delete_ne by congruence.
Qed.

Section Codes.
Context (lost : Z -> Prop).

Lemma fork_left_code rnd t newguy s evs s' pid c :
  pinv lost s -> valid_pid pid -> left_code s pid c -> at_pc s !! t = Some User -> newguy <> 0 -> heap s !! newguy = None ->
  0 <= rnd -> sys_fork rnd t newguy s = Ok (evs, s') -> (forall g, Forked g pid ∉ evs) -> left_code s' pid c.
Proof.
  intros Hi Hv Hl Hc Hg Hfr Hr H Hf. unfold sys_fork in H. apply bind_Ok in H as (me & _ & H).
  destruct (getnext_run rnd newguy (pd s) (pi_wf s Hi) Hg Hr) as (q & p & Hgn & _ & Hres). rewrite Hgn, Ok_bind in H.
  destruct Hres as [(Hq & Hfree & Hupd)|(-> & -> & _)]; [|by injection H as <- <-].
  rewrite (proj2 (Z.eqb_neq q 0)) in H by (unfold valid_pid in Hq; lia). injection H as <- <-.
  assert (pid <> q) by (intros ->; apply (Hf newguy); set_solver).
  destruct (move_left_code s pid c t User (InFork newguy) (mutex s) Hl Hc) as [Hcode Ho]; [done|]. cbn in Hcode, Ho.
  unfold left_code. cbn. destruct (Hupd pid Hv) as [-> ->]. rewrite (proj2 (Z.eqb_neq pid q)) by done. split; [done|].
  intros u Hu. destruct (Ho u Hu) as (Hx & th & Hth & E). assert (newguy <> u) by congruence.
  rewrite !(lookup_insert_ne _ newguy) by done. eauto.
Qed.

(** The pid of a thread other than the one that left the code is cleared. *)
Lemma clear_left_code t c0 s s' pid c :
  pinv lost s -> valid_pid pid -> left_code s pid c -> at_pc s !! t = Some c0 -> in_mutex c0 = false -> c0 <> Cleared ->
  thread_exit t s = Ok s' -> left_code s' pid c.
Proof.
  intros Hi Hv [Hcode Ho] Hc Hm Hn H.
  destruct (clear_pinv lost t c0 s s' Hi Hc Hm Hn H) as (th & p & Hth & -> & Hcs & Hp & _).
  unfold left_code, code. cbn. rewrite Hcs, Hp by done. split; [done|]. destruct (Z.eqb_spec pid (t_pid th)) as [->|Hne]; [done|].
  intros u Hu. destruct (Ho u Hu) as (Hx & th' & Hth' & E). rewrite lookup_insert_ne by congruence. eauto.
Qed.

Lemma exit_left_code t x s evs s' pid c :
  pinv lost s -> valid_pid pid -> left_code s pid c -> at_pc s !! t = Some User -> sys__exit t x s = Ok (evs, s') ->
  left_code s' pid c.
Proof.
  intros Hi Hv [Hcode Ho] Hc H.
  destruct (exit_run lost s t User x Hi Hc) as (th & p & Hth & _ & Hp & Hrun). rewrite Hrun in H. injection H as <- <-.
  assert (pid <> t_pid th) as Hne.
  { intros ->. pose proof (pi_owner s Hi t th Hth ltac:(congruence)) as H. destruct (Ho t H). congruence. }
  unfold left_code. cbn. destruct (Hp pid Hv) as [-> ->]. rewrite (proj2 (Z.eqb_neq pid _)) by done. split; [done|].
  intros u Hu. destruct (Ho u Hu) as [Hx Hth']. rewrite lookup_insert_ne by congruence. by rewrite lookup_fmap, Hx.
Qed.

Lemma fork_fail_left_code t g s s' pid c :
  pinv lost s -> valid_pid pid -> left_code s pid c -> at_pc s !! t = Some (InFork g) -> at_pc s !! g = Some Forking ->
  fork_fail t g s = Ok s' -> left_code s' pid c.
Proof.
  intros Hi Hv Hl Hc Hg H. assert (t <> g) as Hne by congruence. destruct (fork_fail_exit t g s s' H Hne) as (s1 & Hx & ->).
  destruct (clear_pinv lost g Forking s s1 Hi Hg eq_refl ltac:(done) Hx) as (th & p & _ & E & _).
  assert (at_pc s1 !! t = Some (InFork g)) as Hc1 by (subst s1; cbn; by rewrite lookup_insert_ne).
  assert (at_pc s1 !! g = Some Cleared) as Hg1 by (subst s1; apply lookup_insert_eq).
  apply (clear_left_code g Forking s s1 pid c) in Hl; [|done..].
  apply (move_left_code s1 pid c t (InFork g) User (mutex s1)) in Hl; [|done..].
  eapply reap_left_code; [done|cbn; by rewrite lookup_insert_ne|done].
Qed.

Lemma pstep_left_code s evs s' pid c :
  pinv lost s -> valid_pid pid -> left_code s pid c -> pstep s evs s' -> (forall g, Forked g pid ∉ evs) -> left_code s' pid c.
Proof.
  intros Hi Hv Hl Hs.
  destruct Hs as [rnd t g evs0 s0 Hc Hg Hfr Hr H|t g Hc Hg|t g th Hc Hg Hth|t g th s0 Hc Hg Hth H|t x evs0 s0 Hc Hm H|t s0 Hc H|t s0 Hc H|t Hc|t q st op err Hc H|t q st op Hc Hm H|r t c0 evs0 s0 Hc Hin H|r t q evs0 s0 Hc Hm H];
    intros Hf.
  - by eapply fork_left_code.
  - eapply move_left_code; [|cbn; by rewrite lookup_insert_ne by congruence|done]. by eapply move_left_code.
  - eapply reap_left_code; [by eapply move_left_code|cbn; by rewrite lookup_insert_ne by congruence|done].
  - by eapply fork_fail_left_code.
  - by eapply exit_left_code.
  - by eapply clear_left_code.
  - by eapply clear_left_code.
  - by eapply reap_left_code.
  - done.
  - by eapply move_left_code.
  - apply (waitpid_step_next lost) with (c := c0) in H as [| | | |]; [..|done|done]; eapply move_left_code; try done; by intros ->.
  - apply (waitpid_step_next lost) with (c := Woken q) in H as [| | | |]; [..|done|done]; by eapply move_left_code.
Qed.

Lemma prun_left_code s evs s' pid c :
  pinv lost s -> valid_pid pid -> left_code s pid c -> (forall g q, Lost g q ∈ evs -> lost q) -> prun s evs s' ->
  (forall g, Forked g pid ∉ evs) -> left_code s' pid c.
Proof.
  intros Hi Hv Hl Hlost Hr Hf. induction Hr as [|s evs s1 evs' s' Hs _ IH]; [done|].
  apply IH; [eapply pstep_pinv; [done| |done]| | |]; try (intros g; try intros q; set_solver).
  eapply pstep_left_code; [done|done|done|done|]. intros g Hg. apply (Hf g). set_solver.
Qed.

Lemma fork_events rnd t newguy s evs s' :
  sys_fork rnd t newguy s = Ok (evs, s') -> evs = [] \/ exists pid, evs = [Forked newguy pid].
Proof.
  unfold sys_fork. intros (me & _ & H)%bind_Ok. apply bind_Ok in H as ([pid p] & _ & H).
  destruct (pid =? 0); injection H as <- _; eauto.
Qed.

(** A wait that returns an exit code read it from the table. *)
Lemma waitpid_events r t s c evs s' :
  pinv lost s -> at_pc s !! t = Some c -> waitpid_step r t s = Ok (evs, s') ->
  evs = [] \/ (exists err, evs = [WaitErr t err]) \/
  (exists pid x, evs = [Waited t pid x] /\ code (pd s) pid = Some x).
Proof.
  intros Hi Hc H. pose proof (pi_waits s Hi t c) as Hv. unfold waitpid_step, give_code, deref in H. rewrite Hc, Ok_bind in H.
  destruct c as [| | |q|q|q u cur|q u|q u|q| |]; try discriminate H.
  - destruct (getexitcode_run (pd s) q (pi_wf s Hi)) as (x & Hx & Hcode); [by apply Hv|]. rewrite Hx, Ok_bind in H.
    destruct (x =? -1); cbn [negb] in H; injection H as <- <-; [by left|]. destruct (r =? 0); eauto 6.
  - apply bind_Ok in H as ([u|] & _ & H); injection H as <- <-; eauto.
  - destruct (cur ≫= _) as [th|]; [|done]. apply bind_Ok in H as ([x|x] & _ & H); [destruct (x =? 0)|]; injection H as <- <-; eauto.
  - apply bind_Ok in H as (x & _ & H). injection H as <- <-. eauto.
  - destruct (getexitcode_run (pd s) q (pi_wf s Hi)) as (x & Hx & Hcode); [by apply Hv|]. rewrite Hx, Ok_bind in H.
    injection H as <- <-. destruct (r =? 0); eauto 6.
Qed.

Lemma waited_code s w pid c' s' :
  pinv lost s -> pstep s [Waited w pid c'] s' -> code (pd s) pid = Some c'.
Proof.
  intros Hi Hs. inversion Hs as [rnd t g evs0 s0 Hc Hg Hfr Hr H| | | |t x evs0 s0 Hc Hm H| | | | | |r t c0 evs0 s0 Hc Hin H|r t q evs0 s0 Hc Hm H]; subst.
  - apply fork_events in H as [?|[? ?]]; discriminate.
  - destruct (exit_run lost s t User x Hi Hc) as (? & ? & _ & _ & _ & Hx). rewrite Hx in H. discriminate.
  - apply (waitpid_events _ _ _ _ _ _ Hi Hc) in H as [?|[[? ?]|(q & x & E & Hx)]]; [discriminate..|]. by injection E as -> -> ->.
  - apply (waitpid_events _ _ _ _ _ _ Hi Hc) in H as [?|[[? ?]|(q' & x & E & Hx)]]; [discriminate..|]. by injection E as -> -> ->.
Qed.

Lemma exited_code s t pid c s' :
  pinv lost s -> pstep s [Exited t pid c] s' -> valid_pid pid /\ left_code s' pid c.
Proof.
  intros Hi Hs. inversion Hs as [rnd u g evs0 s0 Hc Hg Hfr Hr H| | | |u x evs0 s0 Hc Hm H| | | | | |r u c0 evs0 s0 Hc Hin H|r u q evs0 s0 Hc Hm H]; subst.
  - apply fork_events in H as [?|[? ?]]; discriminate.
  - destruct (exit_run lost s u User x Hi Hc) as (th & p & Hth & _ & Hp & Hrun). rewrite Hrun in H. injection H as -> <- -> <-.
    destruct (pi_pid s Hi t th Hth) as [Hv _]. split; [done|]. destruct (Hp (t_pid th) Hv) as [Ho Hcode].
    unfold left_code. cbn. rewrite Ho, Hcode, Z.eqb_refl. split; [done|]. intros v Hown.
    pose proof (pi_owner s Hi t th Hth ltac:(congruence)). assert (v = t) as -> by congruence. rewrite lookup_insert_eq. eauto.
  - apply (waitpid_events _ _ _ _ _ _ Hi Hc) in H as [?|[[? ?]|(? & ? & ? & _)]]; discriminate.
  - apply (waitpid_events _ _ _ _ _ _ Hi Hc) in H as [?|[[? ?]|(? & ? & ? & _)]]; discriminate.
Qed.

End Codes.

(** C11. [sys_waitpid] returns the exit code.  Whatever the processes do in
    between, if a process exits with code [c], its pid is not given to another
    process, and later a [sys_waitpid] for this pid returns a code, then that
    code is [c]: for those that were waiting when it exited and for those that
    ask afterwards. *)
Theorem waitpid_delivers rnd menu s0 evs1 s1 t pid c s2 evs2 s3 w c' s4 :
  menu <> 0 -> 0 <= rnd -> boot rnd menu = Ok s0 -> prun s0 evs1 s1 ->
  pstep s1 [Exited t pid c] s2 -> prun s2 evs2 s3 -> (forall g, Forked g pid ∉ evs2) ->
  pstep s3 [Waited w pid c'] s4 -> c' = c.
Proof.
  intros Hm Hr Hb H1 Hex H2 Hf Hwt. destruct (boot_run (fun _ => True) rnd menu Hm Hr) as (sb & mp & Hb' & Hi0 & _). rewrite Hb in Hb'.
  injection Hb' as <-. pose proof (prun_pinv _ _ _ _ Hi0 (fun _ _ _ => I) H1) as Hi1.
  pose proof (pstep_pinv _ _ _ _ Hi1 (fun _ _ _ => I) Hex) as Hi2.
  destruct (exited_code _ _ _ _ _ _ Hi1 Hex) as [Hv Hl].
  destruct (prun_left_code _ _ _ _ _ _ Hi2 Hv Hl (fun _ _ _ => I) H2 Hf) as [Hcode _].
  pose proof (waited_code _ _ _ _ _ _ (prun_pinv _ _ _ _ Hi2 (fun _ _ _ => I) H2) Hwt). congruence.
Qed.

Lemma prun_one s s1 s' : pstep s [] s1 -> prun s1 [] s' -> prun s [] s'.
Proof. intros Hs Hr. exact (pr_step _ [] _ [] _ Hs Hr). Qed.

(** A process whose parent is gone cannot wait.  When it calls
    [sys_waitpid] for another process that is still running, [pid_is_child]
    looks up its parent's pid, finds nothing, and the kernel goes on through
    the NULL pointer, with the mutex held. *)
Theorem waitpid_orphan_crashes lost s t th pid u status :
  pinv lost s -> at_pc s !! t = Some User -> mutex s = None -> waitpid_args t pid status 0 s = Ok None ->
  code (pd s) pid = Some (-1) -> owner (pd s) pid = Some u ->
  heap s !! t = Some th -> t_ppid th <> 0 -> t_ppid th <> pid -> owner (pd s) (t_ppid th) = None ->
  exists s', prun s [] s' /\ mutex s' = Some t /\ forall r, waitpid_step r t s' = Undef.
Proof.
  intros Hi Hc Hm Hargs Hcode Ho Hth H0 Hne Hgone.
  pose proof (waitpid_args_ok _ _ _ _ _ Hargs) as Hv. destruct (pi_pid s Hi t th Hth) as [_ [?|Hpv]]; [done|].
  set (at_pcs c := mk_psys (pd s) (Some t) (heap s) (<[t := c]> (at_pc s))).
  assert (forall c d, set_pc t d (at_pcs c) = at_pcs d) as Hset.
  { intros c d. unfold set_pc, at_pcs. cbn. by rewrite insert_insert_eq. }
  exists (at_pcs (W_climb pid u None)). split_and!; [|done|].
  - assert (forall c d, in_mutex c = true -> waitpid_step 0 t (at_pcs c) = Ok ([], set_pc t d (at_pcs c)) ->
      pstep (at_pcs c) [] (at_pcs d)) as Hstep.
    { intros c d Hin Hrun. rewrite Hset in Hrun. apply (p_wait _ 0 t c); [apply lookup_insert_eq|done|done]. }
    apply (prun_one _ (at_pcs (W_code pid))); [by eapply p_waitpid|].
    apply (prun_one _ (at_pcs (W_thread pid))); [apply Hstep; [done|]|].
    { unfold waitpid_step, deref. cbn [at_pcs at_pc pd]. rewrite lookup_insert_eq, Ok_bind.
      destruct (getexitcode_run (pd s) pid (pi_wf s Hi) Hv) as (x & -> & Hx). assert (x = -1) as -> by congruence. done. }
    apply (prun_one _ (at_pcs (W_climb pid u (Some t)))); [apply Hstep; [done|]|].
    { unfold waitpid_step, deref. cbn [at_pcs at_pc pd]. rewrite lookup_insert_eq, Ok_bind.
      rewrite getthread_run, Ok_bind, Ho by (done || apply (pi_wf s Hi)). done. }
    apply (prun_one _ (at_pcs (W_climb pid u None))); [apply Hstep; [done|]|apply pr_done].
    unfold waitpid_step, deref. cbn [at_pcs at_pc pd heap mbind option_bind].
    rewrite lookup_insert_eq, Ok_bind. change (Some t ≫= _) with (heap s !! t). rewrite Hth. unfold climb.
    rewrite !(proj2 (Z.eqb_neq _ _)), getthread_run, !Ok_bind, Hgone by (done || apply (pi_wf s Hi)). done.
  - intros r. unfold waitpid_step, deref. cbn [at_pcs at_pc]. by rewrite lookup_insert_eq.
Qed.

(** A fork that fails for want of a stack leaves its pid behind: the table
    leads to a structure that was freed. *)
Lemma fork_no_stack_leaks lost t newguy new s :
  pinv lost s -> at_pc s !! newguy = Some Forking -> heap s !! newguy = Some new ->
  owner (pd (fork_no_stack t newguy s)) (t_pid new) = Some newguy /\ heap (fork_no_stack t newguy s) !! newguy = None.
Proof.
  intros Hi Hc Hth. split; [|cbn; apply lookup_delete_eq]. apply (pi_owner s Hi newguy new Hth). congruence.
Qed.

(** ** Witnesses *)

Definition after (o : outcome (list event * psys)) (s : psys) : psys := match o with Ok (_, s') => s' | _ => s end.

(** The menu thread 10 (pid 1) forks thread 20 (pid 5) and waits for it. *)
Definition demo_0 : psys := match boot 0 10 with Ok s => s | _ => mk_psys pid_setuptable None ∅ ∅ end.
Definition demo_1 : psys := fork_done 10 20 (after (sys_fork 4 10 20 demo_0) demo_0).
Definition wait_1 : psys := mk_psys (pd demo_1) (Some 10) (heap demo_1) (<[10 := W_code 5]> (at_pc demo_1)).
Definition next_wait (t : Z) (s : psys) : psys := after (waitpid_step 0 t s) s.
Definition demo_2 : psys := next_wait 10 (next_wait 10 (next_wait 10 (next_wait 10 wait_1))).

Lemma demo_boot : boot 0 10 = Ok demo_0.
Proof. vm_compute. reflexivity. Qed.

Lemma demo_child : prun demo_0 [Forked 20 5] demo_1.
Proof.
  apply (pr_step _ [Forked 20 5] (after (sys_fork 4 10 20 demo_0) demo_0) []).
  - apply (p_fork _ 4 10 20); [reflexivity|discriminate|reflexivity|discriminate|]. vm_compute. reflexivity.
  - apply (prun_one _ demo_1); [apply p_fork_done; reflexivity|apply pr_done].
Qed.

Lemma demo_wait c s : at_pc s !! 10 = Some c -> in_mutex c = true -> waitpid_step 0 10 s = Ok ([], next_wait 10 s) ->
  pstep s [] (next_wait 10 s).
Proof. apply p_wait. Qed.

Lemma demo_sleep : prun demo_1 [] demo_2.
Proof.
  apply (prun_one _ wait_1); [apply (p_waitpid _ 10 5 4096 0); reflexivity|].
  do 4 (eapply prun_one; [eapply demo_wait; [reflexivity..|vm_compute; reflexivity]|]). apply pr_done.
Qed.

Lemma prun_trans s evs s1 evs' s' : prun s evs s1 -> prun s1 evs' s' -> prun s (evs ++ evs') s'.
Proof.
  intros Hr Hr'. induction Hr as [|s evs s1 evs1 s2 Hs _ IH]; [done|]. rewrite <- (assoc_L (++)). eapply pr_step; eauto.
Qed.

Lemma pids_unique_witness :
  exists th, heap demo_1 !! 20 = Some th /\ owner (pd demo_1) (t_pid th) = Some 20.
Proof.
  destruct (pids_unique 0 10 demo_0 _ demo_1 ltac:(discriminate) ltac:(discriminate) demo_boot demo_child) as (H & _ & _).
  exists (mk_proc 5 1). split; [reflexivity|]. apply (H 20 (mk_proc 5 1)); [reflexivity|discriminate].
Defined.

Lemma demo_prun : prun demo_0 [Forked 20 5] demo_2.
Proof. exact (prun_trans _ _ _ [] _ demo_child demo_sleep). Qed.

Lemma waiters_wake_witness :
  exists s', sys__exit 20 7 demo_2 = Ok ([Exited 20 5 7], s') /\ at_pc s' !! 10 = Some (Woken 5).
Proof.
  destruct (waiters_wake 0 10 demo_0 _ demo_2 10 5 20 ltac:(discriminate) ltac:(discriminate) demo_boot demo_prun)
    as (th & c & _ & _ & Hc & _ & _ & H); [by repeat constructor|reflexivity|].
  apply H. vm_compute in Hc. by injection Hc as <-.
Defined.

Definition demo_3 : psys := after (sys__exit 20 7 demo_2) demo_2.

Lemma waitpid_delivers_witness : exists c', pstep demo_3 [Waited 10 5 c'] (next_wait 10 demo_3) /\ c' = 7.
Proof.
  assert (pstep demo_2 [Exited 20 5 7] demo_3) as Hex.
  { apply (p_exit _ 20 7); [reflexivity|reflexivity|vm_compute; reflexivity]. }
  assert (pstep demo_3 [Waited 10 5 7] (next_wait 10 demo_3)) as Hw.
  { apply (p_woken _ 0 10 5); [reflexivity|reflexivity|vm_compute; reflexivity]. }
  exists 7. split; [exact Hw|].
  apply (waitpid_delivers 0 10 demo_0 [Forked 20 5] demo_2 20 5 7 demo_3 [] demo_3 10 7 (next_wait 10 demo_3));
    [discriminate|discriminate|exact demo_boot|exact demo_prun|exact Hex|apply pr_done|set_solver|exact Hw].
Defined.

(** Thread 20 forks 30 (pid 9), the menu forks 40 (pid 13), 20 ends. *)
Definition demo_4 : psys :=
  let s := fork_done 20 30 (after (sys_fork 8 20 30 demo_1) demo_1) in
  let s := fork_done 10 40 (after (sys_fork 12 10 40 s) s) in
  let s := after (sys__exit 20 7 s) s in
  match thread_exit 20 s with Ok s' => s' | _ => s end.

Lemma prun_quiet s s1 evs s' : pstep s [] s1 -> prun s1 evs s' -> prun s evs s'.
Proof. apply (pr_step s []). Qed.

Lemma demo_orphan : prun demo_0 [Forked 20 5; Forked 30 9; Forked 40 13; Exited 20 5 7] demo_4.
Proof.
  apply (prun_trans _ [Forked 20 5] demo_1 _ _ demo_child).
  eapply (pr_step _ [Forked 30 9]); [apply (p_fork _ 8 20 30); [reflexivity|discriminate|reflexivity|discriminate|vm_compute; reflexivity]|].
  eapply prun_quiet; [apply (p_fork_done _ 20 30); reflexivity|].
  eapply (pr_step _ [Forked 40 13]); [apply (p_fork _ 12 10 40); [reflexivity|discriminate|reflexivity|discriminate|vm_compute; reflexivity]|].
  eapply prun_quiet; [apply (p_fork_done _ 10 40); reflexivity|].
  eapply (pr_step _ [Exited 20 5 7] _ []); [apply (p_exit _ 20 7); [reflexivity|reflexivity|vm_compute; reflexivity]|].
  eapply prun_one; [apply (p_clear _ 20); [reflexivity|vm_compute; reflexivity]|]. apply pr_done.
Qed.

Lemma waitpid_orphan_crashes_witness :
  exists s', prun demo_4 [] s' /\ forall r, waitpid_step r 30 s' = Undef.
Proof.
  destruct (boot_run no_pids 0 10 ltac:(discriminate) ltac:(discriminate)) as (s0 & mp & Hb & Hi & _).
  rewrite demo_boot in Hb. injection Hb as <-.
  destruct (waitpid_orphan_crashes no_pids demo_4 30 (mk_proc 9 5) 13 40 4096) as (s' & Hr & _ & Hu);
    [refine (prun_pinv _ _ _ _ Hi _ demo_orphan); set_solver|reflexivity|reflexivity|reflexivity|reflexivity|reflexivity|reflexivity
    |discriminate|discriminate|reflexivity|].
  exists s'. split; [exact Hr|exact Hu].
Defined.

End Proc.
