(* ===== verification/Kheap.v ===== *)
(** * The kernel heap: kern/lib/kheap.c

    [kmalloc] and [kfree].  Blocks below 2048 bytes are carved out of pages
    that hold blocks of one size each; a page's free blocks are linked through
    their first words, and a table of 256 [pageref]s describes the pages.
    Larger blocks are whole pages.

    Memory is a function from addresses to 32-bit words.  Pointers to
    [pageref]s are indices of the table.  The pages come from the interface
    [KPages], which states what the page allocator promises.  The functions run
    with interrupts off. *)

From S2P Require Import Prelude.

(** The allocator of kernel pages; [kregions] maps the address of each block
    of pages in use to its length, and [kinv] is the allocator's invariant. *)
Class KPages (K : Type) := {
  alloc_kpages : Z -> K -> outcome (Z * K);
  free_kpages : Z -> K -> outcome K;
  kregions : K -> gmap Z Z;
  kinv : K -> Prop;
}.

Class KPagesLaws (K : Type) `{KPages K} := {
  kp_alloc n k : kinv k -> 1 <= n ->
    exists a k', alloc_kpages n k = Ok (a, k') /\ kinv k' /\
      ((a = 0 /\ kregions k' = kregions k) \/
       (a <> 0 /\ kregions k !! a = None /\ kregions k' = <[a := n]> (kregions k)));
  kp_free a n k : kinv k -> kregions k !! a = Some n ->
    exists k', free_kpages a k = Ok k' /\ kinv k' /\ kregions k' = delete a (kregions k);
  kp_range a n k : kinv k -> kregions k !! a = Some n ->
    PAGE_SIZE <= a /\ a mod PAGE_SIZE = 0 /\ 1 <= n /\ a + n * PAGE_SIZE < u32_mod;
  kp_disjoint a n b m k : kinv k -> kregions k !! a = Some n -> kregions k !! b = Some m -> a <> b ->
    a + n * PAGE_SIZE <= b \/ b + m * PAGE_SIZE <= a;
}.

Module Kheap.

Definition NSIZES : Z := 8.
Definition sizes : list Z := [16; 32; 64; 128; 256; 512; 1024; 2048].
Definition LARGEST_SUBPAGE_SIZE : Z := 2048.

Record pageref : Type := mk_pr {
  next_samesize : option nat;
  next_all : option nat;
  pageaddr_and_blocktype : Z;
  freelist_offset : Z;
  nfree : Z;
}.

Definition INVALID_OFFSET : Z := 65535.

Definition PR_PAGEADDR (pr : pageref) : Z := Z.land (pageaddr_and_blocktype pr) PAGE_FRAME.
Definition PR_BLOCKTYPE (pr : pageref) : Z := Z.land (pageaddr_and_blocktype pr) (Z.lnot PAGE_FRAME).
Definition MKPAB (pa blk : Z) : Z := Z.lor (Z.land pa PAGE_FRAME) (Z.land blk (Z.lnot PAGE_FRAME)).

(** [PAGE_SIZE / sizeof(struct pageref)] *)
Definition NPAGEREFS : Z := 256.
Definition INUSE_WORDS : Z := 8.

(** [sizes[blktype]] *)
Definition block_size (blktype : Z) : outcome Z := rd sizes blktype.

Section Kheap.
Context {K : Type} `{KP : KPages K}.

Record kheap : Type := mk_kheap {
  pagerefs : list pageref;
  pagerefs_inuse : list Z;
  sizebases : list (option nat);
  allbase : option nat;
  mem : Z -> Z;
  pages : K;
}.

Definition set_pagerefs l s := mk_kheap l (pagerefs_inuse s) (sizebases s) (allbase s) (mem s) (pages s).
Definition set_inuse l s := mk_kheap (pagerefs s) l (sizebases s) (allbase s) (mem s) (pages s).
Definition set_sizebases l s := mk_kheap (pagerefs s) (pagerefs_inuse s) l (allbase s) (mem s) (pages s).
Definition set_allbase b s := mk_kheap (pagerefs s) (pagerefs_inuse s) (sizebases s) b (mem s) (pages s).
Definition set_mem m s := mk_kheap (pagerefs s) (pagerefs_inuse s) (sizebases s) (allbase s) m (pages s).
Definition set_pages k s := mk_kheap (pagerefs s) (pagerefs_inuse s) (sizebases s) (allbase s) (mem s) k.

Definition store (m : Z -> Z) (a v : Z) : Z -> Z := fun x => if x =? a then v else m x.

(** [pr->...] for a pointer into the table. *)
Definition pr_rd (i : nat) (s : kheap) : outcome pageref :=
  match pagerefs s !! i with Some e => Ok e | None => Undef end.

Definition pr_wr (i : nat) (e : pageref) (s : kheap) : outcome kheap :=
  if decide (i < length (pagerefs s))%nat then Ok (set_pagerefs (<[i := e]> (pagerefs s)) s) else Undef.

(** The loop of [fill_deadbeef], [n] words. *)
Fixpoint fill_deadbeef (n : nat) (ptr : Z) (m : Z -> Z) : Z -> Z :=
  match n with
  | O => m
  | S n' => fill_deadbeef n' (ptr + 4) (store m ptr 3735928559)
  end.

(** ** Page references *)

(** [for (k=1,j=0; k!=0; k<<=1,j++)] on a word: the position of the first
    clear bit and the word with the bit set; [None] is the end of the loop,
    followed by [assert(0)]. *)
Fixpoint first_clear (n : nat) (w k j : Z) : option (Z * Z) :=
  match n with
  | O => None
  | S n' => if Z.land w k =? 0 then Some (j, Z.lor w k) else first_clear n' w (u32 (Z.shiftl k 1)) (j + 1)
  end.

(** [for (i=0; i<INUSE_WORDS; i++)], [n] rounds left. *)
Fixpoint alloc_words (n : nat) (i : nat) (l : list Z) : outcome (option (nat * list Z)) :=
  match n with
  | O => Ok None
  | S n' =>
      w ← rd l (Z.of_nat i);
      if w =? 4294967295 then alloc_words n' (S i) l
      else
        match first_clear 32 w 1 0 with
        | None => Panic
        | Some (j, w') => Ok (Some (i * 32 + Z.to_nat j, <[i := w']> l)%nat)
        end
  end.

Definition allocpageref (s : kheap) : outcome (option nat * kheap) :=
  r ← alloc_words (Z.to_nat INUSE_WORDS) 0 (pagerefs_inuse s);
  match r with
  | None => Ok (None, s)
  | Some (i, l) => Ok (Some i, set_inuse l s)
  end.

Definition freepageref (p : nat) (s : kheap) : outcome kheap :=
  let j := Z.of_nat p in
  _ ← c_assert (j <? NPAGEREFS);
  let i := j / 32 in
  let k := Z.shiftl 1 (j mod 32) in
  w ← rd (pagerefs_inuse s) i;
  _ ← c_assert (negb (Z.land w k =? 0));
  l ← wr (pagerefs_inuse s) i (Z.land w (Z.lnot k));
  Ok (set_inuse l s).

(** ** The lists of page references *)

(** One of the lists: the pages with blocks of one size, or all pages. *)
Inductive chain : Type := Same (blktype : Z) | All.

Definition base (c : chain) (s : kheap) : outcome (option nat) :=
  match c with Same b => rd (sizebases s) b | All => Ok (allbase s) end.

Definition set_base (c : chain) (p : option nat) (s : kheap) : outcome kheap :=
  match c with
  | Same b => l ← wr (sizebases s) b p; Ok (set_sizebases l s)
  | All => Ok (set_allbase p s)
  end.

Definition next (c : chain) (e : pageref) : option nat :=
  match c with Same _ => next_samesize e | All => next_all e end.

Definition set_next (c : chain) (p : option nat) (e : pageref) : pageref :=
  match c with
  | Same _ => mk_pr p (next_all e) (pageaddr_and_blocktype e) (freelist_offset e) (nfree e)
  | All => mk_pr (next_samesize e) p (pageaddr_and_blocktype e) (freelist_offset e) (nfree e)
  end.

(** A loop of [remove_lists].  [guy] is the location of a pointer: the base of
    the list ([None]) or the link of an element; [n] bounds the rounds. *)
Fixpoint unlink (n : nat) (c : chain) (guy : option nat) (pr : nat) (s : kheap) : outcome kheap :=
  p ← (match guy with None => base c s | Some j => e ← pr_rd j s; Ok (next c e) end);
  match p with
  | None => Ok s
  | Some i =>
      match n with
      | O => Hang
      | S n' =>
          if decide (i = pr) then
            e ← pr_rd pr s;
            match guy with
            | None => set_base c (next c e) s
            | Some j => ej ← pr_rd j s; pr_wr j (set_next c (next c e) ej) s
            end
          else unlink n' c (Some i) pr s
      end
  end.

Definition remove_lists (pr : nat) (blktype : Z) (s : kheap) : outcome kheap :=
  _ ← c_assert ((blktype >=? 0) && (blktype <? NSIZES));
  s ← unlink (Z.to_nat NPAGEREFS) (Same blktype) None pr s;
  unlink (Z.to_nat NPAGEREFS) All None pr s.

Definition blocktype (sz : Z) : outcome Z :=
  let i := first_index (fun x => sz <=? x) 0 sizes in
  if i =? -1 then Panic else Ok i.

(** ** Allocation *)

(** The search for a page with a free block. *)
Fixpoint find_free (n : nat) (blktype : Z) (pr : option nat) (s : kheap) : outcome (option nat) :=
  match pr with
  | None => Ok None
  | Some i =>
      match n with
      | O => Hang
      | S n' =>
          e ← pr_rd i s;
          _ ← c_assert (PR_BLOCKTYPE e =? blktype);
          if 0 <? nfree e then Ok (Some i) else find_free n' blktype (next_samesize e) s
      end
  end.

(** From the label [doalloc] on: take the first free block of page [i]. *)
Definition doalloc (i : nat) (s : kheap) : outcome (Z * kheap) :=
  e ← pr_rd i s;
  _ ← c_assert (freelist_offset e <? PAGE_SIZE);
  let prpage := PR_PAGEADDR e in
  let retptr := u32 (prpage + freelist_offset e) in
  let fl := mem s retptr in
  let nf := nfree e - 1 in
  if negb (fl =? 0) then
    _ ← c_assert (0 <? nf);
    _ ← c_assert (u32 (fl - prpage) <? PAGE_SIZE);
    s ← pr_wr i (mk_pr (next_samesize e) (next_all e) (pageaddr_and_blocktype e) (u32 (fl - prpage)) nf) s;
    Ok (retptr, s)
  else
    _ ← c_assert (nf =? 0);
    s ← pr_wr i (mk_pr (next_samesize e) (next_all e) (pageaddr_and_blocktype e) INVALID_OFFSET nf) s;
    Ok (retptr, s).

(** [for (i=1; i<pr->nfree; i++)]: link block [i] to block [i-1], [n] rounds
    left; the final [fl]. *)
Fixpoint link_blocks (n : nat) (i fla sz fl : Z) (m : Z -> Z) : outcome (Z * (Z -> Z)) :=
  match n with
  | O => Ok (fl, m)
  | S n' =>
      let fl := u32 (fla + i * sz) in
      let prev := u32 (fla + (i - 1) * sz) in
      _ ← c_assert (negb (fl =? prev));
      link_blocks n' (i + 1) fla sz fl (store m fl prev)
  end.

Definition subpage_kmalloc (sz : Z) (s : kheap) : outcome (Z * kheap) :=
  blktype ← blocktype sz;
  sz ← block_size blktype;
  b ← rd (sizebases s) blktype;
  pr ← find_free (Z.to_nat NPAGEREFS) blktype b s;
  match pr with
  | Some i => doalloc i s
  | None =>
      '(pr, s) ← allocpageref s;
      match pr with
      | None => Ok (0, s)
      | Some i =>
          '(prpage, k) ← alloc_kpages 1 (pages s);
          let s := set_pages k s in
          if prpage =? 0 then s ← freepageref i s; Ok (0, s)
          else
            let nf := PAGE_SIZE / sz in
            '(fl, m) ← link_blocks (Z.to_nat (nf - 1)) 1 prpage sz prpage (store (mem s) prpage 0);
            let offset := u32 (fl - prpage) in
            _ ← c_assert (offset =? (nf - 1) * sz);
            let s := set_mem m s in
            b ← rd (sizebases s) blktype;
            s ← pr_wr i (mk_pr b (allbase s) (MKPAB prpage blktype) offset nf) s;
            l ← wr (sizebases s) blktype (Some i);
            doalloc i (set_allbase (Some i) (set_sizebases l s))
      end
  end.

(** ** Freeing *)

(** The search for the page of an address. *)
Fixpoint find_page (n : nat) (ptraddr : Z) (pr : option nat) (s : kheap) : outcome (option nat) :=
  match pr with
  | None => Ok None
  | Some i =>
      match n with
      | O => Hang
      | S n' =>
          e ← pr_rd i s;
          let prpage := PR_PAGEADDR e in
          let blktype := PR_BLOCKTYPE e in
          _ ← c_assert ((blktype >=? 0) && (blktype <? NSIZES));
          if (ptraddr >=? prpage) && (ptraddr <? u32 (prpage + PAGE_SIZE)) then Ok (Some i)
          else find_page n' ptraddr (next_all e) s
      end
  end.

Definition subpage_kfree (ptr : Z) (s : kheap) : outcome (Z * kheap) :=
  pr ← find_page (Z.to_nat NPAGEREFS) ptr (allbase s) s;
  match pr with
  | None => Ok (-1, s)
  | Some i =>
      e ← pr_rd i s;
      let prpage := PR_PAGEADDR e in
      let blktype := PR_BLOCKTYPE e in
      let offset := u32 (ptr - prpage) in
      sz ← block_size blktype;
      if (offset >=? PAGE_SIZE) || negb (offset mod sz =? 0) then Panic
      else
        let m := fill_deadbeef (Z.to_nat (sz / 4)) ptr (mem s) in
        let fla := u32 (prpage + offset) in
        let fl := if freelist_offset e =? INVALID_OFFSET then 0 else u32 (prpage + freelist_offset e) in
        let s := set_mem (store m fla fl) s in
        let nf := nfree e + 1 in
        s ← pr_wr i (mk_pr (next_samesize e) (next_all e) (pageaddr_and_blocktype e) offset nf) s;
        _ ← c_assert (nf <=? PAGE_SIZE / sz);
        if nf =? PAGE_SIZE / sz then
          s ← remove_lists i blktype s;
          k ← free_kpages prpage (pages s);
          s ← freepageref i (set_pages k s);
          Ok (0, s)
        else Ok (0, s)
  end.

Definition kmalloc (sz : Z) (s : kheap) : outcome (Z * kheap) :=
  if sz >=? LARGEST_SUBPAGE_SIZE then
    let npages := u32 (sz + PAGE_SIZE - 1) / PAGE_SIZE in
    '(address, k) ← alloc_kpages npages (pages s);
    Ok (address, set_pages k s)
  else subpage_kmalloc sz s.

Definition kfree (ptr : Z) (s : kheap) : outcome kheap :=
  if ptr =? 0 then Ok s
  else
    '(r, s) ← subpage_kfree ptr s;
    if negb (r =? 0) then
      _ ← c_assert (ptr mod PAGE_SIZE =? 0);
      k ← free_kpages ptr (pages s);
      Ok (set_pages k s)
    else Ok s.

(** The heap before its first use: the static tables are zero. *)
Definition kheap_init (m : Z -> Z) (k : K) : kheap :=
  mk_kheap (replicate (Z.to_nat NPAGEREFS) (mk_pr None None 0 0 0)) (replicate (Z.to_nat INUSE_WORDS) 0)
    (replicate (Z.to_nat NSIZES) None) None m k.


(** ** The table of page references in use *)

Definition bit (l : list Z) (i : nat) : bool :=
  match l !! (i / 32)%nat with Some w => Z.testbit w (Z.of_nat (i mod 32)) | None => false end.

Definition wf_words (l : list Z) : Prop := zlen l = INUSE_WORDS /\ Forall (fun w => 0 <= w < 2 ^ 32) l.

Lemma first_clear_run w n : forall j, 0 <= w < 2 ^ 32 -> 0 <= j -> j + Z.of_nat n = 32 ->
  (exists i, first_clear n w (2 ^ j) j = Some (i, Z.lor w (2 ^ i)) /\ j <= i < 32 /\ Z.testbit w i = false) \/
  (first_clear n w (2 ^ j) j = None /\ forall i, j <= i < 32 -> Z.testbit w i = true).
Proof.
  induction n as [|n IH]; intros j Hw Hj Hn; cbn [first_clear].
  { right. split; [done|]. intros i Hi. lia. }
  rewrite land_mask by done. destruct (Z.testbit w j) eqn:E; cbn [negb].
  2: { left. exists j. split; [done|]. split; [lia|done]. }
  destruct (decide (j = 31)) as [->|Hne].
  { right. destruct n; [|lia]. split; [done|]. intros i Hi. by replace i with 31 by lia. }
  assert (u32 (Z.shiftl (2 ^ j) 1) = 2 ^ (j + 1)) as ->.
  { rewrite Z.shiftl_mul_pow2, <- Z.pow_add_r by lia. apply u32_id. split; [apply Z.pow_nonneg; lia|].
    apply (Z.pow_lt_mono_r 2 (j + 1) 32); lia. }
  destruct (IH (j + 1)) as [(i & Hrun & Hi & Hb)|[Hrun Hb]]; [done|lia|lia| |].
  - left. exists i. split; [done|]. split; [lia|done].
  - right. split; [done|]. intros i Hi. destruct (decide (i = j)) as [->|]; [done|]. apply Hb. lia.
Qed.

(** Setting or clearing one bit of a word. *)
Lemma bit_insert l i w w' (x : bool) :
  l !! (i / 32)%nat = Some w ->
  (forall k, 0 <= k < 32 -> Z.testbit w' k = if k =? Z.of_nat (i mod 32) then x else Z.testbit w k) ->
  forall j, bit (<[(i / 32)%nat := w']> l) j = if decide (j = i) then x else bit l j.
Proof.
  intros Hw Hk j. unfold bit. pose proof (Nat.mod_upper_bound j 32 ltac:(lia)) as Hj.
  pose proof (Nat.div_mod_eq j 32) as Ej. pose proof (Nat.div_mod_eq i 32) as Ei.
  destruct (decide ((j / 32)%nat = (i / 32)%nat)) as [E|Hne].
  - rewrite E, Hw, list_lookup_insert_eq, Hk by (lia || by eapply lookup_lt_Some).
    destruct (Z.eqb_spec (Z.of_nat (j mod 32)) (Z.of_nat (i mod 32))), (decide (j = i)); try done; lia || congruence.
  - rewrite list_lookup_insert_ne by congruence. by rewrite decide_False by congruence.
Qed.

Lemma wf_words_insert l i w : wf_words l -> 0 <= w < 2 ^ 32 -> wf_words (<[i := w]> l).
Proof. intros [Hl Hf] Hw. split; [by rewrite length_insert|]. by apply Forall_insert. Qed.

Lemma inuse_words_run l n : forall i, wf_words l -> (i + n = 8)%nat ->
  (exists p l', alloc_words n i l = Ok (Some (p, l')) /\ (p < 256)%nat /\ wf_words l' /\ bit l p = false /\
     forall j, bit l' j = if decide (j = p) then true else bit l j) \/
  (alloc_words n i l = Ok None /\ forall p, (i * 32 <= p < 256)%nat -> bit l p = true).
Proof.
  induction n as [|n IH]; intros i [Hl Hf] Hn; cbn [alloc_words].
  { right. split; [done|]. intros p Hp. lia. }
  unfold INUSE_WORDS in Hl. destruct (rd_in l (Z.of_nat i)) as (w & -> & Hw); [lia|]. rewrite Ok_bind, Nat2Z.id in *.
  pose proof (Forall_lookup_1 _ _ _ _ Hf Hw) as Hr. destruct (Z.eqb_spec w 4294967295) as [->|Hne].
  - destruct (IH (S i)) as [H|[Hrun Hb]]; [done|lia|by left|]. right. split; [done|]. intros p Hp.
    destruct (decide (p / 32 = i)%nat) as [E|].
    + unfold bit. rewrite E, Hw. change 4294967295 with (Z.ones 32). apply Z.ones_spec_low.
      pose proof (Nat.mod_upper_bound p 32). lia.
    + apply Hb. pose proof (Nat.div_mod_eq p 32). pose proof (Nat.mod_upper_bound p 32). lia.
  - destruct (first_clear_run w 32 0 Hr) as [(j & Hrun & Hj & Hb)|[_ Hb]]; [lia|lia| |].
    2: { destruct Hne. by apply (ones_full 32). }
    change 1 with (2 ^ 0). rewrite Hrun. left. set (p := (i * 32 + Z.to_nat j)%nat).
    assert ((p / 32)%nat = i /\ (p mod 32)%nat = Z.to_nat j) as [Ed Em].
    { unfold p. rewrite Nat.add_comm. split; [rewrite Nat.div_add by lia; rewrite Nat.div_small; lia|].
      rewrite Nat.Div0.mod_add. apply Nat.mod_small. lia. }
    exists p, (<[i := Z.lor w (2 ^ j)]> l). split; [done|]. split; [lia|].
    split; [apply wf_words_insert; [done|]; by apply lor_mask_width|]. split.
    + unfold bit. by rewrite Ed, Hw, Em, Z2Nat.id by lia.
    + rewrite <- Ed. apply bit_insert with (w := w); [by rewrite Ed|]. intros k Hk. rewrite lor_mask_bits, Em, Z2Nat.id by lia.
      destruct (k =? j); [apply orb_true_r|apply orb_false_r].
Qed.

Lemma freepageref_run p (s : kheap) :
  wf_words (pagerefs_inuse s) -> (p < 256)%nat -> bit (pagerefs_inuse s) p = true ->
  exists l, freepageref p s = Ok (set_inuse l s) /\ wf_words l /\
    forall j, bit l j = if decide (j = p) then false else bit (pagerefs_inuse s) j.
Proof.
  intros [Hl Hf] Hp Hb. unfold freepageref, INUSE_WORDS, NPAGEREFS in *. rewrite (proj2 (Z.ltb_lt _ _)) by lia. cbn [c_assert].
  rewrite Ok_bind. assert (Z.of_nat p / 32 = Z.of_nat (p / 32)) as Ed by (by rewrite Nat2Z.inj_div).
  assert (Z.of_nat p mod 32 = Z.of_nat (p mod 32)) as Em by (by rewrite Nat2Z.inj_mod).
  rewrite Ed, Em, Z.shiftl_1_l. pose proof (Nat.mod_upper_bound p 32 ltac:(lia)).
  assert (p / 32 < 8)%nat by (apply Nat.Div0.div_lt_upper_bound; lia).
  destruct (rd_in (pagerefs_inuse s) (Z.of_nat (p / 32))) as (w & -> & Hw); [lia|]. rewrite Ok_bind, Nat2Z.id in *.
  pose proof (Forall_lookup_1 _ _ _ _ Hf Hw) as Hr.
  rewrite land_mask by lia. unfold bit in Hb. rewrite Hw in Hb. rewrite Hb. cbn [negb c_assert]. rewrite Ok_bind.
  rewrite wr_in, Ok_bind, Nat2Z.id by lia. eexists. split; [done|].
  split; [apply wf_words_insert; [done|]; apply ldiff_mask_width; [done|lia]|].
  apply bit_insert with (w := w); [done|]. intros k Hk. rewrite ldiff_mask_bits by lia.
  destruct (k =? _); [apply andb_false_r|apply andb_true_r].
Qed.

(** ** Linked lists of page references *)

Fixpoint seg (c : chain) (prs : list pageref) (p : option nat) (l : list nat) : Prop :=
  match l with
  | [] => p = None
  | i :: l' => p = Some i /\ exists e, prs !! i = Some e /\ seg c prs (next c e) l'
  end.

(** Only the links of the elements matter. *)
Lemma seg_ext c prs prs' l : forall p,
  (forall i e, i ∈ l -> prs !! i = Some e -> exists e', prs' !! i = Some e' /\ next c e' = next c e) ->
  seg c prs p l -> seg c prs' p l.
Proof.
  induction l as [|i l IH]; intros p Hext; [done|]. intros (-> & e & He & Hs). split; [done|].
  destruct (Hext i e ltac:(left) He) as (e' & He' & Hn). exists e'. split; [done|]. rewrite Hn. apply IH; [|done].
  intros j ej Hj. apply Hext. by right.
Qed.

Lemma seg_lookup c prs l i : forall p, seg c prs p l -> i ∈ l -> is_Some (prs !! i).
Proof.
  induction l as [|j l IH]; intros p Hs Hi; [by apply not_elem_of_nil in Hi|]. destruct Hs as (_ & e & He & Hs).
  apply elem_of_cons in Hi as [->|Hi]; [by exists e|by eapply IH].
Qed.

Lemma pr_rd_run i e (s : kheap) : pagerefs s !! i = Some e -> pr_rd i s = Ok e.
Proof. intros He. unfold pr_rd. by rewrite He. Qed.

Lemma pr_wr_run i e e' (s : kheap) :
  pagerefs s !! i = Some e -> pr_wr i e' s = Ok (set_pagerefs (<[i := e']> (pagerefs s)) s).
Proof. intros He. unfold pr_wr. by rewrite decide_True by (by eapply lookup_lt_Some). Qed.

(** The pointer in location [guy]. *)
Definition at_guy (c : chain) (guy : option nat) (p : option nat) (s : kheap) : Prop :=
  match guy with
  | None => base c s = Ok p
  | Some j => exists e, pagerefs s !! j = Some e /\ p = next c e
  end.

(** The state after the pointer in location [guy] was changed to [q]. *)
Definition patched (c : chain) (guy : option nat) (q : option nat) (s s' : kheap) : Prop :=
  match guy with
  | None => set_base c q s = Ok s'
  | Some j => exists e, pagerefs s !! j = Some e /\ s' = set_pagerefs (<[j := set_next c q e]> (pagerefs s)) s
  end.

Lemma at_guy_run c guy p (s : kheap) :
  at_guy c guy p s -> (match guy with None => base c s | Some j => e ← pr_rd j s; Ok (next c e) end) = Ok p.
Proof. destruct guy as [j|]; [|done]. intros (e & He & ->). by rewrite (pr_rd_run j e s He). Qed.

Lemma unlink_run c i l2 (s : kheap) : forall l1 n guy p,
  at_guy c guy p s -> seg c (pagerefs s) p (l1 ++ i :: l2) -> i ∉ l1 -> (length l1 < n)%nat ->
  (forall q, exists s', set_base c q s = Ok s') ->
  exists guy' e s', unlink n c guy i s = Ok s' /\ pagerefs s !! i = Some e /\ patched c guy' (next c e) s s' /\
    guy' = list.last (option_list guy ++ l1).
Proof.
  induction l1 as [|j l1 IH]; intros n guy p Hg Hs Hi Hn Hb; destruct n as [|n]; cbn in Hn; try lia; cbn [unlink];
    rewrite (at_guy_run c guy p s Hg), Ok_bind.
  - destruct Hs as (-> & e & He & Hs). rewrite decide_True by done. rewrite (pr_rd_run i e s He), Ok_bind.
    destruct guy as [j|].
    + destruct Hg as (ej & Hej & _). rewrite (pr_rd_run j ej s Hej), Ok_bind, (pr_wr_run j ej _ s Hej).
      exists (Some j), e. eexists. split; [done|]. split; [done|]. split; [|done]. by exists ej.
    + destruct (Hb (next c e)) as [s' Hs']. by exists None, e, s'.
  - cbn in Hs. destruct Hs as (-> & ej & Hej & Hs). apply not_elem_of_cons in Hi as [Hne Hi].
    rewrite decide_False by congruence.
    destruct (IH n (Some j) (next c ej)) as (guy' & e & s' & Hrun & He & Hp & Hl); [by exists ej|done|done|lia|done|].
    exists guy', e, s'. split; [done|]. split; [done|]. split; [done|]. rewrite Hl. by destruct guy.
Qed.

(** What unlinking from list [c] leaves unchanged. *)
Record only_links (c : chain) (s s' : kheap) : Prop := mk_only_links {
  ol_entry k e : pagerefs s !! k = Some e -> exists q, pagerefs s' !! k = Some (set_next c q e) ;
  ol_len : length (pagerefs s') = length (pagerefs s);
  ol_inuse : pagerefs_inuse s' = pagerefs_inuse s;
  ol_mem : mem s' = mem s;
  ol_pages : pages s' = pages s;
  ol_bases : length (sizebases s') = length (sizebases s);
  ol_base d : d <> c -> base d s' = base d s;
}.

Lemma set_next_same c e : set_next c (next c e) e = e.
Proof. by destruct c, e. Qed.

Lemma next_set_next c q e : next c (set_next c q e) = q.
Proof. by destruct c. Qed.

Lemma patched_links c guy q (s s' : kheap) :
  patched c guy q s s' ->
  only_links c s s' /\
  (forall k e, pagerefs s !! k = Some e -> guy <> Some k -> pagerefs s' !! k = Some e) /\
  match guy with
  | None => base c s' = Ok q
  | Some j => base c s' = base c s /\ exists e, pagerefs s !! j = Some e /\ pagerefs s' !! j = Some (set_next c q e)
  end.
Proof.
  unfold patched. destruct guy as [j|].
  - intros (e & He & ->). split_and!.
    + constructor; cbn; try done; [|by rewrite length_insert]. intros k ek Hk. destruct (decide (j = k)) as [<-|].
      * exists q. rewrite list_lookup_insert_eq by (by eapply lookup_lt_Some). congruence.
      * exists (next c ek). by rewrite list_lookup_insert_ne, set_next_same by done.
    + intros k ek Hk Hne. cbn. rewrite list_lookup_insert_ne by congruence. done.
    + by destruct c.
    + exists e. split; [done|]. cbn. by rewrite list_lookup_insert_eq by (by eapply lookup_lt_Some).
  - intros Hs. destruct c as [b|]; cbn in Hs.
    + apply bind_Ok in Hs as (l & Hl & Hs). injection Hs as <-. apply wr_Ok in Hl as [Hb ->]. split_and!.
      * constructor; cbn; try done; [|by rewrite length_insert|].
        -- intros k e Hk. exists (next_samesize e). rewrite Hk. by destruct e.
        -- intros [d|] Hd; cbn; [|done]. unfold rd. destruct (Z.leb_spec 0 d); [|done].
           rewrite list_lookup_insert_ne; [done|]. intros E. apply Hd. f_equal. lia.
      * done.
      * cbn. apply rd_Some. split; [lia|]. by rewrite list_lookup_insert_eq by lia.
    + injection Hs as <-. split_and!; [|done|done]. constructor; cbn; try done.
      * intros k e Hk. exists (next_all e). rewrite Hk. by destruct e.
      * by intros [d|] Hd.
Qed.

(** Unlinking removes the element from its list. *)
Lemma unlink_ok c i l1 l2 p (s : kheap) :
  base c s = Ok p -> seg c (pagerefs s) p (l1 ++ i :: l2) -> NoDup (l1 ++ i :: l2) -> (length l1 < 256)%nat ->
  exists s' p', unlink (Z.to_nat NPAGEREFS) c None i s = Ok s' /\ only_links c s s' /\
    base c s' = Ok p' /\ seg c (pagerefs s') p' (l1 ++ l2) /\
    forall k e, k ∉ l1 -> pagerefs s !! k = Some e -> pagerefs s' !! k = Some e.
Proof.
  intros Hb Hs Hnd Hlen. assert (i ∉ l1) as Hi1.
  { intros Hi. apply list.NoDup_app in Hnd as (_ & Hd & _). apply (Hd i Hi). left. }
  assert (forall q, exists s', set_base c q s = Ok s') as Hbase.
  { intros q. destruct c as [b|]; cbn in *; [|by eexists]. apply rd_bound in Hb. rewrite wr_in by done. by eexists. }
  destruct (unlink_run c i l2 s l1 (Z.to_nat NPAGEREFS) None p Hb Hs Hi1 Hlen Hbase)
    as (guy & e & s' & Hrun & He & Hp & Hg).
  destruct (patched_links c guy (next c e) s s' Hp) as (Hol & Hkeep & Hguy). exists s'. cbn in Hg.
  assert (forall k e0, k ∉ l1 -> pagerefs s !! k = Some e0 -> pagerefs s' !! k = Some e0) as Hrest.
  { intros k e0 Hk He0. apply Hkeep; [done|]. intros ->. symmetry in Hg. apply last_Some in Hg as [l0 ->]. apply Hk, elem_of_app. right. left. }
  assert (forall l q, (forall j, guy = Some j -> j ∉ l) -> seg c (pagerefs s) q l -> seg c (pagerefs s') q l) as Hframe.
  { intros l q Hl. apply seg_ext. intros k ek Hk Hek. exists ek. split; [|done]. apply Hkeep; [done|].
    intros ->. by apply (Hl k). }
  assert (seg c (pagerefs s') (next c e) l2) as Htail.
  { apply Hframe.
    - intros j -> Hj. symmetry in Hg. apply last_Some in Hg as [l0 ->]. rewrite <- (assoc_L (++)) in Hnd.
      apply list.NoDup_app in Hnd as (_ & _ & Hnd). cbn in Hnd. apply list.NoDup_cons in Hnd as [Hnd _]. apply Hnd. by right.
    - clear -Hs He. revert p Hs. induction l1 as [|j l1 IH]; intros p Hs; cbn in Hs.
      + destruct Hs as (_ & e' & He' & Hs). congruence.
      + destruct Hs as (_ & ej & _ & Hs). by eapply IH. }
  destruct guy as [j|].
  - destruct Hguy as [Hb' (ej & Hej & Hej')]. exists p. split; [done|]. split; [done|]. split; [congruence|].
    split; [|done]. clear Hrest. symmetry in Hg. apply last_Some in Hg as [l0 ->]. rewrite <- (assoc_L (++)) in Hs, Hnd |- *.
    assert (j ∉ l0) as Hj0. { intros Hj. apply list.NoDup_app in Hnd as (_ & Hd & _). apply (Hd j Hj). left. }
    clear -Hs Htail Hej Hej' Hj0 Hkeep. revert p Hs. induction l0 as [|k l0 IH]; intros p Hs; cbn in Hs |- *.
    + destruct Hs as (-> & _). split; [done|]. exists (set_next c (next c e) ej). split; [done|].
      by rewrite next_set_next.
    + destruct Hs as (-> & ek & Hek & Hs). apply not_elem_of_cons in Hj0 as [Hne Hj0]. split; [done|].
      exists ek. split; [apply Hkeep; [done|congruence]|]. by apply IH.
  - symmetry in Hg. apply last_None in Hg as ->. exists (next c e). done.
Qed.
End Kheap.
End Kheap.
