(* ===== verification/KheapInv.v ===== *)
(** * Correctness of the kernel heap

    The invariant of the allocator of Kheap.v and its theorems: [kmalloc]
    returns memory that nobody else has, [kfree] gives back exactly one block,
    and neither touches the memory of other blocks. *)

From S2P Require Import Prelude Kheap.
Import Kheap.

Module KheapInv.

(** ** Block sizes *)

Definition sz_of (b : Z) : Z := default 0 (sizes !! Z.to_nat b).

Lemma type_cases b : 0 <= b < NSIZES ->
  b = 0 \/ b = 1 \/ b = 2 \/ b = 3 \/ b = 4 \/ b = 5 \/ b = 6 \/ b = 7.
Proof. unfold NSIZES. lia. Qed.

Ltac types H := apply type_cases in H; destruct H as [->|[->|[->|[->|[->|[->|[->| ->]]]]]]].

Lemma block_size_run b : 0 <= b < NSIZES -> block_size b = Ok (sz_of b).
Proof. intros Hb. by types Hb. Qed.

Lemma sz_of_bounds b : 0 <= b < NSIZES -> 16 <= sz_of b <= 2048 /\ sz_of b mod 16 = 0.
Proof. intros Hb. types Hb; by vm_compute. Qed.

Lemma sz_of_divides b : 0 <= b < NSIZES -> PAGE_SIZE / sz_of b * sz_of b = PAGE_SIZE.
Proof. intros Hb. by types Hb. Qed.

Lemma blocktype_run sz : 0 <= sz < LARGEST_SUBPAGE_SIZE ->
  exists b, blocktype sz = Ok b /\ 0 <= b < NSIZES /\ sz <= sz_of b.
Proof.
  intros Hsz. unfold blocktype, LARGEST_SUBPAGE_SIZE, NSIZES in *.
  destruct (first_index_spec (fun x => sz <=? x) 0 sizes) as [[_ Hn]|(k & x & -> & Hk & Hx & _)]; [done| |].
  - specialize (Hn 2048). rewrite (proj2 (Z.leb_le sz 2048)) in Hn by lia. discriminate Hn. unfold sizes. set_solver.
  - exists (0 + Z.of_nat k). rewrite (proj2 (Z.eqb_neq _ (-1))) by lia. split; [done|].
    pose proof (lookup_lt_Some _ _ _ Hk) as Hl. cbn in Hl. split; [lia|].
    unfold sz_of. replace (Z.to_nat (0 + Z.of_nat k)) with k by lia. rewrite Hk. cbn. lia.
Qed.

(** ** Page addresses and block types in one word *)

Lemma mkpab P b : 0 <= P < u32_mod -> P mod PAGE_SIZE = 0 -> 0 <= b < NSIZES ->
  Z.land (MKPAB P b) PAGE_FRAME = P /\ Z.land (MKPAB P b) (Z.lnot PAGE_FRAME) = b.
Proof.
  unfold MKPAB, PAGE_SIZE, NSIZES, u32_mod. intros HP Hm Hb.
  rewrite (page_frame_id P), (page_offset b), !Z.land_lor_distr_l by lia. rewrite (Z.mod_small b) by lia.
  rewrite (page_frame_id P), (page_frame_floor b), (page_offset P), (page_offset b), Hm by lia.
  rewrite Z.div_small, Z.mod_small by lia. cbn. split; [apply Z.lor_0_r|done].
Qed.

(** ** Blocks of a page *)

(** [a] is the address of one of the blocks of [sz] bytes of page [P]. *)
Definition blk (P sz a : Z) : Prop := exists k, 0 <= k < PAGE_SIZE / sz /\ a = P + k * sz.

Lemma blk_in P sz a : 0 < sz -> blk P sz a -> P <= a /\ a + sz <= P + PAGE_SIZE.
Proof.
  intros Hs (k & Hk & ->). pose proof (Z.mul_div_le PAGE_SIZE sz Hs). nia.
Qed.

Lemma blk_disjoint P sz a b : 0 < sz -> blk P sz a -> blk P sz b -> a <> b -> a + sz <= b \/ b + sz <= a.
Proof.
  intros Hs (k & Hk & ->) (j & Hj & ->) Hne. assert (k <> j) by congruence.
  destruct (Z.lt_ge_cases k j); [left|right]; nia.
Qed.

(** The blocks of a page in the order of its first free list. *)
Fixpoint blist (P sz : Z) (n : nat) : list Z :=
  match n with O => [] | S n' => (P + Z.of_nat n' * sz) :: blist P sz n' end.

Lemma elem_of_blist P sz n a : a ∈ blist P sz n <-> exists k, 0 <= k < Z.of_nat n /\ a = P + k * sz.
Proof.
  induction n as [|n IH]; cbn [blist].
  - split; [by intros ?%not_elem_of_nil|]. intros (k & Hk & _). lia.
  - rewrite elem_of_cons, IH. split.
    + intros [->|(k & Hk & ->)]; [exists (Z.of_nat n)|exists k]; split; lia.
    + intros (k & Hk & ->). destruct (decide (k = Z.of_nat n)) as [->|]; [by left|right]. exists k. split; lia.
Qed.

Lemma blist_NoDup P sz n : 0 < sz -> NoDup (blist P sz n).
Proof.
  intros Hs. induction n as [|n IH]; cbn [blist]; [constructor|]. constructor; [|done].
  rewrite elem_of_blist. intros (k & Hk & E). nia.
Qed.

Lemma length_blist P sz n : length (blist P sz n) = n.
Proof. induction n; cbn; congruence. Qed.

Lemma blk_blist P sz a : 0 < sz <= PAGE_SIZE -> blk P sz a <-> a ∈ blist P sz (Z.to_nat (PAGE_SIZE / sz)).
Proof.
  intros Hs. rewrite elem_of_blist, Z2Nat.id; [done|]. apply Z.div_pos; lia.
Qed.

(** ** Free lists in memory *)

Fixpoint links (m : Z -> Z) (fl : list Z) : Prop :=
  match fl with [] => True | a :: t => m a = hd 0 t /\ links m t end.

Lemma links_ext m m' fl : (forall a, a ∈ fl -> m' a = m a) -> links m fl -> links m' fl.
Proof.
  induction fl as [|a t IH]; [done|]. intros Hm [Ha Ht]. split; [by rewrite Hm by left|].
  apply IH; [|done]. intros b Hb. apply Hm. by right.
Qed.

Lemma fill_deadbeef_out n : forall ptr m x, ~ (ptr <= x < ptr + 4 * Z.of_nat n) -> fill_deadbeef n ptr m x = m x.
Proof.
  induction n as [|n IH]; intros ptr m x Hx; [done|]. cbn [fill_deadbeef]. rewrite IH by lia.
  unfold store. destruct (Z.eqb_spec x ptr); [lia|done].
Qed.

(** The loop that links the blocks of a new page. *)
Lemma link_blocks_run P sz n : forall i m,
  16 <= sz -> 1 <= i -> 0 <= P -> P + (i + Z.of_nat n) * sz <= u32_mod -> P <> 0 ->
  links m (blist P sz (Z.to_nat i)) ->
  exists m', link_blocks n i P sz (P + (i - 1) * sz) m = Ok (P + (i - 1 + Z.of_nat n) * sz, m') /\
    links m' (blist P sz (Z.to_nat i + n)) /\
    forall x, ~ (P <= x < P + (i + Z.of_nat n) * sz) -> m' x = m x.
Proof.
  induction n as [|n IH]; intros i m Hs Hi HP Hb H0 Hl; cbn [link_blocks].
  { exists m. rewrite Z.add_0_r, Nat.add_0_r. done. }
  rewrite !u32_id by nia. rewrite (proj2 (Z.eqb_neq _ _)) by nia. cbn [negb c_assert]. rewrite Ok_bind.
  replace (P + i * sz) with (P + (i + 1 - 1) * sz) by lia.
  destruct (IH (i + 1) (store m (P + (i + 1 - 1) * sz) (P + (i - 1) * sz))) as (m' & Hrun & Hl' & Hout); try done; try nia.
  - replace (Z.to_nat (i + 1)) with (S (Z.to_nat i)) by lia. cbn [blist links]. rewrite Z2Nat.id by lia. split.
    + unfold store. replace (P + (i + 1 - 1) * sz) with (P + i * sz) by lia. rewrite Z.eqb_refl.
      replace (Z.to_nat i) with (S (Z.to_nat (i - 1))) by lia. cbn [blist hd]. rewrite Z2Nat.id by lia. done.
    + revert Hl. apply links_ext. intros a (k & Hk & ->)%elem_of_blist. unfold store.
      destruct (Z.eqb_spec (P + k * sz) (P + (i + 1 - 1) * sz)); [nia|done].
  - exists m'. rewrite Hrun. split; [do 2 f_equal; lia|]. split.
    + by replace (Z.to_nat i + S n)%nat with (Z.to_nat (i + 1) + n)%nat by lia.
    + intros x Hx. rewrite Hout by nia. unfold store. destruct (Z.eqb_spec x (P + (i + 1 - 1) * sz)); [nia|done].
Qed.

Section KheapInv.
Context {K : Type} `{KP : KPages K} {KPL : KPagesLaws K}.
Local Abbreviation kheap := (kheap (K := K)).

(** ** The invariant *)

Definition esz (e : pageref) : Z := sz_of (PR_BLOCKTYPE e).

(** The page that [e] describes, with free blocks [fl]. *)
Record page_ok (m : Z -> Z) (k : K) (e : pageref) (fl : list Z) : Prop := mk_page_ok {
  po_type : 0 <= PR_BLOCKTYPE e < NSIZES;
  po_kinv : kinv k;
  po_region : kregions k !! PR_PAGEADDR e = Some 1;
  po_nfree : nfree e = zlen fl;
  po_head : freelist_offset e = match fl with [] => INVALID_OFFSET | a :: _ => a - PR_PAGEADDR e end;
  po_links : links m fl;
  po_nodup : NoDup fl;
  po_blk a : a ∈ fl -> blk (PR_PAGEADDR e) (esz e) a;
}.

(** [all] lists the page references in use, [fls] their free blocks. *)
Record hinv (s : kheap) (all : list nat) (fls : nat -> list Z) : Prop := mk_hinv {
  hi_prs : length (pagerefs s) = 256%nat;
  hi_words : wf_words (pagerefs_inuse s);
  hi_bases : zlen (sizebases s) = NSIZES;
  hi_all : seg All (pagerefs s) (allbase s) all;
  hi_nodup : NoDup all;
  hi_kinv : kinv (pages s);
  hi_same b : 0 <= b < NSIZES -> exists p l, base (Same b) s = Ok p /\ seg (Same b) (pagerefs s) p l /\ NoDup l /\
    forall i, i ∈ l <-> i ∈ all /\ exists e, pagerefs s !! i = Some e /\ PR_BLOCKTYPE e = b;
  hi_inuse i : (i < 256)%nat -> bit (pagerefs_inuse s) i = true <-> i ∈ all;
  hi_page i e : i ∈ all -> pagerefs s !! i = Some e -> page_ok (mem s) (pages s) e (fls i);
  hi_inj i j ei ej : i ∈ all -> j ∈ all -> pagerefs s !! i = Some ei -> pagerefs s !! j = Some ej ->
    PR_PAGEADDR ei = PR_PAGEADDR ej -> i = j;
}.

(** No page is completely free: such a page is returned. *)
Definition some_used (s : kheap) (all : list nat) (fls : nat -> list Z) (i : nat) : Prop :=
  forall e, i ∈ all -> pagerefs s !! i = Some e -> zlen (fls i) < PAGE_SIZE / esz e.

(** The blocks that are allocated, with their sizes. *)
Definition live (s : kheap) (all : list nat) (fls : nat -> list Z) (a z : Z) : Prop :=
  (exists i e, i ∈ all /\ pagerefs s !! i = Some e /\ blk (PR_PAGEADDR e) (esz e) a /\ a ∉ fls i /\ z = esz e) \/
  (exists n, kregions (pages s) !! a = Some n /\
     (forall i e, i ∈ all -> pagerefs s !! i = Some e -> PR_PAGEADDR e <> a) /\ z = n * PAGE_SIZE).

Lemma hinv_lookup s all fls i : hinv s all fls -> i ∈ all -> exists e, pagerefs s !! i = Some e.
Proof. intros Hi Hin. destruct (seg_lookup _ _ _ i _ (hi_all _ _ _ Hi) Hin) as [e He]. by exists e. Qed.

Lemma hinv_index s all fls i : hinv s all fls -> i ∈ all -> (i < 256)%nat.
Proof.
  intros Hi Hin. destruct (hinv_lookup s all fls i Hi Hin) as [e He%lookup_lt_Some]. by rewrite (hi_prs _ _ _ Hi) in He.
Qed.

Lemma esz_bounds m k e fl : page_ok m k e fl -> 16 <= esz e <= 2048 /\ esz e mod 16 = 0.
Proof. intros []. by apply sz_of_bounds. Qed.

(** Indices without repetition fit into the table. *)
Lemma index_length l : NoDup l -> (forall i, i ∈ l -> (i < 256)%nat) -> (length l <= 256)%nat.
Proof.
  intros Hnd Hl. rewrite <- (length_seq 256 0). apply submseteq_length, NoDup_submseteq; [done|].
  intros i Hi. apply elem_of_seq. specialize (Hl i Hi). lia.
Qed.

(** The address range of a page in use. *)
Lemma page_range m k e fl :
  page_ok m k e fl -> PAGE_SIZE <= PR_PAGEADDR e /\ PR_PAGEADDR e mod PAGE_SIZE = 0 /\ PR_PAGEADDR e + PAGE_SIZE < u32_mod.
Proof.
  intros []. destruct (kp_range _ _ _ po_kinv0 po_region0) as (H1 & H2 & _ & H4). lia.
Qed.

Definition fupd (fls : nat -> list Z) (i : nat) (fl : list Z) : nat -> list Z :=
  fun j => if decide (j = i) then fl else fls j.

Lemma fupd_eq fls i fl : fupd fls i fl i = fl.
Proof. unfold fupd. by rewrite decide_True. Qed.

Lemma fupd_ne fls i fl j : j <> i -> fupd fls i fl j = fls j.
Proof. intros. unfold fupd. by rewrite decide_False. Qed.

(** [e'] describes the same page as [e], with other free blocks. *)
Definition same_page (e e' : pageref) : Prop :=
  next_samesize e' = next_samesize e /\ next_all e' = next_all e /\
  pageaddr_and_blocktype e' = pageaddr_and_blocktype e.

Lemma same_page_fields e e' : same_page e e' ->
  PR_PAGEADDR e' = PR_PAGEADDR e /\ PR_BLOCKTYPE e' = PR_BLOCKTYPE e /\ esz e' = esz e /\
  forall c, next c e' = next c e.
Proof.
  intros (H1 & H2 & H3). unfold esz, PR_PAGEADDR, PR_BLOCKTYPE. rewrite H3. split_and!; try done. by intros [b|].
Qed.

(** Lookup in the table with one entry changed. *)
Lemma same_page_lookup (prs : list pageref) i e e' j ej :
  prs !! i = Some e -> same_page e e' -> <[i := e']> prs !! j = Some ej ->
  exists e0, prs !! j = Some e0 /\ same_page e0 ej.
Proof.
  intros He Hs Hj. destruct (decide (i = j)) as [<-|Hne].
  - rewrite list_lookup_insert_eq in Hj by (by eapply lookup_lt_Some). injection Hj as <-. by exists e.
  - rewrite list_lookup_insert_ne in Hj by done. by exists ej.
Qed.

Lemma same_page_seg c prs i e e' p l :
  prs !! i = Some e -> same_page e e' -> seg c prs p l -> seg c (<[i := e']> prs) p l.
Proof.
  intros He Hs. apply seg_ext. intros j ej Hj Hej. destruct (decide (i = j)) as [<-|Hne].
  - exists e'. rewrite list_lookup_insert_eq by (by eapply lookup_lt_Some). split; [done|].
    destruct (same_page_fields e e' Hs) as (_ & _ & _ & ->). congruence.
  - exists ej. by rewrite list_lookup_insert_ne.
Qed.

(** The free blocks of one page change. *)
Lemma refit_hinv s all fls i e e' fl' m' :
  hinv s all fls -> i ∈ all -> pagerefs s !! i = Some e -> same_page e e' ->
  page_ok m' (pages s) e' fl' ->
  (forall j a, j ∈ all -> j <> i -> a ∈ fls j -> m' a = mem s a) ->
  hinv (set_pagerefs (<[i := e']> (pagerefs s)) (set_mem m' s)) all (fupd fls i fl').
Proof.
  intros [] Hin He Hsame Hok Hm. constructor; cbn; try done.
  - by rewrite length_insert.
  - by eapply same_page_seg.
  - intros b Hb. destruct (hi_same0 b Hb) as (p & l & Hp & Hs & Hnd & Hl). exists p, l. split; [done|].
    split; [by eapply same_page_seg|]. split; [done|]. intros j. rewrite Hl. split; intros [Hj (ej & Hej & <-)]; (split; [done|]).
    + destruct (decide (i = j)) as [<-|Hne]; [|exists ej; by rewrite list_lookup_insert_ne].
      exists e'. rewrite list_lookup_insert_eq by (by eapply lookup_lt_Some). split; [done|].
      destruct (same_page_fields e e' Hsame) as (_ & -> & _). congruence.
    + destruct (same_page_lookup _ _ _ _ _ _ He Hsame Hej) as (e0 & He0 & H0). exists e0. split; [done|].
      by destruct (same_page_fields _ _ H0) as (_ & -> & _).
  - intros j ej Hj Hej. destruct (decide (j = i)) as [->|Hne].
    + rewrite list_lookup_insert_eq in Hej by (by eapply lookup_lt_Some). injection Hej as <-. by rewrite fupd_eq.
    + rewrite list_lookup_insert_ne in Hej by done. rewrite fupd_ne by done. destruct (hi_page0 j ej Hj Hej).
      constructor; try done. revert po_links0. apply links_ext. intros a Ha. by apply (Hm j).
  - intros j k ej ek Hj Hk Hej Hek.
    destruct (same_page_lookup _ _ _ _ _ _ He Hsame Hej) as (e0 & He0 & H0).
    destruct (same_page_lookup _ _ _ _ _ _ He Hsame Hek) as (e1 & He1 & H1).
    destruct (same_page_fields _ _ H0) as [-> _]. destruct (same_page_fields _ _ H1) as [-> _]. by apply hi_inj0.
Qed.

(** A page determines its reference. *)
Lemma same_block s all fls i j ei ej a :
  hinv s all fls -> i ∈ all -> j ∈ all -> pagerefs s !! i = Some ei -> pagerefs s !! j = Some ej ->
  blk (PR_PAGEADDR ei) (esz ei) a -> PR_PAGEADDR ej <= a < PR_PAGEADDR ej + PAGE_SIZE -> i = j.
Proof.
  intros [] Hi Hj Hei Hej Hbi Hbj. destruct (decide (i = j)) as [|Hne]; [done|]. exfalso.
  pose proof (hi_page0 i ei Hi Hei) as Hpi. pose proof (hi_page0 j ej Hj Hej) as Hpj.
  destruct (esz_bounds _ _ _ _ Hpi) as [Hs _]. apply blk_in in Hbi; [|lia].
  destruct (kp_disjoint _ _ _ _ _ hi_kinv0 (po_region _ _ _ _ Hpi) (po_region _ _ _ _ Hpj)); [|lia|lia].
  intros E. apply Hne. by eapply hi_inj0.
Qed.

(** The blocks in use after a change of the free blocks of page [i] (and of
    memory): those of the page that are not free now, and the others. *)
Lemma refit_live s all fls i e e' fl' m' a z :
  hinv s all fls -> i ∈ all -> pagerefs s !! i = Some e -> same_page e e' ->
  live (set_pagerefs (<[i := e']> (pagerefs s)) (set_mem m' s)) all (fupd fls i fl') a z <->
  if decide (PR_PAGEADDR e <= a < PR_PAGEADDR e + PAGE_SIZE)
  then blk (PR_PAGEADDR e) (esz e) a /\ a ∉ fl' /\ z = esz e
  else live s all fls a z.
Proof.
  intros Hinv Hin He Hsame. destruct (same_page_fields e e' Hsame) as (E1 & _ & E3 & _).
  pose proof (hi_page _ _ _ Hinv i e Hin He) as Hp. destruct (esz_bounds _ _ _ _ Hp) as [Hs _].
  assert (forall b, blk (PR_PAGEADDR e) (esz e) b -> PR_PAGEADDR e <= b < PR_PAGEADDR e + PAGE_SIZE) as Hrange.
  { intros b Hb. apply blk_in in Hb; lia. }
  assert (<[i := e']> (pagerefs s) !! i = Some e') as Hi' by (apply list_lookup_insert_eq; by eapply lookup_lt_Some).
  case_decide as Ha; split.
  - intros [(j & ej & Hj & Hej & Hb & Hn & ->)|(n & Hn & Hnp & ->)]; cbn in *.
    + destruct (decide (j = i)) as [->|Hne].
      { rewrite Hi' in Hej. injection Hej as <-. rewrite fupd_eq in Hn. by rewrite E1, E3 in *. }
      rewrite list_lookup_insert_ne in Hej by done. destruct Hne. by eapply same_block.
    + exfalso. specialize (Hnp i e' Hin Hi'). rewrite E1 in Hnp. pose proof (hi_kinv _ _ _ Hinv) as Hk.
      destruct (kp_range _ _ _ Hk Hn) as (_ & _ & Hr & _).
      destruct (kp_disjoint _ _ _ _ _ Hk Hn (po_region _ _ _ _ Hp)); [congruence|unfold PAGE_SIZE in *; lia..].
  - intros (Hb & Hn & ->). left. exists i, e'. cbn. rewrite E1, E3, fupd_eq. done.
  - intros [(j & ej & Hj & Hej & Hb & Hn & ->)|(n & Hn & Hnp & ->)]; cbn in *.
    + destruct (decide (j = i)) as [->|Hne].
      { rewrite Hi' in Hej. injection Hej as <-. rewrite E1, E3 in Hb. by apply Hrange in Hb. }
      rewrite list_lookup_insert_ne in Hej by done. rewrite fupd_ne in Hn by done. left. by exists j, ej.
    + right. exists n. split; [done|]. split; [|done]. intros j ej Hj Hej.
      destruct (decide (j = i)) as [->|Hne]; [assert (ej = e) as -> by congruence; rewrite <- E1; by apply (Hnp i)|].
      apply (Hnp j); [done|]. by rewrite list_lookup_insert_ne.
  - intros [(j & ej & Hj & Hej & Hb & Hn & ->)|(n & Hn & Hnp & ->)].
    + left. exists j, ej. cbn. assert (j <> i) by (intros ->; assert (ej = e) as -> by congruence; by apply Hrange in Hb).
      rewrite list_lookup_insert_ne, fupd_ne by done. done.
    + right. exists n. cbn. split; [done|]. split; [|done]. intros j ej Hj Hej.
      destruct (decide (j = i)) as [->|Hne]; [rewrite Hi' in Hej; injection Hej as <-; rewrite E1; by apply (Hnp i)|].
      rewrite list_lookup_insert_ne in Hej by done. by apply (Hnp j).
Qed.

(** An allocated block lies in a block of pages. *)
Lemma live_region s all fls a z :
  hinv s all fls -> live s all fls a z ->
  exists R n, kregions (pages s) !! R = Some n /\ R <= a /\ a + z <= R + n * PAGE_SIZE.
Proof.
  intros [] [(i & e & Hi & He & Hb & _ & ->)|(n & Hn & _ & ->)].
  - pose proof (hi_page0 i e Hi He) as Hp. destruct (esz_bounds _ _ _ _ Hp) as [Hs _].
    exists (PR_PAGEADDR e), 1. split; [apply (po_region _ _ _ _ Hp)|]. apply blk_in in Hb; lia.
  - exists a, n. split; [done|]. lia.
Qed.

Lemma live_disjoint s all fls a z b y :
  hinv s all fls -> live s all fls a z -> live s all fls b y -> a <> b -> a + z <= b \/ b + y <= a.
Proof.
  intros Hi Ha Hb Hne. pose proof Hi as [].
  destruct Ha as [(i & e & Hii & He & Hba & _ & ->)|(n & Hn & Hnp & ->)],
    Hb as [(j & ej & Hj & Hej & Hbb & _ & ->)|(n' & Hn' & Hnp' & ->)].
  - pose proof (hi_page0 i e Hii He) as Hp. pose proof (hi_page0 j ej Hj Hej) as Hpj.
    destruct (esz_bounds _ _ _ _ Hp) as [Hs _]. destruct (esz_bounds _ _ _ _ Hpj) as [Hsj _].
    destruct (decide (i = j)) as [<-|Hij].
    + assert (ej = e) as -> by congruence. eapply blk_disjoint; [|done|done|done]. lia.
    + apply blk_in in Hba; [|lia]. apply blk_in in Hbb; [|lia].
      destruct (kp_disjoint _ _ _ _ _ hi_kinv0 (po_region _ _ _ _ Hp) (po_region _ _ _ _ Hpj)); [|lia|lia].
      intros E. apply Hij. by eapply hi_inj0.
  - pose proof (hi_page0 i e Hii He) as Hp. destruct (esz_bounds _ _ _ _ Hp) as [Hs _]. apply blk_in in Hba; [|lia].
    destruct (kp_disjoint _ _ _ _ _ hi_kinv0 (po_region _ _ _ _ Hp) Hn'); [by apply (Hnp' i)|lia|lia].
  - pose proof (hi_page0 j ej Hj Hej) as Hp. destruct (esz_bounds _ _ _ _ Hp) as [Hs _]. apply blk_in in Hbb; [|lia].
    destruct (kp_disjoint _ _ _ _ _ hi_kinv0 (po_region _ _ _ _ Hp) Hn); [by apply (Hnp j)|lia|lia].
  - eapply kp_disjoint; done.
Qed.

(** The blocks in use on one page. *)
Lemma live_page s all fls i e a z :
  hinv s all fls -> i ∈ all -> pagerefs s !! i = Some e -> PR_PAGEADDR e <= a < PR_PAGEADDR e + PAGE_SIZE ->
  live s all fls a z <-> blk (PR_PAGEADDR e) (esz e) a /\ a ∉ fls i /\ z = esz e.
Proof.
  intros Hinv Hin He Ha. pose proof (hi_page _ _ _ Hinv i e Hin He) as Hp. split.
  - intros [(j & ej & Hj & Hej & Hb & Hn & ->)|(n & Hn & Hnp & ->)].
    + assert (j = i) as -> by (by eapply same_block). assert (ej = e) as -> by congruence. done.
    + exfalso. specialize (Hnp i e Hin He). pose proof (hi_kinv _ _ _ Hinv) as Hk. destruct (kp_range _ _ _ Hk Hn) as (_ & _ & Hr & _).
      destruct (kp_disjoint _ _ _ _ _ Hk Hn (po_region _ _ _ _ Hp)); [congruence|unfold PAGE_SIZE in *; lia..].
  - intros (Hb & Hn & ->). left. by exists i, e.
Qed.

Lemma set_mem_same (s : kheap) : set_mem (mem s) s = s.
Proof. by destruct s. Qed.

Lemma fl_length m k e fl : page_ok m k e fl -> zlen fl <= PAGE_SIZE / esz e.
Proof.
  intros Hp. pose proof (esz_bounds _ _ _ _ Hp) as [Hs _]. destruct Hp.
  enough (length fl <= length (blist (PR_PAGEADDR e) (esz e) (Z.to_nat (PAGE_SIZE / esz e))))%nat as Hl.
  { rewrite length_blist in Hl. pose proof (Z.div_pos PAGE_SIZE (esz e)). unfold PAGE_SIZE in *. lia. }
  apply submseteq_length, NoDup_submseteq; [done|]. intros a Ha. apply blk_blist; [unfold PAGE_SIZE; lia|by apply po_blk0].
Qed.

(** Taking the first free block of a page. *)
Lemma doalloc_run s all fls i e a t :
  hinv s all fls -> i ∈ all -> pagerefs s !! i = Some e -> fls i = a :: t ->
  exists e', doalloc i s = Ok (a, set_pagerefs (<[i := e']> (pagerefs s)) s) /\ same_page e e' /\
    page_ok (mem s) (pages s) e' t.
Proof.
  intros Hinv Hin He Hfl. pose proof (hi_page _ _ _ Hinv i e Hin He) as Hp. rewrite Hfl in Hp.
  destruct (esz_bounds _ _ _ _ Hp) as [Hs _]. pose proof (page_range _ _ _ _ Hp) as (HP & _ & HP'). destruct Hp.
  assert (forall b, b ∈ a :: t -> PR_PAGEADDR e <= b < PR_PAGEADDR e + PAGE_SIZE) as Hin_page.
  { intros b Hb. specialize (po_blk0 b Hb). apply blk_in in po_blk0; lia. }
  pose proof (Hin_page a ltac:(left)) as Ha. unfold doalloc. rewrite (pr_rd_run i e s He), Ok_bind, po_head0.
  rewrite (proj2 (Z.ltb_lt (a - PR_PAGEADDR e) _)) by lia. cbn [c_assert]. rewrite Ok_bind.
  replace (PR_PAGEADDR e + (a - PR_PAGEADDR e)) with a by lia. rewrite u32_id by (unfold u32_mod in *; unfold PAGE_SIZE in *; lia).
  destruct po_links0 as [Hma Hlt]. rewrite Hma. apply list.NoDup_cons in po_nodup0 as [Hna Hnd].
  rewrite (pr_wr_run i e _ s He), (pr_wr_run i e _ s He).
  assert (forall b, b ∈ t -> blk (PR_PAGEADDR e) (esz e) b) as Hbt by (intros b Hb; apply po_blk0; by right).
  rewrite po_nfree0. cbn [length]. destruct t as [|b t]; cbn [hd].
  - cbn [Z.eqb negb c_assert]. rewrite !Ok_bind. eexists. split; [reflexivity|]. split; [done|]. by constructor.
  - pose proof (Hin_page b ltac:(set_solver)) as Hb. rewrite (proj2 (Z.eqb_neq b 0)) by (unfold PAGE_SIZE in *; lia). cbn [negb].
    rewrite (proj2 (Z.ltb_lt 0 _)), u32_id, (proj2 (Z.ltb_lt _ PAGE_SIZE)) by (unfold u32_mod, PAGE_SIZE in *; cbn [length]; lia).
    cbn [c_assert]. rewrite !Ok_bind. eexists. split; [reflexivity|]. split; [done|]. constructor; try done. cbn [nfree length]. lia.
Qed.

Lemma doalloc_ok s all fls i e a t :
  hinv s all fls -> i ∈ all -> pagerefs s !! i = Some e -> fls i = a :: t ->
  (forall j, j <> i -> some_used s all fls j) ->
  exists s' fls', doalloc i s = Ok (a, s') /\ hinv s' all fls' /\ (forall j, some_used s' all fls' j) /\ mem s' = mem s /\
    (forall b y, live s' all fls' b y <-> live s all fls b y \/ (b = a /\ y = esz e)) /\ (forall y, ~ live s all fls a y) /\
    blk (PR_PAGEADDR e) (esz e) a.
Proof.
  intros Hinv Hin He Hfl Hused. destruct (doalloc_run s all fls i e a t Hinv Hin He Hfl) as (e' & Hrun & Hsame & Hok).
  pose proof (hi_page _ _ _ Hinv i e Hin He) as Hp. pose proof (fl_length _ _ _ _ Hp) as Hlen.
  assert (blk (PR_PAGEADDR e) (esz e) a) as Hblk by (apply (po_blk _ _ _ _ Hp); rewrite Hfl; left).
  destruct (esz_bounds _ _ _ _ Hp) as [Hs _]. pose proof (blk_in (PR_PAGEADDR e) (esz e) a ltac:(lia) Hblk) as Hr.
  destruct (same_page_fields e e' Hsame) as (_ & _ & E3 & _).
  exists (set_pagerefs (<[i := e']> (pagerefs s)) (set_mem (mem s) s)), (fupd fls i t).
  split; [by rewrite set_mem_same|].
  split; [eapply refit_hinv; try done|]. split_and!; try done.
  - intros j ej Hj Hej. cbn in Hej. destruct (decide (j = i)) as [->|Hne].
    + rewrite list_lookup_insert_eq in Hej by (by eapply lookup_lt_Some). injection Hej as <-. rewrite fupd_eq, E3.
      rewrite Hfl in Hlen. cbn in Hlen. lia.
    + rewrite list_lookup_insert_ne in Hej by done. rewrite fupd_ne by done. by apply (Hused j Hne).
  - intros b y. rewrite refit_live by done. case_decide as Hb.
    + rewrite (live_page s all fls i e) by done. rewrite Hfl. rewrite not_elem_of_cons.
      pose proof (po_nodup _ _ _ _ Hp) as Hnd. rewrite Hfl in Hnd. apply list.NoDup_cons in Hnd as [Hna _]. split.
      * intros (Hbb & Hn & ->). destruct (decide (b = a)) as [->|]; [by right|by left].
      * intros [(Hbb & [_ Hn] & ->)|[-> ->]]; done.
    + split; [by left|]. intros [?|[-> ->]]; [done|]. lia.
  - intros y Hy. rewrite (live_page s all fls i e) in Hy; [|done|done|done|lia]. rewrite Hfl in Hy. set_solver.
Qed.

(** ** The searches *)

Lemma find_free_run (s : kheap) b l : forall n p,
  seg (Same b) (pagerefs s) p l -> (length l <= n)%nat ->
  (forall i e, i ∈ l -> pagerefs s !! i = Some e -> PR_BLOCKTYPE e = b) ->
  (exists i e, find_free n b p s = Ok (Some i) /\ i ∈ l /\ pagerefs s !! i = Some e /\ 0 < nfree e) \/
  (find_free n b p s = Ok None).
Proof.
  induction l as [|i l IH]; intros n p Hs Hn Hb.
  { cbn in Hs. subst p. right. by destruct n. }
  destruct Hs as (-> & e & He & Hs). destruct n as [|n]; cbn in Hn; [lia|]. cbn [find_free].
  rewrite (pr_rd_run i e s He), Ok_bind, (Hb i e ltac:(left) He), Z.eqb_refl. cbn [c_assert]. rewrite Ok_bind.
  destruct (Z.ltb_spec 0 (nfree e)).
  - left. exists i, e. split; [done|]. split; [left|done].
  - destruct (IH n (next_samesize e) Hs) as [(j & ej & Hrun & Hj & Hej)|Hrun]; [lia| | |].
    + intros j ej Hj. apply Hb. by right.
    + left. exists j, ej. split; [done|]. split; [by right|done].
    + by right.
Qed.

Lemma find_page_run (s : kheap) all fls ptr l : forall n p,
  hinv s all fls -> seg All (pagerefs s) p l -> (forall i, i ∈ l -> i ∈ all) -> (length l <= n)%nat ->
  (exists i e, find_page n ptr p s = Ok (Some i) /\ i ∈ l /\ pagerefs s !! i = Some e /\
     PR_PAGEADDR e <= ptr < PR_PAGEADDR e + PAGE_SIZE) \/
  (find_page n ptr p s = Ok None /\
     forall i e, i ∈ l -> pagerefs s !! i = Some e -> ~ (PR_PAGEADDR e <= ptr < PR_PAGEADDR e + PAGE_SIZE)).
Proof.
  induction l as [|i l IH]; intros n p Hinv Hs Hl Hn.
  { cbn in Hs. subst p. right. split; [by destruct n|]. by intros ? ? ?%not_elem_of_nil. }
  destruct Hs as (-> & e & He & Hs). destruct n as [|n]; cbn in Hn; [lia|]. cbn [find_page].
  pose proof (hi_page _ _ _ Hinv i e (Hl i ltac:(left)) He) as Hp. pose proof (page_range _ _ _ _ Hp) as (HP & _ & HP').
  pose proof (po_type _ _ _ _ Hp) as Ht.
  rewrite (pr_rd_run i e s He), Ok_bind, !Z.geb_leb, (proj2 (Z.leb_le 0 _)), (proj2 (Z.ltb_lt _ NSIZES)) by lia.
  cbn [andb c_assert]. rewrite Ok_bind, u32_id by (unfold PAGE_SIZE in *; lia).
  destruct (Z.leb_spec (PR_PAGEADDR e) ptr), (Z.ltb_spec ptr (PR_PAGEADDR e + PAGE_SIZE)); cbn [andb].
  1: { left. exists i, e. split; [done|]. split; [left|]. split; [done|lia]. }
  all: destruct (IH n (next_all e) Hinv Hs) as [(j & ej & Hrun & Hj & Hej)|[Hrun Hno]];
    [intros j Hj; apply Hl; by right|lia|left; exists j, ej; split; [done|]; split; [by right|done]|right; split; [done|]].
  all: intros j ej [->|Hj]%elem_of_cons Hej; [assert (ej = e) as -> by congruence; lia|by eapply Hno].
Qed.

(** ** A new page *)

(** The state after page [P] for blocks of type [b] was entered as reference
    [p], all its blocks free. *)
Definition entered (s : kheap) (p : nat) (P b : Z) (l : list Z) (k : K) (m : Z -> Z) (e : pageref) : kheap :=
  mk_kheap (<[p := e]> (pagerefs s)) l (<[Z.to_nat b := Some p]> (sizebases s)) (Some p) m k.

Record new_page (s : kheap) (all : list nat) (p : nat) (P b : Z) (l : list Z) (k : K) (m : Z -> Z) (e : pageref) : Prop :=
  mk_new_page {
  np_index : (p < 256)%nat;
  np_fresh : p ∉ all;
  np_type : 0 <= b < NSIZES;
  np_words : wf_words l;
  np_bits j : bit l j = if decide (j = p) then true else bit (pagerefs_inuse s) j;
  np_region : kregions (pages s) !! P = None;
  np_pages : kregions k = <[P := 1]> (kregions (pages s));
  np_all : next_all e = allbase s;
  np_same : base (Same b) s = Ok (next_samesize e);
  np_pageaddr : PR_PAGEADDR e = P;
  np_blocktype : PR_BLOCKTYPE e = b;
  np_page : page_ok m k e (blist P (sz_of b) (Z.to_nat (PAGE_SIZE / sz_of b)));
  np_mem x : ~ (P <= x < P + PAGE_SIZE) -> m x = mem s x;
}.

Lemma new_page_other s all fls p P b l k m e i ei :
  hinv s all fls -> new_page s all p P b l k m e -> i ∈ all -> pagerefs s !! i = Some ei ->
  i <> p /\ <[p := e]> (pagerefs s) !! i = Some ei /\ PR_PAGEADDR ei <> P /\ page_ok m k ei (fls i).
Proof.
  intros Hinv [] Hi Hei. assert (i <> p) by congruence. split; [done|]. rewrite list_lookup_insert_ne by done. split; [done|].
  pose proof (hi_page _ _ _ Hinv i ei Hi Hei) as Hp. destruct (esz_bounds _ _ _ _ Hp) as [Hs _].
  assert (PR_PAGEADDR ei <> P) as HneP by (intros E; pose proof (po_region _ _ _ _ Hp); congruence). split; [done|].
  assert (kregions k !! PR_PAGEADDR ei = Some 1) as Hr.
  { rewrite np_pages0, lookup_insert_ne by done. apply (po_region _ _ _ _ Hp). }
  pose proof (po_kinv _ _ _ _ np_page0) as Hki. destruct (kp_disjoint _ _ P 1 _ Hki Hr) as [Hd|Hd]; [by rewrite np_pages0, lookup_insert_eq|done| |];
    destruct Hp; constructor; try done; revert po_links0; apply links_ext; intros a Ha; apply np_mem0;
    specialize (po_blk0 a Ha); apply blk_in in po_blk0; lia.
Qed.

Lemma new_page_hinv s all fls p P b l k m e :
  hinv s all fls -> new_page s all p P b l k m e ->
  hinv (entered s p P b l k m e) (p :: all) (fupd fls p (blist P (sz_of b) (Z.to_nat (PAGE_SIZE / sz_of b)))).
Proof.
  intros Hinv Hn. pose proof (new_page_other s all fls p P b l k m e) as Hother. pose proof Hinv as []. pose proof Hn as [].
  assert (<[p := e]> (pagerefs s) !! p = Some e) as Hp by (apply list_lookup_insert_eq; lia).
  assert (forall c q l0, (forall i, i ∈ l0 -> i ∈ all) -> seg c (pagerefs s) q l0 -> seg c (<[p := e]> (pagerefs s)) q l0) as Hseg.
  { intros c q l0 Hsub. apply seg_ext. intros i ei Hi Hei. exists ei. split; [|done].
    by destruct (Hother i ei Hinv Hn (Hsub i Hi) Hei) as (_ & ? & _). }
  constructor; cbn; try done.
  - by rewrite length_insert.
  - by rewrite length_insert.
  - split; [done|]. exists e. split; [done|]. cbn. rewrite np_all0. by apply Hseg.
  - by constructor.
  - apply (po_kinv _ _ _ _ np_page0).
  - intros b' Hb'. destruct (hi_same0 b' Hb') as (q & l0 & Hq & Hs & Hnd & Hl).
    assert (seg (Same b') (<[p := e]> (pagerefs s)) q l0) as Hs'.
    { apply Hseg; [|done]. intros i Hi. by apply Hl in Hi as [? _]. }
    assert (forall i, (i ∈ all /\ exists ei, pagerefs s !! i = Some ei /\ PR_BLOCKTYPE ei = b') <->
      i <> p /\ i ∈ p :: all /\ exists ei, <[p := e]> (pagerefs s) !! i = Some ei /\ PR_BLOCKTYPE ei = b') as Hset.
    { intros i. split.
      - intros [Hi (ei & Hei & Ht)]. destruct (Hother i ei Hinv Hn Hi Hei) as (Hne & He' & _).
        split; [done|]. split; [by right|]. by exists ei.
      - intros (Hne & Hi & ei & Hei & Ht). apply elem_of_cons in Hi as [?|Hi]; [done|].
        rewrite list_lookup_insert_ne in Hei by done. split; [done|]. by exists ei. }
    destruct (decide (b' = b)) as [->|Hneb].
    + exists (Some p), (p :: l0). split; [apply rd_Some; split; [lia|]; apply list_lookup_insert_eq; unfold NSIZES in *; lia|].
      split; [split; [done|]; exists e; split; [done|]; cbn; cbn in np_same0, Hq; congruence|].
      split; [constructor; [|done]; intros Hpl; by apply Hl in Hpl as [? _]|].
      intros i. rewrite elem_of_cons, Hl, Hset. split.
      * intros [->|(_ & Hi & Hei)]; [split; [left|by exists e]|done].
      * intros [Hi Hei]. destruct (decide (i = p)) as [->|Hne]; [by left|by right].
    + exists q, l0. split.
      { cbn in Hq |- *. unfold rd in *. destruct (Z.leb_spec 0 b'); [|done]. by rewrite list_lookup_insert_ne by lia. }
      split; [done|]. split; [done|]. intros i. rewrite Hl, Hset. split; [by intros (_ & ? & ?)|]. intros [Hi (ei & Hei & Ht)].
      split; [|eauto]. intros ->. rewrite Hp in Hei. injection Hei as <-. congruence.
  - intros i Hi. rewrite np_bits0, elem_of_cons. case_decide as E; [tauto|]. rewrite hi_inuse0 by done. tauto.
  - intros i ei Hi Hei. apply elem_of_cons in Hi as [->|Hi].
    + rewrite Hp in Hei. injection Hei as <-. by rewrite fupd_eq.
    + destruct (hinv_lookup s all fls i Hinv Hi) as [e0 He0]. destruct (Hother i e0 Hinv Hn Hi He0) as (Hne & He' & _ & Hok).
      rewrite fupd_ne by done. congruence.
  - intros i j ei ej Hi Hj Hei Hej E. apply elem_of_cons in Hi as [->|Hi], Hj as [->|Hj]; [done| | |].
    + rewrite Hp in Hei. injection Hei as <-. destruct (hinv_lookup s all fls j Hinv Hj) as [e0 He0].
      destruct (Hother j e0 Hinv Hn Hj He0) as (_ & He' & HneP & _). congruence.
    + rewrite Hp in Hej. injection Hej as <-. destruct (hinv_lookup s all fls i Hinv Hi) as [e0 He0].
      destruct (Hother i e0 Hinv Hn Hi He0) as (_ & He' & HneP & _). congruence.
    + destruct (hinv_lookup s all fls i Hinv Hi) as [e0 He0]. destruct (hinv_lookup s all fls j Hinv Hj) as [e1 He1].
      destruct (Hother i e0 Hinv Hn Hi He0) as (_ & He0' & _). destruct (Hother j e1 Hinv Hn Hj He1) as (_ & He1' & _).
      apply (hi_inj0 i j e0 e1); congruence.
Qed.

Lemma new_page_live s all fls p P b l k m e a z :
  hinv s all fls -> new_page s all p P b l k m e ->
  live (entered s p P b l k m e) (p :: all) (fupd fls p (blist P (sz_of b) (Z.to_nat (PAGE_SIZE / sz_of b)))) a z <->
  live s all fls a z.
Proof.
  intros Hinv Hn. pose proof (new_page_other s all fls p P b l k m e) as Hother. pose proof Hn as [].
  pose proof (hi_prs _ _ _ Hinv) as Hlen. destruct (sz_of_bounds b np_type0) as [Hs _].
  assert (<[p := e]> (pagerefs s) !! p = Some e) as Hp by (apply list_lookup_insert_eq; lia). split.
  - intros [(i & ei & Hi & Hei & Hb & Hfl & ->)|(n & Hr & Hnp & ->)]; cbn in *.
    + apply elem_of_cons in Hi as [->|Hi].
      * rewrite Hp in Hei. injection Hei as <-. rewrite fupd_eq in Hfl. destruct Hfl. unfold esz in Hb.
        rewrite np_pageaddr0, np_blocktype0 in Hb. apply blk_blist; [unfold PAGE_SIZE; lia|done].
      * destruct (hinv_lookup s all fls i Hinv Hi) as [e0 He0]. destruct (Hother i e0 Hinv Hn Hi He0) as (Hne & He' & _).
        assert (ei = e0) as -> by congruence. rewrite fupd_ne in Hfl by done. left. by exists i, e0.
    + right. assert (a <> P) as HaP by (intros ->; by apply (Hnp p e); [left|done|]).
      exists n. rewrite np_pages0, lookup_insert_ne in Hr by done. split; [done|]. split; [|done].
      intros i ei Hi Hei. destruct (Hother i ei Hinv Hn Hi Hei) as (_ & He' & _). apply (Hnp i ei); [by right|done].
  - intros [(i & ei & Hi & Hei & Hb & Hfl & ->)|(n & Hr & Hnp & ->)].
    + destruct (Hother i ei Hinv Hn Hi Hei) as (Hne & He' & _). left. exists i, ei. cbn. rewrite fupd_ne by done.
      split; [by right|done].
    + right. exists n. cbn. assert (a <> P) by congruence. rewrite np_pages0, lookup_insert_ne by done. split; [done|].
      split; [|done]. intros i ei Hi Hei. apply elem_of_cons in Hi as [->|Hi].
      * rewrite Hp in Hei. injection Hei as <-. congruence.
      * destruct (hinv_lookup s all fls i Hinv Hi) as [e0 He0]. destruct (Hother i e0 Hinv Hn Hi He0) as (_ & He' & _).
        apply (Hnp i); [done|congruence].
Qed.

(** ** Allocation *)

(** The memory of allocated blocks is untouched. *)
Definition kept (s : kheap) (all : list nat) (fls : nat -> list Z) (s' : kheap) : Prop :=
  forall a z x, live s all fls a z -> a <= x < a + z -> mem s' x = mem s x.

(** The outcome of an allocation of [sz] bytes that returned [p]. *)
Definition malloced (sz : Z) (s : kheap) (all : list nat) (fls : nat -> list Z) (p : Z) (s' : kheap) : Prop :=
  exists all' fls', hinv s' all' fls' /\ (forall j, some_used s' all' fls' j) /\ kept s all fls s' /\
  ((p = 0 /\ (forall a z, live s' all' fls' a z <-> live s all fls a z) /\
      (length all = 256%nat \/ exists n k', alloc_kpages n (pages s) = Ok (0, k'))) \/
   (exists z, sz <= z /\ PAGE_SIZE <= p /\ p mod 16 = 0 /\ (forall y, ~ live s all fls p y) /\
      forall a y, live s' all' fls' a y <-> live s all fls a y \/ (a = p /\ y = z))).

Lemma same_regions s all fls l k :
  hinv s all fls -> wf_words l -> (forall j, bit l j = bit (pagerefs_inuse s) j) -> kinv k -> kregions k = kregions (pages s) ->
  hinv (mk_kheap (pagerefs s) l (sizebases s) (allbase s) (mem s) k) all fls.
Proof.
  intros [] Hw Hb Hki Hk. constructor; cbn; try done.
  - intros i Hi. by rewrite Hb, hi_inuse0.
  - intros i e Hi He. destruct (hi_page0 i e Hi He). constructor; try done. by rewrite Hk.
Qed.

Lemma full_table s all fls :
  hinv s all fls -> (forall p, (p < 256)%nat -> bit (pagerefs_inuse s) p = true) -> length all = 256%nat.
Proof.
  intros Hi Hb. apply Nat.le_antisymm.
  - apply index_length; [apply (hi_nodup _ _ _ Hi)|]. intros i Hin. by eapply hinv_index.
  - rewrite <- (length_seq 256 0). apply submseteq_length, NoDup_submseteq; [apply NoDup_seq|].
    intros i Hin%elem_of_seq. apply (hi_inuse _ _ _ Hi); [lia|]. apply Hb. lia.
Qed.

(** The branch of [subpage_kmalloc] that makes a page. *)
Lemma fresh_page_run s all fls b p l P k :
  hinv s all fls -> 0 <= b < NSIZES -> (p < 256)%nat -> wf_words l -> bit (pagerefs_inuse s) p = false ->
  (forall j, bit l j = if decide (j = p) then true else bit (pagerefs_inuse s) j) ->
  P <> 0 -> kinv k -> kregions (pages s) !! P = None -> kregions k = <[P := 1]> (kregions (pages s)) ->
  exists q m e, rd (sizebases s) b = Ok q /\
    link_blocks (Z.to_nat (PAGE_SIZE / sz_of b - 1)) 1 P (sz_of b) P (store (mem s) P 0) =
      Ok (P + (PAGE_SIZE / sz_of b - 1) * sz_of b, m) /\
    e = mk_pr q (allbase s) (MKPAB P b) ((PAGE_SIZE / sz_of b - 1) * sz_of b) (PAGE_SIZE / sz_of b) /\
    new_page s all p P b l k m e.
Proof.
  intros Hinv Hb Hp Hw Hbit Hbits HP0 Hki Hnone Hreg. destruct (sz_of_bounds b Hb) as [Hs _].
  pose proof (sz_of_divides b Hb) as Hdiv. assert (kregions k !! P = Some 1) as HP by (by rewrite Hreg, lookup_insert_eq).
  destruct (kp_range _ _ _ Hki HP) as (H1 & H2 & _ & H4). set (n := PAGE_SIZE / sz_of b) in *.
  assert (2 <= n) as Hn by (unfold PAGE_SIZE in *; nia).
  destruct (hi_same _ _ _ Hinv b Hb) as (q & l0 & Hq & _). exists q.
  destruct (link_blocks_run P (sz_of b) (Z.to_nat (n - 1)) 1 (store (mem s) P 0)) as (m & Hrun & Hlinks & Hout);
    [lia|lia|unfold PAGE_SIZE in *; lia|rewrite Z2Nat.id by lia; nia|done|cbn|].
  { split; [|done]. unfold store. by rewrite (proj2 (Z.eqb_eq _ P)) by lia. }
  replace (1 - 1) with 0 in Hrun by lia. rewrite Z.mul_0_l, Z.add_0_r, Z2Nat.id in Hrun by lia.
  replace (Z.to_nat 1 + Z.to_nat (n - 1))%nat with (Z.to_nat n) in Hlinks by lia.
  destruct (mkpab P b) as [E1 E2]; [unfold PAGE_SIZE in *; lia|done|done|].
  exists m, (mk_pr q (allbase s) (MKPAB P b) ((n - 1) * sz_of b) n). split; [done|].
  split; [rewrite Hrun; do 2 f_equal; lia|]. split; [done|].
  constructor; try done.
  - intros Hin. apply (hi_inuse _ _ _ Hinv p Hp) in Hin. congruence.
  - constructor; cbn; unfold esz, PR_BLOCKTYPE, PR_PAGEADDR; cbn; rewrite ?E1, ?E2; try done.
    + rewrite length_blist. lia.
    + fold n. replace (Z.to_nat n) with (S (Z.to_nat (n - 1))) by lia. cbn [blist]. rewrite Z2Nat.id by lia. lia.
    + apply blist_NoDup. lia.
    + intros a Ha. apply blk_blist; [unfold PAGE_SIZE; lia|done].
  - intros x Hx. rewrite Hout by (rewrite Z2Nat.id by lia; nia). unfold store.
    destruct (Z.eqb_spec x P); [unfold PAGE_SIZE in *; lia|done].
Qed.

Lemma blk_aligned P b a : 0 <= b < NSIZES -> P mod PAGE_SIZE = 0 -> blk P (sz_of b) a -> a mod 16 = 0.
Proof.
  intros Hb HP (k & _ & ->). destruct (sz_of_bounds b Hb) as [_ Hs]. unfold PAGE_SIZE in HP.
  apply Z.mod_divide; [lia|]. apply Z.divide_add_r.
  - apply Z.mod_divide in HP as [x ->]; [|lia]. exists (x * 256). lia.
  - apply Z.mod_divide in Hs; [|lia]. by apply Z.divide_mul_r.
Qed.

(** Entering a page and taking its first block. *)
Lemma new_page_alloc s all fls b p l P k :
  hinv s all fls -> (forall j, some_used s all fls j) -> 0 <= b < NSIZES -> (p < 256)%nat -> wf_words l ->
  bit (pagerefs_inuse s) p = false -> (forall j, bit l j = if decide (j = p) then true else bit (pagerefs_inuse s) j) ->
  P <> 0 -> kinv k -> kregions (pages s) !! P = None -> kregions k = <[P := 1]> (kregions (pages s)) ->
  let s1 := set_pages k (set_inuse l s) in
  exists a s',
    ('(fl, m) ← link_blocks (Z.to_nat (PAGE_SIZE / sz_of b - 1)) 1 P (sz_of b) P (store (mem s1) P 0);
     let offset := u32 (fl - P) in
     _ ← c_assert (offset =? (PAGE_SIZE / sz_of b - 1) * sz_of b);
     let s := set_mem m s1 in
     q ← rd (sizebases s) b;
     s ← pr_wr p (mk_pr q (allbase s) (MKPAB P b) offset (PAGE_SIZE / sz_of b)) s;
     l ← wr (sizebases s) b (Some p);
     doalloc p (set_allbase (Some p) (set_sizebases l s))) = Ok (a, s') /\
    exists all' fls', hinv s' all' fls' /\ (forall j, some_used s' all' fls' j) /\ kept s all fls s' /\
      PAGE_SIZE <= a /\ a mod 16 = 0 /\ (forall y, ~ live s all fls a y) /\
      forall c y, live s' all' fls' c y <-> live s all fls c y \/ (c = a /\ y = sz_of b).
Proof.
  intros Hinv Hused Hb Hp Hw Hbit Hbits HP0 Hki Hnone Hreg s1.
  destruct (fresh_page_run s all fls b p l P k Hinv Hb Hp Hw Hbit Hbits HP0 Hki Hnone Hreg) as (q & m & e & Hq & Hlink & He & Hnp).
  pose proof (new_page_hinv s all fls p P b l k m e Hinv Hnp) as Hinv'.
  pose proof (new_page_live s all fls p P b l k m e) as Hlive. pose proof Hnp as [].
  destruct (sz_of_bounds b Hb) as [Hs _]. pose proof (sz_of_divides b Hb) as Hdiv. destruct (page_range _ _ _ _ np_page0) as (HP & HPm & HP').
  rewrite np_pageaddr0 in HP, HPm, HP'. set (n := PAGE_SIZE / sz_of b) in *. assert (2 <= n) by (unfold PAGE_SIZE in *; nia).
  assert (exists t, blist P (sz_of b) (Z.to_nat n) = (P + (n - 1) * sz_of b) :: t) as [t Ht].
  { replace (Z.to_nat n) with (S (Z.to_nat (n - 1))) by lia. cbn [blist]. rewrite Z2Nat.id by lia. by eexists. }
  destruct (doalloc_ok (entered s p P b l k m e) (p :: all) (fupd fls p (blist P (sz_of b) (Z.to_nat n))) p e
    (P + (n - 1) * sz_of b) t Hinv') as (s' & fls' & Hrun & Hi' & Hu' & Hm' & Hlive' & Hnew & Hblk).
  { left. }
  { cbn. apply list_lookup_insert_eq. by rewrite (hi_prs _ _ _ Hinv). }
  { by rewrite fupd_eq. }
  { intros j Hj ej Hin Hej. cbn in Hej. apply elem_of_cons in Hin as [?|Hin]; [done|].
    rewrite list_lookup_insert_ne in Hej by done. rewrite fupd_ne by done. by apply (Hused j). }
  unfold esz in Hblk, Hlive'. rewrite np_pageaddr0, np_blocktype0 in *.
  exists (P + (n - 1) * sz_of b), s'. split.
  - subst s1. cbn [mem set_pages set_inuse]. rewrite Hlink, Ok_bind. replace (P + (n - 1) * sz_of b - P) with ((n - 1) * sz_of b) by lia.
    rewrite u32_id, Z.eqb_refl by (unfold PAGE_SIZE, u32_mod in *; nia). cbn [c_assert]. rewrite Ok_bind.
    cbn [sizebases set_mem set_pages set_inuse allbase]. rewrite Hq, Ok_bind.
    destruct (lookup_lt_is_Some_2 (pagerefs s) p) as [e0 He0]; [by rewrite (hi_prs _ _ _ Hinv)|].
    rewrite (pr_wr_run p e0) by exact He0. rewrite Ok_bind, wr_in, Ok_bind by (cbn; rewrite (hi_bases _ _ _ Hinv); done).
    rewrite <- He. exact Hrun.
  - exists (p :: all), fls'. split; [done|]. split; [done|]. split; [|split; [nia|]].
    + intros c y x Hl Hx. rewrite Hm'. cbn. apply np_mem0. intros Hxp.
      destruct (live_region s all fls c y Hinv Hl) as (R & N & HR & HRc). assert (R <> P) by congruence.
      destruct (kp_disjoint R N P 1 k Hki); [by rewrite Hreg, lookup_insert_ne|by rewrite Hreg, lookup_insert_eq|done|lia|lia].
    + split; [by eapply blk_aligned|]. split.
      * intros y Hy. apply (Hnew y). by apply Hlive.
      * intros c y. rewrite Hlive'. by rewrite Hlive.
Qed.

Lemma subpage_kmalloc_ok sz s all fls :
  hinv s all fls -> (forall j, some_used s all fls j) -> 0 <= sz < LARGEST_SUBPAGE_SIZE ->
  exists p s', subpage_kmalloc sz s = Ok (p, s') /\ malloced sz s all fls p s'.
Proof.
  intros Hinv Hused Hsz. destruct (blocktype_run sz Hsz) as (b & Hbt & Hb & Hle). unfold subpage_kmalloc.
  rewrite Hbt, Ok_bind, block_size_run, Ok_bind by done.
  destruct (hi_same _ _ _ Hinv b Hb) as (q & l & Hq & Hseg & Hnd & Hl). cbn in Hq. rewrite Hq, Ok_bind.
  assert (length l <= 256)%nat as Hlen.
  { apply index_length; [done|]. intros i Hi. apply Hl in Hi as [Hi _]. by eapply hinv_index. }
  destruct (find_free_run s b l (Z.to_nat NPAGEREFS) q Hseg Hlen) as [(i & e & -> & Hi & He & Hnf)| ->].
  { intros i e Hi He. apply Hl in Hi as [_ (e' & He' & <-)]. congruence. }
  - rewrite Ok_bind. apply Hl in Hi as [Hi (e' & He' & Ht)]. assert (e' = e) as -> by congruence.
    pose proof (hi_page _ _ _ Hinv i e Hi He) as Hp. rewrite (po_nfree _ _ _ _ Hp) in Hnf.
    destruct (fls i) as [|a t] eqn:Hfl; [cbn in Hnf; lia|].
    destruct (doalloc_ok s all fls i e a t Hinv Hi He Hfl ltac:(auto)) as (s' & fls' & Hrun & Hi' & Hu' & Hm & Hlive & Hnew & Hblk).
    exists a, s'. split; [done|]. exists all, fls'. split; [done|]. split; [done|].
    split; [by intros ? ? ? _ _; rewrite Hm|]. right. exists (esz e). destruct (page_range _ _ _ _ Hp) as (HP & HPm & _).
    destruct (esz_bounds _ _ _ _ Hp) as [Hs _]. pose proof (blk_in _ _ _ ltac:(instantiate (1 := esz e); lia) Hblk).
    split; [unfold esz; congruence|]. split; [lia|]. split; [by eapply blk_aligned; [|done|exact Hblk]; apply (po_type _ _ _ _ Hp)|].
    done.
  - rewrite Ok_bind. unfold allocpageref.
    destruct (inuse_words_run (pagerefs_inuse s) (Z.to_nat INUSE_WORDS) 0 (hi_words _ _ _ Hinv) eq_refl)
      as [(p & l' & -> & Hp & Hw & Hbit & Hbits)|[-> Hfull]]; rewrite Ok_bind; cbn beta iota; rewrite Ok_bind.
    2: { exists 0, s. split; [done|]. exists all, fls. split; [done|]. split; [done|]. split; [by intros ?|]. left.
      split; [done|]. split; [done|]. left. eapply full_table; [done|]. intros j Hj. apply Hfull. lia. }
    cbn [pages set_inuse].
    destruct (kp_alloc 1 (pages s) (hi_kinv _ _ _ Hinv) ltac:(lia)) as (P & k & Halloc & Hki & [[-> Hk]|(HP0 & Hnone & Hreg)]); rewrite Halloc, Ok_bind.
    + cbn [Z.eqb]. destruct (freepageref_run p (set_pages k (set_inuse l' s)) Hw Hp) as (l2 & -> & Hw2 & Hb2).
      { cbn. by rewrite Hbits, decide_True. }
      rewrite Ok_bind. exists 0. eexists. split; [done|]. exists all, fls. split.
      { apply (same_regions s all fls l2 k); try done. intros j. rewrite Hb2. cbn. rewrite Hbits. case_decide; congruence. }
      split; [done|]. split; [by intros ?|]. left. split; [done|]. split; [|right; by exists 1, k].
      intros a z. unfold live. cbn. by rewrite Hk.
    + destruct (new_page_alloc s all fls b p l' P k Hinv Hused Hb Hp Hw Hbit Hbits HP0 Hki Hnone Hreg) as (a & s' & Hrun & Hm).
      exists a, s'. rewrite (proj2 (Z.eqb_neq P 0)) by done. split; [exact Hrun|].
      destruct Hm as (all' & fls' & ? & ? & ? & ? & ? & ? & ?).
      exists all', fls'. split; [done|]. split; [done|]. split; [done|]. right. by exists (sz_of b).
Qed.

Lemma live_pos s all fls a z : hinv s all fls -> live s all fls a z -> 0 < z /\ PAGE_SIZE <= a.
Proof.
  intros [] [(i & e & Hi & He & Hb & _ & ->)|(n & Hn & _ & ->)].
  - pose proof (hi_page0 i e Hi He) as Hp. destruct (esz_bounds _ _ _ _ Hp) as [Hs _].
    destruct (page_range _ _ _ _ Hp) as [HP _]. apply blk_in in Hb; lia.
  - destruct (kp_range _ _ _ hi_kinv0 Hn) as (HP & _ & H1 & _). unfold PAGE_SIZE in *. lia.
Qed.

(** A block of pages of its own. *)
Lemma big_alloc s all fls sz :
  hinv s all fls -> (forall j, some_used s all fls j) -> LARGEST_SUBPAGE_SIZE <= sz -> sz + PAGE_SIZE <= u32_mod ->
  exists p s', kmalloc sz s = Ok (p, s') /\ malloced sz s all fls p s'.
Proof.
  intros Hinv Hused Hsz Hmax. unfold kmalloc. rewrite Z.geb_leb, (proj2 (Z.leb_le _ _)) by done.
  unfold LARGEST_SUBPAGE_SIZE, PAGE_SIZE in Hsz, Hmax. rewrite u32_id by (unfold u32_mod, PAGE_SIZE in *; lia).
  set (n := (sz + PAGE_SIZE - 1) / PAGE_SIZE). assert (1 <= n /\ sz <= n * PAGE_SIZE) as [Hn Hnsz].
  { pose proof (Z.div_mod (sz + PAGE_SIZE - 1) PAGE_SIZE ltac:(done)) as Hd.
    pose proof (Z.mod_pos_bound (sz + PAGE_SIZE - 1) PAGE_SIZE ltac:(done)). fold n in Hd. unfold PAGE_SIZE in *. lia. }
  destruct (kp_alloc n (pages s) (hi_kinv _ _ _ Hinv) Hn) as (a & k & Halloc & Hki & [[-> Hk]|(Ha0 & Hnone & Hk)]); rewrite Halloc, Ok_bind.
  - exists 0. eexists. split; [done|]. exists all, fls.
    split; [by apply (same_regions s all fls (pagerefs_inuse s) k); [|apply (hi_words _ _ _ Hinv)|..]|].
    split; [done|]. split; [by intros ?|]. left. split; [done|]. split; [|right; by exists n, k].
    intros b z. unfold live. cbn. by rewrite Hk.
  - assert (kregions k !! a = Some n) as Hka by (by rewrite Hk, lookup_insert_eq).
    destruct (kp_range _ _ _ Hki Hka) as (HP & HPm & _ & _). exists a. eexists. split; [done|]. exists all, fls. split.
    { destruct Hinv. constructor; cbn; try done. intros i e Hi He. destruct (hi_page0 i e Hi He). constructor; try done.
      rewrite Hk, lookup_insert_ne; [done|congruence]. }
    split; [done|]. split; [by intros ?|]. right. exists (n * PAGE_SIZE). split; [done|]. split; [done|]. split_and!.
    + apply Z.mod_divide in HPm as [x ->]; [|done]. apply Z.mod_divide; [done|]. exists (x * 256). unfold PAGE_SIZE. lia.
    + intros y Hy. destruct (live_region s all fls a y Hinv Hy) as (R & N & HR & Hr1 & Hr2).
      destruct (live_pos s all fls a y Hinv Hy) as [Hy0 _]. assert (R <> a) by congruence.
      destruct (kp_disjoint R N a n k Hki); [by rewrite Hk, lookup_insert_ne|done|done|lia|unfold PAGE_SIZE in *; lia].
    + intros b y. unfold live. cbn. rewrite Hk. split.
      * intros [Hl|(n' & Hn' & Hnp & ->)]; [by left; left|].
        apply lookup_insert_Some in Hn' as [[<- <-]|[_ Hn']]; [by right|]. left. right. by exists n'.
      * intros [[Hl|(n' & Hn' & Hnp & ->)]|[-> ->]]; [by left| |].
        -- right. exists n'. rewrite lookup_insert_ne by congruence. done.
        -- right. exists n. rewrite lookup_insert_eq. split; [done|]. split; [|done]. intros i e Hi He E.
           pose proof (po_region _ _ _ _ (hi_page _ _ _ Hinv i e Hi He)). congruence.
Qed.

(** ** Freeing *)

(** The state after [a] was put back on the free list of page [i]. *)
Definition put_back (s : kheap) (i : nat) (e : pageref) (a : Z) : kheap :=
  set_pagerefs (<[i := mk_pr (next_samesize e) (next_all e) (pageaddr_and_blocktype e) (a - PR_PAGEADDR e) (nfree e + 1)]>
    (pagerefs s))
    (set_mem (store (fill_deadbeef (Z.to_nat (esz e / 4)) a (mem s)) a
      (if freelist_offset e =? INVALID_OFFSET then 0 else PR_PAGEADDR e + freelist_offset e)) s).

Lemma put_back_out s i e a x : 0 < esz e -> ~ (a <= x < a + esz e) -> mem (put_back s i e a) x = mem s x.
Proof.
  intros Hs Hx. cbn. unfold store. destruct (Z.eqb_spec x a); [lia|]. apply fill_deadbeef_out.
  pose proof (Z.mul_div_le (esz e) 4). rewrite Z2Nat.id by (apply Z.div_pos; lia). lia.
Qed.

Lemma put_back_page s all fls i e a :
  hinv s all fls -> i ∈ all -> pagerefs s !! i = Some e -> blk (PR_PAGEADDR e) (esz e) a -> a ∉ fls i ->
  page_ok (mem (put_back s i e a)) (pages s)
    (mk_pr (next_samesize e) (next_all e) (pageaddr_and_blocktype e) (a - PR_PAGEADDR e) (nfree e + 1)) (a :: fls i).
Proof.
  intros Hinv Hi He Hb Hn. pose proof (hi_page _ _ _ Hinv i e Hi He) as Hp. destruct (esz_bounds _ _ _ _ Hp) as [Hs _]. destruct Hp.
  constructor; try done.
  - cbn [nfree length]. lia.
  - cbn [links]. split.
    + cbn. unfold store. rewrite Z.eqb_refl, po_head0. destruct (fls i) as [|b t]; cbn [hd]; [done|].
      rewrite (proj2 (Z.eqb_neq _ INVALID_OFFSET)); [lia|].
      specialize (po_blk0 b ltac:(left)). apply blk_in in po_blk0; [|lia]. unfold INVALID_OFFSET, PAGE_SIZE in *. lia.
    + revert po_links0. apply links_ext. intros b Hb'. apply put_back_out; [lia|].
      assert (b <> a) by (intros ->; done). destruct (blk_disjoint _ _ b a ltac:(instantiate (1 := esz e); lia) (po_blk0 b Hb') Hb); lia || done.
  - by constructor.
  - intros b [->|Hb']%elem_of_cons; [done|by apply po_blk0].
Qed.

Lemma put_back_hinv s all fls i e a :
  hinv s all fls -> i ∈ all -> pagerefs s !! i = Some e -> blk (PR_PAGEADDR e) (esz e) a -> a ∉ fls i ->
  hinv (put_back s i e a) all (fupd fls i (a :: fls i)).
Proof.
  intros Hinv Hi He Hb Hn. pose proof (hi_page _ _ _ Hinv i e Hi He) as Hp. destruct (esz_bounds _ _ _ _ Hp) as [Hs _].
  eapply refit_hinv; [done|done|done|done|by apply (put_back_page s all)|].
  intros j b Hj Hne Hbj. apply (put_back_out s i e a); [lia|]. intros Hbr.
  destruct (hinv_lookup s all fls j Hinv Hj) as [ej Hej]. pose proof (hi_page _ _ _ Hinv j ej Hj Hej) as Hpj.
  apply Hne. eapply (same_block s all fls j i ej e b); try done; [by apply (po_blk _ _ _ _ Hpj)|].
  apply blk_in in Hb; lia.
Qed.

Lemma put_back_live s all fls i e a b y :
  hinv s all fls -> i ∈ all -> pagerefs s !! i = Some e -> blk (PR_PAGEADDR e) (esz e) a ->
  live (put_back s i e a) all (fupd fls i (a :: fls i)) b y <-> live s all fls b y /\ b <> a.
Proof.
  intros Hinv Hi He Hb. pose proof (hi_page _ _ _ Hinv i e Hi He) as Hp. destruct (esz_bounds _ _ _ _ Hp) as [Hs _].
  unfold put_back. rewrite (refit_live s all fls i e) by done. case_decide as Hr.
  - rewrite (live_page s all fls i e) by done. rewrite not_elem_of_cons. tauto.
  - split; [|by intros [? _]]. intros Hl. split; [done|]. intros ->. apply blk_in in Hb; lia.
Qed.

(** [e'] is [e] up to its links. *)
Definition relinked (e e' : pageref) : Prop :=
  pageaddr_and_blocktype e' = pageaddr_and_blocktype e /\ freelist_offset e' = freelist_offset e /\ nfree e' = nfree e.

Lemma relinked_page m k e e' fl : relinked e e' -> page_ok m k e fl -> page_ok m k e' fl.
Proof.
  intros (H1 & H2 & H3) []. assert (PR_PAGEADDR e' = PR_PAGEADDR e) as E by (unfold PR_PAGEADDR; by rewrite H1).
  assert (PR_BLOCKTYPE e' = PR_BLOCKTYPE e) as E' by (unfold PR_BLOCKTYPE; by rewrite H1).
  constructor; unfold esz in *; rewrite ?E, ?E', ?H2, ?H3; done.
Qed.

(** The state after page reference [i] left the lists. *)
Record removed (s : kheap) (all : list nat) (i : nat) (s' : kheap) (all' : list nat) : Prop := mk_removed {
  re_elem j : j ∈ all' <-> j ∈ all /\ j <> i;
  re_nodup : NoDup all';
  re_all : seg All (pagerefs s') (allbase s') all';
  re_same b : 0 <= b < NSIZES -> exists p l, base (Same b) s' = Ok p /\ seg (Same b) (pagerefs s') p l /\ NoDup l /\
    forall j, j ∈ l <-> j ∈ all' /\ exists e, pagerefs s' !! j = Some e /\ PR_BLOCKTYPE e = b;
  re_entry j e : pagerefs s !! j = Some e -> exists e', pagerefs s' !! j = Some e' /\ relinked e e';
  re_len : length (pagerefs s') = length (pagerefs s);
  re_inuse : pagerefs_inuse s' = pagerefs_inuse s;
  re_mem : mem s' = mem s;
  re_pages : pages s' = pages s;
  re_bases : length (sizebases s') = length (sizebases s);
}.

Lemma NoDup_remove_elem {A} (l1 l2 : list A) x : NoDup (l1 ++ x :: l2) ->
  NoDup (l1 ++ l2) /\ forall y, y ∈ l1 ++ l2 <-> y ∈ l1 ++ x :: l2 /\ y <> x.
Proof.
  intros Hnd. rewrite <- Permutation_middle in Hnd. apply list.NoDup_cons in Hnd as [Hx Hnd]. split; [done|].
  intros y. rewrite <- Permutation_middle, elem_of_cons. split; [|naive_solver]. intros Hy. split; [by right|]. by intros ->.
Qed.

Lemma only_links_entry c (s s' : kheap) k e :
  only_links c s s' -> pagerefs s !! k = Some e -> exists q, pagerefs s' !! k = Some (set_next c q e).
Proof. intros [] Hk. by apply ol_entry0. Qed.

Lemma remove_lists_run s all fls i e :
  hinv s all fls -> i ∈ all -> pagerefs s !! i = Some e ->
  exists s' all', remove_lists i (PR_BLOCKTYPE e) s = Ok s' /\ removed s all i s' all'.
Proof.
  intros Hinv Hi He. pose proof Hinv as []. pose proof (po_type _ _ _ _ (hi_page0 i e Hi He)) as Ht.
  set (bt := PR_BLOCKTYPE e) in *. unfold remove_lists.
  rewrite Z.geb_leb, (proj2 (Z.leb_le 0 _)), (proj2 (Z.ltb_lt _ NSIZES)) by lia. cbn [andb c_assert]. rewrite Ok_bind.
  destruct (hi_same0 bt Ht) as (p & l & Hp & Hseg & Hnd & Hl).
  assert (i ∈ l) as Hil by (apply Hl; split; [done|]; by exists e). apply list_elem_of_split in Hil as (l1 & l2 & ->).
  assert (forall l0, NoDup l0 -> (forall j, j ∈ l0 -> j ∈ all) -> (length l0 <= 256)%nat) as Hlen.
  { intros l0 Hn0 Hsub. apply index_length; [done|]. intros j Hj. by eapply hinv_index; [|apply Hsub]. }
  pose proof (Hlen _ Hnd ltac:(intros j Hj; by apply Hl in Hj as [? _])) as Hlen1. rewrite length_app in Hlen1. cbn in Hlen1.
  destruct (unlink_ok (Same bt) i l1 l2 p s Hp Hseg Hnd ltac:(lia)) as (s1 & p1 & -> & Hol1 & Hp1 & Hseg1 & Hrest1).
  rewrite Ok_bind. assert (seg All (pagerefs s1) (allbase s1) all) as Hall1.
  { assert (base All s1 = base All s) as [= ->] by (by apply (ol_base _ _ _ Hol1)). revert hi_all0. apply seg_ext.
    intros k ek _ Hek. destruct (only_links_entry _ _ _ _ _ Hol1 Hek) as [q Hq]. by eexists. }
  apply list_elem_of_split in Hi as Hsplit. destruct Hsplit as (a1 & a2 & Ea). subst all.
  pose proof (Hlen _ hi_nodup0 ltac:(done)) as Hlen2. rewrite length_app in Hlen2. cbn in Hlen2.
  destruct (unlink_ok All i a1 a2 (allbase s1) s1 eq_refl Hall1 hi_nodup0 ltac:(lia)) as (s2 & p2 & -> & Hol2 & Hp2 & Hseg2 & _).
  exists s2, (a1 ++ a2). split; [done|].
  destruct (NoDup_remove_elem _ _ _ hi_nodup0) as [Hnd' Hel]. destruct (NoDup_remove_elem _ _ _ Hnd) as [Hndl Hell].
  assert (forall j ej, pagerefs s !! j = Some ej -> exists e', pagerefs s2 !! j = Some e' /\ relinked ej e') as Hentry.
  { intros j ej Hej. destruct (only_links_entry _ _ _ _ _ Hol1 Hej) as [q Hq].
    destruct (only_links_entry _ _ _ _ _ Hol2 Hq) as [q' Hq']. by eexists. }
  assert (forall j b, (exists ej, pagerefs s !! j = Some ej /\ PR_BLOCKTYPE ej = b) <->
    exists ej, pagerefs s2 !! j = Some ej /\ PR_BLOCKTYPE ej = b) as Htype.
  { intros j b. split.
    - intros (ej & Hej & <-). destruct (Hentry j ej Hej) as (e' & He' & Hr & _). exists e'. split; [done|].
      unfold PR_BLOCKTYPE. by rewrite Hr.
    - intros (e' & He' & <-). destruct (lookup_lt_is_Some_2 (pagerefs s) j) as [ej Hej].
      { apply lookup_lt_Some in He'. by rewrite (ol_len _ _ _ Hol2), (ol_len _ _ _ Hol1) in He'. }
      destruct (Hentry j ej Hej) as (e2 & He2 & Hr & _). exists ej. split; [done|]. unfold PR_BLOCKTYPE.
      assert (e' = e2) as -> by congruence. by rewrite Hr. }
  assert (forall b p0 l0, seg (Same b) (pagerefs s1) p0 l0 -> seg (Same b) (pagerefs s2) p0 l0) as Hframe2.
  { intros b p0 l0. apply seg_ext. intros k ek _ Hek. destruct (only_links_entry _ _ _ _ _ Hol2 Hek) as [q Hq]. by eexists. }
  constructor; try done.
  - cbn in Hp2. by injection Hp2 as ->.
  - intros b Hb. destruct (decide (b = bt)) as [->|Hne].
    + exists p1, (l1 ++ l2). rewrite (ol_base _ _ _ Hol2) by done. split; [done|]. split; [by apply Hframe2|]. split; [done|].
      intros j. rewrite Hell, Hl, Hel, Htype. tauto.
    + destruct (hi_same0 b Hb) as (pb & lb & Hpb & Hsb & Hnb & Hlb). exists pb, lb.
      rewrite (ol_base _ _ _ Hol2), (ol_base _ _ _ Hol1) by congruence. split; [done|].
      assert (forall k, k ∈ lb -> k ∉ l1 ++ i :: l2) as Hdiff.
      { intros k Hk Hk'. apply Hlb in Hk as (_ & ek & Hek & <-). apply Hl in Hk' as (_ & ek' & Hek' & Ek). congruence. }
      split; [apply Hframe2; revert Hsb; apply seg_ext|].
      { intros k ek Hk Hek. exists ek. split; [|done]. apply Hrest1; [|done]. intros Hk1. apply (Hdiff k Hk), elem_of_app. by left. }
      split; [done|]. intros j. rewrite Hlb, Hel, Htype. split; [|tauto]. intros [Hj Hty]. split; [|done]. split; [done|].
      intros ->. apply (Hdiff i); [|apply elem_of_app; right; left]. apply Hlb. split; [done|]. by apply Htype.
  - by rewrite (ol_len _ _ _ Hol2), (ol_len _ _ _ Hol1).
  - by rewrite (ol_inuse _ _ _ Hol2), (ol_inuse _ _ _ Hol1).
  - by rewrite (ol_mem _ _ _ Hol2), (ol_mem _ _ _ Hol1).
  - by rewrite (ol_pages _ _ _ Hol2), (ol_pages _ _ _ Hol1).
  - by rewrite (ol_bases _ _ _ Hol2), (ol_bases _ _ _ Hol1).
Qed.

Lemma relinked_fields e e' : relinked e e' -> PR_PAGEADDR e' = PR_PAGEADDR e /\ esz e' = esz e.
Proof. intros (H1 & _). unfold esz, PR_PAGEADDR, PR_BLOCKTYPE. by rewrite H1. Qed.

(** Entries before and after the removal. *)
Lemma removed_entry s all fls i s' all' j e' :
  hinv s all fls -> removed s all i s' all' -> j ∈ all' -> pagerefs s' !! j = Some e' ->
  exists e, j ∈ all /\ j <> i /\ pagerefs s !! j = Some e /\ relinked e e'.
Proof.
  intros Hinv Hr Hj He'. apply (re_elem _ _ _ _ _ Hr) in Hj as [Hj Hne].
  destruct (hinv_lookup s all fls j Hinv Hj) as [e He]. destruct (re_entry _ _ _ _ _ Hr j e He) as (e2 & He2 & Hre).
  exists e. assert (e' = e2) as -> by congruence. done.
Qed.

Lemma removed_hinv s all fls i e s' all' l k :
  hinv s all fls -> i ∈ all -> pagerefs s !! i = Some e -> removed s all i s' all' ->
  kinv k -> kregions k = delete (PR_PAGEADDR e) (kregions (pages s)) -> wf_words l ->
  (forall j, bit l j = if decide (j = i) then false else bit (pagerefs_inuse s) j) ->
  hinv (set_inuse l (set_pages k s')) all' fls.
Proof.
  intros Hinv Hi He Hr Hki Hk Hw Hb. pose proof (removed_entry s all fls i s' all') as Hent. pose proof Hr as []. pose proof Hinv as [].
  constructor; cbn; try done.
  - by rewrite re_len0.
  - by rewrite re_bases0.
  - intros j Hj. rewrite Hb, re_elem0. case_decide; [naive_solver|]. rewrite hi_inuse0 by done. tauto.
  - intros j ej Hj Hej. destruct (Hent j ej Hinv Hr Hj Hej) as (e0 & Hja & Hne & He0 & Hre).
    eapply relinked_page; [done|]. rewrite re_mem0. destruct (hi_page0 j e0 Hja He0). constructor; try done.
    rewrite Hk, lookup_delete_ne; [done|]. intros E. apply Hne. by eapply hi_inj0.
  - intros j j' ej ej' Hj Hj' Hej Hej' E. destruct (Hent j ej Hinv Hr Hj Hej) as (e0 & Hja & Hne & He0 & Hre).
    destruct (Hent j' ej' Hinv Hr Hj' Hej') as (e1 & Hja' & Hne' & He1 & Hre').
    destruct (relinked_fields _ _ Hre) as [E0 _]. destruct (relinked_fields _ _ Hre') as [E1 _].
    apply (hi_inj0 j j' e0 e1); congruence.
Qed.

Lemma removed_live s all fls i e s' all' l k b y :
  hinv s all fls -> i ∈ all -> pagerefs s !! i = Some e -> removed s all i s' all' ->
  kregions k = delete (PR_PAGEADDR e) (kregions (pages s)) -> (forall a, blk (PR_PAGEADDR e) (esz e) a -> a ∈ fls i) ->
  live (set_inuse l (set_pages k s')) all' fls b y <-> live s all fls b y.
Proof.
  intros Hinv Hi He Hr Hk Hfull. pose proof (removed_entry s all fls i s' all') as Hent. pose proof Hr as []. split.
  - intros [(j & ej & Hj & Hej & Hb & Hn & ->)|(n & Hn & Hnp & ->)]; cbn in *.
    + destruct (Hent j ej Hinv Hr Hj Hej) as (e0 & Hja & _ & He0 & Hre). destruct (relinked_fields _ _ Hre) as [E1 E2].
      left. exists j, e0. rewrite <- E1, <- E2. done.
    + rewrite Hk in Hn. apply lookup_delete_Some in Hn as [Hne Hn]. right. exists n. split; [done|]. split; [|done].
      intros j ej Hj Hej. destruct (decide (j = i)) as [->|Hji]; [congruence|].
      destruct (re_entry0 j ej Hej) as (e' & He' & Hre). destruct (relinked_fields _ _ Hre) as [<- _].
      apply (Hnp j); [by apply re_elem0|done].
  - intros [(j & ej & Hj & Hej & Hb & Hn & ->)|(n & Hn & Hnp & ->)].
    + assert (j <> i) as Hji by (intros ->; assert (ej = e) as -> by congruence; by apply Hfull in Hb).
      destruct (re_entry0 j ej Hej) as (e' & He' & Hre). destruct (relinked_fields _ _ Hre) as [E1 E2].
      left. exists j, e'. cbn. rewrite E1, E2. split; [by apply re_elem0|done].
    + right. exists n. cbn. rewrite Hk, lookup_delete_ne by (by apply (Hnp i)). split; [done|]. split; [|done].
      intros j ej Hj Hej. destruct (Hent j ej Hinv Hr Hj Hej) as (e0 & Hja & _ & He0 & Hre).
      destruct (relinked_fields _ _ Hre) as [-> _]. by apply (Hnp j).
Qed.

(** A page whose free list has as many elements as it has blocks is free. *)
Lemma full_page m k e fl : page_ok m k e fl -> zlen fl = PAGE_SIZE / esz e ->
  forall a, blk (PR_PAGEADDR e) (esz e) a -> a ∈ fl.
Proof.
  intros Hp Hl a Ha. destruct (esz_bounds _ _ _ _ Hp) as [Hs _]. destruct Hp.
  apply blk_blist in Ha; [|unfold PAGE_SIZE; lia].
  assert (fl ≡ₚ blist (PR_PAGEADDR e) (esz e) (Z.to_nat (PAGE_SIZE / esz e))) as ->; [|done].
  apply submseteq_length_Permutation; [|rewrite length_blist; lia].
  apply NoDup_submseteq; [done|]. intros b Hb. apply blk_blist; [unfold PAGE_SIZE; lia|by apply po_blk0].
Qed.

(** What freeing block [a] means. *)
Definition freed (s : kheap) (all : list nat) (fls : nat -> list Z) (a : Z) (s' : kheap) : Prop :=
  exists all' fls', hinv s' all' fls' /\ (forall j, some_used s' all' fls' j) /\
    (forall b y, live s' all' fls' b y <-> live s all fls b y /\ b <> a) /\
    forall b y x, live s all fls b y -> b <> a -> b <= x < b + y -> mem s' x = mem s x.

(** The end of [subpage_kfree], after the block is back on its list. *)
Lemma put_back_end s all fls i e a :
  hinv s all fls -> (forall j, some_used s all fls j) -> i ∈ all -> pagerefs s !! i = Some e ->
  blk (PR_PAGEADDR e) (esz e) a -> a ∉ fls i ->
  exists s', (_ ← c_assert (nfree e + 1 <=? PAGE_SIZE / esz e);
    if nfree e + 1 =? PAGE_SIZE / esz e then
      s ← remove_lists i (PR_BLOCKTYPE e) (put_back s i e a);
      k ← free_kpages (PR_PAGEADDR e) (pages s);
      s ← freepageref i (set_pages k s);
      Ok (0, s)
    else Ok (0, put_back s i e a)) = Ok (0, s') /\ freed s all fls a s'.
Proof.
  intros Hinv Hused Hi He Hb Hn. pose proof (hi_page _ _ _ Hinv i e Hi He) as Hp. destruct (esz_bounds _ _ _ _ Hp) as [Hs _].
  pose proof (put_back_page s all fls i e a Hinv Hi He Hb Hn) as Hp1. set (e1 := mk_pr _ _ _ _ _) in Hp1.
  pose proof (put_back_hinv s all fls i e a Hinv Hi He Hb Hn) as Hinv1.
  assert (esz e1 = esz e) as Es by done. assert (PR_PAGEADDR e1 = PR_PAGEADDR e) as EP by done.
  pose proof (fl_length _ _ _ _ Hp1) as Hlen. rewrite Es in Hlen. cbn [length] in Hlen. rewrite (po_nfree _ _ _ _ Hp).
  rewrite (proj2 (Z.leb_le _ _)) by lia. cbn [c_assert]. rewrite Ok_bind.
  assert (pagerefs (put_back s i e a) !! i = Some e1) as He1 by (apply list_lookup_insert_eq; by eapply lookup_lt_Some).
  assert (forall b y x, live s all fls b y -> b <> a -> b <= x < b + y -> mem (put_back s i e a) x = mem s x) as Hmem.
  { intros b y x Hlb Hne Hx. apply put_back_out; [lia|]. destruct (live_disjoint s all fls b y a (esz e) Hinv Hlb) as [?|?];
      [left; by exists i, e|done|lia|lia]. }
  assert (forall j, j <> i -> some_used (put_back s i e a) all (fupd fls i (a :: fls i)) j) as Hothers.
  { intros j Hj ej Hja Hej. cbn in Hej. rewrite list_lookup_insert_ne in Hej by done. rewrite fupd_ne by done. by apply (Hused j). }
  destruct (Z.eqb_spec (zlen (fls i) + 1) (PAGE_SIZE / esz e)) as [Hfull|Hnf].
  - change (PR_BLOCKTYPE e) with (PR_BLOCKTYPE e1).
    destruct (remove_lists_run _ _ _ i e1 Hinv1 Hi He1) as (s2 & all' & -> & Hr). rewrite Ok_bind.
    pose proof (po_region _ _ _ _ Hp1) as Hreg. rewrite <- EP.
    destruct (kp_free _ _ _ (hi_kinv _ _ _ Hinv) Hreg) as (k & Hk & Hki & Hkr). rewrite (re_pages _ _ _ _ _ Hr). cbn [pages put_back set_pagerefs set_mem].
    rewrite Hk, Ok_bind. destruct (freepageref_run i (set_pages k s2)) as (l & -> & Hw & Hbits).
    { cbn. rewrite (re_inuse _ _ _ _ _ Hr). apply (hi_words _ _ _ Hinv). }
    { by eapply hinv_index. }
    { cbn. rewrite (re_inuse _ _ _ _ _ Hr). apply (hi_inuse _ _ _ Hinv); [by eapply hinv_index|done]. }
    cbn in Hbits. rewrite (re_inuse _ _ _ _ _ Hr) in Hbits. rewrite Ok_bind. eexists. split; [done|].
    exists all', (fupd fls i (a :: fls i)). split; [by eapply removed_hinv|]. split; [|split].
    + intros j ej Hj Hej. destruct (removed_entry _ _ _ _ _ _ _ _ Hinv1 Hr Hj Hej) as (e0 & Hja & Hne & He0 & Hre).
      destruct (relinked_fields _ _ Hre) as [_ ->]. by apply (Hothers j Hne).
    + intros b y. rewrite (removed_live _ _ _ i e1 s2 all' l k b y Hinv1 Hi He1 Hr Hkr); [by apply put_back_live|].
      rewrite fupd_eq. eapply full_page; [exact Hp1|]. rewrite Es. cbn [length]. lia.
    + intros b y x Hlb Hne Hx. cbn. rewrite (re_mem _ _ _ _ _ Hr). by eapply Hmem.
  - eexists. split; [done|]. exists all, (fupd fls i (a :: fls i)). split; [done|]. split; [|split; [|done]].
    + intros j. destruct (decide (j = i)) as [->|Hne]; [|by apply Hothers]. intros ej _ Hej.
      assert (ej = e1) as -> by congruence. rewrite fupd_eq, Es. cbn [length]. lia.
    + intros b y. by apply put_back_live.
Qed.

Lemma subpage_kfree_ok s all fls i e a :
  hinv s all fls -> (forall j, some_used s all fls j) -> i ∈ all -> pagerefs s !! i = Some e ->
  blk (PR_PAGEADDR e) (esz e) a -> a ∉ fls i ->
  exists s', subpage_kfree a s = Ok (0, s') /\ freed s all fls a s'.
Proof.
  intros Hinv Hused Hi He Hb Hn. pose proof (hi_page _ _ _ Hinv i e Hi He) as Hp. destruct (esz_bounds _ _ _ _ Hp) as [Hs _].
  destruct (page_range _ _ _ _ Hp) as (HP & _ & HP'). pose proof (blk_in _ _ _ ltac:(instantiate (1 := esz e); lia) Hb) as Hin.
  destruct (put_back_end s all fls i e a Hinv Hused Hi He Hb Hn) as (s' & Hrun & Hf). exists s'. split; [|done]. unfold subpage_kfree.
  destruct (find_page_run s all fls a all (Z.to_nat NPAGEREFS) (allbase s) Hinv (hi_all _ _ _ Hinv)) as
    [(j & ej & -> & Hj & Hej & Hr)|[_ Hno]]; [done| | |].
  - apply index_length; [apply (hi_nodup _ _ _ Hinv)|]. intros j Hj. by eapply hinv_index.
  - assert (i = j) as <- by (by eapply same_block). assert (ej = e) as -> by congruence.
    rewrite Ok_bind, (pr_rd_run i e s He), !Ok_bind, block_size_run, Ok_bind by apply (po_type _ _ _ _ Hp). fold (esz e).
    rewrite (u32_id (a - PR_PAGEADDR e)) by (unfold u32_mod, PAGE_SIZE in *; lia).
    rewrite Z.geb_leb, (proj2 (Z.leb_gt PAGE_SIZE (a - PR_PAGEADDR e))) by lia.
    assert ((a - PR_PAGEADDR e) mod esz e = 0) as ->.
    { destruct Hb as (k & _ & ->). rewrite Z.add_simpl_l. apply Z.mod_mul. lia. }
    cbn [Z.eqb negb orb]. rewrite (u32_id (PR_PAGEADDR e + _)) by (unfold u32_mod, PAGE_SIZE in *; lia).
    rewrite (pr_wr_run i e) by exact He. rewrite Ok_bind, <- Hrun. unfold put_back. cbn [pagerefs set_mem].
    replace (PR_PAGEADDR e + (a - PR_PAGEADDR e)) with a by lia.
    rewrite (po_head _ _ _ _ Hp). destruct (fls i) as [|b t] eqn:Hfl; [done|].
    assert (blk (PR_PAGEADDR e) (esz e) b) as Hbb by (apply (po_blk _ _ _ _ Hp); left). apply blk_in in Hbb; [|lia].
    by rewrite (u32_id (PR_PAGEADDR e + (b - PR_PAGEADDR e))) by (unfold u32_mod, PAGE_SIZE in *; lia).
  - exfalso. apply (Hno i e Hi He). lia.
Qed.

Lemma kfree_ok s all fls a z :
  hinv s all fls -> (forall j, some_used s all fls j) -> live s all fls a z ->
  exists s', kfree a s = Ok s' /\ freed s all fls a s'.
Proof.
  intros Hinv Hused Hl. pose proof (live_pos _ _ _ _ _ Hinv Hl) as [_ Ha]. unfold kfree.
  rewrite (proj2 (Z.eqb_neq a 0)) by (unfold PAGE_SIZE in *; lia).
  destruct Hl as [(i & e & Hi & He & Hb & Hn & ->)|(n & Hn & Hnp & ->)].
  { destruct (subpage_kfree_ok s all fls i e a Hinv Hused Hi He Hb Hn) as (s' & -> & Hf). rewrite Ok_bind. by exists s'. }
  pose proof (hi_kinv _ _ _ Hinv) as Hki. destruct (kp_range _ _ _ Hki Hn) as (_ & Ham & Hn1 & _). unfold subpage_kfree.
  destruct (find_page_run s all fls a all (Z.to_nat NPAGEREFS) (allbase s) Hinv (hi_all _ _ _ Hinv)) as
    [(j & ej & -> & Hj & Hej & Hr)|[-> Hno]]; [done| | |].
  - apply index_length; [apply (hi_nodup _ _ _ Hinv)|]. intros j Hj. by eapply hinv_index.
  - exfalso. pose proof (po_region _ _ _ _ (hi_page _ _ _ Hinv j ej Hj Hej)) as Hrj.
    destruct (kp_disjoint _ _ _ _ _ Hki Hn Hrj) as [Hd|Hd]; [|unfold PAGE_SIZE in *; lia..]. intros E. by apply (Hnp j ej).
  - rewrite !Ok_bind. cbn [Z.eqb negb]. rewrite Ham. cbn [Z.eqb c_assert]. rewrite Ok_bind.
    destruct (kp_free _ _ _ Hki Hn) as (k & -> & Hki' & Hk). rewrite Ok_bind. eexists. split; [done|].
    exists all, fls. split; [|split; [done|split; [|done]]].
    + pose proof Hinv as []. constructor; cbn; try done. intros i e Hi He. destruct (hi_page0 i e Hi He). constructor; try done.
      rewrite Hk, lookup_delete_ne; [done|]. intros E. by apply (Hnp i e).
    + intros b y. unfold live. cbn. rewrite Hk. split.
      * intros [(i & e & Hi & He & Hb & Hf & ->)|(n' & Hn' & Hnp' & ->)].
        -- split; [left; by exists i, e|]. intros ->. apply (Hno i e Hi He).
           destruct (esz_bounds _ _ _ _ (hi_page _ _ _ Hinv i e Hi He)). apply blk_in in Hb; lia.
        -- apply lookup_delete_Some in Hn' as [? Hn']. split; [right; by exists n'|done].
      * intros [[(i & e & Hi & He & Hb & Hf & ->)|(n' & Hn' & Hnp' & ->)] Hne]; [left; by exists i, e|].
        right. exists n'. by rewrite lookup_delete_ne by done.
Qed.

Lemma kmalloc_ok s all fls sz :
  hinv s all fls -> (forall j, some_used s all fls j) -> 0 <= sz -> sz + PAGE_SIZE <= u32_mod ->
  exists p s', kmalloc sz s = Ok (p, s') /\ malloced sz s all fls p s'.
Proof.
  intros Hinv Hused H0 Hmax. destruct (Z.le_gt_cases LARGEST_SUBPAGE_SIZE sz); [by apply big_alloc|].
  unfold kmalloc. rewrite Z.geb_leb, (proj2 (Z.leb_gt _ _)) by done. by apply subpage_kmalloc_ok.
Qed.

(** ** The heap as its clients see it *)

(** The heap holds the blocks [B], with the sizes that were asked for. *)
Definition heap_rep (s : kheap) (B : gmap Z Z) : Prop :=
  exists all fls, hinv s all fls /\ (forall j, some_used s all fls j) /\
    (forall a, (exists y, live s all fls a y) <-> is_Some (B !! a)) /\
    forall a z y, B !! a = Some z -> live s all fls a y -> z <= y.

Lemma init_rep m k : kinv k -> kregions k = ∅ -> heap_rep (kheap_init m k) ∅.
Proof.
  intros Hki Hk. exists [], (fun _ => []). split_and!.
  - constructor; cbn [kheap_init pagerefs pagerefs_inuse sizebases allbase mem pages]; try done.
    + split; [done|]. by apply Forall_replicate.
    + constructor.
    + intros b Hb. exists None, []. split; [by types Hb|]. split; [done|]. split; [constructor|].
      intros i. split; [by intros ?%not_elem_of_nil|]. by intros [?%not_elem_of_nil _].
    + intros i Hi. split; [|by intros ?%not_elem_of_nil]. unfold bit.
      destruct (_ !! _) as [w|] eqn:Ew; [|done]. apply lookup_replicate in Ew as [-> _]. by rewrite Z.bits_0.
    + by intros i e ?%not_elem_of_nil.
    + by intros i j ei ej ?%not_elem_of_nil.
  - by intros j e ?%not_elem_of_nil.
  - intros a. split; [|by intros [z Hz]; rewrite lookup_empty in Hz].
    intros (y & [(i & e & ?%not_elem_of_nil & _)|(n & Hn & _)]); [done|]. cbn in Hn. by rewrite Hk, lookup_empty in Hn.
  - intros a z y Hz. by rewrite lookup_empty in Hz.
Qed.

Lemma rep_live s all fls (B : gmap Z Z) a z :
  (forall a, (exists y, live s all fls a y) <-> is_Some (B !! a)) ->
  (forall a z y, B !! a = Some z -> live s all fls a y -> z <= y) ->
  B !! a = Some z -> exists y, live s all fls a y /\ z <= y.
Proof. intros Hl Hsz Ha. destruct (proj2 (Hl a) ltac:(by exists z)) as [y Hy]. exists y. split; [done|]. by eapply Hsz. Qed.

(** Different blocks do not overlap. *)
Lemma rep_disjoint s B a z b y :
  heap_rep s B -> B !! a = Some z -> B !! b = Some y -> a <> b -> a + z <= b \/ b + y <= a.
Proof.
  intros (all & fls & Hinv & _ & Hl & Hsz) Ha Hb Hne.
  destruct (rep_live s all fls B a z Hl Hsz Ha) as (za & Hza & ?).
  destruct (rep_live s all fls B b y Hl Hsz Hb) as (yb & Hyb & ?).
  destruct (live_disjoint s all fls a za b yb Hinv Hza Hyb Hne); lia.
Qed.

(** The memory of the blocks [B] is the same. *)
Definition unchanged (B : gmap Z Z) (s s' : kheap) : Prop :=
  forall a z x, B !! a = Some z -> a <= x < a + z -> mem s' x = mem s x.

Lemma kmalloc_rep s B sz :
  heap_rep s B -> 0 <= sz -> sz + PAGE_SIZE <= u32_mod ->
  exists p s', kmalloc sz s = Ok (p, s') /\ unchanged B s s' /\
    ((p = 0 /\ heap_rep s' B /\
        ((forall i, (i < 256)%nat -> bit (pagerefs_inuse s) i = true) \/ exists n k, alloc_kpages n (pages s) = Ok (0, k))) \/
     (PAGE_SIZE <= p /\ p mod 16 = 0 /\ B !! p = None /\ heap_rep s' (<[p := sz]> B))).
Proof.
  intros (all & fls & Hinv & Hused & Hl & Hsz) H0 Hmax.
  destruct (kmalloc_ok s all fls sz Hinv Hused H0 Hmax) as (p & s' & Hrun & all' & fls' & Hinv' & Hused' & Hkept & Hres).
  exists p, s'. split; [done|]. split.
  { intros a z x Ha Hx. destruct (rep_live s all fls B a z Hl Hsz Ha) as (y & Hy & ?). apply (Hkept a y x Hy). lia. }
  destruct Hres as [(-> & Hsame & Hwhy)|(z & Hz & Hp & Hp16 & Hnew & Hlive)].
  - left. split; [done|]. split.
    + exists all', fls'. split; [done|]. split; [done|]. setoid_rewrite Hsame. done.
    + destruct Hwhy as [Hall|?]; [left|by right]. intros i Hi. apply (hi_inuse _ _ _ Hinv i Hi).
      assert (all ≡ₚ seq 0 256) as ->; [|apply elem_of_seq; lia].
      apply submseteq_length_Permutation; [|by rewrite length_seq, Hall].
      apply NoDup_submseteq; [apply (hi_nodup _ _ _ Hinv)|]. intros j Hj. apply elem_of_seq.
      pose proof (hinv_index _ _ _ j Hinv Hj). lia.
  - right. split; [done|]. split; [done|].
    assert (B !! p = None) as HBp by (destruct (B !! p) as [w|] eqn:E; [destruct (proj2 (Hl p) ltac:(by exists w)) as [y Hy]; by apply Hnew in Hy|done]).
    split; [done|]. exists all', fls'. split; [done|]. split; [done|]. split.
    + intros a. setoid_rewrite Hlive. destruct (decide (a = p)) as [->|Hne].
      * rewrite lookup_insert_eq. split; [by eexists|]. intros _. exists z. by right.
      * rewrite lookup_insert_ne by done. rewrite <- Hl. split; intros [y Hy]; exists y; [tauto|by left].
    + intros a w y Ha Hy. apply Hlive in Hy as [Hy|[-> ->]].
      * apply lookup_insert_Some in Ha as [[<- <-]|[_ Ha]]; [by apply Hnew in Hy|by eapply Hsz].
      * rewrite lookup_insert_eq in Ha. by injection Ha as <-.
Qed.

Lemma kfree_rep s B a z :
  heap_rep s B -> B !! a = Some z ->
  exists s', kfree a s = Ok s' /\ unchanged (delete a B) s s' /\ heap_rep s' (delete a B).
Proof.
  intros (all & fls & Hinv & Hused & Hl & Hsz) Ha.
  destruct (rep_live s all fls B a z Hl Hsz Ha) as (y & Hy & _).
  destruct (kfree_ok s all fls a y Hinv Hused Hy) as (s' & Hrun & all' & fls' & Hinv' & Hused' & Hlive & Hmem).
  exists s'. split; [done|]. split.
  - intros b w x [Hne Hb]%lookup_delete_Some Hx.
    destruct (rep_live s all fls B b w Hl Hsz Hb) as (v & Hv & ?). apply (Hmem b v x Hv); [done|lia].
  - exists all', fls'. split; [done|]. split; [done|]. split.
    + intros b. setoid_rewrite Hlive. destruct (decide (b = a)) as [->|Hne].
      * rewrite lookup_delete_eq. split; [by intros (? & _ & ?)|by intros [? ?]].
      * rewrite lookup_delete_ne by done. rewrite <- Hl. split; intros [v Hv]; exists v; tauto.
    + intros b w v [Hne Hb]%lookup_delete_Some [Hv _]%Hlive. by eapply Hsz.
Qed.

(** A client's write to its own block. *)
Lemma write_rep s B a z x v :
  heap_rep s B -> B !! a = Some z -> a <= x < a + z -> heap_rep (set_mem (store (mem s) x v) s) B.
Proof.
  intros (all & fls & Hinv & Hused & Hl & Hsz) Ha Hx. exists all, fls. split; [|done].
  destruct (rep_live s all fls B a z Hl Hsz Ha) as (y & Hy & ?).
  pose proof Hinv as []. constructor; cbn; try done. intros i e Hi He. pose proof (hi_page0 i e Hi He) as Hp.
  destruct (esz_bounds _ _ _ _ Hp) as [Hs _]. destruct Hp. constructor; try done.
  revert po_links0. apply links_ext. intros b Hb. unfold store. destruct (Z.eqb_spec b x) as [->|]; [exfalso|done].
  assert (PR_PAGEADDR e <= x < PR_PAGEADDR e + PAGE_SIZE) as Hxp by (specialize (po_blk0 x Hb); apply blk_in in po_blk0; lia).
  destruct Hy as [(j & ej & Hj & Hej & Hbj & Hn & ->)|(n & Hn & Hnp & ->)].
  - destruct (esz_bounds _ _ _ _ (hi_page0 j ej Hj Hej)) as [Hsj _].
    assert (i = j) as -> by (eapply (same_block s all fls i j e ej x); try done; [by apply po_blk0|apply blk_in in Hbj; lia]).
    assert (ej = e) as -> by congruence. destruct (decide (a = x)) as [->|Hne]; [done|].
    destruct (blk_disjoint _ _ a x ltac:(instantiate (1 := esz e); lia) Hbj (po_blk0 x Hb) Hne); lia.
  - destruct (kp_disjoint _ _ _ _ _ hi_kinv0 Hn po_region0); [by intros E; apply (Hnp i e)|unfold PAGE_SIZE in *; lia..].
Qed.

(** ** Clients *)

(** What a client does with the heap; memory is read and written by words. *)
Inductive call :=
| Malloc (sz : Z)
| Free (p : Z)
| Load (x : Z)
| Store (x v : Z).

Definition exec (c : call) (s : kheap) : outcome (Z * kheap) :=
  match c with
  | Malloc sz => kmalloc sz s
  | Free p => s ← kfree p s; Ok (0, s)
  | Load x => Ok (mem s x, s)
  | Store x v => Ok (0, set_mem (store (mem s) x v) s)
  end.

(** The promised behaviour: blocks [B] and the words [C] the clients stored in
    them. *)
Definition inside (B : gmap Z Z) (x : Z) : Prop := exists a z, B !! a = Some z /\ a <= x < a + z.

Definition forget (a z : Z) (C : gmap Z Z) : gmap Z Z := filter (fun p => ~ (a <= p.1 < a + z)) C.

Inductive spec_step (B C : gmap Z Z) : call -> Z -> gmap Z Z -> gmap Z Z -> Prop :=
| spec_nomem sz : spec_step B C (Malloc sz) 0 B C
| spec_malloc sz p :
    p <> 0 -> p mod 16 = 0 -> B !! p = None ->
    (forall a z, B !! a = Some z -> a + z <= p \/ p + sz <= a) ->
    spec_step B C (Malloc sz) p (<[p := sz]> B) C
| spec_free p z : B !! p = Some z -> spec_step B C (Free p) 0 (delete p B) (forget p z C)
| spec_free_null : spec_step B C (Free 0) 0 B C
| spec_load x v : C !! x = Some v -> spec_step B C (Load x) v B C
| spec_store x v : inside B x -> spec_step B C (Store x v) 0 B (<[x := v]> C).

(** The calls a correct client makes: it frees what it has and uses its own
    memory. *)
Definition legal (B C : gmap Z Z) (c : call) : Prop :=
  match c with
  | Malloc sz => 0 <= sz /\ sz + PAGE_SIZE <= u32_mod
  | Free p => p = 0 \/ is_Some (B !! p)
  | Load x => is_Some (C !! x)
  | Store x _ => inside B x
  end.

Definition refines (s : kheap) (B C : gmap Z Z) : Prop :=
  heap_rep s B /\ forall x v, C !! x = Some v -> inside B x /\ mem s x = v.

Lemma unchanged_inside B s s' x : unchanged B s s' -> inside B x -> mem s' x = mem s x.
Proof. intros Hu (a & z & Ha & Hx). by apply (Hu a z). Qed.

Lemma malloc_sim s B C sz :
  refines s B C -> legal B C (Malloc sz) ->
  exists r s' B', exec (Malloc sz) s = Ok (r, s') /\ spec_step B C (Malloc sz) r B' C /\ refines s' B' C.
Proof.
  intros [Hrep HC] [H0 Hmax]. destruct (kmalloc_rep s B sz Hrep H0 Hmax) as (p & s' & Hrun & Hu & Hres).
  exists p, s'. destruct Hres as [(-> & Hrep' & _)|(Hp & H16 & Hnone & Hrep')].
  - exists B. split; [done|]. split; [constructor|]. split; [done|]. intros x v Hx. destruct (HC x v Hx) as [Hin <-].
    split; [done|]. by apply (unchanged_inside B).
  - exists (<[p := sz]> B). split; [done|]. split.
    + constructor; [unfold PAGE_SIZE in *; lia|done|done|]. intros a z Ha.
      assert (a <> p) by congruence. apply (rep_disjoint s' (<[p := sz]> B) a z p sz); [done| |by rewrite lookup_insert_eq|done].
      by rewrite lookup_insert_ne.
    + split; [done|]. intros x v Hx. destruct (HC x v Hx) as [Hin <-]. split; [|by apply (unchanged_inside B)].
      destruct Hin as (a & z & Ha & Hax). exists a, z. rewrite lookup_insert_ne by congruence. done.
Qed.

Lemma free_sim s B C p z :
  refines s B C -> B !! p = Some z ->
  exists s', exec (Free p) s = Ok (0, s') /\ refines s' (delete p B) (forget p z C).
Proof.
  intros [Hrep HC] Hp. destruct (kfree_rep s B p z Hrep Hp) as (s' & Hrun & Hu & Hrep').
  exists s'. cbn [exec]. rewrite Hrun, Ok_bind. split; [done|]. split; [done|].
  intros x v Hx. apply map_lookup_filter_Some in Hx as [Hx Hout]. cbn in Hout. destruct (HC x v Hx) as [(a & y & Ha & Hax) <-].
  assert (a <> p) by (intros ->; assert (y = z) by congruence; lia).
  assert (inside (delete p B) x) by (exists a, y; by rewrite lookup_delete_ne).
  split; [done|]. by apply (unchanged_inside (delete p B)).
Qed.

Lemma call_sim s B C c : refines s B C -> legal B C c ->
  exists r s' B' C', exec c s = Ok (r, s') /\ spec_step B C c r B' C' /\ refines s' B' C'.
Proof.
  intros Href Hc. destruct c as [sz|p|x|x v].
  - destruct (malloc_sim s B C sz Href Hc) as (r & s' & B' & ?). by exists r, s', B', C.
  - destruct Hc as [->|[z Hz]].
    + exists 0, s, B, C. split; [done|]. split; [constructor|done].
    + destruct (free_sim s B C p z Href Hz) as (s' & Hrun & Href').
      exists 0, s', (delete p B), (forget p z C). split; [done|]. split; [by constructor|done].
  - destruct Hc as [v Hv]. destruct Href as [Hrep HC]. exists (mem s x), s, B, C. split; [done|].
    destruct (HC x v Hv) as [_ <-]. split; [by constructor|done].
  - destruct Href as [Hrep HC]. pose proof Hc as (a & z & Ha & Hx). eexists 0, _, B, (<[x := v]> C). split; [done|].
    split; [by constructor|]. split; [by eapply write_rep|]. intros y w Hw. cbn. unfold store.
    apply lookup_insert_Some in Hw as [[<- <-]|[Hne Hw]]; [by rewrite Z.eqb_refl|].
    rewrite (proj2 (Z.eqb_neq y x)) by done. by apply HC.
Qed.

Lemma init_refines m k : kinv k -> kregions k = ∅ -> refines (kheap_init m k) ∅ ∅.
Proof. intros Hki Hk. split; [by apply init_rep|]. intros x v Hx. by rewrite lookup_empty in Hx. Qed.

(** C7. The kernel heap implements its specification.  The empty heap refines
    the empty set of blocks; and whenever a correct client calls [kmalloc] or
    [kfree], or reads or writes a word of a block it has, the code returns
    normally, the result is one the specification allows, and the refinement
    holds again.  So blocks never overlap, a block keeps its contents until it
    is freed, and no sequence of calls crashes the allocator. *)
Theorem kheap_refines :
  (forall m k, kinv k -> kregions k = ∅ -> refines (kheap_init m k) ∅ ∅) /\
  forall s B C c, refines s B C -> legal B C c ->
    exists r s' B' C', exec c s = Ok (r, s') /\ spec_step B C c r B' C' /\ refines s' B' C'.
Proof using KPL. split; [apply init_refines|apply call_sim]. Qed.

(** [kmalloc] of any size below 4 GB less a page returns 0 only when all
    256 page references are in use or the page allocator has no memory.
    Otherwise the block is aligned to 16 bytes, did not belong to anybody, does
    not overlap any block in use, and the memory of all blocks in use is as
    before. *)
Theorem kmalloc_fresh s B sz :
  heap_rep s B -> 0 <= sz -> sz + PAGE_SIZE <= u32_mod ->
  exists p s', kmalloc sz s = Ok (p, s') /\ unchanged B s s' /\
    if decide (p = 0)
    then heap_rep s' B /\ ((forall i, (i < 256)%nat -> bit (pagerefs_inuse s) i = true) \/
      exists n k, alloc_kpages n (pages s) = Ok (0, k))
    else p mod 16 = 0 /\ B !! p = None /\ heap_rep s' (<[p := sz]> B) /\
      forall a z, B !! a = Some z -> a + z <= p \/ p + sz <= a.
Proof using KPL.
  intros Hrep H0 Hmax. destruct (kmalloc_rep s B sz Hrep H0 Hmax) as (p & s' & Hrun & Hu & Hres).
  exists p, s'. split; [done|]. split; [done|]. destruct Hres as [(-> & ?)|(Hp & H16 & Hnone & Hrep')]; [done|].
  rewrite decide_False by (unfold PAGE_SIZE in *; lia). do 3 (split; [done|]). intros a z Ha.
  apply (rep_disjoint s' (<[p := sz]> B) a z p sz); [done| |by rewrite lookup_insert_eq|congruence].
  rewrite lookup_insert_ne by congruence. done.
Qed.

End KheapInv.
End KheapInv.
