(* ===== verification/HeapPages.v ===== *)
(** * The kernel heap over the page tables

    The page allocator that kern/lib/kheap.c calls is [alloc_kpages] and
    [free_kpages] of kern/vm/addrspace.c, which call [pt_alloc_kpages] and
    [pt_free_kpage] of kern/vm/pt.c.  This file shows that they keep the promise
    [KPages] of Kheap.v, so the theorems on the heap hold for the heap of the
    system after the bootstrap. *)

From S2P Require Import Prelude VmState Coremap Swap TlbHw PageTable Paging PagingOps Kheap KheapInv.
Import Vm Coremap Swap TlbHw PageTable Paging PagingOps.

Module HeapPages.
Section Pages.
Context {file page : Type} {SD : SwapDev file page} {SDL : SwapDevLaws file page}.
Context {CK : Clock} {CKL : ClockLaws}.
Context (lo : Z) (Hlo : 0 < lo /\ lo mod 4096 = 0).
Local Abbreviation vm := (vm file page).
Local Abbreviation inv := (inv lo).
Local Abbreviation frame := (frame lo).

(** The tables, and the blocks of pages that were handed out. *)
Definition pages : Type := vm * gmap Z Z.

Definition kpages_alloc (n : Z) (k : pages) : outcome (Z * pages) :=
  '(a, s) ← pt_alloc_kpages 0 n k.1;
  Ok (a, (s, if a =? 0 then k.2 else <[a := n]> k.2)).

Definition kpages_free (a : Z) (k : pages) : outcome pages :=
  '(_, s) ← pt_free_kpage a k.1;
  Ok (s, delete a k.2).

(** The [n] frames from [j] on are one block of kernel pages. *)
Definition owned (s : vm) (j : nat) (n : Z) : Prop :=
  1 <= n /\ forall m, Z.of_nat j <= Z.of_nat m < Z.of_nat j + n ->
    exists e c, page_table s !! m = Some e /\ coremap s !! m = Some c /\
      in_use c = 1 /\ is_kernel c = 1 /\ npages e = n - (Z.of_nat m - Z.of_nat j).

(** The invariant; [s0] is a state whose processes have the same memory. *)
Record kpages_inv (s0 : vm) (k : pages) : Prop := mk_kpi {
  ki_inv : inv (0, 0) k.1;
  ki_addrs : kernel_addrs lo k.1;
  ki_held : held k.1 = [];
  ki_user q u data : q <> 0 -> holds k.1 q u data <-> holds s0 q u data;
  ki_regions a n : k.2 !! a = Some n -> exists j, a = frame j + 2147483648 /\ owned k.1 j n;
  ki_disjoint a n b m : k.2 !! a = Some n -> k.2 !! b = Some m -> a <> b ->
    a + n * PAGE_SIZE <= b \/ b + m * PAGE_SIZE <= a;
}.

#[export] Instance pt_kpages (s0 : vm) : KPages pages := {
  Kheap.alloc_kpages := kpages_alloc;
  Kheap.free_kpages := kpages_free;
  kregions := snd;
  kinv := kpages_inv s0;
}.

(** ** Ranges *)

Lemma owned_range s j n : inv (0, 0) s -> owned s j n ->
  0 < frame j /\ frame j + n * 4096 < 536870912 + 4096.
Proof using Hlo.
  intros Hinv [Hn Ho]. destruct (Ho (Z.to_nat (Z.of_nat j + n - 1))) as (e & c & He & _); [lia|].
  destruct (inv_frame _ _ s Hinv _ e He) as (_ & Hf & _). unfold Paging.frame in *. lia.
Qed.

Lemma owned_not_free s i n j n' : owned s i n -> 1 <= n' -> free_run (coremap s) (Z.of_nat j) n' ->
  frame i + n * 4096 <= frame j \/ frame j + n' * 4096 <= frame i.
Proof.
  intros [Hn Ho] Hn' [_ Hf]. unfold Paging.frame.
  destruct (Z.le_gt_cases (Z.of_nat i + n) (Z.of_nat j)); [left; lia|].
  destruct (Z.le_gt_cases (Z.of_nat j + n') (Z.of_nat i)); [right; lia|]. exfalso.
  destruct (Ho (Nat.max i j)) as (e & c & _ & Hc & Hu & _); [lia|].
  destruct (Hf (Z.of_nat (Nat.max i j))) as (c' & Hc' & Hf'); [lia|]. rewrite Nat2Z.id in Hc'.
  unfold is_free in Hf'. assert (c' = c) as -> by congruence. lia.
Qed.

(** ** Allocation *)

Lemma kallocated_owned j n s s' i n' :
  1 <= n -> kallocated lo j n s s' -> owned s i n' -> free_run (coremap s) (Z.of_nat j) n -> owned s' i n'.
Proof.
  intros Hn1 Hk Ho Hf. destruct (owned_not_free s i n' j n Ho Hn1 Hf) as [Hd|Hd]; destruct Ho as [Hn Ho]; (split; [done|]);
    intros m Hm; destruct (Ho m Hm) as (e & c & He & Hc & Hr); exists e, c; unfold Paging.frame in Hd;
    (split; [rewrite (ka_pt _ _ _ _ _ Hk), He, decide_False; [done|lia]|]);
    (split; [rewrite (ka_out _ _ _ _ _ Hk); [done|lia]|done]).
Qed.

Lemma kallocated_new j n s s' : inv (0, 0) s -> 1 <= n -> free_run (coremap s) (Z.of_nat j) n ->
  kallocated lo j n s s' -> owned s' j n.
Proof.
  intros Hinv Hn [_ Hf] Hk. split; [done|]. intros m Hm. destruct (Hf (Z.of_nat m) Hm) as (c0 & Hc0 & _). rewrite Nat2Z.id in Hc0.
  destruct (inv_entry _ _ s _ c0 Hinv Hc0) as (e0 & He0 & _). destruct (ka_in _ _ _ _ _ Hk m Hm) as [t Ht].
  eexists _, _. rewrite (ka_pt _ _ _ _ _ Hk), He0, decide_True by done. do 2 (split; [done|]). done.
Qed.

Lemma kpages_alloc_ok s0 n k : kpages_inv s0 k -> 1 <= n ->
  exists a k', kpages_alloc n k = Ok (a, k') /\ kpages_inv s0 k' /\
    ((a = 0 /\ k'.2 = k.2) \/ (a <> 0 /\ k.2 !! a = None /\ k'.2 = <[a := n]> k.2)).
Proof using Hlo CKL.
  intros Hki Hn. destruct k as [s r]. pose proof Hki as []. cbn [fst snd] in *. unfold kpages_alloc. cbn [fst snd].
  destruct (pt_alloc_kpages_run lo Hlo n s ki_inv0 ki_held0 Hn) as [(j & s' & Hfree & -> & Hk)|[-> _]]; rewrite Ok_bind.
  2: { exists 0, (s, r). split; [done|]. split; [done|by left]. }
  pose proof (kallocated_new j n s s' ki_inv0 Hn Hfree Hk) as Hnew.
  destruct (kallocated_inv lo j n s s' ki_inv0 ki_addrs0 Hfree Hk) as (Hinv' & Hka' & Hu').
  pose proof (owned_range s' j n Hinv' Hnew) as [Hj0 _]. set (a := frame j + 2147483648).
  rewrite (proj2 (Z.eqb_neq a 0)) by lia. exists a, (s', <[a := n]> r). split; [done|].
  assert (forall b m, r !! b = Some m -> a + n * PAGE_SIZE <= b \/ b + m * PAGE_SIZE <= a) as Hdis.
  { intros b m Hb. destruct (ki_regions0 b m Hb) as (i & -> & Ho). subst a. unfold PAGE_SIZE.
    destruct (owned_not_free s i m j n Ho Hn Hfree); lia. }
  assert (r !! a = None) as Hnone.
  { apply eq_None_not_Some. intros [m Hm]. destruct (ki_regions0 a m Hm) as (i & E & Ho). destruct (Hdis a m Hm); unfold PAGE_SIZE in *;
      destruct Ho; lia. }
  split; [|right; by split; [lia|]].
  constructor; cbn [fst snd]; try done.
  - by rewrite (ka_rest _ _ _ _ _ Hk).
  - intros q u data Hq. rewrite Hu' by done. by apply ki_user0.
  - intros b m Hb. apply lookup_insert_Some in Hb as [[<- <-]|[_ Hb]]; [by exists j|].
    destruct (ki_regions0 b m Hb) as (i & Hbi & Ho). exists i. split; [done|]. by eapply kallocated_owned.
  - intros b m b' m' Hb Hb' Hne. apply lookup_insert_Some in Hb as [[<- <-]|[_ Hb]], Hb' as [[<- <-]|[_ Hb']];
      [done|by apply Hdis|apply or_comm; by apply Hdis|by eapply ki_disjoint0].
Qed.

(** ** Release *)

Lemma released_kernel_holds j n (s s' : vm) q u data :
  inv (0, 0) s -> owned s j n ->
  released (fun m _ => bool_decide (j <= m < j + Z.to_nat n)%nat) s s' -> q <> 0 ->
  holds s' q u data <-> holds s q u data.
Proof.
  intros Hinv [Hn Ho] (Hp & _ & Heq) Hq.
  assert (ram s' = ram s /\ swap_array s' = swap_array s /\ swap_file s' = swap_file s) as
    (E1 & E2 & E3) by (rewrite Heq; by destruct s).
  unfold holds, swapped, resident. rewrite E1, E2, E3.
  enough ((exists i e, page_table s' !! i = Some e /\ pid e = q /\ vaddr e = u /\ ram s !! paddr e = Some data) <->
    (exists i e, page_table s !! i = Some e /\ pid e = q /\ vaddr e = u /\ ram s !! paddr e = Some data)) as ->; [done|].
  split; intros (m & e & He & Hpe & Hv & Hd).
  - rewrite Hp in He. destruct (page_table s !! m) as [e0|] eqn:E; [|done]. injection He as He.
    exists m, e0. destruct (bool_decide _); subst e; [by cbn in Hpe|done].
  - exists m, e. rewrite Hp, He. rewrite bool_decide_false; [done|]. intros Hm.
    destruct (Ho m) as (e' & c & He' & Hc & Hu & Hk & _); [lia|]. assert (e' = e) as -> by congruence.
    apply Hq. destruct (decide (pid e = 0)) as [|Hpid]; [congruence|].
    apply (proj1 (inv_user _ _ s Hinv m e c He Hc)) in Hpid as [_ ?]. lia.
Qed.

Lemma released_owned j n (s s' : vm) i n' :
  released (fun m _ => bool_decide (j <= m < j + Z.to_nat n)%nat) s s' -> owned s i n' ->
  frame j + n * 4096 <= frame i \/ frame i + n' * 4096 <= frame j -> owned s' i n'.
Proof.
  intros (Hp & Hcm & _) [Hn Ho] Hd. split; [done|]. intros m Hm. destruct (Ho m Hm) as (e & c & He & Hc & Hr).
  exists e, c. unfold Paging.frame in Hd. rewrite Hp, Hcm, He, Hc, bool_decide_false by lia. done.
Qed.

Lemma kpages_free_ok s0 a n k : kpages_inv s0 k -> k.2 !! a = Some n ->
  exists k', kpages_free a k = Ok k' /\ kpages_inv s0 k' /\ k'.2 = delete a k.2.
Proof using Hlo.
  intros Hki Ha. destruct k as [s r]. pose proof Hki as []. cbn [fst snd] in *. unfold kpages_free. cbn [fst snd].
  destruct (ki_regions0 a n Ha) as (j & Haj & Ho). pose proof Ho as [Hn Ho'].
  destruct (Ho' j) as (e & c & He & Hc & _ & Hkc & Hnp); [lia|]. pose proof (inv_len _ _ s ki_inv0) as Hlen.
  destruct (Ho' (Z.to_nat (Z.of_nat j + n - 1))) as (e1 & c1 & He1%lookup_lt_Some & _); [lia|].
  destruct (release_run_ok (Z.to_nat n) j s) as (s' & Hrel & Hr); [lia|done|].
  assert (pt_free_kpage a s = Ok (tt, s')) as ->.
  { unfold pt_free_kpage. mrun.
    etrans; [apply (free_kpage_loop_ok a j e c _ 0%nat s eq_refl Hlen ltac:(lia) He Hc)|]; [lia| | |].
    - rewrite (ki_addrs0 j e c He Hc) by lia. done.
    - intros m f d Hm Hf Hd Hkd. rewrite (ki_addrs0 m f d Hf Hd Hkd). unfold Paging.frame in *. lia.
    - rewrite Hnp, Z.sub_diag, Z.sub_0_r. exact Hrel. }
  rewrite Ok_bind. eexists. split; [done|]. split; [|done]. pose proof Hr as (Hp & Hcm & Heq).
  constructor; cbn [fst snd].
  - by eapply released_inv.
  - intros m e' c' He' Hc' Hk'. rewrite Hp in He'. rewrite Hcm in Hc'. destruct (page_table s !! m) as [f|] eqn:Ef; [|done].
    destruct (coremap s !! m) as [d|] eqn:Ed; [|done]. injection He' as <-. injection Hc' as <-.
    destruct (bool_decide _); [by cbn in Hk'|]. by eapply ki_addrs0.
  - rewrite Heq. done.
  - intros q u data Hq. rewrite (released_kernel_holds j n s s' q u data ki_inv0 Ho Hr Hq). by apply ki_user0.
  - intros b m [Hne Hb]%lookup_delete_Some. destruct (ki_regions0 b m Hb) as (i & Hbi & Hoi). exists i. split; [done|].
    eapply released_owned; [done|done|]. destruct (ki_disjoint0 a n b m Ha Hb ltac:(congruence)); unfold PAGE_SIZE in *; lia.
  - intros b m b' m' [_ Hb]%lookup_delete_Some [_ Hb']%lookup_delete_Some. by apply ki_disjoint0.
Qed.

#[export] Instance pt_kpages_laws (s0 : vm) : KPagesLaws pages (H := pt_kpages s0).
Proof using Hlo CKL.
  constructor.
  - intros n k. apply kpages_alloc_ok.
  - intros a n k. apply kpages_free_ok.
  - intros a n k Hki Ha. pose proof Hki as []. destruct (ki_regions0 a n Ha) as (j & -> & Ho).
    pose proof (owned_range k.1 j n ki_inv0 Ho). destruct Ho as [Hn _]. unfold PAGE_SIZE, u32_mod. split; [lia|]. split; [|lia].
    unfold Paging.frame. destruct Hlo as [_ Hm]. replace (lo + 4096 * Z.of_nat j + 2147483648) with (lo + (Z.of_nat j + 524288) * 4096) by lia.
    by rewrite Z.mod_add.
  - intros a n b m k Hki. apply (ki_disjoint _ _ Hki).
Qed.

Local Abbreviation kheap := (Kheap.kheap (K := pages)).

Lemma refines_tables s0 (s : kheap) B C :
  KheapInv.refines (KP := pt_kpages s0) s B C -> kpages_inv s0 (Kheap.pages s).
Proof. intros [(all & fls & Hinv & _) _]. apply (KheapInv.hi_kinv _ _ _ Hinv). Qed.

(** C25. The heap and the paging tables together.  Over [pt_alloc_kpages] and
    [pt_free_kpage], every call of a correct client of the heap returns
    normally and behaves as the heap's specification says; the invariant of the
    page table, the coremap and the swap table is kept; and every page of every
    process, in memory or swapped out, has the contents it had in [s0]. *)
Theorem kheap_over_page_tables s0 (s : kheap) B C c :
  KheapInv.refines (KP := pt_kpages s0) s B C -> KheapInv.legal B C c ->
  exists r s' B' C', KheapInv.exec (KP := pt_kpages s0) c s = Ok (r, s') /\
    KheapInv.spec_step B C c r B' C' /\ KheapInv.refines (KP := pt_kpages s0) s' B' C' /\
    inv (0, 0) (Kheap.pages s').1 /\
    forall q u data, q <> 0 -> holds (Kheap.pages s').1 q u data <-> holds s0 q u data.
Proof using Hlo CKL.
  intros Href Hc. destruct (KheapInv.call_sim (KPL := pt_kpages_laws s0) s B C c Href Hc) as (r & s' & B' & C' & Hrun & Hspec & Href').
  exists r, s', B', C'. do 3 (split; [done|]). destruct (refines_tables s0 s' B' C' Href'). done.
Qed.
End Pages.

(** ** Witnesses *)

Definition demo_heap : Kheap.kheap (K := pages (file := gmap Z (list Z)) (page := list Z)) :=
  Kheap.kheap_init (fun _ => 0) (demo true, ∅).

Lemma demo_pages : kpages_inv (SD := disk 0) (CK := demo_clock) 4096 (demo true) (demo true, ∅).
Proof.
  constructor; cbn [fst snd].
  - apply demo_inv.
  - apply demo_kernel_addrs.
  - done.
  - done.
  - intros a n Ha. by rewrite lookup_empty in Ha.
  - intros a n b m Ha. by rewrite lookup_empty in Ha.
Qed.

Lemma demo_heap_refines :
  KheapInv.refines (KP := pt_kpages (SD := disk 0) (CK := demo_clock) 4096 (demo true)) demo_heap ∅ ∅.
Proof. apply KheapInv.init_refines; [apply demo_pages|done]. Qed.

Local Abbreviation demo_kp := (pt_kpages (SD := disk 0) (CK := demo_clock) 4096 (demo true)).
Local Abbreviation demo_kpl := (pt_kpages_laws (SD := disk 0) (CKL := demo_clock_laws) 4096 demo_lo (demo true)).

Lemma kheap_refines_witness :
  exists r s' B' C', KheapInv.exec (KP := demo_kp) (KheapInv.Malloc 100) demo_heap = Ok (r, s') /\
    KheapInv.spec_step ∅ ∅ (KheapInv.Malloc 100) r B' C' /\ KheapInv.refines (KP := demo_kp) s' B' C'.
Proof.
  destruct (KheapInv.kheap_refines (KPL := demo_kpl)) as [Hinit Hstep].
  apply Hstep; [apply Hinit; [apply demo_pages|reflexivity]|by vm_compute].
Defined.

Lemma kmalloc_fresh_witness :
  exists s', Kheap.kmalloc (KP := demo_kp) 100 demo_heap = Ok (2147495936 + 3968, s') /\
    KheapInv.heap_rep (KP := demo_kp) s' {[2147495936 + 3968 := 100]}.
Proof.
  destruct (KheapInv.kmalloc_fresh (KPL := demo_kpl) demo_heap ∅ 100) as (p & s' & Hrun & _ & Hres);
    [apply demo_heap_refines|by vm_compute..|].
  assert (match Kheap.kmalloc (KP := demo_kp) 100 demo_heap with Ok (p, _) => p | _ => 0 end = 2147495936 + 3968) as Hp
    by (vm_compute; reflexivity).
  rewrite Hrun in Hp. subst p. exists s'. split; [exact Hrun|]. by destruct Hres as (_ & _ & ? & _).
Defined.

Lemma kheap_over_page_tables_witness :
  exists r s', KheapInv.exec (KP := demo_kp) (KheapInv.Malloc 100) demo_heap = Ok (r, s') /\
    holds (SD := disk 0) (Kheap.pages s').1 2 4194304 (fill 11).
Proof.
  destruct (kheap_over_page_tables (SD := disk 0) (CKL := demo_clock_laws) 4096 demo_lo (demo true) demo_heap ∅ ∅
    (KheapInv.Malloc 100)) as (r & s' & B' & C' & Hrun & _ & _ & _ & Hh); [apply demo_heap_refines|by vm_compute|].
  exists r, s'. split; [exact Hrun|]. apply Hh; [lia|apply demo_resident].
Defined.

End HeapPages.
