(* ===== verification/SfsDisk.v ===== *)
(** * The disk under the file system: kern/dev/lamebus/lhd.c,
    kern/fs/sfs/sfs_io.c, and the on-disk structures of kern/include/kern/sfs.h

    The file system moves data through [struct uio]s that describe kernel
    buffers.  Here such a [uio] is the contents of its buffer: the bytes already
    transferred and the bytes still to come (Uio.v has the same function over
    memory).  The disk hardware is the interface [Disk]; the driver is
    translated.  A sector operation, from one [P(lh_clear)] to the [V(lh_clear)],
    is one step. *)

From S2P Require Import Prelude Uio.

Module SfsDisk.

#[export] Existing Instance Uio.uio_rw_eq_dec.
Abbreviation UIO_READ := Uio.UIO_READ.
Abbreviation UIO_WRITE := Uio.UIO_WRITE.

(** ** Kernel buffers *)

(** The buffer is [uio_done ++ uio_left]; [iov_len] is the length of
    [uio_left]. *)
Record uio : Type := mk_uio {
  uio_done : list Z;
  uio_left : list Z;
  uio_offset : Z;
  uio_resid : Z;
  uio_rw : Uio.uio_rw;
}.

Definition mk_kuio (kbuf : list Z) (len pos : Z) (rw : Uio.uio_rw) : uio :=
  mk_uio [] (take (Z.to_nat len) kbuf) pos len rw.

Definition uio_buffer (u : uio) : list Z := uio_done u ++ uio_left u.

(** The updates after [size] bytes, which are now [bs], were moved. *)
Definition advance (u : uio) (bs : list Z) (size : Z) : uio :=
  mk_uio (uio_done u ++ bs) (drop (Z.to_nat size) (uio_left u)) (s32 (uio_offset u + size))
    (u32 (uio_resid u - size)) (uio_rw u).

(** The loop of [uiomove] for kernel buffers; [front] and [buf] are the bytes
    before and from [ptr] on. *)
Fixpoint uiomove_loop (fuel : nat) (front buf : list Z) (n : Z) (u : uio) : outcome (list Z * uio) :=
  match fuel with
  | O => Hang
  | S fuel' =>
      if (n >? 0) && (uio_resid u >? 0) then
        let size := zlen (uio_left u) in
        let size := if size >? n then n else size in
        if size =? 0 then Panic
        else if zlen buf <? size then Undef
        else
          let k := Z.to_nat size in
          let bs := match uio_rw u with UIO_READ => take k buf | UIO_WRITE => take k (uio_left u) end in
          uiomove_loop fuel' (front ++ bs) (drop k buf) (u32 (n - size)) (advance u bs size)
      else Ok (front ++ buf, u)
  end.

(** The new contents of the buffer at [ptr], and the [uio]; the result is
    0. *)
Definition uiomove (buf : list Z) (n : Z) (u : uio) : outcome (list Z * uio) :=
  uiomove_loop (S (Z.to_nat n)) [] buf n u.

Fixpoint uiomovezeros_loop (fuel : nat) (n : Z) (u : uio) : outcome uio :=
  match fuel with
  | O => Hang
  | S fuel' =>
      if n >? 0 then
        let amt := 16 in
        let amt := if amt >? n then n else amt in
        '(_, u) ← uiomove (replicate 16 0) amt u;
        uiomovezeros_loop fuel' (u32 (n - amt)) u
      else Ok u
  end.

Definition uiomovezeros (n : Z) (u : uio) : outcome uio :=
  _ ← c_assert (bool_decide (uio_rw u = UIO_READ));
  uiomovezeros_loop (S (Z.to_nat n)) n u.

(** ** The driver *)

Definition LHD_SECTSIZE : Z := 512.
Definition LHD_OK : Z := 4.
Definition LHD_INVSECT : Z := 12.
Definition LHD_MEDIA : Z := 20.
Definition LHD_STATEMASK : Z := 29.

(** The hardware.  [hw_io iswrite sector buf] is one operation with [buf] in
    the on-card buffer: the final status and buffer.  [sector] are the
    contents. *)
Class Disk (D : Type) := {
  d_blocks : D -> Z;
  hw_io : bool -> Z -> list Z -> D -> Z * list Z * D;
  sector : D -> Z -> list Z;
}.

Definition byte (b : Z) : Prop := 0 <= b < 256.
Definition is_block (bs : list Z) : Prop := zlen bs = 512 /\ Forall byte bs.

(** What the hardware does for a sector that exists: it reports success or a
    media error, a successful read returns the contents, a write changes no
    other sector and if successful stores the buffer. *)
Class DiskLaws (D : Type) `{Disk D} := {
  hw_status w b buf d : 0 <= b < d_blocks d ->
    exists st buf' d', hw_io w b buf d = (st, buf', d') /\ (st = LHD_OK \/ st = LHD_MEDIA) /\ d_blocks d' = d_blocks d;
  hw_read b buf d st buf' d' : 0 <= b < d_blocks d -> hw_io false b buf d = (st, buf', d') ->
    (forall c, sector d' c = sector d c) /\ (st = LHD_OK -> buf' = sector d b);
  hw_write b buf d st buf' d' : 0 <= b < d_blocks d -> is_block buf -> hw_io true b buf d = (st, buf', d') ->
    (forall c, c <> b -> sector d' c = sector d c) /\ (st = LHD_OK -> sector d' b = buf);
  hw_block d b : 0 <= b < d_blocks d -> is_block (sector d b);
}.

(** A disk on which writes do not fail. *)
Class ReliableWrites (D : Type) `{Disk D} :=
  hw_write_ok : forall b buf d, 0 <= b < d_blocks d -> (hw_io true b buf d).1.1 = LHD_OK.

(** A disk on which a read of some sector can fail; and the error code for it,
    which is returned only on such a disk. *)
Definition read_fails (D : Type) `{Disk D} : Prop :=
  exists b buf (d : D), 0 <= b < d_blocks d /\ (hw_io false b buf d).1.1 = LHD_MEDIA.

Definition eio (D : Type) `{Disk D} (r : Z) : Prop := r = EIO /\ read_fails D.

Section Disk.
Context {D : Type} `{DK : Disk D}.

Definition lhd_code_to_errno (code : Z) : Z :=
  let c := Z.land code LHD_STATEMASK in
  if c =? LHD_OK then 0 else if c =? LHD_INVSECT then EINVAL else if c =? LHD_MEDIA then EIO else EAGAIN.

(** The loop over the sectors, [n] left. *)
Fixpoint lhd_loop (n : nat) (sector i : Z) (u : uio) (d : D) : outcome (Z * uio * D) :=
  match n with
  | O => Ok (0, u, d)
  | S n' =>
      '(buf, u) ← (match uio_rw u with
                   | UIO_WRITE => uiomove (replicate 512 0) LHD_SECTSIZE u
                   | UIO_READ => Ok (replicate 512 0, u)
                   end);
      let '(status, buf, d) := hw_io (bool_decide (uio_rw u = UIO_WRITE)) (u32 (sector + i)) buf d in
      let result := lhd_code_to_errno status in
      '(_, u) ← (if (result =? 0) && bool_decide (uio_rw u = UIO_READ) then uiomove buf LHD_SECTSIZE u else Ok (buf, u));
      if negb (result =? 0) then Ok (result, u, d)
      else lhd_loop n' sector (i + 1) u d
  end.

Definition lhd_io (u : uio) (d : D) : outcome (Z * uio * D) :=
  let sector := u32 (Z.quot (uio_offset u) LHD_SECTSIZE) in
  let sectoff := u32 (Z.rem (uio_offset u) LHD_SECTSIZE) in
  let len := uio_resid u / LHD_SECTSIZE in
  let lenoff := uio_resid u mod LHD_SECTSIZE in
  if negb (sectoff =? 0) || negb (lenoff =? 0) then Ok (EINVAL, u, d)
  else if u32 (sector + len) >? d_blocks d then Ok (EINVAL, u, d)
  else lhd_loop (Z.to_nat len) sector 0 u d.

(** ** Block I/O *)

Definition SFS_BLOCKSIZE : Z := 512.

(** [n] retries left. *)
Fixpoint rw_retry (n : nat) (u : uio) (d : D) : outcome (Z * uio * D) :=
  '(result, u, d) ← lhd_io u d;
  if result =? EINVAL then Panic
  else if result =? EIO then
    match n with
    | O => Ok (result, u, d)
    | S n' => rw_retry n' u d
    end
  else Ok (result, u, d).

Definition sfs_rwblock (u : uio) (d : D) : outcome (Z * uio * D) := rw_retry 10 u d.

(** [SFSUIO]: the offset is computed in [off_t], a signed 32-bit integer. *)
Definition sfsuio (ptr : list Z) (block : Z) (rw : Uio.uio_rw) : outcome uio :=
  pos ← c_int (s32 block * SFS_BLOCKSIZE);
  Ok (mk_kuio ptr SFS_BLOCKSIZE pos rw).

(** The result and the new contents of [data]. *)
Definition sfs_rblock (data : list Z) (block : Z) (d : D) : outcome (Z * list Z * D) :=
  ku ← sfsuio data block UIO_READ;
  '(result, ku, d) ← sfs_rwblock ku d;
  Ok (result, uio_buffer ku, d).

Definition sfs_wblock (data : list Z) (block : Z) (d : D) : outcome (Z * D) :=
  ku ← sfsuio data block UIO_WRITE;
  '(result, _, d) ← sfs_rwblock ku d;
  Ok (result, d).

End Disk.

(** ** On-disk structures *)

(** A 32-bit big-endian word. *)
Definition word_bytes (w : Z) : list Z :=
  [w / 16777216 mod 256; w / 65536 mod 256; w / 256 mod 256; w mod 256].

Fixpoint words_of (bs : list Z) : list Z :=
  match bs with
  | a :: b :: c :: d :: t => (a * 16777216 + b * 65536 + c * 256 + d) :: words_of t
  | _ => []
  end.

Definition bytes_of (ws : list Z) : list Z := ws ≫= word_bytes.

Definition SFS_NDIRECT : Z := 15.
Definition SFS_DBPERIDB : Z := 128.
Definition SFS_NAMELEN : Z := 60.

Record sfs_inode : Type := mk_inode {
  sfi_size : Z;
  sfi_type : Z;
  sfi_linkcount : Z;
  sfi_direct : list Z;
  sfi_indirect : Z;
  sfi_waste : list Z;
}.

(** The block of an inode; the two 16-bit fields share a word. *)
Definition inode_block (i : sfs_inode) : list Z :=
  bytes_of ([sfi_size i; sfi_type i * 65536 + sfi_linkcount i] ++ sfi_direct i ++ [sfi_indirect i] ++ sfi_waste i).

Definition block_inode (bs : list Z) : sfs_inode :=
  let ws := words_of bs in
  let w k := nth k ws 0 in
  mk_inode (w 0%nat) (w 1%nat / 65536) (w 1%nat mod 65536) (take 15 (drop 2 ws)) (w 17%nat) (drop 18 ws).

(** A directory entry: 64 bytes. *)
Record sfs_dir : Type := mk_dir {
  sfd_ino : Z;
  sfd_name : list Z;
}.

Definition dir_bytes (e : sfs_dir) : list Z := word_bytes (sfd_ino e) ++ sfd_name e.

Definition bytes_dir (bs : list Z) : sfs_dir := mk_dir (nth 0 (words_of (take 4 bs)) 0) (drop 4 bs).

(** ** Words and bytes *)

Definition word32 (w : Z) : Prop := 0 <= w < u32_mod.

Lemma words_bytes ws : Forall word32 ws -> words_of (bytes_of ws) = ws.
Proof.
  induction 1 as [|w ws Hw _ IH]; [done|]. unfold bytes_of in *. cbn [mbind list_bind app word_bytes words_of].
  rewrite IH. f_equal. unfold word32, u32_mod in Hw. lia.
Qed.

Lemma length_bytes_of ws : length (bytes_of ws) = (4 * length ws)%nat.
Proof. unfold bytes_of. induction ws as [|w ws IH]; cbn [mbind list_bind app word_bytes length]; lia. Qed.

Lemma bytes_of_byte ws : Forall byte (bytes_of ws).
Proof.
  unfold bytes_of. induction ws as [|w ws IH]; cbn [mbind list_bind app word_bytes]; [constructor|].
  repeat (constructor; [unfold byte; lia|]). done.
Qed.

Lemma words_of_spec n : forall bs, length bs = (4 * n)%nat -> Forall byte bs ->
  bytes_of (words_of bs) = bs /\ length (words_of bs) = n /\ Forall word32 (words_of bs).
Proof.
  induction n as [|n IH]; intros bs Hl Hb.
  { destruct bs; [|done]. split; [done|]. split; [done|constructor]. }
  destruct bs as [|a [|b [|c [|d t]]]]; cbn in Hl; try lia.
  apply Forall_cons_1 in Hb as [Ha Hb]. apply Forall_cons_1 in Hb as [Hb Hc]. apply Forall_cons_1 in Hc as [Hc Hd].
  apply Forall_cons_1 in Hd as [Hd Ht]. destruct (IH t ltac:(lia) Ht) as (H1 & H2 & H3). unfold byte in *.
  cbn [words_of]. split; [|split; [cbn; lia|constructor; [unfold word32, u32_mod; lia|done]]].
  unfold bytes_of in *. cbn [mbind list_bind]. rewrite H1. cbn [word_bytes app].
  do 3 (f_equal; [lia|]). f_equal. lia.
Qed.

Lemma block_words bs : is_block bs -> bytes_of (words_of bs) = bs /\ length (words_of bs) = 128%nat /\ Forall word32 (words_of bs).
Proof. intros [Hl Hb]. apply words_of_spec; [lia|done]. Qed.

Lemma words_block ws : length ws = 128%nat -> is_block (bytes_of ws).
Proof. intros Hl. split; [rewrite length_bytes_of; lia|apply bytes_of_byte]. Qed.

(** The inodes that a block can hold. *)
Record wf_inode (i : sfs_inode) : Prop := mk_wf_inode {
  wi_size : word32 (sfi_size i);
  wi_type : 0 <= sfi_type i < 65536;
  wi_link : 0 <= sfi_linkcount i < 65536;
  wi_direct : length (sfi_direct i) = 15%nat;
  wi_directs : Forall word32 (sfi_direct i);
  wi_indirect : word32 (sfi_indirect i);
  wi_waste : length (sfi_waste i) = 110%nat;
  wi_wastes : Forall word32 (sfi_waste i);
}.

Lemma inode_words i : wf_inode i ->
  words_of (inode_block i) = [sfi_size i; sfi_type i * 65536 + sfi_linkcount i] ++ sfi_direct i ++ [sfi_indirect i] ++ sfi_waste i.
Proof.
  intros []. apply words_bytes. repeat (constructor; [done || (unfold word32, u32_mod; lia)|]).
  apply list.Forall_app. split; [done|]. by constructor.
Qed.

Lemma inode_is_block i : wf_inode i -> is_block (inode_block i).
Proof. intros []. apply words_block. rewrite !length_app, wi_direct0. cbn. lia. Qed.

Lemma block_inode_id i : wf_inode i -> block_inode (inode_block i) = i.
Proof.
  intros Hw. unfold block_inode. rewrite (inode_words i Hw). destruct Hw. destruct i as [sz ty lk di ind wa]; cbn in *.
  rewrite (app_nth2 di) by lia. rewrite wi_direct0. cbn [nth Nat.sub]. f_equal; [lia|lia| |].
  - by rewrite drop_0, take_app_length'.
  - rewrite drop_app_ge by lia. by rewrite wi_direct0.
Qed.

Lemma block_inode_wf bs : is_block bs -> wf_inode (block_inode bs).
Proof.
  intros Hb. destruct (block_words bs Hb) as (_ & Hl & Hw). unfold block_inode.
  assert (forall k, word32 (nth k (words_of bs) 0)) as Hn.
  { intros k. destruct (nth_lookup_or_length (words_of bs) k 0) as [Hk|Hk]; [|rewrite nth_overflow by done; done].
    by eapply (Forall_lookup_1 _ _ _ _ Hw). }
  pose proof (Hn 1%nat) as H1. unfold word32, u32_mod in H1.
  constructor; cbn [sfi_size sfi_type sfi_linkcount sfi_direct sfi_indirect sfi_waste]; try apply Hn; try lia.
  - rewrite length_take, length_drop. lia.
  - by apply Forall_take, Forall_drop.
  - rewrite length_drop. lia.
  - by apply Forall_drop.
Qed.

Definition wf_dir (e : sfs_dir) : Prop := word32 (sfd_ino e) /\ zlen (sfd_name e) = SFS_NAMELEN /\ Forall byte (sfd_name e).

Lemma bytes_dir_id e : wf_dir e -> bytes_dir (dir_bytes e) = e.
Proof.
  intros (Hi & _). destruct e as [ino name]. unfold bytes_dir, dir_bytes. cbn in *. unfold word32, u32_mod in Hi. f_equal. lia.
Qed.

(** ** Transfers *)

(** The buffer and the position are in range, and so is the end of a transfer
    of [n] bytes. *)
Definition fits (u : uio) (n : Z) : Prop :=
  0 <= n <= uio_resid u /\ uio_resid u < u32_mod /\ n <= zlen (uio_left u) /\
  0 <= uio_offset u /\ uio_offset u + n < 2147483648.

(** A [uio] after [n] bytes, which are now [bs]. *)
Definition moved (u : uio) (bs : list Z) (n : Z) : uio :=
  mk_uio (uio_done u ++ bs) (drop (Z.to_nat n) (uio_left u)) (uio_offset u + n) (uio_resid u - n) (uio_rw u).

Lemma advance_moved u bs n : fits u n -> advance u bs n = moved u bs n.
Proof.
  intros (H1 & H2 & _ & H4 & H5). unfold advance, moved. rewrite u32_id by lia. f_equal.
  unfold s32, u32_mod. rewrite Z.mod_small; lia.
Qed.

Lemma moved_nil u : moved u [] 0 = u.
Proof. destruct u. unfold moved. cbn. by rewrite app_nil_r, Z.add_0_r, Z.sub_0_r. Qed.

Lemma uiomove_run buf n u : fits u n -> n <= zlen buf ->
  uiomove buf n u = match uio_rw u with
    | UIO_READ => Ok (buf, moved u (take (Z.to_nat n) buf) n)
    | UIO_WRITE => Ok (take (Z.to_nat n) (uio_left u) ++ drop (Z.to_nat n) buf, moved u (take (Z.to_nat n) (uio_left u)) n)
    end.
Proof.
  intros Hf Hb. pose proof Hf as (H1 & H2 & H3 & H4 & H5). unfold uiomove. cbn [uiomove_loop].
  destruct (decide (n = 0)) as [->|Hn].
  { cbn. rewrite drop_0. cbn. by destruct (uio_rw u); rewrite moved_nil. }
  rewrite !Z.gtb_ltb, !(proj2 (Z.ltb_lt 0 _)) by lia. cbn [andb].
  assert ((if n <? zlen (uio_left u) then n else zlen (uio_left u)) = n) as -> by (destruct (Z.ltb_spec n (zlen (uio_left u))); lia).
  rewrite (proj2 (Z.eqb_neq n 0)), (proj2 (Z.ltb_ge (zlen buf) n)) by lia. rewrite advance_moved by done.
  rewrite u32_id, Z.sub_diag by lia. destruct (Z.to_nat n) eqn:En; [lia|]. cbn [uiomove_loop Z.gtb Z.compare andb app].
  destruct (uio_rw u); [|done]. by rewrite take_drop.
Qed.

Lemma uiomovezeros_loop_run k : forall fuel n u, uio_rw u = UIO_READ -> fits u n -> n <= 16 * Z.of_nat k -> (k < fuel)%nat ->
  uiomovezeros_loop fuel n u = Ok (moved u (replicate (Z.to_nat n) 0) n).
Proof.
  induction k as [|k IH]; intros [|fuel] n u Hr Hf Hn Hk; try lia; cbn [uiomovezeros_loop]; pose proof Hf as (H1 & H2 & H3 & H4 & H5).
  { assert (n = 0) as -> by lia. cbn. by rewrite moved_nil. }
  destruct (Z.gtb_spec n 0) as [Hp|Hp].
  2: { assert (n = 0) as -> by lia. cbn. by rewrite moved_nil. }
  set (amt := if 16 >? n then n else 16). assert (amt = Z.min n 16) as Ea by (subst amt; destruct (Z.gtb_spec 16 n); lia).
  assert (fits u amt) as Hfa by (unfold fits; lia). rewrite uiomove_run, Hr by (done || (rewrite length_replicate; lia)). rewrite Ok_bind.
  rewrite u32_id by lia. rewrite IH; [|done| |lia|lia].
  - f_equal. unfold moved. cbn [uio_done uio_left uio_offset uio_resid uio_rw]. rewrite drop_drop, <- app_assoc.
    rewrite take_replicate, <- replicate_add. f_equal; [do 2 f_equal; lia|f_equal; lia|lia|lia].
  - unfold fits. cbn. rewrite length_drop. lia.
Qed.

Lemma uiomovezeros_run n u : uio_rw u = UIO_READ -> fits u n ->
  uiomovezeros n u = Ok (moved u (replicate (Z.to_nat n) 0) n).
Proof.
  intros Hr Hf. unfold uiomovezeros. rewrite bool_decide_true by done. cbn [c_assert]. rewrite Ok_bind.
  apply (uiomovezeros_loop_run (Z.to_nat n)); [done|done| |]; pose proof Hf as (H1 & _); lia.
Qed.

(** ** Sectors *)

Section Sectors.
Context {D : Type} {DK : Disk D} {DKL : DiskLaws D}.

(** The same disk contents, and the contents with one sector replaced. *)
Definition same_disk (d d' : D) : Prop := d_blocks d' = d_blocks d /\ forall c, sector d' c = sector d c.

Definition written (b : Z) (bs : list Z) (d d' : D) : Prop :=
  d_blocks d' = d_blocks d /\ forall c, sector d' c = if decide (c = b) then bs else sector d c.

#[global] Instance same_disk_equiv : Equivalence same_disk.
Proof.
  split.
  - by intros d.
  - intros d d' [H1 H2]. split; congruence.
  - intros d d' d'' [H1 H2] [H3 H4]. split; congruence.
Qed.

(** A [uio] for one sector: block [b] of the disk. *)
Record for_block (u : uio) (b : Z) (d : D) : Prop := mk_for_block {
  fb_offset : uio_offset u = 512 * b;
  fb_resid : uio_resid u = 512;
  fb_left : 512 <= zlen (uio_left u);
  fb_block : 0 <= b < d_blocks d;
  fb_max : b < 4194303;
}.

Lemma for_block_fits u b d : for_block u b d -> fits u 512.
Proof. intros []. unfold fits, u32_mod. lia. Qed.

Lemma lhd_io_loop u b d : for_block u b d -> lhd_io u d = lhd_loop 1 b 0 u d.
Proof.
  intros []. unfold lhd_io, LHD_SECTSIZE. rewrite fb_offset0, fb_resid0, (Z.mul_comm 512 b), Z.quot_mul, Z.rem_mul by lia.
  change (512 / 512) with 1. change (512 mod 512) with 0. change (u32 0 =? 0) with true. cbn [negb orb Z.eqb].
  rewrite (u32_id b) by (unfold u32_mod; lia). rewrite (u32_id (b + 1)) by (unfold u32_mod; lia).
  rewrite Z.gtb_ltb, (proj2 (Z.ltb_ge (d_blocks d) (b + 1))) by lia. reflexivity.
Qed.

Lemma lhd_read_run u b d : uio_rw u = UIO_READ -> for_block u b d ->
  exists r u' d', lhd_io u d = Ok (r, u', d') /\ same_disk d d' /\
    ((r = 0 /\ u' = moved u (sector d b) 512) \/ (eio D r /\ u' = u)).
Proof using DKL.
  intros Hrw Hf. rewrite (lhd_io_loop u b d Hf). pose proof (for_block_fits u b d Hf) as Hfit. destruct Hf.
  cbn [lhd_loop]. rewrite Hrw, Ok_bind, Hrw, Z.add_0_r, (u32_id b) by (unfold u32_mod; lia).
  rewrite (bool_decide_false (UIO_READ = UIO_WRITE)) by done.
  destruct (hw_status false b (replicate 512 0) d fb_block0) as (st & buf & d' & Hio & Hst & Hbl). rewrite Hio.
  destruct (hw_read b _ d st buf d' fb_block0 Hio) as [Hsame Hbuf]. rewrite (bool_decide_true (UIO_READ = UIO_READ)) by done.
  destruct Hst as [-> | ->]; cbn [lhd_code_to_errno].
  - rewrite (Hbuf eq_refl). change (lhd_code_to_errno LHD_OK) with 0. cbn [Z.eqb andb negb].
    destruct (hw_block d b fb_block0) as [Hlen _]. rewrite uiomove_run by (done || (unfold LHD_SECTSIZE; lia)). rewrite Hrw, Ok_bind.
    eexists _, _, d'. split; [reflexivity|]. split; [done|]. left. split; [done|]. unfold LHD_SECTSIZE.
    by rewrite take_ge by lia.
  - change (lhd_code_to_errno LHD_MEDIA) with EIO. cbn [Z.eqb EIO andb negb]. rewrite Ok_bind.
    exists EIO, u, d'. split; [reflexivity|]. split; [done|]. right. split; [|done]. split; [done|].
    exists b, (replicate 512 0), d. by rewrite Hio.
Qed.

Lemma rw_read_run n : forall u b d, uio_rw u = UIO_READ -> for_block u b d ->
  exists r u' d', rw_retry n u d = Ok (r, u', d') /\ same_disk d d' /\
    ((r = 0 /\ u' = moved u (sector d b) 512) \/ (eio D r /\ u' = u)).
Proof using DKL.
  induction n as [|n IH]; intros u b d Hrw Hf; cbn [rw_retry];
    destruct (lhd_read_run u b d Hrw Hf) as (r & u' & d' & -> & Hd & [[-> ->]|[[-> He] ->]]); rewrite Ok_bind; cbn [Z.eqb EIO EINVAL].
  1, 3: exists 0, (moved u (sector d b) 512), d'; split; [done|]; split; [done|by left].
  - exists EIO, u, d'. split; [done|]. split; [done|by right].
  - assert (for_block u b d') as Hf' by (destruct Hf, Hd as [E _]; constructor; rewrite ?E; done).
    destruct (IH u b d' Hrw Hf') as (r & u' & d2 & -> & Hd2 & Hr). exists r, u', d2. split; [done|].
    split; [by etrans|]. destruct Hd as [_ Hs]. by rewrite <- Hs.
Qed.

Lemma lhd_write_run `{RW : !ReliableWrites D} u b d : uio_rw u = UIO_WRITE -> for_block u b d -> Forall byte (uio_left u) ->
  exists d', lhd_io u d = Ok (0, moved u (take 512 (uio_left u)) 512, d') /\ written b (take 512 (uio_left u)) d d'.
Proof using DKL.
  intros Hrw Hf Hbytes. rewrite (lhd_io_loop u b d Hf). pose proof (for_block_fits u b d Hf) as Hfit. destruct Hf.
  cbn [lhd_loop]. rewrite Hrw, uiomove_run by (done || (rewrite length_replicate; done)). rewrite Hrw, Ok_bind.
  change (Z.to_nat LHD_SECTSIZE) with 512%nat. rewrite (drop_ge (replicate 512 0)), app_nil_r by (by rewrite length_replicate).
  rewrite Z.add_0_r, (u32_id b) by (unfold u32_mod; lia). cbn [uio_rw moved]. rewrite Hrw. set (bs := take 512 (uio_left u)).
  assert (is_block bs) as Hbs by (split; [subst bs; rewrite length_take; lia|by apply Forall_take]).
  rewrite (bool_decide_true (UIO_WRITE = UIO_WRITE)), (bool_decide_false (UIO_WRITE = UIO_READ)) by done.
  destruct (hw_status true b bs d fb_block0) as (st & buf & d' & Hio & _ & Hbl).
  pose proof (hw_write_ok b bs d fb_block0) as Hok. rewrite Hio in *. cbn in Hok. subst st.
  destruct (hw_write b bs d _ buf d' fb_block0 Hbs Hio) as [Hsame Hbuf].
  change (lhd_code_to_errno LHD_OK) with 0. cbn [Z.eqb andb negb]. rewrite Ok_bind. eexists. split; [reflexivity|].
  split; [done|]. intros c. case_decide as Hc; [subst c; by apply Hbuf|by apply Hsame].
Qed.

Lemma rw_write_run `{RW : !ReliableWrites D} u b d : uio_rw u = UIO_WRITE -> for_block u b d -> Forall byte (uio_left u) ->
  exists d', sfs_rwblock u d = Ok (0, moved u (take 512 (uio_left u)) 512, d') /\ written b (take 512 (uio_left u)) d d'.
Proof using DKL.
  intros Hrw Hf Hb. destruct (lhd_write_run u b d Hrw Hf Hb) as (d' & Hrun & Hw). exists d'. split; [|done].
  unfold sfs_rwblock. cbn [rw_retry]. by rewrite Hrun, Ok_bind.
Qed.

Definition disk_block (d : D) (b : Z) : Prop := 0 <= b < d_blocks d /\ b < 4194303.

Lemma sfsuio_run data b rw d : zlen data = 512 -> disk_block d b ->
  exists u, sfsuio data b rw = Ok u /\ u = mk_uio [] data (512 * b) 512 rw /\ for_block u b d.
Proof.
  intros Hl [Hb Hm]. unfold sfsuio, mk_kuio, SFS_BLOCKSIZE. rewrite take_ge by lia.
  assert (s32 b = b) as -> by (unfold s32, u32_mod; rewrite Z.mod_small; lia).
  rewrite c_int_id by (unfold int_min, int_max; lia). rewrite Ok_bind, (Z.mul_comm b). eexists. split; [done|]. split; [done|].
  constructor; cbn; lia.
Qed.

Lemma sfs_rblock_run data b d : zlen data = 512 -> disk_block d b ->
  exists r data' d', sfs_rblock data b d = Ok (r, data', d') /\ same_disk d d' /\
    ((r = 0 /\ data' = sector d b) \/ (eio D r /\ data' = data)).
Proof using DKL.
  intros Hl Hb. destruct (sfsuio_run data b UIO_READ d Hl Hb) as (u & Hu & Eu & Hf). unfold sfs_rblock, sfs_rwblock. rewrite Hu, Ok_bind.
  destruct (rw_read_run 10 u b d) as (r & u' & d' & -> & Hd & Hr); [by rewrite Eu|done|]. rewrite Ok_bind.
  exists r, (uio_buffer u'), d'. split; [done|]. split; [done|].
  destruct Hr as [[-> ->]|[Hr ->]]; [left|right]; (split; [done|]); rewrite Eu; unfold uio_buffer; cbn; [|done].
  by rewrite drop_ge, app_nil_r by lia.
Qed.

Lemma sfs_wblock_run `{RW : !ReliableWrites D} data b d : is_block data -> disk_block d b ->
  exists d', sfs_wblock data b d = Ok (0, d') /\ written b data d d'.
Proof using DKL.
  intros [Hl Hby] Hb. destruct (sfsuio_run data b UIO_WRITE d Hl Hb) as (u & Hu & Eu & Hf). unfold sfs_wblock. rewrite Hu, Ok_bind.
  destruct (rw_write_run u b d) as (d' & -> & Hw); [by rewrite Eu|done|by rewrite Eu|]. rewrite Ok_bind. exists d'.
  split; [done|]. rewrite Eu in Hw. cbn in Hw. rewrite take_ge in Hw by lia. done.
Qed.

(** C39. A failed write is not repeated.  When the disk reports a media error
    for a write, [sfs_rwblock] calls the driver again with the same [uio],
    which has already been consumed; the driver then has nothing to do and
    reports success.  So [sfs_wblock] returns 0 and leaves the disk as the one
    failed attempt left it, although it is meant to try ten more times and then
    return EIO. *)
Theorem sfs_wblock_lost_write data b d buf' d' :
  is_block data -> disk_block d b -> hw_io true b data d = (LHD_MEDIA, buf', d') -> sfs_wblock data b d = Ok (0, d').
Proof using DKL.
  intros [Hl Hby] Hb Hio. destruct (sfsuio_run data b UIO_WRITE d Hl Hb) as (u & Hu & Eu & Hf). unfold sfs_wblock. rewrite Hu, Ok_bind.
  assert (lhd_io u d = Ok (EIO, moved u data 512, d')) as Hfail.
  { rewrite (lhd_io_loop u b d Hf). pose proof (for_block_fits u b d Hf) as Hfit. destruct Hf. cbn [lhd_loop].
    rewrite Eu at 1. cbn [uio_rw]. rewrite uiomove_run by (done || (rewrite length_replicate; done)). rewrite Eu at 1. cbn [uio_rw]. rewrite Ok_bind.
    change (Z.to_nat LHD_SECTSIZE) with 512%nat. rewrite (drop_ge (replicate 512 0)), app_nil_r by (by rewrite length_replicate).
    replace (take 512 (uio_left u)) with data by (rewrite Eu; cbn [uio_left]; by rewrite take_ge by lia).
    cbn [uio_rw moved]. replace (uio_rw u) with UIO_WRITE by (by rewrite Eu). cbn [uio_rw].
    rewrite Z.add_0_r, (u32_id b) by (unfold u32_mod; lia). rewrite (bool_decide_true (UIO_WRITE = UIO_WRITE)) by done.
    rewrite Hio. change (lhd_code_to_errno LHD_MEDIA) with EIO. cbn [Z.eqb EIO andb negb]. rewrite Ok_bind. done. }
  assert (d_blocks d' = d_blocks d) as Hbl.
  { destruct Hb as [Hb _]. destruct (hw_status true b data d Hb) as (st & x & y & Hio' & _ & E). congruence. }
  unfold sfs_rwblock. cbn [rw_retry]. rewrite Hfail, Ok_bind. cbn [Z.eqb EIO EINVAL].
  assert (lhd_io (moved u data 512) d' = Ok (0, moved u data 512, d')) as ->; [|by rewrite Ok_bind].
  rewrite Eu. unfold lhd_io, LHD_SECTSIZE, moved. cbn [uio_offset uio_resid]. replace (512 * b + 512) with ((b + 1) * 512) by lia.
  rewrite Z.quot_mul, Z.rem_mul by lia. change ((512 - 512) / 512) with 0. change ((512 - 512) mod 512) with 0.
  change (u32 0 =? 0) with true. cbn [negb orb Z.eqb]. destruct Hb as [Hb Hm].
  rewrite (u32_id (b + 1)), Z.add_0_r, (u32_id (b + 1)), Hbl by (unfold u32_mod; lia).
  by rewrite Z.gtb_ltb, (proj2 (Z.ltb_ge _ _)) by lia.
Qed.

End Sectors.

(** ** A disk of 64 sectors, on which writes can fail *)

Record demo_disk : Type := mk_demo { dk_sectors : gmap Z (list Z); dk_bad : bool }.

Definition zero_block : list Z := replicate 512 0.

Definition valid_block (bs : list Z) : bool := (zlen bs =? 512) && forallb (fun b => (0 <=? b) && (b <? 256)) bs.

Definition dk_sector (d : demo_disk) (b : Z) : list Z :=
  let bs := default zero_block (dk_sectors d !! b) in if valid_block bs then bs else zero_block.

#[export] Instance demo_disk_ops : Disk demo_disk := {
  d_blocks _ := 64;
  hw_io w b buf d :=
    if w then (if dk_bad d then LHD_MEDIA else LHD_OK, buf, if dk_bad d then d else mk_demo (<[b := buf]> (dk_sectors d)) false)
    else (LHD_OK, dk_sector d b, d);
  sector := dk_sector;
}.

Lemma valid_block_spec bs : valid_block bs = true <-> is_block bs.
Proof.
  unfold valid_block, is_block. rewrite andb_true_iff, Z.eqb_eq, forallb_forall. split; intros [H1 H2]; (split; [done|]).
  - apply Forall_forall. intros b Hb. specialize (H2 b Hb). unfold byte. lia.
  - intros b Hb. assert (byte b) as [? ?] by (by eapply Forall_forall in H2). lia.
Qed.

Lemma zero_block_ok : is_block zero_block.
Proof. apply valid_block_spec. reflexivity. Qed.

#[export] Instance demo_disk_laws : DiskLaws demo_disk.
Proof.
  constructor; cbn.
  - intros w b buf d Hb. destruct w; [|by eexists _, _, _; split; [reflexivity|]; split; [left|]].
    destruct (dk_bad d); eexists _, _, _; (split; [reflexivity|]); split; [by right|done|by left|done].
  - intros b buf d st buf' d' Hb [= <- <- <-]. done.
  - intros b buf d st buf' d' Hb Hbl Hio. destruct d as [m []]; cbn in Hio; injection Hio as <- <- <-.
    + by split; [|intros [=]].
    + unfold dk_sector. cbn. split; [intros c Hc; by rewrite lookup_insert_ne|]. intros _. rewrite lookup_insert_eq. cbn.
      by rewrite (proj2 (valid_block_spec buf) Hbl).
  - intros d b _. unfold dk_sector. destruct (valid_block _) eqn:E; [by apply valid_block_spec|apply zero_block_ok].
Qed.

Lemma sfs_wblock_lost_write_witness :
  sfs_wblock (replicate 512 7) 9 (mk_demo ∅ true) = Ok (0, mk_demo ∅ true) /\ sector (mk_demo ∅ true) 9 = replicate 512 0.
Proof.
  split; [|reflexivity]. apply (sfs_wblock_lost_write (D := demo_disk) _ 9 (mk_demo ∅ true) (replicate 512 7)).
  - apply valid_block_spec. reflexivity.
  - split; cbn; lia.
  - reflexivity.
Defined.

End SfsDisk.
