(* ===== verification/SfsFile.v ===== *)
(** * Files of the simple file system: kern/fs/sfs/sfs_vnode.c, to sfs_io, and
    sfs_truncate

    A mounted file system is the disk, the map of free blocks, and the vnodes in
    memory.  Vnodes are structures at addresses.  The static buffers [idbuf] and
    [iobuf] are filled before every use and are local here.  The kernel does not
    lock the file system, so the operations are taken not to interleave. *)

From S2P Require Import Prelude Uio Bitmap SfsDisk.
Import Bitmap SfsDisk.

Module SfsFile.

Record sfs_vnode : Type := mk_sv {
  sv_i : sfs_inode;
  sv_ino : Z;
  sv_dirty : Z;
  vn_refcount : Z;
  vn_opencount : Z;
}.

Section Ops.
Context {D : Type} `{DK : Disk D}.

(** [sfs_vnodes] is the array of loaded vnodes; [svs] are the structures. *)
Record sfs : Type := mk_sfs {
  dev : D;
  sp_nblocks : Z;
  superdirty : Z;
  freemap : bitmap;
  freemapdirty : Z;
  sfs_vnodes : list Z;
  svs : gmap Z sfs_vnode;
}.

Definition set_dev d s := mk_sfs d (sp_nblocks s) (superdirty s) (freemap s) (freemapdirty s) (sfs_vnodes s) (svs s).
Definition set_freemap b x s := mk_sfs (dev s) (sp_nblocks s) (superdirty s) b x (sfs_vnodes s) (svs s).
Definition set_vnodes l s := mk_sfs (dev s) (sp_nblocks s) (superdirty s) (freemap s) (freemapdirty s) l (svs s).
Definition set_svs m s := mk_sfs (dev s) (sp_nblocks s) (superdirty s) (freemap s) (freemapdirty s) (sfs_vnodes s) m.

(** [sv->...] *)
Definition sv_rd (sv : Z) (s : sfs) : outcome sfs_vnode := match svs s !! sv with Some v => Ok v | None => Undef end.
Definition sv_wr (sv : Z) (v : sfs_vnode) (s : sfs) : sfs := set_svs (<[sv := v]> (svs s)) s.

Definition with_inode (v : sfs_vnode) (i : sfs_inode) (dirty : Z) : sfs_vnode :=
  mk_sv i (sv_ino v) dirty (vn_refcount v) (vn_opencount v).
Definition with_direct (i : sfs_inode) (l : list Z) : sfs_inode :=
  mk_inode (sfi_size i) (sfi_type i) (sfi_linkcount i) l (sfi_indirect i) (sfi_waste i).
Definition with_indirect (i : sfs_inode) (b : Z) : sfs_inode :=
  mk_inode (sfi_size i) (sfi_type i) (sfi_linkcount i) (sfi_direct i) b (sfi_waste i).
Definition with_size (i : sfs_inode) (n : Z) : sfs_inode :=
  mk_inode n (sfi_type i) (sfi_linkcount i) (sfi_direct i) (sfi_indirect i) (sfi_waste i).

Definition rblock (data : list Z) (block : Z) (s : sfs) : outcome (Z * list Z * sfs) :=
  '(result, data, d) ← sfs_rblock data block (dev s); Ok (result, data, set_dev d s).
Definition wblock (data : list Z) (block : Z) (s : sfs) : outcome (Z * sfs) :=
  '(result, d) ← sfs_wblock data block (dev s); Ok (result, set_dev d s).

Definition sfs_clearblock (block : Z) (s : sfs) : outcome (Z * sfs) := wblock zero_block block s.

Definition sfs_sync_inode (sv : Z) (s : sfs) : outcome (Z * sfs) :=
  v ← sv_rd sv s;
  if negb (sv_dirty v =? 0) then
    '(result, s) ← wblock (inode_block (sv_i v)) (sv_ino v) s;
    if negb (result =? 0) then Ok (result, s) else Ok (0, sv_wr sv (with_inode v (sv_i v) 0) s)
  else Ok (0, s).

(** ** Space allocation *)

(** The result and [*diskblock]. *)
Definition sfs_balloc (s : sfs) : outcome (Z * Z * sfs) :=
  '(result, ix, b) ← bitmap_alloc (freemap s);
  if negb (result =? 0) then Ok (result, 0, set_freemap b (freemapdirty s) s)
  else
    match ix with
    | None => Undef
    | Some diskblock =>
        let s := set_freemap b 1 s in
        if diskblock >=? sp_nblocks s then Panic
        else '(result, s) ← sfs_clearblock diskblock s; Ok (result, diskblock, s)
    end.

Definition sfs_bfree (diskblock : Z) (s : sfs) : outcome sfs :=
  b ← bitmap_unmark (freemap s) diskblock; Ok (set_freemap b 1 s).

Definition sfs_bused (diskblock : Z) (s : sfs) : outcome Z :=
  if diskblock >=? sp_nblocks s then Panic else bitmap_isset (freemap s) diskblock.

(** ** Block mapping *)

(** [if (block != 0 && !sfs_bused(sfs, block)) panic(...)] and the return. *)
Definition hand_back (block : Z) (s : sfs) : outcome (Z * Z * sfs) :=
  used ← (if negb (block =? 0) then sfs_bused block s else Ok 1);
  if used =? 0 then Panic else Ok (0, block, s).

Definition sfs_bmap_direct (sv fileblock : Z) (doalloc : bool) (s : sfs) : outcome (Z * Z * sfs) :=
  v ← sv_rd sv s;
  block ← rd (sfi_direct (sv_i v)) fileblock;
  if (block =? 0) && doalloc then
    '(result, block, s) ← sfs_balloc s;
    if negb (result =? 0) then Ok (result, 0, s)
    else
      l ← wr (sfi_direct (sv_i v)) fileblock block;
      hand_back block (sv_wr sv (with_inode v (with_direct (sv_i v) l) 1) s)
  else hand_back block s.

(** The part after the indirect block [idblock] is in [idbuf]. *)
Definition sfs_bmap_entry (idbuf : list Z) (idblock idoff : Z) (doalloc : bool) (s : sfs) : outcome (Z * Z * sfs) :=
  block ← rd idbuf idoff;
  if (block =? 0) && doalloc then
    '(result, block, s) ← sfs_balloc s;
    if negb (result =? 0) then Ok (result, 0, s)
    else
      idbuf ← wr idbuf idoff block;
      '(result, s) ← wblock (bytes_of idbuf) idblock s;
      if negb (result =? 0) then Ok (result, 0, s) else hand_back block s
  else hand_back block s.

Definition sfs_bmap (sv fileblock : Z) (doalloc : bool) (s : sfs) : outcome (Z * Z * sfs) :=
  if fileblock <? SFS_NDIRECT then sfs_bmap_direct sv fileblock doalloc s
  else
    let fileblock := fileblock - SFS_NDIRECT in
    let idnum := fileblock / SFS_DBPERIDB in
    let idoff := fileblock mod SFS_DBPERIDB in
    if idnum >? 0 then Ok (EINVAL, 0, s)
    else
      v ← sv_rd sv s;
      let idblock := sfi_indirect (sv_i v) in
      if (idblock =? 0) && negb doalloc then Ok (0, 0, s)
      else if idblock =? 0 then
        '(result, idblock, s) ← sfs_balloc s;
        if negb (result =? 0) then Ok (result, 0, s)
        else
          let s := sv_wr sv (with_inode v (with_indirect (sv_i v) idblock) 1) s in
          sfs_bmap_entry (replicate 128 0) idblock idoff doalloc s
      else
        '(result, idbuf, s) ← rblock zero_block idblock s;
        if negb (result =? 0) then Ok (result, 0, s)
        else sfs_bmap_entry (words_of idbuf) idblock idoff doalloc s.

(** ** File I/O *)

Definition is_write (u : uio) : bool := bool_decide (uio_rw u = UIO_WRITE).

Definition sfs_partialio (sv : Z) (u : uio) (skipstart len : Z) (s : sfs) : outcome (Z * uio * sfs) :=
  let doalloc := is_write u in
  _ ← c_assert (u32 (skipstart + len) <=? SFS_BLOCKSIZE);
  let fileblock := u32 (Z.quot (uio_offset u) SFS_BLOCKSIZE) in
  '(result, diskblock, s) ← sfs_bmap sv fileblock doalloc s;
  if negb (result =? 0) then Ok (result, u, s)
  else
    '(result, iobuf, s) ←
      (if diskblock =? 0 then _ ← c_assert (negb (is_write u)); Ok (0, zero_block, s)
       else rblock zero_block diskblock s);
    if negb (result =? 0) then Ok (result, u, s)
    else
      '(tail, u) ← uiomove (drop (Z.to_nat skipstart) iobuf) len u;
      if is_write u then
        '(result, s) ← wblock (take (Z.to_nat skipstart) iobuf ++ tail) diskblock s;
        Ok (result, u, s)
      else Ok (0, u, s).

Definition with_pos (u : uio) (offset resid : Z) : uio := mk_uio (uio_done u) (uio_left u) offset resid (uio_rw u).

Definition sfs_blockio (sv : Z) (u : uio) (s : sfs) : outcome (Z * uio * sfs) :=
  let doalloc := is_write u in
  let fileblock := u32 (Z.quot (uio_offset u) SFS_BLOCKSIZE) in
  '(result, diskblock, s) ← sfs_bmap sv fileblock doalloc s;
  if negb (result =? 0) then Ok (result, u, s)
  else if diskblock =? 0 then
    _ ← c_assert (negb (is_write u));
    u ← uiomovezeros SFS_BLOCKSIZE u;
    Ok (0, u, s)
  else
    let saveoff := uio_offset u in
    let diskoff := s32 (diskblock * SFS_BLOCKSIZE) in
    _ ← c_assert (SFS_BLOCKSIZE <=? uio_resid u);
    let saveres := s32 (uio_resid u) in
    let diskres := SFS_BLOCKSIZE in
    '(result, u, d) ← sfs_rwblock (with_pos u diskoff diskres) (dev s);
    Ok (result, with_pos u (s32 ((uio_offset u - diskoff) + saveoff)) (u32 ((uio_resid u - diskres) + saveres)), set_dev d s).

(** [for (i=0; i<nblocks; i++)], [n] rounds left. *)
Fixpoint blockio_loop (n : nat) (sv : Z) (u : uio) (s : sfs) : outcome (Z * uio * sfs) :=
  match n with
  | O => Ok (0, u, s)
  | S n' =>
      '(result, u, s) ← sfs_blockio sv u s;
      if negb (result =? 0) then Ok (result, u, s) else blockio_loop n' sv u s
  end.

(** From the first partial block to the label [out]. *)
Definition sfs_io_blocks (sv : Z) (u : uio) (s : sfs) : outcome (Z * uio * sfs) :=
  let blkoff := u32 (Z.rem (uio_offset u) SFS_BLOCKSIZE) in
  '(result, u, s) ←
    (if negb (blkoff =? 0) then
       let len := SFS_BLOCKSIZE - blkoff in
       let len := if len >? uio_resid u then uio_resid u else len in
       sfs_partialio sv u blkoff len s
     else Ok (0, u, s));
  if negb (result =? 0) then Ok (result, u, s)
  else if uio_resid u =? 0 then Ok (0, u, s)
  else
    _ ← c_assert (Z.rem (uio_offset u) SFS_BLOCKSIZE =? 0);
    '(result, u, s) ← blockio_loop (Z.to_nat (uio_resid u / SFS_BLOCKSIZE)) sv u s;
    if negb (result =? 0) then Ok (result, u, s)
    else
      _ ← c_assert (uio_resid u <? SFS_BLOCKSIZE);
      if uio_resid u >? 0 then sfs_partialio sv u 0 (uio_resid u) s else Ok (0, u, s).

(** From the label [out] on. *)
Definition sfs_io_out (sv result extraresid : Z) (u : uio) (s : sfs) : outcome (Z * uio * sfs) :=
  v ← sv_rd sv s;
  let s := if is_write u && (uio_offset u >? s32 (sfi_size (sv_i v)))
           then sv_wr sv (with_inode v (with_size (sv_i v) (u32 (uio_offset u))) 1) s else s in
  Ok (result, with_pos u (uio_offset u) (u32 (uio_resid u + extraresid)), s).

Definition sfs_io (sv : Z) (u : uio) (s : sfs) : outcome (Z * uio * sfs) :=
  v ← sv_rd sv s;
  let size := s32 (sfi_size (sv_i v)) in
  let endpos := s32 (uio_offset u + uio_resid u) in
  if negb (is_write u) && (uio_offset u >=? size) then Ok (0, u, s)
  else
    let extraresid := if negb (is_write u) && (endpos >? size) then u32 (endpos - size) else 0 in
    _ ← c_assert ((extraresid =? 0) || (uio_resid u >? extraresid));
    '(result, u, s) ← sfs_io_blocks sv (with_pos u (uio_offset u) (u32 (uio_resid u - extraresid))) s;
    sfs_io_out sv result extraresid u s.

(** ** Truncation *)

(** The loop over the direct blocks, [n] rounds left. *)
Fixpoint free_direct (n : nat) (i blocklen sv : Z) (s : sfs) : outcome sfs :=
  match n with
  | O => Ok s
  | S n' =>
      v ← sv_rd sv s;
      block ← rd (sfi_direct (sv_i v)) i;
      s ← (if (i >=? blocklen) && negb (block =? 0) then
             s ← sfs_bfree block s;
             l ← wr (sfi_direct (sv_i v)) i 0;
             Ok (sv_wr sv (with_inode v (with_direct (sv_i v) l) 1) s)
           else Ok s);
      free_direct n' (i + 1) blocklen sv s
  end.

(** The loop over the entries of the indirect block, [n] rounds left. *)
Fixpoint free_entries (n : nat) (j blocklen : Z) (idbuf : list Z) (hasnonzero iddirty : bool) (s : sfs) :
    outcome (list Z * bool * bool * sfs) :=
  match n with
  | O => Ok (idbuf, hasnonzero, iddirty, s)
  | S n' =>
      block ← rd idbuf j;
      '(idbuf, block, iddirty, s) ←
        (if (blocklen <? SFS_NDIRECT + j) && negb (block =? 0) then
           s ← sfs_bfree block s;
           idbuf ← wr idbuf j 0;
           Ok (idbuf, 0, true, s)
         else Ok (idbuf, block, iddirty, s));
      free_entries n' (j + 1) blocklen idbuf (hasnonzero || negb (block =? 0)) iddirty s
  end.

(** [if (blocklen < highblock && idblock != 0)] *)
Definition truncate_indirect (sv blocklen : Z) (s : sfs) : outcome (Z * sfs) :=
  v ← sv_rd sv s;
  let idblock := sfi_indirect (sv_i v) in
  if (blocklen <? SFS_NDIRECT + SFS_DBPERIDB - 1) && negb (idblock =? 0) then
    '(result, idbuf, s) ← rblock zero_block idblock s;
    if negb (result =? 0) then Ok (result, s)
    else
      '(idbuf, hasnonzero, iddirty, s) ← free_entries (Z.to_nat SFS_DBPERIDB) 0 blocklen (words_of idbuf) false false s;
      if negb hasnonzero then
        s ← sfs_bfree idblock s;
        v ← sv_rd sv s;
        Ok (0, sv_wr sv (with_inode v (with_indirect (sv_i v) 0) 1) s)
      else if (iddirty : bool) then wblock (bytes_of idbuf) idblock s
      else Ok (0, s)
  else Ok (0, s).

Definition sfs_truncate (sv len : Z) (s : sfs) : outcome (Z * sfs) :=
  up ← c_int (len + SFS_BLOCKSIZE - 1);
  let blocklen := u32 (Z.quot up SFS_BLOCKSIZE) in
  s ← free_direct (Z.to_nat SFS_NDIRECT) 0 blocklen sv s;
  '(result, s) ← truncate_indirect sv blocklen s;
  if negb (result =? 0) then Ok (result, s)
  else
    v ← sv_rd sv s;
    Ok (0, sv_wr sv (with_inode v (with_size (sv_i v) (u32 len)) 1) s).

End Ops.

(** ** The map of a file *)

Section File.
Context {D : Type} {DK : Disk D} {DKL : DiskLaws D}.
Local Abbreviation sfs := (sfs (D := D)).

(** The entries of the indirect block, the disk blocks of the file by position,
    and the bytes of the file; missing blocks read as zeros. *)
Definition idents (d : D) (i : sfs_inode) : list Z :=
  if sfi_indirect i =? 0 then replicate 128 0 else words_of (sector d (sfi_indirect i)).

Definition fmap (d : D) (i : sfs_inode) : list Z := sfi_direct i ++ idents d i.

Definition file_byte (d : D) (i : sfs_inode) (off : Z) : Z :=
  let b := nth (Z.to_nat (off / 512)) (fmap d i) 0 in
  if b =? 0 then 0 else nth (Z.to_nat (off mod 512)) (sector d b) 0.

(** All blocks that belong to the file. *)
Definition blocks (d : D) (i : sfs_inode) : list Z := filter (fun b => b <> 0) (sfi_indirect i :: fmap d i).

#[local] Arguments blocks : simpl never.
#[local] Arguments fmap : simpl never.
#[local] Arguments file_byte : simpl never.

(** A sane file system: blocks past its end and block 0 are in use. *)
Record fs_ok (s : sfs) : Prop := mk_fs_ok {
  fk_map : wf (freemap s);
  fk_bits : sp_nblocks s <= nbits (freemap s);
  fk_past b : sp_nblocks s <= b < nbits (freemap s) -> bit (freemap s) b = true;
  fk_zero : bit (freemap s) 0 = true;
  fk_dev : 0 <= sp_nblocks s <= d_blocks (dev s);
  fk_max : sp_nblocks s < 4194303;
}.

Definition used (s : sfs) (b : Z) : Prop := 0 < b < sp_nblocks s /\ bit (freemap s) b = true.

(** A sane file. *)
Record file_ok (s : sfs) (i : sfs_inode) : Prop := mk_file_ok {
  fo_inode : wf_inode i;
  fo_used b : b ∈ blocks (dev s) i -> used s b;
  fo_nodup : NoDup (blocks (dev s) i);
}.

(** ** Allocation *)

Lemma nonzero_insert l k b : l !! k = Some 0 -> b <> 0 ->
  filter (fun b : Z => b <> 0) (<[k := b]> l) ≡ₚ b :: filter (fun b => b <> 0) l.
Proof.
  intros Hk Hb. rewrite <- (take_drop_middle l k 0 Hk) at 2. pose proof (lookup_lt_Some _ _ _ Hk) as Hl.
  rewrite insert_take_drop by done. rewrite !list.filter_app, !filter_cons. rewrite decide_True by done. rewrite decide_False by (by intros []; done).
  symmetry. apply Permutation_middle.
Qed.

(** The state after block [b] was allocated. *)
Record alloced (s : sfs) (b : Z) (s' : sfs) : Prop := mk_alloced {
  al_range : 0 < b < sp_nblocks s;
  al_free : bit (freemap s) b = false;
  al_fs : fs_ok s';
  al_dev : written b zero_block (dev s) (dev s');
  al_bits c : 0 <= c -> bit (freemap s') c = if c =? b then true else bit (freemap s) c;
  al_rest : s' = mk_sfs (dev s') (sp_nblocks s) (superdirty s) (freemap s') (freemapdirty s') (sfs_vnodes s) (svs s);
}.

Lemma fs_block s b : fs_ok s -> 0 <= b < sp_nblocks s -> disk_block (dev s) b.
Proof. intros [] Hb. split; lia. Qed.

(** No block is free. *)
Definition full (s : sfs) : Prop := forall b, 0 <= b < sp_nblocks s -> bit (freemap s) b = true.

Lemma balloc_run `{RW : !ReliableWrites D} s : fs_ok s ->
  (exists b s', sfs_balloc s = Ok (0, b, s') /\ alloced s b s') \/ (sfs_balloc s = Ok (ENOSPC, 0, s) /\ full s).
Proof using DKL.
  intros Hfs. pose proof Hfs as []. unfold sfs_balloc.
  destruct (bitmap_alloc_run (freemap s) fk_map0) as [(b & fm & -> & Hb & Hfree & _ & Hw & Hn & Hbits)|[-> Hfull]]; rewrite Ok_bind; cbn [Z.eqb negb ENOSPC].
  2: { right. split; [by destruct s|]. intros b Hb. apply Hfull. lia. }
  left. assert (0 < b < sp_nblocks s) as Hr.
  { assert (b <> 0) by congruence. destruct (Z.lt_ge_cases b (sp_nblocks s)); [lia|]. rewrite fk_past0 in Hfree by lia. done. }
  cbn [sp_nblocks set_freemap]. rewrite Z.geb_leb, (proj2 (Z.leb_gt _ _)) by lia. unfold sfs_clearblock, wblock. cbn [dev set_freemap].
  destruct (sfs_wblock_run zero_block b (dev s)) as (d & -> & Hd); [apply zero_block_ok|by apply fs_block; [|lia]|].
  rewrite !Ok_bind. eexists b, _. split; [done|]. constructor; cbn; try done.
  constructor; cbn; try done; [lia| | |by destruct Hd as [-> _]].
  - intros c Hc. rewrite Hbits by lia. destruct (Z.eqb_spec c b); [done|]. apply fk_past0. lia.
  - rewrite Hbits by lia. by destruct (Z.eqb_spec 0 b).
Qed.

Lemma bused_run s b : fs_ok s -> used s b -> exists r, sfs_bused b s = Ok r /\ r <> 0.
Proof.
  intros [] [Hb Hbit]. unfold sfs_bused. rewrite Z.geb_leb, (proj2 (Z.leb_gt _ _)) by lia.
  destruct (bitmap_mark_unmark_isset (freemap s) b fk_map0) as [(r & Hr & Hrb) _]; [lia|]. exists r. split; [done|]. by apply Hrb.
Qed.

Lemma hand_back_run s b : fs_ok s -> b = 0 \/ used s b -> hand_back b s = Ok (0, b, s).
Proof.
  intros Hfs Hb. unfold hand_back. destruct (Z.eqb_spec b 0) as [->|Hne]; [done|]. cbn [negb].
  destruct Hb as [?|Hb]; [done|]. destruct (bused_run s b Hfs Hb) as (r & -> & Hr). rewrite Ok_bind.
  by rewrite (proj2 (Z.eqb_neq r 0)).
Qed.

(** ** The steps of a file operation *)

(** The file at [p] changes; everything else stays.  The file may take free
    blocks but gives none up. *)
Record grows (p : Z) (s : sfs) (v : sfs_vnode) (s' : sfs) (v' : sfs_vnode) : Prop := mk_grows {
  gr_fs : fs_ok s';
  gr_file : file_ok s' (sv_i v');
  gr_dev : d_blocks (dev s') = d_blocks (dev s);
  gr_rest : s' = mk_sfs (dev s') (sp_nblocks s) (superdirty s) (freemap s') (freemapdirty s') (sfs_vnodes s) (<[p := v']> (svs s));
  gr_same : (sv_ino v', vn_refcount v', vn_opencount v', sfi_type (sv_i v'), sfi_linkcount (sv_i v')) =
    (sv_ino v, vn_refcount v, vn_opencount v, sfi_type (sv_i v), sfi_linkcount (sv_i v));
  gr_bits b : 0 <= b -> bit (freemap s) b = true -> bit (freemap s') b = true;
  gr_blocks b : b ∈ blocks (dev s') (sv_i v') -> b ∈ blocks (dev s) (sv_i v) \/ bit (freemap s) b = false;
  gr_frame b : used s b -> b ∉ blocks (dev s) (sv_i v) -> sector (dev s') b = sector (dev s) b;
  gr_dirty : sv_dirty v' <> 0 \/ v' = v;
}.

Lemma grows_sv p s v s' v' : grows p s v s' v' -> svs s' !! p = Some v'.
Proof. intros [_ _ _ -> _ _ _ _ _]. cbn. by rewrite lookup_insert_eq. Qed.

Lemma grows_refl p s v : fs_ok s -> file_ok s (sv_i v) -> svs s !! p = Some v -> grows p s v s v.
Proof.
  intros Hfs Hf Hv. constructor; try done; [|by left|by right]. destruct s; cbn in *. by rewrite insert_id.
Qed.

Lemma grows_nblocks p s v s' v' : grows p s v s' v' -> sp_nblocks s' = sp_nblocks s.
Proof. by intros [_ _ _ -> _ _ _ _ _]. Qed.

Lemma grows_trans p s v s1 v1 s2 v2 : grows p s v s1 v1 -> grows p s1 v1 s2 v2 -> grows p s v s2 v2.
Proof.
  intros H1 H2. pose proof (grows_nblocks _ _ _ _ _ H1) as Hnb. pose proof H1 as []. pose proof H2 as []. constructor; try done.
  - congruence.
  - etrans; [exact gr_rest1|]. f_equal; rewrite gr_rest0; cbn; [done..|]. by rewrite insert_insert_eq.
  - congruence.
  - auto.
  - intros b Hb. destruct (gr_blocks1 b Hb) as [?|Hfree]; [auto|]. right.
    assert (0 < b < sp_nblocks s2) as [? _] by (by apply (fo_used _ _ gr_file1)).
    destruct (bit (freemap s) b) eqn:E; [|done]. rewrite gr_bits0 in Hfree by (done || lia). done.
  - intros b [Hb Hbit] Hn. rewrite <- (gr_frame0 b) by (done || by split). apply gr_frame1.
    + split; [by rewrite Hnb|]. apply gr_bits0; [lia|done].
    + intros Hin. destruct (gr_blocks0 b Hin); [done|congruence].
  - destruct gr_dirty1 as [?| ->]; [by left|done].
Qed.

(** The general case of a step that takes the block [b]. *)
Lemma grows_fresh p s v b s1 s' v' :
  svs s !! p = Some v -> file_ok s (sv_i v) -> alloced s b s1 -> wf_inode (sv_i v') ->
  fs_ok s' -> freemap s' = freemap s1 -> d_blocks (dev s') = d_blocks (dev s1) ->
  s' = mk_sfs (dev s') (sp_nblocks s1) (superdirty s1) (freemap s') (freemapdirty s') (sfs_vnodes s1) (<[p := v']> (svs s1)) ->
  (sv_ino v', vn_refcount v', vn_opencount v', sfi_type (sv_i v'), sfi_linkcount (sv_i v')) =
    (sv_ino v, vn_refcount v, vn_opencount v, sfi_type (sv_i v), sfi_linkcount (sv_i v)) ->
  blocks (dev s') (sv_i v') ≡ₚ b :: blocks (dev s) (sv_i v) ->
  (forall c, c <> b -> c ∉ blocks (dev s) (sv_i v) -> sector (dev s') c = sector (dev s) c) ->
  sv_dirty v' <> 0 \/ v' = v -> grows p s v s' v'.
Proof.
  intros Hv [] [] Hw Hfs Hfm Hdb Hrest Hsame Hperm Hsec Hdirty. pose proof Hfs as [].
  assert (sp_nblocks s' = sp_nblocks s) as Hnb by (rewrite Hrest, al_rest0; done).
  assert (forall c, 0 <= c -> bit (freemap s) c = true -> bit (freemap s') c = true) as Hbits.
  { intros c Hc Hbit. rewrite Hfm, al_bits0 by done. by destruct (c =? b). }
  constructor; try done.
  - constructor; [done|..].
    + intros c Hc. rewrite Hperm in Hc. unfold used. rewrite Hnb. apply elem_of_cons in Hc as [->|Hc].
      * split; [done|]. rewrite Hfm, al_bits0, Z.eqb_refl by lia. done.
      * destruct (fo_used0 c Hc) as [? ?]. split; [done|]. apply Hbits; [lia|done].
    + rewrite Hperm. apply list.NoDup_cons. split; [|done]. intros Hin. destruct (fo_used0 b Hin). congruence.
  - destruct al_dev0 as [E _]. congruence.
  - rewrite Hrest, al_rest0. done.
  - intros c Hc. rewrite Hperm in Hc. apply elem_of_cons in Hc as [->|Hc]; [by right|by left].
  - intros c [Hc Hbit] Hn. apply Hsec; [|done]. intros ->. congruence.
Qed.

(** ** Block mapping *)

Lemma nth_zeros k n : nth k (replicate n 0) 0 = 0.
Proof. revert k. induction n as [|n IH]; intros [|k]; cbn; auto. Qed.

(** A file has the same bytes when its blocks are the same, or missing blocks
    became blocks of zeros. *)
Lemma file_byte_ext (d : D) i (d' : D) i' :
  (forall k, (nth k (fmap d' i') 0 = nth k (fmap d i) 0 /\
      (nth k (fmap d i) 0 <> 0 -> sector d' (nth k (fmap d i) 0) = sector d (nth k (fmap d i) 0))) \/
    (nth k (fmap d i) 0 = 0 /\ sector d' (nth k (fmap d' i') 0) = zero_block)) ->
  forall off, file_byte d' i' off = file_byte d i off.
Proof.
  intros H off. unfold file_byte. destruct (H (Z.to_nat (off / 512))) as [[-> Hs]|[-> ->]].
  - destruct (Z.eqb_spec (nth (Z.to_nat (off / 512)) (fmap d i) 0) 0); [done|]. by rewrite Hs.
  - cbn [Z.eqb]. destruct (_ =? 0); [done|]. apply nth_zeros.
Qed.

Lemma nth_insert (l : list Z) k j b : (k < length l)%nat -> nth j (<[k := b]> l) 0 = if decide (j = k) then b else nth j l 0.
Proof.
  intros Hk. rewrite !nth_lookup. case_decide as Hj; [subst j; by rewrite list_lookup_insert_eq|by rewrite list_lookup_insert_ne].
Qed.

Lemma nth_fmap_block d i k : nth k (fmap d i) 0 <> 0 -> nth k (fmap d i) 0 ∈ blocks d i.
Proof.
  intros Hn. apply list_elem_of_filter. split; [done|]. right. rewrite nth_lookup in *.
  destruct (fmap d i !! k) as [b|] eqn:E; [|done]. cbn in *. by eapply list_elem_of_lookup_2.
Qed.

Lemma idents_wf s i : fs_ok s -> file_ok s i -> length (idents (dev s) i) = 128%nat /\ Forall word32 (idents (dev s) i).
Proof using DKL.
  intros Hfs []. unfold idents. destruct (Z.eqb_spec (sfi_indirect i) 0) as [|Hne].
  { split; [done|]. apply Forall_replicate. unfold word32, u32_mod. lia. }
  assert (used s (sfi_indirect i)) as [Hb _].
  { apply fo_used0. unfold blocks. apply list_elem_of_filter. split; [done|left]. }
  destruct Hfs. destruct (block_words (sector (dev s) (sfi_indirect i))) as (_ & Hl & Hw); [apply hw_block; lia|]. done.
Qed.

Lemma length_fmap s i : fs_ok s -> file_ok s i -> length (fmap (dev s) i) = 143%nat.
Proof using DKL.
  intros Hfs Hf. unfold fmap. rewrite length_app. destruct (idents_wf s i Hfs Hf) as [-> _]. destruct Hf as [[] _ _]. lia.
Qed.

(** What an allocation does to the map of the file. *)
Definition mapped (k : nat) (b : Z) (s : sfs) (v : sfs_vnode) (s' : sfs) (v' : sfs_vnode) : Prop :=
  sfi_size (sv_i v') = sfi_size (sv_i v) /\ fmap (dev s') (sv_i v') = <[k := b]> (fmap (dev s) (sv_i v)) /\
  forall off, file_byte (dev s') (sv_i v') off = file_byte (dev s) (sv_i v) off.

Lemma insert_bytes (d : D) i (d' : D) i' k b :
  (k < length (fmap d i))%nat -> nth k (fmap d i) 0 = 0 -> fmap d' i' = <[k := b]> (fmap d i) -> sector d' b = zero_block ->
  (forall j, nth j (fmap d i) 0 <> 0 -> sector d' (nth j (fmap d i) 0) = sector d (nth j (fmap d i) 0)) ->
  forall off, file_byte d' i' off = file_byte d i off.
Proof.
  intros Hk H0 Hf Hb Hs. apply file_byte_ext. intros j. rewrite Hf, nth_insert by done.
  case_decide as Hj; [right; by subst j|left; by split; [|apply Hs]].
Qed.

Lemma blocks_insert x l k b : l !! k = Some 0 -> b <> 0 ->
  filter (fun b => b <> 0) (x :: <[k := b]> l) ≡ₚ b :: filter (fun b : Z => b <> 0) (x :: l).
Proof.
  intros Hk Hb. rewrite !filter_cons. case_decide; [|by apply nonzero_insert]. rewrite (nonzero_insert l k b Hk Hb). apply Permutation_swap.
Qed.

Lemma alloced_sector s b s1 c : alloced s b s1 -> c <> b -> sector (dev s1) c = sector (dev s) c.
Proof. intros [] Hc. destruct al_dev0 as [_ ->]. by rewrite decide_False. Qed.

Lemma alloced_zero s b s1 : alloced s b s1 -> sector (dev s1) b = zero_block.
Proof. intros []. destruct al_dev0 as [_ ->]. by rewrite decide_True. Qed.

Lemma indirect_block (d : D) i : sfi_indirect i <> 0 -> sfi_indirect i ∈ blocks d i.
Proof. intros Hne. apply list_elem_of_filter. split; [done|left]. Qed.

(** Blocks of the file are not the new block. *)
Lemma alloced_new s b s1 i c : file_ok s i -> alloced s b s1 -> c ∈ blocks (dev s) i -> c <> b.
Proof. intros [] [] Hc ->. destruct (fo_used0 b Hc). congruence. Qed.

Lemma word_block s b s1 : fs_ok s -> alloced s b s1 -> word32 b.
Proof. intros [] []. unfold word32, u32_mod. lia. Qed.

Lemma direct_grows p s v s1 b k :
  fs_ok s -> svs s !! p = Some v -> file_ok s (sv_i v) -> alloced s b s1 -> sfi_direct (sv_i v) !! k = Some 0 ->
  let v' := with_inode v (with_direct (sv_i v) (<[k := b]> (sfi_direct (sv_i v)))) 1 in
  grows p s v (sv_wr p v' s1) v' /\ mapped k b s v (sv_wr p v' s1) v'.
Proof using DKL.
  intros Hfs Hv Hf Hal Hk v'. pose proof (alloced_new s b s1 (sv_i v)) as Hnew. pose proof (lookup_lt_Some _ _ _ Hk) as Hlt.
  assert (idents (dev s1) (sv_i v') = idents (dev s) (sv_i v)) as Hid.
  { unfold idents. cbn. destruct (Z.eqb_spec (sfi_indirect (sv_i v)) 0); [done|]. f_equal.
    apply (alloced_sector s b s1); [done|]. eapply Hnew; [done|done|]. by apply indirect_block. }
  assert (fmap (dev s1) (sv_i v') = <[k := b]> (fmap (dev s) (sv_i v))) as Hfm.
  { unfold fmap. rewrite Hid. cbn. by rewrite insert_app_l. }
  assert (b <> 0) as Hb0 by (destruct Hal; lia).
  assert (fmap (dev s) (sv_i v) !! k = Some 0) as Hk' by (unfold fmap; by rewrite lookup_app_l).
  split.
  - eapply (grows_fresh p s v b s1); try done.
    + destruct Hf as [[] _ _]. constructor; cbn; try done; [by rewrite length_insert|].
      apply Forall_insert; [done|]. by eapply word_block.
    + by destruct Hal as [_ _ [] _ _ _].
    + unfold blocks. cbn [dev sv_wr set_svs]. rewrite Hfm. by apply blocks_insert.
    + intros c Hc _. cbn. by eapply alloced_sector.
    + by left.
  - split; [done|]. cbn [dev sv_wr set_svs]. split; [done|]. eapply insert_bytes; [by eapply lookup_lt_Some|by rewrite nth_lookup, Hk'|done| |].
    + by eapply alloced_zero.
    + intros j Hj. eapply alloced_sector; [done|]. eapply Hnew; [done|done|by apply nth_fmap_block].
Qed.

Lemma zero_words : words_of zero_block = replicate 128 0.
Proof. reflexivity. Qed.

Lemma indirect_grows p s v s1 b :
  fs_ok s -> svs s !! p = Some v -> file_ok s (sv_i v) -> alloced s b s1 -> sfi_indirect (sv_i v) = 0 ->
  let v' := with_inode v (with_indirect (sv_i v) b) 1 in
  grows p s v (sv_wr p v' s1) v' /\ sfi_size (sv_i v') = sfi_size (sv_i v) /\
  fmap (dev s1) (sv_i v') = fmap (dev s) (sv_i v) /\
  forall off, file_byte (dev s1) (sv_i v') off = file_byte (dev s) (sv_i v) off.
Proof.
  intros Hfs Hv Hf Hal H0 v'. pose proof (alloced_new s b s1 (sv_i v)) as Hnew. assert (b <> 0) as Hb0 by (destruct Hal; lia).
  assert (fmap (dev s1) (sv_i v') = fmap (dev s) (sv_i v)) as Hfm.
  { unfold fmap, idents. cbn. rewrite H0, (proj2 (Z.eqb_neq b 0)) by done. cbn [Z.eqb]. f_equal.
    by rewrite (alloced_zero s b s1 Hal), zero_words. }
  split.
  - eapply (grows_fresh p s v b s1); try done.
    + destruct Hf as [[] _ _]. constructor; cbn; try done. by eapply word_block.
    + by destruct Hal as [_ _ [] _ _ _].
    + unfold blocks. cbn [dev sv_wr set_svs]. rewrite Hfm. change (sfi_indirect (sv_i v')) with b. rewrite H0, !filter_cons.
      rewrite decide_True by done. by rewrite decide_False by (by intros []).
    + intros c Hc _. cbn. by eapply alloced_sector.
    + by left.
  - split; [done|]. split; [done|]. apply file_byte_ext. intros k. rewrite Hfm. left. split; [done|]. intros Hk.
    eapply alloced_sector; [done|]. eapply Hnew; [done|done|by apply nth_fmap_block].
Qed.

Lemma entry_grows p s v s1 b k d2 :
  fs_ok s -> svs s !! p = Some v -> file_ok s (sv_i v) -> alloced s b s1 -> sfi_indirect (sv_i v) <> 0 ->
  idents (dev s) (sv_i v) !! k = Some 0 ->
  written (sfi_indirect (sv_i v)) (bytes_of (<[k := b]> (idents (dev s) (sv_i v)))) (dev s1) d2 ->
  grows p s v (set_dev d2 s1) v /\ mapped (15 + k) b s v (set_dev d2 s1) v.
Proof using DKL.
  intros Hfs Hv Hf Hal Hx Hk [Hdb Hw]. pose proof (alloced_new s b s1 (sv_i v)) as Hnew. assert (b <> 0) as Hb0 by (destruct Hal; lia).
  destruct (idents_wf s (sv_i v) Hfs Hf) as [Hlen Hws]. pose proof (indirect_block (dev s) (sv_i v) Hx) as Hxb.
  pose proof (Hnew _ Hf Hal Hxb) as Hxne. assert (length (sfi_direct (sv_i v)) = 15%nat) as Hld by (destruct Hf as [[] _ _]; done).
  assert (idents d2 (sv_i v) = <[k := b]> (idents (dev s) (sv_i v))) as Hid.
  { unfold idents at 1. rewrite (proj2 (Z.eqb_neq _ 0)) by done. rewrite Hw, decide_True by done.
    apply words_bytes. apply Forall_insert; [done|]. by eapply word_block. }
  assert (fmap d2 (sv_i v) = <[15 + k := b]>%nat (fmap (dev s) (sv_i v))) as Hfm.
  { unfold fmap. rewrite Hid, insert_app_r_alt by lia. do 2 f_equal. lia. }
  assert (fmap (dev s) (sv_i v) !! (15 + k)%nat = Some 0) as Hk'.
  { unfold fmap. rewrite lookup_app_r by lia. by replace (15 + k - _)%nat with k by lia. }
  assert (forall c, c <> b -> c <> sfi_indirect (sv_i v) -> sector d2 c = sector (dev s) c) as Hsec.
  { intros c Hc Hcx. rewrite Hw, decide_False by done. by eapply alloced_sector. }
  split.
  - eapply (grows_fresh p s v b s1); try done.
    + by destruct Hf.
    + destruct Hal as [_ _ [] _ _ _]. constructor; cbn; try done. by rewrite Hdb.
    + destruct Hal as [_ _ _ _ _ Hr]. rewrite Hr. cbn. by rewrite insert_id.
    + unfold blocks. cbn [dev set_dev]. rewrite Hfm. by apply blocks_insert.
    + intros c Hc Hn. cbn. apply Hsec; [done|congruence].
    + by right.
  - split; [done|]. cbn [dev set_dev]. split; [done|]. eapply insert_bytes; [by eapply lookup_lt_Some|by rewrite nth_lookup, Hk'|done| |].
    + rewrite Hw, decide_False by done. by eapply alloced_zero.
    + intros j Hj. pose proof (nth_fmap_block _ _ _ Hj) as Hjb. apply Hsec; [by eapply Hnew|].
      destruct Hf as [_ _ Hnd]. unfold blocks in Hnd. rewrite filter_cons, decide_True in Hnd by done.
      apply list.NoDup_cons in Hnd as [Hnin _]. intros E. apply Hnin. rewrite <- E. apply list_elem_of_filter. split; [done|].
      rewrite nth_lookup in *. destruct (fmap (dev s) (sv_i v) !! j) as [y|] eqn:Ey; [|done]. cbn. by eapply list_elem_of_lookup_2.
Qed.

(** Only the state of the disk changed, and not its contents. *)
Definition quiet (s s' : sfs) : Prop := exists d', same_disk (dev s) d' /\ s' = set_dev d' s.

Lemma quiet_refl s : quiet s s.
Proof. exists (dev s). split; [done|by destruct s]. Qed.

Lemma quiet_trans s s1 s2 : quiet s s1 -> quiet s1 s2 -> quiet s s2.
Proof. intros (d1 & H1 & ->) (d2 & H2 & ->). exists d2. split; [by etrans|done]. Qed.

(** What [sfs_bmap] promises. *)
Definition bmap_post (p k : Z) (doalloc : bool) (s : sfs) (v : sfs_vnode) (r b : Z) (s' : sfs) : Prop :=
  exists v', grows p s v s' v' /\ sfi_size (sv_i v') = sfi_size (sv_i v) /\
    (forall off, file_byte (dev s') (sv_i v') off = file_byte (dev s) (sv_i v) off) /\
    (doalloc = false -> quiet s s') /\
    ((r = 0 /\ nth (Z.to_nat k) (fmap (dev s') (sv_i v')) 0 = b /\ (doalloc = true -> b <> 0)) \/
     (r = ENOSPC /\ doalloc = true /\ nth (Z.to_nat k) (fmap (dev s) (sv_i v)) 0 = 0 /\ full s') \/ eio D r).

Lemma mapped_post p k s v s' v' b : fs_ok s -> file_ok s (sv_i v) -> 0 <= k < 143 ->
  grows p s v s' v' -> mapped (Z.to_nat k) b s v s' v' -> b <> 0 -> bmap_post p k true s v 0 b s'.
Proof using DKL.
  intros Hfs Hf Hk Hg (Hsz & Hfm & Hby) Hb. exists v'. split; [done|]. split; [done|]. split; [done|]. split; [done|]. left. split; [done|].
  split; [|done]. rewrite Hfm, nth_insert by (rewrite (length_fmap s) by done; lia). by rewrite decide_True.
Qed.

Lemma keep_post p k s v r b s' doalloc : fs_ok s -> file_ok s (sv_i v) -> svs s !! p = Some v -> s' = s ->
  (r = 0 /\ nth (Z.to_nat k) (fmap (dev s) (sv_i v)) 0 = b /\ (doalloc = true -> b <> 0)) \/
  (r = ENOSPC /\ doalloc = true /\ nth (Z.to_nat k) (fmap (dev s) (sv_i v)) 0 = 0 /\ full s) ->
  bmap_post p k doalloc s v r b s'.
Proof.
  intros Hfs Hf Hv -> Hr. exists v. split; [by apply grows_refl|]. split; [done|]. split; [done|]. split; [intros _; apply quiet_refl|]. tauto.
Qed.

Lemma block_used s i k : file_ok s i -> nth k (fmap (dev s) i) 0 = 0 \/ used s (nth k (fmap (dev s) i) 0).
Proof.
  intros []. destruct (decide (nth k (fmap (dev s) i) 0 = 0)); [by left|right]. by apply fo_used0, nth_fmap_block.
Qed.

(** Reading changes nothing that matters. *)
Lemma same_disk_blocks (d d' : D) i : same_disk d d' -> fmap d' i = fmap d i /\ blocks d' i = blocks d i /\
  forall off, file_byte d' i off = file_byte d i off.
Proof.
  intros [_ Hs]. assert (fmap d' i = fmap d i) as Hf by (unfold fmap, idents; by rewrite Hs).
  split; [done|]. split; [unfold blocks; by rewrite Hf|]. intros off. unfold file_byte. by rewrite Hf, Hs.
Qed.

Lemma same_disk_ok s d' : same_disk (dev s) d' -> fs_ok s -> fs_ok (set_dev d' s).
Proof. intros [Hd _] []. constructor; cbn; try done. by rewrite Hd. Qed.

Lemma read_grows p s v d' : fs_ok s -> file_ok s (sv_i v) -> svs s !! p = Some v -> same_disk (dev s) d' ->
  grows p s v (set_dev d' s) v.
Proof.
  intros Hfs Hf Hv Hd. destruct (same_disk_blocks (dev s) d' (sv_i v) Hd) as (_ & Hb & _).
  constructor; cbn; rewrite ?Hb; try done.
  - by apply same_disk_ok.
  - destruct Hf. constructor; cbn; rewrite ?Hb; done.
  - by destruct Hd.
  - by rewrite insert_id.
  - by left.
  - intros b _ _. by destruct Hd.
  - by right.
Qed.

Lemma post_trans p k doalloc s v s1 v1 r b s2 :
  grows p s v s1 v1 -> sfi_size (sv_i v1) = sfi_size (sv_i v) -> fmap (dev s1) (sv_i v1) = fmap (dev s) (sv_i v) ->
  (forall off, file_byte (dev s1) (sv_i v1) off = file_byte (dev s) (sv_i v) off) -> (doalloc = false -> quiet s s1) ->
  bmap_post p k doalloc s1 v1 r b s2 -> bmap_post p k doalloc s v r b s2.
Proof.
  intros Hg Hsz Hfm Hby Hq (v2 & Hg2 & Hsz2 & Hby2 & Hq2 & Hr). rewrite Hfm in Hr. exists v2. split; [by eapply grows_trans|]. split; [congruence|].
  split; [intros off; by rewrite Hby2|]. split; [|done]. intros Hd. eapply quiet_trans; auto.
Qed.

Lemma eio_nonzero r : eio D r -> (r =? 0) = false.
Proof. by intros [-> _]. Qed.

Lemma rblock_run s b : fs_ok s -> used s b ->
  exists r data d', rblock zero_block b s = Ok (r, data, set_dev d' s) /\ same_disk (dev s) d' /\
    ((r = 0 /\ data = sector (dev s) b) \/ eio D r).
Proof using DKL.
  intros Hfs [Hb _]. unfold rblock.
  destruct (sfs_rblock_run zero_block b (dev s)) as (r & data & d' & -> & Hd & Hr); [done|by apply fs_block; [|lia]|].
  rewrite Ok_bind. exists r, data, d'. split; [done|]. split; [done|]. naive_solver.
Qed.

Lemma bmap_direct_ok p s v k doalloc :
  (doalloc = true -> ReliableWrites D) -> fs_ok s -> svs s !! p = Some v -> file_ok s (sv_i v) -> 0 <= k < 15 ->
  exists r b s', sfs_bmap_direct p k doalloc s = Ok (r, b, s') /\ bmap_post p k doalloc s v r b s'.
Proof using DKL.
  intros HRW Hfs Hv Hf Hk. unfold sfs_bmap_direct, sv_rd. rewrite Hv, Ok_bind. pose proof Hf as [[] _ _].
  destruct (rd_in (sfi_direct (sv_i v)) k) as (b & Hb & Hl); [lia|]. rewrite Hb, Ok_bind.
  assert (nth (Z.to_nat k) (fmap (dev s) (sv_i v)) 0 = b) as Hnth.
  { rewrite nth_lookup. unfold fmap. rewrite lookup_app_l by lia. by rewrite Hl. }
  destruct (Z.eqb_spec b 0) as [->|Hne]; [destruct doalloc; cbn [andb]|].
  - specialize (HRW eq_refl) as RW. destruct (balloc_run s Hfs) as [(b & s1 & -> & Hal)|[-> Hfull]]; rewrite Ok_bind; cbn [Z.eqb negb ENOSPC].
    + assert (b <> 0) by (destruct Hal; lia). rewrite wr_in, Ok_bind by lia.
      destruct (direct_grows p s v s1 b (Z.to_nat k) Hfs Hv Hf Hal Hl) as [Hg Hm].
      rewrite hand_back_run; [|by apply (gr_fs _ _ _ _ _ Hg)|right]. 2: { destruct Hal. split; [by rewrite al_rest0|].
        cbn. rewrite al_bits0, Z.eqb_refl by lia. done. }
      eexists _, _, _. split; [done|]. eapply mapped_post; try done. lia.
    + eexists _, _, _. split; [done|]. apply keep_post; try done. by right.
  - eexists _, _, _. split; [by apply hand_back_run; [|left]|]. apply keep_post; try done. by left.
  - cbn [andb]. eexists _, _, _. split; [apply hand_back_run; [done|right]|apply keep_post; try done; by left].
    destruct (block_used s (sv_i v) (Z.to_nat k) Hf) as [H0|Hu]; congruence.
Qed.

Lemma bmap_entry_ok p s v k doalloc :
  (doalloc = true -> ReliableWrites D) -> fs_ok s -> svs s !! p = Some v -> file_ok s (sv_i v) -> 15 <= k < 143 -> sfi_indirect (sv_i v) <> 0 ->
  exists r b s', sfs_bmap_entry (idents (dev s) (sv_i v)) (sfi_indirect (sv_i v)) (k - 15) doalloc s = Ok (r, b, s') /\
    bmap_post p k doalloc s v r b s'.
Proof using DKL.
  intros HRW Hfs Hv Hf Hk Hx. unfold sfs_bmap_entry. destruct (idents_wf s (sv_i v) Hfs Hf) as [Hlen _].
  destruct (rd_in (idents (dev s) (sv_i v)) (k - 15)) as (b & Hb & Hl); [lia|]. rewrite Hb, Ok_bind.
  assert (nth (Z.to_nat k) (fmap (dev s) (sv_i v)) 0 = b) as Hnth.
  { destruct Hf as [[] _ _]. rewrite nth_lookup. unfold fmap. rewrite lookup_app_r by lia.
    by replace (Z.to_nat k - _)%nat with (Z.to_nat (k - 15)) by lia; rewrite Hl. }
  destruct (Z.eqb_spec b 0) as [->|Hne]; [destruct doalloc; cbn [andb]|].
  - specialize (HRW eq_refl) as RW. destruct (balloc_run s Hfs) as [(b & s1 & -> & Hal)|[-> Hfull]]; rewrite Ok_bind; cbn [Z.eqb negb ENOSPC].
    + assert (b <> 0) by (destruct Hal; lia). rewrite wr_in, Ok_bind by lia. unfold wblock.
      assert (used s (sfi_indirect (sv_i v))) as [Hxr _] by (apply (fo_used _ _ Hf), indirect_block; done).
      destruct (sfs_wblock_run (bytes_of (<[Z.to_nat (k - 15) := b]> (idents (dev s) (sv_i v)))) (sfi_indirect (sv_i v)) (dev s1))
        as (d2 & -> & Hw).
      { apply words_block. by rewrite length_insert. }
      { apply fs_block; [by apply (al_fs _ _ _ Hal)|]. destruct Hal. rewrite al_rest0. cbn. lia. }
      rewrite !Ok_bind. cbn [Z.eqb negb].
      destruct (entry_grows p s v s1 b (Z.to_nat (k - 15)) d2 Hfs Hv Hf Hal Hx Hl Hw) as [Hg Hm].
      rewrite hand_back_run; [|by apply (gr_fs _ _ _ _ _ Hg)|right]. 2: { destruct Hal. split; [by rewrite al_rest0|].
        cbn. rewrite al_bits0, Z.eqb_refl by lia. done. }
      eexists _, _, _. split; [done|]. eapply mapped_post; try done; [lia|]. by replace (Z.to_nat k) with (15 + Z.to_nat (k - 15))%nat by lia.
    + eexists _, _, _. split; [done|]. apply keep_post; try done. by right.
  - eexists _, _, _. split; [by apply hand_back_run; [|left]|]. apply keep_post; try done. by left.
  - cbn [andb]. eexists _, _, _. split; [apply hand_back_run; [done|right]|apply keep_post; try done; by left].
    destruct (block_used s (sv_i v) (Z.to_nat k) Hf) as [H0|Hu]; congruence.
Qed.

Lemma bmap_ok p s v k doalloc :
  (doalloc = true -> ReliableWrites D) -> fs_ok s -> svs s !! p = Some v -> file_ok s (sv_i v) -> 0 <= k < 143 ->
  exists r b s', sfs_bmap p k doalloc s = Ok (r, b, s') /\ bmap_post p k doalloc s v r b s'.
Proof using DKL.
  intros HRW Hfs Hv Hf Hk. unfold sfs_bmap, SFS_NDIRECT, SFS_DBPERIDB. destruct (Z.ltb_spec k 15); [by apply bmap_direct_ok; [..|lia]|].
  replace ((k - 15) / 128) with 0 by lia. replace ((k - 15) mod 128) with (k - 15) by lia. cbn [Z.gtb Z.compare].
  unfold sv_rd. rewrite Hv, Ok_bind.
  assert (sfi_indirect (sv_i v) = 0 -> nth (Z.to_nat k) (fmap (dev s) (sv_i v)) 0 = 0) as Hnone.
  { intros Hx. rewrite nth_lookup. unfold fmap, idents. rewrite Hx. cbn [Z.eqb]. pose proof Hf as [[] _ _].
    rewrite lookup_app_r by lia. by rewrite lookup_replicate_2 by lia. }
  destruct (Z.eqb_spec (sfi_indirect (sv_i v)) 0) as [Hx|Hx]; [destruct doalloc; cbn [andb negb]|].
  - specialize (HRW eq_refl) as RW. destruct (balloc_run s Hfs) as [(b & s1 & -> & Hal)|[-> Hfull]]; rewrite Ok_bind; cbn [Z.eqb negb ENOSPC].
    2: { eexists _, _, _. split; [done|]. apply keep_post; try done. right. split; [done|]. split; [done|]. split; [|done]. by apply Hnone. }
    destruct (indirect_grows p s v s1 b Hfs Hv Hf Hal Hx) as (Hg & Hsz & Hfm & Hby). assert (b <> 0) by (destruct Hal; lia).
    set (v1 := with_inode v (with_indirect (sv_i v) b) 1) in *. pose proof Hg as [].
    destruct (bmap_entry_ok p (sv_wr p v1 s1) v1 k true (fun _ => RW) gr_fs0) as (r & b' & s' & Hrun & Hpost); [by eapply grows_sv|done|lia|done|].
    exists r, b', s'. split; [|by eapply post_trans].
    rewrite <- Hrun. f_equal. unfold idents. cbn. rewrite (proj2 (Z.eqb_neq b 0)) by done. by rewrite (alloced_zero s b s1 Hal), zero_words.
  - eexists _, _, _. split; [done|]. apply keep_post; try done. left. split; [done|]. split; [by apply Hnone|done].
  - cbn [andb]. assert (used s (sfi_indirect (sv_i v))) as Hu by (apply (fo_used _ _ Hf), indirect_block; done).
    destruct (rblock_run s (sfi_indirect (sv_i v)) Hfs Hu) as (r & data & d' & -> & Hd & Hr). rewrite Ok_bind.
    pose proof (read_grows p s v d' Hfs Hf Hv Hd) as Hg. destruct (same_disk_blocks (dev s) d' (sv_i v) Hd) as (Hfm & _ & Hby).
    assert (quiet s (set_dev d' s)) as Hq by (by exists d').
    destruct Hr as [[-> ->]|Hr]; [|rewrite (eio_nonzero r Hr)]; cbn [Z.eqb negb].
    + pose proof Hg as []. destruct (bmap_entry_ok p (set_dev d' s) v k doalloc HRW gr_fs0 Hv gr_file0) as (r & b' & s' & Hrun & Hpost); [lia|done|].
      exists r, b', s'. split; [|by eapply post_trans]. rewrite <- Hrun. f_equal. unfold idents. cbn.
      rewrite (proj2 (Z.eqb_neq _ 0)) by done. by destruct Hd as [_ ->].
    + eexists _, _, _. split; [done|]. exists v. split; [done|]. split; [done|]. split; [done|]. split; [done|]. by right; right.
Qed.

Lemma bmap_too_far p s k doalloc : 143 <= k -> sfs_bmap p k doalloc s = Ok (EINVAL, 0, s).
Proof.
  intros Hk. unfold sfs_bmap, SFS_NDIRECT, SFS_DBPERIDB. rewrite (proj2 (Z.ltb_ge k 15)) by lia.
  rewrite Z.gtb_ltb, (proj2 (Z.ltb_lt 0 _)) by lia. done.
Qed.

(** ** Transfers between a file and a buffer *)

Lemma filter_inj (l : list Z) b : b <> 0 -> NoDup (filter (fun b => b <> 0) l) ->
  forall i j, l !! i = Some b -> l !! j = Some b -> i = j.
Proof.
  intros Hb. induction l as [|x l IH]; [done|]. intros Hnd.
  assert (forall i, l !! i = Some x -> x <> 0 -> False) as Hx.
  { intros i Hi H0. rewrite filter_cons, decide_True in Hnd by done. apply list.NoDup_cons in Hnd as [Hn _]. apply Hn.
    apply list_elem_of_filter. split; [done|]. by eapply list_elem_of_lookup_2. }
  assert (NoDup (filter (fun b => b <> 0) l)) as Hnd'.
  { rewrite filter_cons in Hnd. case_decide; [by apply list.NoDup_cons in Hnd as [_ ?]|done]. }
  intros [|i] [|j] Hi Hj; cbn in *; [done|injection Hi as ->; by edestruct Hx|injection Hj as ->; by edestruct Hx|f_equal; by apply IH].
Qed.

Lemma file_ok_inj s i j k : file_ok s i -> nth j (fmap (dev s) i) 0 <> 0 ->
  nth k (fmap (dev s) i) 0 = nth j (fmap (dev s) i) 0 -> k = j.
Proof.
  intros [_ _ Hnd] Hj E. assert (NoDup (filter (fun b => b <> 0) (fmap (dev s) i))) as Hnd'.
  { unfold blocks in Hnd. rewrite filter_cons in Hnd. case_decide; [by apply list.NoDup_cons in Hnd as [_ ?]|done]. }
  rewrite !nth_lookup in *. destruct (fmap (dev s) i !! j) as [b|] eqn:Eb; [|done]. cbn in *.
  destruct (fmap (dev s) i !! k) as [c|] eqn:Ec; cbn in E; [|congruence]. subst c. by eapply (filter_inj _ b).
Qed.

Lemma indirect_not_data s i k : file_ok s i -> sfi_indirect i <> 0 -> nth k (fmap (dev s) i) 0 <> sfi_indirect i.
Proof.
  intros [_ _ Hnd] Hx E. unfold blocks in Hnd. rewrite filter_cons, decide_True in Hnd by done.
  apply list.NoDup_cons in Hnd as [Hnin _]. apply Hnin. apply list_elem_of_filter. split; [done|]. rewrite <- E, nth_lookup.
  rewrite nth_lookup in E. destruct (fmap (dev s) i !! k) as [b|] eqn:Eb; [|cbn in E; congruence]. by eapply list_elem_of_lookup_2.
Qed.

(** A write to the block of position [k]. *)
Lemma store_grows p s v k data d' :
  fs_ok s -> svs s !! p = Some v -> file_ok s (sv_i v) -> nth k (fmap (dev s) (sv_i v)) 0 <> 0 ->
  is_block data -> written (nth k (fmap (dev s) (sv_i v)) 0) data (dev s) d' ->
  grows p s v (set_dev d' s) v /\
  forall off, 0 <= off -> file_byte d' (sv_i v) off =
    if decide (off / 512 = Z.of_nat k) then nth (Z.to_nat (off mod 512)) data 0 else file_byte (dev s) (sv_i v) off.
Proof.
  intros Hfs Hv Hf Hk Hdata [Hdb Hw]. set (b := nth k (fmap (dev s) (sv_i v)) 0) in *.
  assert (fmap d' (sv_i v) = fmap (dev s) (sv_i v)) as Hfm.
  { unfold fmap, idents. destruct (Z.eqb_spec (sfi_indirect (sv_i v)) 0) as [|Hx]; [done|]. do 2 f_equal.
    rewrite Hw, decide_False; [done|]. intros E. by apply (indirect_not_data s (sv_i v) k Hf Hx). }
  assert (blocks d' (sv_i v) = blocks (dev s) (sv_i v)) as Hbl by (unfold blocks; by rewrite Hfm).
  split.
  - constructor; cbn; rewrite ?Hbl; try done.
    + destruct Hfs. constructor; cbn; try done. by rewrite Hdb.
    + destruct Hf. constructor; cbn; rewrite ?Hbl; done.
    + by rewrite insert_id.
    + by left.
    + intros c _ Hn. rewrite Hw, decide_False; [done|]. intros ->. apply Hn. by apply nth_fmap_block.
    + by right.
  - intros off Hoff. unfold file_byte. rewrite Hfm. case_decide as Hk'.
    + replace (Z.to_nat (off / 512)) with k by lia. fold b. rewrite (proj2 (Z.eqb_neq b 0)), Hw, decide_True by done. done.
    + destruct (Z.eqb_spec (nth (Z.to_nat (off / 512)) (fmap (dev s) (sv_i v)) 0) 0) as [|Hne]; [done|].
      rewrite Hw, decide_False; [done|]. intros E. subst b. apply (file_ok_inj s) in E; [lia|done|done].
Qed.

Definition over (f : Z -> Z) (o : Z) (bs : list Z) (off : Z) : Z :=
  if decide (o <= off < o + zlen bs) then nth (Z.to_nat (off - o)) bs 0 else f off.

(** [n] bytes were transferred. *)
Definition transferred (p : Z) (u : uio) (s : sfs) (v : sfs_vnode) (n : Z) (u' : uio) (s' : sfs) (v' : sfs_vnode) : Prop :=
  grows p s v s' v' /\ sfi_size (sv_i v') = sfi_size (sv_i v) /\
  exists bs, zlen bs = n /\ u' = moved u bs n /\
    match uio_rw u with
    | UIO_READ => (forall j, 0 <= j < n -> nth (Z.to_nat j) bs 0 = file_byte (dev s) (sv_i v) (uio_offset u + j)) /\
        forall off, 0 <= off -> file_byte (dev s') (sv_i v') off = file_byte (dev s) (sv_i v) off
    | UIO_WRITE => bs = take (Z.to_nat n) (uio_left u) /\
        forall off, 0 <= off -> file_byte (dev s') (sv_i v') off = over (file_byte (dev s) (sv_i v)) (uio_offset u) bs off
    end.

Lemma transferred_none p u s v s' v' : grows p s v s' v' -> sfi_size (sv_i v') = sfi_size (sv_i v) ->
  (forall off, file_byte (dev s') (sv_i v') off = file_byte (dev s) (sv_i v) off) -> transferred p u s v 0 u s' v'.
Proof.
  intros Hg Hsz Hby. split; [done|]. split; [done|]. exists []. split; [done|]. rewrite moved_nil. split; [done|].
  destruct (uio_rw u); (split; [done || (intros; lia)|]); intros off _; [done|]. unfold over. rewrite decide_False; [done|cbn; lia].
Qed.

Lemma transferred_trans p u s v n1 u1 s1 v1 n2 u2 s2 v2 : 0 <= n1 -> 0 <= n2 -> 0 <= uio_offset u ->
  transferred p u s v n1 u1 s1 v1 -> transferred p u1 s1 v1 n2 u2 s2 v2 -> transferred p u s v (n1 + n2) u2 s2 v2.
Proof.
  intros Hn1 Hn2 Ho (Hg1 & Hs1 & b1 & Hl1 & -> & H1) (Hg2 & Hs2 & b2 & Hl2 & -> & H2). split; [by eapply grows_trans|]. split; [congruence|].
  exists (b1 ++ b2). rewrite length_app. split; [lia|]. split.
  { unfold moved. cbn. rewrite app_assoc, drop_drop. f_equal; [f_equal; lia|lia|lia]. }
  cbn [uio_rw uio_offset uio_left moved] in H2. destruct (uio_rw u); destruct H1 as [H1 F1], H2 as [H2 F2]; split.
  - intros j Hj. destruct (Z.lt_ge_cases j n1).
    + rewrite app_nth1 by lia. apply H1. lia.
    + rewrite app_nth2 by lia. replace (Z.to_nat j - length b1)%nat with (Z.to_nat (j - n1)) by lia.
      rewrite H2, F1 by lia. f_equal. lia.
  - intros off Hoff. by rewrite F2, F1.
  - rewrite H1, H2, Z2Nat.inj_add, <- take_take_drop by lia. done.
  - intros off Hoff. rewrite F2 by done. unfold over. rewrite length_app. repeat case_decide; try lia.
    + rewrite app_nth2 by lia. f_equal. lia.
    + rewrite F1 by done. unfold over. rewrite decide_True by lia. rewrite app_nth1 by lia. done.
    + rewrite F1 by done. unfold over. by rewrite decide_False by lia.
Qed.

(** The block of position [k] in the buffer. *)
Lemma iobuf_run p s v k w :
  fs_ok s -> svs s !! p = Some v -> file_ok s (sv_i v) -> (w = true -> nth k (fmap (dev s) (sv_i v)) 0 <> 0) ->
  exists r iobuf d', (if nth k (fmap (dev s) (sv_i v)) 0 =? 0 then _ ← c_assert (negb w); Ok (0, zero_block, s)
      else rblock zero_block (nth k (fmap (dev s) (sv_i v)) 0) s) = Ok (r, iobuf, set_dev d' s) /\
    same_disk (dev s) d' /\
    ((r = 0 /\ is_block iobuf /\ forall j, 0 <= j < 512 ->
        nth (Z.to_nat j) iobuf 0 = file_byte (dev s) (sv_i v) (512 * Z.of_nat k + j)) \/ eio D r).
Proof using DKL.
  intros Hfs Hv Hf Hw. set (b := nth k (fmap (dev s) (sv_i v)) 0) in *.
  assert (forall j, 0 <= j < 512 -> file_byte (dev s) (sv_i v) (512 * Z.of_nat k + j) =
    if b =? 0 then 0 else nth (Z.to_nat j) (sector (dev s) b) 0) as Hfb.
  { intros j Hj. unfold file_byte. replace (Z.to_nat ((512 * Z.of_nat k + j) / 512)) with k by lia. fold b.
    by replace ((512 * Z.of_nat k + j) mod 512) with j by lia. }
  destruct (Z.eqb_spec b 0) as [Hb|Hb].
  - destruct w; [by destruct Hw|]. cbn [negb c_assert]. rewrite Ok_bind. exists 0, zero_block, (dev s).
    split; [by destruct s|]. split; [done|]. left. split; [done|]. split; [apply zero_block_ok|]. intros j Hj. rewrite Hfb by done. apply nth_zeros.
  - destruct (block_used s (sv_i v) k Hf) as [?|Hu]; [done|]. fold b in Hu.
    destruct (rblock_run s b Hfs Hu) as (r & data & d' & -> & Hd & Hr). exists r, data, d'. split; [done|]. split; [done|].
    destruct Hr as [[-> ->]|Hr]; [left|by right]. split; [done|]. split; [|intros j Hj; by rewrite Hfb].
    destruct Hfs, Hu as [Hu _]. apply hw_block. lia.
Qed.

Lemma quot_block off : 0 <= off < 2147483648 -> u32 (Z.quot off SFS_BLOCKSIZE) = off / 512.
Proof. intros Ho. unfold SFS_BLOCKSIZE. rewrite Z.quot_div_nonneg by lia. apply u32_id. unfold u32_mod. lia. Qed.

Lemma is_write_read u : uio_rw u = UIO_READ -> is_write u = false.
Proof. intros H. unfold is_write. by rewrite H, bool_decide_false. Qed.

Lemma is_write_write u : uio_rw u = UIO_WRITE -> is_write u = true.
Proof. intros H. unfold is_write. by rewrite H, bool_decide_true. Qed.

(** Why a transfer within one block fails: a read failed, the block of a write is
    missing and none is free, or no file has a block there. *)
Definition refused (u : uio) (s : sfs) (v : sfs_vnode) (r : Z) (s' : sfs) : Prop :=
  eio D r \/
  (r = ENOSPC /\ is_write u = true /\ nth (Z.to_nat (uio_offset u / 512)) (fmap (dev s) (sv_i v)) 0 = 0 /\ full s') \/
  (r = EINVAL /\ 73216 <= uio_offset u).

Lemma refused_nonzero u s v r s' : refused u s v r s' -> (r =? 0) = false.
Proof. by intros [[-> _]|[[-> _]|[-> _]]]. Qed.

(** The end of a transfer within one block. *)
Definition chunk (p : Z) (u : uio) (len : Z) (s : sfs) (v : sfs_vnode) (o : outcome (Z * uio * sfs)) : Prop :=
  exists r n u' s' v', o = Ok (r, u', s') /\ transferred p u s v n u' s' v' /\ (is_write u = false -> quiet s s') /\
    ((r = 0 /\ n = len) \/ (n = 0 /\ refused u s v r s')).

Lemma chunk_error p u len s v r s' v' : grows p s v s' v' -> sfi_size (sv_i v') = sfi_size (sv_i v) ->
  (forall off, file_byte (dev s') (sv_i v') off = file_byte (dev s) (sv_i v) off) -> (is_write u = false -> quiet s s') ->
  refused u s v r s' -> chunk p u len s v (Ok (r, u, s')).
Proof. intros Hg Hs Hb Hq Hr. exists r, 0, u, s', v'. split; [done|]. split; [by apply transferred_none|]. split; [done|by right]. Qed.

(** A transfer goes on after steps that moved nothing. *)
Lemma chunk_after p u len s v s1 v1 o : grows p s v s1 v1 -> sfi_size (sv_i v1) = sfi_size (sv_i v) ->
  (forall off, file_byte (dev s1) (sv_i v1) off = file_byte (dev s) (sv_i v) off) -> (is_write u = false -> quiet s s1) ->
  (nth (Z.to_nat (uio_offset u / 512)) (fmap (dev s1) (sv_i v1)) 0 = 0 ->
     nth (Z.to_nat (uio_offset u / 512)) (fmap (dev s) (sv_i v)) 0 = 0 \/ is_write u = false) ->
  0 <= uio_offset u -> 0 <= len -> chunk p u len s1 v1 o -> chunk p u len s v o.
Proof.
  intros Hg Hsz Hby Hq Hm Ho Hl (r & n & u' & s' & v' & -> & Ht & Hq' & Hr). exists r, n, u', s', v'. split; [done|].
  assert (0 <= n) by lia. split; [replace n with (0 + n) by lia; eapply transferred_trans; [lia|done|lia|by apply transferred_none|done]|].
  split; [intros Hw; eapply quiet_trans; auto|]. destruct Hr as [Hr|[-> Hr]]; [by left|right]. split; [done|].
  destruct Hr as [Hr|[(-> & Hw & H0 & Hf)|Hr]]; [by left|right; left|by right; right]. split; [done|]. split; [done|]. split; [|done].
  destruct (Hm H0); congruence.
Qed.

(** Both I/O functions start with [sfs_bmap]. *)
Lemma chunk_bmap p u len s v (f : Z -> sfs -> outcome (Z * uio * sfs)) : (is_write u = true -> ReliableWrites D) ->
  fs_ok s -> svs s !! p = Some v -> file_ok s (sv_i v) -> 0 <= uio_offset u < 2147483648 -> 0 <= len ->
  (forall b s1 v1, grows p s v s1 v1 -> sfi_size (sv_i v1) = sfi_size (sv_i v) ->
     (forall off, file_byte (dev s1) (sv_i v1) off = file_byte (dev s) (sv_i v) off) ->
     nth (Z.to_nat (uio_offset u / 512)) (fmap (dev s1) (sv_i v1)) 0 = b -> (is_write u = true -> b <> 0) ->
     chunk p u len s1 v1 (f b s1)) ->
  chunk p u len s v
    ('(result, diskblock, s) ← sfs_bmap p (u32 (Z.quot (uio_offset u) SFS_BLOCKSIZE)) (is_write u) s;
     if negb (result =? 0) then Ok (result, u, s) else f diskblock s).
Proof using DKL.
  intros HRW Hfs Hv Hf Ho Hlen Hnext. rewrite quot_block by done. destruct (Z.lt_ge_cases (uio_offset u / 512) 143) as [Hk|Hk].
  2: { rewrite bmap_too_far, Ok_bind by done. cbn [Z.eqb negb EINVAL].
       eapply chunk_error; [by apply grows_refl|done|done|intros _; apply quiet_refl|]. right. right. split; [done|lia]. }
  destruct (bmap_ok p s v (uio_offset u / 512) (is_write u) HRW) as (r & b & s1 & -> & v1 & Hg & Hsz & Hby & Hq & Hr); [done|done|done|lia|].
  rewrite Ok_bind. destruct Hr as [(-> & Hb & Hb0)|Hr].
  2: { assert (refused u s v r s1) as Hr' by (unfold refused; tauto). rewrite (refused_nonzero _ _ _ _ _ Hr'). cbn [negb]. by eapply chunk_error. }
  cbn [Z.eqb negb]. eapply (chunk_after p u len s v s1 v1); try done; [|lia|by apply Hnext].
  intros H0. right. destruct (is_write u); [|done]. by destruct (Hb0 eq_refl); rewrite <- Hb.
Qed.

(** A transfer that reads [bs] out of the block. *)
Lemma chunk_read p u len s v d' bs : fs_ok s -> svs s !! p = Some v -> file_ok s (sv_i v) -> same_disk (dev s) d' ->
  uio_rw u = UIO_READ -> zlen bs = len ->
  (forall j, 0 <= j < len -> nth (Z.to_nat j) bs 0 = file_byte (dev s) (sv_i v) (uio_offset u + j)) ->
  chunk p u len s v (Ok (0, moved u bs len, set_dev d' s)).
Proof.
  intros Hfs Hv Hf Hd Hrw Hlen Hbs. destruct (same_disk_blocks (dev s) d' (sv_i v) Hd) as (_ & _ & Hby).
  exists 0, len, (moved u bs len), (set_dev d' s), v. split; [done|]. split; [|split; [by exists d'|by left]].
  split; [by apply read_grows|]. split; [done|]. exists bs. split; [done|]. split; [done|]. rewrite Hrw. split; [done|].
  intros off _. apply Hby.
Qed.

(** A transfer that replaces the block by [data]. *)
Lemma chunk_write p u len s v d' data k : fs_ok s -> svs s !! p = Some v -> file_ok s (sv_i v) ->
  uio_rw u = UIO_WRITE -> 0 <= len <= zlen (uio_left u) -> 0 <= uio_offset u -> uio_offset u / 512 = Z.of_nat k ->
  uio_offset u mod 512 + len <= 512 ->
  nth k (fmap (dev s) (sv_i v)) 0 <> 0 -> is_block data -> written (nth k (fmap (dev s) (sv_i v)) 0) data (dev s) d' ->
  (forall j, 0 <= j < 512 -> nth (Z.to_nat j) data 0 =
     over (file_byte (dev s) (sv_i v)) (uio_offset u) (take (Z.to_nat len) (uio_left u)) (512 * Z.of_nat k + j)) ->
  chunk p u len s v (Ok (0, moved u (take (Z.to_nat len) (uio_left u)) len, set_dev d' s)).
Proof.
  intros Hfs Hv Hf Hrw Hlen Ho Hk Hin Hb Hdata Hw Hover.
  destruct (store_grows p s v k data d' Hfs Hv Hf Hb Hdata Hw) as [Hg Hby].
  exists 0, len, (moved u (take (Z.to_nat len) (uio_left u)) len), (set_dev d' s), v. split; [done|].
  split; [|split; [by rewrite (is_write_write u Hrw)|by left]].
  split; [done|]. split; [done|]. exists (take (Z.to_nat len) (uio_left u)). rewrite length_take. split; [lia|]. split; [done|]. rewrite Hrw.
  split; [done|]. intros off Hoff. cbn [dev set_dev]. rewrite Hby by done. case_decide as Hk'.
  - rewrite Hover by lia. f_equal. lia.
  - unfold over. rewrite length_take. by rewrite decide_False by lia.
Qed.

(** The parts of a block around the bytes that are replaced. *)
Lemma nth_patch (a bs c : list Z) j : nth j (a ++ bs ++ c) 0 =
  if decide (j < length a)%nat then nth j a 0
  else if decide (j < length a + length bs)%nat then nth (j - length a) bs 0 else nth (j - length a - length bs) c 0.
Proof.
  repeat case_decide; [by rewrite app_nth1|rewrite app_nth2, app_nth1 by lia; done|]. rewrite !app_nth2 by lia. done.
Qed.

Lemma nth_take_lt (l : list Z) n j : (j < n)%nat -> nth j (take n l) 0 = nth j l 0.
Proof. intros Hj. by rewrite !nth_lookup, lookup_take_lt. Qed.

Lemma nth_drop_add (l : list Z) n j : nth j (drop n l) 0 = nth (n + j) l 0.
Proof. by rewrite !nth_lookup, lookup_drop. Qed.

Definition bytes_left (u : uio) : Prop := uio_rw u = UIO_WRITE -> Forall byte (uio_left u).

Lemma partialio_ok p u skip len s v :
  (is_write u = true -> ReliableWrites D) -> fs_ok s -> svs s !! p = Some v -> file_ok s (sv_i v) -> fits u len -> bytes_left u ->
  skip = uio_offset u mod 512 -> skip + len <= 512 -> chunk p u len s v (sfs_partialio p u skip len s).
Proof using DKL.
  intros HRW Hfs Hv Hf Hfit Hbytes Hskip Hin. pose proof Hfit as (H1 & H2 & H3 & H4 & H5). unfold sfs_partialio.
  rewrite (u32_id (skip + len)), (proj2 (Z.leb_le (skip + len) SFS_BLOCKSIZE)) by (unfold u32_mod, SFS_BLOCKSIZE; lia). cbn [c_assert]. rewrite Ok_bind.
  apply chunk_bmap; [done|done|done|done|lia|lia|]. intros b s1 v1 Hg Hsz Hby Hb Hb0. subst b. pose proof (grows_sv _ _ _ _ _ Hg) as Hv1. pose proof Hg as [].
  set (k := Z.to_nat (uio_offset u / 512)) in *.
  destruct (iobuf_run p s1 v1 k (is_write u) gr_fs0 Hv1 gr_file0 Hb0) as (r & iobuf & d' & -> & Hd & Hr). rewrite Ok_bind.
  destruct (same_disk_blocks (dev s1) d' (sv_i v1) Hd) as (Hfm & _ & Hbyd).
  pose proof (read_grows p s1 v1 d' gr_fs0 gr_file0 Hv1 Hd) as Hg2. pose proof Hg2 as [Hfs2 Hf2 _ _ _ _ _ _ _].
  destruct Hr as [(-> & [Hblk Hblkb] & Hnth)|Hr].
  2: { rewrite (eio_nonzero r Hr). cbn [negb]. eapply chunk_error; [done|done|done|by exists d'|by left]. }
  cbn [Z.eqb negb].
  assert (len <= zlen (drop (Z.to_nat skip) iobuf)) as Hdl by (rewrite length_drop; lia).
  rewrite uiomove_run by done. destruct (uio_rw u) eqn:Hrw; rewrite Ok_bind.
  - rewrite is_write_read by (by cbn). apply chunk_read; try done; [rewrite length_take; lia|].
    intros j Hj. rewrite nth_take_lt, nth_drop_add by lia. replace (Z.to_nat skip + Z.to_nat j)%nat with (Z.to_nat (skip + j)) by lia.
    rewrite Hnth by lia. f_equal. subst k. lia.
  - rewrite is_write_write by (by cbn). specialize (HRW (is_write_write u Hrw)) as RW. set (bs := take (Z.to_nat len) (uio_left u)).
    assert (length bs = Z.to_nat len) as Hbl by (subst bs; rewrite length_take; lia).
    assert (is_block (take (Z.to_nat skip) iobuf ++ bs ++ drop (Z.to_nat len) (drop (Z.to_nat skip) iobuf))) as Hblock.
    { split; [rewrite !length_app, length_take, !length_drop; lia|]. rewrite !list.Forall_app.
      split; [by apply Forall_take|]. split; [by apply Forall_take, Hbytes|by apply Forall_drop, Forall_drop]. }
    assert (nth k (fmap d' (sv_i v1)) 0 <> 0) as Hk0 by (rewrite Hfm; apply Hb0, is_write_write; done).
    destruct (block_used (set_dev d' s1) (sv_i v1) k Hf2) as [?|Hu]; [done|].
    unfold wblock. change (dev (set_dev d' s1)) with d'. destruct (sfs_wblock_run _ (nth k (fmap (dev s1) (sv_i v1)) 0) d' Hblock) as (d2 & -> & Hw).
    { apply (fs_block (set_dev d' s1)); [done|]. destruct Hu as [Hu _]. cbn [dev set_dev] in Hu. rewrite Hfm in Hu. lia. }
    rewrite !Ok_bind. cbn [Z.eqb]. rewrite <- Hfm in Hw.
    eapply (chunk_after p u len s1 v1 (set_dev d' s1) v1); [done|done|done|by exists d'|intros H0; left; rewrite <- Hfm; exact H0|done|lia|].
    { eapply chunk_write; try done; [lia|subst k; lia|lia|]. intros j Hj. rewrite nth_patch. unfold over. rewrite length_take, Hbl.
      cbn [dev set_dev]. subst k bs. repeat case_decide; try lia.
      - rewrite nth_take_lt, Hnth, Hbyd by lia. done.
      - f_equal. lia.
      - rewrite !nth_drop_add. replace (_ + _)%nat with (Z.to_nat j) by lia. rewrite Hnth, Hbyd by lia. done. }
Qed.

Lemma set_dev_id (s : sfs) : set_dev (dev s) s = s.
Proof. by destruct s. Qed.

(** The position is restored after the I/O. *)
Lemma restore_pos u bs b : fits u 512 -> uio_resid u < 2147483648 -> 0 <= b < 4194303 ->
  let w := with_pos u (512 * b) SFS_BLOCKSIZE in
  with_pos (moved w bs 512) (s32 ((uio_offset (moved w bs 512) - 512 * b) + uio_offset u))
    (u32 ((uio_resid (moved w bs 512) - SFS_BLOCKSIZE) + s32 (uio_resid u))) = moved u bs 512 /\
  with_pos w (s32 ((uio_offset w - 512 * b) + uio_offset u)) (u32 ((uio_resid w - SFS_BLOCKSIZE) + s32 (uio_resid u))) = u.
Proof.
  intros (H1 & H2 & H3 & H4 & H5) Hr Hb w. unfold w, with_pos, moved, SFS_BLOCKSIZE.
  cbn [uio_done uio_left uio_offset uio_resid uio_rw]. rewrite (s32_id (uio_resid u)), !s32_id, !u32_id by (unfold u32_mod; lia).
  split; [f_equal; lia|]. destruct u. cbn in *. f_equal; lia.
Qed.

Lemma blockio_ok p u s v :
  (is_write u = true -> ReliableWrites D) -> fs_ok s -> svs s !! p = Some v -> file_ok s (sv_i v) -> fits u 512 -> bytes_left u -> uio_resid u < 2147483648 ->
  uio_offset u mod 512 = 0 -> chunk p u 512 s v (sfs_blockio p u s).
Proof using DKL.
  intros HRW Hfs Hv Hf Hfit Hbytes Hres Hal. pose proof Hfit as (H1 & H2 & H3 & H4 & H5). unfold sfs_blockio.
  apply chunk_bmap; [done|done|done|done|lia|lia|]. intros b s1 v1 Hg Hsz Hby Hb Hb0. pose proof (grows_sv _ _ _ _ _ Hg) as Hv1. pose proof Hg as [].
  set (k := Z.to_nat (uio_offset u / 512)) in *. assert (uio_offset u / 512 = Z.of_nat k) as Hk by lia.
  assert (forall j, 0 <= j < 512 -> file_byte (dev s1) (sv_i v1) (uio_offset u + j) =
    if b =? 0 then 0 else nth (Z.to_nat j) (sector (dev s1) b) 0) as Hfb.
  { intros j Hj. unfold file_byte. replace (Z.to_nat ((uio_offset u + j) / 512)) with k by lia. rewrite Hb.
    by replace ((uio_offset u + j) mod 512) with j by lia. }
  destruct (Z.eqb_spec b 0) as [E|Hne].
  { destruct (uio_rw u) eqn:Hrw; [|exfalso; apply Hb0; [by apply is_write_write|done]]. rewrite is_write_read by done. cbn [negb c_assert].
    rewrite Ok_bind, uiomovezeros_run, Ok_bind by done. rewrite <- (set_dev_id s1) at 2. apply chunk_read; try done.
    intros j Hj. rewrite Hfb by done. apply nth_zeros. }
  destruct (block_used s1 (sv_i v1) k gr_file0) as [?|Hu]; [congruence|]. rewrite Hb in Hu. pose proof Hu as [Hu' _].
  pose proof gr_fs0 as []. rewrite (Z.mul_comm b), (s32_id (SFS_BLOCKSIZE * b)) by (unfold SFS_BLOCKSIZE; lia).
  change (SFS_BLOCKSIZE * b) with (512 * b).
  rewrite (proj2 (Z.leb_le SFS_BLOCKSIZE _)) by (unfold SFS_BLOCKSIZE; lia). cbn [c_assert]. rewrite Ok_bind.
  assert (for_block (with_pos u (512 * b) SFS_BLOCKSIZE) b (dev s1)) as Hfb2 by (constructor; cbn; done || lia).
  destruct (uio_rw u) eqn:Hrw.
  - destruct (rw_read_run 10 (with_pos u (512 * b) SFS_BLOCKSIZE) b (dev s1)) as (r & u' & d' & Hrun & Hd & Hr); [done|done|].
    unfold sfs_rwblock. rewrite Hrun, Ok_bind. destruct (restore_pos u (sector (dev s1) b) b Hfit Hres) as [R1 R2]; [lia|].
    destruct Hr as [[-> ->]|[Hr ->]].
    + rewrite R1. apply chunk_read; try done; [|intros j Hj; by rewrite Hfb].
      destruct (hw_block (dev s1) b) as [Hlen _]; [lia|]. lia.
    + rewrite R2. destruct (same_disk_blocks (dev s1) d' (sv_i v1) Hd) as (_ & _ & Hbyd).
      eapply chunk_error; [by apply read_grows|done|done|by exists d'|by left].
  - specialize (HRW (is_write_write u Hrw)) as RW. destruct (rw_write_run (with_pos u (512 * b) SFS_BLOCKSIZE) b (dev s1)) as (d' & Hrun & Hw); [done|done|by apply Hbytes|].
    rewrite Hrun, Ok_bind. destruct (restore_pos u (take 512 (uio_left u)) b Hfit Hres) as [R1 _]; [lia|].
    cbn [uio_left with_pos] in *. rewrite R1. rewrite <- Hb in Hw.
    eapply chunk_write; try done; [lia|congruence| |].
    + split; [rewrite length_take; lia|]. by apply Forall_take, Hbytes.
    + intros j Hj. unfold over. rewrite length_take. rewrite decide_True by lia. f_equal. lia.
Qed.

(** A transfer of [len] bytes can start, and how it ends. *)
Record ready (p : Z) (u : uio) (len : Z) (s : sfs) (v : sfs_vnode) : Prop := mk_ready {
  rd_fs : fs_ok s;
  rd_sv : svs s !! p = Some v;
  rd_file : file_ok s (sv_i v);
  rd_fits : fits u len;
  rd_bytes : bytes_left u;
  rd_resid : uio_resid u < 2147483648;
}.

(** Why a transfer stops after [n] bytes. *)
Definition stopped (u : uio) (n r : Z) (s' : sfs) : Prop :=
  eio D r \/ (r = ENOSPC /\ is_write u = true /\ full s') \/ (r = EINVAL /\ 73216 <= uio_offset u + n).

Lemma stopped_nonzero u n r s' : stopped u n r s' -> (r =? 0) = false.
Proof. by intros [[-> _]|[[-> _]|[-> _]]]. Qed.

Definition moves (p : Z) (u : uio) (len : Z) (s : sfs) (v : sfs_vnode) (o : outcome (Z * uio * sfs)) : Prop :=
  exists r n u' s' v', o = Ok (r, u', s') /\ transferred p u s v n u' s' v' /\ (is_write u = false -> quiet s s') /\ 0 <= n <= len /\
    ((r = 0 /\ n = len) \/ stopped u n r s').

Lemma chunk_moves p u len s v o : 0 <= len -> chunk p u len s v o -> moves p u len s v o.
Proof.
  intros Hl (r & n & u' & s' & v' & -> & Ht & Hq & Hr). exists r, n, u', s', v'. split; [done|]. split; [done|]. split; [done|].
  destruct Hr as [[-> ->]|[-> Hr]]; (split; [lia|]); [by left|right]. unfold stopped. rewrite Z.add_0_r. unfold refused in Hr. tauto.
Qed.

Lemma ready_step p u n1 n2 s v u1 s1 v1 : 0 <= n1 -> 0 <= n2 -> ready p u (n1 + n2) s v -> transferred p u s v n1 u1 s1 v1 ->
  ready p u1 n2 s1 v1.
Proof.
  intros Hn1 Hn2 [Hfs Hv Hf (F1 & F2 & F3 & F4 & F5) Hb Hr] (Hg & _ & bs & Hbs & -> & _). pose proof Hg as [].
  constructor; [done|by eapply grows_sv|done| | |cbn; lia].
  - unfold fits, moved. cbn. rewrite length_drop. lia.
  - intros Hrw. cbn. by apply Forall_drop, Hb.
Qed.

Lemma moves_done p u s v : ready p u 0 s v -> moves p u 0 s v (Ok (0, u, s)).
Proof.
  intros []. exists 0, 0, u, s, v. split; [done|]. split; [|split; [intros _; apply quiet_refl|split; [lia|by left]]]. apply transferred_none; [by apply grows_refl|done|done].
Qed.

Lemma transferred_pos p u s v n u' s' v' : transferred p u s v n u' s' v' ->
  uio_offset u' = uio_offset u + n /\ uio_resid u' = uio_resid u - n /\ uio_rw u' = uio_rw u.
Proof. by intros (_ & _ & bs & _ & -> & _). Qed.

Lemma moves_bind p u n1 n2 s v o (f : uio -> sfs -> outcome (Z * uio * sfs)) : 0 <= n1 -> 0 <= n2 ->
  ready p u (n1 + n2) s v -> moves p u n1 s v o ->
  (forall u1 s1 v1, ready p u1 n2 s1 v1 -> transferred p u s v n1 u1 s1 v1 -> moves p u1 n2 s1 v1 (f u1 s1)) ->
  moves p u (n1 + n2) s v ('(result, u, s) ← o; if negb (result =? 0) then Ok (result, u, s) else f u s).
Proof.
  intros Hn1 Hn2 Hrd (r & n & u1 & s1 & v1 & -> & Ht & Hq & Hn & Hr) Hf. rewrite Ok_bind. pose proof (rd_fits _ _ _ _ _ Hrd) as (_ & _ & _ & Ho & _).
  destruct Hr as [[-> ->]|Hr].
  - cbn [Z.eqb negb]. destruct (Hf u1 s1 v1) as (r & n & u2 & s2 & v2 & -> & Ht2 & Hq2 & Hn2' & Hr2); [by apply (ready_step p u n1 n2 s v)|done|].
    destruct (transferred_pos _ _ _ _ _ _ _ _ Ht) as (Ho1 & _ & Hrw). assert (is_write u1 = is_write u) as Hw by (unfold is_write; by rewrite Hrw).
    exists r, (n1 + n), u2, s2, v2. split; [done|]. split; [eapply transferred_trans; [done|lia|done|done|done]|].
    split; [intros E; eapply quiet_trans; [by apply Hq|apply Hq2; congruence]|]. split; [lia|].
    destruct Hr2 as [[-> ->]|Hr2]; [by left|right]. unfold stopped in *. rewrite Ho1, Hw, <- Z.add_assoc in Hr2. done.
  - rewrite (stopped_nonzero _ _ _ _ Hr). cbn [negb].
    exists r, n, u1, s1, v1. split; [done|]. split; [done|]. split; [done|]. split; [lia|by right].
Qed.

Lemma blockio_loop_ok p k : forall u s v, (is_write u = true -> ReliableWrites D) -> ready p u (512 * Z.of_nat k) s v -> uio_offset u mod 512 = 0 ->
  moves p u (512 * Z.of_nat k) s v (blockio_loop k p u s).
Proof using DKL.
  induction k as [|k IH]; intros u s v HRW Hrd Hal; cbn [blockio_loop]; [by apply moves_done|].
  replace (512 * Z.of_nat (S k)) with (512 + 512 * Z.of_nat k) in * by lia. pose proof Hrd as [].
  apply moves_bind; [lia|lia|done| |].
  - apply chunk_moves; [lia|]. apply blockio_ok; try done. destruct rd_fits0 as (? & ? & ? & ? & ?). unfold fits. lia.
  - intros u1 s1 v1 Hrd1 Ht. apply transferred_pos in Ht as (Ho & _ & Hrw). apply IH; [unfold is_write in *; by rewrite Hrw|done|]. rewrite Ho. lia.
Qed.

(** The whole blocks and the last partial one. *)
Lemma aligned_ok p u s v : (is_write u = true -> ReliableWrites D) -> ready p u (uio_resid u) s v -> uio_offset u mod 512 = 0 ->
  moves p u (uio_resid u) s v
    ('(result, u, s) ← blockio_loop (Z.to_nat (uio_resid u / SFS_BLOCKSIZE)) p u s;
     if negb (result =? 0) then Ok (result, u, s)
     else
       _ ← c_assert (uio_resid u <? SFS_BLOCKSIZE);
       if uio_resid u >? 0 then sfs_partialio p u 0 (uio_resid u) s else Ok (0, u, s)).
Proof using DKL.
  unfold SFS_BLOCKSIZE. intros HRW Hrd Hal. pose proof Hrd as [_ _ _ (F1 & F2 & F3 & F4 & F5) _ _].
  set (k := Z.to_nat (uio_resid u / 512)). assert (uio_resid u = 512 * Z.of_nat k + uio_resid u mod 512) as E by lia.
  rewrite E at 1. apply moves_bind; [lia|lia|by rewrite <- E| |].
  - apply blockio_loop_ok; [done| |done]. destruct Hrd. constructor; try done. unfold fits in *. lia.
  - intros u1 s1 v1 Hrd1 Ht. apply transferred_pos in Ht as (Ho & Hr & Hrw).
    assert (is_write u1 = true -> ReliableWrites D) as HRW1 by (unfold is_write in *; by rewrite Hrw).
    assert (uio_resid u1 = uio_resid u mod 512) as Hres by lia. rewrite <- Hres in *.
    rewrite (proj2 (Z.ltb_lt _ _)) by lia. cbn [c_assert]. rewrite Ok_bind.
    destruct (Z.gtb_spec (uio_resid u1) 0).
    + apply chunk_moves; [lia|]. destruct Hrd1. apply partialio_ok; try done; lia.
    + replace (uio_resid u1) with 0 in * by lia. by apply moves_done.
Qed.

Lemma io_blocks_ok p u s v : (is_write u = true -> ReliableWrites D) -> ready p u (uio_resid u) s v -> moves p u (uio_resid u) s v (sfs_io_blocks p u s).
Proof using DKL.
  intros HRW Hrd. pose proof Hrd as [_ _ _ (F1 & F2 & F3 & F4 & F5) _ _]. unfold sfs_io_blocks, SFS_BLOCKSIZE.
  rewrite Z.rem_mod_nonneg, (u32_id (uio_offset u mod 512)) by (unfold u32_mod; lia).
  set (b := uio_offset u mod 512). set (n1 := if b =? 0 then 0 else Z.min (512 - b) (uio_resid u)).
  assert (0 <= n1 <= uio_resid u) as Hn1 by (unfold n1; destruct (b =? 0); lia).
  replace (uio_resid u) with (n1 + (uio_resid u - n1)) at 1 by lia. apply moves_bind; [lia|lia|by rewrite Zplus_minus| |].
  - destruct (Z.eqb_spec b 0) as [Hb|Hb]; cbn [negb].
    + subst n1. apply moves_done. destruct Hrd. constructor; try done. unfold fits in *. lia.
    + rewrite Z.gtb_ltb. replace (if uio_resid u <? 512 - b then uio_resid u else 512 - b) with n1.
      2: { unfold n1. destruct (Z.ltb_spec (uio_resid u) (512 - b)); lia. }
      apply chunk_moves; [lia|]. destruct Hrd. apply partialio_ok; try done; [unfold fits in *; lia|unfold n1; lia].
  - intros u1 s1 v1 Hrd1 Ht. apply transferred_pos in Ht as (Ho & Hr & Hrw). rewrite <- Hr in *.
    assert (is_write u1 = true -> ReliableWrites D) as HRW1 by (unfold is_write in *; by rewrite Hrw).
    destruct (Z.eqb_spec (uio_resid u1) 0) as [H0|H0]; [rewrite H0 in *; by apply moves_done|].
    assert (uio_offset u1 mod 512 = 0) as Hal by (unfold n1 in *; destruct (Z.eqb_spec b 0); lia).
    rewrite Z.rem_mod_nonneg, Hal by lia. cbn [Z.eqb c_assert]. rewrite Ok_bind. by apply aligned_ok.
Qed.

(** ** Reading and writing a file *)

Lemma with_pos_id u : with_pos u (uio_offset u) (uio_resid u) = u.
Proof. by destruct u. Qed.

(** The size in the inode is independent of the blocks. *)
Lemma resize_grows p s v s1 v1 n : grows p s v s1 v1 -> word32 n ->
  let v2 := with_inode v1 (with_size (sv_i v1) n) 1 in
  grows p s v (sv_wr p v2 s1) v2 /\ forall off, file_byte (dev s1) (sv_i v2) off = file_byte (dev s1) (sv_i v1) off.
Proof.
  intros [Hfs Hf Hd Hr Hs Hb Hbl Hfr _] Hn v2. split; [|done]. assert (blocks (dev s1) (sv_i v2) = blocks (dev s1) (sv_i v1)) as Eb by done.
  constructor; cbn [dev sv_wr set_svs freemap]; rewrite ?Eb; try done.
  - destruct Hfs. by constructor.
  - destruct Hf as [[] Hu Hnd]. constructor; cbn [dev sv_wr set_svs]; rewrite ?Eb; [by constructor|done|done].
  - rewrite Hr. unfold sv_wr, set_svs. cbn. by rewrite insert_insert_eq.
  - by left.
Qed.

(** The bytes a file holds. *)
Definition contents (d : D) (i : sfs_inode) : list Z := (fun k => file_byte d i (Z.of_nat k)) <$> seq 0 (Z.to_nat (sfi_size i)).

Lemma contents_length d i : length (contents d i) = Z.to_nat (sfi_size i).
Proof. unfold contents. by rewrite list.length_fmap, length_seq. Qed.

Lemma contents_nth d i k : (k < Z.to_nat (sfi_size i))%nat -> contents d i !! k = Some (file_byte d i (Z.of_nat k)).
Proof. intros Hk. unfold contents. by rewrite list_lookup_fmap, lookup_seq_lt. Qed.

(** The bytes that a read at [off] of [n] bytes delivers. *)
Lemma contents_slice d i off n bs : 0 <= off -> zlen bs = n -> off + n <= sfi_size i ->
  (forall j, 0 <= j < n -> nth (Z.to_nat j) bs 0 = file_byte d i (off + j)) ->
  bs = take (Z.to_nat n) (drop (Z.to_nat off) (contents d i)).
Proof.
  intros Ho Hl Hs Hn. apply list_eq. intros k. destruct (decide (k < length bs)%nat) as [Hk|Hk].
  - rewrite lookup_take_lt, lookup_drop, contents_nth by lia. destruct (nth_lookup_or_length bs k 0) as [->|?]; [|lia].
    specialize (Hn (Z.of_nat k)). rewrite Nat2Z.id in Hn. rewrite Hn by lia. do 2 f_equal. lia.
  - rewrite lookup_ge_None_2, (lookup_ge_None_2 (take _ _)); [done| |lia]. rewrite length_take, length_drop, contents_length. lia.
Qed.

(** The bytes of a file after [bs] was written at [off]. *)
Definition write_at (off : Z) (bs c : list Z) : list Z := take (Z.to_nat off) c ++ bs ++ drop (Z.to_nat off + length bs) c.

Lemma contents_write d i d' i' off bs : 0 <= off <= sfi_size i -> sfi_size i' = Z.max (sfi_size i) (off + zlen bs) ->
  (forall x, 0 <= x -> file_byte d' i' x = over (file_byte d i) off bs x) ->
  contents d' i' = write_at off bs (contents d i).
Proof.
  intros Ho Hsz Hby. apply list_eq. intros k. unfold write_at. pose proof (contents_length d i) as Hlen.
  destruct (decide (k < Z.to_nat (sfi_size i'))%nat) as [Hk|Hk].
  2: { rewrite !lookup_ge_None_2; [done| |by rewrite contents_length; lia]. rewrite !length_app, length_take, length_drop. lia. }
  rewrite contents_nth, Hby by lia. unfold over. symmetry. case_decide as Hin.
  - rewrite lookup_app_r, length_take by (rewrite length_take; lia). rewrite lookup_app_l by lia.
    replace (k - _)%nat with (Z.to_nat (Z.of_nat k - off)) by lia. destruct (nth_lookup_or_length bs (Z.to_nat (Z.of_nat k - off)) 0); [done|lia].
  - destruct (decide (Z.of_nat k < off)) as [Hlt|Hge].
    + rewrite lookup_app_l, lookup_take_lt by (rewrite ?length_take; lia). apply contents_nth. lia.
    + rewrite lookup_app_r, lookup_app_r, lookup_drop, length_take by (rewrite ?length_take; lia).
      rewrite contents_nth by lia. do 2 f_equal. lia.
Qed.

(** The errors of an operation that writes. *)
Definition io_error (r : Z) : Prop := r = ENOSPC \/ eio D r \/ r = EINVAL.

Lemma stopped_error u n r s' : stopped u n r s' -> io_error r.
Proof. unfold stopped, io_error. tauto. Qed.

Lemma write_run `{RW : !ReliableWrites D} p u s v : ready p u (uio_resid u) s v -> sfi_size (sv_i v) < 2147483648 -> uio_rw u = UIO_WRITE ->
  exists r n s' v', sfs_io p u s = Ok (r, moved u (take (Z.to_nat n) (uio_left u)) n, s') /\
    0 <= n <= uio_resid u /\ ((r = 0 /\ n = uio_resid u) \/ stopped u n r s') /\ grows p s v s' v' /\
    sfi_size (sv_i v') = Z.max (sfi_size (sv_i v)) (uio_offset u + n) /\
    forall x, 0 <= x -> file_byte (dev s') (sv_i v') x =
      over (file_byte (dev s) (sv_i v)) (uio_offset u) (take (Z.to_nat n) (uio_left u)) x.
Proof using DKL.
  intros Hrd Hsz Hrw. pose proof Hrd as [_ Hv [[Hw _] _ _] (F1 & F2 & F3 & F4 & F5) _ _]. unfold sfs_io, sv_rd.
  assert (is_write u = true) as Hiw by (by apply is_write_write). rewrite Hv, Ok_bind, Hiw. cbn [negb andb Z.eqb orb c_assert].
  rewrite Ok_bind, Z.sub_0_r, u32_id, with_pos_id by lia.
  destruct (io_blocks_ok p u s v (fun _ => RW) Hrd) as (r & n & u' & s1 & v1 & -> & Ht & _ & Hn & Hr). rewrite Ok_bind.
  pose proof (transferred_pos _ _ _ _ _ _ _ _ Ht) as (Ho & Hres & Hrw'). destruct Ht as (Hg & Hsize & bs & Hbs & -> & Ht).
  rewrite Hrw in Ht. destruct Ht as [-> Hby]. unfold sfs_io_out, sv_rd. rewrite (grows_sv _ _ _ _ _ Hg), Ok_bind, Z.add_0_r, Hres.
  rewrite is_write_write by done. cbn [andb]. rewrite Hsize, s32_id, Ho, Z.gtb_ltb by (unfold word32 in Hw; lia).
  rewrite (u32_id (_ - n)) by lia. exists r, n.
  destruct (Z.ltb_spec (sfi_size (sv_i v)) (uio_offset u + n)) as [Hlt|Hge].
  - destruct (resize_grows p s v s1 v1 (u32 (uio_offset u + n)) Hg) as [Hg2 Hby2]; [unfold word32, u32, u32_mod; lia|].
    eexists _, _. split; [done|]. split; [done|]. split; [done|]. split; [exact Hg2|]. split; [|intros x Hx; cbn [dev sv_wr set_svs]; by rewrite Hby2, Hby].
    cbn. rewrite u32_id by (unfold u32_mod; lia). lia.
  - exists s1, v1. split; [done|]. split; [done|]. split; [done|]. split; [done|]. split; [lia|done].
Qed.

(** How many bytes a read may deliver. *)
Definition readable (u : uio) (i : sfs_inode) : Z := Z.max 0 (Z.min (uio_resid u) (sfi_size i - uio_offset u)).

Lemma read_run p u s v : ready p u (uio_resid u) s v -> sfi_size (sv_i v) < 2147483648 -> uio_rw u = UIO_READ ->
  exists r n s', sfs_io p u s = Ok (r, moved u (take (Z.to_nat n) (drop (Z.to_nat (uio_offset u)) (contents (dev s) (sv_i v)))) n, s') /\
    0 <= n <= readable u (sv_i v) /\
    ((r = 0 /\ n = readable u (sv_i v)) \/ eio D r \/ (r = EINVAL /\ 73216 <= sfi_size (sv_i v))) /\ quiet s s'.
Proof using DKL.
  intros Hrd Hsz Hrw. pose proof Hrd as [Hfs Hv Hf (F1 & F2 & F3 & F4 & F5) Hb Hr']. pose proof Hf as [[Hw _] _ _]. unfold sfs_io, sv_rd.
  rewrite Hv, Ok_bind, is_write_read, !s32_id by (done || (unfold word32 in Hw; lia)). cbn [negb andb].
  rewrite Z.geb_leb, !Z.gtb_ltb. set (size := sfi_size (sv_i v)) in *. unfold readable. fold size.
  destruct (Z.leb_spec size (uio_offset u)) as [Heof|Hlt].
  { exists 0, 0, s. rewrite moved_nil. split; [done|]. split; [lia|]. split; [left; lia|apply quiet_refl]. }
  set (extra := if size <? uio_offset u + uio_resid u then u32 (uio_offset u + uio_resid u - size) else 0).
  assert (extra = Z.max 0 (uio_offset u + uio_resid u - size)) as He.
  { unfold extra. destruct (Z.ltb_spec size (uio_offset u + uio_resid u)); [rewrite u32_id|]; lia. }
  clearbody extra. assert ((extra =? 0) || (extra <? uio_resid u) = true) as ->.
  { destruct (Z.eqb_spec extra 0); [done|]. apply orb_true_intro. right. apply Z.ltb_lt. lia. }
  cbn [c_assert]. rewrite Ok_bind, (u32_id (_ - extra)) by lia. set (u1 := with_pos u (uio_offset u) (uio_resid u - extra)).
  assert (is_write u1 = false) as Hw1 by (by apply is_write_read).
  destruct (io_blocks_ok p u1 s v) as (r & n & u' & s1 & v1 & -> & Ht & Hq & Hn & Hr).
  { by rewrite Hw1. }
  { constructor; [done|done|done| |done|cbn; lia]. unfold fits. cbn. lia. }
  cbn [uio_resid u1 with_pos] in Hn, Hr. rewrite Ok_bind. pose proof (transferred_pos _ _ _ _ _ _ _ _ Ht) as (Ho & Hres & Hrw').
  destruct Ht as (Hg & Hsize & bs & Hbs & -> & Ht). change (uio_rw u1) with (uio_rw u) in Ht. rewrite Hrw in Ht. destruct Ht as [Hbytes Hby].
  unfold sfs_io_out, sv_rd. rewrite (grows_sv _ _ _ _ _ Hg), Ok_bind. rewrite is_write_read by done. cbn [andb].
  rewrite Ho, Hres. cbn [uio_resid uio_offset u1 with_pos]. rewrite u32_id by lia. exists r, n, s1.
  rewrite <- (contents_slice (dev s) (sv_i v) (uio_offset u) n bs F4 Hbs); [|fold size; lia|exact Hbytes].
  split; [|split; [lia|split; [|by apply Hq]]].
  2: { destruct Hr as [[-> ->]|[Hr|[(_ & Hr & _)|[-> Hr]]]]; [left; lia|by right; left|congruence|]. right. right. cbn in Hr. split; [done|lia]. }
  unfold with_pos, moved. cbn. do 3 f_equal. f_equal. lia.
Qed.

End File.

Arguments io_error D {DK} r.

End SfsFile.
