(* ===== verification/SfsIo.v ===== *)
(** * Reading and writing files of the simple file system

    What sfs_io of kern/fs/sfs/sfs_vnode.c promises, on a disk that may fail
    reads, and for writes on a disk that does not fail writes, with the bytes of a file as a list: reads return a slice of it,
    writes replace one, and other files stay as they are. *)

From S2P Require Import Prelude Uio Bitmap SfsDisk SfsFile.
Import Bitmap SfsDisk SfsFile.

Module SfsIo.

Section Io.
Context {D : Type} {DK : Disk D} {DKL : DiskLaws D}.
Local Abbreviation sfs := (SfsFile.sfs (D := D)).

(** The bytes and the size determine the contents. *)
Lemma contents_ext (d d' : D) i i' : sfi_size i' = sfi_size i ->
  (forall x, 0 <= x -> file_byte d' i' x = file_byte d i x) -> contents d' i' = contents d i.
Proof. intros Hs Hb. unfold contents. rewrite Hs. apply list_fmap_ext. intros _ k _. apply Hb. lia. Qed.

(** Two files that share no block. *)
Definition apart (d : D) (i j : sfs_inode) : Prop := forall b, b ∈ blocks d i -> b ∉ blocks d j.

Lemma blocks_indirect (d : D) i : sfi_indirect i <> 0 -> sfi_indirect i ∈ blocks d i.
Proof. intros Hi. unfold blocks. apply list_elem_of_filter. split; [done|]. by left. Qed.

(** A file depends only on its own blocks. *)
Lemma blocks_same (d d' : D) i : (forall b, b ∈ blocks d i -> sector d' b = sector d b) ->
  blocks d' i = blocks d i /\ contents d' i = contents d i.
Proof.
  intros Hs. assert (SfsFile.fmap d' i = SfsFile.fmap d i) as Hf.
  { unfold SfsFile.fmap, idents. destruct (Z.eqb_spec (sfi_indirect i) 0); [done|]. by rewrite Hs by (by apply blocks_indirect). }
  split; [unfold blocks; by rewrite Hf|]. apply contents_ext; [done|]. intros x Hx. unfold file_byte. rewrite Hf.
  destruct (Z.eqb_spec (nth (Z.to_nat (x / 512)) (SfsFile.fmap d i) 0) 0) as [|Hne]; [done|]. rewrite Hs; [done|]. by apply nth_fmap_block.
Qed.

Lemma grows_other p s v s' v' i : grows p s v s' v' -> file_ok s i -> apart (dev s) (sv_i v) i ->
  blocks (dev s') i = blocks (dev s) i /\ file_ok s' i /\ apart (dev s') (sv_i v') i /\ contents (dev s') i = contents (dev s) i.
Proof.
  intros Hg Hi Ha. pose proof Hg as [_ _ _ Hrest _ Hbits Hblocks Hframe _]. pose proof Hi as [Hwf Hu Hnd].
  destruct (blocks_same (dev s) (dev s') i) as [Hb Hc]. { intros b Hb. apply Hframe; [by apply Hu|]. intros Hv. by apply (Ha b). }
  split; [done|]. split; [|split; [|done]].
  - constructor; rewrite ?Hb; [done| |done]. intros b Hbi. destruct (Hu b Hbi) as [Hr Hbit]. split; [by rewrite Hrest|].
    apply Hbits; [lia|done].
  - intros b Hbv. rewrite Hb. intros Hbi. destruct (Hblocks b Hbv) as [Hbv'|Hbf]; [by apply (Ha b)|].
    destruct (Hu b Hbi). congruence.
Qed.

(** A read is a step that keeps the file. *)
Lemma quiet_grows p s v s' : fs_ok s -> file_ok s (sv_i v) -> svs s !! p = Some v -> quiet s s' ->
  grows p s v s' v /\ contents (dev s') (sv_i v) = contents (dev s) (sv_i v).
Proof.
  intros Hfs Hf Hv (d' & Hd & ->). split; [by apply read_grows|]. apply contents_ext; [done|].
  intros x _. by apply same_disk_blocks.
Qed.

(** C23. A read returns the bytes of the file from its offset, up to its end or
    to the bytes asked for.  It stops early only with EIO, on a disk that can fail
    reads, or with EINVAL, in a file that claims at least the 143 blocks an inode
    can map; and nothing changes but the state of the disk, which keeps its
    contents. *)
Theorem sfs_io_read p u (s : sfs) v : ready p u (uio_resid u) s v -> sfi_size (sv_i v) < 2147483648 -> uio_rw u = UIO_READ ->
  exists r n s',
    sfs_io p u s = Ok (r, moved u (take (Z.to_nat n) (drop (Z.to_nat (uio_offset u)) (contents (dev s) (sv_i v)))) n, s') /\
    0 <= n <= readable u (sv_i v) /\
    ((r = 0 /\ n = readable u (sv_i v)) \/ eio D r \/ (r = EINVAL /\ 73216 <= sfi_size (sv_i v))) /\
    quiet s s' /\ contents (dev s') (sv_i v) = contents (dev s) (sv_i v).
Proof using DKL.
  intros Hrd Hsz Hrw. destruct (read_run p u s v Hrd Hsz Hrw) as (r & n & s' & Hrun & Hn & Hr & Hq).
  exists r, n, s'. destruct Hrd. destruct (quiet_grows p s v s') as [_ Hc]; done.
Qed.

(** C14. On a disk whose writes succeed, a write at an offset within the file puts
    the bytes of the buffer there, [n] of them, and extends the file if they go
    past its end; the file system stays sane.  All bytes are written unless the
    disk can fail reads (EIO), no block is free (ENOSPC), or the write has reached
    the 143 blocks an inode can map (EINVAL). *)
Theorem sfs_io_write p u (s : sfs) v : ReliableWrites D ->
  ready p u (uio_resid u) s v -> sfi_size (sv_i v) < 2147483648 -> uio_rw u = UIO_WRITE -> uio_offset u <= sfi_size (sv_i v) ->
  exists r n s' v', sfs_io p u s = Ok (r, moved u (take (Z.to_nat n) (uio_left u)) n, s') /\
    0 <= n <= uio_resid u /\ ((r = 0 /\ n = uio_resid u) \/ stopped u n r s') /\
    svs s' !! p = Some v' /\ fs_ok s' /\ file_ok s' (sv_i v') /\
    contents (dev s') (sv_i v') = write_at (uio_offset u) (take (Z.to_nat n) (uio_left u)) (contents (dev s) (sv_i v)).
Proof using DKL.
  intros RW Hrd Hsz Hrw Ho. destruct (write_run p u s v Hrd Hsz Hrw) as (r & n & s' & v' & Hrun & Hn & Hr & Hg & Hs & Hb).
  exists r, n, s', v'. pose proof (grows_sv _ _ _ _ _ Hg). pose proof Hrd as [_ _ _ (F1 & F2 & F3 & F4 & F5) _ _]. destruct Hg.
  repeat (split; [done|]). apply contents_write; [lia| |done]. rewrite length_take. lia.
Qed.

(** Reading back what a successful write put into the file, or any part
    of it, returns the bytes written, at any offset of the write. *)
Theorem sfs_io_read_back p u u2 (s : sfs) v u' s' : ReliableWrites D ->
  ready p u (uio_resid u) s v -> sfi_size (sv_i v) < 2147483648 -> uio_rw u = UIO_WRITE -> sfs_io p u s = Ok (0, u', s') ->
  uio_rw u2 = UIO_READ -> fits u2 (uio_resid u2) -> uio_offset u <= uio_offset u2 ->
  uio_offset u2 + uio_resid u2 <= uio_offset u + uio_resid u ->
  exists r n s2, sfs_io p u2 s' =
      Ok (r, moved u2 (take (Z.to_nat n) (drop (Z.to_nat (uio_offset u2 - uio_offset u)) (uio_left u))) n, s2) /\
    ((r = 0 /\ n = uio_resid u2) \/ eio D r \/ (r = EINVAL /\ 73216 <= Z.max (sfi_size (sv_i v)) (uio_offset u + uio_resid u))).
Proof using DKL.
  intros RW Hrd Hsz Hrw Hrun Hrw2 Hfit2 Hlo Hhi. pose proof Hrd as [_ _ _ (F1 & F2 & F3 & F4 & F5) _ _]. pose proof Hfit2 as (G1 & _ & _ & _ & G5).
  destruct (write_run p u s v Hrd Hsz Hrw) as (r & n & s1 & v1 & Hrun' & Hn & Hr & Hg & Hs & Hb). rewrite Hrun in Hrun'.
  injection Hrun' as <- _ <-. destruct Hr as [[_ ->]|Hr%stopped_nonzero]; [|done].
  destruct (read_run p u2 s' v1) as (r & n & s2 & -> & Hn2 & Hr & _); [|lia|done|].
  { pose proof (grows_sv _ _ _ _ _ Hg). destruct Hg. constructor; try done; [congruence|lia]. }
  assert (readable u2 (sv_i v1) = uio_resid u2) as Hrb by (unfold readable; lia). rewrite Hrb in *.
  exists r, n, s2. split; [|destruct Hr as [?|[?|[-> ?]]]; [by left|by right; left|right; right; lia]]. do 3 f_equal. f_equal. symmetry. apply contents_slice; [lia| |lia|].
  { rewrite length_take, length_drop. lia. }
  intros j Hj. rewrite Hb by lia. unfold over. rewrite length_take, decide_True by lia. rewrite !nth_take_lt, nth_drop_add by lia.
  f_equal. lia.
Qed.

(** Reading or writing one file leaves every file that shares no block
    with it as it was, also when it fails half-way. *)
Theorem sfs_io_other_files p u (s : sfs) v i : ReliableWrites D -> ready p u (uio_resid u) s v -> sfi_size (sv_i v) < 2147483648 ->
  file_ok s i -> apart (dev s) (sv_i v) i ->
  exists r u' s' v', sfs_io p u s = Ok (r, u', s') /\ svs s' !! p = Some v' /\
    file_ok s' i /\ apart (dev s') (sv_i v') i /\ contents (dev s') i = contents (dev s) i /\
    forall q, q <> p -> svs s' !! q = svs s !! q.
Proof using DKL.
  intros RW Hrd Hsz Hi Ha.
  assert (exists r u' s' v', sfs_io p u s = Ok (r, u', s') /\ grows p s v s' v') as (r & u' & s' & v' & -> & Hg).
  { destruct (uio_rw u) eqn:Hrw.
    - destruct (read_run p u s v Hrd Hsz Hrw) as (r & n & s' & H & _ & _ & Hq). eexists _, _, _, v. split; [done|].
      destruct Hrd. by apply quiet_grows.
    - destruct (write_run p u s v Hrd Hsz Hrw) as (r & n & s' & v' & H & _ & _ & Hg & _). eexists _, _, _, _. by split. }
  destruct (grows_other p s v s' v' i Hg Hi Ha) as (_ & ? & ? & ?). exists r, u', s', v'. pose proof (grows_sv _ _ _ _ _ Hg).
  repeat (split; [done|]). intros q Hq. destruct Hg as [_ _ _ -> _ _ _ _ _]. cbn. by apply lookup_insert_ne.
Qed.

End Io.

(** ** A disk of 64 sectors with a small file system *)

Record good_disk : Type := mk_good { gd_sectors : gmap Z (list Z) }.

Definition gd_sector (d : good_disk) (b : Z) : list Z := dk_sector (mk_demo (gd_sectors d) false) b.

#[export] Instance good_disk_ops : Disk good_disk := {
  d_blocks _ := 64;
  hw_io w b buf d := if w then (LHD_OK, buf, mk_good (<[b := buf]> (gd_sectors d))) else (LHD_OK, gd_sector d b, d);
  sector := gd_sector;
}.

#[export] Instance good_disk_laws : DiskLaws good_disk.
Proof.
  constructor; cbn.
  - intros w b buf d Hb. destruct w; eexists _, _, _; (split; [reflexivity|]); (split; [by left|done]).
  - intros b buf d st buf' d' Hb [= <- <- <-]. done.
  - intros b buf d st buf' d' Hb Hbl [= <- <- <-]. unfold gd_sector, dk_sector. cbn. split.
    + intros c Hc. by rewrite lookup_insert_ne.
    + intros _. rewrite lookup_insert_eq. cbn. by rewrite (proj2 (valid_block_spec buf) Hbl).
  - intros d b Hb. exact (hw_block (mk_demo (gd_sectors d) false) b Hb).
Qed.

#[export] Instance good_disk_writes : ReliableWrites good_disk.
Proof. intros b buf d _. reflexivity. Qed.

(** Nor do reads fail. *)
Lemma good_disk_reads r : ~ eio good_disk r.
Proof. intros (_ & b & buf & d & _ & H). discriminate H. Qed.

(** One file, inode 4, vnode at 16, one data block 5 full of sevens. *)
Definition demo_inode : sfs_inode := mk_inode 512 1 1 (5 :: replicate 14 0) 0 (replicate 110 0).

Definition demo_sv : sfs_vnode := mk_sv demo_inode 4 0 1 1.

Definition demo_fs : SfsFile.sfs (D := good_disk) :=
  mk_sfs (mk_good (<[5 := replicate 512 7]> ∅)) 64 0 (mk_bitmap 64 [63; 0; 0; 0; 0; 0; 0; 0]) 0 [16] {[16 := demo_sv]}.

Lemma demo_fs_ok : fs_ok demo_fs.
Proof.
  constructor; cbn; try lia; [|reflexivity]. split; [cbn; lia|]. split; [reflexivity|]. split; [|cbn; lia].
  repeat (constructor; [lia|]). constructor.
Qed.

Lemma demo_file_ok : file_ok demo_fs demo_inode.
Proof.
  constructor.
  - constructor; cbn; try done || (unfold word32, u32_mod; lia); repeat (constructor; [unfold word32, u32_mod; lia|]); constructor.
  - intros b Hb. assert (blocks (dev demo_fs) demo_inode = [5]) as E by reflexivity. rewrite E in Hb.
    apply list_elem_of_singleton in Hb as ->. split; [cbn; lia|reflexivity].
  - assert (blocks (dev demo_fs) demo_inode = [5]) as -> by reflexivity. apply NoDup_singleton.
Qed.

(** A transfer at offset [off] of [bs] bytes. *)
Definition demo_io (off : Z) (bs : list Z) (rw : Uio.uio_rw) : uio := mk_uio [] bs off (zlen bs) rw.

Lemma demo_io_ready off bs rw : 0 <= off -> off + zlen bs < 2147483648 -> Forall byte bs ->
  ready 16 (demo_io off bs rw) (zlen bs) demo_fs demo_sv.
Proof.
  intros Ho Hl Hb. constructor; [exact demo_fs_ok|reflexivity|exact demo_file_ok| | |cbn; lia].
  - unfold fits, u32_mod. cbn. lia.
  - intros _. exact Hb.
Qed.

Definition two_bytes : list Z := [1; 2].

Lemma two_bytes_ok : Forall byte two_bytes.
Proof. repeat (constructor; [unfold byte; lia|]). constructor. Qed.

(** Two bytes from the last one: only that one is read. *)
Lemma sfs_io_read_witness : exists s',
  sfs_io 16 (demo_io 511 two_bytes UIO_READ) demo_fs = Ok (0, moved (demo_io 511 two_bytes UIO_READ) [7] 1, s').
Proof.
  destruct (sfs_io_read 16 (demo_io 511 two_bytes UIO_READ) demo_fs demo_sv) as (r & n & s' & Hrun & _ & Hr & _).
  - apply demo_io_ready; [lia|cbn; lia|exact two_bytes_ok].
  - reflexivity.
  - reflexivity.
  - destruct Hr as [[-> ->]|[Hr|[_ Hr]]]; [by exists s'|by apply good_disk_reads in Hr|by cbn in Hr].
Defined.

(** Two bytes over the end of the file extend it. *)
Lemma sfs_io_write_witness : exists s' v',
  sfs_io 16 (demo_io 511 two_bytes UIO_WRITE) demo_fs = Ok (0, moved (demo_io 511 two_bytes UIO_WRITE) two_bytes 2, s') /\
  svs s' !! 16 = Some v' /\ contents (dev s') (sv_i v') = replicate 511 7 ++ two_bytes.
Proof.
  destruct (sfs_io_write 16 (demo_io 511 two_bytes UIO_WRITE) demo_fs demo_sv good_disk_writes) as (r & n & s' & v' & Hrun & Hn & Hr & Hv & _ & _ & Hc).
  - apply demo_io_ready; [lia|cbn; lia|exact two_bytes_ok].
  - reflexivity.
  - reflexivity.
  - cbn. lia.
  - destruct Hr as [[-> ->]|Hr].
    + exists s', v'. split; [exact Hrun|]. split; [exact Hv|]. rewrite Hc. vm_compute. reflexivity.
    + exfalso. clear Hc Hv. apply stopped_nonzero in Hr. vm_compute in Hrun. injection Hrun as <- _ _. discriminate Hr.
Defined.

Definition after_write : SfsFile.sfs (D := good_disk) :=
  match sfs_io 16 (demo_io 511 two_bytes UIO_WRITE) demo_fs with Ok (_, _, s) => s | _ => demo_fs end.

(** The second of the bytes, in a block of its own, is read back. *)
Lemma sfs_io_read_back_witness : exists s2,
  sfs_io 16 (demo_io 512 [0] UIO_READ) after_write = Ok (0, moved (demo_io 512 [0] UIO_READ) [2] 1, s2).
Proof.
  destruct (sfs_io_read_back 16 (demo_io 511 two_bytes UIO_WRITE) (demo_io 512 [0] UIO_READ) demo_fs demo_sv
    (moved (demo_io 511 two_bytes UIO_WRITE) two_bytes 2) after_write good_disk_writes) as (r & n & s2 & Hrun & Hr).
  - apply demo_io_ready; [lia|cbn; lia|exact two_bytes_ok].
  - reflexivity.
  - reflexivity.
  - vm_compute. reflexivity.
  - reflexivity.
  - unfold fits, u32_mod. cbn. lia.
  - cbn. lia.
  - cbn. lia.
  - destruct Hr as [[-> ->]|Hr]; [by exists s2|]. exfalso. vm_compute in Hrun. injection Hrun as <- _ _. by destruct Hr as [[? _]|[? _]].
Defined.

(** An empty file next to the one that is written. *)
Lemma sfs_io_other_files_witness : exists r u' s',
  sfs_io 16 (demo_io 511 two_bytes UIO_WRITE) demo_fs = Ok (r, u', s') /\
  file_ok s' (mk_inode 0 1 1 (replicate 15 0) 0 (replicate 110 0)).
Proof.
  destruct (sfs_io_other_files 16 (demo_io 511 two_bytes UIO_WRITE) demo_fs demo_sv (mk_inode 0 1 1 (replicate 15 0) 0 (replicate 110 0)) good_disk_writes)
    as (r & u' & s' & v' & Hrun & _ & Hf & _).
  - apply demo_io_ready; [lia|cbn; lia|exact two_bytes_ok].
  - reflexivity.
  - constructor.
    + constructor; cbn; try done || (unfold word32, u32_mod; lia); repeat (constructor; [unfold word32, u32_mod; lia|]); constructor.
    + intros b Hb. by apply elem_of_nil in Hb.
    + constructor.
  - intros b _ Hb. by apply elem_of_nil in Hb.
  - exists r, u', s'. split; [exact Hrun|exact Hf].
Defined.

End SfsIo.
