(* ===== verification/SfsTruncate.v ===== *)
(** * Truncating a file of the simple file system

    What sfs_truncate of kern/fs/sfs/sfs_vnode.c does to the blocks of a file,
    to the map of free blocks and to the bytes of the file. *)

From S2P Require Import Prelude Uio Bitmap SfsDisk SfsFile SfsIo.
Import Bitmap SfsDisk SfsFile SfsIo.

Module SfsTruncate.

(** ** The entries that stay and the blocks that go *)

Fixpoint kept (c : Z -> bool) (j : Z) (l : list Z) : list Z :=
  match l with
  | [] => []
  | b :: l => (if c j then 0 else b) :: kept c (j + 1) l
  end.

Fixpoint dropped (c : Z -> bool) (j : Z) (l : list Z) : list Z :=
  match l with
  | [] => []
  | b :: l => (if c j && negb (b =? 0) then [b] else []) ++ dropped c (j + 1) l
  end.

Abbreviation nonzero := (filter (fun b : Z => b <> 0)).

Lemma nonzero_cons (b : Z) l : nonzero (b :: l) = (if b =? 0 then [] else [b]) ++ nonzero l.
Proof. rewrite filter_cons. by destruct (Z.eqb_spec b 0); case_decide. Qed.

Lemma kept_length c l : forall j, length (kept c j l) = length l.
Proof. induction l as [|b l IH]; intros j; cbn; [done|by rewrite IH]. Qed.

Lemma kept_perm c l : forall j, nonzero l ≡ₚ dropped c j l ++ nonzero (kept c j l).
Proof.
  induction l as [|b l IH]; intros j; cbn [kept dropped]; [done|]. rewrite !nonzero_cons, (IH (j + 1)).
  destruct (c j), (Z.eqb_spec b 0); cbn [andb negb Z.eqb app]; try done.
  apply Permutation_middle.
Qed.

Lemma kept_nth c l : forall j k, nth k (kept c j l) 0 = if c (j + Z.of_nat k) then 0 else nth k l 0.
Proof.
  induction l as [|b l IH]; intros j [|k]; cbn [kept nth]; [by destruct (c _)|by destruct (c _)|by rewrite Z.add_0_r|].
  rewrite IH. by replace (j + 1 + Z.of_nat k) with (j + Z.of_nat (S k)) by lia.
Qed.

Lemma kept_words c l : forall j, Forall word32 l -> Forall word32 (kept c j l).
Proof.
  induction l as [|b l IH]; intros j Hl; [done|]. apply Forall_cons_1 in Hl as [Hb Hl]. cbn [kept]. constructor; [|by apply IH].
  destruct (c j); [unfold word32, u32_mod; lia|done].
Qed.

Lemma kept_none c l : forall j, dropped c j l = [] -> kept c j l = l.
Proof.
  induction l as [|b l IH]; intros j; cbn [kept dropped]; [done|]. destruct (c j); cbn [andb].
  - destruct (Z.eqb_spec b 0) as [->|]; cbn [negb]; [|done]. intros H. by rewrite IH.
  - intros H. by rewrite IH.
Qed.

(** ** Freeing blocks *)

Section Truncate.
Context {D : Type} {DK : Disk D} {DKL : DiskLaws D} {RW : ReliableWrites D}.
Local Abbreviation sfs := (SfsFile.sfs (D := D)).

(** [s'] is [s] after the blocks [bs] were freed, with vnode [v'] at [p]. *)
Record frees (p : Z) (s : sfs) (bs : list Z) (s' : sfs) (v' : sfs_vnode) : Prop := mk_frees {
  fr_fs : fs_ok s';
  fr_rest : s' = mk_sfs (dev s') (sp_nblocks s) (superdirty s) (freemap s') (freemapdirty s') (sfs_vnodes s) (<[p := v']> (svs s));
  fr_disk : same_disk (dev s) (dev s');
  fr_bits b : 0 <= b -> bit (freemap s') b = bit (freemap s) b && bool_decide (b ∉ bs);
}.

Lemma frees_sv p s bs s' v' : frees p s bs s' v' -> svs s' !! p = Some v'.
Proof. intros [_ -> _ _]. cbn. by rewrite lookup_insert_eq. Qed.

Lemma frees_nil p (s : sfs) v : fs_ok s -> svs s !! p = Some v -> frees p s [] s v.
Proof.
  intros Hfs Hv. constructor; [done| |done|].
  - destruct s; cbn in *. by rewrite insert_id.
  - intros b _. by rewrite bool_decide_true, andb_true_r by (by apply not_elem_of_nil).
Qed.

Lemma frees_wr p s bs s' v' v2 : frees p s bs s' v' -> frees p s bs (sv_wr p v2 s') v2.
Proof.
  intros [Hfs Hr Hd Hb]. constructor; [by destruct Hfs; constructor| |done|done].
  rewrite Hr. unfold sv_wr, set_svs. cbn. by rewrite insert_insert_eq.
Qed.

Lemma frees_dev p s bs s' v' d : frees p s bs s' v' -> same_disk (dev s') d -> frees p s bs (set_dev d s') v'.
Proof.
  intros [Hfs Hr Hd Hb] Hsd. constructor; [by apply same_disk_ok| |by etrans|done]. by rewrite Hr.
Qed.

Lemma bfree_run p s bs s1 v1 b : frees p s bs s1 v1 -> used s b -> b ∉ bs ->
  exists s2, sfs_bfree b s1 = Ok s2 /\ frees p s (bs ++ [b]) s2 v1.
Proof.
  intros [Hfs Hr Hd Hb] [Hu Hbit] Hn. pose proof Hfs as []. unfold sfs_bfree. rewrite Hr in fk_bits0 at 1. cbn in fk_bits0.
  destruct (bitmap_mark_unmark_isset (freemap s1) b fk_map0) as (_ & _ & Hun); [lia|].
  rewrite Hb, Hbit, bool_decide_true in Hun by (done || lia). cbn [andb] in Hun. destruct Hun as (m & -> & Hwf & Hnb & Hm).
  rewrite Ok_bind. eexists. split; [done|]. constructor; cbn [freemap set_freemap dev]; [| |done|].
  - constructor; cbn [freemap set_freemap dev sp_nblocks]; rewrite ?Hnb; try done.
    + by rewrite Hr.
    + intros c Hc. rewrite Hm, fk_past0 by lia. rewrite Hr in Hc. cbn in Hc. destruct (Z.eqb_spec c b); [lia|done].
    + rewrite Hm by lia. destruct (Z.eqb_spec 0 b); [lia|done].
  - by rewrite Hr.
  - intros c Hc. rewrite Hm, Hb by done. destruct (Z.eqb_spec c b) as [->|Hne].
    + rewrite (bool_decide_false (b ∉ bs ++ [b])), andb_false_r; [done|]. intros H. apply H, elem_of_app. right. by left.
    + f_equal. apply bool_decide_ext. rewrite elem_of_app, list_elem_of_singleton. naive_solver.
Qed.

(** ** The two loops *)

Lemma rd_middle (pre : list Z) b l j : j = zlen pre -> rd (pre ++ b :: l) j = Ok b.
Proof. intros ->. apply rd_Some. split; [lia|]. rewrite Nat2Z.id. by apply list_lookup_middle. Qed.

Lemma wr_middle (pre : list Z) b l j x : j = zlen pre -> wr (pre ++ b :: l) j x = Ok (pre ++ x :: l).
Proof. intros ->. rewrite wr_in by (rewrite length_app; cbn; lia). by rewrite Nat2Z.id, insert_app_r_alt, Nat.sub_diag by lia. Qed.

(** The blocks in [l] can be freed after those in [bs]. *)
Definition freeable (s : sfs) (bs l : list Z) : Prop := NoDup (bs ++ nonzero l) /\ Forall (used s) (nonzero l).

Lemma freeable_skip s bs b l : freeable s bs (b :: l) -> freeable s bs l.
Proof.
  unfold freeable. rewrite nonzero_cons. destruct (b =? 0); [done|]. cbn [app]. intros [Hn Hu].
  apply Forall_cons_1 in Hu as [_ Hu]. rewrite <- Permutation_middle in Hn. by apply list.NoDup_cons in Hn as [_ Hn].
Qed.

Lemma freeable_take s bs b l : freeable s bs (b :: l) -> b <> 0 -> used s b /\ b ∉ bs /\ freeable s (bs ++ [b]) l.
Proof.
  unfold freeable. rewrite nonzero_cons. intros [Hn Hu] Hb. rewrite (proj2 (Z.eqb_neq b 0)) in * by done. cbn [app] in *.
  apply Forall_cons_1 in Hu as [Hub Hu]. split; [done|]. rewrite <- app_assoc. cbn [app]. split; [|done].
  apply list.NoDup_app in Hn as (_ & Hn & _). intros H. apply (Hn b H). by left.
Qed.

Lemma free_entries_ok p s bl l : forall pre j bs nz dirty s1 v1, j = zlen pre -> frees p s bs s1 v1 -> freeable s bs l ->
  let c j := bl <? SFS_NDIRECT + j in
  exists s2, free_entries (length l) j bl (pre ++ l) nz dirty s1 =
      Ok (pre ++ kept c j l, nz || negb (bool_decide (nonzero (kept c j l) = [])),
          dirty || negb (bool_decide (dropped c j l = [])), s2) /\
    frees p s (bs ++ dropped c j l) s2 v1.
Proof.
  intros pre j bs nz dirty s1 v1 Hj Hfr Hfb c. revert pre j bs nz dirty s1 v1 Hj Hfr Hfb.
  induction l as [|b l IH]; intros pre j bs nz dirty s1 v1 Hj Hfr Hfb; cbn [length free_entries kept dropped].
  { exists s1. rewrite !app_nil_r, !bool_decide_true, !orb_false_r by done. done. }
  assert (forall x (k : list Z), pre ++ x :: k = (pre ++ [x]) ++ k) as Hsplit by (intros x k; by rewrite <- app_assoc).
  assert (forall x : Z, j + 1 = zlen (pre ++ [x])) as Hj1 by (intros x; rewrite length_app; cbn; lia).
  rewrite (rd_middle pre b l j Hj), Ok_bind. change (bl <? SFS_NDIRECT + j) with (c j). rewrite nonzero_cons.
  destruct (c j) eqn:Hc, (Z.eqb_spec b 0) as [Hb|Hb]; cbn [andb negb app Z.eqb].
  2: { destruct (freeable_take _ _ _ _ Hfb Hb) as (Hu & Hn & Hfb2). destruct (bfree_run _ _ _ _ _ _ Hfr Hu Hn) as (s2 & -> & Hfr2).
    rewrite Ok_bind, (wr_middle pre b l j 0 Hj), !Ok_bind, (Hsplit 0 l), (Hsplit 0 (kept _ _ _)). cbn [Z.eqb negb].
    destruct (IH (pre ++ [0]) (j + 1) (bs ++ [b]) (nz || false) true s2 v1 (Hj1 0) Hfr2 Hfb2) as (s3 & -> & Hfr3). exists s3.
    rewrite <- app_assoc in Hfr3. split; [|done]. by rewrite orb_false_r, orb_true_r. }
  all: rewrite Ok_bind, (Hsplit b l); destruct (IH (pre ++ [b]) (j + 1) bs (nz || negb (b =? 0)) dirty s1 v1 (Hj1 b) Hfr (freeable_skip _ _ _ _ Hfb)) as (s3 & Hrun & Hfr3).
  1, 2: subst b; cbn [Z.eqb negb] in *; rewrite orb_false_r in *; exists s3; by rewrite Hrun, (Hsplit 0 (kept _ _ _)).
  exists s3. rewrite Hrun, (Hsplit b (kept _ _ _)). split; [|done]. rewrite (proj2 (Z.eqb_neq b 0)), (bool_decide_false (_ :: _ = [])) by done.
  by rewrite orb_true_r.
Qed.

Lemma free_direct_ok p s bl l : forall pre j bs s1 v1, j = zlen pre -> frees p s bs s1 v1 -> freeable s bs l ->
  sfi_direct (sv_i v1) = pre ++ l ->
  let c j := j >=? bl in
  exists s2 dirty, let v2 := with_inode v1 (with_direct (sv_i v1) (pre ++ kept c j l)) dirty in
    free_direct (length l) j bl p s1 = Ok s2 /\ frees p s (bs ++ dropped c j l) s2 v2 /\ (dirty <> 0 \/ v2 = v1).
Proof.
  intros pre j bs s1 v1 Hj Hfr Hfb Hd c. revert pre j bs s1 v1 Hj Hfr Hfb Hd.
  induction l as [|b l IH]; intros pre j bs s1 v1 Hj Hfr Hfb Hd; cbn [length free_direct kept dropped].
  { exists s1, (sv_dirty v1). cbv zeta. split; [done|]. rewrite !app_nil_r in *. rewrite <- Hd. destruct v1 as [[] ? ? ? ?]. split; [done|by right]. }
  assert (forall x (k : list Z), pre ++ x :: k = (pre ++ [x]) ++ k) as Hsplit by (intros x k; by rewrite <- app_assoc).
  assert (forall x : Z, j + 1 = zlen (pre ++ [x])) as Hj1 by (intros x; rewrite length_app; cbn; lia).
  unfold sv_rd. rewrite (frees_sv _ _ _ _ _ Hfr), Ok_bind, Hd, (rd_middle pre b l j Hj), Ok_bind. change (j >=? bl) with (c j).
  destruct (c j) eqn:Hc, (Z.eqb_spec b 0) as [Hb|Hb]; cbn [andb negb app].
  2: { destruct (freeable_take _ _ _ _ Hfb Hb) as (Hu & Hn & Hfb2). destruct (bfree_run _ _ _ _ _ _ Hfr Hu Hn) as (s2 & -> & Hfr2).
    rewrite Ok_bind, (wr_middle pre b l j 0 Hj), !Ok_bind. set (v2 := with_inode v1 (with_direct (sv_i v1) (pre ++ 0 :: l)) 1).
    destruct (IH (pre ++ [0]) (j + 1) (bs ++ [b]) (sv_wr p v2 s2) v2 (Hj1 0) (frees_wr _ _ _ _ _ _ Hfr2) Hfb2) as (s3 & dirty & Hrun & Hfr3 & Hdt).
    { cbn. apply Hsplit. }
    exists s3, dirty. rewrite Hrun. rewrite <- app_assoc in Hfr3. cbn [app] in Hfr3. rewrite <- (Hsplit 0 (kept _ _ _)) in Hfr3. split; [done|]. split; [done|].
    left. destruct Hdt as [?|E]; [done|]. apply (f_equal sv_dirty) in E. cbn in E. lia. }
  all: rewrite Ok_bind; destruct (IH (pre ++ [b]) (j + 1) bs s1 v1 (Hj1 b) Hfr (freeable_skip _ _ _ _ Hfb)) as (s3 & dirty & Hrun & Hfr3 & Hdt);
    [rewrite Hd; apply Hsplit|]; exists s3, dirty; rewrite Hrun; rewrite <- (Hsplit b (kept _ _ _)) in Hfr3, Hdt; by rewrite ?Hb in *.
Qed.

(** ** The indirect block *)

(** As [frees], but block [ib] may have been written. *)
Definition wrote (p : Z) (s : sfs) (ib : Z) (bs : list Z) (s2 : sfs) (v2 : sfs_vnode) : Prop :=
  exists s1, frees p s bs s1 v2 /\ s2 = set_dev (dev s2) s1 /\ d_blocks (dev s2) = d_blocks (dev s) /\
    forall b, b <> ib -> sector (dev s2) b = sector (dev s) b.

Lemma frees_wrote p s ib bs s2 v2 : frees p s bs s2 v2 -> wrote p s ib bs s2 v2.
Proof. intros Hfr. exists s2. pose proof Hfr as [_ _ [Hd Hs] _]. split; [done|]. split; [by rewrite set_dev_id|]. auto. Qed.

Definition past (bl j : Z) : bool := bl <? SFS_NDIRECT + j.

Lemma idents_read (d : D) i : sfi_indirect i <> 0 -> idents d i = words_of (sector d (sfi_indirect i)).
Proof. intros Hi. unfold idents. by rewrite (proj2 (Z.eqb_neq _ 0) Hi). Qed.

Lemma nonzero_nil l : nonzero l = [] -> l = replicate (length l) 0.
Proof.
  induction l as [|b l IH]; [done|]. rewrite nonzero_cons. destruct (Z.eqb_spec b 0) as [->|]; [|done]. cbn. intros H. f_equal. by apply IH.
Qed.

Lemma kept_zeros c n : forall j, kept c j (replicate n 0) = replicate n 0.
Proof. induction n as [|n IH]; intros j; cbn; [done|]. rewrite IH. by destruct (c j). Qed.

(** How the work on the indirect block ends: its entries are [ids'] now, or it
    could not be read. *)
Definition trimmed (p bl : Z) (s : sfs) (v : sfs_vnode) (bs : list Z) (v1 : sfs_vnode) (ids' : list Z) (o : outcome (Z * sfs)) : Prop :=
  exists r s2 v2 bs2 ib2 dirty, o = Ok (r, s2) /\ v2 = with_inode v1 (with_indirect (sv_i v1) ib2) dirty /\
    wrote p s (sfi_indirect (sv_i v)) (bs ++ bs2) s2 v2 /\ (dirty <> 0 \/ v2 = v1) /\
    nonzero (sfi_indirect (sv_i v) :: idents (dev s) (sv_i v)) ≡ₚ bs2 ++ nonzero (ib2 :: idents (dev s2) (sv_i v2)) /\
    ((r = 0 /\ idents (dev s2) (sv_i v2) = ids' /\ (bl < 142 -> nonzero ids' = [] -> ib2 = 0)) \/
     (eio D r /\ idents (dev s2) (sv_i v2) = idents (dev s) (sv_i v))).

Lemma trimmed_id p bl s v bs v1 ids' r s2 : frees p s bs s2 v1 -> sfi_indirect (sv_i v1) = sfi_indirect (sv_i v) ->
  (r = 0 /\ ids' = idents (dev s) (sv_i v) /\ (bl < 142 -> nonzero ids' = [] -> sfi_indirect (sv_i v) = 0)) \/ eio D r ->
  trimmed p bl s v bs v1 ids' (Ok (r, s2)).
Proof.
  intros Hfr Hib Hr. exists r, s2, v1, [], (sfi_indirect (sv_i v)), (sv_dirty v1). pose proof Hfr as [_ _ [_ Hs] _].
  assert (idents (dev s2) (sv_i v1) = idents (dev s) (sv_i v)) as -> by (unfold idents; by rewrite Hib, Hs).
  rewrite app_nil_r. split; [done|]. split; [rewrite <- Hib; by destruct v1 as [[] ? ? ? ?]|]. split; [by apply frees_wrote|]. split; [by right|].
  split; [done|]. destruct Hr as [(-> & -> & Hz)|Hr]; [by left|by right].
Qed.

Lemma freeable_mid s bs b l : freeable s bs (b :: l) -> b <> 0 -> forall c j, used s b /\ b ∉ bs ++ dropped c j l.
Proof.
  intros Hfb Hb c j. destruct (freeable_take _ _ _ _ Hfb Hb) as (Hu & Hn & [Hnd _]). split; [done|].
  rewrite (kept_perm c l j), <- app_assoc in Hnd. cbn [app] in Hnd. rewrite <- Permutation_middle in Hnd.
  apply list.NoDup_cons in Hnd as [Hnb _]. rewrite !elem_of_app in *. naive_solver.
Qed.

(** The entries past the new end go, and the block is freed or written back. *)
Lemma trim_entries p s v bl bs s1 v1 : fs_ok s -> file_ok s (sv_i v) -> frees p s bs s1 v1 ->
  sfi_indirect (sv_i v1) = sfi_indirect (sv_i v) -> sfi_indirect (sv_i v) <> 0 ->
  freeable s bs (sfi_indirect (sv_i v) :: idents (dev s) (sv_i v)) ->
  trimmed p bl s v bs v1 (kept (past bl) 0 (idents (dev s) (sv_i v)))
    ('(idbuf, hasnonzero, iddirty, s) ← free_entries (Z.to_nat SFS_DBPERIDB) 0 bl (idents (dev s) (sv_i v)) false false s1;
      if negb hasnonzero then
        s ← sfs_bfree (sfi_indirect (sv_i v)) s;
        v ← sv_rd p s;
        Ok (0, sv_wr p (with_inode v (with_indirect (sv_i v) 0) 1) s)
      else if (iddirty : bool) then wblock (bytes_of idbuf) (sfi_indirect (sv_i v)) s
      else Ok (0, s)).
Proof using DKL RW.
  intros Hfs0 Hf Hfr Hib Hne Hfb. set (ids := idents (dev s) (sv_i v)) in *. set (ib := sfi_indirect (sv_i v)) in *.
  destruct (idents_wf s (sv_i v) Hfs0 Hf) as [Hlen Hwords]. fold ids in Hlen, Hwords.
  destruct (free_entries_ok p s bl ids [] 0 bs false false s1 v1 eq_refl Hfr (freeable_skip _ _ _ _ Hfb)) as (s2 & Hrun & Hfr2).
  change (Z.to_nat SFS_DBPERIDB) with 128%nat. rewrite Hlen in Hrun. cbn [app] in Hrun. rewrite Hrun, Ok_bind. clear Hrun. fold (past bl) in *.
  cbn [orb]. rewrite negb_involutive. pose proof (kept_perm (past bl) ids 0) as Hperm.
  destruct (freeable_mid _ _ _ _ Hfb Hne (past bl) 0) as [Hu Hn]. case_bool_decide as Hz.
  - destruct (bfree_run _ _ _ _ _ _ Hfr2 Hu Hn) as (s3 & -> & Hfr3). unfold sv_rd. rewrite Ok_bind, (frees_sv _ _ _ _ _ Hfr3), Ok_bind.
    rewrite <- app_assoc in Hfr3. set (v3 := with_inode v1 (with_indirect (sv_i v1) 0) 1).
    exists 0, (sv_wr p v3 s3), v3, (dropped (past bl) 0 ids ++ [ib]), 0, 1. split; [done|]. split; [done|].
    split; [by eapply frees_wrote, frees_wr|]. split; [by left|]. assert (idents (dev (sv_wr p v3 s3)) (sv_i v3) = replicate 128 0) as -> by done.
    apply nonzero_nil in Hz as Hz'. rewrite kept_length, Hlen in Hz'. rewrite Hz'. split; [|by left].
    fold ib ids. rewrite !nonzero_cons, Hperm, Hz, (proj2 (Z.eqb_neq ib 0)) by done. rewrite app_nil_r. change (nonzero (replicate 128 0)) with (@nil Z).
    cbn [Z.eqb app]. rewrite app_nil_r. by rewrite <- Permutation_cons_append.
  - case_bool_decide as Hdr; cbn [negb].
    + rewrite Hdr, app_nil_r in Hfr2. rewrite kept_none by done. apply trimmed_id; [done|done|left]. split; [done|]. split; [done|]. rewrite kept_none in Hz by done. done.
    + unfold wblock. pose proof Hfr2 as [Hfs2 Hrest2 [Hd2 Hs2] _].
      destruct (sfs_wblock_run (bytes_of (kept (past bl) 0 ids)) ib (dev s2)) as (d2 & -> & Hwd & Hws).
      { apply words_block. by rewrite kept_length. }
      { apply (fs_block s2); [done|]. destruct Hu as [Hu _]. rewrite Hrest2. cbn. lia. }
      rewrite Ok_bind. exists 0, (set_dev d2 s2), v1, (dropped (past bl) 0 ids), ib, (sv_dirty v1).
      assert (idents d2 (sv_i v1) = kept (past bl) 0 ids) as Hids.
      { rewrite idents_read by (by rewrite Hib). rewrite Hib, Hws, decide_True by done. by apply words_bytes, kept_words. }
      split; [done|]. split; [rewrite <- Hib; by destruct v1 as [[] ? ? ? ?]|]. split.
      { exists s2. split; [done|]. split; [done|]. split; [cbn; congruence|]. intros b Hb. cbn [dev set_dev].
        by rewrite Hws, decide_False. }
      split; [by right|]. cbn [dev set_dev]. rewrite Hids. split; [|by left]. fold ib ids. rewrite !nonzero_cons, Hperm, (proj2 (Z.eqb_neq ib 0)) by done.
      cbn [app]. apply Permutation_middle.
Qed.

Lemma truncate_indirect_ok p s v bl bs s1 v1 : fs_ok s -> file_ok s (sv_i v) -> frees p s bs s1 v1 ->
  sfi_indirect (sv_i v1) = sfi_indirect (sv_i v) -> freeable s bs (sfi_indirect (sv_i v) :: idents (dev s) (sv_i v)) ->
  let ids := idents (dev s) (sv_i v) in
  trimmed p bl s v bs v1 (if bl <? 142 then kept (past bl) 0 ids else ids) (truncate_indirect p bl s1).
Proof using DKL RW.
  intros Hfs Hf Hfr Hib Hfb ids. pose proof Hfr as [Hfs1 Hrest [Hd Hs] _]. unfold truncate_indirect, sv_rd.
  rewrite (frees_sv _ _ _ _ _ Hfr), Ok_bind, Hib. change (SFS_NDIRECT + SFS_DBPERIDB - 1) with 142.
  destruct (Z.ltb_spec bl 142) as [Hbl|Hbl]; cbn [andb]; [|apply trimmed_id; [done|done|left; split; [done|split; [done|lia]]]].
  destruct (Z.eqb_spec (sfi_indirect (sv_i v)) 0) as [H0|H0]; cbn [negb].
  { apply trimmed_id; [done|done|left]. split; [done|]. split; [|done]. unfold ids, idents. rewrite H0. apply kept_zeros. }
  destruct (freeable_mid _ _ _ _ Hfb H0 (past bl) 0) as [[Hu _] _].
  unfold rblock. destruct (sfs_rblock_run zero_block (sfi_indirect (sv_i v)) (dev s1)) as (r & data & d' & -> & Hsd & Hr); [done| |].
  { apply (fs_block s1); [done|]. rewrite Hrest. cbn. lia. }
  rewrite !Ok_bind. pose proof (frees_dev _ _ _ _ _ _ Hfr Hsd) as Hfr'. destruct Hr as [[-> ->]|[Hr _]].
  - cbn [Z.eqb negb]. rewrite Hs, <- idents_read by done. by apply trim_entries.
  - rewrite (eio_nonzero r Hr). cbn [negb]. apply trimmed_id; [done|done|by right].
Qed.

(** ** The whole operation *)

(** Position [k] of the file keeps its block when the file is cut to [bl]
    blocks.  In the indirect block the entry at [bl] itself stays. *)
Definition keeps (bl k : Z) : bool := if k <? 15 then k <? bl else (k <=? bl) || (142 <=? bl).

(** The file [i] of [s] gave up the blocks that are not in [i2]. *)
Lemma shrunk_ok s (s2 : sfs) bs i i2 : file_ok s i -> sp_nblocks s2 = sp_nblocks s ->
  (forall b, 0 <= b -> bit (freemap s2) b = bit (freemap s) b && bool_decide (b ∉ bs)) -> wf_inode i2 ->
  blocks (dev s) i ≡ₚ bs ++ blocks (dev s2) i2 ->
  file_ok s2 i2 /\ forall b, 0 <= b ->
    bit (freemap s2) b = bit (freemap s) b && bool_decide (b ∈ blocks (dev s) i -> b ∈ blocks (dev s2) i2).
Proof.
  intros [_ Hu Hnd] Hnb Hbits Hwf Hperm. rewrite Hperm in Hnd. apply list.NoDup_app in Hnd as (_ & Hdis & Hnd). split.
  - constructor; [done| |done]. intros b Hb. destruct (Hu b) as [Hr Hbit]; [rewrite Hperm; apply elem_of_app; by right|].
    split; [by rewrite Hnb|]. rewrite Hbits, Hbit, bool_decide_true by (lia || (intros Hb2; by apply (Hdis b))). done.
  - intros b Hb. rewrite Hbits by done. f_equal. apply bool_decide_ext. rewrite Hperm, elem_of_app. specialize (Hdis b). naive_solver.
Qed.

Lemma blocks_split (d : D) i : blocks d i ≡ₚ nonzero (sfi_direct i) ++ nonzero (sfi_indirect i :: idents d i).
Proof.
  unfold blocks, SfsFile.fmap. rewrite !nonzero_cons, list.filter_app. apply Permutation_app_swap_app.
Qed.

Record truncated (p bl : Z) (s : sfs) (v : sfs_vnode) (ok : bool) (s2 : sfs) (v2 : sfs_vnode) : Prop := mk_truncated {
  tr_fs : fs_ok s2;
  tr_file : file_ok s2 (sv_i v2);
  tr_svs : svs s2 = <[p := v2]> (svs s);
  tr_fmap k : (k < 143)%nat -> nth k (SfsFile.fmap (dev s2) (sv_i v2)) 0 =
    if (if ok then keeps bl (Z.of_nat k) else (15 <=? Z.of_nat k) || (Z.of_nat k <? bl)) then nth k (SfsFile.fmap (dev s) (sv_i v)) 0 else 0;
  tr_bits b : 0 <= b -> bit (freemap s2) b = bit (freemap s) b && bool_decide (b ∈ blocks (dev s) (sv_i v) -> b ∈ blocks (dev s2) (sv_i v2));
  tr_sectors b : b <> sfi_indirect (sv_i v) -> sector (dev s2) b = sector (dev s) b;
  tr_rest : (sp_nblocks s2, sfs_vnodes s2, d_blocks (dev s2)) = (sp_nblocks s, sfs_vnodes s, d_blocks (dev s));
  tr_same : (sv_ino v2, vn_refcount v2, vn_opencount v2, sfi_type (sv_i v2), sfi_linkcount (sv_i v2)) =
    (sv_ino v, vn_refcount v, vn_opencount v, sfi_type (sv_i v), sfi_linkcount (sv_i v));
  tr_dirty : sv_dirty v2 <> 0 \/ v2 = v;
  tr_sub b : b ∈ blocks (dev s2) (sv_i v2) -> b ∈ blocks (dev s) (sv_i v);
  tr_indirect : ok = true -> bl < 142 -> nonzero (idents (dev s2) (sv_i v2)) = [] -> sfi_indirect (sv_i v2) = 0;
}.

(** The bookkeeping at the end of the two loops. *)
Lemma wrote_truncated p s v bl v1 v2 s2 dirty dirty2 bs2 ib2 r :
  let di := sfi_direct (sv_i v) in let ids := idents (dev s) (sv_i v) in let c j := j >=? bl in
  fs_ok s -> file_ok s (sv_i v) -> 0 <= bl ->
  v1 = with_inode v (with_direct (sv_i v) (kept c 0 di)) dirty -> dirty <> 0 \/ v1 = v -> dirty2 <> 0 \/ v2 = v1 ->
  v2 = with_inode v1 (with_indirect (sv_i v1) ib2) dirty2 ->
  wrote p s (sfi_indirect (sv_i v)) (dropped c 0 di ++ bs2) s2 v2 ->
  nonzero (sfi_indirect (sv_i v) :: ids) ≡ₚ bs2 ++ nonzero (ib2 :: idents (dev s2) (sv_i v2)) ->
  (r = 0 /\ idents (dev s2) (sv_i v2) = (if bl <? 142 then kept (past bl) 0 ids else ids) /\
     (bl < 142 -> nonzero (if bl <? 142 then kept (past bl) 0 ids else ids) = [] -> ib2 = 0)) \/
  (eio D r /\ idents (dev s2) (sv_i v2) = ids) ->
  truncated p bl s v (r =? 0) s2 v2.
Proof.
  intros di ids c Hfs Hf Hbl Hv1 Hd1 Hd2 Hv2 (s3 & [Hfs3 Hrest3 Hd3 Hbits3] & Hs2 & Hdb & Hsec) Hperm Hr.
  pose proof Hf as [[? ? ? Hl15 Hw15 ? ? ?] Hu _]. fold di in Hl15, Hw15.
  assert (sp_nblocks s2 = sp_nblocks s) as Hnb by (by rewrite Hs2, Hrest3).
  assert (sfi_direct (sv_i v2) = kept c 0 di) as Hdi by (by rewrite Hv2, Hv1).
  assert (blocks (dev s) (sv_i v) ≡ₚ (dropped c 0 di ++ bs2) ++ blocks (dev s2) (sv_i v2)) as Hall.
  { rewrite !blocks_split, Hdi. fold di ids. rewrite Hperm, (kept_perm c di 0), <- !app_assoc. apply Permutation_app_head.
    rewrite Hv2. apply Permutation_app_swap_app. }
  assert (word32 ib2) as Hib.
  { destruct (decide (ib2 = 0)) as [->|Hne]; [unfold word32, u32_mod; lia|]. destruct Hfs, (Hu ib2) as [Hb _]; [|unfold word32, u32_mod; lia].
    rewrite blocks_split. fold ids. rewrite Hperm, nonzero_cons, (proj2 (Z.eqb_neq ib2 0)), !elem_of_app by done. right. right. left. by left. }
  destruct (shrunk_ok s s2 (dropped c 0 di ++ bs2) (sv_i v) (sv_i v2)) as [Hf2 Hb2]; [done|done| | |done|].
  { intros b Hb. rewrite Hs2. by apply Hbits3. }
  { rewrite Hv2, Hv1. constructor; cbn; try done; [by rewrite kept_length|by apply kept_words]. }
  constructor; [|done| | |done|done|by rewrite Hdb, Hs2, Hrest3|by rewrite Hv2, Hv1| |intros b Hb; rewrite Hall; apply elem_of_app; by right|].
  5: { destruct Hr as [(-> & -> & Hz)|[[-> _] _]]; [|done]. intros _ Hlt Hn. rewrite Hv2. by apply Hz. }
  4: { destruct Hd2 as [Hd2|E]; [left; by rewrite Hv2|]. destruct Hd1 as [Hd1|E1]; [left; rewrite E, Hv1; done|right; congruence]. }
  - rewrite Hs2. destruct Hfs3. constructor; cbn; try done. rewrite Hdb, Hrest3. cbn. by destruct Hfs.
  - by rewrite Hs2, Hrest3.
  - intros k Hk. unfold SfsFile.fmap. rewrite Hdi. fold di ids. destruct (decide (k < 15)%nat) as [Hlt|Hge].
    + rewrite !app_nth1 by (rewrite ?kept_length; lia). rewrite kept_nth. unfold keeps, c. rewrite Z.geb_leb, (proj2 (Z.ltb_lt _ 15)) by lia.
      rewrite (proj2 (Z.leb_gt 15 _)) by lia. cbn [orb]. rewrite Z.add_0_l, Z.leb_antisym. by destruct (r =? 0), (Z.of_nat k <? bl).
    + rewrite !app_nth2, kept_length, Hl15 by (rewrite ?kept_length; lia). unfold keeps. rewrite (proj2 (Z.ltb_ge _ 15)), (proj2 (Z.leb_le 15 _)) by lia.
      destruct Hr as [(-> & -> & _)|[[-> _] ->]]; cbn [Z.eqb EIO orb]; [|done]. destruct (Z.ltb_spec bl 142) as [Hb|Hb].
      * rewrite kept_nth, (proj2 (Z.leb_gt 142 bl)), orb_false_r by lia. unfold past, SFS_NDIRECT.
        replace (15 + (0 + Z.of_nat (k - 15))) with (Z.of_nat k) by lia. rewrite Z.leb_antisym. by destruct (bl <? Z.of_nat k).
      * by rewrite (proj2 (Z.leb_le 142 bl)), orb_true_r by lia.
Qed.

Lemma truncate_blocks p s v bl : fs_ok s -> svs s !! p = Some v -> file_ok s (sv_i v) -> 0 <= bl ->
  exists s1 r s2 v2, free_direct (Z.to_nat SFS_NDIRECT) 0 bl p s = Ok s1 /\ truncate_indirect p bl s1 = Ok (r, s2) /\
    (r = 0 \/ eio D r) /\ truncated p bl s v (r =? 0) s2 v2 /\ sfi_size (sv_i v2) = sfi_size (sv_i v).
Proof using DKL RW.
  intros Hfs Hv Hf Hbl. pose proof Hf as [Hwf Hu Hnd]. pose proof Hwf as [? ? ? Hl15 Hw15 ? ? ?].
  pose proof (blocks_split (dev s) (sv_i v)) as Hsplit. rewrite Hsplit in Hnd.
  assert (forall l, (forall b, b ∈ l -> b ∈ blocks (dev s) (sv_i v)) -> Forall (used s) l) as Hus.
  { intros l Hl. apply list.Forall_forall. intros b Hb. by apply Hu, Hl. }
  destruct (free_direct_ok p s bl (sfi_direct (sv_i v)) [] 0 [] s v eq_refl (frees_nil p s v Hfs Hv)) as (s1 & dirty & Hrun & Hfr & Hd1); [|done|].
  { split; [by apply list.NoDup_app in Hnd as (? & _ & _)|]. apply Hus. intros b Hb. rewrite Hsplit. apply elem_of_app. by left. }
  set (c := fun j => j >=? bl) in *. cbn [app] in *. rewrite Hl15 in Hrun. exists s1.
  set (v1 := with_inode _ _ _) in Hfr, Hd1.
  destruct (truncate_indirect_ok p s v bl (dropped c 0 (sfi_direct (sv_i v))) s1 v1) as (r & s2 & v2 & bs2 & ib2 & dirty2 & Hrun2 & Hv2 & Hwr & Hd2 & Hperm & Hr); [done|done|done|done| |].
  { split.
    - rewrite (kept_perm c (sfi_direct (sv_i v)) 0) in Hnd. rewrite <- app_assoc, (Permutation_app_comm (nonzero (kept _ _ _))), app_assoc in Hnd.
      by apply list.NoDup_app in Hnd as (? & _ & _).
    - apply Hus. intros b Hb. rewrite Hsplit. apply elem_of_app. by right. }
  exists r, s2, v2. split; [done|]. split; [done|]. split; [destruct Hr as [(-> & _)|[? _]]; auto|].
  split; [by eapply (wrote_truncated p s v bl v1)|]. by rewrite Hv2.
Qed.

(** The blocks of a file of [len] bytes. *)
Definition blocklen (len : Z) : Z := (len + 511) / 512.

Lemma truncated_byte p bl s v s2 v2 x : fs_ok s -> file_ok s (sv_i v) -> truncated p bl s v true s2 v2 -> 0 <= x < 512 * bl ->
  file_byte (dev s2) (sv_i v2) x = file_byte (dev s) (sv_i v) x.
Proof using DKL.
  intros Hfs Hf [Hfs2 Hf2 _ Hmap _ Hsec _ _ _ _] Hx. pose proof (length_fmap s _ Hfs Hf) as Hl. pose proof (length_fmap s2 _ Hfs2 Hf2) as Hl2.
  unfold file_byte. set (k := Z.to_nat (x / 512)).
  assert (nth k (SfsFile.fmap (dev s2) (sv_i v2)) 0 = nth k (SfsFile.fmap (dev s) (sv_i v)) 0) as ->.
  { destruct (decide (k < 143)%nat) as [Hk|Hk]; [|by rewrite !nth_overflow by lia]. rewrite Hmap by done. cbn beta iota. unfold keeps.
    destruct (Z.ltb_spec (Z.of_nat k) 15); [by rewrite (proj2 (Z.ltb_lt _ bl)) by lia|by rewrite (proj2 (Z.leb_le _ bl)) by lia]. }
  destruct (Z.eqb_spec (nth k (SfsFile.fmap (dev s) (sv_i v)) 0) 0) as [|Hne]; [done|]. rewrite Hsec; [done|].
  intros E. destruct Hf as [_ _ Hnd]. unfold blocks in Hnd. rewrite E, nonzero_cons in *. rewrite (proj2 (Z.eqb_neq _ 0)) in Hnd by done.
  cbn [app] in Hnd. apply list.NoDup_cons in Hnd as [Hn _]. apply Hn. apply list_elem_of_filter. split; [done|]. rewrite <- E.
  destruct (nth_lookup_or_length (SfsFile.fmap (dev s) (sv_i v)) k 0) as [Hk|Hk]; [by eapply list_elem_of_lookup_2|]. rewrite nth_overflow in E by done. congruence.
Qed.

Lemma truncate_run p s v len : fs_ok s -> svs s !! p = Some v -> file_ok s (sv_i v) -> 0 <= len <= 2147483136 ->
  exists r s' v', sfs_truncate p len s = Ok (r, s') /\ truncated p (blocklen len) s v (r =? 0) s' v' /\
    ((r = 0 /\ sfi_size (sv_i v') = len) \/ (eio D r /\ sfi_size (sv_i v') = sfi_size (sv_i v))).
Proof using DKL RW.
  intros Hfs Hv Hf Hlen. unfold sfs_truncate, SFS_BLOCKSIZE. rewrite c_int_id, Ok_bind by (unfold int_min, int_max; lia).
  replace (len + 512 - 1) with (len + 511) by lia. rewrite Z.quot_div_nonneg by lia.
  change ((len + 511) / 512) with (blocklen len). rewrite (u32_id (blocklen len)) by (unfold u32_mod, blocklen; lia). cbv zeta.
  destruct (truncate_blocks p s v (blocklen len)) as (s1 & r & s2 & v2 & -> & Hrun & Hr & Htr & Hsz); [done|done|done|unfold blocklen; lia|].
  rewrite Ok_bind, Hrun, Ok_bind. destruct Hr as [->|Hr].
  2: { rewrite (eio_nonzero r Hr) in *. exists r, s2, v2. rewrite (eio_nonzero r Hr). split; [done|]. split; [done|by right]. }
  cbn [Z.eqb negb].
  unfold sv_rd. destruct Htr as [Hfs2 Hf2 Hsvs Hmap Hbits Hsec Hrest Hsame Hdirty Hsub Hind]. rewrite Hsvs, lookup_insert_eq, Ok_bind, u32_id by (unfold u32_mod; lia).
  set (v3 := with_inode v2 (with_size (sv_i v2) len) 1). exists 0, (sv_wr p v3 s2), v3. split; [done|]. split; [|by left].
  assert (blocks (dev s2) (sv_i v3) = blocks (dev s2) (sv_i v2)) as Hb by done.
  constructor; cbn [dev sv_wr set_svs freemap svs]; try done.
  - destruct Hfs2. by constructor.
  - destruct Hf2 as [[] ? ?]. constructor; cbn [dev sv_wr set_svs]; rewrite ?Hb; try done. constructor; cbn; try done. unfold word32, u32_mod. lia.
  - rewrite Hsvs. by rewrite insert_insert_eq.
  - by left.
Qed.

(** Nothing is left of a file cut to no bytes. *)
Lemma truncated_empty p s v s2 v2 : fs_ok s -> truncated p 0 s v true s2 v2 -> blocks (dev s2) (sv_i v2) = [].
Proof using DKL.
  intros Hfs [Hfs2 Hf2 _ Hmap _ _ _ _ _ _ Hind]. destruct (idents_wf s2 (sv_i v2) Hfs2 Hf2) as [Hlen _]. pose proof Hf2 as [[_ _ _ Hl15 _ _ _ _] _ _].
  assert (SfsFile.fmap (dev s2) (sv_i v2) = replicate 143 0) as Hz.
  { apply (nth_ext _ _ 0 0); [unfold SfsFile.fmap; rewrite length_app, Hl15, Hlen, length_replicate; done|]. intros k Hk.
    unfold SfsFile.fmap in Hk. rewrite length_app, Hl15, Hlen in Hk. rewrite Hmap, (nth_lookup (replicate _ _)), lookup_replicate_2 by lia. unfold keeps. cbn [Z.leb Z.compare].
    destruct (Z.ltb_spec (Z.of_nat k) 15); [rewrite (proj2 (Z.ltb_ge _ 0)) by lia|rewrite (proj2 (Z.leb_gt _ 0)) by lia]; done. }
  assert (idents (dev s2) (sv_i v2) = replicate 128 0) as Hid.
  { unfold SfsFile.fmap in Hz. apply (f_equal (drop 15)) in Hz. by rewrite drop_app_length' in Hz by done. }
  unfold blocks. rewrite Hz, (Hind eq_refl) by (lia || by rewrite Hid). reflexivity.
Qed.

End Truncate.

(** ** The theorems *)

Section Theorems.
Context {D : Type} {DK : Disk D} {DKL : DiskLaws D}.
Local Abbreviation sfs := (SfsFile.sfs (D := D)).

(** C33. On a disk whose writes succeed, truncating a file to a shorter length
    returns 0, or EIO if the disk can fail reads.  When it returns 0 the file has
    its first [len] bytes.  In both cases the file system is sane; exactly the
    blocks the file gave up become free, and no other block changes except the
    indirect block. *)
Theorem sfs_truncate_shorter p (s : sfs) v len : ReliableWrites D -> fs_ok s -> svs s !! p = Some v -> file_ok s (sv_i v) ->
  0 <= len <= sfi_size (sv_i v) -> len <= 2147483136 ->
  exists r s' v', sfs_truncate p len s = Ok (r, s') /\ (r = 0 \/ eio D r) /\ svs s' !! p = Some v' /\ fs_ok s' /\ file_ok s' (sv_i v') /\
    (r = 0 -> contents (dev s') (sv_i v') = take (Z.to_nat len) (contents (dev s) (sv_i v))) /\
    (forall b, 0 <= b -> bit (freemap s') b =
       bit (freemap s) b && bool_decide (b ∈ blocks (dev s) (sv_i v) -> b ∈ blocks (dev s') (sv_i v'))) /\
    (forall b, b <> sfi_indirect (sv_i v) -> sector (dev s') b = sector (dev s) b).
Proof using DKL.
  intros RW Hfs Hv Hf Hlen Hmax. destruct (truncate_run p s v len Hfs Hv Hf) as (r & s' & v' & Hrun & Htr & Hr); [lia|].
  pose proof Htr as [Hfs' Hf' Hsvs _ Hbits Hsec _ _ _ _ _]. exists r, s', v'. split; [done|]. split; [tauto|]. split; [by rewrite Hsvs, lookup_insert_eq|].
  split; [done|]. split; [done|]. split; [|done]. intros ->. destruct Hr as [[_ Hsz]|[[? _] _]]; [|done].
  apply (contents_slice (dev s) (sv_i v) 0 len); [lia|rewrite contents_length; lia|lia|]. intros j Hj.
  rewrite (nth_lookup_Some _ _ _ (file_byte (dev s') (sv_i v') j)) by (rewrite contents_nth, Z2Nat.id by lia; done).
  rewrite (truncated_byte p (blocklen len) s v s' v') by (done || (unfold blocklen; lia)). done.
Qed.

(** In the indirect block the comparison with the new length is off by
    one: the block just past the end of the file stays in the file and stays
    allocated. *)
Theorem sfs_truncate_keeps_block p (s : sfs) v len s' : ReliableWrites D -> fs_ok s -> svs s !! p = Some v -> file_ok s (sv_i v) ->
  0 <= len -> 15 <= blocklen len < 143 -> sfs_truncate p len s = Ok (0, s') ->
  let b := nth (Z.to_nat (blocklen len)) (SfsFile.fmap (dev s) (sv_i v)) 0 in
  exists v', svs s' !! p = Some v' /\ sfi_size (sv_i v') = len /\ len <= 512 * blocklen len /\
    nth (Z.to_nat (blocklen len)) (SfsFile.fmap (dev s') (sv_i v')) 0 = b /\ (b <> 0 -> used s' b).
Proof using DKL.
  intros RW Hfs Hv Hf Hlen Hbl Hrun b. unfold blocklen in *. destruct (truncate_run p s v len Hfs Hv Hf) as (r & s2 & v' & Hrun2 & Htr & Hr); [lia|].
  rewrite Hrun in Hrun2. injection Hrun2 as <- <-. fold (blocklen len) in *. destruct Hr as [[_ Hsz]|[[? _] _]]; [|done].
  pose proof Htr as [_ Hf' Hsvs Hmap _ _ _ _ _ _ _]. exists v'. split; [by rewrite Hsvs, lookup_insert_eq|]. split; [done|]. split; [unfold blocklen; lia|].
  assert (nth (Z.to_nat (blocklen len)) (SfsFile.fmap (dev s') (sv_i v')) 0 = b) as Eb.
  { rewrite Hmap by lia. rewrite Z2Nat.id by lia. cbn beta iota. unfold keeps.
    by rewrite (proj2 (Z.ltb_ge _ 15)), Z.leb_refl by lia. }
  split; [done|]. intros Hb. destruct (block_used s' (sv_i v') (Z.to_nat (blocklen len)) Hf') as [?|Hu]; [congruence|by rewrite Eb in Hu].
Qed.

End Theorems.

(** ** Examples *)

Lemma sfs_truncate_shorter_witness : exists s' v',
  sfs_truncate 16 100 demo_fs = Ok (0, s') /\ svs s' !! 16 = Some v' /\ contents (dev s') (sv_i v') = replicate 100 7.
Proof.
  destruct (sfs_truncate_shorter 16 demo_fs demo_sv 100 good_disk_writes) as (r & s' & v' & Hrun & Hr & Hv & _ & _ & Hc & _).
  - exact demo_fs_ok.
  - reflexivity.
  - exact demo_file_ok.
  - cbn. lia.
  - lia.
  - destruct Hr as [->|Hr].
    + exists s', v'. split; [exact Hrun|]. split; [exact Hv|]. rewrite (Hc eq_refl). vm_compute. reflexivity.
    + exfalso. by apply good_disk_reads in Hr.
Defined.

(** A file of 17 blocks, the last two, 8 and 9, in the indirect block 6. *)
Definition long_inode : sfs_inode := mk_inode 8704 1 1 (replicate 15 0) 6 (replicate 110 0).

Definition long_sv : sfs_vnode := mk_sv long_inode 4 0 1 1.

Definition long_fs : SfsFile.sfs (D := good_disk) :=
  mk_sfs (mk_good (<[6 := bytes_of (8 :: 9 :: replicate 126 0)]> ∅)) 64 0 (mk_bitmap 64 [127; 3; 0; 0; 0; 0; 0; 0]) 0 [16] {[16 := long_sv]}.

Lemma long_fs_ok : fs_ok long_fs.
Proof.
  constructor; cbn; try lia; [|reflexivity]. split; [cbn; lia|]. split; [reflexivity|]. split; [|cbn; lia].
  repeat (constructor; [lia|]). constructor.
Qed.

Lemma long_file_ok : file_ok long_fs long_inode.
Proof.
  assert (blocks (dev long_fs) long_inode = [6; 8; 9]) as E by (vm_compute; reflexivity). constructor; rewrite ?E.
  - constructor; cbn; try done || (unfold word32, u32_mod; lia); repeat (constructor; [unfold word32, u32_mod; lia|]); constructor.
  - intros b Hb. repeat (apply elem_of_cons in Hb as [->|Hb]; [split; [cbn; lia|reflexivity]|]). by apply elem_of_nil in Hb.
  - apply (bool_decide_unpack _). reflexivity.
Qed.

Definition cut_fs : SfsFile.sfs (D := good_disk) :=
  match sfs_truncate 16 7680 long_fs with Ok (_, s) => s | _ => long_fs end.

(** Cut to 15 blocks, the file still owns block 8. *)
Lemma sfs_truncate_keeps_block_witness : used cut_fs 8.
Proof.
  destruct (sfs_truncate_keeps_block 16 long_fs long_sv 7680 cut_fs good_disk_writes) as (v' & _ & _ & _ & _ & Hu).
  - exact long_fs_ok.
  - reflexivity.
  - exact long_file_ok.
  - lia.
  - vm_compute. split; [discriminate|reflexivity].
  - vm_compute. reflexivity.
  - apply Hu. vm_compute. discriminate.
Defined.

End SfsTruncate.
