(* ===== verification/Strings.v ===== *)
(** * Strings: the string functions of lib/libc that the kernel shares

    A [char *] is the list of the bytes from the pointer to the end of the object
    it points into; access past the end is undefined.  Two arguments are
    different objects.  A returned pointer is an offset from the first argument.
    Plain [char] is signed on this machine, so bytes of 128 and more compare as
    negative. *)

From S2P Require Import Prelude.

Module Strings.

(** The value of a [char]. *)
Definition s8 (c : Z) : Z := if c <? 128 then c else c - 256.

(** ** Length and copying *)

(** [while (s[ret]) ret++], from [s] on. *)
Fixpoint strlen_loop (s : list Z) (ret : Z) : outcome Z :=
  match s with
  | [] => Undef
  | c :: s' => if c =? 0 then Ok ret else strlen_loop s' (u32 (ret + 1))
  end.

Definition strlen (s : list Z) : outcome Z := strlen_loop s 0.

(** The destination afterwards. *)
Fixpoint strcpy (dest src : list Z) : outcome (list Z) :=
  match src, dest with
  | c :: src', _ :: dest' => if c =? 0 then Ok (0 :: dest') else l ← strcpy dest' src'; Ok (c :: l)
  | _, _ => Undef
  end.

Definition strcat (dest src : list Z) : outcome (list Z) :=
  offset ← strlen dest;
  l ← strcpy (drop (Z.to_nat offset) dest) src;
  Ok (take (Z.to_nat offset) dest ++ l).

(** ** Searching and comparing *)

(** From the character at offset [i] on. *)
Fixpoint strchr_loop (s : list Z) (ch i : Z) : outcome (option Z) :=
  match s with
  | [] => Undef
  | c :: s' =>
      if c =? 0 then Ok (if s8 c =? ch then Some i else None)
      else if s8 c =? ch then Ok (Some i) else strchr_loop s' ch (i + 1)
  end.

Definition strchr (s : list Z) (ch : Z) : outcome (option Z) := strchr_loop s ch 0.

(** [while (i>0)], with [i] as the count. *)
Fixpoint strrchr_loop (s : list Z) (ch : Z) (i : nat) : outcome (option Z) :=
  match i with
  | O => Ok None
  | S i' =>
      c ← rd s (Z.of_nat i');
      if s8 c =? ch then Ok (Some (Z.of_nat i')) else strrchr_loop s ch i'
  end.

Definition strrchr (s : list Z) (ch : Z) : outcome (option Z) :=
  len ← strlen s;
  strrchr_loop s ch (Z.to_nat (u32 (len + 1))).

Fixpoint strcmp (a b : list Z) : outcome Z :=
  match a, b with
  | x :: a', y :: b' =>
      if negb (x =? 0) && (x =? y) then strcmp a' b'
      else Ok (if s8 x >? s8 y then 1 else if x =? y then 0 else -1)
  | _, _ => Undef
  end.

Fixpoint memcmp (a b : list Z) (len : nat) : outcome Z :=
  match len with
  | O => Ok 0
  | S n =>
      match a, b with
      | x :: a', y :: b' => if negb (x =? y) then Ok (x - y) else memcmp a' b' n
      | _, _ => Undef
      end
  end.

Fixpoint memset (p : list Z) (ch : Z) (len : nat) : outcome (list Z) :=
  match len, p with
  | O, _ => Ok p
  | S n, _ :: p' => l ← memset p' ch n; Ok (ch mod 256 :: l)
  | S _, [] => Undef
  end.

(** ** Tokens *)

(** The loops over separators and over the characters of a word, from offset
    [i] on; [want] is the outcome of [strchr] for which the loop goes on. *)
Fixpoint skip (want : bool) (seps s : list Z) (i : Z) : outcome Z :=
  match s with
  | [] => Undef
  | c :: s' =>
      if c =? 0 then Ok i
      else
        r ← strchr seps (s8 c);
        if Bool.eqb (match r with Some _ => true | None => false end) want then skip want seps s' (i + 1) else Ok i
  end.

(** [string] is the offset of a new string in [buf], or NULL; returns the
    offset of the word, the new context and the buffer. *)
Definition strtok_r (buf : list Z) (string : option Z) (seps : list Z) (context : option Z) :
    outcome (option Z * option Z * list Z) :=
  match (match string with Some p => Some p | None => context end) with
  | None => Ok (None, None, buf)
  | Some head =>
      head ← skip true seps (drop (Z.to_nat head) buf) head;
      c ← rd buf head;
      if c =? 0 then Ok (None, None, buf)
      else
        tail ← skip false seps (drop (Z.to_nat head) buf) head;
        c ← rd buf tail;
        if c =? 0 then Ok (Some head, None, buf)
        else
          buf ← wr buf tail 0;
          Ok (Some head, Some (tail + 1), buf)
  end.

(** ** Numbers *)

Definition digits : list Z := [48; 49; 50; 51; 52; 53; 54; 55; 56; 57; 0].

Fixpoint skip_blanks (s : list Z) : outcome (list Z) :=
  match s with
  | [] => Undef
  | c :: s' => if (c =? 32) || (c =? 9) then skip_blanks s' else Ok s
  end.

Fixpoint atoi_loop (s : list Z) (val : Z) : outcome Z :=
  match s with
  | [] => Undef
  | c :: s' =>
      if c =? 0 then Ok val
      else
        where_ ← strchr digits (s8 c);
        match where_ with
        | None => Ok val
        | Some digit => atoi_loop s' (u32 (u32 (val * 10) + digit))
        end
  end.

Definition atoi (s : list Z) : outcome Z :=
  s ← skip_blanks s;
  match s with
  | [] => Undef
  | c :: s' =>
      let neg := c =? 45 in
      val ← atoi_loop (if neg || (c =? 43) then s' else s) 0;
      Ok (s32 (if neg then u32 (- val) else val))
  end.

(** ** C strings *)

(** [l] is a string: no zero byte among its characters. *)
Definition str (l : list Z) : Prop := Forall (fun c => 0 < c < 256) l.

(** [s] points to the string [l]. *)
Definition points_to (s l : list Z) : Prop := str l /\ exists rest, s = l ++ 0 :: rest.

Lemma s8_inj a b : 0 <= a < 256 -> 0 <= b < 256 -> s8 a = s8 b -> a = b.
Proof. unfold s8. intros. destruct (Z.ltb_spec a 128), (Z.ltb_spec b 128); lia. Qed.

Lemma str_cons c l : str (c :: l) <-> 0 < c < 256 /\ str l.
Proof. unfold str. by rewrite list.Forall_cons. Qed.

Lemma str_app a b : str (a ++ b) <-> str a /\ str b.
Proof. unfold str. by rewrite list.Forall_app. Qed.

Ltac nonzero c := rewrite (proj2 (Z.eqb_neq c 0)) by lia.

Lemma strlen_loop_run l rest : forall n, str l -> 0 <= n -> n + zlen l < u32_mod -> strlen_loop (l ++ 0 :: rest) n = Ok (n + zlen l).
Proof.
  induction l as [|c l IH]; intros n Hs Hn Hl; cbn [app strlen_loop Z.eqb]; [cbn; f_equal; lia|].
  apply str_cons in Hs as [Hc Hs]. nonzero c. cbn [length] in *. rewrite u32_id, IH by (done || lia). f_equal. lia.
Qed.

Lemma strlen_run s l : points_to s l -> zlen l < u32_mod -> strlen s = Ok (zlen l).
Proof. intros [Hs [rest ->]] Hl. unfold strlen. by rewrite strlen_loop_run by (done || lia). Qed.

Lemma strcpy_run s l : forall dest, points_to s l -> (length l < length dest)%nat ->
  strcpy dest s = Ok (l ++ 0 :: drop (S (length l)) dest).
Proof.
  intros dest [Hs [rest ->]]. revert dest. induction l as [|c l IH]; intros [|d dest] Hl; cbn in Hl; try lia; cbn [app strcpy length drop]; [done|].
  apply str_cons in Hs as [Hc Hs]. nonzero c. by rewrite IH by (done || lia).
Qed.

(** A destination without room for the string and the terminator is overrun. *)
Lemma strcpy_overrun s l : forall dest, points_to s l -> (length dest <= length l)%nat -> strcpy dest s = Undef.
Proof.
  intros dest [Hs [rest ->]]. revert dest. induction l as [|c l IH]; intros [|d dest] Hl; cbn in Hl; try lia; cbn [app strcpy length drop]; try done.
  apply str_cons in Hs as [Hc Hs]. nonzero c. by rewrite IH by (done || lia).
Qed.

Lemma strcat_run d s a b : points_to d a -> points_to s b -> (length a + length b < length d)%nat -> zlen a < u32_mod ->
  exists d', strcat d s = Ok d' /\ points_to d' (a ++ b) /\ length d' = length d.
Proof.
  intros Hd Hs Hl Ha. unfold strcat. rewrite (strlen_run d a Hd Ha), Ok_bind, Nat2Z.id.
  rewrite (strcpy_run s b) by (done || (rewrite length_drop; lia)). rewrite Ok_bind. eexists. split; [done|].
  destruct Hd as [Hsa [ra ->]], Hs as [Hsb _]. rewrite take_app_length, drop_app_length. split.
  - split; [by apply str_app|]. eexists. by rewrite <- app_assoc.
  - rewrite !length_app in *. cbn [length] in *. rewrite length_drop. cbn [length]. lia.
Qed.

(** ** Searching *)

Lemma strchr_loop_run l rest ch : forall i, str l -> -128 <= ch < 128 -> ch <> 0 ->
  strchr_loop (l ++ 0 :: rest) ch i = Ok (option_map (fun k => i + Z.of_nat k) (fst <$> list_find (fun c => s8 c = ch) l)).
Proof.
  induction l as [|c l IH]; intros i Hs Hch Hne; cbn [app strchr_loop Z.eqb].
  { change (s8 0) with 0. rewrite (proj2 (Z.eqb_neq 0 ch)) by lia. done. }
  apply str_cons in Hs as [Hc Hs]. nonzero c. cbn [list_find]. destruct (Z.eqb_spec (s8 c) ch) as [E|E].
  - rewrite decide_True by done. cbn. do 2 f_equal. lia.
  - rewrite decide_False, IH by done. destruct (list_find _ l) as [[k x]|]; cbn; [|done]. do 2 f_equal. lia.
Qed.

(** [strchr] finds the first occurrence. *)
Lemma strchr_run s l ch : points_to s l -> -128 <= ch < 128 -> ch <> 0 ->
  strchr s ch = Ok (option_map Z.of_nat (fst <$> list_find (fun c => s8 c = ch) l)).
Proof. intros [Hs [rest ->]] Hch Hne. unfold strchr. rewrite strchr_loop_run by done. by destruct (list_find _ l) as [[k x]|]. Qed.

(** ** Comparing *)

(** The order that [strcmp] computes: lexicographic by [char]s, the end of a
    string being a zero. *)
Fixpoint cmp (a b : list Z) : Z :=
  match a, b with
  | x :: a', y :: b' => if x =? y then cmp a' b' else if s8 y <? s8 x then 1 else -1
  | x :: _, [] => if 0 <? s8 x then 1 else -1
  | [], y :: _ => if s8 y <? 0 then 1 else -1
  | [], [] => 0
  end.

Lemma strcmp_run s t a : forall b, points_to s a -> points_to t b -> strcmp s t = Ok (cmp a b).
Proof.
  intros b [Hs [rs ->]] [Ht [rt ->]]. revert b Ht. induction a as [|x a IH]; intros [|y b] Ht; cbn [app strcmp cmp].
  - done.
  - apply str_cons in Ht as [Hy _]. change (negb (0 =? 0)) with false. cbn [andb]. rewrite Z.gtb_ltb. by rewrite (proj2 (Z.eqb_neq 0 y)) by lia.
  - apply str_cons in Hs as [Hx _]. nonzero x. cbn [negb andb]. by rewrite Z.gtb_ltb.
  - apply str_cons in Hs as [Hx Hs]. apply str_cons in Ht as [Hy Ht]. nonzero x. cbn [negb andb]. rewrite Z.gtb_ltb.
    destruct (Z.eqb_spec x y); [by apply IH|done].
Qed.

Lemma cmp_zero a : forall b, str a -> str b -> cmp a b = 0 <-> a = b.
Proof.
  induction a as [|x a IH]; intros [|y b] Ha Hb; cbn [cmp]; try done.
  - split; [by destruct (_ <? _)|done].
  - split; [by destruct (_ <? _)|done].
  - apply str_cons in Ha as [_ Ha]. apply str_cons in Hb as [_ Hb]. destruct (Z.eqb_spec x y) as [->|Hne].
    + rewrite IH by done. split; congruence.
    + split; [by destruct (_ <? _)|congruence].
Qed.

End Strings.
