(* ===== verification/Printf.v ===== *)
(** * Formatted output: lib/libc/__printf.c and snprintf.c

    The state of a printf session is the record [PF]; the part that
    [__pf_endfield] resets is the record [field] in it.  Where the text goes is
    the caller's choice, as in the code: [sendfunc] on the caller's data.  A
    pointer to a string is the list of bytes from there on, as in Strings.v. *)

From S2P Require Import Prelude Strings.
Import Strings.

Module Printf.

(** An argument of a variadic call: a word, or a pointer to a string or NULL. *)
Inductive va : Type :=
| Word (w : Z)
| Str (s : option (list Z)).

(** Without [USE_LONGLONG]. *)
Inductive argsize : Type := INTSZ | LONGSZ.

Record field : Type := mk_field {
  in_pct : Z;
  size : argsize;
  num : Z;
  sign : Z;
  spacing : Z;
  rightspc : Z;
  fillchar : Z;
  base : Z;
  baseprefix : Z;
  altformat : Z;
}.

Record PF (C : Type) : Type := mk_PF {
  clientdata : C;
  ap : list va;
  charcount : Z;
  fld : field;
}.
Arguments mk_PF {C}.
Arguments clientdata {C}.
Arguments ap {C}.
Arguments charcount {C}.
Arguments fld {C}.

Definition set_fld {C} (f : field) (pf : PF C) : PF C := mk_PF (clientdata pf) (ap pf) (charcount pf) f.

(** [(sizeof(long) * CHAR_BIT) / 3 + 2] *)
Definition NUMBER_BUF_SIZE : Z := 32 / 3 + 2.

(** ** One field *)

Definition empty_field : field := mk_field 0 INTSZ 0 0 0 0 32 0 0 0.

Definition __pf_modifier (f : field) (ch : Z) : outcome field :=
  if ch =? 35 then Ok (mk_field (in_pct f) (size f) (num f) (sign f) (spacing f) (rightspc f) (fillchar f) (base f) (baseprefix f) 1)
  else if ch =? 45 then Ok (mk_field (in_pct f) (size f) (num f) (sign f) (spacing f) 1 (fillchar f) (base f) (baseprefix f) (altformat f))
  else if (ch =? 108) || (ch =? 113) then
    Ok (mk_field (in_pct f) LONGSZ (num f) (sign f) (spacing f) (rightspc f) (fillchar f) (base f) (baseprefix f) (altformat f))
  else if ch =? 48 then
    if spacing f >? 0 then
      n ← c_int (spacing f * 10);
      Ok (mk_field (in_pct f) (size f) (num f) (sign f) n (rightspc f) (fillchar f) (base f) (baseprefix f) (altformat f))
    else Ok (mk_field (in_pct f) (size f) (num f) (sign f) (spacing f) (rightspc f) 48 (base f) (baseprefix f) (altformat f))
  else
    _ ← c_assert ((ch >? 48) && (ch <=? 57));
    n ← c_int (spacing f * 10);
    n ← c_int (n + (ch - 48));
    Ok (mk_field (in_pct f) (size f) (num f) (sign f) n (rightspc f) (fillchar f) (base f) (baseprefix f) (altformat f)).

(** [int], [long] and pointers are words of the same size. *)
Definition __pf_getnum {C} (pf : PF C) (ch : Z) : outcome (PF C) :=
  match ap pf with
  | Word w :: l =>
      let f := fld pf in
      '(n, sg) ←
        (if ch =? 112 then Ok (u32 w, sign f)
         else if ch =? 100 then
           let signednum := s32 w in
           if signednum <? 0 then m ← c_int (- signednum); Ok (u32 m, -1) else Ok (u32 signednum, sign f)
         else Ok (u32 w, sign f));
      Ok (mk_PF (clientdata pf) l (charcount pf)
        (mk_field (in_pct f) (size f) n sg (spacing f) (rightspc f) (fillchar f) (base f) (baseprefix f) (altformat f)))
  | _ => Undef
  end.

Definition __pf_setbase (f : field) (ch : Z) : field :=
  let b := if (ch =? 100) || (ch =? 117) then 10 else if (ch =? 120) || (ch =? 112) then 16 else if ch =? 111 then 8 else base f in
  let p := if negb (altformat f =? 0) || (ch =? 112) then 1 else baseprefix f in
  mk_field (in_pct f) (size f) (num f) (sign f) (spacing f) (rightspc f) (fillchar f) b p (altformat f).

(** The string constants of [__pf_printnum]. *)
Definition hexdigits : list Z := [48; 49; 50; 51; 52; 53; 54; 55; 56; 57; 97; 98; 99; 100; 101; 102; 0].

(** The loop of [__pf_printnum]; [x] is an index of [buf].  A word has at most
    32 digits in any base. *)
Fixpoint num_loop (fuel : nat) (buf : list Z) (x xnum b : Z) : outcome (list Z * Z) :=
  match fuel with
  | O => Hang
  | S fuel' =>
      if b =? 0 then Undef
      else
        d ← rd hexdigits (xnum mod b);
        buf ← wr buf x d;
        if xnum / b >? 0 then num_loop fuel' buf (x - 1) (xnum / b) b else Ok (buf, x - 1)
  end.

Section Send.
Context {C : Type} (sendfunc : C -> list Z -> outcome C).

Definition __pf_print (pf : PF C) (txt : list Z) : outcome (PF C) :=
  c ← sendfunc (clientdata pf) txt;
  Ok (mk_PF c (ap pf) (s32 (u32 (charcount pf + zlen txt))) (fld pf)).

Definition __pf_endfield (pf : PF C) : PF C := set_fld empty_field pf.

Fixpoint __pf_fill (pf : PF C) (spc : nat) : outcome (PF C) :=
  match spc with
  | O => Ok pf
  | S n => pf ← __pf_print pf [fillchar (fld pf) mod 256]; __pf_fill pf n
  end.

Definition __pf_printstuff (pf : PF C) (prefix prefix2 stuff : list Z) : outcome (PF C) :=
  l1 ← strlen prefix;
  l2 ← strlen prefix2;
  l3 ← strlen stuff;
  let len := s32 (u32 (u32 (l1 + l2) + l3)) in
  spc ← (if spacing (fld pf) >? len then c_int (spacing (fld pf) - len) else Ok 0);
  let left := (spc >? 0) && (rightspc (fld pf) =? 0) in
  let zero := fillchar (fld pf) =? 48 in
  pf ← (if left && negb zero then __pf_fill pf (Z.to_nat spc) else Ok pf);
  pf ← __pf_print pf (take (Z.to_nat l1) prefix);
  pf ← __pf_print pf (take (Z.to_nat l2) prefix2);
  pf ← (if left && zero then __pf_fill pf (Z.to_nat spc) else Ok pf);
  pf ← __pf_print pf (take (Z.to_nat l3) stuff);
  if (spc >? 0) && negb (rightspc (fld pf) =? 0) then __pf_fill pf (Z.to_nat spc) else Ok pf.

(** [junk] is what the uninitialised buffer holds. *)
Definition __pf_printnum (junk : list Z) (pf : PF C) : outcome (PF C) :=
  let f := fld pf in
  buf ← wr junk (NUMBER_BUF_SIZE - 1) 0;
  '(buf, x) ← num_loop 32 buf (NUMBER_BUF_SIZE - 2) (num f) (base f);
  let bprefix :=
    if negb (baseprefix f =? 0) && (base f =? 16) then [48; 120; 0]
    else if negb (baseprefix f =? 0) && (base f =? 8) then [48; 0] else [0] in
  let sprefix := if negb (sign f =? 0) then [45; 0] else [0] in
  __pf_printstuff pf sprefix bprefix (drop (Z.to_nat (x + 1)) buf).

Definition modifiers : list Z := [35; 45; 113; 108; 48; 49; 50; 51; 52; 53; 54; 55; 56; 57; 0].
Definition inttypes : list Z := [100; 111; 117; 112; 120; 0].
Definition null_text : list Z := [40; 110; 117; 108; 108; 41; 0].

Definition __pf_send (junk : list Z) (pf : PF C) (ch : Z) : outcome (PF C) :=
  _ ← c_assert (negb (ch =? 0));
  if (in_pct (fld pf) =? 0) && negb (ch =? 37) then __pf_print pf [ch mod 256]
  else if in_pct (fld pf) =? 0 then
    let f := fld pf in
    Ok (set_fld (mk_field 1 (size f) (num f) (sign f) (spacing f) (rightspc f) (fillchar f) (base f) (baseprefix f) (altformat f)) pf)
  else
    m ← strchr modifiers ch;
    match m with
    | Some _ => f ← __pf_modifier (fld pf) ch; Ok (set_fld f pf)
    | None =>
        t ← strchr inttypes ch;
        match t with
        | Some _ =>
            pf ← __pf_getnum pf ch;
            let pf := set_fld (__pf_setbase (fld pf) ch) pf in
            pf ← __pf_printnum junk pf;
            Ok (__pf_endfield pf)
        | None =>
            if ch =? 115 then
              match ap pf with
              | Str s :: l =>
                  let pf := mk_PF (clientdata pf) l (charcount pf) (fld pf) in
                  pf ← __pf_printstuff pf [0] [0] (match s with Some str => str | None => null_text end);
                  Ok (__pf_endfield pf)
              | _ => Undef
              end
            else
              '(x, pf) ←
                (if ch =? 99 then
                   match ap pf with
                   | Word w :: l => Ok (w mod 256, mk_PF (clientdata pf) l (charcount pf) (fld pf))
                   | _ => Undef
                   end
                 else Ok (ch mod 256, pf));
              pf ← __pf_printstuff pf [0] [0] [x; 0];
              Ok (__pf_endfield pf)
        end
    end.

Fixpoint vprintf_loop (junk : list Z) (pf : PF C) (format : list Z) : outcome (PF C) :=
  match format with
  | [] => Undef
  | c :: format' => if c =? 0 then Ok pf else pf ← __pf_send junk pf (s8 c); vprintf_loop junk pf format'
  end.

(** Returns the caller's data as well. *)
Definition __vprintf (junk : list Z) (data : C) (format : list Z) (args : list va) : outcome (Z * C) :=
  pf ← vprintf_loop junk (mk_PF data args 0 empty_field) format;
  Ok (charcount pf, clientdata pf).

End Send.

(** ** Printing into a buffer *)

Record SNP : Type := mk_SNP {
  buf : list Z;
  buflen : Z;
  bufpos : Z;
}.

Fixpoint __snprintf_send (snp : SNP) (data : list Z) : outcome SNP :=
  match data with
  | [] => Ok snp
  | c :: data' =>
      if bufpos snp <? buflen snp then
        b ← wr (buf snp) (bufpos snp) c;
        __snprintf_send (mk_SNP b (buflen snp) (u32 (bufpos snp + 1))) data'
      else __snprintf_send snp data'
  end.

(** Returns the buffer as well. *)
Definition vsnprintf (junk b : list Z) (len : Z) (fmt : list Z) (args : list va) : outcome (Z * list Z) :=
  '(chars, snp) ← __vprintf __snprintf_send junk (mk_SNP b (if len =? 0 then 0 else len - 1) 0) fmt args;
  if len >? 0 then b ← wr (buf snp) (bufpos snp) 0; Ok (chars, b) else Ok (chars, buf snp).

(** ** Sessions with different callers *)

(** Two outcomes of the same kind, with related results. *)
Definition orel {A B} (P : A -> B -> Prop) (o1 : outcome A) (o2 : outcome B) : Prop :=
  match o1, o2 with
  | Ok a, Ok b => P a b
  | Panic, Panic | Undef, Undef | Hang, Hang => True
  | _, _ => False
  end.

Lemma orel_bind {A B A' B'} (P : A -> B -> Prop) (Q : A' -> B' -> Prop) o1 o2 k1 k2 :
  orel P o1 o2 -> (forall a b, P a b -> orel Q (k1 a) (k2 b)) -> orel Q (o1 ≫= k1) (o2 ≫= k2).
Proof. intros Ho Hk. destruct o1, o2; cbn in *; try done; by apply Hk. Qed.

Lemma orel_same {A A' B'} (Q : A' -> B' -> Prop) (o : outcome A) k1 k2 : (forall a, orel Q (k1 a) (k2 a)) -> orel Q (o ≫= k1) (o ≫= k2).
Proof. intros Hk. destruct o; cbn; try done; by apply Hk. Qed.

Section Sim.
Context {C1 C2 : Type} (f : C1 -> list Z -> outcome C1) (g : C2 -> list Z -> outcome C2) (R : Z -> C1 -> C2 -> Prop).
Context (Hsend : forall n c1 c2 t, R n c1 c2 -> orel (R (s32 (u32 (n + zlen t)))) (f c1 t) (g c2 t)).

Definition pf_rel (p1 : PF C1) (p2 : PF C2) : Prop :=
  R (charcount p1) (clientdata p1) (clientdata p2) /\ ap p1 = ap p2 /\ charcount p1 = charcount p2 /\ fld p1 = fld p2.

Lemma print_rel p1 p2 t : pf_rel p1 p2 -> orel pf_rel (__pf_print f p1 t) (__pf_print g p2 t).
Proof using Hsend.
  intros (Hr & Ha & Hc & Hf). unfold __pf_print. eapply orel_bind; [by apply Hsend|]. intros a b Hab. unfold pf_rel. cbn. by rewrite Ha, Hf, <- Hc.
Qed.

Lemma fill_rel n : forall p1 p2, pf_rel p1 p2 -> orel pf_rel (__pf_fill f p1 n) (__pf_fill g p2 n).
Proof using Hsend.
  induction n as [|n IH]; intros p1 p2 Hp; cbn [__pf_fill]; [done|]. pose proof Hp as (_ & _ & _ & Hf). rewrite Hf.
  apply (orel_bind pf_rel); [by apply print_rel|]. auto.
Qed.

Lemma printstuff_rel p1 p2 a b c : pf_rel p1 p2 -> orel pf_rel (__pf_printstuff f p1 a b c) (__pf_printstuff g p2 a b c).
Proof using Hsend.
  intros Hp. unfold __pf_printstuff. apply orel_same. intros l1. apply orel_same. intros l2. apply orel_same. intros l3. cbv zeta.
  assert (fld p1 = fld p2) as -> by apply Hp. apply orel_same. intros spc.
  apply (orel_bind pf_rel); [destruct (_ && _); [by apply fill_rel|done]|]. intros q1 q2 Hq.
  apply (orel_bind pf_rel); [by apply print_rel|]. clear -Hsend. intros q1 q2 Hq. apply (orel_bind pf_rel); [by apply print_rel|]. clear -Hsend. intros q1 q2 Hq.
  apply (orel_bind pf_rel); [destruct (_ && _); [by apply fill_rel|done]|]. clear -Hsend. intros q1 q2 Hq.
  apply (orel_bind pf_rel); [by apply print_rel|]. clear -Hsend. intros q1 q2 Hq. assert (fld q1 = fld q2) as -> by apply Hq.
  destruct (_ && _); [by apply fill_rel|done].
Qed.

Lemma set_fld_rel p1 p2 fd : pf_rel p1 p2 -> pf_rel (set_fld fd p1) (set_fld fd p2).
Proof. by intros (? & ? & ? & ?). Qed.

Lemma getnum_rel p1 p2 ch : pf_rel p1 p2 -> orel pf_rel (__pf_getnum p1 ch) (__pf_getnum p2 ch).
Proof.
  intros (Hr & Ha & Hc & Hf). unfold __pf_getnum. rewrite Ha, Hf. destruct (ap p2) as [|[w|s] l]; cbn; try done.
  apply orel_same. intros [n sg]. unfold pf_rel. cbn. by rewrite <- Hc.
Qed.

Lemma send_rel junk p1 p2 ch : pf_rel p1 p2 -> orel pf_rel (__pf_send f junk p1 ch) (__pf_send g junk p2 ch).
Proof using Hsend.
  intros Hp. pose proof Hp as (Hr & Ha & Hc & Hf). unfold __pf_send. apply orel_same. intros _. rewrite Hf.
  destruct (_ && _); [by apply print_rel|]. destruct (_ =? 0); [by apply set_fld_rel|]. apply orel_same. intros [m|].
  { apply orel_same. intros fd. by apply set_fld_rel. }
  apply orel_same. intros [t|].
  { apply (orel_bind pf_rel); [by apply getnum_rel|]. clear -Hsend. intros q1 q2 Hq. assert (fld q1 = fld q2) as -> by apply Hq.
    apply (orel_bind pf_rel); [|intros; by apply set_fld_rel]. unfold __pf_printnum. cbn [fld set_fld]. apply orel_same. intros b1. apply orel_same. intros [b2 x].
    by apply printstuff_rel, set_fld_rel. }
  rewrite Ha, <- Hc. destruct (ch =? 115).
  { destruct (ap p2) as [|[w|s] l]; [done|done|]. apply (orel_bind pf_rel); [by apply printstuff_rel|]. intros. by apply set_fld_rel. }
  apply (orel_bind (fun a b => a.1 = b.1 /\ pf_rel a.2 b.2)).
  { destruct (ch =? 99); [|done]. by destruct (ap p2) as [|[w|s] l]. }
  intros [x q1] [y q2] [E Hq]. cbn in E, Hq. subst y. apply (orel_bind pf_rel); [by apply printstuff_rel|]. intros. by apply set_fld_rel.
Qed.

Lemma vprintf_rel junk c1 c2 fmt args : R 0 c1 c2 ->
  orel (fun a b => a.1 = b.1 /\ R a.1 a.2 b.2) (__vprintf f junk c1 fmt args) (__vprintf g junk c2 fmt args).
Proof using Hsend.
  intros Hr. unfold __vprintf. apply (orel_bind pf_rel); [|by intros p1 p2 (? & _ & ? & _)].
  assert (pf_rel (mk_PF c1 args 0 empty_field) (mk_PF c2 args 0 empty_field)) as Hp by done. revert Hp. generalize (mk_PF c1 args 0 empty_field) (mk_PF c2 args 0 empty_field).
  induction fmt as [|c fmt IH]; intros p1 p2 Hp; cbn [vprintf_loop]; [done|]. destruct (c =? 0); [done|].
  apply (orel_bind pf_rel); [by apply send_rel|]. auto.
Qed.

End Sim.

(** A session that keeps all the text. *)
Definition append (c t : list Z) : outcome (list Z) := Ok (c ++ t).

(** After the text [out], a buffer with room for [L] characters. *)
Definition into (b0 : list Z) (L : Z) (out : list Z) (snp : SNP) : Prop :=
  let k := Z.min (zlen out) L in buflen snp = L /\ bufpos snp = k /\ buf snp = take (Z.to_nat k) out ++ drop (Z.to_nat k) b0.

Lemma snprintf_send_run b0 L t : 0 <= L <= zlen b0 -> L < u32_mod -> forall out snp, into b0 L out snp ->
  exists snp', __snprintf_send snp t = Ok snp' /\ into b0 L (out ++ t) snp'.
Proof.
  intros HL Hm. induction t as [|c t IH]; intros out snp Hi; cbn [__snprintf_send]; [exists snp; by rewrite app_nil_r|].
  rewrite cons_middle, app_assoc. pose proof Hi as (Hl & Hp & Hb). destruct (Z.ltb_spec (bufpos snp) (buflen snp)) as [Hlt|Hge].
  - assert (zlen out < L) as Ho by lia. rewrite Hp, Z.min_l in * by lia. rewrite Nat2Z.id, firstn_all in Hb. rewrite wr_in.
    2: { rewrite Hb, length_app, length_drop. lia. }
    rewrite Ok_bind. apply IH. unfold into. cbn [buflen bufpos buf]. rewrite length_app. cbn [length]. rewrite Z.min_l by lia.
    split; [done|]. split; [rewrite u32_id by lia; lia|]. rewrite Nat2Z.id, Hb. replace (Z.to_nat (Z.of_nat (length out + 1))) with (length out + 1)%nat by lia.
    rewrite firstn_all2 by (rewrite length_app; cbn; lia). rewrite insert_app_r_alt, Nat.sub_diag by lia. rewrite <- app_assoc. f_equal.
    destruct (drop (length out) b0) as [|x rest] eqn:E; [apply (f_equal length) in E; rewrite length_drop in E; cbn in E; lia|].
    cbn. f_equal. rewrite <- drop_drop, E. done.
  - apply IH. unfold into. rewrite length_app. cbn [length]. rewrite Hl, Hp in Hge. assert (Z.min (Z.of_nat (length out + 1)) L = Z.min (zlen out) L) as -> by lia.
    split; [done|]. split; [done|]. rewrite Hb, take_app_le by lia. done.
Qed.

(** C35. Printing into a buffer of [len] bytes stores the first [len - 1] bytes of
    the text and a terminator, touches nothing else, and returns the length of
    the whole text as an [int]; a session fails in one if it fails in the
    other. *)
Theorem vsnprintf_truncates junk b len fmt args : 0 <= len <= zlen b -> len < u32_mod ->
  vsnprintf junk b len fmt args =
    ('(_, out) ← __vprintf append junk [] fmt args;
     let k := Z.to_nat (Z.min (zlen out) (len - 1)) in
     Ok (s32 (u32 (zlen out)), if len =? 0 then b else take k out ++ 0 :: drop (S k) b)).
Proof.
  intros Hlen Hm. unfold vsnprintf. set (L := if len =? 0 then 0 else len - 1).
  assert (0 <= L <= zlen b /\ L < u32_mod) as [HL HLm] by (unfold L; destruct (Z.eqb_spec len 0); lia).
  pose proof (vprintf_rel append __snprintf_send (fun n out snp => n = s32 (u32 (zlen out)) /\ into b L out snp)) as Hrel.
  assert (into b L [] (mk_SNP b L 0)) as H0. { unfold into. cbn. rewrite Z.min_l by lia. done. }
  specialize (fun H => Hrel H junk [] (mk_SNP b L 0) fmt args (conj eq_refl H0)). lapply Hrel; clear Hrel.
  - intros Hrel. destruct (__vprintf append junk [] fmt args) as [[n out]| | |], (__vprintf __snprintf_send junk (mk_SNP b L 0) fmt args) as [[n2 snp]| | |]; try done.
    destruct Hrel as (E1 & E2 & Hl & Hp & Hb). cbn in E1, E2, Hl, Hp, Hb. subst n2 n. rewrite !Ok_bind. unfold L in *. destruct (Z.eqb_spec len 0) as [->|Hne].
    + cbn. rewrite Z.min_r in Hb by lia. by rewrite Hb.
    + replace (len >? 0) with true by lia. rewrite wr_in by (rewrite Hp, Hb, length_app, length_take, length_drop; lia). rewrite Ok_bind. do 2 f_equal. rewrite Hp, Hb.
      set (k := Z.to_nat (Z.min (zlen out) (len - 1))). rewrite insert_app_r_alt by (rewrite length_take; lia). rewrite length_take. replace (k - k `min` length out)%nat with O by lia. f_equal.
      destruct (drop k b) as [|x rest] eqn:E; [apply (f_equal length) in E; rewrite length_drop in E; cbn in E; lia|]. cbn. f_equal. replace (S k) with (k + 1)%nat by lia. rewrite <- drop_drop, E. done.
  - intros n out snp t [-> Hi]. destruct (snprintf_send_run b L t HL HLm out snp Hi) as (snp' & -> & Hi'). cbn. split; [|done]. rewrite length_app.
    by rewrite u32_s32_add, Nat2Z.inj_add.
Qed.

(** ** Numbers *)

Definition digit (d : Z) : Z := if d <? 10 then 48 + d else 87 + d.

(** The digits of [n] in base [b], the most significant first. *)
Fixpoint digits_of (fuel : nat) (b n : Z) : list Z :=
  match fuel with
  | O => []
  | S fuel' => (if n / b >? 0 then digits_of fuel' b (n / b) else []) ++ [digit (n mod b)]
  end.

#[local] Arguments digits_of : simpl never.

Lemma rd_hexdigits d : 0 <= d < 16 -> rd hexdigits d = Ok (digit d).
Proof.
  intros Hd. assert (d = 0 \/ d = 1 \/ d = 2 \/ d = 3 \/ d = 4 \/ d = 5 \/ d = 6 \/ d = 7 \/ d = 8 \/ d = 9 \/ d = 10 \/ d = 11 \/ d = 12 \/ d = 13 \/ d = 14 \/ d = 15) as H by lia.
  repeat destruct H as [->|H]; [reflexivity..|]. subst d. reflexivity.
Qed.

Lemma num_loop_S fuel buf x n b : num_loop (S fuel) buf x n b =
  if b =? 0 then Undef
  else d ← rd hexdigits (n mod b); buf ← wr buf x d; if n / b >? 0 then num_loop fuel buf (x - 1) (n / b) b else Ok (buf, x - 1).
Proof. reflexivity. Qed.

Lemma digits_of_S fuel b n : digits_of (S fuel) b n = (if n / b >? 0 then digits_of fuel b (n / b) else []) ++ [digit (n mod b)].
Proof. reflexivity. Qed.

(** One digit goes into the buffer. *)
Lemma num_step b n buf x : 2 <= b <= 16 -> 0 <= x < zlen buf ->
  drop (Z.to_nat x) (<[Z.to_nat x := digit (n mod b)]> buf) = digit (n mod b) :: drop (Z.to_nat (x + 1)) buf.
Proof.
  intros Hb Hx. rewrite (drop_S _ (digit (n mod b))) by (apply list_lookup_insert_eq; lia). rewrite drop_insert_lt by lia. do 2 f_equal. lia.
Qed.

(** The text of the number ends up at the end of the free part of the buffer. *)
Lemma num_loop_run b : 2 <= b <= 16 -> forall fuel n buf x, 0 <= n < b ^ Z.of_nat (S fuel) -> 0 <= x < zlen buf -> n < b ^ (x + 1) ->
  exists buf' x', num_loop (S fuel) buf x n b = Ok (buf', x') /\ -1 <= x' /\
    drop (Z.to_nat (x' + 1)) buf' = digits_of (S fuel) b n ++ drop (Z.to_nat (x + 1)) buf.
Proof.
  intros Hb. induction fuel as [|fuel IH]; intros n buf x Hn Hx Hfit;
    (assert (0 <= n mod b < b) by (apply Z.mod_pos_bound; lia)); (assert (0 <= n / b) by (apply Z.div_pos; lia));
    pose proof (num_step b n buf x Hb Hx) as Hd; rewrite num_loop_S, digits_of_S;
    rewrite (proj2 (Z.eqb_neq b 0)), rd_hexdigits, Ok_bind, wr_in, Ok_bind, Z.gtb_ltb by lia; destruct (Z.ltb_spec 0 (n / b)) as [Hq|Hq];
    try (eexists _, _; split; [done|]; split; [lia|]; replace (x - 1 + 1) with x by lia; by rewrite Hd).
  { change (Z.of_nat 1) with 1 in Hn. rewrite Z.pow_1_r in Hn. rewrite Z.div_small in Hq; lia. }
  assert (1 <= x) as Hx1. { destruct (Z.eq_dec x 0) as [->|]; [|lia]. rewrite Z.div_small in Hq; [lia|]. rewrite Z.pow_1_r in Hfit. lia. }
  destruct (IH (n / b) (<[Z.to_nat x := digit (n mod b)]> buf) (x - 1)) as (buf' & x' & Hrun & Hx' & E).
  - split; [lia|]. apply Z.div_lt_upper_bound; [lia|]. rewrite <- Z.pow_succ_r by lia. replace (Z.succ (Z.of_nat (S fuel))) with (Z.of_nat (S (S fuel))) by lia. lia.
  - rewrite length_insert. lia.
  - apply Z.div_lt_upper_bound; [lia|]. rewrite <- Z.pow_succ_r by lia. replace (Z.succ (x - 1 + 1)) with (x + 1) by lia. done.
  - exists buf', x'. split; [exact Hrun|]. split; [done|]. rewrite E. replace (x - 1 + 1) with x by lia. by rewrite Hd, <- app_assoc.
Qed.

Definition digit_value (c : Z) : Z := if c <? 97 then c - 48 else c - 87.

(** The number that a text stands for in base [b]. *)
Definition value (b : Z) (l : list Z) : Z := fold_left (fun v c => v * b + digit_value c) l 0.

Lemma digit_ok d : 0 <= d < 16 -> 0 < digit d < 256 /\ digit_value (digit d) = d.
Proof. intros Hd. unfold digit, digit_value. destruct (Z.ltb_spec d 10); [rewrite (proj2 (Z.ltb_lt (48 + d) 97)) by lia|rewrite (proj2 (Z.ltb_ge (87 + d) 97)) by lia]; lia. Qed.

Lemma digits_of_value b fuel : 2 <= b <= 16 -> forall n, 0 <= n < b ^ Z.of_nat fuel ->
  str (digits_of fuel b n) /\ value b (digits_of fuel b n) = n /\ zlen (digits_of fuel b n) <= Z.of_nat fuel.
Proof.
  intros Hb. induction fuel as [|fuel IH]; intros n Hn.
  { change (Z.of_nat 0) with 0 in Hn. rewrite Z.pow_0_r in Hn. change (digits_of 0 b n) with (@nil Z). split; [constructor|]. cbn. lia. }
  assert (n = b * (n / b) + n mod b) as Hdm by (apply Z.div_mod; lia). assert (0 <= n mod b < b) by (apply Z.mod_pos_bound; lia).
  assert (0 <= n / b < b ^ Z.of_nat fuel) as Hq.
  { split; [apply Z.div_pos; lia|]. apply Z.div_lt_upper_bound; [lia|]. rewrite <- Z.pow_succ_r by lia. replace (Z.succ (Z.of_nat fuel)) with (Z.of_nat (S fuel)) by lia. lia. }
  destruct (digit_ok (n mod b)) as [Hd Hv]; [lia|]. destruct (IH (n / b) Hq) as (IH1 & IH2 & IH3). rewrite digits_of_S.
  assert (exists l, (if n / b >? 0 then digits_of fuel b (n / b) else []) = l /\ str l /\ value b l = n / b /\ zlen l <= Z.of_nat fuel) as (l & -> & H1 & H2 & H3).
  { eexists. split; [done|]. rewrite Z.gtb_ltb. destruct (Z.ltb_spec 0 (n / b)); [done|]. split; [constructor|]. cbn. lia. }
  split; [apply str_app; split; [done|]; apply str_cons; split; [done|constructor]|]. rewrite length_app. cbn [length]. split; [|lia].
  unfold value in *. rewrite fold_left_app, H2. cbn. rewrite Hv. lia.
Qed.

(** ** The text of one field *)

Definition prints (pf : PF (list Z)) (t : list Z) (o : outcome (PF (list Z))) : Prop :=
  exists cc, o = Ok (mk_PF (clientdata pf ++ t) (ap pf) cc (fld pf)).

Lemma prints_nil pf : prints pf [] (Ok pf).
Proof. exists (charcount pf). rewrite app_nil_r. by destruct pf. Qed.

Lemma prints_print pf t : prints pf t (__pf_print append pf t).
Proof. by eexists. Qed.

Lemma prints_bind pf t t2 o k : prints pf t o -> (forall pf1, fld pf1 = fld pf -> prints pf1 t2 (k pf1)) -> prints pf (t ++ t2) (o ≫= k).
Proof.
  intros [cc ->] Hk. rewrite Ok_bind. destruct (Hk (mk_PF (clientdata pf ++ t) (ap pf) cc (fld pf)) eq_refl) as [cc2 ->]. exists cc2. cbn. by rewrite app_assoc.
Qed.

Lemma prints_fill n : forall pf, prints pf (replicate n (fillchar (fld pf) mod 256)) (__pf_fill append pf n).
Proof.
  induction n as [|n IH]; intros pf; cbn [__pf_fill replicate]; [apply prints_nil|]. rewrite <- (app_nil_l (replicate _ _)), app_comm_cons.
  apply prints_bind; [apply prints_print|]. intros pf1 <-. apply IH.
Qed.

(** A string among spaces, zeros, or neither. *)
Definition padded (f : field) (pre st : list Z) : list Z :=
  let pad := replicate (Z.to_nat (spacing f - zlen pre - zlen st)) (fillchar f mod 256) in
  if negb (rightspc f =? 0) then pre ++ st ++ pad
  else if fillchar f =? 48 then pre ++ pad ++ st else pad ++ pre ++ st.

Lemma take_string (l rest : list Z) : take (Z.to_nat (zlen l)) (l ++ rest) = l.
Proof. by rewrite Nat2Z.id, take_app_length. Qed.

Lemma prints_if (b : bool) pf t o : prints pf t o -> prints pf (if b then t else []) (if b then o else Ok pf).
Proof. destruct b; [done|]. intros _. apply prints_nil. Qed.

Lemma printstuff_prints pf p1 p2 st r1 r2 r3 : str p1 -> str p2 -> str st -> zlen p1 + zlen p2 + zlen st < 2147483648 -> spacing (fld pf) < 2147483648 ->
  prints pf (padded (fld pf) (p1 ++ p2) st) (__pf_printstuff append pf (p1 ++ 0 :: r1) (p2 ++ 0 :: r2) (st ++ 0 :: r3)).
Proof.
  intros H1 H2 H3 Hl Hs. unfold __pf_printstuff. assert (forall l r, str l -> zlen l < u32_mod -> strlen (l ++ 0 :: r) = Ok (zlen l)) as Hlen by (intros l r ? ?; apply strlen_run; [split; [done|by eexists]|done]).
  rewrite (Hlen p1), Ok_bind, (Hlen p2), Ok_bind, (Hlen st), Ok_bind by (done || (unfold u32_mod; lia)).
  rewrite (u32_id (zlen p1 + zlen p2)), (u32_id (zlen p1 + zlen p2 + zlen st)), (s32_id (zlen p1 + zlen p2 + zlen st)) by (unfold u32_mod; lia). set (f := fld pf) in *. set (n := zlen p1 + zlen p2 + zlen st) in *.
  assert ((if spacing f >? n then c_int (spacing f - n) else Ok 0) = Ok (Z.max 0 (spacing f - n))) as ->.
  { rewrite Z.gtb_ltb. destruct (Z.ltb_spec n (spacing f)); [rewrite c_int_id by (unfold int_min, int_max; lia)|]; f_equal; lia. }
  rewrite Ok_bind. set (spc := Z.max 0 (spacing f - n)). set (pad := replicate (Z.to_nat spc) (fillchar f mod 256)).
  assert (padded f (p1 ++ p2) st = (if (spc >? 0) && (rightspc f =? 0) && negb (fillchar f =? 48) then pad else []) ++ p1 ++ p2 ++
    (if (spc >? 0) && (rightspc f =? 0) && (fillchar f =? 48) then pad else []) ++ st ++ (if (spc >? 0) && negb (rightspc f =? 0) then pad else [])) as ->.
  { unfold padded. replace (Z.to_nat (spacing f - zlen (p1 ++ p2) - zlen st)) with (Z.to_nat spc) by (rewrite length_app; lia). fold pad.
    rewrite Z.gtb_ltb. destruct (Z.ltb_spec 0 spc) as [Hp|Hp]; cbn [andb].
    - destruct (rightspc f =? 0), (fillchar f =? 48); cbn [negb andb]; by rewrite ?app_nil_r, <- ?app_assoc.
    - assert (pad = []) as -> by (unfold pad; replace (Z.to_nat spc) with O by lia; done). destruct (rightspc f =? 0), (fillchar f =? 48); cbn [negb]; by rewrite ?app_nil_r, <- ?app_assoc. }
  apply prints_bind; [apply prints_if, prints_fill|]. intros q1 E1. rewrite !take_string. apply prints_bind; [apply prints_print|]. intros q2 E2.
  apply prints_bind; [apply prints_print|]. intros q3 E3. apply prints_bind; [unfold pad, f; rewrite <- E1, <- E2, <- E3; apply prints_if, prints_fill|]. intros q4 E4.
  apply prints_bind; [apply prints_print|]. intros q5 E5. assert (fld q5 = f) as Hf by (unfold f; congruence). rewrite Hf. unfold pad. rewrite <- Hf. apply prints_if, prints_fill.
Qed.

(** ** Reading a number back *)

Definition isdigit (c : Z) : Prop := 48 <= c <= 57.

Lemma strchr_digit c : isdigit c -> strchr digits (s8 c) = Ok (Some (c - 48)).
Proof.
  intros Hc. unfold isdigit in Hc.
  assert (c = 48 \/ c = 49 \/ c = 50 \/ c = 51 \/ c = 52 \/ c = 53 \/ c = 54 \/ c = 55 \/ c = 56 \/ c = 57) as H by lia.
  repeat destruct H as [->|H]; [reflexivity..|]. subst c. reflexivity.
Qed.

Definition accumulate (v : Z) (l : list Z) : Z := fold_left (fun v c => u32 (u32 (v * 10) + (c - 48))) l v.

Lemma atoi_loop_digits l rest : forall v, Forall isdigit l -> atoi_loop (l ++ rest) v = atoi_loop rest (accumulate v l).
Proof.
  induction l as [|c l IH]; intros v Hl; [done|]. apply list.Forall_cons in Hl as [Hc Hl]. unfold isdigit in Hc. cbn [app atoi_loop]. nonzero c.
  rewrite strchr_digit, Ok_bind by done. by apply IH.
Qed.

Lemma digits_of_decimal fuel : forall n, 0 <= n < 10 ^ Z.of_nat fuel -> n < u32_mod ->
  Forall isdigit (digits_of fuel 10 n) /\ accumulate 0 (digits_of fuel 10 n) = n /\ zlen (digits_of fuel 10 n) <= Z.of_nat fuel.
Proof.
  induction fuel as [|fuel IH]; intros n Hn Hm.
  { change (10 ^ Z.of_nat 0) with 1 in Hn. change (digits_of 0 10 n) with (@nil Z). split; [constructor|]. cbn. lia. }
  pose proof (Z.div_mod n 10 ltac:(lia)) as Hdm. pose proof (Z.mod_pos_bound n 10 ltac:(lia)).
  rewrite digits_of_S. assert (digit (n mod 10) = 48 + n mod 10) as Hd by (unfold digit; rewrite (proj2 (Z.ltb_lt _ 10)) by lia; done). rewrite Hd.
  assert (0 <= n / 10 < 10 ^ Z.of_nat fuel) as Hq.
  { split; [lia|]. apply Z.div_lt_upper_bound; [lia|]. rewrite <- Z.pow_succ_r by lia. replace (Z.succ (Z.of_nat fuel)) with (Z.of_nat (S fuel)) by lia. lia. }
  destruct (IH (n / 10) Hq) as (IH1 & IH2 & IH3); [lia|].
  assert (exists l, (if n / 10 >? 0 then digits_of fuel 10 (n / 10) else []) = l /\ Forall isdigit l /\ accumulate 0 l = n / 10 /\ zlen l <= Z.of_nat fuel) as (l & -> & H1 & H2 & H3).
  { eexists. split; [done|]. rewrite Z.gtb_ltb. destruct (Z.ltb_spec 0 (n / 10)); [done|]. split; [constructor|]. cbn. lia. }
  split; [apply list.Forall_app; split; [done|]; constructor; [unfold isdigit; lia|constructor]|]. rewrite length_app. cbn [length]. split; [|lia].
  unfold accumulate in *. rewrite fold_left_app, H2. cbn. rewrite (u32_id (n / 10 * 10)), u32_id by (unfold u32_mod in *; lia). lia.
Qed.

Lemma accumulate_zeros k : accumulate 0 (replicate k 48) = 0.
Proof. induction k as [|k IH]; [done|]. unfold accumulate in *. cbn. change (u32 (u32 0 + 0)) with 0. exact IH. Qed.

(** [n] after blanks or zeros, with its sign. *)
Lemma atoi_number k z neg n : 0 <= n < u32_mod ->
  atoi (replicate k 32 ++ (if neg : bool then [45] else []) ++ replicate z 48 ++ digits_of 32 10 n ++ [0]) = Ok (s32 (if neg then u32 (- n) else n)).
Proof.
  intros Hn. destruct (digits_of_decimal 32 n) as (Hd & Ha & _); [unfold u32_mod in *; cbn; lia|lia|]. unfold atoi.
  assert (forall l c r, l = c :: r -> c <> 32 -> c <> 9 -> skip_blanks (replicate k 32 ++ l) = Ok l) as Hskip.
  { intros l c r -> H1 H2. induction k as [|m IH]; cbn; [|exact IH]. by rewrite (proj2 (Z.eqb_neq c 32)), (proj2 (Z.eqb_neq c 9)). }
  set (ds := replicate z 48 ++ digits_of 32 10 n). assert (Forall isdigit ds) as Hds.
  { apply list.Forall_app. split; [|done]. apply list.Forall_replicate. unfold isdigit. lia. }
  assert (accumulate 0 ds = n) as Hds0. { unfold ds, accumulate. rewrite fold_left_app. fold (accumulate 0 (replicate z 48)). by rewrite accumulate_zeros. }
  replace (replicate z 48 ++ digits_of 32 10 n ++ [0]) with (ds ++ [0]) by (unfold ds; by rewrite <- app_assoc).
  assert (atoi_loop (ds ++ [0]) 0 = Ok n) as Hrun by (by rewrite atoi_loop_digits, Hds0).
  destruct neg; cbn [app]; [rewrite (Hskip _ 45 (ds ++ [0])), Ok_bind by done; cbn [Z.eqb Pos.eqb orb]; by rewrite Hrun, Ok_bind|].
  destruct ds as [|c ds'] eqn:E.
  { exfalso. apply (f_equal length) in E. unfold ds in E. rewrite length_app, digits_of_S, length_app in E. cbn in E. lia. }
  apply list.Forall_cons in Hds as [Hc _]. unfold isdigit in Hc. rewrite (Hskip _ c (ds' ++ [0])), Ok_bind by (done || lia). cbn [app].
  rewrite (proj2 (Z.eqb_neq c 45)), (proj2 (Z.eqb_neq c 43)) by lia. cbn [orb]. cbn [app] in Hrun. by rewrite Hrun, Ok_bind.
Qed.

(** A modifier other than the minus sign. *)
Definition is_mod (c : Z) : Prop := c = 35 \/ c = 108 \/ c = 113 \/ isdigit c.

Lemma strchr_mod c : is_mod c -> exists k, strchr modifiers (s8 c) = Ok (Some k).
Proof.
  intros Hc. unfold is_mod, isdigit in Hc.
  assert (c = 35 \/ c = 108 \/ c = 113 \/ c = 48 \/ c = 49 \/ c = 50 \/ c = 51 \/ c = 52 \/ c = 53 \/ c = 54 \/ c = 55 \/ c = 56 \/ c = 57) as H by lia.
  repeat destruct H as [->|H]; [by eexists..|]. subst c. by eexists.
Qed.

(** What is known of a field that is to be printed right-aligned. *)
Record aligned (j : Z) (f : field) : Prop := mk_aligned {
  al_pct : in_pct f = 1;
  al_num : sign f = 0 /\ baseprefix f = 0;
  al_right : rightspc f = 0;
  al_fill : fillchar f = 32 \/ fillchar f = 48;
  al_width : 0 <= spacing f < 10 ^ j;
}.

Lemma modifier_run j f c : aligned j f -> 0 <= j < 9 -> is_mod c -> exists f', __pf_modifier f c = Ok f' /\ aligned (j + 1) f'.
Proof.
  intros [Hp [Hs Hb] Hr Hf Hw] Hj Hc. assert (10 ^ j <= 100000000) as Hj8 by (change 100000000 with (10 ^ 8); apply Z.pow_le_mono_r; lia).
  assert (10 ^ (j + 1) = 10 * 10 ^ j) as Hj1 by (rewrite Z.pow_add_r by lia; lia).
  unfold __pf_modifier, is_mod, isdigit in *. destruct (Z.eqb_spec c 35) as [->|H35]; [eexists; split; [done|]; constructor; cbn; lia|].
  rewrite (proj2 (Z.eqb_neq c 45)) by lia. destruct (_ || _) eqn:Elq; [eexists; split; [done|]; constructor; cbn; lia|].
  apply orb_false_iff in Elq as [?%Z.eqb_neq ?%Z.eqb_neq]. destruct (Z.eqb_spec c 48) as [->|H48].
  - rewrite Z.gtb_ltb. destruct (Z.ltb_spec 0 (spacing f)); [rewrite c_int_id, Ok_bind by (unfold int_min, int_max; lia)|]; (eexists; split; [done|]; constructor; cbn; lia).
  - replace ((c >? 48) && (c <=? 57)) with true by lia. cbn [c_assert]. rewrite Ok_bind, c_int_id, Ok_bind, c_int_id, Ok_bind by (unfold int_min, int_max; lia).
    eexists. split; [done|]. constructor; cbn; lia.
Qed.

Lemma modifiers_run junk rest ms : forall j pf, aligned j (fld pf) -> 0 <= j -> Forall is_mod ms -> j + zlen ms <= 9 ->
  exists f, aligned 9 f /\ vprintf_loop append junk pf (ms ++ rest) = vprintf_loop append junk (set_fld f pf) rest.
Proof.
  induction ms as [|c ms IH]; intros j pf Hal Hj Hms Hl; cbn [length] in Hl.
  - exists (fld pf). split; [|by destruct pf]. destruct Hal as [? ? ? ? Hw]. constructor; try done.
    assert (10 ^ j <= 10 ^ 9) by (apply Z.pow_le_mono_r; lia). lia.
  - apply list.Forall_cons in Hms as [Hc Hms]. cbn [app vprintf_loop]. assert (0 < c < 128) as Hc0 by (unfold is_mod, isdigit in Hc; lia). nonzero c.
    destruct (modifier_run j (fld pf) c Hal) as (f & Hf & Hal'); [lia|done|]. destruct (strchr_mod c Hc) as [k Hk]. destruct Hal as [Hp _ _ _ _].
    assert (s8 c = c) as E by (unfold s8; rewrite (proj2 (Z.ltb_lt c 128)) by lia; done). rewrite E in *. unfold __pf_send.
    rewrite (proj2 (Z.eqb_neq c 0)), Hp by lia. cbn [negb c_assert Z.eqb andb]. rewrite !Ok_bind, Hk, Ok_bind, Hf, !Ok_bind.
    destruct (IH (j + 1) (set_fld f pf) Hal') as (f2 & Hal2 & Hrun); [lia|done|lia|]. exists f2. split; [done|]. rewrite Hrun. done.
Qed.

(** What goes before the digits. *)
Definition prefixes (f : field) : list Z :=
  (if sign f =? 0 then [] else [45]) ++
  (if baseprefix f =? 0 then [] else if base f =? 16 then [48; 120] else if base f =? 8 then [48] else []).

Lemma printnum_run junk pf : length junk = 12%nat -> base (fld pf) = 8 \/ base (fld pf) = 10 \/ base (fld pf) = 16 ->
  0 <= num (fld pf) < u32_mod -> spacing (fld pf) < 2147483648 ->
  prints pf (padded (fld pf) (prefixes (fld pf)) (digits_of 32 (base (fld pf)) (num (fld pf)))) (__pf_printnum append junk pf).
Proof.
  intros Hj Hb Hn Hs. unfold __pf_printnum. change (NUMBER_BUF_SIZE - 1) with 11. change (NUMBER_BUF_SIZE - 2) with 10. rewrite wr_in, Ok_bind by lia.
  set (f := fld pf) in *. assert (num f < base f ^ Z.of_nat 32 /\ num f < base f ^ (10 + 1)) as [Hn32 Hn11] by (unfold u32_mod in *; destruct Hb as [-> |[-> | ->]]; cbn; lia).
  destruct (num_loop_run (base f) ltac:(lia) 31 (num f) (<[Z.to_nat 11 := 0]> junk) 10) as (b & x & -> & Hx & Hdrop); [lia|rewrite length_insert; lia|done|].
  rewrite Ok_bind, Hdrop. destruct (digits_of_value (base f) 32 ltac:(lia) (num f)) as (Hd & _ & Hl); [lia|].
  assert (drop (Z.to_nat (10 + 1)) (<[Z.to_nat 11 := 0]> junk) = [0]) as ->.
  { change (Z.to_nat (10 + 1)) with 11%nat. change (Z.to_nat 11) with 11%nat. rewrite (drop_S _ 0) by (apply list_lookup_insert_eq; lia). rewrite drop_ge; [done|]. rewrite length_insert. lia. }
  unfold prefixes. set (p1 := if sign f =? 0 then [] else [45]). set (p2 := if baseprefix f =? 0 then [] else _).
  replace (if negb (sign f =? 0) then [45; 0] else [0]) with (p1 ++ [0]) by (unfold p1; by destruct (sign f =? 0)).
  match goal with |- context [__pf_printstuff _ _ _ ?x _] => replace x with (p2 ++ [0]) by (unfold p2; destruct (baseprefix f =? 0); [done|]; cbn [negb andb]; by destruct (base f =? 16), (base f =? 8)) end.
  assert (str p1 /\ zlen p1 <= 1) as [Hp1 Hz1] by (unfold p1; destruct (_ =? 0); (split; [repeat (apply str_cons; split; [lia|]); constructor|cbn; lia])).
  assert (str p2 /\ zlen p2 <= 2) as [Hp2 Hz2] by (unfold p2; repeat destruct (_ =? _); (split; [repeat (apply str_cons; split; [lia|]); constructor|cbn; lia])).
  by apply (printstuff_prints pf p1 p2 (digits_of 32 (base f) (num f)) [] [] []); try done; lia.
Qed.

(** C40. In each of the bases that the formats use, the conversion of any word
    stays within its buffer of 12 bytes; it prints the sign, the prefix and
    the digits, whose value is the number, padded to the field width. *)
Theorem printnum_text junk (pf : PF (list Z)) : length junk = 12%nat -> base (fld pf) = 8 \/ base (fld pf) = 10 \/ base (fld pf) = 16 ->
  0 <= num (fld pf) < u32_mod -> spacing (fld pf) < 2147483648 ->
  exists ds cc, __pf_printnum append junk pf = Ok (mk_PF (clientdata pf ++ padded (fld pf) (prefixes (fld pf)) ds) (ap pf) cc (fld pf)) /\ value (base (fld pf)) ds = num (fld pf).
Proof.
  intros Hj Hb Hn Hs. destruct (printnum_run junk pf Hj Hb Hn Hs) as [cc ->]. eexists _, cc. split; [done|].
  apply digits_of_value; [lia|]. destruct Hb as [-> |[-> | ->]]; unfold u32_mod in *; cbn; lia.
Qed.

(** [%d] *)
Lemma send_decimal junk pf n l : length junk = 12%nat -> aligned 9 (fld pf) -> ap pf = Word (u32 n) :: l -> -2147483648 < n < 2147483648 ->
  exists cc, __pf_send append junk pf 100 =
    Ok (mk_PF (clientdata pf ++ padded (fld pf) (if n <? 0 then [45] else []) (digits_of 32 10 (Z.abs n))) l cc empty_field).
Proof.
  intros Hj [Hp [Hs Hb] Hr Hf Hw] Hap Hn. unfold __pf_send. rewrite Hp. cbn [Z.eqb Pos.eqb negb c_assert andb]. rewrite Ok_bind.
  change (strchr modifiers 100) with (Ok (A := option Z) None). change (strchr inttypes 100) with (Ok (Some 0)). rewrite !Ok_bind.
  assert (exists f', __pf_getnum pf 100 = Ok (mk_PF (clientdata pf) l (charcount pf) f') /\ num f' = Z.abs n /\ (sign f' =? 0) = negb (n <? 0) /\
    (spacing f', rightspc f', fillchar f', baseprefix f', altformat f') = (spacing (fld pf), rightspc (fld pf), fillchar (fld pf), 0, altformat (fld pf))) as (f' & -> & Hnum & Hsg & Hsame).
  { unfold __pf_getnum. rewrite Hap. cbn [Z.eqb Pos.eqb]. rewrite s32_u32, Hs, Hb by lia. destruct (Z.ltb_spec n 0).
    - rewrite c_int_id, !Ok_bind by (unfold int_min, int_max; lia). eexists. split; [done|]. cbn. rewrite u32_id by (unfold u32_mod; lia). split; [lia|done].
    - rewrite !Ok_bind. eexists. split; [done|]. cbn. rewrite u32_id by (unfold u32_mod; lia). split; [lia|done]. }
  injection Hsame as E1 E2 E3 E4 E5. rewrite Ok_bind. cbn [fld]. set (f2 := __pf_setbase f' 100). set (pf2 := set_fld f2 _).
  destruct (printnum_run junk pf2) as [cc Hrun]; [done|by right; left|unfold pf2, f2; cbn; rewrite Hnum; unfold u32_mod; lia|unfold pf2, f2; cbn; rewrite E1; lia|].
  rewrite Hrun, Ok_bind. exists cc. unfold __pf_endfield, set_fld. cbn. do 3 f_equal. unfold padded, prefixes. cbn. rewrite Hnum, Hsg, E1, E2, E3. by destruct (n <? 0), (negb (altformat f' =? 0) || false), (baseprefix f' =? 0).
Qed.

(** A number printed with [%d], with any field width, padding with blanks or
    zeros and size modifiers, is read back by [atoi]. *)
Theorem printf_atoi junk ms n : length junk = 12%nat -> Forall is_mod ms -> zlen ms <= 9 -> -2147483648 < n < 2147483648 ->
  exists c out, __vprintf append junk [] ([37] ++ ms ++ [100; 0]) [Word (u32 n)] = Ok (c, out) /\ atoi (out ++ [0]) = Ok n.
Proof.
  intros Hj Hms Hl Hn. unfold __vprintf. cbn [app vprintf_loop Z.eqb]. change (s8 37) with 37. set (pf0 := mk_PF _ _ _ _).
  set (f1 := mk_field 1 INTSZ 0 0 0 0 32 0 0 0). change (__pf_send append junk pf0 37) with (Ok (set_fld f1 pf0)). rewrite Ok_bind.
  destruct (modifiers_run junk [100; 0] ms 0 (set_fld f1 pf0)) as (f & Hal & ->); [by constructor; cbn; try lia; auto|lia|done|lia|].
  cbn [vprintf_loop Z.eqb]. change (s8 100) with 100. set (pf := set_fld f _).
  destruct (send_decimal junk pf n []) as [cc ->]; [done|done|done|done|]. rewrite !Ok_bind. eexists _, _. split; [done|]. cbn [clientdata pf pf0 set_fld app].
  destruct Hal as [_ _ Hr Hfill _]. unfold padded. cbn [fld set_fld pf]. rewrite Hr. cbn [Z.eqb negb]. set (k := Z.to_nat _).
  assert (s32 (if n <? 0 then u32 (- Z.abs n) else Z.abs n) = n) as Hval.
  { destruct (Z.ltb_spec n 0); [replace (- Z.abs n) with n by lia; apply s32_u32; lia|rewrite s32_id; lia]. }
  destruct Hfill as [-> | ->]; cbn [Z.eqb Pos.eqb]; rewrite <- Hval at 3; rewrite <- !app_assoc.
  - apply (atoi_number k 0 (n <? 0) (Z.abs n)). unfold u32_mod. lia.
  - apply (atoi_number 0 k (n <? 0) (Z.abs n)). unfold u32_mod. lia.
Qed.

(** The two faults of [%d]: printing the least integer negates it, which
    overflows; and a left-aligned field that asks for zeros is filled with
    zeros on the right, so that the text of 5 reads as 500. *)
Theorem printf_decimal_faults junk : length junk = 12%nat ->
  __vprintf append junk [] [37; 100; 0] [Word (u32 (-2147483648))] = Undef /\
  exists c, __vprintf append junk [] [37; 45; 48; 51; 100; 0] [Word 5] = Ok (c, [53; 48; 48]).
Proof.
  intros Hj. do 12 (destruct junk as [|? junk]; [done|]). destruct junk; [|done]. split; [vm_compute; reflexivity|]. eexists. vm_compute. reflexivity.
Qed.

(** ** Examples *)

Definition junk0 : list Z := replicate 12 7.

Lemma printf_decimal_faults_witness : __vprintf append junk0 [] [37; 100; 0] [Word 2147483648] = Undef.
Proof. exact (proj1 (printf_decimal_faults junk0 eq_refl)). Defined.

Lemma printf_atoi_witness : exists c out, __vprintf append junk0 [] [37; 48; 53; 100; 0] [Word (u32 (-42))] = Ok (c, out) /\ atoi (out ++ [0]) = Ok (-42).
Proof.
  apply (printf_atoi junk0 [48; 53] (-42)); [reflexivity| |cbn; lia|lia]. repeat (constructor; [unfold is_mod, isdigit; lia|]). constructor.
Defined.

Lemma vsnprintf_truncates_witness : vsnprintf junk0 [1; 2; 3; 4; 5] 4 [37; 100; 0] [Word 12345] = Ok (5, [49; 50; 51; 0; 5]).
Proof. rewrite (vsnprintf_truncates junk0 [1; 2; 3; 4; 5] 4 [37; 100; 0] [Word 12345]); [vm_compute; reflexivity|cbn; lia|unfold u32_mod; lia]. Defined.

Lemma printnum_text_witness : exists ds cc, let f := mk_field 1 INTSZ 255 0 0 0 32 16 1 0 in
  __pf_printnum append junk0 (mk_PF [] [] 0 f) = Ok (mk_PF (padded f (prefixes f) ds) [] cc f) /\ value 16 ds = 255.
Proof.
  apply (printnum_text junk0 (mk_PF [] [] 0 (mk_field 1 INTSZ 255 0 0 0 32 16 1 0))); [reflexivity|by right; right|cbn; unfold u32_mod; lia|cbn; lia].
Defined.

End Printf.
