(* ===== verification/SfsDir.v ===== *)
(** * Directories of the simple file system: kern/fs/sfs/sfs_vnode.c, sfs_readdir
    to sfs_dir_unlink

    A directory is a file of entries of 64 bytes.  It implements a map from names
    to inode numbers. *)

From S2P Require Import Prelude Uio Bitmap Strings SfsDisk SfsFile SfsIo.
Import Strings SfsDisk SfsFile SfsIo.

Module SfsDir.

Definition SFS_NOINO : Z := 0.
Definition SFS_TYPE_INVAL : Z := 0.
Definition SFS_TYPE_FILE : Z := 1.
Definition SFS_TYPE_DIR : Z := 2.

(** [sizeof(struct sfs_dir)] *)
Definition DIRSIZE : Z := 64.

Section Ops.
Context {D : Type} `{DK : Disk D}.
Local Abbreviation sfs := (SfsFile.sfs (D := D)).

(** The new contents of [*sd]. *)
Definition sfs_readdir (sv : Z) (sd : list Z) (slot : Z) (s : sfs) : outcome (Z * list Z * sfs) :=
  let actualpos := s32 (u32 (slot * DIRSIZE)) in
  '(result, ku, s) ← sfs_io sv (mk_kuio sd DIRSIZE actualpos UIO_READ) s;
  if negb (result =? 0) then Ok (result, uio_buffer ku, s)
  else if uio_resid ku >? 0 then Panic
  else Ok (0, uio_buffer ku, s).

Definition sfs_writedir (sv : Z) (sd : list Z) (slot : Z) (s : sfs) : outcome (Z * sfs) :=
  _ ← c_assert (slot >=? 0);
  let actualpos := s32 (u32 (slot * DIRSIZE)) in
  '(result, ku, s) ← sfs_io sv (mk_kuio sd DIRSIZE actualpos UIO_WRITE) s;
  if negb (result =? 0) then Ok (result, s)
  else if uio_resid ku >? 0 then Panic
  else Ok (0, s).

Definition sfs_dir_nentries (sv : Z) (s : sfs) : outcome Z :=
  v ← sv_rd sv s;
  _ ← c_assert (sfi_type (sv_i v) =? SFS_TYPE_DIR);
  let size := s32 (sfi_size (sv_i v)) in
  if negb (u32 size mod DIRSIZE =? 0) then Panic
  else Ok (s32 (u32 size / DIRSIZE)).

(** The entry with the last byte of the name cleared. *)
Definition terminate (tsd : list Z) : list Z := <[63%nat := 0]> tsd.

(** The loop from slot [i] on, [n] rounds left; [found] is the inode number and
    the slot.  Results that the caller does not ask for are returned as well. *)
Fixpoint findname_loop (n : nat) (i sv : Z) (name tsd : list Z) (found : option (Z * Z)) (emptyslot : option Z) (s : sfs) :
    outcome (Z * option (Z * Z) * option Z * sfs) :=
  match n with
  | O => Ok (match found with Some _ => 0 | None => ENOENT end, found, emptyslot, s)
  | S n' =>
      '(result, tsd, s) ← sfs_readdir sv tsd i s;
      if negb (result =? 0) then Ok (result, found, emptyslot, s)
      else if sfd_ino (bytes_dir tsd) =? SFS_NOINO then findname_loop n' (i + 1) sv name tsd found (Some i) s
      else
        let tsd := terminate tsd in
        c ← strcmp (sfd_name (bytes_dir tsd)) name;
        if c =? 0 then
          _ ← c_assert (match found with None => true | Some _ => false end);
          findname_loop n' (i + 1) sv name tsd (Some (sfd_ino (bytes_dir tsd), i)) emptyslot s
        else findname_loop n' (i + 1) sv name tsd found emptyslot s
  end.

(** [tsd] is what the uninitialised variable holds. *)
Definition sfs_dir_findname (sv : Z) (name tsd : list Z) (s : sfs) : outcome (Z * option (Z * Z) * option Z * sfs) :=
  nentries ← sfs_dir_nentries sv s;
  findname_loop (Z.to_nat nentries) 0 sv name tsd None None s.

(** Returns the slot as well. *)
Definition sfs_dir_link (sv : Z) (name : list Z) (ino : Z) (tsd : list Z) (s : sfs) : outcome (Z * Z * sfs) :=
  '(result, _, emptyslot, s) ← sfs_dir_findname sv name tsd s;
  if negb (result =? 0) && negb (result =? ENOENT) then Ok (result, 0, s)
  else if result =? 0 then Ok (EEXIST, 0, s)
  else
    len ← strlen name;
    if u32 (len + 1) >? SFS_NAMELEN then Ok (ENAMETOOLONG, 0, s)
    else
      slot ← match emptyslot with Some e => Ok e | None => sfs_dir_nentries sv s end;
      sfd_name ← strcpy (replicate 60 0) name;
      '(result, s) ← sfs_writedir sv (dir_bytes (mk_dir ino sfd_name)) slot s;
      Ok (result, slot, s).

Definition sfs_dir_unlink (sv slot : Z) (s : sfs) : outcome (Z * sfs) :=
  sfs_writedir sv (dir_bytes (mk_dir SFS_NOINO (replicate 60 0))) slot s.

End Ops.

Section Dir.
Context {D : Type} {DK : Disk D} {DKL : DiskLaws D} {RW : ReliableWrites D}.
Local Abbreviation sfs := (SfsFile.sfs (D := D)).

(** ** Transfers within one block *)

Lemma io_blocks_within p u s v : (is_write u = true -> ReliableWrites D) -> ready p u (uio_resid u) s v -> 0 < uio_resid u < 512 ->
  uio_offset u mod 512 + uio_resid u <= 512 -> chunk p u (uio_resid u) s v (sfs_io_blocks p u s).
Proof using DKL.
  intros HRW Hrd Hr Hin. pose proof Hrd as [Hfs Hv Hf Hfit Hb _]. pose proof Hfit as (F1 & F2 & F3 & F4 & F5). unfold sfs_io_blocks, SFS_BLOCKSIZE.
  rewrite Z.rem_mod_nonneg, (u32_id (uio_offset u mod 512)) by (unfold u32_mod; lia).
  destruct (Z.eqb_spec (uio_offset u mod 512) 0) as [E|E]; cbn [negb].
  - rewrite Ok_bind. cbn [Z.eqb negb]. rewrite (proj2 (Z.eqb_neq (uio_resid u) 0)) by lia. rewrite Z.rem_mod_nonneg, E by lia. cbn [Z.eqb c_assert].
    rewrite Ok_bind, Z.div_small by lia. change (Z.to_nat 0) with O. cbn [blockio_loop]. rewrite Ok_bind. cbn [Z.eqb negb].
    rewrite (proj2 (Z.ltb_lt (uio_resid u) 512)), Z.gtb_ltb, (proj2 (Z.ltb_lt 0 _)) by lia. cbn [c_assert]. rewrite Ok_bind.
    apply partialio_ok; try done; lia.
  - assert ((if 512 - uio_offset u mod 512 >? uio_resid u then uio_resid u else 512 - uio_offset u mod 512) = uio_resid u) as ->.
    { rewrite Z.gtb_ltb. destruct (Z.ltb_spec (uio_resid u) (512 - uio_offset u mod 512)); lia. }
    destruct (partialio_ok p u (uio_offset u mod 512) (uio_resid u) s v) as (r & n & u' & s' & v' & -> & Ht & Hq & Hn); try done.
    rewrite Ok_bind. exists r, n, u', s', v'. split; [|done]. destruct Hn as [[-> ->]|[-> Hn]].
    + cbn [Z.eqb negb]. apply transferred_pos in Ht as (_ & -> & _). by rewrite Z.sub_diag.
    + by rewrite (refused_nonzero _ _ _ _ _ Hn).
Qed.

(** [write_run] and [read_run], where nothing is moved on an error. *)
Lemma write_within p u s v : ready p u (uio_resid u) s v -> 0 < uio_resid u < 512 -> uio_offset u mod 512 + uio_resid u <= 512 ->
  sfi_size (sv_i v) < 2147483648 -> uio_rw u = UIO_WRITE -> uio_offset u <= sfi_size (sv_i v) ->
  exists r n s' v', sfs_io p u s = Ok (r, moved u (take (Z.to_nat n) (uio_left u)) n, s') /\ grows p s v s' v' /\
    ((r = 0 /\ n = uio_resid u /\ sfi_size (sv_i v') = Z.max (sfi_size (sv_i v)) (uio_offset u + n) /\
      contents (dev s') (sv_i v') = write_at (uio_offset u) (take (Z.to_nat n) (uio_left u)) (contents (dev s) (sv_i v))) \/
     (io_error D r /\ (nth (Z.to_nat (uio_offset u / 512)) (SfsFile.fmap (dev s) (sv_i v)) 0 <> 0 -> uio_offset u < 73216 -> eio D r) /\
      n = 0 /\ sfi_size (sv_i v') = sfi_size (sv_i v) /\ contents (dev s') (sv_i v') = contents (dev s) (sv_i v))).
Proof using DKL RW.
  intros Hrd Hr Hin Hsz Hrw Ho. pose proof Hrd as [_ Hv _ (F1 & F2 & F3 & F4 & F5) _ _].
  destruct (write_run p u s v Hrd Hsz Hrw) as (r & n & s' & v' & Hrun & Hn & Hr' & Hg & Hs & Hby). exists r, n, s', v'. split; [done|]. split; [done|].
  assert ((n = 0 /\ (nth (Z.to_nat (uio_offset u / 512)) (SfsFile.fmap (dev s) (sv_i v)) 0 <> 0 -> uio_offset u < 73216 -> eio D r)) \/
    (r = 0 /\ n = uio_resid u)) as Hcase.
  { destruct (io_blocks_within p u s v (fun _ => RW) Hrd Hr Hin) as (r1 & n1 & u1 & s1 & v1 & Hio & Ht & _ & Hn1). unfold sfs_io, sv_rd in Hrun.
    rewrite Hv, Ok_bind, is_write_write in Hrun by done. cbn [negb andb Z.eqb orb c_assert] in Hrun.
    rewrite Ok_bind, Z.sub_0_r, u32_id, with_pos_id, Hio, Ok_bind in Hrun by lia. unfold sfs_io_out, sv_rd in Hrun. destruct Ht as (Hg1 & _ & bs & Hbs & -> & _).
    rewrite (grows_sv _ _ _ _ _ Hg1), Ok_bind in Hrun. injection Hrun as -> _ _ Hoff _ _. cbn in Hoff. destruct Hn1 as [[-> ->]|[-> Hn1]]; [right; lia|left]. split; [lia|]. intros H1 H2. destruct Hn1 as [?|[(_ & _ & ? & _)|[_ ?]]]; [done|done|lia]. }
  assert (contents (dev s') (sv_i v') = write_at (uio_offset u) (take (Z.to_nat n) (uio_left u)) (contents (dev s) (sv_i v))) as Hc.
  { apply contents_write; [lia| |done]. rewrite length_take. lia. }
  destruct Hcase as [[-> He]|[-> ->]]; [|by left]. destruct Hr' as [[_ ?]|Hr'%stopped_error]; [lia|]. right. split; [done|]. split; [done|]. split; [done|]. split; [lia|].
  rewrite Hc. unfold write_at. change (take (Z.to_nat 0) (uio_left u)) with (@nil Z). cbn [app length]. by rewrite Nat.add_0_r, take_drop.
Qed.

Lemma read_within p u s v : ready p u (uio_resid u) s v -> 0 < uio_resid u < 512 -> uio_offset u mod 512 + uio_resid u <= 512 ->
  sfi_size (sv_i v) < 2147483648 -> uio_rw u = UIO_READ -> uio_offset u + uio_resid u <= sfi_size (sv_i v) -> uio_offset u < 73216 ->
  exists r n s', sfs_io p u s = Ok (r, moved u (take (Z.to_nat n) (drop (Z.to_nat (uio_offset u)) (contents (dev s) (sv_i v)))) n, s') /\
    0 <= n <= readable u (sv_i v) /\ ((r = 0 /\ n = readable u (sv_i v)) \/ eio D r) /\ quiet s s'.
Proof using DKL.
  intros Hrd Hr Hin Hsz Hrw He Ho. pose proof Hrd as [_ Hv [[Hw _] _ _] (F1 & F2 & F3 & F4 & F5) _ _].
  destruct (read_run p u s v Hrd Hsz Hrw) as (r & n & s' & Hrun & Hn & Hr' & Hq). exists r, n, s'. split; [done|]. split; [done|]. split; [|done].
  destruct Hr' as [Hr'|[Hr'|[-> _]]]; [by left|by right|]. exfalso.
  assert (is_write u = false) as Hiw by (by apply is_write_read).
  destruct (io_blocks_within p u s v) as (r1 & n1 & u1 & s1 & v1 & Hio & Ht & _ & Hn1); [intros E; congruence|done|done|done|]. unfold sfs_io, sv_rd in Hrun.
  rewrite Hv, Ok_bind, Hiw, !s32_id in Hrun by (unfold word32 in Hw; lia). cbn [negb andb] in Hrun.
  rewrite Z.geb_leb, (proj2 (Z.leb_gt _ _)), Z.gtb_ltb, (proj2 (Z.ltb_ge _ _)) in Hrun by lia. cbn [Z.eqb orb c_assert] in Hrun.
  rewrite Ok_bind, Z.sub_0_r, u32_id, with_pos_id, Hio, Ok_bind in Hrun by lia. unfold sfs_io_out, sv_rd in Hrun.
  destruct Ht as (Hg1 & _ & bs & Hbs & -> & _). rewrite (grows_sv _ _ _ _ _ Hg1), Ok_bind in Hrun. injection Hrun as -> _ _ _ _ _.
  destruct Hn1 as [[? _]|[_ [[? _]|[(? & _)|[_ ?]]]]]; [done|done|done|lia].
Qed.

(** Past the blocks that a file can have, a write fails. *)
Lemma partialio_too_far p u skip len (s : sfs) : 73216 <= uio_offset u < 2147483648 -> 0 <= skip -> 0 <= len -> skip + len <= 512 ->
  sfs_partialio p u skip len s = Ok (EINVAL, u, s).
Proof.
  intros Ho Hs Hl Hin. unfold sfs_partialio. rewrite (u32_id (skip + len)), (proj2 (Z.leb_le _ SFS_BLOCKSIZE)) by (unfold SFS_BLOCKSIZE, u32_mod; lia).
  cbn [c_assert]. rewrite Ok_bind, quot_block, bmap_too_far, Ok_bind by lia. done.
Qed.

Lemma io_too_far p u s v : svs s !! p = Some v -> uio_rw u = UIO_WRITE -> 0 < uio_resid u < 512 -> 73216 <= uio_offset u < 2147483648 ->
  uio_offset u mod 512 + uio_resid u <= 512 -> exists u' s', sfs_io p u s = Ok (EINVAL, u', s').
Proof.
  intros Hv Hrw Hr Ho Hin. unfold sfs_io, sv_rd. rewrite Hv, Ok_bind, is_write_write by done. cbn [negb andb Z.eqb orb c_assert].
  rewrite Ok_bind, Z.sub_0_r, u32_id, with_pos_id by (unfold u32_mod; lia).
  assert (sfs_io_blocks p u s = Ok (EINVAL, u, s)) as ->; [|rewrite Ok_bind; unfold sfs_io_out, sv_rd; rewrite Hv; eauto].
  unfold sfs_io_blocks, SFS_BLOCKSIZE. rewrite Z.rem_mod_nonneg, (u32_id (uio_offset u mod 512)) by (unfold u32_mod; lia).
  destruct (Z.eqb_spec (uio_offset u mod 512) 0) as [E|E]; cbn [negb].
  - rewrite Ok_bind. cbn [Z.eqb negb]. rewrite (proj2 (Z.eqb_neq (uio_resid u) 0)), Z.rem_mod_nonneg, E by lia. cbn [Z.eqb c_assert].
    rewrite Ok_bind, Z.div_small by lia. change (Z.to_nat 0) with O. cbn [blockio_loop]. rewrite Ok_bind. cbn [Z.eqb negb].
    rewrite (proj2 (Z.ltb_lt (uio_resid u) 512)), Z.gtb_ltb, (proj2 (Z.ltb_lt 0 _)) by lia. cbn [c_assert]. rewrite Ok_bind. apply partialio_too_far; lia.
  - rewrite partialio_too_far, Ok_bind; [done|lia|lia| |]; rewrite Z.gtb_ltb; destruct (Z.ltb_spec (uio_resid u) (512 - uio_offset u mod 512)); lia.
Qed.

(** ** Slots *)

Definition slot_bytes (c : list Z) (k : nat) : list Z := take 64 (drop (64 * k) c).

Definition slots (c : list Z) : list sfs_dir := (fun k => bytes_dir (slot_bytes c k)) <$> seq 0 (length c / 64).

#[local] Arguments slots : simpl never.
#[local] Arguments slot_bytes : simpl never.

Lemma slot_write c bs k j : length bs = 64%nat -> (64 * k <= length c)%nat ->
  slot_bytes (write_at (64 * Z.of_nat k) bs c) j = if decide (j = k) then bs else slot_bytes c j.
Proof.
  intros Hb Hk. unfold slot_bytes, write_at. replace (Z.to_nat (64 * Z.of_nat k)) with (64 * k)%nat by lia. rewrite Hb.
  assert (length (take (64 * k) c) = (64 * k)%nat) as Hl by (rewrite length_take; lia). case_decide as E.
  - subst j. rewrite drop_app_length' by done. by rewrite take_app_length'.
  - destruct (decide (j < k)%nat) as [Hlt|Hge].
    + rewrite drop_app_le, take_app_le by (rewrite ?length_drop, ?length_take; lia). rewrite <- (take_drop (64 * k) c) at 2.
      rewrite drop_app_le, take_app_le by (rewrite ?length_drop, ?length_take; lia). done.
    + rewrite drop_app_ge by lia. rewrite Hl, drop_app_ge by lia. rewrite drop_drop, Hb. do 2 f_equal. lia.
Qed.

Lemma write_length off bs c : (Z.to_nat off <= length c)%nat -> length (write_at off bs c) = Nat.max (length c) (Z.to_nat off + length bs).
Proof. intros Ho. unfold write_at. rewrite !length_app, length_take, length_drop. lia. Qed.

Lemma slots_length c : length (slots c) = (length c / 64)%nat.
Proof. unfold slots. by rewrite list.length_fmap, length_seq. Qed.

Lemma slots_lookup c k : (k < length c / 64)%nat -> slots c !! k = Some (bytes_dir (slot_bytes c k)).
Proof. intros Hk. unfold slots. by rewrite list_lookup_fmap, lookup_seq_lt. Qed.

(** Writing an entry over one, or after the last. *)
Lemma slots_write c e k n : length c = (64 * n)%nat -> wf_dir e -> (k <= n)%nat ->
  slots (write_at (64 * Z.of_nat k) (dir_bytes e) c) = take k (slots c) ++ e :: drop (S k) (slots c).
Proof.
  intros Hn He Hk. assert (length (dir_bytes e) = 64%nat) as Hd by (destruct He as (_ & He & _); unfold dir_bytes, SFS_NAMELEN in *; rewrite length_app; cbn; lia).
  assert (forall m, (64 * m / 64 = m)%nat) as Hdiv by (intros m; rewrite Nat.mul_comm; by apply Nat.div_mul).
  assert (length (slots c) = n) as Hsl by (by rewrite slots_length, Hn, Hdiv).
  assert (length (write_at (64 * Z.of_nat k) (dir_bytes e) c) / 64 = Nat.max n (S k))%nat as Hwl.
  { rewrite write_length, Hd, Hn by lia. replace (Nat.max _ _) with (64 * Nat.max n (S k))%nat by lia. apply Hdiv. }
  apply list_eq. intros j. destruct (decide (j < Nat.max n (S k))%nat) as [Hj|Hj].
  2: { rewrite !lookup_ge_None_2; [done| |by rewrite slots_length; lia]. rewrite length_app, length_take. cbn [length]. rewrite length_drop. lia. }
  rewrite slots_lookup, slot_write by lia. case_decide as E.
  - subst j. rewrite list_lookup_middle by (rewrite length_take; lia). by rewrite bytes_dir_id.
  - destruct (decide (j < k)%nat).
    + rewrite lookup_app_l, lookup_take_lt, slots_lookup by (rewrite ?length_take, ?Hn, ?Hdiv; lia). done.
    + rewrite lookup_app_r by (rewrite length_take; lia). rewrite length_take, Hsl.
      replace (j - Nat.min k n)%nat with (S (j - S k)) by lia. change ((e :: drop (S k) (slots c)) !! S (j - S k)) with (drop (S k) (slots c) !! (j - S k)%nat). rewrite lookup_drop.
      replace (S k + (j - S k))%nat with j by lia. rewrite slots_lookup by (rewrite Hn, Hdiv; lia). done.
Qed.

(** ** Directories *)

(** The state after reading the file: its bytes are the same. *)
Definition peeks (p : Z) (s : sfs) (v : sfs_vnode) (s' : sfs) (v' : sfs_vnode) : Prop :=
  grows p s v s' v' /\ sfi_size (sv_i v') = sfi_size (sv_i v) /\ contents (dev s') (sv_i v') = contents (dev s) (sv_i v).

Lemma peeks_refl p s v : fs_ok s -> file_ok s (sv_i v) -> svs s !! p = Some v -> peeks p s v s v.
Proof. intros. split; [by apply grows_refl|done]. Qed.

Lemma peeks_trans p s v s1 v1 s2 v2 : peeks p s v s1 v1 -> peeks p s1 v1 s2 v2 -> peeks p s v s2 v2.
Proof. intros (H1 & H2 & H3) (G1 & G2 & G3). split; [by eapply grows_trans|]. split; congruence. Qed.

(** The characters up to the terminator. *)
Fixpoint cstr (s : list Z) : list Z :=
  match s with
  | [] => []
  | c :: s' => if c =? 0 then [] else c :: cstr s'
  end.

Lemma cstr_points l rest : Forall byte l -> points_to (l ++ 0 :: rest) (cstr l).
Proof.
  induction 1 as [|c l Hc _ (IH & r & E)]; cbn [app cstr]; [split; [constructor|by exists rest]|].
  unfold byte in Hc. destruct (Z.eqb_spec c 0) as [->|Hne]; [split; [constructor|by eexists]|].
  split; [apply str_cons; split; [lia|done]|]. exists r. by rewrite E.
Qed.

Lemma cstr_of s l : points_to s l -> cstr s = l.
Proof.
  intros [Hs [rest ->]]. induction l as [|c l IH]; [done|]. apply str_cons in Hs as [Hc Hs]. cbn [app cstr]. nonzero c. by rewrite IH.
Qed.

Lemma cstr_length l : (length (cstr l) <= length l)%nat.
Proof. induction l as [|c l IH]; cbn; [done|]. destruct (c =? 0); cbn; lia. Qed.

(** The name in an entry, cut as the code cuts it. *)
Definition name_of (e : sfs_dir) : list Z := cstr (take 59 (sfd_name e)).

Definition in_use (e : sfs_dir) : Prop := sfd_ino e <> SFS_NOINO.

#[local] Instance in_use_dec e : Decision (in_use e).
Proof. unfold in_use. apply _. Defined.

Definition names (es : list sfs_dir) : list (list Z) := name_of <$> filter in_use es.

(** A directory: whole entries, no name twice. *)
Record dir_ok (s : sfs) (v : sfs_vnode) : Prop := mk_dir_ok {
  do_type : sfi_type (sv_i v) = SFS_TYPE_DIR;
  do_whole : sfi_size (sv_i v) mod 64 = 0;
  do_max : 0 <= sfi_size (sv_i v) <= 73216;
  do_names : NoDup (names (slots (contents (dev s) (sv_i v))));
}.

(** The map that the directory stands for. *)
Definition dirmap (es : list sfs_dir) : gmap (list Z) Z := list_to_map ((fun e => (name_of e, sfd_ino e)) <$> filter in_use es).

Definition entries (s : sfs) (v : sfs_vnode) : list sfs_dir := slots (contents (dev s) (sv_i v)).

Lemma peeks_dir p s v s' v' : peeks p s v s' v' -> dir_ok s v -> dir_ok s' v' /\ entries s' v' = entries s v.
Proof.
  intros (Hg & Hs & Hc) []. split; [|unfold entries; by rewrite Hc]. pose proof Hg as [_ _ _ _ Hsame _ _ _ _]. injection Hsame as _ _ _ Hty _.
  constructor; rewrite ?Hs, ?Hc; congruence || done.
Qed.

(** [p] is the vnode [v] of a directory. *)
Record at_dir (p : Z) (s : sfs) (v : sfs_vnode) : Prop := mk_at_dir {
  ad_fs : fs_ok s;
  ad_sv : svs s !! p = Some v;
  ad_file : file_ok s (sv_i v);
  ad_dir : dir_ok s v;
}.

Lemma peeks_at p s v s' v' : peeks p s v s' v' -> at_dir p s v -> at_dir p s' v' /\ entries s' v' = entries s v.
Proof.
  intros Hp []. destruct (peeks_dir p s v s' v' Hp) as [Hd He]; [done|]. split; [|done]. destruct Hp as [Hg _].
  pose proof (grows_sv _ _ _ _ _ Hg). by destruct Hg.
Qed.

Lemma entries_count p s v : at_dir p s v -> Z.of_nat (length (entries s v)) = sfi_size (sv_i v) / 64 /\
  length (contents (dev s) (sv_i v)) = (64 * length (entries s v))%nat.
Proof.
  intros [_ _ _ []]. unfold entries. rewrite slots_length, contents_length.
  assert (exists m, sfi_size (sv_i v) = Z.of_nat m * 64) as [m ->] by (exists (Z.to_nat (sfi_size (sv_i v) / 64)); lia).
  replace (Z.to_nat (Z.of_nat m * 64)) with (m * 64)%nat by lia. rewrite Nat.div_mul, Z.div_mul by lia. split; [done|lia].
Qed.

Lemma nentries_run p s v : at_dir p s v -> sfs_dir_nentries p s = Ok (zlen (entries s v)).
Proof.
  intros Had. destruct (entries_count p s v Had) as [Hl _]. destruct Had as [_ Hsv _ []]. unfold sfs_dir_nentries, sv_rd, DIRSIZE.
  rewrite Hsv, Ok_bind, do_type0. cbn [Z.eqb c_assert SFS_TYPE_DIR Pos.eqb]. rewrite Ok_bind, (s32_id (sfi_size _)), u32_id by (unfold u32_mod; lia).
  rewrite do_whole0. cbn [Z.eqb negb]. rewrite s32_id, Hl by lia. done.
Qed.

(** ** Reading and writing entries *)

Lemma slot_ready p s v bs k rw : at_dir p s v -> length bs = 64%nat -> (rw = UIO_WRITE -> Forall byte bs) -> (k <= length (entries s v))%nat ->
  s32 (u32 (Z.of_nat k * DIRSIZE)) = 64 * Z.of_nat k /\
  ready p (mk_kuio bs DIRSIZE (64 * Z.of_nat k) rw) 64 s v /\ uio_left (mk_kuio bs DIRSIZE (64 * Z.of_nat k) rw) = bs.
Proof.
  intros Had Hl Hb Hk. destruct (entries_count p s v Had) as [Hn _]. destruct Had as [? ? ? []]. unfold DIRSIZE.
  rewrite u32_id, s32_id by (unfold u32_mod; lia). split; [lia|]. unfold mk_kuio. change (Z.to_nat 64) with 64%nat.
  rewrite take_ge by lia. split; [|done]. constructor; try done. unfold fits, u32_mod. cbn [uio_resid uio_left uio_offset]. lia.
Qed.

Lemma readdir_run p s v sd k : at_dir p s v -> length sd = 64%nat -> (k < length (entries s v))%nat ->
  exists r sd' s' v', sfs_readdir p sd (Z.of_nat k) s = Ok (r, sd', s') /\ length sd' = 64%nat /\ peeks p s v s' v' /\
    ((r = 0 /\ sd' = slot_bytes (contents (dev s) (sv_i v)) k) \/ eio D r).
Proof using DKL.
  intros Had Hl Hk. destruct (entries_count p s v Had) as [Hn Hlen]. destruct (slot_ready p s v sd k UIO_READ Had Hl) as (Hpos & Hrd & Hleft); [done|lia|].
  unfold sfs_readdir. rewrite Hpos. set (u := mk_kuio sd DIRSIZE (64 * Z.of_nat k) UIO_READ) in *.
  pose proof Had as [_ _ _ [_ _ Hmax _]]. assert (uio_resid u = 64 /\ uio_offset u = 64 * Z.of_nat k) as [Hur Huo] by done.
  destruct (read_within p u s v) as (r & n & s' & -> & Hn' & Hr & Hq); [exact Hrd|lia|lia|lia|done|lia|lia|].
  rewrite Ok_bind. assert (readable u (sv_i v) = 64) as Hrb by (unfold readable, u, mk_kuio, DIRSIZE; cbn [uio_resid uio_offset]; destruct Had as [_ _ _ []]; lia). rewrite Hrb in *.
  assert (peeks p s v s' v) as Hpk by (destruct Had; destruct (quiet_grows p s v s'); done).
  set (bs := take (Z.to_nat n) (drop (Z.to_nat (uio_offset u)) (contents (dev s) (sv_i v)))) in *.
  assert (length bs = Z.to_nat n) as Hbl by (unfold bs; rewrite length_take, length_drop, Hlen; cbn; lia).
  assert (length (uio_buffer (moved u bs n)) = 64%nat) as Hbuf.
  { unfold uio_buffer, moved. cbn [uio_done uio_left]. rewrite Hleft, !length_app, length_drop, Hl, Hbl. cbn. lia. }
  exists (if r =? 0 then 0 else r), (uio_buffer (moved u bs n)), s', v. destruct Hr as [[-> ->]|Hr].
  - cbn [Z.eqb negb]. replace (uio_resid (moved u bs 64) >? 0) with false by done. split; [done|]. split; [done|]. split; [done|]. left. split; [done|].
    unfold uio_buffer, moved. cbn [uio_done uio_left]. rewrite Hleft. change (Z.to_nat 64) with 64%nat. rewrite drop_ge, app_nil_r by lia.
    unfold bs, slot_bytes. cbn [uio_offset u mk_kuio uio_done app]. do 2 f_equal. lia.
  - rewrite (eio_nonzero r Hr). cbn [negb]. split; [done|]. split; [done|]. split; [done|by right].
Qed.

Lemma error_nonzero r : io_error D r -> (r =? 0) = false.
Proof. by intros [->|[[-> _]| ->]]. Qed.

(** The result of writing an entry [e] to slot [k]. *)
Lemma writedir_run p s v e k : at_dir p s v -> wf_dir e -> (k <= length (entries s v))%nat ->
  exists r s' v', sfs_writedir p (dir_bytes e) (Z.of_nat k) s = Ok (r, s') /\ grows p s v s' v' /\
    ((r = 0 /\ entries s' v' = take k (entries s v) ++ e :: drop (S k) (entries s v) /\
      sfi_size (sv_i v') = Z.max (sfi_size (sv_i v)) (64 * Z.of_nat k + 64) /\ sfi_size (sv_i v') <= 73216) \/
     (io_error D r /\ peeks p s v s' v' /\
      (nth (Z.to_nat (64 * Z.of_nat k / 512)) (SfsFile.fmap (dev s) (sv_i v)) 0 <> 0 -> (k < length (entries s v))%nat -> eio D r))).
Proof using DKL RW.
  intros Had He Hk. destruct (entries_count p s v Had) as [Hn Hlen]. pose proof He as (_ & Hnl & Hnb).
  assert (length (dir_bytes e) = 64%nat) as Hl by (unfold dir_bytes, SFS_NAMELEN in *; rewrite length_app; cbn; lia).
  assert (Forall byte (dir_bytes e)) as Hb.
  { unfold dir_bytes. apply list.Forall_app. split; [|done]. pose proof (bytes_of_byte [sfd_ino e]) as H. unfold bytes_of in H. cbn [mbind list_bind] in H. by rewrite app_nil_r in H. }
  destruct (slot_ready p s v (dir_bytes e) k UIO_WRITE Had Hl) as (Hpos & Hrd & Hleft); [done|lia|].
  unfold sfs_writedir. rewrite Z.geb_leb, (proj2 (Z.leb_le 0 _)) by lia. cbn [c_assert]. rewrite Ok_bind, Hpos.
  set (u := mk_kuio (dir_bytes e) DIRSIZE (64 * Z.of_nat k) UIO_WRITE) in *.
  assert (uio_resid u = 64 /\ uio_offset u = 64 * Z.of_nat k) as [Hur Huo] by done. pose proof Had as [_ _ _ [_ _ ? _]].
  destruct (write_within p u s v) as (r & n & s' & v' & Hrun & Hg & Hr); [by rewrite Hur|lia|lia|lia|done|lia|].
  assert (r = 0 -> 64 * Z.of_nat k < 73216) as Hfar.
  { intros ->. destruct (decide (64 * Z.of_nat k < 73216)) as [|Hge]; [done|]. destruct (io_too_far p u s v) as (u' & s2 & E); [by destruct Had|done|lia|lia|lia|].
    by rewrite E in Hrun. }
  rewrite Hrun, Ok_bind. exists r, s', v'. destruct Hr as [(-> & -> & Hs & Hc)|(Hr & He' & -> & Hs & Hc)].
  - cbn [Z.eqb negb]. replace (uio_resid _ >? 0) with false by done. split; [done|]. split; [done|]. left. split; [done|]. split; [|specialize (Hfar eq_refl); lia].
    unfold entries. rewrite Hc, Hleft, Hur, Huo, (take_ge (dir_bytes e)) by lia.
    by apply (slots_write _ _ _ (length (entries s v))).
  - rewrite (error_nonzero r Hr). cbn [negb]. split; [done|]. split; [done|]. right. split; [done|].
    split; [by split|]. intros H1 H2. apply He'; [done|]. lia.
Qed.

(** ** Searching *)

(** The entry with the name: its inode number and slot, and the last empty
    slot. *)
Fixpoint find_from (name : list Z) (es : list sfs_dir) (i : Z) : option (Z * Z) :=
  match es with
  | [] => None
  | e :: es' => if decide (in_use e /\ name_of e = name) then Some (sfd_ino e, i) else find_from name es' (i + 1)
  end.

Fixpoint last_empty (es : list sfs_dir) (i : Z) (acc : option Z) : option Z :=
  match es with
  | [] => acc
  | e :: es' => last_empty es' (i + 1) (if decide (in_use e) then acc else Some i)
  end.

Lemma terminate_name tsd : length tsd = 64%nat -> Forall byte tsd ->
  bytes_dir (terminate tsd) = mk_dir (sfd_ino (bytes_dir tsd)) (take 59 (sfd_name (bytes_dir tsd)) ++ [0]) /\ length (terminate tsd) = 64%nat.
Proof.
  intros Hl _. unfold terminate. split; [|by rewrite length_insert]. unfold bytes_dir. cbn [sfd_ino sfd_name]. f_equal.
  - rewrite take_insert_ge by lia. done.
  - rewrite insert_take_drop by lia. rewrite (drop_ge tsd 64), drop_app_le by (rewrite ?length_take; lia).
    by rewrite take_drop_commute.
Qed.

Lemma strcmp_name tsd nm name : length tsd = 64%nat -> Forall byte tsd -> points_to nm name ->
  exists c, strcmp (sfd_name (bytes_dir (terminate tsd))) nm = Ok c /\ (c = 0 <-> name_of (bytes_dir tsd) = name).
Proof.
  intros Hl Hb Hn. destruct (terminate_name tsd Hl Hb) as [-> _]. cbn [sfd_name]. unfold name_of, bytes_dir. cbn [sfd_name].
  pose proof (cstr_points (take 59 (drop 4 tsd)) []) as Hp. specialize (Hp ltac:(by apply Forall_take, Forall_drop)).
  rewrite (strcmp_run _ _ _ _ Hp Hn). eexists. split; [done|]. apply cmp_zero; [by destruct Hp|by destruct Hn].
Qed.

Lemma find_names name es i : name ∉ names es -> find_from name es i = None.
Proof.
  revert i. induction es as [|e es IH]; intros i Hn; [done|]. cbn [find_from]. unfold names in *. rewrite filter_cons in Hn.
  destruct (decide (in_use e)) as [Hu|Hu].
  - rewrite fmap_cons, not_elem_of_cons in Hn. destruct Hn as [Hne Hn]. rewrite decide_False by naive_solver. by apply IH.
  - rewrite decide_False by tauto. by apply IH.
Qed.

Lemma slot_byte p s v k : at_dir p s v -> (k < length (entries s v))%nat -> let bs := slot_bytes (contents (dev s) (sv_i v)) k in
  length bs = 64%nat /\ Forall byte bs /\ entries s v !! k = Some (bytes_dir bs).
Proof using DKL.
  intros Had Hk bs. destruct (entries_count p s v Had) as [_ Hl]. unfold bs. split; [|split].
  - unfold slot_bytes. rewrite length_take, length_drop, Hl. lia.
  - apply Forall_take, Forall_drop. unfold contents. apply Forall_fmap. apply list.Forall_forall. intros x _. cbn.
    unfold file_byte. destruct (_ =? 0) eqn:E; [unfold byte; lia|]. destruct Had as [Hfs _ Hf _].
    destruct (block_used s (sv_i v) (Z.to_nat (Z.of_nat x / 512)) Hf) as [E0|[Hb _]]; [by rewrite E0 in E|].
    destruct Hfs. destruct (hw_block (dev s) (nth (Z.to_nat (Z.of_nat x / 512)) (SfsFile.fmap (dev s) (sv_i v)) 0)) as [Hlen Hall]; [lia|].
    destruct (nth_in_or_default (Z.to_nat (Z.of_nat x mod 512)) (sector (dev s) (nth (Z.to_nat (Z.of_nat x / 512)) (SfsFile.fmap (dev s) (sv_i v)) 0)) 0) as [Hin| ->];
      [|unfold byte; lia]. by eapply Forall_forall in Hall.
  - unfold entries. apply slots_lookup. unfold entries in Hk. by rewrite slots_length in Hk.
Qed.

Lemma findname_loop_run p nm name n : forall k tsd found empty s v, at_dir p s v -> points_to nm name -> length tsd = 64%nat ->
  (k + n = length (entries s v))%nat -> let es := drop k (entries s v) in
  NoDup (names es) -> (found <> None -> name ∉ names es) ->
  exists r found' empty' s' v', findname_loop n (Z.of_nat k) p nm tsd found empty s = Ok (r, found', empty', s') /\ peeks p s v s' v' /\
    ((found' = (if found then found else find_from name es (Z.of_nat k)) /\ empty' = last_empty es (Z.of_nat k) empty /\
      r = (if found' then 0 else ENOENT)) \/ eio D r).
Proof using DKL.
  induction n as [|n IH]; intros k tsd found empty s v Had Hnm Htl Hk es Hnd Hfnd; cbn [findname_loop].
  { exists (if found then 0 else ENOENT), found, empty, s, v. split; [by destruct found|]. split; [destruct Had; by apply peeks_refl|]. left.
    unfold es. rewrite drop_ge by lia. split; [by destruct found|done]. }
  destruct (readdir_run p s v tsd k Had Htl) as (r & tsd' & s1 & v1 & -> & Htl1 & Hpk & Hr); [lia|]. rewrite Ok_bind.
  destruct Hr as [[-> ->]|Hr].
  2: { rewrite (eio_nonzero r Hr). cbn [negb]. exists r, found, empty, s1, v1. eauto. }
  cbn [Z.eqb negb]. destruct (slot_byte p s v k Had) as (_ & Hby & Hek); [lia|]. set (bs := slot_bytes _ k) in *.
  destruct (peeks_at _ _ _ _ _ Hpk Had) as [Had1 Hes1].
  assert (es = bytes_dir bs :: drop (S k) (entries s v)) as Hes by (unfold es; by apply drop_S). set (es1 := drop (S k) (entries s v)) in *.
  assert (forall tsd1 found1 empty1, length tsd1 = 64%nat -> NoDup (names es1) -> (found1 <> None -> name ∉ names es1) ->
    exists r found' empty' s' v', findname_loop n (Z.of_nat (S k)) p nm tsd1 found1 empty1 s1 = Ok (r, found', empty', s') /\ peeks p s v s' v' /\
    ((found' = (if found1 then found1 else find_from name es1 (Z.of_nat (S k))) /\ empty' = last_empty es1 (Z.of_nat (S k)) empty1 /\
      r = (if found' then 0 else ENOENT)) \/ eio D r)) as Hnext.
  { intros tsd1 found1 empty1 Hl1 Hn1 Hf1. unfold es1 in *. rewrite <- Hes1 in *.
    destruct (IH (S k) tsd1 found1 empty1 s1 v1) as (r & f' & e' & s' & v' & -> & Hpk' & Hr); [done|done|done|lia|done|done|].
    exists r, f', e', s', v'. split; [done|]. split; [by eapply peeks_trans|done]. }
  clear IH. rewrite Hes in Hnd, Hfnd |- *. cbn [find_from last_empty]. replace (Z.of_nat k + 1) with (Z.of_nat (S k)) by lia.
  unfold names in Hnd, Hfnd. rewrite filter_cons in Hnd, Hfnd.
  destruct (terminate_name bs Htl1 Hby) as [Htn Htl2]. destruct (strcmp_name bs nm name Htl1 Hby Hnm) as (c & Hc & Hc0).
  destruct (Z.eqb_spec (sfd_ino (bytes_dir bs)) SFS_NOINO) as [H0|H0].
  { rewrite !(decide_False (P := in_use _)) in * by (intros Hu; by apply Hu). rewrite (decide_False (P := _ /\ _)) by (intros [Hu _]; by apply Hu). by apply Hnext. }
  rewrite !(decide_True (P := in_use _)) in * by done. rewrite fmap_cons in Hnd, Hfnd. apply list.NoDup_cons in Hnd as [Hnk Hnd].
  rewrite Hc, Ok_bind. destruct (Z.eqb_spec c 0) as [Ec|Ec].
  - apply Hc0 in Ec. rewrite (decide_True (P := _ /\ _)) by done. destruct found as [x|].
    { exfalso. apply Hfnd; [done|]. rewrite Ec. left. }
    cbn [c_assert]. rewrite Ok_bind, Htn. cbn [sfd_ino]. apply Hnext; [done|done|]. intros _. by rewrite <- Ec.
  - rewrite (decide_False (P := _ /\ _)) by (intros [_ Hx]; by apply Hc0 in Hx). apply Hnext; [done|done|].
    intros Hf Hin. apply (Hfnd Hf). by right.
Qed.

(** ** The map *)

Lemma find_dirmap name es : forall i, fst <$> find_from name es i = dirmap es !! name.
Proof.
  induction es as [|e es IH]; intros i; [done|]. cbn [find_from]. unfold dirmap in *. rewrite filter_cons.
  destruct (decide (in_use e)) as [Hu|Hu].
  - rewrite fmap_cons. cbn [list_to_map foldr]. destruct (decide (name_of e = name)) as [<-|Hne].
    + rewrite decide_True by done. cbn. by rewrite lookup_insert_eq.
    + rewrite decide_False by tauto. cbn. rewrite lookup_insert_ne by done. apply IH.
  - rewrite decide_False by tauto. apply IH.
Qed.

Lemma find_Some name es : forall i ino slot, find_from name es i = Some (ino, slot) ->
  exists k e, slot = i + Z.of_nat k /\ es !! k = Some e /\ in_use e /\ name_of e = name /\ sfd_ino e = ino.
Proof.
  induction es as [|e es IH]; intros i ino slot; cbn [find_from]; [done|]. case_decide as Hd.
  - intros [= <- <-]. exists O, e. split; [lia|]. split; [done|]. naive_solver.
  - intros H. destruct (IH _ _ _ H) as (k & e' & -> & Hk & ?). exists (S k), e'. split; [lia|done].
Qed.

Lemma last_empty_slot es : forall i acc j, last_empty es i acc = Some j ->
  acc = Some j \/ exists k e, j = i + Z.of_nat k /\ es !! k = Some e /\ ~ in_use e.
Proof.
  induction es as [|e es IH]; intros i acc j; cbn [last_empty]; [by left|]. intros H.
  destruct (IH _ _ _ H) as [Ha|(k & e' & -> & Hk & ?)].
  - case_decide; [by left|]. injection Ha as <-. right. exists O, e. split; [lia|done].
  - right. exists (S k), e'. split; [lia|done].
Qed.

(** Entries with [e] at slot [k]. *)
Definition put (k : nat) (e : sfs_dir) (es : list sfs_dir) : list sfs_dir := take k es ++ e :: drop (S k) es.

Lemma put_eq k e es : (k <= length es)%nat -> put k e es !! k = Some e.
Proof. intros Hk. unfold put. apply list_lookup_middle. rewrite length_take. lia. Qed.

Lemma put_ne k e es j e' : (k <= length es)%nat -> es !! j = Some e' -> j <> k -> put k e es !! j = Some e'.
Proof.
  intros Hk Hj Hne. unfold put. destruct (decide (j < k)%nat).
  - rewrite lookup_app_l by (rewrite length_take; lia). by rewrite lookup_take_lt.
  - rewrite lookup_app_r by (rewrite length_take; lia). rewrite length_take. replace (j - k `min` length es)%nat with (S (j - S k)) by lia.
    change ((e :: drop (S k) es) !! S (j - S k)) with (drop (S k) es !! (j - S k)%nat). rewrite lookup_drop.
    by replace (S k + (j - S k))%nat with j by lia.
Qed.

Lemma filter_put k e es : filter in_use (put k e es) = filter in_use (take k es) ++ filter in_use [e] ++ filter in_use (drop (S k) es).
Proof. unfold put. by rewrite list.filter_app, (filter_cons _ _ (drop _ _)), (filter_cons _ _ []); case_decide. Qed.

Lemma filter_free k e0 es : es !! k = Some e0 /\ ~ in_use e0 \/ (length es <= k)%nat ->
  filter in_use es = filter in_use (take k es) ++ filter in_use (drop (S k) es).
Proof.
  intros [[Hk He]|Hk].
  - rewrite <- (take_drop_middle es k e0 Hk) at 1. rewrite list.filter_app, filter_cons. by rewrite decide_False.
  - rewrite take_ge, drop_ge by lia. by rewrite app_nil_r.
Qed.

Lemma dirmap_names (l : list sfs_dir) : ((fun e => (name_of e, sfd_ino e)) <$> l).*1 = name_of <$> l.
Proof. by rewrite <- list_fmap_compose. Qed.

Lemma dirmap_insert k e e0 es : es !! k = Some e0 /\ ~ in_use e0 \/ (length es <= k)%nat -> in_use e ->
  NoDup (names es) -> name_of e ∉ names es ->
  NoDup (names (put k e es)) /\ dirmap (put k e es) = <[name_of e := sfd_ino e]> (dirmap es).
Proof.
  intros Hk He Hnd Hn. assert (filter in_use (put k e es) ≡ₚ e :: filter in_use es) as Hp.
  { rewrite filter_put, (filter_free k e0 es Hk), filter_cons, decide_True by done. cbn [app]. symmetry. apply Permutation_middle. }
  assert (NoDup (names (put k e es))) as Hnd'. { unfold names. rewrite Hp, fmap_cons. by apply list.NoDup_cons. }
  split; [done|]. unfold dirmap. rewrite (list_to_map_proper _ ((name_of e, sfd_ino e) :: ((fun e => (name_of e, sfd_ino e)) <$> filter in_use es))); [done| |].
  - by rewrite dirmap_names.
  - by rewrite Hp.
Qed.

Lemma dirmap_delete k e e0 es : es !! k = Some e -> in_use e -> ~ in_use e0 -> NoDup (names es) ->
  NoDup (names (put k e0 es)) /\ dirmap (put k e0 es) = delete (name_of e) (dirmap es).
Proof.
  intros Hk He He0 Hnd. assert (filter in_use es ≡ₚ e :: filter in_use (put k e0 es)) as Hp.
  { rewrite filter_put, filter_cons, decide_False by done. rewrite <- (take_drop_middle es k e Hk) at 1.
    rewrite list.filter_app, filter_cons, decide_True by done. symmetry. apply Permutation_middle. }
  unfold names in Hnd. rewrite Hp, fmap_cons in Hnd. apply list.NoDup_cons in Hnd as [Hn Hnd]. split; [done|].
  assert (dirmap es = <[name_of e := sfd_ino e]> (dirmap (put k e0 es))) as ->.
  { unfold dirmap. rewrite (list_to_map_proper _ ((name_of e, sfd_ino e) :: ((fun e => (name_of e, sfd_ino e)) <$> filter in_use (put k e0 es)))); [done| |].
    - rewrite dirmap_names, Hp, fmap_cons. by apply list.NoDup_cons.
    - by rewrite Hp. }
  rewrite delete_insert_id; [done|]. apply not_elem_of_list_to_map_1. by rewrite dirmap_names.
Qed.

Definition dirof (s : sfs) (v : sfs_vnode) : gmap (list Z) Z := dirmap (entries s v).

Lemma findname_run p nm name tsd s v : at_dir p s v -> points_to nm name -> length tsd = 64%nat ->
  exists r found empty s' v', sfs_dir_findname p nm tsd s = Ok (r, found, empty, s') /\ peeks p s v s' v' /\
    ((found = find_from name (entries s v) 0 /\ empty = last_empty (entries s v) 0 None /\ r = (if found then 0 else ENOENT)) \/ eio D r).
Proof using DKL.
  intros Had Hnm Hl. unfold sfs_dir_findname. rewrite (nentries_run p s v Had), Ok_bind, Nat2Z.id.
  destruct (findname_loop_run p nm name (length (entries s v)) 0 tsd None None s v) as (r & f & e & s' & v' & Hrun & Hpk & Hr); try done.
  { by destruct Had as [_ _ _ []]. }
  exists r, f, e, s', v'. by split.
Qed.

Lemma zero_not_eio : ~ eio D 0.
Proof. by intros [? _]. Qed.

Lemma eio_error r : eio D r -> io_error D r.
Proof. intros H. right. by left. Qed.

(** The directory after a successful write of an entry. *)
Lemma put_at p s v s' v' k e : at_dir p s v -> grows p s v s' v' -> entries s' v' = put k e (entries s v) ->
  (k <= length (entries s v))%nat ->
  sfi_size (sv_i v') = Z.max (sfi_size (sv_i v)) (64 * Z.of_nat k + 64) /\ sfi_size (sv_i v') <= 73216 -> NoDup (names (put k e (entries s v))) -> at_dir p s' v'.
Proof.
  intros Had Hg He Hk [Hs Hm] Hnd. destruct (entries_count p s v Had) as [Hc _]. destruct Had as [_ _ _ []]. pose proof (grows_sv _ _ _ _ _ Hg).
  destruct Hg as [? ? _ _ Hsame _ _ _ _]. injection Hsame as _ _ _ Hty _. constructor; try done.
  constructor; [congruence| |lia|unfold entries in *; by rewrite He]. rewrite Hs. lia.
Qed.

Lemma name_of_entry ino name nm : points_to nm name -> (length name <= 59)%nat ->
  strcpy (replicate 60 0) nm = Ok (name ++ 0 :: replicate (59 - length name) 0) /\
  name_of (mk_dir ino (name ++ 0 :: replicate (59 - length name) 0)) = name /\
  (word32 ino -> wf_dir (mk_dir ino (name ++ 0 :: replicate (59 - length name) 0))).
Proof.
  intros Hp Hl. rewrite (strcpy_run nm name) by (done || (rewrite length_replicate; lia)). rewrite drop_replicate.
  replace (60 - S (length name))%nat with (59 - length name)%nat by lia. split; [done|]. destruct Hp as [Hs _]. split.
  - unfold name_of. cbn [sfd_name]. destruct (decide (length name = 59)%nat) as [E|E].
    + rewrite E, take_app_length' by done. clear - Hs. induction name as [|c l IH]; [done|]. apply str_cons in Hs as [Hc Hs]. cbn. nonzero c. by rewrite IH.
    + rewrite take_app_ge by lia. apply cstr_of. split; [done|]. replace (59 - length name)%nat with (S (58 - length name)) by lia. cbn [replicate take]. by eexists.
  - intros Hi. split; [done|]. cbn [sfd_name]. unfold SFS_NAMELEN. split; [rewrite length_app; cbn [length]; rewrite length_replicate; lia|].
    apply list.Forall_app. split; [|constructor; [unfold byte; lia|apply Forall_replicate; unfold byte; lia]].
    eapply list.Forall_impl; [exact Hs|]. intros c Hc. unfold byte. cbn in Hc. lia.
Qed.

Lemma find_long name es i : (59 < length name)%nat -> find_from name es i = None.
Proof.
  intros Hl. apply find_names. intros Hin. apply list_elem_of_fmap in Hin as (e & -> & _). unfold name_of in Hl.
  pose proof (cstr_length (take 59 (sfd_name e))). rewrite length_take in *. lia.
Qed.

Lemma find_None name es i : find_from name es i = None -> name ∉ names es.
Proof.
  intros Hf. pose proof (find_dirmap name es i) as Hm. rewrite Hf in Hm. symmetry in Hm. apply not_elem_of_list_to_map_2 in Hm.
  by rewrite dirmap_names in Hm.
Qed.

(** The slot for a new entry. *)
Lemma link_slot p s v : at_dir p s v ->
  exists k e0, match last_empty (entries s v) 0 None with Some e => Ok e | None => sfs_dir_nentries p s end = Ok (Z.of_nat k) /\
    (k <= length (entries s v))%nat /\ (entries s v !! k = Some e0 /\ ~ in_use e0 \/ (length (entries s v) <= k)%nat).
Proof.
  intros Had. destruct (last_empty (entries s v) 0 None) as [j|] eqn:E.
  - apply last_empty_slot in E as [?|(k & e & -> & Hk & He)]; [done|]. exists k, e. split; [done|]. apply lookup_lt_Some in Hk as Hlt. split; [lia|by left].
  - rewrite (nentries_run p s v Had). exists (length (entries s v)), (mk_dir 0 []). split; [done|]. split; [lia|by right].
Qed.

Lemma link_run p nm name ino tsd s v : at_dir p s v -> points_to nm name -> zlen name < 4294967295 -> length tsd = 64%nat ->
  word32 ino -> ino <> 0 ->
  exists r slot s' v', sfs_dir_link p nm ino tsd s = Ok (r, slot, s') /\ grows p s v s' v' /\ at_dir p s' v' /\
    ((r = 0 /\ dirof s v !! name = None /\ dirof s' v' = <[name := ino]> (dirof s v) /\
      (exists k e, slot = Z.of_nat k /\ entries s' v' !! k = Some e /\ in_use e /\ name_of e = name) /\
      forall j e, entries s v !! j = Some e -> in_use e -> entries s' v' !! j = Some e) \/
     (peeks p s v s' v' /\
      ((r = EEXIST /\ is_Some (dirof s v !! name)) \/ (r = ENAMETOOLONG /\ (59 < length name)%nat) \/ io_error D r))).
Proof using DKL RW.
  intros Had Hnm Hlen Htl Hi Hi0. unfold sfs_dir_link.
  destruct (findname_run p nm name tsd s v Had Hnm Htl) as (r & found & empty & s1 & v1 & -> & Hpk & Hr). rewrite Ok_bind.
  destruct (peeks_at _ _ _ _ _ Hpk Had) as [Had1 Hes1]. pose proof Hpk as [Hg1 _].
  destruct Hr as [(-> & -> & ->)|Hr].
  2: { rewrite (eio_nonzero r Hr), (proj2 (Z.eqb_neq r ENOENT)) by (by destruct Hr as [-> _]). cbn [negb andb].
    exists r, 0, s1, v1. split; [done|]. split; [done|]. split; [done|]. right. split; [done|]. right. right. by apply eio_error. }
  unfold dirof. rewrite <- (find_dirmap name (entries s v) 0). destruct (find_from name (entries s v) 0) as [[ino0 slot0]|] eqn:Hf; cbn [fst].
  { cbn [Z.eqb negb andb]. exists EEXIST, 0, s1, v1. split; [done|]. split; [done|]. split; [done|]. right. split; [done|]. left. split; [done|]. by eexists. }
  cbn [Z.eqb negb andb ENOENT Pos.eqb]. rewrite (strlen_run nm name) by (done || (unfold u32_mod; lia)). rewrite Ok_bind, u32_id, Z.gtb_ltb by (unfold u32_mod; lia).
  unfold SFS_NAMELEN. destruct (Z.ltb_spec 60 (zlen name + 1)) as [Hlong|Hok].
  { exists ENAMETOOLONG, 0, s1, v1. split; [done|]. split; [done|]. split; [done|]. right. split; [done|]. right. left. split; [done|lia]. }
  destruct (link_slot p s1 v1 Had1) as (k & e0 & Hslot & Hk & Hfree). rewrite Hes1 in Hslot. rewrite Hslot, Ok_bind.
  destruct (name_of_entry ino name nm Hnm ltac:(lia)) as (-> & Hname & Hwf). rewrite Ok_bind. specialize (Hwf Hi). set (e := mk_dir ino _) in *.
  destruct (writedir_run p s1 v1 e k Had1 Hwf Hk) as (r & s2 & v2 & -> & Hg2 & Hr). rewrite Ok_bind. exists r, (Z.of_nat k), s2, v2. split; [done|].
  split; [by eapply grows_trans|]. destruct Hr as [(-> & Hes2 & Hsz)|(Hr & Hpk2 & _)].
  - destruct (dirmap_insert k e e0 (entries s1 v1)) as [Hnd Hmap]; [done|done|by destruct Had1 as [_ _ _ []]| |].
    { rewrite Hname, Hes1. by apply (find_None _ _ 0). }
    rewrite Hes1 in Hnd, Hmap, Hes2. split; [eapply (put_at p s1 v1); [done|done|by rewrite Hes1|done|done|by rewrite Hes1]|]. left. split; [done|]. split; [done|].
    fold (put k e (entries s v)) in Hes2. rewrite Hes2, Hmap, Hname. rewrite Hes1 in Hk, Hfree. split; [done|]. split.
    + exists k, e. split; [done|]. split; [|done]. by apply put_eq.
    + intros j e' Hj He'. apply put_ne; [done|done|]. intros ->. destruct Hfree as [[Hk0 Hn]|Hge]; [by simplify_eq|]. apply lookup_lt_Some in Hj. lia.
  - destruct (peeks_at _ _ _ _ _ Hpk2 Had1) as [Had2 _]. split; [done|]. right. split; [by eapply peeks_trans|]. auto.
Qed.

(** An entry that is in use lies in a block of the directory. *)
Lemma in_use_mapped p k e s v : at_dir p s v -> entries s v !! k = Some e -> in_use e ->
  nth (Z.to_nat (64 * Z.of_nat k / 512)) (SfsFile.fmap (dev s) (sv_i v)) 0 <> 0.
Proof.
  intros Had Hk He H0. apply lookup_lt_Some in Hk as Hlt. destruct (entries_count p s v Had) as [_ Hl].
  unfold entries in Hk. rewrite slots_lookup in Hk by (unfold entries in Hlt; by rewrite slots_length in Hlt). injection Hk as <-.
  apply He. unfold bytes_dir. cbn [sfd_ino].
  assert (slot_bytes (contents (dev s) (sv_i v)) k = replicate 64 0) as ->; [|reflexivity].
  apply list_eq. intros j. unfold slot_bytes. destruct (decide (j < 64)%nat) as [Hj|Hj].
  - rewrite lookup_take_lt, lookup_drop, lookup_replicate_2, contents_nth by (rewrite <- ?contents_length with (d := dev s); lia).
    f_equal. unfold file_byte. replace (Z.to_nat (Z.of_nat (64 * k + j) / 512)) with (Z.to_nat (64 * Z.of_nat k / 512)) by lia.
    by rewrite H0.
  - rewrite !lookup_ge_None_2; [done|rewrite length_replicate; lia|rewrite length_take; lia].
Qed.

Lemma dir_unlink_run p k e s v : at_dir p s v -> entries s v !! k = Some e -> in_use e ->
  exists r s' v', sfs_dir_unlink p (Z.of_nat k) s = Ok (r, s') /\ grows p s v s' v' /\ at_dir p s' v' /\
    ((r = 0 /\ dirof s' v' = delete (name_of e) (dirof s v)) \/ (eio D r /\ peeks p s v s' v')).
Proof using DKL RW.
  intros Had Hk He. apply lookup_lt_Some in Hk as Hlt. unfold sfs_dir_unlink.
  destruct (writedir_run p s v (mk_dir SFS_NOINO (replicate 60 0)) k Had) as (r & s' & v' & Hrun & Hg & Hr); [|lia|].
  { split; [cbn; unfold word32, u32_mod, SFS_NOINO; lia|]. split; [done|]. apply Forall_replicate. unfold byte. lia. }
  exists r, s', v'. split; [done|]. split; [done|]. destruct Hr as [(-> & Hes & Hsz)|(_ & Hpk & Hr)].
  - destruct (dirmap_delete k e (mk_dir SFS_NOINO (replicate 60 0)) (entries s v)) as [Hnd Hmap]; [done|done|by intros []|by destruct Had as [_ _ _ []]|].
    fold (put k (mk_dir SFS_NOINO (replicate 60 0)) (entries s v)) in Hes. split; [by eapply (put_at p s v); [..|done|done]; [done|done|done|lia]|].
    left. split; [done|]. unfold dirof. by rewrite Hes.
  - destruct (peeks_at _ _ _ _ _ Hpk Had) as [Had' _]. split; [done|]. right. split; [|done]. apply Hr; [by eapply in_use_mapped|done].
Qed.

(** ** A directory is a map from names to inode numbers *)

(** Looking up a name in a directory returns the inode number that the
    map has for it, or ENOENT when it has none, unless a read fails; the
    directory stays as it is, and the assertion that no name occurs twice
    holds. *)
Theorem sfs_dir_findname_lookup p nm name tsd (s : sfs) v : at_dir p s v -> points_to nm name -> length tsd = 64%nat ->
  exists r found empty s' v', sfs_dir_findname p nm tsd s = Ok (r, found, empty, s') /\ at_dir p s' v' /\ dirof s' v' = dirof s v /\
    ((r = 0 /\ fst <$> found = dirof s v !! name /\ is_Some found) \/ (r = ENOENT /\ dirof s v !! name = None) \/ eio D r).
Proof using DKL.
  intros Had Hnm Hl. destruct (findname_run p nm name tsd s v Had Hnm Hl) as (r & found & empty & s' & v' & Hrun & Hpk & Hr).
  destruct (peeks_at _ _ _ _ _ Hpk Had) as [Had' Hes]. exists r, found, empty, s', v'. unfold dirof. rewrite Hes. split; [done|]. split; [done|].
  split; [done|]. destruct Hr as [(-> & _ & ->)|Hr]; [|by right; right]. rewrite <- (find_dirmap name (entries s v) 0).
  destruct (find_from name (entries s v) 0); [left; by eauto|right; by left].
Qed.

(** Linking a name adds it to the map; it fails with EEXIST when the map
    has the name, with ENAMETOOLONG when it is too long for an entry, or
    with an error of the disk, and then the map stays as it is. *)
Theorem sfs_dir_link_inserts p nm name ino tsd (s : sfs) v : at_dir p s v -> points_to nm name -> zlen name < 4294967295 ->
  length tsd = 64%nat -> 0 < ino < 4294967296 ->
  exists r slot s' v', sfs_dir_link p nm ino tsd s = Ok (r, slot, s') /\ at_dir p s' v' /\
    ((r = 0 /\ dirof s v !! name = None /\ dirof s' v' = <[name := ino]> (dirof s v)) \/
     (dirof s' v' = dirof s v /\
      ((r = EEXIST /\ is_Some (dirof s v !! name)) \/ (r = ENAMETOOLONG /\ 59 < zlen name) \/ io_error D r))).
Proof using DKL RW.
  intros Had Hnm Hlen Hl Hi. destruct (link_run p nm name ino tsd s v) as (r & slot & s' & v' & Hrun & _ & Had' & Hr); try done; [unfold word32, u32_mod; lia|lia|].
  exists r, slot, s', v'. split; [done|]. split; [done|]. destruct Hr as [(-> & Hn & Hm & _)|[Hpk Hr]]; [by left|right].
  destruct (peeks_at _ _ _ _ _ Hpk Had) as [_ Hes]. split; [unfold dirof; by rewrite Hes|].
  destruct Hr as [?|[[-> ?]|?]]; [by left|right; left; split; [done|lia]|by right; right].
Qed.

(** Unlinking the slot of a name takes exactly that name out of the map,
    or fails with an error of the disk and changes nothing. *)
Theorem sfs_dir_unlink_deletes p nm name tsd (s : sfs) v ino slot empty s1 : at_dir p s v -> points_to nm name -> length tsd = 64%nat ->
  sfs_dir_findname p nm tsd s = Ok (0, Some (ino, slot), empty, s1) ->
  exists r s' v', sfs_dir_unlink p slot s1 = Ok (r, s') /\ at_dir p s' v' /\
    ((r = 0 /\ dirof s' v' = delete name (dirof s v)) \/ (eio D r /\ dirof s' v' = dirof s v)).
Proof using DKL RW.
  intros Had Hnm Hl Hf. destruct (findname_run p nm name tsd s v Had Hnm Hl) as (r & found & empty' & s1' & v1 & Hrun & Hpk & Hr).
  rewrite Hf in Hrun. injection Hrun as <- <- <- <-. destruct (peeks_at _ _ _ _ _ Hpk Had) as [Had1 Hes1].
  destruct Hr as [(Hfd & _ & _)|Hr]; [|by apply zero_not_eio in Hr].
  destruct (find_Some _ _ _ _ _ (eq_sym Hfd)) as (k & e & -> & Hk & He & Hn & _). rewrite <- Hes1 in Hk.
  destruct (dir_unlink_run p k e s1 v1 Had1 Hk He) as (r & s' & v' & Hrun & _ & Had' & Hr). exists r, s', v'. split; [done|]. split; [done|].
  unfold dirof in *. rewrite Hes1, Hn in Hr. destruct Hr as [?|[Hr Hpk']]; [by left|right]. split; [done|].
  destruct (peeks_at _ _ _ _ _ Hpk' Had1) as [_ ->]. by rewrite Hes1.
Qed.

End Dir.

(** ** A directory with one name *)

Definition demo_root : sfs_inode := mk_inode 64 2 1 (5 :: replicate 14 0) 0 (replicate 110 0).

Definition root_sv : sfs_vnode := mk_sv demo_root 1 0 1 0.

Definition root_fs : SfsFile.sfs (D := good_disk) :=
  mk_sfs (mk_good (<[5 := dir_bytes (mk_dir 4 (97 :: replicate 59 0)) ++ replicate 448 0]> ∅)) 64 0
    (Bitmap.mk_bitmap 64 [63; 0; 0; 0; 0; 0; 0; 0]) 0 [16] {[16 := root_sv]}.

Lemma root_at : at_dir 16 root_fs root_sv.
Proof.
  assert (blocks (dev root_fs) demo_root = [5]) as E by (vm_compute; reflexivity). constructor.
  - constructor; cbn; try lia; [|reflexivity]. split; [cbn; lia|]. split; [reflexivity|]. split; [|cbn; lia].
    repeat (constructor; [lia|]). constructor.
  - reflexivity.
  - change (sv_i root_sv) with demo_root. constructor; rewrite ?E.
    + constructor; cbn; try done || (unfold word32, u32_mod; lia); repeat (constructor; [unfold word32, u32_mod; lia|]); constructor.
    + intros b Hb. apply list_elem_of_singleton in Hb as ->. split; [cbn; lia|reflexivity].
    + apply NoDup_singleton.
  - constructor; [reflexivity|reflexivity|cbn; lia|]. assert (names (slots (contents (dev root_fs) (sv_i root_sv))) = [[97]]) as -> by (vm_compute; reflexivity).
    apply NoDup_singleton.
Qed.

Lemma points_str l : str l -> points_to (l ++ [0]) l.
Proof. intros Hs. split; [done|]. by exists []. Qed.

Definition name_a : list Z := [97].
Definition name_b : list Z := [98].

Lemma str_one c : 0 < c < 256 -> str [c].
Proof. intros Hc. apply str_cons. split; [done|constructor]. Qed.

Lemma sfs_dir_findname_lookup_witness :
  exists found empty s', sfs_dir_findname 16 (name_a ++ [0]) (replicate 64 0) root_fs = Ok (0, found, empty, s') /\ fst <$> found = Some 4.
Proof.
  destruct (sfs_dir_findname_lookup 16 (name_a ++ [0]) name_a (replicate 64 0) root_fs root_sv) as (r & found & empty & s' & v' & Hrun & _ & _ & Hr).
  - exact root_at.
  - apply points_str, str_one. lia.
  - reflexivity.
  - assert (dirof root_fs root_sv !! name_a = Some 4) as Hm by (vm_compute; reflexivity). rewrite Hm in Hr.
    destruct Hr as [(-> & Hf & _)|[[_ Hn]|Hr]]; [exists found, empty, s'; split; [exact Hrun|exact Hf]|discriminate Hn|].
    exfalso. by apply good_disk_reads in Hr.
Defined.

Lemma sfs_dir_link_inserts_witness :
  exists slot s' v', sfs_dir_link 16 (name_b ++ [0]) 9 (replicate 64 0) root_fs = Ok (0, slot, s') /\
    dirof s' v' = <[name_b := 9]> (dirof root_fs root_sv).
Proof.
  destruct (sfs_dir_link_inserts 16 (name_b ++ [0]) name_b 9 (replicate 64 0) root_fs root_sv) as (r & slot & s' & v' & Hrun & _ & Hr).
  - exact root_at.
  - apply points_str, str_one. lia.
  - cbn. lia.
  - reflexivity.
  - lia.
  - destruct Hr as [(-> & _ & Hm)|[_ Hr]]; [exists slot, s', v'; split; [exact Hrun|exact Hm]|].
    exfalso. vm_compute in Hrun. injection Hrun as <- _ _. by destruct Hr as [[? _]|[[? _]|Hr%error_nonzero]].
Defined.

Lemma sfs_dir_unlink_deletes_witness :
  exists s' v', sfs_dir_unlink 16 0 root_fs = Ok (0, s') /\ dirof s' v' = delete name_a (dirof root_fs root_sv).
Proof.
  destruct (sfs_dir_unlink_deletes 16 (name_a ++ [0]) name_a (replicate 64 0) root_fs root_sv 4 0 None root_fs) as (r & s' & v' & Hrun & _ & Hr).
  - exact root_at.
  - apply points_str, str_one. lia.
  - reflexivity.
  - vm_compute. reflexivity.
  - destruct Hr as [[-> Hm]|[Hr _]]; [exists s', v'; split; [exact Hrun|exact Hm]|].
    exfalso. by apply good_disk_reads in Hr.
Defined.

End SfsDir.
