(* ===== verification/SfsVnode.v ===== *)
(** * Vnodes of the simple file system: the rest of kern/fs/sfs/sfs_vnode.c, and
    kern/fs/vfs/vnode.c

    The table of operations of a vnode is chosen by the type of its inode, which
    does not change afterwards; calls through it test the type.  The lock of the
    counts is held only around single updates. *)

From S2P Require Import Prelude Uio Bitmap Strings SfsDisk SfsFile SfsDir.
Import Strings SfsDisk SfsFile SfsDir.

Module SfsVnode.

Definition SFS_ROOT_LOCATION : Z := 1.
Definition O_ACCMODE : Z := 3.
Definition O_RDONLY : Z := 0.
Definition O_APPEND : Z := 32.
Definition S_IFREG : Z := 4096.
Definition S_IFDIR : Z := 8192.

Record stat : Type := mk_stat {
  st_mode : Z;
  st_nlink : Z;
  st_size : Z;
  st_blocks : Z;
}.

(** The outcome of the allocations of [sfs_loadvnode]: the address of the new
    structure, its lock, and the room in the table of vnodes. *)
Record alloc : Type := mk_alloc {
  al_sv : option Z;
  al_lock : bool;
  al_room : bool;
}.

Section Ops.
Context {D : Type} `{DK : Disk D}.
Local Abbreviation sfs := (SfsFile.sfs (D := D)).

(** ** Counts *)

Definition with_refcount (v : sfs_vnode) (n : Z) : sfs_vnode := mk_sv (sv_i v) (sv_ino v) (sv_dirty v) n (vn_opencount v).
Definition with_opencount (v : sfs_vnode) (n : Z) : sfs_vnode := mk_sv (sv_i v) (sv_ino v) (sv_dirty v) (vn_refcount v) n.
Definition with_type (i : sfs_inode) (t : Z) : sfs_inode :=
  mk_inode (sfi_size i) t (sfi_linkcount i) (sfi_direct i) (sfi_indirect i) (sfi_waste i).
Definition with_linkcount (i : sfs_inode) (n : Z) : sfs_inode :=
  mk_inode (sfi_size i) (sfi_type i) n (sfi_direct i) (sfi_indirect i) (sfi_waste i).

(** Called before an operation of a vnode; [reclaim] is the test of [opstr]. *)
Definition vnode_check (p : Z) (reclaim : bool) (s : sfs) : outcome unit :=
  v ← sv_rd p s;
  _ ← c_assert (negb (vn_refcount v <? 0) && (reclaim || negb (vn_refcount v =? 0)));
  c_assert (negb (vn_opencount v <? 0)).

Definition vnode_incref (p : Z) (s : sfs) : outcome sfs :=
  v ← sv_rd p s;
  n ← c_int (vn_refcount v + 1);
  Ok (sv_wr p (with_refcount v n) s).

Definition vnode_incopen (p : Z) (s : sfs) : outcome sfs :=
  v ← sv_rd p s;
  n ← c_int (vn_opencount v + 1);
  Ok (sv_wr p (with_opencount v n) s).

Definition vnode_kill (v : sfs_vnode) : outcome unit :=
  _ ← c_assert (vn_refcount v =? 1);
  c_assert (vn_opencount v =? 0).

(** ** Operations of single files *)

Definition sfs_open (openflags : Z) : Z := if negb (Z.land openflags O_APPEND =? 0) then EUNIMP else 0.

Definition sfs_opendir (openflags : Z) : Z :=
  if negb (Z.land openflags O_ACCMODE =? O_RDONLY) then EISDIR
  else if negb (Z.land openflags O_APPEND =? 0) then EISDIR else 0.

Definition sfs_fsync (p : Z) (s : sfs) : outcome (Z * sfs) := sfs_sync_inode p s.

Definition sfs_close (p : Z) (s : sfs) : outcome (Z * sfs) :=
  _ ← vnode_check p false s;
  sfs_fsync p s.

Definition sfs_read (p : Z) (u : uio) (s : sfs) : outcome (Z * uio * sfs) :=
  _ ← c_assert (negb (is_write u));
  sfs_io p u s.

Definition sfs_write (p : Z) (u : uio) (s : sfs) : outcome (Z * uio * sfs) :=
  _ ← c_assert (is_write u);
  sfs_io p u s.

Definition sfs_ioctl : Z := EINVAL.

Definition sfs_gettype (p : Z) (s : sfs) : outcome Z :=
  v ← sv_rd p s;
  if sfi_type (sv_i v) =? SFS_TYPE_FILE then Ok S_IFREG
  else if sfi_type (sv_i v) =? SFS_TYPE_DIR then Ok S_IFDIR else Panic.

Definition sfs_stat (p : Z) (s : sfs) : outcome stat :=
  _ ← vnode_check p false s;
  mode ← sfs_gettype p s;
  v ← sv_rd p s;
  Ok (mk_stat mode 0 (s32 (sfi_size (sv_i v))) 0).

Definition sfs_tryseek (pos : Z) : Z := if pos <? 0 then EINVAL else 0.

Definition sfs_mmap : Z := EUNIMP.

Definition sfs_namefile (p : Z) (s : sfs) : outcome Z :=
  v ← sv_rd p s;
  _ ← c_assert (sv_ino v =? SFS_ROOT_LOCATION);
  Ok 0.

(** [VOP_TRUNCATE] *)
Definition vop_truncate (p len : Z) (s : sfs) : outcome (Z * sfs) :=
  _ ← vnode_check p false s;
  v ← sv_rd p s;
  if sfi_type (sv_i v) =? SFS_TYPE_DIR then Ok (EISDIR, s) else sfs_truncate p len s.

(** ** Vnodes in memory *)

(** The search of the table. *)
Fixpoint find_vnode (l : list Z) (ino : Z) (s : sfs) : outcome (option Z) :=
  match l with
  | [] => Ok None
  | p :: l' =>
      v ← sv_rd p s;
      used ← sfs_bused (sv_ino v) s;
      if used =? 0 then Panic
      else if sv_ino v =? ino then Ok (Some p) else find_vnode l' ino s
  end.

(** Returns the address of the vnode. *)
Definition sfs_loadvnode (ino forcetype : Z) (al : alloc) (s : sfs) : outcome (Z * Z * sfs) :=
  r ← find_vnode (sfs_vnodes s) ino s;
  match r, al_sv al with
  | Some p, _ =>
      _ ← c_assert (forcetype =? SFS_TYPE_INVAL);
      s ← vnode_incref p s;
      Ok (0, p, s)
  | None, None => Ok (ENOMEM, 0, s)
  | None, Some p =>
      used ← sfs_bused ino s;
      if used =? 0 then Panic
      else
        '(result, data, s) ← rblock zero_block ino s;
        if negb (result =? 0) then Ok (result, 0, s)
        else
          let i := block_inode data in
          '(i, dirty) ←
            (if negb (forcetype =? SFS_TYPE_INVAL) then
               _ ← c_assert (sfi_type i =? SFS_TYPE_INVAL);
               Ok (with_type i forcetype, 1)
             else Ok (i, 0));
          if negb ((sfi_type i =? SFS_TYPE_FILE) || (sfi_type i =? SFS_TYPE_DIR)) then Panic
          else if negb (al_lock al) then Ok (ENOMEM, 0, s)
          else if negb (al_room al) then Ok (ENOMEM, 0, s)
          else Ok (0, p, set_vnodes (sfs_vnodes s ++ [p]) (sv_wr p (mk_sv i ino dirty 1 0) s))
  end.

(** [array_remove] of the first position that holds [p]. *)
Fixpoint remove_vnode (p : Z) (l : list Z) : outcome (list Z) :=
  match l with
  | [] => Panic
  | q :: l' => if q =? p then Ok l' else l ← remove_vnode p l'; Ok (q :: l)
  end.

Definition sfs_reclaim (p : Z) (s : sfs) : outcome (Z * sfs) :=
  v ← sv_rd p s;
  if negb (vn_refcount v =? 1) then
    _ ← c_assert (vn_refcount v >? 1);
    Ok (EBUSY, sv_wr p (with_refcount v (vn_refcount v - 1)) s)
  else
    '(result, s) ← (if sfi_linkcount (sv_i v) =? 0 then vop_truncate p 0 s else Ok (0, s));
    if negb (result =? 0) then Ok (result, s)
    else
      '(result, s) ← sfs_sync_inode p s;
      if negb (result =? 0) then Ok (result, s)
      else
        v ← sv_rd p s;
        s ← (if sfi_linkcount (sv_i v) =? 0 then sfs_bfree (sv_ino v) s else Ok s);
        l ← remove_vnode p (sfs_vnodes s);
        _ ← vnode_kill v;
        Ok (0, set_vnodes l (set_svs (delete p (svs s)) s)).

Definition vnode_decref (p : Z) (s : sfs) : outcome sfs :=
  v ← sv_rd p s;
  _ ← c_assert (vn_refcount v >? 0);
  if vn_refcount v >? 1 then Ok (sv_wr p (with_refcount v (vn_refcount v - 1)) s)
  else
    _ ← vnode_check p true s;
    '(_, s) ← sfs_reclaim p s;
    Ok s.

Definition vnode_decopen (p : Z) (s : sfs) : outcome sfs :=
  v ← sv_rd p s;
  _ ← c_assert (vn_opencount v >? 0);
  let s := sv_wr p (with_opencount v (vn_opencount v - 1)) s in
  if vn_opencount v - 1 >? 0 then Ok s
  else
    _ ← vnode_check p false s;
    '(_, s) ← sfs_close p s;
    Ok s.

(** ** Operations of directories

    [junk] is what the uninitialised entries on the stack hold. *)

(** Returns the vnode and the slot. *)
Definition sfs_lookonce (p : Z) (name : list Z) (al : alloc) (junk : list Z) (s : sfs) : outcome (Z * Z * Z * sfs) :=
  '(result, found, _, s) ← sfs_dir_findname p name junk s;
  if negb (result =? 0) then Ok (result, 0, 0, s)
  else
    '(ino, slot) ← match found with Some x => Ok x | None => Undef end;
    '(result, g, s) ← sfs_loadvnode ino SFS_TYPE_INVAL al s;
    if negb (result =? 0) then Ok (result, 0, slot, s)
    else
      v ← sv_rd g s;
      if sfi_linkcount (sv_i v) =? 0 then Panic else Ok (0, g, slot, s).

Definition sfs_makeobj (type : Z) (al : alloc) (s : sfs) : outcome (Z * Z * sfs) :=
  '(result, ino, s) ← sfs_balloc s;
  if negb (result =? 0) then Ok (result, 0, s) else sfs_loadvnode ino type al s.

(** [linkcount] is 16 bits wide. *)
Definition add_link (g n : Z) (s : sfs) : outcome sfs :=
  v ← sv_rd g s;
  Ok (sv_wr g (with_inode v (with_linkcount (sv_i v) ((sfi_linkcount (sv_i v) + n) mod 65536)) 1) s).

Definition sfs_creat (p : Z) (name : list Z) (excl : bool) (al : alloc) (junk : list Z) (s : sfs) : outcome (Z * Z * sfs) :=
  '(result, found, _, s) ← sfs_dir_findname p name junk s;
  if negb (result =? 0) && negb (result =? ENOENT) then Ok (result, 0, s)
  else if (result =? 0) && excl then Ok (EEXIST, 0, s)
  else if result =? 0 then
    '(ino, _) ← match found with Some x => Ok x | None => Undef end;
    sfs_loadvnode ino SFS_TYPE_INVAL al s
  else
    '(result, g, s) ← sfs_makeobj SFS_TYPE_FILE al s;
    if negb (result =? 0) then Ok (result, 0, s)
    else
      v ← sv_rd g s;
      '(result, _, s) ← sfs_dir_link p name (sv_ino v) junk s;
      if negb (result =? 0) then
        s ← vnode_decref g s;
        Ok (result, 0, s)
      else
        s ← add_link g 1 s;
        Ok (0, g, s).

(** The vnodes are of one file system. *)
Definition sfs_link (p : Z) (name : list Z) (f : Z) (junk : list Z) (s : sfs) : outcome (Z * sfs) :=
  v ← sv_rd f s;
  '(result, _, s) ← sfs_dir_link p name (sv_ino v) junk s;
  if negb (result =? 0) then Ok (result, s)
  else
    s ← add_link f 1 s;
    Ok (0, s).

Definition sfs_remove (p : Z) (name : list Z) (al : alloc) (junk : list Z) (s : sfs) : outcome (Z * sfs) :=
  '(result, victim, slot, s) ← sfs_lookonce p name al junk s;
  if negb (result =? 0) then Ok (result, s)
  else
    '(result, s) ← sfs_dir_unlink p slot s;
    s ← (if result =? 0 then
           v ← sv_rd victim s;
           _ ← c_assert (sfi_linkcount (sv_i v) >? 0);
           add_link victim (-1) s
         else Ok s);
    s ← vnode_decref victim s;
    Ok (result, s).

Definition sfs_rename (p : Z) (n1 : list Z) (p2 : Z) (n2 : list Z) (al : alloc) (junk : list Z) (s : sfs) : outcome (Z * sfs) :=
  _ ← c_assert (p =? p2);
  v ← sv_rd p s;
  _ ← c_assert (sv_ino v =? SFS_ROOT_LOCATION);
  '(result, g1, slot1, s) ← sfs_lookonce p n1 al junk s;
  if negb (result =? 0) then Ok (result, s)
  else
    v ← sv_rd g1 s;
    _ ← c_assert (sfi_type (sv_i v) =? SFS_TYPE_FILE);
    '(result, slot2, s) ← sfs_dir_link p n2 (sv_ino v) junk s;
    if negb (result =? 0) then
      s ← vnode_decref g1 s;
      Ok (result, s)
    else
      s ← add_link g1 1 s;
      '(result, s) ← sfs_dir_unlink p slot1 s;
      if negb (result =? 0) then
        '(result2, s) ← sfs_dir_unlink p slot2 s;
        if negb (result2 =? 0) then Panic
        else
          v ← sv_rd g1 s;
          let s := sv_wr g1 (with_inode v (with_linkcount (sv_i v) ((sfi_linkcount (sv_i v) - 1) mod 65536)) (sv_dirty v)) s in
          s ← vnode_decref g1 s;
          Ok (result, s)
      else
        v ← sv_rd g1 s;
        _ ← c_assert (sfi_linkcount (sv_i v) >? 0);
        s ← add_link g1 (-1) s;
        s ← vnode_decref g1 s;
        Ok (0, s).

(** Returns the new contents of [buf] and the vnode. *)
Definition sfs_lookparent (p : Z) (path buf : list Z) (s : sfs) : outcome (Z * Z * list Z * sfs) :=
  v ← sv_rd p s;
  if negb (sfi_type (sv_i v) =? SFS_TYPE_DIR) then Ok (ENOTDIR, 0, buf, s)
  else
    len ← strlen path;
    if u32 (len + 1) >? zlen buf then Ok (ENAMETOOLONG, 0, buf, s)
    else
      buf ← strcpy buf path;
      s ← vnode_incref p s;
      Ok (0, p, buf, s).

Definition sfs_lookup (p : Z) (path : list Z) (al : alloc) (junk : list Z) (s : sfs) : outcome (Z * Z * sfs) :=
  v ← sv_rd p s;
  if negb (sfi_type (sv_i v) =? SFS_TYPE_DIR) then Ok (ENOTDIR, 0, s)
  else
    '(result, final, _, s) ← sfs_lookonce p path al junk s;
    if negb (result =? 0) then Ok (result, 0, s) else Ok (0, final, s).

Definition sfs_getroot (al : alloc) (s : sfs) : outcome (Z * sfs) :=
  '(result, sv, s) ← sfs_loadvnode SFS_ROOT_LOCATION SFS_TYPE_INVAL al s;
  if negb (result =? 0) then Panic else Ok (sv, s).

End Ops.

End SfsVnode.
