(* ===== verification/SfsInv.v ===== *)
(** * The invariant of the simple file system

    The inodes of the file system, in memory or on disk, own disjoint sets of
    blocks, the vnodes in memory agree with them, and link counts count names.
    Every operation of kern/fs/sfs/sfs_vnode.c keeps this, so that none of the
    panics and assertions there can be reached. *)

From S2P Require Import Prelude Uio Bitmap Strings SfsDisk SfsFile SfsIo SfsTruncate SfsDir SfsVnode.
Import Bitmap Strings SfsDisk SfsFile SfsIo SfsTruncate SfsDir SfsVnode.

Module SfsInv.

Section Inv.
Context {D : Type} {DK : Disk D} {DKL : DiskLaws D} {RW : ReliableWrites D}.
Local Abbreviation sfs := (SfsFile.sfs (D := D)).

(** [M] has the inodes in use, by number; of those in memory the copy there. *)
Record files (s : sfs) (M : gmap Z sfs_inode) : Prop := mk_files {
  fi_fs : fs_ok s;
  fi_nodup : NoDup (sfs_vnodes s);
  fi_table q : q ∈ sfs_vnodes s <-> is_Some (svs s !! q);
  fi_loaded q v : svs s !! q = Some v -> M !! sv_ino v = Some (sv_i v) /\ 1 <= vn_refcount v /\ 0 <= vn_opencount v;
  fi_inj q q' v v' : svs s !! q = Some v -> svs s !! q' = Some v' -> sv_ino v = sv_ino v' -> q = q';
  fi_disk ino i : M !! ino = Some i -> (forall q v, svs s !! q = Some v -> sv_ino v = ino -> sv_dirty v = 0) ->
    block_inode (sector (dev s) ino) = i;
  fi_own ino i : M !! ino = Some i -> used s ino /\ file_ok s i /\ sfi_size i < 2147483648;
  fi_clear ino i ino' i' : M !! ino = Some i -> M !! ino' = Some i' -> ino' ∉ blocks (dev s) i;
  fi_apart ino i ino' i' : M !! ino = Some i -> M !! ino' = Some i' -> ino <> ino' -> apart (dev s) i i';
  fi_type ino i : M !! ino = Some i -> sfi_type i = if decide (ino = 1) then SFS_TYPE_DIR else SFS_TYPE_FILE;
}.

Lemma apart_sym (d : D) i j : apart d i j -> apart d j i.
Proof. intros H b Hb Hb'. by apply (H b). Qed.

(** ** Changes of a file *)

(** The vnode at [q] and the blocks of its file change. *)
Record updates (q : Z) (s : sfs) (v : sfs_vnode) (s' : sfs) (v' : sfs_vnode) : Prop := mk_updates {
  up_fs : fs_ok s';
  up_file : file_ok s' (sv_i v');
  up_size : sfi_size (sv_i v') < 2147483648;
  up_rest : (sp_nblocks s', sfs_vnodes s', svs s') = (sp_nblocks s, sfs_vnodes s, <[q := v']> (svs s));
  up_ino : sv_ino v' = sv_ino v;
  up_type : sfi_type (sv_i v') = sfi_type (sv_i v);
  up_counts : 1 <= vn_refcount v' /\ 0 <= vn_opencount v';
  up_blocks b : b ∈ blocks (dev s') (sv_i v') -> b ∈ blocks (dev s) (sv_i v) \/ bit (freemap s) b = false;
  up_bits b : 0 <= b -> bit (freemap s) b = true -> b ∉ blocks (dev s) (sv_i v) -> bit (freemap s') b = true;
  up_sectors b : used s b -> b ∉ blocks (dev s) (sv_i v) -> b <> sv_ino v -> sector (dev s') b = sector (dev s) b;
  up_disk : sv_dirty v' = 0 -> block_inode (sector (dev s') (sv_ino v)) = sv_i v';
}.

(** The other files do not change. *)
Lemma updates_other q s v s' v' M j i : files s M -> svs s !! q = Some v -> updates q s v s' v' -> M !! j = Some i -> j <> sv_ino v ->
  blocks (dev s') i = blocks (dev s) i /\ contents (dev s') i = contents (dev s) i /\ file_ok s' i /\ used s' j /\
  sector (dev s') j = sector (dev s) j /\ j ∉ blocks (dev s') (sv_i v') /\ sv_ino v ∉ blocks (dev s') i /\ apart (dev s') (sv_i v') i.
Proof.
  intros HF Hq Hup Hj Hne. pose proof HF as []. pose proof Hup as []. injection up_rest0 as Hnb _ _. destruct (fi_loaded0 q v Hq) as (HM & _).
  destruct (fi_own0 _ _ Hj) as (Huj & Hfj & _). pose proof (fi_apart0 _ _ _ _ HM Hj ltac:(done)) as Hap. pose proof (fi_clear0 _ _ _ _ Hj HM) as Hclr.
  assert (forall b, used s b -> b ∉ blocks (dev s) (sv_i v) -> used s' b) as Hus.
  { intros b [Hb Hbit] Hn. split; [by rewrite Hnb|]. apply up_bits0; [lia|done|done]. }
  assert (forall b, b ∈ blocks (dev s) i -> used s b /\ b ∉ blocks (dev s) (sv_i v) /\ b <> sv_ino v) as Hi.
  { intros b Hb. split; [by apply (fo_used _ _ Hfj)|]. split; [intros Hb'; by apply (Hap b)|]. intros ->. done. }
  destruct (blocks_same (dev s) (dev s') i) as [Hbl Hct]. { intros b Hb. destruct (Hi b Hb) as (? & ? & ?). by apply up_sectors0. }
  pose proof (fi_clear0 _ _ _ _ HM Hj) as Hjv. rewrite Hbl. split; [done|]. split; [done|]. split; [|split; [|split; [|split; [|split]]]].
  - destruct Hfj as [? ? ?]. constructor; rewrite ?Hbl; [done| |done]. intros b Hb. destruct (Hi b Hb) as (? & ? & ?). by apply Hus.
  - by apply Hus.
  - by apply up_sectors0.
  - intros Hb. destruct (up_blocks0 j Hb) as [?|Hfree]; [done|]. destruct Huj. congruence.
  - done.
  - intros b Hb. rewrite Hbl. intros Hb'. destruct (Hi b Hb') as ([_ ?] & ? & _). destruct (up_blocks0 b Hb); [done|congruence].
Qed.

Lemma files_update q s v s' v' M : files s M -> svs s !! q = Some v -> updates q s v s' v' -> files s' (<[sv_ino v := sv_i v']> M).
Proof.
  intros HF Hq Hup. pose proof HF as []. pose proof Hup as []. injection up_rest0 as Hnb Hvn Hsvs. destruct (fi_loaded0 q v Hq) as (HM & _).
  destruct (fi_own0 _ _ HM) as (Hui & _ & _). pose proof (fi_clear0 _ _ _ _ HM HM) as Hself.
  assert (sv_ino v ∉ blocks (dev s') (sv_i v')) as Hself'. { intros Hb. destruct (up_blocks0 _ Hb) as [?|Hfree]; [done|]. destruct Hui. congruence. }
  assert (forall j i, <[sv_ino v := sv_i v']> M !! j = Some i -> (j = sv_ino v /\ i = sv_i v') \/ (j <> sv_ino v /\ M !! j = Some i)) as Hcase.
  { intros j i. rewrite lookup_insert. case_decide; [intros [= <-]; by left|by right]. }
  pose proof (fun j i => updates_other q s v s' v' M j i HF Hq Hup) as Hoth.
  constructor; [done|by rewrite Hvn| | | | | | | |].
  - intros j. rewrite Hsvs, Hvn, fi_table0, lookup_insert_is_Some. destruct (decide (q = j)) as [->|]; naive_solver.
  - intros j w. rewrite Hsvs, lookup_insert. case_decide as E; [intros [= <-]; by rewrite up_ino0, lookup_insert_eq|intros Hj].
    destruct (fi_loaded0 _ _ Hj) as (HMj & ?). rewrite lookup_insert_ne; [done|]. intros Ei. apply E. by eapply fi_inj0.
  - intros j j' w w'. rewrite Hsvs, !lookup_insert. repeat case_decide; subst; try done.
    + intros [= <-] Hw Ei. rewrite up_ino0 in Ei. by eapply fi_inj0.
    + intros Hw [= <-] Ei. rewrite up_ino0 in Ei. by eapply fi_inj0.
    + by apply fi_inj0.
  - intros j i Hj Hcl. destruct (Hcase _ _ Hj) as [[-> ->]|[Hne HMj]].
    + apply up_disk0. apply (Hcl q); [by rewrite Hsvs, lookup_insert_eq|done].
    + destruct (Hoth j i HMj Hne) as (_ & _ & _ & _ & -> & _). apply fi_disk0; [done|]. intros q' w Hw Ei. apply (Hcl q'); [|done].
      rewrite Hsvs, lookup_insert_ne; [done|]. intros ->. congruence.
  - intros j i Hj. destruct (Hcase _ _ Hj) as [[-> ->]|[Hne HMj]].
    + split; [|done]. split; [rewrite Hnb; by destruct Hui|]. destruct Hui. apply up_bits0; [lia|done|done].
    + destruct (Hoth j i HMj Hne) as (_ & _ & ? & ? & _). destruct (fi_own0 _ _ HMj) as (_ & _ & ?). done.
  - intros j i j' i' Hj Hj'. destruct (Hcase _ _ Hj) as [[-> ->]|[Hne HMj]], (Hcase _ _ Hj') as [[-> ->]|[Hne' HMj']]; [done| | |].
    + by destruct (Hoth j' i' HMj' Hne') as (_ & _ & _ & _ & _ & ? & _).
    + by destruct (Hoth j i HMj Hne) as (_ & _ & _ & _ & _ & _ & ? & _).
    + destruct (Hoth j i HMj Hne) as (-> & _). by eapply fi_clear0.
  - intros j i j' i' Hj Hj' Hd. destruct (Hcase _ _ Hj) as [[-> ->]|[Hne HMj]], (Hcase _ _ Hj') as [[-> ->]|[Hne' HMj']]; [done| | |].
    + by destruct (Hoth j' i' HMj' Hne') as (_ & _ & _ & _ & _ & _ & _ & ?).
    + apply apart_sym. by destruct (Hoth j i HMj Hne) as (_ & _ & _ & _ & _ & _ & _ & ?).
    + unfold apart. destruct (Hoth j i HMj Hne) as (-> & _), (Hoth j' i' HMj' Hne') as (-> & _). by eapply fi_apart0.
  - intros j i Hj. destruct (Hcase _ _ Hj) as [[-> ->]|[Hne HMj]]; [|by apply fi_type0]. rewrite up_type0. by apply fi_type0.
Qed.

(** ** The kinds of changes *)

(** The copy on disk of a file with a clean vnode. *)
Lemma clean_disk q s v M : files s M -> svs s !! q = Some v -> sv_dirty v = 0 -> block_inode (sector (dev s) (sv_ino v)) = sv_i v.
Proof.
  intros [] Hq Hd. destruct (fi_loaded0 q v Hq) as (HM & _). apply fi_disk0; [done|]. intros q' w Hw Ei.
  assert (q' = q) as -> by (by eapply fi_inj0). congruence.
Qed.

Lemma grows_updates q s v s' v' M : files s M -> svs s !! q = Some v -> grows q s v s' v' -> sfi_size (sv_i v') < 2147483648 ->
  updates q s v s' v'.
Proof.
  intros HF Hq [Hfs' Hf' _ Hrest Hsame Hbits Hblocks Hframe Hdirty] Hsz. injection Hsame as Hino Href Hopen Hty Hlk.
  pose proof HF as []. destruct (fi_loaded0 q v Hq) as (HM & Hc). destruct (fi_own0 _ _ HM) as (Hui & _ & _).
  constructor; try done; [by rewrite Hrest|by rewrite Href, Hopen|auto|auto|].
  intros Hd. destruct Hdirty as [?|Ev]; [done|]. rewrite Hframe; [|done|by eapply fi_clear0]. subst v'. by apply (clean_disk q s v M).
Qed.

(** Only the structure in memory. *)
Lemma memory_updates q s v v' M : files s M -> svs s !! q = Some v -> wf_inode (sv_i v') ->
  (sv_ino v', sfi_type (sv_i v'), sfi_size (sv_i v'), sfi_direct (sv_i v'), sfi_indirect (sv_i v')) =
  (sv_ino v, sfi_type (sv_i v), sfi_size (sv_i v), sfi_direct (sv_i v), sfi_indirect (sv_i v)) ->
  1 <= vn_refcount v' /\ 0 <= vn_opencount v' -> sv_dirty v' <> 0 \/ (sv_i v' = sv_i v /\ sv_dirty v' = sv_dirty v) ->
  updates q s v (sv_wr q v' s) v'.
Proof.
  intros HF Hq Hwf Hsame Hc Hd. injection Hsame as Hino Hty Hsz Hdi Hind. pose proof HF as []. destruct (fi_loaded0 q v Hq) as (HM & _).
  destruct (fi_own0 _ _ HM) as (_ & [Hwf0 Hu Hnd] & Hs). assert (blocks (dev s) (sv_i v') = blocks (dev s) (sv_i v)) as Hb.
  { unfold blocks, SfsFile.fmap, idents. by rewrite Hdi, Hind. }
  constructor; cbn [dev sv_wr set_svs freemap sp_nblocks sfs_vnodes svs]; rewrite ?Hb; try done; [by destruct fi_fs0| |congruence|auto|].
  - constructor; cbn [dev sv_wr set_svs]; rewrite ?Hb; done.
  - intros Hd0. destruct Hd as [?|[-> Hd]]; [done|]. apply (clean_disk q s v M); [done|done|congruence].
Qed.

Lemma truncated_updates q bl s v ok s' v' M : files s M -> svs s !! q = Some v -> truncated q bl s v ok s' v' ->
  sfi_size (sv_i v') < 2147483648 -> updates q s v s' v'.
Proof.
  intros HF Hq [Hfs' Hf' Hsvs _ Hbits Hsec Hrest Hsame Hdirty Hsub _] Hsz. injection Hrest as Hnb Hvn _. injection Hsame as Hino Href Hopen Hty Hlk.
  pose proof HF as []. destruct (fi_loaded0 q v Hq) as (HM & Hc). destruct (fi_own0 _ _ HM) as (Hui & _ & _).
  assert (forall b, used s b -> b ∉ blocks (dev s) (sv_i v) -> sector (dev s') b = sector (dev s) b) as Hs.
  { intros b [Hb _] Hn. apply Hsec. intros ->. apply Hn, blocks_indirect. lia. }
  constructor; try done; [by rewrite Hnb, Hvn, Hsvs|by rewrite Href, Hopen|auto| |auto|].
  - intros b Hb Hbit Hn. rewrite Hbits, Hbit, bool_decide_true by done. done.
  - intros Hd. destruct Hdirty as [?|Ev]; [done|]. rewrite Hs; [|done|by eapply fi_clear0]. subst v'. by apply (clean_disk q s v M).
Qed.

(** The inode goes to its block, and to no other. *)
Lemma sync_run q s v M : files s M -> svs s !! q = Some v ->
  exists d' v', sfs_sync_inode q s = Ok (0, sv_wr q v' (set_dev d' s)) /\ updates q s v (sv_wr q v' (set_dev d' s)) v' /\
    sv_dirty v' = 0 /\ sv_i v' = sv_i v /\ vn_refcount v' = vn_refcount v /\ vn_opencount v' = vn_opencount v /\
    d_blocks d' = d_blocks (dev s) /\ forall b, b <> sv_ino v -> sector d' b = sector (dev s) b.
Proof using DKL RW.
  intros HF Hq. pose proof HF as []. destruct (fi_loaded0 q v Hq) as (HM & Hc). destruct (fi_own0 _ _ HM) as (Hui & Hfi & Hs).
  unfold sfs_sync_inode, sv_rd. rewrite Hq, Ok_bind. destruct (Z.eqb_spec (sv_dirty v) 0) as [Hd|Hd].
  - assert (sv_wr q v (set_dev (dev s) s) = s) as E by (destruct s; unfold sv_wr, set_svs, set_dev; cbn in *; by rewrite insert_id).
    exists (dev s), v. rewrite E. split; [done|]. split; [|done]. eapply grows_updates; [done|done|by apply grows_refl|done].
  - cbn [negb]. unfold wblock. destruct (sfs_wblock_run (inode_block (sv_i v)) (sv_ino v) (dev s)) as (d' & -> & Hdb & Hw).
    { apply inode_is_block. by destruct Hfi. }
    { apply fs_block; [done|]. destruct Hui as [? _]. lia. }
    rewrite !Ok_bind. cbn [Z.eqb negb]. exists d', (with_inode v (sv_i v) 0). split; [done|].
    pose proof (fi_clear0 _ _ _ _ HM HM) as Hself.
    destruct (blocks_same (dev s) d' (sv_i v)) as [Hb _]. { intros b Hb. rewrite Hw, decide_False; [done|]. by intros ->. }
    split; [|split; [done|split; [done|split; [done|split; [done|split; [done|intros b Hne; by rewrite Hw, decide_False]]]]]].
    constructor; cbn [dev sv_wr set_svs set_dev freemap sp_nblocks sfs_vnodes svs sv_i sv_ino with_inode]; rewrite ?Hb; try done; [| |auto| |].
    + destruct fi_fs0. constructor; cbn [dev sv_wr set_svs set_dev freemap sp_nblocks]; try done. by rewrite Hdb.
    + destruct Hfi. constructor; cbn [dev sv_wr set_svs set_dev]; rewrite ?Hb; done.
    + intros b _ _ Hne. by rewrite Hw, decide_False.
    + intros _. rewrite Hw, decide_True by done. apply block_inode_id. by destruct Hfi.
Qed.

Lemma sync_updates q s v M : files s M -> svs s !! q = Some v ->
  exists s' v', sfs_sync_inode q s = Ok (0, s') /\ updates q s v s' v' /\ sv_dirty v' = 0 /\ sv_i v' = sv_i v /\ vn_refcount v' = vn_refcount v /\
    vn_opencount v' = vn_opencount v /\ freemap s' = freemap s /\
    blocks (dev s') (sv_i v) = blocks (dev s) (sv_i v) /\ contents (dev s') (sv_i v) = contents (dev s) (sv_i v).
Proof using DKL RW.
  intros HF Hq. destruct (sync_run q s v M HF Hq) as (d' & v' & Hrun & Hup & Hd & Hi & Hr & Ho & _ & Hsec). eexists _, v'.
  split; [exact Hrun|]. split; [done|]. split; [done|]. split; [done|]. split; [done|]. split; [done|]. split; [done|].
  apply blocks_same. intros b Hb. apply Hsec. intros ->. destruct (fi_loaded _ _ HF q v Hq) as (HM & _). by apply (fi_clear _ _ HF _ _ _ _ HM HM).
Qed.

(** ** Loading and unloading *)

(** The inodes and the blocks of files. *)
Definition owned (s : sfs) (M : gmap Z sfs_inode) (b : Z) : Prop := exists ino i, M !! ino = Some i /\ (b = ino \/ b ∈ blocks (dev s) i).

Lemma owned_used s M b : files s M -> owned s M b -> used s b.
Proof. intros HF (ino & i & Hi & Hb). destruct (fi_own _ _ HF _ _ Hi) as (Hu & Hf & _). destruct Hb as [->|Hb]; [done|]. by apply (fo_used _ _ Hf). Qed.

(** Nothing that belongs to a file changes. *)
Lemma files_keep s s1 M : files s M -> fs_ok s1 -> (sp_nblocks s1, sfs_vnodes s1, svs s1) = (sp_nblocks s, sfs_vnodes s, svs s) ->
  (forall b, owned s M b -> used s1 b /\ sector (dev s1) b = sector (dev s) b) -> files s1 M.
Proof.
  intros [] Hfs Hrest Hu. injection Hrest as Hnb Hvn Hsvs.
  assert (forall ino i b, M !! ino = Some i -> b ∈ blocks (dev s) i -> used s1 b /\ sector (dev s1) b = sector (dev s) b) as Hub.
  { intros ino i b Hi Hb. apply Hu. exists ino, i. auto. }
  assert (forall ino i, M !! ino = Some i -> used s1 ino /\ sector (dev s1) ino = sector (dev s) ino) as Hui.
  { intros ino i Hi. apply Hu. exists ino, i. auto. }
  assert (forall ino i, M !! ino = Some i -> blocks (dev s1) i = blocks (dev s) i) as Hb.
  { intros ino i Hi. apply blocks_same. intros b Hb. by eapply Hub. }
  constructor; rewrite ?Hvn, ?Hsvs; try done.
  - intros ino i Hi Hcl. destruct (Hui _ _ Hi) as [_ ->]. auto.
  - intros ino i Hi. destruct (fi_own0 _ _ Hi) as (_ & [? ? ?] & ?). split; [by apply (Hui ino i)|]. split; [|done].
    constructor; rewrite ?(Hb _ _ Hi); try done. intros b Hin. by eapply Hub.
  - intros ino i ino' i' Hi Hi'. rewrite (Hb _ _ Hi). by eapply fi_clear0.
  - intros ino i ino' i' Hi Hi' Hne. unfold apart. rewrite (Hb _ _ Hi), (Hb _ _ Hi'). by eapply fi_apart0.
Qed.

Lemma files_same s s1 M : files s M -> fs_ok s1 -> (sp_nblocks s1, sfs_vnodes s1, svs s1) = (sp_nblocks s, sfs_vnodes s, svs s) ->
  (forall b, used s b -> used s1 b /\ sector (dev s1) b = sector (dev s) b) -> files s1 M.
Proof. intros HF Hfs Hrest Hu. eapply files_keep; [done|done|done|]. intros b Hb. apply Hu. by eapply owned_used. Qed.

(** Vnode [p] for inode [ino] enters the table. *)
Definition loaded_at (p ino : Z) (i : sfs_inode) (dirty : Z) (s : sfs) : sfs :=
  set_vnodes (sfs_vnodes s ++ [p]) (sv_wr p (mk_sv i ino dirty 1 0) s).

Lemma files_load p ino i dirty s M : files s M -> M !! ino = Some i -> svs s !! p = None ->
  (forall q v, svs s !! q = Some v -> sv_ino v <> ino) -> dirty <> 0 \/ block_inode (sector (dev s) ino) = i ->
  files (loaded_at p ino i dirty s) M.
Proof.
  intros [] Hi Hp Hno Hd. assert (p ∉ sfs_vnodes s) as Hpn. { rewrite fi_table0, Hp. by intros []. }
  constructor; cbn [loaded_at dev sv_wr set_svs set_vnodes sfs_vnodes svs]; try done.
  - by destruct fi_fs0.
  - apply list.NoDup_app. split; [done|]. split; [|apply NoDup_singleton]. intros x Hx ->%list_elem_of_singleton. done.
  - intros q. rewrite elem_of_app, list_elem_of_singleton, fi_table0, lookup_insert_is_Some. destruct (decide (p = q)); naive_solver.
  - intros q v. rewrite lookup_insert. case_decide; [|apply fi_loaded0]. intros [= <-]. cbn. done.
  - intros q q' v v'. rewrite !lookup_insert. repeat case_decide; subst; try done; [intros [= <-] Hv E|intros Hv [= <-] E|by apply fi_inj0]; by eapply Hno in Hv.
  - intros j i' Hj Hcl. destruct (decide (j = ino)) as [->|Hne].
    + assert (i' = i) as -> by congruence. destruct Hd as [Hd|?]; [|done]. exfalso. apply Hd. apply (Hcl p (mk_sv i ino dirty 1 0)); [|done]. by rewrite lookup_insert_eq.
    + apply fi_disk0; [done|]. intros q v Hv. apply (Hcl q). rewrite lookup_insert_ne; [done|]. intros ->. congruence.
  - intros j i' Hj. destruct (fi_own0 _ _ Hj) as (? & [] & ?). split; [done|]. split; [by constructor|done].
Qed.

(** A new file enters the table. *)
Definition new_inode : sfs_inode := with_type (block_inode zero_block) SFS_TYPE_FILE.

Lemma new_blocks (d : D) : blocks d new_inode = [].
Proof. reflexivity. Qed.

Lemma new_wf : wf_inode new_inode.
Proof. destruct (block_inode_wf zero_block zero_block_ok). by constructor. Qed.

Lemma files_new q b s M : files s M -> svs s !! q = None -> M !! b = None -> used s b -> b <> 1 ->
  (forall j i, M !! j = Some i -> b ∉ blocks (dev s) i) -> files (loaded_at q b new_inode 1 s) (<[b := new_inode]> M).
Proof.
  intros [] Hq Hb Hu H1 Hnb. assert (q ∉ sfs_vnodes s) as Hqn. { rewrite fi_table0, Hq. by intros []. }
  assert (forall x v, svs s !! x = Some v -> sv_ino v <> b) as Hno. { intros x v Hv E. apply fi_loaded0 in Hv as [Hv _]. congruence. }
  constructor; cbn [loaded_at dev sv_wr set_svs set_vnodes sfs_vnodes svs].
  - by destruct fi_fs0.
  - apply list.NoDup_app. split; [done|]. split; [|apply NoDup_singleton]. intros x Hx ->%list_elem_of_singleton. done.
  - intros x. rewrite elem_of_app, list_elem_of_singleton, fi_table0, lookup_insert_is_Some. destruct (decide (q = x)); naive_solver.
  - intros x v. rewrite lookup_insert. case_decide; [intros [= <-]; cbn [sv_ino sv_i]; by rewrite lookup_insert_eq|].
    intros Hv. rewrite lookup_insert_ne by (apply not_eq_sym; by eapply Hno). by apply (fi_loaded0 x).
  - intros x x' v v'. rewrite !lookup_insert. repeat case_decide; subst; try done; [intros [= <-] Hv E|intros Hv [= <-] E|by apply fi_inj0]; by eapply Hno in Hv.
  - intros j i. rewrite lookup_insert. case_decide as E.
    + subst j. intros _ Hcl. specialize (Hcl q _ (lookup_insert_eq _ _ _) eq_refl). done.
    + intros Hj Hcl. apply fi_disk0; [done|]. intros x v Hv. apply (Hcl x). rewrite lookup_insert_ne; [done|]. intros ->. congruence.
  - intros j i. rewrite lookup_insert. case_decide as E.
    + subst j. intros [= <-]. split; [done|]. split; [|done]. constructor; cbn [dev set_vnodes sv_wr set_svs]; rewrite ?new_blocks; [|by intros ? ?%elem_of_nil|constructor].
      apply new_wf.
    + intros Hj. destruct (fi_own0 _ _ Hj) as (? & [] & ?). split; [done|]. split; [by constructor|done].
  - intros j i j' i'. rewrite !lookup_insert. repeat case_decide; subst; [intros [= <-] _|intros [= <-] _|intros Hj _; by eapply Hnb|by apply fi_clear0]; rewrite new_blocks; apply not_elem_of_nil.
  - intros j i j' i'. rewrite !lookup_insert. repeat case_decide; subst; [done|intros [= <-] _ _|intros _ [= <-] _|by apply fi_apart0]; unfold apart; rewrite new_blocks; [by intros ? ?%elem_of_nil|by intros ? _ ?%elem_of_nil].
  - intros j i. rewrite lookup_insert. case_decide; [|apply fi_type0]. subst j. intros [= <-]. by rewrite decide_False.
Qed.

Lemma remove_run q l : q ∈ l -> NoDup l -> exists l', remove_vnode q l = Ok l' /\ NoDup l' /\ forall x, x ∈ l' <-> x ∈ l /\ x <> q.
Proof.
  induction l as [|y l IH]; [by intros ?%elem_of_nil|]. intros Hq Hnd. apply list.NoDup_cons in Hnd as [Hy Hnd]. cbn [remove_vnode].
  destruct (Z.eqb_spec y q) as [->|Hne].
  - exists l. split; [done|]. split; [done|]. intros x. rewrite elem_of_cons. destruct (decide (x = q)) as [->|]; naive_solver.
  - apply elem_of_cons in Hq as [?|Hq]; [congruence|]. destruct (IH Hq Hnd) as (l' & -> & Hnd' & Hel). rewrite Ok_bind. exists (y :: l').
    split; [done|]. split; [apply list.NoDup_cons; split; [by rewrite Hel; naive_solver|done]|]. intros x. rewrite !elem_of_cons, Hel. naive_solver.
Qed.

(** Vnode [q] leaves the table [l]. *)
Definition unloaded (q : Z) (l : list Z) (s : sfs) : sfs := set_vnodes l (set_svs (delete q (svs s)) s).

Lemma files_unload q s v M l : files s M -> svs s !! q = Some v -> sv_dirty v = 0 -> NoDup l ->
  (forall x, x ∈ l <-> x ∈ sfs_vnodes s /\ x <> q) -> files (unloaded q l s) M.
Proof.
  intros HF Hq Hd Hnd Hl. pose proof HF as []. assert (forall x w, delete q (svs s) !! x = Some w -> svs s !! x = Some w) as Hdel.
  { intros x w Hw. by apply lookup_delete_Some in Hw as []. }
  constructor; cbn [unloaded dev set_svs set_vnodes sfs_vnodes svs]; try done; [by destruct fi_fs0| |eauto|eauto| |].
  - intros x. rewrite Hl, fi_table0, lookup_delete_is_Some. naive_solver.
  - intros j i Hj Hcl. destruct (decide (j = sv_ino v)) as [->|Hne].
    + destruct (fi_loaded0 q v Hq) as (HM & _). assert (i = sv_i v) as -> by congruence. by apply (clean_disk q s v M).
    + apply fi_disk0; [done|]. intros x w Hw Ei. apply (Hcl x w); [|done]. rewrite lookup_delete_ne; [done|]. intros <-. congruence.
  - intros j i Hj. destruct (fi_own0 _ _ Hj) as (? & [] & ?). split; [done|]. split; [by constructor|done].
Qed.

(** Inode [ino] is gone. *)
Lemma files_forget s s1 M ino : files s M -> (forall q v, svs s !! q = Some v -> sv_ino v <> ino) -> is_Some (M !! ino) ->
  fs_ok s1 -> (dev s1, sp_nblocks s1, sfs_vnodes s1, svs s1) = (dev s, sp_nblocks s, sfs_vnodes s, svs s) ->
  (forall b, 0 <= b -> b <> ino -> bit (freemap s1) b = bit (freemap s) b) -> files s1 (delete ino M).
Proof.
  intros [] Hno [i0 Hi0] Hfs Hrest Hbits. injection Hrest as Hdev Hnb Hvn Hsvs.
  assert (forall b, used s b -> b <> ino -> used s1 b) as Hu. { intros b [? ?] Hb. split; [by rewrite Hnb|]. rewrite Hbits; [done|lia|done]. }
  constructor; rewrite ?Hvn, ?Hsvs, ?Hdev; try done.
  - intros q v Hv. rewrite lookup_delete_ne; [by apply (fi_loaded0 q)|]. intros E. by eapply Hno.
  - intros j i Hj. apply lookup_delete_Some in Hj as [_ Hj]. by apply fi_disk0.
  - intros j i Hj. apply lookup_delete_Some in Hj as [Hne Hj]. destruct (fi_own0 _ _ Hj) as (Huj & [? Hub ?] & ?). split; [by apply Hu|]. split; [|done].
    constructor; rewrite ?Hdev; [done| |done]. intros b Hb. apply Hu; [by apply Hub|]. intros ->. by eapply (fi_clear0 j i ino).
  - intros j i j' i' Hj Hj'. apply lookup_delete_Some in Hj as [_ Hj], Hj' as [_ Hj']. by eapply fi_clear0.
  - intros j i j' i' Hj Hj'. apply lookup_delete_Some in Hj as [_ Hj], Hj' as [_ Hj']. by eapply fi_apart0.
  - intros j i Hj. apply lookup_delete_Some in Hj as [_ Hj]. by apply fi_type0.
Qed.

End Inv.
End SfsInv.
