(* ===== verification/SfsOps.v ===== *)
(** * The operations of the simple file system keep its invariant

    Creating, linking, removing and renaming files, as steps on the map from
    names to inode numbers, with the data of the other files untouched. *)

From S2P Require Import Prelude Uio Bitmap Strings SfsDisk SfsFile SfsIo SfsTruncate SfsDir SfsVnode SfsInv.
Import Bitmap Strings SfsDisk SfsFile SfsIo SfsTruncate SfsDir SfsVnode SfsInv.

Module SfsOps.

(** The number of names of an inode. *)
Definition links (d : gmap (list Z) Z) (ino : Z) : Z := Z.of_nat (size (filter (fun x => x.2 = ino) d)).

Lemma links_insert d name ino j : d !! name = None -> links (<[name := ino]> d) j = links d j + if decide (ino = j) then 1 else 0.
Proof.
  intros Hn. unfold links. rewrite map_filter_insert. cbn [snd]. case_decide as E.
  - rewrite map_size_insert_None; [lia|]. apply map_lookup_filter_None. by left.
  - rewrite map_filter_delete, delete_id; [lia|]. apply map_lookup_filter_None. by left.
Qed.

Lemma links_delete d name ino j : d !! name = Some ino -> links (delete name d) j = links d j - if decide (ino = j) then 1 else 0.
Proof.
  intros Hn. rewrite <- (insert_delete_id d name ino Hn) at 2. rewrite links_insert by apply lookup_delete_eq. lia.
Qed.

Lemma links_pos d name ino : d !! name = Some ino -> 0 < links d ino.
Proof. intros Hn. pose proof (links_delete d name ino ino Hn) as E. rewrite decide_True in E by done. unfold links in *. lia. Qed.

Section Ops.
Context {D : Type} {DK : Disk D} {DKL : DiskLaws D} {RW : ReliableWrites D}.
Local Abbreviation sfs := (SfsFile.sfs (D := D)).

(** The root directory, at [p], stands for the map [d]. *)
Definition rooted (p : Z) (s : sfs) (M : gmap Z sfs_inode) (d : gmap (list Z) Z) : Prop :=
  exists v, at_dir p s v /\ sv_ino v = 1 /\ dirof s v = d /\ forall n ino, d !! n = Some ino -> ino <> 1 /\ is_Some (M !! ino).

Definition core (p : Z) (s : sfs) (M : gmap Z sfs_inode) (d : gmap (list Z) Z) : Prop := files s M /\ rooted p s M d.

(** The blocks and the bytes of a file. *)
Definition data (d : D) (i : sfs_inode) : list Z * list Z := (blocks d i, contents d i).

(** Files other than the root directory keep their blocks and bytes. *)
Definition keeps_data (s : sfs) (M : gmap Z sfs_inode) (s' : sfs) (M' : gmap Z sfs_inode) : Prop :=
  forall ino i, ino <> 1 -> M !! ino = Some i -> exists i', M' !! ino = Some i' /\ data (dev s') i' = data (dev s) i.

Lemma keeps_data_refl s M : keeps_data s M s M.
Proof. intros ino i _ Hi. eauto. Qed.

Lemma keeps_data_trans s M s1 M1 s2 M2 : keeps_data s M s1 M1 -> keeps_data s1 M1 s2 M2 -> keeps_data s M s2 M2.
Proof.
  intros H1 H2 ino i Hne Hi. destruct (H1 ino i Hne Hi) as (i1 & Hi1 & <-). exact (H2 ino i1 Hne Hi1).
Qed.

Lemma at_dir_same p s v s1 v1 : at_dir p s v -> fs_ok s1 -> svs s1 !! p = Some v1 -> sv_i v1 = sv_i v -> file_ok s1 (sv_i v) ->
  contents (dev s1) (sv_i v) = contents (dev s) (sv_i v) -> at_dir p s1 v1 /\ dirof s1 v1 = dirof s v.
Proof.
  intros [_ _ _ []] Hfs Hsv Hi Hf Hc. split; [|unfold dirof, entries; by rewrite Hi, Hc]. constructor; rewrite ?Hi; try done.
  constructor; rewrite ?Hi, ?Hc; done.
Qed.

(** A change of another vnode. *)
Lemma rooted_other p q s v s' v' M d : files s M -> rooted p s M d -> svs s !! q = Some v -> updates q s v s' v' -> q <> p ->
  rooted p s' (<[sv_ino v := sv_i v']> M) d.
Proof.
  intros HF (vr & Hat & H1 & Hd & Hn) Hq Hup Hne. pose proof Hat as [_ Hp _ _].
  destruct (fi_loaded _ _ HF p vr Hp) as (HMr & _). assert (sv_ino vr <> sv_ino v) as Hino. { intros E. apply Hne. symmetry. by eapply (fi_inj _ _ HF). }
  destruct (updates_other q s v s' v' M (sv_ino vr) (sv_i vr) HF Hq Hup HMr Hino) as (_ & Hc & Hf & _).
  pose proof Hup as [Hfs' _ _ Hrest _ _ _ _ _ _ _]. injection Hrest as _ _ Hsvs.
  assert (svs s' !! p = Some vr) as Hp'. { rewrite Hsvs, lookup_insert_ne by done. done. }
  destruct (at_dir_same p s vr s' vr Hat Hfs' Hp' eq_refl Hf Hc) as [Hat' Hd']. exists vr. split; [done|]. split; [done|]. split; [congruence|].
  intros n ino Hi. destruct (Hn n ino Hi) as [? ?]. split; [done|]. rewrite lookup_insert_is_Some. destruct (decide (sv_ino v = ino)); [by left|by right].
Qed.

Lemma keeps_update q s v s' v' M : files s M -> svs s !! q = Some v -> updates q s v s' v' ->
  sv_ino v = 1 \/ data (dev s') (sv_i v') = data (dev s) (sv_i v) -> keeps_data s M s' (<[sv_ino v := sv_i v']> M).
Proof.
  intros HF Hq Hup Hc ino i H1 Hi. destruct (decide (ino = sv_ino v)) as [->|Hne].
  - destruct (fi_loaded _ _ HF q v Hq) as (HM & _). assert (i = sv_i v) as -> by congruence. exists (sv_i v'). rewrite lookup_insert_eq. destruct Hc; done.
  - exists i. rewrite lookup_insert_ne by done. split; [done|]. destruct (updates_other q s v s' v' M ino i HF Hq Hup Hi Hne) as (Hb & Hcs & _). unfold data. congruence.
Qed.

(** ** Steps of the directory *)

Lemma core_dir p s v s' v' M d : core p s M d -> svs s !! p = Some v -> grows p s v s' v' -> at_dir p s' v' ->
  (forall n ino, dirof s' v' !! n = Some ino -> ino <> 1 /\ is_Some (M !! ino)) ->
  core p s' (<[1 := sv_i v']> M) (dirof s' v') /\ keeps_data s M s' (<[1 := sv_i v']> M).
Proof.
  intros [HF (v0 & Hat & H1 & Hd & Hn)] Hv Hg Hat' Hn'. assert (v0 = v) as -> by (destruct Hat; congruence).
  assert (updates p s v s' v') as Hup. { eapply grows_updates; [done|done|done|]. destruct Hat' as [_ _ _ []]. lia. }
  pose proof (files_update p s v s' v' M HF Hv Hup) as HF'. rewrite H1 in HF'. split.
  - split; [done|]. exists v'. split; [done|]. split; [|split; [done|]].
    + destruct Hg as [_ _ _ _ Hsame _ _ _ _]. injection Hsame as -> _. done.
    + intros n ino Hi. destruct (Hn' n ino Hi) as [? ?]. split; [done|]. rewrite lookup_insert_is_Some. by right.
  - rewrite <- H1. apply (keeps_update p s v s' v'); [done|done|done|by left].
Qed.

(** Other vnodes stay. *)
Definition others (p : Z) (s s' : sfs) : Prop := forall q, q <> p -> svs s' !! q = svs s !! q.

(** The number of the inode at [q], its references and its opens. *)
Definition cnt (s : sfs) (q : Z) : option (Z * Z * Z) := (fun v => (sv_ino v, vn_refcount v, vn_opencount v)) <$> svs s !! q.

Definition same_counts (s s' : sfs) : Prop := forall q, cnt s' q = cnt s q.

(** The vnode at [p] keeps its counts as well. *)
Definition only (p : Z) (s s' : sfs) : Prop :=
  others p s s' /\ same_counts s s'.

(** A reference more to the vnode at [g], or the first one to the new structure. *)
Definition gains (al : alloc) (g : Z) (s s' : sfs) : Prop :=
  (forall q, q <> g -> cnt s' q = cnt s q) /\
  ((cnt s g = None /\ al_sv al = Some g /\ exists ino, cnt s' g = Some (ino, 1, 0)) \/ exists ino r o, 1 <= r /\ cnt s g = Some (ino, r, o) /\ cnt s' g = Some (ino, r + 1, o)).

(** A reference less; with the last one the vnode goes, unless that fails. *)
Definition loses (g : Z) (s s' : sfs) : Prop :=
  (forall q, q <> g -> cnt s' q = cnt s q) /\
  ((exists ino r o, 1 < r /\ cnt s g = Some (ino, r, o) /\ cnt s' g = Some (ino, r - 1, o)) \/
   exists ino, cnt s g = Some (ino, 1, 0) /\ (cnt s' g = None \/ cnt s' g = Some (ino, 1, 0))).

(** The counts are the same, but for a new vnode that nobody refers to. *)
Definition leaks (al : alloc) (s s' : sfs) : Prop :=
  forall q, cnt s' q = cnt s q \/ (cnt s q = None /\ al_sv al = Some q /\ exists ino, cnt s' q = Some (ino, 1, 0)).

Lemma same_leaks al s s' : same_counts s s' -> leaks al s s'.
Proof. intros H q. by left. Qed.

Lemma same_counts_trans s s1 s2 : same_counts s s1 -> same_counts s1 s2 -> same_counts s s2.
Proof. intros H1 H2 q. by rewrite H2, H1. Qed.

Lemma same_gains al g s s1 s2 : same_counts s s1 -> gains al g s1 s2 -> gains al g s s2.
Proof. intros H [H1 H2]. split; [intros q Hq; by rewrite H1, H|]. by rewrite <- H. Qed.

Lemma gains_same al g s s1 s2 : gains al g s s1 -> same_counts s1 s2 -> gains al g s s2.
Proof. intros [H1 H2] H. split; [intros q Hq; by rewrite H, H1|]. by rewrite H. Qed.

Lemma same_loses g s s1 s2 : same_counts s s1 -> loses g s1 s2 -> loses g s s2.
Proof. intros H [H1 H2]. split; [intros q Hq; by rewrite H1, H|]. by rewrite <- H. Qed.

Lemma gains_loses al g s s1 s2 : gains al g s s1 -> loses g s1 s2 -> leaks al s s2.
Proof.
  intros [H1 H2] [H3 H4] q. destruct (decide (q = g)) as [->|Hq]; [|left; by rewrite H3, H1].
  destruct H2 as [(Hn & Hal & ino & Hs)|(ino & r & o & Hr & Hn & Hs)]; rewrite Hs in H4; rewrite Hn.
  - destruct H4 as [(? & ? & ? & ? & [= <- <- <-] & _)|(? & [= <-] & [-> | ->])]; [lia|by left|right; eauto].
  - left. destruct H4 as [(? & ? & ? & ? & [= <- <- <-] & ->)|(? & [= <- ? <-] & _)]; [|lia]. do 3 f_equal. lia.
Qed.

(** Other fields of the vnode at [g]. *)
Lemma wr_counts g (s : sfs) v v' : svs s !! g = Some v -> (sv_ino v', vn_refcount v', vn_opencount v') = (sv_ino v, vn_refcount v, vn_opencount v) ->
  same_counts s (sv_wr g v' s).
Proof. intros Hg He q. unfold cnt. cbn. rewrite lookup_insert. case_decide as E; [|done]. subst q. rewrite Hg. cbn. by rewrite He. Qed.

Lemma grows_only p s v s' v' : svs s !! p = Some v -> grows p s v s' v' -> only p s s'.
Proof.
  intros Hv [_ _ _ -> Hsame _ _ _ _]. split; [intros q Hq; cbn; by rewrite lookup_insert_ne|]. apply (wr_counts p s v v' Hv). by injection Hsame as -> -> -> _ _.
Qed.

(** The entry of a name. *)
Definition slot_of (p : Z) (s : sfs) (slot : Z) (name : list Z) : Prop :=
  exists v k e, svs s !! p = Some v /\ slot = Z.of_nat k /\ entries s v !! k = Some e /\ in_use e /\ name_of e = name.

Lemma core_findname p nm name junk s M d : core p s M d -> points_to nm name -> length junk = 64%nat ->
  exists r found empty s' M', sfs_dir_findname p nm junk s = Ok (r, found, empty, s') /\ core p s' M' d /\ keeps_data s M s' M' /\ only p s s' /\
    (forall j, j <> 1 -> M' !! j = M !! j) /\
    ((exists ino slot, r = 0 /\ found = Some (ino, slot) /\ d !! name = Some ino /\ slot_of p s' slot name) \/
     (r = ENOENT /\ d !! name = None) \/ eio D r).
Proof using DKL.
  intros Hco Hnm Hl. pose proof Hco as [HF (v & Hat & H1 & Hd & Hn)].
  destruct (findname_run p nm name junk s v Hat Hnm Hl) as (r & found & empty & s' & v' & Hrun & Hpk & Hr). exists r, found, empty, s', (<[1 := sv_i v']> M).
  destruct (peeks_at _ _ _ _ _ Hpk Hat) as [Hat' Hes]. pose proof Hpk as [Hg _]. assert (dirof s' v' = d) as Hd' by (unfold dirof in *; congruence).
  destruct (core_dir p s v s' v' M d Hco (ad_sv _ _ _ Hat) Hg Hat') as [Hco' Hk]; [by rewrite Hd'|]. rewrite Hd' in Hco'.
  split; [done|]. split; [done|]. split; [done|]. split; [eapply grows_only; [|done]; by destruct Hat|]. split; [intros j Hj; by rewrite lookup_insert_ne|].
  destruct Hr as [(-> & _ & ->)|Hr]; [|by right; right]. destruct (find_from name (entries s v) 0) as [[ino slot]|] eqn:Hf.
  - left. exists ino, slot. split; [done|]. split; [done|]. rewrite <- Hd. unfold dirof. rewrite <- (find_dirmap name _ 0), Hf. split; [done|].
    apply find_Some in Hf as (k & e & -> & Hk' & He & Hne & _). exists v', k, e. split; [by destruct Hat'|]. split; [lia|]. by rewrite Hes.
  - right. left. split; [done|]. rewrite <- Hd. unfold dirof. by rewrite <- (find_dirmap name _ 0), Hf.
Qed.

Lemma core_link p nm name ino junk s M d : core p s M d -> points_to nm name -> zlen name < 4294967295 -> length junk = 64%nat ->
  is_Some (M !! ino) -> ino <> 1 ->
  exists r slot s' M' d', sfs_dir_link p nm ino junk s = Ok (r, slot, s') /\ core p s' M' d' /\ keeps_data s M s' M' /\ only p s s' /\
    (forall j, j <> 1 -> M' !! j = M !! j) /\
    ((r = 0 /\ d !! name = None /\ d' = <[name := ino]> d /\ slot_of p s' slot name /\
      forall slot1 name1, slot_of p s slot1 name1 -> slot_of p s' slot1 name1) \/
     (d' = d /\ ((r = EEXIST /\ is_Some (d !! name)) \/ (r = ENAMETOOLONG /\ (59 < length name)%nat) \/ io_error D r))).
Proof using DKL RW.
  intros Hco Hnm Hlen Hl HM Hi1. pose proof Hco as [HF (v & Hat & H1 & Hd & Hn)]. destruct HM as [i HM]. destruct (fi_own _ _ HF _ _ HM) as ([Hir _] & _).
  destruct (link_run p nm name ino junk s v Hat Hnm Hlen Hl) as (r & slot & s' & v' & Hrun & Hg & Hat' & Hr).
  { destruct (fi_fs _ _ HF). unfold word32, u32_mod. lia. } { lia. }
  exists r, slot, s', (<[1 := sv_i v']> M), (dirof s' v'). split; [done|].
  assert (forall n k, dirof s' v' !! n = Some k -> k <> 1 /\ is_Some (M !! k)) as Hn'.
  { intros n k. destruct Hr as [(_ & _ & Hm & _)|[Hpk _]].
    - rewrite Hm, Hd, lookup_insert. case_decide; [intros [= <-]; eauto|apply Hn].
    - destruct (peeks_at _ _ _ _ _ Hpk Hat) as [_ Hes]. unfold dirof in *. rewrite Hes, Hd. apply Hn. }
  destruct (core_dir p s v s' v' M d Hco (ad_sv _ _ _ Hat) Hg Hat' Hn') as [Hco' Hk]. split; [done|]. split; [done|].
  split; [eapply grows_only; [|done]; by destruct Hat|]. split; [intros j Hj; by rewrite lookup_insert_ne|]. rewrite <- Hd. destruct Hr as [(-> & Hnone & Hm & (k & e & Hslot & Hk' & Hu & Hne) & Hkeep)|[Hpk Hr]].
  - left. split; [done|]. split; [done|]. split; [done|]. split; [exists v', k, e; by destruct Hat'|].
    intros slot1 name1 (w & k1 & e1 & Hw & Hs1 & He1 & Hu1 & Hn1). exists v', k1, e1. assert (w = v) as -> by (destruct Hat; congruence). destruct Hat'. split; [done|]. split; [done|]. split; [by apply Hkeep|done].
  - right. destruct (peeks_at _ _ _ _ _ Hpk Hat) as [_ Hes]. split; [unfold dirof; by rewrite Hes|done].
Qed.

Lemma core_unlink p slot name s M d : core p s M d -> slot_of p s slot name ->
  exists r s' M' d', sfs_dir_unlink p slot s = Ok (r, s') /\ core p s' M' d' /\ keeps_data s M s' M' /\ only p s s' /\
    (forall j, j <> 1 -> M' !! j = M !! j) /\
    ((r = 0 /\ d' = delete name d) \/ (eio D r /\ d' = d /\ forall slot1 name1, slot_of p s slot1 name1 -> slot_of p s' slot1 name1)).
Proof using DKL RW.
  intros Hco (w & k & e & Hw & -> & Hk & Hu & <-). pose proof Hco as [HF (v & Hat & H1 & Hd & Hn)]. assert (w = v) as -> by (destruct Hat; congruence).
  destruct (dir_unlink_run p k e s v Hat Hk Hu) as (r & s' & v' & Hrun & Hg & Hat' & Hr). exists r, s', (<[1 := sv_i v']> M), (dirof s' v'). split; [done|].
  assert (forall n j, dirof s' v' !! n = Some j -> j <> 1 /\ is_Some (M !! j)) as Hn'.
  { intros n j. destruct Hr as [[_ Hm]|[_ Hpk]].
    - rewrite Hm, Hd. intros Hj. apply lookup_delete_Some in Hj as [_ Hj]. by apply Hn in Hj.
    - destruct (peeks_at _ _ _ _ _ Hpk Hat) as [_ Hes]. unfold dirof in *. rewrite Hes, Hd. apply Hn. }
  destruct (core_dir p s v s' v' M d Hco Hw Hg Hat' Hn') as [Hco' Hkp]. split; [done|]. split; [done|].
  split; [eapply grows_only; [|done]; by destruct Hat|]. split; [intros j Hj; by rewrite lookup_insert_ne|]. rewrite <- Hd. destruct Hr as [[-> Hm]|[Hr Hpk]]; [by left|right].
  destruct (peeks_at _ _ _ _ _ Hpk Hat) as [_ Hes]. split; [done|]. split; [unfold dirof; by rewrite Hes|].
  intros slot1 name1 (w & k1 & e1 & Hw1 & Hs1 & He1 & Hu1 & Hn1). exists v', k1, e1. assert (w = v) as -> by congruence. rewrite Hes. by destruct Hat'.
Qed.

(** ** Steps of vnodes *)

Lemma sv_rd_run g (s : sfs) v : svs s !! g = Some v -> sv_rd g s = Ok v.
Proof. intros Hg. unfold sv_rd. by rewrite Hg. Qed.

Lemma vnode_check_run g b (s : sfs) v : svs s !! g = Some v -> 1 <= vn_refcount v -> 0 <= vn_opencount v -> vnode_check g b s = Ok tt.
Proof.
  intros Hg Hr Ho. unfold vnode_check. rewrite (sv_rd_run g s v Hg), Ok_bind. replace (vn_refcount v <? 0) with false by lia.
  replace (vn_refcount v =? 0) with false by lia. replace (vn_opencount v <? 0) with false by lia. by rewrite orb_true_r.
Qed.

Lemma core_same p s s1 M d : core p s M d -> fs_ok s1 -> (sp_nblocks s1, sfs_vnodes s1, svs s1) = (sp_nblocks s, sfs_vnodes s, svs s) ->
  (forall b, used s b -> used s1 b /\ sector (dev s1) b = sector (dev s) b) ->
  core p s1 M d /\ keeps_data s M s1 M /\ forall slot name, slot_of p s slot name -> slot_of p s1 slot name.
Proof.
  intros [HF (v & Hat & H1 & Hd & Hn)] Hfs Hrest Hu. pose proof (files_same s s1 M HF Hfs Hrest Hu) as HF1. injection Hrest as _ _ Hsvs.
  assert (forall ino i, M !! ino = Some i -> data (dev s1) i = data (dev s) i) as Hc.
  { intros ino i Hi. apply pair_equal_spec, blocks_same. intros b Hb. apply Hu. destruct (fi_own _ _ HF _ _ Hi) as (_ & Hf & _). by apply (fo_used _ _ Hf). }
  destruct (fi_loaded _ _ HF p v (ad_sv _ _ _ Hat)) as (HM & _).
  destruct (at_dir_same p s v s1 v Hat Hfs) as [Hat1 Hd1]; [by rewrite Hsvs; destruct Hat|done|by destruct (fi_own _ _ HF1 _ _ HM) as (_ & ? & _)|by apply Hc in HM as [= _ ?]|].
  split; [|split].
  - split; [done|]. exists v. split; [done|]. split; [done|]. split; [congruence|done].
  - intros ino i _ Hi. eauto.
  - intros slot name (w & k & e & Hw & -> & Hk & Hr). exists w, k, e. rewrite Hsvs. split; [done|]. split; [done|]. split; [|done].
    destruct (fi_loaded _ _ HF p w Hw) as (HMw & _). unfold entries. by apply Hc in HMw as [= _ ->].
Qed.

Lemma read_same s d' : fs_ok s -> same_disk (dev s) d' -> fs_ok (set_dev d' s) /\
  forall b, used s b -> used (set_dev d' s) b /\ sector (dev (set_dev d' s)) b = sector (dev s) b.
Proof. intros Hfs Hd. split; [by apply same_disk_ok|]. intros b Hb. split; [done|]. by destruct Hd. Qed.

(** The counts of a vnode. *)
Lemma core_counts p q s v v' M d : core p s M d -> svs s !! q = Some v -> sv_i v' = sv_i v -> sv_ino v' = sv_ino v -> sv_dirty v' = sv_dirty v ->
  1 <= vn_refcount v' /\ 0 <= vn_opencount v' ->
  core p (sv_wr q v' s) M d /\ forall slot name, slot_of p s slot name -> slot_of p (sv_wr q v' s) slot name.
Proof.
  intros [HF Hrt] Hq Hi Hino Hd Hc. destruct (fi_loaded _ _ HF q v Hq) as (HM & _). destruct (fi_own _ _ HF _ _ HM) as (_ & Hf & _).
  assert (updates q s v (sv_wr q v' s) v') as Hup. { eapply memory_updates; [done|done|by rewrite Hi; destruct Hf|by rewrite Hi, Hino|done|by right]. }
  pose proof (files_update q s v _ v' M HF Hq Hup) as HF'. rewrite Hi, insert_id in HF' by done. split; [split; [done|]|].
  - destruct (decide (q = p)) as [->|Hne].
    + destruct Hrt as (w & Hat & H1 & Hdir & Hn). assert (w = v) as -> by (destruct Hat; congruence). exists v'.
      destruct (at_dir_same p s v (sv_wr p v' s) v' Hat) as [Hat' Hd']; [by destruct HF'|cbn; by rewrite lookup_insert_eq|done|by destruct (fi_own _ _ HF' _ _ HM) as (_ & ? & _)|done|].
      split; [done|]. split; [congruence|]. split; [congruence|done].
    + pose proof (rooted_other p q s v _ v' M d HF Hrt Hq Hup Hne) as Hrt'. by rewrite Hi, insert_id in Hrt'.
  - intros slot name (w & k & e & Hw & -> & Hk & Hr). destruct (decide (q = p)) as [->|Hne].
    + assert (w = v) as -> by congruence. exists v', k, e. cbn. rewrite lookup_insert_eq. split; [done|]. split; [done|]. unfold entries in *. cbn. by rewrite Hi.
    + exists w, k, e. cbn. rewrite lookup_insert_ne by done. done.
Qed.

Lemma find_vnode_run s M ino l : files s M -> (forall q, q ∈ l -> is_Some (svs s !! q)) ->
  (exists q v, find_vnode l ino s = Ok (Some q) /\ svs s !! q = Some v /\ sv_ino v = ino) \/
  (find_vnode l ino s = Ok None /\ forall q v, q ∈ l -> svs s !! q = Some v -> sv_ino v <> ino).
Proof.
  intros HF. induction l as [|q l IH]; intros Hl; cbn [find_vnode].
  { right. split; [done|]. by intros q v ?%elem_of_nil. }
  destruct (Hl q) as [v Hv]; [by left|]. unfold sv_rd. rewrite Hv, Ok_bind. destruct (fi_loaded _ _ HF q v Hv) as (HM & _).
  destruct (fi_own _ _ HF _ _ HM) as (Hu & _). destruct (bused_run s (sv_ino v) (fi_fs _ _ HF) Hu) as (r & -> & Hr). rewrite Ok_bind, (proj2 (Z.eqb_neq r 0)) by done.
  destruct (Z.eqb_spec (sv_ino v) ino) as [E|E]; [left; by eexists _, _|]. destruct IH as [IH|[IH Hno]]; [intros x Hx; apply Hl; by right|by left|].
  right. split; [done|]. intros x w Hx Hw. apply elem_of_cons in Hx as [->|Hx]; [congruence|by eapply Hno].
Qed.

Definition bounded (s : sfs) : Prop := forall q v, svs s !! q = Some v -> vn_refcount v < 2147483647.

(** The new structure is not one in use. *)
Definition fresh (al : alloc) (s : sfs) : Prop := forall q, al_sv al = Some q -> svs s !! q = None.

(** All allocations succeed; the error when one does not. *)
Definition complete (al : alloc) : Prop := is_Some (al_sv al) /\ al_lock al = true /\ al_room al = true.
Definition enomem (al : alloc) (r : Z) : Prop := r = ENOMEM /\ ~ complete al.

(** A reference more to inode [ino], at [g]. *)
Definition referenced (al : alloc) (ino g : Z) (s s' : sfs) : Prop :=
  exists v, svs s' !! g = Some v /\ sv_ino v = ino /\
    ((svs s !! g = None /\ al_sv al = Some g /\ vn_refcount v = 1 /\ vn_opencount v = 0) \/
     (exists v0, svs s !! g = Some v0 /\ v = with_refcount v0 (vn_refcount v0 + 1))) /\ others g s s'.

(** The root directory is untouched. *)
Lemma rooted_same p s s' M M' d : rooted p s M d -> files s' M' -> svs s' !! p = svs s !! p -> dev s' = dev s ->
  (forall n ino, d !! n = Some ino -> is_Some (M !! ino) -> is_Some (M' !! ino)) -> rooted p s' M' d.
Proof.
  intros (v & Hat & H1 & Hd & Hn) HF' Hp Hdev HM. pose proof Hat as [_ Hv _ _]. rewrite Hv in Hp. destruct (fi_loaded _ _ HF' p v Hp) as (HMv & _).
  destruct (at_dir_same p s v s' v Hat) as [Hat' Hd']; [by destruct HF'|done|done|by destruct (fi_own _ _ HF' _ _ HMv) as (_ & ? & _)|by rewrite Hdev|].
  exists v. split; [done|]. split; [done|]. split; [congruence|]. intros n ino Hi. destruct (Hn n ino Hi). eauto.
Qed.

(** A vnode enters the table. *)
Lemma core_loaded p q ino i dirty s M d : core p s M d -> M !! ino = Some i -> svs s !! q = None ->
  (forall x v, svs s !! x = Some v -> sv_ino v <> ino) -> dirty <> 0 \/ block_inode (sector (dev s) ino) = i ->
  core p (loaded_at q ino i dirty s) M d /\ forall slot name, slot_of p s slot name -> slot_of p (loaded_at q ino i dirty s) slot name.
Proof.
  intros [HF (v & Hat & H1 & Hd & Hn)] HM Hq Hno Hdirty. pose proof (files_load q ino i dirty s M HF HM Hq Hno Hdirty) as HF'.
  assert (forall w, svs s !! p = Some w -> svs (loaded_at q ino i dirty s) !! p = Some w) as Hp.
  { intros w Hw. cbn. rewrite lookup_insert_ne by congruence. done. }
  split; [split; [done|]|].
  - apply (rooted_same p s _ M M); [by exists v|done| |done|done]. destruct Hat as [_ Hv _ _]. rewrite Hv. by apply Hp.
  - intros slot name (w & k & e & Hw & -> & Hk & Hr). exists w, k, e. by rewrite (Hp w).
Qed.

Lemma core_load p ino al s M d : core p s M d -> is_Some (M !! ino) -> bounded s -> fresh al s ->
  exists r g s', sfs_loadvnode ino SFS_TYPE_INVAL al s = Ok (r, g, s') /\ core p s' M d /\ keeps_data s M s' M /\
    (forall slot name, slot_of p s slot name -> slot_of p s' slot name) /\
    ((r = 0 /\ referenced al ino g s s') \/ ((eio D r \/ enomem al r) /\ svs s' = svs s)).
Proof using DKL.
  intros Hco [i HM] Hb Hfr. pose proof Hco as [HF _]. unfold sfs_loadvnode.
  destruct (find_vnode_run s M ino (sfs_vnodes s) HF) as [(q & v & -> & Hv & Hino)|[-> Hno]]; [intros q; apply (fi_table _ _ HF)| |]; rewrite Ok_bind.
  { cbn [c_assert Z.eqb SFS_TYPE_INVAL]. rewrite Ok_bind. unfold vnode_incref, sv_rd. rewrite Hv, Ok_bind. pose proof (Hb q v Hv).
    destruct (fi_loaded _ _ HF q v Hv) as (_ & Hc). rewrite c_int_id, Ok_bind by (unfold int_min, int_max; lia). rewrite Ok_bind.
    destruct (core_counts p q s v (with_refcount v (vn_refcount v + 1)) M d Hco Hv) as [Hco' Hsl]; try done; [cbn; lia|].
    eexists _, _, _. split; [done|]. split; [done|]. split; [intros j x _ ?; eauto|]. split; [done|]. left. split; [done|].
    exists (with_refcount v (vn_refcount v + 1)). cbn. rewrite lookup_insert_eq. split; [done|]. split; [done|]. split; [right; eauto|].
    intros x Hx. cbn. by rewrite lookup_insert_ne. }
  destruct (al_sv al) as [q|] eqn:Hq.
  2: { eexists _, _, _. split; [done|]. split; [done|]. split; [apply keeps_data_refl|]. split; [done|]. right. split; [right|done].
       split; [done|]. intros [[x Hx] _]. congruence. }
  destruct (fi_own _ _ HF _ _ HM) as (Hu & _). destruct (bused_run s ino (fi_fs _ _ HF) Hu) as (x & -> & Hx). rewrite Ok_bind, (proj2 (Z.eqb_neq x 0)) by done.
  destruct (rblock_run s ino (fi_fs _ _ HF) Hu) as (r & data & d' & -> & Hd & Hr). rewrite Ok_bind. destruct (read_same s d' (fi_fs _ _ HF) Hd) as [Hfs1 Hu1].
  destruct (core_same p s (set_dev d' s) M d Hco Hfs1 eq_refl Hu1) as (Hco1 & Hk1 & Hs1).
  destruct Hr as [(-> & ->)|Hr].
  2: { rewrite (eio_nonzero r Hr). eexists _, _, _. split; [done|]. split; [done|]. split; [done|]. split; [done|]. right. by split; [left|]. }
  assert (forall y w, svs s !! y = Some w -> sv_ino w <> ino) as Hno'. { intros y w Hw. eapply Hno; [|done]. apply (fi_table _ _ HF). by eexists. }
  assert (block_inode (sector (dev s) ino) = i) as ->. { apply (fi_disk _ _ HF); [done|]. intros y w Hw E. by destruct (Hno' y w Hw). }
  cbn [Z.eqb negb SFS_TYPE_INVAL]. rewrite Ok_bind.
  assert ((sfi_type i =? SFS_TYPE_FILE) || (sfi_type i =? SFS_TYPE_DIR) = true) as ->. { rewrite (fi_type _ _ HF _ _ HM). by case_decide. }
  cbn [negb]. destruct (al_lock al) eqn:El; cbn [negb]; [destruct (al_room al) eqn:Er; cbn [negb]|].
  2-3: eexists _, _, _; split; [done|]; split; [done|]; split; [done|]; split; [done|]; right; split; [right|done]; split; [done|];
    intros (_ & ? & ?); congruence.
  destruct (core_loaded p q ino i 0 (set_dev d' s) M d Hco1 HM) as [Hco2 Hs2]; [by apply Hfr|done| |].
  { right. destruct (Hu1 _ Hu) as [_ ->]. apply (fi_disk _ _ HF); [done|]. intros y w Hw E. by destruct (Hno' y w Hw). }
  eexists _, _, _. split; [done|]. split; [done|]. split; [done|]. split; [eauto|]. left. split; [done|].
  exists (mk_sv i ino 0 1 0). cbn. rewrite lookup_insert_eq. split; [done|]. split; [done|]. split; [left; by split; [apply Hfr|]|].
  intros y Hy. cbn. by rewrite lookup_insert_ne.
Qed.

Lemma core_new p q b s M d : core p s M d -> svs s !! q = None -> M !! b = None -> used s b ->
  (forall j i, M !! j = Some i -> b ∉ blocks (dev s) i) -> core p (loaded_at q b new_inode 1 s) (<[b := new_inode]> M) d.
Proof.
  intros [HF (v & Hat & H1 & Hd & Hn)] Hq Hb Hu Hnb. destruct (fi_loaded _ _ HF p v (ad_sv _ _ _ Hat)) as (HM & _).
  assert (b <> 1) as Hb1 by congruence. pose proof (files_new q b s M HF Hq Hb Hu Hb1 Hnb) as HF'. split; [done|].
  apply (rooted_same p s _ M); [by exists v|done| |done|]; [destruct Hat as [_ Hp _ _]; cbn; by rewrite lookup_insert_ne by congruence|].
  intros n j _ Hj. rewrite lookup_insert_is_Some. destruct (decide (b = j)); [by left|by right].
Qed.

(** A block for the inode. *)
Lemma core_alloc p s b s1 M d : core p s M d -> alloced s b s1 ->
  core p s1 M d /\ keeps_data s M s1 M /\ used s1 b /\ M !! b = None /\ (forall j i, M !! j = Some i -> b ∉ blocks (dev s1) i) /\ svs s1 = svs s.
Proof.
  intros Hco [Hb Hfree Hfs1 Hdev Hbits Hrest]. pose proof Hco as [HF _].
  assert (forall c, used s c -> used s1 c /\ sector (dev s1) c = sector (dev s) c) as Hu.
  { intros c [Hc Hbit]. assert (c <> b) by congruence. destruct Hdev as [_ Hw]. rewrite Hw, decide_False by done. split; [|done].
    split; [rewrite Hrest; done|]. rewrite Hbits by lia. by destruct (c =? b). }
  destruct (core_same p s s1 M d Hco Hfs1) as (Hco1 & Hk1 & _); [by rewrite Hrest|done|]. split; [done|]. split; [done|].
  split; [split; [by rewrite Hrest|]; by rewrite Hbits, Z.eqb_refl by lia|]. split; [|split; [|by rewrite Hrest]].
  - apply eq_None_not_Some. intros [i Hi]. destruct (fi_own _ _ HF _ _ Hi) as ([_ Hbit] & _). congruence.
  - intros j i Hj. destruct (fi_own _ _ HF _ _ Hj) as (_ & Hf & _).
    assert (blocks (dev s1) i = blocks (dev s) i) as ->. { apply blocks_same. intros c Hc. apply Hu. by apply (fo_used _ _ Hf). }
    intros Hin. apply (fo_used _ _ Hf) in Hin as [_ Hbit]. congruence.
Qed.

(** A new file, at [g]. *)
Lemma core_make p al s M d : core p s M d -> fresh al s ->
  exists r g s', sfs_makeobj SFS_TYPE_FILE al s = Ok (r, g, s') /\
    ((r = 0 /\ exists ino, M !! ino = None /\ ino <> 1 /\ svs s !! g = None /\ al_sv al = Some g /\ svs s' !! g = Some (mk_sv new_inode ino 1 1 0) /\ others g s s' /\
       core p s' (<[ino := new_inode]> M) d /\ keeps_data s M s' (<[ino := new_inode]> M)) \/
     ((r = ENOSPC \/ eio D r \/ enomem al r) /\ core p s' M d /\ keeps_data s M s' M /\ svs s' = svs s)).
Proof using DKL RW.
  intros Hco Hfr. pose proof Hco as [HF _]. unfold sfs_makeobj.
  destruct (balloc_run s (fi_fs _ _ HF)) as [(b & s1 & -> & Hal)|[-> _]]; rewrite Ok_bind; cbn [Z.eqb negb ENOSPC].
  2: { exists ENOSPC, 0, s. split; [done|]. right. split; [by left|]. split; [done|]. split; [apply keeps_data_refl|done]. }
  destruct (core_alloc p s b s1 M d Hco Hal) as (Hco1 & Hk1 & Hub & HMb & Hnb & Hsvs). pose proof Hco1 as [HF1 (vr & Hat & H1 & _)]. pose proof (fi_fs _ _ HF1) as Hfs1.
  unfold sfs_loadvnode.
  destruct (find_vnode_run s1 M b (sfs_vnodes s1) HF1) as [(q & v & -> & Hv & Hino)|[-> Hno]]; [intros q; apply (fi_table _ _ HF1)| |]; rewrite Ok_bind.
  { destruct (fi_loaded _ _ HF1 q v Hv) as (HM & _). congruence. }
  destruct (al_sv al) as [q|] eqn:Hq; [|exists ENOMEM, 0, s1; split; [done|]; right; split; [right; right; split; [done|]; intros [[x Hx] _]; congruence|done]].
  destruct (bused_run s1 b Hfs1 Hub) as (x & -> & Hx). rewrite Ok_bind, (proj2 (Z.eqb_neq x 0)) by done.
  destruct (rblock_run s1 b Hfs1 Hub) as (r & data & d' & -> & Hd & Hr). rewrite Ok_bind. destruct (read_same s1 d' Hfs1 Hd) as [Hfs2 Hu2].
  destruct (core_same p s1 (set_dev d' s1) M d Hco1 Hfs2 eq_refl Hu2) as (Hco2 & Hk2 & _). pose proof (keeps_data_trans _ _ _ _ _ _ Hk1 Hk2) as Hk.
  destruct Hr as [(-> & ->)|Hr]; [|rewrite (eio_nonzero r Hr); cbn [negb mbind outcome_bind]; rewrite ?Ok_bind, ?(eio_nonzero r Hr); exists r, 0, (set_dev d' s1); split; [done|]; right; by split; [right; left|]].
  rewrite (alloced_zero s b s1 Hal). cbn [Z.eqb negb SFS_TYPE_FILE SFS_TYPE_INVAL].
  change (c_assert (sfi_type (block_inode zero_block) =? SFS_TYPE_INVAL)) with (Ok tt). rewrite Ok_bind.
  change (with_type (block_inode zero_block) SFS_TYPE_FILE) with new_inode. rewrite Ok_bind.
  change (negb ((sfi_type new_inode =? SFS_TYPE_FILE) || (sfi_type new_inode =? SFS_TYPE_DIR))) with false. cbv iota.
  destruct (al_lock al) eqn:El; cbn [negb]; [destruct (al_room al) eqn:Er; cbn [negb]|].
  2-3: exists ENOMEM, 0, (set_dev d' s1); split; [done|]; right; split; [right; right; split; [done|]; intros (_ & ? & ?); congruence|done].
  eexists _, _, _. split; [done|]. left. split; [done|]. exists b. split; [done|].
  destruct (fi_loaded _ _ HF1 p vr (ad_sv _ _ _ Hat)) as (HMr & _). split; [congruence|]. split; [by apply Hfr|]. split; [done|]. split; [cbn; by rewrite lookup_insert_eq|].
  split; [intros y Hy; cbn; rewrite lookup_insert_ne by done; by rewrite Hsvs|]. split.
  - apply core_new; [done|cbn; rewrite Hsvs; by apply Hfr|done|done|]. intros j i Hj.
    change (blocks (dev (set_dev d' s1)) i) with (blocks d' i). destruct (same_disk_blocks (dev s1) d' i Hd) as (_ & -> & _). by eapply Hnb.
  - intros j i Hj1 Hj. destruct (Hk j i Hj1 Hj) as (i' & Hi' & <-). exists i'. rewrite lookup_insert_ne by congruence. done.
Qed.

(** ** Links and references *)

(** Files other than the root directory and [x] keep their bytes. *)
Definition keeps_but (x : Z) (s : sfs) (M : gmap Z sfs_inode) (s' : sfs) (M' : gmap Z sfs_inode) : Prop :=
  forall ino i, ino <> 1 -> ino <> x -> M !! ino = Some i -> exists i', M' !! ino = Some i' /\ data (dev s') i' = data (dev s) i.

Lemma keeps_data_but x s M s' M' : keeps_data s M s' M' -> keeps_but x s M s' M'.
Proof. intros H ino i ? _. by apply H. Qed.

Lemma keeps_but_trans x s M s1 M1 s2 M2 : keeps_but x s M s1 M1 -> keeps_but x s1 M1 s2 M2 -> keeps_but x s M s2 M2.
Proof. intros H1 H2 ino i Hne Hx Hi. destruct (H1 ino i Hne Hx Hi) as (i1 & Hi1 & <-). by apply H2. Qed.

Lemma core_ino p g s v M d : core p s M d -> svs s !! g = Some v -> g <> p -> sv_ino v <> 1.
Proof. intros [HF (w & Hat & H1 & _)] Hg Hne E. apply Hne. destruct Hat as [_ Hp _ _]. eapply (fi_inj _ _ HF); [done|done|congruence]. Qed.

Lemma core_update p g s v s' v' M d : core p s M d -> svs s !! g = Some v -> g <> p -> updates g s v s' v' ->
  core p s' (<[sv_ino v := sv_i v']> M) d /\ keeps_but (sv_ino v) s M s' (<[sv_ino v := sv_i v']> M) /\ others g s s' /\ svs s' !! g = Some v'.
Proof.
  intros [HF Hrt] Hg Hne Hup. split; [split; [by eapply files_update|by eapply rooted_other]|]. split; [|pose proof Hup as []; injection up_rest0 as _ _ Hsvs].
  - intros j i H1 Hj Hi. exists i. rewrite lookup_insert_ne by done. split; [done|]. destruct (updates_other g s v s' v' M j i HF Hg Hup Hi Hj) as (Hb & Hcs & _). unfold data. congruence.
  - split; [intros q Hq; by rewrite Hsvs, lookup_insert_ne|by rewrite Hsvs, lookup_insert_eq].
Qed.

(** The number of links changes. *)
Lemma core_relink p g s v M d n dirty : core p s M d -> svs s !! g = Some v -> g <> p -> 0 <= n < 65536 -> dirty <> 0 ->
  let i' := with_linkcount (sv_i v) n in let s' := sv_wr g (with_inode v i' dirty) s in
  core p s' (<[sv_ino v := i']> M) d /\ keeps_data s M s' (<[sv_ino v := i']> M) /\
    forall slot name, slot_of p s slot name -> slot_of p s' slot name.
Proof.
  intros Hco Hg Hne Hn Hd i' s'. pose proof Hco as [HF _]. destruct (fi_loaded _ _ HF g v Hg) as (HM & Hc). destruct (fi_own _ _ HF _ _ HM) as (_ & Hf & _).
  assert (updates g s v s' (with_inode v i' dirty)) as Hup.
  { eapply memory_updates; [done|done|by destruct Hf as [[] _ _]; constructor|done|done|by left]. }
  destruct (core_update p g s v s' _ M d Hco Hg Hne Hup) as [Hco' _]. split; [exact Hco'|]. split; [apply (keeps_update g s v s' _ M HF Hg Hup); by right|].
  intros slot name (w & k & e & Hw & Hr). exists w, k, e. cbn. rewrite lookup_insert_ne by done. done.
Qed.

Lemma core_drop p g s v M d : core p s M d -> svs s !! g = Some v -> g <> p -> sv_dirty v = 0 ->
  exists l, remove_vnode g (sfs_vnodes s) = Ok l /\ core p (unloaded g l s) M d.
Proof.
  intros [HF Hrt] Hg Hne Hd. destruct (remove_run g (sfs_vnodes s)) as (l & -> & Hnd & Hl); [apply (fi_table _ _ HF); by eexists|by destruct HF|].
  exists l. split; [done|]. pose proof (files_unload g s v M l HF Hg Hd Hnd Hl) as HF'. split; [done|].
  apply (rooted_same p s _ M M); [done|done|cbn; by rewrite lookup_delete_ne|done|done].
Qed.

(** The inode goes with the vnode. *)
Lemma core_forget p g s v M d l : core p s M d -> svs s !! g = Some v -> core p (unloaded g l s) M d -> (forall n, d !! n <> Some (sv_ino v)) ->
  exists m s3, sfs_bfree (sv_ino v) s = Ok s3 /\ s3 = set_freemap m 1 s /\ core p (unloaded g l s3) (delete (sv_ino v) M) d /\
    forall b, 0 <= b -> bit m b = bit (freemap s) b && negb (b =? sv_ino v).
Proof.
  intros [HF _] Hg [HFu Hrt] Hno. destruct (fi_loaded _ _ HF g v Hg) as (HM & _). destruct (fi_own _ _ HF _ _ HM) as (Hu & _).
  destruct (bfree_run g s [] s v (sv_ino v) (frees_nil g s v (fi_fs _ _ HF) Hg) Hu) as (s3 & Hrun & [Hfs _ _ Hbits]); [apply not_elem_of_nil|]. rewrite Hrun.
  unfold sfs_bfree in Hrun. destruct (bitmap_unmark _ _) as [m| | |]; try done. injection Hrun as <-. exists m, (set_freemap m 1 s).
  assert (forall b, 0 <= b -> bit m b = bit (freemap s) b && negb (b =? sv_ino v)) as Hb.
  { intros b Hb. etrans; [exact (Hbits b Hb)|]. f_equal. cbn [app]. destruct (Z.eqb_spec b (sv_ino v)) as [->|]; [by rewrite bool_decide_false by (rewrite list_elem_of_singleton; tauto)|by rewrite bool_decide_true by (by rewrite list_elem_of_singleton)]. }
  assert (files (unloaded g l (set_freemap m 1 s)) (delete (sv_ino v) M)) as HF'.
  { apply (files_forget (unloaded g l s)); [done| |by eexists|by destruct Hfs|done|].
    - intros q w Hq E. cbn in Hq. apply lookup_delete_Some in Hq as [Hq Hw]. apply Hq. symmetry. by eapply (fi_inj _ _ HF).
    - intros b H0 Hbi. cbn. rewrite Hb, (proj2 (Z.eqb_neq b _)) by done. apply andb_true_r. }
  split; [done|]. split; [done|]. split; [|done]. split; [done|]. apply (rooted_same p (unloaded g l s) _ M); [done|done|done|done|].
  intros n ino Hn Hi. apply lookup_delete_is_Some. split; [|done]. intros <-. by apply (Hno n).
Qed.

Definition freed (s : sfs) (v : sfs_vnode) (s' : sfs) : Prop :=
  forall b, b = sv_ino v \/ b ∈ blocks (dev s) (sv_i v) -> bit (freemap s') b = false.

(** What becomes of inode [v] when it has no reference left: it stays when the
    disk failed a read. *)
Definition reclaimed (p g : Z) (s : sfs) (v : sfs_vnode) (M : gmap Z sfs_inode) (d : gmap (list Z) Z) (s' : sfs) : Prop :=
  exists M', core p s' M' d /\ others g s s' /\ keeps_but (sv_ino v) s M s' M' /\ (forall j, j <> sv_ino v -> M' !! j = M !! j) /\
    ((sfi_linkcount (sv_i v) <> 0 /\ svs s' !! g = None /\ M' = M /\ keeps_data s M s' M) \/
     (sfi_linkcount (sv_i v) = 0 /\ ((svs s' !! g = None /\ M' !! sv_ino v = None /\ freed s v s') \/
       (read_fails D /\ exists v', svs s' !! g = Some v' /\ sv_ino v' = sv_ino v /\ sfi_linkcount (sv_i v') = 0 /\ vn_refcount v' = 1 /\ vn_opencount v' = 0)))).

Lemma others_trans g s s1 s2 : others g s s1 -> others g s1 s2 -> others g s s2.
Proof. intros H1 H2 q Hq. by rewrite H2, H1. Qed.

Lemma reclaim_linked p g s v M d : core p s M d -> svs s !! g = Some v -> g <> p -> vn_refcount v = 1 -> vn_opencount v = 0 ->
  sfi_linkcount (sv_i v) <> 0 -> exists r s', sfs_reclaim g s = Ok (r, s') /\ reclaimed p g s v M d s'.
Proof using DKL RW.
  intros Hco Hg Hne Hr Ho Hl. pose proof Hco as [HF _]. unfold sfs_reclaim. rewrite (sv_rd_run g s v Hg), Ok_bind, Hr. cbn [Z.eqb Pos.eqb negb].
  rewrite (proj2 (Z.eqb_neq _ 0) Hl), Ok_bind. cbn [Z.eqb negb].
  destruct (sync_updates g s v M HF Hg) as (s1 & v1 & -> & Hup & Hd1 & Hi1 & Hr1 & Ho1 & _ & Hb1 & Hc1). rewrite Ok_bind. cbn [Z.eqb negb].
  destruct (core_update p g s v s1 v1 M d Hco Hg Hne Hup) as (Hco1 & Hk1 & Hot & Hg1). destruct (fi_loaded _ _ HF g v Hg) as (HM & _).
  rewrite Hi1, insert_id in Hco1, Hk1 by done. pose proof (keeps_update g s v s1 v1 M HF Hg Hup) as Hkd. rewrite Hi1, insert_id in Hkd by done.
  rewrite (sv_rd_run g s1 v1 Hg1), Ok_bind, Hi1, (proj2 (Z.eqb_neq _ 0) Hl), Ok_bind.
  destruct (core_drop p g s1 v1 M d Hco1 Hg1 Hne Hd1) as (l & -> & Hco2). rewrite Ok_bind. unfold vnode_kill. rewrite Hr1, Hr, Ho1, Ho. cbn [Z.eqb Pos.eqb c_assert]. rewrite !Ok_bind.
  eexists _, _. split; [done|]. exists M. split; [exact Hco2|]. split.
  - intros q Hq. cbn. rewrite lookup_delete_ne by done. by apply Hot.
  - split; [exact Hk1|]. split; [done|]. left. split; [done|]. split; [cbn; apply lookup_delete_eq|]. split; [done|]. apply Hkd. right. unfold data. by rewrite Hb1, Hc1.
Qed.

(** Truncating the file of an inode without links. *)
Lemma core_empty p g s v M d : core p s M d -> svs s !! g = Some v -> g <> p ->
  exists r s1 v1, vop_truncate g 0 s = Ok (r, s1) /\ (r = 0 \/ eio D r) /\ updates g s v s1 v1 /\
    (sv_ino v1, vn_refcount v1, vn_opencount v1, sfi_linkcount (sv_i v1)) = (sv_ino v, vn_refcount v, vn_opencount v, sfi_linkcount (sv_i v)) /\
    (r = 0 -> forall b, b ∈ blocks (dev s) (sv_i v) -> bit (freemap s1) b = false).
Proof using DKL RW.
  intros Hco Hg Hne. pose proof Hco as [HF _]. pose proof (core_ino p g s v M d Hco Hg Hne) as Hi1. destruct (fi_loaded _ _ HF g v Hg) as (HM & Hr & Ho).
  destruct (fi_own _ _ HF _ _ HM) as (_ & Hf & Hsz). pose proof (fi_fs _ _ HF) as Hfs.
  unfold vop_truncate. rewrite (vnode_check_run g _ s v) by done. rewrite Ok_bind, (sv_rd_run g s v Hg), Ok_bind, (fi_type _ _ HF _ _ HM), decide_False by done. cbn [Z.eqb Pos.eqb SFS_TYPE_FILE SFS_TYPE_DIR].
  destruct (truncate_run g s v 0 Hfs Hg Hf) as (r & s1 & v1 & Hrun & Htr & Hrr); [lia|]. exists r, s1, v1. split; [done|].
  split; [tauto|]. pose proof Htr as [_ _ _ _ Hbits _ _ Hsame _ _ _]. split; [eapply truncated_updates; [done|done|done|lia]|].
  injection Hsame as -> -> -> _ ->. split; [done|]. intros -> b Hb. cbn [Z.eqb] in Htr. rewrite Hbits.
  - rewrite bool_decide_false; [apply andb_false_r|]. change (blocklen 0) with 0 in Htr. rewrite (truncated_empty g s v s1 v1 Hfs Htr). intros H. by apply H, elem_of_nil in Hb.
  - apply (fo_used _ _ Hf) in Hb as [? _]. lia.
Qed.

Lemma reclaim_unlinked p g s v M d : core p s M d -> svs s !! g = Some v -> g <> p -> vn_refcount v = 1 -> vn_opencount v = 0 ->
  sfi_linkcount (sv_i v) = 0 -> (forall n, d !! n <> Some (sv_ino v)) -> exists r s', sfs_reclaim g s = Ok (r, s') /\ reclaimed p g s v M d s'.
Proof using DKL RW.
  intros Hco Hg Hne Hr Ho Hl Hno. unfold sfs_reclaim. rewrite (sv_rd_run g s v Hg), Ok_bind, Hr, Hl. cbn [Z.eqb Pos.eqb negb].
  destruct (core_empty p g s v M d Hco Hg Hne) as (r & s1 & v1 & -> & Hrr & Hup & Hsame & Hfree). injection Hsame as Hino1 Hr1 Ho1 Hl1. rewrite Ok_bind.
  destruct (core_update p g s v s1 v1 M d Hco Hg Hne Hup) as (Hco1 & Hk1 & Hot1 & Hg1). destruct Hrr as [->|Hrr].
  2: { rewrite (eio_nonzero r Hrr). exists r, s1. split; [done|]. eexists. split; [done|]. split; [done|]. split; [done|]. split; [intros j Hj; by rewrite lookup_insert_ne|].
       right. split; [done|]. right. split; [by destruct Hrr|]. exists v1. split; [done|]. split; [done|lia]. }
  cbn [Z.eqb negb].
  pose proof Hco1 as [HF1 _]. destruct (sync_updates g s1 v1 _ HF1 Hg1) as (s2 & v2 & -> & Hup2 & Hd2 & Hi2 & Hr2 & Ho2 & Hfm & _). rewrite Ok_bind. cbn [Z.eqb negb].
  destruct (core_update p g s1 v1 s2 v2 _ d Hco1 Hg1 Hne Hup2) as (Hco2 & Hk2 & Hot2 & Hg2). pose proof (up_ino _ _ _ _ _ Hup2) as Hino2.
  rewrite (sv_rd_run g s2 v2 Hg2), Ok_bind, Hi2, Hl1, Hl. cbn [Z.eqb]. destruct (core_drop p g s2 v2 _ d Hco2 Hg2 Hne Hd2) as (l & Hrm & Hco3).
  destruct (core_forget p g s2 v2 _ d l Hco2 Hg2 Hco3) as (m & s3 & -> & -> & Hco4 & Hm); [by rewrite Hino2, Hino1|]. rewrite Ok_bind.
  cbn [sfs_vnodes set_freemap]. rewrite Hrm, Ok_bind. unfold vnode_kill. rewrite Hr2, Hr1, Hr, Ho2, Ho1, Ho. cbn [Z.eqb Pos.eqb c_assert]. rewrite !Ok_bind.
  eexists _, _. split; [done|]. eexists. split; [exact Hco4|]. rewrite Hino2, Hino1. rewrite Hino1 in Hk2.
  split; [intros q Hq; cbn; rewrite lookup_delete_ne by done; by rewrite Hot2, Hot1|]. split; [|split].
  - intros j i H1 Hj Hi. destruct (keeps_but_trans _ _ _ _ _ _ _ Hk1 Hk2 j i H1 Hj Hi) as (i' & Hi' & Hc). exists i'. rewrite lookup_delete_ne by done. done.
  - intros j Hj. by rewrite lookup_delete_ne, !lookup_insert_ne by congruence.
  - right. split; [done|]. left. split; [cbn; apply lookup_delete_eq|]. split; [apply lookup_delete_eq|]. intros b Hb. cbn [freemap set_svs set_vnodes set_freemap].
    destruct Hco as [HF _]. destruct (fi_loaded _ _ HF g v Hg) as (HM & _). destruct (fi_own _ _ HF _ _ HM) as ([? _] & Hf & _).
    rewrite Hm, Hino2, Hino1, Hfm. 2: { destruct Hb as [->|Hb]; [lia|]. apply (fo_used _ _ Hf) in Hb as [? _]. lia. }
    destruct Hb as [->|Hb]; [by rewrite Z.eqb_refl, andb_false_r|by rewrite Hfree].
Qed.

Lemma core_decref p g s v M d : core p s M d -> svs s !! g = Some v -> g <> p -> (vn_refcount v = 1 -> vn_opencount v = 0) ->
  (sfi_linkcount (sv_i v) = 0 -> forall n, d !! n <> Some (sv_ino v)) -> exists s', vnode_decref g s = Ok s' /\
   ((1 < vn_refcount v /\ core p s' M d /\ keeps_data s M s' M /\ svs s' = <[g := with_refcount v (vn_refcount v - 1)]> (svs s)) \/
    (vn_refcount v = 1 /\ reclaimed p g s v M d s')).
Proof using DKL RW.
  intros Hco Hg Hne Ho Hl. pose proof Hco as [HF _]. destruct (fi_loaded _ _ HF g v Hg) as (HM & Hr & Ho0). unfold vnode_decref.
  rewrite (sv_rd_run g s v Hg), Ok_bind. replace (vn_refcount v >? 0) with true by lia. cbn [c_assert]. rewrite Ok_bind.
  destruct (Z.gtb_spec (vn_refcount v) 1) as [Hgt|Hle].
  - destruct (core_counts p g s v (with_refcount v (vn_refcount v - 1)) M d Hco Hg) as [Hco' _]; try done; [cbn; lia|].
    eexists. split; [done|]. left. split; [lia|]. split; [done|]. split; [|done]. intros j x _ Hx. eauto.
  - assert (vn_refcount v = 1) as Hr1 by lia. rewrite (vnode_check_run g _ s v), Ok_bind by done.
    destruct (decide (sfi_linkcount (sv_i v) = 0)) as [H0|H0].
    + destruct (reclaim_unlinked p g s v M d Hco Hg Hne Hr1 (Ho Hr1) H0 (Hl H0)) as (r & s' & -> & Hrc). rewrite Ok_bind. exists s'. by split; [|right].
    + destruct (reclaim_linked p g s v M d Hco Hg Hne Hr1 (Ho Hr1) H0) as (r & s' & -> & Hrc). rewrite Ok_bind. exists s'. by split; [|right].
Qed.

End Ops.
End SfsOps.
