(* ===== verification/SfsNames.v ===== *)
(** * Names in the simple file system: creating, linking, removing, renaming

    The root directory stands for a map from names to inode numbers.  Here the
    vnode operations on directories are steps on that map: on every path they
    keep the invariant of the file system and the bytes of all other files, and
    the link counts agree with the map. *)

From S2P Require Import Prelude Uio Bitmap Strings SfsDisk SfsFile SfsIo SfsTruncate SfsDir SfsVnode SfsInv SfsOps.
Import Bitmap Strings SfsDisk SfsFile SfsIo SfsTruncate SfsDir SfsVnode SfsInv SfsOps.

Module SfsNames.

Section Names.
Context {D : Type} {DK : Disk D} {DKL : DiskLaws D} {RW : ReliableWrites D}.
Local Abbreviation sfs := (SfsFile.sfs (D := D)).

(** The directory at [p] stands for [d], the inodes are [M], and the link counts
    are right. *)
Record sane (p : Z) (s : sfs) (M : gmap Z sfs_inode) (d : gmap (list Z) Z) : Prop := mk_sane {
  sn_core : core p s M d;
  sn_links ino i : ino <> 1 -> M !! ino = Some i -> sfi_linkcount i = links d ino;
}.

Lemma sane_step p s M d s' M' : sane p s M d -> core p s' M' d -> (forall j, j <> 1 -> M' !! j = M !! j) -> sane p s' M' d.
Proof. intros [_ Hl] Hco HM. constructor; [done|]. intros ino i H1. rewrite HM by done. by apply Hl. Qed.

Lemma links_bound p s M d ino : core p s M d -> 0 <= links d ino <= 1144.
Proof.
  intros [_ (v & Hat & _ & Hd & _)]. split; [unfold links; lia|]. pose proof Hat as [_ _ _ [_ _ Hmax Hnd]].
  assert (size (filter (fun x => x.2 = ino) d) <= size d)%nat by apply map_subseteq_size, map_filter_subseteq.
  assert (size d <= length (entries s v))%nat as Hs.
  { rewrite <- Hd. unfold dirof, dirmap. rewrite map_size_list_to_map by (rewrite dirmap_names; exact Hnd). rewrite list.length_fmap. apply length_filter. }
  unfold entries in Hs. rewrite slots_length, contents_length in Hs.
  assert (Z.to_nat (sfi_size (sv_i v)) / 64 <= 1144)%nat by (apply Nat.Div0.div_le_upper_bound; lia). unfold links. lia.
Qed.

Lemma links_none d ino : (forall n, d !! n <> Some ino) -> links d ino = 0.
Proof.
  intros Hn. unfold links. rewrite map_empty_filter_2, map_size_empty; [done|]. intros n x Hx. cbn. intros ->. by apply (Hn n).
Qed.

(** Inode [ino] has a vnode in memory. *)
Definition held (s : sfs) (ino : Z) : Prop := exists q v, svs s !! q = Some v /\ sv_ino v = ino.

Lemma held_others p s s' M M' d ino : core p s M d -> core p s' M' d -> others p s s' -> ino <> 1 -> held s' ino <-> held s ino.
Proof.
  intros [_ (v & [_ Hv _ _] & H1 & _)] [_ (v' & [_ Hv' _ _] & H1' & _)] Ho Hne.
  split; intros (q & w & Hq & <-); exists q, w; (destruct (decide (q = p)) as [->|Hqp]; [congruence|]); rewrite Ho in * by done; done.
Qed.

(** A reference to the file [ino] at [g], besides those in [s]. *)
Definition refers (p g ino : Z) (s s' : sfs) : Prop :=
  g <> p /\ exists v, svs s' !! g = Some v /\ sv_ino v = ino /\
    ((held s ino /\ 1 < vn_refcount v) \/ (~ held s ino /\ vn_refcount v = 1 /\ vn_opencount v = 0)).

Lemma referenced_refers al p g ino s s' M d M' : core p s M d -> core p s' M' d -> referenced al ino g s s' -> ino <> 1 -> refers p g ino s s'.
Proof.
  intros Hco Hco' (v & Hv & Hino & Href & Ho) H1. pose proof Hco' as [HF' (w & [_ Hw _ _] & Hw1 & _)]. split; [intros ->; congruence|].
  exists v. split; [done|]. split; [done|]. destruct Href as [(Hg & _ & Hr & Hop)|(v0 & Hv0 & ->)].
  - right. split; [|done]. intros (q & x & Hq & Hx). assert (q <> g) by congruence. assert (q = g); [|done].
    eapply (fi_inj _ _ HF' q g); [by rewrite Ho|done|congruence].
  - left. cbn in *. split; [by exists g, v0|]. destruct Hco as [HF _]. apply (fi_loaded _ _ HF) in Hv0 as (_ & ? & _). lia.
Qed.

Lemma referenced_gains al ino g s s' M : files s M -> referenced al ino g s s' -> gains al g s s'.
Proof.
  intros HF (v & Hv & Hino & Href & Ho). split; [intros q Hq; unfold cnt; by rewrite Ho|]. unfold cnt. rewrite Hv. destruct Href as [(Hg & Hal & Hr & Hop)|(v0 & Hv0 & ->)].
  - left. rewrite Hg. split; [done|]. split; [done|]. exists (sv_ino v). cbn. by rewrite Hr, Hop.
  - right. rewrite Hv0. destruct (fi_loaded _ _ HF g v0 Hv0) as (_ & ? & _). by exists (sv_ino v0), (vn_refcount v0), (vn_opencount v0).
Qed.

(** The conditions on references and addresses carry over. *)
Lemma only_side p s s' M d al : core p s M d -> only p s s' -> bounded s -> fresh al s -> bounded s' /\ fresh al s'.
Proof.
  intros [_ (v & [_ Hv _ _] & _)] [Ho Hp] Hb Hf. split.
  - intros q w Hq. specialize (Hp q). unfold cnt in Hp. rewrite Hq in Hp. destruct (svs s !! q) as [v0|] eqn:Hv0; [|done]. injection Hp as _ -> _. by eapply Hb.
  - intros q Hq. pose proof (Hf q Hq). rewrite Ho; [done|]. intros ->. congruence.
Qed.

Lemma lookonce_run p nm name al junk s M d : sane p s M d -> points_to nm name -> length junk = 64%nat -> bounded s -> fresh al s ->
  exists r g slot s' M', sfs_lookonce p nm al junk s = Ok (r, g, slot, s') /\ sane p s' M' d /\ keeps_data s M s' M' /\ (forall j, j <> 1 -> M' !! j = M !! j) /\
    (if r =? 0 then gains al g s s' else same_counts s s') /\
    ((r = 0 /\ exists ino, d !! name = Some ino /\ slot_of p s' slot name /\ refers p g ino s s') \/
     (r = ENOENT /\ d !! name = None) \/ eio D r \/ enomem al r).
Proof using DKL.
  intros Hsn Hnm Hl Hb Hfr. pose proof Hsn as [Hco Hlk]. unfold sfs_lookonce.
  destruct (core_findname p nm name junk s M d Hco Hnm Hl) as (r & found & empty & s1 & M1 & -> & Hco1 & Hk1 & Ho1 & HM1 & Hr). rewrite Ok_bind.
  pose proof (sane_step _ _ _ _ _ _ Hsn Hco1 HM1) as Hsn1.
  destruct Hr as [(ino & slot & -> & -> & Hd & Hslot)|Hr].
  2: { assert (r <> 0) as Hr0 by (destruct Hr as [[-> _]|[-> _]]; done). rewrite (proj2 (Z.eqb_neq r 0) Hr0). cbn [negb].
       exists r, 0, 0, s1, M1. split; [done|]. split; [done|]. split; [done|]. split; [done|]. rewrite (proj2 (Z.eqb_neq r 0) Hr0). split; [apply Ho1|]. right. tauto. }
  cbn [Z.eqb negb]. rewrite Ok_bind. pose proof Hco as [_ (vr & Hat & H1 & _ & Hn)]. destruct (Hn name ino Hd) as [Hi1 HMi].
  destruct (only_side p s s1 M d al Hco Ho1 Hb Hfr) as [Hb1 Hfr1].
  destruct (core_load p ino al s1 M1 d Hco1) as (r & g & s2 & -> & Hco2 & Hk2 & Hsl2 & Hr); [by rewrite HM1|done|done|]. rewrite Ok_bind.
  pose proof (sane_step _ _ _ _ _ _ Hsn1 Hco2 (fun j _ => eq_refl)) as Hsn2. pose proof (keeps_data_trans _ _ _ _ _ _ Hk1 Hk2) as Hk.
  destruct Hr as [[-> Href]|[Hr Hsv]].
  2: { assert (r <> 0) as Hr0 by (destruct Hr as [[-> _]|[-> _]]; done). rewrite (proj2 (Z.eqb_neq r 0) Hr0). cbn [negb].
       exists r, 0, slot, s2, M1. split; [done|]. split; [done|]. split; [done|]. split; [done|]. rewrite (proj2 (Z.eqb_neq r 0) Hr0).
       split; [intros q; unfold cnt; rewrite Hsv; apply Ho1|]. tauto. }
  cbn [Z.eqb negb]. destruct (referenced_refers al p g ino s1 s2 M1 d M1 Hco1 Hco2 Href Hi1) as (Hgp & v & Hv & Hino & Hcnt).
  rewrite (sv_rd_run g s2 v Hv), Ok_bind. pose proof Hco2 as [HF2 _]. destruct (fi_loaded _ _ HF2 g v Hv) as (HMv & _).
  rewrite (sn_links _ _ _ _ Hsn2 (sv_ino v) (sv_i v)), Hino by (done || congruence). pose proof (links_pos d name ino Hd). rewrite (proj2 (Z.eqb_neq (links d ino) 0)) by lia.
  exists 0, g, slot, s2, M1. split; [done|]. split; [done|]. split; [done|]. split; [done|]. split; [apply (same_gains al g s s1); [apply Ho1|apply (referenced_gains al ino g s1 s2 M1); [apply Hco1|done]]|].
  left. split; [done|]. exists ino. split; [done|]. split; [by apply Hsl2|].
  split; [done|]. exists v. rewrite (held_others p s s1 M M1 d ino Hco Hco1 (proj1 Ho1) Hi1) in Hcnt. done.
Qed.

(** The link count of the file at [g] follows the map. *)
Lemma sane_relink p g n s M d s1 M1 d1 v : sane p s M d -> core p s1 M1 d1 -> (forall j, j <> 1 -> M1 !! j = M !! j) ->
  svs s1 !! g = Some v -> g <> p -> (forall j, links d1 j = links d j + if decide (sv_ino v = j) then n else 0) ->
  let i' := with_linkcount (sv_i v) (links d1 (sv_ino v)) in let s2 := sv_wr g (with_inode v i' 1) s1 in
  add_link g n s1 = Ok s2 /\ sane p s2 (<[sv_ino v := i']> M1) d1 /\ keeps_data s1 M1 s2 (<[sv_ino v := i']> M1) /\
    forall slot name, slot_of p s1 slot name -> slot_of p s2 slot name.
Proof.
  intros Hsn Hco1 HM Hg Hne Hlk i' s2. pose proof Hco1 as [HF1 _]. destruct (fi_loaded _ _ HF1 g v Hg) as (HMv & _).
  pose proof (core_ino p g s1 v M1 d1 Hco1 Hg Hne) as Hi1. pose proof (links_bound p s1 M1 d1 (sv_ino v) Hco1) as Hb.
  assert ((sfi_linkcount (sv_i v) + n) mod 65536 = links d1 (sv_ino v)) as Hn.
  { rewrite HM in HMv by done. rewrite (sn_links _ _ _ _ Hsn _ _ Hi1 HMv). pose proof (Hlk (sv_ino v)) as E. rewrite decide_True in E by done. rewrite Z.mod_small; lia. }
  destruct (core_relink p g s1 v M1 d1 (links d1 (sv_ino v)) 1 Hco1 Hg Hne) as (Hco2 & Hk2 & Hsl2); [lia|done|].
  split; [unfold add_link; by rewrite (sv_rd_run g s1 v Hg), Ok_bind, Hn|]. split; [|done]. constructor; [done|].
  intros ino i H1. rewrite lookup_insert. case_decide as E; [subst ino; by intros [= <-]|]. rewrite HM by done. intros Hi.
  rewrite (sn_links _ _ _ _ Hsn _ _ H1 Hi), Hlk, decide_False by done. lia.
Qed.

(** Dropping a reference to a file. *)
Lemma sane_decref p g s v M d : sane p s M d -> svs s !! g = Some v -> g <> p -> (vn_refcount v = 1 -> vn_opencount v = 0) ->
  exists s' M', vnode_decref g s = Ok s' /\ sane p s' M' d /\ keeps_but (sv_ino v) s M s' M' /\ (forall j, j <> sv_ino v -> M' !! j = M !! j) /\ loses g s s' /\
    (0 < links d (sv_ino v) \/ 1 < vn_refcount v -> keeps_data s M s' M') /\
    (links d (sv_ino v) = 0 -> vn_refcount v = 1 -> (M' !! sv_ino v = None /\ freed s v s') \/ (read_fails D /\ is_Some (M' !! sv_ino v))).
Proof using DKL RW.
  intros Hsn Hg Hne Ho. pose proof Hsn as [Hco Hlk]. pose proof Hco as [HF _]. destruct (fi_loaded _ _ HF g v Hg) as (HMv & Hr & _).
  pose proof (core_ino p g s v M d Hco Hg Hne) as Hi1. pose proof (Hlk _ _ Hi1 HMv) as Hl.
  destruct (core_decref p g s v M d Hco Hg Hne Ho) as (s' & -> & Hcase).
  { rewrite Hl. intros H0 n Hn. apply links_pos in Hn. lia. }
  destruct Hcase as [(Hgt & Hco' & Hk & Hsv)|(Hr1 & M' & Hco' & Hot & Hkb & HM' & Hcase)].
  - exists s', M. split; [done|]. split; [by eapply sane_step|]. split; [by apply keeps_data_but|]. split; [done|]. split; [|split; [done|lia]].
    split; [intros q Hq; unfold cnt; by rewrite Hsv, lookup_insert_ne|]. left. unfold cnt. rewrite Hsv, lookup_insert_eq, Hg. by exists (sv_ino v), (vn_refcount v), (vn_opencount v).
  - exists s', M'. split; [done|]. rewrite Hl in Hcase. pose proof (Ho Hr1) as Ho1.
    assert (loses g s s') as Hlose.
    { split; [intros q Hq; unfold cnt; by rewrite Hot|]. right. unfold cnt. rewrite Hg. exists (sv_ino v). cbn. rewrite Hr1, Ho1. split; [done|].
      destruct Hcase as [(_ & -> & _)|[_ [(-> & _)|(_ & v' & -> & Hi & _ & Hr' & Ho')]]]; [by left|by left|right; cbn; congruence]. }
    destruct Hcase as [(H0 & _ & -> & Hk)|(H0 & Hcase)].
    + split; [by eapply sane_step|]. split; [done|]. split; [done|]. split; [done|]. split; [done|]. by intros ?.
    + split; [|split; [done|split; [done|split; [done|split; [lia|]]]]].
      * constructor; [done|]. intros ino i H1 Hi. destruct (decide (ino = sv_ino v)) as [->|]; [|rewrite HM' in Hi by done; by apply Hlk].
        destruct Hcase as [(_ & Hnone & _)|(_ & v' & Hv' & Hino & Hl' & _)]; [congruence|]. destruct Hco' as [HF' _].
        destruct (fi_loaded _ _ HF' g v' Hv') as (HM2 & _). rewrite Hino in HM2. assert (i = sv_i v') as -> by congruence. lia.
      * intros _ _. destruct Hcase as [(_ & Hnone & Hf)|(Hrf & v' & Hv' & Hino & Hl' & _)]; [by left|right]. split; [done|]. destruct Hco' as [HF' _].
        destruct (fi_loaded _ _ HF' g v' Hv') as (HM2 & _). rewrite Hino in HM2. by eexists.
Qed.

Lemma sane_new p s M d s1 ino : sane p s M d -> core p s1 (<[ino := new_inode]> M) d -> M !! ino = None -> sane p s1 (<[ino := new_inode]> M) d.
Proof.
  intros [Hco Hlk] Hco1 Hno. constructor; [done|]. intros j i H1. rewrite lookup_insert. case_decide as E; [|by apply Hlk]. subst j. intros [= <-].
  rewrite links_none; [done|]. destruct Hco as [_ (v & _ & _ & _ & Hn)]. intros n Hx. destruct (Hn n ino Hx) as [_ [? ?]]. congruence.
Qed.

(** The second half of [sfs_creat]: the new inode gets its name. *)
Lemma creat_named p nm name g ino junk s0 s M d : points_to nm name -> zlen name < 4294967295 -> length junk = 64%nat ->
  sane p s (<[ino := new_inode]> M) d -> keeps_data s0 M s (<[ino := new_inode]> M) -> M !! ino = None -> ino <> 1 -> g <> p ->
  svs s !! g = Some (mk_sv new_inode ino 1 1 0) ->
  exists r g' s' M' d', ('(result, _, s) ← sfs_dir_link p nm ino junk s;
      if negb (result =? 0) then s ← vnode_decref g s; Ok (result, 0, s) else s ← add_link g 1 s; Ok (0, g, s)) = Ok (r, g', s') /\
    sane p s' M' d' /\ keeps_data s0 M s' M' /\ (if r =? 0 then g' = g /\ same_counts s s' else loses g s s') /\
    ((r = 0 /\ d !! name = None /\ d' = <[name := ino]> d /\ exists v, svs s' !! g' = Some v /\ sv_ino v = ino /\ contents (dev s') (sv_i v) = []) \/
     (d' = d /\ ((r = EEXIST /\ is_Some (d !! name)) \/ (r = ENAMETOOLONG /\ (59 < length name)%nat) \/ io_error D r))).
Proof using DKL RW.
  intros Hnm Hlen Hl Hsn Hk Hno Hi1 Hgp Hg. pose proof Hsn as [Hco _].
  destruct (core_link p nm name ino junk s _ d Hco Hnm Hlen Hl) as (r & slot & s1 & M1 & d1 & -> & Hco1 & Hk1 & [Ho1 Hc1] & HM1 & Hr); [by rewrite lookup_insert_eq|done|].
  rewrite Ok_bind. assert (svs s1 !! g = Some (mk_sv new_inode ino 1 1 0)) as Hg1 by (by rewrite Ho1).
  destruct Hr as [(-> & Hnone & -> & _)|(-> & Hr)].
  - cbn [Z.eqb negb]. destruct (sane_relink p g 1 s _ d s1 M1 (<[name := ino]> d) _ Hsn Hco1 HM1 Hg1 Hgp) as (-> & Hsn2 & Hk2 & _).
    { intros j. by rewrite links_insert. }
    rewrite Ok_bind. eexists _, _, _, _, _. split; [done|]. split; [exact Hsn2|]. split.
    { eapply keeps_data_trans; [exact Hk|]. eapply keeps_data_trans; [exact Hk1|exact Hk2]. }
    split; [split; [done|]; eapply same_counts_trans; [exact Hc1|by eapply wr_counts]|].
    left. split; [done|]. split; [done|]. split; [done|]. eexists. split; [cbn; apply lookup_insert_eq|]. split; [done|]. reflexivity.
  - assert (r <> 0) as Hr0 by (destruct Hr as [[-> _]|[[-> _]|[-> |[[-> _]| ->]]]]; done). rewrite (proj2 (Z.eqb_neq r 0) Hr0). cbn [negb].
    destruct (sane_decref p g s1 _ M1 d (sane_step _ _ _ _ _ _ Hsn Hco1 HM1) Hg1 Hgp) as (s2 & M2 & -> & Hsn2 & Hk2 & _ & Hlo & _); [done|]. rewrite Ok_bind.
    exists r, 0, s2, M2, d. split; [done|]. split; [done|]. split; [|rewrite (proj2 (Z.eqb_neq r 0) Hr0); split; [by apply (same_loses g s s1)|by right]].
    intros j i H1 Hj. destruct (keeps_data_trans _ _ _ _ _ _ Hk Hk1 j i H1 Hj) as (i1 & Hj1 & <-). apply Hk2; [done| |done]. cbn. congruence.
Qed.

Lemma creat_run p nm name excl al junk (s : sfs) M d : sane p s M d -> points_to nm name -> zlen name < 4294967295 ->
  length junk = 64%nat -> bounded s -> fresh al s ->
  exists r g s' M' d', sfs_creat p nm excl al junk s = Ok (r, g, s') /\ sane p s' M' d' /\ keeps_data s M s' M' /\ (if r =? 0 then gains al g s s' else leaks al s s') /\
    ((r = 0 /\ exists v, svs s' !! g = Some v /\ d' !! name = Some (sv_ino v) /\
        match d !! name with
        | Some ino => excl = false /\ sv_ino v = ino /\ d' = d
        | None => M !! sv_ino v = None /\ d' = <[name := sv_ino v]> d /\ contents (dev s') (sv_i v) = []
        end) \/
     (d' = d /\ ((r = EEXIST /\ excl = true /\ is_Some (d !! name)) \/ (r = ENAMETOOLONG /\ (59 < length name)%nat) \/ enomem al r \/ io_error D r))).
Proof using DKL RW.
  intros Hsn Hnm Hlen Hl Hb Hfr. pose proof Hsn as [Hco _]. unfold sfs_creat.
  destruct (core_findname p nm name junk s M d Hco Hnm Hl) as (r & found & empty & s1 & M1 & -> & Hco1 & Hk1 & Ho1 & HM1 & Hr). rewrite Ok_bind.
  pose proof (sane_step _ _ _ _ _ _ Hsn Hco1 HM1) as Hsn1. destruct (only_side p s s1 M d al Hco Ho1 Hb Hfr) as [Hb1 Hfr1].
  destruct Hr as [(ino & slot & -> & -> & Hd & _)|[(-> & Hd)|Hr]].
  - cbn [Z.eqb negb andb]. destruct excl; [exists EEXIST, 0, s1, M1, d; split; [done|]; split; [done|]; split; [done|]; split; [apply same_leaks, Ho1|]; right; split; [done|]; left; by rewrite Hd|].
    rewrite Ok_bind. pose proof Hco as [_ (vr & _ & _ & _ & Hn)]. destruct (Hn name ino Hd) as [Hi1 HMi].
    destruct (core_load p ino al s1 M1 d Hco1) as (r & g & s2 & -> & Hco2 & Hk2 & _ & Hr); [by rewrite HM1|done|done|].
    exists r, g, s2, M1, d. split; [done|]. split; [by eapply sane_step|]. split; [by eapply keeps_data_trans|]. destruct Hr as [[-> Href]|[Hr Hsv]].
    + split; [apply (same_gains al g s s1); [apply Ho1|apply (referenced_gains al ino g s1 s2 M1); [apply Hco1|done]]|].
      destruct Href as (v & Hv & <- & _). left. split; [done|]. exists v. by rewrite Hd.
    + assert (r <> 0) as Hr0 by (destruct Hr as [[-> _]|[-> _]]; done). rewrite (proj2 (Z.eqb_neq r 0) Hr0). split; [apply same_leaks; intros q; unfold cnt; rewrite Hsv; apply Ho1|].
      right. split; [done|]. unfold io_error. tauto.
  - cbn [Z.eqb Pos.eqb negb andb ENOENT]. destruct (core_make p al s1 M1 d Hco1 Hfr1) as (r & g & s2 & -> & Hr). rewrite Ok_bind.
    destruct Hr as [(-> & ino & Hno & Hi1 & Hg1 & Hal & Hg & Ho2 & Hco2 & Hk2)|(Hr & Hco2 & Hk2 & Hsv)].
    + cbn [Z.eqb negb]. rewrite (sv_rd_run g s2 _ Hg), Ok_bind. cbn [sv_ino]. pose proof Hco1 as [_ (vr & [_ Hp _ _] & _)].
      destruct (creat_named p nm name g ino junk s1 s2 M1 d) as (r & g' & s3 & M3 & d3 & -> & Hsn3 & Hk3 & Hc3 & Hr); try done; [by eapply sane_new|congruence|].
      assert (gains al g s s2) as Hg2.
      { apply (same_gains al g s s1); [apply Ho1|]. split; [intros q Hq; unfold cnt; by rewrite Ho2|]. left. unfold cnt. rewrite Hg1, Hg. split; [done|]. split; [done|]. by exists ino. }
      exists r, g', s3, M3, d3. split; [done|]. split; [done|]. split; [by eapply keeps_data_trans|].
      split; [destruct (r =? 0); [destruct Hc3 as [-> Hc3]; by eapply gains_same|by eapply gains_loses]|]. rewrite HM1 in Hno by done.
      destruct Hr as [(-> & _ & -> & v & Hv & <- & Hc)|(-> & Hr)]; [|right; split; [done|]; rewrite Hd in Hr; destruct Hr as [[_ [? ?]]|Hr]; [done|tauto]].
      left. split; [done|]. exists v. rewrite Hd, lookup_insert_eq. done.
    + assert (r <> 0) as Hr0 by (destruct Hr as [-> |[[-> _]|[-> _]]]; done). rewrite (proj2 (Z.eqb_neq r 0) Hr0). cbn [negb].
      exists r, 0, s2, M1, d. split; [done|]. split; [by eapply sane_step|]. split; [by eapply keeps_data_trans|]. rewrite (proj2 (Z.eqb_neq r 0) Hr0).
      split; [apply same_leaks; intros q; unfold cnt; rewrite Hsv; apply Ho1|]. right. split; [done|]. unfold io_error. tauto.
  - assert (r <> 0 /\ r <> ENOENT) as [Hr0 Hr1] by (destruct Hr as [-> _]; done). rewrite (proj2 (Z.eqb_neq r 0) Hr0), (proj2 (Z.eqb_neq r ENOENT) Hr1). cbn [negb andb].
    exists r, 0, s1, M1, d. split; [done|]. split; [done|]. split; [done|]. rewrite (proj2 (Z.eqb_neq r 0) Hr0). split; [apply same_leaks, Ho1|]. right. split; [done|]. unfold io_error. tauto.
Qed.

(** Inode [ino] has lost a name.  With another name or a reference left it keeps its
    data; otherwise it is erased and its blocks are free, or it stays, on a disk
    that can fail reads. *)
Definition unlinked (ino : Z) (i : sfs_inode) (s0 s : sfs) (M0 : gmap Z sfs_inode) (s' : sfs) (M' : gmap Z sfs_inode) (d : gmap (list Z) Z) : Prop :=
  keeps_but ino s0 M0 s' M' /\ (0 < links d ino \/ held s ino -> keeps_data s0 M0 s' M') /\
  (links d ino = 0 -> ~ held s ino -> (M' !! ino = None /\ forall b, b = ino \/ b ∈ blocks (dev s0) i -> bit (freemap s') b = false) \/ (read_fails D /\ is_Some (M' !! ino))).

Lemma sane_unlinked p g ino i s0 s s1 M0 M1 d v : sane p s1 M1 d -> keeps_data s0 M0 s1 M1 -> M0 !! ino = Some i -> svs s1 !! g = Some v -> g <> p ->
  sv_ino v = ino -> (held s ino /\ 1 < vn_refcount v) \/ (~ held s ino /\ vn_refcount v = 1 /\ vn_opencount v = 0) ->
  exists s' M', vnode_decref g s1 = Ok s' /\ sane p s' M' d /\ loses g s1 s' /\ unlinked ino i s0 s M0 s' M' d.
Proof using DKL RW.
  intros Hsn Hk Hi Hg Hne <- Hcnt. destruct (sane_decref p g s1 v M1 d Hsn Hg Hne) as (s' & M' & Hrun & Hsn' & Hkb & _ & Hlo & Hkeep & Hfree); [lia|].
  pose proof Hsn as [Hco _]. pose proof (core_ino p g s1 v M1 d Hco Hg Hne) as Hi1.
  exists s', M'. split; [done|]. split; [done|]. split; [done|]. split; [eapply keeps_but_trans; [by apply keeps_data_but|done]|]. split.
  - intros Hor. eapply keeps_data_trans; [done|]. apply Hkeep. destruct Hor as [|Hh]; [by left|right]. destruct Hcnt as [[_ ?]|[? _]]; [done|contradiction].
  - intros H0 Hh. destruct Hcnt as [[? _]|(_ & Hr & _)]; [done|]. destruct (Hfree H0 Hr) as [[Hnone Hf]|?]; [left|by right]. split; [done|].
    destruct (Hk _ _ Hi1 Hi) as (i1 & Hi1' & Hdata). destruct Hco as [HF _]. destruct (fi_loaded _ _ HF g v Hg) as (HMv & _).
    assert (i1 = sv_i v) as -> by congruence. injection Hdata as Hbl _. intros b Hb. apply Hf. by rewrite Hbl.
Qed.

Lemma remove_names_run p nm name al junk (s : sfs) M d : sane p s M d -> points_to nm name -> length junk = 64%nat -> bounded s -> fresh al s ->
  exists r s' M' d', sfs_remove p nm al junk s = Ok (r, s') /\ sane p s' M' d' /\ leaks al s s' /\
    ((r = 0 /\ exists ino i, d !! name = Some ino /\ M !! ino = Some i /\ d' = delete name d /\ unlinked ino i s s M s' M' d') \/
     (d' = d /\ keeps_data s M s' M' /\ ((r = ENOENT /\ d !! name = None) \/ eio D r \/ enomem al r))).
Proof using DKL RW.
  intros Hsn Hnm Hl Hb Hfr. pose proof Hsn as [Hco _]. unfold sfs_remove.
  destruct (lookonce_run p nm name al junk s M d Hsn Hnm Hl Hb Hfr) as (r & g & slot & s1 & M1 & -> & Hsn1 & Hk1 & HM1 & Hct & Hr). rewrite Ok_bind.
  destruct Hr as [(-> & ino & Hd & Hslot & Hgp & v & Hv & Hino & Hcnt)|Hr].
  2: { assert (r <> 0) as Hr0 by (destruct Hr as [[-> _]|[[-> _]|[-> _]]]; done). rewrite (proj2 (Z.eqb_neq r 0) Hr0). cbn [negb].
       exists r, s1, M1, d. split; [done|]. split; [done|]. rewrite (proj2 (Z.eqb_neq r 0) Hr0) in Hct. split; [by apply same_leaks|]. by right. }
  cbn [Z.eqb negb] in Hct |- *. pose proof Hsn1 as [Hco1 _]. pose proof (core_ino p g s1 v M1 d Hco1 Hv Hgp) as Hi1. pose proof Hco1 as [HF1 _].
  destruct (fi_loaded _ _ HF1 g v Hv) as (HMv & _). assert (M !! ino = Some (sv_i v)) as HM by (rewrite <- HM1, <- Hino by congruence; done).
  pose proof (links_pos d name ino Hd) as Hpos. pose proof (sn_links _ _ _ _ Hsn1 _ _ Hi1 HMv) as Hlk. rewrite Hino in Hlk.
  destruct (core_unlink p slot name s1 M1 d Hco1 Hslot) as (r & s2 & M2 & d2 & -> & Hco2 & Hk2 & [Ho2 Hc2] & HM2 & Hr). rewrite Ok_bind.
  assert (svs s2 !! g = Some v) as Hv2 by (by rewrite Ho2). pose proof (keeps_data_trans _ _ _ _ _ _ Hk1 Hk2) as Hk.
  destruct Hr as [(-> & ->)|(Hr & -> & _)].
  - cbn [Z.eqb]. rewrite (sv_rd_run g s2 v Hv2), Ok_bind, Hlk. replace (links d ino >? 0) with true by lia. cbn [c_assert]. rewrite Ok_bind.
    destruct (sane_relink p g (-1) s1 M1 d s2 M2 (delete name d) v Hsn1 Hco2 HM2 Hv2 Hgp) as (-> & Hsn3 & Hk3 & _).
    { intros j. rewrite (links_delete d name ino j Hd), Hino. case_decide; lia. }
    rewrite Ok_bind. set (v3 := with_inode v _ 1) in *. set (s3 := sv_wr g v3 s2) in *.
    destruct (sane_unlinked p g ino (sv_i v) s s s3 M _ (delete name d) v3 Hsn3 (keeps_data_trans _ _ _ _ _ _ Hk Hk3) HM) as (s' & M' & -> & Hsn' & Hlo & Hdr); [cbn; apply lookup_insert_eq|done|done|done|].
    rewrite Ok_bind. exists 0, s', M', (delete name d). split; [done|]. split; [done|].
    split; [eapply gains_loses; [|exact Hlo]; eapply gains_same; [exact Hct|]; eapply same_counts_trans; [exact Hc2|by apply (wr_counts g s2 v)]|]. left. split; [done|]. by exists ino, (sv_i v).
  - assert (r <> 0) as Hr0 by (destruct Hr as [-> _]; done). rewrite (proj2 (Z.eqb_neq r 0) Hr0), Ok_bind.
    destruct (sane_unlinked p g ino (sv_i v) s s s2 M M2 d v (sane_step _ _ _ _ _ _ Hsn1 Hco2 HM2) Hk HM Hv2 Hgp Hino Hcnt) as (s' & M' & -> & Hsn' & Hlo & _ & Hkeep & _).
    rewrite Ok_bind. exists r, s', M', d. split; [done|]. split; [done|]. split; [eapply gains_loses; [|exact Hlo]; by eapply gains_same|]. right. split; [done|]. split; [apply Hkeep; by left|tauto].
Qed.

Definition unlink_old (p g slot1 slot2 : Z) (s : sfs) : outcome (Z * sfs) :=
  '(result, s) ← sfs_dir_unlink p slot1 s;
  if negb (result =? 0) then
    '(result2, s) ← sfs_dir_unlink p slot2 s;
    if negb (result2 =? 0) then Panic
    else
      v ← sv_rd g s;
      let s := sv_wr g (with_inode v (with_linkcount (sv_i v) ((sfi_linkcount (sv_i v) - 1) mod 65536)) (sv_dirty v)) s in
      s ← vnode_decref g s;
      Ok (result, s)
  else
    v ← sv_rd g s;
    _ ← c_assert (sfi_linkcount (sv_i v) >? 0);
    s ← add_link g (-1) s;
    s ← vnode_decref g s;
    Ok (0, s).

(** A name of the file at [g] is gone from the directory, and there is another. *)
Lemma drop_name p g n ino s M d s2 M2 v : sane p s M d -> core p s2 M2 (delete n d) -> d !! n = Some ino -> 0 < links (delete n d) ino ->
  (forall j, j <> 1 -> M2 !! j = M !! j) -> svs s2 !! g = Some v -> g <> p -> sv_ino v = ino -> (vn_refcount v = 1 -> vn_opencount v = 0) ->
  let s3 := sv_wr g (with_inode v (with_linkcount (sv_i v) ((sfi_linkcount (sv_i v) + -1) mod 65536)) 1) s2 in
  exists s' M', vnode_decref g s3 = Ok s' /\ sane p s' M' (delete n d) /\ keeps_data s2 M2 s' M' /\ loses g s2 s'.
Proof using DKL RW.
  intros Hsn Hco2 Hdn Hpos HM2 Hv2 Hgp Hino Hopen s3.
  destruct (sane_relink p g (-1) s M d s2 M2 (delete n d) v Hsn Hco2 HM2 Hv2 Hgp) as (Hadd & Hsn3 & Hk3 & _).
  { intros j. rewrite (links_delete d n ino j Hdn), Hino. case_decide; lia. }
  unfold add_link in Hadd. rewrite (sv_rd_run g s2 v Hv2), Ok_bind in Hadd. fold s3 in Hadd. set (v3 := with_inode v _ 1) in Hsn3, Hk3, Hadd.
  assert (sv_wr g v3 s2 = s3) as E by congruence. rewrite E in *.
  destruct (sane_decref p g s3 v3 _ (delete n d) Hsn3) as (s' & M' & Hdec & Hsn' & _ & _ & Hlo & Hkeep & _); [rewrite <- E; cbn; apply lookup_insert_eq|done|done|].
  exists s', M'. split; [done|]. split; [done|]. split; [|apply (same_loses g s2 s3); [by apply (wr_counts g s2 v)|done]].
  eapply keeps_data_trans; [exact Hk3|]. apply Hkeep. left. cbn. by rewrite Hino.
Qed.

(** One of two names of the file at [g] goes again: the old one, or else the new. *)
Lemma unlink_old_run p g n1 n2 slot1 slot2 ino s0 M0 s M d v : sane p s M (<[n2 := ino]> d) -> keeps_data s0 M0 s M -> d !! n1 = Some ino -> d !! n2 = None ->
  is_Some (M0 !! ino) -> svs s !! g = Some v -> g <> p -> sv_ino v = ino -> sv_dirty v = 1 -> (vn_refcount v = 1 -> vn_opencount v = 0) ->
  slot_of p s slot1 n1 -> slot_of p s slot2 n2 ->
  (unlink_old p g slot1 slot2 s = Panic /\ read_fails D) \/
  exists r s' M' d', unlink_old p g slot1 slot2 s = Ok (r, s') /\ sane p s' M' d' /\ keeps_data s0 M0 s' M' /\ loses g s s' /\
    ((r = 0 /\ d' = delete n1 (<[n2 := ino]> d)) \/ (eio D r /\ d' = d)).
Proof using DKL RW.
  intros Hsn Hk Hd1 Hd2 [i0 Hi0] Hg Hgp Hino Hdirty Hopen Hs1 Hs2. pose proof Hsn as [Hco _]. set (d1 := <[n2 := ino]> d) in *. unfold unlink_old.
  pose proof (core_ino p g s v M d1 Hco Hg Hgp) as Hi1. pose proof Hco as [HF _]. destruct (fi_loaded _ _ HF g v Hg) as (HMv & _).
  pose proof (sn_links _ _ _ _ Hsn _ _ Hi1 HMv) as Hlk. assert (n1 <> n2) as Hnn by congruence.
  assert (d1 !! n1 = Some ino) as Hd11 by (unfold d1; by rewrite lookup_insert_ne). assert (d1 !! n2 = Some ino) as Hd12 by (unfold d1; by rewrite lookup_insert_eq).
  destruct (core_unlink p slot1 n1 s M d1 Hco Hs1) as (r & s2 & M2 & d2 & E1 & Hco2 & Hk2 & [Ho2 Hc2] & HM2 & Hr). rewrite E1, Ok_bind.
  assert (svs s2 !! g = Some v) as Hv2 by (by rewrite Ho2). destruct Hr as [(-> & ->)|(Hr & -> & Hsl)].
  - right. cbn [Z.eqb negb]. rewrite (sv_rd_run g s2 v Hv2), Ok_bind, Hlk, Hino. pose proof (links_pos d1 n1 ino Hd11). replace (links d1 ino >? 0) with true by lia.
    cbn [c_assert]. unfold add_link. rewrite Ok_bind, (sv_rd_run g s2 v Hv2), !Ok_bind.
    destruct (drop_name p g n1 ino s M d1 s2 M2 v) as (s' & M' & -> & Hsn' & Hk' & Hlo); try done; [apply (links_pos _ n2); by rewrite lookup_delete_ne|].
    rewrite Ok_bind. pose proof (keeps_data_trans _ _ _ _ _ _ Hk2 Hk').
    exists 0, s', M', (delete n1 d1). split; [done|]. split; [done|]. split; [by eapply keeps_data_trans|]. split; [by eapply same_loses|by left].
  - rewrite (eio_nonzero r Hr). cbn [negb]. destruct (core_unlink p slot2 n2 s2 M2 d1 Hco2 (Hsl _ _ Hs2)) as (r2 & s3 & M3 & d3 & E2 & Hco3 & Hk3 & [Ho3 Hc3] & HM3 & Hr2).
    rewrite E2, Ok_bind. destruct Hr2 as [(-> & ->)|(Hr2 & _)]; [right|left; rewrite (eio_nonzero r2 Hr2); split; [done|]; by destruct Hr2].
    cbn [Z.eqb negb]. assert (svs s3 !! g = Some v) as Hv3 by (by rewrite Ho3). rewrite (sv_rd_run g s3 v Hv3), Ok_bind, Hdirty.
    change (sfi_linkcount (sv_i v) - 1) with (sfi_linkcount (sv_i v) + -1).
    destruct (drop_name p g n2 ino s M d1 s3 M3 v) as (s' & M' & -> & Hsn' & Hk' & Hlo); try done; [apply (links_pos _ n1); by rewrite lookup_delete_ne|intros j Hj; by rewrite HM3, HM2|].
    rewrite Ok_bind. exists r, s', M', (delete n2 d1). split; [done|]. split; [done|].
    split; [|split; [eapply same_loses; [|exact Hlo]; by eapply same_counts_trans|right; split; [done|]; unfold d1; by rewrite delete_insert_id]].
    eapply keeps_data_trans; [exact Hk|]. eapply keeps_data_trans; [exact Hk2|]. by eapply keeps_data_trans.
Qed.

Lemma rename_names_run p nm1 n1 nm2 n2 al junk (s : sfs) M d : sane p s M d -> points_to nm1 n1 -> points_to nm2 n2 -> zlen n2 < 4294967295 ->
  length junk = 64%nat -> bounded s -> fresh al s ->
  (sfs_rename p nm1 p nm2 al junk s = Panic /\ read_fails D) \/
  exists r s' M' d', sfs_rename p nm1 p nm2 al junk s = Ok (r, s') /\ sane p s' M' d' /\ keeps_data s M s' M' /\ leaks al s s' /\
    ((r = 0 /\ exists ino, d !! n1 = Some ino /\ d !! n2 = None /\ d' = delete n1 (<[n2 := ino]> d)) \/
     (d' = d /\ ((r = ENOENT /\ d !! n1 = None) \/ (r = EEXIST /\ is_Some (d !! n2)) \/ (r = ENAMETOOLONG /\ (59 < length n2)%nat) \/ enomem al r \/ io_error D r))).
Proof using DKL RW.
  intros Hsn Hnm1 Hnm2 Hlen Hl Hb Hfr. pose proof Hsn as [Hco _]. unfold sfs_rename. rewrite Z.eqb_refl. cbn [c_assert]. rewrite Ok_bind.
  pose proof Hco as [_ (vr & [_ Hp _ _] & Hr1 & _)]. rewrite (sv_rd_run p s vr Hp), Ok_bind, Hr1. cbn [SFS_ROOT_LOCATION Z.eqb Pos.eqb c_assert]. rewrite Ok_bind.
  destruct (lookonce_run p nm1 n1 al junk s M d Hsn Hnm1 Hl Hb Hfr) as (r & g & slot & s1 & M1 & -> & Hsn1 & Hk1 & HM1 & Hct & Hr). rewrite Ok_bind.
  destruct Hr as [(-> & ino & Hd & Hslot & Hgp & v & Hv & Hino & Hcnt)|Hr].
  2: { right. assert (r <> 0) as Hr0 by (destruct Hr as [[-> _]|[[-> _]|[-> _]]]; done). rewrite (proj2 (Z.eqb_neq r 0) Hr0). cbn [negb].
       exists r, s1, M1, d. split; [done|]. split; [done|]. split; [done|]. rewrite (proj2 (Z.eqb_neq r 0) Hr0) in Hct. split; [by apply same_leaks|]. right. unfold io_error. tauto. }
  cbn [Z.eqb negb] in Hct |- *. pose proof Hsn1 as [Hco1 _]. pose proof (core_ino p g s1 v M1 d Hco1 Hv Hgp) as Hi1. pose proof Hco1 as [HF1 _].
  destruct (fi_loaded _ _ HF1 g v Hv) as (HMv & _). assert (is_Some (M1 !! ino)) as HMi by (rewrite <- Hino; by eexists).
  rewrite (sv_rd_run g s1 v Hv), Ok_bind, (fi_type _ _ HF1 _ _ HMv), decide_False by done. cbn [SFS_TYPE_FILE Z.eqb Pos.eqb c_assert]. rewrite Ok_bind, Hino. rewrite Hino in Hi1.
  destruct (core_link p nm2 n2 ino junk s1 M1 d Hco1 Hnm2 Hlen Hl HMi Hi1) as (r & slot2 & s2 & M2 & d2 & -> & Hco2 & Hk2 & [Ho2 Hc2] & HM2 & Hr). rewrite Ok_bind.
  assert (svs s2 !! g = Some v) as Hv2 by (by rewrite Ho2). assert (vn_refcount v = 1 -> vn_opencount v = 0) as Hopen by lia.
  destruct Hr as [(-> & Hnone & -> & Hslot2 & Hsl)|(-> & Hr)].
  - cbn [Z.eqb negb]. destruct (sane_relink p g 1 s1 M1 d s2 M2 (<[n2 := ino]> d) v Hsn1 Hco2 HM2 Hv2 Hgp) as (-> & Hsn3 & Hk3 & Hsl3).
    { intros j. by rewrite links_insert, Hino. }
    rewrite Ok_bind. set (v3 := with_inode v _ 1) in *. set (s3 := sv_wr g v3 s2) in *.
    destruct (unlink_old_run p g n1 n2 slot slot2 ino s1 M1 s3 _ d v3 Hsn3) as [[E Hst]|(r & s' & M' & d' & E & Hsn' & Hk' & Hlo & Hr)]; try done;
      [by eapply keeps_data_trans|cbn; apply lookup_insert_eq|by apply Hsl3, Hsl|by apply Hsl3| |]; unfold unlink_old in E; rewrite E; [by left|right].
    exists r, s', M', d'. split; [done|]. split; [done|]. split; [by eapply keeps_data_trans|].
    split; [eapply gains_loses; [|exact Hlo]; eapply gains_same; [exact Hct|]; eapply same_counts_trans; [exact Hc2|by apply (wr_counts g s2 v)]|]. destruct Hr as [[-> ->]|[Hr ->]]; [left; eauto|right; unfold io_error; tauto].
  - right. assert (r <> 0) as Hr0 by (destruct Hr as [[-> _]|[[-> _]|[-> |[[-> _]| ->]]]]; done). rewrite (proj2 (Z.eqb_neq r 0) Hr0). cbn [negb].
    destruct (sane_decref p g s2 v M2 d (sane_step _ _ _ _ _ _ Hsn1 Hco2 HM2) Hv2 Hgp Hopen) as (s' & M' & -> & Hsn' & _ & _ & Hlo & Hkeep & _). rewrite Ok_bind.
    exists r, s', M', d. split; [done|]. split; [done|]. split; [|split; [eapply gains_loses; [|exact Hlo]; by eapply gains_same|right; tauto]]. eapply keeps_data_trans; [exact Hk1|]. eapply keeps_data_trans; [exact Hk2|].
    apply Hkeep. left. rewrite Hino. by eapply links_pos.
Qed.

(** [sfs_link] gives a file of the directory one more name, or fails and
    leaves the directory as it was; the number of links is right in either case,
    and all files keep their data. *)
Theorem sfs_link_names p nm name f junk (s : sfs) M d v : sane p s M d -> points_to nm name -> zlen name < 4294967295 -> length junk = 64%nat ->
  svs s !! f = Some v -> f <> p ->
  exists r s' M' d', sfs_link p nm f junk s = Ok (r, s') /\ sane p s' M' d' /\ keeps_data s M s' M' /\ same_counts s s' /\
    ((r = 0 /\ d !! name = None /\ d' = <[name := sv_ino v]> d) \/
     (d' = d /\ ((r = EEXIST /\ is_Some (d !! name)) \/ (r = ENAMETOOLONG /\ (59 < length name)%nat) \/ io_error D r))).
Proof using DKL RW.
  intros Hsn Hnm Hlen Hl Hf Hfp. pose proof Hsn as [Hco _]. unfold sfs_link. rewrite (sv_rd_run f s v Hf), Ok_bind. pose proof Hco as [HF _].
  destruct (fi_loaded _ _ HF f v Hf) as (HMv & _). pose proof (core_ino p f s v M d Hco Hf Hfp) as Hi1.
  destruct (core_link p nm name (sv_ino v) junk s M d Hco Hnm Hlen Hl) as (r & slot & s1 & M1 & d1 & -> & Hco1 & Hk1 & [Ho1 Hc1] & HM1 & Hr); [by eexists|done|]. rewrite Ok_bind.
  assert (svs s1 !! f = Some v) as Hf1 by (by rewrite Ho1). destruct Hr as [(-> & Hnone & -> & _)|(-> & Hr)].
  - cbn [Z.eqb negb]. destruct (sane_relink p f 1 s M d s1 M1 (<[name := sv_ino v]> d) v Hsn Hco1 HM1 Hf1 Hfp) as (-> & Hsn2 & Hk2 & _); [intros j; by rewrite links_insert|].
    rewrite Ok_bind. eexists _, _, _, _. split; [done|]. split; [exact Hsn2|]. split; [by eapply keeps_data_trans|]. split; [eapply same_counts_trans; [exact Hc1|by eapply wr_counts]|]. by left.
  - assert (r <> 0) as Hr0 by (destruct Hr as [[-> _]|[[-> _]|[-> |[[-> _]| ->]]]]; done). rewrite (proj2 (Z.eqb_neq r 0) Hr0). cbn [negb].
    exists r, s1, M1, d. split; [done|]. split; [by eapply sane_step|]. split; [done|]. split; [done|]. by right.
Qed.

(** [sfs_lookup] of a name in the root directory hands out exactly the file
    that has it, with a reference of its own. *)
Theorem sfs_lookup_names p nm name al junk (s : sfs) M d : sane p s M d -> points_to nm name -> length junk = 64%nat -> bounded s -> fresh al s ->
  exists r g s' M', sfs_lookup p nm al junk s = Ok (r, g, s') /\ sane p s' M' d /\ keeps_data s M s' M' /\ (if r =? 0 then gains al g s s' else same_counts s s') /\
    ((r = 0 /\ exists ino, d !! name = Some ino /\ refers p g ino s s') \/ (r = ENOENT /\ d !! name = None) \/ enomem al r \/ eio D r).
Proof using DKL RW.
  intros Hsn Hnm Hl Hb Hfr. pose proof Hsn as [[_ (vr & [_ Hp _ Hdir] & _)] _]. unfold sfs_lookup. rewrite (sv_rd_run p s vr Hp), Ok_bind, (do_type _ _ Hdir).
  cbn [SFS_TYPE_DIR Z.eqb Pos.eqb negb].
  destruct (lookonce_run p nm name al junk s M d Hsn Hnm Hl Hb Hfr) as (r & g & slot & s1 & M1 & -> & Hsn1 & Hk1 & _ & Hct & Hr). rewrite Ok_bind.
  destruct (Z.eqb_spec r 0) as [->|Hr0]; cbn [negb]; eexists _, _, _, _; split; try done; (split; [done|]; split; [done|]); rewrite ?(proj2 (Z.eqb_neq r 0) Hr0); (split; [done|]); [|right; destruct Hr as [[? _]|Hr]; [done|tauto]].
  destruct Hr as [(_ & ino & Hd & _ & Href)|[[? _]|[[? _]|[? _]]]]; try done. left. eauto.
Qed.

End Names.

(** ** The theorems *)

Section Theorems.
Context {D : Type} {DK : Disk D} {DKL : DiskLaws D}.
Local Abbreviation sfs := (SfsFile.sfs (D := D)).

(** C16. On a disk whose writes succeed, [sfs_creat] on the root directory either
    hands out the file that has the name, or makes a new empty file under it, or
    fails.  Whatever happens, the file system stays sane, with link counts that
    agree with the directory, and all files keep their data; when it fails the
    directory is as before.  It fails with EEXIST for a name that exists, if it
    must not, with ENAMETOOLONG for a name of more than 59 characters, with ENOMEM
    if an allocation failed, with EIO if the disk can fail reads, and with ENOSPC
    or EINVAL if the disk or the directory is full. *)
Theorem sfs_creat_names p nm name excl al junk (s : sfs) M d : ReliableWrites D -> sane p s M d -> points_to nm name -> zlen name < 4294967295 ->
  length junk = 64%nat -> bounded s -> fresh al s ->
  exists r g s' M' d', sfs_creat p nm excl al junk s = Ok (r, g, s') /\ sane p s' M' d' /\ keeps_data s M s' M' /\
    ((r = 0 /\ exists v, svs s' !! g = Some v /\ d' !! name = Some (sv_ino v) /\
        match d !! name with
        | Some ino => excl = false /\ sv_ino v = ino /\ d' = d
        | None => M !! sv_ino v = None /\ d' = <[name := sv_ino v]> d /\ contents (dev s') (sv_i v) = []
        end) \/
     (d' = d /\ ((r = EEXIST /\ excl = true /\ is_Some (d !! name)) \/ (r = ENAMETOOLONG /\ (59 < length name)%nat) \/ enomem al r \/ io_error D r))).
Proof using DKL.
  intros RW Hsn Hnm Hlen Hl Hb Hfr. destruct (creat_run p nm name excl al junk s M d Hsn Hnm Hlen Hl Hb Hfr) as (r & g & s' & M' & d' & H1 & H2 & H3 & _ & H4). by exists r, g, s', M', d'.
Qed.

(** C15. On a disk whose writes succeed, [sfs_remove] on the root directory takes
    exactly the name out of it, or fails and leaves the directory as it was: with
    ENOENT if there is no such name, with ENOMEM if an allocation failed, with EIO
    if the disk can fail reads.  A file that keeps another name or that is in use
    keeps its data, and so do all other files; one that is not is erased and all
    its blocks are free.  Only on a disk that can fail reads it may instead be left
    without a name. *)
Theorem sfs_remove_names p nm name al junk (s : sfs) M d : ReliableWrites D -> sane p s M d -> points_to nm name -> length junk = 64%nat -> bounded s -> fresh al s ->
  exists r s' M' d', sfs_remove p nm al junk s = Ok (r, s') /\ sane p s' M' d' /\
    ((r = 0 /\ exists ino i, d !! name = Some ino /\ M !! ino = Some i /\ d' = delete name d /\ unlinked ino i s s M s' M' d') \/
     (d' = d /\ keeps_data s M s' M' /\ ((r = ENOENT /\ d !! name = None) \/ eio D r \/ enomem al r))).
Proof using DKL.
  intros RW Hsn Hnm Hl Hb Hfr. destruct (remove_names_run p nm name al junk s M d Hsn Hnm Hl Hb Hfr) as (r & s' & M' & d' & H1 & H2 & _ & H3). by exists r, s', M', d'.
Qed.


End Theorems.

(** ** A file system with one empty file *)

Definition small_file : sfs_inode := mk_inode 0 1 1 (replicate 15 0) 0 (replicate 110 0).

Definition small_fs : SfsFile.sfs (D := good_disk) :=
  mk_sfs (mk_good (<[1 := inode_block demo_root]> (<[4 := inode_block small_file]> (<[5 := dir_bytes (mk_dir 4 (97 :: replicate 59 0)) ++ replicate 448 0]> ∅)))) 64 0
    (mk_bitmap 64 [63; 0; 0; 0; 0; 0; 0; 0]) 0 [16] {[16 := root_sv]}.

Definition small_inodes : gmap Z sfs_inode := <[1 := demo_root]> (<[4 := small_file]> ∅).
Definition small_names : gmap (list Z) Z := <[name_a := 4]> ∅.
Definition small_alloc : alloc := mk_alloc (Some 32) true true.

Lemma small_fs_ok : fs_ok small_fs.
Proof.
  constructor; cbn; try lia; [|reflexivity]. split; [cbn; lia|]. split; [reflexivity|]. split; [|cbn; lia].
  repeat (constructor; [lia|]). constructor.
Qed.

Lemma small_cases ino i : small_inodes !! ino = Some i -> (ino = 1 /\ i = demo_root) \/ (ino = 4 /\ i = small_file).
Proof. unfold small_inodes. rewrite !lookup_insert, lookup_empty. repeat case_decide; try done; intros [= <-]; auto. Qed.

Lemma small_blocks : blocks (dev small_fs) demo_root = [5] /\ blocks (dev small_fs) small_file = [].
Proof. split; vm_compute; reflexivity. Qed.

Lemma small_svs q v : svs small_fs !! q = Some v -> q = 16 /\ v = root_sv.
Proof. cbn. rewrite lookup_singleton_Some. by intros [<- <-]. Qed.

Lemma small_files : files small_fs small_inodes.
Proof.
  destruct small_blocks as [E1 E4]. constructor.
  - exact small_fs_ok.
  - apply NoDup_singleton.
  - intros q. cbn. rewrite list_elem_of_singleton, lookup_singleton_is_Some. done.
  - intros q v Hq. apply small_svs in Hq as [-> ->]. cbn. split; [reflexivity|lia].
  - intros q q' v v' Hq Hq' _. apply small_svs in Hq as [-> _], Hq' as [-> _]. done.
  - intros ino i Hi _. apply small_cases in Hi as [[-> ->]|[-> ->]]; vm_compute; reflexivity.
  - intros ino i Hi. apply small_cases in Hi as [[-> ->]|[-> ->]]; (split; [split; [cbn; lia|reflexivity]|]); (split; [|cbn; lia]); constructor; rewrite ?E1, ?E4;
      try (constructor; cbn; try done || (unfold word32, u32_mod; lia); repeat (constructor; [unfold word32, u32_mod; lia|]); constructor).
    + intros b Hb. apply list_elem_of_singleton in Hb as ->. split; [cbn; lia|reflexivity].
    + apply NoDup_singleton.
    + by intros b ?%elem_of_nil.
  - intros ino i ino' i' Hi Hi'. apply small_cases in Hi as [[-> ->]|[-> ->]], Hi' as [[-> ->]|[-> ->]]; rewrite ?E1, ?E4; rewrite ?list_elem_of_singleton; try done; apply not_elem_of_nil.
  - intros ino i ino' i' Hi Hi' Hne. apply small_cases in Hi as [[-> ->]|[-> ->]], Hi' as [[-> ->]|[-> ->]]; try done; unfold apart; rewrite ?E1, ?E4; intros b; [intros _|]; by intros ?%elem_of_nil || apply not_elem_of_nil.
  - intros ino i Hi. apply small_cases in Hi as [[-> ->]|[-> ->]]; reflexivity.
Qed.

Lemma small_sane : sane 16 small_fs small_inodes small_names.
Proof.
  constructor.
  - split; [exact small_files|]. exists root_sv. split; [|split; [reflexivity|split; [vm_compute; reflexivity|]]].
    + constructor; [exact small_fs_ok|reflexivity|by apply (fi_own _ _ small_files 1)|].
      constructor; [reflexivity|reflexivity|cbn; lia|]. assert (names (slots (contents (dev small_fs) (sv_i root_sv))) = [[97]]) as -> by (vm_compute; reflexivity).
      apply NoDup_singleton.
    + intros n ino. unfold small_names. rewrite lookup_insert, lookup_empty. case_decide; [|done]. intros [= <-]. split; [done|]. by eexists.
  - intros ino i H1 Hi. apply small_cases in Hi as [[-> ->]|[-> ->]]; [done|vm_compute; reflexivity].
Qed.

Lemma small_bounded : bounded small_fs /\ fresh small_alloc small_fs.
Proof. split; [intros q v Hq; apply small_svs in Hq as [-> ->]; cbn; lia|]. intros q [= <-]. reflexivity. Qed.

Lemma sfs_creat_names_witness : exists g s' ino, sfs_creat 16 (name_b ++ [0]) true small_alloc (replicate 64 0) small_fs = Ok (0, g, s') /\
  exists M', sane 16 s' M' (<[name_b := ino]> small_names).
Proof.
  destruct (sfs_creat_names 16 (name_b ++ [0]) name_b true small_alloc (replicate 64 0) small_fs small_inodes small_names good_disk_writes) as (r & g & s' & M' & d' & Hrun & Hsn & _ & Hr).
  - exact small_sane.
  - apply points_str, str_one. lia.
  - cbn. lia.
  - reflexivity.
  - exact (proj1 small_bounded).
  - exact (proj2 small_bounded).
  - destruct Hr as [(-> & v & _ & _ & Hd)|(-> & Hr)].
    + assert (small_names !! name_b = None) as E by (vm_compute; reflexivity). rewrite E in Hd. destruct Hd as (_ & -> & _). exists g, s', (sv_ino v). split; [exact Hrun|]. exists M'. exact Hsn.
    + exfalso. vm_compute in Hrun. injection Hrun as <- _ _. by destruct Hr as [[? _]|[[? _]|[[? _]|Hr%error_nonzero]]].
Defined.

Lemma sfs_remove_names_witness : exists s' M', sfs_remove 16 (name_a ++ [0]) small_alloc (replicate 64 0) small_fs = Ok (0, s') /\
  sane 16 s' M' (delete name_a small_names).
Proof.
  destruct (sfs_remove_names 16 (name_a ++ [0]) name_a small_alloc (replicate 64 0) small_fs small_inodes small_names good_disk_writes) as (r & s' & M' & d' & Hrun & Hsn & Hr).
  - exact small_sane.
  - apply points_str, str_one. lia.
  - reflexivity.
  - exact (proj1 small_bounded).
  - exact (proj2 small_bounded).
  - destruct Hr as [(-> & ino & i & _ & _ & -> & _)|(_ & _ & Hr)]; [exists s', M'; split; [exact Hrun|exact Hsn]|].
    exfalso. vm_compute in Hrun. injection Hrun as <- _. by destruct Hr as [[? _]|[[? _]|[? _]]].
Defined.


End SfsNames.
