(* ===== verification/SfsFs.v ===== *)
(** * Mounting and synchronising the simple file system: kern/fs/sfs/sfs_fs.c

    A mounted file system is its superblock and the state [sfs] of SfsFile.v.
    The theorem at the end is about what survives: after [sfs_sync] the disk
    alone determines the file system, and mounting it again gives the same free
    map and the same files. *)

From S2P Require Import Prelude Uio Bitmap SfsDisk SfsFile SfsIo SfsTruncate SfsDir SfsVnode SfsInv SfsOps SfsNames.
Import Bitmap SfsDisk SfsFile SfsIo SfsDir SfsVnode SfsInv SfsOps SfsNames.

Module SfsFs.

Definition SFS_MAGIC : Z := 2880106497.
Definition SFS_SB_LOCATION : Z := 0.
Definition SFS_MAP_LOCATION : Z := 2.
Definition SFS_BLOCKBITS : Z := SFS_BLOCKSIZE * 8.
Definition SFS_ROUNDUP (a b : Z) : Z := u32 (u32 (u32 (a + b) - 1) / b * b).
Definition SFS_BITMAPSIZE (nblocks : Z) : Z := SFS_ROUNDUP nblocks SFS_BLOCKBITS.
Definition SFS_BITBLOCKS (nblocks : Z) : Z := SFS_BITMAPSIZE nblocks / SFS_BLOCKBITS.

Record sfs_super : Type := mk_super {
  sp_magic : Z;
  sp_blocks : Z;
  sp_volname : list Z;
  sp_reserved : list Z;
}.

Definition super_block (sp : sfs_super) : list Z :=
  word_bytes (sp_magic sp) ++ word_bytes (sp_blocks sp) ++ sp_volname sp ++ bytes_of (sp_reserved sp).

Definition block_super (bs : list Z) : sfs_super :=
  let ws := words_of (take 8 bs) in mk_super (nth 0 ws 0) (nth 1 ws 0) (take 32 (drop 8 bs)) (words_of (drop 40 bs)).

(** The allocations of [sfs_domount]: the structure, the array of vnodes, and the
    two of the bitmap. *)
Record mount_alloc : Type := mk_mount_alloc {
  ma_fs : bool;
  ma_vnodes : bool;
  ma_map : bool;
  ma_bits : bool;
}.

(** All of them succeed. *)
Definition granted (al : mount_alloc) : bool := ma_fs al && ma_vnodes al && ma_map al && ma_bits al.

Section Ops.
Context {D : Type} `{DK : Disk D}.
Local Abbreviation sfs := (SfsFile.sfs (D := D)).

(** The loop of [sfs_mapio] from block [j] on, [n] rounds; [bitdata + j*512] is
    the part of the bitmap that is read into or written. *)
Fixpoint mapio_loop (n : nat) (j : Z) (w : bool) (s : sfs) : outcome (Z * sfs) :=
  match n with
  | O => Ok (0, s)
  | S n' =>
      let at_ := Z.to_nat (j * SFS_BLOCKSIZE) in
      let bits := bitmap_getdata (freemap s) in
      let ptr := take 512 (drop at_ bits) in
      if zlen ptr <? 512 then Undef
      else
        '(result, s) ←
          (if w then wblock ptr (SFS_MAP_LOCATION + j) s
           else
             '(result, data, s) ← rblock ptr (SFS_MAP_LOCATION + j) s;
             Ok (result, set_freemap (set_v (freemap s) (take at_ bits ++ data ++ drop (at_ + 512) bits)) (freemapdirty s) s));
        if negb (result =? 0) then Ok (result, s) else mapio_loop n' (j + 1) w s
  end.

Definition sfs_mapio (w : bool) (s : sfs) : outcome (Z * sfs) := mapio_loop (Z.to_nat (SFS_BITBLOCKS (sp_nblocks s))) 0 w s.

(** The loop over the loaded vnodes. *)
Fixpoint fsync_all (l : list Z) (s : sfs) : outcome sfs :=
  match l with
  | [] => Ok s
  | sv :: l' =>
      _ ← vnode_check sv false s;
      '(_, s) ← sfs_fsync sv s;
      fsync_all l' s
  end.

Definition sfs_sync (sp : sfs_super) (s : sfs) : outcome (Z * sfs) :=
  s ← fsync_all (sfs_vnodes s) s;
  '(result, s) ←
    (if negb (freemapdirty s =? 0) then
       '(result, s) ← sfs_mapio true s;
       if negb (result =? 0) then Ok (result, s) else Ok (0, set_freemap (freemap s) 0 s)
     else Ok (0, s));
  if negb (result =? 0) then Ok (result, s)
  else if negb (superdirty s =? 0) then
    '(result, s) ← wblock (super_block sp) SFS_SB_LOCATION s;
    if negb (result =? 0) then Ok (result, s)
    else Ok (0, mk_sfs (dev s) (sp_nblocks s) 0 (freemap s) (freemapdirty s) (sfs_vnodes s) (svs s))
  else Ok (0, s).

Definition sfs_getvolname (sp : sfs_super) : list Z := sp_volname sp.

(** [None] when the file system is gone. *)
Definition sfs_unmount (s : sfs) : outcome (Z * option sfs) :=
  if zlen (sfs_vnodes s) >? 0 then Ok (EBUSY, Some s)
  else
    _ ← c_assert (superdirty s =? 0);
    _ ← c_assert (freemapdirty s =? 0);
    Ok (0, None).

(** The disk, the size of its sectors and the outcome of the allocations. *)
Definition sfs_domount (d : D) (d_blocksize : Z) (al : mount_alloc) : outcome (Z * option (sfs_super * sfs) * D) :=
  if negb (d_blocksize =? SFS_BLOCKSIZE) then Ok (ENXIO, None, d)
  else if negb (ma_fs al) then Ok (ENOMEM, None, d)
  else if negb (ma_vnodes al) then Ok (ENOMEM, None, d)
  else
    '(result, data, d) ← sfs_rblock zero_block SFS_SB_LOCATION d;
    if negb (result =? 0) then Ok (result, None, d)
    else
      let sp := block_super data in
      if negb (sp_magic sp =? SFS_MAGIC) then Ok (EINVAL, None, d)
      else
        let sp := mk_super (sp_magic sp) (sp_blocks sp) (<[31%nat := 0]> (sp_volname sp)) (sp_reserved sp) in
        m ← bitmap_create (ma_map al) (ma_bits al) (SFS_BITMAPSIZE (sp_blocks sp));
        match m with
        | None => Ok (ENOMEM, None, d)
        | Some m =>
            '(result, s) ← sfs_mapio false (mk_sfs d (sp_blocks sp) 0 m 0 [] ∅);
            if negb (result =? 0) then Ok (result, None, dev s) else Ok (0, Some (sp, s), dev s)
        end.

End Ops.

Section Fs.
Context {D : Type} {DK : Disk D} {DKL : DiskLaws D} {RW : ReliableWrites D}.
Local Abbreviation sfs := (SfsFile.sfs (D := D)).

(** ** Writing the inodes *)

(** The vnodes in [l] went to the disk. *)
Record flushed (l : list Z) (M : gmap Z sfs_inode) (s s' : sfs) : Prop := mk_flushed {
  fl_files : files s' M;
  fl_rest : (sp_nblocks s', superdirty s', freemap s', freemapdirty s', sfs_vnodes s', d_blocks (dev s')) =
    (sp_nblocks s, superdirty s, freemap s, freemapdirty s, sfs_vnodes s, d_blocks (dev s));
  fl_clean q v : svs s' !! q = Some v -> sv_dirty v <> 0 -> q ∉ l /\ svs s !! q = Some v;
  fl_dom q : is_Some (svs s' !! q) <-> is_Some (svs s !! q);
  fl_sectors b : ~ is_Some (M !! b) -> sector (dev s') b = sector (dev s) b;
  fl_data ino i : M !! ino = Some i -> data (dev s') i = data (dev s) i;
}.

Lemma fsync_all_run M l : forall s, files s M -> (forall q, q ∈ l -> is_Some (svs s !! q)) -> exists s', fsync_all l s = Ok s' /\ flushed l M s s'.
Proof using DKL RW.
  induction l as [|q l IH]; intros s HF Hl; cbn [fsync_all].
  { exists s. split; [done|]. constructor; try done. intros q v Hv Hd. split; [apply not_elem_of_nil|done]. }
  destruct (Hl q) as [v Hv]; [by left|]. destruct (fi_loaded _ _ HF q v Hv) as (HM & Hr & Ho). rewrite (vnode_check_run q _ s v Hv Hr Ho), Ok_bind. unfold sfs_fsync.
  destruct (sync_run q s v M HF Hv) as (d' & v' & -> & Hup & Hd' & Hi' & _ & _ & Hdb & Hsec). rewrite Ok_bind. set (s1 := sv_wr q v' (set_dev d' s)) in *.
  assert (files s1 M) as HF1. { pose proof (files_update q s v s1 v' M HF Hv Hup) as H. by rewrite Hi', insert_id in H. }
  assert (forall x, is_Some (svs s1 !! x) <-> is_Some (svs s !! x)) as Hdom.
  { intros x. cbn. rewrite lookup_insert_is_Some. destruct (decide (q = x)) as [<-|]; [|naive_solver]. split; [intros _; by eexists|by left]. }
  destruct (IH s1 HF1) as (s' & -> & Hfl). { intros x Hx. apply Hdom, Hl. by right. }
  exists s'. split; [done|]. destruct Hfl as [HF' Hrest Hcl Hd2 Hs2 Hdata]. constructor; [done|by rewrite Hrest, <- Hdb| |by intros x; rewrite Hd2| |].
  - intros x w Hx Hw. destruct (Hcl x w Hx Hw) as [Hn Hx1]. cbn in Hx1. destruct (decide (q = x)) as [<-|Hne]; [rewrite lookup_insert_eq in Hx1; congruence|].
    rewrite lookup_insert_ne in Hx1 by done. split; [|done]. intros [->|?]%elem_of_cons; done.
  - intros b Hb. rewrite Hs2 by done. apply Hsec. intros ->. apply Hb. by eexists.
  - intros ino i Hi. rewrite (Hdata _ _ Hi). apply pair_equal_spec, blocks_same. intros b Hb. apply Hsec. intros ->. by apply (fi_clear _ _ HF _ _ _ _ Hi HM).
Qed.

(** ** The free map on the disk *)

(** The part of the map in block [j]. *)
Definition chunk (m : bitmap) (j : Z) : list Z := take 512 (drop (Z.to_nat (j * 512)) (v m)).

Lemma chunk_block m j n : wf m -> zlen (v m) = 512 * n -> 0 <= j < n -> is_block (chunk m j).
Proof.
  intros (_ & _ & Hb & _) Hl Hj. unfold chunk. split; [rewrite length_take, length_drop; lia|]. by apply Forall_take, Forall_drop.
Qed.

Lemma mapio_write n : forall j s, fs_ok s -> 0 <= j -> zlen (v (freemap s)) = 512 * (j + Z.of_nat n) -> 2 + (j + Z.of_nat n) <= sp_nblocks s ->
  exists d', mapio_loop n j true s = Ok (0, set_dev d' s) /\ d_blocks d' = d_blocks (dev s) /\
    forall b, sector d' b = if decide (2 + j <= b < 2 + j + Z.of_nat n) then chunk (freemap s) (b - 2) else sector (dev s) b.
Proof using DKL RW.
  induction n as [|n IH]; intros j s Hfs Hj Hl Hn; cbn [mapio_loop].
  { exists (dev s). split; [by destruct s|]. split; [done|]. intros b. by rewrite decide_False by lia. }
  pose proof Hfs as []. pose proof (chunk_block (freemap s) j (j + Z.of_nat (S n)) fk_map0 Hl ltac:(lia)) as Hblk. unfold bitmap_getdata, SFS_BLOCKSIZE.
  fold (chunk (freemap s) j). rewrite (proj1 Hblk). cbn [Z.ltb Z.compare Pos.compare Pos.compare_cont]. unfold wblock, SFS_MAP_LOCATION.
  destruct (sfs_wblock_run (chunk (freemap s) j) (2 + j) (dev s) Hblk) as (d1 & -> & Hdb & Hw); [apply fs_block; [done|lia]|]. rewrite !Ok_bind. cbn [Z.eqb negb].
  destruct (IH (j + 1) (set_dev d1 s)) as (d' & -> & Hd' & Hs'); [constructor; cbn; try done; by rewrite Hdb|lia|cbn; lia|cbn; lia|].
  exists d'. split; [done|]. split; [cbn in Hd'; congruence|]. intros b. rewrite Hs'. cbn [freemap set_dev dev]. rewrite Hw.
  destruct (decide (2 + (j + 1) <= b < 2 + (j + 1) + Z.of_nat n)); [by rewrite decide_True by lia|]. destruct (decide (b = 2 + j)) as [->|].
  - rewrite decide_True by lia. f_equal. lia.
  - by rewrite decide_False by lia.
Qed.

Lemma mapio_read m n : forall j (s : sfs), 0 <= j -> zlen (v (freemap s)) = 512 * (j + Z.of_nat n) -> zlen (v m) = 512 * (j + Z.of_nat n) ->
  (forall i, j <= i < j + Z.of_nat n -> disk_block (dev s) (2 + i) /\ sector (dev s) (2 + i) = chunk m i) ->
  exists r d' vs, mapio_loop n j false s = Ok (r, set_freemap (set_v (freemap s) vs) (freemapdirty s) (set_dev d' s)) /\ same_disk (dev s) d' /\
    ((r = 0 /\ vs = take (Z.to_nat (j * 512)) (v (freemap s)) ++ drop (Z.to_nat (j * 512)) (v m)) \/ eio D r).
Proof using DKL.
  induction n as [|n IH]; intros j s Hj Hl Hm Hsec; cbn [mapio_loop].
  { exists 0, (dev s), (v (freemap s)). split; [destruct s as [? ? ? [] ? ? ?]; done|]. split; [done|]. left. split; [done|].
    rewrite firstn_all2, drop_ge, app_nil_r by lia. done. }
  unfold bitmap_getdata, SFS_BLOCKSIZE. fold (chunk (freemap s) j). assert (length (chunk (freemap s) j) = 512%nat) as Hc by (unfold chunk; rewrite length_take, length_drop; lia).
  rewrite Hc. change (Z.of_nat 512 <? 512) with false. cbv iota. unfold rblock, SFS_MAP_LOCATION. destruct (Hsec j) as [Hdb Hs]; [lia|].
  destruct (sfs_rblock_run (chunk (freemap s) j) (2 + j) (dev s)) as (r & data & d1 & -> & Hd1 & Hr); [by rewrite Hc|done|]. rewrite !Ok_bind. cbn [freemap set_dev freemapdirty].
  set (a := Z.to_nat (j * 512)) in *. destruct Hr as [[-> ->]|[Hr _]].
  2: { rewrite (eio_nonzero r Hr). cbn [negb]. eexists r, d1, _. split; [done|]. split; [done|]. by right. }
  cbn [Z.eqb negb].
  rewrite Hs. set (vs1 := take a (v (freemap s)) ++ chunk m j ++ drop (a + 512) (v (freemap s))). assert (length (chunk m j) = 512%nat) as Hcm by (unfold chunk; rewrite length_take, length_drop; lia).
  destruct (IH (j + 1) (set_freemap (set_v (freemap s) vs1) (freemapdirty s) (set_dev d1 s))) as (r & d' & vs & -> & Hd' & Hr); [lia| |lia| |].
  { cbn. unfold vs1. rewrite !length_app, length_take, length_drop, Hcm. lia. }
  { intros i Hi. destruct (Hsec i) as [[H1 H2] H3]; [lia|]. destruct Hd1 as [Hn1 Hs1]. cbn. rewrite Hs1, H3. split; [|done]. split; [by rewrite Hn1|done]. }
  exists r, d', vs. split; [done|]. split; [by etrans|]. destruct Hr as [[-> ->]|Hr]; [left; split; [done|]|by right]. cbn [freemap set_freemap v set_v].
  replace (Z.to_nat ((j + 1) * 512)) with (a + 512)%nat by lia. unfold vs1. rewrite app_assoc, take_app_length' by (rewrite length_app, length_take, Hcm; lia).
  rewrite <- app_assoc. f_equal. unfold chunk. fold a. rewrite <- (take_drop 512 (drop a (v m))) at 2. by rewrite drop_drop.
Qed.

(** ** What the disk says of the file system *)

(** The superblock is in place, the map has a bit for each block of its own
    blocks, and these belong to no file. *)
Record on_disk (sp : sfs_super) (s : sfs) (M : gmap Z sfs_inode) : Prop := mk_on_disk {
  od_super : block_super (sector (dev s) SFS_SB_LOCATION) = sp;
  od_magic : sp_magic sp = SFS_MAGIC;
  od_blocks : sp_blocks sp = sp_nblocks s;
  od_volname : <[31%nat := 0]> (sp_volname sp) = sp_volname sp;
  od_superdirty : superdirty s = 0;
  od_bits : nbits (freemap s) = SFS_BITMAPSIZE (sp_nblocks s);
  od_room : SFS_MAP_LOCATION + SFS_BITBLOCKS (sp_nblocks s) <= sp_nblocks s;
  od_reserved b : SFS_MAP_LOCATION <= b < SFS_MAP_LOCATION + SFS_BITBLOCKS (sp_nblocks s) -> ~ owned s M b;
  od_map j : freemapdirty s = 0 -> 0 <= j < SFS_BITBLOCKS (sp_nblocks s) -> sector (dev s) (SFS_MAP_LOCATION + j) = chunk (freemap s) j;
}.

Lemma bitmapsize n : 0 <= n < 4194303 -> SFS_BITMAPSIZE n = 4096 * SFS_BITBLOCKS n /\ 0 <= SFS_BITBLOCKS n <= 1024.
Proof.
  intros Hn. unfold SFS_BITBLOCKS, SFS_BITMAPSIZE, SFS_ROUNDUP, SFS_BLOCKBITS, SFS_BLOCKSIZE. change (512 * 8) with 4096. unfold u32, u32_mod.
  rewrite (Z.mod_small (n + 4096)), (Z.mod_small (n + 4096 - 1)) by lia. assert (0 <= (n + 4096 - 1) / 4096 <= 1024) as Hq.
  { split; [apply Z.div_pos; lia|]. apply Z.lt_succ_r, Z.div_lt_upper_bound; lia. }
  rewrite Z.mod_small by lia. rewrite Z.div_mul by lia. lia.
Qed.

Lemma create_blocks k : 0 <= k <= 1024 -> bitmap_create true true (4096 * k) = Ok (Some (mk_bitmap (4096 * k) (replicate (Z.to_nat (512 * k)) 0))).
Proof.
  intros Hk. unfold bitmap_create, DIVROUNDUP, BITS_PER_WORD. cbn [negb]. unfold u32, u32_mod. rewrite (Z.mod_small (4096 * k + 8)), Z.mod_small by lia.
  replace (4096 * k + 8 - 1) with (7 + 512 * k * 8) by lia. rewrite Z.div_add by lia. change (7 / 8) with 0. rewrite Z.add_0_l.
  replace (4096 * k / 8) with (512 * k) by (apply Z.div_unique with 0; lia). by rewrite Z.ltb_irrefl.
Qed.

Lemma map_bytes sp s M : files s M -> on_disk sp s M -> zlen (v (freemap s)) = 512 * SFS_BITBLOCKS (sp_nblocks s) /\ 0 <= SFS_BITBLOCKS (sp_nblocks s) <= 1024.
Proof.
  intros HF []. destruct (fi_fs _ _ HF). destruct (bitmapsize (sp_nblocks s)) as [Hb Hk]; [lia|]. destruct fk_map0 as (_ & Hl & _). rewrite Hl, od_bits0, Hb. split; [|done]. symmetry. apply Z.div_unique with 7; lia.
Qed.

(** ** Synchronising *)

(** Everything of [s] is on the disk of [s1]. *)
Record synced (sp : sfs_super) (M : gmap Z sfs_inode) (s s1 : sfs) : Prop := mk_synced {
  sy_files : files s1 M;
  sy_disk : on_disk sp s1 M;
  sy_map : freemap s1 = freemap s /\ freemapdirty s1 = 0;
  sy_table : sfs_vnodes s1 = sfs_vnodes s;
  sy_clean q v : svs s1 !! q = Some v -> sv_dirty v = 0;
  sy_data ino i : M !! ino = Some i -> data (dev s1) i = data (dev s) i;
}.

Lemma owned_same (s s1 : sfs) M b : (forall ino i, M !! ino = Some i -> data (dev s1) i = data (dev s) i) -> owned s1 M b -> owned s M b.
Proof.
  intros Hd (ino & i & Hi & Hb). exists ino, i. split; [done|]. destruct Hb as [->|Hb]; [by left|right]. specialize (Hd _ _ Hi). unfold data in Hd. congruence.
Qed.

Lemma flush_map sp s M : files s M -> on_disk sp s M ->
  exists d', sfs_mapio true s = Ok (0, set_dev d' s) /\ d_blocks d' = d_blocks (dev s) /\
    (forall b, owned s M b \/ b = 0 -> sector d' b = sector (dev s) b) /\
    forall j, 0 <= j < SFS_BITBLOCKS (sp_nblocks s) -> sector d' (SFS_MAP_LOCATION + j) = chunk (freemap s) j.
Proof using DKL RW.
  intros HF Hod. destruct (map_bytes _ _ _ HF Hod) as [Hl Hk]. pose proof Hod as []. unfold sfs_mapio, SFS_MAP_LOCATION in *.
  destruct (mapio_write (Z.to_nat (SFS_BITBLOCKS (sp_nblocks s))) 0 s (fi_fs _ _ HF)) as (d' & -> & Hdb & Hs); [lia..|]. exists d'. split; [done|]. split; [done|]. split.
  - intros b Hb. rewrite Hs, decide_False; [done|]. intros Hr. destruct Hb as [Hb| ->]; [|lia]. by apply (od_reserved0 b); [lia|].
  - intros j Hj. rewrite Hs, decide_True by lia. f_equal. lia.
Qed.

Lemma sync_all sp s M : files s M -> on_disk sp s M -> exists s1, sfs_sync sp s = Ok (0, s1) /\ synced sp M s s1.
Proof using DKL RW.
  intros HF Hod. unfold sfs_sync. destruct (fsync_all_run M (sfs_vnodes s) s HF) as (s1 & -> & Hfl). { intros q Hq. by apply (fi_table _ _ HF). }
  rewrite Ok_bind. destruct Hfl as [HF1 Hrest Hcl _ Hsec Hdata]. injection Hrest as Hnb Hsd Hfm Hfd Hvn Hdb.
  assert (forall q v, svs s1 !! q = Some v -> sv_dirty v = 0) as Hclean.
  { intros q v Hv. destruct (decide (sv_dirty v = 0)) as [|Hd]; [done|]. destruct (Hcl q v Hv Hd) as [Hn Hv0]. destruct Hn. apply (fi_table _ _ HF). by eexists. }
  assert (forall b, ~ owned s M b -> sector (dev s1) b = sector (dev s) b) as Hsec'.
  { intros b Hb. apply Hsec. intros [i Hi]. apply Hb. exists b, i. auto. }
  assert (forall b, owned s1 M b -> owned s M b) as Hown by (intros b; by apply owned_same).
  assert (~ owned s M 0) as H0. { intros [? _]%(owned_used _ _ _ HF). lia. }
  assert (on_disk sp s1 M) as Hod1.
  { pose proof Hod as []. constructor; rewrite ?Hnb, ?Hsd, ?Hfm, ?Hfd; try done; [by rewrite Hsec'|naive_solver|]. intros j Hj Hb. rewrite Hsec'; [by apply od_map0|]. apply od_reserved0. lia. }
  assert (superdirty s1 = 0) as Hsup by apply Hod1. destruct (Z.eqb_spec (freemapdirty s1) 0) as [Hz|Hz]; cbn [negb].
  { rewrite Ok_bind. cbn [Z.eqb negb]. rewrite Hsup. exists s1. split; [done|]. constructor; done. }
  destruct (flush_map sp s1 M HF1 Hod1) as (d' & -> & Hdb' & Hkeep & Hmap). rewrite !Ok_bind. cbn [Z.eqb negb]. rewrite Ok_bind. cbn [Z.eqb negb superdirty set_freemap set_dev]. rewrite Hsup. cbn [Z.eqb negb].
  eexists. split; [done|]. assert (files (set_freemap (freemap s1) 0 (set_dev d' s1)) M) as HF2.
  { apply (files_keep s1); [done| |done|].
    - pose proof (fi_fs _ _ HF1) as []. constructor; cbn; try done. by rewrite Hdb'.
    - intros b Hb. split; [by destruct (owned_used _ _ _ HF1 Hb)|]. cbn. by rewrite Hkeep by (by left). }
  assert (forall ino i, M !! ino = Some i -> data d' i = data (dev s1) i) as Hd2.
  { intros ino i Hi. apply pair_equal_spec, blocks_same. intros b Hb. apply Hkeep. left. exists ino, i. auto. }
  constructor; [done| |by cbn|done|done|].
  - pose proof Hod1 as []. constructor; cbn; try done; [by rewrite Hkeep by (by right)| |].
    + intros b Hb Ho. apply (od_reserved0 b Hb). revert Ho. by apply owned_same.
    + intros j _ Hj. by apply Hmap.
  - intros ino i Hi. cbn. by rewrite (Hd2 _ _ Hi), (Hdata _ _ Hi).
Qed.

(** ** Mounting *)

Lemma set_v_eta m n : nbits n = nbits m -> set_v n (v m) = m.
Proof. destruct m, n. unfold set_v. cbn. congruence. Qed.

(** The disk of a synchronised file system gives it back. *)
Lemma mount_run sp s M al : files s M -> on_disk sp s M -> freemapdirty s = 0 -> (forall q v, svs s !! q = Some v -> sv_dirty v = 0) ->
  exists r o d', sfs_domount (dev s) SFS_BLOCKSIZE al = Ok (r, o, d') /\ same_disk (dev s) d' /\
    ((o = None /\ (eio D r \/ (r = ENOMEM /\ granted al = false))) \/ (r = 0 /\ o = Some (sp, mk_sfs d' (sp_nblocks s) 0 (freemap s) 0 [] ∅))).
Proof using DKL.
  intros HF Hod Hfd Hcl. destruct (map_bytes _ _ _ HF Hod) as [Hl Hk]. pose proof Hod as []. destruct (fi_fs _ _ HF). unfold sfs_domount, SFS_MAP_LOCATION in *. rewrite Z.eqb_refl. cbn [negb].
  unfold granted. destruct (ma_fs al); cbn [negb andb]. 2: { eexists _, _, _. split; [done|]. split; [done|]. left. auto. }
  destruct (ma_vnodes al); cbn [negb andb]. 2: { eexists _, _, _. split; [done|]. split; [done|]. left. auto. }
  destruct (sfs_rblock_run zero_block SFS_SB_LOCATION (dev s)) as (r & bs & d1 & -> & Hd1 & Hr); [done|split; unfold SFS_SB_LOCATION; lia|]. rewrite Ok_bind.
  destruct Hr as [[-> ->]|[Hr _]]. 2: { rewrite (eio_nonzero r Hr). eexists _, _, _. split; [done|]. split; [done|]. left. auto. }
  cbn [Z.eqb negb]. rewrite od_super0, od_magic0, Z.eqb_refl, od_volname0. cbn [negb sp_blocks]. rewrite od_blocks0. destruct (bitmapsize (sp_nblocks s)) as [Hbm _]; [lia|]. rewrite Hbm.
  destruct (ma_map al); [|eexists _, _, _; split; [done|]; split; [done|]; left; by auto]. destruct (ma_bits al); [|eexists _, _, _; split; [done|]; split; [done|]; left; by auto].
  rewrite create_blocks, Ok_bind by lia. unfold sfs_mapio. cbn [SfsFile.sp_nblocks]. set (m0 := mk_bitmap _ _).
  destruct (mapio_read (freemap s) (Z.to_nat (SFS_BITBLOCKS (sp_nblocks s))) 0 (mk_sfs d1 (sp_nblocks s) 0 m0 0 [] ∅)) as (r & d' & vs & -> & Hd' & Hr); [lia|cbn; rewrite length_replicate; lia|lia| |].
  { intros i Hi. destruct Hd1 as [Hn1 Hs1]. cbn [dev]. rewrite Hs1. split; [split; rewrite ?Hn1; lia|]. apply od_map0; [done|lia]. }
  cbn [dev freemap] in *. rewrite Ok_bind. exists r. destruct Hr as [[-> ->]|Hr]; [cbn [Z.eqb negb]|rewrite (eio_nonzero r Hr); cbn [negb]].
  - eexists _, _. split; [done|]. split; [by etrans|]. right. split; [done|]. change (Z.to_nat (0 * 512)) with 0%nat. rewrite take_0, drop_0. cbn [app].
    rewrite set_v_eta by (unfold m0; cbn; lia). by destruct sp; cbn in *; subst.
  - eexists _, _. split; [done|]. split; [by etrans|]. left. auto.
Qed.

(** A file system with no vnode loaded is what the disk has. *)
Lemma files_loaded_from sp s M d : files s M -> on_disk sp s M -> freemapdirty s = 0 -> (forall q v, svs s !! q = Some v -> sv_dirty v = 0) -> same_disk (dev s) d ->
  let s2 := mk_sfs d (sp_nblocks s) 0 (freemap s) 0 [] ∅ in
  files s2 M /\ on_disk sp s2 M /\ forall ino i, M !! ino = Some i -> data (dev s2) i = data (dev s) i.
Proof.
  intros HF Hod Hfd Hcl [Hdb Hs] s2. assert (forall i, data (dev s2) i = data (dev s) i) as Hd. { intros i. apply pair_equal_spec, blocks_same. intros b _. apply Hs. }
  assert (forall i, blocks (dev s2) i = blocks (dev s) i) as Hb. { intros i. specialize (Hd i). unfold data in Hd. congruence. }
  split; [|split; [|by intros]].
  - pose proof HF as []. constructor; cbn [sfs_vnodes svs s2]; try done.
    + destruct fi_fs0. constructor; cbn; try done. by rewrite Hdb.
    + constructor.
    + intros q. rewrite lookup_empty. split; [by intros ?%elem_of_nil|by intros []].
    + intros ino i Hi _. cbn [dev]. rewrite Hs. apply fi_disk0; [done|]. intros. by eapply Hcl.
    + intros ino i Hi. destruct (fi_own0 _ _ Hi) as (Hu & Hf & Hz). split; [done|]. split; [|done]. destruct Hf. constructor; [done| |]; rewrite Hb; done.
    + intros ino i ino' i' Hi Hi'. rewrite Hb. by eapply fi_clear0.
    + intros ino i ino' i' Hi Hi' Hne. unfold apart. rewrite !Hb. by eapply fi_apart0.
  - pose proof Hod as []. constructor; cbn; try done; [by rewrite Hs| |].
    + intros b Hr Ho. apply (od_reserved0 b Hr). revert Ho. by apply owned_same.
    + intros j _ Hj. rewrite Hs. by apply od_map0.
Qed.

End Fs.

(** ** The theorem *)

Section Theorems.
Context {D : Type} {DK : Disk D} {DKL : DiskLaws D}.

(** C18. Nothing is lost between a sync and a mount.  On a disk whose writes
    succeed, and for a file system in its invariant whose superblock is on the disk
    and not dirty, [sfs_sync] returns 0, leaves no vnode and no map to write, and
    keeps every inode, block list and byte.  Then [sfs_unmount] goes through exactly
    when no vnode is loaded.  [sfs_domount] of the disk fails with EIO if the disk
    can fail reads, with ENOMEM if an allocation failed, and otherwise yields the
    same volume, in its invariant: the free map, the inodes, and what the files
    hold. *)
Theorem sfs_remount sp (s : SfsFile.sfs (D := D)) M al : ReliableWrites D -> files s M -> on_disk sp s M ->
  exists s1, sfs_sync sp s = Ok (0, s1) /\ synced sp M s s1 /\
    sfs_unmount s1 = (if zlen (sfs_vnodes s) >? 0 then Ok (EBUSY, Some s1) else Ok (0, None)) /\
    exists r o d', sfs_domount (dev s1) SFS_BLOCKSIZE al = Ok (r, o, d') /\
      ((o = None /\ (eio D r \/ (r = ENOMEM /\ granted al = false))) \/
       exists s2, r = 0 /\ o = Some (sp, s2) /\ dev s2 = d' /\ files s2 M /\ on_disk sp s2 M /\ freemap s2 = freemap s /\ sfs_vnodes s2 = [] /\
         forall ino i, M !! ino = Some i -> data d' i = data (dev s) i).
Proof using DKL.
  intros RW HF Hod. destruct (sync_all sp s M HF Hod) as (s1 & Hrun & Hsy). exists s1. split; [done|]. split; [done|]. destruct Hsy as [HF1 Hod1 [Hfm Hfd] Hvn Hcl Hdata]. split.
  { unfold sfs_unmount. rewrite Hvn, Hfd, (od_superdirty _ _ _ Hod1). done. }
  destruct (mount_run sp s1 M al HF1 Hod1 Hfd Hcl) as (r & o & d' & Hm & Hd' & Hr). exists r, o, d'. split; [done|]. destruct Hr as [?|[-> ->]]; [by left|right].
  destruct (files_loaded_from sp s1 M d' HF1 Hod1 Hfd Hcl Hd') as (HF2 & Hod2 & Hdata2). eexists. split; [done|]. split; [done|]. split; [done|].
  split; [done|]. split; [done|]. split; [done|]. split; [done|]. intros ino i Hi. rewrite <- (Hdata _ _ Hi). by apply (Hdata2 ino).
Qed.

End Theorems.

(** ** A volume of 64 blocks *)

Definition vol_super : sfs_super := mk_super SFS_MAGIC 64 (118 :: replicate 31 0) (replicate 118 0).
Definition vol_fs : SfsFile.sfs (D := good_disk) :=
  mk_sfs (mk_good (<[0 := super_block vol_super]> (gd_sectors (dev small_fs)))) 64 0 (mk_bitmap 4096 (63 :: replicate 7 0 ++ replicate 504 255)) 1 [16] {[16 := root_sv]}.

Lemma vol_bit b : 64 <= b < 4096 -> bit (freemap vol_fs) b = true.
Proof.
  intros Hb. unfold bit. cbn [freemap vol_fs v]. assert (8 <= b / 8 < 512) as Hq by (split; [apply Z.div_le_lower_bound|apply Z.div_lt_upper_bound]; lia).
  change (63 :: replicate 7 0 ++ replicate 504 255) with ((63 :: replicate 7 0) ++ replicate 504 255). rewrite lookup_app_r by (cbn; lia). rewrite lookup_replicate_2 by (cbn; lia).
  pose proof (Z.mod_pos_bound b 8 ltac:(lia)). assert (forall k, 0 <= k < 8 -> Z.testbit 255 k = true) as H8.
  { intros k Hk. change 255 with (Z.ones 8). by apply Z.ones_spec_low. } by apply H8.
Qed.

Lemma vol_files : files vol_fs small_inodes /\ on_disk vol_super vol_fs small_inodes.
Proof.
  assert (forall b, owned small_fs small_inodes b -> b = 1 \/ b = 4 \/ b = 5) as Ho.
  { intros b (ino & i & Hi & Hb). destruct small_blocks as [E1 E4]. apply small_cases in Hi as [[-> ->]|[-> ->]]; rewrite ?E1, ?E4, ?list_elem_of_singleton in Hb; try tauto; destruct Hb as [?|?%elem_of_nil]; tauto. }
  assert (files vol_fs small_inodes) as HF.
  { apply (files_keep small_fs); [exact small_files| |done|].
    - constructor; cbn [vol_fs freemap nbits sp_nblocks dev]; try (cbn; lia); [|exact vol_bit|reflexivity]. split; [cbn; lia|]. split; [reflexivity|].
      split; [repeat (constructor; [lia|]); constructor|]. cbn [v]. intros i Hi. change (zlen _) with 512 in Hi. cbn in Hi. lia.
    - intros b Hb. destruct (Ho b Hb) as [->|[-> | ->]]; (split; [split; [cbn; lia|reflexivity]|vm_compute; reflexivity]). }
  split; [done|]. constructor; try reflexivity; [vm_compute; discriminate| |done].
  intros b Hb Hw. change (SFS_BITBLOCKS _) with 1 in Hb. unfold SFS_MAP_LOCATION in Hb. assert (owned small_fs small_inodes b) as [?|[?|?]]%Ho; [|lia..].
  revert Hw. apply owned_same. intros ino i Hi. apply small_cases in Hi as [[-> ->]|[-> ->]]; vm_compute; reflexivity.
Qed.

Lemma sfs_remount_witness : exists s1, sfs_sync vol_super vol_fs = Ok (0, s1) /\ sector (dev s1) 2 = v (freemap vol_fs) /\ sfs_unmount s1 = Ok (EBUSY, Some s1) /\
  exists s2 d', sfs_domount (dev s1) SFS_BLOCKSIZE (mk_mount_alloc true true true true) = Ok (0, Some (vol_super, s2), d') /\ freemap s2 = freemap vol_fs.
Proof.
  destruct (sfs_remount vol_super vol_fs small_inodes (mk_mount_alloc true true true true) good_disk_writes (proj1 vol_files) (proj2 vol_files)) as (s1 & Hrun & Hsy & Hum & r & o & d' & Hm & Hr).
  exists s1. split; [done|]. split; [|split; [done|]].
  2: { destruct Hr as [(_ & [He%good_disk_reads|[_ ?]])|(s2 & -> & -> & _ & _ & _ & Hf & _)]; [done..|]. by exists s2, d'. }
  clear r o d' Hm Hr. destruct Hsy as [_ Hod [Hfm Hfd] _ _ _]. rewrite <- Hfm. assert (sp_nblocks s1 = 64) as E by (by rewrite <- (od_blocks _ _ _ Hod)).
  pose proof (od_map _ _ _ Hod 0 Hfd) as Hm. rewrite E in Hm. etrans; [apply Hm; vm_compute; by split|]. by rewrite Hfm.
Defined.

End SfsFs.
