(* ===== verification/Vnode.v ===== *)
(** * Vnodes and file systems as their users see them: kern/include/vnode.h, fs.h

    The table of operations of a vnode is an interface.  [Vnodes] has the
    operations, with the macros' names, over the state [W] of everything below
    them; [VnodeLaws] says what they promise, in terms of a small abstract
    state: how many references and opens of each vnode the callers own, which
    file systems there are, and for each the names of its files and their bytes.
    The simple file system is an instance (SfsVfs.v); the calls on path names and
    descriptors (Vfs.v, FileCalls.v) are proved against the interface. *)

From stdpp Require Import gmultiset.
From S2P Require Import Prelude Uio Strings SfsDisk SfsFile SfsVnode.
Import Strings SfsDisk SfsFile SfsVnode.

Module Vnode.

Definition S_IFMT : Z := 28672.
Definition S_IFCHR : Z := 16384.
Definition S_IFBLK : Z := 20480.
Definition S_ISDIR (mode : Z) : bool := Z.land mode S_IFMT =? S_IFDIR.

(** [vn_ops] and [vn_fs] of a vnode, and [struct fs]: vnodes and file systems
    are addresses, 0 is NULL.  Names and paths are buffers that hold a string. *)
Class Vnodes (W : Type) := {
  VOP_OPEN (v flags : Z) : W -> outcome (Z * W);
  VOP_READ (v : Z) (u : uio) : W -> outcome (Z * uio * W);
  VOP_READLINK (v : Z) (u : uio) : W -> outcome (Z * uio * W);
  VOP_WRITE (v : Z) (u : uio) : W -> outcome (Z * uio * W);
  VOP_GETTYPE (v : Z) : W -> outcome (Z * Z * W);
  VOP_TRUNCATE (v len : Z) : W -> outcome (Z * W);
  VOP_NAMEFILE (v : Z) (u : uio) : W -> outcome (Z * uio * W);
  VOP_CREAT (v : Z) (name : list Z) (excl : bool) : W -> outcome (Z * Z * W);
  VOP_SYMLINK (v : Z) (name content : list Z) : W -> outcome (Z * W);
  VOP_MKDIR (v : Z) (name : list Z) : W -> outcome (Z * W);
  VOP_LINK (v : Z) (name : list Z) (v2 : Z) : W -> outcome (Z * W);
  VOP_REMOVE (v : Z) (name : list Z) : W -> outcome (Z * W);
  VOP_RMDIR (v : Z) (name : list Z) : W -> outcome (Z * W);
  VOP_RENAME (v1 : Z) (name1 : list Z) (v2 : Z) (name2 : list Z) : W -> outcome (Z * W);
  VOP_LOOKUP (v : Z) (path : list Z) : W -> outcome (Z * Z * W);
  VOP_LOOKPARENT (v : Z) (path buf : list Z) : W -> outcome (Z * Z * list Z * W);
  VOP_INCREF (v : Z) : W -> outcome W;
  VOP_DECREF (v : Z) : W -> outcome W;
  VOP_INCOPEN (v : Z) : W -> outcome W;
  VOP_DECOPEN (v : Z) : W -> outcome W;
  vn_fs (v : Z) : W -> outcome Z;
  FSOP_SYNC (f : Z) : W -> outcome (Z * W);
  FSOP_GETVOLNAME (f : Z) : W -> outcome (option (list Z));
  FSOP_GETROOT (f : Z) : W -> outcome (Z * W);
  FSOP_UNMOUNT (f : Z) : W -> outcome (Z * W);
}.

(** ** The abstract state *)

(** A file system with one directory: the name of the volume, the names of the
    files, and their bytes. *)
Record afs : Type := mk_afs {
  af_volname : option (list Z);
  af_names : gmap (list Z) Z;
  af_bytes : gmap Z (list Z);
}.

(** What a vnode stands for: a file or the directory of a file system, or a
    device, of file system 0. *)
Record vinfo : Type := mk_vi {
  vi_fs : Z;
  vi_id : Z;
  vi_type : Z;
}.

(** The references and opens that the callers own, the mounted file systems, and
    what the vnodes are. *)
Record ghost : Type := mk_ghost {
  g_refs : gmultiset Z;
  g_opens : gmultiset Z;
  g_fs : gmap Z afs;
  g_vn : gmap Z vinfo;
}.

Definition known (g : ghost) (v : Z) (i : vinfo) : Prop := v ∈ g_refs g /\ g_vn g !! v = Some i.

(** The largest number of references that is not reported as suspicious. *)
Definition ref_max : Z := 1048576.
Definition count (v : Z) (m : gmultiset Z) : Z := Z.of_nat (multiplicity v m).
Definition roomy (k : Z) (g : ghost) : Prop := forall v, count v (g_refs g) + k <= ref_max.

Definition set_refs (r : gmultiset Z) (g : ghost) : ghost := mk_ghost r (g_opens g) (g_fs g) (g_vn g).
Definition add_ref (v : Z) (g : ghost) : ghost := set_refs (g_refs g ⊎ {[+ v +]}) g.
Definition drop_ref (v : Z) (g : ghost) : ghost := set_refs (g_refs g ∖ {[+ v +]}) g.
Definition add_open (v : Z) (g : ghost) : ghost := mk_ghost (g_refs g) (g_opens g ⊎ {[+ v +]}) (g_fs g) (g_vn g).
Definition drop_open (v : Z) (g : ghost) : ghost := mk_ghost (g_refs g) (g_opens g ∖ {[+ v +]}) (g_fs g) (g_vn g).

(** A reference to [v], which is [i]. *)
Definition hand_out (v : Z) (i : vinfo) (g : ghost) : ghost := mk_ghost (g_refs g ⊎ {[+ v +]}) (g_opens g) (g_fs g) (<[v := i]> (g_vn g)).

Definition volname_of (f : Z) (g : ghost) : option (list Z) := g_fs g !! f ≫= af_volname.
Definition names_of (f : Z) (g : ghost) : gmap (list Z) Z := default ∅ (af_names <$> g_fs g !! f).
Definition bytes_of (f id : Z) (g : ghost) : option (list Z) := g_fs g !! f ≫= fun a => af_bytes a !! id.

Definition set_fs (f : Z) (a : afs -> afs) (g : ghost) : ghost := mk_ghost (g_refs g) (g_opens g) (alter a f (g_fs g)) (g_vn g).
Definition set_names (f : Z) (d : gmap (list Z) Z) : ghost -> ghost := set_fs f (fun a => mk_afs (af_volname a) d (af_bytes a)).
Definition set_bytes (f id : Z) (bs : list Z) : ghost -> ghost := set_fs f (fun a => mk_afs (af_volname a) (af_names a) (<[id := bs]> (af_bytes a))).

(** A file that has a name or a reference. *)
Definition live (g : ghost) (f id : Z) : Prop :=
  (exists n, names_of f g !! n = Some id) \/ exists v t, known g v (mk_vi f id t).

(** Errors of the machine below: a failed allocation or transfer, which needs that
    not everything below is reliable, and a disk, a file or a directory that has no
    room for more. *)
Definition mishap (ok : Prop) (r : Z) : Prop := (r = ENOMEM \/ r = EIO) /\ ~ ok.
Definition no_space (r : Z) : Prop := r = ENOSPC \/ r = EINVAL.

Lemma mishap_nonzero ok r : mishap ok r -> r <> 0.
Proof. by intros [[-> | ->] _]. Qed.

Lemma no_space_nonzero r : no_space r -> r <> 0.
Proof. by intros [-> | ->]. Qed.

(** What [n] of the bytes asked for by a transfer can be. *)
Definition readable (u : uio) (bs : list Z) : Z := Z.max 0 (Z.min (uio_resid u) (zlen bs - uio_offset u)).

(** What every transfer does to the request: the buffer stays as long as it was
    and holds bytes, and the position moves by at most the residual count. *)
Definition steps (u u' : uio) : Prop :=
  zlen (uio_buffer u') = zlen (uio_buffer u) /\ (Forall byte (uio_buffer u) -> Forall byte (uio_buffer u')) /\
  0 <= uio_resid u' <= uio_resid u /\ uio_offset u <= uio_offset u' <= uio_offset u + uio_resid u.

(** ** The laws *)

(** [owns g w]: the state [w] is sound, the callers own the references and opens
    of [g], and the live files have the names and bytes of [g].  [reliable]: no
    allocation and no read of a disk below fails.  [max_bytes]: the most that a
    file can hold. *)
Class VnodeLaws (W : Type) `{Vnodes W} := {
  owns : ghost -> W -> Prop;
  reliable : Prop;
  max_bytes : Z;

  (** What is known of vnodes without references does not matter. *)
  owns_ext g g' w : owns g w -> g_refs g' = g_refs g -> g_opens g' = g_opens g -> g_fs g' = g_fs g -> (forall v, v ∈ g_refs g -> g_vn g' !! v = g_vn g !! v) -> owns g' w;
  owns_ref g w v : owns g w -> v ∈ g_refs g -> v <> 0 /\ exists i, g_vn g !! v = Some i /\ vn_fs v w = Ok (vi_fs i);
  owns_type g w v i : owns g w -> known g v i -> vi_type i ∈ [S_IFREG; S_IFDIR; S_IFCHR; S_IFBLK];
  owns_open g w : owns g w -> g_opens g ⊆ g_refs g;
  owns_dir g w v i : owns g w -> known g v i -> vi_type i = S_IFDIR -> vi_fs i <> 0 /\ is_Some (g_fs g !! vi_fs i);
  owns_file g w v i : owns g w -> known g v i -> vi_type i = S_IFREG -> is_Some (bytes_of (vi_fs i) (vi_id i) g);
  owns_named g w f n id : owns g w -> names_of f g !! n = Some id -> is_Some (bytes_of f id g);

  incref_law g w v : owns g w -> v ∈ g_refs g -> roomy 1 g -> exists w', VOP_INCREF v w = Ok w' /\ owns (add_ref v g) w';
  decref_law g w v : owns g w -> count v (g_opens g) < count v (g_refs g) -> exists w', VOP_DECREF v w = Ok w' /\ owns (drop_ref v g) w';
  incopen_law g w v : owns g w -> count v (g_opens g) < count v (g_refs g) -> exists w', VOP_INCOPEN v w = Ok w' /\ owns (add_open v g) w';
  decopen_law g w v : owns g w -> v ∈ g_opens g -> exists w', VOP_DECOPEN v w = Ok w' /\ owns (drop_open v g) w';

  open_law g w v i flags : owns g w -> known g v i ->
    exists r w', VOP_OPEN v flags w = Ok (r, w') /\ owns g w' /\ (vi_type i = S_IFREG -> Z.land flags O_APPEND = 0 -> r = 0);
  gettype_law g w v i : owns g w -> known g v i -> exists r w', VOP_GETTYPE v w = Ok (r, vi_type i, w') /\ owns g w';

  read_law g w v i u : owns g w -> known g v i -> uio_rw u = UIO_READ -> fits u (uio_resid u) -> bytes_left u -> uio_resid u < 2147483648 ->
    exists r u' w', VOP_READ v u w = Ok (r, u', w') /\ owns g w' /\ steps u u' /\
      (vi_type i = S_IFREG -> forall bs, bytes_of (vi_fs i) (vi_id i) g = Some bs ->
        exists n, u' = moved u (take (Z.to_nat n) (drop (Z.to_nat (uio_offset u)) bs)) n /\ 0 <= n <= readable u bs /\ ((r = 0 /\ n = readable u bs) \/ mishap reliable r \/ (r = EINVAL /\ max_bytes <= zlen bs)));
  (** Not for the device under a file system. *)
  write_law g w v i u : owns g w -> known g v i -> vi_type i <> S_IFBLK -> uio_rw u = UIO_WRITE -> fits u (uio_resid u) -> bytes_left u -> uio_resid u < 2147483648 ->
    exists r u' w', VOP_WRITE v u w = Ok (r, u', w') /\ steps u u' /\
      ((vi_type i <> S_IFREG /\ owns g w') \/
       exists n bs bs', vi_type i = S_IFREG /\ bytes_of (vi_fs i) (vi_id i) g = Some bs /\ owns (set_bytes (vi_fs i) (vi_id i) bs' g) w' /\
         u' = moved u (take (Z.to_nat n) (uio_left u)) n /\ 0 <= n <= uio_resid u /\ ((r = 0 /\ n = uio_resid u) \/ mishap reliable r \/ no_space r) /\
         (uio_offset u <= zlen bs -> bs' = write_at (uio_offset u) (take (Z.to_nat n) (uio_left u)) bs));
  truncate_law g w v i : owns g w -> known g v i ->
    exists r w', VOP_TRUNCATE v 0 w = Ok (r, w') /\
      ((vi_type i <> S_IFREG /\ owns g w') \/
       exists bs', vi_type i = S_IFREG /\ owns (set_bytes (vi_fs i) (vi_id i) bs' g) w' /\ ((r = 0 /\ bs' = []) \/ mishap reliable r));
  namefile_law g w v i u : owns g w -> known g v i -> vi_type i = S_IFDIR -> exists r u' w', VOP_NAMEFILE v u w = Ok (r, u', w') /\ owns g w';

  creat_law g w v i nm name excl : owns g w -> known g v i -> vi_type i = S_IFDIR -> points_to nm name -> zlen name < 256 -> roomy 1 g ->
    exists r v' w', VOP_CREAT v nm excl w = Ok (r, v', w') /\
      ((r = 0 /\ v' <> 0 /\ exists id, let i' := mk_vi (vi_fs i) id S_IFREG in (v' ∈ g_refs g -> g_vn g !! v' = Some i') /\
          match names_of (vi_fs i) g !! name with
          | Some id' => excl = false /\ id = id' /\ owns (hand_out v' i' g) w'
          | None => ~ live g (vi_fs i) id /\ owns (hand_out v' i' (set_names (vi_fs i) (<[name := id]> (names_of (vi_fs i) g)) (set_bytes (vi_fs i) id [] g))) w'
          end) \/
       (r <> 0 /\ owns g w' /\ (mishap reliable r \/ no_space r \/ r = ENAMETOOLONG \/ (r = EEXIST /\ excl = true /\ is_Some (names_of (vi_fs i) g !! name)))));
  remove_law g w v i nm name : owns g w -> known g v i -> vi_type i = S_IFDIR -> points_to nm name -> zlen name < 256 -> roomy 1 g ->
    exists r w', VOP_REMOVE v nm w = Ok (r, w') /\
      ((r = 0 /\ is_Some (names_of (vi_fs i) g !! name) /\ owns (set_names (vi_fs i) (delete name (names_of (vi_fs i) g)) g) w') \/
       (r <> 0 /\ owns g w' /\ (mishap reliable r \/ (r = ENOENT /\ names_of (vi_fs i) g !! name = None))));
  rename_law g w v i v2 i2 nm1 n1 nm2 n2 : owns g w -> known g v i -> known g v2 i2 -> vi_type i = S_IFDIR -> vi_type i2 = S_IFDIR -> vi_fs i2 = vi_fs i ->
    points_to nm1 n1 -> points_to nm2 n2 -> zlen n1 < 256 -> zlen n2 < 256 -> roomy 1 g ->
    (VOP_RENAME v nm1 v2 nm2 w = Panic /\ ~ reliable) \/
    exists r w', VOP_RENAME v nm1 v2 nm2 w = Ok (r, w') /\ let d := names_of (vi_fs i) g in
      ((r = 0 /\ exists id, d !! n1 = Some id /\ d !! n2 = None /\ owns (set_names (vi_fs i) (delete n1 (<[n2 := id]> d)) g) w') \/
       (r <> 0 /\ owns g w' /\ (mishap reliable r \/ no_space r \/ r = ENAMETOOLONG \/ (r = ENOENT /\ d !! n1 = None) \/ (r = EEXIST /\ is_Some (d !! n2)))));
  link_law g w v i v2 i2 nm name : owns g w -> known g v i -> known g v2 i2 -> vi_type i = S_IFDIR -> vi_type i2 = S_IFREG -> vi_fs i2 = vi_fs i ->
    points_to nm name -> zlen name < 256 ->
    exists r w', VOP_LINK v nm v2 w = Ok (r, w') /\ let d := names_of (vi_fs i) g in
      ((r = 0 /\ d !! name = None /\ owns (set_names (vi_fs i) (<[name := vi_id i2]> d) g) w') \/
       (r <> 0 /\ owns g w' /\ (mishap reliable r \/ no_space r \/ r = ENAMETOOLONG \/ (r = EEXIST /\ is_Some (d !! name)))));
  mkdir_law g w v i nm : owns g w -> known g v i -> vi_type i = S_IFDIR -> exists r w', VOP_MKDIR v nm w = Ok (r, w') /\ r <> 0 /\ owns g w';
  rmdir_law g w v i nm : owns g w -> known g v i -> vi_type i = S_IFDIR -> exists r w', VOP_RMDIR v nm w = Ok (r, w') /\ r <> 0 /\ owns g w';
  symlink_law g w v i nm c : owns g w -> known g v i -> vi_type i = S_IFDIR -> exists r w', VOP_SYMLINK v nm c w = Ok (r, w') /\ r <> 0 /\ owns g w';
  readlink_law g w v i u : owns g w -> known g v i -> exists r u' w', VOP_READLINK v u w = Ok (r, u', w') /\ r <> 0 /\ owns g w';

  lookup_law g w v i nm name : owns g w -> known g v i -> points_to nm name -> name <> [] -> zlen name < u32_mod -> roomy 1 g ->
    exists r v' w', VOP_LOOKUP v nm w = Ok (r, v', w') /\
      ((r = 0 /\ v' <> 0 /\ vi_type i = S_IFDIR /\ exists id, let i' := mk_vi (vi_fs i) id S_IFREG in names_of (vi_fs i) g !! name = Some id /\
          (v' ∈ g_refs g -> g_vn g !! v' = Some i') /\ owns (hand_out v' i' g) w') \/
       (r <> 0 /\ owns g w' /\ (mishap reliable r \/ vi_type i <> S_IFDIR \/ (r = ENOENT /\ names_of (vi_fs i) g !! name = None))));
  lookparent_law g w v i nm name buf : owns g w -> known g v i -> points_to nm name -> zlen name + 1 < u32_mod -> zlen buf = 256 -> roomy 1 g ->
    exists r v' buf' w', VOP_LOOKPARENT v nm buf w = Ok (r, v', buf', w') /\
      ((r = 0 /\ v' <> 0 /\ vi_type i = S_IFDIR /\ points_to buf' name /\ zlen name < 256 /\ (v' ∈ g_refs g -> g_vn g !! v' = Some i) /\ owns (hand_out v' i g) w') \/
       (r <> 0 /\ owns g w' /\ (mishap reliable r \/ vi_type i <> S_IFDIR \/ (r = ENAMETOOLONG /\ 256 <= zlen name))));

  volname_law g w f a : owns g w -> g_fs g !! f = Some a ->
    exists n, FSOP_GETVOLNAME f w = Ok n /\ match n, af_volname a with Some nm, Some l => points_to nm l | None, None => True | _, _ => False end;
  getroot_law g w f : owns g w -> is_Some (g_fs g !! f) -> roomy 1 g ->
    exists v w', FSOP_GETROOT f w = Ok (v, w') /\ v <> 0 /\ exists id, let i := mk_vi f id S_IFDIR in (v ∈ g_refs g -> g_vn g !! v = Some i) /\ owns (hand_out v i g) w';
}.

End Vnode.
