(* ===== verification/VfsList.v ===== *)
(** * The list of named devices: kern/fs/vfs/vfslist.c

    The table of devices and of the file systems mounted on them, on top of the
    vnode interface.  The invariant is that no two devices share a name; the
    theorems say what a device name stands for and what mounting changes. *)

From stdpp Require Import gmultiset.
From S2P Require Import Prelude Uio Strings SfsDisk SfsFile SfsVnode Vnode.
Import Strings SfsDisk SfsFile SfsVnode Vnode.

Module VfsList.

(** [kd_rawname] is [None] for NULL; a device or file system is an address. *)
Record knowndev : Type := mk_kd {
  kd_name : list Z;
  kd_rawname : option (list Z);
  kd_device : Z;
  kd_vnode : Z;
  kd_fs : Z;
}.

(** The state of the VFS layer: what is below, the list and its lock, the vnode
    of the boot file system and its lock, and the current directory of the
    running thread.  A lock is [true] while this thread holds it. *)
Record vst (W : Type) : Type := mk_vst {
  world : W;
  knowndevs : list knowndev;
  knowndevs_lock : bool;
  bootfs_vnode : Z;
  bootfs_lock : bool;
  t_cwd : Z;
}.
Arguments mk_vst {W} _ _ _ _ _ _.
Arguments world {W} _.
Arguments knowndevs {W} _.
Arguments knowndevs_lock {W} _.
Arguments bootfs_vnode {W} _.
Arguments bootfs_lock {W} _.
Arguments t_cwd {W} _.

Definition set_world {W} (w : W) (s : vst W) : vst W := mk_vst w (knowndevs s) (knowndevs_lock s) (bootfs_vnode s) (bootfs_lock s) (t_cwd s).
Definition set_devs {W} (l : list knowndev) (s : vst W) : vst W := mk_vst (world s) l (knowndevs_lock s) (bootfs_vnode s) (bootfs_lock s) (t_cwd s).
Definition set_devs_lock {W} (b : bool) (s : vst W) : vst W := mk_vst (world s) (knowndevs s) b (bootfs_vnode s) (bootfs_lock s) (t_cwd s).
Definition set_fs (f : Z) (kd : knowndev) : knowndev := mk_kd (kd_name kd) (kd_rawname kd) (kd_device kd) (kd_vnode kd) f.

Definition lock_devs {W} (s : vst W) : outcome (vst W) := if knowndevs_lock s then Hang else Ok (set_devs_lock true s).
Definition unlock_devs {W} (s : vst W) : outcome (vst W) := _ ← c_assert (knowndevs_lock s); Ok (set_devs_lock false s).

(** The vnodes of devices. *)
Class DevVnodes (W : Type) := {
  dev_create_vnode (d : Z) : W -> outcome (Z * W);
  kfree_vnode (v : Z) : W -> outcome W;
}.

(** The allocations of [vfs_doadd]: the name, the raw name, the structure, and
    the room in the array. *)
Record add_alloc : Type := mk_add_alloc {
  aa_name : bool;
  aa_raw : bool;
  aa_kd : bool;
  aa_room : bool;
}.

Definition raw_suffix : list Z := [114; 97; 119; 0].

Definition same (a b : list Z) : outcome bool := c ← strcmp a b; Ok (c =? 0).

Definition samestring (a b : option (list Z)) : outcome bool :=
  match a, b with
  | Some a, Some b => same a b
  | _, _ => Ok false
  end.

Definition samestring3 (a b c d : option (list Z)) : outcome bool :=
  x ← samestring a b;
  if x : bool then Ok true else x ← samestring a c; if x : bool then Ok true else samestring a d.

(** [dest] is fresh memory. *)
Definition mkrawname (name : list Z) (ok : bool) : outcome (option (list Z)) :=
  len ← strlen name;
  if negb ok then Ok None
  else
    s ← strcpy (replicate (Z.to_nat (u32 (len + 3 + 1))) 0) name;
    s ← strcat s raw_suffix;
    Ok (Some s).

Section Ops.
Context {W : Type} `{VN : Vnodes W}.

(** The body of the loop is what a device that has been named is. *)
Fixpoint sync_loop (l : list knowndev) (w : W) : outcome W :=
  match l with
  | [] => Ok w
  | kd :: l' => if negb (kd_fs kd =? 0) then '(_, w) ← FSOP_SYNC (kd_fs kd) w; sync_loop l' w else sync_loop l' w
  end.

Definition vfs_sync (s : vst W) : outcome (Z * vst W) :=
  s ← lock_devs s;
  w ← sync_loop (knowndevs s) (world s);
  s ← unlock_devs (set_world w s);
  Ok (0, s).

(** The vnode of the device itself. *)
Definition hand_device (kd : knowndev) (w : W) : outcome (Z * Z * W) :=
  _ ← c_assert (negb (kd_device kd =? 0));
  w ← VOP_INCREF (kd_vnode kd) w;
  Ok (0, kd_vnode kd, w).

Fixpoint getroot_loop (l : list knowndev) (devname : list Z) (w : W) : outcome (Z * Z * W) :=
  match l with
  | [] => Ok (ENODEV, 0, w)
  | kd :: l' =>
      let next :=
        named ← same (kd_name kd) devname;
        if named : bool then
          _ ← c_assert (kd_fs kd =? 0);
          _ ← c_assert (bool_decide (kd_rawname kd = None));
          hand_device kd w
        else
          match kd_rawname kd with
          | Some raw =>
              hit ← same raw devname;
              if hit : bool then hand_device kd w else getroot_loop l' devname w
          | None => getroot_loop l' devname w
          end in
      if negb (kd_fs kd =? 0) then
        volname ← FSOP_GETVOLNAME (kd_fs kd) w;
        named ← same (kd_name kd) devname;
        hit ← (if named : bool then Ok true else match volname with Some vol => same vol devname | None => Ok false end);
        if hit : bool then
          '(v, w) ← FSOP_GETROOT (kd_fs kd) w;
          Ok (0, v, w)
        else next
      else
        match kd_rawname kd with
        | Some _ =>
            named ← same (kd_name kd) devname;
            if named : bool then Ok (ENXIO, 0, w) else next
        | None => next
        end
  end.

Definition vfs_getroot (devname : list Z) (s : vst W) : outcome (Z * Z * vst W) :=
  s ← lock_devs s;
  '(err, v, w) ← getroot_loop (knowndevs s) devname (world s);
  s ← unlock_devs (set_world w s);
  Ok (err, v, s).

Fixpoint getdevname_loop (fs : Z) (l : list knowndev) : option (list Z) :=
  match l with
  | [] => None
  | kd :: l' => if kd_fs kd =? fs then Some (kd_name kd) else getdevname_loop fs l'
  end.

Definition vfs_getdevname (fs : Z) (s : vst W) : outcome (option (list Z) * vst W) :=
  _ ← c_assert (negb (fs =? 0));
  s ← lock_devs s;
  let r := getdevname_loop fs (knowndevs s) in
  s ← unlock_devs s;
  Ok (r, s).

Fixpoint badnames_loop (l : list knowndev) (n1 n2 n3 : option (list Z)) (w : W) : outcome bool :=
  match l with
  | [] => Ok false
  | kd :: l' =>
      bad ← (if negb (kd_fs kd =? 0) then volname ← FSOP_GETVOLNAME (kd_fs kd) w; samestring3 volname n1 n2 n3 else Ok false);
      if bad : bool then Ok true
      else
        bad ← samestring3 (kd_rawname kd) n1 n2 n3;
        if bad : bool then Ok true
        else
          bad ← samestring3 (Some (kd_name kd)) n1 n2 n3;
          if bad : bool then Ok true else badnames_loop l' n1 n2 n3 w
  end.

Definition badnames (n1 n2 n3 : option (list Z)) (s : vst W) : outcome bool :=
  _ ← c_assert (knowndevs_lock s);
  badnames_loop (knowndevs s) n1 n2 n3 (world s).

Context `{DV : DevVnodes W}.

(** [kstrdup] of a name. *)
Definition kstrdup (s : list Z) (ok : bool) : outcome (option (list Z)) :=
  len ← strlen s;
  if negb ok then Ok None else z ← strcpy (replicate (Z.to_nat (u32 (len + 1))) 0) s; Ok (Some z).

Definition vfs_doadd (dname : list Z) (mountable : bool) (dev fs : Z) (aa : add_alloc) (s : vst W) : outcome (Z * vst W) :=
  name ← kstrdup dname (aa_name aa);
  match name with
  | None => Ok (ENOMEM, s)
  | Some name =>
      rawname ← (if mountable then mkrawname name (aa_raw aa) else Ok None);
      if mountable && bool_decide (rawname = None) then Ok (ENOMEM, s)
      else
        '(vnode, w) ← dev_create_vnode dev (world s);
        let s := set_world w s in
        if vnode =? 0 then Ok (ENOMEM, s)
        else if negb (aa_kd aa) then
          w ← kfree_vnode vnode (world s);
          Ok (ENOMEM, set_world w s)
        else
          let kd := mk_kd name rawname dev vnode fs in
          volname ← (if negb (fs =? 0) then FSOP_GETVOLNAME fs (world s) else Ok None);
          s ← lock_devs s;
          bad ← badnames (Some name) rawname volname s;
          let '(err, s) :=
            if bad : bool then (EEXIST, s)
            else if aa_room aa then (0, set_devs (knowndevs s ++ [kd]) s) else (ENOMEM, s) in
          s ← unlock_devs s;
          Ok (err, s)
  end.

Definition vfs_adddev (devname : list Z) (dev : Z) (mountable : bool) (aa : add_alloc) (s : vst W) : outcome (Z * vst W) :=
  vfs_doadd devname mountable dev 0 aa s.

Definition vfs_addfs (devname : list Z) (fs : Z) (aa : add_alloc) (s : vst W) : outcome (Z * vst W) :=
  vfs_doadd devname false 0 fs aa s.

(** The index of the device. *)
Fixpoint findmount_loop (l : list knowndev) (i : nat) (devname : list Z) : outcome (option nat) :=
  match l with
  | [] => Ok None
  | kd :: l' =>
      match kd_rawname kd with
      | None => findmount_loop l' (S i) devname
      | Some _ =>
          hit ← same devname (kd_name kd);
          if hit : bool then Ok (Some i) else findmount_loop l' (S i) devname
      end
  end.

Definition findmount (devname : list Z) (s : vst W) : outcome (option (nat * knowndev)) :=
  _ ← c_assert (knowndevs_lock s);
  r ← findmount_loop (knowndevs s) 0 devname;
  match r with
  | None => Ok None
  | Some i => match knowndevs s !! i with Some kd => Ok (Some (i, kd)) | None => Undef end
  end.

(** [mountfunc] gets the device and returns a file system. *)
Definition vfs_mount (devname : list Z) (mountfunc : Z -> W -> outcome (Z * Z * W)) (s : vst W) : outcome (Z * vst W) :=
  s ← lock_devs s;
  found ← findmount devname s;
  '(result, s) ←
    match found with
    | None => Ok (ENODEV, s)
    | Some (i, kd) =>
        if negb (kd_fs kd =? 0) then Ok (EBUSY, s)
        else
          _ ← c_assert (negb (bool_decide (kd_rawname kd = None)));
          _ ← c_assert (negb (kd_device kd =? 0));
          '(result, fs, w) ← mountfunc (kd_device kd) (world s);
          let s := set_world w s in
          if negb (result =? 0) then Ok (result, s)
          else
            _ ← c_assert (negb (fs =? 0));
            _ ← FSOP_GETVOLNAME fs (world s);
            Ok (0, set_devs (<[i := set_fs fs kd]> (knowndevs s)) s)
    end;
  s ← unlock_devs s;
  Ok (result, s).

Definition vfs_unmount (devname : list Z) (s : vst W) : outcome (Z * vst W) :=
  s ← lock_devs s;
  found ← findmount devname s;
  '(result, s) ←
    match found with
    | None => Ok (ENODEV, s)
    | Some (i, kd) =>
        if kd_fs kd =? 0 then Ok (EINVAL, s)
        else
          _ ← c_assert (negb (bool_decide (kd_rawname kd = None)));
          _ ← c_assert (negb (kd_device kd =? 0));
          '(result, w) ← FSOP_SYNC (kd_fs kd) (world s);
          let s := set_world w s in
          if negb (result =? 0) then Ok (result, s)
          else
            '(result, w) ← FSOP_UNMOUNT (kd_fs kd) (world s);
            let s := set_world w s in
            if negb (result =? 0) then Ok (result, s)
            else Ok (0, set_devs (<[i := set_fs 0 kd]> (knowndevs s)) s)
    end;
  s ← unlock_devs s;
  Ok (result, s).

(** The new list; a file system that cannot be synchronised or is busy stays. *)
Fixpoint unmountall_loop (l : list knowndev) (w : W) : outcome (list knowndev * W) :=
  match l with
  | [] => Ok ([], w)
  | kd :: l' =>
      '(kd, w) ←
        (if bool_decide (kd_rawname kd = None) then Ok (kd, w)
         else if kd_fs kd =? 0 then Ok (kd, w)
         else
           '(result, w) ← FSOP_SYNC (kd_fs kd) w;
           '(result, w) ← (if negb (result =? 0) then FSOP_SYNC (kd_fs kd) w else Ok (result, w));
           if negb (result =? 0) then Ok (kd, w)
           else
             '(result, w) ← FSOP_UNMOUNT (kd_fs kd) w;
             if negb (result =? 0) then Ok (kd, w) else Ok (set_fs 0 kd, w));
      '(l', w) ← unmountall_loop l' w;
      Ok (kd :: l', w)
  end.

Definition vfs_unmountall (s : vst W) : outcome (Z * vst W) :=
  s ← lock_devs s;
  '(l, w) ← unmountall_loop (knowndevs s) (world s);
  s ← unlock_devs (set_devs l (set_world w s));
  Ok (0, s).

End Ops.

(** ** What names stand for *)

(** The string in a buffer. *)
Fixpoint cstr (b : list Z) : list Z :=
  match b with
  | c :: b' => if c =? 0 then [] else c :: cstr b'
  | [] => []
  end.

Lemma points_cstr b l : points_to b l -> cstr b = l.
Proof.
  intros [Hs [rest ->]]. induction l as [|c l IH]; cbn [cstr app]; [done|]. apply str_cons in Hs as [Hc Hs]. nonzero c. by rewrite IH.
Qed.

Lemma same_run a b x y : points_to a x -> points_to b y -> same a b = Ok (bool_decide (x = y)).
Proof.
  intros Ha Hb. unfold same. rewrite (strcmp_run a b x y Ha Hb), Ok_bind. f_equal. pose proof (cmp_zero x y (proj1 Ha) (proj1 Hb)) as H.
  destruct (Z.eqb_spec (cmp x y) 0) as [E|E]; symmetry; [apply bool_decide_true|apply bool_decide_false]; tauto.
Qed.

Definition name_of (kd : knowndev) : list Z := cstr (kd_name kd).
Definition raw_of (kd : knowndev) : option (list Z) := cstr <$> kd_rawname kd.

(** The root of a file system, a device, a device without the file system that
    it is for, or nothing. *)
Inductive target : Type := Root (f : Z) | Self (v : Z) | Unmounted | Nothing.

(** What [n] stands for: the first device that has it as its name or raw name, or
    as the name of its volume. *)
Fixpoint find_target (g : ghost) (l : list knowndev) (n : list Z) : target :=
  match l with
  | [] => Nothing
  | kd :: l' =>
      if negb (kd_fs kd =? 0) && bool_decide (name_of kd = n \/ volname_of (kd_fs kd) g = Some n) then Root (kd_fs kd)
      else if bool_decide (name_of kd = n) then match kd_rawname kd with Some _ => Unmounted | None => Self (kd_vnode kd) end
      else if bool_decide (raw_of kd = Some n) then Self (kd_vnode kd)
      else find_target g l' n
  end.

Lemma find_target_ext g g' l n : (forall f, volname_of f g' = volname_of f g) -> find_target g' l n = find_target g l n.
Proof. intros Hv. induction l as [|kd l IH]; cbn [find_target]; [done|]. by rewrite IH, Hv. Qed.

Section Laws.
Context {W : Type} {VN : Vnodes W} {VL : VnodeLaws W}.

Record dev_ok (g : ghost) (kd : knowndev) : Prop := mk_dev_ok {
  do_name : points_to (kd_name kd) (name_of kd);
  do_raw r : kd_rawname kd = Some r -> points_to r (cstr r);
  do_fs : kd_fs kd <> 0 -> is_Some (g_fs g !! kd_fs kd);
  do_device : kd_fs kd = 0 \/ kd_rawname kd <> None -> kd_device kd <> 0;
  do_vnode : exists i, g_vn g !! kd_vnode kd = Some i /\ vi_type i <> S_IFDIR /\ vi_type i <> S_IFREG;
}.

Lemma hand_device_run g kd w : owns g w -> kd_vnode kd ∈ g_refs g -> roomy 1 g -> kd_device kd <> 0 ->
  exists w', hand_device kd w = Ok (0, kd_vnode kd, w') /\ owns (add_ref (kd_vnode kd) g) w'.
Proof.
  intros Ho Hv Hr Hd. unfold hand_device. rewrite (proj2 (Z.eqb_neq _ 0) Hd). cbn [negb c_assert]. rewrite Ok_bind.
  destruct (incref_law g w _ Ho Hv Hr) as (w' & -> & Ho'). rewrite Ok_bind. eauto.
Qed.

(** What [vfs_getroot] returns for it. *)
Definition reached (g : ghost) (w : W) (x : target) (r v : Z) (w' : W) : Prop :=
  match x with
  | Root f => r = 0 /\ v <> 0 /\ exists id, let i := mk_vi f id S_IFDIR in (v ∈ g_refs g -> g_vn g !! v = Some i) /\ owns (hand_out v i g) w'
  | Self x => r = 0 /\ v = x /\ v ∈ g_refs g /\ (exists i, g_vn g !! v = Some i /\ vi_type i <> S_IFDIR /\ vi_type i <> S_IFREG) /\ owns (add_ref v g) w'
  | Unmounted => r = ENXIO /\ w' = w
  | Nothing => r = ENODEV /\ w' = w
  end.

Lemma getroot_run g nm n w l : owns g w -> Forall (dev_ok g) l -> Forall (fun kd => kd_vnode kd ∈ g_refs g) l -> points_to nm n -> roomy 1 g ->
  exists r v w', getroot_loop l nm w = Ok (r, v, w') /\
    reached g w (find_target g l n) r v w'.
Proof.
  intros Ho Hl Hv Hn Hr. induction l as [|kd l IH]; cbn [getroot_loop find_target]; [by eexists _, _, _|].
  apply list.Forall_cons in Hl as [Hkd Hl]. apply list.Forall_cons in Hv as [Hkv Hv]. specialize (IH Hl Hv). destruct Hkd as [Hnm Hraw Hfs Hdev (i & Hi & Hnd & Hnr0)].
  pose proof (same_run _ _ _ _ Hnm Hn) as Hs.
  assert (kd_fs kd = 0 \/ name_of kd <> n -> (name_of kd = n -> kd_rawname kd = None) -> exists r v w', (named ← same (kd_name kd) nm;
      if named : bool then _ ← c_assert (kd_fs kd =? 0); _ ← c_assert (bool_decide (kd_rawname kd = None)); hand_device kd w
      else match kd_rawname kd with Some raw => hit ← same raw nm; if hit : bool then hand_device kd w else getroot_loop l nm w | None => getroot_loop l nm w end) = Ok (r, v, w') /\
    reached g w (if bool_decide (name_of kd = n) then match kd_rawname kd with Some _ => Unmounted | None => Self (kd_vnode kd) end else if bool_decide (raw_of kd = Some n) then Self (kd_vnode kd) else find_target g l n) r v w') as Hnext.
  { intros Hor Hnr. rewrite Hs, Ok_bind. destruct (bool_decide (name_of kd = n)) eqn:E; [apply bool_decide_eq_true in E|apply bool_decide_eq_false in E].
    - destruct Hor as [Hz|]; [|done]. rewrite Hz, (Hnr E). cbn [Z.eqb c_assert]. rewrite !Ok_bind.
      destruct (hand_device_run g kd w Ho Hkv Hr) as (w' & -> & Ho'); [apply Hdev; by left|]. eexists _, _, _. split; [done|]. cbn. eauto 10.
    - unfold raw_of. destruct (kd_rawname kd) as [raw|] eqn:Er; [|by rewrite bool_decide_false].
      rewrite (same_run _ _ _ _ (Hraw _ eq_refl) Hn), Ok_bind. replace (bool_decide (cstr <$> Some raw = Some n)) with (bool_decide (cstr raw = n)) by (apply bool_decide_ext; cbn; split; congruence).
      destruct (bool_decide (cstr raw = n)); [|done].
      destruct (hand_device_run g kd w Ho Hkv Hr) as (w' & -> & Ho'); [apply Hdev; by right|]. eexists _, _, _. split; [done|]. cbn. eauto 10. }
  destruct (Z.eqb_spec (kd_fs kd) 0) as [Hz|Hz]; cbn [negb andb].
  - revert Hnext. destruct (kd_rawname kd) as [raw|] eqn:Er; intros Hnext; [|apply Hnext; [by left|done]].
    rewrite Hs, Ok_bind in Hnext |- *. destruct (bool_decide (name_of kd = n)) eqn:E; [by eexists _, _, _|]. rewrite Ok_bind. apply Hnext; [by left|]. apply bool_decide_eq_false in E. done.
  - destruct (Hfs Hz) as [a Ha]. destruct (volname_law g w _ a Ho Ha) as (vol & -> & Hvol). rewrite Ok_bind, Hs, Ok_bind. unfold volname_of. rewrite Ha. cbn [mbind option_bind].
    set (hit := bool_decide (name_of kd = n \/ af_volname a = Some n)).
    assert ((if bool_decide (name_of kd = n) then Ok true else match vol with Some vol => same vol nm | None => Ok false end) = Ok hit) as ->.
    { unfold hit. destruct (bool_decide (name_of kd = n)) eqn:E; [apply bool_decide_eq_true in E; by rewrite bool_decide_true by (by left)|apply bool_decide_eq_false in E]. destruct vol as [vol|], (af_volname a) as [x|]; try done.
      - rewrite (same_run _ _ _ _ Hvol Hn). f_equal. apply bool_decide_ext. split; [intros ->; by right|intros [?|?]; congruence].
      - f_equal. symmetry. apply bool_decide_false. by intros [?|?]. }
    rewrite Ok_bind. destruct hit eqn:E; unfold hit in E.
    + destruct (getroot_law g w _ Ho (Hfs Hz) Hr) as (v & w' & -> & Hv0 & id & Hrest). rewrite Ok_bind. eexists _, _, _. split; [done|]. cbn. eauto.
    + apply bool_decide_eq_false in E. rewrite Hs, Ok_bind in Hnext. apply Hnext; tauto.
Qed.

End Laws.

End VfsList.
