(* ===== verification/Vfs.v ===== *)
(** * Path names: kern/fs/vfs/vfslookup.c, vfscwd.c, vfspath.c

    Translation of path names to vnodes, the current directory, and the calls
    that take paths, on top of the vnode interface and the list of devices. *)

From stdpp Require Import gmultiset.
From S2P Require Import Prelude Uio Strings Printf SfsDisk SfsFile SfsVnode Vnode VfsList.
Import Strings SfsDisk SfsFile SfsVnode Vnode VfsList.

Module Vfs.

Definition NAME_MAX : Z := 255.
Definition O_WRONLY : Z := 1.
Definition O_RDWR : Z := 2.
Definition O_CREAT : Z := 4.
Definition O_EXCL : Z := 8.
Definition O_TRUNC : Z := 16.

Definition set_boot {W} (v : Z) (s : vst W) : vst W := mk_vst (world s) (knowndevs s) (knowndevs_lock s) v (bootfs_lock s) (t_cwd s).
Definition set_boot_lock {W} (b : bool) (s : vst W) : vst W := mk_vst (world s) (knowndevs s) (knowndevs_lock s) (bootfs_vnode s) b (t_cwd s).
Definition set_cwd {W} (v : Z) (s : vst W) : vst W := mk_vst (world s) (knowndevs s) (knowndevs_lock s) (bootfs_vnode s) (bootfs_lock s) v.

Definition lock_boot {W} (s : vst W) : outcome (vst W) := if bootfs_lock s then Hang else Ok (set_boot_lock true s).
Definition unlock_boot {W} (s : vst W) : outcome (vst W) := _ ← c_assert (bootfs_lock s); Ok (set_boot_lock false s).

(** ** Scanning a path *)

(** The loop for the first colon or slash: [colon] and [slash], -1 if there is
    none. *)
Fixpoint scan (path : list Z) (i : Z) : outcome (Z * Z) :=
  match path with
  | [] => Undef
  | c :: path' =>
      if c =? 0 then Ok (-1, -1)
      else if c =? 58 then Ok (i, -1)
      else if c =? 47 then Ok (-1, i)
      else scan path' (i + 1)
  end.

(** The loops over slashes, from index [i] on; the index of the first other
    character. *)
Fixpoint slashes (path : list Z) (i : Z) : outcome Z :=
  match path with
  | [] => Undef
  | c :: path' => if c =? 47 then slashes path' (i + 1) else Ok i
  end.

Section Ops.
Context {W : Type} `{VN : Vnodes W}.

(** What the name buffers on the stack hold. *)
Variable junk : list Z.

Definition on_world (f : W -> outcome W) (s : vst W) : outcome (vst W) := w ← f (world s); Ok (set_world w s).

(** ** The current directory *)

Definition vfs_getcurdir (s : vst W) : outcome (Z * Z * vst W) :=
  if negb (t_cwd s =? 0) then
    s ← on_world (VOP_INCREF (t_cwd s)) s;
    Ok (0, t_cwd s, s)
  else Ok (ENOENT, 0, s).

Definition decref_old (old : Z) (s : vst W) : outcome (vst W) :=
  if negb (old =? 0) then on_world (VOP_DECREF old) s else Ok s.

Definition vfs_setcurdir (dir : Z) (s : vst W) : outcome (Z * vst W) :=
  '(result, vtype, w) ← VOP_GETTYPE dir (world s);
  let s := set_world w s in
  if negb (result =? 0) then Ok (result, s)
  else if negb (S_ISDIR vtype) then Ok (ENOTDIR, s)
  else
    s ← on_world (VOP_INCREF dir) s;
    let old := t_cwd s in
    s ← decref_old old (set_cwd dir s);
    Ok (0, s).

Definition vfs_clearcurdir (s : vst W) : outcome (Z * vst W) :=
  let old := t_cwd s in
  s ← decref_old old (set_cwd 0 s);
  Ok (0, s).

(** ** Translation *)

Definition change_bootfs (newguy : Z) (s : vst W) : outcome (vst W) :=
  s ← lock_boot s;
  let oldguy := bootfs_vnode s in
  s ← unlock_boot (set_boot newguy s);
  decref_old oldguy s.

Definition vfs_clearbootfs (s : vst W) : outcome (vst W) := change_bootfs 0 s.

(** Returns the path buffer, in which the colon is overwritten, the index of the
    subpath, and the vnode to start from. *)
Definition getdevice (path : list Z) (s : vst W) : outcome (Z * list Z * Z * Z * vst W) :=
  '(colon, slash) ← scan path 0;
  if (colon <? 0) && negb (slash =? 0) then
    '(result, vn, s) ← vfs_getcurdir s;
    Ok (result, path, 0, vn, s)
  else if colon >? 0 then
    let path := <[Z.to_nat colon := 0]> path in
    sub ← slashes (drop (Z.to_nat (colon + 1)) path) (colon + 1);
    '(result, vn, s) ← vfs_getroot path s;
    Ok (result, path, sub, vn, s)
  else
    _ ← c_assert ((colon =? 0) || (slash =? 0));
    first ← rd path 0;
    '(result, vn, s) ←
      (if first =? 47 then
         s ← lock_boot s;
         if bootfs_vnode s =? 0 then
           s ← unlock_boot s;
           Ok (ENOENT, 0, s)
         else
           s ← on_world (VOP_INCREF (bootfs_vnode s)) s;
           let startvn := bootfs_vnode s in
           s ← unlock_boot s;
           Ok (0, startvn, s)
       else
         _ ← c_assert (first =? 58);
         '(result, vn, s) ← vfs_getcurdir s;
         if negb (result =? 0) then Ok (result, 0, s)
         else
           fs ← vn_fs vn (world s);
           _ ← c_assert (negb (fs =? 0));
           '(startvn, w) ← FSOP_GETROOT fs (world s);
           s ← on_world (VOP_DECREF vn) (set_world w s);
           Ok (0, startvn, s));
    if negb (result =? 0) then Ok (result, path, 0, vn, s)
    else
      sub ← slashes (drop 1 path) 1;
      Ok (0, path, sub, vn, s).

(** Returns the path buffer, the vnode and the name. *)
Definition vfs_lookparent (path buf : list Z) (s : vst W) : outcome (Z * list Z * Z * list Z * vst W) :=
  '(result, path, sub, startvn, s) ← getdevice path s;
  if negb (result =? 0) then Ok (result, path, 0, buf, s)
  else
    let subpath := drop (Z.to_nat sub) path in
    len ← strlen subpath;
    '(result, retval, buf, w) ←
      (if len =? 0 then Ok (EINVAL, 0, buf, world s) else VOP_LOOKPARENT startvn subpath buf (world s));
    s ← on_world (VOP_DECREF startvn) (set_world w s);
    Ok (result, path, retval, buf, s).

Definition vfs_lookup (path : list Z) (s : vst W) : outcome (Z * list Z * Z * vst W) :=
  '(result, path, sub, startvn, s) ← getdevice path s;
  if negb (result =? 0) then Ok (result, path, 0, s)
  else
    let subpath := drop (Z.to_nat sub) path in
    len ← strlen subpath;
    if len =? 0 then Ok (0, path, startvn, s)
    else
      '(result, retval, w) ← VOP_LOOKUP startvn subpath (world s);
      s ← on_world (VOP_DECREF startvn) (set_world w s);
      Ok (result, path, retval, s).

Definition vfs_chdir (path : list Z) (s : vst W) : outcome (Z * list Z * vst W) :=
  '(result, path, vn, s) ← vfs_lookup path s;
  if negb (result =? 0) then Ok (result, path, s)
  else
    '(result, s) ← vfs_setcurdir vn s;
    s ← on_world (VOP_DECREF vn) s;
    Ok (result, path, s).

(** The first [snprintf] of the name into [tmp], then the test of the colon. *)
Definition fmt_s : list Z := [37; 115; 0].

Definition vfs_setbootfs (numbuf : list Z) (fsname : list Z) (s : vst W) : outcome (Z * vst W) :=
  '(_, tmp) ← Printf.Printf.vsnprintf numbuf junk (NAME_MAX + 1 - 1) fmt_s [Printf.Printf.Str (Some fsname)];
  colon ← strchr tmp 58;
  '(result, tmp) ←
    match colon with
    | Some k => len ← strlen (drop (Z.to_nat k) tmp); if len >? 0 then Ok (EINVAL, tmp) else Ok (0, tmp)
    | None => tmp ← strcat tmp [58; 0]; Ok (0, tmp)
    end;
  if negb (result =? 0) then Ok (result, s)
  else
    '(result, _, s) ← vfs_chdir tmp s;
    if negb (result =? 0) then Ok (result, s)
    else
      '(result, newguy, s) ← vfs_getcurdir s;
      if negb (result =? 0) then Ok (result, s)
      else
        s ← change_bootfs newguy s;
        Ok (0, s).

(** Only kernel buffers. *)
Definition vfs_getcwd (u : uio) (s : vst W) : outcome (Z * uio * vst W) :=
  _ ← c_assert (bool_decide (uio_rw u = UIO_READ));
  '(result, cwd, s) ← vfs_getcurdir s;
  if negb (result =? 0) then Ok (result, u, s)
  else
    fs ← vn_fs cwd (world s);
    _ ← c_assert (negb (fs =? 0));
    name ← FSOP_GETVOLNAME fs (world s);
    '(name, s) ← match name with Some n => Ok (Some n, s) | None => vfs_getdevname fs s end;
    match name with
    | None => Panic
    | Some name =>
        len ← strlen name;
        '(_, u) ← uiomove name len u;
        '(_, u) ← uiomove [58] 1 u;
        '(result, u, w) ← VOP_NAMEFILE cwd u (world s);
        s ← on_world (VOP_DECREF cwd) (set_world w s);
        Ok (result, u, s)
    end.

(** ** Calls on paths *)

(** The part of [vfs_open] after the file was found. *)
Definition open_found (vn openflags : Z) (canwrite : bool) (s : vst W) : outcome (Z * Z * vst W) :=
  _ ← c_assert (negb (vn =? 0));
  '(result, w) ← VOP_OPEN vn openflags (world s);
  let s := set_world w s in
  if negb (result =? 0) then
    s ← on_world (VOP_DECREF vn) s;
    Ok (result, 0, s)
  else
    s ← on_world (VOP_INCOPEN vn) s;
    if negb (Z.land openflags O_TRUNC =? 0) then
      '(result, w) ← (if canwrite then VOP_TRUNCATE vn 0 (world s) else Ok (EINVAL, world s));
      let s := set_world w s in
      if negb (result =? 0) then
        s ← on_world (VOP_DECOPEN vn) s;
        s ← on_world (VOP_DECREF vn) s;
        Ok (result, 0, s)
      else Ok (0, vn, s)
    else Ok (0, vn, s).

Definition vfs_open (path : list Z) (openflags : Z) (s : vst W) : outcome (Z * list Z * Z * vst W) :=
  let how := Z.land openflags O_ACCMODE in
  if negb ((how =? O_RDONLY) || (how =? O_WRONLY) || (how =? O_RDWR)) then Ok (EINVAL, path, 0, s)
  else
    let canwrite := negb (how =? O_RDONLY) in
    '(result, path, vn, s) ←
      (if negb (Z.land openflags O_CREAT =? 0) then
         let excl := negb (Z.land openflags O_EXCL =? 0) in
         '(result, path, dir, name, s) ← vfs_lookparent path junk s;
         if negb (result =? 0) then Ok (result, path, 0, s)
         else
           '(result, vn, w) ← VOP_CREAT dir name excl (world s);
           s ← on_world (VOP_DECREF dir) (set_world w s);
           Ok (result, path, vn, s)
       else vfs_lookup path s);
    if negb (result =? 0) then Ok (result, path, 0, s)
    else
      '(result, vn, s) ← open_found vn openflags canwrite s;
      Ok (result, path, vn, s).

Definition vfs_close (vn : Z) (s : vst W) : outcome (vst W) :=
  s ← on_world (VOP_DECOPEN vn) s;
  on_world (VOP_DECREF vn) s.

(** The calls that look up the parent and do one operation on it. *)
Definition on_parent (path : list Z) (op : Z -> list Z -> W -> outcome (Z * W)) (s : vst W) : outcome (Z * list Z * vst W) :=
  '(result, path, dir, name, s) ← vfs_lookparent path junk s;
  if negb (result =? 0) then Ok (result, path, s)
  else
    '(result, w) ← op dir name (world s);
    s ← on_world (VOP_DECREF dir) (set_world w s);
    Ok (result, path, s).

Definition vfs_remove (path : list Z) : vst W -> outcome (Z * list Z * vst W) := on_parent path VOP_REMOVE.
Definition vfs_mkdir (path : list Z) : vst W -> outcome (Z * list Z * vst W) := on_parent path VOP_MKDIR.
Definition vfs_rmdir (path : list Z) : vst W -> outcome (Z * list Z * vst W) := on_parent path VOP_RMDIR.
Definition vfs_symlink (contents path : list Z) : vst W -> outcome (Z * list Z * vst W) :=
  on_parent path (fun dir name => VOP_SYMLINK dir name contents).

(** Both vnodes are let go. *)
Definition release2 (a b : Z) (s : vst W) : outcome (vst W) :=
  s ← on_world (VOP_DECREF a) s;
  on_world (VOP_DECREF b) s.

Definition cross_device (a b : Z) (s : vst W) : outcome bool :=
  fa ← vn_fs a (world s);
  if fa =? 0 then Ok true
  else
    fb ← vn_fs b (world s);
    Ok ((fb =? 0) || negb (fa =? fb)).

Definition vfs_rename (oldpath newpath : list Z) (s : vst W) : outcome (Z * vst W) :=
  '(result, _, olddir, oldname, s) ← vfs_lookparent oldpath junk s;
  if negb (result =? 0) then Ok (result, s)
  else
    '(result, _, newdir, newname, s) ← vfs_lookparent newpath junk s;
    if negb (result =? 0) then
      s ← on_world (VOP_DECREF olddir) s;
      Ok (result, s)
    else
      cross ← cross_device olddir newdir s;
      if cross : bool then
        s ← release2 newdir olddir s;
        Ok (EXDEV, s)
      else
        '(result, w) ← VOP_RENAME olddir oldname newdir newname (world s);
        s ← release2 newdir olddir (set_world w s);
        Ok (result, s).

Definition vfs_link (oldpath newpath : list Z) (s : vst W) : outcome (Z * vst W) :=
  '(result, _, oldfile, s) ← vfs_lookup oldpath s;
  if negb (result =? 0) then Ok (result, s)
  else
    '(result, _, newdir, newname, s) ← vfs_lookparent newpath junk s;
    if negb (result =? 0) then
      s ← on_world (VOP_DECREF oldfile) s;
      Ok (result, s)
    else
      cross ← cross_device oldfile newdir s;
      if cross : bool then
        s ← release2 newdir oldfile s;
        Ok (EXDEV, s)
      else
        '(result, w) ← VOP_LINK newdir newname oldfile (world s);
        s ← release2 newdir oldfile (set_world w s);
        Ok (result, s).

Definition vfs_readlink (path : list Z) (u : uio) (s : vst W) : outcome (Z * list Z * uio * vst W) :=
  '(result, path, vn, s) ← vfs_lookup path s;
  if negb (result =? 0) then Ok (result, path, u, s)
  else
    '(result, u, w) ← VOP_READLINK vn u (world s);
    s ← on_world (VOP_DECREF vn) (set_world w s);
    Ok (result, path, u, s).

End Ops.

(** ** What a path means *)

(** Where the search starts: the current directory, the boot file system, the
    file system of the current directory, or a named device. *)
Inductive start : Type := AtCwd | AtBoot | AtVolume | AtDevice (n : list Z).

Fixpoint strip (p : list Z) : list Z :=
  match p with
  | c :: p' => if c =? 47 then strip p' else p
  | [] => []
  end.

(** The first colon or slash of [q], after [front]. *)
Fixpoint parse_from (front q : list Z) : start * list Z :=
  match q with
  | [] => (AtCwd, front)
  | c :: q' =>
      if c =? 58 then (match front with [] => AtVolume | _ => AtDevice front end, strip q')
      else if c =? 47 then match front with [] => (AtBoot, strip q') | _ => (AtCwd, front ++ q) end
      else parse_from (front ++ [c]) q'
  end.

Definition parse (p : list Z) : start * list Z := parse_from [] p.

Lemma strip_length q : (length (strip q) <= length q)%nat.
Proof. induction q as [|c q IH]; cbn [strip]; [done|]. destruct (c =? 47); cbn [length]; lia. Qed.

Lemma parse_from_length q : forall front, (length (parse_from front q).2 <= length front + length q)%nat.
Proof.
  induction q as [|c q IH]; intros front; cbn [parse_from snd length]; [lia|]. pose proof (strip_length q). destruct (c =? 58); [cbn; lia|].
  destruct (c =? 47); [destruct front; cbn [snd]; rewrite ?length_app; cbn [length]; lia|]. specialize (IH (front ++ [c])). rewrite length_app in IH. cbn [length] in IH. lia.
Qed.

Lemma parse_length p : (length (parse p).2 <= length p)%nat.
Proof. apply (parse_from_length p []). Qed.

Definition own (v : Z) : gmultiset Z := if v =? 0 then ∅ else {[+ v +]}.

Lemma str_strip q : str q -> str (strip q).
Proof. induction q as [|c q IH]; [done|]. cbn [strip]. intros [Hc Hs]%str_cons. destruct (c =? 47); [by apply IH|by apply str_cons]. Qed.

Lemma slashes_run rest q : forall i, str q -> exists k, slashes (q ++ 0 :: rest) i = Ok (i + Z.of_nat k) /\ drop k (q ++ 0 :: rest) = strip q ++ 0 :: rest.
Proof.
  induction q as [|c q IH]; intros i Hs; cbn [slashes strip app Z.eqb]; [exists 0%nat; by rewrite Z.add_0_r|]. apply str_cons in Hs as [_ Hs].
  destruct (c =? 47); [|exists 0%nat; by rewrite Z.add_0_r]. destruct (IH (i + 1) Hs) as (k & -> & Hk). exists (S k). split; [f_equal; lia|done].
Qed.

(** The outcomes of the scan. *)
Definition scanned (p : list Z) (cs : Z * Z) : Prop :=
  let '(colon, slash) := cs in
  (colon = -1 /\ slash <> 0 /\ parse p = (AtCwd, p)) \/
  (slash = -1 /\ colon > 0 /\ exists d q, p = d ++ 58 :: q /\ zlen d = colon /\ parse p = (AtDevice d, strip q)) \/
  (slash = -1 /\ colon = 0 /\ exists q, p = 58 :: q /\ parse p = (AtVolume, strip q)) \/
  (slash = 0 /\ colon = -1 /\ exists q, p = 47 :: q /\ parse p = (AtBoot, strip q)).

Lemma scan_run rest q : forall front, str q -> parse (front ++ q) = parse_from front q -> exists cs, scan (q ++ 0 :: rest) (zlen front) = Ok cs /\ scanned (front ++ q) cs.
Proof.
  induction q as [|c q IH]; intros front Hs Hp; cbn [scan app Z.eqb].
  { eexists. split; [done|]. left. split; [done|]. split; [done|]. by rewrite Hp, app_nil_r. }
  apply str_cons in Hs as [Hc Hs]. nonzero c. cbn [parse_from] in Hp. destruct (Z.eqb_spec c 58) as [->|H58].
  { eexists. split; [done|]. right. destruct front as [|x front]; [right; left; split; [done|]; split; [done|]; by exists q|left]. split; [done|]. split; [cbn; lia|]. by eexists _, _. }
  destruct (Z.eqb_spec c 47) as [->|H47].
  { eexists. split; [done|]. destruct front as [|x front]; [right; right; right; split; [done|]; split; [done|]; by exists q|left]. split; [done|]. split; [cbn; lia|done]. }
  destruct (IH (front ++ [c]) Hs) as (cs & Hrun & Hsc); [by rewrite <- app_assoc|]. rewrite length_app in Hrun. cbn [length] in Hrun.
  exists cs. rewrite <- app_assoc in Hsc. split; [|done]. rewrite <- Hrun. f_equal. lia.
Qed.

Section Laws.
Context {W : Type} {VN : Vnodes W} {VL : VnodeLaws W}.

(** The references of the tables. *)
Definition table_refs (s : vst W) : gmultiset Z := own (t_cwd s) ⊎ own (bootfs_vnode s) ⊎ list_to_set_disj (kd_vnode <$> knowndevs s).

(** With the references of the callers, in [g]. *)
Definition total (g : ghost) (s : vst W) : ghost := set_refs (g_refs g ⊎ table_refs s) g.

Definition is_dir (g : ghost) (v : Z) : Prop := v <> 0 -> exists i, g_vn g !! v = Some i /\ vi_type i = S_IFDIR.

(** The invariant of the layer, between calls. *)
Record vok (g : ghost) (s : vst W) : Prop := mk_vok {
  vk_owns : owns (total g s) (world s);
  vk_locks : knowndevs_lock s = false /\ bootfs_lock s = false;
  vk_cwd : is_dir g (t_cwd s);
  vk_boot : is_dir g (bootfs_vnode s);
  vk_devs : Forall (dev_ok g) (knowndevs s);
}.

Lemma total_hand_out g s v i : total (hand_out v i g) s = hand_out v i (total g s).
Proof. unfold total, hand_out, set_refs. cbn. f_equal. multiset_solver. Qed.

Lemma total_add g s v : total (add_ref v g) s = add_ref v (total g s).
Proof. unfold total, add_ref, set_refs. cbn. f_equal. multiset_solver. Qed.

Lemma total_drop g s v : v ∈ g_refs g -> total (drop_ref v g) s = drop_ref v (total g s).
Proof. intros Hv. unfold total, drop_ref, set_refs. cbn. f_equal. multiset_solver. Qed.

Lemma total_table g s v : v ∈ table_refs s -> v ∈ g_refs (total g s).
Proof. intros Hv. cbn. multiset_solver. Qed.

Lemma cwd_ref s : t_cwd s <> 0 -> t_cwd s ∈ table_refs s.
Proof. intros H. unfold table_refs, own. rewrite (proj2 (Z.eqb_neq _ 0) H). multiset_solver. Qed.

Lemma boot_ref s : bootfs_vnode s <> 0 -> bootfs_vnode s ∈ table_refs s.
Proof. intros H. unfold table_refs, own. rewrite (proj2 (Z.eqb_neq (bootfs_vnode s) 0) H). multiset_solver. Qed.

Lemma dev_ref s kd : kd ∈ knowndevs s -> kd_vnode kd ∈ table_refs s.
Proof.
  intros H. unfold table_refs. apply gmultiset_elem_of_disj_union. right. apply elem_of_list_to_set_disj, list_elem_of_fmap. eauto.
Qed.

(** A step of the world. *)
Lemma vok_step g g' s w' : vok g s -> owns (total g' s) w' -> (forall v, v ∈ table_refs s -> g_vn g' !! v = g_vn g !! v) ->
  (forall f, is_Some (g_fs g !! f) -> is_Some (g_fs g' !! f)) -> vok g' (set_world w' s).
Proof.
  intros [Ho Hl Hc Hb Hd] Ho' Hvn Hfs. constructor; [done|done| | |].
  - intros H. cbn in *. destruct (Hc H) as (i & Hi & Ht). exists i. split; [|done]. rewrite Hvn; [done|]. by apply cwd_ref.
  - intros H. cbn in *. destruct (Hb H) as (i & Hi & Ht). exists i. split; [|done]. rewrite Hvn; [done|]. by apply boot_ref.
  - cbn. apply list.Forall_forall. intros kd Hkd. rewrite list.Forall_forall in Hd. destruct (Hd kd Hkd) as [? ? Hf ? (i & Hi & ?)].
    constructor; try done; [auto|]. exists i. split; [|done]. rewrite Hvn; [done|]. by apply dev_ref.
Qed.

(** [b] is [a], up to what is known of vnodes without references. *)
Definition same_ghost (s : vst W) (a b : ghost) : Prop :=
  g_refs b = g_refs a /\ g_opens b = g_opens a /\ g_fs b = g_fs a /\ forall x, x ∈ g_refs (total a s) -> g_vn b !! x = g_vn a !! x.

(** [v] is new, or is known as [i]. *)
Definition fits_in (s : vst W) (g : ghost) (v : Z) (i : vinfo) : Prop := v ∈ g_refs (total g s) -> g_vn g !! v = Some i.

Lemma insert_known (s : vst W) g v i x : fits_in s g v i -> x ∈ g_refs (total g s) -> <[v := i]> (g_vn g) !! x = g_vn g !! x.
Proof. intros Hf Hx. rewrite lookup_insert. case_decide as E; [|done]. subst x. by rewrite Hf. Qed.

Lemma vok_hand_out g s v i w' : vok g s -> fits_in s g v i -> owns (hand_out v i (total g s)) w' -> vok (hand_out v i g) (set_world w' s).
Proof.
  intros Hk Hf Ho. apply (vok_step g); [done|by rewrite total_hand_out| |done]. intros x Hx. cbn. apply (insert_known s); [done|]. by apply total_table.
Qed.

Lemma vok_incref g s v i : vok g s -> v ∈ g_refs (total g s) -> g_vn g !! v = Some i -> roomy 1 (total g s) ->
  exists w', on_world (VOP_INCREF v) s = Ok (set_world w' s) /\ vok (hand_out v i g) (set_world w' s).
Proof.
  intros Hk Hv Hi Hr. destruct (incref_law _ _ v (vk_owns _ _ Hk) Hv Hr) as (w' & Hrun & Ho). exists w'. unfold on_world. rewrite Hrun, Ok_bind. split; [done|].
  apply vok_hand_out; [done|by intros _|]. unfold hand_out. cbn. by rewrite insert_id.
Qed.

Lemma vok_decref g g' s v : vok g s -> v ∈ g_refs g -> count v (g_opens g) < count v (g_refs (total g s)) -> same_ghost s (drop_ref v g) g' ->
  exists w', on_world (VOP_DECREF v) s = Ok (set_world w' s) /\ vok g' (set_world w' s).
Proof.
  intros Hk Hv Hc (Hr & Hop & Hfs & Hvn). destruct (decref_law _ _ v (vk_owns _ _ Hk) Hc) as (w' & Hrun & Ho). exists w'. unfold on_world. rewrite Hrun, Ok_bind. split; [done|].
  rewrite <- total_drop in Ho by done. apply (vok_step g); [done| | |].
  - eapply owns_ext; [exact Ho|cbn; by rewrite Hr|done|done|]. intros x Hx. by apply Hvn.
  - intros x Hx. rewrite Hvn; [done|]. by apply total_table.
  - intros f Hf. by rewrite Hfs.
Qed.

(** A reference that was taken is given back. *)
Lemma vok_release g1 g2 s v : vok g1 s -> g_refs g1 = g_refs g2 ⊎ {[+ v +]} -> g_opens g1 = g_opens g2 -> g_fs g1 = g_fs g2 ->
  (forall x, x ∈ g_refs (total g2 s) -> g_vn g2 !! x = g_vn g1 !! x) -> g_opens g2 ⊆ g_refs (total g2 s) ->
  exists w', on_world (VOP_DECREF v) s = Ok (set_world w' s) /\ vok g2 (set_world w' s).
Proof.
  intros Hk Hr Ho Hf Hvn Hop. apply (vok_decref g1); [done|rewrite Hr; multiset_solver| |].
  - unfold count. cbn. rewrite Hr, Ho, !multiplicity_disj_union, multiplicity_singleton, decide_True by done. pose proof (Hop v) as H. cbn in H. rewrite multiplicity_disj_union in H. lia.
  - repeat split; cbn; [rewrite Hr; multiset_solver|by rewrite Ho|by rewrite Hf|]. intros x Hx. apply Hvn. cbn. rewrite Hr in Hx. multiset_solver.
Qed.

Lemma vok_release1 g s v i : vok (hand_out v i g) s -> fits_in s g v i -> g_opens g ⊆ g_refs (total g s) ->
  exists w', on_world (VOP_DECREF v) s = Ok (set_world w' s) /\ vok g (set_world w' s).
Proof.
  intros Hk Hf Hop. apply (vok_release (hand_out v i g)); try done. intros x Hx. symmetry. by apply (insert_known s).
Qed.

Lemma fits_in_under s g v i v' i' : fits_in s g v i -> fits_in s (hand_out v i g) v' i' -> fits_in s g v' i'.
Proof. intros Hf Hf' Hv. rewrite <- (insert_known s g v i v') by done. apply Hf'. rewrite total_hand_out. cbn in *. multiset_solver. Qed.

(** The same below another reference. *)
Lemma vok_release2 g s v i v' i' : vok (hand_out v' i' (hand_out v i g)) s -> fits_in s g v i -> g_opens g ⊆ g_refs (total g s) ->
  exists w', on_world (VOP_DECREF v) s = Ok (set_world w' s) /\ vok (hand_out v' i' g) (set_world w' s).
Proof.
  intros Hk Hf Hop. apply (vok_release (hand_out v' i' (hand_out v i g))); try done; [cbn; multiset_solver| |].
  - intros x Hx. cbn. rewrite !lookup_insert. repeat case_decide; try done. subst x. symmetry. rewrite Hf; [done|]. rewrite total_hand_out in Hx. cbn in *. multiset_solver.
  - rewrite total_hand_out. cbn in *. multiset_solver.
Qed.

Lemma vok_opens g s : vok g s -> g_opens g ⊆ g_refs (total g s).
Proof. intros Hk. exact (owns_open _ _ (vk_owns _ _ Hk)). Qed.

Lemma getcurdir_run g s : vok g s -> roomy 1 (total g s) ->
  (t_cwd s = 0 /\ vfs_getcurdir s = Ok (ENOENT, 0, s)) \/
  exists w' i, t_cwd s <> 0 /\ vfs_getcurdir s = Ok (0, t_cwd s, set_world w' s) /\ g_vn g !! t_cwd s = Some i /\ vi_type i = S_IFDIR /\ vok (hand_out (t_cwd s) i g) (set_world w' s).
Proof.
  intros Hk Hr. unfold vfs_getcurdir. destruct (Z.eqb_spec (t_cwd s) 0) as [|Hne]; cbn [negb]; [by left|right]. destruct (vk_cwd _ _ Hk Hne) as (i & Hi & Ht).
  destruct (vok_incref g s (t_cwd s) i Hk) as (w' & -> & Hk'); [by apply total_table, cwd_ref|done|done|]. rewrite Ok_bind. eauto 10.
Qed.

(** Where a search starts: in a directory, at a device, or not at all. *)
Inductive origin : Type := Dir (f : Z) | Dev | Err (e : Z).

Definition dir_of (g : ghost) (v : Z) : origin :=
  if v =? 0 then Err ENOENT else match g_vn g !! v with Some i => Dir (vi_fs i) | None => Err ENOENT end.

Definition origin_of (g : ghost) (s : vst W) (wh : start) : origin :=
  match wh with
  | AtCwd | AtVolume => dir_of g (t_cwd s)
  | AtBoot => dir_of g (bootfs_vnode s)
  | AtDevice n =>
      match find_target g (knowndevs s) n with
      | Root f => Dir f
      | Self _ => Dev
      | Unmounted => Err ENXIO
      | Nothing => Err ENODEV
      end
  end.

(** The vnode to start from. *)
Definition starts (g : ghost) (s : vst W) (o : origin) (r v : Z) (s' : vst W) : Prop :=
  match o with
  | Dir f => r = 0 /\ v <> 0 /\ exists id, let i := mk_vi f id S_IFDIR in fits_in s g v i /\ vok (hand_out v i g) s'
  | Dev => r = 0 /\ v <> 0 /\ exists i, vi_type i <> S_IFDIR /\ vi_type i <> S_IFREG /\ fits_in s g v i /\ vok (hand_out v i g) s'
  | Err e => r = e /\ e <> 0 /\ vok g s'
  end.

Lemma roomy_le j k g : roomy k g -> j <= k -> roomy j g.
Proof. intros Hr Hl v. pose proof (Hr v). lia. Qed.

Lemma roomy_hand_out k v i g : roomy (k + 1) g -> roomy k (hand_out v i g).
Proof. intros Hr x. specialize (Hr x). unfold count in *. cbn. rewrite multiplicity_disj_union, multiplicity_singleton. destruct (decide (x = v)); lia. Qed.

Lemma getcurdir_starts g s r v s' : vok g s -> roomy 1 (total g s) -> vfs_getcurdir s = Ok (r, v, s') ->
  starts g s (dir_of g (t_cwd s)) r v s' /\ exists w', s' = set_world w' s.
Proof.
  intros Hk Hr Hrun. unfold dir_of. destruct (getcurdir_run g s Hk Hr) as [[H0 E]|(w' & i & Hne & E & Hi & Ht & Hk')]; rewrite E in Hrun; injection Hrun as <- <- <-.
  - rewrite H0. split; [done|]. exists (world s). by destruct s.
  - rewrite (proj2 (Z.eqb_neq _ 0) Hne), Hi. split; [|eauto]. split; [done|]. split; [done|]. exists (vi_id i). destruct i. cbn in *. subst. split; [by intros _|done].
Qed.

Lemma getdevice_volume g s : vok g s -> roomy 2 (total g s) ->
  exists r v s', ('(result, vn, s) ← vfs_getcurdir s;
      if negb (result =? 0) then Ok (result, 0, s)
      else
        fs ← vn_fs vn (world s);
        _ ← c_assert (negb (fs =? 0));
        '(startvn, w) ← FSOP_GETROOT fs (world s);
        s ← on_world (VOP_DECREF vn) (set_world w s);
        Ok (0, startvn, s)) = Ok (r, v, s') /\ starts g s (dir_of g (t_cwd s)) r v s' /\ exists w', s' = set_world w' s.
Proof.
  intros Hk Hr. destruct (getcurdir_run g s Hk (roomy_le 1 2 _ Hr ltac:(lia))) as [[H0 ->]|(w1 & i & Hne & -> & Hi & Ht & Hk1)]; rewrite Ok_bind.
  { eexists _, _, _. split; [done|]. unfold dir_of. rewrite H0. split; [done|]. exists (world s). by destruct s. }
  cbn [Z.eqb negb]. set (c := t_cwd s) in *. set (s1 := set_world w1 s) in *. pose proof (vk_owns _ _ Hk1) as Ho1. assert (known (total (hand_out c i g) s1) c i) as Hc.
  { split; [cbn; multiset_solver|cbn; by rewrite lookup_insert_eq]. }
  destruct (owns_ref _ _ c Ho1 (proj1 Hc)) as (_ & i' & Hi' & ->). cbn in Hi'. rewrite lookup_insert_eq in Hi'. injection Hi' as <-. rewrite Ok_bind.
  destruct (owns_dir _ _ c i Ho1 Hc Ht) as [Hf0 Hfs]. rewrite (proj2 (Z.eqb_neq _ 0) Hf0). cbn [negb c_assert]. rewrite Ok_bind.
  destruct (getroot_law _ _ (vi_fs i) Ho1 Hfs) as (v & w2 & -> & Hv0 & id & Hfit & Ho2); [rewrite total_hand_out; by apply roomy_hand_out|]. rewrite Ok_bind.
  set (j := mk_vi (vi_fs i) id S_IFDIR) in *. pose proof (vok_hand_out _ s1 v j w2 Hk1 Hfit Ho2) as Hk2.
  assert (fits_in s g v j) as Hfit'. { intros Hv. rewrite <- (insert_known s g c i v) by (done || by intros _). apply Hfit. rewrite total_hand_out. cbn in *. multiset_solver. }
  destruct (vok_release2 g (set_world w2 s1) c i v j Hk2) as (w3 & -> & Hk3); [by intros _|exact (vok_opens _ _ Hk)|].
  rewrite Ok_bind. eexists _, _, _. split; [done|]. unfold dir_of. fold c. rewrite (proj2 (Z.eqb_neq _ 0) Hne), Hi. split; [|by exists w3]. split; [done|]. split; [done|]. by exists id.
Qed.

Lemma getdevice_boot g s : vok g s -> roomy 2 (total g s) ->
  exists r v s', (s ← lock_boot s;
      if bootfs_vnode s =? 0 then s ← unlock_boot s; Ok (ENOENT, 0, s)
      else
        s ← on_world (VOP_INCREF (bootfs_vnode s)) s;
        s1 ← unlock_boot s;
        Ok (0, bootfs_vnode s, s1)) = Ok (r, v, s') /\ starts g s (dir_of g (bootfs_vnode s)) r v s' /\ exists w', s' = set_world w' s.
Proof.
  intros Hk Hr. destruct (vk_locks _ _ Hk) as [_ Hl]. unfold lock_boot. rewrite Hl, Ok_bind. cbn [bootfs_vnode set_boot_lock]. unfold dir_of.
  destruct (Z.eqb_spec (bootfs_vnode s) 0) as [H0|Hne]; cbn [unlock_boot bootfs_lock set_boot_lock c_assert].
  { unfold unlock_boot. cbn. eexists _, _, _. split; [done|]. assert (set_boot_lock false (set_boot_lock true s) = s) as -> by (destruct s; cbn in *; by subst). split; [done|]. exists (world s). by destruct s. }
  destruct (vk_boot _ _ Hk Hne) as (i & Hi & Ht). destruct (vok_incref g s (bootfs_vnode s) i Hk) as (w' & Hrun & Hk'); [by apply total_table, boot_ref|done|eapply roomy_le; [done|lia]|].
  unfold on_world in *. cbn [world set_boot_lock]. destruct (VOP_INCREF _ _) as [w2| | |]; try done. rewrite Ok_bind in Hrun |- *. rewrite Ok_bind. injection Hrun as ->. unfold unlock_boot. cbn. rewrite Hi. eexists _, _, _. split; [done|].
  assert (mk_vst w' (knowndevs s) (knowndevs_lock s) (bootfs_vnode s) false (t_cwd s) = set_world w' s) as E by (destruct s; cbn in *; by subst).
  unfold set_boot_lock, set_world. cbn. rewrite E. split; [|by exists w']. split; [done|]. split; [done|]. exists (vi_id i). destruct i. cbn in *. subst. split; [by intros _|done].
Qed.

Lemma vfs_getroot_run g s nm n : vok g s -> roomy 1 (total g s) -> points_to nm n ->
  exists r v s', vfs_getroot nm s = Ok (r, v, s') /\ starts g s (origin_of g s (AtDevice n)) r v s' /\ exists w', s' = set_world w' s.
Proof.
  intros Hk Hr Hn. pose proof Hk as [Ho [Hl _] _ _ Hd]. unfold vfs_getroot, lock_devs. rewrite Hl, Ok_bind. cbn [knowndevs world set_devs_lock].
  assert (Forall (dev_ok (total g s)) (knowndevs s)) as Hd'. { eapply list.Forall_impl; [exact Hd|]. intros kd []. by constructor. }
  destruct (getroot_run (total g s) nm n (world s) (knowndevs s) Ho Hd') as (r & v & w' & -> & Hre); [|done|done|].
  { apply list.Forall_forall. intros kd Hkd. by apply total_table, dev_ref. }
  rewrite Ok_bind. unfold unlock_devs. cbn. eexists _, _, _. split; [done|].
  assert (set_devs_lock false (set_world w' (set_devs_lock true s)) = set_world w' s) as -> by (destruct s; cbn in *; by subst). split; [|by exists w'].
  rewrite (find_target_ext g (total g s)) in Hre by done.
  destruct (find_target g (knowndevs s) n) as [f|x| |]; cbn in Hre |- *.
  - destruct Hre as (-> & Hv & id & Hf & Ho'). split; [done|]. split; [done|]. exists id. split; [done|]. by apply vok_hand_out.
  - destruct Hre as (-> & -> & Hv & (i & Hi & Ht & Ht') & Ho'). split; [done|]. destruct (owns_ref _ _ x Ho Hv) as [Hx _]. split; [done|]. exists i. split; [done|]. split; [done|]. split; [by intros _|].
    apply vok_hand_out; [done|by intros _|]. unfold hand_out. cbn. by rewrite insert_id.
  - destruct Hre as [-> ->]. split; [done|]. split; [done|]. by destruct s.
  - destruct Hre as [-> ->]. split; [done|]. split; [done|]. by destruct s.
Qed.

(** The end of [getdevice], after the first character. *)
Lemma getdevice_end g s o c q rest r v s' : str q -> starts g s o r v s' -> (exists w', s' = set_world w' s) ->
  exists r' path' sub v' s2, (if negb (r =? 0) then Ok (r, c :: q ++ 0 :: rest, 0, v, s') else sub ← slashes (drop 1 (c :: q ++ 0 :: rest)) 1; Ok (0, c :: q ++ 0 :: rest, sub, v, s')) = Ok (r', path', sub, v', s2) /\
    (exists w', s2 = set_world w' s) /\ starts g s o r' v' s2 /\ (r' = 0 -> points_to (drop (Z.to_nat sub) path') (strip q)).
Proof.
  intros Hs Hst Hw. destruct (Z.eqb_spec r 0) as [->|Hne]; cbn [negb]; [|eexists _, _, _, _, _; split; [done|]; split; [done|]; split; [done|]; lia].
  cbn [drop]. rewrite drop_0. destruct (slashes_run rest q 1 Hs) as (k & -> & Hk). rewrite Ok_bind. eexists _, _, _, _, _. split; [done|]. split; [done|]. split; [done|]. intros _.
  replace (Z.to_nat (1 + Z.of_nat k)) with (S k) by lia. cbn [drop]. rewrite Hk. split; [by apply str_strip|by exists rest].
Qed.

Lemma getdevice_run g s path p : vok g s -> roomy 2 (total g s) -> points_to path p ->
  exists r path' sub v s', getdevice path s = Ok (r, path', sub, v, s') /\ (exists w', s' = set_world w' s) /\
    starts g s (origin_of g s (parse p).1) r v s' /\ (r = 0 -> points_to (drop (Z.to_nat sub) path') (parse p).2).
Proof.
  intros Hk Hr [Hs [rest ->]]. unfold getdevice. destruct (scan_run rest p [] Hs eq_refl) as ([colon slash] & Hrun & Hsc). cbn [length] in Hrun. change (Z.of_nat 0) with 0 in Hrun. rewrite Hrun, Ok_bind.
  cbn [app] in Hsc. destruct Hsc as [(-> & Hsl & Hp)|[(-> & Hc & d & q & Ep & Hd & Hp)|[(-> & -> & q & Ep & Hp)|(-> & -> & q & Ep & Hp)]]]; rewrite Hp; cbn [fst snd origin_of].
  - rewrite (proj2 (Z.eqb_neq slash 0) Hsl). cbn [Z.ltb Z.compare negb andb]. destruct (getcurdir_run g s Hk (roomy_le 1 2 _ Hr ltac:(lia))) as [[H0 E]|(w' & i & Hne & E & _)];
      rewrite E, Ok_bind; (destruct (getcurdir_starts g s _ _ _ Hk (roomy_le 1 2 _ Hr ltac:(lia)) E) as [Hst Hw]); eexists _, _, _, _, _; (split; [done|]); (split; [done|]); (split; [done|]); intros _; by split; [|exists rest].
  - replace (colon <? 0) with false by lia. cbn [andb]. replace (colon >? 0) with true by lia. subst p. apply str_app in Hs as [Hsd Hsq]. apply str_cons in Hsq as [_ Hsq].
    rewrite <- app_assoc. cbn [app]. assert (Z.to_nat colon = length d) as -> by lia.
    rewrite insert_app_r_alt, Nat.sub_diag by lia. cbn [list_insert insert]. assert (Z.to_nat (colon + 1) = S (length d)) as -> by lia.
    rewrite drop_app_ge by lia. rewrite Nat.sub_succ_l, Nat.sub_diag by lia. cbn [drop]. rewrite drop_0. destruct (slashes_run rest q (colon + 1) Hsq) as (k & -> & Hk'). rewrite Ok_bind.
    destruct (vfs_getroot_run g s (d ++ 0 :: q ++ 0 :: rest) d Hk (roomy_le 1 2 _ Hr ltac:(lia))) as (r & v & s' & -> & Hst & Hw); [by split; [|eexists]|]. rewrite Ok_bind.
    eexists _, _, _, _, _. split; [done|]. split; [done|]. split; [done|]. intros _. replace (Z.to_nat (colon + 1 + Z.of_nat k)) with (length d + S k)%nat by lia.
    rewrite drop_app_add. cbn [drop]. rewrite Hk'. split; [by apply str_strip|by exists rest].
  - subst p. apply str_cons in Hs as [_ Hs]. change ((58 :: q) ++ 0 :: rest) with (58 :: q ++ 0 :: rest). cbn [Z.ltb Z.compare andb Z.gtb Z.eqb orb c_assert].
    rewrite Ok_bind. change (rd (58 :: q ++ 0 :: rest) 0) with (Ok 58). rewrite Ok_bind. cbn [Z.eqb Pos.eqb c_assert]. rewrite Ok_bind.
    destruct (getdevice_volume g s Hk Hr) as (r & v & s' & -> & Hst & Hw). rewrite Ok_bind. by apply getdevice_end.
  - subst p. apply str_cons in Hs as [_ Hs]. change ((47 :: q) ++ 0 :: rest) with (47 :: q ++ 0 :: rest). cbn [Z.ltb Z.compare andb Z.gtb Z.eqb orb c_assert negb].
    rewrite Ok_bind. change (rd (47 :: q ++ 0 :: rest) 0) with (Ok 47). rewrite Ok_bind. cbn [Z.eqb Pos.eqb].
    destruct (getdevice_boot g s Hk Hr) as (r & v & s' & -> & Hst & Hw). rewrite Ok_bind. by apply getdevice_end.
Qed.

(** [p] names [n] in the directory of file system [f]. *)
Definition resolves (g : ghost) (s : vst W) (p : list Z) (f : Z) (n : list Z) : Prop := origin_of g s (parse p).1 = Dir f /\ (parse p).2 = n.

(** What a lookup finds: where the search starts, or the file with the name. *)
Definition found (g : ghost) (s : vst W) (p : list Z) (i : vinfo) : Prop :=
  (vi_type i <> S_IFREG /\ (parse p).2 = [] /\ forall f, origin_of g s (parse p).1 = Dir f -> vi_fs i = f /\ vi_type i = S_IFDIR) \/
  (vi_type i = S_IFREG /\ exists n, resolves g s p (vi_fs i) n /\ n <> [] /\ names_of (vi_fs i) g !! n = Some (vi_id i)).

Lemma starts_info g s o r v s' : starts g s o r v s' ->
  (r <> 0 /\ vok g s' /\ forall f, o <> Dir f) \/
  (r = 0 /\ v <> 0 /\ exists i, fits_in s g v i /\ vok (hand_out v i g) s' /\ ((o = Dir (vi_fs i) /\ vi_type i = S_IFDIR) \/ (o = Dev /\ vi_type i <> S_IFDIR /\ vi_type i <> S_IFREG))).
Proof.
  destruct o as [f| |e]; cbn.
  - intros (-> & Hv & id & Hf & Hk). right. split; [done|]. split; [done|]. eexists. split; [exact Hf|]. split; [done|]. by left.
  - intros (-> & Hv & i & Ht & Ht' & Hf & Hk). right. split; [done|]. split; [done|]. exists i. split; [done|]. split; [done|]. by right.
  - intros (-> & He & Hk). left. done.
Qed.

Lemma known_top g s v i w : known (total (hand_out v i g) (set_world w s)) v i.
Proof. split; [cbn; multiset_solver|cbn; by rewrite lookup_insert_eq]. Qed.

Lemma lookup_run g s path p : vok g s -> roomy 2 (total g s) -> points_to path p -> zlen p < u32_mod ->
  exists r path' v s', vfs_lookup path s = Ok (r, path', v, s') /\ (exists w', s' = set_world w' s) /\
    ((r = 0 /\ v <> 0 /\ exists i, fits_in s g v i /\ vok (hand_out v i g) s' /\ found g s p i) \/
     (r <> 0 /\ vok g s' /\ forall f n, resolves g s p f n -> n <> [] /\ (mishap reliable r \/ (r = ENOENT /\ names_of f g !! n = None)))).
Proof.
  intros Hk Hr Hp Hl. unfold vfs_lookup. destruct (getdevice_run g s path p Hk Hr Hp) as (r & path' & sub & v & s1 & -> & [w1 ->] & Hst & Hsub). rewrite Ok_bind.
  apply starts_info in Hst as [(Hr0 & Hk1 & Hno)|(-> & Hv0 & i & Hf & Hk1 & Hdir)].
  { rewrite (proj2 (Z.eqb_neq r 0) Hr0). cbn [negb]. eexists _, _, _, _. split; [done|]. split; [by eexists|]. right. split; [done|]. split; [done|]. intros f n [Ho _]. by destruct (Hno f). }
  cbn [Z.eqb negb]. specialize (Hsub eq_refl). set (q := (parse p).2) in *. assert (zlen q < u32_mod) as Hq by (pose proof (parse_length p); unfold q; lia).
  rewrite (strlen_run _ q Hsub Hq), Ok_bind. destruct (decide (q = [])) as [Eq|Eq].
  { rewrite (proj2 (Z.eqb_eq (zlen q) 0)) by (by rewrite Eq). eexists _, _, _, _. split; [done|]. split; [by eexists|]. left. split; [done|]. split; [done|]. exists i. split; [done|]. split; [done|].
    left. destruct Hdir as [[E Ht]|(E & _ & Ht)]; (split; [by rewrite ?Ht|]; split; [done|]); intros f Ho; [|congruence]. split; [congruence|done]. }
  assert (length q <> 0%nat) as Hq0 by (by rewrite length_zero_iff_nil). rewrite (proj2 (Z.eqb_neq (zlen q) 0)) by lia.
  pose proof (vk_owns _ _ Hk1) as Ho1. destruct (lookup_law _ _ v i _ q Ho1 (known_top g s v i w1) Hsub Eq Hq) as (r & v2 & w2 & Hrun & Hcase).
  { rewrite total_hand_out. apply roomy_hand_out. done. }
  cbn [world set_world] in Hrun |- *. rewrite Hrun, Ok_bind. destruct Hcase as [(-> & Hv2 & Ht & id & Hid & Hfit & Ho2)|(Hr0 & Ho2 & Herr)].
  - set (i2 := mk_vi (vi_fs i) id S_IFREG) in *. pose proof (vok_hand_out _ _ v2 i2 w2 Hk1 Hfit Ho2) as Hk2.
    destruct (vok_release2 g _ v i v2 i2 Hk2 Hf) as (w3 & E & Hk3); [exact (vok_opens _ _ Hk)|]. cbn [set_world] in E. rewrite E, Ok_bind. eexists _, _, _, _. split; [done|]. split; [by exists w3|]. left.
    split; [done|]. split; [done|]. exists i2. split; [by eapply fits_in_under|]. split; [done|]. right. split; [done|]. exists q. destruct Hdir as [[E2 _]|(_ & ? & _)]; [|done]. by split; [split|].
  - assert (vok (hand_out v i g) (set_world w2 (set_world w1 s))) as Hk2 by (by apply (vok_step (hand_out v i g))).
    destruct (vok_release1 g _ v i Hk2 Hf) as (w3 & E & Hk3); [exact (vok_opens _ _ Hk)|]. cbn [set_world] in E. rewrite E, Ok_bind. eexists _, _, _, _. split; [done|]. split; [by exists w3|]. right.
    split; [done|]. split; [done|]. intros f n [Ho Hn]. destruct Hdir as [[E2 Hty]|[E2 _]]; [|congruence]. fold q in Hn. assert (f = vi_fs i) as -> by congruence. subst n. split; [done|]. destruct Herr as [?|[?|?]]; [by left|done|by right].
Qed.

Lemma lookparent_run g s path p buf : vok g s -> roomy 2 (total g s) -> points_to path p -> zlen p + 1 < u32_mod -> zlen buf = 256 ->
  exists r path' v buf' s', vfs_lookparent path buf s = Ok (r, path', v, buf', s') /\ (exists w', s' = set_world w' s) /\
    ((r = 0 /\ v <> 0 /\ exists i n, vi_type i = S_IFDIR /\ fits_in s g v i /\ vok (hand_out v i g) s' /\ points_to buf' n /\ n <> [] /\ zlen n < 256 /\ resolves g s p (vi_fs i) n) \/
     (r <> 0 /\ vok g s' /\ forall f n, resolves g s p f n -> mishap reliable r \/ (r = EINVAL /\ n = []) \/ (r = ENAMETOOLONG /\ 256 <= zlen n))).
Proof.
  intros Hk Hr Hp Hl Hb. unfold vfs_lookparent. destruct (getdevice_run g s path p Hk Hr Hp) as (r & path' & sub & v & s1 & -> & [w1 ->] & Hst & Hsub). rewrite Ok_bind.
  apply starts_info in Hst as [(Hr0 & Hk1 & Hno)|(-> & Hv0 & i & Hf & Hk1 & Hdir)].
  { rewrite (proj2 (Z.eqb_neq r 0) Hr0). cbn [negb]. eexists _, _, _, _, _. split; [done|]. split; [by eexists|]. right. split; [done|]. split; [done|]. intros f n [Ho _]. by destruct (Hno f). }
  cbn [Z.eqb negb]. specialize (Hsub eq_refl). set (q := (parse p).2) in *. assert (zlen q + 1 < u32_mod) as Hq by (pose proof (parse_length p); unfold q; lia).
  rewrite (strlen_run _ q Hsub ltac:(lia)), Ok_bind. pose proof (vok_opens _ _ Hk) as Hop. destruct (decide (q = [])) as [Eq|Eq].
  { rewrite (proj2 (Z.eqb_eq (zlen q) 0)) by (by rewrite Eq). rewrite Ok_bind. destruct (vok_release1 g (set_world w1 s) v i Hk1 Hf Hop) as (w2 & E & Hk2). change (set_world (world (set_world w1 s)) (set_world w1 s)) with (set_world w1 s). rewrite E, Ok_bind.
    eexists _, _, _, _, _. split; [done|]. split; [by exists w2|]. right. split; [done|]. split; [done|]. intros f n [_ <-]. right. by left. }
  assert (length q <> 0%nat) as Hq0 by (by rewrite length_zero_iff_nil). rewrite (proj2 (Z.eqb_neq (zlen q) 0)) by lia.
  destruct (lookparent_law _ _ v i _ q buf (vk_owns _ _ Hk1) (known_top g s v i w1) Hsub Hq Hb) as (r & v2 & buf' & w2 & Hrun & Hcase).
  { rewrite total_hand_out. apply roomy_hand_out. done. }
  cbn [world set_world] in Hrun |- *. rewrite Hrun, Ok_bind. destruct Hcase as [(-> & Hv2 & Ht & Hbuf & Hqn & Hfit & Ho2)|(Hr0 & Ho2 & Herr)].
  - pose proof (vok_hand_out _ _ v2 i w2 Hk1 Hfit Ho2) as Hk2. destruct (vok_release2 g _ v i v2 i Hk2 Hf Hop) as (w3 & E & Hk3). cbn [set_world] in E. rewrite E, Ok_bind.
    eexists _, _, _, _, _. split; [done|]. split; [by exists w3|]. left. split; [done|]. split; [done|]. exists i, q. split; [done|]. split; [by eapply fits_in_under|].
    split; [done|]. split; [done|]. split; [done|]. split; [done|]. destruct Hdir as [[E2 _]|(_ & ? & _)]; [by split|done].
  - assert (vok (hand_out v i g) (set_world w2 (set_world w1 s))) as Hk2 by (by apply (vok_step (hand_out v i g))).
    destruct (vok_release1 g _ v i Hk2 Hf Hop) as (w3 & E & Hk3). cbn [set_world] in E. rewrite E, Ok_bind. eexists _, _, _, _, _. split; [done|]. split; [by exists w3|]. right.
    split; [done|]. split; [done|]. intros f n [Ho Hn]. destruct Hdir as [[E2 Hty]|[E2 _]]; [|congruence]. fold q in Hn. subst n. destruct Herr as [?|[?|?]]; [by left|done|by right; right].
Qed.

(** ** Opening *)

Lemma vok_set_fs g s f a w' : vok g s -> owns (Vnode.set_fs f a (total g s)) w' -> vok (Vnode.set_fs f a g) (set_world w' s).
Proof. intros Hk Ho. apply (vok_step g); [done|done|done|]. intros x Hx. cbn. by apply lookup_alter_is_Some. Qed.

Definition flag (flags bit : Z) : bool := negb (Z.land flags bit =? 0).
Definition can_write (flags : Z) : bool := negb (Z.land flags O_ACCMODE =? O_RDONLY).

(** The file is there, or it is made. *)
Definition create_effect (s : vst W) (flags f : Z) (n : list Z) (g : ghost) (id : Z) (g1 : ghost) : Prop :=
  match names_of f g !! n with
  | Some id' => id = id' /\ g1 = g /\ (flag flags O_CREAT = true -> flag flags O_EXCL = false)
  | None => flag flags O_CREAT = true /\ ~ live (total g s) f id /\ g1 = set_names f (<[n := id]> (names_of f g)) (set_bytes f id [] g)
  end.

(** It is emptied, if that is asked for. *)
Definition trunc_effect (flags f id r : Z) (g1 g2 : ghost) : Prop :=
  if flag flags O_TRUNC && can_write flags then exists bs, g2 = set_bytes f id bs g1 /\ (r = 0 -> bs = []) else g2 = g1.

Lemma vok_decopen g s v : vok (add_open v g) s -> exists w', on_world (VOP_DECOPEN v) s = Ok (set_world w' s) /\ vok g (set_world w' s).
Proof.
  intros Hk. destruct (decopen_law _ _ v (vk_owns _ _ Hk)) as (w' & E & Ho); [cbn; multiset_solver|]. exists w'. unfold on_world. rewrite E, Ok_bind. split; [done|].
  apply (vok_step (add_open v g)); [done| |done|done]. eapply owns_ext; [exact Ho|done|cbn; multiset_solver|done|done].
Qed.

Lemma vok_incopen g s v : vok g s -> count v (g_opens g) < count v (g_refs (total g s)) ->
  exists w', on_world (VOP_INCOPEN v) s = Ok (set_world w' s) /\ vok (add_open v g) (set_world w' s).
Proof.
  intros Hk Hlt. destruct (incopen_law _ _ v (vk_owns _ _ Hk) Hlt) as (w' & E & Ho). exists w'. unfold on_world. rewrite E, Ok_bind. split; [done|]. by apply (vok_step g).
Qed.

Lemma open_found_run g s v i flags : vok (hand_out v i g) s -> fits_in s g v i -> g_opens g ⊆ g_refs (total g s) -> v <> 0 ->
  exists r v' s', open_found v flags (can_write flags) s = Ok (r, v', s') /\ (exists w', s' = set_world w' s) /\
    (vi_type i = S_IFREG -> flag flags O_APPEND = false -> (flag flags O_TRUNC = true -> can_write flags = true) -> r = 0 \/ mishap reliable r) /\
    exists g2, (if decide (vi_type i = S_IFREG) then trunc_effect flags (vi_fs i) (vi_id i) r g g2 \/ (r <> 0 /\ g2 = g) else g2 = g) /\
      ((r = 0 /\ v' = v /\ vok (add_open v (hand_out v i g2)) s') \/ (r <> 0 /\ vok g2 s')).
Proof.
  intros Hk Hf Hop Hv. unfold open_found. rewrite (proj2 (Z.eqb_neq v 0) Hv). cbn [negb c_assert]. rewrite Ok_bind. assert (known (total (hand_out v i g) s) v i) as Hkn.
  { split; [cbn; multiset_solver|cbn; by rewrite lookup_insert_eq]. }
  destruct (open_law _ _ v i flags (vk_owns _ _ Hk) Hkn) as (r & w1 & -> & Ho1 & Hok). rewrite Ok_bind. assert (vok (hand_out v i g) (set_world w1 s)) as Hk1 by (by apply (vok_step (hand_out v i g))).
  destruct (Z.eqb_spec r 0) as [->|Hr0]; cbn [negb].
  2: { destruct (vok_release1 g _ v i Hk1 Hf Hop) as (w2 & -> & Hk2). rewrite Ok_bind. eexists _, _, _. split; [done|]. split; [by exists w2|]. split.
       { intros Ht Ha. exfalso. apply Hr0, Hok; [done|]. unfold flag in Ha. apply negb_false_iff in Ha. lia. }
       exists g. split; [case_decide; [by right|done]|by right]. }
  assert (count v (g_opens g) < count v (g_refs (total (hand_out v i g) s))) as Hlt.
  { unfold count. rewrite total_hand_out. cbn. rewrite multiplicity_disj_union, multiplicity_singleton, decide_True by done. pose proof (Hop v) as H. cbn in H. lia. }
  destruct (vok_incopen _ _ v Hk1 Hlt) as (w2 & -> & Hk2). rewrite Ok_bind. set (s2 := set_world w2 (set_world w1 s)) in *. fold (flag flags O_TRUNC).
  destruct (flag flags O_TRUNC) eqn:Htr.
  2: { eexists _, _, _. split; [done|]. split; [by exists w2|]. split; [by left|]. exists g. unfold trunc_effect. rewrite Htr. split; [case_decide; [by left|done]|by left]. }
  destruct (can_write flags) eqn:Hcw.
  2: { rewrite Ok_bind. cbn [Z.eqb negb]. change (set_world (world s2) s2) with s2. destruct (vok_decopen _ _ v Hk2) as (w3 & -> & Hk3). rewrite Ok_bind.
       destruct (vok_release1 g _ v i Hk3 Hf Hop) as (w4 & -> & Hk4). rewrite Ok_bind. eexists _, _, _. split; [done|]. split; [by exists w4|]. split; [intros _ _ H; by specialize (H eq_refl)|].
       exists g. unfold trunc_effect. rewrite Htr, Hcw. split; [case_decide; [by left|done]|by right]. }
  destruct (truncate_law _ _ v i (vk_owns _ _ Hk2) Hkn) as (r & w3 & -> & Hcase). rewrite Ok_bind.
  assert (exists g2, vok (add_open v (hand_out v i g2)) (set_world w3 s2) /\ g_refs g2 = g_refs g /\ g_opens g2 = g_opens g /\ g_vn g2 = g_vn g /\
    (vi_type i = S_IFREG -> r = 0 \/ mishap reliable r) /\ (if decide (vi_type i = S_IFREG) then trunc_effect flags (vi_fs i) (vi_id i) r g g2 else g2 = g)) as (g2 & Hk3 & Hg1 & Hg2 & Hg3 & Hfa & Heff).
  { destruct Hcase as [[Ht Ho3]|(bs & Ht & Ho3 & Hbs)].
    - exists g. split; [by apply (vok_step (add_open v (hand_out v i g)))|]. rewrite decide_False by done. done.
    - exists (set_bytes (vi_fs i) (vi_id i) bs g). split; [by apply (vok_set_fs _ _ _ _ _ Hk2)|]. rewrite decide_True by done. unfold trunc_effect. rewrite Htr, Hcw.
      split; [done|]. split; [done|]. split; [done|]. split; [intros _; tauto|]. exists bs. split; [done|]. intros ->. by destruct Hbs as [[_ ?]|?%mishap_nonzero]. }
  destruct (Z.eqb_spec r 0) as [->|Hr0]; cbn [negb].
  - eexists _, _, _. split; [done|]. split; [by exists w3|]. split; [by left|]. exists g2. split; [case_decide; [by left|done]|by left].
  - destruct (vok_decopen _ _ v Hk3) as (w4 & -> & Hk4). rewrite Ok_bind.
    destruct (vok_release1 g2 _ v i Hk4) as (w5 & -> & Hk5); [unfold fits_in, total in *; cbn in *; by rewrite Hg1, Hg3|unfold total in *; cbn in *; by rewrite Hg1, Hg2|].
    rewrite Ok_bind. eexists _, _, _. split; [done|]. split; [by exists w5|]. split; [intros Ht _ _; tauto|]. exists g2. split; [case_decide; [by left|done]|by right].
Qed.

Lemma live_under s g v i f id : fits_in s g v i -> live (total g s) f id -> live (total (hand_out v i g) s) f id.
Proof.
  intros Hf [Hn|(x & t & Hx & Hi)]; [by left|right]. exists x, t. split; [cbn in *; multiset_solver|]. cbn. rewrite (insert_known s) by done. done.
Qed.

(** What [vfs_open] has opened: a directory or a device, or the file, after it
    was made and emptied. *)
Definition opened (g : ghost) (s : vst W) (p : list Z) (flags : Z) (i : vinfo) (g2 : ghost) : Prop :=
  (vi_type i <> S_IFREG /\ (parse p).2 = [] /\ g2 = g) \/
  (vi_type i = S_IFREG /\ exists n g1, resolves g s p (vi_fs i) n /\ n <> [] /\ create_effect s flags (vi_fs i) n g (vi_id i) g1 /\ trunc_effect flags (vi_fs i) (vi_id i) 0 g1 g2).

(** What it leaves when it fails: nothing, or the file. *)
Definition half_opened (g : ghost) (s : vst W) (p : list Z) (flags r : Z) (g2 : ghost) : Prop :=
  g2 = g \/ exists f n id g1, resolves g s p f n /\ n <> [] /\ create_effect s flags f n g id g1 /\ (g2 = g1 \/ trunc_effect flags f id r g1 g2).

Definition usable (flags : Z) : Prop :=
  Z.land flags O_ACCMODE <> 3 /\ flag flags O_APPEND = false /\ (flag flags O_TRUNC = true -> can_write flags = true).

(** Why it fails. *)
Definition open_error (g : ghost) (s : vst W) (p : list Z) (flags r : Z) : Prop :=
  forall f n, resolves g s p f n -> n <> [] -> usable flags ->
    mishap reliable r \/ (no_space r /\ flag flags O_CREAT = true) \/ (r = ENOENT /\ flag flags O_CREAT = false /\ names_of f g !! n = None) \/
    (r = EEXIST /\ flag flags O_CREAT = true /\ flag flags O_EXCL = true /\ is_Some (names_of f g !! n)) \/ (r = ENAMETOOLONG /\ flag flags O_CREAT = true).

(** The first half: the file is found or made. *)
Lemma open_creat_run g s junk path p flags : vok g s -> roomy 3 (total g s) -> points_to path p -> zlen p + 1 < u32_mod -> zlen junk = 256 -> flag flags O_CREAT = true ->
  exists r path' v s', ('(result, path, dir, name, s) ← vfs_lookparent path junk s;
       if negb (result =? 0) then Ok (result, path, 0, s)
       else
         '(result, vn, w) ← VOP_CREAT dir name (flag flags O_EXCL) (world s);
         s ← on_world (VOP_DECREF dir) (set_world w s);
         Ok (result, path, vn, s)) = Ok (r, path', v, s') /\ (exists w', s' = set_world w' s) /\
    ((r = 0 /\ v <> 0 /\ exists i n g1, vi_type i = S_IFREG /\ fits_in s g v i /\ vok (hand_out v i g1) s' /\ resolves g s p (vi_fs i) n /\ n <> [] /\
        create_effect s flags (vi_fs i) n g (vi_id i) g1) \/
     (r <> 0 /\ vok g s' /\ forall f n, resolves g s p f n -> mishap reliable r \/ no_space r \/ r = ENAMETOOLONG \/ (r = EEXIST /\ flag flags O_EXCL = true /\ is_Some (names_of f g !! n)))).
Proof.
  intros Hk Hr Hp Hl Hj Hfl. pose proof (vok_opens _ _ Hk) as Hop.
  destruct (lookparent_run g s path p junk Hk (roomy_le 2 3 _ Hr ltac:(lia)) Hp Hl Hj) as (r & path' & v & buf & s1 & -> & [w1 ->] & Hcase). rewrite Ok_bind.
  destruct Hcase as [(-> & Hv & i & n & Ht & Hf & Hk1 & Hbuf & Hne & Hln & Hres)|(Hr0 & Hk1 & Herr)].
  2: { rewrite (proj2 (Z.eqb_neq r 0) Hr0). cbn [negb]. eexists _, _, _, _. split; [done|]. split; [by eexists|]. right. split; [done|]. split; [done|]. intros f n Hres. unfold no_space. destruct (Herr f n Hres); tauto. }
  cbn [Z.eqb negb]. destruct (creat_law _ _ v i buf n (flag flags O_EXCL) (vk_owns _ _ Hk1) (known_top g s v i w1) Ht Hbuf Hln) as (r & v2 & w2 & -> & Hcase).
  { rewrite total_hand_out. apply roomy_hand_out. eapply roomy_le; [done|lia]. }
  rewrite Ok_bind. change (names_of (vi_fs i) (total (hand_out v i g) (set_world w1 s))) with (names_of (vi_fs i) g) in Hcase. destruct Hcase as [(-> & Hv2 & id & Hfit & Hcase)|(Hr0 & Ho2 & Herr)].
  - set (i2 := mk_vi (vi_fs i) id S_IFREG) in *. assert (exists g1, vok (hand_out v2 i2 (hand_out v i g1)) (set_world w2 (set_world w1 s)) /\ create_effect s flags (vi_fs i) n g id g1 /\
      g_refs g1 = g_refs g /\ g_opens g1 = g_opens g /\ g_vn g1 = g_vn g) as (g1 & Hk2 & Hce & Hg1 & Hg2 & Hg3).
    { unfold create_effect. destruct (names_of (vi_fs i) g !! n) as [id'|] eqn:En.
      - destruct Hcase as (Hex & -> & Ho2). exists g. split; [by apply vok_hand_out|]. done.
      - destruct Hcase as (Hlive & Ho2). eexists. split; [|split; [split; [done|split; [|done]]|done]]; [|intros H; apply Hlive; by apply live_under].
        apply (vok_step (hand_out v i g)); [done| | |].
        + rewrite total_hand_out. exact Ho2.
        + intros x Hx. cbn. apply (insert_known (set_world w1 s) (hand_out v i g)); [done|]. by apply total_table.
        + intros f Hs. cbn. by rewrite !lookup_alter_is_Some. }
    destruct (vok_release2 g1 _ v i v2 i2 Hk2) as (w3 & -> & Hk3); [unfold fits_in, total in *; cbn in *; by rewrite Hg1, Hg3|unfold total in *; cbn in *; by rewrite Hg1, Hg2|]. rewrite Ok_bind.
    eexists _, _, _, _. split; [done|]. split; [by exists w3|]. left. split; [done|]. split; [done|]. exists i2, n, g1. split; [done|]. split; [by eapply fits_in_under|]. done.
  - assert (vok (hand_out v i g) (set_world w2 (set_world w1 s))) as Hk2 by (by apply (vok_step (hand_out v i g))).
    destruct (vok_release1 g _ v i Hk2 Hf Hop) as (w3 & -> & Hk3). rewrite Ok_bind. eexists _, _, _, _. split; [done|]. split; [by exists w3|]. right. split; [done|]. split; [done|].
    intros f n' [Ho <-]. destruct Hres as [Ho' <-]. assert (f = vi_fs i) as -> by congruence. tauto.
Qed.

Lemma create_effect_same s flags f n g id g1 : create_effect s flags f n g id g1 -> g_refs g1 = g_refs g /\ g_opens g1 = g_opens g /\ g_vn g1 = g_vn g.
Proof. unfold create_effect. destruct (_ !! n); [by intros (_ & -> & _)|by intros (_ & _ & ->)]. Qed.

Lemma open_run g s junk path p flags : vok g s -> roomy 3 (total g s) -> points_to path p -> zlen p + 1 < u32_mod -> zlen junk = 256 ->
  exists r path' v s' g2, vfs_open junk path flags s = Ok (r, path', v, s') /\ (exists w', s' = set_world w' s) /\
    ((r = 0 /\ v <> 0 /\ exists i, fits_in s g v i /\ vok (add_open v (hand_out v i g2)) s' /\ opened g s p flags i g2) \/
     (r <> 0 /\ vok g2 s' /\ half_opened g s p flags r g2 /\ open_error g s p flags r)).
Proof.
  intros Hk Hr Hp Hl Hj. unfold vfs_open. fold (flag flags O_CREAT). fold (flag flags O_EXCL). fold (can_write flags).
  destruct ((_ =? _) || (_ =? _) || (_ =? _)) eqn:Hacc; cbn [negb].
  2: { eexists _, _, _, s, g. split; [done|]. split; [exists (world s); by destruct s|]. right. split; [done|]. split; [done|]. split; [by left|]. intros f n _ _ (Hu & _). exfalso.
       apply orb_false_iff in Hacc as [[H1 H2]%orb_false_iff H3]. unfold O_RDONLY, O_WRONLY, O_RDWR, O_ACCMODE in *. pose proof (Z.land_ones flags 2 ltac:(lia)) as E. change (Z.ones 2) with 3 in E.
       pose proof (Z.mod_pos_bound flags (2 ^ 2) ltac:(lia)). lia. }
  destruct (flag flags O_CREAT) eqn:Hcr.
  - destruct (open_creat_run g s junk path p flags Hk Hr Hp Hl Hj Hcr) as (r & path' & v & s1 & -> & [w1 ->] & Hcase). rewrite Ok_bind.
    destruct Hcase as [(-> & Hv & i & n & g1 & Ht & Hf & Hk1 & Hres & Hne & Hce)|(Hr0 & Hk1 & Herr)].
    + cbn [Z.eqb negb]. destruct (create_effect_same _ _ _ _ _ _ _ Hce) as (Hg1 & Hg2 & Hg3).
      destruct (open_found_run g1 _ v i flags Hk1) as (r & v' & s2 & -> & [w2 ->] & Hok & g2 & Heff & Hcase); [unfold fits_in, total in *; cbn in *; by rewrite Hg1, Hg3|
        unfold total; cbn; rewrite Hg1, Hg2; exact (vok_opens _ _ Hk)|done|]. rewrite Ok_bind. rewrite decide_True in Heff by done.
      eexists _, _, _, _, g2. split; [done|]. split; [by exists w2|]. destruct Hcase as [(-> & -> & Hk2)|(Hr0 & Hk2)]; [left|right].
      * split; [done|]. split; [done|]. exists i. split; [done|]. split; [done|]. right. split; [done|]. destruct Heff as [Heff|[? _]]; [|done]. by exists n, g1.
      * split; [done|]. split; [done|]. split; [right; exists (vi_fs i), n, (vi_id i), g1; tauto|]. intros f n' _ _ (_ & Ha & Htr). left. by destruct (Hok Ht Ha Htr).
    + rewrite (proj2 (Z.eqb_neq r 0) Hr0). cbn [negb]. eexists _, _, _, _, g. split; [done|]. split; [by eexists|]. right. split; [done|]. split; [done|]. split; [by left|].
      intros f n Hres _ _. destruct (Herr f n Hres); tauto.
  - destruct (lookup_run g s path p Hk (roomy_le 2 3 _ Hr ltac:(lia)) Hp ltac:(lia)) as (r & path' & v & s1 & -> & [w1 ->] & Hcase). rewrite Ok_bind.
    destruct Hcase as [(-> & Hv & i & Hf & Hk1 & Hfo)|(Hr0 & Hk1 & Herr)].
    + cbn [Z.eqb negb]. destruct (open_found_run g _ v i flags Hk1 Hf (vok_opens _ _ Hk) Hv) as (r & v' & s2 & -> & [w2 ->] & Hok & g2 & Heff & Hcase). rewrite Ok_bind.
      eexists _, _, _, _, g2. split; [done|]. split; [by exists w2|].
      assert (vi_type i = S_IFREG -> exists n, resolves g s p (vi_fs i) n /\ n <> [] /\ create_effect s flags (vi_fs i) n g (vi_id i) g) as Hreg.
      { intros Ht. destruct Hfo as [[? _]|(_ & n & Hres & Hne & Hn)]; [done|]. exists n. split; [done|]. split; [done|]. unfold create_effect. rewrite Hn. split; [done|]. split; [done|]. by rewrite Hcr. }
      destruct Hcase as [(-> & -> & Hk2)|(Hr0 & Hk2)]; [left|right].
      * split; [done|]. split; [done|]. exists i. split; [done|]. split; [done|]. destruct (decide (vi_type i = S_IFREG)) as [Ht|Ht]; [right|left; by destruct Hfo as [(_ & ? & _)|[? _]]].
        destruct (Hreg Ht) as (n & ? & ? & ?). destruct Heff as [Heff|[? _]]; [|done]. split; [done|]. by exists n, g.
      * split; [done|]. split; [done|]. destruct (decide (vi_type i = S_IFREG)) as [Ht|Ht].
        -- destruct (Hreg Ht) as (n & Hres & Hne & Hce). split; [right; exists (vi_fs i), n, (vi_id i), g; tauto|]. intros f n' _ _ (_ & Ha & Htr). left. by destruct (Hok Ht Ha Htr).
        -- split; [by left|]. intros f n [Ho Hn] Hne _. destruct Hfo as [(_ & E & _)|[? _]]; congruence.
    + rewrite (proj2 (Z.eqb_neq r 0) Hr0). cbn [negb]. eexists _, _, _, _, g. split; [done|]. split; [by eexists|]. right. split; [done|]. split; [done|]. split; [by left|].
      intros f n Hres Hne _. destruct (Herr f n Hres) as [_ [?|[? ?]]]; [by left|right; right; by left].
Qed.

Lemma close_run g s v : vok g s -> v ∈ g_opens g -> v ∈ g_refs g ->
  exists w', vfs_close v s = Ok (set_world w' s) /\ vok (drop_ref v (drop_open v g)) (set_world w' s).
Proof.
  intros Hk Hv Hr. unfold vfs_close. destruct (vok_decopen (drop_open v g) s v) as (w1 & -> & Hk1).
  { assert (add_open v (drop_open v g) = g) as -> by (destruct g; unfold add_open, drop_open; cbn in *; f_equal; multiset_solver). done. }
  rewrite Ok_bind. destruct (vok_decref (drop_open v g) (drop_ref v (drop_open v g)) _ v Hk1) as (w2 & E & Hk2); [done| |done|by exists w2].
  pose proof (vok_opens _ _ Hk v) as Hop. unfold count. cbn in *. rewrite multiplicity_difference, multiplicity_singleton, decide_True by done.
  assert (0 < multiplicity v (g_opens g))%nat by exact Hv. change (table_refs (set_world w1 s)) with (table_refs s). lia.
Qed.

(** ** Calls on names *)

(** A call on the directory that a path leads to; [a] is what it does to the
    file system. *)
Lemma on_parent_run g s junk path p op (Q : Z -> list Z -> Z -> (afs -> afs) -> Prop) :
  vok g s -> roomy 3 (total g s) -> points_to path p -> zlen p + 1 < u32_mod -> zlen junk = 256 ->
  (forall w v i nm n, owns (total (hand_out v i g) s) w -> known (total (hand_out v i g) s) v i -> vi_type i = S_IFDIR -> points_to nm n -> zlen n < 256 ->
     roomy 1 (total (hand_out v i g) s) -> exists r w' a, op v nm w = Ok (r, w') /\ owns (Vnode.set_fs (vi_fs i) a (total (hand_out v i g) s)) w' /\ Q (vi_fs i) n r a) ->
  exists r path' s', on_parent junk path op s = Ok (r, path', s') /\ (exists w', s' = set_world w' s) /\
    ((exists f n a, resolves g s p f n /\ n <> [] /\ Q f n r a /\ vok (Vnode.set_fs f a g) s') \/
     (r <> 0 /\ vok g s' /\ forall f n, resolves g s p f n -> mishap reliable r \/ (r = EINVAL /\ n = []) \/ (r = ENAMETOOLONG /\ 256 <= zlen n))).
Proof.
  intros Hk Hr Hp Hl Hj Hop. unfold on_parent.
  destruct (lookparent_run g s path p junk Hk (roomy_le 2 3 _ Hr ltac:(lia)) Hp Hl Hj) as (r & path' & v & buf & s1 & -> & [w1 ->] & Hcase). rewrite Ok_bind.
  destruct Hcase as [(-> & Hv & i & n & Ht & Hf & Hk1 & Hbuf & Hne & Hln & Hres)|(Hr0 & Hk1 & Herr)].
  2: { rewrite (proj2 (Z.eqb_neq r 0) Hr0). cbn [negb]. eexists _, _, _. split; [done|]. split; [by eexists|]. by right. }
  cbn [Z.eqb negb]. destruct (Hop (world (set_world w1 s)) v i buf n (vk_owns _ _ Hk1) (known_top g s v i w1) Ht Hbuf Hln) as (r & w2 & a & -> & Ho & HQ).
  { rewrite total_hand_out. apply roomy_hand_out. eapply roomy_le; [done|lia]. }
  rewrite Ok_bind. pose proof (vok_set_fs (hand_out v i g) (set_world w1 s) (vi_fs i) a w2 Hk1 Ho) as Hk2.
  destruct (vok_release1 (Vnode.set_fs (vi_fs i) a g) _ v i Hk2 Hf (vok_opens _ _ Hk)) as (w3 & -> & Hk3). rewrite Ok_bind.
  eexists _, _, _. split; [done|]. split; [by exists w3|]. left. by exists (vi_fs i), n, a.
Qed.

Lemma set_fs_id f g : Vnode.set_fs f (fun a => a) g = g.
Proof. destruct g as [r o fs vn]. unfold Vnode.set_fs. cbn. f_equal. apply map_eq. intros x. destruct (decide (x = f)) as [->|]; [rewrite lookup_alter_eq; by destruct (fs !! f)|by rewrite lookup_alter_ne]. Qed.

Lemma origin_hand_out g s v i w wh : fits_in s g v i -> origin_of (hand_out v i g) (set_world w s) wh = origin_of g s wh.
Proof.
  intros Hf. assert (forall c, (c <> 0 -> c ∈ table_refs s) -> dir_of (hand_out v i g) c = dir_of g c) as Hd.
  { intros c Hc. unfold dir_of. destruct (Z.eqb_spec c 0) as [|Hne]; [done|]. cbn. rewrite (insert_known s); [done|done|]. by apply total_table, Hc. }
  destruct wh; cbn [origin_of]; [apply Hd, cwd_ref|apply Hd, boot_ref|apply Hd, cwd_ref|]. by rewrite (find_target_ext g).
Qed.

(** C22. Removing a path.  [vfs_remove] finds the directory that the path leads to,
    from the current directory, the boot file system or a device or volume, and
    takes exactly that name out of it; otherwise the files are as before, and the
    error says why: no such name, a name that is empty or has more than 255
    characters, or, only if something below is not reliable, ENOMEM or EIO.  All references taken on the way are given back. *)
Theorem vfs_remove_names g s junk path p : vok g s -> roomy 3 (total g s) -> points_to path p -> zlen p + 1 < u32_mod -> zlen junk = 256 ->
  exists r path' s', vfs_remove junk path s = Ok (r, path', s') /\ (exists w', s' = set_world w' s) /\
    ((r = 0 /\ exists f n, resolves g s p f n /\ is_Some (names_of f g !! n) /\ vok (set_names f (delete n (names_of f g)) g) s') \/
     (r <> 0 /\ vok g s' /\ forall f n, resolves g s p f n -> mishap reliable r \/ (r = EINVAL /\ n = []) \/ (r = ENOENT /\ names_of f g !! n = None) \/ (r = ENAMETOOLONG /\ 256 <= zlen n))).
Proof.
  intros Hk Hr Hp Hl Hj.
  destruct (on_parent_run g s junk path p VOP_REMOVE (fun f n r a => (r = 0 /\ is_Some (names_of f g !! n) /\ a = fun a => mk_afs (af_volname a) (delete n (names_of f g)) (af_bytes a)) \/
    (r <> 0 /\ (a = fun a => a) /\ (mishap reliable r \/ (r = ENOENT /\ names_of f g !! n = None)))) Hk Hr Hp Hl Hj) as (r & path' & s' & Hrun & Hw & Hcase).
  { intros w v i nm n Ho Hkn Ht Hnm Hln Hro. destruct (remove_law _ w v i nm n Ho Hkn Ht Hnm Hln Hro) as (r & w' & Hrun & Hcase). exists r, w'.
    destruct Hcase as [(-> & Hs & Ho')|(Hr0 & Ho' & Herr)]; eexists; (split; [done|]); [split; [exact Ho'|by left]|split; [rewrite set_fs_id; exact Ho'|by right]]. }
  exists r, path', s'. split; [done|]. split; [done|]. destruct Hcase as [(f & n & a & Hres & Hne & [(-> & Hs & ->)|(Hr0 & -> & Herr)] & Hk')|(Hr0 & Hk' & Herr)]; [left; eauto 10|right|right].
  - rewrite set_fs_id in Hk'. split; [done|]. split; [done|]. intros f' n' [Ho <-]. destruct Hres as [Ho' <-]. assert (f' = f) as -> by congruence. tauto.
  - split; [done|]. split; [done|]. intros f n Hres. destruct (Herr f n Hres); tauto.
Qed.

(** Two references on top of each other. *)
Lemma release2_run g s a ia b ib : vok (hand_out b ib (hand_out a ia g)) s -> fits_in s g a ia -> fits_in s (hand_out a ia g) b ib -> g_opens g ⊆ g_refs (total g s) ->
  exists w', release2 b a s = Ok (set_world w' s) /\ vok g (set_world w' s).
Proof.
  intros Hk Ha Hb Hop. unfold release2. destruct (vok_release1 (hand_out a ia g) s b ib Hk Hb) as (w1 & -> & Hk1); [rewrite total_hand_out; cbn in *; multiset_solver|]. rewrite Ok_bind.
  destruct (vok_release1 g _ a ia Hk1 Ha Hop) as (w2 & -> & Hk2). by exists w2.
Qed.

Lemma cross_run g s a ia b ib : vok (hand_out b ib (hand_out a ia g)) s -> fits_in s (hand_out a ia g) b ib ->
  cross_device a b s = Ok ((vi_fs ia =? 0) || (vi_fs ib =? 0) || negb (vi_fs ia =? vi_fs ib)).
Proof.
  intros Hk Hf. pose proof (vk_owns _ _ Hk) as Ho. unfold cross_device. destruct (owns_ref _ _ a Ho) as (_ & i & Hi & ->); [cbn; multiset_solver|]. rewrite Ok_bind.
  destruct (owns_ref _ _ b Ho) as (_ & j & Hj & ->); [cbn; multiset_solver|]. cbn in Hi, Hj. rewrite lookup_insert_eq in Hj. injection Hj as <-.
  assert (i = ia) as ->. { destruct (decide (b = a)) as [->|Hne]; [|rewrite lookup_insert_ne, lookup_insert_eq in Hi by done; congruence]. rewrite lookup_insert_eq in Hi. injection Hi as <-.
    assert (a ∈ g_refs (total (hand_out a ia g) s)) as H by (cbn; multiset_solver). apply Hf in H. cbn in H. rewrite lookup_insert_eq in H. congruence. }
  destruct (vi_fs ia =? 0); [done|]. rewrite Ok_bind. done.
Qed.


(** ** Changing the current directory *)

(** The caller's reference to [v] becomes that of the current directory. *)
Lemma set_cwd_run g s v i : vok (hand_out v i g) s -> fits_in s g v i -> v <> 0 -> vi_type i = S_IFDIR -> g_opens g ⊆ g_refs g ⊎ table_refs (set_cwd v s) ->
  exists w', decref_old (t_cwd s) (set_cwd v s) = Ok (set_world w' (set_cwd v s)) /\ vok (mk_ghost (g_refs g) (g_opens g) (g_fs g) (<[v := i]> (g_vn g))) (set_world w' (set_cwd v s)).
Proof.
  intros Hk Hf Hv Ht Hop. pose proof Hk as [Ho Hl Hc Hb Hd]. set (g2 := mk_ghost (g_refs g) (g_opens g) (g_fs g) (<[v := i]> (g_vn g))).
  assert (is_dir g2 v) as Hcv. { intros _. exists i. cbn. by rewrite lookup_insert_eq. }
  unfold decref_old. destruct (Z.eqb_spec (t_cwd s) 0) as [H0|Hne]; cbn [negb].
  - exists (world s). split; [by destruct s|]. constructor; [|exact Hl|exact Hcv|exact Hb|eapply list.Forall_impl; [exact Hd|]; intros kd []; by constructor]. eapply owns_ext; [exact Ho| |done|done|done].
    cbn. unfold table_refs, own. cbn. rewrite H0. cbn [Z.eqb]. rewrite (proj2 (Z.eqb_neq v 0) Hv). multiset_solver.
  - destruct (Hc Hne) as (j & Hj & Htj). set (c := t_cwd s) in *.
    assert (vok (hand_out c j g2) (set_cwd v s)) as Hk2.
    { constructor; [|done| | |].
      - eapply owns_ext; [exact Ho| |done|done|].
        + cbn. unfold table_refs, own. cbn. fold c. rewrite (proj2 (Z.eqb_neq v 0) Hv), (proj2 (Z.eqb_neq c 0) Hne). multiset_solver.
        + intros x _. cbn in Hj |- *. by rewrite insert_id.
      - intros _. cbn. exists i. split; [|done]. cbn in Hj. rewrite insert_id by done. by rewrite lookup_insert_eq.
      - intros H. destruct (Hb H) as (k & Hk1 & ?). exists k. split; [|done]. cbn in Hj |- *. by rewrite insert_id.
      - eapply list.Forall_impl; [exact Hd|]. intros kd [? ? ? ? (k & Hk1 & ?)]. constructor; try done. exists k. split; [|done]. cbn in Hj, Hk1 |- *. by rewrite insert_id. }
    apply (vok_release1 g2 (set_cwd v s) c j); [done|by intros _|]. exact Hop.
Qed.

Lemma isdir_type g w v i : owns g w -> known g v i -> S_ISDIR (vi_type i) = true -> vi_type i = S_IFDIR.
Proof.
  intros Ho Hkn. pose proof (owns_type g w v i Ho Hkn) as Ht. rewrite !elem_of_cons in Ht. destruct Ht as [->|[->|[->|[->|?%elem_of_nil]]]]; done.
Qed.

(** [vfs_chdir] to a path that leads to a directory. *)
Theorem vfs_chdir_moves g s path p : vok g s -> roomy 3 (total g s) -> points_to path p -> zlen p < u32_mod -> g_opens g ⊆ g_refs g ->
  exists r path' s', vfs_chdir path s = Ok (r, path', s') /\
    ((r = 0 /\ exists v i, vi_type i = S_IFDIR /\ (forall f, origin_of g s (parse p).1 = Dir f -> vi_fs i = f) /\ (parse p).2 = [] /\ (exists w', s' = set_world w' (set_cwd v s)) /\
        fits_in s g v i /\ vok (mk_ghost (g_refs g) (g_opens g) (g_fs g) (<[v := i]> (g_vn g))) s') \/
     (r <> 0 /\ vok g s' /\ exists w', s' = set_world w' s)).
Proof.
  intros Hk Hr Hp Hl Hop. unfold vfs_chdir. destruct (lookup_run g s path p Hk (roomy_le 2 3 _ Hr ltac:(lia)) Hp Hl) as (r & path' & v & s1 & -> & [w1 ->] & Hcase). rewrite Ok_bind.
  destruct Hcase as [(-> & Hv & i & Hf & Hk1 & Hfo)|(Hr0 & Hk1 & _)].
  2: { rewrite (proj2 (Z.eqb_neq r 0) Hr0). cbn [negb]. eexists _, _, _. split; [done|]. right. eauto. }
  cbn [Z.eqb negb]. pose proof (known_top g s v i w1) as Hkn. unfold vfs_setcurdir. set (s1 := set_world w1 s) in *.
  destruct (gettype_law _ _ v i (vk_owns _ _ Hk1) Hkn) as (r & w2 & -> & Ho2). rewrite Ok_bind. set (s2 := set_world w2 s1).
  assert (vok (hand_out v i g) s2) as Hk2 by (by apply (vok_step (hand_out v i g))).
  assert (forall r, r <> 0 -> exists r' path0 s', ('(result, s0) ← Ok (r, s2); s3 ← on_world (VOP_DECREF v) s0; Ok (result, path', s3)) = Ok (r', path0, s') /\ r' <> 0 /\ vok g s' /\ exists w', s' = set_world w' s) as Hfail.
  { intros e He. rewrite Ok_bind. destruct (vok_release1 g s2 v i Hk2 Hf (vok_opens _ _ Hk)) as (w3 & -> & Hk3). rewrite Ok_bind. eexists _, _, _. split; [done|]. split; [done|]. split; [done|]. by exists w3. }
  destruct (Z.eqb_spec r 0) as [->|Hr0]; cbn [negb]. 2: { destruct (Hfail r Hr0) as (r' & p' & s' & E & ? & ? & ?). exists r', p', s'. split; [exact E|]. by right. }
  destruct (S_ISDIR (vi_type i)) eqn:Hd; cbn [negb]. 2: { destruct (Hfail ENOTDIR) as (r' & p' & s' & E & ? & ? & ?); [done|]. exists r', p', s'. split; [exact E|]. by right. }
  apply (isdir_type _ _ _ _ (vk_owns _ _ Hk1) Hkn) in Hd.
  destruct (vok_incref (hand_out v i g) s2 v i Hk2) as (w3 & -> & Hk3); [cbn; multiset_solver|cbn; by rewrite lookup_insert_eq|rewrite total_hand_out; apply roomy_hand_out; eapply roomy_le; [exact Hr|lia]|]. rewrite Ok_bind.
  destruct (set_cwd_run (hand_out v i g) (set_world w3 s2) v i Hk3) as (w4 & -> & Hk4); [intros _; cbn; by rewrite lookup_insert_eq|done|done|cbn; multiset_solver|]. rewrite Ok_bind, Ok_bind.
  set (g4 := mk_ghost (g_refs g) (g_opens g) (g_fs g) (<[v := i]> (g_vn g))).
  destruct (vok_release _ g4 _ v Hk4) as (w5 & -> & Hk5); [done|done|done|intros x _; cbn; by rewrite insert_insert_eq|cbn; multiset_solver|]. rewrite Ok_bind.
  eexists _, _, _. split; [done|]. left. split; [done|]. exists v, i. split; [done|]. destruct Hfo as [(_ & Hn & Hfo)|(Hreg & _)]; [|by rewrite Hd in Hreg].
  split; [intros f Ho; by apply Hfo|]. split; [done|]. split; [by exists w5|]. done.
Qed.

End Laws.

End Vfs.
