(* ===== verification/FileCalls.v ===== *)
(** * File descriptors: kern/userprog/filecalls.c

    The file calls of a process, on top of paths and vnodes (Vfs.v, Vnode.v) and
    of the copies between user and kernel memory (CopyInOut.v). *)

From stdpp Require Import gmultiset.
From S2P Require Import Prelude Memory CopyInOut Uio Strings SfsDisk SfsFile SfsVnode Vnode VfsList Vfs.
Import Memory CopyInOut Strings SfsDisk SfsFile SfsVnode Vnode VfsList Vfs.

Module FileCalls.

Definition MAX_FD : Z := 10.

Record fd : Type := mk_fd {
  filename : list Z;
  vnode : Z;
  offset : Z;
  flags : Z;
}.

(** The VFS layer, memory, and the table of the running thread. *)
Record fstate (W : Type) : Type := mk_fst {
  vfs : vst W;
  memory : kst;
  t_filetable : list (option fd);
}.
Arguments mk_fst {W} _ _ _.
Arguments vfs {W} _.
Arguments memory {W} _.
Arguments t_filetable {W} _.

Definition set_vfs {W} (v : vst W) (s : fstate W) : fstate W := mk_fst v (memory s) (t_filetable s).
Definition set_memory {W} (m : kst) (s : fstate W) : fstate W := mk_fst (vfs s) m (t_filetable s).
Definition set_table {W} (l : list (option fd)) (s : fstate W) : fstate W := mk_fst (vfs s) (memory s) l.

(** The allocations of a call: the address of its buffer, the descriptor, and the
    copy of the name. *)
Record fd_alloc : Type := mk_fd_alloc {
  fa_buf : option Z;
  fa_fd : bool;
  fa_name : bool;
}.

Section Ops.
Context {W : Type} `{VN : Vnodes W}.

(** The user addresses that are mapped read-only, and what name buffers on the
    stack hold. *)
Variable ro : Z -> bool.
Variable junk : list Z.

(** Direct accesses to a kernel buffer. *)
Definition kload (m : kst) (a n : Z) : outcome (list Z) :=
  r ← loadn (Z.to_nat n) (kmem m) a;
  match r with Some bs => Ok bs | None => Panic end.

Definition kstore (m : kst) (a : Z) (bs : list Z) : outcome kst :=
  r ← storen ro (kmem m) a bs;
  match r with Some m' => Ok (mk_kst m' (badfaultfunc m)) | None => Panic end.

(** [true] for 1. *)
Definition fd_check_valid (fd : Z) (s : fstate W) : outcome bool :=
  if (fd <? 0) || (fd >? MAX_FD) then Ok true
  else
    e ← rd (t_filetable s) fd;
    match e with None => Ok true | Some _ => Ok false end.

(** The descriptor keeps [fname]; [vfs_open] gets a copy. *)
Definition fd_init (fname : list Z) (flag : Z) (al : fd_alloc) (v : vst W) : outcome (Z * option fd * vst W) :=
  if negb (fa_fd al) then Ok (ENOMEM, None, v)
  else
    name ← kstrdup fname (fa_name al);
    match name with
    | None => Undef
    | Some name =>
        '(ret, _, vnode, v) ← vfs_open junk name flag v;
        if negb (ret =? 0) then Ok (ret, None, v) else Ok (0, Some (mk_fd fname vnode 0 (u32 flag)), v)
    end.

Definition fd_destroy (des : option fd) (v : vst W) : outcome (vst W) :=
  match des with
  | None => Ok v
  | Some des => if negb (vnode des =? 0) then vfs_close (vnode des) v else Ok v
  end.

Definition con : list Z := [99; 111; 110; 58; 0].

(** The name of one of the standard descriptors, and the descriptor. *)
Definition init_con (ok : bool) (flag : Z) (al : fd_alloc) (v : vst W) : outcome (Z * option fd * vst W) :=
  name ← kstrdup con ok;
  match name with
  | None => Ok (ENOMEM, None, v)
  | Some name => fd_init name flag al v
  end.

(** Fills in the first three entries of a table. *)
Definition fd_init_initial (ok0 ok1 ok2 : bool) (al0 al1 al2 : fd_alloc) (tbl : list (option fd)) (v : vst W) : outcome (Z * list (option fd) * vst W) :=
  '(ret, f0, v) ← init_con ok0 O_RDONLY al0 v;
  if negb (ret =? 0) then Ok (ret, tbl, v)
  else
    tbl ← wr tbl 0 f0;
    '(ret, f1, v) ← init_con ok1 O_WRONLY al1 v;
    if negb (ret =? 0) then
      v ← fd_destroy f0 v;
      tbl ← wr tbl 0 None;
      Ok (ret, tbl, v)
    else
      tbl ← wr tbl 1 f1;
      '(ret, f2, v) ← init_con ok2 O_WRONLY al2 v;
      if negb (ret =? 0) then
        v ← fd_destroy f1 v;
        tbl ← wr tbl 1 None;
        v ← fd_destroy f0 v;
        tbl ← wr tbl 0 None;
        Ok (ret, tbl, v)
      else
        tbl ← wr tbl 2 f2;
        Ok (0, tbl, v).

Definition fd_copy (ok : bool) (master : option fd) (al : fd_alloc) (v : vst W) : outcome (Z * option fd * vst W) :=
  match master with
  | None => Ok (0, None, v)
  | Some master =>
      name ← kstrdup (filename master) ok;
      match name with
      | None => Ok (ENOMEM, None, v)
      | Some name =>
          '(ret, copy, v) ← fd_init name (s32 (flags master)) al v;
          if negb (ret =? 0) then Ok (ret, None, v)
          else
            match copy with
            | None => Undef
            | Some c => Ok (0, Some (mk_fd (filename c) (vnode c) (offset master) (flags c)), v)
            end
      end
  end.

(** ** System calls

    They return the error code and what is stored through [retval], which is
    [rv] before. *)

(** The loop for a free descriptor. *)
Fixpoint find_fd (n : nat) (i : Z) (tbl : list (option fd)) : outcome Z :=
  match n with
  | O => Ok i
  | S n' =>
      e ← rd tbl i;
      match e with None => Ok i | Some _ => find_fd n' (i + 1) tbl end
  end.

Definition sys_open (filename flag : Z) (al : fd_alloc) (rv : Z) (s : fstate W) : outcome (Z * Z * fstate W) :=
  if (flag >=? 64) || (flag <? 0) then Ok (EINVAL, rv, s)
  else if filename =? 0 then Ok (EFAULT, rv, s)
  else
    i ← find_fd (Z.to_nat (MAX_FD - 3)) 3 (t_filetable s);
    if i =? MAX_FD then Ok (EMFILE, rv, s)
    else
      match fa_buf al with
      | None => Ok (ENOMEM, rv, s)
      | Some k_fname =>
          '(result, _, m) ← copyinstr ro filename k_fname NAME_MAX (memory s);
          let s := set_memory m s in
          if negb (result =? 0) then Ok (result, rv, s)
          else
            fname ← kload (memory s) k_fname NAME_MAX;
            '(result, des, v) ← fd_init fname flag al (vfs s);
            let s := set_vfs v s in
            if negb (result =? 0) then Ok (result, rv, s)
            else
              tbl ← wr (t_filetable s) i des;
              Ok (0, i, set_table tbl s)
      end.

Definition sys_close (fd rv : Z) (s : fstate W) : outcome (Z * Z * fstate W) :=
  bad ← fd_check_valid fd s;
  if bad : bool then Ok (EBADF, -1, s)
  else
    des ← rd (t_filetable s) fd;
    v ← fd_destroy des (vfs s);
    tbl ← wr (t_filetable s) fd None;
    Ok (0, rv, set_table tbl (set_vfs v s)).

Definition set_offset (des : fd) (off : Z) : fd := mk_fd (filename des) (vnode des) off (flags des).

Definition sys_read (fd data size : Z) (al : fd_alloc) (rv : Z) (s : fstate W) : outcome (Z * Z * fstate W) :=
  if size =? 0 then Ok (0, rv, s)
  else
    bad ← fd_check_valid fd s;
    if bad : bool then Ok (EBADF, rv, s)
    else
      match fa_buf al with
      | None => Ok (ENOMEM, rv, s)
      | Some k_data =>
          e ← rd (t_filetable s) fd;
          match e with
          | None => Undef
          | Some des =>
              if (Z.land (flags des) O_RDWR =? 0) && negb (Z.land (flags des) O_WRONLY =? 0) then Ok (EINVAL, rv, s)
              else
                buf ← kload (memory s) k_data size;
                '(result, u, w) ← VOP_READ (vnode des) (mk_kuio buf size (offset des) UIO_READ) (world (vfs s));
                m ← kstore (memory s) k_data (uio_buffer u);
                let s := set_memory m (set_vfs (set_world w (vfs s)) s) in
                if negb (result =? 0) then Ok (result, rv, s)
                else
                  '(result, m) ← copyout ro k_data data size (memory s);
                  let s := set_memory m s in
                  if negb (result =? 0) then Ok (result, rv, s)
                  else
                    tbl ← wr (t_filetable s) fd (Some (set_offset des (uio_offset u)));
                    Ok (0, s32 (u32 (size - s32 (uio_resid u))), set_table tbl s)
          end
      end.

Definition sys_write (fd data size : Z) (al : fd_alloc) (rv : Z) (s : fstate W) : outcome (Z * Z * fstate W) :=
  if size =? 0 then Ok (0, rv, s)
  else
    bad ← fd_check_valid fd s;
    if bad : bool then Ok (EBADF, rv, s)
    else if (data =? 0) || (data >=? USERTOP) then Ok (EFAULT, rv, s)
    else
      match fa_buf al with
      | None => Ok (ENOMEM, rv, s)
      | Some k_data =>
          '(result, m) ← copyin ro data k_data size (memory s);
          let s := set_memory m s in
          if negb (result =? 0) then Ok (result, rv, s)
          else
            e ← rd (t_filetable s) fd;
            match e with
            | None => Undef
            | Some des =>
                if (Z.land (flags des) O_RDWR =? 0) && (Z.land (flags des) O_WRONLY =? 0) then Ok (EINVAL, rv, s)
                else
                  buf ← kload (memory s) k_data size;
                  '(result, u, w) ← VOP_WRITE (vnode des) (mk_kuio buf size (offset des) UIO_WRITE) (world (vfs s));
                  let s := set_vfs (set_world w (vfs s)) s in
                  if negb (result =? 0) then Ok (result, rv, s)
                  else
                    tbl ← wr (t_filetable s) fd (Some (set_offset des (uio_offset u)));
                    Ok (0, s32 (u32 (size - s32 (uio_resid u))), set_table tbl s)
            end
      end.

End Ops.

(** ** The invariant of a process *)

(** The vnodes of the open descriptors. *)
Definition fd_vnode (e : option fd) : gmultiset Z := match e with Some d => {[+ vnode d +]} | None => ∅ end.

Fixpoint fds (tbl : list (option fd)) : gmultiset Z :=
  match tbl with
  | [] => ∅
  | e :: tbl' => fd_vnode e ⊎ fds tbl'
  end.

Definition fd_ok (d : fd) : Prop :=
  (exists p, points_to (filename d) p) /\ 0 <= offset d < 2147483648 /\ 0 <= flags d < 64.

(** The descriptors hold one reference and one open each, out of those in [g];
    memory holds bytes, and no copy is going on. *)
Record fok {W} `{VL : VnodeLaws W} (g : ghost) (s : fstate W) : Prop := mk_fok {
  fk_vfs : vok g (vfs s);
  fk_refs : fds (t_filetable s) ⊆ g_refs g;
  fk_opens : fds (t_filetable s) ⊆ g_opens g;
  fk_length : zlen (t_filetable s) = MAX_FD;
  fk_fds : forall k d, t_filetable s !! k = Some (Some d) -> fd_ok d;
  fk_bytes : forall a b, kmem (memory s) !! a = Some b -> byte b;
  fk_fault : badfaultfunc (memory s) = false;
}.

Lemma fds_insert tbl : forall k e e', tbl !! k = Some e -> fds (<[k := e']> tbl) ⊎ fd_vnode e = fds tbl ⊎ fd_vnode e'.
Proof.
  induction tbl as [|x tbl IH]; intros k e e' Hk; [done|]. destruct k as [|k].
  - injection Hk as ->. change (fd_vnode e' ⊎ fds tbl ⊎ fd_vnode e = fd_vnode e ⊎ fds tbl ⊎ fd_vnode e'). generalize (fd_vnode e), (fd_vnode e'), (fds tbl). multiset_solver.
  - change (<[S k := e']> (x :: tbl)) with (x :: <[k := e']> tbl). cbn [fds]. specialize (IH k e e' Hk). clear Hk. revert IH. generalize (fds (<[k := e']> tbl)), (fds tbl), (fd_vnode e), (fd_vnode e'), (fd_vnode x). intros A B C D E HA. by rewrite <- (assoc_L (⊎) E A), HA, (assoc_L (⊎)).
Qed.

Lemma fds_lookup tbl : forall k d, tbl !! k = Some (Some d) -> vnode d ∈ fds tbl.
Proof.
  induction tbl as [|x tbl IH]; intros k d Hk; [done|]. destruct k as [|k]; cbn [fds] in *.
  - injection Hk as ->. apply gmultiset_elem_of_disj_union. left. by apply gmultiset_elem_of_singleton.
  - specialize (IH k d Hk). apply gmultiset_elem_of_disj_union. by right.
Qed.

(** ** Kernel buffers *)

Section Buffers.
Context (ro : Z -> bool).

Lemma kload_run m a n : 0 <= n -> Uio.kernel_block (kmem m) a n ->
  exists bs, kload m a n = Ok bs /\ zlen bs = n /\ forall j, 0 <= j < n -> kmem m !! (a + j) = bs !! Z.to_nat j.
Proof.
  intros Hn (H1 & H2 & H3). unfold kload. destruct (loadn_ok ro (Z.to_nat n) (kmem m) a) as (r & -> & Hr).
  { intros x Hx. left. apply H3. rewrite Z2Nat.id in Hx by lia. done. }
  rewrite Ok_bind. rewrite Z2Nat.id in Hr by lia. destruct r as [bs|].
  - destruct Hr as [Hl Hx]. exists bs. split; [done|]. split; [lia|]. intros j Hj. destruct (Hx (a + j)) as [-> _]; [unfold within; lia|]. do 2 f_equal. lia.
  - destruct Hr as (x & Hx & Hn'). destruct Hn'. by apply H3.
Qed.

Lemma kstore_run m a bs : Uio.kernel_block (kmem m) a (zlen bs) ->
  exists m', kstore ro m a bs = Ok (mk_kst m' (badfaultfunc m)) /\
    (forall x, m' !! x = if decide (within x a (zlen bs)) then bs !! Z.to_nat (x - a) else kmem m !! x) /\ (forall x, is_Some (m' !! x) <-> is_Some (kmem m !! x)).
Proof.
  intros (H1 & H2 & H3). unfold kstore. destruct (storen_ok ro bs (kmem m) a) as (r & E & Hr).
  { intros x Hx. left. by apply H3. }
  rewrite E, Ok_bind. destruct r as [m'|].
  - destruct Hr as [Hm Hw]. exists m'. split; [done|]. split; [done|]. by apply (storen_drawn ro bs (kmem m) m' a).
  - destruct Hr as (x & Hx & Hn'). destruct Hn'. split; [by apply H3|]. unfold within in Hx. by rewrite (proj2 (Z.ltb_ge x USERTOP)) by lia.
Qed.

Lemma drawn_block m m' a n : drawn m m' -> Uio.kernel_block m a n -> Uio.kernel_block m' a n.
Proof. intros [Hd _] (H1 & H2 & H3). split; [done|]. split; [done|]. intros x Hx. by apply Hd, H3. Qed.

Lemma drawn_bytes m m' : drawn m m' -> (forall a b, m !! a = Some b -> byte b) -> forall a b, m' !! a = Some b -> byte b.
Proof. intros [_ Hd] Hb a b Ha. destruct (Hd a b Ha) as [a' Ha']. by eapply Hb. Qed.

Lemma lookup_bytes (m : mem) a bs : (forall x b, m !! x = Some b -> byte b) -> (forall j, 0 <= j < zlen bs -> m !! (a + j) = bs !! Z.to_nat j) -> Forall byte bs.
Proof.
  clear ro. intros Hb Hl. apply list.Forall_lookup. intros k b Hk. pose proof (lookup_lt_Some _ _ _ Hk). apply (Hb (a + Z.of_nat k)). rewrite Hl by lia. by rewrite Nat2Z.id.
Qed.

End Buffers.

Section Laws.
Context {W : Type} {VN : Vnodes W} {VL : VnodeLaws W}.
Context (ro : Z -> bool) (junk : list Z) (Hjunk : zlen junk = 256).

(** The string [p] in user memory. *)
Definition ustring (m : mem) (a : Z) (p : list Z) : Prop :=
  str p /\ forall j, 0 <= j <= zlen p -> m !! (a + j) = (p ++ [0]) !! Z.to_nat j.

(** ** Checks *)

Lemma check_run g (s : fstate W) x : fok g s -> x <> MAX_FD ->
  exists b, fd_check_valid x s = Ok b /\
    if b then forall d, 0 <= x -> t_filetable s !! Z.to_nat x <> Some (Some d)
    else exists d, 0 <= x < MAX_FD /\ t_filetable s !! Z.to_nat x = Some (Some d) /\ rd (t_filetable s) x = Ok (Some d).
Proof.
  intros Hk Hx. pose proof (fk_length _ _ Hk) as Hl. unfold fd_check_valid, MAX_FD in *. destruct ((x <? 0) || (x >? 10)) eqn:Hb.
  - exists true. split; [done|]. intros d H0 Hd. apply lookup_lt_Some in Hd. lia.
  - destruct (rd_in (t_filetable s) x) as (e & Hrd & He); [lia|]. rewrite Hrd, Ok_bind. destruct e as [d|]; eexists; (split; [done|]).
    + exists d. split; [lia|]. done.
    + intros d _ Hd. congruence.
Qed.

Lemma find_fd_run (tbl : list (option fd)) n : forall i, 0 <= i -> i + Z.of_nat n = zlen tbl ->
  exists k, find_fd n i tbl = Ok k /\ i <= k <= zlen tbl /\ (k < zlen tbl -> tbl !! Z.to_nat k = Some None) /\
    forall j, i <= j < k -> exists d, tbl !! Z.to_nat j = Some (Some d).
Proof.
  induction n as [|n IH]; intros i Hi Hn; cbn [find_fd].
  - exists i. split; [done|]. split; [lia|]. split; lia.
  - destruct (rd_in tbl i) as (e & -> & He); [lia|]. rewrite Ok_bind. destruct e as [d|].
    + destruct (IH (i + 1)) as (k & -> & H1 & H2 & H3); [lia|lia|]. exists k. split; [done|]. split; [lia|]. split; [done|].
      intros j Hj. destruct (decide (j = i)) as [->|]; [eauto|]. apply H3. lia.
    + exists i. split; [done|]. split; [lia|]. split; [done|lia].
Qed.

(** ** Descriptors *)

(** A new descriptor for the file that [p] names. *)
Definition made (g : ghost) (v : vst W) (p fname : list Z) (flag : Z) (d : fd) (g' : ghost) (v' : vst W) : Prop :=
  exists i g2, vok g' v' /\ opened g v p flag i g2 /\ d = mk_fd fname (vnode d) 0 (u32 flag) /\ fits_in v g (vnode d) i /\
    g' = add_open (vnode d) (hand_out (vnode d) i g2).

(** What is left of a failure. *)
Definition unmade (g : ghost) (v : vst W) (p : list Z) (flag : Z) (al : fd_alloc) (r : Z) (g' : ghost) (v' : vst W) : Prop :=
  vok g' v' /\ half_opened g v p flag r g' /\ (open_error g v p flag r \/ (r = ENOMEM /\ fa_fd al = false)).

Lemma kstrdup_run nm n : points_to nm n -> zlen n < 4294967295 -> exists nm', kstrdup nm true = Ok (Some nm') /\ points_to nm' n.
Proof.
  intros Hp Hl. unfold kstrdup. rewrite (strlen_run nm n), Ok_bind, (u32_id (zlen n + 1)) by (done || unfold u32_mod; lia). cbn [negb].
  rewrite (strcpy_run nm n), Ok_bind by (done || (rewrite length_replicate; lia)). eexists. split; [done|]. split; [by destruct Hp|]. eauto.
Qed.

Lemma fd_init_run g v fname p flag al : vok g v -> roomy 3 (total g v) -> points_to fname p -> zlen p < 4294967295 -> fa_name al = true ->
  exists r des v' g', fd_init junk fname flag al v = Ok (r, des, v') /\ (exists w', v' = set_world w' v) /\
    ((r = 0 /\ exists d, des = Some d /\ made g v p fname flag d g' v') \/ (r <> 0 /\ des = None /\ unmade g v p flag al r g' v')).
Proof.
  intros Hk Hr Hp Hl Hn. unfold fd_init, unmade. destruct (fa_fd al); cbn [negb].
  2: { eexists _, _, _, g. split; [done|]. split; [exists (world v); by destruct v|]. right. split; [done|]. split; [done|]. split; [done|]. split; [by left|by right]. }
  destruct (kstrdup_run fname p Hp Hl) as (nm & Hd & Hnm). rewrite Hn, Hd, Ok_bind.
  destruct (open_run g v junk nm p flag Hk Hr Hnm) as (r & p' & vn & v' & g2 & -> & Hw & Hcase); [unfold u32_mod; lia|done|]. rewrite Ok_bind.
  destruct Hcase as [(-> & Hv & i & Hf & Hk2 & Ho)|(Hr0 & Hk2 & Hh & He)].
  - cbn [Z.eqb negb]. eexists _, _, _, _. split; [done|]. split; [done|]. left. split; [done|]. eexists. split; [done|]. exists i, g2. done.
  - rewrite (proj2 (Z.eqb_neq r 0) Hr0). cbn [negb]. eexists _, _, _, _. split; [done|]. split; [done|]. right. split; [done|]. split; [done|]. split; [done|]. split; [done|by left].
Qed.

(** ** Steps of the invariant *)

(** The references and opens of the descriptors are the difference between [g]
    and [g']. *)
Definition balance (g g' : ghost) (t t' : list (option fd)) : Prop :=
  g_refs g' ⊎ fds t = g_refs g ⊎ fds t' /\ g_opens g' ⊎ fds t = g_opens g ⊎ fds t'.

Lemma fok_step g g' (s : fstate W) v' m' t' : fok g s -> vok g' v' -> balance g g' (t_filetable s) t' -> zlen t' = MAX_FD ->
  (forall k d, t' !! k = Some (Some d) -> fd_ok d) -> (forall a b, kmem m' !! a = Some b -> byte b) -> badfaultfunc m' = false -> fok g' (mk_fst v' m' t').
Proof.
  intros Hk Hv [B1 B2] Hl Hd Hb Hf. assert (forall a b c d : gmultiset Z, a ⊎ b = c ⊎ d -> b ⊆ c -> d ⊆ a) as Hsub.
  { intros a b c d He Hs x. pose proof (Hs x) as H1. pose proof (f_equal (multiplicity x) He) as H2. rewrite !multiplicity_disj_union in H2. lia. }
  constructor; try done; [exact (Hsub _ _ _ _ B1 (fk_refs _ _ Hk))|exact (Hsub _ _ _ _ B2 (fk_opens _ _ Hk))].
Qed.

(** A step that leaves the table alone, but for what is known of the vnodes. *)
Lemma fok_same g g' (s : fstate W) v' m' : fok g s -> vok g' v' -> g_refs g' = g_refs g -> g_opens g' = g_opens g ->
  (forall a b, kmem m' !! a = Some b -> byte b) -> badfaultfunc m' = false -> fok g' (mk_fst v' m' (t_filetable s)).
Proof. intros Hk Hv H1 H2 Hb Hf. apply (fok_step g _ s); try done; [unfold balance; by rewrite H1, H2|exact (fk_length _ _ Hk)|exact (fk_fds _ _ Hk)]. Qed.

Lemma opened_same g (v : vst W) p flag i g2 : opened g v p flag i g2 -> g_refs g2 = g_refs g /\ g_opens g2 = g_opens g /\ g_vn g2 = g_vn g.
Proof.
  intros [(_ & _ & ->)|(_ & n & g1 & _ & _ & Hc & Ht)]; [done|]. destruct (create_effect_same _ _ _ _ _ _ _ Hc) as (<- & <- & <-).
  unfold trunc_effect in Ht. destruct (_ && _); [destruct Ht as (bs & -> & _)|subst g2]; done.
Qed.

Lemma half_opened_same g (v : vst W) p flag r g2 : half_opened g v p flag r g2 -> g_refs g2 = g_refs g /\ g_opens g2 = g_opens g.
Proof.
  intros [->|(f & n & id & g1 & _ & _ & Hc & Ht)]; [done|]. destruct (create_effect_same _ _ _ _ _ _ _ Hc) as (<- & <- & _).
  destruct Ht as [->|Ht]; [done|]. unfold trunc_effect in Ht. destruct (_ && _); [destruct Ht as (bs & -> & _)|subst g2]; done.
Qed.

(** ** Opening *)

(** What the allocator gives to a call: a name, and a buffer of [n] bytes. *)
Definition alloc_ok (al : fd_alloc) (n : Z) (m : kst) : Prop :=
  fa_name al = true /\ forall k, fa_buf al = Some k -> Uio.kernel_block (kmem m) k n.

(** User memory is as before, and so are the mapped addresses. *)
Definition same_user (m m' : kst) : Prop :=
  (forall a, a < USERTOP -> kmem m' !! a = kmem m !! a) /\ forall a, is_Some (kmem m' !! a) <-> is_Some (kmem m !! a).

Lemma name_in_buffer (m m' : mem) a k n dest bs : (forall x b, m !! x = Some b -> byte b) -> string_at m a k -> 0 <= k < n ->
  (forall j, 0 <= j <= k -> m' !! (dest + j) = m !! (a + j)) -> zlen bs = n -> (forall j, 0 <= j < n -> m' !! (dest + j) = bs !! Z.to_nat j) ->
  exists p, zlen p = k /\ points_to bs p /\ ustring m a p.
Proof.
  intros Hb [Hz Hnz] Hk Hcp Hl Hbs. assert (forall j, 0 <= j <= k -> bs !! Z.to_nat j = m !! (a + j)) as Heq.
  { intros j Hj. rewrite <- Hbs by lia. by apply Hcp. }
  exists (take (Z.to_nat k) bs). assert (zlen (take (Z.to_nat k) bs) = k) as Hlen by (rewrite length_take; lia).
  assert (str (take (Z.to_nat k) bs)) as Hs.
  { apply list.Forall_lookup. intros j c Hc. apply lookup_take_Some in Hc as [Hc Hj]. rewrite <- (Nat2Z.id j), Heq in Hc by lia.
    destruct (Hnz (Z.of_nat j)) as (b & Hb' & Hb0); [lia|]. assert (b = c) as -> by congruence. specialize (Hb _ _ Hc). unfold byte in Hb. lia. }
  assert (bs !! Z.to_nat k = Some 0) as H0 by (by rewrite Heq by lia).
  split; [done|]. split; [split; [done|]; exists (drop (S (Z.to_nat k)) bs); by rewrite take_drop_middle|]. split; [done|].
  intros j Hj. rewrite <- Heq by lia. destruct (decide (j = k)) as [->|].
  - rewrite H0, lookup_app_r by lia. replace (Z.to_nat k - length _)%nat with 0%nat by lia. done.
  - rewrite lookup_app_l by lia. rewrite lookup_take_lt by lia. done.
Qed.

Lemma fok_opened g (s : fstate W) k p fname flag d g' v' m' : fok g s -> t_filetable s !! k = Some None -> points_to fname p -> 0 <= flag < 64 ->
  made g (vfs s) p fname flag d g' v' -> (forall a b, kmem m' !! a = Some b -> byte b) -> badfaultfunc m' = false ->
  fok g' (mk_fst v' m' (<[k := Some d]> (t_filetable s))) /\ balance g g' (t_filetable s) (<[k := Some d]> (t_filetable s)).
Proof.
  intros Hk Hn Hp Hfl (i & g2 & Hv & Ho & Hd & Hf & ->) Hb Hbf. destruct (opened_same _ _ _ _ _ _ Ho) as (H1 & H2 & _).
  assert (balance g (add_open (vnode d) (hand_out (vnode d) i g2)) (t_filetable s) (<[k := Some d]> (t_filetable s))) as Hbal.
  { pose proof (fds_insert _ k None (Some d) Hn) as Hi. cbn [fd_vnode] in Hi. rewrite right_id_L in Hi by apply _. unfold balance. cbn. rewrite H1, H2, Hi. split; rewrite <- !(assoc_L (⊎)); f_equal; apply (comm_L (⊎)). }
  split; [|done]. apply (fok_step g _ s); try done; [rewrite length_insert; apply Hk|]. intros j d' Hj. rewrite list_lookup_insert in Hj. case_decide as E; [|by apply (fk_fds _ _ Hk j)].
  injection Hj as <-. rewrite Hd. split; [by exists p|]. cbn [offset flags]. rewrite u32_id by (unfold u32_mod; lia). lia.
Qed.

(** The error code, what is stored through [retval], and the new state. *)
Definition open_post (g : ghost) (s : fstate W) (path flag : Z) (al : fd_alloc) (rv : Z) (x : Z * Z * fstate W) : Prop :=
  let '(r, rv', s') := x in
  exists g', fok g' s' /\ balance g g' (t_filetable s) (t_filetable s') /\ same_user (memory s) (memory s') /\ (exists w', vfs s' = set_world w' (vfs s)) /\
    ((r = 0 /\ 3 <= rv' < MAX_FD /\ t_filetable s !! Z.to_nat rv' = Some None /\ 0 <= flag < 64 /\
        exists p d fname, ustring (kmem (memory s)) path p /\ made g (vfs s) p fname flag d g' (vfs s') /\ t_filetable s' = <[Z.to_nat rv' := Some d]> (t_filetable s)) \/
     (r <> 0 /\ rv' = rv /\ t_filetable s' = t_filetable s /\ (g' = g \/ exists p, ustring (kmem (memory s)) path p /\ unmade g (vfs s) p flag al r g' (vfs s')))).

Lemma open_fails g s path flag al rv r m : fok g s -> r <> 0 -> (forall a b, kmem m !! a = Some b -> byte b) -> badfaultfunc m = false -> same_user (memory s) m ->
  open_post g s path flag al rv (r, rv, set_memory m s).
Proof.
  intros Hk Hr Hb Hf Hs. exists g. split; [apply (fok_same g _ s); try done; apply Hk|]. split; [done|]. split; [done|]. split; [exists (world (vfs s)); by destruct s as [[] ? ?]|].
  right. split; [done|]. split; [done|]. split; [done|]. by left.
Qed.

Lemma sys_open_run g (s : fstate W) path flag al rv : fok g s -> roomy 3 (total g (vfs s)) -> word path -> alloc_ok al NAME_MAX (memory s) ->
  exists x, sys_open ro junk path flag al rv s = Ok x /\ open_post g s path flag al rv x.
Proof.
  intros Hk Hr Hw [Han Hab]. unfold sys_open.
  assert (forall r, r <> 0 -> open_post g s path flag al rv (r, rv, s)) as Hfail.
  { intros r Hr0. replace s with (set_memory (memory s) s) at 2 by (by destruct s). apply open_fails; try done; apply Hk. }
  destruct ((flag >=? 64) || (flag <? 0)) eqn:Hfl; [eexists; split; [done|by apply Hfail]|]. destruct (path =? 0); [eexists; split; [done|by apply Hfail]|].
  pose proof (fk_length _ _ Hk) as Hlen. destruct (find_fd_run (t_filetable s) (Z.to_nat (MAX_FD - 3)) 3) as (i & -> & Hi & Hnone & _); [lia|rewrite Hlen; done|]. rewrite Ok_bind.
  destruct (Z.eqb_spec i MAX_FD) as [->|Hi10]; [eexists; split; [done|by apply Hfail]|]. specialize (Hnone ltac:(lia)).
  destruct (fa_buf al) as [k|] eqn:Hbuf; [|eexists; split; [done|by apply Hfail]]. specialize (Hab k eq_refl).
  destruct (copyinstr_spec ro path k NAME_MAX (memory s)) as (r & got & m' & Hc & Hcode & Hout & Hok & _); [done|done|apply Hk|apply Hab|apply Hab|].
  pose proof (copyinstr_drawn _ _ _ _ _ _ _ _ Hc) as Hdr. cbn [kmem] in Hdr. rewrite Hc, Ok_bind.
  assert (same_user (memory s) (mk_kst m' false)) as Hsu.
  { split; [|apply Hdr]. intros a Ha. apply Hout. unfold within. destruct Hab. lia. }
  pose proof (drawn_bytes _ _ Hdr (fk_bytes _ _ Hk)) as Hby. destruct (Z.eqb_spec r 0) as [->|Hr0]; cbn [negb]; [|eexists; split; [done|by apply open_fails]].
  destruct (Hok eq_refl) as (n & Hn & _ & Hst & _ & Hcp). change (memory (set_memory (mk_kst m' false) s)) with (mk_kst m' false).
  destruct (kload_run ro (mk_kst m' false) k NAME_MAX) as (bs & -> & Hbl & Hbs); [done|by apply (drawn_block (kmem (memory s)))|]. rewrite Ok_bind.
  destruct (name_in_buffer _ _ _ _ _ _ _ (fk_bytes _ _ Hk) Hst Hn Hcp Hbl Hbs) as (p & Hp & Hpt & Hus).
  destruct (fd_init_run g (vfs s) bs p flag al (fk_vfs _ _ Hk) Hr Hpt) as (r & des & v' & g' & E & Hv' & Hcase); [unfold NAME_MAX in *; lia|done|].
  change (vfs (set_memory (mk_kst m' false) s)) with (vfs s). rewrite E, Ok_bind. destruct Hcase as [(-> & d & -> & Hm)|(Hr0 & -> & Hu)].
  - cbn [Z.eqb negb]. change (t_filetable (set_vfs v' (set_memory (mk_kst m' false) s))) with (t_filetable s). rewrite wr_in, Ok_bind by (rewrite Hlen; lia).
    eexists. split; [done|]. destruct (fok_opened g s (Z.to_nat i) p bs flag d g' v' (mk_kst m' false)) as [Hk' Hbal]; try done; [lia|].
    exists g'. split; [done|]. split; [done|]. split; [done|]. split; [done|]. left. split; [done|]. split; [lia|]. split; [done|]. split; [lia|]. exists p, d, bs. done.
  - rewrite (proj2 (Z.eqb_neq r 0) Hr0). cbn [negb]. eexists. split; [done|]. destruct Hu as (Hv & Hh & He). destruct (half_opened_same _ _ _ _ _ _ Hh) as [H1 H2].
    exists g'. split; [by apply (fok_same g _ s)|]. split; [unfold balance; by rewrite H1, H2|]. split; [done|]. split; [done|]. right. split; [done|]. split; [done|]. split; [done|]. right. by exists p.
Qed.

(** ** Closing *)

Definition close_post (g : ghost) (s : fstate W) (x rv : Z) (y : Z * Z * fstate W) : Prop :=
  let '(r, rv', s') := y in
  exists g', fok g' s' /\ balance g g' (t_filetable s) (t_filetable s') /\ memory s' = memory s /\ (exists w', vfs s' = set_world w' (vfs s)) /\
    ((r = 0 /\ rv' = rv /\ exists d, t_filetable s !! Z.to_nat x = Some (Some d) /\ t_filetable s' = <[Z.to_nat x := None]> (t_filetable s) /\ g' = drop_ref (vnode d) (drop_open (vnode d) g)) \/
     (r = EBADF /\ rv' = -1 /\ s' = s /\ g' = g /\ forall d, 0 <= x -> t_filetable s !! Z.to_nat x <> Some (Some d))).

(** A descriptor's vnode is known. *)
Lemma fd_known g (s : fstate W) k d : fok g s -> t_filetable s !! k = Some (Some d) ->
  vnode d ∈ g_refs g /\ vnode d ∈ g_opens g /\ vnode d <> 0 /\ exists i, known (total g (vfs s)) (vnode d) i /\ g_vn g !! vnode d = Some i.
Proof.
  intros Hk Hd. pose proof (fds_lookup _ _ _ Hd) as Hin. pose proof (gmultiset_elem_of_subseteq _ _ _ Hin (fk_refs _ _ Hk)) as Hr.
  pose proof (gmultiset_elem_of_subseteq _ _ _ Hin (fk_opens _ _ Hk)) as Ho. split; [done|]. split; [done|].
  assert (vnode d ∈ g_refs (total g (vfs s))) as Ht by (apply gmultiset_elem_of_disj_union; by left).
  destruct (owns_ref _ _ _ (vk_owns _ _ (fk_vfs _ _ Hk)) Ht) as (Hne & i & Hi & _). split; [done|]. exists i. done.
Qed.

Lemma balance_close g t k d : t !! k = Some (Some d) -> vnode d ∈ g_refs g -> vnode d ∈ g_opens g ->
  balance g (drop_ref (vnode d) (drop_open (vnode d) g)) t (<[k := None]> t).
Proof.
  intros Hd Hv Ho. pose proof (fds_insert _ _ _ None Hd) as Hi. cbn [fd_vnode] in Hi. rewrite (right_id_L ∅ (⊎)) in Hi. unfold balance. cbn. rewrite <- Hi. revert Hv Ho. clear.
  generalize (fds (<[k := None]> t)), (g_refs g), (g_opens g). multiset_solver.
Qed.

Lemma sys_close_run g (s : fstate W) x rv : fok g s -> x <> MAX_FD -> exists y, sys_close x rv s = Ok y /\ close_post g s x rv y.
Proof.
  intros Hk Hx. unfold sys_close. destruct (check_run g s x Hk Hx) as (b & -> & Hb). rewrite Ok_bind. destruct b.
  { eexists. split; [done|]. exists g. split; [done|]. split; [done|]. split; [done|]. split; [exists (world (vfs s)); by destruct s as [[] ? ?]|]. by right. }
  destruct Hb as (d & Hr & Hd & ->). rewrite Ok_bind. destruct (fd_known g s _ d Hk Hd) as (Hv & Ho & Hne & _). cbn [fd_destroy]. rewrite (proj2 (Z.eqb_neq _ 0) Hne). cbn [negb].
  destruct (close_run g (vfs s) (vnode d) (fk_vfs _ _ Hk) Ho Hv) as (w' & -> & Hk'). rewrite Ok_bind. pose proof (fk_length _ _ Hk) as Hlen. rewrite wr_in, Ok_bind by lia.
  pose proof (balance_close g _ _ d Hd Hv Ho) as Hbal. eexists. split; [done|]. eexists. split; [|split; [exact Hbal|split; [done|split; [by exists w'|left; split; [done|]; split; [done|]; by exists d]]]].
  apply (fok_step g _ s); try done; [by rewrite length_insert| |apply Hk|apply Hk].
  intros j d' Hj. rewrite list_lookup_insert in Hj. case_decide; [done|]. by apply (fk_fds _ _ Hk j).
Qed.


(** ** Reading *)

(** The position after a transfer is still a position. *)
Definition in_range (s : fstate W) (x size : Z) : Prop :=
  0 <= size < 2147483648 /\ forall d, t_filetable s !! Z.to_nat x = Some (Some d) -> offset d + size < 2147483648.

(** Only [size] bytes at [data] of user memory change. *)
Definition user_change (data size : Z) (m m' : kst) : Prop :=
  (forall a, a < USERTOP -> ~ within a data size -> kmem m' !! a = kmem m !! a) /\ forall a, is_Some (kmem m' !! a) <-> is_Some (kmem m !! a).

Definition moves_fd (s : fstate W) (x : Z) (d : fd) (off : Z) (s' : fstate W) : Prop :=
  t_filetable s !! Z.to_nat x = Some (Some d) /\ t_filetable s' = <[Z.to_nat x := Some (set_offset d off)]> (t_filetable s).

Definition can_read (flags : Z) : bool := negb ((Z.land flags O_RDWR =? 0) && negb (Z.land flags O_WRONLY =? 0)).

Definition read_post (g : ghost) (s : fstate W) (x data size rv : Z) (y : Z * Z * fstate W) : Prop :=
  let '(r, rv', s') := y in
  fok g s' /\ balance g g (t_filetable s) (t_filetable s') /\ user_change data size (memory s) (memory s') /\ (exists w', vfs s' = set_world w' (vfs s)) /\
  ((r = 0 /\ size = 0 /\ rv' = rv /\ s' = s) \/
   (r = 0 /\ exists d off i, moves_fd s x d off s' /\ can_read (flags d) = true /\ g_vn g !! vnode d = Some i /\
      (vi_type i = S_IFREG -> forall bs, bytes_of (vi_fs i) (vi_id i) g = Some bs ->
         let n := Z.max 0 (Z.min size (zlen bs - offset d)) in
         rv' = n /\ off = offset d + n /\ forall j, 0 <= j < n -> kmem (memory s') !! (data + j) = bs !! Z.to_nat (offset d + j))) \/
   (r <> 0 /\ rv' = rv /\ t_filetable s' = t_filetable s)).

Lemma balance_moved g g' t k d off : t !! k = Some (Some d) -> g_refs g' = g_refs g -> g_opens g' = g_opens g -> balance g g' t (<[k := Some (set_offset d off)]> t).
Proof.
  intros Hd H1 H2. pose proof (fds_insert _ k _ (Some (set_offset d off)) Hd) as Hi. cbn [fd_vnode set_offset vnode] in Hi. apply (inj (.⊎ _)) in Hi. unfold balance. by rewrite H1, H2, Hi.
Qed.

(** The position of a descriptor. *)
Lemma fok_moved g g' (s : fstate W) k d off v' m' : fok g s -> vok g' v' -> g_refs g' = g_refs g -> g_opens g' = g_opens g ->
  (forall a b, kmem m' !! a = Some b -> byte b) -> badfaultfunc m' = false -> t_filetable s !! k = Some (Some d) -> 0 <= off < 2147483648 ->
  fok g' (mk_fst v' m' (<[k := Some (set_offset d off)]> (t_filetable s))).
Proof.
  intros Hk Hv H1 H2 Hb Hf Hd Hoff. apply (fok_step g _ s); try done.
  - by apply balance_moved.
  - rewrite length_insert. apply Hk.
  - intros j d' Hj. rewrite list_lookup_insert in Hj. case_decide as E; [|by apply (fk_fds _ _ Hk j)]. injection Hj as <-. destruct (fk_fds _ _ Hk _ _ Hd) as (? & ? & ?). done.
Qed.

Lemma user_change_same data size m m' m'' : same_user m m' -> user_change data size m' m'' -> user_change data size m m''.
Proof. intros [H1 H2] [H3 H4]. split; [intros a Ha Hn; rewrite H3 by done; by apply H1|]. intros a. by rewrite H4. Qed.

Lemma same_user_change data size m m' : same_user m m' -> user_change data size m m'.
Proof. intros [H1 H2]. split; [intros a Ha _; by apply H1|done]. Qed.

Lemma kuio_fits buf size off rw : zlen buf = size -> 0 <= size < 2147483648 -> 0 <= off -> off + size < 2147483648 -> let u := mk_kuio buf size off rw in
  fits u (uio_resid u) /\ uio_left u = buf /\ uio_buffer u = buf.
Proof.
  intros Hb Hs Ho Hos. unfold mk_kuio, fits, uio_buffer. cbn [uio_resid uio_left uio_offset uio_done]. rewrite take_ge by lia. cbn [app]. unfold u32_mod. split; [lia|done].
Qed.

Lemma read_fails g s x data size rv r m v : fok g s -> r <> 0 -> vok g v -> (exists w', v = set_world w' (vfs s)) -> (forall a b, kmem m !! a = Some b -> byte b) ->
  badfaultfunc m = false -> user_change data size (memory s) m -> read_post g s x data size rv (r, rv, mk_fst v m (t_filetable s)).
Proof. intros Hk Hr Hv Hw Hb Hf Hs. split; [by apply (fok_same g _ s)|]. split; [done|]. split; [done|]. split; [done|]. right. by right. Qed.

(** The transfer itself. *)
Lemma fd_read_run g (s : fstate W) k d buf size : fok g s -> t_filetable s !! k = Some (Some d) -> zlen buf = size -> Forall byte buf -> size < 2147483648 -> offset d + size < 2147483648 ->
  exists r u w' i, VOP_READ (vnode d) (mk_kuio buf size (offset d) UIO_READ) (world (vfs s)) = Ok (r, u, w') /\ vok g (set_world w' (vfs s)) /\ 0 <= uio_offset u < 2147483648 /\
    zlen (uio_buffer u) = size /\ Forall byte (uio_buffer u) /\ g_vn g !! vnode d = Some i /\
    (r = 0 -> vi_type i = S_IFREG -> forall bs, bytes_of (vi_fs i) (vi_id i) g = Some bs -> let n := Z.max 0 (Z.min size (zlen bs - offset d)) in
       uio_resid u = size - n /\ uio_offset u = offset d + n /\ forall j, 0 <= j < n -> uio_buffer u !! Z.to_nat j = bs !! Z.to_nat (offset d + j)).
Proof.
  intros Hk Hd Hl Hb Hs Hoff. destruct (fd_known g s _ d Hk Hd) as (_ & _ & _ & i & Hkn & Hi). destruct (fk_fds _ _ Hk _ _ Hd) as (_ & Hd0 & _).
  destruct (kuio_fits buf size (offset d) UIO_READ Hl) as (Hfit & Hleft & Hbufe); [lia|lia|lia|]. set (u := mk_kuio buf size (offset d) UIO_READ) in *.
  destruct (read_law _ _ (vnode d) i u (vk_owns _ _ (fk_vfs _ _ Hk)) Hkn) as (r & u' & w' & E & Ho & (St1 & St2 & St3 & St4) & Hreg); [done|done|by intros ?|done|].
  rewrite Hbufe in St1, St2. change (uio_offset u) with (offset d) in *. change (uio_resid u) with size in *. exists r, u', w', i. split; [done|].
  split; [apply (vok_step g); [apply Hk|done|done|done]|]. split; [lia|]. split; [by rewrite St1|]. split; [by apply St2|]. split; [done|]. intros -> Ht bs Hbs.
  destruct (Hreg Ht bs Hbs) as (n & -> & Hn & Hcase). destruct Hcase as [[_ En]|Hf]; [|by destruct Hf as [?%mishap_nonzero|[? _]]]. unfold readable in *. change (uio_resid u) with size in *. change (uio_offset u) with (offset d) in *.
  rewrite <- En. split; [done|]. split; [done|]. intros j Hj. unfold uio_buffer. cbn [moved uio_done uio_left]. change (uio_done u) with (@nil Z). cbn [app].
  rewrite lookup_app_l by (rewrite length_take, length_drop; lia). rewrite lookup_take_lt, lookup_drop by lia. f_equal. lia.
Qed.

(** A kernel buffer is filled. *)
Lemma kfill_run (m : kst) k bs : Uio.kernel_block (kmem m) k (zlen bs) -> Forall byte bs -> (forall a b, kmem m !! a = Some b -> byte b) ->
  exists m1, kstore ro m k bs = Ok m1 /\ badfaultfunc m1 = badfaultfunc m /\ Uio.kernel_block (kmem m1) k (zlen bs) /\ (forall a b, kmem m1 !! a = Some b -> byte b) /\ same_user m m1 /\
    forall j, 0 <= j < zlen bs -> kmem m1 !! (k + j) = bs !! Z.to_nat j.
Proof.
  intros Hab Hbs Hb. destruct (kstore_run ro m k bs Hab) as (m1 & -> & Hm1 & Hdom). eexists. split; [done|]. split; [done|]. destruct Hab as (Hk0 & Hk1 & Hab). split; [|split; [|split]].
  - split; [done|]. split; [done|]. intros a Ha. by apply Hdom, Hab.
  - intros a b. cbn [kmem]. rewrite Hm1. case_decide; [|apply Hb]. intros Ha. rewrite list.Forall_lookup in Hbs. by eapply Hbs.
  - split; [|done]. intros a Ha. cbn [kmem]. rewrite Hm1, decide_False; [done|]. unfold within. lia.
  - intros j Hj. cbn [kmem]. rewrite Hm1, decide_True by (unfold within; lia). f_equal. lia.
Qed.

Lemma sys_read_run g (s : fstate W) x data size al rv : fok g s -> x <> MAX_FD -> word data -> in_range s x size -> alloc_ok al size (memory s) ->
  exists y, sys_read ro x data size al rv s = Ok y /\ read_post g s x data size rv y.
Proof.
  intros Hk Hx Hw [Hsz Hoff] [_ Hab]. unfold sys_read. assert (exists w', vfs s = set_world w' (vfs s)) as Hw0 by (exists (world (vfs s)); by destruct s as [[] ? ?]).
  assert (forall r, r <> 0 -> read_post g s x data size rv (r, rv, s)) as Hfail.
  { intros r Hr0. replace s with (mk_fst (vfs s) (memory s) (t_filetable s)) at 2 by (by destruct s). by apply read_fails; try done; apply Hk. }
  destruct (Z.eqb_spec size 0) as [->|Hs0].
  { eexists. split; [done|]. split; [done|]. split; [done|]. split; [done|]. split; [done|]. by left. }
  destruct (check_run g s x Hk Hx) as (b & -> & Hb). rewrite Ok_bind. destruct b; [eexists; split; [done|by apply Hfail]|]. destruct Hb as (d & Hr & Hd & Hrd).
  destruct (fa_buf al) as [k|] eqn:Hbuf; [|eexists; split; [done|by apply Hfail]]. specialize (Hab k eq_refl). rewrite Hrd, Ok_bind.
  destruct ((Z.land (flags d) O_RDWR =? 0) && _) eqn:Hfl; [eexists; split; [done|by apply Hfail]|]. destruct (kload_run ro (memory s) k size) as (buf & -> & Hbl & Hbs); [lia|done|]. rewrite Ok_bind.
  assert (Forall byte buf) as Hbyte by (apply (lookup_bytes (kmem (memory s)) k); [apply Hk|by rewrite Hbl]).
  destruct (fd_read_run g s _ d buf size Hk Hd Hbl Hbyte) as (r & u & w' & i & -> & Hv & Huo & Hul & Hub & Hi & Hreg); [lia|by apply Hoff|]. rewrite Ok_bind.
  destruct (kfill_run (memory s) k (uio_buffer u)) as (m1 & -> & Hf1 & Hab1 & Hb1 & Hs1 & Hk1); [by rewrite Hul|done|apply Hk|]. rewrite Ok_bind. rewrite Hul in Hab1, Hk1. rewrite (fk_fault _ _ Hk) in Hf1.
  destruct (Z.eqb_spec r 0) as [->|Hr0]; cbn [negb].
  2: { eexists. split; [done|]. apply (read_fails g s); try done; [by eexists|by apply same_user_change]. }
  destruct (copyout_safe ro k data size m1) as (r & m2 & Hc & _ & Hout & Hok & _); [done|unfold word, u32_mod; lia|done|apply Hab1|apply Hab1|].
  pose proof (copyout_drawn _ _ _ _ _ _ _ Hc) as Hdr. cbn [kmem] in Hdr. pose proof (drawn_bytes _ _ Hdr Hb1) as Hb2.
  assert (user_change data size (memory s) (mk_kst m2 false)) as Hu2.
  { apply (user_change_same _ _ _ m1); [done|]. split; [|apply Hdr]. intros a _ Ha. apply Hout. by right. }
  change (memory (set_memory m1 (set_vfs (set_world w' (vfs s)) s))) with m1. rewrite Hc, Ok_bind. destruct (Z.eqb_spec r 0) as [->|Hr0]; cbn [negb].
  2: { eexists. split; [done|]. apply (read_fails g s); try done. by eexists. }
  destruct (Hok eq_refl) as (_ & Hus & Hbc). change (t_filetable (set_memory (mk_kst m2 false) (set_memory m1 (set_vfs (set_world w' (vfs s)) s)))) with (t_filetable s).
  pose proof (fk_length _ _ Hk) as Hlen. rewrite wr_in, Ok_bind by lia. eexists. split; [done|].
  split; [by apply (fok_moved g g s)|]. split; [by apply balance_moved|]. split; [done|]. split; [by eexists|]. right. left. split; [done|]. exists d, (uio_offset u), i. split; [done|].
  split; [unfold can_read; by rewrite Hfl|]. split; [done|]. intros Ht bs Hbs'. destruct (Hreg eq_refl Ht bs Hbs') as (Hres & -> & Hby). set (n := Z.max 0 _) in *.
  split; [rewrite Hres, (s32_id (size - n)), u32_id, s32_id by (unfold u32_mod; lia); lia|]. split; [done|]. intros j Hj. cbn [memory set_table set_memory set_vfs kmem].
  rewrite Hbc, decide_True by (unfold within; lia). replace (k + (data + j - data)) with (k + j) by lia. rewrite Hk1 by lia. by apply Hby.
Qed.

(** ** Writing *)

Definition may_write (flags : Z) : bool := negb ((Z.land flags O_RDWR =? 0) && (Z.land flags O_WRONLY =? 0)).

(** The bytes at [data]. *)
Definition ubytes (m : mem) (data : Z) (src : list Z) : Prop := forall j, 0 <= j < zlen src -> m !! (data + j) = src !! Z.to_nat j.

Definition write_post (g : ghost) (s : fstate W) (x data size rv : Z) (y : Z * Z * fstate W) : Prop :=
  let '(r, rv', s') := y in
  exists g', fok g' s' /\ balance g g' (t_filetable s) (t_filetable s') /\ same_user (memory s) (memory s') /\ (exists w', vfs s' = set_world w' (vfs s)) /\
  ((r = 0 /\ size = 0 /\ rv' = rv /\ s' = s /\ g' = g) \/
   (r = 0 /\ exists d off i, moves_fd s x d off s' /\ may_write (flags d) = true /\ g_vn g !! vnode d = Some i /\
      ((vi_type i <> S_IFREG /\ g' = g) \/
       (vi_type i = S_IFREG /\ rv' = size /\ off = offset d + size /\ exists bs bs' src, bytes_of (vi_fs i) (vi_id i) g = Some bs /\ zlen src = size /\ data + size <= USERTOP /\ ubytes (kmem (memory s)) data src /\
          g' = set_bytes (vi_fs i) (vi_id i) bs' g /\ (offset d <= zlen bs -> bs' = write_at (offset d) src bs)))) \/
   (r <> 0 /\ rv' = rv /\ t_filetable s' = t_filetable s /\ (g' = g \/ exists f id bs', g' = set_bytes f id bs' g))).

Lemma write_fails g g' s x data size rv r m v : fok g s -> r <> 0 -> vok g' v -> g' = g \/ (exists f id bs', g' = set_bytes f id bs' g) -> (exists w', v = set_world w' (vfs s)) ->
  (forall a b, kmem m !! a = Some b -> byte b) -> badfaultfunc m = false -> same_user (memory s) m -> write_post g s x data size rv (r, rv, mk_fst v m (t_filetable s)).
Proof.
  intros Hk Hr Hv Hg Hw Hb Hf Hs. assert (g_refs g' = g_refs g /\ g_opens g' = g_opens g) as [H1 H2] by (destruct Hg as [->|(? & ? & ? & ->)]; done).
  exists g'. split; [by apply (fok_same g _ s)|]. split; [unfold balance; by rewrite H1, H2|]. split; [done|]. split; [done|]. right. by right.
Qed.

(** The transfer itself. *)
Lemma fd_write_run g (s : fstate W) k d buf size : fok g s -> t_filetable s !! k = Some (Some d) -> (forall i, g_vn g !! vnode d = Some i -> vi_type i <> S_IFBLK) -> zlen buf = size -> Forall byte buf -> size < 2147483648 -> offset d + size < 2147483648 ->
  exists r u w' g' i, VOP_WRITE (vnode d) (mk_kuio buf size (offset d) UIO_WRITE) (world (vfs s)) = Ok (r, u, w') /\ vok g' (set_world w' (vfs s)) /\ 0 <= uio_offset u < 2147483648 /\
    g_vn g !! vnode d = Some i /\
    ((vi_type i <> S_IFREG /\ g' = g) \/
     (vi_type i = S_IFREG /\ exists bs bs', bytes_of (vi_fs i) (vi_id i) g = Some bs /\ g' = set_bytes (vi_fs i) (vi_id i) bs' g /\
        (r = 0 -> uio_resid u = 0 /\ uio_offset u = offset d + size /\ (offset d <= zlen bs -> bs' = write_at (offset d) buf bs)))).
Proof.
  intros Hk Hd Hblk Hl Hb Hs Hoff. destruct (fd_known g s _ d Hk Hd) as (_ & _ & _ & i & Hkn & Hi). destruct (fk_fds _ _ Hk _ _ Hd) as (_ & Hd0 & _).
  destruct (kuio_fits buf size (offset d) UIO_WRITE Hl) as (Hfit & Hleft & Hbufe); [lia|lia|lia|]. set (u := mk_kuio buf size (offset d) UIO_WRITE) in *.
  destruct (write_law _ _ (vnode d) i u (vk_owns _ _ (fk_vfs _ _ Hk)) Hkn) as (r & u' & w' & E & (St1 & St2 & St3 & St4) & Hcase); [by apply Hblk|done|done|unfold bytes_left; by rewrite Hleft|done|].
  change (uio_offset u) with (offset d) in *. change (uio_resid u) with size in *. destruct Hcase as [[Ht Ho]|(n & bs & bs' & Ht & Hbs & Ho & Hu & Hn & Hcase & Hw)].
  - exists r, u', w', g, i. split; [done|]. split; [apply (vok_step g); [apply Hk|done|done|done]|]. split; [lia|]. split; [done|]. by left.
  - exists r, u', w', (set_bytes (vi_fs i) (vi_id i) bs' g), i. split; [done|]. split; [apply vok_set_fs; [apply Hk|done]|]. split; [lia|]. split; [done|]. right. split; [done|].
    exists bs, bs'. split; [done|]. split; [done|]. intros ->. destruct Hcase as [[_ ->]|Hf]; [|by destruct Hf as [?%mishap_nonzero|?%no_space_nonzero]]. rewrite Hu. cbn [moved uio_resid uio_offset].
    change (uio_resid u) with size. change (uio_offset u) with (offset d). split; [lia|]. split; [done|]. intros Hle. rewrite Hw by done. rewrite Hleft, take_ge by lia. done.
Qed.

(** The descriptor is not one of a raw disk. *)
Definition not_raw (g : ghost) (s : fstate W) (x : Z) : Prop :=
  forall d i, t_filetable s !! Z.to_nat x = Some (Some d) -> g_vn g !! vnode d = Some i -> vi_type i <> S_IFBLK.

Lemma sys_write_run g (s : fstate W) x data size al rv : fok g s -> x <> MAX_FD -> not_raw g s x -> word data -> in_range s x size -> alloc_ok al size (memory s) ->
  exists y, sys_write ro x data size al rv s = Ok y /\ write_post g s x data size rv y.
Proof.
  intros Hk Hx Hraw Hw [Hsz Hoff] [_ Hab]. unfold sys_write. assert (exists w', vfs s = set_world w' (vfs s)) as Hw0 by (exists (world (vfs s)); by destruct s as [[] ? ?]).
  assert (forall r, r <> 0 -> write_post g s x data size rv (r, rv, s)) as Hfail.
  { intros r Hr0. replace s with (mk_fst (vfs s) (memory s) (t_filetable s)) at 2 by (by destruct s). apply (write_fails g g); try done; [apply Hk|by left|apply Hk|apply Hk]. }
  destruct (Z.eqb_spec size 0) as [->|Hs0].
  { eexists. split; [done|]. exists g. split; [done|]. split; [done|]. split; [done|]. split; [done|]. by left. }
  destruct (check_run g s x Hk Hx) as (b & -> & Hb). rewrite Ok_bind. destruct b; [eexists; split; [done|by apply Hfail]|]. destruct Hb as (d & Hr & Hd & Hrd).
  destruct (_ || _) eqn:Hnull; [eexists; split; [done|by apply Hfail]|]. destruct (fa_buf al) as [k|] eqn:Hbuf; [|eexists; split; [done|by apply Hfail]]. specialize (Hab k eq_refl).
  destruct (copyin_safe ro data k size (memory s)) as (r & m1 & Hc & _ & Hout & Hok & _); [done|unfold word, u32_mod; lia|apply Hk|apply Hab|apply Hab|].
  pose proof (copyin_drawn _ _ _ _ _ _ _ Hc) as Hdr. cbn [kmem] in Hdr. pose proof (drawn_bytes _ _ Hdr (fk_bytes _ _ Hk)) as Hb1.
  assert (same_user (memory s) (mk_kst m1 false)) as Hs1.
  { split; [|apply Hdr]. intros a Ha. apply Hout. unfold within. destruct Hab. lia. }
  rewrite Hc, Ok_bind. destruct (Z.eqb_spec r 0) as [->|Hr0]; cbn [negb].
  2: { eexists. split; [done|]. apply (write_fails g g s); try done; [apply Hk|by left]. }
  change (t_filetable (set_memory (mk_kst m1 false) s)) with (t_filetable s). change (memory (set_memory (mk_kst m1 false) s)) with (mk_kst m1 false). rewrite Hrd, Ok_bind.
  destruct (_ && _) eqn:Hfl; [eexists; split; [done|apply (write_fails g g s); try done; [apply Hk|by left]]|].
  destruct (kload_run ro (mk_kst m1 false) k size) as (buf & -> & Hbl & Hbs); [lia|by apply (drawn_block (kmem (memory s)))|]. rewrite Ok_bind.
  destruct (Hok eq_refl) as (_ & Hus & Hbc & _). assert (ubytes (kmem (memory s)) data buf) as Hub.
  { intros j Hj. rewrite Hbl in Hj. rewrite <- Hbs by done. cbn [kmem]. rewrite Hbc, decide_True by (unfold within; lia). f_equal. lia. }
  assert (Forall byte buf) as Hbyte by (apply (lookup_bytes m1 k); [done|by rewrite Hbl]).
  destruct (fd_write_run g s _ d buf size Hk Hd (fun i => Hraw d i Hd) Hbl Hbyte) as (r & u & w' & g' & i & E & Hv & Hu & Hi & Hcase); [lia|by apply Hoff|].
  change (vfs (set_memory (mk_kst m1 false) s)) with (vfs s). rewrite E, Ok_bind. assert (g' = g \/ exists f id bs', g' = set_bytes f id bs' g) as Hg.
  { destruct Hcase as [[_ ->]|(_ & bs & bs' & _ & -> & _)]; [by left|right]. by eexists _, _, _. }
  destruct (Z.eqb_spec r 0) as [->|Hr0]; cbn [negb]; [|eexists; split; [done|]; apply (write_fails g g' s); try done; by eexists].
  pose proof (fk_length _ _ Hk) as Hlen. cbn [t_filetable set_vfs set_memory]. rewrite wr_in, Ok_bind by lia. eexists. split; [done|].
  assert (g_refs g' = g_refs g /\ g_opens g' = g_opens g) as [H1 H2] by (destruct Hg as [->|(? & ? & ? & ->)]; done).
  exists g'. split; [by apply (fok_moved g g' s)|]. split; [by apply balance_moved|]. split; [done|]. split; [by eexists|]. right. left. split; [done|]. exists d, (uio_offset u), i. split; [done|].
  split; [unfold may_write; by rewrite Hfl|]. split; [done|]. destruct Hcase as [?|(Ht & bs & bs' & Hbs' & -> & Hok')]; [by left|right].
  destruct (Hok' eq_refl) as (-> & -> & Hwr). split; [done|]. split; [rewrite (s32_id 0), u32_id, s32_id by (unfold u32_mod; lia); lia|]. split; [done|]. by exists bs, bs', buf.
Qed.

(** ** A process is well typed *)

Inductive fcall : Type :=
  | Copen (path flag : Z) (al : fd_alloc)
  | Cclose (x : Z)
  | Cread (x data size : Z) (al : fd_alloc)
  | Cwrite (x data size : Z) (al : fd_alloc).

Definition run_fcall (c : fcall) (rv : Z) : fstate W -> outcome (Z * Z * fstate W) :=
  match c with
  | Copen path flag al => sys_open ro junk path flag al rv
  | Cclose x => sys_close x rv
  | Cread x data size al => sys_read ro x data size al rv
  | Cwrite x data size al => sys_write ro x data size al rv
  end.

(** The arguments are registers, [kstrdup] has memory, a buffer that the allocator
    gives is one, descriptor 10, which the check lets through, is not used, the
    transfer stays below 2^31, and nobody writes to the disk behind the file
    system. *)
Definition legal (g : ghost) (s : fstate W) (c : fcall) : Prop :=
  match c with
  | Copen path _ al => word path /\ alloc_ok al NAME_MAX (memory s)
  | Cclose x => x <> MAX_FD
  | Cread x data size al => x <> MAX_FD /\ word data /\ in_range s x size /\ alloc_ok al size (memory s)
  | Cwrite x data size al => x <> MAX_FD /\ not_raw g s x /\ word data /\ in_range s x size /\ alloc_ok al size (memory s)
  end.

(** [g] is what the rest of the system owns; the descriptors own theirs on top. *)
Definition with_fds (t : list (option fd)) (g : ghost) : ghost := mk_ghost (g_refs g ⊎ fds t) (g_opens g ⊎ fds t) (g_fs g) (g_vn g).

Definition proc_ok (g : ghost) (s : fstate W) : Prop := fok (with_fds (t_filetable s) g) s /\ roomy 13 (total g (vfs s)).

Lemma fds_size t : forall x, (multiplicity x (fds t) <= length t)%nat.
Proof.
  induction t as [|e t IH]; intros x; cbn [fds length]; [by rewrite multiplicity_empty|]. rewrite multiplicity_disj_union. specialize (IH x).
  destruct e as [d|]; cbn [fd_vnode]; [rewrite multiplicity_singleton; case_decide; lia|rewrite multiplicity_empty; lia].
Qed.

Lemma proc_roomy g s : proc_ok g s -> roomy 3 (total (with_fds (t_filetable s) g) (vfs s)).
Proof.
  intros [Hk Hr] x. pose proof (fk_length _ _ Hk) as Hl. pose proof (fds_size (t_filetable s) x) as Hf. specialize (Hr x). unfold count in *. cbn in *. rewrite !multiplicity_disj_union in *. unfold MAX_FD in Hl. lia.
Qed.

Lemma proc_step g s G' s' : proc_ok g s -> fok G' s' -> balance (with_fds (t_filetable s) g) G' (t_filetable s) (t_filetable s') -> (exists w', vfs s' = set_world w' (vfs s)) ->
  let g' := mk_ghost (g_refs g) (g_opens g) (g_fs G') (g_vn G') in proc_ok g' s' /\ G' = with_fds (t_filetable s') g'.
Proof.
  intros [Hk Hr] Hk' [B1 B2] [w' Hw] g'. assert (G' = with_fds (t_filetable s') g') as HG.
  { destruct G' as [R O F V]. unfold with_fds, g'. cbn in *. f_equal.
    - apply (inj (.⊎ fds (t_filetable s))). rewrite B1. by rewrite <- !(assoc_L (⊎)), (comm_L (⊎) (fds (t_filetable s))).
    - apply (inj (.⊎ fds (t_filetable s))). rewrite B2. by rewrite <- !(assoc_L (⊎)), (comm_L (⊎) (fds (t_filetable s))). }
  split; [|done]. split; [by rewrite <- HG|]. intros x. specialize (Hr x). rewrite Hw. exact Hr.
Qed.

Lemma file_call_returns g s c rv : proc_ok g s -> legal g s c ->
  exists r rv' s' g', run_fcall c rv s = Ok (r, rv', s') /\ proc_ok g' s' /\ g_refs g' = g_refs g /\ g_opens g' = g_opens g /\ (r <> 0 -> t_filetable s' = t_filetable s).
Proof.
  intros Hp Hc. pose proof (proc_roomy g s Hp) as Hr. pose proof (proj1 Hp) as Hk.
  assert (exists r rv' s' G', run_fcall c rv s = Ok (r, rv', s') /\ fok G' s' /\ balance (with_fds (t_filetable s) g) G' (t_filetable s) (t_filetable s') /\
    (exists w', vfs s' = set_world w' (vfs s)) /\ (r <> 0 -> t_filetable s' = t_filetable s)) as (r & rv' & s' & G' & E & Hk' & Hb & Hw & Hr0).
  2: { exists r, rv', s', (mk_ghost (g_refs g) (g_opens g) (g_fs G') (g_vn G')). split; [done|]. split; [by apply (proc_step g s G' s')|]. done. }
  destruct c as [path flag al|x|x data size al|x data size al]; cbn [run_fcall legal] in *.
  - destruct (sys_open_run _ s path flag al rv Hk Hr) as ([[r rv'] s'] & E & G' & Hk' & Hb & _ & Hw & Hcase); [apply Hc|apply Hc|]. exists r, rv', s', G'. split_and!; try done.
    intros Hr0. destruct Hcase as [[? _]|(_ & _ & ? & _)]; done.
  - destruct (sys_close_run _ s x rv Hk Hc) as ([[r rv'] s'] & E & G' & Hk' & Hb & _ & Hw & Hcase). exists r, rv', s', G'. split_and!; try done.
    intros Hr0. destruct Hcase as [[? _]|(_ & _ & -> & _)]; done.
  - destruct Hc as (Hx & Hd & Hi & Ha). destruct (sys_read_run _ s x data size al rv Hk Hx Hd Hi Ha) as ([[r rv'] s'] & E & Hk' & Hb & _ & Hw & Hcase). eexists _, _, _, _. split_and!; try done.
    intros Hr0. destruct Hcase as [[? _]|[[? _]|(_ & _ & ?)]]; done.
  - destruct Hc as (Hx & Hraw & Hd & Hi & Ha). destruct (sys_write_run _ s x data size al rv Hk Hx Hraw Hd Hi Ha) as ([[r rv'] s'] & E & G' & Hk' & Hb & _ & Hw & Hcase). exists r, rv', s', G'. split_and!; try done.
    intros Hr0. destruct Hcase as [[? _]|[[? _]|(_ & _ & ? & _)]]; done.
Qed.

(** C8. File calls are safe.  In a process whose descriptors own what they point to,
    a legal call of open, close, read or write comes back, whatever below fails, and
    the process is then as well formed as before: the table has its ten entries,
    every open descriptor has a vnode with a reference and an open of its own, and
    nothing else was gained or lost.  A call is legal if it is not for descriptor
    10, for which the code reads past the end of the table; if [kstrdup], whose
    failure the code does not notice, has memory; if the size of a transfer and the
    offset after it are below 2^31, since the code adds them as signed numbers; and
    if a write does not go to the raw device under a mounted file system. *)
Theorem file_call_typed g s c rv : proc_ok g s -> legal g s c ->
  exists r rv' s' g', run_fcall c rv s = Ok (r, rv', s') /\ proc_ok g' s' /\ g_refs g' = g_refs g /\ g_opens g' = g_opens g /\ (r <> 0 -> t_filetable s' = t_filetable s).
Proof. apply file_call_returns. Qed.

(** ** From one descriptor to another *)

Lemma ustring_inj m a p q : ustring m a p -> ustring m a q -> p = q.
Proof.
  intros [Sp Hp] [Sq Hq]. assert (forall p q, str p -> str q -> (forall j, 0 <= j <= zlen p -> m !! (a + j) = (p ++ [0]) !! Z.to_nat j) ->
    (forall j, 0 <= j <= zlen q -> m !! (a + j) = (q ++ [0]) !! Z.to_nat j) -> (length p <= length q)%nat) as Hle.
  { clear. intros p q Sp Sq Hp Hq. destruct (decide (length p <= length q)%nat) as [|Hn]; [done|]. exfalso. specialize (Hq (zlen q) ltac:(lia)). rewrite (Hp (zlen q)) in Hq by lia.
    rewrite lookup_app_l, lookup_app_r in Hq by lia. replace (Z.to_nat (zlen q) - length q)%nat with 0%nat in Hq by lia. pose proof (list.Forall_lookup_1 _ _ _ _ Sp Hq) as H. cbn in H. lia. }
  pose proof (Hle p q Sp Sq Hp Hq). pose proof (Hle q p Sq Sp Hq Hp). apply list_eq_same_length with (length p); [lia|lia|]. intros j x y Hj Hx Hy.
  specialize (Hp (Z.of_nat j) ltac:(lia)). specialize (Hq (Z.of_nat j) ltac:(lia)). rewrite Nat2Z.id in Hp, Hq. rewrite lookup_app_l in Hp, Hq by lia. congruence.
Qed.

Lemma resolves_fs g (v : vst W) p f n : vok g v -> resolves g v p f n -> is_Some (g_fs g !! f).
Proof.
  intros Hk [Ho _]. assert (forall x, is_dir g x -> (x <> 0 -> x ∈ table_refs v) -> dir_of g x = Dir f -> is_Some (g_fs g !! f)) as Hdir.
  { intros x Hd Hx Hdo. unfold dir_of in Hdo. destruct (Z.eqb_spec x 0) as [|Hne]; [done|]. destruct (Hd Hne) as (i & Hi & Ht). rewrite Hi in Hdo. injection Hdo as <-.
    apply (owns_dir _ _ x i (vk_owns _ _ Hk)); [|done]. split; [by apply total_table, Hx|done]. }
  destruct (parse p).1 as [| | |d]; cbn [origin_of] in Ho.
  - apply (Hdir (t_cwd v)); [apply Hk|apply cwd_ref|done].
  - apply (Hdir (bootfs_vnode v)); [apply Hk|apply boot_ref|done].
  - apply (Hdir (t_cwd v)); [apply Hk|apply cwd_ref|done].
  - pose proof (vk_devs _ _ Hk) as Hdev. induction (knowndevs v) as [|kd l IH]; cbn [find_target] in Ho; [done|]. apply list.Forall_cons in Hdev as [Hkd Hl].
    destruct (_ && _) eqn:E; [injection Ho as Ho; subst f; apply (do_fs _ _ Hkd); apply andb_true_iff in E as [E _]; by destruct (Z.eqb_spec (kd_fs kd) 0)|clear E]. destruct (bool_decide _); [by destruct (kd_rawname kd)|]. destruct (bool_decide _); [done|]. by apply IH.
Qed.

Lemma resolves_step g g' (v : vst W) w' p f n : vok g v -> (forall x, x ∈ table_refs v -> g_vn g' !! x = g_vn g !! x) -> (forall x, volname_of x g' = volname_of x g) ->
  resolves g v p f n -> resolves g' (set_world w' v) p f n.
Proof.
  intros Hk Hvn Hvol [Ho Hn]. split; [|done]. rewrite <- Ho. assert (forall x, (x <> 0 -> x ∈ table_refs v) -> dir_of g' x = dir_of g x) as Hdir.
  { intros x Hx. unfold dir_of. destruct (Z.eqb_spec x 0); [done|]. by rewrite Hvn by (by apply Hx). }
  destruct (parse p).1; cbn [origin_of]; [apply Hdir, cwd_ref|apply Hdir, boot_ref|apply Hdir, cwd_ref|]. change (knowndevs (set_world w' v)) with (knowndevs v). by rewrite (find_target_ext g g') by done.
Qed.

(** The volumes keep their names, and the vnodes in the tables stay what they
    are. *)
Definition steady (v : vst W) (g g' : ghost) : Prop :=
  (forall x, x ∈ table_refs v -> g_vn g' !! x = g_vn g !! x) /\ forall x, volname_of x g' = volname_of x g.

Definition file_at (g : ghost) (f : Z) (n : list Z) (id : Z) (bs : list Z) : Prop := names_of f g !! n = Some id /\ bytes_of f id g = Some bs.

Lemma volname_set_fs f a x g : (forall y, af_volname (a y) = af_volname y) -> volname_of x (Vnode.set_fs f a g) = volname_of x g.
Proof. intros Ha. unfold volname_of, Vnode.set_fs. cbn. destruct (decide (f = x)) as [->|]; [rewrite lookup_alter_eq|by rewrite lookup_alter_ne]. destruct (g_fs g !! x); cbn; [by rewrite Ha|done]. Qed.

Lemma alter_fs f a g x : g_fs (Vnode.set_fs f a g) !! x = if decide (x = f) then a <$> g_fs g !! x else g_fs g !! x.
Proof. cbn. case_decide as E; [subst; by rewrite lookup_alter_eq|by rewrite lookup_alter_ne]. Qed.

Lemma file_at_set_bytes g f n id bs bs' : file_at g f n id bs -> file_at (set_bytes f id bs' g) f n id bs'.
Proof.
  unfold file_at, names_of, bytes_of, set_bytes. rewrite alter_fs, decide_True by done. destruct (g_fs g !! f); cbn; [|by intros [? ?]]. intros [? _]. by rewrite lookup_insert_eq.
Qed.

Lemma file_at_made g f n id : is_Some (g_fs g !! f) -> file_at (set_names f (<[n := id]> (names_of f g)) (set_bytes f id [] g)) f n id [].
Proof.
  intros [a Ha]. unfold file_at, names_of, bytes_of, set_names, set_bytes. rewrite !alter_fs, !decide_True, Ha by done. cbn. by rewrite !lookup_insert_eq.
Qed.

Lemma file_at_inj g f n id bs id' bs' : file_at g f n id bs -> file_at g f n id' bs' -> id = id' /\ bs = bs'.
Proof. intros [H1 H2] [H3 H4]. assert (id = id') as -> by congruence. split; congruence. Qed.

(** A successful open of a file by name. *)
Lemma made_file g (v : vst W) p f n fname flag d g' v' : vok g v -> resolves g v p f n -> n <> [] -> made g v p fname flag d g' v' ->
  exists id bs, steady v g g' /\ file_at g' f n id bs /\ g_vn g' !! vnode d = Some (mk_vi f id S_IFREG) /\ offset d = 0 /\ flags d = u32 flag /\
    g_refs g' = g_refs g ⊎ {[+ vnode d +]} /\ g_opens g' = g_opens g ⊎ {[+ vnode d +]} /\
    (Vfs.flag flag O_TRUNC && can_write flag = true -> bs = []) /\ (forall id' bs', file_at g f n id' bs' -> id' = id /\ (Vfs.flag flag O_TRUNC && can_write flag = false -> bs = bs')).
Proof.
  intros Hk Hres Hne (i & g2 & _ & Ho & Hd & Hfit & ->). destruct Ho as [(_ & Hp & _)|(Ht & n' & g1 & Hres' & _ & Hc & Htr)]; [by destruct Hres as [_ Hn]; congruence|].
  destruct Hres as [Hor Hn], Hres' as [Hor' Hn']. assert (n' = n /\ vi_fs i = f) as [-> Hf] by (split; congruence). rewrite Hf in *. pose proof (resolves_fs g v p f n Hk (conj Hor Hn)) as Hfs.
  assert (exists bs1, file_at g1 f n (vi_id i) bs1 /\ (forall x, volname_of x g1 = volname_of x g) /\ forall id' bs', file_at g f n id' bs' -> id' = vi_id i /\ bs' = bs1) as (bs1 & Hat & Hvol & Hold).
  { unfold create_effect in Hc. destruct (names_of f g !! n) as [id'|] eqn:En.
    - destruct Hc as (-> & -> & _). destruct (owns_named _ _ f n id' (vk_owns _ _ Hk) En) as [bs Hbs]. exists bs. assert (file_at g f n id' bs) as Hat by done. split; [done|]. split; [done|].
      intros id bs' H. apply (file_at_inj _ _ _ _ _ _ _ H Hat).
    - destruct Hc as (_ & _ & ->). exists []. split; [by apply file_at_made|]. split; [intros x; unfold set_names, set_bytes; by rewrite !volname_set_fs|]. intros id bs' [? _]. congruence. }
  destruct (create_effect_same _ _ _ _ _ _ _ Hc) as (H1 & H2 & H3). unfold trunc_effect in Htr.
  set (t := Vfs.flag flag O_TRUNC && can_write flag) in *. exists (vi_id i), (if t then [] else bs1).
  assert (file_at g2 f n (vi_id i) (if t then [] else bs1) /\ (forall x, volname_of x g2 = volname_of x g) /\ g_refs g2 = g_refs g /\ g_opens g2 = g_opens g /\ g_vn g2 = g_vn g) as (Hat2 & Hvol2 & H4 & H5 & H6).
  { destruct t; [|by subst g2]. destruct Htr as (bs & -> & Hbs). rewrite (Hbs eq_refl). split; [by eapply file_at_set_bytes|]. split; [|done]. intros x. unfold set_bytes. rewrite volname_set_fs by done. apply Hvol. }
  split; [split; [|done]|]. { intros x Hx. cbn. rewrite H6. apply (insert_known v); [done|by apply total_table]. }
  split; [done|]. split; [cbn; rewrite lookup_insert_eq; destruct i; cbn in *; congruence|]. rewrite Hd. cbn [offset flags vnode]. split; [done|]. split; [done|]. cbn. rewrite H4, H5.
  split; [done|]. split; [done|]. split; [by intros ->|]. intros id' bs' Hat'. destruct (Hold id' bs' Hat') as [-> ->]. split; [done|]. by intros ->.
Qed.

Lemma steady_trans (v : vst W) g1 g2 g3 : steady v g1 g2 -> steady v g2 g3 -> steady v g1 g3.
Proof. intros [H1 H2] [H3 H4]. split; [intros x Hx; by rewrite H3, H1|]. intros x. by rewrite H4, H2. Qed.

Lemma alloc_ok_same al n m m' : (forall a, is_Some (kmem m' !! a) <-> is_Some (kmem m !! a)) -> alloc_ok al n m -> alloc_ok al n m'.
Proof. intros Hd [Hn Hb]. split; [done|]. intros k Hk. destruct (Hb k Hk) as (? & ? & H). split; [done|]. split; [done|]. intros a Ha. by apply Hd, H. Qed.

Lemma ustring_same m m' a p : same_user m m' -> a + zlen p < USERTOP -> ustring (kmem m) a p -> ustring (kmem m') a p.
Proof. intros [Hs _] Ha [Hp Hl]. split; [done|]. intros j Hj. rewrite Hs by lia. by apply Hl. Qed.

Lemma same_user_trans m1 m2 m3 : same_user m1 m2 -> same_user m2 m3 -> same_user m1 m3.
Proof. intros [H1 H2] [H3 H4]. split; [intros a Ha; by rewrite H3, H1|]. intros a. by rewrite H4, H2. Qed.

(** The first half: what is written to a new descriptor is in the file. *)
Lemma written g s path p f n fl al1 x rv s1 src len al2 k s2 : fok g s -> roomy 3 (total g (vfs s)) -> word path -> ustring (kmem (memory s)) path p -> resolves g (vfs s) p f n -> n <> [] ->
  Vfs.flag fl O_TRUNC && can_write fl = true -> word src -> 0 < len < 2147483648 -> alloc_ok al1 NAME_MAX (memory s) -> alloc_ok al2 len (memory s) ->
  sys_open ro junk path fl al1 rv s = Ok (0, x, s1) -> sys_write ro x src len al2 rv s1 = Ok (0, k, s2) ->
  exists g2 id buf d, fok g2 s2 /\ same_user (memory s) (memory s2) /\ (exists w', vfs s2 = set_world w' (vfs s)) /\ steady (vfs s) g g2 /\ file_at g2 f n id buf /\ k = len /\
    zlen buf = len /\ ubytes (kmem (memory s)) src buf /\ 3 <= x < MAX_FD /\ t_filetable s2 !! Z.to_nat x = Some (Some d) /\ g_refs g2 = g_refs g ⊎ {[+ vnode d +]} /\ g_opens g2 = g_opens g ⊎ {[+ vnode d +]}.
Proof.
  intros Hk Hr Hwp Hus Hres Hne Htr Hws Hlen Ha1 Ha2 E1 E2.
  destruct (sys_open_run g s path fl al1 rv Hk Hr Hwp Ha1) as (y & E & Hy). rewrite E1 in E. injection E as <-. destruct Hy as (g1 & Hk1 & Hb1 & Hs1 & [w1 Hv1] & Hcase).
  destruct Hcase as [(_ & Hx & Hnone & _ & p' & d & fname & Hus' & Hm & Ht1)|[? _]]; [|done]. rewrite (ustring_inj _ _ _ _ Hus' Hus) in Hm.
  destruct (made_file g (vfs s) p f n fname fl d g1 (vfs s1) (fk_vfs _ _ Hk) Hres Hne Hm) as (id & bs & Hst1 & Hat1 & Hvn & Hoff & _ & HR & HO & Hbs & _). rewrite (Hbs Htr) in Hat1.
  assert (t_filetable s1 !! Z.to_nat x = Some (Some d)) as Hd1 by (rewrite Ht1; apply list_lookup_insert_eq; by apply lookup_lt_Some in Hnone).
  destruct (sys_write_run g1 s1 x src len al2 rv Hk1) as (y & E & Hy); [unfold MAX_FD in *; lia|intros d' i' Hd' Hi'; assert (d' = d) as -> by congruence; rewrite Hvn in Hi'; by injection Hi' as <-|done| |by apply (alloc_ok_same _ _ (memory s)); [apply Hs1|]|].
  { split; [lia|]. intros d' Hd'. assert (d' = d) as -> by congruence. lia. }
  rewrite E2 in E. injection E as <-. destruct Hy as (g2 & Hk2 & Hb2 & Hs2 & [w2 Hv2] & Hcase). destruct Hcase as [(_ & ? & _)|[(_ & d' & off & i & [Hd' Ht2] & _ & Hi & Hcase)|[? _]]]; [lia| |done].
  assert (d' = d) as -> by congruence. assert (i = mk_vi f id S_IFREG) as -> by congruence. destruct Hcase as [[? _]|(_ & -> & _ & bs0 & bs' & buf & Hbs0 & Hbl & Hus0 & Hub & -> & Hwr)]; [done|].
  cbn [vi_fs vi_id] in *. destruct Hat1 as [Hn1 Hb1']. assert (bs0 = []) as -> by congruence. rewrite Hoff in Hwr. specialize (Hwr ltac:(cbn; lia)).
  exists (set_bytes f id bs' g1), id, buf, (set_offset d off). split; [done|]. split; [by eapply same_user_trans|]. split; [exists w2; by rewrite Hv2, Hv1|].
  split; [eapply steady_trans; [done|]; split; [done|]; intros z; by apply volname_set_fs|].
  split; [replace buf with bs'; [by apply (file_at_set_bytes g1 f n id [])|]; rewrite Hwr; unfold write_at; rewrite drop_nil, take_nil; apply app_nil_r|].
  split; [done|]. split; [done|]. split; [intros j Hj; rewrite <- (proj1 Hs1) by lia; by apply Hub|]. split; [done|].
  split; [rewrite Ht2; apply list_lookup_insert_eq; by apply lookup_lt_Some in Hd1|]. done.
Qed.

(** The second half: a file is read from its start. *)
Lemma read_back g s path p f n id bs fl al1 x rv s1 dst len al2 k s2 : fok g s -> roomy 3 (total g (vfs s)) -> word path -> ustring (kmem (memory s)) path p -> resolves g (vfs s) p f n -> n <> [] ->
  Vfs.flag fl O_TRUNC && can_write fl = false -> file_at g f n id bs -> word dst -> 0 < len < 2147483648 -> alloc_ok al1 NAME_MAX (memory s) -> alloc_ok al2 len (memory s) ->
  sys_open ro junk path fl al1 rv s = Ok (0, x, s1) -> sys_read ro x dst len al2 rv s1 = Ok (0, k, s2) ->
  k = Z.min len (zlen bs) /\ forall j, 0 <= j < k -> kmem (memory s2) !! (dst + j) = bs !! Z.to_nat j.
Proof.
  intros Hk Hr Hwp Hus Hres Hne Htr Hat Hwd Hlen Ha1 Ha2 E1 E2.
  destruct (sys_open_run g s path fl al1 rv Hk Hr Hwp Ha1) as (y & E & Hy). rewrite E1 in E. injection E as <-. destruct Hy as (g1 & Hk1 & Hb1 & Hs1 & _ & Hcase).
  destruct Hcase as [(_ & Hx & Hnone & _ & p' & d & fname & Hus' & Hm & Ht1)|[? _]]; [|done]. rewrite (ustring_inj _ _ _ _ Hus' Hus) in Hm.
  destruct (made_file g (vfs s) p f n fname fl d g1 (vfs s1) (fk_vfs _ _ Hk) Hres Hne Hm) as (id' & bs' & _ & Hat1 & Hvn & Hoff & _ & _ & _ & _ & Hold).
  destruct (Hold id bs Hat) as [<- Hbs]. rewrite (Hbs Htr) in Hat1.
  assert (t_filetable s1 !! Z.to_nat x = Some (Some d)) as Hd1 by (rewrite Ht1; apply list_lookup_insert_eq; by apply lookup_lt_Some in Hnone).
  destruct (sys_read_run g1 s1 x dst len al2 rv Hk1) as (y & E & Hy); [unfold MAX_FD in *; lia|done| |by apply (alloc_ok_same _ _ (memory s)); [apply Hs1|]|].
  { split; [lia|]. intros d' Hd'. assert (d' = d) as -> by congruence. lia. }
  rewrite E2 in E. injection E as <-. destruct Hy as (_ & _ & _ & _ & Hcase). destruct Hcase as [(_ & ? & _)|[(_ & d' & off & i & [Hd' _] & _ & Hi & Hcase)|[? _]]]; [lia| |done].
  assert (d' = d) as -> by congruence. assert (i = mk_vi f id S_IFREG) as -> by congruence. destruct (Hcase eq_refl bs (proj2 Hat1)) as (-> & _ & Hby). rewrite Hoff in *. cbn [Z.add] in Hby.
  split; [lia|]. intros j Hj. by apply Hby.
Qed.

(** C4. Files keep what is written to them.  A process opens a path for writing,
    creating or emptying the file that the path leads to, writes a buffer and
    closes the descriptor; when it opens the path again and reads, it gets its
    bytes back, as many as it asked for and wrote.  This is for every kind of
    path (relative to the current directory, to the boot file system, or with a
    device or volume name), and for everything below that keeps the promises of
    vnodes. *)
Theorem file_round_trip g s path p f n al1 x rv s1 src len al2 k s2 s3 rv3 al3 x' s4 dst size al4 k' s5 :
  fok g s -> roomy 3 (total g (vfs s)) -> word path -> ustring (kmem (memory s)) path p -> path + zlen p < USERTOP -> resolves g (vfs s) p f n -> n <> [] ->
  word src -> 0 < len < 2147483648 -> word dst -> 0 < size < 2147483648 ->
  alloc_ok al1 NAME_MAX (memory s) -> alloc_ok al2 len (memory s) -> alloc_ok al3 NAME_MAX (memory s) -> alloc_ok al4 size (memory s) ->
  sys_open ro junk path (O_WRONLY + O_CREAT + O_TRUNC) al1 rv s = Ok (0, x, s1) -> sys_write ro x src len al2 rv s1 = Ok (0, k, s2) -> sys_close x rv s2 = Ok (0, rv3, s3) ->
  sys_open ro junk path O_RDONLY al3 rv s3 = Ok (0, x', s4) -> sys_read ro x' dst size al4 rv s4 = Ok (0, k', s5) ->
  k = len /\ k' = Z.min size len /\ forall j, 0 <= j < k' -> kmem (memory s5) !! (dst + j) = kmem (memory s) !! (src + j).
Proof.
  intros Hk Hr Hwp Hus Hup Hres Hne Hws Hlen Hwd Hsize Ha1 Ha2 Ha3 Ha4 E1 E2 E3 E4 E5.
  destruct (written g s path p f n (O_WRONLY + O_CREAT + O_TRUNC) al1 x rv s1 src len al2 k s2 Hk Hr Hwp Hus Hres Hne eq_refl Hws Hlen Ha1 Ha2 E1 E2)
    as (g2 & id & buf & d & Hk2 & Hs2 & [w2 Hv2] & Hst & Hat & -> & Hbl & Hub & Hx & Hd & HR & HO). split; [done|].
  destruct (sys_close_run g2 s2 x rv Hk2) as (y & E & Hy); [unfold MAX_FD in *; lia|]. rewrite E3 in E. injection E as <-. destruct Hy as (g3 & Hk3 & _ & Hm3 & [w3 Hv3] & Hcase).
  destruct Hcase as [(_ & _ & d' & Hd' & _ & ->)|[? _]]; [|done]. assert (d' = d) as -> by congruence. rewrite Hv2 in Hv3.
  destruct (read_back (drop_ref (vnode d) (drop_open (vnode d) g2)) s3 path p f n id buf O_RDONLY al3 x' rv s4 dst size al4 k' s5) as [-> Hby]; try done.
  - intros v. specialize (Hr v). rewrite Hv3. unfold count in *. cbn in *. rewrite HR. rewrite !multiplicity_disj_union, multiplicity_difference, multiplicity_disj_union in *. change (table_refs (set_world w3 (set_world w2 (vfs s)))) with (table_refs (vfs s)). lia.
  - rewrite Hm3. by eapply ustring_same.
  - rewrite Hv3. change (set_world w3 (set_world w2 (vfs s))) with (set_world w3 (vfs s)). apply (resolves_step g); [apply Hk|apply Hst|apply Hst|done].
  - rewrite Hm3. by apply (alloc_ok_same _ _ (memory s)); [apply Hs2|].
  - rewrite Hm3. by apply (alloc_ok_same _ _ (memory s)); [apply Hs2|].
  - rewrite Hbl in *. split; [done|]. intros j Hj. rewrite Hby by done. symmetry. apply Hub. lia.
Qed.

End Laws.

End FileCalls.
