(* ===== verification/Device.v ===== *)
(** * Devices as files: kern/fs/vfs/device.c, devnull.c, kern/include/dev.h

    The operations of the vnode of a device, which hand off to the functions of
    [struct device], and the null device. *)

From S2P Require Import Prelude Uio Strings SfsDisk SfsVnode Vnode Vfs.
Import Strings SfsDisk SfsVnode Vnode Vfs.

Module Device.

(** [struct device], which is an address: its functions, over the state [DW] of
    the devices and the disk [D] of the file system, and its size. *)
Class Devices (D DW : Type) := {
  d_open (dev flags : Z) : DW -> outcome (Z * DW);
  d_close (dev : Z) : DW -> outcome (Z * DW);
  d_io (dev : Z) (u : uio) : D -> DW -> outcome (Z * uio * D * DW);
  d_ioctl (dev op data : Z) : DW -> outcome (Z * DW);
  dev_blocks : Z -> Z;
  dev_blocksize : Z -> Z;
}.

(** What devices promise: the requests come back, and the disk below the file
    system is changed only by writes to a device with blocks. *)
Class DeviceLaws (D DW : Type) {DK : Disk D} {DV : Devices D DW} := {
  d_open_law dev flags dw : exists r dw', d_open dev flags dw = Ok (r, dw');
  d_close_law dev dw : exists r dw', d_close dev dw = Ok (r, dw');
  d_io_law dev u d dw : fits u (uio_resid u) -> uio_rw u = UIO_READ \/ dev_blocks dev <= 0 ->
    exists r u' d' dw', d_io dev u d dw = Ok (r, u', d', dw') /\ steps u u' /\ same_disk d d';
}.

(** A vnode of a device; [vn_data] is the device. *)
Record dev_vnode : Type := mk_dv {
  vn_data : Z;
  dv_refcount : Z;
  dv_opencount : Z;
}.

(** ** Counts: kern/fs/vfs/vnode.c *)

Definition dv_check (v : dev_vnode) (reclaim : bool) : outcome unit :=
  _ ← c_assert (negb (dv_refcount v <? 0) && (reclaim || negb (dv_refcount v =? 0)));
  c_assert (negb (dv_opencount v <? 0)).

Definition dv_incref (v : dev_vnode) : outcome dev_vnode :=
  n ← c_int (dv_refcount v + 1);
  Ok (mk_dv (vn_data v) n (dv_opencount v)).

Definition dv_incopen (v : dev_vnode) : outcome dev_vnode :=
  n ← c_int (dv_opencount v + 1);
  Ok (mk_dv (vn_data v) (dv_refcount v) n).

(** [dev_reclaim] *)
Definition dev_reclaim (v : dev_vnode) : Z := 0.

Definition dv_decref (v : dev_vnode) : outcome dev_vnode :=
  _ ← c_assert (dv_refcount v >? 0);
  if dv_refcount v >? 1 then Ok (mk_dv (vn_data v) (dv_refcount v - 1) (dv_opencount v))
  else
    _ ← dv_check v true;
    let _ := dev_reclaim v in
    Ok v.

Section Ops.
Context {D DW : Type} `{DV : Devices D DW}.

Definition dev_open (v : dev_vnode) (flags : Z) (dw : DW) : outcome (Z * DW) :=
  if negb (Z.land flags (Z.lor (Z.lor (Z.lor O_CREAT O_TRUNC) O_EXCL) O_APPEND) =? 0) then Ok (EINVAL, dw)
  else d_open (vn_data v) flags dw.

Definition dev_close (v : dev_vnode) (dw : DW) : outcome (Z * DW) := d_close (vn_data v) dw.

Definition dv_decopen (v : dev_vnode) (dw : DW) : outcome (dev_vnode * DW) :=
  _ ← c_assert (dv_opencount v >? 0);
  let v := mk_dv (vn_data v) (dv_refcount v) (dv_opencount v - 1) in
  if dv_opencount v >? 0 then Ok (v, dw)
  else
    _ ← dv_check v false;
    '(_, dw) ← dev_close v dw;
    Ok (v, dw).

Definition dev_read (v : dev_vnode) (u : uio) (d : D) (dw : DW) : outcome (Z * uio * D * DW) :=
  _ ← c_assert (bool_decide (uio_rw u = UIO_READ));
  d_io (vn_data v) u d dw.

Definition null_io : Z := EINVAL.

Definition dev_write (v : dev_vnode) (u : uio) (d : D) (dw : DW) : outcome (Z * uio * D * DW) :=
  _ ← c_assert (bool_decide (uio_rw u = UIO_WRITE));
  d_io (vn_data v) u d dw.

Definition dev_ioctl (v : dev_vnode) (op data : Z) (dw : DW) : outcome (Z * DW) := d_ioctl (vn_data v) op data dw.

Definition dev_gettype (v : dev_vnode) : Z := if dev_blocks (vn_data v) >? 0 then S_IFBLK else S_IFCHR.

Definition dev_stat (v : dev_vnode) : outcome stat :=
  _ ← dv_check v false;
  let mode := dev_gettype v in
  Ok (mk_stat mode 1
    (if dev_blocks (vn_data v) >? 0 then s32 (u32 (dev_blocks (vn_data v) * dev_blocksize (vn_data v))) else 0) (dev_blocks (vn_data v))).

(** [off_t] is converted to the unsigned type of the sizes. *)
Definition dev_tryseek (v : dev_vnode) (pos : Z) : outcome Z :=
  let blocks := dev_blocks (vn_data v) in
  let size := dev_blocksize (vn_data v) in
  if blocks >? 0 then
    if size =? 0 then Undef
    else if negb (u32 pos mod size =? 0) then Ok EINVAL
    else if pos <? 0 then Ok EINVAL
    else if u32 pos / size >=? blocks then Ok EINVAL
    else Ok 0
  else Ok ESPIPE.

Definition null_fsync : Z := 0.
Definition dev_mmap : Z := EUNIMP.

Definition dev_truncate (v : dev_vnode) (len : Z) : Z :=
  if (dev_blocks (vn_data v) >? 0) && (s32 (u32 (dev_blocks (vn_data v) * dev_blocksize (vn_data v))) =? len) then 0 else EINVAL.

Definition dev_namefile : Z := 0.
Definition null_creat : Z := ENOTDIR.
Definition null_symlink : Z := ENOTDIR.
Definition null_nameop : Z := ENOTDIR.
Definition null_link : Z := ENOTDIR.
Definition null_rename : Z := ENOTDIR.

(** The vnode itself, with one more reference. *)
Definition dev_lookup (v : dev_vnode) (pathname : list Z) : outcome (Z * dev_vnode) :=
  len ← strlen pathname;
  if len >? 0 then Ok (ENOENT, v)
  else
    v ← dv_incref v;
    Ok (0, v).

Definition dev_lookparent : Z := ENOTDIR.

(** What [vnode_init] makes of the new structure. *)
Definition dev_create_vnode (dev : Z) : dev_vnode := mk_dv dev 1 0.

End Ops.

(** ** The null device *)

Definition nullopen (dev openflags : Z) : Z := 0.
Definition nullclose (dev : Z) : Z := 0.

Definition nullio (dev : Z) (u : uio) : Z * uio :=
  if decide (uio_rw u = UIO_WRITE) then (0, mk_uio (uio_done u) (uio_left u) (uio_offset u) 0 (uio_rw u)) else (0, u).

Definition nullioctl (dev op data : Z) : Z := EINVAL.

(** A machine whose devices are all null devices. *)
Definition devnull {D : Type} : Devices D unit := {|
  d_open dev flags dw := Ok (nullopen dev flags, dw);
  d_close dev dw := Ok (nullclose dev, dw);
  d_io dev u d dw := let '(r, u) := nullio dev u in Ok (r, u, d, dw);
  d_ioctl dev op data dw := Ok (nullioctl dev op data, dw);
  dev_blocks _ := 0;
  dev_blocksize _ := 1;
|}.

#[export] Instance devnull_laws {D : Type} {DK : Disk D} : DeviceLaws D unit (DV := devnull).
Proof.
  constructor; [intros; by eexists _, _|intros; by eexists _, _|]. intros dev u d [] (Hn & _ & Hl & _) _. cbn. unfold nullio.
  case_decide; eexists _, _, _, _; (split; [done|]); (split; [|done]); unfold steps, uio_buffer; cbn; lia || (split; [done|]; split; [done|]; lia).
Qed.

End Device.
