(* ===== verification/SfsVfs.v ===== *)
(** * The vnodes of a machine: one mounted simple file system, and devices

    The tables of operations [sfs_fileops] and [sfs_dirops] of
    kern/fs/sfs/sfs_vnode.c, [dev_vnode_ops] of kern/fs/vfs/device.c and the
    operations of [struct fs], as an instance of the vnode interface of Vnode.v.
    The proof that the laws of the interface hold ties the theorems about the
    simple file system to those about paths and descriptors. *)

From stdpp Require Import gmultiset.
From S2P Require Import Prelude Uio Bitmap Strings SfsDisk SfsFile SfsIo SfsTruncate SfsDir SfsVnode SfsInv SfsOps SfsNames SfsFs Vnode VfsList Vfs Device.
Import Strings SfsDisk SfsFile SfsIo SfsTruncate SfsDir SfsVnode SfsInv SfsOps SfsNames SfsFs Vnode Device.

Module SfsVfs.

(** The file system, or the disk alone once it is gone, its superblock, the vnodes
    of the devices and the devices themselves.  [kw_time] counts the operations, so that
    the outcome of an allocation can differ each time. *)
Record kworld (D DW : Type) : Type := mk_kw {
  kw_fs : SfsFile.sfs (D := D) + D;
  kw_super : sfs_super;
  kw_devs : gmap Z dev_vnode;
  kw_dw : DW;
  kw_time : nat;
}.
Arguments mk_kw {D DW} _ _ _ _ _.
Arguments kw_fs {D DW} _.
Arguments kw_super {D DW} _.
Arguments kw_devs {D DW} _.
Arguments kw_dw {D DW} _.
Arguments kw_time {D DW} _.

Section World.
Context {D DW : Type} {DK : Disk D} {DV : Devices D DW}.
Local Abbreviation sfs := (SfsFile.sfs (D := D)).
Local Abbreviation world := (kworld D DW).

(** The address of the [struct fs], the outcome of the allocations of the next
    operation, and what the stack holds. *)
Variable fsp : Z.
Variable alloc_of : world -> alloc.
Variable junk_of : world -> list Z.

Definition fs_rd (w : world) : outcome sfs := match kw_fs w with inl s => Ok s | inr _ => Undef end.
Definition set_sfs (s : sfs) (w : world) : world := mk_kw (inl s) (kw_super w) (kw_devs w) (kw_dw w) (S (kw_time w)).
Definition set_dv (v : Z) (dv : dev_vnode) (w : world) : world := mk_kw (kw_fs w) (kw_super w) (<[v := dv]> (kw_devs w)) (kw_dw w) (S (kw_time w)).
Definition set_dw (dw : DW) (w : world) : world := mk_kw (kw_fs w) (kw_super w) (kw_devs w) dw (S (kw_time w)).

(** The disk of the file system, as the devices reach it. *)
Definition disk_of (w : world) : D := match kw_fs w with inl s => dev s | inr d => d end.
Definition set_disk (d : D) (w : world) : world :=
  mk_kw (match kw_fs w with inl s => inl (set_dev d s) | inr _ => inr d end) (kw_super w) (kw_devs w) (kw_dw w) (S (kw_time w)).

(** The dispatch through [vn_ops]: the device, or the table for the type of the
    inode. *)
Definition by_type {A} (v : Z) (dev : dev_vnode -> outcome A) (file dir : sfs -> outcome A) (w : world) : outcome A :=
  match kw_devs w !! v with
  | Some dv => _ ← dv_check dv false; dev dv
  | None =>
      s ← fs_rd w;
      _ ← vnode_check v false s;
      sv ← sv_rd v s;
      if sfi_type (sv_i sv) =? SFS_TYPE_DIR then dir s else file s
  end.

(** An operation that only returns a code. *)
Definition code (r : Z) (w : world) : outcome (Z * world) := Ok (r, w).

(** An operation of the file system, which returns a code, and one that returns
    something else as well. *)
Definition on_fs (w : world) (f : sfs -> outcome (Z * sfs)) (s : sfs) : outcome (Z * world) := '(r, s) ← f s; Ok (r, set_sfs s w).
Definition on_fs2 {A} (w : world) (f : sfs -> outcome (Z * A * sfs)) (s : sfs) : outcome (Z * A * world) := '(r, a, s) ← f s; Ok (r, a, set_sfs s w).

Definition vop_open (v flags : Z) (w : world) : outcome (Z * world) :=
  by_type v (fun dv => '(r, dw) ← dev_open dv flags (kw_dw w); Ok (r, set_dw dw w))
    (fun _ => code (sfs_open flags) w) (fun _ => code (sfs_opendir flags) w) w.

(** Device I/O reaches the disk of the file system. *)
Definition dev_transfer (op : dev_vnode -> uio -> D -> DW -> outcome (Z * uio * D * DW)) (u : uio) (w : world) (dv : dev_vnode) : outcome (Z * uio * world) :=
  '(r, u, d, dw) ← op dv u (disk_of w) (kw_dw w);
  Ok (r, u, set_dw dw (set_disk d w)).

Definition vop_read (v : Z) (u : uio) (w : world) : outcome (Z * uio * world) :=
  by_type v (dev_transfer dev_read u w) (on_fs2 w (sfs_read v u)) (fun _ => Ok (EISDIR, u, w)) w.

Definition vop_write (v : Z) (u : uio) (w : world) : outcome (Z * uio * world) :=
  by_type v (dev_transfer dev_write u w) (on_fs2 w (sfs_write v u)) (fun _ => Ok (EISDIR, u, w)) w.

Definition vop_readlink (v : Z) (u : uio) (w : world) : outcome (Z * uio * world) :=
  by_type v (fun _ => Ok (null_io, u, w)) (fun _ => Ok (ENOTDIR, u, w)) (fun _ => Ok (EISDIR, u, w)) w.

Definition vop_gettype (v : Z) (w : world) : outcome (Z * Z * world) :=
  by_type v (fun dv => Ok (0, dev_gettype (D := D) (DW := DW) dv, w)) (fun s => t ← sfs_gettype v s; Ok (0, t, w)) (fun s => t ← sfs_gettype v s; Ok (0, t, w)) w.

(** The check and the test of the type are those of [SfsVnode.vop_truncate]. *)
Definition vop_truncate (v len : Z) (w : world) : outcome (Z * world) :=
  by_type v (fun dv => code (dev_truncate (D := D) (DW := DW) dv len) w) (on_fs w (sfs_truncate v len)) (fun _ => code EISDIR w) w.

Definition vop_namefile (v : Z) (u : uio) (w : world) : outcome (Z * uio * world) :=
  by_type v (fun _ => Ok (dev_namefile, u, w)) (fun _ => Ok (ENOTDIR, u, w)) (fun s => r ← sfs_namefile v s; Ok (r, u, w)) w.

Definition vop_creat (v : Z) (name : list Z) (excl : bool) (w : world) : outcome (Z * Z * world) :=
  by_type v (fun _ => Ok (null_creat, 0, w)) (fun _ => Ok (ENOTDIR, 0, w)) (on_fs2 w (sfs_creat v name excl (alloc_of w) (junk_of w))) w.

Definition vop_symlink (v : Z) (contents name : list Z) (w : world) : outcome (Z * world) :=
  by_type v (fun _ => code null_symlink w) (fun _ => code ENOTDIR w) (fun _ => code EUNIMP w) w.

Definition vop_mkdir (v : Z) (name : list Z) (w : world) : outcome (Z * world) :=
  by_type v (fun _ => code null_nameop w) (fun _ => code ENOTDIR w) (fun _ => code EUNIMP w) w.

Definition vop_rmdir (v : Z) (name : list Z) (w : world) : outcome (Z * world) := vop_mkdir v name w.

(** [sfs_link] asserts that the file is of this file system. *)
Definition vop_link (v : Z) (name : list Z) (file : Z) (w : world) : outcome (Z * world) :=
  by_type v (fun _ => code null_link w) (fun _ => code ENOTDIR w)
    (fun s => _ ← c_assert (bool_decide (kw_devs w !! file = None)); on_fs w (sfs_link v name file (junk_of w)) s) w.

Definition vop_remove (v : Z) (name : list Z) (w : world) : outcome (Z * world) :=
  by_type v (fun _ => code null_nameop w) (fun _ => code ENOTDIR w) (on_fs w (sfs_remove v name (alloc_of w) (junk_of w))) w.

Definition vop_rename (v1 : Z) (n1 : list Z) (v2 : Z) (n2 : list Z) (w : world) : outcome (Z * world) :=
  by_type v1 (fun _ => code null_rename w) (fun _ => code ENOTDIR w) (on_fs w (sfs_rename v1 n1 v2 n2 (alloc_of w) (junk_of w))) w.

Definition vop_lookup (v : Z) (path : list Z) (w : world) : outcome (Z * Z * world) :=
  by_type v (fun dv => '(r, dv) ← dev_lookup dv path; Ok (r, if r =? 0 then v else 0, set_dv v dv w))
    (fun _ => Ok (ENOTDIR, 0, w)) (on_fs2 w (sfs_lookup v path (alloc_of w) (junk_of w))) w.

Definition vop_lookparent (v : Z) (path buf : list Z) (w : world) : outcome (Z * Z * list Z * world) :=
  by_type v (fun _ => Ok (dev_lookparent, 0, buf, w)) (fun _ => Ok (ENOTDIR, 0, buf, w))
    (fun s => '(r, v, buf, s) ← sfs_lookparent v path buf s; Ok (r, v, buf, set_sfs s w)) w.

(** The counts, which are not in the tables. *)
Definition on_counts (v : Z) (dev : dev_vnode -> outcome (dev_vnode * DW)) (file : sfs -> outcome sfs) (w : world) : outcome world :=
  match kw_devs w !! v with
  | Some dv => '(dv, dw) ← dev dv; Ok (set_dw dw (set_dv v dv w))
  | None => s ← fs_rd w; s ← file s; Ok (set_sfs s w)
  end.

Definition k_incref (v : Z) (w : world) : outcome world := on_counts v (fun dv => dv ← dv_incref dv; Ok (dv, kw_dw w)) (vnode_incref v) w.
Definition k_decref (v : Z) (w : world) : outcome world := on_counts v (fun dv => dv ← dv_decref dv; Ok (dv, kw_dw w)) (vnode_decref v) w.
Definition k_incopen (v : Z) (w : world) : outcome world := on_counts v (fun dv => dv ← dv_incopen dv; Ok (dv, kw_dw w)) (vnode_incopen v) w.
Definition k_decopen (v : Z) (w : world) : outcome world := on_counts v (fun dv => dv_decopen dv (kw_dw w)) (vnode_decopen v) w.

(** [vn_fs]; NULL for devices. *)
Definition k_vn_fs (v : Z) (w : world) : outcome Z :=
  match kw_devs w !! v with
  | Some _ => Ok 0
  | None => s ← fs_rd w; _ ← sv_rd v s; Ok fsp
  end.

(** The operations of the file system at [f]. *)
Definition at_fs {A} (f : Z) (op : sfs -> outcome A) (w : world) : outcome A := if f =? fsp then s ← fs_rd w; op s else Undef.

Definition fsop_unmount (f : Z) (w : world) : outcome (Z * world) :=
  at_fs f (fun s => '(r, s') ← sfs_unmount s; Ok (r, mk_kw (match s' with Some s => inl s | None => inr (dev s) end) (kw_super w) (kw_devs w) (kw_dw w) (S (kw_time w)))) w.

Definition kvnodes : Vnodes world := {|
  VOP_OPEN := vop_open;
  VOP_READ := vop_read;
  VOP_READLINK := vop_readlink;
  VOP_WRITE := vop_write;
  VOP_GETTYPE := vop_gettype;
  VOP_TRUNCATE := vop_truncate;
  VOP_NAMEFILE := vop_namefile;
  VOP_CREAT := vop_creat;
  VOP_SYMLINK := vop_symlink;
  VOP_MKDIR := vop_mkdir;
  VOP_LINK := vop_link;
  VOP_REMOVE := vop_remove;
  VOP_RMDIR := vop_rmdir;
  VOP_RENAME := vop_rename;
  VOP_LOOKUP := vop_lookup;
  VOP_LOOKPARENT := vop_lookparent;
  VOP_INCREF := k_incref;
  VOP_DECREF := k_decref;
  VOP_INCOPEN := k_incopen;
  VOP_DECOPEN := k_decopen;
  vn_fs := k_vn_fs;
  FSOP_SYNC f w := at_fs f (on_fs w (sfs_sync (kw_super w))) w;
  FSOP_GETVOLNAME f w := at_fs f (fun _ => Ok (Some (sfs_getvolname (kw_super w)))) w;
  FSOP_GETROOT f w := at_fs f (fun s => '(v, s) ← sfs_getroot (alloc_of w) s; Ok (v, set_sfs s w)) w;
  FSOP_UNMOUNT := fsop_unmount;
|}.

End World.

(** ** Steps on one file *)

Section Files.
Context {D : Type} {DK : Disk D} {DKL : DiskLaws D} {RW : ReliableWrites D}.
Local Abbreviation sfs := (SfsFile.sfs (D := D)).

Lemma updates_counts q (s : sfs) v s' v' : updates q s v s' v' -> svs s !! q = Some v -> (vn_refcount v', vn_opencount v') = (vn_refcount v, vn_opencount v) -> same_counts s s'.
Proof.
  intros Hup Hq Hc x. pose proof Hup as []. injection up_rest0 as _ _ Hsvs. injection Hc as Hr Ho. unfold cnt. rewrite Hsvs, lookup_insert. case_decide as E; [|done]. subst x. rewrite Hq. cbn. by rewrite up_ino0, Hr, Ho.
Qed.

(** A change of the file at [q] that is not the directory. *)
Lemma sane_update p q (s : sfs) v s' v' M d : sane p s M d -> svs s !! q = Some v -> q <> p -> updates q s v s' v' -> sfi_linkcount (sv_i v') = sfi_linkcount (sv_i v) ->
  (vn_refcount v', vn_opencount v') = (vn_refcount v, vn_opencount v) ->
  sane p s' (<[sv_ino v := sv_i v']> M) d /\ keeps_but (sv_ino v) s M s' (<[sv_ino v := sv_i v']> M) /\ same_counts s s' /\ svs s' !! q = Some v'.
Proof.
  intros [Hco Hlk] Hq Hne Hup Hl Hc. destruct (core_update p q s v s' v' M d Hco Hq Hne Hup) as (Hco' & Hk & _ & Hq'). split; [|split; [done|split; [by eapply updates_counts|done]]].
  constructor; [done|]. intros ino i H1. rewrite lookup_insert. case_decide as E; [|by apply Hlk]. intros [= <-]. subst ino. rewrite Hl. destruct Hco as [HF _]. apply Hlk; [done|]. by apply (fi_loaded _ _ HF q).
Qed.

(** The inode is written back. *)
Lemma sane_sync p q (s : sfs) v M d : sane p s M d -> svs s !! q = Some v ->
  exists s', sfs_sync_inode q s = Ok (0, s') /\ sane p s' M d /\ keeps_data s M s' M /\ same_counts s s'.
Proof.
  intros Hsn Hq. pose proof Hsn as [Hco _]. pose proof Hco as [HF Hrt]. destruct (fi_loaded _ _ HF q v Hq) as (HM & _).
  destruct (sync_updates q s v M HF Hq) as (s' & v' & -> & Hup & _ & Hi & Hr & Ho & _ & Hb & Hc). exists s'. split; [done|]. assert (same_counts s s') as Hsc by (eapply updates_counts; [done|done|congruence]).
  pose proof (files_update q s v s' v' M HF Hq Hup) as HF'. pose proof (keeps_update q s v s' v' M HF Hq Hup) as Hk. rewrite Hi, insert_id in HF', Hk by done.
  split; [|split; [apply Hk; right; unfold data; congruence|done]]. apply (sane_step p s M d); [done| |done]. split; [done|]. destruct (decide (q = p)) as [->|Hne].
  - destruct Hrt as (w & Hat & H1 & Hd & Hn). pose proof Hat as [_ Hw _ _]. assert (w = v) as -> by congruence. pose proof Hup as []. injection up_rest0 as _ _ Hsvs.
    destruct (at_dir_same p s v s' v' Hat) as [Hat' Hd']; [done|by rewrite Hsvs, lookup_insert_eq|done|by rewrite <- Hi|done|]. exists v'. split; [done|]. split; [congruence|]. split; [congruence|done].
  - pose proof (rooted_other p q s v s' v' M d HF Hrt Hq Hup Hne) as Hrt'. by rewrite Hi, insert_id in Hrt'.
Qed.

(** Its counts are set. *)
Lemma sane_recount p q (s : sfs) v v' M d : sane p s M d -> svs s !! q = Some v -> (sv_i v', sv_ino v', sv_dirty v') = (sv_i v, sv_ino v, sv_dirty v) -> 1 <= vn_refcount v' -> 0 <= vn_opencount v' ->
  sane p (sv_wr q v' s) M d /\ keeps_data s M (sv_wr q v' s) M.
Proof.
  intros Hsn Hq Hs Hr Ho. injection Hs as H1 H2 H3. pose proof Hsn as [Hco _]. destruct (core_counts p q s v v' M d Hco Hq H1 H2 H3) as [Hco' _]; [done|].
  split; [by apply (sane_step p s M d)|]. intros ino i _ Hi. eauto.
Qed.

End Files.

(** ** The invariant *)

Section Laws.
Context {D DW : Type} {DK : Disk D} {DV : Devices D DW} {DKL : DiskLaws D} {RW : ReliableWrites D} {DVL : DeviceLaws D DW}.
Local Abbreviation sfs := (SfsFile.sfs (D := D)).
Local Abbreviation world := (kworld D DW).
Context (fsp : Z) (alloc_of : world -> alloc) (junk_of : world -> list Z).

(** 15 direct blocks and the 128 of the indirect one. *)
Definition SFS_MAX : Z := 73216.

(** The allocator hands out addresses that are not in use. *)
Context (Hfsp : fsp <> 0) (Hjunk : forall w, length (junk_of w) = 64%nat).
Context (Halloc : forall w s q, kw_fs w = inl s -> al_sv (alloc_of w) = Some q -> q <> 0 /\ svs s !! q = None /\ kw_devs w !! q = None).

(** The disk fails no read, and no allocation of an inode fails. *)
Definition dependable : Prop := ~ read_fails D /\ forall w, complete (alloc_of w).

Lemma eio_mishap r : eio D r -> mishap dependable r.
Proof. intros [-> Hrf]. split; [by right|]. by intros [? _]. Qed.

Lemma enomem_mishap w r : enomem (alloc_of w) r -> mishap dependable r.
Proof. intros [-> Hc]. split; [by left|]. intros [_ H]. by apply Hc. Qed.

Lemma io_mishap r : io_error D r -> mishap dependable r \/ no_space r.
Proof. intros [->|[Hr| ->]]; [right; by left|left; by apply eio_mishap|right; by right]. Qed.

(** What the vnode at [q] is. *)
Definition info (w : world) (s : sfs) (p q : Z) : option vinfo :=
  match kw_devs w !! q with
  | Some dv => Some (mk_vi 0 (vn_data dv) (dev_gettype (D := D) (DW := DW) dv))
  | None => (fun c => mk_vi fsp c.1.1 (if decide (q = p) then S_IFDIR else S_IFREG)) <$> cnt s q
  end.

(** The counts of the vnodes agree with the references and opens that are owned,
    up to one reference that nobody has: that of a vnode that could not be given
    back, and for the root directory at [p] always. *)
Definition counted (p : Z) (R O : gmultiset Z) (s : sfs) : Prop :=
  forall q ino r o, cnt s q = Some (ino, r, o) -> count q R + (if decide (q = p) then 1 else 0) <= r <= count q R + 1 /\ o = count q O.

Record inst (g : ghost) (w : world) (s : sfs) (p : Z) (M : gmap Z sfs_inode) (d : gmap (list Z) Z) : Prop := mk_inst {
  in_fs : kw_fs w = inl s;
  in_sane : sane p s M d;
  in_addr q : is_Some (cnt s q) -> q <> 0 /\ kw_devs w !! q = None;
  in_dv q dv : kw_devs w !! q = Some dv -> q <> 0 /\ 1 <= dv_refcount dv /\
    count q (g_refs g) <= dv_refcount dv <= count q (g_refs g) + 1 /\ dv_opencount dv = count q (g_opens g);
  in_counted : counted p (g_refs g) (g_opens g) s;
  in_refs q : q ∈ g_refs g -> is_Some (info w s p q) /\ g_vn g !! q = info w s p q;
  in_opens : g_opens g ⊆ g_refs g;
  in_max q : count q (g_refs g) <= ref_max;
  in_gfs : exists a, g_fs g = {[fsp := a]} /\ af_volname a = Some (cstr (sp_volname (kw_super w))) /\ af_names a = d /\
    forall ino i, ino <> 1 -> M !! ino = Some i -> live g fsp ino -> af_bytes a !! ino = Some (contents (dev s) i);
  in_vol : points_to (sp_volname (kw_super w)) (cstr (sp_volname (kw_super w)));
}.

Definition owned_by (g : ghost) (w : world) : Prop := exists s p M d, inst g w s p M d.

(** ** Facts about the invariant *)

Lemma cnt_sv (s : sfs) q ino r o : cnt s q = Some (ino, r, o) -> exists v, svs s !! q = Some v /\ sv_ino v = ino /\ vn_refcount v = r /\ vn_opencount v = o.
Proof. unfold cnt. destruct (svs s !! q) as [v|]; [|done]. intros [= <- <- <-]. eauto. Qed.

Lemma sv_cnt (s : sfs) q v : svs s !! q = Some v -> cnt s q = Some (sv_ino v, vn_refcount v, vn_opencount v).
Proof. unfold cnt. by intros ->. Qed.

Lemma root_sv p s M d : sane p s M d -> exists v, svs s !! p = Some v /\ sv_ino v = 1 /\ sfi_type (sv_i v) = SFS_TYPE_DIR /\ at_dir p s v.
Proof. intros [[_ (v & Hat & H1 & _)] _]. exists v. pose proof Hat as [_ Hv _ []]. done. Qed.

Lemma names_gfs g w s p M d : inst g w s p M d -> names_of fsp g = d /\ is_Some (g_fs g !! fsp) /\ forall f, f <> fsp -> names_of f g = ∅ /\ g_fs g !! f = None.
Proof.
  intros Hi. destruct (in_gfs _ _ _ _ _ _ Hi) as (a & Hg & _ & Hn & _). unfold names_of. rewrite Hg. split; [by rewrite lookup_singleton_eq|].
  split; [rewrite lookup_singleton_eq; by eexists|]. intros f Hf. by rewrite lookup_singleton_ne by done.
Qed.

(** A live file is one of the inodes. *)
Lemma live_inode g w s p M d ino : inst g w s p M d -> live g fsp ino -> exists i, M !! ino = Some i.
Proof.
  intros Hi. destruct (names_gfs _ _ _ _ _ _ Hi) as (Hn & _). destruct (in_sane _ _ _ _ _ _ Hi) as [[HF (v & _ & _ & _ & Hnm)] _]. intros [(n & Hd)|(q & t & Hq & Hv)].
  - rewrite Hn in Hd. by destruct (Hnm _ _ Hd) as [_ ?].
  - destruct (in_refs _ _ _ _ _ _ Hi q Hq) as [_ E]. rewrite Hv in E. unfold info in E. destruct (kw_devs w !! q); [congruence|].
    destruct (cnt s q) as [[[j r] o]|] eqn:Hc; [|done]. injection E as -> _. destruct (cnt_sv _ _ _ _ _ Hc) as (x & Hx & <- & _). exists (sv_i x). by apply (fi_loaded _ _ HF q).
Qed.

Lemma bounded_sfs g w s p M d : inst g w s p M d -> bounded s.
Proof.
  intros Hi q v Hv. destruct (in_counted _ _ _ _ _ _ Hi q _ _ _ (sv_cnt _ _ _ Hv)) as [Hc _]. pose proof (in_max _ _ _ _ _ _ Hi q). unfold ref_max in *. lia.
Qed.

Lemma fresh_sfs g w s p M d : inst g w s p M d -> fresh (alloc_of w) s.
Proof. intros Hi q Hq. by destruct (Halloc w s q (in_fs _ _ _ _ _ _ Hi) Hq) as (_ & ? & _). Qed.

(** An owned vnode is a device, the directory, or a file. *)
Lemma known_cases g w s p M d q i : inst g w s p M d -> known g q i ->
  (exists dv, kw_devs w !! q = Some dv /\ i = mk_vi 0 (vn_data dv) (dev_gettype (D := D) (DW := DW) dv)) \/
  (kw_devs w !! q = None /\ exists v, svs s !! q = Some v /\ 1 <= vn_refcount v /\ 0 <= vn_opencount v /\ i = mk_vi fsp (sv_ino v) (if decide (q = p) then S_IFDIR else S_IFREG) /\
     sfi_type (sv_i v) = (if decide (q = p) then SFS_TYPE_DIR else SFS_TYPE_FILE)).
Proof.
  intros Hi [Hq Hv]. destruct (in_refs _ _ _ _ _ _ Hi q Hq) as [Hs E]. rewrite Hv in E. unfold info in E. destruct (kw_devs w !! q) as [dv|]; [left; exists dv; split; [done|congruence]|right].
  split; [done|]. destruct (cnt s q) as [[[j r] o]|] eqn:Hc; [|done]. destruct (cnt_sv _ _ _ _ _ Hc) as (x & Hx & <- & _). injection E as ->. exists x. split; [done|].
  destruct (in_sane _ _ _ _ _ _ Hi) as [Hco _]. pose proof Hco as [HF _]. destruct (fi_loaded _ _ HF q x Hx) as (HM & Hr & Ho). split; [done|]. split; [done|]. split; [done|].
  destruct (decide (q = p)) as [->|Hne].
  - destruct (root_sv p s M d (in_sane _ _ _ _ _ _ Hi)) as (v & Hv' & _ & Ht & _). congruence.
  - rewrite (fi_type _ _ HF _ _ HM), decide_False; [done|]. by eapply core_ino.
Qed.

(** ** Dispatch *)

Lemma by_type_run {A} g w s p M d q i (dev : dev_vnode -> outcome A) file dir : inst g w s p M d -> known g q i ->
  (exists dv, kw_devs w !! q = Some dv /\ i = mk_vi 0 (vn_data dv) (dev_gettype (D := D) (DW := DW) dv) /\ by_type q dev file dir w = dev dv) \/
  (q = p /\ kw_devs w !! q = None /\ i = mk_vi fsp 1 S_IFDIR /\ by_type q dev file dir w = dir s) \/
  (q <> p /\ kw_devs w !! q = None /\ exists v, svs s !! q = Some v /\ i = mk_vi fsp (sv_ino v) S_IFREG /\ by_type q dev file dir w = file s).
Proof.
  intros Hi Hk. unfold by_type. destruct (known_cases _ _ _ _ _ _ _ _ Hi Hk) as [(dv & Hd & ->)|(Hd & v & Hv & Hr & Ho & -> & Ht)]; rewrite Hd.
  - left. exists dv. split; [done|]. split; [done|]. destruct (in_dv _ _ _ _ _ _ Hi q dv Hd) as (_ & Hr & _ & Ho). unfold dv_check.
    replace (dv_refcount dv <? 0) with false by lia. replace (dv_refcount dv =? 0) with false by lia. cbn [negb andb orb c_assert]. rewrite Ok_bind.
    replace (dv_opencount dv <? 0) with false by (unfold count in Ho; lia). done.
  - right. unfold fs_rd. rewrite (in_fs _ _ _ _ _ _ Hi), Ok_bind, (vnode_check_run q false s v Hv Hr Ho), Ok_bind, (sv_rd_run q s v Hv), Ok_bind, Ht.
    destruct (decide (q = p)) as [->|Hne]; [left|right].
    + destruct (root_sv p s M d (in_sane _ _ _ _ _ _ Hi)) as (v' & Hv' & H1 & _). assert (v' = v) as -> by congruence. by rewrite H1.
    + split; [done|]. split; [done|]. by exists v.
Qed.

(** ** Steps of the file system *)

Definition with_fs (a : afs) (g : ghost) : ghost := mk_ghost (g_refs g) (g_opens g) {[fsp := a]} (g_vn g).

(** The new contents of the abstract file system. *)
Definition shows (a : afs) (g : ghost) (w : world) (s : sfs) (M : gmap Z sfs_inode) (d : gmap (list Z) Z) : Prop :=
  af_volname a = Some (cstr (sp_volname (kw_super w))) /\ af_names a = d /\
  forall ino i, ino <> 1 -> M !! ino = Some i -> live g fsp ino -> af_bytes a !! ino = Some (contents (dev s) i).

Lemma counted_leaks p R O al s s' : counted p R O s -> is_Some (cnt s p) -> (forall q, al_sv al = Some q -> count q R = 0 /\ count q O = 0) -> leaks al s s' -> counted p R O s'.
Proof.
  intros Hc [x Hp] Hal Hl q ino r o Hq. destruct (Hl q) as [E|(E & Ha & ino' & E')]; [by apply (Hc q ino r o); rewrite <- E|].
  rewrite E' in Hq. injection Hq as <- <- <-. destruct (Hal q Ha) as [-> ->]. assert (q <> p) by congruence. rewrite decide_False by done. lia.
Qed.

(** No owner knows a new address. *)
Lemma fresh_count g w s p M d q : inst g w s p M d -> al_sv (alloc_of w) = Some q -> count q (g_refs g) = 0 /\ count q (g_opens g) = 0.
Proof.
  intros Hi Hq. destruct (Halloc w s q (in_fs _ _ _ _ _ _ Hi) Hq) as (_ & Hs & Hd). assert (count q (g_refs g) = 0) as H0.
  { destruct (decide (q ∈ g_refs g)) as [Hin|Hn].
    - destruct (in_refs _ _ _ _ _ _ Hi q Hin) as [[i Hs'] _]. unfold info, cnt in Hs'. by rewrite Hd, Hs in Hs'.
    - unfold count. apply not_elem_of_multiplicity in Hn. lia. }
  split; [done|]. pose proof (in_opens _ _ _ _ _ _ Hi q). unfold count in *. lia.
Qed.

Lemma inst_step g w s p M d a s' M' d' : inst g w s p M d -> sane p s' M' d' -> leaks (alloc_of w) s s' -> shows a (with_fs a g) w s' M' d' ->
  inst (with_fs a g) (set_sfs s' w) s' p M' d'.
Proof.
  intros Hi Hs Hl Ha. pose proof Hi as []. destruct (root_sv p s M d in_sane0) as (v & Hv & _). assert (is_Some (cnt s p)) as Hp by (rewrite (sv_cnt _ _ _ Hv); by eexists).
  assert (forall q, q ∈ g_refs g -> kw_devs w !! q = None -> cnt s' q = cnt s q) as Hsame.
  { intros q Hq Hd. destruct (Hl q) as [?|(E & _)]; [done|]. destruct (in_refs0 q Hq) as [[i Hx] _]. unfold info in Hx. by rewrite Hd, E in Hx. }
  constructor; cbn; try done.
  - intros q Hq. destruct (Hl q) as [E|(_ & Hal & _)]; [rewrite E in Hq; by apply in_addr0|]. by destruct (Halloc w s q in_fs0 Hal) as (? & _ & ?).
  - apply (counted_leaks p _ _ (alloc_of w) s); try done. intros q Hq. by apply (fresh_count g w s p M d).
  - intros q Hq. destruct (in_refs0 q Hq) as [Hx E]. assert (info (set_sfs s' w) s' p q = info w s p q) as ->; [|done].
    unfold info. cbn. destruct (kw_devs w !! q) eqn:Hd; [done|]. by rewrite (Hsame q Hq Hd).
  - by exists a.
Qed.

Lemma set_fs_with f a g : Vnode.set_fs fsp f (with_fs a g) = with_fs (f a) g.
Proof. unfold Vnode.set_fs, with_fs. cbn. f_equal. apply map_eq. intros x. rewrite lookup_alter. destruct (decide (fsp = x)) as [->|]; [by rewrite !lookup_singleton_eq|by rewrite !lookup_singleton_ne]. Qed.

Lemma names_with a g : names_of fsp (with_fs a g) = af_names a.
Proof. unfold names_of. cbn. by rewrite lookup_singleton_eq. Qed.

Lemma bytes_with a g id : Vnode.bytes_of fsp id (with_fs a g) = af_bytes a !! id.
Proof. unfold Vnode.bytes_of. cbn. by rewrite lookup_singleton_eq. Qed.

(** The abstract file system of [g]. *)
Lemma inst_shows g w s p M d : inst g w s p M d -> exists a, g = with_fs a g /\ shows a g w s M d.
Proof.
  intros Hi. destruct (in_gfs _ _ _ _ _ _ Hi) as (a & Hg & Ha). exists a. split; [|done]. unfold with_fs. rewrite <- Hg. by destruct g.
Qed.

(** All files keep their data, and no other becomes live. *)
Lemma shows_keeps a g g' w s M d s' M' d' : shows a g w s M d -> keeps_data s M s' M' -> (forall x, live g fsp x -> exists i, M !! x = Some i) ->
  (forall x, x <> 1 -> live g' fsp x -> live g fsp x) -> shows (mk_afs (af_volname a) d' (af_bytes a)) g' w s' M' d'.
Proof.
  intros (H1 & _ & H3) Hk HM Hl. split; [done|]. split; [done|]. cbn. intros ino i' Hne Hi' Hlv. specialize (Hl _ Hne Hlv). destruct (HM _ Hl) as [i Hi].
  destruct (Hk ino i Hne Hi) as (i'' & Hi'' & Hd). assert (i'' = i') as -> by congruence. unfold data in Hd. injection Hd as _ ->. by apply H3.
Qed.

(** Nothing changes that the callers can see. *)
Lemma inst_same g w s p M d s' M' : inst g w s p M d -> sane p s' M' d -> keeps_data s M s' M' -> leaks (alloc_of w) s s' -> inst g (set_sfs s' w) s' p M' d.
Proof.
  intros Hi Hs Hk Hl. destruct (inst_shows _ _ _ _ _ _ Hi) as (a & Hg & Ha). rewrite Hg. assert (mk_afs (af_volname a) d (af_bytes a) = a) as Ea by (destruct a, Ha as (_ & <- & _); done).
  apply (inst_step g w s p M d); try done. rewrite <- Ea at 1. apply (shows_keeps a g _ w s M d); [done|done|intros x; by apply (live_inode g w s p M d)|intros x _]. by rewrite <- Hg.
Qed.

(** A vnode is handed out. *)
Lemma inst_gains g w s p M d a s' M' d' v ino r o : inst g w s p M d -> sane p s' M' d' -> gains (alloc_of w) v s s' -> roomy 1 g -> cnt s' v = Some (ino, r, o) ->
  let i := mk_vi fsp ino (if decide (v = p) then S_IFDIR else S_IFREG) in shows a (hand_out v i (with_fs a g)) w s' M' d' ->
  v <> 0 /\ (v ∈ g_refs g -> g_vn g !! v = Some i) /\ inst (hand_out v i (with_fs a g)) (set_sfs s' w) s' p M' d'.
Proof.
  intros Hi Hs [Hoth Hv] Hroom Hc i Ha. pose proof Hi as []. assert (v <> 0 /\ kw_devs w !! v = None) as [Hv0 Hvd].
  { destruct Hv as [(_ & Hal & _)|(? & ? & ? & _ & E & _)]; [by destruct (Halloc w s v in_fs0 Hal) as (? & _ & ?)|apply in_addr0; by eexists]. }
  assert (v ∈ g_refs g -> g_vn g !! v = Some i) as Hold.
  { intros Hin. destruct (in_refs0 v Hin) as [[x Hx] ->]. unfold info in *. rewrite Hvd in *. destruct Hv as [(E & _)|(j & r0 & o0 & _ & E & E')]; rewrite E in *; [done|].
    rewrite E' in Hc. injection Hc as -> _ _. done. }
  split; [done|]. split; [done|]. assert (forall q, count q (g_refs g ⊎ {[+ v +]}) = count q (g_refs g) + if decide (q = v) then 1 else 0) as Hcount.
  { intros q. unfold count. rewrite multiplicity_disj_union, multiplicity_singleton. case_decide; lia. }
  constructor; cbn; try done.
  - intros q Hq. destruct (decide (q = v)) as [->|Hne]; [done|]. rewrite Hoth in Hq by done. by apply in_addr0.
  - intros q dv Hq. rewrite Hcount. assert (q <> v) by congruence. rewrite decide_False, Z.add_0_r by done. by apply in_dv0.
  - intros q j r' o' Hq. rewrite Hcount. destruct (decide (q = v)) as [->|Hne]; [|rewrite Hoth in Hq by done; rewrite Z.add_0_r; by apply (in_counted0 q j r' o')].
    assert (j = ino /\ r' = r /\ o' = o) as (-> & -> & ->) by (split_and!; congruence). destruct Hv as [(E & Hal & j & E')|(j & r0 & o0 & _ & E & E')]; rewrite E' in Hc; injection Hc as <- <- <-.
    + destruct (fresh_count g w s p M d v Hi Hal) as [-> ->]. rewrite decide_False; [lia|]. destruct (root_sv p s M d in_sane0) as (x & Hx & _). intros ->. by rewrite (sv_cnt _ _ _ Hx) in E.
    + destruct (in_counted0 v _ _ _ E) as [? ->]. lia.
  - intros q Hq. destruct (decide (q = v)) as [->|Hne].
    + rewrite lookup_insert_eq. unfold info. cbn. rewrite Hvd, Hc. by split; [eexists|].
    + rewrite lookup_insert_ne by done. assert (q ∈ g_refs g) as Hin by multiset_solver. destruct (in_refs0 q Hin) as [Hx ->]. unfold info in *. cbn. by rewrite Hoth by done.
  - multiset_solver.
  - intros q. rewrite Hcount. specialize (Hroom q). destruct (decide (q = v)); lia.
  - by exists a.
Qed.

(** ** Counts *)

(** A step that changes what is owned of vnodes that are known already. *)
Definition reowned (g : ghost) (R O : gmultiset Z) (a : afs) : ghost := mk_ghost R O {[fsp := a]} (g_vn g).

Lemma inst_recount g w s p M d a s' M' R O : inst g w s p M d -> sane p s' M' d -> shows a (reowned g R O a) w s' M' d ->
  (forall q, q ∈ R -> q ∈ g_refs g) -> (forall q, is_Some (cnt s' q) -> is_Some (cnt s q)) -> counted p R O s' ->
  (forall q, q ∈ R -> kw_devs w !! q = None -> exists ino r o r' o', cnt s q = Some (ino, r, o) /\ cnt s' q = Some (ino, r', o')) ->
  (forall q, is_Some (kw_devs w !! q) -> count q R = count q (g_refs g) /\ count q O = count q (g_opens g)) -> O ⊆ R -> (forall q, count q R <= ref_max) ->
  inst (reowned g R O a) (set_sfs s' w) s' p M' d.
Proof.
  intros Hi Hs Ha HR Haddr Hc Hino Hdev HO Hmax. pose proof Hi as []. constructor; cbn; try done.
  - intros q Hq. apply in_addr0. by apply Haddr.
  - intros q dv Hq. destruct (Hdev q) as [-> ->]; [by eexists|]. by apply in_dv0.
  - intros q Hq. destruct (in_refs0 q (HR q Hq)) as [Hx ->]. unfold info in *. cbn. destruct (kw_devs w !! q) eqn:Hd; [done|]. destruct (Hino q Hq Hd) as (ino & r & o & r' & o' & E & E'). by rewrite E, E'.
  - by exists a.
Qed.

(** The same for a device. *)
Lemma inst_redev g w s p M d a q dv dv' dw R O : inst g w s p M d -> shows a (reowned g R O a) w s M d -> kw_devs w !! q = Some dv -> vn_data dv' = vn_data dv ->
  (forall x, x ∈ R -> x ∈ g_refs g) -> (forall x, x <> q -> count x R = count x (g_refs g) /\ count x O = count x (g_opens g)) ->
  1 <= dv_refcount dv' -> count q R <= dv_refcount dv' <= count q R + 1 -> dv_opencount dv' = count q O -> O ⊆ R -> (forall q, count q R <= ref_max) ->
  inst (reowned g R O a) (set_dw dw (set_dv q dv' w)) s p M d.
Proof.
  intros Hi Ha Hq Hdata HR Hoth Hr1 Hr Ho HO Hmax. pose proof Hi as []. assert (forall x, cnt s x <> None -> x <> q) as Hne.
  { intros x Hx ->. destruct (in_addr0 q) as [_ ?]; [destruct (cnt s q); [by eexists|done]|congruence]. }
  constructor; cbn; try done.
  - intros x Hx. rewrite lookup_insert_ne; [by apply in_addr0|]. apply not_eq_sym, Hne. by destruct Hx as [? ->].
  - intros x y. rewrite lookup_insert. case_decide as E; [intros [= <-]; subst x; split; [by apply (in_dv0 q dv)|]; lia|]. intros Hx. destruct (Hoth x) as [-> ->]; [done|]. by apply in_dv0.
  - intros x j r o Hx. destruct (Hoth x) as [-> ->]; [apply Hne; congruence|]. by apply (in_counted0 x j r o).
  - intros x Hx. destruct (in_refs0 x (HR x Hx)) as [Hy E]. rewrite E. unfold info in *. cbn. destruct (decide (q = x)) as [<-|Ex]; [|by rewrite lookup_insert_ne]. rewrite lookup_insert_eq, Hq. unfold dev_gettype. rewrite Hdata. by split; [eexists|].
  - by exists a.
Qed.

(** No file becomes live that was not. *)
Lemma live_reowned g R O a x : g = with_fs a g -> (forall q, q ∈ R -> q ∈ g_refs g) -> live (reowned g R O a) fsp x -> live g fsp x.
Proof.
  intros Hg HR [(n & Hn)|(v & t & Hv & Hi)]; [left; exists n; rewrite Hg, names_with; unfold names_of in Hn; cbn in Hn; by rewrite lookup_singleton_eq in Hn|right; exists v, t; split; [by apply HR|done]].
Qed.

Lemma shows_reowned a g w s M d R O : g = with_fs a g -> shows a g w s M d -> (forall q, q ∈ R -> q ∈ g_refs g) -> shows a (reowned g R O a) w s M d.
Proof. intros Hg (H1 & H2 & H3) HR. split; [done|]. split; [done|]. intros ino i Hne Hi Hl. apply H3; [done|done|]. by eapply live_reowned. Qed.

(** ** What is owned *)

Lemma owned_ext g g' w : owned_by g w -> g_refs g' = g_refs g -> g_opens g' = g_opens g -> g_fs g' = g_fs g -> (forall v, v ∈ g_refs g -> g_vn g' !! v = g_vn g !! v) -> owned_by g' w.
Proof.
  intros (s & p & M & d & Hi) H1 H2 H3 H4. exists s, p, M, d. pose proof Hi as []. constructor; rewrite ?H1, ?H2; try done.
  - intros q Hq. rewrite H4 by done. by apply in_refs0.
  - destruct in_gfs0 as (a & Hg & Hv & Hn & Hb). exists a. rewrite H3. split; [done|]. split; [done|]. split; [done|]. intros ino i Hne HM Hl. apply (Hb ino i Hne HM).
    destruct Hl as [(n & Hl)|(v & t & Hv' & Hx)]; [left; exists n; unfold names_of in *; by rewrite H3 in Hl|right; exists v, t]. rewrite H1 in Hv'. split; [done|]. by rewrite <- H4.
Qed.

Lemma owned_known g w v : owned_by g w -> v ∈ g_refs g -> exists i, known g v i.
Proof. intros (s & p & M & d & Hi) Hv. destruct (in_refs _ _ _ _ _ _ Hi v Hv) as [[i Hx] E]. exists i. split; [done|congruence]. Qed.

Lemma owned_ref g w v : owned_by g w -> v ∈ g_refs g -> v <> 0 /\ exists i, g_vn g !! v = Some i /\ k_vn_fs fsp v w = Ok (vi_fs i).
Proof.
  intros Ho Hv. destruct (owned_known g w v Ho Hv) as [i Hk]. destruct Ho as (s & p & M & d & Hi). unfold k_vn_fs.
  destruct (known_cases _ _ _ _ _ _ _ _ Hi Hk) as [(dv & Hd & ->)|(Hd & x & Hx & _ & _ & -> & _)]; rewrite Hd.
  - split; [by apply (in_dv _ _ _ _ _ _ Hi v dv)|]. eexists. split; [apply Hk|done].
  - split; [apply (in_addr _ _ _ _ _ _ Hi); rewrite (sv_cnt _ _ _ Hx); by eexists|]. eexists. split; [apply Hk|]. unfold fs_rd. by rewrite (in_fs _ _ _ _ _ _ Hi), Ok_bind, (sv_rd_run v s x Hx).
Qed.

Lemma owned_type g w v i : owned_by g w -> known g v i -> vi_type i ∈ [S_IFREG; S_IFDIR; S_IFCHR; S_IFBLK].
Proof.
  intros (s & p & M & d & Hi) Hk. destruct (known_cases _ _ _ _ _ _ _ _ Hi Hk) as [(dv & Hd & ->)|(Hd & x & Hx & _ & _ & -> & _)]; cbn [vi_type].
  - unfold dev_gettype. destruct (_ >? 0); set_solver.
  - case_decide; set_solver.
Qed.

Lemma owned_opens g w : owned_by g w -> g_opens g ⊆ g_refs g.
Proof. intros (s & p & M & d & Hi). apply Hi. Qed.

Lemma owned_dir g w v i : owned_by g w -> known g v i -> vi_type i = S_IFDIR -> vi_fs i <> 0 /\ is_Some (g_fs g !! vi_fs i).
Proof.
  intros (s & p & M & d & Hi) Hk Ht. destruct (known_cases _ _ _ _ _ _ _ _ Hi Hk) as [(dv & Hd & ->)|(Hd & x & Hx & _ & _ & -> & _)]; cbn [vi_type vi_fs] in *.
  - unfold dev_gettype in Ht. by destruct (_ >? 0).
  - split; [done|]. by apply (names_gfs _ _ _ _ _ _ Hi).
Qed.

Lemma inst_bytes g w s p M d ino i : inst g w s p M d -> ino <> 1 -> M !! ino = Some i -> live g fsp ino -> Vnode.bytes_of fsp ino g = Some (contents (dev s) i).
Proof. intros Hi H1 HM Hl. destruct (inst_shows _ _ _ _ _ _ Hi) as (a & Hg & _ & _ & Hb). rewrite Hg, bytes_with. by apply Hb. Qed.

(** The file that a vnode stands for. *)
Lemma file_known g w s p M d v x : inst g w s p M d -> v ∈ g_refs g -> kw_devs w !! v = None -> svs s !! v = Some x -> v <> p ->
  sv_ino x <> 1 /\ M !! sv_ino x = Some (sv_i x) /\ live g fsp (sv_ino x) /\ Vnode.bytes_of fsp (sv_ino x) g = Some (contents (dev s) (sv_i x)).
Proof.
  intros Hi Hv Hd Hx Hp. destruct (in_sane _ _ _ _ _ _ Hi) as [Hco _]. pose proof Hco as [HF _]. pose proof (core_ino p v s x M d Hco Hx Hp) as H1. destruct (fi_loaded _ _ HF v x Hx) as (HM & _).
  assert (live g fsp (sv_ino x)) as Hl.
  { right. exists v, S_IFREG. split; [done|]. destruct (in_refs _ _ _ _ _ _ Hi v Hv) as [_ ->]. unfold info. rewrite Hd, (sv_cnt _ _ _ Hx), decide_False by done. done. }
  split; [done|]. split; [done|]. split; [done|]. by apply (inst_bytes g w s p M d).
Qed.

Lemma owned_file g w v i : owned_by g w -> known g v i -> vi_type i = S_IFREG -> is_Some (Vnode.bytes_of (vi_fs i) (vi_id i) g).
Proof.
  intros (s & p & M & d & Hi) Hk Ht. destruct (known_cases _ _ _ _ _ _ _ _ Hi Hk) as [(dv & Hd & ->)|(Hd & x & Hx & _ & _ & -> & _)]; cbn [vi_type vi_fs vi_id] in *.
  - unfold dev_gettype in Ht. by destruct (_ >? 0).
  - destruct (decide (v = p)) as [|Hne]; [done|]. destruct (file_known g w s p M d v x Hi (proj1 Hk) Hd Hx Hne) as (_ & _ & _ & ->). by eexists.
Qed.

Lemma owned_named g w f n id : owned_by g w -> names_of f g !! n = Some id -> is_Some (Vnode.bytes_of f id g).
Proof.
  intros (s & p & M & d & Hi) Hn. destruct (names_gfs _ _ _ _ _ _ Hi) as (Hd & _ & Hoth). destruct (decide (f = fsp)) as [->|Hne]; [|by rewrite (proj1 (Hoth f Hne)) in Hn].
  assert (live g fsp id) as Hl by (left; by exists n). destruct (live_inode _ _ _ _ _ _ _ Hi Hl) as [i HM]. rewrite Hd in Hn. destruct (in_sane _ _ _ _ _ _ Hi) as [[_ (v & _ & _ & _ & Hnm)] _].
  rewrite (inst_bytes g w s p M d id i); [by eexists|done|by apply (Hnm n)|done|done].
Qed.

(** ** Reference and open counts *)

Lemma count_add q v (R : gmultiset Z) : count q (R ⊎ {[+ v +]}) = count q R + if decide (q = v) then 1 else 0.
Proof. unfold count. rewrite multiplicity_disj_union, multiplicity_singleton. case_decide; lia. Qed.

Lemma count_drop q v (R : gmultiset Z) : v ∈ R -> count q (R ∖ {[+ v +]}) = count q R - if decide (q = v) then 1 else 0.
Proof.
  intros Hv. assert (0 < multiplicity v R)%nat by exact Hv. unfold count. rewrite multiplicity_difference, multiplicity_singleton. case_decide; [subst|]; lia.
Qed.

Lemma cnt_wr q v x (s : sfs) : cnt (sv_wr v x s) q = if decide (q = v) then Some (sv_ino x, vn_refcount x, vn_opencount x) else cnt s q.
Proof. unfold cnt. cbn. case_decide as E; [subst; by rewrite lookup_insert_eq|by rewrite lookup_insert_ne]. Qed.

Lemma reown g a R O : g = with_fs a g -> mk_ghost R O (g_fs g) (g_vn g) = reowned g R O a.
Proof. intros Hg. unfold reowned. f_equal. by rewrite Hg. Qed.

(** New counts of the vnode at [v], a file or the directory. *)
Lemma recount_sfs g w s p M d v x r o R O : inst g w s p M d -> svs s !! v = Some x -> kw_devs w !! v = None -> 1 <= r ->
  (forall q, q ∈ R -> q ∈ g_refs g) -> (forall q, q <> v -> count q R = count q (g_refs g) /\ count q O = count q (g_opens g)) ->
  count v R + (if decide (v = p) then 1 else 0) <= r <= count v R + 1 -> o = count v O -> O ⊆ R -> (forall q, count q R <= ref_max) ->
  owned_by (mk_ghost R O (g_fs g) (g_vn g)) (set_sfs (sv_wr v (mk_sv (sv_i x) (sv_ino x) (sv_dirty x) r o) s) w).
Proof.
  intros Hi Hx Hd Hr HR Hoth Hv Ho HO Hmax. destruct (inst_shows _ _ _ _ _ _ Hi) as (a & Hg & Ha). set (s' := sv_wr v _ s).
  destruct (sane_recount p v s x (mk_sv (sv_i x) (sv_ino x) (sv_dirty x) r o) M d (in_sane _ _ _ _ _ _ Hi) Hx) as [Hs' Hk]; [done|done|cbn; subst o; unfold count; lia|]. fold s' in Hs', Hk.
  exists s', p, M, d. rewrite (reown g a R O Hg). assert (forall q, cnt s' q = if decide (q = v) then Some (sv_ino x, r, o) else cnt s q) as Hcnt by (intros q; apply cnt_wr).
  apply (inst_recount g w s p M d); try done.
  - by apply (shows_reowned a g w s M d).
  - intros q. rewrite Hcnt. destruct (decide (q = v)) as [->|]; [|done]. rewrite (sv_cnt _ _ _ Hx). by eexists.
  - intros q j r' o'. rewrite Hcnt. destruct (decide (q = v)) as [->|Hne]; [intros [= <- <- <-]; done|]. destruct (Hoth q Hne) as [-> ->]. apply (in_counted _ _ _ _ _ _ Hi).
  - intros q Hq Hqd. rewrite Hcnt. destruct (in_refs _ _ _ _ _ _ Hi q (HR q Hq)) as [[y Hy] _]. unfold info in Hy. rewrite Hqd in Hy. destruct (cnt s q) as [[[j r'] o']|] eqn:Hc; [|done].
    destruct (decide (q = v)) as [->|Hne]; [|by eexists _, _, _, _, _]. rewrite (sv_cnt _ _ _ Hx) in Hc. injection Hc as <- <- <-. by eexists _, _, _, _, _.
  - intros q [y Hy]. apply Hoth. congruence.
Qed.

(** The same for a device. *)
Lemma recount_dev g w s p M d v dv r o dw R O : inst g w s p M d -> kw_devs w !! v = Some dv -> 1 <= r ->
  (forall q, q ∈ R -> q ∈ g_refs g) -> (forall q, q <> v -> count q R = count q (g_refs g) /\ count q O = count q (g_opens g)) ->
  count v R <= r <= count v R + 1 -> o = count v O -> O ⊆ R -> (forall q, count q R <= ref_max) ->
  owned_by (mk_ghost R O (g_fs g) (g_vn g)) (set_dw dw (set_dv v (mk_dv (vn_data dv) r o) w)).
Proof.
  intros Hi Hd Hr HR Hoth Hv Ho HO Hmax. destruct (inst_shows _ _ _ _ _ _ Hi) as (a & Hg & Ha). exists s, p, M, d. rewrite (reown g a R O Hg).
  apply (inst_redev g w s p M d a v dv); try done. by apply (shows_reowned a g w s M d).
Qed.

Lemma k_incref_run g w v : owned_by g w -> v ∈ g_refs g -> roomy 1 g -> exists w', k_incref v w = Ok w' /\ owned_by (add_ref v g) w'.
Proof.
  intros Ho Hv Hroom. destruct (owned_known g w v Ho Hv) as [i Hk]. destruct Ho as (s & p & M & d & Hi). unfold k_incref, on_counts.
  pose proof (in_max _ _ _ _ _ _ Hi v) as Hm. unfold ref_max in Hm. assert (forall q, count q (g_refs g ⊎ {[+ v +]}) <= ref_max) as Hmax.
  { intros q. rewrite count_add. specialize (Hroom q). case_decide; lia. }
  assert (forall q, q ∈ g_refs g ⊎ {[+ v +]} -> q ∈ g_refs g) as HR by multiset_solver. assert (g_opens g ⊆ g_refs g ⊎ {[+ v +]}) as HO by (pose proof (in_opens _ _ _ _ _ _ Hi); multiset_solver).
  assert (forall q, q <> v -> count q (g_refs g ⊎ {[+ v +]}) = count q (g_refs g) /\ count q (g_opens g) = count q (g_opens g)) as Hoth by (intros q Hq; rewrite count_add, decide_False by done; lia).
  destruct (known_cases _ _ _ _ _ _ _ _ Hi Hk) as [(dv & Hd & _)|(Hd & x & Hx & Hr & _)]; rewrite Hd.
  - destruct (in_dv _ _ _ _ _ _ Hi v dv Hd) as (_ & Hr1 & Hr & Hop). unfold dv_incref. rewrite c_int_id, !Ok_bind by (unfold int_min, int_max; lia). eexists. split; [done|].
    apply (recount_dev g w s p M d v dv); try done; [lia|]. rewrite count_add, decide_True by done. lia.
  - destruct (in_counted _ _ _ _ _ _ Hi v _ _ _ (sv_cnt _ _ _ Hx)) as [Hc Hop]. unfold fs_rd, vnode_incref. rewrite (in_fs _ _ _ _ _ _ Hi), Ok_bind, (sv_rd_run v s x Hx), Ok_bind, c_int_id, !Ok_bind by (unfold int_min, int_max; lia).
    eexists. split; [done|]. apply (recount_sfs g w s p M d v x); try done; [lia|]. rewrite count_add, (decide_True (P := v = v)) by done. lia.
Qed.

Lemma k_incopen_run g w v : owned_by g w -> count v (g_opens g) < count v (g_refs g) -> exists w', k_incopen v w = Ok w' /\ owned_by (add_open v g) w'.
Proof.
  intros Ho Hlt. assert (v ∈ g_refs g) as Hv by (unfold count in Hlt; apply elem_of_multiplicity; lia). destruct (owned_known g w v Ho Hv) as [i Hk]. destruct Ho as (s & p & M & d & Hi). unfold k_incopen, on_counts.
  pose proof (in_max _ _ _ _ _ _ Hi) as Hmax. pose proof (Hmax v) as Hm. unfold ref_max in Hm. assert (0 <= count v (g_opens g)) as H0 by (unfold count; lia).
  assert (g_opens g ⊎ {[+ v +]} ⊆ g_refs g) as HO.
  { intros q. pose proof (in_opens _ _ _ _ _ _ Hi q). pose proof (count_add q v (g_opens g)) as E. unfold count in *. case_decide; [subst|]; lia. }
  assert (forall q, q <> v -> count q (g_refs g) = count q (g_refs g) /\ count q (g_opens g ⊎ {[+ v +]}) = count q (g_opens g)) as Hoth by (intros q Hq; rewrite count_add, decide_False by done; lia).
  destruct (known_cases _ _ _ _ _ _ _ _ Hi Hk) as [(dv & Hd & _)|(Hd & x & Hx & Hr & _)]; rewrite Hd.
  - destruct (in_dv _ _ _ _ _ _ Hi v dv Hd) as (_ & Hr1 & Hr & Hop). unfold dv_incopen. rewrite c_int_id, !Ok_bind by (unfold int_min, int_max; lia). eexists. split; [done|].
    apply (recount_dev g w s p M d v dv); try done. rewrite count_add, decide_True by done. lia.
  - destruct (in_counted _ _ _ _ _ _ Hi v _ _ _ (sv_cnt _ _ _ Hx)) as [Hc Hop]. unfold fs_rd, vnode_incopen. rewrite (in_fs _ _ _ _ _ _ Hi), Ok_bind, (sv_rd_run v s x Hx), Ok_bind, c_int_id, !Ok_bind by (unfold int_min, int_max; lia).
    eexists. split; [done|]. apply (recount_sfs g w s p M d v x); try done. rewrite count_add, (decide_True (P := v = v)) by done. lia.
Qed.

(** The devices' own state and the time do not matter. *)
Lemma inst_shift g w w' s p M d : inst g w s p M d -> kw_fs w' = kw_fs w -> kw_super w' = kw_super w -> kw_devs w' = kw_devs w -> inst g w' s p M d.
Proof.
  intros [] H1 H2 H3. constructor; rewrite ?H1, ?H2, ?H3; try done. intros q Hq. unfold info. rewrite H3. by apply in_refs0.
Qed.

Lemma owned_shift g w w' : owned_by g w -> kw_fs w' = kw_fs w -> kw_super w' = kw_super w -> kw_devs w' = kw_devs w -> owned_by g w'.
Proof. intros (s & p & M & d & Hi) H1 H2 H3. exists s, p, M, d. by apply (inst_shift g w). Qed.

(** The last reference to a file. *)
Lemma last_decref g w s p M d v x : inst g w s p M d -> v ∈ g_refs g -> kw_devs w !! v = None -> svs s !! v = Some x -> v <> p -> vn_refcount x = 1 -> count v (g_opens g) < count v (g_refs g) ->
  exists s', vnode_decref v s = Ok s' /\ owned_by (drop_ref v g) (set_sfs s' w).
Proof.
  intros Hi Hv Hd Hx Hp Hr1 Hlt. pose proof Hi as []. destruct (in_counted0 v _ _ _ (sv_cnt _ _ _ Hx)) as [Hc Hop]. rewrite decide_False, Hr1 in Hc by done.
  assert (0 <= count v (g_opens g)) as H0 by (unfold count; lia). assert (count v (g_refs g) = 1) as Hc1 by lia.
  destruct (sane_decref p v s x M d in_sane0 Hx Hp) as (s' & M' & -> & Hs' & Hkb & HM' & [Hoth Hlo] & Hkd & _); [lia|]. exists s'. split; [done|].
  destruct (inst_shows _ _ _ _ _ _ Hi) as (a & Hg & Ha). exists s', p, M', d. unfold drop_ref, set_refs. rewrite (reown g a _ _ Hg).
  assert (forall q, q ∈ g_refs g ∖ {[+ v +]} -> q ∈ g_refs g /\ q <> v) as HR.
  { intros q Hq. split; [multiset_solver|]. intros ->. assert (0 < multiplicity v (g_refs g ∖ {[+ v +]}))%nat by exact Hq. pose proof (count_drop v v _ Hv) as E. rewrite decide_True in E by done. unfold count in *. lia. }
  destruct Hlo as [(j & r & o & Hgt & E & _)|(j & E & E')]; rewrite (sv_cnt _ _ _ Hx) in E; injection E as <- E1 E2; [lia|].
  apply (inst_recount g w s p M d); try done.
  - pose proof Ha as (Hvol & Hnm & Hby). split; [done|]. split; [done|]. intros ino i Hne Hi' Hl. assert (live g fsp ino) as Hl' by (apply (live_reowned g _ _ a ino Hg) in Hl; [done|intros q Hq; by apply HR]).
    destruct (live_inode _ _ _ _ _ _ _ Hi Hl') as [i0 Hi0]. rewrite (Hby ino i0 Hne Hi0 Hl'). f_equal. assert (exists i', M' !! ino = Some i' /\ data (dev s') i' = data (dev s) i0) as (i' & E3 & E4); [|unfold data in E4; congruence].
    destruct (decide (ino = sv_ino x)) as [->|Hno]; [|by apply Hkb]. apply Hkd; [|done|done]. left. destruct Hl as [(n & Hn)|(q & t & Hq & Ht)].
    + unfold names_of in Hn. cbn in Hn. rewrite lookup_singleton_eq in Hn. cbn in Hn. rewrite Hnm in Hn. by eapply links_pos.
    + exfalso. destruct (HR q Hq) as [Hq' Hqv]. destruct (in_refs0 q Hq') as [_ Eq]. cbn in Ht. rewrite Ht in Eq. unfold info in Eq. destruct (kw_devs w !! q); [congruence|].
      destruct (cnt s q) as [[[j r] o]|] eqn:Hcq; [|done]. injection Eq as Eq _. destruct (cnt_sv _ _ _ _ _ Hcq) as (y & Hy & Hj & _). destruct in_sane0 as [[HF _] _]. apply Hqv. eapply (fi_inj _ _ HF); [done|done|congruence].
  - intros q Hq. by apply HR.
  - intros q Hq. destruct (decide (q = v)) as [->|Hne]; [rewrite (sv_cnt _ _ _ Hx); by eexists|]. by rewrite <- Hoth.
  - intros q j r o Hq. rewrite (count_drop q v) by done. destruct (decide (q = v)) as [->|Hne].
    + destruct E' as [E'|E']; rewrite E' in Hq; [done|]. injection Hq as <- <- <-. rewrite decide_False by done. lia.
    + rewrite Hoth in Hq by done. destruct (in_counted0 q _ _ _ Hq). split; [lia|done].
  - intros q Hq Hqd. destruct (HR q Hq) as [Hq' Hqv]. rewrite (Hoth q Hqv). destruct (in_refs0 q Hq') as [[y Hy] _]. unfold info in Hy. rewrite Hqd in Hy. destruct (cnt s q) as [[[j r] o]|]; [|done]. by eexists _, _, _, _, _.
  - intros q [y Hy]. rewrite (count_drop q v), decide_False by congruence. split; [lia|done].
  - intros q. pose proof (in_opens0 q). pose proof (count_drop q v _ Hv) as Eq. unfold count in *. case_decide; [subst|]; lia.
  - intros q. rewrite (count_drop q v) by done. specialize (in_max0 q). case_decide; lia.
Qed.

Lemma k_decref_run g w v : owned_by g w -> count v (g_opens g) < count v (g_refs g) -> exists w', k_decref v w = Ok w' /\ owned_by (drop_ref v g) w'.
Proof.
  intros Ho Hlt. assert (v ∈ g_refs g) as Hv by (unfold count in Hlt; apply elem_of_multiplicity; lia). destruct (owned_known g w v Ho Hv) as [i Hk]. destruct Ho as (s & p & M & d & Hi). unfold k_decref, on_counts.
  pose proof (in_max _ _ _ _ _ _ Hi) as Hm. assert (forall q, count q (g_refs g ∖ {[+ v +]}) <= ref_max) as Hmax by (intros q; rewrite (count_drop q v) by done; specialize (Hm q); case_decide; lia).
  assert (forall q, q ∈ g_refs g ∖ {[+ v +]} -> q ∈ g_refs g) as HR by multiset_solver. assert (0 <= count v (g_opens g)) as H0 by (unfold count; lia).
  assert (g_opens g ⊆ g_refs g ∖ {[+ v +]}) as HO.
  { intros q. pose proof (in_opens _ _ _ _ _ _ Hi q). pose proof (count_drop q v _ Hv) as E. unfold count in *. case_decide; [subst|]; lia. }
  assert (forall q, q <> v -> count q (g_refs g ∖ {[+ v +]}) = count q (g_refs g) /\ count q (g_opens g) = count q (g_opens g)) as Hoth by (intros q Hq; rewrite (count_drop q v), decide_False by done; lia).
  destruct (known_cases _ _ _ _ _ _ _ _ Hi Hk) as [(dv & Hd & _)|(Hd & x & Hx & Hr & _)]; rewrite Hd.
  - destruct (in_dv _ _ _ _ _ _ Hi v dv Hd) as (_ & Hr1 & Hr & Hop). unfold dv_decref. replace (dv_refcount dv >? 0) with true by lia. cbn [c_assert]. rewrite Ok_bind. destruct (Z.gtb_spec (dv_refcount dv) 1) as [Hgt|Hle].
    + rewrite !Ok_bind. eexists. split; [done|]. apply (recount_dev g w s p M d v dv); try done; [lia|]. rewrite (count_drop v v), decide_True by done. lia.
    + unfold dv_check. replace (dv_refcount dv <? 0) with false by lia. replace (dv_opencount dv <? 0) with false by lia. cbn [negb andb orb c_assert]. rewrite !Ok_bind. eexists. split; [done|].
      replace dv with (mk_dv (vn_data dv) (dv_refcount dv) (dv_opencount dv)) at 1 by (by destruct dv). apply (recount_dev g w s p M d v dv); try done. rewrite (count_drop v v), decide_True by done. lia.
  - destruct (in_counted _ _ _ _ _ _ Hi v _ _ _ (sv_cnt _ _ _ Hx)) as [Hc Hop]. unfold fs_rd. rewrite (in_fs _ _ _ _ _ _ Hi), Ok_bind. destruct (decide (vn_refcount x = 1)) as [Hr1|Hr1].
    + assert (v <> p) as Hp by (intros ->; rewrite decide_True in Hc by done; lia). destruct (last_decref g w s p M d v x Hi Hv Hd Hx Hp Hr1 Hlt) as (s' & -> & Ho'). rewrite Ok_bind. by eexists.
    + unfold vnode_decref. rewrite (sv_rd_run v s x Hx), Ok_bind. replace (vn_refcount x >? 0) with true by lia. cbn [c_assert]. rewrite Ok_bind. replace (vn_refcount x >? 1) with true by lia. rewrite Ok_bind.
      eexists. split; [done|]. apply (recount_sfs g w s p M d v x); try done; [lia|]. rewrite (count_drop v v), (decide_True (P := v = v)) by done. lia.
Qed.

Lemma k_decopen_run g w v : owned_by g w -> v ∈ g_opens g -> exists w', k_decopen v w = Ok w' /\ owned_by (drop_open v g) w'.
Proof.
  intros Ho Hvo. pose proof (owned_opens g w Ho) as HO0. assert (v ∈ g_refs g) as Hv by (by eapply gmultiset_elem_of_subseteq). destruct (owned_known g w v Ho Hv) as [i Hk]. destruct Ho as (s & p & M & d & Hi). unfold k_decopen, on_counts.
  pose proof (in_max _ _ _ _ _ _ Hi) as Hmax. assert (0 < count v (g_opens g)) as H0 by (assert (0 < multiplicity v (g_opens g))%nat by exact Hvo; unfold count; lia). pose proof (count_drop v v _ Hvo) as Hcv. rewrite decide_True in Hcv by done.
  assert (g_opens g ∖ {[+ v +]} ⊆ g_refs g) as HO by multiset_solver.
  assert (forall q, q <> v -> count q (g_refs g) = count q (g_refs g) /\ count q (g_opens g ∖ {[+ v +]}) = count q (g_opens g)) as Hoth by (intros q Hq; rewrite (count_drop q v), decide_False by done; lia).
  destruct (known_cases _ _ _ _ _ _ _ _ Hi Hk) as [(dv & Hd & _)|(Hd & x & Hx & Hr & _)]; rewrite Hd.
  - destruct (in_dv _ _ _ _ _ _ Hi v dv Hd) as (_ & Hr1 & Hr & Hop). unfold dv_decopen. replace (dv_opencount dv >? 0) with true by lia. cbn [c_assert]. rewrite Ok_bind. cbn [dv_opencount dv_refcount vn_data].
    assert (forall dw, owned_by (drop_open v g) (set_dw dw (set_dv v (mk_dv (vn_data dv) (dv_refcount dv) (dv_opencount dv - 1)) w))) as Hdone by (intros dw; apply (recount_dev g w s p M d v dv); try done; lia).
    destruct (_ >? 0); [rewrite Ok_bind; eauto|]. unfold dv_check. cbn [dv_opencount dv_refcount]. replace (dv_refcount dv <? 0) with false by lia. replace (dv_refcount dv =? 0) with false by lia.
    replace (dv_opencount dv - 1 <? 0) with false by lia. cbn [negb andb orb c_assert]. rewrite !Ok_bind. unfold dev_close. cbn [vn_data]. destruct (d_close_law (vn_data dv) (kw_dw w)) as (r & dw & ->). rewrite !Ok_bind. eauto.
  - destruct (in_counted _ _ _ _ _ _ Hi v _ _ _ (sv_cnt _ _ _ Hx)) as [Hc Hop]. unfold fs_rd, vnode_decopen. rewrite (in_fs _ _ _ _ _ _ Hi), Ok_bind, (sv_rd_run v s x Hx), Ok_bind. replace (vn_opencount x >? 0) with true by lia. cbn [c_assert]. rewrite Ok_bind.
    set (s1 := sv_wr v (with_opencount x (vn_opencount x - 1)) s). assert (owned_by (drop_open v g) (set_sfs s1 w)) as (s1' & p1 & M1 & d1 & Hi1) by (apply (recount_sfs g w s p M d v x); try done; lia).
    pose proof (in_fs _ _ _ _ _ _ Hi1) as E. cbn in E. injection E as <-. destruct (_ >? 0); [rewrite Ok_bind; eexists; split; [done|by exists s1, p1, M1, d1]|].
    assert (svs s1 !! v = Some (with_opencount x (vn_opencount x - 1))) as Hx1 by (cbn; by rewrite lookup_insert_eq). unfold sfs_close, sfs_fsync.
    rewrite !(vnode_check_run v false s1 _ Hx1), !Ok_bind by (cbn; lia). destruct (sane_sync p1 v s1 _ M1 d1 (in_sane _ _ _ _ _ _ Hi1) Hx1) as (s2 & -> & Hs2 & Hk2 & Hc2). rewrite !Ok_bind. eexists. split; [done|].
    exists s2, p1, M1, d1. apply (inst_shift _ (set_sfs s2 (set_sfs s1 w))); try done. apply (inst_same _ _ s1 p1 M1 d1); try done. by apply same_leaks.
Qed.

(** ** Operations that leave the file system alone *)

(** The three tables of operations. *)
Ltac dispatch Hi Hk :=
  let dv := fresh "dv" in let Hd := fresh "Hd" in let Hp := fresh "Hp" in let x := fresh "x" in let Hx := fresh "Hx" in
  match goal with |- context [by_type ?q ?dev ?file ?dir ?w] =>
    destruct (by_type_run _ _ _ _ _ _ q _ dev file dir Hi Hk) as [(dv & Hd & -> & ->)|[(-> & Hd & -> & ->)|(Hp & Hd & x & Hx & -> & ->)]]
  end.

Lemma vop_open_run g w v i flags : owned_by g w -> known g v i ->
  exists r w', vop_open v flags w = Ok (r, w') /\ owned_by g w' /\ (vi_type i = S_IFREG -> Z.land flags O_APPEND = 0 -> r = 0).
Proof.
  intros Ho Hk. pose proof Ho as (s & p & M & d & Hi). unfold vop_open.
  dispatch Hi Hk.
  - unfold dev_open. assert (vi_type (mk_vi 0 (vn_data dv) (dev_gettype (D := D) (DW := DW) dv)) <> S_IFREG) as Ht by (cbn; unfold dev_gettype; by destruct (_ >? 0)).
    destruct (negb _); [|destruct (d_open_law (vn_data dv) flags (kw_dw w)) as (r & dw & ->)]; rewrite Ok_bind; eexists _, _; (split; [done|]); (split; [by apply (owned_shift g w)|done]).
  - eexists _, _. split; [done|]. by split.
  - eexists _, _. split; [done|]. split; [done|]. intros _ Hf. unfold sfs_open. by rewrite Hf.
Qed.

Lemma vop_gettype_run g w v i : owned_by g w -> known g v i -> exists r w', vop_gettype v w = Ok (r, vi_type i, w') /\ owned_by g w'.
Proof.
  intros Ho Hk. pose proof Ho as (s & p & M & d & Hi). unfold vop_gettype.
  dispatch Hi Hk; [by eexists _, _|..].
  - destruct (root_sv p s M d (in_sane _ _ _ _ _ _ Hi)) as (x & Hx & _ & Ht & _). unfold sfs_gettype. rewrite (sv_rd_run p s x Hx), Ok_bind, Ht. by eexists _, _.
  - destruct (in_sane _ _ _ _ _ _ Hi) as [Hco _]. pose proof Hco as [HF _]. destruct (fi_loaded _ _ HF v x Hx) as (HM & _). unfold sfs_gettype. rewrite (sv_rd_run v s x Hx), Ok_bind, (fi_type _ _ HF _ _ HM), decide_False by (by eapply core_ino). by eexists _, _.
Qed.

Lemma vop_namefile_run g w v i u : owned_by g w -> known g v i -> vi_type i = S_IFDIR -> exists r u' w', vop_namefile v u w = Ok (r, u', w') /\ owned_by g w'.
Proof.
  intros Ho Hk _. pose proof Ho as (s & p & M & d & Hi). unfold vop_namefile.
  dispatch Hi Hk; [by eexists _, _, _| |by eexists _, _, _].
  destruct (root_sv p s M d (in_sane _ _ _ _ _ _ Hi)) as (x & Hx & H1 & _). unfold sfs_namefile. rewrite (sv_rd_run p s x Hx), Ok_bind, H1. by eexists _, _, _.
Qed.

Lemma vop_mkdir_run g w v i nm : owned_by g w -> known g v i -> exists r w', vop_mkdir v nm w = Ok (r, w') /\ r <> 0 /\ owned_by g w'.
Proof.
  intros Ho Hk. pose proof Ho as (s & p & M & d & Hi). unfold vop_mkdir.
  dispatch Hi Hk; eexists _, _; (split; [done|by split]).
Qed.

Lemma vop_symlink_run g w v i c nm : owned_by g w -> known g v i -> exists r w', vop_symlink v c nm w = Ok (r, w') /\ r <> 0 /\ owned_by g w'.
Proof. exact (vop_mkdir_run g w v i nm). Qed.

Lemma vop_readlink_run g w v i u : owned_by g w -> known g v i -> exists r u' w', vop_readlink v u w = Ok (r, u', w') /\ r <> 0 /\ owned_by g w'.
Proof.
  intros Ho Hk. pose proof Ho as (s & p & M & d & Hi). unfold vop_readlink.
  dispatch Hi Hk; eexists _, _, _; (split; [done|by split]).
Qed.

(** ** Transfers *)

Lemma contents_bytes s i : fs_ok s -> file_ok s i -> Forall byte (contents (dev s) i).
Proof.
  intros Hfs Hf. unfold contents. apply list.Forall_fmap, list.Forall_true. intros k. cbn. unfold file_byte. set (b := nth _ _ 0).
  destruct (Z.eqb_spec b 0) as [|Hb]; [unfold byte; lia|]. assert (used s b) as [Hu _] by (by apply (fo_used _ _ Hf), nth_fmap_block). pose proof (fk_dev _ Hfs).
  destruct (hw_block (dev s) b) as [Hl HF]; [lia|]. rewrite list.Forall_lookup in HF. destruct (nth_lookup_or_length (sector (dev s) b) (Z.to_nat (Z.of_nat k mod 512)) 0) as [E|E]; [by eapply HF|].
  pose proof (Z.mod_pos_bound (Z.of_nat k) 512). lia.
Qed.

Lemma steps_refl u : fits u (uio_resid u) -> steps u u.
Proof. intros (H1 & _). split; [done|]. split; [done|]. lia. Qed.

Lemma steps_moved u bs n : fits u (uio_resid u) -> 0 <= n <= uio_resid u -> zlen bs = n -> Forall byte bs \/ bs = take (Z.to_nat n) (uio_left u) -> steps u (moved u bs n).
Proof.
  intros (H1 & _ & H3 & _) Hn Hl Hb. unfold steps, moved, uio_buffer. cbn. split; [rewrite !length_app, length_drop; lia|]. split; [|lia].
  rewrite !Forall_app. intros [Hd Hle]. split; [split; [done|]|by apply list.Forall_drop]. destruct Hb as [?| ->]; [done|]. by apply list.Forall_take.
Qed.

(** The file at [v] changes. *)
Lemma inst_update g w s p M d v x s' x' : inst g w s p M d -> v ∈ g_refs g -> kw_devs w !! v = None -> svs s !! v = Some x -> v <> p -> updates v s x s' x' ->
  (sfi_linkcount (sv_i x'), vn_refcount x', vn_opencount x') = (sfi_linkcount (sv_i x), vn_refcount x, vn_opencount x) ->
  owned_by (Vnode.set_bytes fsp (sv_ino x) (contents (dev s') (sv_i x')) g) (set_sfs s' w).
Proof.
  intros Hi Hv Hd Hx Hp Hup Hsame. injection Hsame as Hl Hr Ho. destruct (sane_update p v s x s' x' M d (in_sane _ _ _ _ _ _ Hi) Hx Hp Hup Hl) as (Hs' & Hk & Hc & Hx'); [congruence|].
  destruct (inst_shows _ _ _ _ _ _ Hi) as (a & Hg & Ha). unfold Vnode.set_bytes. rewrite Hg, set_fs_with. eexists s', p, _, d. apply (inst_step g w s p M d); [done|exact Hs'|by apply same_leaks|].
  destruct Ha as (Hvol & Hnm & Hby). split; [done|]. split; [done|]. cbn [af_bytes]. intros ino i Hne Hi2 Hlv.
  rewrite lookup_insert in Hi2. rewrite lookup_insert. destruct (decide (sv_ino x = ino)) as [E|E]; [congruence|].
  assert (live g fsp ino) as Hlv'. { destruct Hlv as [(n & Hn)|Hq]; [left; exists n; rewrite names_with in Hn; by rewrite Hg, names_with|by right]. }
  rewrite (Hby ino i Hne Hi2 Hlv'). destruct (Hk ino i Hne) as (i' & E1 & E2); [done|done|]. rewrite lookup_insert_ne in E1 by done. assert (i' = i) as -> by congruence. unfold data in E2. congruence.
Qed.

Lemma set_bytes_id f id bs g : Vnode.bytes_of f id g = Some bs -> Vnode.set_bytes f id bs g = g.
Proof.
  intros Hb. destruct g as [R O F V]. unfold Vnode.set_bytes, Vnode.set_fs. cbn. f_equal. apply map_eq. intros y. rewrite lookup_alter. case_decide as E; [subst y|done].
  unfold Vnode.bytes_of in Hb. cbn in Hb. destruct (F !! f) as [a|]; [|done]. cbn in *. rewrite insert_id by done. by destruct a.
Qed.

(** The disk turns without a change. *)
Lemma owned_disk g w s p M d d' dw : inst g w s p M d -> same_disk (dev s) d' -> owned_by g (set_dw dw (set_disk d' w)).
Proof.
  intros Hi Hd. pose proof (in_sane _ _ _ _ _ _ Hi) as [Hco _]. pose proof Hco as [HF _]. destruct (read_same s d' (fi_fs _ _ HF) Hd) as [Hfs Hu].
  destruct (core_same p s (set_dev d' s) M d Hco Hfs eq_refl Hu) as (Hco' & Hk & _). exists (set_dev d' s), p, M, d. apply (inst_shift _ (set_sfs (set_dev d' s) w)); [|cbn; by rewrite (in_fs _ _ _ _ _ _ Hi)|done|done].
  apply (inst_same g w s p M d); [done|by apply (sane_step p s M d _ M (in_sane _ _ _ _ _ _ Hi))|done|by apply same_leaks].
Qed.

Lemma transfer_run g w s p M d v dv op u : inst g w s p M d -> kw_devs w !! v = Some dv -> (forall d dw, op dv u d dw = d_io (vn_data dv) u d dw) -> fits u (uio_resid u) -> uio_rw u = UIO_READ \/ dev_blocks (D := D) (DW := DW) (vn_data dv) <= 0 ->
  exists r u' w', dev_transfer op u w dv = Ok (r, u', w') /\ owned_by g w' /\ steps u u'.
Proof.
  intros Hi Hd Hop Hf Hrw. unfold dev_transfer, disk_of. rewrite (in_fs _ _ _ _ _ _ Hi), Hop. destruct (d_io_law (vn_data dv) u (dev s) (kw_dw w) Hf Hrw) as (r & u' & d' & dw & -> & Hst & Hsd).
  rewrite Ok_bind. eexists _, _, _. split; [done|]. split; [by eapply owned_disk|done].
Qed.

(** A file of the invariant, ready for a transfer. *)
Lemma file_ready g w s p M d v x u : inst g w s p M d -> svs s !! v = Some x -> fits u (uio_resid u) -> bytes_left u -> uio_resid u < 2147483648 -> ready v u (uio_resid u) s x /\ sfi_size (sv_i x) < 2147483648 /\ 0 <= sfi_size (sv_i x).
Proof.
  intros Hi Hx Hf Hb Hr. destruct (in_sane _ _ _ _ _ _ Hi) as [[HF _] _]. destruct (fi_loaded _ _ HF v x Hx) as (HM & _). destruct (fi_own _ _ HF _ _ HM) as (_ & Hfo & Hsz).
  split; [|split; [done|destruct Hfo as [[[] _] _ _]; done]]. constructor; try done. by destruct HF.
Qed.

Lemma vop_read_run g w v i u : owned_by g w -> known g v i -> uio_rw u = UIO_READ -> fits u (uio_resid u) -> bytes_left u -> uio_resid u < 2147483648 ->
  exists r u' w', vop_read v u w = Ok (r, u', w') /\ owned_by g w' /\ steps u u' /\
    (vi_type i = S_IFREG -> forall bs, Vnode.bytes_of (vi_fs i) (vi_id i) g = Some bs ->
      exists n, u' = moved u (take (Z.to_nat n) (drop (Z.to_nat (uio_offset u)) bs)) n /\ 0 <= n <= Vnode.readable u bs /\ ((r = 0 /\ n = Vnode.readable u bs) \/ mishap dependable r \/ (r = EINVAL /\ SFS_MAX <= zlen bs))).
Proof.
  intros Ho Hk Hrw Hf Hb Hr. pose proof Ho as (s & p & M & d & Hi). unfold vop_read. dispatch Hi Hk.
  - destruct (transfer_run g w s p M d v dv dev_read u Hi Hd) as (r & u' & w' & -> & Ho' & Hst); [intros; unfold dev_read; by rewrite bool_decide_true|done|by left|].
    exists r, u', w'. split; [done|]. split; [done|]. split; [done|]. cbn. unfold dev_gettype. by destruct (_ >? 0).
  - eexists _, _, _. split; [done|]. split; [done|]. split; [by apply steps_refl|done].
  - destruct (file_known g w s p M d v x Hi (proj1 Hk) Hd Hx Hp) as (_ & HM & _ & Hby). destruct (file_ready g w s p M d v x u Hi Hx Hf Hb Hr) as (Hrd & Hsz & Hs0).
    unfold on_fs2, sfs_read. rewrite is_write_read by done. cbn [negb c_assert]. rewrite Ok_bind.
    destruct (read_run v u s x Hrd Hsz Hrw) as (r & n & s' & -> & Hn & Hres & Hq). rewrite Ok_bind. eexists _, _, _. split; [done|].
    destruct (quiet_grows v s x s') as [Hgr Hc]; [by destruct Hrd..|done|]. pose proof (in_sane _ _ _ _ _ _ Hi) as [[HF _] _].
    assert (SfsFile.readable u (sv_i x) = Vnode.readable u (contents (dev s) (sv_i x))) as Erd by (unfold SfsFile.readable, Vnode.readable; rewrite contents_length; lia). rewrite Erd in Hn, Hres. split; [|split].
    + rewrite <- (set_bytes_id fsp (sv_ino x) (contents (dev s') (sv_i x)) g) by (by rewrite Hc). apply (inst_update g w s p M d v); try done; [apply Hk|eapply grows_updates; try done; lia].
    + unfold Vnode.readable in Hn. pose proof Hf as (? & _ & _ & ? & _). rewrite contents_length in Hn. apply steps_moved; [done|lia|rewrite length_take, length_drop, contents_length; lia|left]. apply list.Forall_take, list.Forall_drop, contents_bytes; [by destruct Hrd|by destruct Hrd].
    + intros _ bs. cbn [vi_fs vi_id]. rewrite Hby. intros [= <-]. exists n. split; [done|]. split; [done|]. destruct Hres as [?|[?%eio_mishap|[-> ?]]]; [by left|by right; left|]. right. right. split; [done|]. rewrite contents_length. unfold SFS_MAX. lia.
Qed.

Lemma vop_write_run g w v i u : owned_by g w -> known g v i -> vi_type i <> S_IFBLK -> uio_rw u = UIO_WRITE -> fits u (uio_resid u) -> bytes_left u -> uio_resid u < 2147483648 ->
  exists r u' w', vop_write v u w = Ok (r, u', w') /\ steps u u' /\
    ((vi_type i <> S_IFREG /\ owned_by g w') \/
     exists n bs bs', vi_type i = S_IFREG /\ Vnode.bytes_of (vi_fs i) (vi_id i) g = Some bs /\ owned_by (set_bytes (vi_fs i) (vi_id i) bs' g) w' /\
       u' = moved u (take (Z.to_nat n) (uio_left u)) n /\ 0 <= n <= uio_resid u /\ ((r = 0 /\ n = uio_resid u) \/ mishap dependable r \/ no_space r) /\
       (uio_offset u <= zlen bs -> bs' = write_at (uio_offset u) (take (Z.to_nat n) (uio_left u)) bs)).
Proof.
  intros Ho Hk Ht Hrw Hf Hb Hr. pose proof Ho as (s & p & M & d & Hi). unfold vop_write. dispatch Hi Hk.
  - cbn in Ht. unfold dev_gettype in Ht. destruct (Z.gtb_spec (dev_blocks (D := D) (DW := DW) (vn_data dv)) 0) as [|Hle]; [done|].
    destruct (transfer_run g w s p M d v dv dev_write u Hi Hd) as (r & u' & w' & -> & Ho' & Hst); [intros; unfold dev_write; by rewrite bool_decide_true|done|by right|].
    exists r, u', w'. split; [done|]. split; [done|]. left. split; [|done]. cbn. unfold dev_gettype. by destruct (_ >? 0).
  - eexists _, _, _. split; [done|]. split; [by apply steps_refl|by left].
  - destruct (file_known g w s p M d v x Hi (proj1 Hk) Hd Hx Hp) as (_ & HM & _ & Hby). destruct (file_ready g w s p M d v x u Hi Hx Hf Hb Hr) as (Hrd & Hsz & Hs0).
    unfold on_fs2, sfs_write. rewrite is_write_write by done. cbn [negb c_assert]. rewrite Ok_bind. pose proof Hf as (_ & _ & Hl & Ho0 & Hend).
    destruct (write_run v u s x Hrd Hsz Hrw) as (r & n & s' & x' & -> & Hn & Hres & Hgr & Hsz' & Hby'). rewrite Ok_bind. eexists _, _, _. split; [done|].
    assert (zlen (take (Z.to_nat n) (uio_left u)) = n) as Hln by (rewrite length_take; lia). split; [apply steps_moved; try done; by right|]. right. exists n, (contents (dev s) (sv_i x)), (contents (dev s') (sv_i x')).
    pose proof (in_sane _ _ _ _ _ _ Hi) as [[HF _] _]. pose proof Hgr as []. injection gr_same0 as _ Er Eo _ El.
    split; [done|]. split; [done|]. split; [|split; [done|split; [done|split; [destruct Hres as [?|?%stopped_error%io_mishap]; [by left|by right]|]]]].
    + apply (inst_update g w s p M d v); try done; [apply Hk|eapply grows_updates; try done; lia|congruence].
    + rewrite contents_length. intros Hoff. apply contents_write; [lia|by rewrite Hln|done].
Qed.

Lemma vop_truncate_run g w v i : owned_by g w -> known g v i ->
  exists r w', vop_truncate v 0 w = Ok (r, w') /\
    ((vi_type i <> S_IFREG /\ owned_by g w') \/
     exists bs', vi_type i = S_IFREG /\ owned_by (set_bytes (vi_fs i) (vi_id i) bs' g) w' /\ ((r = 0 /\ bs' = []) \/ mishap dependable r)).
Proof.
  intros Ho Hk. pose proof Ho as (s & p & M & d & Hi). unfold vop_truncate. dispatch Hi Hk.
  - eexists _, _. split; [done|]. left. split; [|done]. cbn. unfold dev_gettype. by destruct (_ >? 0).
  - eexists _, _. split; [done|]. by left.
  - pose proof (in_sane _ _ _ _ _ _ Hi) as [[HF _] _]. destruct (fi_loaded _ _ HF v x Hx) as (HM & _). destruct (fi_own _ _ HF _ _ HM) as (_ & Hfo & Hsz).
    unfold on_fs. destruct (truncate_run v s x 0 (fi_fs _ _ HF) Hx Hfo) as (r & s' & x' & -> & Htr & Hr); [lia|]. rewrite Ok_bind. eexists _, _. split; [done|]. right. exists (contents (dev s') (sv_i x')).
    pose proof Htr as []. injection tr_same0 as _ Er Eo _ El. split; [done|]. split; [apply (inst_update g w s p M d v); try done; [apply Hk|eapply truncated_updates; try done; lia|congruence]|].
    destruct Hr as [[-> Hz]|[?%eio_mishap _]]; [left|by right]. split; [done|]. apply nil_length_inv. rewrite contents_length. lia.
Qed.

(** ** Names *)

(** The directory is at [p] and the files are on this file system. *)
Lemma known_dir g w s p M d v i : inst g w s p M d -> known g v i -> vi_type i = S_IFDIR -> v = p /\ kw_devs w !! v = None /\ i = mk_vi fsp 1 S_IFDIR.
Proof.
  intros Hi Hk Ht. destruct (known_cases _ _ _ _ _ _ _ _ Hi Hk) as [(dv & Hd & ->)|(Hd & x & Hx & _ & _ & -> & _)].
  - cbn in Ht. unfold dev_gettype in Ht. by destruct (_ >? 0).
  - destruct (decide (v = p)) as [->|]; [|done]. destruct (root_sv p s M d (in_sane _ _ _ _ _ _ Hi)) as (y & Hy & H1 & _). assert (y = x) as -> by congruence. by rewrite H1.
Qed.

Lemma by_type_dir {A} g w s p M d v i (dev : dev_vnode -> outcome A) file dir : inst g w s p M d -> known g v i -> vi_type i = S_IFDIR -> by_type v dev file dir w = dir s.
Proof.
  intros Hi Hk Ht. destruct (known_dir _ _ _ _ _ _ _ _ Hi Hk Ht) as (-> & Hd & ->). destruct (by_type_run g w s p M d p _ dev file dir Hi Hk) as [(dv & E & _)|[(_ & _ & _ & ->)|(? & _)]]; [congruence|done|done].
Qed.

Lemma live_handed g v i x : live (hand_out v i g) fsp x -> live g fsp x \/ x = vi_id i.
Proof.
  intros [(n & Hn)|(q & t & Hq & Hx)]; [left; left; by exists n|]. cbn in Hq, Hx. destruct (decide (v = q)) as [->|Hne].
  - right. rewrite lookup_insert_eq in Hx. by injection Hx as ->.
  - left. right. exists q, t. rewrite lookup_insert_ne in Hx by done. split; [|done]. apply gmultiset_elem_of_disj_union in Hq as [?|Hq]; [done|]. apply gmultiset_elem_of_singleton in Hq. congruence.
Qed.

Lemma live_with a a' g x : live (with_fs a' g) fsp x -> (exists n, af_names a' !! n = Some x) \/ live (with_fs a g) fsp x.
Proof. intros [(n & Hn)|Hq]; [left; exists n; by rewrite names_with in Hn|right; by right]. Qed.

(** Only the directory has number 1, and no name. *)
Lemma named_file p s M d v x n : sane p s M d -> svs s !! v = Some x -> d !! n = Some (sv_ino x) -> v <> p.
Proof.
  intros [[HF (r & Hat & H1 & _ & Hnm)] _] Hx Hn ->. pose proof Hat as [_ Hr _ _]. assert (x = r) as -> by congruence. by apply Hnm in Hn as [? _].
Qed.

(** A reference to a file that has a name. *)
Lemma owned_handed g w s p M d s' M' v x n : inst g w s p M d -> sane p s' M' d -> keeps_data s M s' M' -> gains (alloc_of w) v s s' -> roomy 1 g -> svs s' !! v = Some x -> d !! n = Some (sv_ino x) ->
  let i := mk_vi fsp (sv_ino x) S_IFREG in v <> 0 /\ (v ∈ g_refs g -> g_vn g !! v = Some i) /\ owned_by (hand_out v i g) (set_sfs s' w).
Proof.
  intros Hi Hs Hk Hga Hroom Hx Hn i. pose proof (named_file p s' M' d v x n Hs Hx Hn) as Hp. destruct (inst_shows _ _ _ _ _ _ Hi) as (a & Hg & Ha). destruct (names_gfs _ _ _ _ _ _ Hi) as (Hnm & _).
  assert (mk_afs (af_volname a) d (af_bytes a) = a) as Ea by (destruct a, Ha as (_ & <- & _); done).
  assert (shows a (hand_out v i (with_fs a g)) w s' M' d) as Ha'.
  { rewrite <- Ea at 1. apply (shows_keeps a g _ w s M d); [done|done|intros y; by apply (live_inode g w s p M d)|intros y _ Hl]. rewrite <- Hg in Hl. apply live_handed in Hl as [?| ->]; [done|]. left. exists n. by rewrite Hnm. }
  destruct (inst_gains g w s p M d a s' M' d v (sv_ino x) (vn_refcount x) (vn_opencount x) Hi Hs Hga Hroom (sv_cnt _ _ _ Hx)) as (H0 & Hold & Hin); rewrite decide_False in * by done; [done|].
  split; [done|]. split; [done|]. rewrite Hg. by exists s', p, M', d.
Qed.

(** The reference to a new file. *)
Lemma owned_created g w s p M d s' M' v x name : inst g w s p M d -> sane p s' M' (<[name := sv_ino x]> d) -> keeps_data s M s' M' -> gains (alloc_of w) v s s' -> roomy 1 g -> svs s' !! v = Some x ->
  M !! sv_ino x = None -> contents (dev s') (sv_i x) = [] -> let i := mk_vi fsp (sv_ino x) S_IFREG in
  v <> 0 /\ (v ∈ g_refs g -> g_vn g !! v = Some i) /\ ~ live g fsp (sv_ino x) /\ owned_by (hand_out v i (set_names fsp (<[name := sv_ino x]> d) (set_bytes fsp (sv_ino x) [] g))) (set_sfs s' w).
Proof.
  intros Hi Hs Hk Hga Hroom Hx HM Hc i. assert (v <> p) as Hp by (apply (named_file p s' M' _ v x name Hs Hx); by rewrite lookup_insert_eq). destruct (inst_shows _ _ _ _ _ _ Hi) as (a & Hg & Ha).
  assert (~ live g fsp (sv_ino x)) as Hnl by (intros Hl; destruct (live_inode _ _ _ _ _ _ _ Hi Hl); congruence). pose proof Ha as (Hvol & Hnm & Hby). pose proof Hs as [[HF _] _].
  set (a' := mk_afs (af_volname a) (<[name := sv_ino x]> d) (<[sv_ino x := []]> (af_bytes a))). assert (shows a' (hand_out v i (with_fs a' g)) w s' M' (<[name := sv_ino x]> d)) as Ha'.
  { split; [done|]. split; [done|]. cbn [af_bytes a']. intros ino j Hne Hj Hl. rewrite lookup_insert. destruct (decide (sv_ino x = ino)) as [<-|E]; [destruct (fi_loaded _ _ HF v x Hx) as (? & _); congruence|].
    assert (live g fsp ino) as Hl'. { apply live_handed in Hl as [Hl|E0]; [|by destruct (E (eq_sym E0))]. apply (live_with a) in Hl as [(n & Hn)|Hl]; [|by rewrite Hg]. cbn in Hn. rewrite lookup_insert in Hn. destruct (decide (name = n)); [congruence|]. left. exists n. rewrite Hg, names_with. congruence. }
    destruct (live_inode _ _ _ _ _ _ _ Hi Hl') as [j0 Hj0]. rewrite (Hby ino j0 Hne Hj0 Hl'). destruct (Hk ino j0 Hne Hj0) as (j' & E1 & E2). unfold data in E2. congruence. }
  destruct (inst_gains g w s p M d a' s' M' _ v (sv_ino x) (vn_refcount x) (vn_opencount x) Hi Hs Hga Hroom (sv_cnt _ _ _ Hx)) as (H0 & Hold & Hin); rewrite decide_False in * by done; [done|].
  split; [done|]. split; [done|]. split; [done|]. unfold Vnode.set_bytes, set_names. rewrite Hg, !set_fs_with. by eexists s', p, M', _.
Qed.

Lemma vop_creat_run g w v i nm name excl : owned_by g w -> known g v i -> vi_type i = S_IFDIR -> points_to nm name -> zlen name < 256 -> roomy 1 g ->
  exists r v' w', vop_creat alloc_of junk_of v nm excl w = Ok (r, v', w') /\
    ((r = 0 /\ v' <> 0 /\ exists id, let i' := mk_vi (vi_fs i) id S_IFREG in (v' ∈ g_refs g -> g_vn g !! v' = Some i') /\
        match names_of (vi_fs i) g !! name with
        | Some id' => excl = false /\ id = id' /\ owned_by (hand_out v' i' g) w'
        | None => ~ live g (vi_fs i) id /\ owned_by (hand_out v' i' (set_names (vi_fs i) (<[name := id]> (names_of (vi_fs i) g)) (set_bytes (vi_fs i) id [] g))) w'
        end) \/
     (r <> 0 /\ owned_by g w' /\ (mishap dependable r \/ no_space r \/ r = ENAMETOOLONG \/ (r = EEXIST /\ excl = true /\ is_Some (names_of (vi_fs i) g !! name))))).
Proof.
  intros (s & p & M & d & Hi) Hk Ht Hnm Hl Hroom. unfold vop_creat. rewrite (by_type_dir _ _ _ _ _ _ _ _ _ _ _ Hi Hk Ht). destruct (known_dir _ _ _ _ _ _ _ _ Hi Hk Ht) as (-> & Hd & ->). destruct (names_gfs _ _ _ _ _ _ Hi) as (En & _).
  cbn [vi_fs]. unfold on_fs2. destruct (creat_run p nm name excl (alloc_of w) (junk_of w) s M d (in_sane _ _ _ _ _ _ Hi) Hnm) as (r & v & s' & M' & d' & -> & Hs' & Hkd & Hct & Hr); [lia|done|by eapply bounded_sfs|by eapply fresh_sfs|].
  rewrite Ok_bind. eexists _, _, _. split; [done|]. rewrite En. destruct Hr as [(-> & x & Hx & Hn & Hr)|(-> & Hr)].
  - left. cbn [Z.eqb] in Hct. destruct (d !! name) as [ino|] eqn:Ed.
    + destruct Hr as (-> & <- & ->). destruct (owned_handed g w s p M d s' M' v x name Hi Hs' Hkd Hct Hroom Hx Ed) as (H0 & Hold & Ho). split; [done|]. split; [done|]. by exists (sv_ino x).
    + destruct Hr as (HM & -> & Hc). destruct (owned_created g w s p M d s' M' v x name Hi Hs' Hkd Hct Hroom Hx HM Hc) as (H0 & Hold & Hnl & Ho). split; [done|]. split; [done|]. by exists (sv_ino x).
  - right. assert (r <> 0) as Hr0 by (destruct Hr as [(-> & _)|[[-> _]|[[-> _]|?%error_nonzero%Z.eqb_neq]]]; done). rewrite (proj2 (Z.eqb_neq r 0) Hr0) in Hct. split; [done|].
    split; [exists s', p, M', d; by apply (inst_same g w s p M d)|]. destruct Hr as [?|[[? _]|[?%enomem_mishap|?%io_mishap]]]; tauto.
Qed.

(** Names go or come, files keep their bytes unless they are dead. *)
Lemma owned_renamed g w s p M d s' M' d' : inst g w s p M d -> sane p s' M' d' -> leaks (alloc_of w) s s' ->
  (forall n x, d' !! n = Some x -> live g fsp x) ->
  (forall x i, x <> 1 -> M !! x = Some i -> (exists n, d' !! n = Some x) \/ held s x -> exists i', M' !! x = Some i' /\ data (dev s') i' = data (dev s) i) ->
  owned_by (set_names fsp d' g) (set_sfs s' w).
Proof.
  intros Hi Hs Hl Hnew Hk. destruct (inst_shows _ _ _ _ _ _ Hi) as (a & Hg & Ha). pose proof Ha as (Hvol & Hnm & Hby). unfold set_names. rewrite Hg, set_fs_with. eexists s', p, M', d'. apply (inst_step g w s p M d); try done.
  split; [done|]. split; [done|]. cbn [af_bytes]. intros ino i' Hne Hi' Hlv. assert (live g fsp ino /\ ((exists n, d' !! n = Some ino) \/ held s ino)) as [Hlv' Hor].
  { destruct Hlv as [(n & Hn)|(q & t & Hq & Hx)].
    - rewrite names_with in Hn. cbn in Hn. split; [by eapply Hnew|eauto].
    - split; [right; by exists q, t|]. right. destruct (in_refs _ _ _ _ _ _ Hi q Hq) as [_ E]. cbn in Hx. rewrite Hx in E. unfold info in E. destruct (kw_devs w !! q); [congruence|].
      destruct (cnt s q) as [[[j r] o]|] eqn:Hc; [|done]. injection E as -> _. destruct (cnt_sv _ _ _ _ _ Hc) as (y & Hy & Ey & _). by exists q, y. }
  destruct (live_inode _ _ _ _ _ _ _ Hi Hlv') as [i Him]. rewrite (Hby ino i Hne Him Hlv'). destruct (Hk ino i Hne Him Hor) as (i2 & E1 & E2). unfold data in E2. congruence.
Qed.

(** Every name is that of a live file. *)
Lemma live_name g w s p M d n x : inst g w s p M d -> d !! n = Some x -> live g fsp x.
Proof. intros Hi Hn. left. exists n. by rewrite (proj1 (names_gfs _ _ _ _ _ _ Hi)). Qed.

Lemma vop_remove_run g w v i nm name : owned_by g w -> known g v i -> vi_type i = S_IFDIR -> points_to nm name -> zlen name < 256 -> roomy 1 g ->
  exists r w', vop_remove alloc_of junk_of v nm w = Ok (r, w') /\
    ((r = 0 /\ is_Some (names_of (vi_fs i) g !! name) /\ owned_by (set_names (vi_fs i) (delete name (names_of (vi_fs i) g)) g) w') \/
     (r <> 0 /\ owned_by g w' /\ (mishap dependable r \/ (r = ENOENT /\ names_of (vi_fs i) g !! name = None)))).
Proof.
  intros (s & p & M & d & Hi) Hk Ht Hnm Hl Hroom. unfold vop_remove. rewrite (by_type_dir _ _ _ _ _ _ _ _ _ _ _ Hi Hk Ht). destruct (known_dir _ _ _ _ _ _ _ _ Hi Hk Ht) as (-> & Hd & ->). destruct (names_gfs _ _ _ _ _ _ Hi) as (En & _).
  cbn [vi_fs]. unfold on_fs. destruct (remove_names_run p nm name (alloc_of w) (junk_of w) s M d (in_sane _ _ _ _ _ _ Hi) Hnm) as (r & s' & M' & d' & -> & Hs' & Hct & Hr); [done|by eapply bounded_sfs|by eapply fresh_sfs|].
  rewrite Ok_bind. eexists _, _. split; [done|]. rewrite En. destruct Hr as [(-> & ino & j & Ed & HM & -> & Hkb & Hkd & _)|(-> & Hkd & Hr)].
  - left. split; [done|]. split; [by eexists|]. apply (owned_renamed g w s p M d s' M'); try done.
    + intros n x Hn. apply lookup_delete_Some in Hn as [_ Hn]. by eapply live_name.
    + intros x jx Hx1 Hx Hor. destruct (decide (x = ino)) as [->|Hne]; [|by apply Hkb]. apply Hkd; [|done|done]. destruct Hor as [(n & Hn)|Hh]; [left; by eapply links_pos|by right].
  - right. assert (r <> 0) as Hr0 by (destruct Hr as [[-> _]|[[-> _]|[-> _]]]; done). split; [done|]. split; [exists s', p, M', d; by apply (inst_same g w s p M d)|]. destruct Hr as [?|[?%eio_mishap|?%enomem_mishap]]; tauto.
Qed.

Lemma vop_rename_run g w v i v2 i2 nm1 n1 nm2 n2 : owned_by g w -> known g v i -> known g v2 i2 -> vi_type i = S_IFDIR -> vi_type i2 = S_IFDIR -> vi_fs i2 = vi_fs i ->
  points_to nm1 n1 -> points_to nm2 n2 -> zlen n1 < 256 -> zlen n2 < 256 -> roomy 1 g ->
  (vop_rename alloc_of junk_of v nm1 v2 nm2 w = Panic /\ ~ dependable) \/
  exists r w', vop_rename alloc_of junk_of v nm1 v2 nm2 w = Ok (r, w') /\ let d := names_of (vi_fs i) g in
    ((r = 0 /\ exists id, d !! n1 = Some id /\ d !! n2 = None /\ owned_by (set_names (vi_fs i) (delete n1 (<[n2 := id]> d)) g) w') \/
     (r <> 0 /\ owned_by g w' /\ (mishap dependable r \/ no_space r \/ r = ENAMETOOLONG \/ (r = ENOENT /\ d !! n1 = None) \/ (r = EEXIST /\ is_Some (d !! n2))))).
Proof.
  intros (s & p & M & d & Hi) Hk Hk2 Ht Ht2 _ Hnm1 Hnm2 Hl1 Hl2 Hroom. unfold vop_rename. rewrite (by_type_dir _ _ _ _ _ _ _ _ _ _ _ Hi Hk Ht). destruct (known_dir _ _ _ _ _ _ _ _ Hi Hk Ht) as (-> & Hd & ->), (known_dir _ _ _ _ _ _ _ _ Hi Hk2 Ht2) as (-> & _ & ->).
  destruct (names_gfs _ _ _ _ _ _ Hi) as (En & _). cbn [vi_fs]. unfold on_fs.
  destruct (rename_names_run p nm1 n1 nm2 n2 (alloc_of w) (junk_of w) s M d (in_sane _ _ _ _ _ _ Hi) Hnm1 Hnm2) as [[-> Hrf]|(r & s' & M' & d' & -> & Hs' & Hkd & Hct & Hr)]; [lia|done|by eapply bounded_sfs|by eapply fresh_sfs|left; split; [done|by intros [? _]]|right].
  rewrite Ok_bind. eexists _, _. split; [done|]. rewrite En. cbv zeta. destruct Hr as [(-> & ino & E1 & E2 & ->)|(-> & Hr)].
  - left. split; [done|]. exists ino. split; [done|]. split; [done|]. apply (owned_renamed g w s p M d s' M'); try done; [|intros x j Hx1 Hx _; by apply Hkd].
    intros n x Hn. apply lookup_delete_Some in Hn as [_ Hn]. rewrite lookup_insert in Hn. destruct (decide (n2 = n)); [injection Hn as <-|]; by eapply live_name.
  - right. assert (r <> 0) as Hr0 by (destruct Hr as [(-> & _)|[(-> & _)|[[-> _]|[[-> _]|?%error_nonzero%Z.eqb_neq]]]]; done). split; [done|]. split; [exists s', p, M', d; by apply (inst_same g w s p M d)|]. destruct Hr as [?|[?|[[? _]|[?%enomem_mishap|?%io_mishap]]]]; tauto.
Qed.

Lemma vop_link_run g w v i v2 i2 nm name : owned_by g w -> known g v i -> known g v2 i2 -> vi_type i = S_IFDIR -> vi_type i2 = S_IFREG -> vi_fs i2 = vi_fs i ->
  points_to nm name -> zlen name < 256 ->
  exists r w', vop_link junk_of v nm v2 w = Ok (r, w') /\ let d := names_of (vi_fs i) g in
    ((r = 0 /\ d !! name = None /\ owned_by (set_names (vi_fs i) (<[name := vi_id i2]> d) g) w') \/
     (r <> 0 /\ owned_by g w' /\ (mishap dependable r \/ no_space r \/ r = ENAMETOOLONG \/ (r = EEXIST /\ is_Some (d !! name))))).
Proof.
  intros (s & p & M & d & Hi) Hk Hk2 Ht Ht2 _ Hnm Hl. unfold vop_link. rewrite (by_type_dir _ _ _ _ _ _ _ _ _ _ _ Hi Hk Ht). destruct (known_dir _ _ _ _ _ _ _ _ Hi Hk Ht) as (-> & Hd & ->). destruct (names_gfs _ _ _ _ _ _ Hi) as (En & _).
  destruct (known_cases _ _ _ _ _ _ _ _ Hi Hk2) as [(dv & _ & ->)|(Hd2 & x & Hx & _ & _ & -> & _)]; [cbn in Ht2; unfold dev_gettype in Ht2; by destruct (_ >? 0)|]. destruct (decide (v2 = p)) as [|Hp]; [done|].
  rewrite bool_decide_true by done. cbn [c_assert vi_fs vi_id]. rewrite Ok_bind. unfold on_fs.
  destruct (sfs_link_names p nm name v2 (junk_of w) s M d x (in_sane _ _ _ _ _ _ Hi) Hnm) as (r & s' & M' & d' & -> & Hs' & Hkd & Hct & Hr); [lia|done|done|done|].
  rewrite Ok_bind. eexists _, _. split; [done|]. rewrite En. cbv zeta. destruct Hr as [(-> & E & ->)|(-> & Hr)].
  - left. split; [done|]. split; [done|]. apply (owned_renamed g w s p M d s' M'); try done; [by apply same_leaks| |intros y j Hy1 Hy _; by apply Hkd].
    intros n y Hn. rewrite lookup_insert in Hn. destruct (decide (name = n)); [injection Hn as <-|by eapply live_name]. by apply (file_known g w s p M d v2 x Hi (proj1 Hk2) Hd2 Hx Hp).
  - right. assert (r <> 0) as Hr0 by (destruct Hr as [(-> & _)|[[-> _]|?%error_nonzero%Z.eqb_neq]]; done). split; [done|]. split; [exists s', p, M', d; apply (inst_same g w s p M d); try done; by apply same_leaks|]. destruct Hr as [?|[[? _]|?%io_mishap]]; tauto.
Qed.

Lemma vop_lookup_run g w v i nm name : owned_by g w -> known g v i -> points_to nm name -> name <> [] -> zlen name < u32_mod -> roomy 1 g ->
  exists r v' w', vop_lookup alloc_of junk_of v nm w = Ok (r, v', w') /\
    ((r = 0 /\ v' <> 0 /\ vi_type i = S_IFDIR /\ exists id, let i' := mk_vi (vi_fs i) id S_IFREG in names_of (vi_fs i) g !! name = Some id /\
        (v' ∈ g_refs g -> g_vn g !! v' = Some i') /\ owned_by (hand_out v' i' g) w') \/
     (r <> 0 /\ owned_by g w' /\ (mishap dependable r \/ vi_type i <> S_IFDIR \/ (r = ENOENT /\ names_of (vi_fs i) g !! name = None)))).
Proof.
  intros Ho Hk Hnm Hne Hl Hroom. pose proof Ho as (s & p & M & d & Hi). destruct (names_gfs _ _ _ _ _ _ Hi) as (En & _). unfold vop_lookup. dispatch Hi Hk.
  - unfold dev_lookup. rewrite (strlen_run _ _ Hnm Hl), Ok_bind. assert (length name <> 0%nat) by (by destruct name). replace (zlen name >? 0) with true by lia. rewrite Ok_bind. eexists _, _, _. split; [done|]. right. split; [done|].
    split; [apply (owned_shift g w); try done; cbn; by rewrite insert_id|]. right. left. cbn. unfold dev_gettype. by destruct (_ >? 0).
  - unfold on_fs2. destruct (sfs_lookup_names p nm name (alloc_of w) (junk_of w) s M d (in_sane _ _ _ _ _ _ Hi) Hnm) as (r & v & s' & M' & -> & Hs' & Hkd & Hct & Hr); [done|by eapply bounded_sfs|by eapply fresh_sfs|].
    rewrite Ok_bind. eexists _, _, _. split; [done|]. cbn [vi_fs vi_type]. rewrite En. destruct Hr as [(-> & ino & E & _ & x & Hx & <- & _)|Hr].
    + left. destruct (owned_handed g w s p M d s' M' v x name Hi Hs' Hkd Hct Hroom Hx E) as (H0 & Hold & Ho'). split; [done|]. split; [done|]. split; [done|]. by exists (sv_ino x).
    + right. assert (r <> 0) as Hr0 by (destruct Hr as [[-> _]|[[-> _]|[-> _]]]; done). rewrite (proj2 (Z.eqb_neq r 0) Hr0) in Hct. split; [done|]. split; [exists s', p, M', d; apply (inst_same g w s p M d); try done; by apply same_leaks|]. destruct Hr as [?|[?%enomem_mishap|?%eio_mishap]]; tauto.
  - eexists _, _, _. split; [done|]. right. split; [done|]. split; [done|]. right. by left.
Qed.

(** One more reference to the directory. *)
Lemma owned_root g w s p M d : inst g w s p M d -> roomy 1 g -> let i := mk_vi fsp 1 S_IFDIR in
  exists s', vnode_incref p s = Ok s' /\ p <> 0 /\ (p ∈ g_refs g -> g_vn g !! p = Some i) /\ owned_by (hand_out p i g) (set_sfs s' w).
Proof.
  intros Hi Hroom i. pose proof (in_sane _ _ _ _ _ _ Hi) as Hs. destruct (root_sv p s M d Hs) as (x & Hx & H1 & _). destruct (inst_shows _ _ _ _ _ _ Hi) as (a & Hg & Ha). pose proof (bounded_sfs _ _ _ _ _ _ Hi p x Hx) as Hb.
  destruct (in_counted _ _ _ _ _ _ Hi p _ _ _ (sv_cnt _ _ _ Hx)) as [Hc Hop]. assert (0 <= count p (g_refs g) /\ 0 <= count p (g_opens g)) by (unfold count; lia). rewrite decide_True in Hc by done.
  unfold vnode_incref. rewrite (sv_rd_run p s x Hx), Ok_bind, c_int_id, Ok_bind by (unfold int_min, int_max; lia). set (x' := with_refcount x (vn_refcount x + 1)). eexists. split; [done|].
  destruct (sane_recount p p s x x' M d Hs Hx) as [Hs' Hkd]; [done|cbn; lia|cbn; lia|]. assert (cnt (sv_wr p x' s) p = Some (1, vn_refcount x + 1, vn_opencount x)) as Hcp by (rewrite cnt_wr, decide_True by done; cbn; by rewrite H1).
  assert (gains (alloc_of w) p s (sv_wr p x' s)) as Hga.
  { split; [intros q Hq; by rewrite cnt_wr, decide_False|]. right. eexists _, _, _. split; [|split; [apply (sv_cnt _ _ _ Hx)|by rewrite H1]]. lia. }
  destruct (inst_gains g w s p M d a (sv_wr p x' s) M d p _ _ _ Hi Hs' Hga Hroom Hcp) as (H0 & Hold & Hin); rewrite decide_True in * by done; [|split; [done|]; split; [done|]; rewrite Hg; by eexists _, _, _, _].
  assert (mk_afs (af_volname a) d (af_bytes a) = a) as Ea by (destruct a, Ha as (_ & <- & _); done). rewrite <- Ea at 1. apply (shows_keeps a g _ w s M d); [done|done|intros y; by apply (live_inode g w s p M d)|intros y Hy Hl].
  rewrite <- Hg in Hl. by apply live_handed in Hl as [?| ->].
Qed.

Lemma vop_lookparent_run g w v i nm name buf : owned_by g w -> known g v i -> points_to nm name -> zlen name + 1 < u32_mod -> zlen buf = 256 -> roomy 1 g ->
  exists r v' buf' w', vop_lookparent v nm buf w = Ok (r, v', buf', w') /\
    ((r = 0 /\ v' <> 0 /\ vi_type i = S_IFDIR /\ points_to buf' name /\ zlen name < 256 /\ (v' ∈ g_refs g -> g_vn g !! v' = Some i) /\ owned_by (hand_out v' i g) w') \/
     (r <> 0 /\ owned_by g w' /\ (mishap dependable r \/ vi_type i <> S_IFDIR \/ (r = ENAMETOOLONG /\ 256 <= zlen name)))).
Proof.
  intros Ho Hk Hnm Hl Hb Hroom. pose proof Ho as (s & p & M & d & Hi). unfold vop_lookparent. dispatch Hi Hk.
  - eexists _, _, _, _. split; [done|]. right. split; [done|]. split; [done|]. right. left. cbn. unfold dev_gettype. by destruct (_ >? 0).
  - destruct (root_sv p s M d (in_sane _ _ _ _ _ _ Hi)) as (x & Hx & H1 & Ht & _). unfold sfs_lookparent. rewrite (sv_rd_run p s x Hx), Ok_bind, Ht. cbn [SFS_TYPE_DIR Z.eqb Pos.eqb negb].
    rewrite (strlen_run _ _ Hnm), Ok_bind, u32_id, Hb, Z.gtb_ltb by lia. destruct (Z.ltb_spec 256 (zlen name + 1)) as [Hlong|Hshort].
    + rewrite Ok_bind. eexists _, _, _, _. split; [done|]. right. split; [done|]. split; [apply (owned_shift g w); try done; by rewrite (in_fs _ _ _ _ _ _ Hi)|]. right. right. split; [done|lia].
    + rewrite (strcpy_run _ _ buf Hnm), Ok_bind by lia. destruct (owned_root g w s p M d Hi Hroom) as (s' & -> & H0 & Hold & Ho'). rewrite !Ok_bind. eexists _, _, _, _. split; [done|]. left.
      split; [done|]. split; [done|]. split; [done|]. split; [|split; [lia|done]]. split; [apply Hnm|by eexists].
  - eexists _, _, _, _. split; [done|]. right. split; [done|]. split; [done|]. right. by left.
Qed.

(** ** The file system *)

Lemma fsop_getvolname_run g w f a : owned_by g w -> g_fs g !! f = Some a ->
  exists n, at_fs fsp f (fun _ => Ok (Some (sfs_getvolname (kw_super w)))) w = Ok n /\ match n, af_volname a with Some nm, Some l => points_to nm l | None, None => True | _, _ => False end.
Proof.
  intros (s & p & M & d & Hi) Hf. destruct (names_gfs _ _ _ _ _ _ Hi) as (_ & _ & Hno). destruct (decide (f = fsp)) as [->|Hne]; [|destruct (Hno f Hne) as [_ E]; congruence].
  destruct (in_gfs _ _ _ _ _ _ Hi) as (a' & Hg & Hv & _). rewrite Hg, lookup_singleton_eq in Hf. injection Hf as <-. unfold at_fs, fs_rd. rewrite Z.eqb_refl, (in_fs _ _ _ _ _ _ Hi), Ok_bind. eexists. split; [done|]. rewrite Hv. apply (in_vol _ _ _ _ _ _ Hi).
Qed.

Lemma fsop_getroot_run g w f : owned_by g w -> is_Some (g_fs g !! f) -> roomy 1 g ->
  exists v w', at_fs fsp f (fun s => '(v, s) ← sfs_getroot (alloc_of w) s; Ok (v, set_sfs s w)) w = Ok (v, w') /\
    v <> 0 /\ exists id, let i := mk_vi f id S_IFDIR in (v ∈ g_refs g -> g_vn g !! v = Some i) /\ owned_by (hand_out v i g) w'.
Proof.
  intros (s & p & M & d & Hi) [a Hf] Hroom. destruct (names_gfs _ _ _ _ _ _ Hi) as (_ & _ & Hno). destruct (decide (f = fsp)) as [->|Hne]; [|destruct (Hno f Hne) as [_ E]; congruence].
  unfold at_fs, fs_rd. rewrite Z.eqb_refl, (in_fs _ _ _ _ _ _ Hi), Ok_bind. pose proof (in_sane _ _ _ _ _ _ Hi) as [[HF _] _]. destruct (root_sv p s M d (in_sane _ _ _ _ _ _ Hi)) as (x & Hx & H1 & _).
  destruct (owned_root g w s p M d Hi Hroom) as (s' & Hrun & H0 & Hold & Ho'). unfold sfs_getroot, sfs_loadvnode.
  destruct (find_vnode_run s M SFS_ROOT_LOCATION (sfs_vnodes s) HF) as [(q & y & -> & Hy & Ey)|[_ Hnone]]; [intros q; apply (fi_table _ _ HF)| |].
  - assert (q = p) as -> by (eapply (fi_inj _ _ HF); [done|done|by rewrite Ey, H1]). rewrite Ok_bind. cbn [c_assert Z.eqb SFS_TYPE_INVAL]. rewrite Ok_bind, Hrun, !Ok_bind. cbn [Z.eqb negb]. rewrite Ok_bind. eexists _, _. split; [done|]. split; [done|]. by exists 1.
  - destruct (Hnone p x); [apply (fi_table _ _ HF); by eexists|done|done].
Qed.

(** The laws of the interface hold. *)
Definition kvnodes_laws : @VnodeLaws world (kvnodes fsp alloc_of junk_of) :=
  @Build_VnodeLaws world (kvnodes fsp alloc_of junk_of) owned_by dependable SFS_MAX owned_ext owned_ref owned_type owned_opens owned_dir owned_file owned_named
    k_incref_run k_decref_run k_incopen_run k_decopen_run vop_open_run vop_gettype_run vop_read_run vop_write_run vop_truncate_run vop_namefile_run
    vop_creat_run vop_remove_run vop_rename_run vop_link_run (fun g w v i nm Ho Hk _ => vop_mkdir_run g w v i nm Ho Hk) (fun g w v i nm Ho Hk _ => vop_mkdir_run g w v i nm Ho Hk)
    (fun g w v i nm c Ho Hk _ => vop_symlink_run g w v i nm c Ho Hk) vop_readlink_run vop_lookup_run vop_lookparent_run fsop_getvolname_run fsop_getroot_run.

End Laws.

(** C5. The simple file system and the devices implement vnodes.  On a disk whose
    writes succeed, and with an allocator that hands out unused addresses, the
    operations of a machine with one mounted simple file system and any devices
    keep every law of the interface that paths and descriptors are proved against.
    What the interface calls sound states are those whose disk, tables and counts
    satisfy the invariant of the file system; what it calls reliable is a disk that
    fails no read and an allocator that fails no request; and a file holds at most
    73216 bytes. *)
Theorem sfs_implements_vnodes {D DW} {DK : Disk D} {DV : Devices D DW} {DKL : DiskLaws D} {DVL : DeviceLaws D DW} (fsp : Z) (alloc_of : kworld D DW -> alloc) (junk_of : kworld D DW -> list Z) :
  ReliableWrites D -> fsp <> 0 -> (forall w, length (junk_of w) = 64%nat) ->
  (forall w s q, kw_fs w = inl s -> al_sv (alloc_of w) = Some q -> q <> 0 /\ svs s !! q = None /\ kw_devs w !! q = None) ->
  exists L : @VnodeLaws (kworld D DW) (kvnodes fsp alloc_of junk_of),
    (forall g w, @owns _ _ L g w <-> exists s p M d, inst fsp g w s p M d) /\
    (@reliable _ _ L <-> ~ read_fails D /\ forall w, complete (alloc_of w)) /\ @max_bytes _ _ L = SFS_MAX.
Proof. intros RW Hfsp Hjunk Halloc. by exists (kvnodes_laws fsp alloc_of junk_of Hfsp Hjunk Halloc). Qed.

End SfsVfs.
