(* ===== verification/FileStack.v ===== *)
(** * A machine with a file system: descriptors, paths, vnodes, SFS and a disk

    One state of the whole stack: a process with user memory and no open files, a
    device that holds a mounted volume with one empty file, and a disk.  The calls
    of FileCalls.v run on it, through Vfs.v, SfsVfs.v and the simple file system
    down to the sectors. *)

From stdpp Require Import gmultiset.
From S2P Require Import Prelude Memory CopyInOut Uio Bitmap Strings SfsDisk SfsFile SfsIo SfsDir SfsVnode SfsInv SfsOps SfsNames SfsFs Vnode VfsList Vfs FileCalls Device SfsVfs.
Import Strings SfsDisk SfsFile SfsIo SfsDir SfsVnode SfsInv SfsOps SfsNames SfsFs Memory CopyInOut Vnode VfsList Vfs FileCalls Device SfsVfs.

Module FileStack.

Local Abbreviation machine := (kworld good_disk unit).
#[local] Existing Instance devnull.

Definition fs_addr : Z := 48.

(** An address above all that are in use. *)
Definition top_key {A} (m : gmap Z A) : Z := foldr Z.max 0 (map_to_list m).*1.

Definition fresh_alloc (w : machine) : alloc :=
  mk_alloc (Some (1 + Z.max (match kw_fs w with inl s => top_key (svs s) | inr _ => 0 end) (top_key (kw_devs w)))) true true.

Definition stack_junk (w : machine) : list Z := replicate 64 0.

Lemma top_key_ge {A} (m : gmap Z A) k : is_Some (m !! k) -> k <= top_key m.
Proof.
  intros [x Hx]. assert (k ∈ (map_to_list m).*1) as Hk by (apply list_elem_of_fmap; exists (k, x); split; [done|by apply elem_of_map_to_list]). unfold top_key. clear Hx.
  induction (map_to_list m).*1 as [|y l IH]; [by apply elem_of_nil in Hk|]. cbn. apply elem_of_cons in Hk as [->|Hk]; [lia|]. specialize (IH Hk). lia.
Qed.

Lemma top_key_pos {A} (m : gmap Z A) : 0 <= top_key m.
Proof. unfold top_key. induction (map_to_list m).*1 as [|y l IH]; cbn; lia. Qed.

Lemma fresh_alloc_ok w s q : kw_fs w = inl s -> al_sv (fresh_alloc w) = Some q -> q <> 0 /\ svs s !! q = None /\ kw_devs w !! q = None.
Proof.
  intros Hs [= <-]. rewrite Hs. pose proof (top_key_pos (svs s)). pose proof (top_key_pos (kw_devs w)). split; [lia|]. split; apply eq_None_not_Some; intros H1%top_key_ge; lia.
Qed.

Lemma stack_junk_ok w : length (stack_junk w) = 64%nat.
Proof. reflexivity. Qed.

#[local] Instance stack_ops : Vnodes machine := kvnodes fs_addr fresh_alloc stack_junk.
#[local] Instance stack_laws : VnodeLaws machine := kvnodes_laws fs_addr fresh_alloc stack_junk ltac:(done) stack_junk_ok fresh_alloc_ok.

(** Nothing below fails. *)
Lemma stack_dependable : dependable fresh_alloc.
Proof.
  split; [|intros w; split; [by eexists|done]]. intros Hrf. by destruct (good_disk_reads EIO).
Qed.

(** ** The state *)

Definition stack_world : machine := mk_kw (inl small_fs) vol_super {[20 := mk_dv 5 1 0]} tt 0.

(** The device n, whose raw name is r. *)
Definition stack_vst : vst machine := mk_vst stack_world [mk_kd [110; 0] (Some [114; 0]) 5 20 fs_addr] false 0 false 0.

(** At 100 the path of file b on volume v, at 200 four bytes, at 300 room for
    more, and a buffer of the kernel. *)
Definition stack_path : list Z := [118; 58; 98].

Fixpoint bytes_at (a : Z) (bs : list Z) : gmap Z Z := match bs with [] => ∅ | b :: bs' => <[a := b]> (bytes_at (a + 1) bs') end.

Definition stack_mem : kst :=
  mk_kst (bytes_at 100 (stack_path ++ [0]) ∪ bytes_at 200 [1; 2; 3; 4] ∪ bytes_at 300 (replicate 8 0) ∪ bytes_at USERTOP (replicate 256 0)) false.

Definition stack : fstate machine := mk_fst stack_vst stack_mem (replicate 10 None).

Definition stack_ghost : ghost := mk_ghost ∅ ∅ {[fs_addr := mk_afs (Some [118]) small_names {[4 := []]}]} {[20 := mk_vi 0 5 S_IFCHR]}.

Definition stack_al : fd_alloc := mk_fd_alloc (Some USERTOP) true true.
Definition stack_ro (a : Z) : bool := false.
Definition stack_name : list Z := replicate 256 0.

Lemma stack_refs : table_refs stack_vst = {[+ 20 +]}.
Proof. unfold table_refs, own. cbn. multiset_solver. Qed.

Lemma stack_count v : count v (g_refs (total stack_ghost stack_vst)) = if decide (v = 20) then 1 else 0.
Proof. cbn [total set_refs g_refs stack_ghost]. rewrite stack_refs. unfold count. rewrite multiplicity_disj_union, multiplicity_empty, multiplicity_singleton. by case_decide. Qed.

Lemma stack_inst : inst fs_addr (total stack_ghost stack_vst) stack_world small_fs 16 small_inodes small_names.
Proof.
  constructor.
  - reflexivity.
  - exact small_sane.
  - intros q [[[j r] o] Hq]. destruct (cnt_sv _ _ _ _ _ Hq) as (x & Hx & _). apply small_svs in Hx as [-> _]. done.
  - intros q dv Hq. cbn in Hq. apply lookup_singleton_Some in Hq as [<- <-]. rewrite stack_count. cbn. done.
  - intros q j r o Hq. destruct (cnt_sv _ _ _ _ _ Hq) as (x & Hx & _ & <- & <-). apply small_svs in Hx as [-> ->]. rewrite stack_count. by vm_compute.
  - intros q Hq. assert (q = 20) as -> by (assert (0 < multiplicity q (g_refs (total stack_ghost stack_vst)))%nat by exact Hq; pose proof (stack_count q) as E; unfold count in E; case_decide; [done|lia]). by split; [eexists|].
  - cbn. multiset_solver.
  - intros q. rewrite stack_count. unfold ref_max. case_decide; lia.
  - eexists. split; [reflexivity|]. split; [reflexivity|]. split; [reflexivity|]. intros ino i H1 Hi _. apply small_cases in Hi as [[-> ->]|[-> ->]]; [done|]. by vm_compute.
  - split; [|by eexists]. repeat (constructor; [lia|]). constructor.
Qed.

Lemma stack_vok : vok stack_ghost stack_vst.
Proof.
  constructor; [|done|by intros H|by intros H|].
  - exists small_fs, 16, small_inodes, small_names. exact stack_inst.
  - constructor; [|constructor]. constructor; cbn.
    + split; [repeat (constructor; [lia|]); constructor|by eexists].
    + intros r [= <-]. split; [repeat (constructor; [lia|]); constructor|by eexists].
    + intros _. eexists. reflexivity.
    + done.
    + eexists. split; [reflexivity|done].
Qed.

(** With any memory of bytes. *)
Lemma stack_fok_with m : map_Forall (fun _ b => byte b) (kmem m) -> badfaultfunc m = false -> fok stack_ghost (mk_fst stack_vst m (replicate 10 None)).
Proof.
  intros Hm Hb. constructor.
  - exact stack_vok.
  - cbn. multiset_solver.
  - cbn. multiset_solver.
  - reflexivity.
  - intros k d Hk. apply (lookup_replicate_1 10) in Hk as [? _]. discriminate.
  - apply map_Forall_lookup, Hm.
  - exact Hb.
Qed.

Lemma stack_fok : fok stack_ghost stack.
Proof. apply stack_fok_with; [|reflexivity]. apply (bool_decide_unpack _). vm_compute. exact I. Qed.

Lemma stack_alloc_with m n : Forall (fun j => is_Some (kmem m !! (USERTOP + Z.of_nat j))) (seq 0 256) -> 0 <= n <= 256 -> alloc_ok stack_al n m.
Proof.
  intros H Hn. split; [done|]. intros k [= <-]. split; [done|]. split; [unfold USERTOP, u32_mod; lia|]. intros x Hx. unfold within in Hx.
  replace x with (USERTOP + Z.of_nat (Z.to_nat (x - USERTOP))) by lia. rewrite list.Forall_forall in H. apply H, elem_of_seq. lia.
Qed.

Lemma stack_alloc n : 0 <= n <= 256 -> alloc_ok stack_al n stack_mem.
Proof. apply stack_alloc_with. apply (bool_decide_unpack _). vm_compute. exact I. Qed.

(** ** The calls *)

Definition after (o : outcome (Z * Z * fstate machine)) : fstate machine := match o with Ok (_, _, s) => s | _ => stack end.

Definition stack1 : fstate machine := Eval vm_compute in after (sys_open stack_ro stack_name 100 (O_WRONLY + O_CREAT + O_TRUNC) stack_al 0 stack).
Definition stack2 : fstate machine := Eval vm_compute in after (sys_write stack_ro 3 200 4 stack_al 0 stack1).
Definition stack3 : fstate machine := Eval vm_compute in after (sys_close 3 0 stack2).
Definition stack4 : fstate machine := Eval vm_compute in after (sys_open stack_ro stack_name 100 O_RDONLY stack_al 0 stack3).
Definition stack5 : fstate machine := Eval vm_compute in after (sys_read stack_ro 3 300 8 stack_al 0 stack4).

(** The steps of a process that writes four bytes to a new file, closes it, and
    reads them back. *)
Lemma stack_open : sys_open stack_ro stack_name 100 (O_WRONLY + O_CREAT + O_TRUNC) stack_al 0 stack = Ok (0, 3, stack1).
Proof. vm_compute. reflexivity. Qed.

Lemma stack_write : sys_write stack_ro 3 200 4 stack_al 0 stack1 = Ok (0, 4, stack2).
Proof. vm_compute. reflexivity. Qed.

Lemma stack_close : sys_close 3 0 stack2 = Ok (0, 0, stack3).
Proof. vm_compute. reflexivity. Qed.

Lemma stack_reopen : sys_open stack_ro stack_name 100 O_RDONLY stack_al 0 stack3 = Ok (0, 3, stack4).
Proof. vm_compute. reflexivity. Qed.

Lemma stack_read : sys_read stack_ro 3 300 8 stack_al 0 stack4 = Ok (0, 4, stack5).
Proof. vm_compute. reflexivity. Qed.

Lemma stack_roomy : roomy 13 (total stack_ghost stack_vst).
Proof. intros v. rewrite stack_count. unfold ref_max. case_decide; lia. Qed.

Lemma file_round_trip_witness :
  map (fun j => kmem (memory stack5) !! (300 + j)) [0; 1; 2; 3] = map (fun j => kmem stack_mem !! (200 + j)) [0; 1; 2; 3].
Proof.
  destruct (file_round_trip stack_ro stack_name eq_refl stack_ghost stack 100 stack_path fs_addr [98] stack_al 3 0 stack1 200 4 stack_al 4 stack2 stack3 0 stack_al 3 stack4 300 8 stack_al 4 stack5) as (_ & _ & H).
  - exact stack_fok.
  - exact (roomy_le 3 13 _ stack_roomy ltac:(lia)).
  - done.
  - split; [repeat (constructor; [lia|]); constructor|]. intros j Hj. cbn in Hj. assert (j = 0 \/ j = 1 \/ j = 2 \/ j = 3) as [->|[->|[->| ->]]] by lia; reflexivity.
  - done.
  - split; reflexivity.
  - done.
  - done.
  - lia.
  - done.
  - lia.
  - apply stack_alloc. unfold NAME_MAX. lia.
  - apply stack_alloc. lia.
  - apply stack_alloc. unfold NAME_MAX. lia.
  - apply stack_alloc. lia.
  - exact stack_open.
  - exact stack_write.
  - exact stack_close.
  - exact stack_reopen.
  - exact stack_read.
  - cbn [map]. rewrite !H by lia. reflexivity.
Defined.

Lemma file_call_typed_witness : exists r rv' s' g', sys_open stack_ro stack_name 100 O_CREAT stack_al 0 stack = Ok (r, rv', s') /\ proc_ok g' s'.
Proof.
  destruct (file_call_typed stack_ro stack_name eq_refl stack_ghost stack (Copen 100 O_CREAT stack_al) 0) as (r & rv' & s' & g' & E & Hp & _).
  - split; [|exact stack_roomy]. assert (with_fds (t_filetable stack) stack_ghost = stack_ghost) as -> by reflexivity. exact stack_fok.
  - split; [done|]. apply stack_alloc. unfold NAME_MAX. lia.
  - exists r, rv', s', g'. split; [exact E|exact Hp].
Defined.

Lemma sfs_implements_vnodes_witness : exists L : @VnodeLaws machine stack_ops, @owns _ _ L (total stack_ghost stack_vst) stack_world /\ @reliable _ _ L.
Proof.
  destruct (sfs_implements_vnodes fs_addr fresh_alloc stack_junk good_disk_writes ltac:(done) stack_junk_ok fresh_alloc_ok) as (L & HL & Hrel & _). exists L. split; [apply HL|apply Hrel].
  - exists small_fs, 16, small_inodes, small_names. exact stack_inst.
  - exact stack_dependable.
Defined.

(** The volume as a path: file a of the root directory, and a new name. *)
Definition path_a : list Z := [118; 58; 97; 0].
Definition path_b : list Z := [110; 58; 47; 98; 0].

Lemma path_ok l : forallb (fun c => (0 <? c) && (c <? 256)) l = true -> points_to (l ++ [0]) l.
Proof. intros H. split; [|by eexists]. apply list.Forall_forall. intros c Hc. rewrite forallb_forall in H. specialize (H c). rewrite <- list_elem_of_In in H. specialize (H Hc). lia. Qed.

Lemma vfs_remove_names_witness : exists path' s', vfs_remove stack_name path_a stack_vst = Ok (0, path', s') /\
  vok (set_names fs_addr (delete [97] small_names) stack_ghost) s'.
Proof.
  destruct (vfs_remove_names stack_ghost stack_vst stack_name path_a [118; 58; 97]) as (r & path' & s' & E & _ & H).
  - exact stack_vok.
  - exact (roomy_le 3 13 _ stack_roomy ltac:(lia)).
  - apply (path_ok [118; 58; 97]). reflexivity.
  - cbn. unfold u32_mod. lia.
  - reflexivity.
  - destruct H as [(-> & f & n & [Hf <-] & _ & Hk)|(_ & _ & H)].
    + injection Hf as <-. exists path', s'. split; [exact E|exact Hk].
    + exfalso. vm_compute in E. injection E as <- _ _. destruct (H fs_addr [97] ltac:(split; reflexivity)) as [[_ Hm]|[[? _]|[[? _]|[? _]]]]; [exact (Hm stack_dependable)|discriminate..].
Defined.


End FileStack.
