(* ===== verification/CatMouse.v ===== *)
(** * Cats and mice: kern/asst1/catmouse.c and bowls.c

    The simulation is a client of locks, condition variables and semaphores.
    Its threads interleave statement by statement: [simulation_step] is the
    next statement of a thread, [main_step] that of the thread that runs
    [catmouse].  What a call of a lock or semaphore does is [apply_label] of
    Synch.v, the specification that the primitives are proved to implement; a
    condition variable is the list of its waiters, longest first.

    The code of cats and mice is the same with the roles exchanged, so both are
    one definition over a [side].  The bowls are checked by bowls.c, which
    panics when a rule of the simulation is broken. *)

From S2P Require Import Prelude Array Queue Sched Synch Strings.
Import Synch Strings.

Module CatMouse.

(** ** State *)

Inductive side : Type := Cat | Mouse.

#[global] Instance side_eq_dec : EqDecision side.
Proof. solve_decision. Defined.

Definition other (sd : side) : side := match sd with Cat => Mouse | Mouse => Cat end.

(** A pair of variables of the source, one for cats and one for mice. *)
Record two (A : Type) : Type := Two { cat : A; mouse : A }.

Arguments Two {A} cat mouse.
Arguments cat {A} t.
Arguments mouse {A} t.

Definition sel {A} (sd : side) (p : two A) : A := match sd with Cat => cat p | Mouse => mouse p end.
Definition put {A} (sd : side) (x : A) (p : two A) : two A :=
  match sd with Cat => Two x (mouse p) | Mouse => Two (cat p) x end.

(** The statement that a thread of the simulation executes next. *)
Inductive pc : Type :=
| PNew                                    (* not forked yet *)
| PFor | PSleep                           (* the loop test; cat_sleep *)
| PEnter | PTest | PCvwait | PWait | PWake (* up to the end of the while loop *)
| PAss1 | PAss2 | PInc | PServe | PBcast | PRel
| PBowl | PScan (j : Z) | PTake (j : Z) | PFull | PBwait | PBwake | PGot  (* getOpenBowl *)
| PArg | PEatP | PChk | PCnt | PMark | PEatV | PEating                    (* cat_eat, first half *)
| PEatP2 | PChk2 | PCnt2 | PMark2 | PEatV2                                (* cat_eat, second half *)
| PPut | PFree | PSig | PRelB
| PLeave | PDec | PZero | PReset | PBcast2 | PRelE
| PFinish | PExited.

Record thread : Type := mk_thread { th_side : side; number : Z; loop : Z; bowl : Z; th_pc : pc }.

Inductive main_pc : Type :=
| MFork (k : nat)     (* forking the k-th thread *)
| MWait (j : Z)       (* in the loop of P, after j rounds *)
| MFree (k : nat)     (* destroying the k-th primitive *)
| MDone.

(** The globals of catmouse.c and bowls.c, the primitives and the threads.
    [sync] holds the counts of the semaphores and the holders of the locks. *)
Record cm : Type := mk_cm {
  NumBowls : Z;
  NumLoops : Z;
  NumEating : two Z;              (* NumCatsEating, NumMiceEating *)
  Serving : Z;
  sync : gmap Z Z * gmap Z (option Z);
  cvs : two (list nat);           (* MouseEating, where cats wait, and CatEating *)
  BowlSignal : list nat;
  BowlState : list Z;
  bowls : list Z;
  eating_count : two Z;           (* eating_cats_count, eating_mice_count *)
  threads : list thread;
  main : main_pc }.

(** The addresses of the locks and of the semaphores. *)
Definition EatingMutex : Z := 1.
Definition BowlMutex : Z := 2.
Definition CatMouseWait : Z := 1.
Definition mutex : Z := 2.

Definition set_NumEating x s := mk_cm (NumBowls s) (NumLoops s) x (Serving s) (sync s) (cvs s) (BowlSignal s) (BowlState s) (bowls s) (eating_count s) (threads s) (main s).
Definition set_Serving x s := mk_cm (NumBowls s) (NumLoops s) (NumEating s) x (sync s) (cvs s) (BowlSignal s) (BowlState s) (bowls s) (eating_count s) (threads s) (main s).
Definition set_sync x s := mk_cm (NumBowls s) (NumLoops s) (NumEating s) (Serving s) x (cvs s) (BowlSignal s) (BowlState s) (bowls s) (eating_count s) (threads s) (main s).
Definition set_cvs x s := mk_cm (NumBowls s) (NumLoops s) (NumEating s) (Serving s) (sync s) x (BowlSignal s) (BowlState s) (bowls s) (eating_count s) (threads s) (main s).
Definition set_BowlSignal x s := mk_cm (NumBowls s) (NumLoops s) (NumEating s) (Serving s) (sync s) (cvs s) x (BowlState s) (bowls s) (eating_count s) (threads s) (main s).
Definition set_BowlState x s := mk_cm (NumBowls s) (NumLoops s) (NumEating s) (Serving s) (sync s) (cvs s) (BowlSignal s) x (bowls s) (eating_count s) (threads s) (main s).
Definition set_bowls x s := mk_cm (NumBowls s) (NumLoops s) (NumEating s) (Serving s) (sync s) (cvs s) (BowlSignal s) (BowlState s) x (eating_count s) (threads s) (main s).
Definition set_eating_count x s := mk_cm (NumBowls s) (NumLoops s) (NumEating s) (Serving s) (sync s) (cvs s) (BowlSignal s) (BowlState s) (bowls s) x (threads s) (main s).
Definition set_threads x s := mk_cm (NumBowls s) (NumLoops s) (NumEating s) (Serving s) (sync s) (cvs s) (BowlSignal s) (BowlState s) (bowls s) (eating_count s) x (main s).
Definition set_main x s := mk_cm (NumBowls s) (NumLoops s) (NumEating s) (Serving s) (sync s) (cvs s) (BowlSignal s) (BowlState s) (bowls s) (eating_count s) (threads s) x.

(** ** The calls of the primitives

    The result of a step is the new state, or [None] when the thread cannot go
    on: it sleeps in [P], [lock_acquire] or [cv_wait]. *)

Definition at_pc (p : pc) (th : thread) : thread := mk_thread (th_side th) (number th) (loop th) (bowl th) p.

Definition go (t : nat) (th : thread) (p : pc) (s : cm) : outcome (option cm) :=
  Ok (Some (set_threads (<[t := at_pc p th]> (threads s)) s)).

Definition cm_acquire (lock : Z) (t : nat) (th : thread) (p : pc) (s : cm) : outcome (option cm) :=
  _ ← deref (snd (sync s)) lock;
  match apply_label (Acq (Z.of_nat t) lock) (sync s) with
  | Some m => go t th p (set_sync m s)
  | None => Ok None
  end.

Definition cm_release (lock : Z) (t : nat) (s : cm) : outcome cm :=
  _ ← deref (snd (sync s)) lock;
  match apply_label (Rel (Z.of_nat t) lock) (sync s) with
  | Some m => Ok (set_sync m s)
  | None => Panic
  end.

Definition cm_P (sem : Z) (t : nat) (th : thread) (p : pc) (s : cm) : outcome (option cm) :=
  _ ← deref (fst (sync s)) sem;
  match apply_label (Pdone (Z.of_nat t) sem) (sync s) with
  | Some m => go t th p (set_sync m s)
  | None => Ok None
  end.

Definition cm_V (sem : Z) (s : cm) : outcome cm :=
  match apply_label (Vdone sem) (sync s) with
  | Some m => Ok (set_sync m s)
  | None => Undef
  end.

Definition held (lock : Z) (t : nat) (s : cm) : bool := bool_decide (snd (sync s) !! lock = Some (Some (Z.of_nat t))).

(** A waiter that is woken has to take the lock again. *)
Definition wake_pc (p : pc) : pc := match p with PWait => PWake | PBwait => PBwake | p => p end.
Definition wake_all (q : list nat) (ths : list thread) : list thread :=
  foldr (fun t => alter (fun th => at_pc (wake_pc (th_pc th)) th) t) ths q.

(** [cv_broadcast] of the variable on which the threads of one side wait. *)
Definition cm_broadcast (sd : side) (t : nat) (s : cm) : outcome cm :=
  _ ← c_assert (held EatingMutex t s);
  Ok (set_cvs (put sd [] (cvs s)) (set_threads (wake_all (sel sd (cvs s)) (threads s)) s)).

Definition cm_signal (t : nat) (s : cm) : outcome cm :=
  _ ← c_assert (held BowlMutex t s);
  match BowlSignal s with
  | [] => Ok s
  | u :: q => Ok (set_BowlSignal q (set_threads (wake_all [u] (threads s)) s))
  end.

(** ** cat_simulation and mouse_simulation

    [ch_*] are the characters o, f, c, m and -. *)
Definition ch_o : Z := 111.
Definition ch_f : Z := 102.
Definition ch_dash : Z := 45.
Definition ch_of (sd : side) : Z := match sd with Cat => 99 | Mouse => 109 end.

(** The body of getOpenBowl. *)
Definition getOpenBowl_step (t : nat) (th : thread) (s : cm) : outcome (option cm) :=
  match th_pc th with
  | PBowl => cm_acquire BowlMutex t th (PScan 0) s
  | PScan j =>
      if j <? NumBowls s then
        c ← rd (BowlState s) j;
        go t th (if c =? ch_o then PTake j else PScan (j + 1)) s
      else go t th PFull s
  | PTake j =>
      l ← wr (BowlState s) j ch_f;
      go t (mk_thread (th_side th) (number th) (loop th) (u32 (j + 1)) PGot) PGot (set_BowlState l s)
  | PFull => s ← cm_release BowlMutex t s; go t th PBwait (set_BowlSignal (BowlSignal s ++ [t]) s)
  | PBwake => cm_acquire BowlMutex t th (PScan 0) s
  | PGot => s ← cm_release BowlMutex t s; go t th PArg s
  | _ => Ok None
  end.

(** The body of mouse_eat, after the sleep, up to the end of its critical
    section; cat_eat makes its second test before it changes the count. *)
Definition mouse_finish (t : nat) (th : thread) (s : cm) : outcome (option cm) :=
  match th_pc th with
  | PChk2 => _ ← c_assert (0 <? mouse (eating_count s)); go t th PCnt2 s
  | PCnt2 => c ← c_int (mouse (eating_count s) - 1); go t th PMark2 (set_eating_count (put Mouse c (eating_count s)) s)
  | PMark2 =>
      c ← rd (bowls s) (bowl th - 1);
      _ ← c_assert (c =? ch_of Mouse);
      l ← wr (bowls s) (bowl th - 1) ch_dash;
      go t th PEatV2 (set_bowls l s)
  | _ => Ok None
  end.

Definition cat_finish (t : nat) (th : thread) (s : cm) : outcome (option cm) :=
  match th_pc th with
  | PChk2 =>
      _ ← c_assert (0 <? cat (eating_count s));
      c ← rd (bowls s) (bowl th - 1);
      _ ← c_assert (c =? ch_of Cat);
      go t th PCnt2 s
  | PCnt2 => c ← c_int (cat (eating_count s) - 1); go t th PMark2 (set_eating_count (put Cat c (eating_count s)) s)
  | PMark2 => l ← wr (bowls s) (bowl th - 1) ch_dash; go t th PEatV2 (set_bowls l s)
  | _ => Ok None
  end.

(** The body of cat_eat and of mouse_eat.  What they print is not modelled. *)
Definition eat_step (t : nat) (th : thread) (s : cm) : outcome (option cm) :=
  let sd := th_side th in
  match th_pc th with
  | PArg => if (bowl th =? 0) || (NumBowls s <? s32 (bowl th)) then Panic else go t th PEatP s
  | PEatP => cm_P mutex t th PChk s
  | PChk =>
      c ← rd (bowls s) (bowl th - 1);
      if c =? ch_of sd then Panic
      else if 0 <? sel (other sd) (eating_count s) then Panic
      else
        _ ← c_assert (c =? ch_dash);
        _ ← c_assert (sel (other sd) (eating_count s) =? 0);
        go t th PCnt s
  | PCnt => c ← c_int (sel sd (eating_count s) + 1); go t th PMark (set_eating_count (put sd c (eating_count s)) s)
  | PMark => l ← wr (bowls s) (bowl th - 1) (ch_of sd); go t th PEatV (set_bowls l s)
  | PEatV => s ← cm_V mutex s; go t th PEating s
  | PEating => go t th PEatP2 s
  | PEatP2 => cm_P mutex t th PChk2 s
  | PChk2 | PCnt2 | PMark2 => match sd with Cat => cat_finish t th s | Mouse => mouse_finish t th s end
  | PEatV2 => s ← cm_V mutex s; go t th PPut s
  | _ => Ok None
  end.

(** The body of cat_simulation and of mouse_simulation. *)
Definition simulation_step (t : nat) (th : thread) (s : cm) : outcome (option cm) :=
  let sd := th_side th in
  let n := sel sd (NumEating s) in
  match th_pc th with
  | PFor => go t th (if loop th <? NumLoops s then PSleep else PFinish) s
  | PSleep => go t th PEnter s
  | PEnter => cm_acquire EatingMutex t th PTest s
  | PTest => go t th (if (0 <? sel (other sd) (NumEating s)) || negb (Serving s =? number th) then PCvwait else PAss1) s
  | PCvwait => s ← cm_release EatingMutex t s; go t th PWait (set_cvs (put sd (sel sd (cvs s) ++ [t]) (cvs s)) s)
  | PWake => cm_acquire EatingMutex t th PTest s
  | PAss1 => _ ← c_assert (sel (other sd) (NumEating s) =? 0); go t th PAss2 s
  | PAss2 => _ ← c_assert (Serving s =? number th); go t th PInc s
  | PInc => n ← c_int (n + 1); go t th PServe (set_NumEating (put sd n (NumEating s)) s)
  | PServe => go t th PBcast (set_Serving (u32 (Serving s + 1)) s)
  | PBcast => s ← cm_broadcast sd t s; go t th PRel s
  | PRel => s ← cm_release EatingMutex t s; go t th PBowl s
  | PBowl | PScan _ | PTake _ | PFull | PBwake | PGot => getOpenBowl_step t th s
  | PArg | PEatP | PChk | PCnt | PMark | PEatV | PEating | PEatP2 | PChk2 | PCnt2 | PMark2 | PEatV2 => eat_step t th s
  | PPut => cm_acquire BowlMutex t th PFree s
  | PFree => l ← wr (BowlState s) (bowl th - 1) ch_o; go t th PSig (set_BowlState l s)
  | PSig => s ← cm_signal t s; go t th PRelB s
  | PRelB => s ← cm_release BowlMutex t s; go t th PLeave s
  | PLeave => cm_acquire EatingMutex t th PDec s
  | PDec => n ← c_int (n - 1); go t th PZero (set_NumEating (put sd n (NumEating s)) s)
  | PZero => go t th (if n =? 0 then PReset else PRelE) s
  | PReset => go t th PBcast2 (set_Serving 0 s)
  | PBcast2 => s ← cm_broadcast (other sd) t s; go t th PRelE s
  | PRelE =>
      s ← cm_release EatingMutex t s;
      i ← c_int (loop th + 1);
      go t (mk_thread sd (number th) i (bowl th) PFor) PFor s
  | PFinish => s ← cm_V CatMouseWait s; go t th PExited s
  | PNew | PWait | PBwait | PExited => Ok None
  end.

(** ** catmouse *)

Definition start (th : thread) : thread := at_pc PFor th.

Definition main_free (k : nat) (s : cm) : outcome cm :=
  let lbl := match k with
    | 0%nat => Semfree CatMouseWait
    | 1%nat => Lockfree EatingMutex
    | 2%nat => Lockfree BowlMutex
    | _ => Semfree mutex
    end in
  match apply_label lbl (sync s) with Some m => Ok (set_sync m s) | None => Panic end.

Definition main_step (s : cm) : outcome (option cm) :=
  match main s with
  | MFork k =>
      match threads s !! k with
      | Some th => Ok (Some (set_main (MFork (S k)) (set_threads (<[k := start th]> (threads s)) s)))
      | None => Ok (Some (set_main (MWait 0) s))
      end
  | MWait j =>
      n ← c_int (zlen (threads s));   (* NumCats + NumMice *)
      if j <? n then
        _ ← deref (fst (sync s)) CatMouseWait;
        match apply_label (Pdone (-1) CatMouseWait) (sync s) with
        | Some m => Ok (Some (set_main (MWait (j + 1)) (set_sync m s)))
        | None => Ok None
        end
      else Ok (Some (set_main (MFree 0) s))
  | MFree k =>
      s ← main_free k s;
      Ok (Some (set_main (if decide (k < 3)%nat then MFree (S k) else MDone) s))
  | MDone => Ok None
  end.

(** The next statement of the main thread ([None]) or of a thread of the
    simulation. *)
Definition step_of (a : option nat) (s : cm) : outcome (option cm) :=
  match a with
  | None => main_step s
  | Some t => match threads s !! t with Some th => simulation_step t th s | None => Ok None end
  end.

Definition new_thread (sd : side) (k : nat) : thread := mk_thread sd (Z.of_nat k) 0 0 PNew.

Definition cm_init (nb nc nm nl : Z) : cm :=
  mk_cm nb nl (Two 0 0) 0 ({[CatMouseWait := 0; mutex := 1]}, {[EatingMutex := None; BowlMutex := None]})
    (Two [] []) [] (replicate (Z.to_nat nb) ch_o) (replicate (Z.to_nat nb) ch_dash) (Two 0 0)
    ((new_thread Cat <$> seq 0 (Z.to_nat nc)) ++ (new_thread Mouse <$> seq 0 (Z.to_nat nm))) (MFork 0).

(** The arguments of the command: [inl] is the return before the threads are
    started. *)
Definition catmouse (args : list (list Z)) : outcome (Z + cm) :=
  match args with
  | [_; a1; a2; a3; a4] =>
      nb ← atoi a1;
      if nb <=? 0 then Ok (inl 1) else
      nc ← atoi a2;
      if nc <? 0 then Ok (inl 1) else
      nm ← atoi a3;
      if nm <? 0 then Ok (inl 1) else
      nl ← atoi a4;
      if nl <=? 0 then Ok (inl 1) else
      Ok (inr (cm_init nb nc nm nl))
  | _ => Ok (inl 1)
  end.

Inductive steps (s : cm) : cm -> Prop :=
| steps_refl : steps s s
| steps_step s1 s2 a : steps s s1 -> step_of a s1 = Ok (Some s2) -> steps s s2.

(** ** Where a thread is

    What the statement that a thread is at says about the shared state. *)

(** Between taking and releasing [EatingMutex], [BowlMutex] and [mutex]. *)
Definition in_eating (th : thread) : bool :=
  match th_pc th with
  | PTest | PCvwait | PAss1 | PAss2 | PInc | PServe | PBcast | PRel | PDec | PZero | PReset | PBcast2 | PRelE => true
  | _ => false
  end.
Definition in_bowl (th : thread) : bool :=
  match th_pc th with PScan _ | PTake _ | PFull | PGot | PFree | PSig | PRelB => true | _ => false end.
Definition in_mutex (th : thread) : bool :=
  match th_pc th with PChk | PCnt | PMark | PEatV | PChk2 | PCnt2 | PMark2 | PEatV2 => true | _ => false end.

(** It is counted in NumCatsEating or NumMiceEating. *)
Definition entered (th : thread) : bool :=
  match th_pc th with
  | PServe | PBcast | PRel | PBowl | PScan _ | PTake _ | PFull | PBwait | PBwake | PGot | PArg | PEatP | PChk | PCnt | PMark | PEatV
  | PEating | PEatP2 | PChk2 | PCnt2 | PMark2 | PEatV2 | PPut | PFree | PSig | PRelB | PLeave | PDec => true
  | _ => false
  end.
(** It has a bowl. *)
Definition has_bowl (th : thread) : bool :=
  match th_pc th with
  | PGot | PArg | PEatP | PChk | PCnt | PMark | PEatV | PEating | PEatP2 | PChk2 | PCnt2 | PMark2 | PEatV2 | PPut | PFree => true
  | _ => false
  end.
(** It is counted in eating_cats_count or eating_mice_count; its bowl is marked. *)
Definition eats (th : thread) : bool :=
  match th_pc th with PMark | PEatV | PEating | PEatP2 | PChk2 | PCnt2 => true | _ => false end.
Definition marks (th : thread) : bool :=
  match th_pc th with PEatV | PEating | PEatP2 | PChk2 | PCnt2 | PMark2 => true | _ => false end.
Definition exited (th : thread) : bool := match th_pc th with PExited => true | _ => false end.
Definition outside_loop (th : thread) : bool := match th_pc th with PNew | PFor => true | _ => false end.

Definition same_side (sd sd' : side) : bool := match sd, sd' with Cat, Cat | Mouse, Mouse => true | _, _ => false end.
Definition of_side (sd : side) (p : thread -> bool) (th : thread) : bool := same_side sd (th_side th) && p th.
Definition at_bowl (b : Z) (p : thread -> bool) (th : thread) : bool := (bowl th =? b) && p th.

Arguments of_side sd p !th /.
Arguments at_bowl b p !th /.

(** How many threads satisfy a predicate. *)
Fixpoint cnt (p : thread -> bool) (ths : list thread) : Z :=
  match ths with [] => 0 | th :: ths' => Z.b2z (p th) + cnt p ths' end.

(** ** The invariant *)

Definition bowl_mark (s : cm) (b : Z) : Z :=
  if 0 <? cnt (at_bowl b (of_side Cat marks)) (threads s) then ch_of Cat
  else if 0 <? cnt (at_bowl b (of_side Mouse marks)) (threads s) then ch_of Mouse
  else ch_dash.

(** What holds of the thread with the index [u]. *)
Record thread_ok (s : cm) (u : nat) (th : thread) : Prop := mk_thread_ok {
  ok_eating : in_eating th = held EatingMutex u s;
  ok_bowlmutex : in_bowl th = held BowlMutex u s;
  ok_alone : th_pc th = PAss1 \/ th_pc th = PAss2 \/ th_pc th = PInc -> sel (other (th_side th)) (NumEating s) = 0;
  ok_turn : th_pc th = PAss1 \/ th_pc th = PAss2 -> Serving s = number th;
  ok_scan : forall j, th_pc th = PScan j -> 0 <= j;
  ok_take : forall j, th_pc th = PTake j -> 0 <= j < NumBowls s /\ BowlState s !! Z.to_nat j = Some ch_o;
  ok_bowl : has_bowl th = true -> 1 <= bowl th <= NumBowls s;
  ok_loop : 0 <= loop th <= NumLoops s /\ (if outside_loop th then True else if exited th then loop th = NumLoops s else th_pc th = PFinish \/ loop th < NumLoops s);
  ok_finish : th_pc th = PFinish -> loop th = NumLoops s;
  ok_new : forall k, main s = MFork k -> (k <= u)%nat -> th_pc th = PNew }.

Definition waited (m : main_pc) : Z := match m with MWait j => j | _ => 0 end.

(** While the primitives exist. *)
Record running (s : cm) : Prop := mk_running {
  run_main : match main s with MFork k => (k <= length (threads s))%nat | MWait j => 0 <= j <= zlen (threads s) | _ => False end;
  run_sizes : 0 < NumBowls s <= int_max /\ NumLoops s <= int_max /\ zlen (threads s) <= int_max /\ zlen (BowlState s) = NumBowls s /\ zlen (bowls s) = NumBowls s;
  run_entered : forall sd, sel sd (NumEating s) = cnt (of_side sd entered) (threads s);
  run_rule : exists sd, cnt (of_side sd entered) (threads s) = 0;
  run_eating : forall sd, sel sd (eating_count s) = cnt (of_side sd eats) (threads s);
  run_owner : forall b, cnt (at_bowl b has_bowl) (threads s) <= 1;
  run_state : forall b, 1 <= b <= NumBowls s -> BowlState s !! Z.to_nat (b - 1) = Some (if 0 <? cnt (at_bowl b has_bowl) (threads s) then ch_f else ch_o);
  run_bowls : forall b, 1 <= b <= NumBowls s -> bowls s !! Z.to_nat (b - 1) = Some (bowl_mark s b);
  run_wait : fst (sync s) !! CatMouseWait = Some (cnt exited (threads s) - waited (main s)) /\ 0 <= cnt exited (threads s) - waited (main s);
  run_mutex : fst (sync s) !! mutex = Some (1 - cnt in_mutex (threads s)) /\ cnt in_mutex (threads s) <= 1;
  run_locks : is_Some (snd (sync s) !! EatingMutex) /\ is_Some (snd (sync s) !! BowlMutex);
  run_holders : forall lock z, snd (sync s) !! lock = Some (Some z) -> 0 <= z < zlen (threads s);
  run_threads : forall u th, threads s !! u = Some th -> thread_ok s u th }.

(** Once the main thread is past its loop every thread is gone. *)
Definition freed (k : nat) (s : cm) : Prop :=
  ((k <= 0)%nat -> is_Some (fst (sync s) !! CatMouseWait)) /\ ((k <= 1)%nat -> snd (sync s) !! EatingMutex = Some None) /\
  ((k <= 2)%nat -> snd (sync s) !! BowlMutex = Some None) /\ ((k <= 3)%nat -> is_Some (fst (sync s) !! mutex)).

Definition finished (s : cm) : Prop :=
  (forall u th, threads s !! u = Some th -> th_pc th = PExited /\ loop th = NumLoops s) /\
  match main s with MFree k => (k <= 3)%nat /\ freed k s | MDone => True | _ => False end.

(** ** Counting *)

Lemma cnt_insert p ths t th th' : ths !! t = Some th ->
  cnt p (<[t := th']> ths) = cnt p ths - Z.b2z (p th) + Z.b2z (p th').
Proof.
  revert t. induction ths as [|x ths IH]; intros [|t] E; try done.
  - injection E as ->. cbn. lia.
  - change (<[S t := th']> (x :: ths)) with (x :: <[t := th']> ths). cbn [cnt]. rewrite (IH _ E). lia.
Qed.

Lemma cnt_nonneg p ths : 0 <= cnt p ths <= zlen ths.
Proof. induction ths as [|x ths IH]; cbn [cnt length]; [lia|]. destruct (p x); cbn; lia. Qed.

(** A predicate that holds less often, and not where the other one does. *)
Lemma cnt_le p q ths : (forall th, p th = true -> q th = true) -> cnt p ths <= cnt q ths.
Proof.
  intros H. induction ths as [|x ths IH]; cbn; [lia|]. specialize (H x). destruct (p x), (q x); cbn; lia.
Qed.

Lemma cnt_in p ths t th : ths !! t = Some th -> p th = true -> 1 <= cnt p ths.
Proof.
  revert t. induction ths as [|x ths IH]; intros [|t] E Hp; try done; cbn in *.
  - injection E as ->. rewrite Hp. cbn. pose proof (cnt_nonneg p ths). lia.
  - specialize (IH _ E Hp). destruct (p x); cbn; lia.
Qed.

Lemma cnt_lt p q ths t th : (forall th, p th = true -> q th = true) ->
  ths !! t = Some th -> p th = false -> q th = true -> cnt p ths < cnt q ths.
Proof.
  intros H. revert t. induction ths as [|x ths IH]; intros [|t] E Hp Hq; try done; cbn in *.
  - injection E as ->. rewrite Hp, Hq. cbn. pose proof (cnt_le p q ths H). lia.
  - specialize (IH _ E Hp Hq). specialize (H x). destruct (p x), (q x); cbn; lia.
Qed.

Lemma cnt_all p ths : cnt p ths = zlen ths -> forall t th, ths !! t = Some th -> p th = true.
Proof.
  induction ths as [|x ths IH]; cbn [cnt length]; intros H t th E; [done|]. pose proof (cnt_nonneg p ths).
  destruct (p x) eqn:Ex; cbn in H; [|lia]. destruct t as [|t]; cbn in E; [by injection E as <-|]. apply (IH ltac:(lia) _ _ E).
Qed.

Lemma cnt_none p ths t th : cnt p ths = 0 -> ths !! t = Some th -> p th = false.
Proof. intros H E. destruct (p th) eqn:Hp; [|done]. pose proof (cnt_in p ths t th E Hp). lia. Qed.

(** Being woken changes none of the predicates. *)
Definition stable (p : thread -> bool) : Prop := forall th, p (at_pc (wake_pc (th_pc th)) th) = p th.

Lemma cnt_alter p f t ths : (forall th, p (f th) = p th) -> cnt p (alter f t ths) = cnt p ths.
Proof.
  intros H. revert t. induction ths as [|x ths IH]; intros [|t]; try done.
  - cbn. by rewrite H.
  - change (alter f (S t) (x :: ths)) with (x :: alter f t ths). cbn [cnt]. by rewrite IH.
Qed.

Lemma cnt_wake p q ths : stable p -> cnt p (wake_all q ths) = cnt p ths.
Proof. intros H. induction q as [|t q IH]; [done|]. cbn. rewrite cnt_alter by apply H. apply IH. Qed.

Lemma wake_lookup q ths t : wake_all q ths !! t = ths !! t \/ exists th, ths !! t = Some th /\ wake_all q ths !! t = Some (at_pc (wake_pc (th_pc th)) th).
Proof.
  induction q as [|u q IH]; [by left|]. change (wake_all (u :: q) ths) with (alter (fun th => at_pc (wake_pc (th_pc th)) th) u (wake_all q ths)). destruct (decide (u = t)) as [->|Hn].
  - rewrite list_lookup_alter_eq. destruct IH as [->|(th & E & ->)].
    + destruct (ths !! t) as [th|] eqn:E; [right; by exists th|by left].
    + right. exists th. split; [done|]. cbn. by destruct (th_pc th).
  - by rewrite list_lookup_alter_ne.
Qed.

(** ** What a call did *)

Lemma deref_Some {A} (m : gmap Z A) k x : deref m k = Ok x <-> m !! k = Some x.
Proof. unfold deref. destruct (m !! k); split; congruence. Qed.

Lemma cm_acquire_inv lock t th p s s' : cm_acquire lock t th p s = Ok (Some s') ->
  snd (sync s) !! lock = Some None /\ s' = set_threads (<[t := at_pc p th]> (threads s)) (set_sync (fst (sync s), <[lock := Some (Z.of_nat t)]> (snd (sync s))) s).
Proof.
  unfold cm_acquire. intros H. inv_ok. destruct (sync s) as [cs hs] eqn:Es. cbn in *. destruct (hs !! lock) as [[h|]|]; try done.
  injection H as <-. done.
Qed.

Lemma cm_release_inv lock t s s' : cm_release lock t s = Ok s' ->
  held lock t s = true /\ s' = set_sync (fst (sync s), <[lock := None]> (snd (sync s))) s.
Proof.
  unfold cm_release, held. intros H. inv_ok. destruct (sync s) as [cs hs] eqn:Es. cbn in *. case_decide as Hd; [|done]. injection H as <-.
  split; [by apply bool_decide_eq_true|done].
Qed.

Lemma cm_P_inv sem t th p s s' : cm_P sem t th p s = Ok (Some s') ->
  exists c, fst (sync s) !! sem = Some c /\ 0 < c /\ s' = set_threads (<[t := at_pc p th]> (threads s)) (set_sync (<[sem := c - 1]> (fst (sync s)), snd (sync s)) s).
Proof.
  unfold cm_P. intros H. inv_ok. destruct (sync s) as [cs hs] eqn:Es. cbn in *. destruct (cs !! sem) as [c|] eqn:Ec; [|done].
  destruct (Z.ltb_spec 0 c) as [Hc|Hc]; [|done]. injection H as <-. by exists c.
Qed.

Lemma cm_V_inv sem s s' : cm_V sem s = Ok s' ->
  exists c, fst (sync s) !! sem = Some c /\ s' = set_sync (<[sem := c + 1]> (fst (sync s)), snd (sync s)) s.
Proof.
  unfold cm_V. intros H. destruct (sync s) as [cs hs] eqn:Es. cbn in *. destruct (cs !! sem) as [c|] eqn:Ec; [|done]. injection H as <-. by exists c.
Qed.

Lemma cm_broadcast_inv sd t s s' : cm_broadcast sd t s = Ok s' ->
  s' = set_cvs (put sd [] (cvs s)) (set_threads (wake_all (sel sd (cvs s)) (threads s)) s).
Proof. unfold cm_broadcast. intros H. by inv_ok. Qed.

Lemma cm_signal_inv t s s' : cm_signal t s = Ok s' ->
  exists q q', s' = set_BowlSignal q (set_threads (wake_all q' (threads s)) s).
Proof.
  unfold cm_signal. intros H. inv_ok. destruct (BowlSignal s) as [|u q] eqn:E; injection H as <-; [|by exists q, [u]].
  exists [], []. destruct s. cbn in *. by subst.
Qed.

Lemma go_inv t th p s s' : go t th p s = Ok (Some s') -> s' = set_threads (<[t := at_pc p th]> (threads s)) s.
Proof. by injection 1 as <-. Qed.

Ltac cm_inv H :=
  unfold simulation_step, getOpenBowl_step, eat_step, cat_finish, mouse_finish in H; cbn [th_side th_pc number loop bowl] in H; try discriminate H;
  repeat (inv_ok; try discriminate; match goal with
  | H : cm_acquire _ _ _ _ _ = Ok (Some _) |- _ => apply cm_acquire_inv in H as [? ->]
  | H : cm_release _ _ _ = Ok _ |- _ => apply cm_release_inv in H as [? ->]
  | H : cm_P _ _ _ _ _ = Ok (Some _) |- _ => apply cm_P_inv in H as (? & ? & ? & ->)
  | H : cm_V _ _ = Ok _ |- _ => apply cm_V_inv in H as (? & ? & ->)
  | H : cm_broadcast _ _ _ = Ok _ |- _ => apply cm_broadcast_inv in H as ->
  | H : cm_signal _ _ = Ok _ |- _ => apply cm_signal_inv in H as (? & ? & ->)
  | H : go _ _ (if ?b then _ else _) _ = Ok (Some _) |- _ => destruct b eqn:?
  | H : go _ _ _ _ = Ok (Some _) |- _ => apply go_inv in H as ->
  | H : wr _ _ _ = Ok _ |- _ => apply wr_Ok in H as [? ->]
  | H : rd _ _ = Ok _ |- _ => apply rd_Some in H as [? ?]
  | H : (if ?b then _ else _) = Ok (Some _) |- _ => destruct b eqn:?
  | H : match ?sd with Cat => _ | Mouse => _ end = Ok (Some _) |- _ => destruct sd
  end); subst.

Ltac cm_cbn := cbn [sync threads main NumBowls NumLoops NumEating Serving cvs BowlSignal BowlState bowls eating_count set_NumEating set_Serving set_sync set_cvs set_BowlSignal
  set_BowlState set_bowls set_eating_count set_threads set_main fst snd at_pc th_side th_pc number loop bowl] in *.

(** The threads after a step: one has moved, waiters may have been woken. *)
Definition moved (t : nat) (th th' : thread) (q : list nat) (s s' : cm) : Prop :=
  threads s' = <[t := th']> (wake_all q (threads s)) /\ main s' = main s /\ NumBowls s' = NumBowls s /\ NumLoops s' = NumLoops s /\
  th_side th' = th_side th /\ number th' = number th /\ wake_pc (th_pc th) = th_pc th.

Lemma step_moved t th s s' : simulation_step t th s = Ok (Some s') -> exists th' q, moved t th th' q s s'.
Proof.
  destruct th as [sd n i b p]. intros H. unfold moved. destruct p; cm_inv H; cm_cbn; eexists; first [exists []; repeat split; reflexivity | eexists; repeat split; reflexivity].
Qed.

Lemma stable_entered : stable entered.
Proof. by intros [? ? ? ? []]. Qed.
Lemma stable_has_bowl : stable has_bowl.
Proof. by intros [? ? ? ? []]. Qed.
Lemma stable_eats : stable eats.
Proof. by intros [? ? ? ? []]. Qed.
Lemma stable_marks : stable marks.
Proof. by intros [? ? ? ? []]. Qed.
Lemma stable_exited : stable exited.
Proof. by intros [? ? ? ? []]. Qed.
Lemma stable_in_mutex : stable in_mutex.
Proof. by intros [? ? ? ? []]. Qed.
Lemma stable_of_side sd p : stable p -> stable (of_side sd p).
Proof. intros H th. unfold of_side. cbn. by rewrite H. Qed.
Lemma stable_at_bowl b p : stable p -> stable (at_bowl b p).
Proof. intros H th. unfold at_bowl. cbn. by rewrite H. Qed.

Create HintDb cm discriminated.
#[local] Hint Resolve stable_entered stable_has_bowl stable_eats stable_marks stable_exited stable_in_mutex stable_of_side stable_at_bowl : cm.

Lemma cnt_step p q ths t th th' : ths !! t = Some th -> wake_pc (th_pc th) = th_pc th -> stable p ->
  cnt p (<[t := th']> (wake_all q ths)) = cnt p ths - Z.b2z (p th) + Z.b2z (p th').
Proof.
  intros E Hw Hp. rewrite (cnt_insert p _ t th), (cnt_wake p q ths Hp); [done|].
  destruct (wake_lookup q ths t) as [->|(th0 & E0 & ->)]; [done|]. assert (th0 = th) as -> by congruence. rewrite Hw. by destruct th.
Qed.

Lemma length_wake q ths : length (wake_all q ths) = length ths.
Proof. induction q as [|t q IH]; [done|]. cbn. rewrite length_alter. apply IH. Qed.

Lemma thread_ok_woken s u x : thread_ok s u x -> thread_ok s u (at_pc (wake_pc (th_pc x)) x).
Proof.
  destruct x as [sd n i b p]. intros H. destruct p; try exact H; destruct H; constructor; cbn in *; (done || (intros; intuition congruence) || (intros k Hk Hu; discriminate (ok_new0 k Hk Hu))).
Qed.

Section Step.
Context (s s' : cm) (t : nat) (th : thread).
Context (Hrun : running s) (Hth : threads s !! t = Some th) (Hstep : simulation_step t th s = Ok (Some s')).

Ltac cnts := repeat first [rewrite (cnt_step _ _ _ _ _ _ Hth) by (reflexivity || (cbn; auto with cm)) | rewrite (cnt_insert _ _ _ _ _ Hth)].

Lemma step_entered sd : sel sd (NumEating s') = cnt (of_side sd entered) (threads s').
Proof.
  pose proof (run_entered s Hrun sd) as Hn. destruct th as [sd0 n i b p]. destruct p; cm_inv Hstep; cm_cbn; cnts; destruct sd; try destruct sd0; cbn in *; lia.
Qed.

Lemma step_eating sd : sel sd (eating_count s') = cnt (of_side sd eats) (threads s').
Proof.
  pose proof (run_eating s Hrun sd) as Hn. destruct th as [sd0 n i b p]. destruct p; cm_inv Hstep; cm_cbn; cnts; destruct sd; try destruct sd0; cbn in *; lia.
Qed.

Lemma entered_mono sd : cnt (of_side sd entered) (threads s') <= cnt (of_side sd entered) (threads s) \/ (th_pc th = PInc /\ sd = th_side th).
Proof.
  destruct th as [sd0 n i b p]. destruct p; cm_inv Hstep; cm_cbn; cnts; destruct sd; try destruct sd0; cbn; first [left; lia | by right].
Qed.

Lemma step_rule : exists sd, cnt (of_side sd entered) (threads s') = 0.
Proof.
  destruct (run_rule s Hrun) as [sd Hsd]. pose proof (ok_alone _ _ _ (run_threads s Hrun t th Hth)) as Ha. rewrite (run_entered s Hrun) in Ha.
  destruct (entered_mono sd) as [?|[Hp _]].
  - exists sd. pose proof (cnt_nonneg (of_side sd entered) (threads s')). lia.
  - specialize (Ha ltac:(auto)). exists (other (th_side th)). pose proof (cnt_nonneg (of_side (other (th_side th)) entered) (threads s')).
    destruct (entered_mono (other (th_side th))) as [?|[_ E]]; [lia|by destruct (th_side th)].
Qed.

(** A thread with a bowl is the only one with that bowl. *)
Lemma owner_alone p : (forall x, p x = true -> at_bowl (bowl th) has_bowl x = true) -> has_bowl th = true -> p th = false -> cnt p (threads s) = 0.
Proof.
  intros Hp Hb Hn. pose proof (cnt_nonneg p (threads s)). pose proof (run_owner s Hrun (bowl th)).
  pose proof (cnt_lt p (at_bowl (bowl th) has_bowl) (threads s) t th Hp Hth Hn) as H1. cbn in H1. unfold at_bowl in H1 at 1. rewrite Z.eqb_refl, Hb in H1. specialize (H1 eq_refl). lia.
Qed.

Lemma step_owner b : cnt (at_bowl b has_bowl) (threads s') <= 1.
Proof.
  pose proof (run_owner s Hrun b) as Ho. pose proof (ok_take _ _ _ (run_threads s Hrun t th Hth)) as Ht. pose proof (run_sizes s Hrun) as Hz. pose proof (run_state s Hrun b) as Hs.
  destruct th as [sd n i b0 p]. destruct p; cm_inv Hstep; cm_cbn; cnts; cbn; try (destruct (b0 =? b); cbn; lia).
  destruct (Ht j eq_refl) as [Hj Ej]. rewrite u32_id by (unfold int_max, u32_mod in *; lia). assert ((if b0 =? b then false else false) = false) as -> by (by destruct (b0 =? b)). destruct (Z.eqb_spec (j + 1) b) as [<-|?]; cbn; [|lia].
  rewrite Z.add_simpl_r in Hs. destruct (Z.ltb_spec 0 (cnt (at_bowl (j + 1) has_bowl) (threads s))); [|lia]. specialize (Hs ltac:(lia)). rewrite Ej in Hs. done.
Qed.

Lemma step_sizes : zlen (BowlState s') = zlen (BowlState s) /\ zlen (bowls s') = zlen (bowls s) /\ length (threads s') = length (threads s).
Proof.
  destruct (step_moved t th s s' Hstep) as (th' & q & -> & _). rewrite length_insert, length_wake.
  destruct th as [sd n i b p]. destruct p; cm_inv Hstep; cm_cbn; rewrite ?length_insert; done.
Qed.

Lemma step_state b : 1 <= b <= NumBowls s ->
  BowlState s' !! Z.to_nat (b - 1) = Some (if 0 <? cnt (at_bowl b has_bowl) (threads s') then ch_f else ch_o).
Proof.
  intros Hb. pose proof (run_state s Hrun b Hb) as Hs. pose proof (run_sizes s Hrun) as Hz. pose proof (cnt_nonneg (at_bowl b has_bowl) (threads s)) as Hc.
  pose proof (ok_take _ _ _ (run_threads s Hrun t th Hth)) as Ht. pose proof (run_owner s Hrun b) as H1.
  pose proof (cnt_in (at_bowl b has_bowl) _ _ _ Hth) as Hi. pose proof (ok_bowl _ _ _ (run_threads s Hrun t th Hth)) as Hw.
  destruct th as [sd n i b0 p]. destruct p; cm_inv Hstep; cm_cbn; cnts; cbn; try (rewrite Hs; destruct (b0 =? b); cbn; rewrite ?Z.sub_0_r, ?Z.add_0_r, ?Z.sub_add; reflexivity).
  - destruct (Ht j eq_refl) as [Hj Ej]. rewrite u32_id by (unfold int_max, u32_mod in *; lia). replace (if b0 =? b then false else false) with false by (by destruct (b0 =? b)).
    destruct (Z.eqb_spec (j + 1) b) as [<-|?].
    + rewrite Z.add_simpl_r, list_lookup_insert_eq by lia. cbn. destruct (Z.ltb_spec 0 (cnt (at_bowl (j + 1) has_bowl) (threads s) - 0 + 1)); [done|lia].
    + rewrite list_lookup_insert_ne by lia. rewrite Hs. cbn. by rewrite Z.sub_0_r, Z.add_0_r.
  - specialize (Hw eq_refl). destruct (Z.eqb_spec b0 b) as [<-|?].
    + rewrite list_lookup_insert_eq by lia. cbn. destruct (Z.ltb_spec 0 (cnt (at_bowl b0 has_bowl) (threads s) - 1 + 0)); [lia|done].
    + rewrite list_lookup_insert_ne by lia. rewrite Hs. cbn. by rewrite Z.sub_0_r, Z.add_0_r.
Qed.

(** The marks at a bowl of a thread that has it, its own aside. *)
Lemma other_marks sd : has_bowl th = true -> of_side sd marks th = false -> cnt (at_bowl (bowl th) (of_side sd marks)) (threads s) = 0.
Proof.
  intros Hb Hn. apply owner_alone; [|done|].
  - intros x. unfold at_bowl, of_side. destruct x as [sd0 n i b p]. cbn. destruct p; cbn; rewrite ?andb_false_r; try done; intros H; apply andb_true_iff in H as [-> _]; done.
  - unfold at_bowl. rewrite Hn. apply andb_false_r.
Qed.

Lemma own_marks sd : has_bowl th = true -> of_side sd marks th = true -> cnt (at_bowl (bowl th) (of_side sd marks)) (threads s) = 1.
Proof.
  intros Hb Hn. pose proof (run_owner s Hrun (bowl th)). 
  assert (cnt (at_bowl (bowl th) (of_side sd marks)) (threads s) <= cnt (at_bowl (bowl th) has_bowl) (threads s)).
  - apply cnt_le. intros [sd0 n i b p]. unfold at_bowl, of_side. cbn. destruct p; cbn; rewrite ?andb_false_r; try done; intros H0; apply andb_true_iff in H0 as [-> _]; done.
  - assert (1 <= cnt (at_bowl (bowl th) (of_side sd marks)) (threads s)); [|lia]. apply (cnt_in _ _ t th Hth). unfold at_bowl. by rewrite Z.eqb_refl, Hn.
Qed.

Lemma step_bowls b : 1 <= b <= NumBowls s -> bowls s' !! Z.to_nat (b - 1) = Some (bowl_mark s' b).
Proof.
  intros Hb. pose proof (run_bowls s Hrun b Hb) as Hs. pose proof (run_sizes s Hrun) as Hz. unfold bowl_mark in *.
  pose proof (other_marks) as Ho. pose proof own_marks as Hw. pose proof (ok_bowl _ _ _ (run_threads s Hrun t th Hth)) as Hr.
  destruct th as [sd n i b0 p]. destruct p; cm_inv Hstep; cm_cbn; cnts; cbn [at_bowl of_side th_side bowl marks th_pc at_pc];
    try (rewrite Hs; try destruct sd; destruct (b0 =? b); cbn; rewrite ?Z.sub_0_r, ?Z.add_0_r, ?Z.sub_add; reflexivity).
  - rewrite Hs, !andb_false_r. cbn. by rewrite !Z.sub_0_r, !Z.add_0_r.
  - specialize (Hr eq_refl). destruct (Z.eqb_spec b0 b) as [<-|?].
    + rewrite list_lookup_insert_eq by lia. destruct sd; by rewrite (Ho Cat), (Ho Mouse).
    + rewrite list_lookup_insert_ne by lia. rewrite Hs. cbn. by rewrite !Z.sub_0_r, !Z.add_0_r.
  - specialize (Hr eq_refl). destruct (Z.eqb_spec b0 b) as [<-|?].
    + rewrite list_lookup_insert_eq by lia. by rewrite (Hw Cat), (Ho Mouse).
    + rewrite list_lookup_insert_ne by lia. rewrite Hs. cbn. by rewrite !Z.sub_0_r, !Z.add_0_r.
  - specialize (Hr eq_refl). destruct (Z.eqb_spec b0 b) as [<-|?].
    + rewrite list_lookup_insert_eq by lia. by rewrite (Ho Cat), (Hw Mouse).
    + rewrite list_lookup_insert_ne by lia. rewrite Hs. cbn. by rewrite !Z.sub_0_r, !Z.add_0_r.
Qed.

Lemma step_wait : fst (sync s') !! CatMouseWait = Some (cnt exited (threads s') - waited (main s')) /\ 0 <= cnt exited (threads s') - waited (main s').
Proof.
  destruct (run_wait s Hrun) as [Hw Hc]. destruct th as [sd n i b p]. destruct p; cm_inv Hstep; cm_cbn; cnts; cbn;
    rewrite ?Z.sub_0_r, ?Z.add_0_r; try done; try (by rewrite lookup_insert_ne by done).
  rewrite lookup_insert_eq. split; [f_equal; congruence || (rewrite Hw in *; simplify_eq; lia)|lia].
Qed.

Lemma step_mutex : fst (sync s') !! mutex = Some (1 - cnt in_mutex (threads s')) /\ cnt in_mutex (threads s') <= 1.
Proof.
  destruct (run_mutex s Hrun) as [Hm Hc]. destruct th as [sd n i b p]. destruct p; cm_inv Hstep; cm_cbn; cnts; cbn;
    rewrite ?Z.sub_add, ?Z.sub_0_r, ?Z.add_0_r; try done; try (by rewrite lookup_insert_ne by done);
    rewrite lookup_insert_eq; match goal with H : _ !! mutex = Some ?x |- context [?x] => rewrite Hm in H; injection H as <- end; (split; [f_equal|]; lia).
Qed.

Lemma step_locks lock : is_Some (snd (sync s) !! lock) -> is_Some (snd (sync s') !! lock).
Proof.
  intros Hl. destruct th as [sd n i b p]. destruct p; cm_inv Hstep; cm_cbn; try done; apply lookup_insert_is_Some'; auto.
Qed.

Lemma step_holders lock z : snd (sync s') !! lock = Some (Some z) -> 0 <= z < zlen (threads s').
Proof.
  destruct step_sizes as (_ & _ & ->). pose proof (run_holders s Hrun lock z) as Hh. pose proof (lookup_lt_Some _ _ _ Hth) as Hlt.
  destruct th as [sd n i b p]. destruct p; cm_inv Hstep; cm_cbn; try done;
    (match goal with |- <[?l := _]> _ !! lock = _ -> _ => destruct (decide (l = lock)) as [<-|?]; [rewrite lookup_insert_eq|by rewrite lookup_insert_ne] end);
    intros [=]; lia.
Qed.

Lemma held_unique lock u v : held lock u s = true -> held lock v s = true -> u = v.
Proof. unfold held. rewrite !bool_decide_eq_true. intros -> [= E]. lia. Qed.

Lemma step_held lock u : u <> t -> held lock u s' = held lock u s.
Proof.
  intros Hn. unfold held. destruct th as [sd n i b p]. destruct p; cm_inv Hstep; cm_cbn; try done; unfold held in *;
    match goal with |- context [<[?l := _]> _ !! lock] => destruct (decide (l = lock)) as [<-|?]; [rewrite lookup_insert_eq|by rewrite lookup_insert_ne] end;
    try (match goal with H : bool_decide _ = true |- _ => apply bool_decide_eq_true in H; rewrite H | H : _ = Some None |- _ => rewrite H end;
      rewrite !bool_decide_eq_false_2; [done| |]; intros [=]; lia).
Qed.

Lemma step_numbers : in_eating th = false -> NumEating s' = NumEating s /\ Serving s' = Serving s.
Proof. intros He. destruct th as [sd n i b p]. destruct p; try discriminate He; cm_inv Hstep; cm_cbn; done. Qed.

Lemma step_flags : in_bowl th = false -> BowlState s' = BowlState s.
Proof. intros He. destruct th as [sd n i b p]. destruct p; try discriminate He; cm_inv Hstep; cm_cbn; done. Qed.

Lemma step_thread_other u x : u <> t -> thread_ok s u x -> thread_ok s' u x.
Proof.
  intros Hn [He Hb Ha Ht Hs Hk Hw Hl Hf Hm]. destruct (run_threads s Hrun t th Hth) as [Te Tb _ _ _ _ _ _ _ _].
  destruct (step_moved t th s s' Hstep) as (th' & q & _ & Em & En & El & _).
  assert (in_eating x = true -> in_eating th = false) as Xe.
  - rewrite He, Te. intros Hx. destruct (held EatingMutex t s) eqn:E; [|done]. by destruct (Hn (held_unique _ _ _ Hx E)).
  - assert (in_bowl x = true -> in_bowl th = false) as Xb.
    + rewrite Hb, Tb. intros Hx. destruct (held BowlMutex t s) eqn:E; [|done]. by destruct (Hn (held_unique _ _ _ Hx E)).
    + constructor; rewrite ?step_held, ?En, ?El, ?Em by done; try done.
      * intros H. destruct step_numbers as [-> _]; [|auto]. apply Xe. unfold in_eating. by destruct H as [->|[->| ->]].
      * intros H. destruct step_numbers as [_ ->]; [|auto]. apply Xe. unfold in_eating. by destruct H as [->| ->].
      * intros j H. rewrite step_flags; [auto|]. apply Xb. unfold in_bowl. by rewrite H.
Qed.

Lemma moved_self th' q : moved t th th' q s s' -> threads s' !! t = Some th'.
Proof. intros (-> & _). apply list_lookup_insert_eq. rewrite length_wake. by apply lookup_lt_Some in Hth. Qed.

Lemma wake_lt q : (t < length (wake_all q (threads s)))%nat.
Proof. rewrite length_wake. by apply lookup_lt_Some in Hth. Qed.

Ltac self_is Et W := (rewrite list_lookup_insert_eq in Et by first [apply (W []) | apply W]); injection Et as <-.

Lemma step_held_self th' q : moved t th th' q s s' -> in_eating th' = held EatingMutex t s' /\ in_bowl th' = held BowlMutex t s'.
Proof.
  intros Hm. pose proof (moved_self _ _ Hm) as Et. clear Hm. destruct (run_threads s Hrun t th Hth) as [Te Tb _ _ _ _ _ _ _ _]. unfold held in *.
  pose proof wake_lt as W. destruct th as [sd n i b p]. destruct p; cm_inv Hstep; cm_cbn; self_is Et W; cbn in *; try done;
    rewrite lookup_insert_eq, lookup_insert_ne by done; split; try done; symmetry; first [by apply bool_decide_eq_true | apply bool_decide_eq_false; congruence].
Qed.

Lemma step_thread_self th' q : moved t th th' q s s' -> thread_ok s' t th'.
Proof.
  intros Hm. destruct (step_held_self _ _ Hm) as [Se Sb]. pose proof (moved_self _ _ Hm) as Et. clear Hm. pose proof (run_sizes s Hrun) as Hz.
  destruct (run_threads s Hrun t th Hth) as [_ _ Ha Ht Hs Hk Hw Hl Hf Hm].
  pose proof (run_entered s Hrun (other (th_side th))) as Hn. pose proof (cnt_nonneg (of_side (other (th_side th)) entered) (threads s)) as Hc.
  pose proof wake_lt as W. destruct th as [sd n i b p]. destruct p; cm_inv Hstep; cm_cbn; self_is Et W; clear W; constructor; cbn in *;
    try done; try (intros k ? ?; by discriminate (Hm k)); try (intros ? [= <-]; specialize (Hs _ eq_refl) || idtac; lia); try (intros; intuition congruence); try (intros; lia).
  - intros j0 [= <-]. split; [lia|]. match goal with H : (_ =? ch_o) = true |- _ => apply Z.eqb_eq in H; by subst end.
  - intros _. destruct (Hk j eq_refl). rewrite u32_id; unfold int_max, u32_mod in *; lia.
  - destruct Hl as [? [?|?]]; [done|lia].
Qed.

Lemma step_running : running s'.
Proof.
  destruct (step_moved t th s s' Hstep) as (th' & q & Hm). destruct step_sizes as (Z1 & Z2 & Z3). pose proof (run_sizes s Hrun) as Hz.
  pose proof Hm as (Eth & Em & En & El & _ & _ & Hwk). constructor; rewrite ?En, ?El; auto using step_entered, step_rule, step_eating, step_owner, step_state, step_bowls, step_wait, step_mutex.
  - rewrite Em, Z3. apply (run_main s Hrun).
  - lia.
  - destruct (run_locks s Hrun). auto using step_locks.
  - exact step_holders.
  - intros u x E. destruct (decide (u = t)) as [->|Hu].
    + rewrite (moved_self _ _ Hm) in E. injection E as <-. apply (step_thread_self _ _ Hm).
    + apply (step_thread_other u x Hu). rewrite Eth, list_lookup_insert_ne in E by done.
      destruct (wake_lookup q (threads s) u) as [E'|(x0 & E0 & E')]; rewrite E' in E; [by apply (run_threads s Hrun)|].
      injection E as <-. apply thread_ok_woken. by apply (run_threads s Hrun).
Qed.

End Step.

Lemma acquire_safe lock t th p s : is_Some (snd (sync s) !! lock) -> exists r, cm_acquire lock t th p s = Ok r.
Proof.
  intros [h E]. unfold cm_acquire, deref. rewrite E. cbn. destruct (sync s) as [cs hs]. cbn in *. rewrite E. destruct h; eauto.
Qed.

Lemma release_safe lock t s : held lock t s = true -> exists s', cm_release lock t s = Ok s'.
Proof.
  intros E%bool_decide_eq_true. unfold cm_release, deref. rewrite E. cbn. destruct (sync s) as [cs hs]. cbn in *. rewrite decide_True by done. eauto.
Qed.

Lemma P_safe sem t th p s : is_Some (fst (sync s) !! sem) -> exists r, cm_P sem t th p s = Ok r.
Proof.
  intros [c E]. unfold cm_P, deref. rewrite E. cbn. destruct (sync s) as [cs hs]. cbn in *. rewrite E. destruct (0 <? c); eauto.
Qed.

Lemma V_safe sem s : is_Some (fst (sync s) !! sem) -> exists s', cm_V sem s = Ok s'.
Proof. intros [c E]. unfold cm_V. destruct (sync s) as [cs hs]. cbn in *. rewrite E. eauto. Qed.

Lemma signal_safe t s : held BowlMutex t s = true -> exists s', cm_signal t s = Ok s'.
Proof. intros E. unfold cm_signal. rewrite E. cbn. destruct (BowlSignal s); eauto. Qed.

Lemma broadcast_safe sd t s : held EatingMutex t s = true -> exists s', cm_broadcast sd t s = Ok s'.
Proof. intros E. unfold cm_broadcast. rewrite E. eauto. Qed.

Lemma rd_safe {A} (l : list A) i : 0 <= i < zlen l -> exists x, rd l i = Ok x.
Proof. intros H. destruct (rd_in l i H) as (x & E & _). eauto. Qed.

(** A counter has room for a thread that it does not count yet. *)
Lemma cnt_room p ths t th : ths !! t = Some th -> p th = false -> cnt p ths + 1 <= zlen ths.
Proof.
  intros E Hp. assert (cnt (fun _ => true) ths = zlen ths) as <-.
  - clear. induction ths as [|x ths IH]; cbn [cnt length]; cbn; lia.
  - pose proof (cnt_lt p (fun _ => true) ths t th ltac:(done) E Hp eq_refl). lia.
Qed.

(** The bowl of a thread before, and after, it has marked it. *)
Lemma bowl_unmarked s t th : running s -> threads s !! t = Some th -> has_bowl th = true -> marks th = false -> rd (bowls s) (bowl th - 1) = Ok ch_dash.
Proof.
  intros Hrun Hth Hb Hm. pose proof (ok_bowl _ _ _ (run_threads s Hrun t th Hth) Hb) as Hw. apply rd_Some. split; [lia|].
  rewrite (run_bowls s Hrun) by lia. unfold bowl_mark. assert (forall sd, of_side sd marks th = false) as Ho by (intros; unfold of_side; rewrite Hm; apply andb_false_r).
  by rewrite !(other_marks s t th Hrun Hth) by done.
Qed.

Lemma bowl_marked s t th : running s -> threads s !! t = Some th -> has_bowl th = true -> marks th = true -> rd (bowls s) (bowl th - 1) = Ok (ch_of (th_side th)).
Proof.
  intros Hrun Hth Hb Hm. pose proof (ok_bowl _ _ _ (run_threads s Hrun t th Hth) Hb) as Hw. apply rd_Some. split; [lia|].
  rewrite (run_bowls s Hrun) by lia. unfold bowl_mark. 
  assert (of_side (th_side th) marks th = true /\ of_side (other (th_side th)) marks th = false) as [H1 H2] by (unfold of_side; rewrite Hm; by destruct (th_side th)).
  generalize (own_marks s t th Hrun Hth _ Hb H1), (other_marks s t th Hrun Hth _ Hb H2). destruct (th_side th); cbn [other]; by intros -> ->.
Qed.

(** While a thread is counted no thread of the other side eats. *)
Lemma others_idle s t th : running s -> threads s !! t = Some th -> entered th = true -> sel (other (th_side th)) (eating_count s) = 0.
Proof.
  intros Hrun Hth He. rewrite (run_eating s Hrun). destruct (run_rule s Hrun) as [sd Hsd].
  assert (sd = other (th_side th)) as ->.
  - pose proof (cnt_none _ _ _ _ Hsd Hth) as Hx. unfold of_side in Hx. rewrite He in Hx. revert Hx. by destruct sd, (th_side th).
  - pose proof (cnt_nonneg (of_side (other (th_side th)) eats) (threads s)).
    assert (cnt (of_side (other (th_side th)) eats) (threads s) <= cnt (of_side (other (th_side th)) entered) (threads s)); [|lia].
    apply cnt_le. intros [sd n i b []]; unfold of_side; cbn; rewrite ?andb_false_r; done.
Qed.

Lemma counters s t th (Hrun : running s) (Hth : threads s !! t = Some th) :
  (of_side (th_side th) entered th = false -> exists c, c_int (sel (th_side th) (NumEating s) + 1) = Ok c) /\
  (exists c, c_int (sel (th_side th) (NumEating s) - 1) = Ok c) /\
  (of_side (th_side th) eats th = false -> exists c, c_int (sel (th_side th) (eating_count s) + 1) = Ok c) /\
  (exists c, c_int (sel (th_side th) (eating_count s) - 1) = Ok c).
Proof.
  rewrite (run_entered s Hrun), (run_eating s Hrun). pose proof (run_sizes s Hrun). set (sd := th_side th).
  pose proof (cnt_nonneg (of_side sd entered) (threads s)). pose proof (cnt_nonneg (of_side sd eats) (threads s)).
  split; [|split; [|split]]; intros; try (eexists; apply c_int_id; unfold int_min, int_max in *; lia).
  - pose proof (cnt_room (of_side sd entered) _ _ _ Hth ltac:(done)). eexists; apply c_int_id; unfold int_min, int_max in *; lia.
  - pose proof (cnt_room (of_side sd eats) _ _ _ Hth ltac:(done)). eexists; apply c_int_id; unfold int_min, int_max in *; lia.
Qed.

(** The statements that can fail: the assertions, the checks of bowls.c, the
    accesses to the arrays. *)
Lemma step_safe s t th : running s -> threads s !! t = Some th -> exists r, simulation_step t th s = Ok r.
Proof.
  intros Hrun Hth. destruct (run_threads s Hrun t th Hth) as [He Hb Ha Ht Hs Hk Hw Hl Hf _]. destruct (run_locks s Hrun) as [Le Lb].
  destruct (run_wait s Hrun) as [Sw _]. destruct (run_mutex s Hrun) as [Sm _]. pose proof (run_sizes s Hrun) as Hz.
  destruct th as [sd n i b p]. destruct p; unfold simulation_step, getOpenBowl_step, eat_step, cat_finish, mouse_finish; cbn [th_side th_pc number loop bowl] in *; cbn in He, Hb.
  all: try (by eexists); try (by apply acquire_safe); try (apply P_safe; eauto).
  all: try match goal with |- context [cm_release ?l ?t ?s] => destruct (release_safe l t s) as [s1 ->]; [done|]; cbn end.
  all: try match goal with |- context [cm_V ?l ?s] => destruct (V_safe l s) as [s1 ->]; [by eexists|]; cbn end.
  all: try match goal with |- context [cm_signal ?t ?s] => destruct (signal_safe t s) as [s1 ->]; [done|]; cbn end.
  all: try match goal with |- context [cm_broadcast ?sd ?t ?s] => destruct (broadcast_safe sd t s) as [s1 ->]; [done|]; cbn end.
  all: try (by eexists).
  - rewrite Ha by auto. by eexists.
  - rewrite Ht by auto. rewrite Z.eqb_refl. by eexists.
  - destruct (proj1 (counters s t _ Hrun Hth)) as [c E]; [by destruct sd|]. cbn in E. rewrite E. by eexists.
  - destruct (Z.ltb_spec j (NumBowls s)); [|by eexists]. specialize (Hs j eq_refl). destruct (rd_safe (BowlState s) j) as [x ->]; [lia|]. by eexists.
  - destruct (Hk j eq_refl). rewrite wr_in by lia. by eexists.
  - specialize (Hw eq_refl). rewrite s32_id by (unfold int_max in *; lia). destruct (Z.eqb_spec b 0), (Z.ltb_spec (NumBowls s) b); try lia. by eexists.
  - pose proof (bowl_unmarked s t _ Hrun Hth eq_refl eq_refl) as E. pose proof (others_idle s t _ Hrun Hth eq_refl) as E0. cbn in E, E0. rewrite E, E0. destruct sd; by eexists.
  - destruct (proj1 (proj2 (proj2 (counters s t _ Hrun Hth)))) as [c E]; [by destruct sd|]. cbn in E. rewrite E. by eexists.
  - specialize (Hw eq_refl). rewrite wr_in by lia. by eexists.
  - pose proof (bowl_marked s t _ Hrun Hth eq_refl eq_refl) as E. pose proof (run_eating s Hrun sd) as Ec. pose proof (cnt_in (of_side sd eats) _ _ _ Hth) as Hc.
    rewrite <- Ec in Hc. destruct sd; cbn in E, Hc; specialize (Hc eq_refl); rewrite (proj2 (Z.ltb_lt 0 _)) by lia; rewrite ?E; by eexists.
  - destruct (proj2 (proj2 (proj2 (counters s t _ Hrun Hth)))) as [c E]. destruct sd; cbn in E; rewrite E; by eexists.
  - pose proof (bowl_marked s t _ Hrun Hth eq_refl eq_refl) as E. specialize (Hw eq_refl). destruct sd; cbn in E; rewrite ?E; cbn; rewrite wr_in by lia; by eexists.
  - specialize (Hw eq_refl). rewrite wr_in by lia. by eexists.
  - destruct (proj1 (proj2 (counters s t _ Hrun Hth))) as [c E]. cbn in E. rewrite E. by eexists.
  - cbn in Hl. destruct Hl as [? [?|?]]; [done|]. rewrite c_int_id by (unfold int_min, int_max in *; lia). by eexists.
Qed.

(** ** The main thread *)

Lemma fork_running s k th : running s -> main s = MFork k -> threads s !! k = Some th ->
  running (set_main (MFork (S k)) (set_threads (<[k := start th]> (threads s)) s)).
Proof.
  intros Hrun Em Ek. pose proof (ok_new _ _ _ (run_threads s Hrun k th Ek) k Em ltac:(lia)) as Hp.
  assert (forall p, p (start th) = p th -> cnt p (<[k := start th]> (threads s)) = cnt p (threads s)) as Hc by (intros p E; rewrite (cnt_insert p _ _ _ _ Ek), E; lia).
  assert (start th = at_pc PFor (mk_thread (th_side th) (number th) (loop th) (bowl th) PNew) /\ th = mk_thread (th_side th) (number th) (loop th) (bowl th) PNew) as [Es Et]
    by (destruct th; cbn in *; by subst).
  pose proof (lookup_lt_Some _ _ _ Ek). destruct Hrun as [? ? ? ? ? ? ? ? Hw Hm ? ? Ht].
  constructor; cm_cbn; rewrite ?length_insert; try done; unfold bowl_mark; cm_cbn;
    try (intros; rewrite !Hc by (rewrite Es, Et; done); auto).
  - destruct run_rule0 as [sd E]. exists sd. rewrite Hc; [done|]. rewrite Es, Et. done.
  - by rewrite Em in Hw.
  - intros u x E. destruct (decide (u = k)) as [->|Hu].
    + rewrite list_lookup_insert_eq in E by done. injection E as <-. destruct (Ht k th Ek) as [O1 O2 O3 O4 O5 O6 O7 O8 O9 O10]. rewrite Es. rewrite Et in O1, O2, O8. 
      constructor; cbn in *; try done; try (intros; intuition congruence). intros j [= <-]. lia.
    + rewrite list_lookup_insert_ne in E by done. destruct (Ht u x E) as [O1 O2 O3 O4 O5 O6 O7 O8 O9 O10]. constructor; cm_cbn; try done.
      intros j [= <-] Hj. apply (O10 k Em). lia.
Qed.

Lemma wait_running s j cs : running s -> 0 <= j <= zlen (threads s) -> cs !! mutex = fst (sync s) !! mutex ->
  cs !! CatMouseWait = Some (cnt exited (threads s) - j) -> 0 <= cnt exited (threads s) - j ->
  running (set_main (MWait j) (set_sync (cs, snd (sync s)) s)).
Proof.
  intros [? ? ? ? ? ? ? ? Hw Hm ? ? Ht] Hj Em Ew Hn. constructor; cm_cbn; try done; [by rewrite Em|].
  intros u x E. destruct (Ht u x E). by constructor.
Qed.

Lemma all_exited s : running s -> main s = MWait (zlen (threads s)) -> forall u th, threads s !! u = Some th -> th_pc th = PExited /\ loop th = NumLoops s.
Proof.
  intros Hrun Em u th E. destruct (run_wait s Hrun) as [_ Hn]. rewrite Em in Hn. cbn in Hn. pose proof (cnt_nonneg exited (threads s)).
  pose proof (cnt_all exited (threads s) ltac:(lia) u th E) as Hx. pose proof (ok_loop _ _ _ (run_threads s Hrun u th E)) as [_ Hl]. rewrite Hx in Hl.
  unfold exited, outside_loop in *. by destruct (th_pc th).
Qed.

Lemma free_lock s lock : running s -> main s = MWait (zlen (threads s)) -> lock = EatingMutex \/ lock = BowlMutex -> snd (sync s) !! lock = Some None.
Proof.
  intros Hrun Em Hlk. assert (is_Some (snd (sync s) !! lock)) as [[z|] E] by (destruct (run_locks s Hrun), Hlk as [->| ->]; done); [|done].
  destruct (run_holders s Hrun lock z E) as [H1 H2]. destruct (lookup_lt_is_Some_2 (threads s) (Z.to_nat z)) as [th Hth]; [lia|].
  destruct (all_exited s Hrun Em _ _ Hth) as [Hp _]. destruct (run_threads s Hrun _ _ Hth) as [He Hb _ _ _ _ _ _ _ _].
  assert (held lock (Z.to_nat z) s = true) as Hh by (apply bool_decide_eq_true; rewrite E; do 2 f_equal; lia).
  unfold in_eating, in_bowl in *. rewrite Hp in He, Hb. destruct Hlk as [->| ->]; congruence.
Qed.

Lemma main_running s : running s -> exists r, main_step s = Ok r /\ forall s', r = Some s' -> running s' \/ finished s'.
Proof.
  intros Hrun. pose proof (run_main s Hrun) as Hm. pose proof (run_sizes s Hrun) as Hz. destruct (run_wait s Hrun) as [Hw Hn]. unfold main_step.
  destruct (main s) as [k|j|k|] eqn:Em; [| |done|done].
  - destruct (threads s !! k) as [th|] eqn:Ek; (eexists; split; [done|]); intros s' [= <-]; left; [by apply fork_running|].
    cbn in Hw, Hn. replace s with (set_sync (fst (sync s), snd (sync s)) s) by (destruct s as [? ? ? ? []]; done). apply wait_running; try done. lia.
  - rewrite c_int_id by (unfold int_min, int_max in *; lia). cbn. unfold deref. rewrite Hw. cbn. destruct (Z.ltb_spec j (zlen (threads s))) as [Hj|Hj].
    + destruct (sync s) as [cs hs] eqn:Es. cbn in *. rewrite Hw. destruct (Z.ltb_spec 0 (cnt exited (threads s) - j)) as [Hc|Hc]; (eexists; split; [done|]); intros s' [= <-].
      left. replace hs with (snd (sync s)) by (by rewrite Es). apply wait_running; rewrite ?Es; try done; try lia; [apply lookup_insert_ne; done|]. rewrite lookup_insert_eq. f_equal. lia.
    + assert (j = zlen (threads s)) as -> by lia. eexists. split; [done|]. intros s' [= <-]. right. split; [exact (all_exited s Hrun Em)|]. cbn. destruct (run_mutex s Hrun) as [Hx _].
      unfold freed. split_and!; try intros _; cm_cbn; [lia|by eexists|apply free_lock; auto|apply free_lock; auto|by eexists].
Qed.

Lemma main_finished s : finished s -> exists r, main_step s = Ok r /\ forall s', r = Some s' -> finished s'.
Proof.
  intros [He Hm]. unfold main_step. destruct (main s) as [k|j|k|] eqn:Em; [done|done| |by eexists].
  destruct Hm as (Hk & H0 & H1 & H2 & H3). unfold freed, main_free, apply_label. destruct (sync s) as [cs hs] eqn:Es. cbn in *.
  destruct k as [|[|[|k]]]; cbn.
  - destruct (H0 ltac:(lia)) as [c E]. rewrite E. eexists. split; [done|]. intros s' [= <-]. split; [done|]. cbn. unfold freed. split_and!; intros; cm_cbn; try lia; try (rewrite lookup_delete_ne by done); first [apply H1 | apply H2 | apply H3]; lia.
  - rewrite (H1 ltac:(lia)). eexists. split; [done|]. intros s' [= <-]. split; [done|]. cbn. unfold freed. split_and!; intros; cm_cbn; try lia; try (rewrite lookup_delete_ne by done); first [apply H1 | apply H2 | apply H3]; lia.
  - rewrite (H2 ltac:(lia)). eexists. split; [done|]. intros s' [= <-]. split; [done|]. cbn. unfold freed. split_and!; intros; cm_cbn; try lia; try (rewrite lookup_delete_ne by done); first [apply H1 | apply H2 | apply H3]; lia.
  - destruct (H3 ltac:(lia)) as [c E]. rewrite E. eexists. split; [done|]. intros s' [= <-]. split; [done|]. destruct k; [done|lia].
Qed.

(** ** The start of the simulation *)

Lemma cnt_zero p ths : (forall th, th ∈ ths -> p th = false) -> cnt p ths = 0.
Proof.
  induction ths as [|x ths IH]; intros H; [done|]. cbn. rewrite (H x), IH by set_solver. done.
Qed.

Lemma new_threads nc nm th : th ∈ (new_thread Cat <$> seq 0 nc) ++ (new_thread Mouse <$> seq 0 nm) -> exists sd k, th = new_thread sd k.
Proof. rewrite elem_of_app, !list_elem_of_fmap. intros [(k & -> & _)|(k & -> & _)]; by eexists _, k. Qed.

Lemma init_running nb nc nm nl : 0 < nb <= int_max -> 0 < nl <= int_max -> zlen (threads (cm_init nb nc nm nl)) <= int_max -> running (cm_init nb nc nm nl).
Proof.
  intros Hb Hl Hn. assert (forall p, (forall sd k, p (new_thread sd k) = false) -> cnt p (threads (cm_init nb nc nm nl)) = 0) as Hz.
  - intros p Hp. apply cnt_zero. intros th Hth. apply new_threads in Hth as (sd & k & ->). apply Hp.
  - assert (forall sd, cnt (of_side sd entered) (threads (cm_init nb nc nm nl)) = 0 /\ cnt (of_side sd eats) (threads (cm_init nb nc nm nl)) = 0) as Hs
      by (intros []; split; apply Hz; by intros [] ?).
    assert (forall b, cnt (at_bowl b has_bowl) (threads (cm_init nb nc nm nl)) = 0 /\ (forall sd, cnt (at_bowl b (of_side sd marks)) (threads (cm_init nb nc nm nl)) = 0)) as Hw
      by (intros b; split; [|intros []]; apply Hz; intros [] ?; apply andb_false_r).
    constructor; unfold bowl_mark.
    + cbn. lia.
    + split_and!; cbn [NumBowls NumLoops BowlState bowls cm_init]; rewrite ?length_replicate; (done || lia).
    + intros []; symmetry; apply Hs.
    + exists Cat. apply Hs.
    + intros []; symmetry; apply Hs.
    + intros b. by rewrite (proj1 (Hw b)).
    + intros b Hr. rewrite (proj1 (Hw b)). apply lookup_replicate. cbn in *. split; [done|lia].
    + intros b Hr. rewrite !(proj2 (Hw b)). apply lookup_replicate. cbn in *. split; [done|lia].
    + by rewrite Hz.
    + by rewrite Hz.
    + split; by eexists.
    + intros lock z H. change (({[EatingMutex := None; BowlMutex := None]} : gmap Z (option Z)) !! lock = Some (Some z)) in H.
      rewrite lookup_insert_Some, lookup_singleton_Some in H. by destruct H as [[_ ?]|[_ [_ ?]]].
    + intros u th E. apply list_elem_of_lookup_2, new_threads in E as (sd & k & ->). constructor; cbn; try done; try lia; intros; intuition congruence.
Qed.

Lemma atoi_range l v : atoi l = Ok v -> int_min <= v <= int_max.
Proof.
  unfold atoi. intros H. inv_ok. case_match; inv_ok. unfold s32, int_min, int_max, u32_mod. match goal with |- context [?a mod ?b] => pose proof (Z.mod_pos_bound a b) end. lia.
Qed.

Lemma catmouse_running args s : catmouse args = Ok (inr s) -> zlen (threads s) <= int_max -> running s.
Proof.
  unfold catmouse. intros H Hn. repeat (case_match; inv_ok; try discriminate).
  apply init_running; [| |done]; repeat match goal with H : atoi _ = Ok _ |- _ => apply atoi_range in H end; lia.
Qed.

(** ** The properties *)

Lemma reach_ok s0 s : running s0 -> steps s0 s -> running s \/ finished s.
Proof.
  intros H0. induction 1 as [|s1 s2 [t|] _ IH E]; [by left| |]; cbn in E.
  - destruct (threads s1 !! t) as [th|] eqn:Et; [|done]. destruct IH as [IH|[He _]].
    + left. by apply (step_running s1 s2 t th).
    + destruct (He t th Et) as [Hp _]. unfold simulation_step in E. by rewrite Hp in E.
  - destruct IH as [IH|IH]; [destruct (main_running s1 IH) as (r & Er & Hr)|destruct (main_finished s1 IH) as (r & Er & Hr)]; rewrite Er in E; injection E as ->; auto.
Qed.

Lemma cnt_two p ths u v x y : u <> v -> ths !! u = Some x -> ths !! v = Some y -> p x = true -> p y = true -> p (start x) = false -> 2 <= cnt p ths.
Proof.
  intros Hn Hx Hy Px Py Ps. pose proof (cnt_insert p ths u x (start x) Hx) as E. rewrite Px, Ps in E. cbn in E.
  assert (1 <= cnt p (<[u := start x]> ths)); [|lia]. apply (cnt_in p _ v y); [|done]. by rewrite list_lookup_insert_ne.
Qed.

(** C10. The simulation keeps its rules.  However the threads interleave, no
    assertion of the simulation or of bowls.c fails, no array is accessed out of
    bounds and no primitive is used wrongly; cats and mice never eat at the
    same time, and no two animals eat from the same bowl; when the main thread
    has destroyed the primitives every animal has eaten NumLoops times and is
    gone. *)
Theorem catmouse_safe args s0 s : catmouse args = Ok (inr s0) -> zlen (threads s0) <= int_max -> steps s0 s ->
  (forall a, exists r, step_of a s = Ok r) /\
  (forall u v x y, threads s !! u = Some x -> threads s !! v = Some y -> eats x = true -> eats y = true ->
     th_side x = th_side y /\ (u <> v -> bowl x <> bowl y)) /\
  (main s = MDone -> forall u th, threads s !! u = Some th -> th_pc th = PExited /\ loop th = NumLoops s).
Proof.
  intros Ha Hn Hst. destruct (reach_ok s0 s (catmouse_running _ _ Ha Hn) Hst) as [Hr|Hf].
  - split_and!.
    + intros [t|]; cbn; [|destruct (main_running s Hr) as (r & -> & _); by eexists].
      destruct (threads s !! t) as [th|] eqn:Et; [|by eexists]. by apply step_safe.
    + intros u v x y Hx Hy Ex Ey. split.
      * destruct (run_rule s Hr) as [sd Hsd]. pose proof (cnt_none _ _ _ _ Hsd Hx) as Nx. pose proof (cnt_none _ _ _ _ Hsd Hy) as Ny.
        assert (forall z, eats z = true -> entered z = true) as He by (by intros [? ? ? ? []]). unfold of_side in Nx, Ny. rewrite (He x Ex) in Nx. rewrite (He y Ey) in Ny.
        revert Nx Ny. by destruct (th_side x), (th_side y), sd.
      * intros Huv Eb. pose proof (run_owner s Hr (bowl x)). pose proof (cnt_two (at_bowl (bowl x) has_bowl) _ _ _ _ _ Huv Hx Hy) as H2.
        unfold at_bowl in H2 at 1 2 3. rewrite <- Eb, Z.eqb_refl, andb_false_r in H2. assert (forall z, eats z = true -> has_bowl z = true) as Hz by (by intros [? ? ? ? []]).
        rewrite (Hz x), (Hz y) in H2 by done. specialize (H2 eq_refl eq_refl eq_refl). lia.
    + intros Em. pose proof (run_main s Hr) as Hm. by rewrite Em in Hm.
  - destruct (main_finished s Hf) as (r & Er & _). destruct Hf as [Hx _]. split_and!.
    + intros [t|]; cbn; [|by exists r]. destruct (threads s !! t) as [th|] eqn:Et; [|by eexists]. destruct (Hx t th Et) as [Hp _]. exists None. unfold simulation_step. by rewrite Hp.
    + intros u v x y Ex _ Hs. destruct (Hx u x Ex) as [Hp _]. unfold eats in Hs. by rewrite Hp in Hs.
    + done.
Qed.

(** Steps in the order of a schedule; who cannot go on is passed over. *)
Fixpoint run (sched : list (option nat)) (s : cm) : cm :=
  match sched with
  | [] => s
  | a :: sched' => run sched' (match step_of a s with Ok (Some s') => s' | _ => s end)
  end.

Lemma run_steps sched : forall s0 s, steps s0 s -> steps s0 (run sched s).
Proof.
  induction sched as [|a sched IH]; intros s0 s H; [done|]. cbn. apply IH. destruct (step_of a s) as [[s'|]| | |] eqn:E; try done. by apply (steps_step s0 s s' a).
Qed.

(** The command line [catmouse 1 2 0 1]: one bowl, two cats, no mice, one
    round. *)
Definition two_cats : list (list Z) := [[99; 0]; [49; 0]; [50; 0]; [48; 0]; [49; 0]].
Definition two_cats_init : cm := cm_init 1 2 0 1.

(** The second cat comes when the first one has left. *)
Definition late_cat : list (option nat) := replicate 3 None ++ replicate 45 (Some 0%nat) ++ [None] ++ replicate 6 (Some 1%nat).

(** The simulation can hang.  Cats take turns by number, and the last one
    to leave resets the turn to 0 but wakes only the mice; a cat with a higher
    number that comes later waits for a turn that nobody will give.  With one
    bowl, two cats, no mice and one round there is a reachable state in which
    no thread can ever go on and the main thread waits for the second cat. *)
Theorem catmouse_can_hang : exists s, catmouse two_cats = Ok (inr two_cats_init) /\ steps two_cats_init s /\
  main s = MWait 1 /\ forall a, step_of a s = Ok None.
Proof.
  exists (run late_cat two_cats_init). split; [reflexivity|]. split; [apply run_steps, steps_refl|]. split; [by vm_compute|]. intros [[|[|[|n]]]|]; by vm_compute.
Qed.

(** The same parameters with the cats in order: both eat and the simulation
    ends. *)
Definition in_order : list (option nat) :=
  replicate 3 None ++ replicate 12 (Some 0%nat) ++ replicate 60 (Some 1%nat) ++ replicate 60 (Some 0%nat) ++ replicate 60 (Some 1%nat) ++ replicate 10 None.

Lemma catmouse_safe_witness : main (run in_order two_cats_init) = MDone /\ forall u th, threads (run in_order two_cats_init) !! u = Some th -> loop th = 1.
Proof.
  split; [by vm_compute|]. destruct (catmouse_safe two_cats two_cats_init (run in_order two_cats_init)) as (_ & _ & H).
  - reflexivity.
  - vm_compute. discriminate.
  - apply run_steps, steps_refl.
  - intros u th E. destruct (H eq_refl u th E) as [_ ->]. reflexivity.
Defined.

End CatMouse.
