(* ===== verification/Elf.v ===== *)
(** * Loading of executables: load_elf of kern/userprog/loadelf.c

    [load_elf] reads the ELF header and the program headers through the vnode
    interface and records the loadable segments in the address space; their
    pages are read by the page faults (VmFault.v).  The theorem compares it with
    [parse_elf], the meaning of the bytes of the file. *)

From stdpp Require Import gmultiset.
From S2P Require Import Prelude Array Tlb AddrSpace AsOps Uio SfsDisk SfsFile SfsVnode Vnode.
Import Tlb AddrSpace AsOps SfsDisk SfsFile Vnode.

Module Elf.

(** ** kern/include/elf.h *)

Record Elf_Ehdr : Type := mk_ehdr {
  e_ident : list Z;
  e_type : Z;
  e_machine : Z;
  e_version : Z;
  e_entry : Z;
  e_phoff : Z;
  e_shoff : Z;
  e_flags : Z;
  e_ehsize : Z;
  e_phentsize : Z;
  e_phnum : Z;
  e_shentsize : Z;
  e_shnum : Z;
  e_shstrndx : Z;
}.

Record Elf_Phdr : Type := mk_phdr {
  p_type : Z;
  p_offset : Z;
  p_vaddr : Z;
  p_paddr : Z;
  p_filesz : Z;
  p_memsz : Z;
  p_flags : Z;
  p_align : Z;
}.

Definition PT_NULL : Z := 0.
Definition PT_LOAD : Z := 1.
Definition PT_PHDR : Z := 6.
Definition PT_MIPS_REGINFO : Z := 1879048192.
Definition PF_W : Z := 2.

(** The structures in the memory of the machine, which is big-endian. *)
Definition at8 (bs : list Z) (i : nat) : Z := default 0 (bs !! i).
Definition at16 (bs : list Z) (i : nat) : Z := at8 bs i * 256 + at8 bs (i + 1).
Definition at32 (bs : list Z) (i : nat) : Z := at16 bs i * 65536 + at16 bs (i + 2).

Definition ehdr_of (bs : list Z) : Elf_Ehdr :=
  mk_ehdr (take 16 bs) (at16 bs 16) (at16 bs 18) (at32 bs 20) (at32 bs 24) (at32 bs 28) (at32 bs 32) (at32 bs 36)
    (at16 bs 40) (at16 bs 42) (at16 bs 44) (at16 bs 46) (at16 bs 48) (at16 bs 50).

Definition phdr_of (bs : list Z) : Elf_Phdr :=
  mk_phdr (at32 bs 0) (at32 bs 4) (at32 bs 8) (at32 bs 12) (at32 bs 16) (at32 bs 20) (at32 bs 24) (at32 bs 28).

(** A 32-bit big-endian ELF file, version 1, an executable for MIPS. *)
Definition good_header (eh : Elf_Ehdr) : bool :=
  (at8 (e_ident eh) 0 =? 127) && (at8 (e_ident eh) 1 =? 69) && (at8 (e_ident eh) 2 =? 76) && (at8 (e_ident eh) 3 =? 70) &&
  (at8 (e_ident eh) 4 =? 1) && (at8 (e_ident eh) 5 =? 2) && (at8 (e_ident eh) 6 =? 1) &&
  (e_version eh =? 1) && (e_type eh =? 2) && (e_machine eh =? 8).

(** ** load_elf *)

Section Ops.
Context {W : Type} `{VN : Vnodes W}.

(** What the variables [eh] and [ph] hold at first, and which allocations of
    the [i]-th region succeed. *)
Variable eh0 ph0 : list Z.
Variable km : Z -> nat -> bool.

(** The loop over the program headers, [n] rounds left. *)
Fixpoint phdr_loop (n : nat) (i : Z) (eh : Elf_Ehdr) (ph : list Z) (v : Z) (a : addrspace) (w : W) : outcome (Z * addrspace * W) :=
  match n with
  | O => Ok (0, a, w)
  | S n' =>
      d ← c_int (i * e_phentsize eh);
      let offset := s32 (u32 (e_phoff eh + d)) in
      '(result, ku, w) ← VOP_READ v (mk_kuio ph 32 offset Uio.UIO_READ) w;
      if negb (result =? 0) then Ok (result, a, w)
      else if negb (uio_resid ku =? 0) then Ok (ENOEXEC, a, w)
      else
        let ph := uio_buffer ku in
        let p := phdr_of ph in
        if (p_type p =? PT_NULL) || (p_type p =? PT_PHDR) || (p_type p =? PT_MIPS_REGINFO) then phdr_loop n' (i + 1) eh ph v a w
        else if negb (p_type p =? PT_LOAD) then Ok (ENOEXEC, a, w)
        else
          '(result, a) ← as_define_region (km i) a (p_vaddr p) (p_memsz p) (s32 (p_offset p)) (Z.land (p_flags p) PF_W);
          if negb (result =? 0) then Ok (result, a, w)
          else phdr_loop n' (i + 1) eh ph v a w
  end.

(** The result, the entry point if it is set, and the address space. *)
Definition load_elf (v : Z) (a : addrspace) (w : W) : outcome (Z * option Z * addrspace * W) :=
  '(result, ku, w) ← VOP_READ v (mk_kuio eh0 52 0 Uio.UIO_READ) w;
  if negb (result =? 0) then Ok (result, None, a, w)
  else if negb (uio_resid ku =? 0) then Ok (ENOEXEC, None, a, w)
  else
    let eh := ehdr_of (uio_buffer ku) in
    if negb (good_header eh) then Ok (ENOEXEC, None, a, w)
    else
      '(result, a, w) ← phdr_loop (Z.to_nat (e_phnum eh)) 0 eh ph0 v a w;
      if negb (result =? 0) then Ok (result, None, a, w)
      else
        let a := as_prepare_load a in
        let result := as_complete_load a in
        if negb (result =? 0) then Ok (result, None, a, w)
        else Ok (0, Some (e_entry eh), a, w).

End Ops.

(** ** The meaning of a file *)

Definition slice (bs : list Z) (o n : Z) : list Z := take (Z.to_nat n) (drop (Z.to_nat o) bs).

(** The loadable segments in the order of the file, and whether all program
    headers are in the file and of a known type. *)
Fixpoint parse_phdrs (n : nat) (i : Z) (eh : Elf_Ehdr) (bs : list Z) : list Elf_Phdr * bool :=
  match n with
  | O => ([], true)
  | S n' =>
      let o := e_phoff eh + i * e_phentsize eh in
      let p := phdr_of (slice bs o 32) in
      let '(l, ok) := parse_phdrs n' (i + 1) eh bs in
      if zlen bs <? o + 32 then ([], false)
      else if (p_type p =? PT_NULL) || (p_type p =? PT_PHDR) || (p_type p =? PT_MIPS_REGINFO) then (l, ok)
      else if p_type p =? PT_LOAD then (p :: l, ok)
      else ([], false)
  end.

Definition header (bs : list Z) : Elf_Ehdr := ehdr_of (take 52 bs).
Definition loads (bs : list Z) : list Elf_Phdr * bool := parse_phdrs (Z.to_nat (e_phnum (header bs))) 0 (header bs) bs.

(** The entry point and the segments, if the file is a program. *)
Definition parse_elf (bs : list Z) : option (Z * list Elf_Phdr) :=
  if (52 <=? zlen bs) && good_header (header bs) && snd (loads bs) then Some (e_entry (header bs), fst (loads bs)) else None.

(** The segment descriptor of a loadable segment; the offset becomes an [off_t]. *)
Definition segment (p : Elf_Phdr) : segdef := region (p_vaddr p) (p_memsz p) (s32 (p_offset p)) (Z.land (p_flags p) PF_W).

#[local] Arguments phdr_of : simpl never.
#[local] Arguments ehdr_of : simpl never.

(** ** Reading a file *)

Section Spec.
Context {W : Type} `{VN : Vnodes W}.

(** An error of a read, which needs that [ok] does not hold. *)
Definition read_error (ok : Prop) (r : Z) : Prop := (r = ENOMEM \/ r = EIO \/ r = EINVAL) /\ ~ ok.

(** The vnode [v] is a file with the bytes [bs] as long as [I] holds, which
    reading keeps; reads fail only if [ok] does not hold. *)
Definition file_reads (ok : Prop) (v : Z) (bs : list Z) (I : W -> Prop) : Prop :=
  forall w u, I w -> uio_rw u = Uio.UIO_READ -> fits u (uio_resid u) -> uio_resid u < 2147483648 ->
  exists r u' w' n, VOP_READ v u w = Ok (r, u', w') /\ I w' /\
    u' = moved u (take (Z.to_nat n) (drop (Z.to_nat (uio_offset u)) bs)) n /\ 0 <= n <= readable u bs /\ ((r = 0 /\ n = readable u bs) \/ read_error ok r).

(** The vnode interface gives this for every regular file. *)
Lemma regular_file_reads `{!VnodeLaws W} g v i bs : known g v i -> vi_type i = SfsVnode.S_IFREG -> bytes_of (vi_fs i) (vi_id i) g = Some bs ->
  file_reads (reliable /\ zlen bs < max_bytes) v bs (owns g).
Proof.
  intros Hk Ht Hb w u Ho Hrw Hf Hlt. destruct (read_law g w v i u Ho Hk Hrw Hf) as (r & u' & w' & E & Ho' & _ & H); [|done|].
  - intros E. by rewrite Hrw in E.
  - destruct (H Ht bs Hb) as (n & H1 & H2 & H3). exists r, u', w', n. do 4 (split; [done|]). destruct H3 as [H3|[[[->| ->] H3]|[-> H3]]]; [by left|right; split; tauto..|right]. split; [tauto|lia].
Qed.

Lemma zero_no_error ok : ~ read_error ok 0.
Proof. unfold read_error, ENOMEM, EIO, EINVAL. lia. Qed.

(** A structure of [len] bytes at [off]. *)
Lemma read_struct ok v bs I w buf len off : file_reads ok v bs I -> I w -> zlen buf = len -> 0 < len -> 0 <= off -> off + len < 2147483648 ->
  exists r u w', VOP_READ v (mk_kuio buf len off Uio.UIO_READ) w = Ok (r, u, w') /\ I w' /\
    (read_error ok r \/ (r = 0 /\ if zlen bs <? off + len then uio_resid u <> 0 else uio_resid u = 0 /\ uio_buffer u = slice bs off len)).
Proof.
  intros Hf Hw Hb Hl Ho Hm. destruct (Hf w (mk_kuio buf len off Uio.UIO_READ) Hw eq_refl) as (r & u & w' & n & E & Hw' & -> & Hn & Hr); [|cbn; lia|].
  - unfold fits. cbn. rewrite length_take. unfold u32_mod. lia.
  - exists r. eexists _, w'. split; [exact E|]. split; [done|]. destruct Hr as [[-> ->]|Hr]; [|by left]. right. split; [done|].
    unfold readable. cbn. destruct (Z.ltb_spec (zlen bs) (off + len)); [lia|]. split; [lia|].
    replace (Z.max 0 (Z.min len (zlen bs - off))) with len by lia. unfold uio_buffer, moved, slice. cbn. rewrite (drop_ge (take _ buf)) by (rewrite length_take; lia). by rewrite app_nil_r.
Qed.

Lemma length_slice bs o n : 0 <= o -> 0 <= n -> o + n <= zlen bs -> zlen (slice bs o n) = n.
Proof. intros. unfold slice. rewrite length_take, length_drop. lia. Qed.

(** What the loop over the program headers returns. *)
Definition load_result (p : list Elf_Phdr * bool) : Z :=
  if existsb (fun p => USERSTACK <? p_vaddr p) (fst p) then EINVAL else if snd p then 0 else ENOEXEC.

Lemma phdr_loop_run ok v bs I eh n : file_reads ok v bs I -> 0 <= e_phoff eh -> 0 <= e_phentsize eh -> forall i ph a l w,
  0 <= i -> e_phoff eh + (i + Z.of_nat n) * e_phentsize eh + 32 < 2147483648 -> zlen ph = 32 -> I w -> seg_list a l ->
  (length l + length (fst (parse_phdrs n i eh bs)) <= 5)%nat ->
  exists r a' w', phdr_loop (fun _ _ => true) n i eh ph v a w = Ok (r, a', w') /\ I w' /\
    (read_error ok r \/ (r = load_result (parse_phdrs n i eh bs) /\
      (r = 0 -> seg_list a' (l ++ (segment <$> fst (parse_phdrs n i eh bs))) /\ as_elfbin a' = as_elfbin a))).
Proof.
  intros Hf Hpo Hps. induction n as [|n IH]; intros i ph a l w Hi Hm Hp Hw Hs Hl; cbn [phdr_loop parse_phdrs] in *.
  { exists 0, a, w. split; [done|]. split; [done|]. right. split; [done|]. intros _. cbn. by rewrite app_nil_r. }
  rewrite c_int_id by (unfold int_min, int_max; nia). cbn. rewrite u32_id by (unfold u32_mod; nia). rewrite s32_id by nia.
  destruct (read_struct ok v bs I w ph 32 (e_phoff eh + i * e_phentsize eh) Hf Hw Hp) as (r & u & w1 & E & Hw1 & Hr); [lia|nia|nia|]. rewrite E. cbn.
  destruct (parse_phdrs n (i + 1) eh bs) as [ls fine] eqn:Ep. destruct (Z.eqb_spec r 0) as [->|Hr0]; cbn.
  2: { eexists _, _, _. split; [done|]. split; [done|]. left. destruct Hr as [Hr|[Hr _]]; [done|lia]. }
  destruct Hr as [Hr|[_ Hr]]; [by destruct (zero_no_error ok)|]. destruct (Z.ltb_spec (zlen bs) (e_phoff eh + i * e_phentsize eh + 32)) as [Hshort|Hlong]; cbn.
  { rewrite (proj2 (Z.eqb_neq _ 0)) by done. eexists _, _, _. split; [done|]. split; [done|]. by right. }
  destruct Hr as [-> Hbuf]. cbn. rewrite Hbuf. set (p := phdr_of _) in *. assert (zlen (slice bs (e_phoff eh + i * e_phentsize eh) 32) = 32) as Hlen by (apply length_slice; nia).
  destruct ((p_type p =? PT_NULL) || (p_type p =? PT_PHDR) || (p_type p =? PT_MIPS_REGINFO)); cbn in *.
  { specialize (IH (i + 1) _ a l w1 ltac:(lia) ltac:(nia) Hlen Hw1 Hs). rewrite Ep in IH. exact (IH Hl). }
  destruct (p_type p =? PT_LOAD); cbn in *.
  2: { eexists _, _, _. split; [done|]. split; [done|]. by right. }
  unfold load_result. cbn. destruct (Z.ltb_spec USERSTACK (p_vaddr p)) as [Hbad|Hgood]; cbn.
  { unfold as_define_region. rewrite Z.gtb_ltb, (proj2 (Z.ltb_lt _ _)) by done. cbn. eexists _, _, _. split; [done|]. split; [done|]. by right. }
  destruct (as_define_region_run a l (p_vaddr p) (p_memsz p) (s32 (p_offset p)) (Z.land (p_flags p) PF_W) Hs) as (a1 & -> & Hs1 & _ & _ & Ee); [lia|lia|]. cbn.
  destruct (IH (i + 1) _ a1 (l ++ [segment p]) w1 ltac:(lia) ltac:(nia) Hlen Hw1 (or_intror Hs1)) as (r & a' & w' & Er & Hw' & H); [rewrite Ep, length_app; cbn; lia|].
  exists r, a', w'. split; [exact Er|]. split; [done|]. rewrite Ep in H. destruct H as [H|[-> H]]; [by left|]. right. split; [done|].
  intros H0. destruct (H H0) as [H1 H2]. rewrite <- app_assoc in H1. split; [exact H1|congruence].
Qed.

(** The fields of a header made of bytes. *)
Lemma header_range bs : Forall byte bs -> 0 <= e_phoff (header bs) /\ 0 <= e_phentsize (header bs) /\ 0 <= e_phnum (header bs).
Proof.
  intros Hb. assert (forall i, 0 <= at8 (take 52 bs) i) as H8.
  - intros i. unfold at8. destruct (take 52 bs !! i) as [b|] eqn:E; cbn; [|lia]. apply lookup_take_Some in E as [E _].
    apply (Forall_lookup_1 _ _ _ _ Hb) in E. unfold byte in E. lia.
  - pose proof H8. unfold header, ehdr_of, at32, at16. cbn [e_phoff e_phentsize e_phnum].
    split_and!; repeat match goal with |- context [at8 ?l ?i] => pose proof (H8 i); generalize dependent (at8 l i); intros end; lia.
Qed.

Lemma load_elf_run ok eh0 ph0 v bs I a w : file_reads ok v bs I -> I w -> Forall byte bs -> zlen eh0 = 52 -> zlen ph0 = 32 -> as_segments a = None ->
  (let eh := header bs in e_phoff eh + e_phnum eh * e_phentsize eh + 32 < 2147483648) -> (length (fst (loads bs)) <= 5)%nat ->
  exists r e a' w', load_elf eh0 ph0 (fun _ _ => true) v a w = Ok (r, e, a', w') /\ I w' /\
    (read_error ok r \/
     match parse_elf bs with
     | None => r = ENOEXEC \/ r = EINVAL
     | Some (entry, ps) =>
         if existsb (fun p => USERSTACK <? p_vaddr p) ps then r = EINVAL
         else r = 0 /\ e = Some entry /\ stackt a' = USERSTACK /\ stackb a' = USERSTACK - STACKPAGES * PAGE_SIZE /\ as_elfbin a' = as_elfbin a /\
           forall va, sd_get_by_addr a' va = Ok (head (filter (in_seg va) (segment <$> ps)))
     end).
Proof.
  intros Hf Hw Hby He Hp Ha Hm Hl. unfold load_elf, parse_elf. destruct (read_struct ok v bs I w eh0 52 0 Hf Hw He) as (r & u & w1 & -> & Hw1 & Hr); [lia|lia|lia|]. cbn.
  destruct (Z.eqb_spec r 0) as [->|Hr0]; cbn.
  2: { eexists _, _, _, _. split; [done|]. split; [done|]. left. destruct Hr as [Hr|[Hr _]]; [done|lia]. }
  destruct Hr as [Hr|[_ Hr]]; [by destruct (zero_no_error ok)|]. rewrite Z.leb_antisym. change (0 + 52) with 52 in Hr. destruct (Z.ltb_spec (zlen bs) 52) as [Hshort|Hlong]; cbn.
  { rewrite (proj2 (Z.eqb_neq _ 0)) by done. eexists _, _, _, _. split; [done|]. split; [done|]. right. by left. }
  destruct Hr as [-> ->]. cbn. change (ehdr_of (slice bs 0 52)) with (header bs). destruct (good_header (header bs)); cbn.
  2: { eexists _, _, _, _. split; [done|]. split; [done|]. right. by left. }
  destruct (header_range bs Hby) as (R1 & R2 & R3).
  destruct (phdr_loop_run ok v bs I (header bs) (Z.to_nat (e_phnum (header bs))) Hf R1 R2 0 ph0 a [] w1) as (r & a1 & w2 & E & Hw2 & H); try done; [rewrite Z2Nat.id, Z.add_0_l by lia; exact Hm|by left|].
  rewrite E. fold (loads bs) in H. cbn. destruct (Z.eqb_spec r 0) as [->|Hr0]; cbn.
  - eexists _, _, _, _. split; [done|]. split; [done|]. right. destruct H as [H|[Er H]]; [by destruct (zero_no_error ok)|]. unfold load_result in Er.
    destruct (snd (loads bs)); [|by destruct (existsb _ _)]. destruct (existsb _ _); [done|]. destruct (H eq_refl) as [Hs Hb]. split_and!; try done.
    intros va. destruct Hs as [[Hs Hn]|Hs]; [|exact (sd_get_by_addr_run a1 _ va Hs)]. unfold sd_get_by_addr. cbn. rewrite Hs. rewrite app_nil_l in Hn. by rewrite Hn.
  - eexists _, _, _, _. split; [done|]. split; [done|]. destruct H as [H|[Er _]]; [by left|]. right. unfold load_result in Er.
    destruct (snd (loads bs)); [|destruct (existsb _ _); auto]. by destruct (existsb _ _).
Qed.

(** C13. Loading finds the program in the file.  For a file whose program headers
    lie below 2 GB, with at most five loadable segments, and with memory for the
    descriptors of the segments, [load_elf] returns ENOEXEC or EINVAL for a file
    that is no MIPS executable or is cut off, EINVAL for a segment above user
    space, and otherwise 0 with the entry point of the header; the address space
    then has the stack bounds, and the page fault handler finds for each address
    the first segment of the file that contains it, with its size, offset and
    permission.  A read error is the only other result, and if reads of the file
    do not fail there is none. *)
Theorem load_elf_program ok eh0 ph0 v bs I a w : file_reads ok v bs I -> I w -> Forall byte bs -> zlen eh0 = 52 -> zlen ph0 = 32 -> as_segments a = None ->
  (let eh := header bs in e_phoff eh + e_phnum eh * e_phentsize eh + 32 < 2147483648) -> (length (fst (loads bs)) <= 5)%nat ->
  exists r e a' w', load_elf eh0 ph0 (fun _ _ => true) v a w = Ok (r, e, a', w') /\ I w' /\
    (read_error ok r \/
     match parse_elf bs with
     | None => r = ENOEXEC \/ r = EINVAL
     | Some (entry, ps) =>
         if existsb (fun p => USERSTACK <? p_vaddr p) ps then r = EINVAL
         else r = 0 /\ e = Some entry /\ stackt a' = USERSTACK /\ stackb a' = USERSTACK - STACKPAGES * PAGE_SIZE /\ as_elfbin a' = as_elfbin a /\
           forall va, sd_get_by_addr a' va = Ok (head (filter (in_seg va) (segment <$> ps)))
     end).
Proof. apply load_elf_run. Qed.

End Spec.

(** A program with one read-only segment of 100 bytes at 0x400000, which starts
    at offset 4096, and a header of registers. *)
Definition demo_elf : list Z :=
  [127; 69; 76; 70; 1; 2; 1; 0; 0; 0; 0; 0; 0; 0; 0; 0; 0; 2; 0; 8] ++ SfsDisk.bytes_of [1; 4194304; 52; 0; 0] ++
  [0; 52; 0; 32; 0; 2; 0; 0; 0; 0; 0; 0] ++ SfsDisk.bytes_of [PT_MIPS_REGINFO; 0; 0; 0; 0; 0; 0; 0] ++ SfsDisk.bytes_of [PT_LOAD; 4096; 4194304; 0; 100; 100; 5; 4096].

(** A world that is this file. *)
#[local] Instance demo_vnodes : Vnodes unit := {
  VOP_READ _ u w := let n := readable u demo_elf in Ok (0, moved u (take (Z.to_nat n) (drop (Z.to_nat (uio_offset u)) demo_elf)) n, w);
  VOP_OPEN _ _ _ := Undef; VOP_READLINK _ _ _ := Undef; VOP_WRITE _ _ _ := Undef; VOP_GETTYPE _ _ := Undef; VOP_TRUNCATE _ _ _ := Undef;
  VOP_NAMEFILE _ _ _ := Undef; VOP_CREAT _ _ _ _ := Undef; VOP_SYMLINK _ _ _ _ := Undef; VOP_MKDIR _ _ _ := Undef; VOP_LINK _ _ _ _ := Undef;
  VOP_REMOVE _ _ _ := Undef; VOP_RMDIR _ _ _ := Undef; VOP_RENAME _ _ _ _ _ := Undef; VOP_LOOKUP _ _ _ := Undef; VOP_LOOKPARENT _ _ _ _ := Undef;
  VOP_INCREF _ _ := Undef; VOP_DECREF _ _ := Undef; VOP_INCOPEN _ _ := Undef; VOP_DECOPEN _ _ := Undef; vn_fs _ _ := Undef;
  FSOP_SYNC _ _ := Undef; FSOP_GETVOLNAME _ _ := Undef; FSOP_GETROOT _ _ := Undef; FSOP_UNMOUNT _ _ := Undef }.

Lemma demo_reads : file_reads True 1 demo_elf (fun _ => True).
Proof. intros w u _ _ Hf _. exists 0. eexists _, w, _. split; [reflexivity|]. split; [done|]. split; [reflexivity|]. unfold fits, readable in *. lia. Qed.

Lemma load_elf_program_witness : exists a', load_elf (replicate 52 0) (replicate 32 0) (fun _ _ => true) 1 (mk_as 0 0 None (Some 1)) tt = Ok (0, Some 4194304, a', tt) /\
  sd_get_by_addr a' 4194400 = Ok (Some (mk_segdef 4194304 100 1 0 4096)).
Proof.
  destruct (load_elf_program True (replicate 52 0) (replicate 32 0) 1 demo_elf (fun _ => True) (mk_as 0 0 None (Some 1)) tt demo_reads I) as (r & e & a' & w' & E & _ & H).
  - apply Forall_forall. intros b Hb. assert (forallb (fun b => (0 <=? b) && (b <? 256)) demo_elf = true) as Hc by reflexivity. rewrite forallb_forall in Hc.
    specialize (Hc b Hb). unfold byte. lia.
  - reflexivity.
  - reflexivity.
  - reflexivity.
  - vm_compute. reflexivity.
  - vm_compute. lia.
  - destruct H as [H|H].
    + exfalso. vm_compute in E. injection E as <- _ _ _. by destruct H as [_ H].
    + destruct H as (-> & -> & _ & _ & _ & H). exists a'. destruct w'. split; [exact E|]. rewrite H. reflexivity.
Defined.

End Elf.
