(* ===== verification/Trap.v ===== *)
(** * Traps and system calls: kern/arch/mips/mips/trap.c, syscall.c, spl.c and
    interrupt.c

    The registers of the interrupted program are in a [trapframe]; a trap is a
    function that changes the frame and the kernel's state.  The file calls are
    those of FileCalls.v.  The calls on processes, the page fault handler and the
    devices are the class [Procs]; they are modelled with their interleavings in
    Proc.v, VmFault.v and Synch.v. *)

From stdpp Require Import gmultiset.
From S2P Require Import Prelude Memory CopyInOut SfsDisk SfsIo Vnode VfsList Vfs FileCalls Device SfsVfs FileStack.
Import Memory CopyInOut Vnode VfsList Vfs FileCalls.

Module Trap.

(** ** kern/arch/mips/include: trapframe.h, specialreg.h, pcb.h, spl.h *)

Definition CST_IEp : Z := 4.
Definition CST_KUp : Z := 8.
Definition CST_IRQMASK : Z := 65280.
Definition CCA_CODE : Z := 60.
Definition CCA_CODESHIFT : Z := 2.
Definition LAMEBUS_IRQ_BIT : Z := 1024.
Definition NTRAPCODES : Z := 13.

Definition EX_IRQ : Z := 0.
Definition EX_MOD : Z := 1.
Definition EX_TLBL : Z := 2.
Definition EX_TLBS : Z := 3.
Definition EX_IBE : Z := 6.
Definition EX_DBE : Z := 7.
Definition EX_SYS : Z := 8.

Definition SPL_HIGH : Z := 15.
Definition STACK_SIZE : Z := 4096.
Definition STACK_MASK : Z := 4294963200.
Definition SAME_STACK (p1 p2 : Z) : bool := Z.land p1 STACK_MASK =? Z.land p2 STACK_MASK.

(** kern/include/kern/callno.h *)
Definition SYS__exit : Z := 0.
Definition SYS_execv : Z := 1.
Definition SYS_fork : Z := 2.
Definition SYS_waitpid : Z := 3.
Definition SYS_open : Z := 4.
Definition SYS_read : Z := 5.
Definition SYS_write : Z := 6.
Definition SYS_close : Z := 7.
Definition SYS_reboot : Z := 8.
Definition SYS_getpid : Z := 11.

Record trapframe : Type := mk_tf {
  tf_vaddr : Z; tf_status : Z; tf_cause : Z; tf_lo : Z; tf_hi : Z; tf_ra : Z; tf_at : Z; tf_v0 : Z;
  tf_v1 : Z; tf_a0 : Z; tf_a1 : Z; tf_a2 : Z; tf_a3 : Z; tf_t0 : Z; tf_t1 : Z; tf_t2 : Z;
  tf_t3 : Z; tf_t4 : Z; tf_t5 : Z; tf_t6 : Z; tf_t7 : Z; tf_s0 : Z; tf_s1 : Z; tf_s2 : Z;
  tf_s3 : Z; tf_s4 : Z; tf_s5 : Z; tf_s6 : Z; tf_s7 : Z; tf_t8 : Z; tf_t9 : Z; tf_k0 : Z;
  tf_k1 : Z; tf_gp : Z; tf_sp : Z; tf_s8 : Z; tf_epc : Z;
}.

(** The registers that a system call returns in, and the program counter. *)
Definition set_result (v0 a3 : Z) (tf : trapframe) : trapframe :=
  mk_tf (tf_vaddr tf) (tf_status tf) (tf_cause tf) (tf_lo tf) (tf_hi tf) (tf_ra tf) (tf_at tf) v0 (tf_v1 tf) (tf_a0 tf) (tf_a1 tf) (tf_a2 tf) a3 (tf_t0 tf) (tf_t1 tf) (tf_t2 tf) (tf_t3 tf) (tf_t4 tf) (tf_t5 tf) (tf_t6 tf) (tf_t7 tf) (tf_s0 tf) (tf_s1 tf) (tf_s2 tf) (tf_s3 tf) (tf_s4 tf) (tf_s5 tf) (tf_s6 tf) (tf_s7 tf) (tf_t8 tf) (tf_t9 tf) (tf_k0 tf) (tf_k1 tf) (tf_gp tf) (tf_sp tf) (tf_s8 tf) (tf_epc tf).
Definition set_epc (epc : Z) (tf : trapframe) : trapframe :=
  mk_tf (tf_vaddr tf) (tf_status tf) (tf_cause tf) (tf_lo tf) (tf_hi tf) (tf_ra tf) (tf_at tf) (tf_v0 tf) (tf_v1 tf) (tf_a0 tf) (tf_a1 tf) (tf_a2 tf) (tf_a3 tf) (tf_t0 tf) (tf_t1 tf) (tf_t2 tf) (tf_t3 tf) (tf_t4 tf) (tf_t5 tf) (tf_t6 tf) (tf_t7 tf) (tf_s0 tf) (tf_s1 tf) (tf_s2 tf) (tf_s3 tf) (tf_s4 tf) (tf_s5 tf) (tf_s6 tf) (tf_s7 tf) (tf_t8 tf) (tf_t9 tf) (tf_k0 tf) (tf_k1 tf) (tf_gp tf) (tf_sp tf) (tf_s8 tf) epc.
(** The frame that md_usermode makes. *)
Definition user_frame (argc argv stack entry : Z) : trapframe :=
  mk_tf 0 (Z.lor CST_IRQMASK (Z.lor CST_IEp CST_KUp)) 0 0 0 0 0 0 0 (u32 argc) argv 0 0 0 0 0 0 0 0 0 0 0 0 0 0 0 0 0 0 0 0 0 0 0 stack 0 entry.

(** ** The kernel

    [ie] is the bit of the processor that lets interrupts through; [files] is
    what the file calls work on, [procs] the rest.  The current thread exists
    ([curthread] is set during the bootstrap, before the first trap). *)
Record kern (W P : Type) : Type := mk_kern {
  curspl : Z;
  ie : bool;
  in_interrupt : Z;
  curkstack : Z;
  t_stack : option Z;
  files : fstate W;
  procs : P;
}.
Arguments mk_kern {W P} _ _ _ _ _ _ _.
Arguments curspl {W P} _.
Arguments ie {W P} _.
Arguments in_interrupt {W P} _.
Arguments curkstack {W P} _.
Arguments t_stack {W P} _.
Arguments files {W P} _.
Arguments procs {W P} _.

Definition set_spl {W P} (l : Z) (b : bool) (k : kern W P) : kern W P := mk_kern l b (in_interrupt k) (curkstack k) (t_stack k) (files k) (procs k).
Definition set_in_interrupt {W P} (i : Z) (k : kern W P) : kern W P := mk_kern (curspl k) (ie k) i (curkstack k) (t_stack k) (files k) (procs k).
Definition set_files {W P} (s : fstate W) (k : kern W P) : kern W P := mk_kern (curspl k) (ie k) (in_interrupt k) (curkstack k) (t_stack k) s (procs k).

Definition splx {W P} (newspl : Z) (k : kern W P) : kern W P :=
  set_spl newspl (if newspl >? 0 then false else if newspl =? 0 then true else ie k) k.
Definition splhigh {W P} : kern W P -> kern W P := splx SPL_HIGH.

(** The calls on processes.  [None] for a call that does not come back to its
    caller: the process has ended, or runs another program. *)
Class Procs (W P : Type) := {
  sys_reboot (code : Z) : kern W P -> outcome (option Z * kern W P);
  sys__exit (code : Z) : kern W P -> outcome (kern W P);
  sys_execv (program args : Z) : kern W P -> outcome (option Z * kern W P);
  sys_fork (tf : trapframe) (retval : Z) : kern W P -> outcome (Z * Z * kern W P);
  sys_waitpid (pid status options retval : Z) : kern W P -> outcome (Z * Z * kern W P);
  sys_getpid (retval : Z) : kern W P -> outcome (Z * Z * kern W P);
  vm_fault (faulttype faultaddress : Z) : kern W P -> outcome (Z * kern W P);
  as_activate : kern W P -> outcome (kern W P);
  mips_lamebus_interrupt : kern W P -> outcome (kern W P);
}.

Section Ops.
Context {W P : Type} `{VN : Vnodes W} `{PR : !Procs W P}.

(** The read-only user addresses, the name buffers, the allocations of the file
    calls, and the address of [copyfail] (CopyInOut.v). *)
Variable ro : Z -> bool.
Variable junk : list Z.
Variable al : fd_alloc.
Variable copyfail : Z.

Definition with_ret (retval : Z) (m : outcome (option Z * kern W P)) : outcome (option (Z * Z) * kern W P) :=
  '(r, k) ← m; Ok (match r with Some err => Some (err, retval) | None => None end, k).

Definition comes_back (m : outcome (Z * Z * kern W P)) : outcome (option (Z * Z) * kern W P) :=
  '(err, retval, k) ← m; Ok (Some (err, retval), k).

Definition on_files (f : fstate W -> outcome (Z * Z * fstate W)) (k : kern W P) : outcome (option (Z * Z) * kern W P) :=
  '(err, retval, s) ← f (files k); Ok (Some (err, retval), set_files s k).

(** The switch over the call number: the error code and the value, if the call
    comes back. *)
Definition dispatch (tf : trapframe) (retval : Z) (k : kern W P) : outcome (option (Z * Z) * kern W P) :=
  let callno := s32 (tf_v0 tf) in
  if callno =? SYS_reboot then with_ret retval (sys_reboot (s32 (tf_a0 tf)) k)
  else if callno =? SYS__exit then k ← sys__exit (s32 (tf_a0 tf)) k; Ok (None, k)
  else if callno =? SYS_execv then with_ret retval (sys_execv (tf_a0 tf) (tf_a1 tf) k)
  else if callno =? SYS_fork then comes_back (sys_fork tf retval k)
  else if callno =? SYS_waitpid then comes_back (sys_waitpid (s32 (tf_a0 tf)) (tf_a1 tf) (s32 (tf_a2 tf)) retval k)
  else if callno =? SYS_open then on_files (sys_open ro junk (tf_a0 tf) (s32 (tf_a1 tf)) al retval) k
  else if callno =? SYS_read then on_files (sys_read ro (s32 (tf_a0 tf)) (tf_a1 tf) (tf_a2 tf) al retval) k
  else if callno =? SYS_write then on_files (sys_write ro (s32 (tf_a0 tf)) (tf_a1 tf) (tf_a2 tf) al retval) k
  else if callno =? SYS_close then on_files (sys_close (s32 (tf_a0 tf)) retval) k
  else if callno =? SYS_getpid then comes_back (sys_getpid retval k)
  else Ok (Some (ENOSYS, retval), k).

Definition mips_syscall (tf : trapframe) (k : kern W P) : outcome (option trapframe * kern W P) :=
  _ ← c_assert (curspl k =? 0);
  '(res, k) ← dispatch tf 0 k;
  match res with
  | None => Ok (None, k)
  | Some (err, retval) =>
      let tf := if negb (err =? 0) then set_result (u32 err) 1 tf else set_result (u32 retval) 0 tf in
      let tf := set_epc (u32 (tf_epc tf + 4)) tf in
      _ ← c_assert (curspl k =? 0);
      Ok (Some tf, k)
  end.

(** The frame is at the address [tfa] of the kernel stack. *)
Definition mips_usermode (tfa : Z) (tf : trapframe) (k : kern W P) : outcome (trapframe * kern W P) :=
  let k := splhigh k in
  let k := set_spl 0 (ie k) k in
  _ ← c_assert (SAME_STACK (u32 (curkstack k - 1)) tfa);
  Ok (tf, k).

Definition md_usermode (tfa argc argv stack entry : Z) (k : kern W P) : outcome (trapframe * kern W P) :=
  mips_usermode tfa (user_frame argc argv stack entry) k.

(** The child of a fork, with a copy of the frame of its parent. *)
Definition md_forkentry (tfa : Z) (tf : trapframe) (k : kern W P) : outcome (trapframe * kern W P) :=
  k ← as_activate k;
  let tf := set_result 0 0 tf in
  let tf := set_epc (u32 (tf_epc tf + 4)) tf in
  mips_usermode tfa tf k.

Definition mips_interrupt (cause : Z) (k : kern W P) : outcome (kern W P) :=
  let old_in := in_interrupt k in
  let k := set_in_interrupt 1 k in
  _ ← c_assert (curspl k >? 0);
  if negb (Z.land cause LAMEBUS_IRQ_BIT =? 0) then
    k ← mips_lamebus_interrupt k;
    Ok (set_in_interrupt old_in k)
  else Panic. (* LAMEBUS_NMI_BIT, or no interrupt that is known *)

Definition kill_curthread (code : Z) (k : kern W P) : outcome (option trapframe * kern W P) :=
  _ ← c_assert (code <? NTRAPCODES);
  k ← sys__exit code k;
  Ok (None, k).

(** The end of mips_trap, at the label [done]. *)
Definition trap_done (tfa savespl : Z) (tf : trapframe) (k : kern W P) : outcome (option trapframe * kern W P) :=
  let k := splhigh k in
  let k := set_spl savespl (ie k) k in
  _ ← c_assert (SAME_STACK (u32 (curkstack k - 1)) tfa);
  Ok (Some tf, k).

(** A fault that vm_fault did not serve, or another fatal exception. *)
Definition fatal (tfa savespl code : Z) (tf : trapframe) (k : kern W P) : outcome (option trapframe * kern W P) :=
  if negb (Z.land (tf_status tf) CST_KUp =? 0) then kill_curthread code k
  else if badfaultfunc (memory (files k)) then trap_done tfa savespl (set_epc copyfail tf) k
  else Panic.

Definition try_fault (tfa savespl code faulttype : Z) (tf : trapframe) (k : kern W P) : outcome (option trapframe * kern W P) :=
  '(r, k) ← vm_fault faulttype (tf_vaddr tf) k;
  if r =? 0 then trap_done tfa savespl tf k else fatal tfa savespl code tf k.

Definition mips_trap (tfa : Z) (tf : trapframe) (k : kern W P) : outcome (option trapframe * kern W P) :=
  let savespl := curspl k in
  let k := set_spl SPL_HIGH (ie k) k in
  let code := Z.shiftr (Z.land (tf_cause tf) CCA_CODE) CCA_CODESHIFT in
  _ ← c_assert (code <? NTRAPCODES);
  _ ← match t_stack k with
      | None => Ok tt
      | Some st => _ ← c_assert (tfa >? st); c_assert (tfa <? u32 (st + STACK_SIZE))
      end;
  if code =? EX_IRQ then k ← mips_interrupt (tf_cause tf) k; trap_done tfa savespl tf k
  else
    let k := splx savespl k in
    if code =? EX_SYS then
      _ ← c_assert (curspl k =? 0);
      '(r, k) ← mips_syscall tf k;
      match r with
      | None => Ok (None, k)
      | Some tf => trap_done tfa savespl tf k
      end
    else if code =? EX_MOD then try_fault tfa savespl code 2 tf k
    else if code =? EX_TLBL then try_fault tfa savespl code 0 tf k
    else if code =? EX_TLBS then try_fault tfa savespl code 1 tf k
    else if (code =? EX_IBE) || (code =? EX_DBE) then Panic
    else fatal tfa savespl code tf k.

End Ops.
(** ** System calls on files *)

(** The file call that the registers ask for. *)
Definition file_request (al : fd_alloc) (tf : trapframe) : option fcall :=
  let callno := s32 (tf_v0 tf) in
  if callno =? SYS_open then Some (Copen (tf_a0 tf) (s32 (tf_a1 tf)) al)
  else if callno =? SYS_read then Some (Cread (s32 (tf_a0 tf)) (tf_a1 tf) (tf_a2 tf) al)
  else if callno =? SYS_write then Some (Cwrite (s32 (tf_a0 tf)) (tf_a1 tf) (tf_a2 tf) al)
  else if callno =? SYS_close then Some (Cclose (s32 (tf_a0 tf)))
  else None.

(** The registers of the program other than the results and the program counter. *)
Definition rest_of (tf : trapframe) : trapframe := set_epc 0 (set_result 0 0 tf).

(** The frame is on the stack of the thread. *)
Definition on_stack {W P} (tfa : Z) (k : kern W P) : Prop :=
  exists st, t_stack k = Some st /\ st mod STACK_SIZE = 0 /\ 0 <= st /\ st + STACK_SIZE < u32_mod /\ st < tfa < st + STACK_SIZE /\ curkstack k = st + STACK_SIZE.

Lemma same_stack {W P} tfa (k : kern W P) : on_stack tfa k -> SAME_STACK (u32 (curkstack k - 1)) tfa = true.
Proof.
  intros (st & _ & Hm & H0 & H1 & H2 & ->). unfold SAME_STACK, STACK_SIZE, u32_mod in *. change STACK_MASK with PAGE_FRAME.
  rewrite u32_id by (unfold u32_mod; lia). rewrite !page_frame_floor by lia. apply Z.eqb_eq. Z.to_euclidean_division_equations; lia.
Qed.

Section Calls.
Context {W P : Type} `{VN : Vnodes W} `{VNL : !VnodeLaws W} `{PR : !Procs W P}.
Variable ro : Z -> bool.
Variable junk : list Z.
Hypothesis junk_size : zlen junk = 256.
Variable al : fd_alloc.
Variable copyfail : Z.

Lemma dispatch_file tf rv c k : file_request al tf = Some c -> dispatch ro junk al tf rv k = on_files (run_fcall ro junk c rv) k.
Proof.
  unfold file_request, dispatch. intros H. destruct (Z.eqb_spec (s32 (tf_v0 tf)) SYS_open) as [E|_]; [rewrite E; injection H as <-; reflexivity|].
  destruct (Z.eqb_spec (s32 (tf_v0 tf)) SYS_read) as [E|_]; [rewrite E; injection H as <-; reflexivity|].
  destruct (Z.eqb_spec (s32 (tf_v0 tf)) SYS_write) as [E|_]; [rewrite E; injection H as <-; reflexivity|].
  destruct (Z.eqb_spec (s32 (tf_v0 tf)) SYS_close) as [E|_]; [rewrite E; injection H as <-; reflexivity|done].
Qed.

(** C12. A file call through the registers.  A program that asks for open, close,
    read or write by a trap goes on at the instruction after the trap with all
    other registers as they were; v0 and a3 say what the call on the arguments
    in the registers returned, the error code with a3 = 1 or the value with
    a3 = 0.  The interrupt level is as before, interrupts are off until the
    return from the trap, and the descriptors of the process are well formed.
    This is for calls that are [legal]: not for descriptor 10, with memory for
    [kstrdup], with a size and an offset after the transfer below 2^31, and no
    write to a raw disk. *)
Theorem trap_file_call g tfa tf k c : proc_ok g (files k) -> on_stack tfa k -> curspl k = 0 ->
  Z.shiftr (Z.land (tf_cause tf) CCA_CODE) CCA_CODESHIFT = EX_SYS -> file_request al tf = Some c -> legal g (files k) c ->
  exists tf' k' g' r rv, mips_trap ro junk al copyfail tfa tf k = Ok (Some tf', k') /\ run_fcall ro junk c 0 (files k) = Ok (r, rv, files k') /\
    rest_of tf' = rest_of tf /\ tf_epc tf' = u32 (tf_epc tf + 4) /\ (tf_v0 tf', tf_a3 tf') = (if r =? 0 then (u32 rv, 0) else (u32 r, 1)) /\
    curspl k' = 0 /\ ie k' = false /\ procs k' = procs k /\ proc_ok g' (files k').
Proof.
  intros Hp Hst Hs Hc Hf Hl. destruct (file_call_returns ro junk junk_size g (files k) c 0 Hp Hl) as (r & rv & s' & g' & E & Hp' & _).
  pose proof (same_stack tfa k Hst) as Hss. destruct Hst as (st & Et & _ & H0 & H1 & H2 & Ek). unfold mips_trap. rewrite Hc. cbn. rewrite Et. cbn.
  rewrite Z.gtb_ltb, (proj2 (Z.ltb_lt st tfa)) by lia. rewrite u32_id, (proj2 (Z.ltb_lt tfa _)) by lia. cbn. rewrite Hs. cbn.
  unfold mips_syscall. cbn. rewrite (dispatch_file _ _ c) by done. unfold on_files. cbn. rewrite E. cbn.
  unfold trap_done. cbn. rewrite Hss. cbn. eexists _, _, g', r, rv. split; [reflexivity|]. cbn. split; [done|]. destruct (r =? 0); done.
Qed.

End Calls.

(** ** A trap on the machine of FileStack.v

    The process asks to open a path that is not there, with O_CREAT; there are no
    other processes. *)
#[local] Existing Instance FileStack.stack_ops.
#[local] Existing Instance FileStack.stack_laws.
#[local] Existing Instance Device.devnull.

Local Abbreviation machine := (SfsVfs.kworld SfsIo.good_disk unit).

#[local] Instance no_procs : Procs machine unit := {
  sys_reboot _ _ := Panic; sys__exit _ k := Ok k; sys_execv _ _ k := Ok (Some ENOMEM, k); sys_fork _ rv k := Ok (EAGAIN, rv, k);
  sys_waitpid _ _ _ rv k := Ok (EINVAL, rv, k); sys_getpid _ k := Ok (0, 1, k); vm_fault _ _ k := Ok (EFAULT, k); as_activate k := Ok k;
  mips_lamebus_interrupt k := Ok k }.

Definition demo_frame : trapframe := set_result SYS_open 0 (user_frame 100 O_CREAT 2147483632 4194304).
Definition demo_trap : trapframe :=
  mk_tf 0 (tf_status demo_frame) 32 0 0 0 0 (tf_v0 demo_frame) 0 (tf_a0 demo_frame) (tf_a1 demo_frame) 0 0 0 0 0 0 0 0 0 0 0 0 0 0 0 0 0 0 0 0 0 0 0 (tf_sp demo_frame) 0 (tf_epc demo_frame).
Definition demo_kern : kern machine unit := mk_kern 0 true 0 2147553280 (Some 2147549184) FileStack.stack tt.

Lemma trap_file_call_witness : exists tf' k', mips_trap FileStack.stack_ro FileStack.stack_name FileStack.stack_al 0 2147550000 demo_trap demo_kern = Ok (Some tf', k') /\
  tf_epc tf' = 4194308 /\ tf_sp tf' = 2147483632 /\ ie k' = false.
Proof.
  destruct (trap_file_call FileStack.stack_ro FileStack.stack_name eq_refl FileStack.stack_al 0 FileStack.stack_ghost 2147550000 demo_trap demo_kern (Copen 100 O_CREAT FileStack.stack_al))
    as (tf' & k' & g' & r & rv & E & _ & Hrest & Hepc & _ & _ & Hie & _ & _).
  - split; [|exact FileStack.stack_roomy]. exact FileStack.stack_fok.
  - exists 2147549184. split_and!; done.
  - reflexivity.
  - reflexivity.
  - reflexivity.
  - split; [done|]. apply FileStack.stack_alloc. unfold NAME_MAX. lia.
  - exists tf', k'. split; [exact E|]. split; [exact Hepc|]. split; [|exact Hie]. apply (f_equal tf_sp) in Hrest. exact Hrest.
Defined.

End Trap.
