(* ===== verification/RunProgram.v ===== *)
(** * Starting a program: kern/userprog/runprogram.c

    [runprogram] opens the executable (Vfs.v), reads its headers into a new address
    space (Elf.v), puts the arguments on the user stack (CopyInOut.v) and enters
    user mode with the frame of md_usermode (Trap.v). *)

From stdpp Require Import gmultiset.
From S2P Require Import Prelude Memory CopyInOut Uio Strings Array Tlb AddrSpace AsOps SfsDisk SfsFile SfsVnode Vnode VfsList Vfs FileCalls Device SfsVfs FileStack Elf Trap.
Import Memory CopyInOut Strings AddrSpace AsOps SfsDisk SfsFile SfsVnode Vnode VfsList Vfs FileCalls Device SfsVfs FileStack Elf Trap.

Module RunProgram.

(** ** The arguments on the user stack *)

Section Args.
(** The read-only user addresses; the addresses of the local variables
    addrOfCharPtrs, zeros and newArgsPtr on the kernel stack. *)
Variable ro : Z -> bool.
Variable ptrs_at zeros_at argp_at : Z.

(** The loop over the characters of a string, which starts with str_len = 1; there
    are no more rounds than mapped addresses. *)
Fixpoint str_len_loop (fuel : nat) (m : mem) (a str_len : Z) : outcome Z :=
  match fuel with
  | O => Hang
  | S fuel' =>
      r ← load1 m a;
      match r with
      | None => Panic
      | Some b => if b =? 0 then Ok str_len else str_len_loop fuel' m (a + 1) (u32 (str_len + 1))
      end
  end.

Definition str_len (m : mem) (a : Z) : outcome Z := str_len_loop (S (size m)) m a 1.

(** [for(i = nargs - 1; i >= 0; i--)] with [n] rounds left; the results of
    copyoutstr and copyout are not looked at. *)
Fixpoint put_strings (n : nat) (args : list Z) (stackptr : Z) (m : kst) : outcome (Z * kst) :=
  match n with
  | O => Ok (stackptr, m)
  | S i =>
      str ← rd args (Z.of_nat i);
      len ← str_len (kmem m) str;
      let stackptr := u32 (stackptr - len) in
      m ← kstore ro m (ptrs_at + 4 * Z.of_nat i) (word_bytes stackptr);
      '(_, _, m) ← copyoutstr ro str stackptr len m;
      put_strings i args stackptr m
  end.

Fixpoint put_ptrs (n : nat) (stackptr : Z) (m : kst) : outcome (Z * kst) :=
  match n with
  | O => Ok (stackptr, m)
  | S i =>
      let stackptr := u32 (stackptr - 4) in
      '(_, m) ← copyout ro (ptrs_at + 4 * Z.of_nat i) stackptr 4 m;
      put_ptrs i stackptr m
  end.

(** The address of the new argv and the stack pointer. *)
Definition put_args (args : list Z) (stackptr : Z) (m : kst) : outcome (Z * Z * kst) :=
  '(stackptr, m) ← put_strings (length args) args stackptr m;
  let null_len := 4 + stackptr mod 4 in
  m ← kstore ro m zeros_at (word_bytes 0);
  let stackptr := u32 (stackptr - null_len) in
  '(_, m) ← copyout ro zeros_at stackptr null_len m;
  '(stackptr, m) ← put_ptrs (length args) stackptr m;
  let newArgsPtr := stackptr in
  m ← kstore ro m argp_at (word_bytes newArgsPtr);
  let stackptr := u32 (stackptr - 4) in
  '(_, m) ← copyout ro argp_at stackptr 4 m;
  let stackptr := u32 (stackptr - stackptr mod 8) in
  Ok (newArgsPtr, stackptr, m).

End Args.

(** ** Writing blocks *)

Definition holds (m : mem) (a : Z) (bs : list Z) : Prop := forall j, 0 <= j < zlen bs -> m !! (a + j) = bs !! Z.to_nat j.

(** [m'] is [m] with [bs] at [a]. *)
Definition puts (m : mem) (a : Z) (bs : list Z) (m' : mem) : Prop :=
  (forall x, m' !! x = if decide (within x a (zlen bs)) then bs !! Z.to_nat (x - a) else m !! x) /\ (forall x, is_Some (m' !! x) <-> is_Some (m !! x)).

Lemma puts_holds m a bs m' : puts m a bs m' -> holds m' a bs.
Proof. intros [H _] j Hj. rewrite H, decide_True by (unfold within; lia). f_equal. lia. Qed.

Lemma puts_frame m a bs m' x : puts m a bs m' -> ~ within x a (zlen bs) -> m' !! x = m !! x.
Proof. intros [H _] Hx. by rewrite H, decide_False. Qed.

Lemma holds_frame m m' a bs : holds m a bs -> (forall x, within x a (zlen bs) -> m' !! x = m !! x) -> holds m' a bs.
Proof. intros H Hx j Hj. rewrite Hx by (unfold within; lia). by apply H. Qed.

Lemma holds_app m a bs cs : holds m a (bs ++ cs) -> holds m a bs /\ holds m (a + zlen bs) cs.
Proof.
  intros H. split; intros j Hj.
  - rewrite H by (rewrite length_app; lia). apply lookup_app_l. lia.
  - rewrite <- Z.add_assoc, H by (rewrite length_app; lia). rewrite lookup_app_r by lia. f_equal. lia.
Qed.

(** A user block that can be written. *)
Definition user_block (ro : Z -> bool) (m : mem) (a len : Z) : Prop := 0 <= a /\ a + len <= USERTOP /\ forall x, within x a len -> writable ro m x.

Section Writes.
Context (ro : Z -> bool).

Lemma kstore_puts m a bs : Uio.kernel_block (kmem m) a (zlen bs) -> exists m', kstore ro m a bs = Ok (mk_kst m' (badfaultfunc m)) /\ puts (kmem m) a bs m'.
Proof. intros H. destruct (kstore_run ro m a bs H) as (m' & E & Hm & Hd). by exists m'. Qed.

Lemma copyout_puts m src dst bs : badfaultfunc m = false -> 0 < zlen bs -> zlen bs < u32_mod -> Uio.kernel_block (kmem m) src (zlen bs) -> holds (kmem m) src bs -> user_block ro (kmem m) dst (zlen bs) ->
  exists m', copyout ro src dst (zlen bs) m = Ok (0, mk_kst m' false) /\ puts (kmem m) dst bs m'.
Proof.
  intros Hb H0 Hl (K1 & K2 & K3) Hs (U1 & U2 & U3). destruct (copyout_safe ro src dst (zlen bs) m) as (r & m' & E & Hr & Hf & H1 & H2);
    [unfold word, USERTOP, u32_mod in *; lia|unfold word; lia|done|lia|done|].
  assert (r = 0) as ->.
  - destruct Hr as [->| ->]; [done|]. destruct (proj1 H2 eq_refl) as [?|[?|(x & Hx & Hw)]]; [lia|lia|]. by destruct Hw; apply U3.
  - exists m'. split; [done|]. destruct (H1 eq_refl) as (_ & _ & Hc).
    assert (forall x, m' !! x = if decide (within x dst (zlen bs)) then bs !! Z.to_nat (x - dst) else kmem m !! x) as Hm.
    + intros x. rewrite Hc. case_decide as Hx; [|done]. unfold within in Hx. rewrite Hs by lia. done.
    + split; [done|]. intros x. rewrite Hm. case_decide as Hx; [|done]. unfold within in *. destruct (U3 x) as [? _]; [unfold within; lia|].
      split; [done|]. intros _. apply lookup_lt_is_Some_2. lia.
Qed.

(** A terminated string in kernel memory. *)
Definition kstring (m : mem) (a : Z) (l : list Z) : Prop := Uio.kernel_block m a (zlen l + 1) /\ holds m a (l ++ [0]) /\ Forall (fun c => c <> 0) l.

Lemma kstring_end m a l : kstring m a l -> m !! (a + zlen l) = Some 0.
Proof. intros (_ & H & _). rewrite H by (rewrite length_app; cbn; lia). rewrite lookup_app_r by lia. by replace (Z.to_nat (zlen l) - length l)%nat with 0%nat by lia. Qed.

Lemma kstring_char m a l j : kstring m a l -> 0 <= j < zlen l -> exists c, m !! (a + j) = Some c /\ c <> 0.
Proof.
  intros (_ & H & Hn) Hj. destruct (lookup_lt_is_Some_2 l (Z.to_nat j)) as [c Hc]; [lia|]. exists c. split; [|by apply (Forall_lookup_1 _ _ _ _ Hn Hc)].
  rewrite H by (rewrite length_app; cbn; lia). by rewrite lookup_app_l by lia.
Qed.

Lemma copyoutstr_puts m src dst l : badfaultfunc m = false -> zlen l + 1 < u32_mod -> kstring (kmem m) src l -> user_block ro (kmem m) dst (zlen l + 1) ->
  exists m', copyoutstr ro src dst (zlen l + 1) m = Ok (0, Some (zlen l + 1), mk_kst m' false) /\ puts (kmem m) dst (l ++ [0]) m'.
Proof.
  intros Hb Hl Hk (U1 & U2 & U3). pose proof Hk as ((K1 & K2 & K3) & Hs & Hn). unfold copyoutstr.
  destruct (copycheck_ok ro dst (zlen l + 1)) as [(st & -> & _ & _ & _ & ->)|[_ H]]; [unfold word, USERTOP, u32_mod in *; lia|unfold word; lia| |unfold USERTOP, u32_mod in *; lia].
  rewrite (proj2 (Z.ltb_lt 0 _)) by lia. replace (Z.min (zlen l + 1) (USERTOP - dst)) with (zlen l + 1) by lia. cbn [Z.eqb negb]. unfold protected, copystr. rewrite Z.min_id. cbn [kmem set_badfaultfunc].
  destruct (copystr_loop_ok ro (Z.to_nat (zlen l + 1)) (kmem m) dst src 0 (zlen l + 1) (zlen l + 1)) as (r & m' & -> & Hf & Hr); [lia| | |].
  - intros j Hj. rewrite Z2Nat.id in Hj by lia. split; left; [apply K3|apply U3]; unfold within; lia.
  - intros x y Hx Hy. rewrite Z2Nat.id in Hx, Hy by lia. lia.
  - rewrite Z2Nat.id in Hf, Hr by lia. rewrite Z.ltb_irrefl in Hr. cbn [outcome_bind mbind].
    assert (exists k, r = Some (0, Some (k + 1)) /\ 0 <= k < zlen l + 1 /\ kmem m !! (src + k) = Some 0 /\ (forall j, 0 <= j <= k -> m' !! (dst + j) = kmem m !! (src + j))) as (k & -> & Hk1 & Hk2 & Hk3).
    { destruct r as [[c got]|].
      - destruct c as [|c|c].
        + destruct Hr as (k & H1 & -> & H2 & _ & H3). exists k. done.
        + destruct Hr as (_ & _ & H). destruct (H (zlen l)) as (b & E & Hb0); [lia|]. by rewrite (kstring_end _ _ _ Hk) in E; injection E as <-.
        + destruct Hr as (_ & _ & H). destruct (H (zlen l)) as (b & E & Hb0); [lia|]. by rewrite (kstring_end _ _ _ Hk) in E; injection E as <-.
      - exfalso. destruct Hr as (j & Hj & [H|H] & _); [destruct (K3 (src + j)) as [? ?]; [unfold within; lia|congruence]|]. destruct H. apply U3. unfold within. lia. }
    assert (k = zlen l) as ->.
    { destruct (decide (k < zlen l)) as [Hlt|]; [|lia]. destruct (kstring_char _ _ _ k Hk) as (c & E & Hc); [lia|congruence]. }
    exists m'. split; [done|]. assert (zlen (l ++ [0]) = zlen l + 1) as Hz by (rewrite length_app; cbn; lia).
    assert (forall x, m' !! x = if decide (within x dst (zlen (l ++ [0]))) then (l ++ [0]) !! Z.to_nat (x - dst) else kmem m !! x) as Hm.
    { intros x. rewrite Hz. case_decide as Hx; [|by apply Hf; rewrite Z.add_0_r]. unfold within in Hx. replace x with (dst + (x - dst)) at 1 by lia. rewrite Hk3 by lia. apply Hs. lia. }
    split; [done|]. intros x. rewrite Hm. case_decide as Hx; [|done]. unfold within in Hx. destruct (U3 x) as [? _]; [unfold within; lia|]. split; [done|]. intros _. apply lookup_lt_is_Some_2. lia.
Qed.

(** No memory holds more bytes than it has addresses. *)
Lemma holds_size m a bs : holds m a bs -> (length bs <= size m)%nat.
Proof.
  intros H. rewrite <- (size_dom (D := gset Z)). assert (size (list_to_set (C := gset Z) (seqZ a (zlen bs))) = length bs) as <-.
  - rewrite size_list_to_set by apply NoDup_seqZ. rewrite length_seqZ. lia.
  - apply subseteq_size. intros x Hx. apply elem_of_list_to_set, elem_of_seqZ in Hx. apply elem_of_dom. replace x with (a + (x - a)) by lia. rewrite H by lia. apply lookup_lt_is_Some_2. lia.
Qed.

Lemma str_len_loop_run m l : forall a fuel n, 0 <= n -> kstring m a l -> n + zlen l < u32_mod -> (length l < fuel)%nat -> str_len_loop fuel m a n = Ok (n + zlen l).
Proof.
  induction l as [|c l IH]; intros a fuel n Hn Hk Hl Hf; (destruct fuel as [|fuel]; [cbn in Hf; lia|]); cbn [str_len_loop]; unfold load1.
  - pose proof (kstring_end m a [] Hk) as E. cbn in E. rewrite Z.add_0_r in E. rewrite E. cbn. f_equal. lia.
  - destruct Hk as ((K1 & K2 & K3) & Hs & Hc). cbn [length] in *. pose proof (Hs 0 ltac:(cbn; lia)) as E. rewrite Z.add_0_r in E. change (m !! a = Some c) in E. rewrite E. cbn [mbind outcome_bind].
    apply list.Forall_cons in Hc as [Hc Hc']. rewrite (proj2 (Z.eqb_neq c 0) Hc), u32_id by lia. rewrite IH; [f_equal; lia|lia| |lia|lia].
    split; [|split; [|done]].
    + split; [lia|]. split; [lia|]. intros x Hx. apply K3. unfold within in *. lia.
    + intros j Hj. replace (a + 1 + j) with (a + (1 + j)) by lia. rewrite Hs by (cbn; lia). replace (Z.to_nat (1 + j)) with (S (Z.to_nat j)) by lia. done.
Qed.

Lemma str_len_run m a l : kstring m a l -> zlen l + 1 < u32_mod -> str_len m a = Ok (zlen l + 1).
Proof.
  intros Hk Hl. unfold str_len. rewrite (str_len_loop_run m l) by (first [done|lia|destruct Hk as (_ & Hs & _); apply holds_size in Hs; rewrite length_app in Hs; cbn in Hs; lia]). f_equal. lia.
Qed.

End Writes.

(** ** The layout *)

(** The room for strings with their terminators. *)
Definition str_sizes (l : list (list Z)) : Z := foldr (fun s n => zlen s + 1 + n) 0 l.

Lemma str_sizes_app l l' : str_sizes (l ++ l') = str_sizes l + str_sizes l'.
Proof. induction l as [|s l IH]; [done|]. change (str_sizes ((s :: l) ++ l')) with (zlen s + 1 + str_sizes (l ++ l')). change (str_sizes (s :: l)) with (zlen s + 1 + str_sizes l). lia. Qed.

Lemma str_sizes_nonneg l : 0 <= str_sizes l.
Proof. induction l as [|s l IH]; [done|]. change (str_sizes (s :: l)) with (zlen s + 1 + str_sizes l). lia. Qed.

Lemma str_sizes_drop i l : str_sizes (drop i l) <= str_sizes l.
Proof. rewrite <- (take_drop i l) at 2. rewrite str_sizes_app. pose proof (str_sizes_nonneg (take i l)). lia. Qed.

Lemma length_word_bytes w : zlen (word_bytes w) = 4.
Proof. done. Qed.

Section Layout.
Context (ro : Z -> bool) (ptrs_at zeros_at argp_at : Z) (args : list Z) (strs : list (list Z)).

Definition clear_of (a len : Z) (b blen : Z) : Prop := forall x, within x a len -> ~ within x b blen.

(** The first [n] arguments are strings, away from the array of pointers. *)
Definition strings_ok (m : mem) (n : nat) : Prop := forall i s, (i < n)%nat -> strs !! i = Some s ->
  zlen s + 1 < u32_mod /\ exists a, args !! i = Some a /\ kstring m a s /\ clear_of a (zlen s + 1) ptrs_at (4 * zlen strs).

Lemma kstring_frame m m' a l : kstring m a l -> (forall x, within x a (zlen l + 1) -> m' !! x = m !! x) -> kstring m' a l.
Proof.
  intros ((K1 & K2 & K3) & Hs & Hn) Hf. assert (zlen (l ++ [0]) = zlen l + 1) as Hz by (rewrite length_app; cbn; lia). split; [|split; [|done]].
  - split; [done|]. split; [done|]. intros x Hx. rewrite Hf by done. by apply K3.
  - apply (holds_frame m); [done|]. by rewrite Hz.
Qed.

Lemma strings_ok_frame m m' n : strings_ok m n -> (forall x, USERTOP <= x -> ~ within x ptrs_at (4 * zlen strs) -> m' !! x = m !! x) -> strings_ok m' n.
Proof.
  intros H Hf i s Hi Hs. destruct (H i s Hi Hs) as (Hl & a & Ha & Hk & Hc). split; [done|]. exists a. split; [done|]. split; [|done].
  apply (kstring_frame m); [done|]. intros x Hx. destruct Hk as ((K1 & _) & _). apply Hf; [unfold within in Hx; lia|by apply Hc].
Qed.

Lemma user_block_dom m m' a len : (forall x, is_Some (m' !! x) <-> is_Some (m !! x)) -> user_block ro m a len -> user_block ro m' a len.
Proof. intros Hd (U1 & U2 & U3). split; [done|]. split; [done|]. intros x Hx. destruct (U3 x Hx). split; [by apply Hd|done]. Qed.

Lemma user_block_sub m a len b blen : user_block ro m a len -> a <= b -> 0 <= blen -> b + blen <= a + len -> user_block ro m b blen.
Proof. intros (U1 & U2 & U3) H1 H2 H3. split; [lia|]. split; [lia|]. intros x Hx. apply U3. unfold within in *. lia. Qed.

Lemma put_strings_run n : forall m sp, (n <= length strs)%nat -> badfaultfunc m = false -> strings_ok (kmem m) n -> Uio.kernel_block (kmem m) ptrs_at (4 * zlen strs) ->
  user_block ro (kmem m) (sp - str_sizes (take n strs)) (str_sizes (take n strs)) ->
  exists m', put_strings ro ptrs_at n args sp m = Ok (sp - str_sizes (take n strs), mk_kst m' false) /\ (forall x, is_Some (m' !! x) <-> is_Some (kmem m !! x)) /\
    (forall x, ~ within x (sp - str_sizes (take n strs)) (str_sizes (take n strs)) -> ~ within x ptrs_at (4 * Z.of_nat n) -> m' !! x = kmem m !! x) /\
    forall i s, (i < n)%nat -> strs !! i = Some s -> let p := sp - str_sizes (drop i (take n strs)) in
      holds m' (ptrs_at + 4 * Z.of_nat i) (word_bytes p) /\ holds m' p (s ++ [0]).
Proof.
  induction n as [|n IH]; intros m sp Hn Hb Hok Hp Hu; cbn [put_strings].
  { exists (kmem m). cbn [take]. cbn [str_sizes foldr] in *. rewrite Z.sub_0_r. destruct m as [m bf]. cbn in *. subst bf. split; [done|]. split; [done|]. split; [done|]. lia. }
  destruct (lookup_lt_is_Some_2 strs n) as [s Hs]; [lia|]. destruct (Hok n s ltac:(lia) Hs) as (Hl & a & Ha & Hk & Hc).
  rewrite (take_S_r strs n s Hs), str_sizes_app in Hu |- *. change (str_sizes [s]) with (zlen s + 1 + 0) in *. rewrite Z.add_0_r in *. pose proof (str_sizes_nonneg (take n strs)) as H0. set (sp1 := sp - (zlen s + 1)) in *.
  replace (sp - (str_sizes (take n strs) + (zlen s + 1))) with (sp1 - str_sizes (take n strs)) in * by (unfold sp1; lia). pose proof Hu as (U1 & U2 & _). pose proof Hp as (P1 & P2 & P3).
  assert (Hw : forall z, zlen (word_bytes z) = 4) by done.
  assert (rd args (Z.of_nat n) = Ok a) as -> by (apply rd_Some; split; [lia|by rewrite Nat2Z.id]). rewrite Ok_bind, (str_len_run ro _ a s Hk Hl), Ok_bind. cbv zeta.
  rewrite u32_id by (unfold USERTOP, u32_mod in *; lia). fold sp1.
  destruct (kstore_puts ro m (ptrs_at + 4 * Z.of_nat n) (word_bytes sp1)) as (m1 & -> & Hm1).
  { rewrite Hw. split; [lia|]. split; [lia|]. intros x Hx. apply P3. unfold within in *. lia. }
  rewrite Ok_bind, Hb. assert (forall x, ~ within x ptrs_at (4 * zlen strs) -> m1 !! x = kmem m !! x) as F1.
  { intros x Hx. apply (puts_frame _ _ _ _ _ Hm1). rewrite Hw. unfold within in *. lia. }
  destruct (copyoutstr_puts ro (mk_kst m1 false) a sp1 s) as (m2 & -> & Hm2); [done|done| | |].
  { apply (kstring_frame (kmem m)); [done|]. intros x Hx. apply F1. by apply Hc. }
  { apply (user_block_dom _ _ _ _ (proj2 Hm1)). apply (user_block_sub _ _ _ _ _ Hu); lia. }
  rewrite Ok_bind. cbn [kmem] in Hm2. assert (zlen (s ++ [0]) = zlen s + 1) as Hz by (rewrite length_app; cbn; lia).
  assert (forall x, USERTOP <= x -> m2 !! x = m1 !! x) as F2 by (intros x Hx; apply (puts_frame _ _ _ _ _ Hm2); rewrite Hz; unfold within; lia).
  destruct (IH (mk_kst m2 false) sp1) as (m' & -> & D & F & R); cbn [kmem badfaultfunc]; [lia|done| | | |].
  { apply (strings_ok_frame (kmem m)); [intros i s' Hi; apply Hok; lia|]. intros x Hx Hx'. rewrite F2 by done. by apply F1. }
  { split; [done|]. split; [done|]. intros x Hx. apply Hm2, Hm1. by apply P3. }
  { apply (user_block_dom _ _ _ _ (proj2 Hm2)), (user_block_dom _ _ _ _ (proj2 Hm1)). apply (user_block_sub _ _ _ _ _ Hu); lia. }
  cbn [kmem] in D, F. exists m'. split; [done|]. split; [intros x; by rewrite D, (proj2 Hm2), (proj2 Hm1)|]. split.
  - intros x Hx1 Hx2. rewrite F by (unfold within in *; lia). rewrite (puts_frame _ _ _ _ _ Hm2) by (rewrite Hz; unfold within in *; lia).
    apply (puts_frame _ _ _ _ _ Hm1). rewrite Hw. unfold within in *. lia.
  - intros i s' Hi Hs'. cbv zeta. destruct (decide (i = n)) as [->|Hne].
    + assert (s' = s) as -> by congruence. rewrite drop_app_ge, length_take, Nat.min_l, Nat.sub_diag by (rewrite ?length_take; lia). cbn [drop]. change (str_sizes [s]) with (zlen s + 1 + 0). rewrite Z.add_0_r. fold sp1. split.
      * apply (holds_frame m1); [by apply (puts_holds (kmem m))|]. rewrite Hw. intros x Hx. rewrite F by (unfold within in *; lia). apply F2. unfold within in Hx. lia.
      * apply (holds_frame m2); [by apply (puts_holds m1)|]. rewrite Hz. intros x Hx. apply F; unfold within in *; lia.
    + rewrite drop_app_le by (rewrite length_take; lia). rewrite str_sizes_app. change (str_sizes [s]) with (zlen s + 1 + 0). specialize (R i s' ltac:(lia) Hs'). cbv zeta in R.
      replace (sp - (str_sizes (drop i (take n strs)) + (zlen s + 1 + 0))) with (sp1 - str_sizes (drop i (take n strs))) by (unfold sp1; lia). exact R.
Qed.

Lemma put_ptrs_run (q : nat -> Z) n : forall m sp, badfaultfunc m = false -> Uio.kernel_block (kmem m) ptrs_at (4 * Z.of_nat n) ->
  (forall i, (i < n)%nat -> holds (kmem m) (ptrs_at + 4 * Z.of_nat i) (word_bytes (q i))) -> user_block ro (kmem m) (sp - 4 * Z.of_nat n) (4 * Z.of_nat n) ->
  exists m', put_ptrs ro ptrs_at n sp m = Ok (sp - 4 * Z.of_nat n, mk_kst m' false) /\ (forall x, is_Some (m' !! x) <-> is_Some (kmem m !! x)) /\
    (forall x, ~ within x (sp - 4 * Z.of_nat n) (4 * Z.of_nat n) -> m' !! x = kmem m !! x) /\
    forall i, (i < n)%nat -> holds m' (sp - 4 * Z.of_nat n + 4 * Z.of_nat i) (word_bytes (q i)).
Proof.
  induction n as [|n IH]; intros m sp Hb Hp Hq Hu; cbn [put_ptrs].
  { exists (kmem m). rewrite Z.sub_0_r. destruct m as [m bf]. cbn in *. subst bf. split; [done|]. split; [done|]. split; [done|]. lia. }
  pose proof Hu as (U1 & U2 & _). pose proof Hp as (P1 & P2 & P3). assert (Hw : forall z, zlen (word_bytes z) = 4) by done. rewrite u32_id by (unfold USERTOP, u32_mod in *; lia).
  destruct (copyout_puts ro m (ptrs_at + 4 * Z.of_nat n) (sp - 4) (word_bytes (q n))) as (m1 & E & Hm1); rewrite ?Hw; [done|lia|done| |by apply Hq; lia| |].
  { split; [lia|]. split; [lia|]. intros x Hx. apply P3. unfold within in *. lia. }
  { apply (user_block_sub _ _ _ _ _ Hu); lia. }
  rewrite Hw in E. rewrite E, Ok_bind. assert (forall x, ~ within x (sp - 4) 4 -> m1 !! x = kmem m !! x) as F1 by (intros x Hx; by apply (puts_frame _ _ _ _ _ Hm1)).
  destruct (IH (mk_kst m1 false) (sp - 4)) as (m' & -> & D & F & R); cbn [kmem]; [done| | | |].
  { split; [done|]. split; [lia|]. intros x Hx. apply Hm1, P3. unfold within in *. lia. }
  { intros i Hi. apply (holds_frame (kmem m)); [apply Hq; lia|]. rewrite Hw. intros x Hx. apply F1. unfold within in *. lia. }
  { apply (user_block_dom _ _ _ _ (proj2 Hm1)). apply (user_block_sub _ _ _ _ _ Hu); lia. }
  cbn [kmem] in D, F. replace (sp - 4 - 4 * Z.of_nat n) with (sp - 4 * Z.of_nat (S n)) in * by lia. exists m'. split; [done|]. split; [intros x; by rewrite D, (proj2 Hm1)|]. split.
  - intros x Hx. rewrite F by (unfold within in *; lia). apply F1. unfold within in *. lia.
  - intros i Hi. destruct (decide (i = n)) as [->|Hne]; [|apply R; lia]. replace (sp - 4 * Z.of_nat (S n) + 4 * Z.of_nat n) with (sp - 4) by lia.
    apply (holds_frame m1); [by apply (puts_holds (kmem m))|]. rewrite Hw. intros x Hx. apply F. unfold within in *. lia.
Qed.

(** The variables of runprogram and the argument strings are mapped and apart. *)
Definition frame_ok (m : mem) : Prop :=
  Uio.kernel_block m ptrs_at (4 * zlen strs) /\ Uio.kernel_block m zeros_at 7 /\ Uio.kernel_block m argp_at 4 /\
  clear_of ptrs_at (4 * zlen strs) zeros_at 7 /\ clear_of ptrs_at (4 * zlen strs) argp_at 4.

(** The room on the stack: strings, at most seven bytes of zeros and rest, the
    array, and the pointer to it. *)
Definition args_room : Z := str_sizes strs + 7 + 4 * zlen strs + 4.

(** A word is stored in a local variable and copied out, with what follows it. *)
Lemma put_local m at_ len w dst : badfaultfunc m = false -> 4 <= len <= 7 -> Uio.kernel_block (kmem m) at_ len -> user_block ro (kmem m) dst len ->
  exists m1 m', kstore ro m at_ (word_bytes w) = Ok m1 /\ copyout ro at_ dst len m1 = Ok (0, mk_kst m' false) /\ (forall x, is_Some (m' !! x) <-> is_Some (kmem m !! x)) /\
    (forall x, ~ within x at_ 4 -> ~ within x dst len -> m' !! x = kmem m !! x) /\ holds m' dst (word_bytes w).
Proof.
  intros Hb Hl (K1 & K2 & K3) Hu. assert (Hw : zlen (word_bytes w) = 4) by done.
  destruct (kstore_puts ro m at_ (word_bytes w)) as (m1 & E1 & H1).
  { rewrite Hw. split; [lia|]. split; [lia|]. intros x Hx. apply K3. unfold within in *. lia. }
  rewrite Hb in E1. assert (Uio.kernel_block m1 at_ len) as Kz by (split; [done|]; split; [done|]; intros x Hx; by apply H1, K3).
  destruct (kload_run ro (mk_kst m1 false) at_ len ltac:(lia) Kz) as (bs & _ & Hbl & Hbs). cbn [kmem] in Hbs.
  destruct (copyout_puts ro (mk_kst m1 false) at_ dst bs) as (m2 & E2 & H2); cbn [kmem badfaultfunc]; [done|lia|unfold u32_mod; lia|by rewrite Hbl|by intros j Hj; apply Hbs; lia| |].
  { rewrite Hbl. by apply (user_block_dom _ _ _ _ (proj2 H1)). }
  rewrite Hbl in E2. exists (mk_kst m1 false), m2. split; [done|]. split; [done|]. cbn [kmem] in H2. split; [intros x; by rewrite (proj2 H2), (proj2 H1)|]. split.
  - intros x Hx Hx'. rewrite (puts_frame _ _ _ _ _ H2) by (by rewrite Hbl). apply (puts_frame _ _ _ _ _ H1). by rewrite Hw.
  - intros j Hj. rewrite (puts_holds _ _ _ _ H2) by (rewrite Hw in Hj; lia). rewrite <- Hbs by (rewrite Hw in Hj; lia). by apply (puts_holds _ _ _ _ H1).
Qed.

Lemma kernel_block_dom m m' a len : (forall x, is_Some (m' !! x) <-> is_Some (m !! x)) -> Uio.kernel_block m a len -> Uio.kernel_block m' a len.
Proof. intros Hd (K1 & K2 & K3). split; [done|]. split; [done|]. intros x Hx. by apply Hd, K3. Qed.

Lemma kernel_block_sub m a len len' : Uio.kernel_block m a len -> len' <= len -> Uio.kernel_block m a len'.
Proof. intros (K1 & K2 & K3) Hl. split; [done|]. split; [lia|]. intros x Hx. apply K3. unfold within in *. lia. Qed.

Lemma put_args_run m top : badfaultfunc m = false -> length args = length strs -> strings_ok (kmem m) (length strs) -> frame_ok (kmem m) ->
  top <= USERTOP -> 8 <= top - args_room -> user_block ro (kmem m) (top - args_room) args_room ->
  exists argv sp m', put_args ro ptrs_at zeros_at argp_at args top m = Ok (argv, sp, mk_kst m' false) /\
    argv mod 4 = 0 /\ sp mod 8 = 0 /\ 0 <= sp <= argv - 4 /\ top - args_room + 4 <= argv /\
    holds m' (argv + 4 * zlen strs) (word_bytes 0) /\
    forall i s, strs !! i = Some s -> exists p, holds m' (argv + 4 * Z.of_nat i) (word_bytes p) /\ holds m' p (s ++ [0]) /\ argv + 4 * zlen strs + 4 <= p < top.
Proof.
  intros Hb Hla Hok (Kp & Kz & Ka & C1 & C2) Ht H8 Hu. unfold put_args. rewrite Hla. pose proof (str_sizes_nonneg strs) as H0. unfold args_room in *.
  assert (Hw : forall z, zlen (word_bytes z) = 4) by done.
  destruct (put_strings_run (length strs) m top) as (m1 & -> & D1 & F1 & R1); [done|done|done|done|rewrite firstn_all; apply (user_block_sub _ _ _ _ _ Hu); lia|].
  rewrite firstn_all in *. rewrite Ok_bind. set (sp1 := top - str_sizes strs) in *. assert (E1 : sp1 = top - str_sizes strs) by done. clearbody sp1. pose proof (Z.mod_pos_bound sp1 4 ltac:(lia)) as Hm4. set (nl := 4 + sp1 mod 4). assert (En : nl = 4 + sp1 mod 4) by done. clearbody nl.
  cbv zeta. rewrite (u32_id (sp1 - nl)) by (unfold USERTOP, u32_mod in *; lia). set (sp2 := sp1 - nl) in *. assert (E2 : sp2 = sp1 - nl) by done. clearbody sp2.
  destruct (put_local (mk_kst m1 false) zeros_at nl 0 sp2) as (mz & m3 & -> & H & D3' & F3 & Z3); [done|lia|by apply (kernel_block_dom _ _ _ _ D1), (kernel_block_sub _ _ _ _ Kz); lia| |].
  { apply (user_block_dom _ _ _ _ D1), (user_block_sub _ _ _ _ _ Hu); lia. }
  rewrite Ok_bind, H, Ok_bind. clear H. cbn [kmem] in *. assert (forall x, is_Some (m3 !! x) <-> is_Some (kmem m !! x)) as D3 by (intros x; by rewrite D3', D1).
  destruct (put_ptrs_run (fun i => top - str_sizes (drop i strs)) (length strs) (mk_kst m3 false) sp2) as (m4 & -> & D4' & F4 & R4); cbn [kmem]; [done|by apply (kernel_block_dom _ _ _ _ D3)| | |].
  { intros i Hi. destruct (lookup_lt_is_Some_2 strs i Hi) as [s Hs]. destruct (R1 i s Hi Hs) as [R _]. apply (holds_frame m1); [exact R|]. rewrite Hw. intros x Hx.
    destruct Kp as (A & _). apply F3; [|unfold USERTOP, within in *; lia]. intros Hz. apply (C1 x); unfold within in *; lia. }
  { apply (user_block_dom _ _ _ _ D3), (user_block_sub _ _ _ _ _ Hu); lia. }
  rewrite Ok_bind. cbn [kmem] in D4', F4. set (sp3 := sp2 - 4 * zlen strs) in *. assert (E3 : sp3 = sp2 - 4 * zlen strs) by done. clearbody sp3.
  assert (forall x, is_Some (m4 !! x) <-> is_Some (kmem m !! x)) as D4 by (intros x; by rewrite D4', D3).
  destruct (put_local (mk_kst m4 false) argp_at 4 sp3 (sp3 - 4)) as (ma & m6 & -> & H & _ & F6' & _); [done|lia|by apply (kernel_block_dom _ _ _ _ D4)| |].
  { apply (user_block_dom _ _ _ _ D4), (user_block_sub _ _ _ _ _ Hu); lia. }
  rewrite Ok_bind, (u32_id (sp3 - 4)), H, Ok_bind by (unfold USERTOP, u32_mod in *; lia). clear H. cbn [kmem] in F6'.
  assert (forall x, sp3 <= x < USERTOP -> m6 !! x = m4 !! x) as F6 by (intros x Hx; destruct Ka as (A & _); apply F6'; unfold within; lia).
  assert (forall x, sp1 <= x < USERTOP -> m6 !! x = m1 !! x) as F1' by (intros x Hx; destruct Kz as (A & _); rewrite F6, F4 by (unfold within; lia); apply F3; unfold within; lia).
  pose proof (Z.mod_pos_bound (sp3 - 4) 8 ltac:(lia)). rewrite u32_id by (unfold USERTOP, u32_mod in *; lia).
  exists sp3, (sp3 - 4 - (sp3 - 4) mod 8), m6. split; [done|]. split; [Z.to_euclidean_division_equations; lia|]. split; [Z.to_euclidean_division_equations; lia|].
  split; [lia|]. split; [lia|]. split.
  - replace (sp3 + 4 * zlen strs) with sp2 by lia. apply (holds_frame m3); [done|]. rewrite Hw. intros x Hx. rewrite F6 by (unfold within in *; lia). apply F4. unfold within in *. lia.
  - intros i s Hs. pose proof (lookup_lt_Some _ _ _ Hs) as Hi. destruct (R1 i s Hi Hs) as [_ R]. set (p := top - str_sizes (drop i strs)) in *. assert (Ep : p = top - str_sizes (drop i strs)) by done.
    pose proof (str_sizes_drop i strs) as Hd. assert (zlen s + 1 <= str_sizes (drop i strs)) as Hd'.
    { rewrite (drop_S strs s i Hs). change (str_sizes (s :: drop (S i) strs)) with (zlen s + 1 + str_sizes (drop (S i) strs)). pose proof (str_sizes_nonneg (drop (S i) strs)). lia. }
    assert (zlen (s ++ [0]) = zlen s + 1) as Hz by (rewrite length_app; cbn; lia). exists p. split; [|split; [|lia]].
    + apply (holds_frame m4); [by apply R4|]. rewrite Hw. intros x Hx. apply F6. unfold within in *. lia.
    + apply (holds_frame m1); [done|]. rewrite Hz. intros x Hx. unfold within in Hx. apply F1'. lia.
Qed.

End Layout.

(** ** runprogram *)

(** The file system, memory, and the address space of the current thread. *)
Record rstate (W : Type) : Type := mk_rst {
  rs_vfs : vst W;
  rs_mem : kst;
  t_vmspace : option addrspace;
}.
Arguments mk_rst {W} _ _ _.
Arguments rs_vfs {W} _.
Arguments rs_mem {W} _.
Arguments t_vmspace {W} _.

Section Run.
Context {W : Type} `{VN : Vnodes W}.

(** What name buffers and the headers on the stack hold at first, the addresses
    of the local variables, and which allocations succeed. *)
Variable ro : Z -> bool.
Variable junk eh0 ph0 : list Z.
Variable ptrs_at zeros_at argp_at : Z.
Variable km_as : bool.
Variable km : Z -> nat -> bool.

(** An error code, or the frame with which the program starts.  as_activate only
    empties the TLB (AsOps.v). *)
Definition runprogram (progname args : list Z) (s : rstate W) : outcome ((Z + trapframe) * rstate W) :=
  '(result, _, v, f) ← vfs_open junk progname O_RDONLY (rs_vfs s);
  if negb (result =? 0) then Ok (inl result, mk_rst f (rs_mem s) (t_vmspace s))
  else
    _ ← c_assert (match t_vmspace s with None => true | Some _ => false end);
    match as_create km_as with
    | None => f ← vfs_close v f; Ok (inl ENOMEM, mk_rst f (rs_mem s) None)
    | Some a =>
        '(result, entry, a, w) ← load_elf eh0 ph0 km v a (world f);
        let f := set_world w f in
        if negb (result =? 0) then f ← vfs_close v f; Ok (inl result, mk_rst f (rs_mem s) (Some a))
        else
          match entry with
          | None => Undef
          | Some entrypoint =>
              let a := mk_as (stackt a) (stackb a) (as_segments a) (Some v) in
              let stackptr := as_define_stack a in
              '(newArgsPtr, stackptr, m) ← put_args ro ptrs_at zeros_at argp_at args stackptr (rs_mem s);
              Ok (inr (user_frame (zlen args) newArgsPtr stackptr entrypoint), mk_rst f m (Some a))
          end
    end.

End Run.

Section Start.
Context {W : Type} `{VN : Vnodes W} `{VNL : !VnodeLaws W}.
Context (ro : Z -> bool) (junk eh0 ph0 : list Z) (ptrs_at zeros_at argp_at : Z).
Context (Hjunk : zlen junk = 256) (Heh : zlen eh0 = 52) (Hph : zlen ph0 = 32).

(** Opening an existing file for reading changes no file. *)
Lemma open_rdonly g s path p f n id : vok g s -> roomy 3 (total g s) -> points_to path p -> zlen p + 1 < u32_mod -> resolves g s p f n -> n <> [] -> names_of f g !! n = Some id ->
  exists r path' v s', vfs_open junk path O_RDONLY s = Ok (r, path', v, s') /\
    ((r = 0 /\ let i := mk_vi f id S_IFREG in vok (add_open v (hand_out v i g)) s') \/ (r <> 0 /\ mishap reliable r /\ vok g s')).
Proof.
  intros Hk Hr Hp Hl [Ho Hn] Hne Hid. destruct (open_run g s junk path p O_RDONLY Hk Hr Hp Hl Hjunk) as (r & path' & v & s' & g2 & E & _ & H).
  exists r, path', v, s'. split; [done|].
  assert (forall f' n' id' g1, resolves g s p f' n' -> create_effect s O_RDONLY f' n' g id' g1 -> f' = f /\ id' = id /\ g1 = g) as Hce.
  { intros f' n' id' g1 [Ho' Hn'] Hc. assert (f' = f) as -> by congruence. assert (n' = n) as -> by congruence. unfold create_effect in Hc. rewrite Hid in Hc. destruct Hc as (-> & -> & _). done. }
  destruct H as [(-> & Hv & i & Hf & Hk' & Hop)|(Hr0 & Hk' & Hh & He)].
  - left. split; [done|]. destruct Hop as [(_ & Hnil & _)|(Ht & n' & g1 & Hres & _ & Hc & Htr)]; [congruence|]. destruct (Hce _ _ _ _ Hres Hc) as (Ef & Ei & ->).
    change (g2 = g) in Htr. subst g2. destruct i as [fi ii ti]. cbn in *. by subst.
  - right. split; [done|]. split.
    + assert (usable O_RDONLY) as Hus by done. destruct (He f n (conj Ho Hn) Hne Hus) as [?|[(_ & Hx)|[(_ & _ & Hx)|[(_ & Hx & _)|(_ & Hx)]]]]; [done|done|congruence|done|done].
    + destruct Hh as [->|(f' & n' & id' & g1 & Hres & _ & Hc & Hg)]; [done|]. destruct (Hce _ _ _ _ Hres Hc) as (_ & _ & ->).
      destruct Hg as [->|Htr]; [done|]. change (g2 = g) in Htr. by subst g2.
Qed.

(** [argv] in the memory [m] is an array of the strings, with NULL at its end. *)
Definition argv_is (m : mem) (argv : Z) (strs : list (list Z)) : Prop :=
  holds m (argv + 4 * zlen strs) (word_bytes 0) /\
  forall i s, strs !! i = Some s -> exists p, holds m (argv + 4 * Z.of_nat i) (word_bytes p) /\ holds m p (s ++ [0]) /\ argv + 4 * zlen strs + 4 <= p < USERSTACK.

(** The address space of a program: the bounds of the stack, and the segments. *)
Definition program_space (a : addrspace) (ps : list Elf_Phdr) : Prop :=
  stackt a = USERSTACK /\ stackb a = USERSTACK - STACKPAGES * PAGE_SIZE /\ forall va, sd_get_by_addr a va = Ok (head (filter (in_seg va) (segment <$> ps))).

(** What is in memory when a program with the arguments [strs] is started: the
    strings and the variables, and room on the stack. *)
Definition start_mem (args : list Z) (strs : list (list Z)) (m : kst) : Prop :=
  badfaultfunc m = false /\ length args = length strs /\ strings_ok ptrs_at args strs (kmem m) (length strs) /\ frame_ok ptrs_at zeros_at argp_at strs (kmem m) /\
  8 <= USERSTACK - args_room strs /\ user_block ro (kmem m) (USERSTACK - args_room strs) (args_room strs).

(** C9. Programs start as they should.  Let the path lead to a file that is a
    program with at most five loadable segments, none above user space, and with
    its headers below 2 GB; let the strings be in memory, with room for them on
    the stack, and let there be memory for the address space and its segments.
    Then [runprogram] enters user mode at the entry point of the file, with argc in
    a0, in a1 the address of an array of pointers to copies of the strings that
    ends with NULL, and a stack pointer below it that is a multiple of 8; the
    address space has the segments of the program, and keeps the file open.  The
    only other result is an error, with every reference given back, and it needs
    that something below is not reliable, or a file as large as files can be. *)
Theorem runprogram_starts g s path p f n id bs entry ps args strs :
  vok g (rs_vfs s) -> roomy 3 (total g (rs_vfs s)) -> points_to path p -> zlen p + 1 < u32_mod -> t_vmspace s = None ->
  resolves g (rs_vfs s) p f n -> n <> [] -> names_of f g !! n = Some id -> bytes_of f id g = Some bs -> Forall byte bs ->
  parse_elf bs = Some (entry, ps) -> existsb (fun p => USERSTACK <? p_vaddr p) ps = false ->
  (let eh := header bs in e_phoff eh + e_phnum eh * e_phentsize eh + 32 < 2147483648) -> (length ps <= 5)%nat ->
  start_mem args strs (rs_mem s) ->
  exists res s', runprogram ro junk eh0 ph0 ptrs_at zeros_at argp_at true (fun _ _ => true) path args s = Ok (res, s') /\
    match res with
    | inl r => read_error (reliable /\ zlen bs < max_bytes) r /\ exists g', vok g' (rs_vfs s') /\ g_refs g' = g_refs g /\ g_opens g' = g_opens g
    | inr tf => exists v a, t_vmspace s' = Some a /\ program_space a ps /\ as_elfbin a = Some v /\ vok (add_open v (hand_out v (mk_vi f id S_IFREG) g)) (rs_vfs s') /\
        tf_epc tf = entry /\ tf_a0 tf = u32 (zlen strs) /\ argv_is (kmem (rs_mem s')) (tf_a1 tf) strs /\ 0 <= tf_sp tf <= tf_a1 tf - 4 /\ tf_sp tf mod 8 = 0 /\
        Z.land (tf_status tf) CST_KUp <> 0
    end.
Proof.
  intros Hk Hr Hp Hl Hvm Hres Hne Hid Hbs Hby Hpe Hus Hph' Hps (Mb & Ml & Ms & Mf & M8 & Mu). unfold runprogram.
  destruct (open_rdonly g (rs_vfs s) path p f n id Hk Hr Hp Hl Hres Hne Hid) as (r & path' & v & s1 & -> & H). rewrite Ok_bind.
  destruct H as [[-> Hk1]|(Hr0 & Hfa & Hk1)].
  2: { rewrite (proj2 (Z.eqb_neq r 0) Hr0). cbn [negb]. eexists _, _. split; [done|]. cbn. split; [destruct Hfa as [[->| ->] Hfa]; (split; [tauto|tauto])|]. by exists g. }
  cbn [Z.eqb negb]. rewrite Hvm. cbn [c_assert]. rewrite Ok_bind. cbn [as_create]. set (i := mk_vi f id S_IFREG) in *. cbv zeta in Hk1. set (G := add_open v (hand_out v i g)) in *.
  assert (known (total G s1) v i) as Hkn by (split; [cbn; multiset_solver|cbn; by rewrite lookup_insert_eq]).
  assert (ps = fst (loads bs)) as Eps by (unfold parse_elf in Hpe; destruct (_ && _); [by injection Hpe|done]).
  destruct (load_elf_run (reliable /\ zlen bs < max_bytes) eh0 ph0 v bs (owns (total G s1)) (mk_as 0 0 None None) (world s1) (regular_file_reads (total G s1) v i bs Hkn eq_refl Hbs) (vk_owns _ _ Hk1) Hby Heh Hph eq_refl Hph' ltac:(by rewrite <- Eps))
    as (r & e & a & w & -> & Ho & H). rewrite Ok_bind. assert (vok G (set_world w s1)) as Hk2 by (by apply (vok_step G)).
  rewrite Hpe, Hus in H. destruct (Z.eqb_spec r 0) as [->|Hr0]; cbn [negb].
  - destruct H as [H|(_ & -> & Ht & Hb & _ & Hsd)]; [by destruct (zero_no_error _ H)|].
    destruct (put_args_run ro ptrs_at zeros_at argp_at args strs (rs_mem s) USERSTACK Mb Ml Ms Mf ltac:(done) M8 Mu) as (argv & sp & m' & E & _ & Hsp & Hr1 & _ & Hz & Ha).
    change (as_define_stack _) with USERSTACK. rewrite E, Ok_bind. eexists _, _. split; [done|]. cbn. eexists v, _. split; [done|]. split; [by split|]. split; [done|]. split; [exact Hk2|].
    split; [done|]. split; [by rewrite Ml|]. split; [by split|]. split; [done|]. split; [done|]. done.
  - destruct H as [Hfa|[? _]]; [|done]. destruct (close_run G (set_world w s1) v Hk2) as (w' & -> & Hk3); [cbn; multiset_solver|cbn; multiset_solver|]. rewrite Ok_bind.
    eexists _, _. split; [done|]. cbn. split; [done|]. eexists. split; [exact Hk3|]. cbn. split; multiset_solver.
Qed.

End Start.

(** ** A program on a disk

    A process writes [demo_elf] to the file b of the volume of FileStack.v, and the
    file is then run with two arguments. *)

#[local] Existing Instance devnull.
#[local] Existing Instance stack_ops.
#[local] Existing Instance stack_laws.

Definition image_mem : kst := mk_kst (bytes_at 100 (stack_path ++ [0]) ∪ bytes_at 200 demo_elf ∪ bytes_at USERTOP (replicate 256 0)) false.
Definition image0 := mk_fst stack_vst image_mem (replicate 10 None).
Definition image1 := Eval vm_compute in after (sys_open stack_ro stack_name 100 (O_WRONLY + O_CREAT + O_TRUNC) stack_al 0 image0).
Definition image2 := Eval vm_compute in after (sys_write stack_ro 3 200 116 stack_al 0 image1).

Lemma image_open : sys_open stack_ro stack_name 100 (O_WRONLY + O_CREAT + O_TRUNC) stack_al 0 image0 = Ok (0, 3, image1).
Proof. vm_compute. reflexivity. Qed.

Lemma image_write : sys_write stack_ro 3 200 116 stack_al 0 image1 = Ok (0, 116, image2).
Proof. vm_compute. reflexivity. Qed.

Lemma image_alloc n : 0 <= n <= 256 -> alloc_ok stack_al n image_mem.
Proof. apply stack_alloc_with. apply (bool_decide_unpack _). vm_compute. exact I. Qed.

Lemma image_bytes buf : zlen buf = 116 -> ubytes (kmem image_mem) 200 buf -> buf = demo_elf.
Proof.
  intros Hl Hu. apply (list_eq_same_length _ _ 116); [reflexivity|lia|]. intros j x y Hj Hx Hy.
  assert (Forall (fun j => kmem image_mem !! (200 + Z.of_nat j) = demo_elf !! j) (seq 0 116)) as H by (apply (bool_decide_unpack _); vm_compute; exact I).
  rewrite list.Forall_forall in H. specialize (H j ltac:(apply elem_of_seq; lia)). rewrite (Hu (Z.of_nat j)), Nat2Z.id in H by lia. congruence.
Qed.

Lemma image_file : exists g id, vok g (vfs image2) /\ roomy 3 (total g (vfs image2)) /\ resolves g (vfs image2) stack_path fs_addr [98] /\ file_at g fs_addr [98] id demo_elf.
Proof.
  destruct (written stack_ro stack_name eq_refl stack_ghost image0 100 stack_path fs_addr [98] (O_WRONLY + O_CREAT + O_TRUNC) stack_al 3 0 image1 200 116 stack_al 116 image2)
    as (g & id & buf & d & Hk & _ & [w Hw] & [Hvn Hvol] & Hat & _ & Hl & Hu & _ & _ & HR & _).
  - apply stack_fok_with; [|reflexivity]. apply (bool_decide_unpack _). vm_compute. exact I.
  - exact (roomy_le 3 13 _ stack_roomy ltac:(lia)).
  - done.
  - split; [repeat (constructor; [lia|]); constructor|]. intros j Hj. cbn in Hj. assert (j = 0 \/ j = 1 \/ j = 2 \/ j = 3) as [->|[->|[->| ->]]] by lia; reflexivity.
  - split; reflexivity.
  - done.
  - reflexivity.
  - done.
  - lia.
  - apply image_alloc. unfold NAME_MAX. lia.
  - apply image_alloc. lia.
  - exact image_open.
  - exact image_write.
  - exists g, id. split; [apply Hk|]. rewrite (image_bytes buf Hl Hu) in Hat. rewrite Hw in *. split; [|split; [|exact Hat]].
    + intros v. assert (count v (g_refs (total g (set_world w (vfs image0)))) <= count v (g_refs (total stack_ghost stack_vst)) + 1) as Hc.
      * unfold count. cbn [total set_refs g_refs]. rewrite HR. change (table_refs (set_world w (vfs image0))) with (table_refs stack_vst). rewrite !multiplicity_disj_union, multiplicity_singleton. case_decide; lia.
      * pose proof (stack_roomy v). lia.
    + apply (resolves_step stack_ghost); [exact stack_vok|exact Hvn|exact Hvol|]. split; reflexivity.
Qed.

(** The arguments are b and hi. *)
Definition start_args : list Z := [USERTOP + 100; USERTOP + 102].
Definition start_strs : list (list Z) := [[98]; [104; 105]].
Definition start_kst : kst := mk_kst (bytes_at (USERTOP + 100) [98; 0; 104; 105; 0] ∪ bytes_at USERTOP (replicate 24 0) ∪ bytes_at (USERTOP - 24) (replicate 24 0)) false.

Definition mapped (m : mem) (a : Z) (n : nat) : bool := forallb (fun j => bool_decide (is_Some (m !! (a + Z.of_nat j)))) (seq 0 n).

Lemma mapped_all m a n : mapped m a n = true -> forall x, within x a (Z.of_nat n) -> is_Some (m !! x).
Proof.
  intros H x Hx. unfold within in Hx. apply (proj1 (forallb_forall _ _)) with (x := Z.to_nat (x - a)) in H; [|apply in_seq; lia].
  apply bool_decide_eq_true in H. replace x with (a + Z.of_nat (Z.to_nat (x - a))) by lia. done.
Qed.

Lemma check_holds m a bs : forallb (fun j => bool_decide (m !! (a + Z.of_nat j) = bs !! j)) (seq 0 (length bs)) = true -> holds m a bs.
Proof.
  intros H j Hj. apply (proj1 (forallb_forall _ _)) with (x := Z.to_nat j) in H; [|apply in_seq; lia]. apply bool_decide_eq_true in H. by rewrite Z2Nat.id in H by lia.
Qed.

Lemma start_mem_holds : start_mem stack_ro USERTOP (USERTOP + 8) (USERTOP + 16) start_args start_strs start_kst.
Proof.
  assert (forall a n, mapped (kmem start_kst) a n = true -> USERTOP <= a -> a + Z.of_nat n <= u32_mod -> Uio.kernel_block (kmem start_kst) a (Z.of_nat n)) as Hkb
    by (intros a n Hm Ha Hn; split; [done|]; split; [done|]; by apply mapped_all).
  split; [done|]. split; [done|]. split; [|split; [|split; [vm_compute; done|]]].
  - intros [|[|i]] s Hi Hs; [injection Hs as <-..|cbn in Hi; lia].
    + split; [done|]. eexists. split; [reflexivity|]. split; [split; [by apply (Hkb _ 2%nat)|split; [by apply check_holds|]]|]; [repeat constructor; done|]. intros x. unfold within. cbn. lia.
    + split; [done|]. eexists. split; [reflexivity|]. split; [split; [by apply (Hkb _ 3%nat)|split; [by apply check_holds|]]|]; [repeat constructor; done|]. intros x. unfold within. cbn. lia.
  - split; [by apply (Hkb _ 8%nat)|]. split; [by apply (Hkb _ 7%nat)|]. split; [by apply (Hkb _ 4%nat)|]. split; intros x; unfold within; cbn; lia.
  - split; [done|]. split; [done|]. intros x Hx. split; [|apply andb_false_r]. apply (mapped_all _ (USERTOP - 24) 24); [by vm_compute|]. exact Hx.
Qed.

Lemma runprogram_starts_witness : exists tf s',
  runprogram stack_ro stack_name (replicate 52 0) (replicate 32 0) USERTOP (USERTOP + 8) (USERTOP + 16) true (fun _ _ => true) (stack_path ++ [0]) start_args (mk_rst (vfs image2) start_kst None) = Ok (inr tf, s') /\
  tf_epc tf = 4194304 /\ tf_a0 tf = 2 /\ argv_is (kmem (rs_mem s')) (tf_a1 tf) start_strs.
Proof.
  destruct image_file as (g & id & Hk & Hr & Hres & Hid & Hbs).
  destruct (runprogram_starts stack_ro stack_name (replicate 52 0) (replicate 32 0) USERTOP (USERTOP + 8) (USERTOP + 16) eq_refl eq_refl eq_refl
    g (mk_rst (vfs image2) start_kst None) (stack_path ++ [0]) stack_path fs_addr [98] id demo_elf 4194304 (snd (default (0, []) (parse_elf demo_elf))) start_args start_strs) as (res & s' & E & H).
  - exact Hk.
  - exact Hr.
  - apply path_ok. reflexivity.
  - reflexivity.
  - reflexivity.
  - exact Hres.
  - done.
  - exact Hid.
  - exact Hbs.
  - apply list.Forall_forall. intros b Hb%list_elem_of_In. assert (forallb (fun b => (0 <=? b) && (b <? 256)) demo_elf = true) as Hc by reflexivity. rewrite forallb_forall in Hc.
    specialize (Hc b Hb). unfold byte. lia.
  - vm_compute. reflexivity.
  - vm_compute. reflexivity.
  - vm_compute. reflexivity.
  - vm_compute. lia.
  - exact start_mem_holds.
  - destruct res as [r|tf]; [exfalso; vm_compute in E; discriminate E|]. destruct H as (v & a & _ & _ & _ & _ & He & Ha & Hv & _). exists tf, s'. split; [exact E|]. split; [exact He|]. split; [exact Ha|exact Hv].
Defined.

End RunProgram.
