(* ===== verification/Mksfs.v ===== *)
(** * Making a file system: sbin/mksfs

    mksfs.c writes the superblock, the root directory and the free map of an empty
    volume; disk.c writes blocks to the file of the disk, by system calls that are
    an interface here.  The theorem at the end joins this with SfsFs.v: the
    kernel mounts what mksfs makes. *)

From S2P Require Import Prelude Bitmap Strings SfsDisk SfsFile SfsIo SfsTruncate SfsDir SfsVnode SfsInv SfsOps SfsNames SfsFs.
Import Bitmap Strings SfsDisk SfsFile SfsIo SfsDir SfsVnode SfsInv SfsOps SfsNames SfsFs.

Module Mksfs.

Definition MAXBITBLOCKS : Z := 32.
Definition CHAR_BIT : Z := 8.
Definition BLOCKSIZE : Z := 512.
Definition SFS_VOLNAME_SIZE : Z := 32.

(** System/161 Disk Image *)
Definition HOSTSTRING : list Z := [83; 121; 115; 116; 101; 109; 47; 49; 54; 49; 32; 68; 105; 115; 107; 32; 73; 109; 97; 103; 101].

(** The system calls on the file of the disk, which has contents and a position.
    [f_read n] gives the result and the bytes; [f_write bs] the result and, for
    -1, whether errno is EINTR or EAGAIN; [interrupts] bounds how often that
    can still happen.  The others say whether they succeed. *)
Class DiskFile (F : Type) := {
  fbytes : F -> list Z;
  fpos : F -> Z;
  interrupts : F -> nat;
  f_open : list Z -> F -> bool * F;
  f_fstat : F -> option Z;
  f_read : Z -> F -> Z * list Z * F;
  f_lseek : Z -> F -> bool * F;
  f_write : list Z -> F -> Z * bool * F;
  f_close : F -> bool * F;
}.

(** What they do. *)
Class DiskFileLaws (F : Type) `{DiskFile F} := {
  df_open p f ok f' : f_open p f = (ok, f') -> fbytes f' = fbytes f /\ fpos f' = 0;
  df_fstat f n : f_fstat f = Some n -> n = zlen (fbytes f);
  df_read n f r bs f' : 0 <= n -> f_read n f = (r, bs, f') -> fbytes f' = fbytes f /\
    (r = -1 \/ 0 <= r <= n /\ zlen bs = r /\ bs = take (Z.to_nat r) (drop (Z.to_nat (fpos f)) (fbytes f)));
  df_lseek o f ok f' : 0 <= o <= zlen (fbytes f) -> f_lseek o f = (ok, f') -> fbytes f' = fbytes f /\ (ok = true -> fpos f' = o);
  df_write bs f r again f' : 0 <= fpos f -> fpos f + zlen bs <= zlen (fbytes f) -> f_write bs f = (r, again, f') ->
    (r = -1 /\ fbytes f' = fbytes f /\ (again = true -> fpos f' = fpos f /\ (interrupts f' < interrupts f)%nat)) \/
    (0 <= r <= zlen bs /\ fbytes f' = write_at (fpos f) (take (Z.to_nat r) bs) (fbytes f) /\ fpos f' = fpos f + r /\ (interrupts f' <= interrupts f)%nat);
  df_close f ok f' : f_close f = (ok, f') -> fbytes f' = fbytes f;
}.

(** ** disk.c *)

Section Disk.
Context {F : Type} `{DF : DiskFile F}.

(** Whether this is the program for the host, where the file starts with a header
    of one block. *)
Variable HOST : bool.

(** The globals: whether fd is open, and nblocks; and the file. *)
Record disk : Type := mk_disk { fd : bool; nblocks : Z; file : F }.

(** Functions that can end the program with status 1 give [None] then. *)
Definition opendisk (path : list Z) (d : disk) : outcome (option unit * disk) :=
  _ ← c_assert (negb (fd d));
  let '(ok, f) := f_open path (file d) in
  if negb ok then Ok (None, mk_disk false (nblocks d) f)
  else
    match f_fstat f with
    | None => Ok (None, mk_disk true (nblocks d) f)
    | Some st_size =>
        let nblocks := u32 (st_size / BLOCKSIZE) in
        if HOST then
          let nblocks := u32 (nblocks - 1) in
          let '(len, buf, f) := f_read 63 f in
          if len <? 0 then Undef (* buf[-1] = 0 *)
          else
            (* the first strlen(HOSTSTRING) characters, compared as strings *)
            let buf := <[length HOSTSTRING := 0]> (<[Z.to_nat len := 0]> (buf ++ replicate (64 - Z.to_nat len) 0)) in
            r ← strcmp buf (HOSTSTRING ++ [0]);
            if negb (r =? 0) then Ok (None, mk_disk true nblocks f) else Ok (Some tt, mk_disk true nblocks f)
        else Ok (Some tt, mk_disk true nblocks f)
    end.

Definition diskblocksize (d : disk) : outcome Z := _ ← c_assert (fd d); Ok BLOCKSIZE.
Definition diskblocks (d : disk) : outcome Z := _ ← c_assert (fd d); Ok (nblocks d).

(** [while (tot < BLOCKSIZE)] *)
Fixpoint write_loop (fuel : nat) (cdata : list Z) (tot : Z) (f : F) : outcome (option unit * F) :=
  if tot <? BLOCKSIZE then
    match fuel with
    | O => Hang
    | S fuel' =>
        let '(len, again, f) := f_write (take (Z.to_nat (BLOCKSIZE - tot)) (drop (Z.to_nat tot) cdata)) f in
        if len <? 0 then if again then write_loop fuel' cdata tot f else Ok (None, f)
        else if len =? 0 then Ok (None, f)
        else write_loop fuel' cdata (tot + len) f
    end
  else Ok (Some tt, f).

Definition diskwrite (data : list Z) (block : Z) (d : disk) : outcome (option unit * disk) :=
  _ ← c_assert (fd d);
  let block := if HOST then u32 (block + 1) else block in
  let '(ok, f) := f_lseek (u32 (block * BLOCKSIZE)) (file d) in
  if negb ok then Ok (None, mk_disk true (nblocks d) f)
  else
    '(r, f) ← write_loop (512 + interrupts f) data 0 f;
    Ok (r, mk_disk true (nblocks d) f).

Definition closedisk (d : disk) : outcome (option unit * disk) :=
  _ ← c_assert (fd d);
  let '(ok, f) := f_close (file d) in
  if ok then Ok (Some tt, mk_disk false (nblocks d) f) else Ok (None, mk_disk true (nblocks d) f).

(** ** mksfs.c

    The words of the structures are big-endian on the disk; SWAPL and SWAPS see to
    that on the host. *)

(** The next function runs unless the program has ended. *)
Definition next (r : option unit * disk) (g : disk -> outcome (option unit * disk)) : outcome (option unit * disk) :=
  match r with (None, d) => Ok (None, d) | (Some _, d) => g d end.

Definition writesuper (volname : list Z) (nblocks : Z) (d : disk) : outcome (option unit * disk) :=
  n ← strlen volname;
  if n >=? SFS_VOLNAME_SIZE then Ok (None, d)
  else
    sp_volname ← strcpy (replicate 32 0) volname;
    diskwrite (super_block (mk_super SFS_MAGIC nblocks sp_volname (replicate 118 0))) SFS_SB_LOCATION d.

Definition root_inode : sfs_inode := mk_inode 0 SFS_TYPE_DIR 1 (replicate 15 0) 0 (replicate 110 0).

Definition writerootdir (d : disk) : outcome (option unit * disk) := diskwrite (inode_block root_inode) SFS_ROOT_LOCATION d.

Definition doallocbit (bit : Z) (bitbuf : list Z) : outcome (list Z) :=
  let byte := bit / CHAR_BIT in
  let mask := Z.shiftl 1 (bit mod CHAR_BIT) mod 256 in
  w ← rd bitbuf byte;
  _ ← c_assert (Z.land w mask =? 0);
  wr bitbuf byte (Z.lor w mask).

(** The loops over [doallocbit], from [i] on. *)
Fixpoint allocbits (n : nat) (i : Z) (bitbuf : list Z) : outcome (list Z) :=
  match n with
  | O => Ok bitbuf
  | S n' => bitbuf ← doallocbit i bitbuf; allocbits n' (i + 1) bitbuf
  end.

(** The loop that writes the blocks of the map. *)
Fixpoint writebits (n : nat) (i : Z) (bitbuf : list Z) (d : disk) : outcome (option unit * disk) :=
  match n with
  | O => Ok (Some tt, d)
  | S n' =>
      let ptr := take 512 (drop (Z.to_nat (i * SFS_BLOCKSIZE)) bitbuf) in
      r ← diskwrite ptr (SFS_MAP_LOCATION + i) d;
      next r (writebits n' (i + 1) bitbuf)
  end.

Definition writebitmap (fsblocks : Z) (d : disk) : outcome (option unit * disk) :=
  let nbits := SFS_BITMAPSIZE fsblocks in
  let nblocks := SFS_BITBLOCKS fsblocks in
  if nblocks >? MAXBITBLOCKS then Ok (None, d)
  else
    let bitbuf := replicate (Z.to_nat (MAXBITBLOCKS * SFS_BLOCKSIZE)) 0 in
    bitbuf ← doallocbit SFS_SB_LOCATION bitbuf;
    bitbuf ← doallocbit SFS_ROOT_LOCATION bitbuf;
    bitbuf ← allocbits (Z.to_nat nblocks) SFS_MAP_LOCATION bitbuf;
    bitbuf ← allocbits (Z.to_nat (nbits - fsblocks)) fsblocks bitbuf;
    writebits (Z.to_nat nblocks) 0 bitbuf d.

(** The name of the volume without a colon at its end; [None] if it is not
    legal. *)
Definition volume_name (volname : list Z) : outcome (option (list Z)) :=
  s ← strchr volname 58;
  volname ← match s with
            | None => Ok (Some volname)
            | Some i => n ← strlen (drop (Z.to_nat i) volname); if negb (n =? 1) then Ok None else Ok (Some (<[Z.to_nat i := 0]> volname))
            end;
  match volname with
  | None => Ok None
  | Some volname => s ← strchr volname 47; Ok (match s with None => Some volname | Some _ => None end)
  end.

(** The exit status. *)
Definition main (argv : list (list Z)) (f : F) : outcome (Z * F) :=
  match argv with
  | [_; path; volname] =>
      vn ← volume_name volname;
      match vn with
      | None => Ok (1, f)
      | Some volname =>
          r ← opendisk path (mk_disk false 0 f);
          r ← next r (fun d =>
            blocksize ← diskblocksize d;
            if negb (blocksize =? SFS_BLOCKSIZE) then Ok (None, d)
            else
              size ← diskblocks d;
              r ← writesuper volname size d;
              r ← next r writerootdir;
              r ← next r (writebitmap size);
              next r closedisk);
          Ok (match r.1 with Some _ => 0 | None => 1 end, file r.2)
      end
  | _ => Ok (1, f)
  end.

End Disk.

(** ** The blocks of the file *)

Lemma write_at_lookup off bs c i : 0 <= off -> off + zlen bs <= zlen c ->
  write_at off bs c !! i = if decide (off <= Z.of_nat i < off + zlen bs) then bs !! (i - Z.to_nat off)%nat else c !! i.
Proof.
  intros H0 H1. unfold write_at. case_decide as H.
  - rewrite lookup_app_r, length_take, lookup_app_l by (rewrite ?length_take; lia). f_equal. lia.
  - destruct (decide (Z.of_nat i < off)) as [Hi|Hi].
    + rewrite lookup_app_l, lookup_take by (rewrite ?length_take; lia). rewrite decide_True by lia. done.
    + rewrite lookup_app_r, length_take, lookup_app_r by (rewrite ?length_take; lia). rewrite lookup_drop. f_equal. lia.
Qed.

Lemma write_at_length off bs c : 0 <= off -> off + zlen bs <= zlen c -> length (write_at off bs c) = length c.
Proof. intros. unfold write_at. rewrite !length_app, length_take, length_drop. lia. Qed.

Lemma write_at_byte off bs c : Forall SfsDisk.byte bs -> Forall SfsDisk.byte c -> Forall SfsDisk.byte (write_at off bs c).
Proof. intros Hb Hc. unfold write_at. apply Forall_app_2; [by apply Forall_take|]. apply Forall_app_2; [done|by apply Forall_drop]. Qed.

(** A write in two parts. *)
Lemma write_at_parts off bs c r : 0 <= off -> 0 <= r <= zlen bs -> off + zlen bs <= zlen c ->
  write_at (off + r) (drop (Z.to_nat r) bs) (write_at off (take (Z.to_nat r) bs) c) = write_at off bs c.
Proof.
  intros H0 Hr H1. assert (zlen (take (Z.to_nat r) bs) = r) as Ht by (rewrite length_take; lia). assert (zlen (drop (Z.to_nat r) bs) = zlen bs - r) as Hd by (rewrite length_drop; lia).
  apply list_eq. intros i. rewrite !write_at_lookup by (rewrite ?write_at_length, ?Ht, ?Hd by (rewrite ?Ht; lia); lia). rewrite Ht, Hd, lookup_drop, lookup_take.
  destruct (decide (off + r <= Z.of_nat i < off + r + (zlen bs - r))).
  - rewrite decide_True by lia. f_equal. lia.
  - destruct (decide (off <= Z.of_nat i < off + r)); [rewrite !decide_True by lia; done|by rewrite decide_False by lia].
Qed.

Section Writes.
Context {F : Type} `{DF : DiskFile F} `{!DiskFileLaws F}.

(** The system calls succeed. *)
Record reliable : Prop := mk_reliable {
  rl_open p f : (f_open p f).1 = true;
  rl_fstat f : is_Some (f_fstat f);
  rl_read n f : 0 <= n -> fpos f = 0 -> zlen (f_read n f).1.2 = Z.min n (zlen (fbytes f));
  rl_lseek o f : (f_lseek o f).1 = true;
  rl_write bs f : 0 < zlen bs -> 0 < (f_write bs f).1.1 \/ (f_write bs f).1.1 < 0 /\ (f_write bs f).1.2 = true;
  rl_close f : (f_close f).1 = true;
}.

Lemma write_loop_run n : forall cdata tot f base, zlen cdata = 512 -> 0 <= tot <= 512 -> (Z.to_nat (512 - tot) + interrupts f <= n)%nat -> 0 <= base -> fpos f = base + tot -> base + 512 <= zlen (fbytes f) ->
  exists r f', write_loop n cdata tot f = Ok (r, f') /\ length (fbytes f') = length (fbytes f) /\
    (r = Some tt -> fbytes f' = write_at (base + tot) (drop (Z.to_nat tot) cdata) (fbytes f)) /\ (reliable -> r = Some tt).
Proof.
  induction n as [|n IH]; intros cdata tot f base Hl Ht Hn Hb Hp Hf; cbn [write_loop]; unfold BLOCKSIZE; destruct (Z.ltb_spec tot 512) as [Hlt|Hge]; [lia| | |].
  1,3: exists (Some tt), f; split; [done|]; split; [done|]; split; [intros _; rewrite drop_ge by lia; unfold write_at; cbn; by rewrite Nat.add_0_r, take_drop|done].
  rewrite take_ge by (rewrite length_drop; lia). set (bs := drop (Z.to_nat tot) cdata). assert (zlen bs = 512 - tot) as Hbs by (unfold bs; rewrite length_drop; lia).
  destruct (f_write bs f) as [[r again] f'] eqn:E. destruct (df_write bs f r again f') as [(-> & Hby & Ha)|(Hr & Hby & Hpos & Hi)]; [lia|lia|done| |].
  - cbn [Z.ltb Z.compare]. destruct again.
    + destruct (Ha eq_refl) as [Hp' Hi]. destruct (IH cdata tot f' base) as (r & f'' & -> & H1 & H2 & H3); [done|lia|lia|done|lia|by rewrite Hby|]. rewrite Hby in *. by exists r, f''.
    + exists None, f'. split; [done|]. split; [by rewrite Hby|]. split; [done|]. intros HR. destruct (rl_write HR bs f) as [H|[_ H]]; [lia| |]; rewrite E in H; cbn in H; [lia|done].
  - rewrite (proj2 (Z.ltb_ge r 0)) by lia. assert (zlen (take (Z.to_nat r) bs) = r) as Htk by (rewrite length_take; lia).
    assert (length (fbytes f') = length (fbytes f)) as Hlen by (rewrite Hby; apply write_at_length; rewrite ?Htk; lia). destruct (Z.eqb_spec r 0) as [->|Hr0].
    + exists None, f'. split; [done|]. split; [done|]. split; [done|]. intros HR. destruct (rl_write HR bs f) as [H|[H _]]; [lia| |]; rewrite E in H; cbn in H; lia.
    + destruct (IH cdata (tot + r) f' base) as (r' & f'' & -> & H1 & H2 & H3); [done|lia|lia|done|lia|lia|]. exists r', f''. split; [done|]. split; [congruence|]. split; [|done].
      intros Er. rewrite (H2 Er), Hby, Hp, Z.add_assoc. replace (drop (Z.to_nat (tot + r)) cdata) with (drop (Z.to_nat r) bs) by (unfold bs; rewrite drop_drop; f_equal; lia). apply write_at_parts; lia.
Qed.

Definition header_blocks (HOST : bool) : Z := if HOST then 1 else 0.

(** Block [b] of the disk in the file, after [h] blocks of header. *)
Definition blk (h : Z) (f : F) (b : Z) : list Z := take 512 (drop (Z.to_nat ((h + b) * 512)) (fbytes f)).

Lemma blk_length h f b : 0 <= h -> 0 <= b -> (h + b + 1) * 512 <= zlen (fbytes f) -> length (blk h f b) = 512%nat.
Proof. intros. unfold blk. rewrite length_take, length_drop. lia. Qed.

Lemma blk_write h f f' b data c : 0 <= h -> 0 <= b -> 0 <= c -> (h + b + 1) * 512 <= zlen (fbytes f) -> zlen data = 512 -> fbytes f' = write_at ((h + b) * 512) data (fbytes f) ->
  blk h f' c = if decide (c = b) then data else blk h f c.
Proof.
  intros Hh Hb Hc Hl Hd E. apply list_eq. intros i. unfold blk. rewrite lookup_take, lookup_drop, E, write_at_lookup by lia. case_decide as Hi; [|].
  - destruct (decide (c = b)) as [->|Hne].
    + rewrite decide_True by lia. f_equal. lia.
    + rewrite decide_False by nia. rewrite lookup_take, decide_True, lookup_drop by lia. done.
  - destruct (decide (c = b)); [rewrite lookup_ge_None_2 by lia; done|]. by rewrite lookup_take, decide_False by lia.
Qed.

(** What a function of the program does to the disk: unless it ends the
    program, block [c] is [upd c] afterwards. *)
Record writes (h : Z) (d : disk) (upd : Z -> list Z) (r : option unit) (d' : disk) : Prop := mk_writes {
  wr_fd : fd d' = fd d;
  wr_nblocks : nblocks d' = nblocks d;
  wr_length : length (fbytes (file d')) = length (fbytes (file d));
  wr_blocks : r = Some tt -> forall c, 0 <= c -> blk h (file d') c = upd c;
  wr_bytes : r = Some tt -> Forall SfsDisk.byte (fbytes (file d)) -> Forall SfsDisk.byte (fbytes (file d'));
  wr_reliable : reliable -> r = Some tt;
}.

Context (HOST : bool).
Local Abbreviation h := (header_blocks HOST).

Lemma host_header_range : 0 <= h <= 1.
Proof. unfold header_blocks. destruct HOST; lia. Qed.

Lemma diskwrite_run data b d : fd d = true -> is_block data -> 0 <= b -> (h + b + 1) * 512 <= zlen (fbytes (file d)) -> zlen (fbytes (file d)) < u32_mod ->
  exists r d', diskwrite HOST data b d = Ok (r, d') /\ writes h d (fun c => if decide (c = b) then data else blk h (file d) c) r d'.
Proof.
  intros Hfd [Hdl Hdb] Hb Hl Hmax. pose proof host_header_range as Hh. unfold diskwrite. rewrite Hfd. cbn [c_assert]. rewrite Ok_bind. set (b' := if HOST then u32 (b + 1) else b).
  assert (b' = h + b) as -> by (unfold b', header_blocks in *; destruct HOST; rewrite ?u32_id; cbv iota in *; lia). unfold BLOCKSIZE. rewrite u32_id by lia.
  destruct (f_lseek ((h + b) * 512) (file d)) as [ok f] eqn:E. assert (0 <= (h + b) * 512 <= zlen (fbytes (file d))) as Ho by lia. destruct (df_lseek _ _ _ _ Ho E) as [Hby Hpos]. destruct ok; cbn [negb].
  - destruct (write_loop_run (512 + interrupts f) data 0 f ((h + b) * 512)) as (r & f' & -> & H1 & H2 & H3); [done|lia|lia|lia|rewrite Hpos by done; lia|rewrite Hby; lia|].
    rewrite Ok_bind. eexists _, _. split; [done|]. constructor; cbn; [done|done|by rewrite H1, Hby| |intros Er Hf; rewrite (H2 Er), Hby; by apply write_at_byte|done]. intros Er c Hc.
    rewrite (blk_write h (file d) f' b data c); [done|lia|done|done|done|done|]. rewrite (H2 Er), Z.add_0_r, drop_0, Hby. done.
  - eexists _, _. split; [done|]. constructor; cbn; [done|done|by rewrite Hby|done|done|]. intros HR. pose proof (rl_lseek HR ((h + b) * 512) (file d)) as H. by rewrite E in H.
Qed.

(** One function after another. *)
Lemma writes_next d upd r d1 g upd' r2 d2 : writes h d upd r d1 -> g d1 = Ok (r2, d2) -> writes h d1 upd' r2 d2 ->
  exists r' d', next (r, d1) g = Ok (r', d') /\ writes h d upd' r' d' /\ (r' = Some tt -> r = Some tt).
Proof.
  intros [] E []. destruct r as [[]|]; cbn [next].
  - exists r2, d2. split; [done|]. split; [|done]. constructor; try done; [congruence..|auto].
  - exists None, d1. split; [done|]. split; [|done]. by constructor.
Qed.

(** ** The free map *)

Definition NBITS : Z := 131072.

Lemma doallocbit_run i buf : wf (mk_bitmap NBITS buf) -> 0 <= i < NBITS -> bit (mk_bitmap NBITS buf) i = false ->
  exists buf', doallocbit i buf = Ok buf' /\ wf (mk_bitmap NBITS buf') /\ forall j, 0 <= j -> bit (mk_bitmap NBITS buf') j = (j =? i) || bit (mk_bitmap NBITS buf) j.
Proof.
  intros Hwf Hi Hc. destruct (bitmap_mark_unmark_isset _ i Hwf Hi) as (_ & Hm & _). rewrite Hc in Hm. destruct Hm as (m & E & Hwm & Hn & Hb).
  destruct (translate_rd _ i Hwf Hi) as (Et & w & Hw & Hw8 & _ & Hl). unfold bitmap_mark in E. cbn [nbits v] in *. rewrite (proj2 (Z.ltb_lt i NBITS)) in E by lia.
  cbn [c_assert] in E. rewrite Ok_bind, Et, Hw, Ok_bind, Hl, Hc in E. cbn [negb c_assert] in E. rewrite Ok_bind in E.
  unfold doallocbit, CHAR_BIT. injection Et as Et. change (Z.shiftl 1 (i mod 8) mod 256) with (Bitmap.byte (Z.shiftl 1 (i mod BITS_PER_WORD))). rewrite Et, Hw, Ok_bind, Hl, Hc. cbn [negb c_assert]. rewrite Ok_bind.
  rewrite byte_small in E by (apply lor_mask_byte; lia). destruct (wr buf (i / 8) _) as [buf'| | |]; try discriminate E. injection E as <-. cbn [nbits set_v] in *.
  exists buf'. split; [done|]. split; [done|]. intros j Hj. change (mk_bitmap NBITS buf') with (set_v (mk_bitmap NBITS buf) buf'). rewrite Hb by done. by destruct (j =? i).
Qed.

Lemma allocbits_run n : forall i buf, wf (mk_bitmap NBITS buf) -> 0 <= i -> i + Z.of_nat n <= NBITS -> (forall j, i <= j < i + Z.of_nat n -> bit (mk_bitmap NBITS buf) j = false) ->
  exists buf', allocbits n i buf = Ok buf' /\ wf (mk_bitmap NBITS buf') /\
    forall j, 0 <= j -> bit (mk_bitmap NBITS buf') j = (i <=? j) && (j <? i + Z.of_nat n) || bit (mk_bitmap NBITS buf) j.
Proof.
  induction n as [|n IH]; intros i buf Hwf Hi Hn Hc; cbn [allocbits].
  { exists buf. split; [done|]. split; [done|]. intros j Hj. destruct (Z.leb_spec i j), (Z.ltb_spec j (i + Z.of_nat 0)); try done; lia. }
  destruct (doallocbit_run i buf Hwf ltac:(lia) (Hc i ltac:(lia))) as (b1 & -> & Hw1 & H1). rewrite Ok_bind.
  destruct (IH (i + 1) b1 Hw1) as (buf' & -> & Hw' & H'); [lia|lia| |].
  { intros j Hj. rewrite H1, (proj2 (Z.eqb_neq j i)) by lia. apply Hc. lia. }
  exists buf'. split; [done|]. split; [done|]. intros j Hj. rewrite H', H1 by done. rewrite orb_assoc. f_equal.
  destruct (Z.leb_spec (i + 1) j), (Z.ltb_spec j (i + 1 + Z.of_nat n)), (Z.eqb_spec j i), (Z.leb_spec i j), (Z.ltb_spec j (i + Z.of_nat (S n))); try done; lia.
Qed.

(** The map of a new volume of [n] blocks: those of the superblock, the root
    directory and the map are in use, and the bits past the end are set. *)
Definition new_bit (n j : Z) : bool := (j <? 2 + SFS_BITBLOCKS n) || (n <=? j) && (j <? SFS_BITMAPSIZE n).

Lemma bitblocks_room n : 3 <= n <= NBITS -> SFS_BITMAPSIZE n = 4096 * SFS_BITBLOCKS n /\ 1 <= SFS_BITBLOCKS n <= 32 /\ 2 + SFS_BITBLOCKS n <= n <= SFS_BITMAPSIZE n.
Proof.
  intros Hn. unfold NBITS in Hn. destruct (bitmapsize n) as [E _]; [lia|]. split; [done|]. assert (SFS_BITMAPSIZE n = (n + 4095) / 4096 * 4096) as E'.
  { unfold SFS_BITMAPSIZE, SFS_ROUNDUP, SFS_BLOCKBITS, SFS_BLOCKSIZE. change (512 * 8) with 4096. unfold u32, u32_mod. Z.to_euclidean_division_equations. lia. }
  assert (SFS_BITBLOCKS n = (n + 4095) / 4096) as E2 by lia. Z.to_euclidean_division_equations. lia.
Qed.

Lemma allocate_all n : 3 <= n <= NBITS -> exists buf,
  (b ← doallocbit SFS_SB_LOCATION (replicate (Z.to_nat (MAXBITBLOCKS * SFS_BLOCKSIZE)) 0); b ← doallocbit SFS_ROOT_LOCATION b; b ← allocbits (Z.to_nat (SFS_BITBLOCKS n)) SFS_MAP_LOCATION b;
   allocbits (Z.to_nat (SFS_BITMAPSIZE n - n)) n b) = Ok buf /\ wf (mk_bitmap NBITS buf) /\ forall j, 0 <= j -> bit (mk_bitmap NBITS buf) j = new_bit n j.
Proof.
  intros Hn. destruct (bitblocks_room n Hn) as (E & Hb & Hr). set (b0 := replicate _ 0).
  assert (wf (mk_bitmap NBITS b0)) as Hw0.
  { split; [unfold NBITS; cbn; lia|]. cbn [v nbits]. unfold b0. rewrite length_replicate. split; [rewrite Z2Nat.id by (unfold MAXBITBLOCKS, SFS_BLOCKSIZE; lia); reflexivity|]. split; [apply list.Forall_forall; intros x [-> _]%elem_of_replicate; lia|]. unfold NBITS, MAXBITBLOCKS, SFS_BLOCKSIZE. lia. }
  assert (forall j, bit (mk_bitmap NBITS b0) j = false) as H0.
  { intros j. unfold bit, b0. cbn [v]. destruct (replicate _ _ !! _) as [w|] eqn:Ew; [|done]. apply lookup_replicate in Ew as [-> _]. apply Z.testbit_0_l. }
  destruct (doallocbit_run SFS_SB_LOCATION b0 Hw0) as (b1 & -> & Hw1 & H1); [unfold NBITS, SFS_SB_LOCATION; lia|done|]. rewrite Ok_bind.
  destruct (doallocbit_run SFS_ROOT_LOCATION b1 Hw1) as (b2 & -> & Hw2 & H2); [unfold NBITS, SFS_ROOT_LOCATION; lia|by rewrite H1, H0|]. rewrite Ok_bind.
  unfold SFS_SB_LOCATION, SFS_ROOT_LOCATION, SFS_MAP_LOCATION in *.
  destruct (allocbits_run (Z.to_nat (SFS_BITBLOCKS n)) 2 b2 Hw2) as (b3 & -> & Hw3 & H3); [lia|unfold NBITS in *; lia| |].
  { intros j Hj. rewrite H2, H1, H0, !(proj2 (Z.eqb_neq j _)) by lia. done. }
  rewrite Ok_bind. destruct (allocbits_run (Z.to_nat (SFS_BITMAPSIZE n - n)) n b3 Hw3) as (b4 & -> & Hw4 & H4); [lia|unfold NBITS in *; lia| |].
  { intros j Hj. rewrite H3, H2, H1, H0, !(proj2 (Z.eqb_neq j _)) by lia. destruct (Z.ltb_spec j (2 + Z.of_nat (Z.to_nat (SFS_BITBLOCKS n)))); [lia|]. by rewrite andb_false_r. }
  exists b4. split; [done|]. split; [done|]. intros j Hj. rewrite H4, H3, H2, H1, H0 by done. unfold new_bit.
  destruct (Z.leb_spec n j), (Z.ltb_spec j (n + Z.of_nat (Z.to_nat (SFS_BITMAPSIZE n - n)))), (Z.leb_spec 2 j), (Z.ltb_spec j (2 + Z.of_nat (Z.to_nat (SFS_BITBLOCKS n)))), (Z.eqb_spec j 1), (Z.eqb_spec j 0),
    (Z.ltb_spec j (2 + SFS_BITBLOCKS n)), (Z.ltb_spec j (SFS_BITMAPSIZE n)); try done; lia.
Qed.

(** ** The program *)

Lemma writebits_run n : forall i buf d, fd d = true -> Forall SfsDisk.byte buf -> 0 <= i -> (i + Z.of_nat n) * 512 <= zlen buf -> (h + 2 + i + Z.of_nat n) * 512 <= zlen (fbytes (file d)) -> zlen (fbytes (file d)) < u32_mod ->
  exists r d', writebits HOST n i buf d = Ok (r, d') /\
    writes h d (fun c => if decide (2 + i <= c < 2 + i + Z.of_nat n) then take 512 (drop (Z.to_nat ((c - 2) * 512)) buf) else blk h (file d) c) r d'.
Proof.
  induction n as [|n IH]; intros i buf d Hfd Hby Hi Hb Hl Hm; cbn [writebits].
  { exists (Some tt), d. split; [done|]. constructor; try done. intros _ c Hc. by rewrite decide_False by lia. }
  unfold SFS_BLOCKSIZE, SFS_MAP_LOCATION. destruct (diskwrite_run (take 512 (drop (Z.to_nat (i * 512)) buf)) (2 + i) d) as (r & d1 & -> & H1); [done|split; [rewrite length_take, length_drop; lia|by apply Forall_take, Forall_drop]|lia|lia|done|].
  rewrite Ok_bind. pose proof H1 as [Hf1 _ Hl1 Hbl1 _ _]. destruct (IH (i + 1) buf d1) as (r2 & d2 & E2 & H2); [by rewrite Hf1|done|lia|lia|rewrite Hl1; lia|by rewrite Hl1|].
  destruct (writes_next _ _ _ _ _ _ _ _ H1 E2 H2) as (r' & d' & E & H' & Er1).
  exists r', d'. split; [exact E|]. destruct H' as [? ? ? Hbl ? ?]. constructor; try done. intros Er c Hc. rewrite (Hbl Er c Hc), (Hbl1 (Er1 Er) c Hc).
  destruct (decide (2 + (i + 1) <= c < 2 + (i + 1) + Z.of_nat n)); [by rewrite decide_True by lia|].
  destruct (decide (c = 2 + i)) as [->|]; [rewrite decide_True by lia; do 2 f_equal; lia|by rewrite decide_False by lia].
Qed.

Lemma writebitmap_run n d : fd d = true -> 3 <= n <= NBITS -> (h + n) * 512 <= zlen (fbytes (file d)) -> zlen (fbytes (file d)) < u32_mod ->
  exists buf r d', writebitmap HOST n d = Ok (r, d') /\ wf (mk_bitmap NBITS buf) /\ (forall j, 0 <= j -> bit (mk_bitmap NBITS buf) j = new_bit n j) /\
    writes h d (fun c => if decide (2 <= c < 2 + SFS_BITBLOCKS n) then take 512 (drop (Z.to_nat ((c - 2) * 512)) buf) else blk h (file d) c) r d'.
Proof.
  intros Hfd Hn Hl Hm. destruct (bitblocks_room n Hn) as (E & Hb & Hr). destruct (allocate_all n Hn) as (buf & Ea & Hw & Hbit). exists buf. unfold writebitmap, MAXBITBLOCKS.
  rewrite Z.gtb_ltb, (proj2 (Z.ltb_ge 32 _)) by lia. assert (zlen buf = 16384) as Hbl by (destruct Hw as (_ & Hz & _); cbn [v nbits] in Hz; rewrite Hz; reflexivity).
  destruct (writebits_run (Z.to_nat (SFS_BITBLOCKS n)) 0 buf d Hfd) as (r & d' & E' & H'); [apply Hw|lia|lia|lia|done|]. exists r, d'. split; [|split; [done|split; [done|]]].
  - rewrite <- E'. revert Ea. unfold MAXBITBLOCKS. destruct (doallocbit SFS_SB_LOCATION _) as [b1| | |]; cbn; try done. destruct (doallocbit SFS_ROOT_LOCATION b1) as [b2| | |]; cbn; try done.
    destruct (allocbits _ SFS_MAP_LOCATION b2) as [b3| | |]; cbn; try done. intros ->. done.
  - destruct H'. constructor; try done. intros Er c Hc. rewrite wr_blocks0 by done. rewrite Z2Nat.id, !Z.add_0_r by lia. done.
Qed.

(** The name of a volume. *)
Definition legal_name (l : list Z) : Prop := str l /\ zlen l < 32 /\ (58 ∉ l) /\ (47 ∉ l).

Definition padded (l : list Z) : list Z := l ++ replicate (32 - length l) 0.

Lemma super_is_block n l : str l -> zlen l < 32 -> is_block (super_block (mk_super SFS_MAGIC n (padded l) (replicate 118 0))).
Proof.
  intros Hs Hl. unfold super_block, padded. cbn [sp_magic sp_blocks sp_volname sp_reserved]. split.
  - rewrite !length_app, length_replicate, length_bytes_of, length_replicate. cbn. lia.
  - assert (forall w, Forall SfsDisk.byte (word_bytes w)) as Hw by (intros w; pose proof (bytes_of_byte [w]) as H; unfold bytes_of in H; cbn [mbind list_bind] in H; by rewrite app_nil_r in H).
    apply Forall_app_2; [done|]. apply Forall_app_2; [done|]. apply Forall_app_2; [|apply bytes_of_byte]. apply Forall_app_2; apply list.Forall_forall; intros c Hc.
    + pose proof (proj1 (list.Forall_forall _ _) Hs c Hc) as Hc'. cbn in Hc'. unfold SfsDisk.byte. lia.
    + apply elem_of_replicate in Hc as [-> _]. unfold SfsDisk.byte. lia.
Qed.

Lemma writesuper_run l vol n d : points_to vol l -> legal_name l -> fd d = true -> (h + 1) * 512 <= zlen (fbytes (file d)) -> zlen (fbytes (file d)) < u32_mod ->
  exists r d', writesuper HOST vol n d = Ok (r, d') /\
    writes h d (fun c => if decide (c = 0) then super_block (mk_super SFS_MAGIC n (padded l) (replicate 118 0)) else blk h (file d) c) r d'.
Proof.
  intros Hp (Hs & Hl & _) Hfd Hlen Hm. unfold writesuper, SFS_VOLNAME_SIZE. rewrite (strlen_run vol l Hp), Ok_bind by (unfold u32_mod; lia). rewrite Z.geb_leb, (proj2 (Z.leb_gt 32 _)) by lia.
  rewrite (strcpy_run vol l _ Hp), Ok_bind by (rewrite length_replicate; lia). rewrite drop_replicate. replace (l ++ 0 :: replicate (32 - S (length l)) 0) with (padded l).
  2: { unfold padded. f_equal. replace (32 - length l)%nat with (S (32 - S (length l))) by lia. done. }
  apply diskwrite_run; [done| |unfold SFS_SB_LOCATION; lia|unfold SFS_SB_LOCATION; lia|done]. apply super_is_block; [done|lia].
Qed.

Lemma volume_name_run l vol : legal_name l -> points_to vol l \/ points_to vol (l ++ [58]) -> exists vol', volume_name vol = Ok (Some vol') /\ points_to vol' l.
Proof.
  intros (Hs & Hl & Hc & Hsl) Hv. assert (forall c, c ∉ l -> 0 < c < 128 -> list_find (fun x => s8 x = c) l = None) as Hnone.
  { intros c Hc' Hr. apply list_find_None, list.Forall_forall. intros x Hx Ex. destruct Hc'. assert (0 < x < 256) by (by apply (proj1 (list.Forall_forall _ _) Hs)).
    replace c with x; [done|]. apply s8_inj; [lia|lia|]. rewrite Ex. unfold s8. by rewrite (proj2 (Z.ltb_lt c 128)) by lia. }
  assert (forall v', points_to v' l -> strchr v' 47 = Ok None) as H47 by (intros v' Hv'; rewrite (strchr_run v' l 47) by (done || lia); by rewrite Hnone by (done || lia)).
  unfold volume_name. destruct Hv as [Hv|Hv].
  - rewrite (strchr_run vol l 58) by (done || lia). rewrite Hnone by (done || lia). cbn. rewrite (H47 vol Hv). cbn. by exists vol.
  - rewrite (strchr_run vol (l ++ [58]) 58) by (done || lia). rewrite list_find_app_r by (apply Hnone; (done || lia)). cbn. rewrite decide_True by done. cbn. destruct Hv as [Hv [rest ->]]. rewrite Nat2Z.id.
    rewrite <- app_assoc, drop_app_length. rewrite (strlen_run _ [58]), Ok_bind by (unfold u32_mod; cbn; lia || (split; [by repeat constructor|by exists rest])). cbn.
    change (Z.of_nat 1 =? 1) with true. cbn [negb]. rewrite Ok_bind, insert_app_r_alt, Nat.sub_diag by lia. change (l ++ _) with (l ++ 0 :: 0 :: rest). assert (points_to (l ++ 0 :: 0 :: rest) l) as Hp by (split; [done|by eexists]). rewrite (H47 _ Hp). cbn. by eexists.
Qed.

Lemma strcmp_returns a : forall b, 0 ∈ a -> 0 ∈ b -> exists r, strcmp a b = Ok r.
Proof.
  induction a as [|x a IH]; intros [|y b] Ha Hb; [by apply elem_of_nil in Ha..|by apply elem_of_nil in Hb|]. cbn [strcmp].
  destruct (Z.eqb_spec x 0) as [->|Hx]; [by eexists|]. destruct (Z.eqb_spec x y) as [<-|Hy]; cbn; [|by eexists].
  apply elem_of_cons in Ha as [?|Ha]; [congruence|]. apply elem_of_cons in Hb as [?|Hb]; [congruence|]. by apply IH.
Qed.

Definition readable_header : Prop := HOST = true -> forall f, 0 <= (f_read 63 f).1.1.
Definition has_header (f : F) : Prop := HOST = true -> take 21 (fbytes f) = HOSTSTRING.

Lemma opendisk_run path f n : readable_header -> 3 <= n <= NBITS -> zlen (fbytes f) = 512 * (h + n) ->
  exists r d, opendisk HOST path (mk_disk false 0 f) = Ok (r, d) /\ fbytes (file d) = fbytes f /\ (r = Some tt -> fd d = true /\ nblocks d = n) /\ (reliable -> has_header f -> r = Some tt).
Proof.
  intros Hrd Hn Hl. unfold NBITS in Hn. unfold opendisk. cbn [c_assert negb fd file nblocks]. rewrite Ok_bind. destruct (f_open path f) as [ok f1] eqn:E1. destruct (df_open _ _ _ _ E1) as [Hb1 Hp1].
  destruct ok; cbn [negb]. 2: { eexists _, _. split; [done|]. split; [done|]. split; [done|]. intros HR. pose proof (rl_open HR path f) as H. by rewrite E1 in H. }
  destruct (f_fstat f1) as [sz|] eqn:E2. 2: { eexists _, _. split; [done|]. split; [done|]. split; [done|]. intros HR. destruct (rl_fstat HR f1) as [? H]. congruence. }
  apply df_fstat in E2. rewrite Hb1, Hl in E2. subst sz. unfold BLOCKSIZE. rewrite (Z.mul_comm 512), Z.div_mul by lia. unfold header_blocks, readable_header, has_header in *. destruct HOST.
  2: { eexists _, _. split; [done|]. split; [done|]. split; [|done]. intros _. cbn. rewrite u32_id by (unfold u32_mod; lia). split; [done|lia]. }
  rewrite (u32_id (1 + n)), u32_id by (unfold u32_mod; lia). destruct (f_read 63 f1) as [[len buf] f2] eqn:E3. pose proof (Hrd eq_refl f1) as H0. rewrite E3 in H0. cbn in H0.
  destruct (df_read 63 f1 len buf f2 ltac:(lia) E3) as [Hb2 [?|(Hlen & Hbl & Hbuf)]]; [lia|]. rewrite (proj2 (Z.ltb_ge len 0)) by lia. set (b2 := <[_ := 0]> _).
  assert (b2 !! 21%nat = Some 0) as H21 by (unfold b2; apply list_lookup_insert_eq; rewrite length_insert, length_app, length_replicate; cbn [length HOSTSTRING]; lia).
  destruct (strcmp_returns b2 (HOSTSTRING ++ [0])) as [c Ec].
  { apply list_elem_of_lookup. by exists 21%nat. }
  { apply elem_of_app. right. by left. }
  rewrite Ec, Ok_bind. destruct (Z.eqb_spec c 0) as [->|Hc]; cbn [negb]; eexists _, _; (split; [done|]); (split; [by cbn; rewrite Hb2|]).
  { split; [|done]. intros _. cbn. split; [done|lia]. }
  split; [done|].
  intros HR Hh. destruct Hc. specialize (Hh eq_refl). assert (len = 63) as -> by (pose proof (rl_read HR 63 f1 ltac:(lia) Hp1) as H; rewrite E3, Hb1 in H; cbn [fst snd] in H; lia).
  rewrite Hp1, drop_0, Hb1 in Hbuf. assert (points_to b2 HOSTSTRING) as Hpt.
  { split; [repeat (constructor; [lia|]); constructor|]. exists (drop 22 b2). replace HOSTSTRING with (take 21 b2); [symmetry; by apply take_drop_middle|]. rewrite <- Hh. unfold b2. rewrite !take_insert_ge, take_app_le, Hbuf, take_take by (cbn; rewrite ?Hbuf, ?length_take; lia). done. }
  assert (points_to (HOSTSTRING ++ [0]) HOSTSTRING) as Hpt' by (split; [apply Hpt|by exists []]). rewrite (strcmp_run _ _ _ _ Hpt Hpt') in Ec. injection Ec as <-. reflexivity.
Qed.

Lemma root_wf : wf_inode root_inode.
Proof. constructor; try reflexivity; try (split; cbn; unfold u32_mod, SFS_TYPE_DIR; lia); try (cbn; unfold SFS_TYPE_DIR; lia); apply list.Forall_forall; intros x [-> _]%elem_of_replicate; split; unfold u32_mod; lia. Qed.

(** The blocks of a new volume of [n] blocks with the name [l]. *)
Record new_volume (n : Z) (l buf : list Z) (block : Z -> list Z) : Prop := mk_new_volume {
  nv_super : block 0 = super_block (mk_super SFS_MAGIC n (padded l) (replicate 118 0));
  nv_root : block 1 = inode_block root_inode;
  nv_map c : 2 <= c < 2 + SFS_BITBLOCKS n -> block c = take 512 (drop (Z.to_nat ((c - 2) * 512)) buf);
  nv_wf : wf (mk_bitmap NBITS buf);
  nv_bits j : 0 <= j -> bit (mk_bitmap NBITS buf) j = new_bit n j;
}.

Lemma main_run a0 path vol l f n : readable_header -> legal_name l -> points_to vol l \/ points_to vol (l ++ [58]) -> 3 <= n <= NBITS -> zlen (fbytes f) = 512 * (h + n) ->
  exists code f', main HOST [a0; path; vol] f = Ok (code, f') /\ (code = 0 -> exists buf, new_volume n l buf (blk h f')) /\
    (code = 0 -> Forall SfsDisk.byte (fbytes f) -> forall b, 0 <= b < n -> is_block (blk h f' b)) /\ (reliable -> has_header f -> code = 0).
Proof.
  intros Hrd Hl Hv Hn Hlen. pose proof host_header_range as Hh. cbn [main]. destruct (volume_name_run l vol Hl Hv) as (vol' & -> & Hp). rewrite Ok_bind.
  destruct (opendisk_run path f n Hrd Hn Hlen) as (r0 & d0 & -> & Hb0 & Hs0 & Hr0). rewrite Ok_bind. destruct r0 as [[]|]; cbn [next]; rewrite ?Ok_bind.
  2: { exists 1, (file d0). split; [done|]. split; [done|]. split; [done|]. intros HR Hhd. by specialize (Hr0 HR Hhd). }
  destruct (Hs0 eq_refl) as [Hfd Hnb]. unfold diskblocksize, diskblocks. rewrite Hfd. cbn [c_assert]. rewrite !Ok_bind. change (BLOCKSIZE =? SFS_BLOCKSIZE) with true. cbn [negb]. rewrite Hnb. unfold NBITS in Hn.
  assert (zlen (fbytes (file d0)) = 512 * (h + n)) as Hl0 by (by rewrite Hb0). assert (forall d', length (fbytes (file d')) = length (fbytes (file d0)) -> zlen (fbytes (file d')) < u32_mod) as Hmax by (intros d' ->; unfold u32_mod; lia).
  destruct (writesuper_run l vol' n d0 Hp Hl Hfd) as (r1 & d1 & -> & H1); [lia|by apply Hmax|]. rewrite Ok_bind. pose proof H1 as [F1 _ L1 B1 Y1 R1].
  destruct (diskwrite_run (inode_block root_inode) SFS_ROOT_LOCATION d1) as (r2' & d2' & E2 & H2'); [by rewrite F1|apply inode_is_block, root_wf|done|rewrite L1; unfold SFS_ROOT_LOCATION; lia|by apply Hmax|].
  destruct (writes_next _ _ _ _ (writerootdir HOST) _ _ _ H1 E2 H2') as (r2 & d2 & -> & H2 & S2). rewrite Ok_bind. pose proof H2 as [F2 _ L2 B2 Y2 R2].
  destruct (writebitmap_run n d2) as (buf & r3' & d3' & E3 & Hwf & Hbit & H3'); [by rewrite F2|unfold NBITS; lia|rewrite L2; lia|by apply Hmax|].
  destruct (writes_next _ _ _ _ (writebitmap HOST n) _ _ _ H2 E3 H3') as (r3 & d3 & -> & H3 & S3). rewrite Ok_bind. destruct H3 as [F3 _ L3 B3 Y3 R3].
  destruct r3 as [[]|]; cbn [next]. 2: { rewrite Ok_bind. exists 1, (file d3). split; [done|]. split; [done|]. split; [done|]. intros HR _. by specialize (R3 HR). }
  unfold closedisk. rewrite F3, Hfd. cbn [c_assert]. rewrite Ok_bind. destruct (f_close (file d3)) as [ok f4] eqn:E4. pose proof (df_close _ _ _ E4) as Hb4. exists (if ok then 0 else 1), f4.
  split; [by destruct ok|]. split; [|split].
  - intros _. exists buf. specialize (S3 eq_refl). specialize (S2 S3). assert (forall c, blk h f4 c = blk h (file d3) c) as Ebk by (intros c; unfold blk; by rewrite Hb4).
    destruct (bitblocks_room n) as (_ & Hbb & _); [unfold NBITS; lia|]. constructor; try done; rewrite ?Ebk.
    + rewrite (B3 eq_refl), decide_False by lia. by rewrite (B2 S3), (B1 S2) by lia.
    + rewrite (B3 eq_refl), decide_False by lia. by rewrite (B2 S3) by lia.
    + intros c Hc. by rewrite Ebk, (B3 eq_refl), decide_True by lia.
  - intros _ Hby b Hb. split; [rewrite blk_length; [done|lia|lia|rewrite Hb4, L3; lia]|]. apply Forall_take, Forall_drop. rewrite Hb4. apply Y3; [done|]. by rewrite Hb0.
  - intros HR _. pose proof (rl_close HR (file d3)) as H. rewrite E4 in H. cbn in H. by subst ok.
Qed.

End Writes.

(** ** The kernel mounts it *)

Section Mount.
Context {D : Type} {DK : Disk D} {DKL : DiskLaws D}.

Definition new_inodes : gmap Z sfs_inode := {[1 := root_inode]}.

Lemma root_blocks (d : D) : blocks d root_inode = [].
Proof. reflexivity. Qed.

Lemma super_round_trip n l : 0 <= n < u32_mod -> Forall byte l -> zlen l < 32 -> let sp := mk_super SFS_MAGIC n (padded l) (replicate 118 0) in block_super (super_block sp) = sp.
Proof.
  intros Hn Hl Hz sp. unfold block_super, super_block, sp. cbn [sp_magic sp_blocks sp_volname sp_reserved].
  assert (length (padded l) = 32%nat) as Hp by (unfold padded; rewrite length_app, length_replicate; lia).
  replace (word_bytes SFS_MAGIC ++ word_bytes n ++ padded l ++ bytes_of (replicate 118 0)) with (bytes_of [SFS_MAGIC; n] ++ padded l ++ bytes_of (replicate 118 0)) by (unfold bytes_of; cbn [mbind list_bind]; by rewrite app_nil_r, <- app_assoc).
  assert (length (bytes_of [SFS_MAGIC; n]) = 8%nat) as H8 by reflexivity. rewrite take_app_length', drop_app_length', take_app_length' by done.
  rewrite words_bytes by (constructor; [unfold word32, SFS_MAGIC, u32_mod; lia|constructor; [done|constructor]]). rewrite app_assoc, drop_app_length' by (rewrite length_app; lia).
  rewrite words_bytes by (apply list.Forall_forall; intros x [-> _]%elem_of_replicate; split; unfold u32_mod; lia). done.
Qed.

(** The map of the volume. *)
Definition volume_map (n : Z) (buf : list Z) : bitmap := mk_bitmap (SFS_BITMAPSIZE n) (take (Z.to_nat (512 * SFS_BITBLOCKS n)) buf).

Lemma volume_map_ok n buf : 3 <= n <= NBITS -> wf (mk_bitmap NBITS buf) -> (forall j, 0 <= j -> bit (mk_bitmap NBITS buf) j = new_bit n j) ->
  wf (volume_map n buf) /\ forall j, 0 <= j < SFS_BITMAPSIZE n -> bit (volume_map n buf) j = new_bit n j.
Proof.
  intros Hn (_ & Hl & Hby & _) Hb. destruct (bitblocks_room n Hn) as (E & Hbb & Hr). cbn [v nbits] in *. change ((NBITS + 7) / 8) with 16384 in Hl.
  assert (zlen (take (Z.to_nat (512 * SFS_BITBLOCKS n)) buf) = 512 * SFS_BITBLOCKS n) as Ht by (rewrite length_take; lia). split.
  - unfold wf, volume_map. cbn [v nbits]. rewrite Ht, E. split; [lia|]. split; [apply Z.div_unique with 7; lia|]. split; [by apply Forall_take|]. lia.
  - intros j Hj. rewrite <- Hb by lia. unfold bit, volume_map. cbn [v]. rewrite lookup_take, decide_True; [done|]. rewrite E in Hj. Z.to_euclidean_division_equations; lia.
Qed.

Definition mounted (d : D) (n : Z) (buf : list Z) : SfsFile.sfs (D := D) := mk_sfs d n 0 (volume_map n buf) 0 [] ∅.

Lemma mounted_ok d n l buf : 3 <= n <= NBITS -> legal_name l -> d_blocks d = n -> new_volume n l buf (sector d) ->
  files (mounted d n buf) new_inodes /\ on_disk (mk_super SFS_MAGIC n (padded l) (replicate 118 0)) (mounted d n buf) new_inodes.
Proof.
  intros Hn (Hs & Hl & _) Hd [Hsup Hroot Hmap Hwf Hbits]. destruct (bitblocks_room n Hn) as (E & Hbb & Hr). destruct (volume_map_ok n buf Hn Hwf Hbits) as [Hwm Hbm].
  assert (forall ino i, new_inodes !! ino = Some i -> ino = 1 /\ i = root_inode) as HM by (intros ino i H; unfold new_inodes in H; apply lookup_singleton_Some in H as [<- <-]; done). unfold NBITS in Hn.
  assert (forall j, j < 2 + SFS_BITBLOCKS n -> 0 <= j -> bit (volume_map n buf) j = true) as Hlow.
  { intros j Hj Hj0. rewrite Hbm by lia. unfold new_bit. by rewrite (proj2 (Z.ltb_lt j _)) by lia. }
  split.
  - constructor; cbn [sfs_vnodes svs mounted].
    + constructor; cbn [freemap sp_nblocks dev mounted]; [done|cbn; lia| |apply Hlow; lia|lia|lia].
      intros b Hb. change (n <= b < SFS_BITMAPSIZE n) in Hb. rewrite Hbm by lia. unfold new_bit. rewrite (proj2 (Z.leb_le n b)), (proj2 (Z.ltb_lt b (SFS_BITMAPSIZE n))) by lia. apply orb_true_r.
    + constructor.
    + intros q. rewrite lookup_empty. split; [by intros ?%elem_of_nil|by intros []].
    + intros q v0. by rewrite lookup_empty.
    + intros q q' v0 v1. by rewrite lookup_empty.
    + intros ino i [-> ->]%HM _. cbn [dev mounted]. rewrite Hroot. apply block_inode_id, root_wf.
    + intros ino i [-> ->]%HM. split; [split; [cbn; lia|cbn; apply Hlow; lia]|]. split; [|done]. constructor; [exact root_wf|intros b ?%elem_of_nil; done|constructor].
    + intros ino i ino' i' [-> ->]%HM _. apply not_elem_of_nil.
    + intros ino i ino' i' [-> ->]%HM [-> ->]%HM Hne. done.
    + intros ino i [-> ->]%HM. done.
  - constructor; cbn [dev mounted sp_nblocks superdirty freemap freemapdirty sp_magic sp_blocks sp_volname]; try done.
    + unfold SFS_SB_LOCATION. rewrite Hsup. apply super_round_trip; [unfold u32_mod; lia| |done]. apply list.Forall_forall. intros c Hc. pose proof (proj1 (list.Forall_forall _ _) Hs c Hc) as Hc'. cbn in Hc'. unfold SfsDisk.byte. lia.
    + unfold padded. rewrite insert_app_r_alt by lia. f_equal. apply list_insert_id. apply lookup_replicate_2. lia.
    + unfold SFS_MAP_LOCATION. lia.
    + intros b Hb (ino & i & [-> ->]%HM & [->|?%elem_of_nil]); [unfold SFS_MAP_LOCATION in Hb; lia|done].
    + intros j _ Hj. unfold SFS_MAP_LOCATION. rewrite Hmap by lia. unfold chunk, volume_map. cbn [v]. rewrite skipn_firstn_comm, take_take. f_equal; [lia|]. f_equal. lia.
Qed.

(** With its root directory loaded, the volume is in the invariant of SfsNames.v,
    with no names. *)
Lemma root_loads al (s : SfsFile.sfs (D := D)) : files s new_inodes -> sfs_vnodes s = [] -> svs s = ∅ ->
  exists r g s', sfs_loadvnode SFS_ROOT_LOCATION SFS_TYPE_INVAL al s = Ok (r, g, s') /\ ((r = 0 /\ sane g s' new_inodes ∅) \/ eio D r \/ enomem al r).
Proof using DKL.
  intros HF Hv Hs. unfold sfs_loadvnode, SFS_ROOT_LOCATION. rewrite Hv. cbn [find_vnode]. rewrite Ok_bind. destruct (al_sv al) as [q|] eqn:Eq; [|eexists _, _, _; split; [done|]; right; right; split; [done|]; intros (H & _); rewrite Eq in H; by destruct H].
  assert (new_inodes !! 1 = Some root_inode) as HM by reflexivity. destruct (fi_own _ _ HF _ _ HM) as (Hu & _). destruct (bused_run s 1 (fi_fs _ _ HF) Hu) as (x & -> & Hx). rewrite Ok_bind, (proj2 (Z.eqb_neq x 0)) by done.
  destruct (rblock_run s 1 (fi_fs _ _ HF) Hu) as (r & data & d' & -> & Hd & Hr). rewrite Ok_bind. destruct (read_same s d' (fi_fs _ _ HF) Hd) as [Hfs1 Hu1].
  destruct Hr as [(-> & ->)|Hr]; [|rewrite (eio_nonzero r Hr); eexists _, _, _; split; [done|]; auto]. assert (forall y w, svs s !! y = Some w -> False) as Hno by (intros y w; by rewrite Hs, lookup_empty).
  assert (block_inode (sector (dev s) 1) = root_inode) as Eb by (apply (fi_disk _ _ HF); [done|]; intros y w Hw; by destruct (Hno y w Hw)). rewrite Eb. cbn [Z.eqb negb SFS_TYPE_INVAL]. rewrite Ok_bind.
  change ((sfi_type root_inode =? SFS_TYPE_FILE) || (sfi_type root_inode =? SFS_TYPE_DIR)) with true. cbn [negb].
  destruct (al_lock al) eqn:Ek; cbn [negb]. 2: { eexists _, _, _. split; [done|]. right. right. split; [done|]. intros (_ & H & _). congruence. }
  destruct (al_room al) eqn:Er; cbn [negb]. 2: { eexists _, _, _. split; [done|]. right. right. split; [done|]. intros (_ & _ & H). congruence. }
  eexists _, _, _. split; [done|]. left. split; [done|].
  pose proof (files_same s (set_dev d' s) new_inodes HF Hfs1 eq_refl Hu1) as HF1.
  assert (files (loaded_at q 1 root_inode 0 (set_dev d' s)) new_inodes) as HF2.
  { apply files_load; [done|done|by cbn; rewrite Hs|intros y w Hw; by destruct (Hno y w)|]. right. destruct (Hu1 _ Hu) as [_ ->]. done. }
  constructor; [split; [exact HF2|]|].
  - exists (mk_sv root_inode 1 0 1 0). split; [|split; [done|split; [reflexivity|by intros ? ?; rewrite lookup_empty]]].
    constructor; [apply HF2|apply lookup_insert_eq|apply (fi_own _ _ HF2 1 root_inode HM)|]. constructor; try done. constructor.
  - intros ino i Hne H. unfold new_inodes in H. apply lookup_singleton_Some in H as [<- _]. done.
Qed.

End Mount.

(** C19. The kernel mounts what mksfs makes.  For a disk of 3 to 131072 blocks, in
    the file of which the host's program also finds its header, and a legal name
    with or without a colon at its end, mksfs ends without a failed assertion,
    with status 0 if the system calls succeed.  When the status is 0, the kernel
    mounts a disk with the blocks in the file; it fails only with EIO if the disk
    can fail reads and with ENOMEM if an allocation fails.  The volume has the size of the disk and the name, is in the invariant of the
    file system with nothing but an empty root directory, and has every block
    free but those of the superblock, the root directory and the map. *)
Theorem mksfs_mounts {F : Type} `{DF : DiskFile F} `{!DiskFileLaws F} HOST a0 path vol l (f : F) n :
  readable_header HOST -> legal_name l -> points_to vol l \/ points_to vol (l ++ [58]) -> 3 <= n <= NBITS -> zlen (fbytes f) = 512 * (header_blocks HOST + n) ->
  exists code f', main HOST [a0; path; vol] f = Ok (code, f') /\ (reliable -> has_header HOST f -> code = 0) /\
    (code = 0 -> Forall SfsDisk.byte (fbytes f) -> forall b, 0 <= b < n -> is_block (blk (header_blocks HOST) f' b)) /\
    (code = 0 -> forall (D : Type) (DK : Disk D) (DKL : DiskLaws D) (d : D) al, d_blocks d = n -> (forall b, 0 <= b < n -> sector d b = blk (header_blocks HOST) f' b) ->
      exists r o d', sfs_domount d SFS_BLOCKSIZE al = Ok (r, o, d') /\
        ((o = None /\ (eio D r \/ (r = ENOMEM /\ granted al = false))) \/
         exists sp s, r = 0 /\ o = Some (sp, s) /\ sp_nblocks s = n /\ sp_volname sp = padded l /\ files s new_inodes /\ on_disk sp s new_inodes /\
           (forall b, 0 <= b < n -> bit (freemap s) b = (b <? 2 + SFS_BITBLOCKS n)) /\
           forall al', exists r g s', sfs_loadvnode SFS_ROOT_LOCATION SFS_TYPE_INVAL al' s = Ok (r, g, s') /\ ((r = 0 /\ sane g s' new_inodes ∅) \/ eio D r \/ enomem al' r))).
Proof.
  intros Hrd Hl Hv Hn Hlen. destruct (main_run HOST a0 path vol l f n Hrd Hl Hv Hn Hlen) as (code & f' & E & Hm & Hby & Hr). exists code, f'. split; [done|]. split; [done|]. split; [done|].
  intros Hc D DK DKL d al Hd Hsec. destruct (Hm Hc) as [buf [V0 V1 Vm Vw Vb]]. destruct (bitblocks_room n Hn) as (Eb & Hbb & Hrm).
  assert (new_volume n l buf (sector d)) as HV by (constructor; try done; [by rewrite Hsec by lia..|intros c Hcr; rewrite Hsec by lia; by apply Vm]).
  destruct (mounted_ok d n l buf Hn Hl Hd HV) as [HF Hod]. destruct (volume_map_ok n buf Hn Vw Vb) as [_ Hbit].
  assert (forall q v, svs (mounted d n buf) !! q = Some v -> sv_dirty v = 0) as Hcl by (intros q v0; cbn; by rewrite lookup_empty).
  destruct (mount_run _ _ _ al HF Hod eq_refl Hcl) as (r & o & d' & Em & Hsd & H). exists r, o, d'. split; [exact Em|]. destruct H as [H|[-> ->]]; [by left|right].
  destruct (files_loaded_from _ _ _ d' HF Hod eq_refl Hcl Hsd) as (HF2 & Hod2 & _). eexists _, _. split; [done|]. split; [done|]. split; [done|]. split; [done|]. split; [exact HF2|]. split; [exact Hod2|]. split.
  - intros b Hb. cbn [freemap mounted]. rewrite Hbit by lia. unfold new_bit. rewrite (proj2 (Z.leb_gt n b)) by lia. by rewrite orb_false_r.
  - intros al'. by apply root_loads.
Qed.

(** ** A disk image of 64 blocks *)

Record img : Type := mk_img { im_bytes : list Z; im_pos : Z }.

#[local] Instance img_file : DiskFile img := {
  fbytes := im_bytes;
  fpos := im_pos;
  interrupts _ := 0%nat;
  f_open _ f := (true, mk_img (im_bytes f) 0);
  f_fstat f := Some (zlen (im_bytes f));
  f_read n f := let bs := take (Z.to_nat n) (drop (Z.to_nat (im_pos f)) (im_bytes f)) in (zlen bs, bs, mk_img (im_bytes f) (im_pos f + zlen bs));
  f_lseek o f := (true, mk_img (im_bytes f) o);
  f_write bs f := (zlen bs, false, mk_img (write_at (im_pos f) bs (im_bytes f)) (im_pos f + zlen bs));
  f_close f := (true, f);
}.

#[local] Instance img_laws : DiskFileLaws img.
Proof.
  constructor; cbn.
  - intros p f ok f' [= <- <-]. done.
  - intros f n [= <-]. done.
  - intros n f r bs f' Hn [= <- <- <-]. split; [done|]. right. split; [rewrite length_take; lia|]. split; [done|]. rewrite Nat2Z.id, length_take, <- take_take. by rewrite firstn_all.
  - intros o f ok f' Ho [= <- <-]. done.
  - intros bs f r again f' H0 H1 [= <- <- <-]. right. cbn. rewrite Nat2Z.id, firstn_all. split; [lia|done].
  - intros f ok f' [= <- <-]. done.
Qed.

Lemma img_reliable : reliable (F := img).
Proof.
  constructor; cbn; try done.
  - intros n f Hn ->. rewrite drop_0, length_take. lia.
  - intros bs f Hb. by left.
Qed.

Definition demo_image : img := mk_img (HOSTSTRING ++ replicate (Z.to_nat 33259) 0) 0.

Lemma demo_image_length : zlen (fbytes demo_image) = 512 * (1 + 64).
Proof. change (fbytes demo_image) with (HOSTSTRING ++ replicate (Z.to_nat 33259) 0). rewrite length_app, length_replicate, Nat2Z.inj_add, Z2Nat.id by lia. reflexivity. Qed.

Lemma demo_image_bytes : Forall SfsDisk.byte (fbytes demo_image).
Proof.
  change (fbytes demo_image) with (HOSTSTRING ++ replicate (Z.to_nat 33259) 0). apply Forall_app_2; [repeat (constructor; [unfold SfsDisk.byte; lia|]); constructor|].
  apply list.Forall_forall. intros x [-> _]%elem_of_replicate. unfold SfsDisk.byte. lia.
Qed.

(** mksfs lhd0 v: *)
Definition demo_args : list (list Z) := [[0]; [0]; [118; 58; 0]].

Definition volume_of (f : img) : good_disk := mk_good (list_to_map ((fun b => (b, blk 1 f b)) <$> seqZ 0 64)).

Lemma volume_sector f b : 0 <= b < 64 -> is_block (blk 1 f b) -> sector (volume_of f) b = blk 1 f b.
Proof.
  intros Hb Hbl. cbn. unfold gd_sector, dk_sector, volume_of. cbn [dk_sectors gd_sectors]. rewrite (elem_of_list_to_map_1 _ b (blk 1 f b)).
  - cbn. by rewrite (proj2 (valid_block_spec _) Hbl).
  - rewrite <- list_fmap_compose. apply NoDup_fmap_2; [by intros x y|apply NoDup_seqZ].
  - apply list_elem_of_fmap. exists b. split; [done|]. apply elem_of_seqZ. lia.
Qed.

Lemma mksfs_mounts_witness : exists f' sp s d', main true demo_args demo_image = Ok (0, f') /\
  sfs_domount (volume_of f') SFS_BLOCKSIZE (mk_mount_alloc true true true true) = Ok (0, Some (sp, s), d') /\ sp_volname sp = padded [118] /\ files s new_inodes.
Proof.
  destruct (mksfs_mounts true [0] [0] [118; 58; 0] [118] demo_image 64) as (code & f' & E & H0 & Hby & H).
  - intros _ f. cbn. lia.
  - split; [by repeat constructor|]. split; [done|]. split; intros H; apply list_elem_of_singleton in H; done.
  - right. split; [by repeat constructor|by exists []].
  - unfold NBITS. lia.
  - exact demo_image_length.
  - assert (code = 0) as -> by (apply H0; [exact img_reliable|intros _; reflexivity]).
    destruct (H eq_refl good_disk _ _ (volume_of f') (mk_mount_alloc true true true true)) as (r & o & d' & Em & Hm).
    + reflexivity.
    + intros b Hb. apply volume_sector; [lia|]. apply Hby; [done|exact demo_image_bytes|done].
    + destruct Hm as [(_ & [Hr%good_disk_reads|[_ Hr]])|(sp & s & -> & -> & _ & Hn & HF & _)]; [destruct Hr|discriminate Hr|].
      exists f', sp, s, d'. split; [exact E|]. split; [exact Em|]. split; [exact Hn|exact HF].
Defined.

End Mksfs.
